(* ===== verification/_CoqProject ===== *)
-Q . S2P
Prelude.v
Mem.v
Pmm.v
Vmm.v
Str.v
Fs.v
Kbd.v
Vga.v
Disk.v
Part.v
Ide.v
FatName.v
Fat.v
FatFile.v
FatDir.v
FatTree.v
FatList.v
Dec.v
Hex.v
Line.v
Expr.v
Calc.v
Keo.v
Shell.v
Uspace.v
Elf.v
ElfLoad.v
Exec.v
Volume.v
Syscall.v
SysLaws.v
SysVol.v
Pci.v
Nic.v
E1000.v
Ether.v
Desc.v
Entry.v
Main.v
