(* ===== verification/Prelude.v ===== *)
(** * inaneos: a verification development

    inaneos is a small x86-64 operating system in C: a multiboot kernel that
    identity-maps memory, drives a screen, a keyboard, an IDE disk and a network
    card, serves files from memory and from a FAT32 volume, loads ELF programs
    and answers their system calls, and three programs for it, a shell, an
    editor and a calculator.  This library models the system's C code, and the
    assembly that enters and leaves the kernel, as executable functions and
    proves what the parts promise and how they fit together.

    ** How the code is modelled

    A C function is a function from the state it uses to its result and the new
    state, in the error monad [res] below: [Ok] for a return, [Ub] for an access
    that C gives no meaning to (an index outside an array, a pointer to a page
    that is not mapped, a signed overflow), [Oof] when the fuel of a loop has
    run out.  An integer is a [Z] that is wrapped where the code's type wraps
    ([u8] .. [u64], [s8] .. [s64] below); an array is a list read and written
    with [rd] and [wr], which fail outside it; a C string is the list of its
    bytes before the terminator ([Str.v]); memory is a map from addresses to
    bytes ([Mem.v]).  Static variables are the fields of a record per module of
    the code.  Every loop with a bound in the code runs exactly that often
    ([for_each]), or its fuel is that bound.  Loops without one take fuel: the
    evaluator's is computed from the string and shown to be enough
    ([Expr.expr_eval_ends]); walks over cluster chains, copies of segments and
    of strings from programs take it as an argument, and their theorems say how
    much is enough (more than the length of the chain, than the bytes of the
    segment, than the capacity), so that they give a result and not only a
    statement about results.

    What the program does not contain is an interface, a class whose
    operations the code calls and whose laws say what the code relies on:
    [Disk.disk]/[good_disk], a block device, shown to be implemented by
    [Ide.v] over [Ide.ports]/[ata_drive], an ATA drive behind ports that is busy
    for any time after a command, and [prompt_drive], one that is ready before
    the driver's counters run out;
    [Pci.pci_ports]/[pci_bus], configuration space behind two ports;
    [E1000.mmio]/[e1000_card], the network card's registers and what the card
    does on its own: it is only promised to send a frame whose descriptor
    orders it (end of packet, checksum, report) and to take a packet with the
    side turned on; [Desc.pics], the two 8259 interrupt controllers.  Each has
    a concrete instance on which the theorems are run.  Between parts of the
    system, [Fs.volume] and [Volume.file_volume] are what the file server and
    the system calls need of a volume, [Volume.safe_volume] what they rely on;
    [Volume.v] fills them with the FAT driver.

    ** The parts

    - [Prelude], [Mem], [Str], [Dec], [Hex], [Line]: shared notions (outcomes,
      widths, arrays, loops; memory; strings and paths; number output; the
      line editors' buffer).
    - [Pmm] ([kernel/pmm.c]): the frame allocator.  Its abstraction is the set
      of free frames [free_set]; allocating, freeing, reserving and
      initialising refine operations on that set, and a frame is never handed
      out twice.
    - [Vmm] ([arch/x86_64/vmm.c], the tables of [boot.S]): page tables.
      [vm_tree] says that the tables form a tree of frames of their own;
      mapping and unmapping change the translation of exactly the page or
      range, splitting a large page changes none.
    - [Fs] ([kernel/fs.c]): the file server.  [Fs.abs] reads the node array as a
      map from absolute paths to entries; the operations refine that map, a
      file that was written is read back.
    - [Disk], [Ide], [Part] ([drivers/ide/ide.c], [kernel/part.c]): block
      device, driver, boot record.
    - [FatName], [Fat] ([kernel/fat.c]): names and paths, the table, directories
      and files.  [FatFile] has what the operations do to chains (allocation,
      freeing, whole files over the table's copies), [FatDir] the entries of a
      directory as a list and the searches in it.  [FatTree.vol_tree] says that
      a volume is a tree of directories and files in clusters of their own;
      reading, writing and changing directories refine look-up and insertion
      in that tree, [FatList] adds the listing.
    - [Volume]: the driver as the server's volume.
    - [Kbd], [Vga] ([drivers/keyboard], [drivers/vga]): scan codes, the ring
      buffer shared with the interrupt as a step relation, the terminal and the
      unbounded sheet whose end it shows.
    - [Uspace], [Elf], [ElfLoad], [Exec] ([kernel/elf.c], [kernel/exec.c]):
      accesses through the page tables, the ELF loader, the registry of boot
      modules, the entry into a program with its arguments on its stack.
    - [Syscall], [SysLaws], [SysVol] ([kernel/syscall.c]): the dispatcher over
      the state of all these parts; [kernel_ok] is the kernel's invariant,
      [window] a set of user pages that behaves like an array; [SysVol] has the
      calls on a mounted FAT volume.
    - [Pci], [Nic], [E1000], [Ether] ([drivers/pci], [drivers/nic],
      [drivers/net]): configuration space, the search for a card, the rings
      shared with the card as a step relation [E1000.step] with invariant
      [ring_inv], frames.
    - [Desc] ([arch/x86_64/gdt.c], [idt.c], [msr.h], [syscall_init],
      [cpu_reboot]): segments, gates and registers, read back as the processor
      decodes them.
    - [Entry] ([syscall.S], [usermode.S], the stubs): registers and stack
      words around a system call, a keyboard interrupt, an exception.
    - [Main] ([kernel/kernel.c]): [kernel_main] over the state of everything.
    - [Expr], [Calc] ([user/expr.c], [user/calc.c]), [Keo] ([user/keo.c]),
      [Shell] ([user/shell.c]): the programs, over the answers of the kernel.

    ** How they fit together

    [Main.kernel_boots] starts from what the linker, [boot.S] and a boot loader
    leave and ends in the first program with every part's invariant in place,
    unless a network card is found whose variables lie over the page tables,
    as they do on the stack of [boot.S].  Its invariant of the kernel is the
    one that [SysLaws.syscall_safe] carries through any run of the program's
    stores, keys and system calls ([SysLaws.turn]; the calls that enter another
    program or mount a volume are left out), and its descriptor tables and registers are the
    hypotheses of [Entry.syscall_resumes], the way from a program through the
    dispatcher and back, and of [Entry.irq1_transparent], the way of a key into
    the ring.  [SysLaws.sys_run_enters] and [Exec.enter_program_runs] are the way into
    the next program, [SysLaws.syscall_file_roundtrip] and
    [SysVol.syscall_volume_roundtrip] go from a program's buffer through the file
    server, or through the FAT driver to the disk, and back.  The invariant of
    the kernel covers a mounted volume: with [Volume.fat_safe_volume] the
    system calls keep [FatList.vol_ready], a tree of files with the current
    directory in it, and all but [SYS_CHDIR] keep [FatList.cwd_room].

    The theorems come in these groups: invariants and safety (the kernel and
    its system calls, the allocator, the editor, the key ring, the network
    rings, interrupts); functional behaviour on every branch (page tables,
    loader, disk, FAT chains, descriptors); refinement of an abstract model
    (file server, FAT volume, allocator, evaluator, editor, paths); equivalences (the
    shell's dispatcher and a table, the terminal and a sheet); round trips
    (files, short names, the editor's load and save); errors (calls and
    executables that are refused); bounds; termination and liveness
    (evaluator, chains, how every session of the shell ends).  A number of theorems state
    what the code does where it does not do what it means to.

    ** What the model assumes

    - The kernel's pointers are physical addresses: [boot.S] maps the first
      4 GB one to one.  Where the loader and the dispatcher depend on that
      mapping still being in place, the theorems ask for it ([load_ready],
      [window]).  There is no translation buffer, so the reloads of [cr3] have
      no counterpart.
    - A module's static variables are separate from the memory that programs'
      pointers reach; a program that passes a kernel address to a system call
      is outside the hypotheses (the calls only test for null).
    - A volume is a tree without shared clusters or cycles ([vol_tree]); what
      the driver does on a damaged one is outside the theorems about files (a
      cyclic chain runs out of any fuel).  Relative paths are covered as long as
      the current directory leaves room behind it ([cwd_room]);
      [FatName.cwd_overruns] shows what happens when it does not.
    - A buffer of a program that a call fills is written when the called
      function has returned, and a buffer that it reads is read before.
    - The two network structures on [kernel_main]'s stack are objects with an
      address of their own ([Main.layout]); a run that would fill them over the
      page tables is [Ub], and [Main.on_boot_stack] says that on the stack of
      [boot.S] they lie there.
    - An interrupt is a step between two accesses ([Kbd.step]) or a run of its
      stub ([Entry.irq1_stub]).  [sti] in [kernel_main] sets a flag of the
      state ([s_if]); the [sti] and [cli] around the waiting of [SYS_GETC] and
      before a stop have no counterpart.
    - An ATA drive is not asked to take a command while it is busy: the write
      of a block works over a drive that is ready again behind the last word
      ([Ide.prompt_last]), since the driver sends the flush at once.
    - The editor's file arrays are lists of the characters stored so far; a
      store or a read behind the 4096 bytes is [Ub].
    - What the network card does while [kernel_main] runs is an arbitrary
      function [wire], of which [card_fits] asks only that it is a run of
      steps the card's class allows.

    ** What is not modelled

    - The switch to 64-bit mode in [boot.S], up to the page tables it builds,
      and [user/_start.S]: a few instructions on control registers and a call.
    - [idt.c] in the root directory, a 32-bit file that no build rule
      compiles, and the second copy of the evaluator in [user/calc.c], which
      nothing calls.
    - The wrappers of the system calls in [kernel/syscall.h] are the one
      instruction whose effect [Entry.syscall_instr] states, which is undefined
      unless [syscall_init] has enabled it; the port
      instructions of [arch/x86_64/io.h] are operations of the interfaces.
    - Functions that headers declare and no file defines. *)

From stdpp Require Export base tactics list gmap.
From Stdlib Require Export ZArith Lia.

#[global] Open Scope Z_scope.

(** ** Outcomes of C code

    [Ok a]: the code returns [a].  [Ub]: the code performs an access C gives
    no meaning to (an index outside an array).  [Oof]: the fuel of a loop ran
    out, that is, the code has not returned within the given number of
    iterations. *)
Inductive res (A : Type) : Type :=
| Ok (a : A)
| Ub
| Oof.
Arguments Ok {A} a.
Arguments Ub {A}.
Arguments Oof {A}.

#[global] Instance res_ret : MRet res := fun A a => Ok a.
#[global] Instance res_bind : MBind res := fun A B k m =>
  match m with Ok a => k a | Ub => Ub | Oof => Oof end.
#[global] Instance res_fmap : FMap res := fun A B f m =>
  match m with Ok a => Ok (f a) | Ub => Ub | Oof => Oof end.

#[global] Instance res_eq_dec {A} `{EqDecision A} : EqDecision (res A).
Proof. solve_decision. Defined.

(** ** Machine integers: wrap-around at the C types' widths *)
Definition u8 (z : Z) : Z := z mod 256.
Definition u16 (z : Z) : Z := z mod 65536.
Definition u32 (z : Z) : Z := z mod 4294967296.
Definition u64 (z : Z) : Z := z mod 18446744073709551616.
Definition s8 (z : Z) : Z := (z + 128) mod 256 - 128.
Definition s32 (z : Z) : Z := (z + 2147483648) mod 4294967296 - 2147483648.
Definition s64 (z : Z) : Z :=
  (z + 9223372036854775808) mod 18446744073709551616 - 9223372036854775808.

(** [b2z c] is the int value of a C condition. *)
Definition b2z (b : bool) : Z := if b then 1 else 0.

(** ** C arrays: a list with checked accesses *)
Definition rd {A} (l : list A) (i : Z) : res A :=
  if 0 <=? i then match l !! Z.to_nat i with Some x => Ok x | None => Ub end else Ub.

Definition wr {A} (l : list A) (i : Z) (x : A) : res (list A) :=
  if (0 <=? i) && (i <? Z.of_nat (length l)) then Ok (<[Z.to_nat i := x]> l) else Ub.

(** Unchecked view of an array, for specifications. *)
Definition at_ (l : list Z) (i : Z) : Z := nth (Z.to_nat i) l 0.

(** ** Loops *)

(** How one iteration of a loop body ends: go on with a new loop state, or
    leave the loop ([break] and [return]). *)
Inductive ctl (S R : Type) : Type :=
| Next (s : S)
| Done (r : R).
Arguments Next {S R} s.
Arguments Done {S R} r.

(** [for (i = i0; n more times; i++) body]. *)
Fixpoint for_loop {S R} (n : nat) (i : Z) (body : Z -> S -> res (ctl S R)) (s : S)
  : res (ctl S R) :=
  match n with
  | O => Ok (Next s)
  | Datatypes.S n' =>
      c ← body i s;
      match c with
      | Next s' => for_loop n' (i + 1) body s'
      | Done r => Ok (Done r)
      end
  end.

(** The same without [break] or [return]. *)
Fixpoint for_each {S} (n : nat) (i : Z) (body : Z -> S -> res S) (s : S) : res S :=
  match n with
  | O => Ok s
  | Datatypes.S n' => s' ← body i s; for_each n' (i + 1) body s'
  end.

(** [while (1) body], at most [n] iterations. *)
Fixpoint while_loop {S R} (n : nat) (body : S -> res (ctl S R)) (s : S) : res R :=
  match n with
  | O => Oof
  | Datatypes.S n' =>
      c ← body s;
      match c with
      | Next s' => while_loop n' body s'
      | Done r => Ok r
      end
  end.

(** ** Little-endian byte sequences *)
Fixpoint le_bytes (n : nat) (v : Z) : list Z :=
  match n with
  | O => []
  | S n' => v mod 256 :: le_bytes n' (v / 256)
  end.

Fixpoint le_val (bs : list Z) : Z :=
  match bs with
  | [] => 0
  | b :: bs' => b + 256 * le_val bs'
  end.

Definition is_byte (b : Z) : Prop := 0 <= b < 256.
#[global] Instance is_byte_dec b : Decision (is_byte b).
Proof. unfold is_byte. apply _. Defined.

(** ** Automation *)

Create HintDb c_int.
Create Rewrite HintDb c_norm.
Create HintDb c_arr.

(** Case split on every boolean comparison of Z in sight. *)
Ltac zbool :=
  repeat match goal with
  | H : (_ && _)%bool = true |- _ => apply andb_true_iff in H as [? ?]
  | H : (_ || _)%bool = false |- _ => apply orb_false_iff in H as [? ?]
  | H : negb _ = true |- _ => apply negb_true_iff in H
  | H : negb _ = false |- _ => apply negb_false_iff in H
  | H : (_ =? _) = true |- _ => apply Z.eqb_eq in H
  | H : (_ =? _) = false |- _ => apply Z.eqb_neq in H
  | H : (_ <=? _) = true |- _ => apply Z.leb_le in H
  | H : (_ <=? _) = false |- _ => apply Z.leb_gt in H
  | H : (_ <? _) = true |- _ => apply Z.ltb_lt in H
  | H : (_ <? _) = false |- _ => apply Z.ltb_ge in H
  end.

(** [lia] with the defining equations of [/] and [mod]. *)
Ltac zdm := Z.to_euclidean_division_equations; lia.

(** Invert an equation [x ← m; k = Ok r] into the run of [m] and of [k]. *)
Ltac res_inv :=
  repeat match goal with
  | H : Ok _ = Ok _ |- _ => injection H as H; subst
  | H : Ub = Ok _ |- _ => discriminate H
  | H : Oof = Ok _ |- _ => discriminate H
  | H : mret _ = Ok _ |- _ => unfold mret, res_ret in H
  | H : mbind _ ?m = Ok _ |- _ =>
      let E := fresh "E" in destruct m eqn:E; cbn [mbind res_bind] in H
  | H : (match ?m with Ok _ => _ | Ub => _ | Oof => _ end) = Ok _ |- _ =>
      let E := fresh "E" in destruct m eqn:E
  end.

(** Case split on the first [bool_decide] of the goal, hypotheses untouched. *)
Tactic Notation "bdec" "as" ident(H) :=
  match goal with
  | |- context [bool_decide ?P] =>
      destruct (decide P) as [H|H];
      [rewrite (bool_decide_eq_true_2 P H)|rewrite (bool_decide_eq_false_2 P H)]
  end.

(** [lia] after a case split on the conditions of nested conditionals. *)
Ltac zif :=
  repeat match goal with
  | |- context [?a <? ?b] =>
      lazymatch a with context [if _ then _ else _] => fail | _ =>
      lazymatch b with context [if _ then _ else _] => fail | _ => destruct (Z.ltb_spec a b) end end
  end; lia.

(** ** Integer lemmas *)

Lemma u8_range z : 0 <= u8 z < 256. Proof. unfold u8; zdm. Qed.
Lemma u16_range z : 0 <= u16 z < 65536. Proof. unfold u16; zdm. Qed.
Lemma u32_range z : 0 <= u32 z < 4294967296. Proof. unfold u32; zdm. Qed.
Lemma u64_range z : 0 <= u64 z < 18446744073709551616. Proof. unfold u64; zdm. Qed.
Lemma u8_small z : 0 <= z < 256 -> u8 z = z. Proof. unfold u8; zdm. Qed.
Lemma u16_small z : 0 <= z < 65536 -> u16 z = z. Proof. unfold u16; zdm. Qed.
Lemma u32_small z : 0 <= z < 4294967296 -> u32 z = z. Proof. unfold u32; zdm. Qed.
Lemma u64_small z : 0 <= z < 18446744073709551616 -> u64 z = z.
Proof. unfold u64; zdm. Qed.
Lemma s32_small z : -2147483648 <= z < 2147483648 -> s32 z = z.
Proof. unfold s32; zdm. Qed.
Lemma s64_small z : -9223372036854775808 <= z < 9223372036854775808 -> s64 z = z.
Proof. unfold s64; zdm. Qed.

#[export] Hint Resolve u8_range u16_range u32_range u64_range : c_int.
#[export] Hint Rewrite u8_small u16_small u32_small u64_small s32_small s64_small
  using lia : c_norm.

(** Single bits. *)
Lemma testbit_set b k j : 0 <= k -> 0 <= j ->
  Z.testbit (Z.lor b (Z.shiftl 1 k)) j = Z.testbit b j || (j =? k).
Proof.
  intros Hk Hj. rewrite Z.lor_spec, Z.shiftl_spec by lia. f_equal.
  destruct (Z.eqb_spec j k) as [->|Hne].
  - by rewrite Z.sub_diag.
  - destruct (decide (j < k)) as [?|?].
    + apply Z.testbit_neg_r; lia.
    + rewrite Z.bits_above_log2; [done|lia|simpl; lia].
Qed.

Lemma testbit_clear b k j : 0 <= k -> 0 <= j ->
  Z.testbit (Z.land b (Z.lnot (Z.shiftl 1 k))) j = Z.testbit b j && negb (j =? k).
Proof.
  intros Hk Hj. rewrite Z.land_spec, Z.lnot_spec by lia. do 2 f_equal.
  pose proof (testbit_set 0 k j Hk Hj) as H.
  by rewrite Z.lor_0_l, Z.testbit_0_l in H.
Qed.

Lemma land_bit_zero b k : 0 <= k ->
  (Z.land b (Z.shiftl 1 k) =? 0) = negb (Z.testbit b k).
Proof.
  intros Hk. destruct (Z.testbit b k) eqn:E; simpl.
  - apply Z.eqb_neq. intros H.
    assert (Z.testbit (Z.land b (Z.shiftl 1 k)) k = false) as F
      by (rewrite H; apply Z.testbit_0_l).
    rewrite Z.land_spec, E, Z.shiftl_spec, Z.sub_diag in F by lia. done.
  - apply Z.eqb_eq, Z.bits_inj'. intros j Hj.
    rewrite Z.land_spec, Z.testbit_0_l.
    pose proof (testbit_set 0 k j Hk Hj) as H.
    rewrite Z.lor_0_l, Z.testbit_0_l in H. rewrite H; simpl.
    destruct (Z.eqb_spec j k) as [->|?]; [by rewrite E|by rewrite andb_false_r].
Qed.

(** A number whose bits from [n] on are zero is below [2^n]. *)
Lemma bits_bound z n : 0 <= n -> 0 <= z ->
  (forall j, n <= j -> Z.testbit z j = false) -> z < 2 ^ n.
Proof.
  intros Hn Hz H. destruct (decide (z = 0)) as [->|Hne]; [lia|].
  assert (Z.log2 z < n); [|apply Z.log2_lt_pow2; lia].
  destruct (decide (Z.log2 z < n)) as [?|Hge]; [done|].
  specialize (H (Z.log2 z)). rewrite Z.bit_log2 in H by lia. discriminate H; lia.
Qed.

Lemma byte_bits_high b j : is_byte b -> 8 <= j -> Z.testbit b j = false.
Proof.
  unfold is_byte. intros Hb Hj. destruct (decide (b = 0)) as [->|?].
  - apply Z.testbit_0_l.
  - apply Z.bits_above_log2; [lia|].
    assert (Z.log2 b < 8) by (apply Z.log2_lt_pow2; lia). lia.
Qed.

Lemma byte_set b k : is_byte b -> 0 <= k < 8 -> is_byte (Z.lor b (Z.shiftl 1 k)).
Proof.
  intros Hb Hk. assert (0 <= Z.lor b (Z.shiftl 1 k)).
  { apply Z.lor_nonneg. split; [unfold is_byte in Hb; lia|].
    apply Z.shiftl_nonneg; lia. }
  split; [done|]. change 256 with (2 ^ 8). apply bits_bound; [lia|done|].
  intros j Hj. rewrite testbit_set by lia.
  rewrite byte_bits_high by (done || lia). simpl. lia.
Qed.

Lemma byte_clear b k : is_byte b -> 0 <= k < 8 ->
  is_byte (Z.land b (Z.lnot (Z.shiftl 1 k))).
Proof.
  intros Hb Hk. assert (0 <= Z.land b (Z.lnot (Z.shiftl 1 k))).
  { apply Z.land_nonneg. left. unfold is_byte in Hb; lia. }
  split; [done|]. change 256 with (2 ^ 8). apply bits_bound; [lia|done|].
  intros j Hj. rewrite testbit_clear by lia.
  by rewrite byte_bits_high by (done || lia).
Qed.

#[export] Hint Resolve byte_set byte_clear : c_int.

(** Fields of words. *)
Lemma lor_shift a b k : 0 <= k -> 0 <= a < 2 ^ k -> 0 <= b -> Z.lor a (Z.shiftl b k) = a + b * 2 ^ k.
Proof.
  intros Hk Ha Hb. rewrite Z.shiftl_mul_pow2 by done. rewrite <- Z.add_lor_land.
  assert (Z.land a (b * 2 ^ k) = 0) as ->; [|lia].
  apply Z.bits_inj'. intros n Hn. rewrite Z.land_spec, Z.testbit_0_l.
  destruct (decide (n < k)).
  - rewrite Z.mul_pow2_bits_low by done. by rewrite andb_false_r.
  - rewrite <- (Z.mod_small a (2 ^ k)) by done. rewrite Z.mod_pow2_bits_high by lia. done.
Qed.

Lemma byte_at x k : 0 <= k -> Z.land (Z.shiftr x k) 0xFF = (x / 2 ^ k) mod 256.
Proof. intros. change 0xFF with (Z.ones 8). by rewrite Z.land_ones, Z.shiftr_div_pow2 by lia. Qed.

(** ** Array lemmas *)

Lemma rd_Ok {A} (l : list A) i x :
  rd l i = Ok x <-> 0 <= i /\ l !! Z.to_nat i = Some x.
Proof.
  unfold rd. destruct (Z.leb_spec 0 i); [|split; [done|lia]].
  destruct (l !! Z.to_nat i); split; [intros [= ->]|intros [_ [= ->]]| |intros [_ ?]]; done.
Qed.

Lemma rd_in {A} (l : list A) i : 0 <= i < Z.of_nat (length l) ->
  exists x, rd l i = Ok x /\ l !! Z.to_nat i = Some x.
Proof.
  intros H. destruct (lookup_lt_is_Some_2 l (Z.to_nat i)) as [x Hx]; [lia|].
  exists x. split; [|done]. apply rd_Ok. split; [lia|done].
Qed.

Lemma wr_in {A} (l : list A) i x : 0 <= i < Z.of_nat (length l) ->
  wr l i x = Ok (<[Z.to_nat i := x]> l).
Proof.
  intros H. unfold wr.
  destruct (Z.leb_spec 0 i); [|lia]. destruct (Z.ltb_spec i (Z.of_nat (length l))); [done|lia].
Qed.

Lemma wr_Ok {A} (l : list A) i x l' : wr l i x = Ok l' ->
  0 <= i < Z.of_nat (length l) /\ l' = <[Z.to_nat i := x]> l.
Proof.
  unfold wr. destruct (Z.leb_spec 0 i), (Z.ltb_spec i (Z.of_nat (length l))); simpl; naive_solver.
Qed.

Lemma rd_at (l : list Z) i : 0 <= i < Z.of_nat (length l) -> rd l i = Ok (at_ l i).
Proof.
  intros H. destruct (rd_in l i H) as (x & -> & Hx). unfold at_.
  by rewrite (nth_lookup_Some _ _ _ _ Hx).
Qed.

Lemma rd_app_l {A} (l k : list A) i : i < Z.of_nat (length l) -> rd (l ++ k) i = rd l i.
Proof. intros H. unfold rd. destruct (Z.leb_spec 0 i); [|done]. by rewrite lookup_app_l by lia. Qed.

Lemma at_insert (l : list Z) i j x : 0 <= i < Z.of_nat (length l) -> 0 <= j ->
  at_ (<[Z.to_nat i := x]> l) j = if j =? i then x else at_ l j.
Proof.
  intros Hi Hj. unfold at_. rewrite !nth_lookup.
  destruct (Z.eqb_spec j i) as [->|Hne].
  - by rewrite list_lookup_insert_eq by lia.
  - by rewrite list_lookup_insert_ne by lia.
Qed.

(** ** Loop lemmas *)

(** Invariant rule for [for_each]: [P i s] before iteration [i]. *)
Lemma for_each_inv {S} (P : Z -> S -> Prop) n i body (s : S) :
  P i s ->
  (forall j s, i <= j < i + Z.of_nat n -> P j s ->
     exists s', body j s = Ok s' /\ P (j + 1) s') ->
  exists s', for_each n i body s = Ok s' /\ P (i + Z.of_nat n) s'.
Proof.
  revert i s. induction n as [|n IH]; intros i s HP Hb; simpl.
  - exists s. rewrite Z.add_0_r. done.
  - destruct (Hb i s) as (s1 & E & H1); [lia|done|]. rewrite E; simpl.
    destruct (IH (i + 1) s1 H1) as (s' & E' & H').
    + intros j t Hj. apply Hb. lia.
    + exists s'. split; [done|]. by replace (i + Z.of_nat (Datatypes.S n)) with (i + 1 + Z.of_nat n) by lia.
Qed.

Lemma for_each_ext {S} n i (f g : Z -> S -> res S) s :
  (forall j s, i <= j < i + Z.of_nat n -> f j s = g j s) -> for_each n i f s = for_each n i g s.
Proof.
  revert i s. induction n as [|n IH]; intros i s H; [done|]. cbn [for_each]. rewrite H by lia.
  destruct (g i s); cbn [mbind res_bind]; [|done|done]. apply IH. intros j t Hj. apply H. lia.
Qed.

(** Invariant rule for [for_loop]: [P] before each iteration and at a normal
    exit, [Q] at an early exit. *)
Lemma for_loop_inv {S R} (P : Z -> S -> Prop) (Q : R -> Prop) n i body (s : S) :
  P i s ->
  (forall j s, i <= j < i + Z.of_nat n -> P j s ->
     (exists s', body j s = Ok (Next s') /\ P (j + 1) s') \/
     (exists r, body j s = Ok (Done r) /\ Q r)) ->
  (exists s', for_loop n i body s = Ok (Next s') /\ P (i + Z.of_nat n) s') \/
  (exists r, for_loop n i body s = Ok (Done r) /\ Q r).
Proof.
  revert i s. induction n as [|n IH]; intros i s HP Hb; simpl.
  - left. exists s. rewrite Z.add_0_r. done.
  - destruct (Hb i s) as [(s1 & E & H1)|(r & E & Hq)]; [lia|done| |]; rewrite E; simpl.
    + destruct (IH (i + 1) s1 H1) as [(s' & E' & H')|H'].
      * intros j t Hj. apply Hb. lia.
      * left. exists s'. split; [done|].
        by replace (i + Z.of_nat (Datatypes.S n)) with (i + 1 + Z.of_nat n) by lia.
      * right. done.
    + right. eauto.
Qed.

(** One more element of [src] over [dst]. *)
Lemma put_next {A} (src dst : list A) i c : src !! i = Some c -> (i < length dst)%nat ->
  <[i := c]> (take i src ++ drop i dst) = take (S i) src ++ drop (S i) dst.
Proof.
  intros Hc Hi. pose proof (lookup_lt_Some _ _ _ Hc) as Hl.
  rewrite insert_app_r_alt by (rewrite length_take; lia). rewrite length_take. replace (i - _)%nat with 0%nat by lia.
  rewrite (take_S_r _ _ c) by done. rewrite <- app_assoc. f_equal.
  destruct (lookup_lt_is_Some_2 dst i Hi) as [x Hx]. by rewrite (drop_S dst x) by done.
Qed.

(** [for (i = 0; i < n; i++) dst[k + i] = src[i];] with [k] elements in front. *)
Lemma copy_at {A} (src pre dst : list A) (n : nat) : (n <= length src)%nat -> (n <= length dst)%nat ->
  for_each n 0 (fun i dst => c ← rd src i; wr dst (Z.of_nat (length pre) + i) c) (pre ++ dst) = Ok (pre ++ take n src ++ drop n dst).
Proof.
  intros Hs Hd.
  destruct (for_each_inv (fun i d => 0 <= i /\ d = pre ++ take (Z.to_nat i) src ++ drop (Z.to_nat i) dst) n 0
    (fun i dst => c ← rd src i; wr dst (Z.of_nat (length pre) + i) c) (pre ++ dst)) as (d & E & _ & Ed).
  - split; [done|]. done.
  - intros i d Hi [_ ->]. destruct (rd_in src i) as (c & -> & Hc); [lia|]. cbn [mbind res_bind].
    rewrite wr_in by (rewrite !length_app, length_take, length_drop; lia). eexists. split; [reflexivity|]. split; [lia|].
    rewrite insert_app_r_alt by lia. f_equal. replace (Z.to_nat (Z.of_nat (length pre) + i) - length pre)%nat with (Z.to_nat i) by lia.
    replace (Z.to_nat (i + 1)) with (S (Z.to_nat i)) by lia. apply put_next; [done|lia].
  - rewrite E, Ed. by rewrite Z.add_0_l, Nat2Z.id.
Qed.

Lemma copy_prefix {A} (src dst : list A) n : (n <= length src)%nat -> (n <= length dst)%nat ->
  for_each n 0 (fun i dst => c ← rd src i; wr dst i c) dst = Ok (take n src ++ drop n dst).
Proof. apply (copy_at src [] dst n). Qed.

Lemma res_bind_inv {A B} (m : res A) (f : A -> res B) r : (m ≫= f) = Ok r -> exists a, m = Ok a /\ f a = Ok r.
Proof. destruct m; [|done..]. intros E. by eexists. Qed.

(** A property every iteration that succeeds keeps is kept by the loop. *)
Lemma for_each_keeps {S} (P : S -> Prop) n i body (s s' : S) :
  (forall j s s', body j s = Ok s' -> P s -> P s') -> for_each n i body s = Ok s' -> P s -> P s'.
Proof.
  intros Hb. revert i s. induction n as [|n IH]; intros i s; cbn [for_each]; [by intros [= <-]|].
  intros E HP. res_inv. eapply IH; eauto.
Qed.

Lemma for_loop_keeps {S} (P : S -> Prop) n i body (s : S) c :
  (forall j s c, body j s = Ok c -> P s -> P (match c with Next s' | Done s' => s' end)) ->
  for_loop n i body s = Ok c -> P s -> P (match c with Next s' | Done s' => s' end).
Proof.
  intros Hb. revert i s. induction n as [|n IH]; intros i s; cbn [for_loop]; [by intros [= <-]|].
  intros E HP. res_inv. destruct a as [s1|r]; pose proof (Hb _ _ _ E0 HP) as H1; [by eapply IH|by injection E as <-].
Qed.

Lemma while_loop_keeps {S R} (P : S -> Prop) (Q : R -> Prop) n body (s : S) r :
  (forall s c, body s = Ok c -> P s -> match c with Next s' => P s' | Done r => Q r end) ->
  while_loop n body s = Ok r -> P s -> Q r.
Proof.
  intros Hb. revert s. induction n as [|n IH]; intros s; cbn [while_loop]; [done|].
  intros E HP. res_inv. destruct a as [s1|r1]; pose proof (Hb _ _ E0 HP) as H1; [by eapply IH|by injection E as <-].
Qed.

(** A [while (1)] loop whose state shrinks ends within its fuel. *)
Lemma while_loop_ends {S R} (mu : S -> nat) n (body : S -> res (ctl S R)) s :
  (forall s, body s <> Oof) -> (forall s s', body s = Ok (Next s') -> (mu s' < mu s)%nat) ->
  (mu s < n)%nat -> while_loop n body s <> Oof.
Proof.
  intros Hb Hmu. revert s. induction n as [|n IH]; intros s Hn; [lia|]. cbn [while_loop].
  specialize (Hb s). destruct (body s) as [[s'|r]| |] eqn:E; cbn [mbind res_bind]; try done.
  apply IH. specialize (Hmu _ _ E). lia.
Qed.

(** Total correctness of [while (1)]: an invariant, a measure, a postcondition. *)
Lemma while_loop_inv {S R} (P : S -> Prop) (Q : R -> Prop) (mu : S -> nat) n (body : S -> res (ctl S R)) s :
  (forall s, P s -> (exists s', body s = Ok (Next s') /\ P s' /\ (mu s' < mu s)%nat) \/
                    (exists r, body s = Ok (Done r) /\ Q r)) ->
  P s -> (mu s < n)%nat -> exists r, while_loop n body s = Ok r /\ Q r.
Proof.
  intros Hb. revert s. induction n as [|n IH]; intros s Hs Hn; [lia|]. cbn [while_loop].
  destruct (Hb s Hs) as [(s' & -> & Hs' & Hmu)|(r & -> & Hr)]; cbn [mbind res_bind]; [|by exists r].
  apply IH; [done|lia].
Qed.

(** ** Byte-sequence lemmas *)

Lemma le_bytes_length n v : length (le_bytes n v) = n.
Proof. revert v. induction n; simpl; auto. Qed.

Lemma le_bytes_byte n v : Forall is_byte (le_bytes n v).
Proof.
  revert v. induction n; simpl; constructor; auto. unfold is_byte. zdm.
Qed.

Lemma le_val_bytes n v : le_val (le_bytes n v) = v mod 256 ^ Z.of_nat n.
Proof.
  revert v. induction n as [|n IH]; intros v; [by rewrite Z.mod_1_r|].
  cbn [le_bytes le_val]. rewrite IH.
  rewrite Nat2Z.inj_succ, Z.pow_succ_r by lia.
  rewrite Z.rem_mul_r by lia. lia.
Qed.

Lemma le_val_range bs : Forall is_byte bs -> 0 <= le_val bs < 256 ^ Z.of_nat (length bs).
Proof.
  induction 1 as [|b bs Hb _ IH]; [done|]. cbn [le_val length].
  rewrite Nat2Z.inj_succ, Z.pow_succ_r by lia.   unfold is_byte in Hb. lia.
Qed.

Lemma le_bytes_val bs : Forall is_byte bs -> le_bytes (length bs) (le_val bs) = bs.
Proof.
  induction 1 as [|b bs Hb Hbs IH]; [done|]. cbn [length le_bytes le_val].
  unfold is_byte in Hb. f_equal; [zdm|].
  replace ((b + 256 * le_val bs) / 256) with (le_val bs) by zdm. done.
Qed.
