(* ===== verification/Mem.v ===== *)
(** * Byte-addressed physical memory

    The kernel runs on an identity mapping, so its pointers are physical
    addresses.  Memory is a finite map from addresses to byte values; a byte
    that was never written reads as [0], and every read is a byte.  The
    multi-byte accesses of the C code ([uint16_t], [uint32_t], [uint64_t]
    objects) are little-endian. *)
From S2P Require Import Prelude.

Abbreviation mem := (gmap Z Z).

Definition load8 (m : mem) (a : Z) : Z := u8 (default 0 (m !! a)).
Definition store8 (m : mem) (a v : Z) : mem := <[a := u8 v]> m.

Fixpoint load_bytes (n : nat) (m : mem) (a : Z) : list Z :=
  match n with
  | O => []
  | S n' => load8 m a :: load_bytes n' m (a + 1)
  end.

Fixpoint store_bytes (m : mem) (a : Z) (bs : list Z) : mem :=
  match bs with
  | [] => m
  | b :: bs' => store8 (store_bytes m (a + 1) bs') a b
  end.

Definition load16 (m : mem) (a : Z) : Z := le_val (load_bytes 2 m a).
Definition load32 (m : mem) (a : Z) : Z := le_val (load_bytes 4 m a).
Definition load64 (m : mem) (a : Z) : Z := le_val (load_bytes 8 m a).
Definition store64 (m : mem) (a v : Z) : mem := store_bytes m a (le_bytes 8 v).

(** [disjoint a n b k]: the [n] bytes at [a] and the [k] bytes at [b] do not
    overlap. *)
Definition disjoint (a n b k : Z) : Prop := a + n <= b \/ b + k <= a.

Lemma load8_byte m a : is_byte (load8 m a).
Proof. apply u8_range. Qed.

Lemma load8_store8 m a v : load8 (store8 m a v) a = u8 v.
Proof.
  unfold load8, store8. rewrite lookup_insert_eq. simpl. unfold u8.
  by rewrite Z.mod_mod by lia.
Qed.

Lemma load8_store8_ne m a v b : a <> b -> load8 (store8 m a v) b = load8 m b.
Proof. intros H. unfold load8, store8. by rewrite lookup_insert_ne. Qed.

Lemma load_bytes_length n m a : length (load_bytes n m a) = n.
Proof. revert a. induction n; simpl; auto. Qed.

Lemma load_bytes_byte n m a : Forall is_byte (load_bytes n m a).
Proof. revert a. induction n; simpl; constructor; auto using load8_byte. Qed.

Lemma load8_store_bytes_out m a bs b :
  b < a \/ a + Z.of_nat (length bs) <= b -> load8 (store_bytes m a bs) b = load8 m b.
Proof.
  revert a. induction bs as [|x bs IH]; intros a H; [done|]. cbn [store_bytes].
  cbn [length] in H. rewrite load8_store8_ne by lia. apply IH. lia.
Qed.

Lemma load_bytes_store8_ne n m a v b :
  a < b -> load_bytes n (store8 m a v) b = load_bytes n m b.
Proof.
  revert b. induction n as [|n IH]; intros b H; [done|]. simpl.
  rewrite load8_store8_ne by lia. f_equal. apply IH. lia.
Qed.

Lemma load_bytes_store_bytes m a bs : Forall is_byte bs ->
  load_bytes (length bs) (store_bytes m a bs) a = bs.
Proof.
  intros Hb. revert a. induction Hb as [|x bs Hx _ IH]; intros a; [done|].
  cbn [length load_bytes store_bytes]. rewrite load8_store8, u8_small by done.
  f_equal. rewrite load_bytes_store8_ne by lia. apply IH.
Qed.

Lemma load_bytes_store_bytes_out n m a bs b :
  disjoint a (Z.of_nat (length bs)) b (Z.of_nat n) ->
  load_bytes n (store_bytes m a bs) b = load_bytes n m b.
Proof.
  unfold disjoint. revert b. induction n as [|n IH]; intros b H; [done|].
  cbn [load_bytes]. rewrite load8_store_bytes_out by lia. f_equal. apply IH. lia.
Qed.

Lemma load_bytes_store8_out n m a v b :
  disjoint a 1 b (Z.of_nat n) ->
  load_bytes n (store8 m a v) b = load_bytes n m b.
Proof. intros H. exact (load_bytes_store_bytes_out n m a [v] b H). Qed.

Lemma load64_range m a : 0 <= load64 m a < 18446744073709551616.
Proof.
  unfold load64. pose proof (le_val_range _ (load_bytes_byte 8 m a)) as H.
  rewrite load_bytes_length in H. exact H.
Qed.

Lemma load32_range m a : 0 <= load32 m a < 4294967296.
Proof.
  unfold load32. pose proof (le_val_range _ (load_bytes_byte 4 m a)) as H.
  rewrite load_bytes_length in H. exact H.
Qed.

Lemma load16_range m a : 0 <= load16 m a < 65536.
Proof.
  unfold load16. pose proof (le_val_range _ (load_bytes_byte 2 m a)) as H.
  rewrite load_bytes_length in H. exact H.
Qed.

Lemma load64_store64 m a v : load64 (store64 m a v) a = u64 v.
Proof.
  unfold load64, store64.
  pose proof (load_bytes_store_bytes m a (le_bytes 8 v) (le_bytes_byte 8 v)) as H.
  rewrite le_bytes_length in H. rewrite H. apply le_val_bytes.
Qed.

Lemma load64_store64_out m a v b : disjoint a 8 b 8 ->
  load64 (store64 m a v) b = load64 m b.
Proof. intros H. unfold load64, store64. by rewrite load_bytes_store_bytes_out. Qed.

Lemma load64_store8_out m a v b : disjoint a 1 b 8 ->
  load64 (store8 m a v) b = load64 m b.
Proof. intros H. unfold load64. by rewrite load_bytes_store8_out. Qed.

Lemma load8_store64_out m a v b : disjoint a 8 b 1 ->
  load8 (store64 m a v) b = load8 m b.
Proof.
  intros H. unfold store64. apply load8_store_bytes_out.
  rewrite le_bytes_length. unfold disjoint in H. lia.
Qed.

#[export] Hint Resolve load8_byte load64_range load32_range load16_range : c_int.
#[global] Opaque load16 load32 load64 store64.
