(* ===== verification/Pmm.v ===== *)
(** * The physical frame allocator ([kernel/pmm.c])

    A bitmap of the frames below 1 GB, a count of the free ones and a next-fit
    cursor.  The abstract state is [free_set], the set of free frames; the
    operations are proved to refine the set operations [alloc_spec],
    [free_spec] and [reserve_spec]. *)
From S2P Require Import Prelude Mem.

(** ** Constants and state *)
Definition PMM_MAX_PHYS : Z := 0x40000000.
Definition FRAME_SIZE : Z := 4096.
Definition BITMAP_SIZE : Z := PMM_MAX_PHYS / FRAME_SIZE / 8.
Definition MEM_AVAILABLE : Z := 1.

Record pmm := Pmm {
  bitmap : list Z;
  total_frames : Z;
  free_frames : Z;
  cursor : Z
}.

(** The [mmap_entry] the boot loader wrote at [cur] (packed: [size] at 0,
    [addr] at 4, [len] at 12, [type] at 20). *)
Record mmap_entry := MmapEntry { e_size : Z; e_addr : Z; e_len : Z; e_type : Z }.

Definition read_entry (m : mem) (cur : Z) : mmap_entry :=
  {| e_size := load32 m cur;
     e_addr := load64 m (cur + 4);
     e_len := load64 m (cur + 12);
     e_type := load32 m (cur + 20) |}.

(** ** Operations *)

(** [bitmap[f / 8] & (1 << (f % 8))]. *)
Definition test_bit (st : pmm) (f : Z) : res bool :=
  b ← rd (bitmap st) (f / 8);
  mret (negb (Z.land b (Z.shiftl 1 (f mod 8)) =? 0)).

(** [bitmap[f / 8] |= 1 << (f % 8); free_frames--]. *)
Definition mark_used (st : pmm) (f : Z) : res pmm :=
  b ← rd (bitmap st) (f / 8);
  bm ← wr (bitmap st) (f / 8) (u8 (Z.lor b (Z.shiftl 1 (f mod 8))));
  mret (Pmm bm (total_frames st) (u64 (free_frames st - 1)) (cursor st)).

(** [bitmap[f / 8] &= ~(1 << (f % 8)); free_frames++]. *)
Definition mark_free (st : pmm) (f : Z) : res pmm :=
  b ← rd (bitmap st) (f / 8);
  bm ← wr (bitmap st) (f / 8) (u8 (Z.land b (Z.lnot (Z.shiftl 1 (f mod 8)))));
  mret (Pmm bm (total_frames st) (u64 (free_frames st + 1)) (cursor st)).

Definition set_used (st : pmm) (frame : Z) : res pmm :=
  u ← test_bit st frame;
  if (u : bool) then mret st else mark_used st frame.

(** The clipping of one available region: [(f0, f1)]. *)
Definition region_frames (e : mmap_entry) : Z * Z :=
  let s := e_addr e in
  let l := e_len e in
  let '(s, l) :=
    if s <? 0x100000 then
      let cut := 0x100000 - s in
      if l <=? cut then (s, 0) else (s + cut, l - cut)
    else (s, l) in
  let l :=
    if PMM_MAX_PHYS <? u64 (s + l) then
      if PMM_MAX_PHYS <=? s then 0 else PMM_MAX_PHYS - s
    else l in
  (u64 (s + FRAME_SIZE - 1) / FRAME_SIZE, u64 (s + l) / FRAME_SIZE).

Definition init_region (e : mmap_entry) (st : pmm) : res pmm :=
  if e_type e =? MEM_AVAILABLE then
    let '(f0, f1) := region_frames e in
    for_each (Z.to_nat (f1 - f0)) f0 (fun f st => mark_free st f) st
  else mret st.

(** [while (cur < end)], with the pointers as the loop state. *)
Definition init_regions (fuel : nat) (m : mem) (cur end_ : Z) (st : pmm) : res pmm :=
  while_loop fuel
    (fun '(cur, st) =>
       if cur <? end_ then
         let e := read_entry m cur in
         st' ← init_region e st;
         mret (Next (cur + (e_size e + 4), st'))
       else mret (Done st))
    (cur, st).

(** [kernel_start], [kernel_end]: the linker's [_kernel_start], [_kernel_end]. *)
Definition pmm_init (kernel_start kernel_end : Z) (m : mem)
    (mmap_addr mmap_len : Z) (st : pmm) : res pmm :=
  let st0 := {| bitmap := (fun _ => 0xFF) <$> bitmap st;
                total_frames := PMM_MAX_PHYS / FRAME_SIZE;
                free_frames := 0;
                cursor := 0 |} in
  st1 ← init_regions (Datatypes.S (Z.to_nat mmap_len)) m mmap_addr (mmap_addr + mmap_len) st0;
  let k0 := kernel_start / FRAME_SIZE in
  let k1 := u64 (kernel_end + FRAME_SIZE - 1) / FRAME_SIZE in
  for_each (Z.to_nat (k1 - k0)) k0 (fun f st => set_used st f) st1.

Definition pmm_reserve (start end_ : Z) (st : pmm) : res pmm :=
  let f0 := start / FRAME_SIZE in
  let f1 := u64 (end_ + FRAME_SIZE - 1) / FRAME_SIZE in
  if total_frames st <=? f0 then mret st
  else
    let f1 := if total_frames st <? f1 then total_frames st else f1 in
    for_each (Z.to_nat (f1 - f0)) f0 (fun f st => set_used st f) st.

Definition pmm_alloc_frame (st : pmm) : res (Z * pmm) :=
  c ← for_loop (Z.to_nat (total_frames st)) 0
    (fun i st =>
       let f := (cursor st + i) mod total_frames st in
       u ← test_bit st f;
       if (u : bool) then mret (Next st)
       else
         st1 ← mark_used st f;
         mret (Done (f * FRAME_SIZE,
                     Pmm (bitmap st1) (total_frames st1) (free_frames st1)
                         ((f + 1) mod total_frames st1)))) st;
  match c with
  | Done r => mret r
  | Next st' => mret (0, st')
  end.

Definition pmm_free_frame (phys : Z) (st : pmm) : res pmm :=
  let f := phys / FRAME_SIZE in
  if f <? total_frames st then
    u ← test_bit st f;
    if (u : bool) then mark_free st f else mret st
  else mret st.

Definition pmm_free_kb (st : pmm) : Z := u64 (free_frames st * 4).
Definition pmm_total_kb (st : pmm) : Z := u64 (total_frames st * 4).

(** The state before [pmm_init]: zeroed static storage. *)
Definition pmm_boot : pmm := Pmm (replicate (Z.to_nat BITMAP_SIZE) 0) 0 0 0.

(** ** Specification *)

Definition TOTAL : Z := 262144.

Definition used (st : pmm) (f : Z) : bool :=
  Z.testbit (at_ (bitmap st) (f / 8)) (f mod 8).

Definition free_set (st : pmm) : gset Z :=
  list_to_set (filter (fun f => used st f = false) (seqZ 0 TOTAL)).

(** The bitmap's shape. *)
Record shape (st : pmm) : Prop := {
  shape_len : Z.of_nat (length (bitmap st)) = BITMAP_SIZE;
  shape_bytes : Forall is_byte (bitmap st);
  shape_total : total_frames st = TOTAL;
  shape_cursor : 0 <= cursor st < TOTAL
}.

(** The invariant: the shape, and the counter counts the free frames. *)
Record wf (st : pmm) : Prop := {
  wf_shape :> shape st;
  wf_count : free_frames st = Z.of_nat (size (free_set st))
}.

(** What the operations promise, on the set of free frames. *)
Definition alloc_spec (F : gset Z) (r : Z) (F' : gset Z) : Prop :=
  (F = ∅ /\ r = 0 /\ F' = F) \/
  (exists f, f ∈ F /\ r = f * FRAME_SIZE /\ F' = F ∖ {[f]}).

(** Next fit: [r] is the first free frame at or after the cursor, going
    around at the end, and the cursor moves just past it. *)
Definition next_fit (st : pmm) (r : Z) (st' : pmm) : Prop :=
  r = 0 \/
  exists i, 0 <= i < TOTAL /\ r = ((cursor st + i) mod TOTAL) * FRAME_SIZE /\
    (forall j, 0 <= j < i -> used st ((cursor st + j) mod TOTAL) = true) /\
    cursor st' = ((cursor st + i) mod TOTAL + 1) mod TOTAL.

(** The free frames below [X] that next fit reaches before it goes around. *)
Definition low (X : Z) (st : pmm) : gset Z := filter (fun f => cursor st <= f < X) (free_set st).

(** [st'] comes from [st] by allocating at most [k] frames; while there are
    that many before [X], they are the ones taken. *)
Definition takes (k : nat) (st st' : pmm) : Prop :=
  free_set st' ⊆ free_set st /\ (size (free_set st) <= size (free_set st') + k)%nat /\
  forall X, X < TOTAL -> (k <= size (low X st))%nat ->
    low X st' ⊆ low X st /\ (size (low X st) <= size (low X st') + k)%nat.

Definition free_spec (F : gset Z) (phys : Z) (F' : gset Z) : Prop :=
  F' = if decide (phys / FRAME_SIZE < TOTAL) then {[phys / FRAME_SIZE]} ∪ F else F.

(** Frames touched by the byte range [start, end_). *)
Definition touches (start end_ f : Z) : Prop :=
  start / FRAME_SIZE <= f < (end_ + FRAME_SIZE - 1) / FRAME_SIZE.

(** The entries of the memory map, in the order the loop visits them. *)
Fixpoint mmap_entries (fuel : nat) (m : mem) (cur end_ : Z) : list mmap_entry :=
  match fuel with
  | O => []
  | Datatypes.S n =>
      if cur <? end_ then
        read_entry m cur :: mmap_entries n m (cur + (e_size (read_entry m cur) + 4)) end_
      else []
  end.

(** Frame [f] lies wholly inside the available region [e], above the first
    megabyte and below 1 GB. *)
Definition in_region (e : mmap_entry) (f : Z) : Prop :=
  e_type e = MEM_AVAILABLE /\
  Z.max (e_addr e) 0x100000 <= f * FRAME_SIZE /\
  (f + 1) * FRAME_SIZE <= Z.min (e_addr e + e_len e) PMM_MAX_PHYS.

(** The region ends below [2^64 - 4096], so no address computation wraps. *)
Definition sane (e : mmap_entry) : Prop :=
  0 <= e_addr e /\ 0 <= e_len e /\ e_addr e + e_len e <= 2 ^ 64 - FRAME_SIZE.

Definition no_overlap (e1 e2 : mmap_entry) : Prop :=
  forall f, in_region e1 f -> in_region e2 f -> False.

(** Histories of calls, for statements about several of them. *)
Inductive pmm_op :=
| OpAlloc
| OpFree (phys : Z)
| OpReserve (start end_ : Z).

Definition pmm_exec (o : pmm_op) (st : pmm) : res (Z * pmm) :=
  match o with
  | OpAlloc => pmm_alloc_frame st
  | OpFree p => st' ← pmm_free_frame p st; mret (0, st')
  | OpReserve s e => st' ← pmm_reserve s e st; mret (0, st')
  end.

Fixpoint pmm_run (ops : list pmm_op) (st : pmm) : res (list Z * pmm) :=
  match ops with
  | [] => mret ([], st)
  | o :: ops' =>
      '(r, st1) ← pmm_exec o st;
      '(rs, st2) ← pmm_run ops' st1;
      mret (r :: rs, st2)
  end.

(** The arguments are addresses. *)
Definition op_ok (o : pmm_op) : Prop :=
  match o with
  | OpAlloc => True
  | OpFree p => 0 <= p
  | OpReserve s e => 0 <= s /\ 0 <= e < 2 ^ 63
  end.

(** Concrete inputs.  A state with every frame used but frame 256 (the one at
    1 MB); a one-entry memory map at address 0: 16 KB available at 1 MB. *)
Definition wit_state : pmm :=
  Pmm (<[32%nat := 0xFE]> (replicate (Z.to_nat BITMAP_SIZE) 0xFF)) TOTAL 1 0.

Definition wit_map : mem :=
  store_bytes ∅ 0 (le_bytes 4 20 ++ le_bytes 8 0x100000 ++ le_bytes 8 0x4000 ++ le_bytes 4 1).

(** ** Lemmas: the bitmap as a set *)

Lemma total_bitmap : BITMAP_SIZE * 8 = TOTAL. Proof. reflexivity. Qed.
Lemma frame_size_pos : FRAME_SIZE = 4096. Proof. reflexivity. Qed.

Lemma elem_free_set st f : f ∈ free_set st <-> 0 <= f < TOTAL /\ used st f = false.
Proof.
  unfold free_set. rewrite elem_of_list_to_set, list_elem_of_filter, elem_of_seqZ.
  rewrite Z.add_0_l. tauto.
Qed.

#[global] Opaque free_set.
#[global] Typeclasses Opaque free_set.

Lemma byte_index f : 0 <= f < TOTAL -> 0 <= f / 8 < BITMAP_SIZE.
Proof. change BITMAP_SIZE with 32768. change TOTAL with 262144. intros. zdm. Qed.

Lemma same_bit f g : f / 8 = g / 8 -> f mod 8 = g mod 8 -> f = g.
Proof. intros. zdm. Qed.

Lemma bit_index f : 0 <= f mod 8 < 8.
Proof. zdm. Qed.

Section with_shape.
Context (st : pmm) (Hst : shape st).

Lemma byte_read f : 0 <= f < TOTAL ->
  rd (bitmap st) (f / 8) = Ok (at_ (bitmap st) (f / 8)) /\
  is_byte (at_ (bitmap st) (f / 8)).
Proof.
  intros Hf. pose proof (byte_index f Hf) as Hi. destruct Hst as [Hl Hb _ _].
  destruct (rd_in (bitmap st) (f / 8)) as (x & Hr & Hx); [lia|].
  rewrite rd_at in Hr by lia. injection Hr as <-.
  split; [apply rd_at; lia|]. by eapply Forall_lookup_1 in Hx.
Qed.

Lemma test_bit_used f : 0 <= f < TOTAL -> test_bit st f = Ok (used st f).
Proof.
  intros Hf. unfold test_bit. destruct (byte_read f Hf) as [-> _]. simpl.
  rewrite land_bit_zero by apply bit_index. by rewrite negb_involutive.
Qed.

(** Writing the byte of frame [f] so that only its bit changes, to [b]. *)
Lemma bit_update f v b : 0 <= f < TOTAL -> is_byte v ->
  (forall j, 0 <= j < 8 ->
     Z.testbit v j = if j =? f mod 8 then b else Z.testbit (at_ (bitmap st) (f / 8)) j) ->
  exists bm, wr (bitmap st) (f / 8) (u8 v) = Ok bm /\
    forall n c, 0 <= c < TOTAL -> shape (Pmm bm (total_frames st) n c) /\
    forall g, 0 <= g -> used (Pmm bm (total_frames st) n c) g =
                        if g =? f then b else used st g.
Proof.
  intros Hf Hv Hbit. pose proof (byte_index f Hf) as Hi. destruct Hst as [Hl Hb Ht Hc].
  rewrite u8_small by done. eexists. split; [apply wr_in; lia|].
  intros n c Hcc. split.
  { split; simpl; [by rewrite length_insert| |done|done]. by apply Forall_insert. }
  intros g Hg. unfold used; simpl. rewrite at_insert by (lia || zdm).
  destruct (Z.eqb_spec (g / 8) (f / 8)) as [E|NE].
  - rewrite Hbit by apply bit_index.
    destruct (Z.eqb_spec (g mod 8) (f mod 8)) as [E2|NE2].
    + rewrite (same_bit _ _ E E2), Z.eqb_refl. done.
    + destruct (Z.eqb_spec g f) as [->|?]; [done|]. by rewrite E.
  - destruct (Z.eqb_spec g f) as [->|?]; [done|done].
Qed.

Lemma mark_used_ok f : 0 <= f < TOTAL ->
  exists bm, mark_used st f = Ok (Pmm bm (total_frames st) (u64 (free_frames st - 1)) (cursor st)) /\
    forall n c, 0 <= c < TOTAL -> shape (Pmm bm (total_frames st) n c) /\
    forall g, 0 <= g -> used (Pmm bm (total_frames st) n c) g =
                        if g =? f then true else used st g.
Proof.
  intros Hf. destruct (byte_read f Hf) as [Hr Hb]. pose proof (bit_index f) as Hm.
  destruct (bit_update f (Z.lor (at_ (bitmap st) (f / 8)) (Z.shiftl 1 (f mod 8))) true)
    as (bm & Hw & H); [done|auto with c_int| |].
  { intros j Hj. rewrite testbit_set by lia.
    destruct (j =? f mod 8); [by rewrite orb_true_r|by rewrite orb_false_r]. }
  exists bm. split; [|done]. unfold mark_used. rewrite Hr; simpl. by rewrite Hw.
Qed.

Lemma mark_free_ok f : 0 <= f < TOTAL ->
  exists bm, mark_free st f = Ok (Pmm bm (total_frames st) (u64 (free_frames st + 1)) (cursor st)) /\
    forall n c, 0 <= c < TOTAL -> shape (Pmm bm (total_frames st) n c) /\
    forall g, 0 <= g -> used (Pmm bm (total_frames st) n c) g =
                        if g =? f then false else used st g.
Proof.
  intros Hf. destruct (byte_read f Hf) as [Hr Hb]. pose proof (bit_index f) as Hm.
  destruct (bit_update f (Z.land (at_ (bitmap st) (f / 8)) (Z.lnot (Z.shiftl 1 (f mod 8)))) false)
    as (bm & Hw & H); [done|auto with c_int| |].
  { intros j Hj. rewrite testbit_clear by lia.
    destruct (j =? f mod 8); [by rewrite andb_false_r|by rewrite andb_true_r]. }
  exists bm. split; [|done]. unfold mark_free. rewrite Hr; simpl. by rewrite Hw.
Qed.
End with_shape.

Lemma free_set_used st st' f :
  (forall g, 0 <= g -> used st' g = if g =? f then true else used st g) ->
  free_set st' = free_set st ∖ {[f]}.
Proof.
  intros H. apply set_eq. intros g.
  rewrite elem_of_difference, elem_of_singleton, !elem_free_set.
  split.
  - intros [Hg Hu]. rewrite H in Hu by lia. destruct (Z.eqb_spec g f); [done|tauto].
  - intros [[Hg Hu] Hne]. rewrite H by lia.
    destruct (Z.eqb_spec g f); [done|tauto].
Qed.

Lemma free_set_freed st st' f : 0 <= f < TOTAL ->
  (forall g, 0 <= g -> used st' g = if g =? f then false else used st g) ->
  free_set st' = {[f]} ∪ free_set st.
Proof.
  intros Hf H. apply set_eq. intros g.
  rewrite elem_of_union, elem_of_singleton, !elem_free_set. split.
  - intros [Hg Hu]. rewrite H in Hu by lia. destruct (Z.eqb_spec g f); [tauto|tauto].
  - intros [->|[Hg Hu]].
    + split; [done|]. rewrite H, Z.eqb_refl by lia. done.
    + split; [done|]. rewrite H by lia. by destruct (g =? f).
Qed.

Lemma free_set_size st : 0 <= Z.of_nat (size (free_set st)) <= TOTAL.
Proof.
  split; [lia|].
  assert (free_set st ⊆ list_to_set (seqZ 0 TOTAL)) as Hs.
  { intros g. rewrite elem_free_set, elem_of_list_to_set, elem_of_seqZ. lia. }
  apply subseteq_size in Hs. rewrite size_list_to_set in Hs by apply NoDup_seqZ.
  rewrite length_seqZ in Hs. unfold TOTAL in *. lia.
Qed.

(** The free set only depends on the bitmap. *)
Lemma free_set_bitmap st st' : bitmap st' = bitmap st -> free_set st' = free_set st.
Proof. intros H. apply set_eq. intros g. rewrite !elem_free_set. unfold used. by rewrite H. Qed.

(** Marking a free frame used, with the counter; [c] is the new cursor. *)
Lemma take_frame st f : wf st -> f ∈ free_set st ->
  exists st', mark_used st f = Ok st' /\ cursor st' = cursor st /\ total_frames st' = TOTAL /\
    forall c, 0 <= c < TOTAL ->
      wf (Pmm (bitmap st') TOTAL (free_frames st') c) /\
      free_set (Pmm (bitmap st') TOTAL (free_frames st') c) = free_set st ∖ {[f]}.
Proof.
  intros [Hsh Hc] Hf. pose proof Hf as Hf'. apply elem_free_set in Hf' as [Hr Hu].
  destruct (mark_used_ok st Hsh f Hr) as (bm & -> & H).
  pose proof (shape_total _ Hsh) as Ht. rewrite Ht in *.
  eexists. split; [done|]. split; [done|]. split; [done|]. intros c Hcc. simpl.
  destruct (H (u64 (free_frames st - 1)) c Hcc) as [Hs' Hu'].
  pose proof (free_set_used _ _ _ Hu') as HF. split; [|done].
  split; [done|]. rewrite HF, size_difference, size_singleton by by apply singleton_subseteq_l. simpl.
  rewrite Hc. pose proof (free_set_size st).
  assert (size (free_set st) <> 0%nat).
  { intros E%size_empty_inv. by apply (not_elem_of_empty (C := gset Z) f), E. }
  rewrite u64_small by (unfold TOTAL in *; lia). lia.
Qed.

Lemma give_frame st f : wf st -> 0 <= f < TOTAL -> used st f = true ->
  exists st', mark_free st f = Ok st' /\ cursor st' = cursor st /\
    wf st' /\ free_set st' = {[f]} ∪ free_set st.
Proof.
  intros [Hsh Hc] Hr Hu. destruct (mark_free_ok st Hsh f Hr) as (bm & -> & H).
  pose proof (shape_cursor _ Hsh) as Hcur.
  destruct (H (u64 (free_frames st + 1)) (cursor st) Hcur) as [Hs' Hu'].
  pose proof (free_set_freed _ _ _ Hr Hu') as HF.
  eexists. split; [done|]. split; [done|]. split; [|done]. split; [done|]. simpl.
  rewrite HF, size_union, size_singleton.
  2:{ intros g Hg ?. apply elem_of_singleton in Hg as ->.
      assert (used st f = false) by (by apply elem_free_set). congruence. }
  rewrite Hc. pose proof (free_set_size st).
  rewrite u64_small by (unfold TOTAL in *; lia). lia.
Qed.

Lemma set_used_ok st f : wf st -> 0 <= f < TOTAL ->
  exists st', set_used st f = Ok st' /\ wf st' /\ free_set st' = free_set st ∖ {[f]}.
Proof.
  intros Hwf Hf. unfold set_used. rewrite test_bit_used by (apply Hwf || done). simpl.
  destruct (used st f) eqn:Hu.
  - exists st. split; [done|]. split; [done|].
    assert (f ∉ free_set st) as Hn by (rewrite elem_free_set; intros [_ ?]; congruence).
    apply set_eq. intros g. rewrite elem_of_difference, elem_of_singleton.
    split; [|tauto]. intros Hg. split; [done|]. by intros ->.
  - destruct (take_frame st f) as (st' & E & Hc & Ht & H); [done|by apply elem_free_set|].
    destruct (H (cursor st)) as [H1 H2]; [apply Hwf|]. rewrite <- Hc, <- Ht in H1, H2.
    destruct st'. eauto.
Qed.

(** Reserving frames one by one. *)
Lemma set_used_range st f0 n : wf st -> 0 <= f0 -> f0 + Z.of_nat n <= TOTAL ->
  exists st', for_each n f0 (fun f st => set_used st f) st = Ok st' /\ wf st' /\
    forall g, g ∈ free_set st' <-> g ∈ free_set st /\ ~ (f0 <= g < f0 + Z.of_nat n).
Proof.
  intros Hwf Hf0 Hn.
  apply (for_each_inv (fun f s => wf s /\
    forall g, g ∈ free_set s <-> g ∈ free_set st /\ ~ (f0 <= g < f))).
  - split; [done|]. intros g. split; [|tauto]. intros ?. split; [done|lia].
  - intros j s Hj [Hs Hg]. destruct (set_used_ok s j) as (s' & E & Hs' & HF); [done|lia|].
    exists s'. split; [done|]. split; [done|]. intros g.
    rewrite HF, elem_of_difference, elem_of_singleton, Hg. split.
    + intros [[? ?] ?]. split; [done|lia].
    + intros [? ?]. repeat split; [done|lia|lia].
Qed.

(** ** The allocator's operations *)

Lemma alloc_frame_ok st : wf st ->
  exists r st', pmm_alloc_frame st = Ok (r, st') /\ wf st' /\
    alloc_spec (free_set st) r (free_set st') /\ next_fit st r st'.
Proof.
  intros Hwf. pose proof Hwf as [[_ _ Ht Hcur] _]. unfold pmm_alloc_frame. rewrite Ht.
  assert (0 < TOTAL) as HT by done.
  match goal with |- context [for_loop ?n0 ?i0 ?b0 ?s0] =>
    destruct (for_loop_inv
      (fun i s => s = st /\ forall j, 0 <= j < i -> used st ((cursor st + j) mod TOTAL) = true)
      (fun r => wf (snd r) /\ next_fit st (fst r) (snd r) /\
                 exists f, f ∈ free_set st /\ fst r = f * FRAME_SIZE /\
                 free_set (snd r) = free_set st ∖ {[f]})
      n0 i0 b0 s0) as [(s' & -> & -> & Hall)|([r st'] & -> & Hw & Hnf & f & Hf & Hr & HF)]
  end.
  - split; [done|lia].
  - intros j s Hj [-> Hall]. rewrite Ht.
    pose proof (Z.mod_pos_bound (cursor st + j) TOTAL HT) as Hb.
    rewrite test_bit_used by (apply Hwf || done). simpl.
    destruct (used st _) eqn:Hu.
    + left. exists st. split; [done|]. split; [done|]. intros k Hk.
      destruct (decide (k = j)) as [->|?]; [done|]. apply Hall. lia.
    + right. set (f := (cursor st + j) mod TOTAL) in *.
      destruct (take_frame st f) as (st1 & -> & Hc & Ht1 & H); [done|by apply elem_free_set|].
      simpl. eexists. split; [done|]. simpl. rewrite Ht1.
      destruct (H ((f + 1) mod TOTAL)) as [H1 H2]; [apply Z.mod_pos_bound; done|].
      split; [done|]. split.
      { right. exists j. split; [lia|]. split; [done|]. split; [done|]. done. }
      exists f. split; [by apply elem_free_set|]. done.
  - simpl. exists 0, st. split; [done|]. split; [done|]. split; [|by left].
    left. split; [|done].
    apply elem_of_equiv_empty_L. intros g. rewrite elem_free_set. intros [Hg Hu].
    pose proof (Z.mod_pos_bound (g - cursor st) TOTAL HT).
    specialize (Hall ((g - cursor st) mod TOTAL)).
    rewrite Z.add_mod_idemp_r in Hall by lia.
    replace (cursor st + (g - cursor st)) with g in Hall by lia.
    rewrite (Z.mod_small g) in Hall by done. rewrite Hall in Hu; [done|].
    rewrite Z2Nat.id by lia. lia.
  - simpl. exists r, st'. simpl in *. split; [done|]. split; [done|].
    split; [right; eauto|done].
Qed.

Lemma elem_low X st f : f ∈ low X st <-> f ∈ free_set st /\ cursor st <= f < X.
Proof. unfold low. rewrite elem_of_filter. tauto. Qed.

(** An allocation takes a frame below [X] while there is one. *)
Lemma alloc_low st r st' X : wf st -> X < TOTAL -> (0 < size (low X st))%nat ->
  next_fit st r st' -> alloc_spec (free_set st) r (free_set st') -> ~ (0 ∈ free_set st) ->
  exists f, r = f * FRAME_SIZE /\ f ∈ low X st /\ low X st' = low X st ∖ {[f]}.
Proof.
  intros Hwf HX Hsz Hnf Hs H0. pose proof (shape_cursor _ Hwf) as Hc.
  destruct Hs as [(He & _ & _)|(f & Hf & -> & HF)].
  { apply size_pos_elem_of in Hsz as [g Hg]. apply elem_low in Hg as [Hg _]. rewrite He in Hg. by apply elem_of_empty in Hg. }
  assert (f <> 0) as Hf0 by (by intros ->). assert (f * FRAME_SIZE <> 0) as Hne by (unfold FRAME_SIZE; lia).
  destruct Hnf as [?|(i & Hi & Hfi & Hall & Hcur)]; [done|]. assert (f = (cursor st + i) mod TOTAL) as E by (unfold FRAME_SIZE in Hfi; lia).
  destruct (size_pos_elem_of (low X st)) as [g Hg]; [done|]. apply elem_low in Hg as [Hg Hgr].
  assert (i <= g - cursor st) as Hig.
  { destruct (decide (i <= g - cursor st)) as [|Hn]; [done|]. specialize (Hall (g - cursor st) ltac:(lia)).
    replace (cursor st + (g - cursor st)) with g in Hall by lia. rewrite Z.mod_small in Hall by lia.
    apply elem_free_set in Hg as [_ Hg]. congruence. }
  rewrite <- E in Hcur. rewrite Z.mod_small in E by lia. rewrite Z.mod_small in Hcur by lia.
  exists f. split; [done|]. split; [apply elem_low; split; [done|lia]|]. apply set_eq. intros h.
  rewrite elem_of_difference, elem_of_singleton, !elem_low, HF, elem_of_difference, elem_of_singleton, Hcur. split.
  - intros [[H1 H2] H3]. split; [split; [done|lia]|done].
  - intros [[H1 H2] H3]. split; [done|]. split; [|lia].
    destruct (decide (h < f)) as [Hlt|]; [|lia]. specialize (Hall (h - cursor st) ltac:(lia)).
    replace (cursor st + (h - cursor st)) with h in Hall by lia. rewrite Z.mod_small in Hall by lia.
    apply elem_free_set in H1 as [_ H1]. congruence.
Qed.

Lemma takes_0 st : takes 0 st st.
Proof. split; [done|]. split; [lia|]. intros X _ _. split; [done|lia]. Qed.

Lemma takes_weaken j k st st' : (j <= k)%nat -> takes j st st' -> takes k st st'.
Proof.
  intros Hjk (H1 & H2 & H3). split; [done|]. split; [lia|]. intros X HX Hk. destruct (H3 X HX) as [H4 H5]; [lia|].
  split; [done|lia].
Qed.

Lemma takes_trans j k st1 st2 st3 : takes j st1 st2 -> takes k st2 st3 -> takes (j + k) st1 st3.
Proof.
  intros (A1 & A2 & A3) (B1 & B2 & B3). split; [by transitivity (free_set st2)|]. split; [lia|]. intros X HX Hk.
  destruct (A3 X HX) as [A4 A5]; [lia|]. destruct (B3 X HX) as [B4 B5]; [lia|]. split; [by transitivity (low X st2)|lia].
Qed.

Lemma takes_alloc st r st' : wf st -> ~ (0 ∈ free_set st) -> next_fit st r st' ->
  alloc_spec (free_set st) r (free_set st') -> r <> 0 -> takes 1 st st'.
Proof.
  intros Hwf H0 Hnf Hs Hr. pose proof Hs as [(_ & ? & _)|(f & Hf & -> & HF)]; [done|]. split; [|split].
  - rewrite HF. by apply subseteq_difference_l.
  - rewrite HF, size_difference, size_singleton by by apply singleton_subseteq_l. lia.
  - intros X HX Hsz. destruct (alloc_low st (f * FRAME_SIZE) st' X Hwf HX ltac:(lia) Hnf Hs H0) as (g & _ & Hg & ->).
    split; [by apply subseteq_difference_l|]. rewrite size_difference, size_singleton by by apply singleton_subseteq_l. lia.
Qed.

Lemma free_frame_ok st phys : wf st -> 0 <= phys ->
  exists st', pmm_free_frame phys st = Ok st' /\ wf st' /\
    free_spec (free_set st) phys (free_set st').
Proof.
  intros Hwf Hp. unfold pmm_free_frame, free_spec. rewrite (shape_total _ Hwf).
  assert (0 <= phys / FRAME_SIZE) by (unfold FRAME_SIZE; zdm).
  destruct (Z.ltb_spec (phys / FRAME_SIZE) TOTAL).
  - rewrite test_bit_used by (apply Hwf || lia). simpl. rewrite decide_True by done.
    destruct (used st _) eqn:Hu.
    + destruct (give_frame st (phys / FRAME_SIZE)) as (st' & ? & ? & ? & ?); [done..|]. eauto.
    + exists st. split; [done|]. split; [done|].
      assert (phys / FRAME_SIZE ∈ free_set st) as Hin by (by apply elem_free_set).
      apply set_eq. intros g. rewrite elem_of_union, elem_of_singleton.
      split; [tauto|]. by intros [->|?].
  - exists st. rewrite decide_False by lia. eauto.
Qed.

Lemma reserve_ok st start end_ : wf st -> 0 <= start -> 0 <= end_ < 2 ^ 63 ->
  exists st', pmm_reserve start end_ st = Ok st' /\ wf st' /\
    forall g, g ∈ free_set st' <-> g ∈ free_set st /\ ~ touches start end_ g.
Proof.
  intros Hwf Hs He. unfold pmm_reserve, touches. rewrite (shape_total _ Hwf).
  rewrite u64_small by (unfold FRAME_SIZE; lia).
  assert (0 <= start / FRAME_SIZE) by (unfold FRAME_SIZE; zdm).
  set (f0 := start / FRAME_SIZE) in *. set (f1 := (end_ + FRAME_SIZE - 1) / FRAME_SIZE).
  destruct (Z.leb_spec TOTAL f0).
  - exists st. split; [done|]. split; [done|]. intros g. split; [|tauto].
    intros Hg. split; [done|]. apply elem_free_set in Hg. lia.
  - set (f1' := if TOTAL <? f1 then TOTAL else f1).
    assert (f1' <= TOTAL) by (unfold f1'; destruct (Z.ltb_spec TOTAL f1); lia).
    destruct (set_used_range st f0 (Z.to_nat (f1' - f0))) as (st' & E & Hw & H'); [done|lia|lia|].
    exists st'. split; [done|]. split; [done|]. intros g. rewrite H'. split; intros [Hg Hn].
    + split; [done|]. apply elem_free_set in Hg as [Hg _].
      unfold f1' in *. destruct (Z.ltb_spec TOTAL f1); lia.
    + split; [done|]. unfold f1' in *. destruct (Z.ltb_spec TOTAL f1); lia.
Qed.

(** ** Initialisation *)

Lemma region_frames_spec e : sane e -> e_type e = MEM_AVAILABLE ->
  let '(f0, f1) := region_frames e in
  0 <= f0 /\ (f1 <= f0 \/ f1 <= TOTAL) /\ forall f, f0 <= f < f1 <-> in_region e f.
Proof.
  unfold sane, in_region, region_frames, FRAME_SIZE, PMM_MAX_PHYS, TOTAL.
  intros (Ha & Hl & Hs) ->. set (a := e_addr e) in *. set (l := e_len e) in *.
  destruct (Z.ltb_spec a 0x100000); [destruct (Z.leb_spec l (0x100000 - a))|].
  all: cbv beta iota zeta; change (2 ^ 64) with 18446744073709551616 in *.
  all: match goal with |- context [?x <? u64 ?y] => rewrite (u64_small y) by lia end.
  all: match goal with |- context [?x <? ?y] => destruct (Z.ltb_spec x y) end.
  all: try match goal with |- context [?x <=? ?y] => destruct (Z.leb_spec x y) end.
  all: rewrite !u64_small by lia.
  all: split_and!; [zdm|zdm|intros f; split; intros; zdm].
Qed.

Lemma init_region_ok e st : shape st -> sane e ->
  exists st', init_region e st = Ok st' /\ shape st' /\
    (forall g, 0 <= g < TOTAL -> used st' g = false <-> used st g = false \/ in_region e g) /\
    (wf st -> (forall f, in_region e f -> used st f = true) -> wf st').
Proof.
  intros Hsh Hs. unfold init_region. destruct (Z.eqb_spec (e_type e) MEM_AVAILABLE) as [He|He].
  2:{ exists st. split; [done|]. split; [done|]. split; [|done].
      intros g Hg. split; [tauto|]. intros [?|[? _]]; done. }
  pose proof (region_frames_spec e Hs He) as Hr.
  destruct (region_frames e) as [f0 f1]. destruct Hr as (H0 & H1 & Hr).
  destruct (for_each_inv (fun j s => shape s /\
    (forall g, 0 <= g < TOTAL -> used s g = false <-> used st g = false \/ f0 <= g < j) /\
    (wf st -> (forall f, in_region e f -> used st f = true) -> wf s))
    (Z.to_nat (f1 - f0)) f0 (fun f st => mark_free st f) st) as (s' & E & Hs' & Hg & Hw).
  - split; [done|]. split; [|done]. intros g Hg. split; [tauto|]. intros [?|?]; [done|lia].
  - intros j s Hj (Hss & Hg & Hw). assert (0 <= j < TOTAL) as Hjr by lia.
    destruct (mark_free_ok s Hss j Hjr) as (bm & Em & Hm).
    destruct (Hm (u64 (free_frames s + 1)) (cursor s)) as [Hs1 Hu1]; [apply Hss|].
    eexists. split; [exact Em|]. split; [done|]. split.
    + intros g Hgr. rewrite Hu1 by lia. destruct (Z.eqb_spec g j) as [->|?].
      * split; [intros _; right; lia|done].
      * rewrite Hg by done. split; intros [?|?]; try tauto; right; lia.
    + intros Hwf Hused. specialize (Hw Hwf Hused).
      assert (used s j = true) as Huj.
      { apply not_false_is_true. rewrite Hg by done. intros [Hf|?]; [|lia].
        rewrite Hused in Hf; [done|]. apply Hr. lia. }
      destruct (give_frame s j Hw Hjr Huj) as (s2 & E2 & _ & Hw2 & _).
      rewrite Em in E2. injection E2 as <-. exact Hw2.
  - exists s'. split; [done|]. split; [done|]. split; [|done].
    intros g Hgr. rewrite Hg by done. rewrite <- Hr. split; intros [?|?]; try tauto; right; lia.
Qed.

Lemma mmap_entry_size m cur : 0 <= e_size (read_entry m cur).
Proof. apply load32_range. Qed.

(** The loop over the memory map ends within [mmap_len + 1] iterations. *)
Lemma init_regions_ok fuel m cur end_ st :
  Z.max 0 (end_ - cur) < Z.of_nat fuel -> shape st ->
  Forall sane (mmap_entries fuel m cur end_) ->
  exists st', init_regions fuel m cur end_ st = Ok st' /\ shape st' /\
    (forall g, 0 <= g < TOTAL -> used st' g = false <->
       used st g = false \/ exists e, e ∈ mmap_entries fuel m cur end_ /\ in_region e g) /\
    (wf st -> (forall e f, e ∈ mmap_entries fuel m cur end_ -> in_region e f -> used st f = true) ->
     ForallOrdPairs no_overlap (mmap_entries fuel m cur end_) -> wf st').
Proof.
  unfold init_regions. revert cur st.
  induction fuel as [|fuel IH]; intros cur st Hf Hsh Hsane.
  - exfalso. lia.
  - cbn [while_loop mmap_entries] in *. destruct (Z.ltb_spec cur end_) as [Hlt|Hge].
    2:{ simpl. exists st. split; [done|]. split; [done|]. split; [|done].
        intros g Hg. split; [tauto|]. intros [?|(e & Hin & _)]; [done|]. by apply elem_of_nil in Hin. }
    apply Forall_cons in Hsane as [Hse Hsr].
    destruct (init_region_ok (read_entry m cur) st Hsh Hse) as (s1 & E1 & Hs1 & Hu1 & Hw1).
    rewrite E1. simpl.
    pose proof (mmap_entry_size m cur) as Hsz.
    destruct (IH (cur + (e_size (read_entry m cur) + 4)) s1) as (s2 & E2 & Hs2 & Hu2 & Hw2);
      [lia|done|exact Hsr|].
    exists s2. split; [exact E2|]. split; [done|]. split.
    + intros g Hg. rewrite Hu2, Hu1 by done. setoid_rewrite elem_of_cons.
      split; [intros [[?|?]|(e & ? & ?)]; eauto|intros [?|(e & [->|?] & ?)]; eauto].
    + intros Hwf Hused Hov. inversion Hov as [|? ? Hhd Htl]; subst.
      apply Hw2; [| |done].
      * apply Hw1; [done|]. intros f Hin. eapply Hused; [by left|done].
      * intros e f He Hin. apply not_false_is_true. rewrite Hu1.
        -- intros [Hx|Hx]; [rewrite (Hused e f) in Hx; [done|by right|done]|].
           rewrite Forall_forall in Hhd. by eapply Hhd.
        -- destruct Hin as (_ & ? & ?). unfold FRAME_SIZE, PMM_MAX_PHYS, TOTAL in *. lia.
Qed.

Lemma reset_wf st : Z.of_nat (length (bitmap st)) = BITMAP_SIZE ->
  let st0 := Pmm ((fun _ => 0xFF) <$> bitmap st) TOTAL 0 0 in
  wf st0 /\ forall g, 0 <= g < TOTAL -> used st0 g = true.
Proof.
  intros Hl st0.
  assert (forall g, 0 <= g < TOTAL -> used st0 g = true) as Hu.
  { intros g Hg. unfold used, st0, at_; cbn [bitmap]. rewrite nth_lookup, list_lookup_fmap.
    pose proof (byte_index g Hg).
    destruct (lookup_lt_is_Some_2 (bitmap st) (Z.to_nat (g / 8))) as [x ->]; [lia|].
    change 255 with (Z.ones 8). simpl. change 255 with (Z.ones 8).
    apply Z.ones_spec_low. apply bit_index. }
  split; [|done]. split; [split|].
  - unfold st0; cbn [bitmap]. by rewrite length_fmap.
  - unfold st0; cbn [bitmap]. apply Forall_fmap, Forall_true. intros x. by split.
  - done.
  - done.
  - replace (free_set st0) with (∅ : gset Z); [by rewrite size_empty|].
    symmetry. apply elem_of_equiv_empty_L. intros g. rewrite elem_free_set.
    intros [Hg Hf]. rewrite Hu in Hf; done.
Qed.

Lemma pmm_init_ok kstart kend m mmap_addr mmap_len st :
  Z.of_nat (length (bitmap st)) = BITMAP_SIZE ->
  0 <= kstart -> 0 <= kend <= PMM_MAX_PHYS -> 0 <= mmap_len ->
  let es := mmap_entries (Datatypes.S (Z.to_nat mmap_len)) m mmap_addr (mmap_addr + mmap_len) in
  Forall sane es -> ForallOrdPairs no_overlap es ->
  exists st', pmm_init kstart kend m mmap_addr mmap_len st = Ok st' /\ wf st' /\
    forall f, f ∈ free_set st' <->
      (exists e, e ∈ es /\ in_region e f) /\ ~ touches kstart kend f.
Proof.
  intros Hl Hk0 Hk1 Hml es Hsane Hov. unfold pmm_init.
  change (PMM_MAX_PHYS / FRAME_SIZE) with TOTAL.
  destruct (reset_wf st Hl) as [Hwf0 Hu0]. set (st0 := Pmm _ TOTAL 0 0) in *.
  destruct (init_regions_ok (Datatypes.S (Z.to_nat mmap_len)) m mmap_addr (mmap_addr + mmap_len) st0)
    as (s1 & -> & Hs1 & Hu1 & Hw1); [lia|apply Hwf0|done|].
  assert (forall e f, in_region e f -> 0 <= f < TOTAL) as Hreg.
  { intros e f (_ & ? & ?). unfold FRAME_SIZE, PMM_MAX_PHYS, TOTAL in *. lia. }
  assert (wf s1) as Hwf1.
  { apply Hw1; [done| |done]. intros e f _ Hin. apply Hu0. by eapply Hreg. }
  simpl. unfold touches. rewrite u64_small by (unfold FRAME_SIZE, PMM_MAX_PHYS in *; lia).
  set (k0 := kstart / FRAME_SIZE). set (k1 := (kend + FRAME_SIZE - 1) / FRAME_SIZE).
  assert (0 <= k0 /\ k1 <= TOTAL) as [? ?]
    by (unfold k0, k1, FRAME_SIZE, PMM_MAX_PHYS, TOTAL in *; split; zdm).
  assert (forall g, g ∈ free_set s1 <-> exists e, e ∈ es /\ in_region e g) as HF1.
  { intros g. rewrite elem_free_set. split.
    - intros [Hg Hf]. apply Hu1 in Hf as [Hf|?]; [|done|done]. by rewrite Hu0 in Hf.
    - intros (e & He & Hin). split; [by eapply Hreg|]. apply Hu1; [by eapply Hreg|eauto]. }
  destruct (decide (k0 < k1)) as [Hlt|Hge].
  - destruct (set_used_range s1 k0 (Z.to_nat (k1 - k0))) as (s' & E & Hw & Hg); [done|lia|lia|].
    exists s'. split; [done|]. split; [done|]. intros f. rewrite Hg, HF1.
    split; intros [? ?]; (split; [done|lia]).
  - replace (Z.to_nat (k1 - k0)) with 0%nat by lia. simpl. exists s1.
    split; [done|]. split; [done|]. intros f. rewrite HF1. split; [|tauto].
    intros ?. split; [done|lia].
Qed.

(** ** Histories *)

(** Where the next search starts: only an allocation moves it. *)
Lemma mark_cursor st f st' : mark_used st f = Ok st' \/ mark_free st f = Ok st' -> cursor st' = cursor st.
Proof. unfold mark_used, mark_free. intros [E|E]; by res_inv. Qed.

Lemma set_used_cursor st f st' : set_used st f = Ok st' -> cursor st' = cursor st.
Proof.
  unfold set_used. intros E. apply res_bind_inv in E as ([] & _ & E); [by injection E as ->|]. apply (mark_cursor _ f). by left.
Qed.

Lemma reserve_cursor start end_ st st' : pmm_reserve start end_ st = Ok st' -> cursor st' = cursor st.
Proof.
  unfold pmm_reserve. destruct (_ <=? _); [by intros [= ->]|].
  intros E. eapply (for_each_keeps (fun s => cursor s = cursor st)); [|exact E|done].
  intros j s s' Es <-. exact (set_used_cursor _ _ _ Es).
Qed.

Lemma init_cursor kstart kend m a n st st' : pmm_init kstart kend m a n st = Ok st' -> cursor st' = 0.
Proof.
  unfold pmm_init. intros E. apply res_bind_inv in E as (s1 & E1 & E2).
  assert (cursor s1 = 0) as H1.
  { unfold init_regions in E1. eapply (while_loop_keeps (fun s : Z * pmm => cursor s.2 = 0) (fun s => cursor s = 0)); [|exact E1|done].
    intros [c s] r Eb Hs. cbn [snd] in Hs. destruct (c <? a + n); [|by injection Eb as <-].
    apply res_bind_inv in Eb as (s' & E0 & [= <-]). cbn [snd]. unfold init_region in E0.
    destruct (_ =? _); [|by injection E0 as <-]. destruct (region_frames _) as [f0 f1].
    eapply (for_each_keeps (fun s => cursor s = 0)); [|exact E0|done]. intros j s1' s2 Es <-. apply (mark_cursor _ j). by right. }
  eapply (for_each_keeps (fun s => cursor s = 0)); [|exact E2|done]. intros j s2 s3 Es <-. exact (set_used_cursor _ _ _ Es).
Qed.

(** A call that is not a free of [f] cannot make [f] free, and an allocation
    only returns free frames. *)
Lemma exec_ok o st f : wf st -> op_ok o -> (forall p, o = OpFree p -> p / FRAME_SIZE <> f) ->
  exists r st', pmm_exec o st = Ok (r, st') /\ wf st' /\
    (f ∉ free_set st -> f ∉ free_set st') /\
    (r <> 0 -> r / FRAME_SIZE ∈ free_set st).
Proof.
  intros Hwf Hok Hf. destruct o as [|p|s e]; simpl in *.
  - destruct (alloc_frame_ok st Hwf) as (r & st' & -> & Hw & Hs & _).
    exists r, st'. split; [done|]. split; [done|].
    destruct Hs as [(_ & -> & ->)|(g & Hg & -> & ->)]; [done|].
    split; [intros ? ?%elem_of_difference; tauto|].
    unfold FRAME_SIZE. by rewrite Z.div_mul by lia.
  - destruct (free_frame_ok st p Hwf Hok) as (st' & -> & Hw & Hs).
    exists 0, st'. split; [done|]. split; [done|]. split; [|done].
    rewrite Hs. intros Hn. case_decide; [|done].
    rewrite elem_of_union, elem_of_singleton. intros [->|?]; [|done]. by eapply Hf.
  - destruct Hok as [H1 H2]. destruct (reserve_ok st s e Hwf H1 H2) as (st' & -> & Hw & Hs).
    exists 0, st'. split; [done|]. split; [done|]. split; [|done].
    intros Hn. rewrite Hs. tauto.
Qed.

Lemma run_not_free ops st f : wf st -> Forall op_ok ops -> f ∉ free_set st ->
  (forall p, OpFree p ∈ ops -> p / FRAME_SIZE <> f) ->
  exists rs st', pmm_run ops st = Ok (rs, st') /\ wf st' /\
    forall r, r ∈ rs -> r <> 0 -> r / FRAME_SIZE <> f.
Proof.
  revert st. induction ops as [|o ops IH]; intros st Hwf Hok Hn Hf; simpl.
  - exists [], st. split; [done|]. split; [done|]. intros r Hr. by apply elem_of_nil in Hr.
  - apply Forall_cons in Hok as [Ho Hok].
    destruct (exec_ok o st f) as (r & st1 & -> & Hw1 & Hn1 & Hr1); [done|done| |].
    { intros p ->. apply Hf. by left. }
    destruct (IH st1) as (rs & st2 & E2 & Hw2 & Hr2); [done|done|by apply Hn1| |].
    { intros p Hp. apply Hf. by right. }
    simpl. rewrite E2. simpl. exists (r :: rs), st2. split; [done|]. split; [done|].
    intros r' [->|?]%elem_of_cons ?; [|by apply Hr2]. intros <-. by apply Hn, Hr1.
Qed.

(** ** Properties *)

(** C10. The frame allocator refines the set of free frames: from a
    well-formed state [pmm_alloc_frame] returns, keeps the invariant (the
    counter stays the number of free frames), and either the set was empty
    and it returns 0, or it takes one frame out of the set and returns its
    address; the frame is the first free one at or after the cursor. *)
Theorem pmm_alloc_frame_refines st : wf st ->
  exists r st', pmm_alloc_frame st = Ok (r, st') /\ wf st' /\
    alloc_spec (free_set st) r (free_set st') /\ next_fit st r st'.
Proof. apply alloc_frame_ok. Qed.

(** C18. No frame is handed out twice: after [pmm_alloc_frame] has returned a
    frame, any history of calls that does not free that frame runs without
    leaving the bitmap and never returns the frame again. *)
Theorem pmm_no_double_alloc st r st1 ops :
  wf st -> pmm_alloc_frame st = Ok (r, st1) -> r <> 0 ->
  Forall op_ok ops -> (forall p, OpFree p ∈ ops -> p / FRAME_SIZE <> r / FRAME_SIZE) ->
  exists rs st2, pmm_run ops st1 = Ok (rs, st2) /\ wf st2 /\ r ∉ rs.
Proof.
  intros Hwf E Hr Hok Hf.
  destruct (alloc_frame_ok st Hwf) as (r' & st' & E' & Hw & Hs & _).
  rewrite E in E'. injection E' as <- <-.
  destruct Hs as [(_ & ? & _)|(f & Hin & -> & HF)]; [done|].
  assert (f * FRAME_SIZE / FRAME_SIZE = f) as Hd by (unfold FRAME_SIZE; by rewrite Z.div_mul by lia).
  destruct (run_not_free ops st1 f) as (rs & st2 & E2 & Hw2 & Hr2); [done|done| | |].
  - rewrite HF, elem_of_difference, elem_of_singleton. tauto.
  - by rewrite <- Hd.
  - exists rs, st2. split; [done|]. split; [done|]. intros Hin2. by apply (Hr2 _ Hin2).
Qed.

(** C29. [pmm_init] on any memory map whose available regions do not overlap
    or wrap: the loop over the map ends, every bitmap access is in range, the
    invariant holds, and a frame is free exactly when it lies wholly inside
    an available region between 1 MB and 1 GB and holds no byte of the
    kernel image. *)
Theorem pmm_init_free kstart kend m mmap_addr mmap_len st :
  Z.of_nat (length (bitmap st)) = BITMAP_SIZE ->
  0 <= kstart -> 0 <= kend <= PMM_MAX_PHYS -> 0 <= mmap_len ->
  let es := mmap_entries (Datatypes.S (Z.to_nat mmap_len)) m mmap_addr (mmap_addr + mmap_len) in
  Forall sane es -> ForallOrdPairs no_overlap es ->
  exists st', pmm_init kstart kend m mmap_addr mmap_len st = Ok st' /\ wf st' /\
    forall f, f ∈ free_set st' <->
      (exists e, e ∈ es /\ in_region e f) /\ ~ touches kstart kend f.
Proof. apply pmm_init_ok. Qed.

(** Freeing and reserving refine set union and difference: freeing an
    address below 1 GB makes exactly its frame free (twice or not),
    above it nothing changes; reserving a byte range makes exactly the frames
    it touches used.  Both keep the invariant. *)
Theorem pmm_free_reserve_refine st p start end_ :
  wf st -> 0 <= p -> 0 <= start -> 0 <= end_ < 2 ^ 63 ->
  (exists st', pmm_free_frame p st = Ok st' /\ wf st' /\
     free_spec (free_set st) p (free_set st')) /\
  (exists st', pmm_reserve start end_ st = Ok st' /\ wf st' /\
     forall g, g ∈ free_set st' <-> g ∈ free_set st /\ ~ touches start end_ g).
Proof. intros. split; [by apply free_frame_ok|by apply reserve_ok]. Qed.


(** ** Witnesses *)

Lemma wit_state_used f : 0 <= f < TOTAL -> used wit_state f = negb (f =? 256).
Proof.
  intros Hf. unfold used, wit_state; cbn [bitmap].
  change (32%nat) with (Z.to_nat 32).
  rewrite at_insert; [|by rewrite length_replicate, Z2Nat.id|zdm].
  destruct (Z.eqb_spec (f / 8) 32) as [E|E].
  - assert (f mod 8 = 0 \/ f mod 8 = 1 \/ f mod 8 = 2 \/ f mod 8 = 3 \/ f mod 8 = 4 \/
            f mod 8 = 5 \/ f mod 8 = 6 \/ f mod 8 = 7) as Hm by zdm.
    destruct (Z.eqb_spec f 256) as [->|?]; [done|].
    destruct Hm as [Hm|Hm]; [exfalso; zdm|].
    by destruct Hm as [->|[->|[->|[->|[->|[->| ->]]]]]].
  - unfold at_. rewrite nth_lookup, lookup_replicate_2 by (pose proof (byte_index f Hf); lia).
    destruct (Z.eqb_spec f 256) as [->|?]; [done|]. simpl.
    change 255 with (Z.ones 8). apply Z.ones_spec_low, bit_index.
Qed.

Lemma wit_state_free : free_set wit_state = {[256]}.
Proof.
  apply set_eq. intros g. rewrite elem_of_singleton, elem_free_set. split.
  - intros [Hg Hu]. rewrite wit_state_used in Hu by done.
    by apply negb_false_iff, Z.eqb_eq in Hu.
  - intros ->. by rewrite wit_state_used.
Qed.

Lemma wit_state_wf : wf wit_state.
Proof.
  split; [split|].
  - unfold wit_state; cbn [bitmap]. rewrite length_insert, length_replicate.
    by apply Z2Nat.id.
  - unfold wit_state; cbn [bitmap]. apply Forall_insert; [|done]. by apply Forall_replicate.
  - done.
  - done.
  - by rewrite wit_state_free, size_singleton.
Qed.

Lemma pmm_alloc_frame_refines_witness :
  wf wit_state /\ exists r st', pmm_alloc_frame wit_state = Ok (r, st') /\ wf st' /\
    alloc_spec (free_set wit_state) r (free_set st') /\ next_fit wit_state r st'.
Proof.
  split; [exact wit_state_wf|]. apply (pmm_alloc_frame_refines wit_state), wit_state_wf.
Defined.

Lemma pmm_no_double_alloc_witness :
  exists st1, pmm_alloc_frame wit_state = Ok (0x100000, st1) /\
  exists rs st2, pmm_run [OpAlloc; OpReserve 0 8192; OpFree 0x200000; OpAlloc] st1 = Ok (rs, st2)
    /\ wf st2 /\ 0x100000 ∉ rs.
Proof.
  assert (match pmm_alloc_frame wit_state with Ok (r, _) => r = 0x100000 | _ => False end) as H
    by (vm_compute; reflexivity).
  destruct (pmm_alloc_frame wit_state) as [[r st1]| |] eqn:E; [subst r|destruct H..].
  exists st1. split; [done|].
  apply (pmm_no_double_alloc wit_state 0x100000 st1); [exact wit_state_wf|exact E|done| |].
  - repeat constructor; simpl; lia.
  - intros p Hp. rewrite !elem_of_cons, elem_of_nil in Hp.
    destruct Hp as [Hp|[Hp|[Hp|[Hp|Hp]]]]; [discriminate Hp..| |discriminate Hp|destruct Hp].
    injection Hp as ->. vm_compute. discriminate.
Defined.

Lemma pmm_init_free_witness :
  exists st', pmm_init 0x100000 0x101000 wit_map 0 24 pmm_boot = Ok st' /\ wf st' /\
    forall f, f ∈ free_set st' <->
      (exists e, e ∈ [MmapEntry 20 0x100000 0x4000 1] /\ in_region e f) /\
      ~ touches 0x100000 0x101000 f.
Proof.
  assert (mmap_entries (Datatypes.S (Z.to_nat 24)) wit_map 0 (0 + 24) =
          [MmapEntry 20 0x100000 0x4000 1]) as E by (vm_compute; reflexivity).
  pose proof (pmm_init_free 0x100000 0x101000 wit_map 0 24 pmm_boot) as H.
  cbv zeta in H. rewrite E in H. apply H; clear H.
  - unfold pmm_boot; cbn [bitmap]. rewrite length_replicate. by apply Z2Nat.id.
  - lia.
  - unfold PMM_MAX_PHYS; lia.
  - lia.
  - constructor; [|constructor]. unfold sane, FRAME_SIZE; simpl e_addr; simpl e_len.
    change (2 ^ 64) with 18446744073709551616. lia.
  - constructor; constructor.
Defined.

Lemma pmm_free_reserve_refine_witness :
  (exists st', pmm_free_frame 0x200000 wit_state = Ok st' /\ wf st' /\
     free_spec (free_set wit_state) 0x200000 (free_set st')) /\
  (exists st', pmm_reserve 0x100010 0x100020 wit_state = Ok st' /\ wf st' /\
     forall g, g ∈ free_set st' <-> g ∈ free_set wit_state /\ ~ touches 0x100010 0x100020 g).
Proof. apply (pmm_free_reserve_refine wit_state); [exact wit_state_wf|lia..]. Defined.
