(* ===== verification/Vmm.v ===== *)
(** * Page tables ([arch/x86_64/vmm.c], and the tables [arch/x86_64/boot.S] builds)

    Four-level x86-64 page tables in physical memory, allocated from the frame
    allocator.  A table is an aligned 4 KB frame of 512 entries; the kernel
    reaches it through the identity mapping, so the model reads and writes
    entries at physical addresses.  [flush_all] reloads [cr3] and has no
    counterpart: the model has no TLB. *)
From S2P Require Import Prelude Mem Pmm.

(** ** Constants and state *)
Definition PTE_P : Z := 0x001.
Definition PTE_W : Z := 0x002.
Definition PTE_U : Z := 0x004.
Definition PT_ENTRIES : nat := 512.

Record vmm := Vmm { vm_mem : mem; vm_pmm : pmm }.

(** [x & ~0xFFFUL], [x & ~0x1FFFFFUL]. *)
Definition align4k (x : Z) : Z := Z.land x (Z.lnot 0xFFF).
Definition align2m (x : Z) : Z := Z.land x (Z.lnot 0x1FFFFF).

(** [(virt >> (12 + 9 * level)) & 0x1FF]. *)
Definition idx (virt level : Z) : Z := Z.land (Z.shiftr virt (12 + 9 * level)) 0x1FF.

(** [e & PTE_P], [e & 0x80]. *)
Definition present (e : Z) : bool := negb (Z.land e PTE_P =? 0).
Definition large (e : Z) : bool := negb (Z.land e 0x80 =? 0).

(** [t[i]] and [t[i] = v] for a table [uint64_t *t]. *)
Definition ent (m : mem) (t i : Z) : Z := load64 m (t + 8 * i).
Definition set_ent (m : mem) (t i v : Z) : mem := store64 m (t + 8 * i) v.
Definition vm_set (st : vmm) (t i v : Z) : vmm :=
  Vmm (set_ent (vm_mem st) t i v) (vm_pmm st).

(** [for (int i = 0; i < PT_ENTRIES; i++) t[i] = f(i)]. *)
Fixpoint fill (n : nat) (i : Z) (m : mem) (t : Z) (f : Z -> Z) : mem :=
  match n with
  | O => m
  | Datatypes.S n' => fill n' (i + 1) (set_ent m t i (f i)) t f
  end.

(** ** Operations *)

(** A zeroed table, or 0. *)
Definition table_alloc (st : vmm) : res (Z * vmm) :=
  '(p, pm) ← pmm_alloc_frame (vm_pmm st);
  if p =? 0 then mret (0, Vmm (vm_mem st) pm)
  else mret (p, Vmm (fill PT_ENTRIES 0 (vm_mem st) p (fun _ => 0)) pm).

Fixpoint walk_from (level : nat) (t virt : Z) (create : bool) (st : vmm) : res (Z * vmm) :=
  match level with
  | O => mret (t, st)
  | Datatypes.S level' =>
      let i := idx virt (Z.of_nat level) in
      if present (ent (vm_mem st) t i) then
        walk_from level' (align4k (ent (vm_mem st) t i)) virt create st
      else if negb create then mret (0, st)
      else
        '(nt, st1) ← table_alloc st;
        if nt =? 0 then mret (0, st1)
        else
          let st2 := vm_set st1 t i (Z.lor (Z.lor (Z.lor nt PTE_P) PTE_W) PTE_U) in
          walk_from level' (align4k (ent (vm_mem st2) t i)) virt create st2
  end.

Section with_pml4.
(** [extern uint64_t pml4[]]. *)
Context (pml4 : Z).

Definition walk (virt : Z) (create : bool) (st : vmm) : res (Z * vmm) :=
  walk_from 3 pml4 virt create st.

Definition split_large (virt : Z) (st : vmm) : res (Z * vmm) :=
  let pdpt_idx := Z.land (Z.shiftr virt 30) 0x1FF in
  let pd_idx := Z.land (Z.shiftr virt 21) 0x1FF in
  let pdpt := align4k (ent (vm_mem st) pml4 0) in
  if negb (present (ent (vm_mem st) pdpt pdpt_idx)) then mret (-1, st)
  else
    let pd := align4k (ent (vm_mem st) pdpt pdpt_idx) in
    if negb (present (ent (vm_mem st) pd pd_idx)) || negb (large (ent (vm_mem st) pd pd_idx))
    then mret (0, st)
    else
      '(pt, st1) ← table_alloc st;
      if pt =? 0 then mret (-1, st1)
      else
        let e := ent (vm_mem st1) pd pd_idx in
        let base := align2m e in
        let flags := Z.land (Z.land e 0xFFF) (Z.lnot 0x80) in
        let st2 := Vmm (fill PT_ENTRIES 0 (vm_mem st1) pt
                          (fun i => u64 (base + i * 0x1000 + flags))) (vm_pmm st1) in
        mret (0, vm_set st2 pd pd_idx (Z.lor (Z.lor (Z.lor pt PTE_P) PTE_W) PTE_U)).

Definition vmm_map (virt phys flags : Z) (st : vmm) : res vmm :=
  '(_, st1) ← split_large virt st;
  '(pt, st2) ← walk virt true st1;
  if pt =? 0 then mret st2
  else mret (vm_set st2 pt (idx virt 0)
               (Z.lor (Z.lor (align4k phys) (Z.land flags 0xFFF)) PTE_P)).

Definition vmm_set_user (virt len : Z) (st : vmm) : res vmm :=
  let start := align4k virt in
  let end_ := align4k (u64 (virt + len + 0xFFF)) in
  for_each (Z.to_nat ((end_ - start) / 0x1000)) 0
    (fun k st =>
       let v := start + 0x1000 * k in
       '(_, st1) ← split_large v st;
       '(pt, st2) ← walk v false st1;
       if (pt =? 0) || negb (present (ent (vm_mem st2) pt (idx v 0))) then mret st2
       else mret (vm_set st2 pt (idx v 0) (Z.lor (ent (vm_mem st2) pt (idx v 0)) PTE_U))) st.

(** The loop over the levels, then the page-table entry. *)
Fixpoint phys_from (m : mem) (level : nat) (t virt : Z) : Z :=
  let e := ent m t (idx virt (Z.of_nat level)) in
  match level with
  | O => if negb (present e) then 0 else u64 (align4k e + Z.land virt 0xFFF)
  | Datatypes.S level' =>
      if negb (present e) then 0
      else if (Z.of_nat level =? 1) && large e
           then u64 (align2m e + Z.land virt 0x1FFFFF)
           else phys_from m level' (align4k e) virt
  end.

Definition vmm_phys (m : mem) (virt : Z) : Z := phys_from m 3 pml4 virt.

(** The page table of [v] for unmapping: [None] when a level is missing or a
    2 MB page is in the way ([ok = 0]). *)
Fixpoint pt_of_from (m : mem) (level : nat) (t v : Z) : option Z :=
  match level with
  | O => Some t
  | Datatypes.S level' =>
      let e := ent m t (idx v (Z.of_nat level)) in
      if negb (present e) || ((Z.of_nat level =? 1) && large e) then None
      else pt_of_from m level' (align4k e) v
  end.

Definition unmap_page (v : Z) (st : vmm) : res vmm :=
  match pt_of_from (vm_mem st) 3 pml4 v with
  | None => mret st
  | Some t =>
      let e := ent (vm_mem st) t (idx v 0) in
      if present e then
        pm ← pmm_free_frame (align4k e) (vm_pmm st);
        mret (vm_set (Vmm (vm_mem st) pm) t (idx v 0) 0)
      else mret st
  end.

(** [end_] is below [2^64 - 0x1000], so [v] does not wrap. *)
Definition vmm_unmap_range (start end_ : Z) (st : vmm) : res vmm :=
  let v0 := align4k start in
  for_each (Z.to_nat ((end_ - v0 + 0xFFF) / 0x1000)) 0
    (fun k st => unmap_page (v0 + 0x1000 * k) st) st.

End with_pml4.

(** The tables [boot.S] builds in zeroed storage: 2048 2 MB pages in four page
    directories, four directory pointers, one top-level entry.  The code runs
    in 32-bit mode and writes the low words. *)
Definition boot_tables (pml4 pdpt pd : Z) (m : mem) : mem :=
  let m := fill 2048 0 m pd (fun i => u32 (0x83 + i * 0x200000)) in
  let m := fill 4 0 m pdpt (fun i => u32 (Z.lor pd 0x07 + i * 4096)) in
  set_ent m pml4 0 (Z.lor pdpt 0x07).

(** ** Specification *)

(** A ghost description of the table tree: the level of each table (3 for the
    root, 0 for a page table), and for each table but the root the slot
    (table, index) that points to it. *)
Record tree := Tree { lev : gmap Z nat; slot : gmap Z (Z * Z) }.

(** A slot of level [l] holding [e] points to a lower table. *)
Definition links (l : nat) (e : Z) : Prop :=
  present e = true /\ (l = 1%nat -> large e = false).

Record wf_tree (pml4 : Z) (m : mem) (pm : pmm) (T : tree) : Prop := {
  wt_root : lev T !! pml4 = Some 3%nat;
  wt_aligned t l : lev T !! t = Some l -> 0 < t /\ t mod 4096 = 0 /\ (l <= 3)%nat;
  (** no table is in a free frame *)
  wt_used t l : lev T !! t = Some l -> t / FRAME_SIZE ∉ free_set pm;
  (** a linked slot is the one slot of a table one level down *)
  wt_child t l i : lev T !! t = Some (Datatypes.S l) -> 0 <= i < 512 ->
    links (Datatypes.S l) (ent m t i) ->
    lev T !! align4k (ent m t i) = Some l /\ slot T !! align4k (ent m t i) = Some (t, i)
}.

Definition vm_tree (pml4 : Z) (st : vmm) (T : tree) : Prop :=
  Pmm.wf (vm_pmm st) /\ (0 ∉ free_set (vm_pmm st)) /\
  wf_tree pml4 (vm_mem st) (vm_pmm st) T.

(** The invariant: a well-formed allocator that keeps frame 0, a table tree,
    and a directory-pointer table for the first 512 GB. *)
Definition vm_wf (pml4 : Z) (st : vmm) : Prop :=
  present (ent (vm_mem st) pml4 0) = true /\ exists T, vm_tree pml4 st T.

(** [v] is mapped by a 4 KB page-table entry to the frame at [p]. *)
Definition maps_4k (pml4 : Z) (m : mem) (v p : Z) : Prop :=
  exists t, pt_of_from m 3 pml4 v = Some t /\
    present (ent m t (idx v 0)) = true /\ align4k (ent m t (idx v 0)) = p.

(** The slots the translation of [v] reads from table [t] of level [l] on. *)
Fixpoint path (m : mem) (l : nat) (t v : Z) : list (Z * Z) :=
  let i := idx v (Z.of_nat l) in
  (t, i) ::
  match l with
  | O => []
  | Datatypes.S l' =>
      if negb (present (ent m t i)) || ((Z.of_nat l =? 1) && large (ent m t i)) then []
      else path m l' (align4k (ent m t i)) v
  end.

(** No 2 MB page on the way of [v]. *)
Fixpoint no_large (m : mem) (l : nat) (t v : Z) : Prop :=
  match l with
  | O => True
  | Datatypes.S l' =>
      let e := ent m t (idx v (Z.of_nat l)) in
      present e = true ->
      (l = 1%nat -> large e = false) /\ no_large m l' (align4k e) v
  end.

(** The number of tables the walk of [v] has to create. *)
Fixpoint missing (m : mem) (l : nat) (t v : Z) : nat :=
  match l with
  | O => O
  | Datatypes.S l' =>
      let e := ent m t (idx v (Z.of_nat l)) in
      if present e then missing m l' (align4k e) v else l
  end.

(** [T'] has the tables of [T]; no translation from a table of [T] differs. *)
Definition same_phys (T : tree) (m m' : mem) : Prop :=
  forall l t v, lev T !! t = Some l -> phys_from m' l t v = phys_from m l t v.

Definition extends (T T' : tree) : Prop :=
  forall t l, lev T !! t = Some l -> lev T' !! t = Some l.

(** Memory that no table lies in. *)
Definition off_tables (T : tree) (p : Z) : Prop := forall t l, lev T !! t = Some l -> p / 4096 <> t / 4096.

(** [st'] comes from [st] by building tables: they lie in at most [k] frames
    that were free, and nothing else is written but tables and free frames. *)
Definition grows (k : nat) (T T' : tree) (st st' : vmm) : Prop :=
  (forall t l, lev T' !! t = Some l -> lev T !! t = Some l \/ t / FRAME_SIZE ∈ free_set (vm_pmm st)) /\
  takes k (vm_pmm st) (vm_pmm st') /\
  (forall a, off_tables T a -> a / FRAME_SIZE ∉ free_set (vm_pmm st) ->
     load8 (vm_mem st') a = load8 (vm_mem st) a).

(** The table [n] levels above [t]. *)
Fixpoint up (T : tree) (n : nat) (t : Z) : option Z :=
  match n with
  | O => Some t
  | Datatypes.S n' => t' ← up T n' t; fst <$> slot T !! t'
  end.

(** [boot.S]'s storage: page-aligned, the parts do not overlap, below 1 GB. *)
Record boot_layout (pml4 pdpt pd : Z) : Prop := {
  bl_pml4 : 0 < pml4 < 2 ^ 30 /\ pml4 mod 4096 = 0;
  bl_pdpt : 0 < pdpt < 2 ^ 30 /\ pdpt mod 4096 = 0;
  bl_pd : 0 < pd < 2 ^ 30 /\ pd mod 4096 = 0;
  bl_disj1 : pml4 <> pdpt;
  bl_disj2 : ~ (pd <= pml4 < pd + 16384);
  bl_disj3 : ~ (pd <= pdpt < pd + 16384)
}.

Definition boot_tree (pml4 pdpt pd : Z) : tree := {|
  lev := list_to_map [(pml4, 3%nat); (pdpt, 2%nat); (pd, 1%nat); (pd + 4096, 1%nat);
                      (pd + 8192, 1%nat); (pd + 12288, 1%nat)];
  slot := list_to_map [(pdpt, (pml4, 0)); (pd, (pdpt, 0)); (pd + 4096, (pdpt, 1));
                       (pd + 8192, (pdpt, 2)); (pd + 12288, (pdpt, 3))] |}.

(** What unmapping the page of [v] does: no 4 KB mapping of the page is left,
    its translation is gone if it had one, other pages keep theirs, and the
    frame is given back. *)
Definition unmap_page_spec (pml4 : Z) (T : tree) (v : Z) (st st' : vmm) : Prop :=
    vm_tree pml4 st' T /\
    present (ent (vm_mem st') pml4 0) = true /\
    (forall w p, 0 <= w < 2 ^ 48 -> w / 4096 = v / 4096 -> ~ maps_4k pml4 (vm_mem st') w p) /\
    (forall w, 0 <= w < 2 ^ 48 -> w / 4096 = v / 4096 ->
      (forall p, maps_4k pml4 (vm_mem st) v p -> vmm_phys pml4 (vm_mem st') w = 0) /\
      ((forall p, ~ maps_4k pml4 (vm_mem st) v p) ->
       vmm_phys pml4 (vm_mem st') w = vmm_phys pml4 (vm_mem st) w)) /\
    (forall w, 0 <= w < 2 ^ 48 -> w / 4096 <> v / 4096 ->
      vmm_phys pml4 (vm_mem st') w = vmm_phys pml4 (vm_mem st) w /\
      forall p, maps_4k pml4 (vm_mem st') w p <-> maps_4k pml4 (vm_mem st) w p) /\
    (forall f, f ∈ free_set (vm_pmm st') <-> f ∈ free_set (vm_pmm st) \/
       (f < TOTAL /\ exists p, maps_4k pml4 (vm_mem st) v p /\ f = p / FRAME_SIZE)).

(** A concrete boot: the tables at 64 KB, an allocator with frames 256 and 512
    free. *)
Definition wit_mem : mem := boot_tables 0x10000 0x11000 0x12000 ∅.
(** The same with the page 0x400000 mapped to frame 0x300000 through a page
    table at 0x17000. *)
Definition wit_mem2 : mem :=
  set_ent (set_ent wit_mem 0x12000 2 (0x17000 + 7)) 0x17000 (idx 0x400000 0) 0x300007.
Definition wit_tree2 : tree :=
  let T := boot_tree 0x10000 0x11000 0x12000 in
  Tree (<[0x17000 := 0%nat]> (lev T)) (<[0x17000 := (0x12000, 2)]> (slot T)).
#[global] Arguments wit_mem : simpl never.
#[global] Arguments wit_mem2 : simpl never.

(** ** Bit-level lemmas *)

Lemma land_mask x k : 0 <= k -> Z.land x (Z.ones k) = x mod 2 ^ k.
Proof. intros. by rewrite Z.land_ones. Qed.

Lemma land_lnot_mask x k : 0 <= k -> Z.land x (Z.lnot (Z.ones k)) = x - x mod 2 ^ k.
Proof.
  intros Hk. rewrite <- Z.ldiff_land, Z.ldiff_ones_r, Z.shiftr_div_pow2, Z.shiftl_mul_pow2 by lia.
  pose proof (Z.div_mod x (2 ^ k)). lia.
Qed.

Lemma align4k_eq x : align4k x = x - x mod 4096.
Proof. apply (land_lnot_mask x 12). lia. Qed.

Lemma align2m_eq x : align2m x = x - x mod 2097152.
Proof. apply (land_lnot_mask x 21). lia. Qed.

Lemma low12 x : Z.land x 0xFFF = x mod 4096. Proof. apply (land_mask x 12). lia. Qed.
Lemma low21 x : Z.land x 0x1FFFFF = x mod 2097152. Proof. apply (land_mask x 21). lia. Qed.
Lemma low9 x : Z.land x 0x1FF = x mod 512. Proof. apply (land_mask x 9). lia. Qed.

Lemma idx_eq v l : 0 <= l -> idx v l = (v / 2 ^ (12 + 9 * l)) mod 512.
Proof. intros. unfold idx. rewrite low9, Z.shiftr_div_pow2 by lia. done. Qed.

Lemma idx_range v l : 0 <= idx v l < 512.
Proof. unfold idx. rewrite low9. zdm. Qed.

Lemma present_bit e : present e = Z.testbit e 0.
Proof. unfold present. change PTE_P with (Z.shiftl 1 0).
  by rewrite land_bit_zero, negb_involutive by lia. Qed.

Lemma large_bit e : large e = Z.testbit e 7.
Proof. unfold large. change 0x80 with (Z.shiftl 1 7).
  by rewrite land_bit_zero, negb_involutive by lia. Qed.

(** A multiple of 4096 plus flag bits. *)
Lemma lor_low a f : a mod 4096 = 0 -> 0 <= f < 4096 -> Z.lor a f = a + f.
Proof.
  intros Ha Hf. symmetry. apply Z.add_nocarry_lor.
  apply Z.bits_inj'. intros j Hj. rewrite Z.land_spec, Z.testbit_0_l.
  destruct (decide (j < 12)).
  - replace a with (Z.shiftl (a / 4096) 12).
    + rewrite Z.shiftl_spec_low by lia. done.
    + rewrite Z.shiftl_mul_pow2 by lia. change (2 ^ 12) with 4096. zdm.
  - rewrite (Z.bits_above_log2 f), andb_false_r; [done|lia|].
    destruct (decide (f = 0)) as [->|?]; [simpl; lia|].
    assert (Z.log2 f < 12); [|lia]. apply Z.log2_lt_pow2; lia.
Qed.

Lemma low_bit a f k : a mod 4096 = 0 -> 0 <= f < 4096 -> 0 <= k < 12 ->
  Z.testbit (a + f) k = Z.testbit f k.
Proof.
  intros Ha Hf Hk. rewrite <- (Z.mod_pow2_bits_low (a + f) 12) by lia.
  change (2 ^ 12) with 4096. f_equal. zdm.
Qed.

Lemma align_low a f : a mod 4096 = 0 -> 0 <= f < 4096 -> align4k (a + f) = a.
Proof. intros. rewrite align4k_eq. zdm. Qed.

(** [(uint64_t)pt | PTE_P | PTE_W | PTE_U]. *)
Lemma link_entry a : a mod 4096 = 0 ->
  Z.lor (Z.lor (Z.lor a PTE_P) PTE_W) PTE_U = a + 7.
Proof. intros Ha. rewrite <- !Z.lor_assoc. by apply lor_low. Qed.

Lemma link_present a : a mod 4096 = 0 -> present (a + 7) = true.
Proof. intros. rewrite present_bit, low_bit by lia. done. Qed.

Lemma link_not_large a : a mod 4096 = 0 -> large (a + 7) = false.
Proof. intros. rewrite large_bit, low_bit by lia. done. Qed.

Lemma not_present_0 : present 0 = false. Proof. reflexivity. Qed.

(** Two addresses below 256 TB with the same indices are in the same page. *)
Lemma same_page v w : 0 <= v < 2 ^ 48 -> 0 <= w < 2 ^ 48 ->
  (forall l, 0 <= l <= 3 -> idx v l = idx w l) -> v / 4096 = w / 4096.
Proof.
  intros Hv Hw H. pose proof (H 0 ltac:(lia)) as H0. pose proof (H 1 ltac:(lia)) as H1.
  pose proof (H 2 ltac:(lia)) as H2. pose proof (H 3 ltac:(lia)) as H3.
  rewrite !idx_eq in H0, H1, H2, H3 by lia.
  change (2 ^ 48) with 281474976710656 in *.
  change (2 ^ (12 + 9 * 0)) with 4096 in *.
  change (2 ^ (12 + 9 * 1)) with (4096 * 512) in *.
  change (2 ^ (12 + 9 * 2)) with (4096 * 262144) in *.
  change (2 ^ (12 + 9 * 3)) with (4096 * 134217728) in *.
  rewrite <- !Z.div_div in H1, H2, H3 by lia.
  set (x := v / 4096) in *. set (y := w / 4096) in *.
  assert (0 <= x < 68719476736) by (unfold x; zdm). assert (0 <= y < 68719476736) by (unfold y; zdm).
  clearbody x y. clear -H0 H1 H2 H3 H4 H5. zdm.
Qed.

Lemma idx_page v w l : 0 <= l -> v / 4096 = w / 4096 -> idx v l = idx w l.
Proof.
  intros Hl H. rewrite !idx_eq by lia. rewrite Z.pow_add_r by lia. change (2 ^ 12) with 4096.
  by rewrite <- !Z.div_div, H by lia.
Qed.

(** ** Memory lemmas *)

Lemma ent_set_same m t i v : ent (set_ent m t i v) t i = u64 v.
Proof. apply load64_store64. Qed.

Lemma ent_range m t i : 0 <= ent m t i < 18446744073709551616.
Proof. apply load64_range. Qed.

(** Slots of aligned tables. *)
Lemma ent_set_other m t i v t' i' :
  t mod 4096 = 0 -> t' mod 4096 = 0 -> 0 <= i < 512 -> 0 <= i' < 512 ->
  (t, i) <> (t', i') -> ent (set_ent m t i v) t' i' = ent m t' i'.
Proof.
  intros Ht Ht' Hi Hi' Hne. apply load64_store64_out. unfold disjoint.
  destruct (decide (t = t')) as [->|?]; [|zdm].
  assert (i <> i') by congruence. lia.
Qed.

(** A load of 8 bytes outside the frame a loop fills. *)
Lemma fill_other n i m t f t' i' :
  t mod 4096 = 0 -> t' mod 4096 = 0 -> t <> t' -> 0 <= i -> i + Z.of_nat n <= 512 ->
  0 <= i' < 512 -> ent (fill n i m t f) t' i' = ent m t' i'.
Proof.
  intros Ht Ht' Hne. revert i m. induction n as [|n IH]; intros i m Hi Hn Hi'; [done|].
  simpl. rewrite IH by lia. apply ent_set_other; try done; [lia|congruence].
Qed.

Lemma fill_ent n i m t f j :
  t mod 4096 = 0 -> 0 <= i -> i + Z.of_nat n <= 512 -> 0 <= j < 512 ->
  ent (fill n i m t f) t j = if (i <=? j) && (j <? i + Z.of_nat n) then u64 (f j) else ent m t j.
Proof.
  intros Ht. revert i m. induction n as [|n IH]; intros i m Hi Hn Hj; cbn [fill].
  - destruct (Z.leb_spec i j), (Z.ltb_spec j (i + Z.of_nat 0)); done || lia.
  - rewrite IH by lia. destruct (Z.leb_spec (i + 1) j), (Z.ltb_spec j (i + 1 + Z.of_nat n)),
      (Z.leb_spec i j), (Z.ltb_spec j (i + Z.of_nat (Datatypes.S n))); cbn [andb]; try lia; try done.
    all: first [replace j with i by lia; by rewrite ent_set_same
               |apply ent_set_other; [done|done|lia|lia|intros [= ?]; lia]].
Qed.

Lemma fill_outside n i m t f t' i' :
  disjoint (t + 8 * i) (8 * Z.of_nat n) (t' + 8 * i') 8 ->
  ent (fill n i m t f) t' i' = ent m t' i'.
Proof.
  unfold disjoint. revert i m. induction n as [|n IH]; intros i m H; [done|].
  cbn [fill]. rewrite IH by lia. apply load64_store64_out. unfold disjoint. lia.
Qed.

Lemma fill_inside n i m t f j : i <= j < i + Z.of_nat n ->
  ent (fill n i m t f) t j = u64 (f j).
Proof.
  revert i m. induction n as [|n IH]; intros i m H; [lia|]. cbn [fill].
  destruct (decide (i = j)) as [->|?]; [|apply IH; lia].
  rewrite fill_outside by (unfold disjoint; lia). apply ent_set_same.
Qed.

Lemma set_ent_load8 m t i v a : t mod 4096 = 0 -> 0 <= i < 512 -> a / 4096 <> t / 4096 ->
  load8 (set_ent m t i v) a = load8 m a.
Proof. intros Ht Hi Ha. unfold set_ent. apply load8_store64_out. unfold disjoint. clear -Ht Hi Ha. zdm. Qed.

Lemma fill_load8_from n i m t f a : t mod 4096 = 0 -> 0 <= i -> i + Z.of_nat n <= 512 -> a / 4096 <> t / 4096 ->
  load8 (fill n i m t f) a = load8 m a.
Proof.
  intros Ht. revert i m. induction n as [|n IH]; intros i m Hi Hn Ha; cbn [fill]; [done|].
  rewrite IH by lia. apply set_ent_load8; done || lia.
Qed.

Lemma fill_load8 m t f a : t mod 4096 = 0 -> a / 4096 <> t / 4096 -> load8 (fill PT_ENTRIES 0 m t f) a = load8 m a.
Proof. intros. apply fill_load8_from; done || lia. Qed.

#[global] Arguments fill : simpl never.
#[global] Opaque fill.

(** ** The table tree *)

Section tree.
Context (pml4 : Z) (m : mem) (pm : pmm) (T : tree) (HT : wf_tree pml4 m pm T).

Lemma child t l v :
  lev T !! t = Some (Datatypes.S l) ->
  (negb (present (ent m t (idx v (Z.of_nat (Datatypes.S l))))) ||
    ((Z.of_nat (Datatypes.S l) =? 1) && large (ent m t (idx v (Z.of_nat (Datatypes.S l)))))) = false ->
  let c := align4k (ent m t (idx v (Z.of_nat (Datatypes.S l)))) in
  lev T !! c = Some l /\ slot T !! c = Some (t, idx v (Z.of_nat (Datatypes.S l))).
Proof.
  intros Ht Hg. apply orb_false_iff in Hg as [Hp Hl]. apply negb_false_iff in Hp.
  apply (wt_child _ _ _ _ HT); [done|apply idx_range|]. split; [done|].
  intros E. injection E as ->. exact Hl.
Qed.

(** The tables on a path have the levels in turn, and lead back up. *)
Lemma path_level l t v s i : lev T !! t = Some l -> (s, i) ∈ path m l t v ->
  exists k, (k <= l)%nat /\ lev T !! s = Some k /\ i = idx v (Z.of_nat k) /\
    up T (l - k) s = Some t.
Proof.
  revert t. induction l as [|l IH]; intros t Ht Hin; cbn [path] in Hin.
  - apply list_elem_of_singleton in Hin. injection Hin as -> ->. by exists 0%nat.
  - apply elem_of_cons in Hin as [Hin|Hin].
    + injection Hin as -> ->. exists (Datatypes.S l). rewrite Nat.sub_diag. done.
    + destruct (_ || _) eqn:Hg in Hin; [by apply elem_of_nil in Hin|].
      destruct (child t l v Ht Hg) as [Hc Hs].
      destruct (IH _ Hc Hin) as (k & Hk & Hlk & Hi & Hup).
      exists k. split; [lia|]. split; [done|]. split; [done|].
      replace (Datatypes.S l - k)%nat with (Datatypes.S (l - k)) by lia.
      cbn [up]. rewrite Hup. simpl. by rewrite Hs.
Qed.

(** Two translations that meet in a table have the same indices above it. *)
Lemma path_meet l t v w s i j k : lev T !! t = Some l ->
  (s, i) ∈ path m l t v -> (s, j) ∈ path m l t w -> lev T !! s = Some k ->
  forall n, (k < n <= l)%nat -> idx v (Z.of_nat n) = idx w (Z.of_nat n).
Proof.
  revert t. induction l as [|l IH]; intros t Ht Hv Hw Hs n Hn; [lia|].
  cbn [path] in Hv, Hw.
  apply elem_of_cons in Hv as [Hv|Hv].
  { injection Hv as -> _. assert (k = Datatypes.S l) by congruence. lia. }
  apply elem_of_cons in Hw as [Hw|Hw].
  { injection Hw as -> _. assert (k = Datatypes.S l) by congruence. lia. }
  destruct (_ || _) eqn:Hg1 in Hv; [by apply elem_of_nil in Hv|].
  destruct (_ || _) eqn:Hg2 in Hw; [by apply elem_of_nil in Hw|].
  destruct (child t l v Ht Hg1) as [Hc1 Hs1]. destruct (child t l w Ht Hg2) as [Hc2 Hs2].
  assert (idx v (Z.of_nat (Datatypes.S l)) = idx w (Z.of_nat (Datatypes.S l))) as Heq.
  { destruct (path_level _ _ _ _ _ Hc1 Hv) as (k1 & ? & Hk1 & _ & Hu1).
    destruct (path_level _ _ _ _ _ Hc2 Hw) as (k2 & ? & Hk2 & _ & Hu2).
    assert (k1 = k2) as -> by congruence. rewrite Hu1 in Hu2. injection Hu2 as Hu2.
    rewrite Hu2 in Hs1. congruence. }
  destruct (decide (n = Datatypes.S l)) as [->|?]; [done|].
  rewrite <- Heq in Hw, Hc2. eapply IH; [exact Hc1|exact Hv|exact Hw|exact Hs|lia].
Qed.

(** A page-table slot is read by the translations of one page only. *)
Lemma leaf_slot_page v w s i : 0 <= v < 2 ^ 48 -> 0 <= w < 2 ^ 48 -> lev T !! s = Some 0%nat ->
  (s, i) ∈ path m 3 pml4 v -> (s, i) ∈ path m 3 pml4 w -> v / 4096 = w / 4096.
Proof.
  intros Hv Hw Hs Hpv Hpw. pose proof (wt_root _ _ _ _ HT) as Hr.
  apply same_page; [done|done|]. intros l Hl.
  destruct (decide (l = 0)) as [->|?].
  - destruct (path_level _ _ _ _ _ Hr Hpv) as (k1 & _ & Hk1 & Hi1 & _).
    destruct (path_level _ _ _ _ _ Hr Hpw) as (k2 & _ & Hk2 & Hi2 & _).
    assert (k1 = 0%nat) as -> by congruence. assert (k2 = 0%nat) as -> by congruence.
    change (Z.of_nat 0) with 0 in Hi1, Hi2. congruence.
  - replace l with (Z.of_nat (Z.to_nat l)) by lia.
    eapply (path_meet 3 pml4 v w s i i 0); [done..|lia].
Qed.
End tree.

(** ** Translations under a change of memory *)

(** A translation only depends on the slots of its path. *)
Lemma phys_path m m' l t v :
  (forall s i, (s, i) ∈ path m l t v -> ent m' s i = ent m s i) ->
  phys_from m' l t v = phys_from m l t v /\ pt_of_from m' l t v = pt_of_from m l t v.
Proof.
  revert t. induction l as [|l IH]; intros t H; cbn [phys_from pt_of_from path] in *.
  - rewrite (H t) by by left. done.
  - rewrite (H t) by by left.
    set (e := ent m t (idx v (Z.of_nat (Datatypes.S l)))) in *.
    destruct (present e); [|done]. cbn [negb orb] in *.
    destruct ((Z.of_nat (Datatypes.S l) =? 1) && large e); [done|].
    apply IH. intros s i Hin. apply H. by right.
Qed.

(** When all slots but [(t0, i0)] are unchanged and the translations through
    that slot are too, every translation is unchanged. *)
Lemma phys_stable pml4 m pm T m' t0 l0 i0 :
  wf_tree pml4 m pm T -> lev T !! t0 = Some l0 ->
  (forall t l i, lev T !! t = Some l -> 0 <= i < 512 -> (t, i) <> (t0, i0) ->
     ent m' t i = ent m t i) ->
  (forall v, idx v (Z.of_nat l0) = i0 -> phys_from m' l0 t0 v = phys_from m l0 t0 v) ->
  forall l t v, lev T !! t = Some l -> phys_from m' l t v = phys_from m l t v.
Proof.
  intros HT H0 Hent Hhere l. induction l as [|l IH]; intros t v Ht.
  - destruct (decide ((t, idx v (Z.of_nat 0)) = (t0, i0))) as [E|Hne].
    + injection E as -> Hi. assert (l0 = 0%nat) as -> by congruence. by apply Hhere.
    + cbn [phys_from]. by rewrite (Hent t 0%nat) by (done || apply idx_range).
  - destruct (decide ((t, idx v (Z.of_nat (Datatypes.S l))) = (t0, i0))) as [E|Hne].
    + injection E as -> Hi. assert (l0 = Datatypes.S l) as -> by congruence. by apply Hhere.
    + cbn [phys_from]. rewrite (Hent t (Datatypes.S l)) by (done || apply idx_range).
      pose proof (child pml4 m pm T HT t l v Ht) as Hc.
      set (e := ent m t (idx v (Z.of_nat (Datatypes.S l)))) in *.
      destruct (present e); [|done]. cbn [negb orb] in *.
      destruct ((Z.of_nat (Datatypes.S l) =? 1) && large e); [done|].
      apply IH. by apply Hc.
Qed.

Lemma same_phys_trans T T' m1 m2 m3 : extends T T' ->
  same_phys T m1 m2 -> same_phys T' m2 m3 -> same_phys T m1 m3.
Proof. intros He H1 H2 l t v Ht. rewrite H2 by by apply He. by apply H1. Qed.

Lemma extends_refl T : extends T T. Proof. by intros t l. Qed.
Lemma extends_trans T1 T2 T3 : extends T1 T2 -> extends T2 T3 -> extends T1 T3.
Proof. intros H1 H2 t l ?. by apply H2, H1. Qed.

(** The tree only depends on the slots of its upper tables, and survives the
    allocation of frames. *)
Lemma wf_tree_inner pml4 m m' pm pm' T : wf_tree pml4 m pm T ->
  (forall t l i, lev T !! t = Some (Datatypes.S l) -> 0 <= i < 512 -> ent m' t i = ent m t i) ->
  (forall t l, lev T !! t = Some l -> t / FRAME_SIZE ∉ free_set pm') ->
  wf_tree pml4 m' pm' T.
Proof.
  intros HT He Hf. split.
  - apply (wt_root _ _ _ _ HT).
  - apply (wt_aligned _ _ _ _ HT).
  - exact Hf.
  - intros t l i Ht Hi. rewrite (He t l) by done. by apply (wt_child _ _ _ _ HT).
Qed.

Lemma wf_tree_stable pml4 m m' pm pm' T : wf_tree pml4 m pm T ->
  (forall t l i, lev T !! t = Some l -> 0 <= i < 512 -> ent m' t i = ent m t i) ->
  free_set pm' ⊆ free_set pm -> wf_tree pml4 m' pm' T.
Proof.
  intros HT He Hf. eapply wf_tree_inner; [done|intros; by eapply He|].
  intros t l Ht Hin. by eapply (wt_used _ _ _ _ HT), Hf.
Qed.

Lemma same_phys_ents pml4 m m' pm T : wf_tree pml4 m pm T ->
  (forall t l i, lev T !! t = Some l -> 0 <= i < 512 -> ent m' t i = ent m t i) ->
  same_phys T m m'.
Proof.
  intros HT He k s v Hs. apply phys_path. intros t i Hin.
  destruct (path_level pml4 _ _ T HT k s v t i Hs Hin) as (k' & _ & Hk' & -> & _).
  eapply He; [done|apply idx_range].
Qed.

(** Linking a new table [c] of level [l] into the slot [(t0, i0)]. *)
Lemma wf_tree_link pml4 m m' pm T t0 l i0 c : wf_tree pml4 m pm T ->
  lev T !! t0 = Some (Datatypes.S l) -> 0 <= i0 < 512 ->
  0 < c -> c mod 4096 = 0 -> lev T !! c = None -> c / FRAME_SIZE ∉ free_set pm ->
  (forall t k i, lev T !! t = Some k -> 0 <= i < 512 -> (t, i) <> (t0, i0) ->
     ent m' t i = ent m t i) ->
  ent m' t0 i0 = c + 7 ->
  (l <> O -> forall i, 0 <= i < 512 -> present (ent m' c i) = false) ->
  wf_tree pml4 m' pm (Tree (<[c := l]> (lev T)) (<[c := (t0, i0)]> (slot T))).
Proof.
  intros HT H0 Hi0 Hc Hca Hcn Hcf He H0e Hz.
  assert (forall t k, lev T !! t = Some k -> t <> c) as Hnc by (intros t k Ht ->; congruence).
  split; simpl.
  - rewrite lookup_insert_ne; [apply (wt_root _ _ _ _ HT)|].
    intros ->. by apply (Hnc pml4 _ (wt_root _ _ _ _ HT)).
  - intros t k Ht. destruct (decide (c = t)) as [<-|?].
    + rewrite lookup_insert_eq in Ht. injection Ht as ->.
      pose proof (wt_aligned _ _ _ _ HT _ _ H0). split; [done|]. split; [done|lia].
    + rewrite lookup_insert_ne in Ht by done. by apply (wt_aligned _ _ _ _ HT).
  - intros t k Ht. destruct (decide (c = t)) as [<-|?]; [done|].
    rewrite lookup_insert_ne in Ht by done. by apply (wt_used _ _ _ _ HT _ _ Ht).
  - intros t k i Ht Hi [Hp Hl]. destruct (decide (c = t)) as [<-|?].
    + rewrite lookup_insert_eq in Ht. injection Ht as ->.
      rewrite Hz in Hp by done. done.
    + rewrite lookup_insert_ne in Ht by done.
      destruct (decide ((t, i) = (t0, i0))) as [E|Hne].
      * injection E as -> ->. rewrite H0e, align_low by (done || lia).
        rewrite H0 in Ht. injection Ht as <-. by rewrite !lookup_insert_eq.
      * rewrite (He t (Datatypes.S k)) in Hp, Hl |- * by done.
        destruct (wt_child _ _ _ _ HT t k i Ht Hi) as [Hc1 Hs1]; [done|].
        pose proof (Hnc _ _ Hc1). by rewrite !lookup_insert_ne by done.
Qed.

(** A new table from the allocator: zeroed, aligned, not in the tree. *)
Lemma table_alloc_ok pml4 st T : vm_tree pml4 st T -> (0 < size (free_set (vm_pmm st)))%nat ->
  exists c st', table_alloc st = Ok (c, st') /\ vm_tree pml4 st' T /\
    0 < c < 2 ^ 30 /\ c mod 4096 = 0 /\ lev T !! c = None /\
    (c / FRAME_SIZE ∉ free_set (vm_pmm st')) /\
    (forall i, 0 <= i < 512 -> ent (vm_mem st') c i = 0) /\
    (forall t l i, lev T !! t = Some l -> 0 <= i < 512 -> ent (vm_mem st') t i = ent (vm_mem st) t i) /\
    size (free_set (vm_pmm st')) = (size (free_set (vm_pmm st)) - 1)%nat /\
    (c / FRAME_SIZE ∈ free_set (vm_pmm st)) /\ grows 1 T T st st'.
Proof.
  intros (Hpm & H0 & HT) Hsz. unfold table_alloc.
  destruct (alloc_frame_ok (vm_pmm st) Hpm) as (r & pm & -> & Hw & Hs & Hnf). simpl. pose proof Hs as Hs0.
  destruct Hs as [(He & _ & _)|(f & Hf & -> & HF)].
  { rewrite He, size_empty in Hsz. lia. }
  assert (f <> 0) by (by intros ->).
  pose proof Hf as Hr. apply elem_free_set in Hr as [Hr _]. unfold TOTAL in Hr.
  unfold FRAME_SIZE in *. destruct (Z.eqb_spec (f * 4096) 0); [lia|].
  assert ((f * 4096) mod 4096 = 0) as Hal by zdm.
  assert (f * 4096 / 4096 = f) as Hd by (by apply Z.div_mul).
  assert (lev T !! (f * 4096) = None) as Hn.
  { destruct (lev T !! (f * 4096)) eqn:E; [|done].
    exfalso. apply (wt_used _ _ _ _ HT _ _ E). unfold FRAME_SIZE. by rewrite Hd. }
  assert (forall t l i, lev T !! t = Some l -> 0 <= i < 512 ->
    ent (fill PT_ENTRIES 0 (vm_mem st) (f * 4096) (fun _ => 0)) t i = ent (vm_mem st) t i) as He.
  { intros t l i Ht Hi. apply fill_other; [done| |congruence|lia|done|done].
    by apply (wt_aligned _ _ _ _ HT) in Ht as (_ & ? & _). }
  assert (size (free_set pm) = (size (free_set (vm_pmm st)) - 1)%nat) as Hsz'.
  { rewrite HF, size_difference, size_singleton by by apply singleton_subseteq_l. done. }
  assert (free_set pm ⊆ free_set (vm_pmm st)) as Hsub by (rewrite HF; by apply subseteq_difference_l).
  eexists _, _. split; [reflexivity|]. simpl.
  split; [|split; [|split; [|split; [|split; [|split; [|split; [|split; [exact Hsz'|split]]]]]]]].
  - unfold vm_tree; simpl. split; [done|].
    split; [rewrite HF; intros ?%elem_of_difference; tauto|].
    eapply wf_tree_stable; [done|done|]. rewrite HF. apply subseteq_difference_l. done.
  - change (2 ^ 30) with 1073741824. lia.
  - done.
  - done.
  - rewrite Hd, HF. intros Hin%elem_of_difference. destruct Hin as [_ Hin].
    by apply Hin, elem_of_singleton.
  - intros i Hi. unfold PT_ENTRIES. rewrite fill_ent by (done || lia).
    destruct (Z.leb_spec 0 i), (Z.ltb_spec i (0 + Z.of_nat 512)); done || lia.
  - done.
  - by rewrite Hd.
  - split; [by left|]. split; [cbn [vm_pmm]; eapply takes_alloc; [exact Hpm|exact H0|exact Hnf|exact Hs0|unfold FRAME_SIZE; lia]|]. intros a _ Ha. cbn [vm_mem]. apply fill_load8; [done|].
    intros E. apply Ha. unfold FRAME_SIZE. by rewrite E, Hd.
Qed.

(** A new table is written and linked. *)
Lemma grows_link T st st1 c l t i k : grows 1 T T st st1 -> c / FRAME_SIZE ∈ free_set (vm_pmm st) ->
  lev T !! t = Some k -> t mod 4096 = 0 -> 0 <= i < 512 ->
  forall v, grows 1 T (Tree (<[c := l]> (lev T)) (<[c := (t, i)]> (slot T))) st
    (Vmm (set_ent (vm_mem st1) t i v) (vm_pmm st1)).
Proof.
  intros (_ & H2 & H4) Hc Ht Hta Hi v. split; [|split; [exact H2|]].
  - intros s j Hs. cbn [lev] in Hs. destruct (decide (c = s)) as [<-|Hne]; [by right|].
    rewrite lookup_insert_ne in Hs by done. by left.
  - intros a Hoff Ha. cbn [vm_mem]. rewrite set_ent_load8; [by apply H4|done|done|]. by apply (Hoff t k).
Qed.

(** The entry of a page table is written. *)
Lemma grows_leaf k T T' st st' t l i v : grows k T T' st st' -> lev T' !! t = Some l -> t mod 4096 = 0 -> 0 <= i < 512 ->
  grows k T T' st (Vmm (set_ent (vm_mem st') t i v) (vm_pmm st')).
Proof.
  intros (G1 & G2 & G4) Ht Hta Hi. split; [exact G1|]. split; [exact G2|].
  intros a Hoff Ha. cbn [vm_mem]. rewrite set_ent_load8; [by apply G4|done|done|].
  destruct (G1 t l Ht) as [H|H]; [by apply (Hoff t l)|]. intros E. apply Ha. unfold FRAME_SIZE in *. by rewrite E.
Qed.

Lemma grows_weaken j k T T' st st' : (j <= k)%nat -> grows j T T' st st' -> grows k T T' st st'.
Proof. intros H (G1 & G2 & G4). split; [done|]. split; [by eapply takes_weaken|done]. Qed.

Lemma grows_0 T st : grows 0 T T st st.
Proof. split; [by left|]. split; [apply takes_0|done]. Qed.

Lemma grows_trans j k T1 T2 T3 st1 st2 st3 : grows j T1 T2 st1 st2 -> grows k T2 T3 st2 st3 -> grows (j + k) T1 T3 st1 st3.
Proof.
  intros (A1 & A2 & A4) (B1 & B2 & B4). split; [|split; [by eapply takes_trans|]].
  - intros t l Ht. destruct (B1 t l Ht) as [H|H]; [by apply A1|right; by apply (proj1 A2)].
  - intros a Hoff Ha. rewrite B4; [by apply A4| |by intros H%(proj1 A2)].
    intros t l Ht. destruct (A1 t l Ht) as [H|H]; [by apply (Hoff t l)|]. intros E. apply Ha. unfold FRAME_SIZE in *. by rewrite E.
Qed.

(** Allocating a zeroed table for the absent slot [(t, i)] and linking it. *)
Lemma link_absent pml4 st T t l i :
  vm_tree pml4 st T -> lev T !! t = Some (Datatypes.S l) -> 0 <= i < 512 ->
  present (ent (vm_mem st) t i) = false -> (0 < size (free_set (vm_pmm st)))%nat ->
  exists c st1, table_alloc st = Ok (c, st1) /\ 0 < c /\ c mod 4096 = 0 /\
    let st2 := vm_set st1 t i (Z.lor (Z.lor (Z.lor c PTE_P) PTE_W) PTE_U) in
    let T2 := Tree (<[c := l]> (lev T)) (<[c := (t, i)]> (slot T)) in
    vm_tree pml4 st2 T2 /\ extends T T2 /\ same_phys T (vm_mem st) (vm_mem st2) /\
    ent (vm_mem st2) t i = c + 7 /\ (forall j, 0 <= j < 512 -> ent (vm_mem st2) c j = 0) /\
    (forall s k j, lev T !! s = Some k -> 0 <= j < 512 -> (s, j) <> (t, i) ->
       ent (vm_mem st2) s j = ent (vm_mem st) s j) /\
    size (free_set (vm_pmm st2)) = (size (free_set (vm_pmm st)) - 1)%nat /\ grows 1 T T2 st st2.
Proof.
  intros Htree Ht Hi Hab Hsz.
  destruct (table_alloc_ok pml4 st T Htree Hsz)
    as (c & st1 & E & (Hw1 & H01 & HT1) & Hc & Hca & Hcn & Hcf & Hz & He & Hn & Hcfree & Hgr).
  exists c, st1. split; [done|]. split; [lia|]. split; [done|].
  pose proof (wt_aligned _ _ _ _ HT1 _ _ Ht) as (_ & Hta & _).
  assert (t <> c) by congruence.
  rewrite link_entry by done. cbv zeta. unfold vm_set; cbn [vm_mem vm_pmm].
  change (2 ^ 30) with 1073741824 in Hc.
  assert (forall s k j, lev T !! s = Some k -> 0 <= j < 512 -> (s, j) <> (t, i) ->
    ent (set_ent (vm_mem st1) t i (c + 7)) s j = ent (vm_mem st1) s j) as Ho.
  { intros s k j Hs Hj Hne. apply ent_set_other; [done| |done|done|congruence].
    by apply (wt_aligned _ _ _ _ HT1) in Hs as (_ & ? & _). }
  assert (forall j, 0 <= j < 512 -> ent (set_ent (vm_mem st1) t i (c + 7)) c j = 0) as Hz2.
  { intros j Hj. rewrite ent_set_other; try done; [by apply Hz|congruence]. }
  assert (ent (set_ent (vm_mem st1) t i (c + 7)) t i = c + 7) as Hti.
  { rewrite ent_set_same. apply u64_small. lia. }
  split; [|split; [|split; [|split; [|split; [|split; [|split; [done|]]]]]]].
  - split; [done|]. split; [done|]. cbn [vm_mem vm_pmm].
    eapply (wf_tree_link pml4 (vm_mem st1)); [done|done|done|lia|done|done|done|exact Ho|done|].
    intros _ j Hj. by rewrite Hz2.
  - intros s k Hs. simpl. rewrite lookup_insert_ne; [done|]. congruence.
  - eapply same_phys_trans; [apply extends_refl| |].
    + eapply same_phys_ents; [apply Htree|exact He].
    + intros k s v Hs. eapply (phys_stable pml4 (vm_mem st1) (vm_pmm st1) T _ t (Datatypes.S l) i);
        [done|done|exact Ho| |done].
      intros w Hw. cbn [phys_from]. rewrite Hw, Hti, (He t (Datatypes.S l)), Hab by done.
      rewrite link_present, link_not_large, andb_false_r, align_low by (done || lia). cbn [negb].
      destruct l as [|l]; cbn [phys_from]; by rewrite Hz2 by apply idx_range.
  - done.
  - done.
  - intros s k j Hs Hj Hne. rewrite (Ho s k) by done. by eapply He.
  - by apply (grows_link T st st1 c l t i (Datatypes.S l) Hgr).
Qed.

(** The creating walk reaches the page table of [virt], adds the missing
    tables, and changes no translation. *)
Lemma walk_from_ok pml4 virt l t st T :
  vm_tree pml4 st T -> lev T !! t = Some l -> no_large (vm_mem st) l t virt ->
  (missing (vm_mem st) l t virt <= size (free_set (vm_pmm st)))%nat ->
  exists pt st' T', walk_from l t virt true st = Ok (pt, st') /\ pt <> 0 /\
    vm_tree pml4 st' T' /\ extends T T' /\ same_phys T (vm_mem st) (vm_mem st') /\
    lev T' !! pt = Some 0%nat /\ (pt, idx virt 0) ∈ path (vm_mem st') l t virt /\
    (forall s k j, lev T !! s = Some k -> 0 <= j < 512 ->
       present (ent (vm_mem st) s j) = true -> ent (vm_mem st') s j = ent (vm_mem st) s j) /\
    grows (missing (vm_mem st) l t virt) T T' st st'.
Proof.
  revert t st T. induction l as [|l IH]; intros t st T Htree Ht Hnl Hms.
  - exists t, st, T. cbn [walk_from path]. pose proof (wt_aligned _ _ _ _ (proj2 (proj2 Htree)) _ _ Ht).
    split; [done|]. split; [lia|]. split; [done|]. split; [apply extends_refl|].
    split; [by intros k s v|]. split; [done|]. split; [by left|]. split; [done|apply grows_0].
  - cbn [walk_from no_large missing path] in *.
    pose proof (idx_range virt (Z.of_nat (Datatypes.S l))) as Hi.
    set (i := idx virt (Z.of_nat (Datatypes.S l))) in *.
    destruct (present (ent (vm_mem st) t i)) eqn:Hp.
    + destruct (Hnl eq_refl) as [Hl Hnl'].
      destruct (wt_child _ _ _ _ (proj2 (proj2 Htree)) t l i Ht Hi) as [Hc _]; [done|].
      destruct (IH _ st T Htree Hc Hnl' Hms) as (pt & st' & T' & E & Hpt & Ht' & He & Hs & Hlv & Hin & Hpr & Hg).
      exists pt, st', T'. split; [done|]. split; [done|]. split; [done|]. split; [done|].
      split; [done|]. split; [done|]. split; [|by split].
      rewrite (Hpr t (Datatypes.S l) i), Hp by done. right. cbn [negb orb].
      destruct (Z.eqb_spec (Z.of_nat (Datatypes.S l)) 1) as [E1|?]; [|done].
      rewrite Hl by lia. done.
    + cbn [negb]. destruct (link_absent pml4 st T t l i Htree Ht Hi Hp) as
        (c & st1 & -> & Hc0 & Hca & Htr & Hex & Hsp & Hti & Hz & Hoth & Hsz & Hg1); [lia|].
      cbn [mbind res_bind].
      destruct (Z.eqb_spec c 0); [lia|].
      set (st2 := vm_set st1 t i _) in *. set (T2 := Tree _ _) in *.
      rewrite Hti, align_low by (done || lia).
      assert (lev T2 !! c = Some l) as Hlc by (by apply lookup_insert_eq).
      assert (missing (vm_mem st2) l c virt = l) as Hml.
      { destruct l; cbn [missing]; [done|]. rewrite Hz by apply idx_range. by rewrite not_present_0. }
      destruct (IH c st2 T2 Htr Hlc) as (pt & st' & T' & E & Hpt & Ht' & He & Hs & Hlv & Hin & Hpr & Hg).
      { destruct l; cbn [no_large]; [done|]. rewrite Hz by apply idx_range. done. }
      { rewrite Hsz, Hml. lia. }
      exists pt, st', T'. split; [done|]. split; [done|]. split; [done|].
      split; [by eapply extends_trans|]. split; [by eapply same_phys_trans|]. split; [done|].
      assert (ent (vm_mem st') t i = c + 7) as Hti'.
      { rewrite (Hpr t (Datatypes.S l)); [done|by apply Hex|done|]. by rewrite Hti, link_present. }
      split.
      * rewrite Hti', link_present, link_not_large, andb_false_r, align_low by (done || lia).
        right. exact Hin.
      * split; [|rewrite Hml in Hg; exact (grows_trans 1 l _ _ _ _ _ _ Hg1 Hg)]. intros s k j Hs1 Hj Hpj. assert ((s, j) <> (t, i)) by congruence.
        rewrite <- (Hoth s k j) by done. apply (Hpr s k); [by apply Hex|done|].
        by rewrite (Hoth s k j).
Qed.

(** The page-table entry a split makes for 4 KB page [i] of the 2 MB page [e]. *)
Lemma split_entry e i : 0 <= e < 18446744073709551616 -> 0 <= i < 512 -> present e = true ->
  let x := align2m e + i * 0x1000 + Z.land (Z.land e 0xFFF) (Z.lnot 0x80) in
  u64 x = x /\ present x = true /\ align4k x = align2m e + i * 4096.
Proof.
  intros He Hi Hp. rewrite present_bit in Hp. rewrite align2m_eq. cbv zeta.
  set (f := Z.land (Z.land e 0xFFF) (Z.lnot 0x80)).
  assert (forall j, 0 <= j -> Z.testbit f j = Z.testbit (e mod 4096) j && negb (j =? 7)) as Hf.
  { intros j Hj. unfold f. change 128 with (Z.shiftl 1 7). rewrite testbit_clear by lia.
    by rewrite low12. }
  assert (0 <= f) by (apply Z.land_nonneg; left; apply Z.land_nonneg; lia).
  assert (f < 4096).
  { change 4096 with (2 ^ 12). apply bits_bound; [lia|done|]. intros j Hj.
    rewrite Hf by lia. change 4096 with (2 ^ 12). by rewrite Z.mod_pow2_bits_high by lia. }
  assert (Z.testbit f 0 = true) as Hf0.
  { rewrite Hf by lia. change 4096 with (2 ^ 12). by rewrite Z.mod_pow2_bits_low, Hp by lia. }
  set (b := e - e mod 2097152 + i * 4096).
  assert (b mod 4096 = 0) as Hb by (unfold b; zdm).
  assert (0 <= b <= 18446744073709547520) as Hr by (unfold b; clear -He Hi; zdm).
  split; [apply u64_small; lia|]. split.
  - rewrite present_bit, low_bit by (done || lia). done.
  - by apply align_low.
Qed.

Lemma split_offset v : v mod 2097152 = idx v 0 * 4096 + v mod 4096.
Proof.
  rewrite idx_eq by lia. change (2 ^ (12 + 9 * 0)) with 4096.
  change 2097152 with (4096 * 512). rewrite Z.rem_mul_r by lia. lia.
Qed.

(** Replacing the 2 MB page in slot [i] of the page directory [t] by a page
    table. *)
Lemma link_split pml4 st T t i :
  vm_tree pml4 st T -> lev T !! t = Some 1%nat -> 0 <= i < 512 ->
  present (ent (vm_mem st) t i) = true -> large (ent (vm_mem st) t i) = true ->
  (0 < size (free_set (vm_pmm st)))%nat ->
  exists c st1, table_alloc st = Ok (c, st1) /\ c <> 0 /\
    let e := ent (vm_mem st1) t i in
    let st2 := Vmm (fill PT_ENTRIES 0 (vm_mem st1) c
                 (fun j => u64 (align2m e + j * 0x1000 + Z.land (Z.land e 0xFFF) (Z.lnot 0x80))))
                 (vm_pmm st1) in
    let st3 := vm_set st2 t i (Z.lor (Z.lor (Z.lor c PTE_P) PTE_W) PTE_U) in
    let T3 := Tree (<[c := 0%nat]> (lev T)) (<[c := (t, i)]> (slot T)) in
    vm_tree pml4 st3 T3 /\ extends T T3 /\ same_phys T (vm_mem st) (vm_mem st3) /\
    ent (vm_mem st3) t i = c + 7 /\ c mod 4096 = 0 /\
    (forall j, 0 <= j < 512 -> present (ent (vm_mem st3) c j) = true /\
       align4k (ent (vm_mem st3) c j) = align2m (ent (vm_mem st) t i) + j * 4096) /\
    (forall s k j, lev T !! s = Some k -> 0 <= j < 512 -> (s, j) <> (t, i) ->
       ent (vm_mem st3) s j = ent (vm_mem st) s j) /\
    size (free_set (vm_pmm st3)) = (size (free_set (vm_pmm st)) - 1)%nat /\ grows 1 T T3 st st3.
Proof.
  intros Htree Ht Hi Hp Hl Hsz.
  destruct (table_alloc_ok pml4 st T Htree Hsz)
    as (c & st1 & E & (Hw1 & H01 & HT1) & Hc & Hca & Hcn & Hcf & _ & He & Hn & Hcfree & Hgr).
  exists c, st1. split; [done|]. split; [lia|].
  pose proof (wt_aligned _ _ _ _ HT1 _ _ Ht) as (_ & Hta & _).
  assert (t <> c) by congruence. change (2 ^ 30) with 1073741824 in Hc.
  rewrite link_entry by done. cbv zeta. unfold vm_set; cbn [vm_mem vm_pmm].
  rewrite (He t 1%nat i Ht Hi). set (e := ent (vm_mem st) t i) in *.
  set (g := fun j : Z => _). set (m2 := fill _ _ _ _ _).
  assert (forall s k j, lev T !! s = Some k -> 0 <= j < 512 -> ent m2 s j = ent (vm_mem st) s j) as Hm2.
  { intros s k j Hs Hj. rewrite <- (He s k j Hs Hj). apply fill_other; [done| |congruence|lia|done|done].
    by apply (wt_aligned _ _ _ _ HT1) in Hs as (_ & ? & _). }
  assert (forall j, 0 <= j < 512 -> ent m2 c j = u64 (g j)) as Hm2c.
  { intros j Hj. unfold m2, PT_ENTRIES. rewrite fill_ent by (assumption || lia).
    destruct (Z.leb_spec 0 j), (Z.ltb_spec j (0 + Z.of_nat 512)); lia || reflexivity. }
  assert (forall v, grows 1 T (Tree (<[c := 0%nat]> (lev T)) (<[c := (t, i)]> (slot T))) st
    (Vmm (set_ent m2 t i v) (vm_pmm st1))) as Hgrow.
  { apply (grows_link T st (Vmm m2 (vm_pmm st1)) c 0 t i 1%nat); try assumption.
    destruct Hgr as (G1 & G2 & G4). split; [exact G1|]. split; [exact G2|].
    intros a Hoff Ha. cbn [vm_mem]. unfold m2. rewrite fill_load8; [by apply G4|assumption|].
    intros Ec. apply Ha. unfold FRAME_SIZE in *. by rewrite Ec. }
  clearbody m2.
  assert (forall s k j, lev T !! s = Some k -> 0 <= j < 512 -> (s, j) <> (t, i) ->
    ent (set_ent m2 t i (c + 7)) s j = ent (vm_mem st) s j) as Ho.
  { intros s k j Hs Hj Hne. rewrite <- (Hm2 s k j Hs Hj).
    apply ent_set_other; [assumption| |assumption|assumption|congruence].
    by apply (wt_aligned _ _ _ _ HT1) in Hs as (_ & ? & _). }
  assert (ent (set_ent m2 t i (c + 7)) t i = c + 7) as Hti.
  { rewrite ent_set_same. apply u64_small. lia. }
  assert (forall j, 0 <= j < 512 -> present (ent (set_ent m2 t i (c + 7)) c j) = true /\
       align4k (ent (set_ent m2 t i (c + 7)) c j) = align2m e + j * 4096) as Hce.
  { intros j Hj. rewrite ent_set_other by (assumption || congruence).
    rewrite Hm2c by assumption. unfold g.
    destruct (split_entry e j) as (Hu & Hpe & Hae); [apply ent_range|assumption..|].
    rewrite !Hu. split; assumption. }
  clear Hm2c. clearbody g.
  split; [|split; [|split; [|split; [|split; [|split; [|split; [|split; [assumption|apply Hgrow]]]]]]]]; try assumption.
  - split; [assumption|]. split; [assumption|]. cbn [vm_mem vm_pmm].
    eapply (wf_tree_link pml4 (vm_mem st) _ (vm_pmm st1));
      [|eassumption|assumption|lia|assumption|assumption|assumption|exact Ho|assumption|congruence].
    eapply wf_tree_stable; [exact HT1| |reflexivity]. intros s k j Hs Hj. symmetry. by eapply He.
  - intros s k Hs. simpl. rewrite lookup_insert_ne; [assumption|]. congruence.
  - intros k s v Hs. eapply (phys_stable pml4 (vm_mem st) (vm_pmm st) T _ t 1%nat i);
      [apply Htree|assumption|exact Ho| |assumption].
    intros w Hw. change (Z.of_nat 1) with 1 in Hw. cbn [phys_from]. change (Z.of_nat 1) with 1.
    rewrite Hw, Hti. fold e. rewrite Hp, Hl.
    rewrite link_present, link_not_large, andb_false_r, align_low by (assumption || lia).
    cbn [negb Z.eqb Pos.eqb andb].
    destruct (Hce (idx w (Z.of_nat 0)) (idx_range _ _)) as [-> ->]. cbn [negb]. f_equal.
    change (Z.of_nat 0) with 0. rewrite low12, low21, split_offset. lia.
Qed.

(** [split_large] leaves no 2 MB page on the way of [virt], changes no
    translation, and takes a frame only when the walk then needs none. *)
Lemma split_large_ok pml4 virt st T : vm_tree pml4 st T ->
  present (ent (vm_mem st) pml4 0) = true -> 0 <= virt < 2 ^ 39 ->
  (2 <= size (free_set (vm_pmm st)))%nat ->
  exists r st1 T1, split_large pml4 virt st = Ok (r, st1) /\
    vm_tree pml4 st1 T1 /\ extends T T1 /\ same_phys T (vm_mem st) (vm_mem st1) /\
    present (ent (vm_mem st1) pml4 0) = true /\
    no_large (vm_mem st1) 3 pml4 virt /\
    (missing (vm_mem st1) 3 pml4 virt <= size (free_set (vm_pmm st1)))%nat /\
    exists k, grows k T T1 st st1 /\ (k + missing (vm_mem st1) 3 pml4 virt <= 2)%nat.
Proof.
  intros Htree Hroot Hv Hsz. pose proof (proj2 (proj2 Htree)) as HT.
  assert (idx virt 3 = 0) as Hi3.
  { rewrite idx_eq by lia. change (2 ^ (12 + 9 * 3)) with (2 ^ 39). by rewrite Z.div_small. }
  pose proof (wt_root _ _ _ _ HT) as Hr.
  destruct (wt_child _ _ _ _ HT pml4 2%nat 0 Hr) as [H2 _]; [done|by split|].
  unfold split_large. set (m := vm_mem st) in *. set (t2 := align4k (ent m pml4 0)) in *.
  change (Z.land (Z.shiftr virt 30) 511) with (idx virt 2).
  change (Z.land (Z.shiftr virt 21) 511) with (idx virt 1).
  pose proof (idx_range virt 2) as Hi2. pose proof (idx_range virt 1) as Hi1.
  cbn [no_large missing]. change (Z.of_nat 3) with 3. change (Z.of_nat 2) with 2.
  change (Z.of_nat 1) with 1. rewrite Hi3. fold m.
  destruct (present (ent m t2 (idx virt 2))) eqn:Hp2; cbn [negb].
  2:{ exists (-1), st, T. fold m t2. rewrite Hroot, Hp2.
      split_and!; [done|done|apply extends_refl|by intros l t v|done|done|lia|]. exists 0%nat. by split; [apply grows_0|]. }
  destruct (wt_child _ _ _ _ HT t2 1%nat (idx virt 2) H2 Hi2) as [H1 _]; [by split|].
  set (t1 := align4k (ent m t2 (idx virt 2))) in *.
  destruct (present (ent m t1 (idx virt 1))) eqn:Hp1; cbn [negb orb].
  2:{ exists 0, st, T. fold m t2 t1. rewrite Hroot, Hp2. fold t1. rewrite Hp1.
      split_and!; [done|done|apply extends_refl|by intros l t v|done|by split|lia|]. exists 0%nat. split; [apply grows_0|lia]. }
  destruct (large (ent m t1 (idx virt 1))) eqn:Hl1; cbn [negb].
  2:{ exists 0, st, T. fold m t2. rewrite Hroot, Hp2. fold t1. rewrite Hp1.
      split_and!; [done|done|apply extends_refl|by intros l t v|done|by split|lia|]. exists 0%nat. split; [apply grows_0|lia]. }
  destruct (link_split pml4 st T t1 (idx virt 1) Htree H1 Hi1 Hp1 Hl1)
    as (c & st1 & -> & Hc & Htr & Hex & Hsp & Hti & Hca & Hce & Ho & Hn & Hgr); [lia|].
  cbn [mbind res_bind]. destruct (Z.eqb_spec c 0); [contradiction|].
  set (st3 := vm_set _ t1 _ _) in *. set (T3 := Tree _ _) in *. clearbody st3 T3.
  assert (t2 <> t1) by congruence. assert (pml4 <> t1) by congruence.
  assert (ent (vm_mem st3) pml4 0 = ent m pml4 0) as E3 by (apply (Ho pml4 3%nat); [done|lia|congruence]).
  assert (ent (vm_mem st3) t2 (idx virt 2) = ent m t2 (idx virt 2)) as E2
    by (apply (Ho t2 2%nat); [done|done|congruence]).
  exists 0, st3, T3. rewrite E3, Hroot. fold t2. rewrite E2, Hp2. fold t1. rewrite Hti.
  rewrite link_present by done. split_and!; try done; [|lia|exists 1%nat; split; [exact Hgr|lia]].
  intros _. split; [done|]. intros _. split; [done|]. intros _. split; [|done].
  intros _. by apply link_not_large.
Qed.

(** ** The page table of an address *)

Lemma pt_of_page m l t v w : v / 4096 = w / 4096 -> pt_of_from m l t v = pt_of_from m l t w.
Proof.
  intros H. revert t. induction l as [|l IH]; intros t; cbn [pt_of_from]; [done|].
  rewrite (idx_page v w) by (done || lia). destruct (_ || _); [done|]. apply IH.
Qed.

Lemma pt_of_path m l t v s : pt_of_from m l t v = Some s -> (s, idx v 0) ∈ path m l t v.
Proof.
  revert t. induction l as [|l IH]; intros t H; cbn [pt_of_from path] in *.
  - injection H as ->. by left.
  - destruct (_ || _); [done|]. right. by apply IH.
Qed.

Lemma pt_of_lev pml4 m pm T l t v s : wf_tree pml4 m pm T -> lev T !! t = Some l ->
  pt_of_from m l t v = Some s -> lev T !! s = Some 0%nat.
Proof.
  intros HT. revert t. induction l as [|l IH]; intros t Ht H; cbn [pt_of_from] in *.
  - by injection H as ->.
  - destruct (_ || _) eqn:Hg; [done|].
    destruct (child pml4 m pm T HT t l v Ht Hg) as [Hc _]. by eapply IH.
Qed.

Lemma path_pt_of pml4 m pm T l t v s i : wf_tree pml4 m pm T -> lev T !! t = Some l ->
  lev T !! s = Some 0%nat -> (s, i) ∈ path m l t v -> pt_of_from m l t v = Some s.
Proof.
  intros HT. revert t. induction l as [|l IH]; intros t Ht Hs Hin; cbn [pt_of_from path] in *.
  - apply list_elem_of_singleton in Hin. by injection Hin as -> _.
  - apply elem_of_cons in Hin as [Hin|Hin]; [injection Hin as -> _; congruence|].
    destruct (_ || _) eqn:Hg; [by apply elem_of_nil in Hin|].
    destruct (child pml4 m pm T HT t l v Ht Hg) as [Hc _]. by apply IH.
Qed.

Lemma pt_of_stable pml4 m m' pm T l t v : wf_tree pml4 m pm T -> lev T !! t = Some l ->
  (forall s k i, lev T !! s = Some (Datatypes.S k) -> 0 <= i < 512 -> ent m' s i = ent m s i) ->
  pt_of_from m' l t v = pt_of_from m l t v.
Proof.
  intros HT Ht He. revert t Ht. induction l as [|l IH]; intros t Ht; cbn [pt_of_from]; [done|].
  rewrite (He t l) by (done || apply idx_range). destruct (_ || _) eqn:Hg; [done|].
  destruct (child pml4 m pm T HT t l v Ht Hg) as [Hc _]. by apply IH.
Qed.

(** The translation of an address that has a page table. *)
Lemma phys_of_pt m l t v s : pt_of_from m l t v = Some s ->
  phys_from m l t v = phys_from m 0 s v.
Proof.
  revert t. induction l as [|l IH]; intros t H; cbn [pt_of_from] in H.
  - by injection H as ->.
  - change (phys_from m (Datatypes.S l) t v) with
      (let e := ent m t (idx v (Z.of_nat (Datatypes.S l))) in
       if negb (present e) then 0
       else if (Z.of_nat (Datatypes.S l) =? 1) && large e
            then u64 (align2m e + Z.land v 0x1FFFFF) else phys_from m l (align4k e) v).
    cbv zeta. destruct (negb (present _)); [done|]. cbn [orb] in H.
    destruct (_ && _); [done|]. by apply IH.
Qed.

(** Writing the page-table entry of [v]'s page. *)
Lemma leaf_write pml4 st T v pt e : vm_tree pml4 st T -> 0 <= v < 2 ^ 48 ->
  pt_of_from (vm_mem st) 3 pml4 v = Some pt ->
  let m' := set_ent (vm_mem st) pt (idx v 0) e in
  wf_tree pml4 m' (vm_pmm st) T /\
  (forall t k i, lev T !! t = Some (Datatypes.S k) -> 0 <= i < 512 -> ent m' t i = ent (vm_mem st) t i) /\
  (forall w, 0 <= w < 2 ^ 48 -> w / 4096 = v / 4096 -> vmm_phys pml4 m' w = phys_from m' 0 pt w) /\
  (forall w, 0 <= w < 2 ^ 48 -> w / 4096 <> v / 4096 ->
     vmm_phys pml4 m' w = vmm_phys pml4 (vm_mem st) w /\
     forall p, maps_4k pml4 m' w p <-> maps_4k pml4 (vm_mem st) w p).
Proof.
  intros (Hpm & H0 & HT) Hv Hpt. cbv zeta.
  pose proof (wt_root _ _ _ _ HT) as Hr. pose proof (pt_of_lev _ _ _ _ _ _ _ _ HT Hr Hpt) as Hl.
  pose proof (wt_aligned _ _ _ _ HT _ _ Hl) as (_ & Hal & _).
  pose proof (idx_range v 0) as Hi.
  assert (forall t k i, lev T !! t = Some (Datatypes.S k) -> 0 <= i < 512 ->
    ent (set_ent (vm_mem st) pt (idx v 0) e) t i = ent (vm_mem st) t i) as Hin.
  { intros t k i Ht Hii. apply ent_set_other; [done| |done|done|congruence].
    by apply (wt_aligned _ _ _ _ HT) in Ht as (_ & ? & _). }
  split; [eapply wf_tree_inner; [exact HT|exact Hin|apply (wt_used _ _ _ _ HT)]|].
  split; [exact Hin|]. split.
  - intros w Hw Hpg. unfold vmm_phys. apply phys_of_pt.
    rewrite (pt_of_page _ _ _ w v) by done. by rewrite (pt_of_stable pml4 (vm_mem st) _ (vm_pmm st) T).
  - intros w Hw Hpg.
    assert (forall s i, (s, i) ∈ path (vm_mem st) 3 pml4 w ->
      ent (set_ent (vm_mem st) pt (idx v 0) e) s i = ent (vm_mem st) s i) as Hpath.
    { intros s i Hsi.
      destruct (path_level _ _ _ _ HT _ _ _ _ _ Hr Hsi) as (k & _ & Hk & -> & _).
      apply ent_set_other; [done| |done|apply idx_range|].
      - by apply (wt_aligned _ _ _ _ HT) in Hk as (_ & ? & _).
      - intros E. injection E as -> E2. apply Hpg.
        eapply (leaf_slot_page _ _ _ _ HT w v); [done|done|exact Hl|exact Hsi|].
        rewrite <- E2. by apply pt_of_path. }
    pose proof (phys_path _ _ 3 pml4 w Hpath) as [Hp1 Hp2]. split; [exact Hp1|].
    intros p. unfold maps_4k. rewrite Hp2. split; intros (t & Ht & Hpr & Ha).
    + rewrite Hpath in Hpr, Ha by by apply pt_of_path. eauto.
    + exists t. rewrite Hpath by by apply pt_of_path. done.
Qed.

(** ** Mapping a page *)

Lemma pte_value phys flags : 0 <= phys < 2 ^ 64 ->
  let e := Z.lor (Z.lor (align4k phys) (Z.land flags 0xFFF)) PTE_P in
  u64 e = e /\ present e = true /\ align4k e = align4k phys.
Proof.
  intros Hp. cbv zeta. change (2 ^ 64) with 18446744073709551616 in Hp.
  rewrite <- Z.lor_assoc, low12. set (g := Z.lor (flags mod 4096) PTE_P).
  assert (0 <= flags mod 4096 < 4096) by zdm.
  assert (0 <= g) by (apply Z.lor_nonneg; split; [lia|done]).
  assert (g < 4096).
  { change 4096 with (2 ^ 12). apply bits_bound; [lia|done|]. intros j Hj. unfold g.
    rewrite Z.lor_spec. change 4096 with (2 ^ 12). rewrite Z.mod_pow2_bits_high by lia.
    apply (byte_bits_high 1); [by split|lia]. }
  assert (align4k phys mod 4096 = 0) as Ha by (rewrite align4k_eq; zdm).
  assert (0 <= align4k phys <= 18446744073709547520) by (rewrite align4k_eq; clear -Hp; zdm).
  rewrite lor_low by (done || lia). split; [apply u64_small; lia|]. split; [|by apply align_low].
  rewrite present_bit, low_bit by (done || lia). unfold g. by rewrite Z.lor_spec, orb_true_r.
Qed.

(** [vmm_map] with the tables it builds: at most two. *)
Lemma vmm_map_tree pml4 virt phys flags st T :
  vm_tree pml4 st T -> present (ent (vm_mem st) pml4 0) = true -> 0 <= virt < 2 ^ 39 -> 0 <= phys < 2 ^ 64 ->
  (2 <= size (free_set (vm_pmm st)))%nat ->
  exists st' pt T', vmm_map pml4 virt phys flags st = Ok st' /\ vm_tree pml4 st' T' /\
    present (ent (vm_mem st') pml4 0) = true /\ grows 2 T T' st st' /\
    pt_of_from (vm_mem st') 3 pml4 virt = Some pt /\
    ent (vm_mem st') pt (idx virt 0) = Z.lor (Z.lor (align4k phys) (Z.land flags 0xFFF)) PTE_P /\
    forall w, 0 <= w < 2 ^ 48 ->
      vmm_phys pml4 (vm_mem st') w =
        if decide (w / 4096 = virt / 4096) then u64 (align4k phys + w mod 4096)
        else vmm_phys pml4 (vm_mem st) w.
Proof.
  intros Htree Hroot Hv Hph Hsz. unfold vmm_map.
  destruct (split_large_ok pml4 virt st T Htree Hroot Hv Hsz)
    as (r & st1 & T1 & -> & Ht1 & He1 & Hs1 & Hr1 & Hnl & Hms & k & Hg1 & Hk). cbn [mbind res_bind].
  pose proof (wt_root _ _ _ _ (proj2 (proj2 Ht1))) as Hrl.
  destruct (walk_from_ok pml4 virt 3 pml4 st1 T1 Ht1 Hrl Hnl Hms)
    as (pt & st2 & T2 & E & Hpt & Ht2 & He2 & Hs2 & Hl2 & Hin & Hpr & Hg2).
  unfold walk. rewrite E. cbn [mbind res_bind]. destruct (Z.eqb_spec pt 0); [done|].
  pose proof (proj2 (proj2 Ht2)) as HT2. pose proof (wt_root _ _ _ _ HT2) as Hrl2.
  pose proof (path_pt_of _ _ _ _ _ _ _ _ _ HT2 Hrl2 Hl2 Hin) as Hpo.
  assert (0 <= virt < 2 ^ 48) as Hv48 by (split; [lia|]; transitivity (2 ^ 39); [lia|done]).
  destruct (pte_value phys flags Hph) as (Hu & Hpe & Hae).
  set (e := Z.lor _ PTE_P) in *.
  destruct (leaf_write pml4 st2 T2 virt pt e Ht2 Hv48 Hpo) as (HT3 & Hup & Hsame & Hother).
  eexists _, pt, T2. split; [reflexivity|]. unfold vm_set; cbn [vm_mem vm_pmm].
  split; [split; [apply Ht2|split; [apply Ht2|done]]|]. split; [|split; [|split; [|split]]].
  - rewrite (Hup pml4 2%nat) by done. rewrite (Hpr pml4 3%nat) by done. done.
  - apply (grows_weaken (k + missing (vm_mem st1) 3 pml4 virt)); [lia|].
    apply (grows_leaf _ T T2 st st2 pt 0%nat); [by eapply grows_trans|done| |apply idx_range].
    by apply (wt_aligned _ _ _ _ HT2) in Hl2 as (_ & ? & _).
  - by rewrite (pt_of_stable pml4 (vm_mem st2) _ (vm_pmm st2) T2).
  - by rewrite ent_set_same.
  - intros w Hw. case_decide as Hpg.
    + rewrite (Hsame w Hw Hpg). cbn [phys_from]. change (Z.of_nat 0) with 0.
      rewrite (idx_page w virt) by (done || lia). rewrite ent_set_same, Hu, Hpe, Hae. cbn [negb].
      by rewrite low12.
    + destruct (Hother w Hw Hpg) as [-> _]. unfold vmm_phys.
      rewrite Hs2 by done. by apply Hs1, (wt_root _ _ _ _ (proj2 (proj2 Htree))).
Qed.

Lemma vmm_map_ok pml4 virt phys flags st :
  vm_wf pml4 st -> 0 <= virt < 2 ^ 39 -> 0 <= phys < 2 ^ 64 ->
  (2 <= size (free_set (vm_pmm st)))%nat ->
  exists st' pt, vmm_map pml4 virt phys flags st = Ok st' /\ vm_wf pml4 st' /\
    pt_of_from (vm_mem st') 3 pml4 virt = Some pt /\
    ent (vm_mem st') pt (idx virt 0) = Z.lor (Z.lor (align4k phys) (Z.land flags 0xFFF)) PTE_P /\
    forall w, 0 <= w < 2 ^ 48 ->
      vmm_phys pml4 (vm_mem st') w =
        if decide (w / 4096 = virt / 4096) then u64 (align4k phys + w mod 4096)
        else vmm_phys pml4 (vm_mem st) w.
Proof.
  intros [Hroot [T Htree]] Hv Hph Hsz.
  destruct (vmm_map_tree pml4 virt phys flags st T Htree Hroot Hv Hph Hsz) as (st' & pt & T' & E & HT & Hr & _ & H).
  exists st', pt. split; [done|]. split; [|done]. split; [done|]. by exists T'.
Qed.

(** ** Unmapping *)

Lemma maps_4k_page pml4 m v w p : v / 4096 = w / 4096 -> maps_4k pml4 m v p -> maps_4k pml4 m w p.
Proof.
  intros H (t & Ht & Hp & Ha). exists t.
  by rewrite (pt_of_page _ _ _ w v), (idx_page w v) by (done || lia).
Qed.

Lemma unmap_page_ok pml4 st T v : vm_tree pml4 st T -> 0 <= v < 2 ^ 48 ->
  present (ent (vm_mem st) pml4 0) = true ->
  (forall p, maps_4k pml4 (vm_mem st) v p -> lev T !! p = None /\ p / FRAME_SIZE <> 0) ->
  exists st', unmap_page pml4 v st = Ok st' /\ unmap_page_spec pml4 T v st st'.
Proof.
  intros Htree Hv Hroot Hsafe. unfold unmap_page.
  assert ((forall p, ~ maps_4k pml4 (vm_mem st) v p) ->
    exists st', Ok st = Ok st' /\ unmap_page_spec pml4 T v st st') as Hnone.
  { intros Hno. exists st. split; [done|]. split; [done|]. split; [done|].
    split; [intros w p _ Hpg Hm; by eapply Hno, maps_4k_page|].
    split; [intros w _ _; split; [intros p Hm; by apply Hno in Hm|done]|]. split; [done|].
    intros f. split; [by left|]. intros [?|(_ & p & Hm & _)]; [done|by apply Hno in Hm]. }
  destruct (pt_of_from (vm_mem st) 3 pml4 v) as [t|] eqn:Hpt.
  2:{ apply Hnone. intros p (t & Ht & _). congruence. }
  destruct (present (ent (vm_mem st) t (idx v 0))) eqn:Hp.
  2:{ apply Hnone. intros p (t' & Ht & Hp' & _). congruence. }
  set (p := align4k (ent (vm_mem st) t (idx v 0))) in *.
  assert (maps_4k pml4 (vm_mem st) v p) as Hmap by (exists t; done).
  assert (forall q, maps_4k pml4 (vm_mem st) v q -> q = p) as Huniq.
  { intros q (t' & Ht' & _ & <-). assert (t' = t) as -> by congruence. done. }
  destruct (Hsafe p Hmap) as [Hnt Hn0].
  pose proof (ent_range (vm_mem st) t (idx v 0)) as Her.
  assert (0 <= p /\ p mod 4096 = 0) as [Hp0 Hpa] by (unfold p; rewrite align4k_eq; clear -Her; split; zdm).
  destruct (free_frame_ok (vm_pmm st) p) as (pm & -> & Hwpm & Hfs); [apply Htree|done|].
  cbn [mbind res_bind].
  destruct (leaf_write pml4 st T v t 0 Htree Hv Hpt) as (HT3 & Hup & Hsame & Hother).
  pose proof (proj2 (proj2 Htree)) as HT.
  assert (forall f, f ∈ free_set pm <-> f ∈ free_set (vm_pmm st) \/ (f < TOTAL /\ f = p / FRAME_SIZE)) as HF.
  { intros f. rewrite Hfs. case_decide as Hd.
    - rewrite elem_of_union, elem_of_singleton. split; [intros [->|?]; eauto|intros [?|[_ ->]]; eauto].
    - split; [by left|]. intros [?|[Hd2 ->]]; [done|lia]. }
  eexists. split; [reflexivity|]. unfold unmap_page_spec, vm_set; cbn [vm_mem vm_pmm].
  split; [|split; [|split; [|split; [|split]]]].
  - split; [done|]. split; cbn [vm_mem vm_pmm].
    { rewrite HF. intros [Hz|[_ Hz]]; [by apply Htree in Hz|done]. }
    eapply wf_tree_inner; [exact HT|exact Hup|]. intros s k Hs. rewrite HF.
    intros [Hz|[_ Hz]]; [by apply (wt_used _ _ _ _ HT _ _ Hs)|].
    pose proof (wt_aligned _ _ _ _ HT _ _ Hs) as (_ & Hsa & _). unfold FRAME_SIZE in Hz.
    assert (s = p) as -> by (clear -Hz Hsa Hpa; zdm). congruence.
  - rewrite (Hup pml4 2%nat); [done| |done]. apply (wt_root _ _ _ _ HT).
  - intros w q Hw Hpg (t' & Ht' & Hp' & _).
    rewrite (pt_of_page _ _ _ w v), (pt_of_stable pml4 (vm_mem st) _ (vm_pmm st) T) in Ht'
      by (done || apply (wt_root _ _ _ _ HT)).
    assert (t' = t) as -> by congruence.
    rewrite (idx_page w v) in Hp' by (done || lia). by rewrite ent_set_same in Hp'.
  - intros w Hw Hpg. split.
    + intros q _. rewrite (Hsame w Hw Hpg). cbn [phys_from]. change (Z.of_nat 0) with 0.
      rewrite (idx_page w v) by (done || lia). by rewrite ent_set_same.
    + intros Hno. by apply Hno in Hmap.
  - done.
  - intros f. rewrite HF. split; (intros [?|[? Hx]]; [by left|right; split; [done|]]).
    + eauto.
    + destruct Hx as (q & Hq & ->). by apply Huniq in Hq as ->.
Qed.

Lemma vmm_unmap_range_ok pml4 st T start end_ :
  vm_tree pml4 st T -> present (ent (vm_mem st) pml4 0) = true ->
  0 <= start -> start <= end_ <= 2 ^ 48 - 4096 ->
  (forall v p, 0 <= v < 2 ^ 48 -> start / 4096 <= v / 4096 < (end_ + 4095) / 4096 ->
     maps_4k pml4 (vm_mem st) v p -> lev T !! p = None /\ p / FRAME_SIZE <> 0) ->
  exists st', vmm_unmap_range pml4 start end_ st = Ok st' /\ vm_tree pml4 st' T /\
    present (ent (vm_mem st') pml4 0) = true /\
    (forall w, 0 <= w < 2 ^ 48 -> start / 4096 <= w / 4096 < (end_ + 4095) / 4096 ->
      (forall p, maps_4k pml4 (vm_mem st) w p -> vmm_phys pml4 (vm_mem st') w = 0) /\
      ((forall p, ~ maps_4k pml4 (vm_mem st) w p) ->
       vmm_phys pml4 (vm_mem st') w = vmm_phys pml4 (vm_mem st) w)) /\
    (forall w, 0 <= w < 2 ^ 48 -> ~ (start / 4096 <= w / 4096 < (end_ + 4095) / 4096) ->
      vmm_phys pml4 (vm_mem st') w = vmm_phys pml4 (vm_mem st) w) /\
    (forall f, f ∈ free_set (vm_pmm st') <-> f ∈ free_set (vm_pmm st) \/
       (f < TOTAL /\ exists w p, 0 <= w < 2 ^ 48 /\
          start / 4096 <= w / 4096 < (end_ + 4095) / 4096 /\
          maps_4k pml4 (vm_mem st) w p /\ f = p / FRAME_SIZE)).
Proof.
  intros Htree Hroot Hs He Hsafe. unfold vmm_unmap_range. rewrite align4k_eq.
  set (v0 := start - start mod 4096). set (a := start / 4096). set (b := (end_ + 4095) / 4096).
  change (2 ^ 48) with 281474976710656 in *.
  assert (v0 = a * 4096) as Hv0 by (unfold v0, a; zdm).
  assert ((end_ - v0 + 0xFFF) / 0x1000 = b - a) as Hn by (rewrite Hv0; unfold b; zdm).
  assert (0 <= a <= b) as Hab by (unfold a, b; zdm).
  assert (b <= 68719476736) as Hb by (unfold b; zdm).
  rewrite Hn.
  destruct (for_each_inv (fun k s =>
    vm_tree pml4 s T /\ present (ent (vm_mem s) pml4 0) = true /\
    (forall w, 0 <= w < 281474976710656 -> a <= w / 4096 < a + k ->
      (forall p, maps_4k pml4 (vm_mem st) w p -> vmm_phys pml4 (vm_mem s) w = 0) /\
      ((forall p, ~ maps_4k pml4 (vm_mem st) w p) ->
       vmm_phys pml4 (vm_mem s) w = vmm_phys pml4 (vm_mem st) w)) /\
    (forall w, 0 <= w < 281474976710656 -> ~ (a <= w / 4096 < a + k) ->
      vmm_phys pml4 (vm_mem s) w = vmm_phys pml4 (vm_mem st) w /\
      forall p, maps_4k pml4 (vm_mem s) w p <-> maps_4k pml4 (vm_mem st) w p) /\
    (forall f, f ∈ free_set (vm_pmm s) <-> f ∈ free_set (vm_pmm st) \/
       (f < TOTAL /\ exists w p, 0 <= w < 281474976710656 /\ a <= w / 4096 < a + k /\
          maps_4k pml4 (vm_mem st) w p /\ f = p / FRAME_SIZE)))
    (Z.to_nat (b - a)) 0 (fun k s => unmap_page pml4 (v0 + 0x1000 * k) s) st)
    as (st' & E & H1 & H2 & H3 & H4 & H5).
  - split; [done|]. split; [done|]. split; [intros; lia|]. split; [done|].
    intros f. split; [by left|]. intros [?|(_ & w & p & ? & ? & _)]; [done|lia].
  - intros k s Hk (I1 & I2 & I3 & I4 & I5). set (v := v0 + 0x1000 * k).
    assert (v / 4096 = a + k) as Hvp by (unfold v; rewrite Hv0; zdm).
    assert (0 <= v < 281474976710656) as Hv by (unfold v; lia).
    assert (forall p, maps_4k pml4 (vm_mem s) v p <-> maps_4k pml4 (vm_mem st) v p) as Hmv
      by (apply I4; [done|lia]).
    destruct (unmap_page_ok pml4 s T v I1 Hv I2) as (s' & Es & J1 & J2 & _ & J3 & J4 & J5).
    { intros p Hp. apply (Hsafe v); [done|lia|]. by apply Hmv. }
    exists s'. split; [done|]. split; [done|]. split; [done|]. split; [|split].
    + intros w Hw Hr. destruct (decide (w / 4096 = v / 4096)) as [Hpg|Hpg].
      * destruct (J3 w Hw Hpg) as [K1 K2]. split.
        -- intros p Hp. apply (K1 p). apply Hmv. by eapply maps_4k_page.
        -- intros Hno. rewrite K2; [apply I4; [done|lia]|].
           intros p Hp%Hmv. by eapply Hno, (maps_4k_page _ _ v).
      * destruct (J4 w Hw Hpg) as [-> _]. apply I3; [done|lia].
    + intros w Hw Hr. destruct (J4 w Hw) as [-> K2]; [lia|]. destruct (I4 w Hw) as [-> K3]; [lia|].
      split; [done|]. intros p. by rewrite K2, K3.
    + intros f. rewrite J5, I5. split.
      * intros [[?|(? & w & p & ? & ? & ? & ?)]|(? & p & Hp & ->)]; [by left|right..].
        -- split; [done|]. exists w, p. split_and!; done || lia.
        -- split; [done|]. exists v, p. apply Hmv in Hp. split_and!; done || lia.
      * intros [?|(? & w & p & Hw & Hr & Hp & ->)]; [by left; left|].
        destruct (decide (w / 4096 = v / 4096)) as [Hpg|Hpg].
        -- right. split; [done|]. exists p. split; [|done]. apply Hmv. by eapply maps_4k_page.
        -- left. right. split; [done|]. exists w, p. split_and!; done || lia.
  - exists st'. split; [exact E|].
    replace (a + (0 + Z.of_nat (Z.to_nat (b - a)))) with b in H3, H4, H5 by lia.
    split; [done|]. split; [done|]. split; [done|]. split; [intros; by apply H4|done].
Qed.

(** The walk through tables that map the first 4 GB with 2 MB pages. *)
Lemma identity_of_entries B pml4 pdpt pd v :
  pdpt mod 4096 = 0 -> 0 <= pdpt < 2 ^ 30 -> pd mod 4096 = 0 -> 0 <= pd < 2 ^ 30 ->
  ent B pml4 0 = pdpt + 7 ->
  (forall i, 0 <= i < 4 -> ent B pdpt i = pd + 4096 * i + 7) ->
  (forall k j, 0 <= k < 4 -> 0 <= j < 512 ->
     ent B (pd + 4096 * k) j = 0x83 + (512 * k + j) * 0x200000) ->
  (forall k j, 0 <= k < 4 -> 0 <= j < 512 -> large (ent B (pd + 4096 * k) j) = true) ->
  0 <= v < 2 ^ 32 -> vmm_phys pml4 B v = v.
Proof.
  intros Ha1 Ha2 Hd1 Hd2 Hb4 Hb3 Hbd Hbl Hv. change (2 ^ 32) with 4294967296 in Hv.
  change (2 ^ 30) with 1073741824 in *.
  assert (idx v 3 = 0) as Hi3.
  { rewrite idx_eq by lia. change (2 ^ (12 + 9 * 3)) with 549755813888. by rewrite Z.div_small by lia. }
  assert (idx v 2 = v / 1073741824) as Hi2.
  { rewrite idx_eq by lia. change (2 ^ (12 + 9 * 2)) with 1073741824. apply Z.mod_small. zdm. }
  assert (idx v 1 = (v / 2097152) mod 512) as Hi1 by (by rewrite idx_eq by lia).
  assert (0 <= idx v 2 < 4) as Hk by (rewrite Hi2; zdm).
  unfold vmm_phys. cbn [phys_from]. change (Z.of_nat 3) with 3. change (Z.of_nat 2) with 2.
  change (Z.of_nat 1) with 1. rewrite Hi3, Hb4. cbn [Z.eqb Pos.eqb andb].
  rewrite link_present, align_low by (done || lia). cbn [negb].
  rewrite Hb3 by done.
  rewrite link_present, align_low by (lia || zdm). cbn [negb].
  rewrite Hbl by (done || apply idx_range).
  rewrite Hbd by (done || apply idx_range). rewrite Hi2, Hi1.
  set (q := 512 * (v / 1073741824) + (v / 2097152) mod 512).
  assert (present (0x83 + q * 2097152) = true) as ->.
  { rewrite present_bit. replace (131 + q * 2097152) with (q * 2097152 + 131) by lia.
    by rewrite low_bit by (lia || zdm). }
  cbn [negb]. rewrite align2m_eq, low21.
  assert (q = v / 2097152) as Hq by (unfold q; zdm).
  rewrite u64_small; rewrite Hq; zdm.
Qed.

(** ** The tables of [boot.S] *)

Section boot.
Context (pml4 pdpt pd : Z) (m : mem) (HL : boot_layout pml4 pdpt pd).
(** The tables are in [.bss]. *)
Context (Hz : forall t i, lev (boot_tree pml4 pdpt pd) !! t <> None -> 0 <= i < 512 -> ent m t i = 0).

Let B := boot_tables pml4 pdpt pd m.

Lemma boot_lev t l : lev (boot_tree pml4 pdpt pd) !! t = Some l <->
  (t = pml4 /\ l = 3%nat) \/ (t = pdpt /\ l = 2%nat) \/
  (exists k, 0 <= k < 4 /\ t = pd + 4096 * k /\ l = 1%nat).
Proof.
  destruct HL as [[? ?] [? ?] [? ?] ? ? ?]. unfold boot_tree; cbn [lev list_to_map foldr fst snd curry].
  rewrite !lookup_insert, lookup_empty. repeat case_decide; split; intros Hx.
  all: try (injection Hx as <-); try discriminate Hx.
  all: try (destruct Hx as [[? ->]|[[? ->]|(k & ? & ? & ->)]]; try done; exfalso; lia).
  - by left.
  - right; by left.
  - do 2 right. exists 0. lia.
  - do 2 right. exists 1. lia.
  - do 2 right. exists 2. lia.
  - do 2 right. exists 3. lia.
Qed.

Lemma boot_pd k j : 0 <= k < 4 -> 0 <= j < 512 ->
  ent B (pd + 4096 * k) j = 0x83 + (512 * k + j) * 0x200000.
Proof.
  intros Hk Hj. destruct HL as [[? ?] [? ?] [? ?] ? ? ?]. unfold B, boot_tables.
  unfold set_ent at 1. unfold ent. rewrite load64_store64_out by (unfold disjoint; zdm).
  fold (ent (fill 4 0 (fill 2048 0 m pd (fun i => u32 (131 + i * 2097152))) pdpt
    (fun i => u32 (Z.lor pd 7 + i * 4096))) (pd + 4096 * k) j).
  rewrite fill_outside by (unfold disjoint; zdm).
  unfold ent. replace (pd + 4096 * k + 8 * j) with (pd + 8 * (512 * k + j)) by lia.
  fold (ent (fill 2048 0 m pd (fun i => u32 (131 + i * 2097152))) pd (512 * k + j)).
  rewrite fill_inside by lia. rewrite u32_small by lia. apply u64_small. lia.
Qed.

Lemma boot_pdpt i : 0 <= i < 512 ->
  ent B pdpt i = if i <? 4 then pd + 4096 * i + 7 else 0.
Proof.
  intros Hi. destruct HL as [[? ?] [? ?] [? ?] ? ? ?]. change (2 ^ 30) with 1073741824 in *.
  unfold B, boot_tables. rewrite ent_set_other by (done || lia || congruence).
  destruct (Z.ltb_spec i 4).
  - rewrite fill_inside by lia. rewrite lor_low by (done || lia).
    rewrite u32_small by lia. rewrite u64_small by lia. lia.
  - rewrite fill_outside by (unfold disjoint; lia).
    rewrite fill_outside by (unfold disjoint; zdm). apply Hz; [|done].
    destruct (boot_lev pdpt 2) as [_ E]. rewrite E; [done|]. right; by left.
Qed.

Lemma boot_pml4 i : 0 <= i < 512 -> ent B pml4 i = if i =? 0 then pdpt + 7 else 0.
Proof.
  intros Hi. destruct HL as [[? ?] [? ?] [? ?] ? ? ?]. change (2 ^ 30) with 1073741824 in *.
  unfold B, boot_tables. destruct (Z.eqb_spec i 0) as [->|?].
  - rewrite ent_set_same, lor_low by (done || lia). apply u64_small. lia.
  - rewrite ent_set_other by (done || lia || (intros [= ?]; lia)).
    rewrite fill_outside by (unfold disjoint; zdm).
    rewrite fill_outside by (unfold disjoint; zdm). apply Hz; [|done].
    destruct (boot_lev pml4 3) as [_ E]. rewrite E; [done|]. by left.
Qed.

Lemma boot_large k j : 0 <= k < 4 -> 0 <= j < 512 -> large (ent B (pd + 4096 * k) j) = true.
Proof.
  intros Hk Hj. rewrite boot_pd by done. rewrite large_bit.
  replace (131 + (512 * k + j) * 2097152) with ((512 * k + j) * 2097152 + 131) by lia.
  rewrite low_bit by (lia || zdm). done.
Qed.

Lemma boot_wf_tree pm : (forall t l, lev (boot_tree pml4 pdpt pd) !! t = Some l ->
    t / FRAME_SIZE ∉ free_set pm) -> wf_tree pml4 B pm (boot_tree pml4 pdpt pd).
Proof.
  intros Hu. pose proof HL as [[? ?] [? ?] [? ?] ? ? ?].
  pose proof boot_pml4 as Hb4. pose proof boot_pdpt as Hb3. pose proof boot_large as Hbl.
  clearbody B. split.
  - apply boot_lev. by left.
  - intros t l Ht. apply boot_lev in Ht as [[-> ->]|[[-> ->]|(k & ? & -> & ->)]];
      (split_and!; [lia|zdm|lia]).
  - exact Hu.
  - intros t l i Ht Hi [Hp Hlg].
    apply boot_lev in Ht as [[-> Hl]|[[-> Hl]|(k & Hk & -> & Hl)]]; injection Hl as ->.
    + rewrite Hb4 in Hp |- * by done. destruct (Z.eqb_spec i 0) as [->|?]; [|done].
      rewrite align_low by (done || lia). split; [apply boot_lev; right; by left|].
      unfold boot_tree; cbn [slot list_to_map foldr fst snd curry]. by rewrite lookup_insert_eq.
    + rewrite Hb3 in Hp |- * by done. destruct (Z.ltb_spec i 4); [|done].
      rewrite align_low by (lia || zdm).
      split; [apply boot_lev; do 2 right; exists i; lia|].
      assert (i = 0 \/ i = 1 \/ i = 2 \/ i = 3) as Hc by lia.
      unfold boot_tree; cbn [slot list_to_map foldr fst snd curry]. rewrite !lookup_insert.
      destruct Hc as [->|[->|[->| ->]]]; repeat case_decide; try done; lia.
    + rewrite Hbl in Hlg by done. by specialize (Hlg eq_refl).
Qed.

(** The first 4 GB are mapped one to one. *)
Lemma boot_identity v : 0 <= v < 2 ^ 32 -> vmm_phys pml4 B v = v.
Proof.
  intros Hv. pose proof HL as [[? ?] [? ?] [? ?] ? ? ?].
  apply (identity_of_entries B pml4 pdpt pd v); [assumption|lia|assumption|lia|..|assumption].
  - by rewrite (boot_pml4 0) by lia.
  - intros i Hi. rewrite boot_pdpt by lia. by rewrite (proj2 (Z.ltb_lt i 4)) by lia.
  - exact boot_pd.
  - exact boot_large.
Qed.
End boot.

(** ** Unmapping next to a mapped page *)

Lemma idx_2m v w l : 1 <= l -> v / 2097152 = w / 2097152 -> idx v l = idx w l.
Proof.
  intros Hl H. rewrite !idx_eq by lia.
  replace (12 + 9 * l) with (21 + 9 * (l - 1)) by lia. rewrite Z.pow_add_r by lia.
  change (2 ^ 21) with 2097152.
  assert (0 < 2 ^ (9 * (l - 1))) by (apply Z.pow_pos_nonneg; lia).
  rewrite <- !Z.div_div by lia. by rewrite H.
Qed.

Lemma pt_of_2m m l t v w : v / 2097152 = w / 2097152 -> pt_of_from m l t v = pt_of_from m l t w.
Proof.
  intros H. revert t. induction l as [|l IH]; intros t; cbn [pt_of_from]; [done|].
  rewrite (idx_2m v w) by (done || lia). destruct (_ || _); [done|]. apply IH.
Qed.

(** A page whose region has a page table and that translates somewhere has a
    4 KB entry. *)
Lemma phys_maps_4k pml4 m v t : pt_of_from m 3 pml4 v = Some t -> v mod 4096 = 0 ->
  vmm_phys pml4 m v <> 0 -> maps_4k pml4 m v (vmm_phys pml4 m v).
Proof.
  intros Ht Hv Hp. pose proof (phys_of_pt _ _ _ _ _ Ht) as E.
  change (phys_from m 3 pml4 v) with (vmm_phys pml4 m v) in E. rewrite E in Hp |- *.
  cbn [phys_from] in Hp |- *. change (Z.of_nat 0) with 0 in *. exists t. split; [done|].
  destruct (present (ent m t (idx v 0))); [|done]. split; [done|]. cbn [negb].
  rewrite low12, Hv, Z.add_0_r, align4k_eq. pose proof (ent_range m t (idx v 0)).
  symmetry. apply u64_small. zdm.
Qed.

Lemma unmap_one pml4 st v p : Pmm.wf (vm_pmm st) -> v mod 4096 = 0 ->
  maps_4k pml4 (vm_mem st) v p ->
  exists st', vmm_unmap_range pml4 v (v + 0x1000) st = Ok st' /\
    free_spec (free_set (vm_pmm st)) p (free_set (vm_pmm st')).
Proof.
  intros Hwf Hv (t & Ht & Hpr & <-). unfold vmm_unmap_range. rewrite (align4k_eq v), Hv.
  replace (v + 0x1000 - (v - 0) + 0xFFF) with 8191 by lia.
  change (Z.to_nat (8191 / 0x1000)) with 1%nat. cbn [for_each].
  replace (v - 0 + 0x1000 * 0) with v by lia.
  unfold unmap_page. rewrite Ht, Hpr.
  destruct (free_frame_ok (vm_pmm st) (align4k (ent (vm_mem st) t (idx v 0))))
    as (pm & -> & _ & Hs); [done| |].
  - pose proof (ent_range (vm_mem st) t (idx v 0)). rewrite align4k_eq. clear -H. zdm.
  - eexists. split; [reflexivity|]. exact Hs.
Qed.

(** ** Properties *)

(** C11. [vmm_map] in the first 512 GB, with two frames free for tables: it
    returns, keeps the table tree well formed, the page-table entry of the
    page holds the frame and the flags, every address of the page translates
    into the frame, and every other page, those of a 2 MB page that had to be
    split included, translates as before. *)
Theorem vmm_map_translates pml4 virt phys flags st :
  vm_wf pml4 st -> 0 <= virt < 2 ^ 39 -> 0 <= phys < 2 ^ 64 ->
  (2 <= size (free_set (vm_pmm st)))%nat ->
  exists st' pt, vmm_map pml4 virt phys flags st = Ok st' /\ vm_wf pml4 st' /\
    pt_of_from (vm_mem st') 3 pml4 virt = Some pt /\
    ent (vm_mem st') pt (idx virt 0) = Z.lor (Z.lor (align4k phys) (Z.land flags 0xFFF)) PTE_P /\
    forall w, 0 <= w < 2 ^ 48 ->
      vmm_phys pml4 (vm_mem st') w =
        if decide (w / 4096 = virt / 4096) then u64 (align4k phys + w mod 4096)
        else vmm_phys pml4 (vm_mem st) w.
Proof. apply vmm_map_ok. Qed.

(** [split_large] replaces a 2 MB page by 512 page-table entries without
    changing any translation, keeps the table tree well formed, and leaves no
    2 MB page in the way of the address. *)
Theorem split_large_preserves pml4 virt st :
  vm_wf pml4 st -> 0 <= virt < 2 ^ 39 -> (2 <= size (free_set (vm_pmm st)))%nat ->
  exists r st', split_large pml4 virt st = Ok (r, st') /\ vm_wf pml4 st' /\
    (forall w, vmm_phys pml4 (vm_mem st') w = vmm_phys pml4 (vm_mem st) w) /\
    no_large (vm_mem st') 3 pml4 virt.
Proof.
  intros [Hroot [T Ht]] Hv Hsz.
  destruct (split_large_ok pml4 virt st T Ht Hroot Hv Hsz)
    as (r & st1 & T1 & E & Ht1 & _ & Hs & Hr1 & Hnl & _).
  exists r, st1. split; [exact E|]. split; [split; [exact Hr1|exists T1; exact Ht1]|].
  split; [|exact Hnl]. intros w. apply Hs, (wt_root _ _ _ _ (proj2 (proj2 Ht))).
Qed.

(** C20. [vmm_unmap_range] on a range whose 4 KB mappings lead to frames that
    are not tables: it ends, keeps the table tree, every page of the range
    with a 4 KB mapping loses it, 2 MB pages and all pages outside the range
    keep their translation, and exactly the mapped frames become free. *)
Theorem vmm_unmap_range_frees pml4 st T start end_ :
  vm_tree pml4 st T -> present (ent (vm_mem st) pml4 0) = true ->
  0 <= start -> start <= end_ <= 2 ^ 48 - 4096 ->
  (forall v p, 0 <= v < 2 ^ 48 -> start / 4096 <= v / 4096 < (end_ + 4095) / 4096 ->
     maps_4k pml4 (vm_mem st) v p -> lev T !! p = None /\ p / FRAME_SIZE <> 0) ->
  exists st', vmm_unmap_range pml4 start end_ st = Ok st' /\ vm_tree pml4 st' T /\
    present (ent (vm_mem st') pml4 0) = true /\
    (forall w, 0 <= w < 2 ^ 48 -> start / 4096 <= w / 4096 < (end_ + 4095) / 4096 ->
      (forall p, maps_4k pml4 (vm_mem st) w p -> vmm_phys pml4 (vm_mem st') w = 0) /\
      ((forall p, ~ maps_4k pml4 (vm_mem st) w p) ->
       vmm_phys pml4 (vm_mem st') w = vmm_phys pml4 (vm_mem st) w)) /\
    (forall w, 0 <= w < 2 ^ 48 -> ~ (start / 4096 <= w / 4096 < (end_ + 4095) / 4096) ->
      vmm_phys pml4 (vm_mem st') w = vmm_phys pml4 (vm_mem st) w) /\
    (forall f, f ∈ free_set (vm_pmm st') <-> f ∈ free_set (vm_pmm st) \/
       (f < TOTAL /\ exists w p, 0 <= w < 2 ^ 48 /\
          start / 4096 <= w / 4096 < (end_ + 4095) / 4096 /\
          maps_4k pml4 (vm_mem st) w p /\ f = p / FRAME_SIZE)).
Proof. apply vmm_unmap_range_ok. Qed.

(** The tables of [boot.S] establish the invariant and map the first 4 GB
    one to one. *)
Theorem boot_tables_identity pml4 pdpt pd m pm :
  boot_layout pml4 pdpt pd ->
  (forall t i, lev (boot_tree pml4 pdpt pd) !! t <> None -> 0 <= i < 512 -> ent m t i = 0) ->
  Pmm.wf pm -> (0 ∉ free_set pm) ->
  (forall t l, lev (boot_tree pml4 pdpt pd) !! t = Some l -> t / FRAME_SIZE ∉ free_set pm) ->
  vm_wf pml4 (Vmm (boot_tables pml4 pdpt pd m) pm) /\
  forall v, 0 <= v < 2 ^ 32 -> vmm_phys pml4 (boot_tables pml4 pdpt pd m) v = v.
Proof.
  intros HL Hz Hwf H0 Hu. split; [split|].
  - cbn [vm_mem]. rewrite (boot_pml4 pml4 pdpt pd m HL Hz 0) by lia. cbn [Z.eqb].
    apply link_present, HL.
  - exists (boot_tree pml4 pdpt pd). split; [exact Hwf|]. split; [exact H0|].
    by apply boot_wf_tree.
  - by apply boot_identity.
Qed.

(** Unmapping a page that was never mapped by [vmm_map] gives its frame
    back all the same: mapping one page splits its 2 MB page, and the 511
    identity entries around it are then released by [vmm_unmap_range], whoever
    owns the frames. *)
Theorem vmm_unmap_frees_identity_frame pml4 virt phys flags st w :
  vm_wf pml4 st -> 0 <= virt < 2 ^ 39 -> 0 <= phys < 2 ^ 64 ->
  (2 <= size (free_set (vm_pmm st)))%nat ->
  0 <= w < 2 ^ 48 -> w mod 4096 = 0 -> w / 2097152 = virt / 2097152 ->
  w / 4096 <> virt / 4096 ->
  0 < vmm_phys pml4 (vm_mem st) w < PMM_MAX_PHYS ->
  exists st1 st2, vmm_map pml4 virt phys flags st = Ok st1 /\
    vmm_unmap_range pml4 w (w + 0x1000) st1 = Ok st2 /\
    vmm_phys pml4 (vm_mem st) w / FRAME_SIZE ∈ free_set (vm_pmm st2).
Proof.
  intros Hwf Hv Hph Hsz Hw Hal H2m Hpg Hp.
  destruct (vmm_map_ok pml4 virt phys flags st Hwf Hv Hph Hsz) as (st1 & pt & E1 & Hwf1 & Hpt & _ & Htr).
  specialize (Htr w Hw). rewrite decide_False in Htr by done. rewrite <- Htr in Hp |- *.
  rewrite <- (pt_of_2m _ _ _ w virt) in Hpt by done.
  destruct Hwf1 as [_ [T1 HT1]].
  destruct (unmap_one pml4 st1 w (vmm_phys pml4 (vm_mem st1) w)) as (st2 & E2 & Hs).
  - apply HT1.
  - exact Hal.
  - eapply phys_maps_4k; [exact Hpt|exact Hal|lia].
  - exists st1, st2. split; [exact E1|]. split; [exact E2|]. rewrite Hs.
    rewrite decide_True by (unfold PMM_MAX_PHYS, TOTAL, FRAME_SIZE in *; zdm).
    apply elem_of_union_l, elem_of_singleton. reflexivity.
Qed.

(** ** Witnesses *)

Lemma wit_layout : boot_layout 0x10000 0x11000 0x12000.
Proof. split; change (2 ^ 30) with 1073741824; try (split; [lia|reflexivity]); lia. Qed.

Lemma wit_zero t i : lev (boot_tree 0x10000 0x11000 0x12000) !! t <> None -> 0 <= i < 512 ->
  ent ∅ t i = 0.
Proof. reflexivity. Qed.

Lemma wit_pmm : exists pm, Pmm.wf pm /\ forall f, f ∈ free_set pm <-> f = 512 \/ f = 256.
Proof.
  destruct (free_frame_ok wit_state 0x200000 wit_state_wf) as (pm & _ & Hwf & Hs); [lia|].
  exists pm. split; [exact Hwf|]. intros f. unfold free_spec in Hs.
  rewrite decide_True in Hs by reflexivity. change (0x200000 / FRAME_SIZE) with 512 in Hs.
  rewrite Hs, wit_state_free, elem_of_union, !elem_of_singleton. done.
Qed.

Lemma wit_lev t l : lev (boot_tree 0x10000 0x11000 0x12000) !! t = Some l -> 0x10000 <= t <= 0x15000.
Proof.
  intros H. apply (boot_lev _ _ _ wit_layout) in H as [[-> _]|[[-> _]|(k & ? & -> & _)]]; lia.
Qed.

Lemma wit_boot : exists pm, (forall f, f ∈ free_set pm <-> f = 512 \/ f = 256) /\
  vm_tree 0x10000 (Vmm wit_mem pm) (boot_tree 0x10000 0x11000 0x12000) /\
  present (ent wit_mem 0x10000 0) = true.
Proof.
  destruct wit_pmm as (pm & Hwf & Hf). exists pm. split; [exact Hf|]. split; [split|].
  - exact Hwf.
  - split; [cbn [vm_pmm]; rewrite Hf; lia|].
    apply boot_wf_tree; [exact wit_layout|exact wit_zero|].
    intros t l Ht%wit_lev. cbn [vm_pmm]. rewrite Hf. unfold FRAME_SIZE. clear -Ht. zdm.
  - unfold wit_mem. rewrite (boot_pml4 0x10000 0x11000 0x12000 ∅ wit_layout wit_zero 0) by lia.
    reflexivity.
Qed.

(** Hanging a page table with one entry below a directory. *)
Lemma link_and_map pml4 m pm T t0 i0 c v e : vm_tree pml4 (Vmm m pm) T ->
  0 <= v < 2 ^ 48 -> lev T !! t0 = Some 1%nat -> 0 <= i0 < 512 ->
  0 < c < 2 ^ 48 -> c mod 4096 = 0 -> lev T !! c = None -> c / FRAME_SIZE ∉ free_set pm ->
  pt_of_from (set_ent m t0 i0 (c + 7)) 3 pml4 v = Some c ->
  vm_tree pml4 (Vmm (set_ent (set_ent m t0 i0 (c + 7)) c (idx v 0) e) pm)
    (Tree (<[c := 0%nat]> (lev T)) (<[c := (t0, i0)]> (slot T))).
Proof.
  intros (Hwf & H0 & Ht) Hv Ht0 Hi0 Hc Hca Hcn Hcf Hpt. change (2 ^ 48) with 281474976710656 in *.
  cbn [vm_mem vm_pmm] in *. pose proof (wt_aligned _ _ _ _ Ht _ _ Ht0) as (_ & Ha0 & _).
  assert (vm_tree pml4 (Vmm (set_ent m t0 i0 (c + 7)) pm)
    (Tree (<[c := 0%nat]> (lev T)) (<[c := (t0, i0)]> (slot T)))) as Ht1.
  { split; [exact Hwf|]. split; [exact H0|].
    apply (wf_tree_link pml4 m _ pm T t0 0 i0 c); try done || lia; cbn [vm_mem].
    - intros t k i Hk Hi Hne. pose proof (wt_aligned _ _ _ _ Ht _ _ Hk) as (_ & Ha & _).
      by apply ent_set_other.
    - rewrite ent_set_same. apply u64_small. lia. }
  destruct (leaf_write pml4 _ _ v c e Ht1) as (H1 & _); [done|done|].
  split; [exact Hwf|]. split; [exact H0|exact H1].
Qed.

Lemma wit_mapped : exists pm,
  vm_tree 0x10000 (Vmm wit_mem2 pm) wit_tree2 /\
  present (ent wit_mem2 0x10000 0) = true /\
  pt_of_from wit_mem2 3 0x10000 0x400000 = Some 0x17000 /\
  ent wit_mem2 0x17000 0 = 0x300007.
Proof.
  destruct wit_boot as (pm & Hf & Ht & Hr). exists pm. split.
  - unfold wit_mem2, wit_tree2. cbv zeta.
    apply (link_and_map 0x10000 wit_mem pm _ 0x12000 2 0x17000 0x400000 0x300007 Ht).
    + split; [discriminate|reflexivity].
    + reflexivity.
    + split; [discriminate|reflexivity].
    + split; reflexivity.
    + reflexivity.
    + reflexivity.
    + rewrite Hf. intros [E|E]; vm_compute in E; discriminate E.
    + vm_compute. reflexivity.
  - split; [vm_compute; reflexivity|]. split; vm_compute; reflexivity.
Qed.

Lemma wit_size pm : (forall f, f ∈ free_set pm <-> f = 512 \/ f = 256) ->
  (2 <= size (free_set pm))%nat.
Proof.
  intros H. replace (free_set pm) with ({[512; 256]} : gset Z).
  - rewrite size_union by (rewrite disjoint_singleton_l, elem_of_singleton; lia).
    by rewrite !size_singleton.
  - apply set_eq. intros f. rewrite H, elem_of_union, !elem_of_singleton. done.
Qed.

(** Mapping the user page 0x400000 to frame 0x100000. *)
Lemma vmm_map_translates_witness : exists st st' pt,
  vm_wf 0x10000 st /\ vmm_map 0x10000 0x400000 0x100000 7 st = Ok st' /\ vm_wf 0x10000 st' /\
  pt_of_from (vm_mem st') 3 0x10000 0x400000 = Some pt /\
  ent (vm_mem st') pt 0 = 0x100007 /\
  forall w, 0 <= w < 2 ^ 48 -> vmm_phys 0x10000 (vm_mem st') w =
    if decide (w / 4096 = 1024) then u64 (0x100000 + w mod 4096)
    else vmm_phys 0x10000 (vm_mem st) w.
Proof.
  destruct wit_boot as (pm & Hf & Ht & Hr).
  destruct (vmm_map_translates 0x10000 0x400000 0x100000 7 (Vmm wit_mem pm))
    as (st' & pt & H).
  - split; [exact Hr|]. eexists; exact Ht.
  - split; [lia|reflexivity].
  - split; [lia|reflexivity].
  - apply wit_size, Hf.
  - exists (Vmm wit_mem pm), st', pt. split; [|exact H]. split; [exact Hr|]. eexists; exact Ht.
Defined.

Lemma split_large_preserves_witness : exists st r st',
  vm_wf 0x10000 st /\ split_large 0x10000 0x400000 st = Ok (r, st') /\ vm_wf 0x10000 st' /\
  (forall w, vmm_phys 0x10000 (vm_mem st') w = vmm_phys 0x10000 (vm_mem st) w) /\
  no_large (vm_mem st') 3 0x10000 0x400000.
Proof.
  destruct wit_boot as (pm & Hf & Ht & Hr).
  destruct (split_large_preserves 0x10000 0x400000 (Vmm wit_mem pm)) as (r & st' & H).
  - split; [exact Hr|]. eexists; exact Ht.
  - split; [lia|reflexivity].
  - apply wit_size, Hf.
  - exists (Vmm wit_mem pm), r, st'. split; [|exact H]. split; [exact Hr|]. eexists; exact Ht.
Defined.

Lemma vmm_unmap_range_frees_witness : exists st st',
  vmm_unmap_range 0x10000 0x400000 0x401000 st = Ok st' /\
  vmm_phys 0x10000 (vm_mem st) 0x400000 = 0x300000 /\
  vmm_phys 0x10000 (vm_mem st') 0x400000 = 0 /\ 768 ∈ free_set (vm_pmm st').
Proof.
  destruct wit_mapped as (pm & Ht & Hr & Hpt & He).
  assert (maps_4k 0x10000 wit_mem2 0x400000 0x300000) as Hm.
  { exists 0x17000. split; [exact Hpt|]. change (idx 0x400000 0) with 0. rewrite He. by split. }
  destruct (vmm_unmap_range_frees 0x10000 (Vmm wit_mem2 pm) wit_tree2 0x400000 0x401000)
    as (st' & E & _ & _ & Hin & _ & Hfr).
  - exact Ht.
  - exact Hr.
  - discriminate.
  - split; discriminate.
  - intros v p Hv Hpg Hp. apply (maps_4k_page _ _ v 0x400000) in Hp; [|clear -Hpg; zdm].
    destruct Hp as (t & Hpt' & _ & <-). cbn [vm_mem] in *. rewrite Hpt in Hpt'. injection Hpt' as <-.
    change (idx 0x400000 0) with 0. rewrite He. split; [reflexivity|vm_compute; discriminate].
  - exists (Vmm wit_mem2 pm), st'. split; [exact E|]. split; [vm_compute; reflexivity|]. split.
    + refine (proj1 (Hin 0x400000 _ _) 0x300000 Hm); [split; [discriminate|reflexivity]|split; reflexivity || done].
    + apply Hfr. right. split; [reflexivity|]. exists 0x400000, 0x300000.
      split; [split; [discriminate|reflexivity]|]. split; [split; reflexivity || done|]. split; [exact Hm|reflexivity].
Defined.

Lemma boot_tables_identity_witness : exists pm,
  vm_wf 0x10000 (Vmm (boot_tables 0x10000 0x11000 0x12000 ∅) pm) /\
  forall v, 0 <= v < 2 ^ 32 -> vmm_phys 0x10000 (boot_tables 0x10000 0x11000 0x12000 ∅) v = v.
Proof.
  destruct wit_pmm as (pm & Hwf & Hf). exists pm. apply boot_tables_identity.
  - exact wit_layout.
  - exact wit_zero.
  - exact Hwf.
  - rewrite Hf. lia.
  - intros t l Ht%wit_lev. rewrite Hf. unfold FRAME_SIZE. clear -Ht. zdm.
Defined.

Lemma vmm_unmap_frees_identity_frame_witness : exists st st1 st2,
  vmm_map 0x10000 0x400000 0x100000 7 st = Ok st1 /\
  vmm_unmap_range 0x10000 0x401000 (0x401000 + 0x1000) st1 = Ok st2 /\
  0x401000 / FRAME_SIZE ∈ free_set (vm_pmm st2).
Proof.
  destruct wit_boot as (pm & Hf & Ht & Hr). exists (Vmm wit_mem pm).
  assert (vmm_phys 0x10000 wit_mem 0x401000 = 0x401000) as Hp.
  { apply boot_identity; [exact wit_layout|exact wit_zero|]. split; [lia|reflexivity]. }
  destruct (vmm_unmap_frees_identity_frame 0x10000 0x400000 0x100000 7 (Vmm wit_mem pm) 0x401000)
    as (st1 & st2 & E1 & E2 & Hin).
  - split; [exact Hr|]. eexists; exact Ht.
  - split; [discriminate|reflexivity].
  - split; [discriminate|reflexivity].
  - apply wit_size, Hf.
  - split; [discriminate|reflexivity].
  - reflexivity.
  - reflexivity.
  - vm_compute. discriminate.
  - cbn [vm_mem]. rewrite Hp. split; reflexivity.
  - exists st1, st2. split; [exact E1|]. split; [exact E2|]. cbn [vm_mem] in Hin. rewrite Hp in Hin.
    exact Hin.
Defined.
