(* ===== verification/Str.v ===== *)
(** * C strings and slash-separated paths

    A [const char *] argument is the list of the bytes up to the terminator;
    [*p] is [deref p] (0 at the end) and [p++] is [tl p].  The sources repeat
    the same small helpers in several files: [same_condition] of
    [kernel/fs.c], [name_same] of [kernel/exec.c] and [kernel/fat.c], [same]
    of [user/shell.c]. *)
From stdpp Require Export strings.
From S2P Require Import Prelude.
#[global] Open Scope Z_scope.

Abbreviation str := (list Z).

(** A string literal. *)
Fixpoint lit (s : string) : str :=
  match s with
  | EmptyString => []
  | String a s' => Z.of_N (Ascii.N_of_ascii a) :: lit s'
  end.

Definition SLASH : Z := 47.
Definition DOT : Z := 46.

Definition deref (p : str) : Z := match p with [] => 0 | c :: _ => c end.

(** A string holds bytes that are not the terminator. *)
Definition cstr (s : str) : Prop := Forall (fun c => 0 < c < 256) s.

(** [while ( *a && *a == *b) { a++; b++; } return *a == *b;] *)
Fixpoint same_condition (a b : str) : bool :=
  match a with
  | [] => deref b =? 0
  | x :: a' => if x =? deref b then same_condition a' (tl b) else false
  end.

(** [while ( *p == '/') p++;] *)
Fixpoint skip_slash (p : str) : str :=
  match p with
  | c :: p' => if c =? SLASH then skip_slash p' else p
  | [] => []
  end.

(** [while (p[i] && p[i] != '/' && i < n) { out[i] = p[i]; i++; }]. *)
Fixpoint take_part (n : nat) (p : str) : str :=
  match n, p with
  | S n', c :: p' => if c =? SLASH then [] else c :: take_part n' p'
  | _, _ => []
  end.

(** The index of the last slash, [last] when there is none;
    [i] is the index of the head. *)
Fixpoint last_slash (p : str) (i last : Z) : Z :=
  match p with
  | [] => last
  | c :: p' => last_slash p' (i + 1) (if c =? SLASH then i else last)
  end.

(** ** Paths as lists of components *)

(** The pieces between slashes, empty ones included. *)
Fixpoint split (p : str) : list str :=
  match p with
  | [] => [[]]
  | c :: p' =>
      if c =? SLASH then [] :: split p'
      else match split p' with
           | w :: ws => (c :: w) :: ws
           | [] => [[c]]
           end
  end.

(** Pieces of at most [k + 1] bytes. *)
Fixpoint pieces (fuel k : nat) (w : str) : list str :=
  match fuel, w with
  | S fuel', _ :: _ => take (S k) w :: pieces fuel' k (drop (S k) w)
  | _, _ => []
  end.

(** The components of a path, as a buffer of [k + 2] bytes cuts them: the
    words between slashes, those longer than [k + 1] in pieces. *)
Definition comps (k : nat) (p : str) : list str :=
  flat_map (fun w => pieces (length w) k w) (split p).

(** A component that is stored as a name. *)
Definition plain (w : str) : Prop := Forall (fun c => 0 < c < 256 /\ c <> SLASH) w.

(** [/a/b]: every component behind a slash. *)
Definition join (ws : list str) : str := flat_map (fun w => SLASH :: w) ws.

(** ** Lemmas *)

Lemma same_condition_eq a b : cstr a -> cstr b -> same_condition a b = bool_decide (a = b).
Proof.
  intros Ha. revert b. induction Ha as [|x a Hx _ IH]; intros b Hb; cbn [same_condition].
  - destruct Hb as [|y b Hy _]; cbn [deref].
    + by rewrite bool_decide_eq_true_2.
    + rewrite bool_decide_eq_false_2 by done. apply Z.eqb_neq. lia.
  - destruct Hb as [|y b Hy Hb]; cbn [deref tl].
    + rewrite bool_decide_eq_false_2 by done. destruct (Z.eqb_spec x 0); [lia|done].
    + destruct (Z.eqb_spec x y) as [->|Hne].
      * rewrite IH by done. apply bool_decide_ext. split; [by intros ->|by intros [= ->]].
      * rewrite bool_decide_eq_false_2; [done|congruence].
Qed.

Lemma plain_cstr w : plain w -> cstr w.
Proof. intros H. eapply Forall_impl; [exact H|]. by intros c [? _]. Qed.

Lemma deref_0 p : cstr p -> (deref p =? 0) = bool_decide (p = []).
Proof.
  intros [|c p' Hc _]; cbn [deref]; [done|].
  rewrite bool_decide_eq_false_2 by done. apply Z.eqb_neq. lia.
Qed.

Lemma skip_slash_cstr p : cstr p -> cstr (skip_slash p).
Proof. induction 1; cbn [skip_slash]; [constructor|]. case_match; [done|by constructor]. Qed.

Lemma skip_slash_length p : (length (skip_slash p) <= length p)%nat.
Proof. induction p; cbn [skip_slash length]; [lia|]. case_match; cbn [length]; lia. Qed.

Lemma skip_slash_head p : deref (skip_slash p) <> SLASH.
Proof.
  induction p as [|c p IH]; cbn [skip_slash]; [done|].
  destruct (Z.eqb_spec c SLASH); [done|by cbn].
Qed.

Lemma split_not_nil p : split p <> [].
Proof. destruct p as [|c p]; cbn [split]; [done|]. case_match; [done|]. by case_match. Qed.

Lemma split_word w : plain w -> split w = [w].
Proof.
  induction 1 as [|c w [_ Hc] _ IH]; cbn [split]; [done|].
  rewrite (proj2 (Z.eqb_neq c SLASH) Hc). by rewrite IH.
Qed.

Lemma split_app w r : plain w -> split (w ++ SLASH :: r) = w :: split r.
Proof.
  induction 1 as [|c w [_ Hc] _ IH]; cbn [split app]; [done|].
  rewrite (proj2 (Z.eqb_neq c SLASH) Hc). by rewrite IH.
Qed.

(** A path is a word, or a word, a slash and a path. *)
Lemma word_cases p : cstr p ->
  exists w r, p = w ++ r /\ plain w /\ (r = [] \/ exists r', r = SLASH :: r').
Proof.
  induction 1 as [|c p Hc Hp (w & r & -> & Hw & Hr)].
  - exists [], []. repeat split; [constructor|by left].
  - destruct (Z.eq_dec c SLASH) as [->|Hne].
    + exists [], (SLASH :: w ++ r). repeat split; [constructor|right; eauto].
    + exists (c :: w), r. split; [done|]. split; [by constructor|done].
Qed.

Section comps.
Context (k : nat).

Lemma comps_nil : comps k [] = [].
Proof. done. Qed.

Lemma comps_slash p : comps k (SLASH :: p) = comps k p.
Proof. done. Qed.

Lemma comps_skip p : comps k (skip_slash p) = comps k p.
Proof.
  induction p as [|c p IH]; cbn [skip_slash]; [done|].
  destruct (Z.eqb_spec c SLASH) as [->|?]; [by rewrite comps_slash|done].
Qed.

Lemma comps_word w r : plain w -> (r = [] \/ exists r', r = SLASH :: r') ->
  comps k (w ++ r) = pieces (length w) k w ++ comps k r.
Proof.
  intros Hw [->|[r' ->]]; unfold comps.
  - rewrite app_nil_r, split_word by done. reflexivity.
  - rewrite split_app by done. reflexivity.
Qed.

Lemma take_part_word n w r : plain w -> (r = [] \/ exists r', r = SLASH :: r') ->
  take_part n (w ++ r) = take n w.
Proof.
  intros Hw Hr. revert n. induction Hw as [|c w [_ Hc] _ IH]; intros n; cbn [app].
  - destruct Hr as [->|[r' ->]]; by destruct n.
  - destruct n as [|n]; cbn [take_part]; [done|].
    rewrite (proj2 (Z.eqb_neq c SLASH) Hc). by rewrite IH.
Qed.

Lemma pieces_fuel n m w : (length w <= n)%nat -> (length w <= m)%nat ->
  pieces n k w = pieces m k w.
Proof.
  revert m w. induction n as [|n IH]; intros m w Hn Hm.
  - destruct w; [|cbn in Hn; lia]. by destruct m.
  - destruct w as [|c w]; [by destruct m|]. destruct m as [|m]; [cbn in Hm; lia|].
    cbn [pieces]. f_equal. apply IH; cbn [drop length] in *; rewrite length_drop; lia.
Qed.

(** One iteration of a loop that reads a component. *)
Lemma comps_step p : cstr p -> p <> [] -> deref p <> SLASH ->
  let part := take_part (S k) p in
  part <> [] /\ plain part /\ (length part <= S k)%nat /\
  comps k p = part :: comps k (drop (length part) p).
Proof.
  intros Hp Hne Hs. destruct (word_cases p Hp) as (w & r & -> & Hw & Hr).
  assert (w <> []) as Hwn.
  { intros ->. destruct Hr as [->|[r' ->]]; [done|by cbn in Hs]. }
  cbv zeta. rewrite take_part_word by done. split; [destruct w; [done|by cbn]|].
  split; [by apply Forall_take|]. rewrite length_take. split; [lia|].
  rewrite comps_word by done. destruct w as [|c w]; [done|].
  cbn [length pieces app]. f_equal.
  replace (drop (S k `min` S (length w)) (c :: w ++ r)) with (drop (S k) (c :: w) ++ r).
  - rewrite comps_word; [|by apply Forall_drop|done]. f_equal.
    apply pieces_fuel; [cbn [drop]; rewrite length_drop; lia|done].
  - change (c :: w ++ r) with ((c :: w) ++ r). rewrite drop_app.
    destruct (decide (S k <= S (length w))%nat).
    + rewrite Nat.min_l by lia. f_equal. by rewrite (proj2 (Nat.sub_0_le _ _)) by (cbn; lia).
    + rewrite Nat.min_r by lia. rewrite (drop_ge _ (S k)) by (cbn; lia).
      rewrite (drop_ge _ (S (length w))) by (cbn; lia). cbn [length]. by rewrite Nat.sub_diag.
Qed.

Lemma split_cat a w : split (a ++ SLASH :: w) = split a ++ split w.
Proof.
  induction a as [|c a IH]; cbn [app split]; [by destruct (split w) eqn:E; [destruct (split_not_nil w)|]|].
  destruct (c =? SLASH); cbn [app]; [by rewrite IH|]. rewrite IH.
  destruct (split a) eqn:E; [by apply split_not_nil in E|done].
Qed.

Lemma comps_cat a w : comps k (a ++ SLASH :: w) = comps k a ++ comps k w.
Proof. unfold comps. by rewrite split_cat, flat_map_app. Qed.

(** Short components are not cut. *)
Lemma pieces_short n w : w <> [] -> (length w <= S k)%nat -> (length w <= n)%nat ->
  pieces n k w = [w].
Proof.
  intros Hw Hk Hn. destruct w as [|c w]; [done|]. destruct n as [|n]; [cbn in Hn; lia|].
  cbn [pieces]. rewrite take_ge by lia. rewrite drop_ge by lia. by destruct n.
Qed.

Lemma comps_single w : plain w -> w <> [] -> (length w <= S k)%nat -> comps k w = [w].
Proof.
  intros Hw Hn Hl. rewrite <- (app_nil_r w) at 1. rewrite comps_word by (done || by left).
  rewrite pieces_short by done. done.
Qed.

Lemma comps_join ws : Forall (fun w => plain w /\ w <> [] /\ (length w <= S k)%nat) ws ->
  comps k (join ws) = ws.
Proof.
  induction 1 as [|w ws (Hw & Hn & Hl) _ IH]; [done|].
  cbn [join flat_map]. cbn [app]. rewrite comps_slash.
  rewrite comps_word; [|done|destruct ws; [by left|right; eauto]].
  fold (join ws). by rewrite pieces_short, IH by done.
Qed.
End comps.

(** The last slash cuts a path into its directory part and its leaf. *)
Lemma last_slash_none w i l : plain w -> last_slash w i l = l.
Proof.
  intros H. revert i. induction H as [|c w [_ Hc] _ IH]; intros i; cbn [last_slash]; [done|].
  by rewrite (proj2 (Z.eqb_neq c SLASH) Hc).
Qed.

Lemma last_slash_app a w i l : plain w ->
  last_slash (a ++ SLASH :: w) i l = i + Z.of_nat (length a).
Proof.
  intros Hw. revert i l. induction a as [|c a IH]; intros i l; cbn [app last_slash length].
  - rewrite last_slash_none by done. unfold SLASH. simpl. lia.
  - rewrite IH. lia.
Qed.

Lemma leaf_cases p : cstr p ->
  plain p \/ exists a w, p = a ++ SLASH :: w /\ plain w.
Proof.
  induction 1 as [|c p Hc _ IH]; [left; constructor|].
  destruct IH as [Hp|(a & w & -> & Hw)]; [|right; by exists (c :: a), w].
  destruct (Z.eq_dec c SLASH) as [->|?]; [right; by exists [], p|left; by constructor].
Qed.
