(* ===== verification/Fs.v ===== *)
(** * The file-system server ([kernel/fs.c])

    A tree of at most 64 nodes in memory, with a current directory; when a
    volume is mounted, writes, directory changes and listings go to it.  The
    mounted volume is an interface ([volume]): the operations of
    [kernel/fat.h] that the server calls, over their own state. *)
From S2P Require Import Prelude Str.

(** ** Constants *)
Definition FS_MAX : Z := 64.
Definition NAME_MAX : nat := 32.
Definition FILE_MAX : Z := 4096.
(** 0755 and 0644. *)
Definition MODE_DIR : Z := 493.
Definition MODE_FILE : Z := 420.
Definition FS_OK : Z := 0.
Definition FS_BADPATH : Z := -1.
Definition FS_EXISTS : Z := -2.
Definition FS_FULL : Z := -3.
Definition FS_USAGE : Z := -4.
Definition FS_BADNAME : Z := -5.
Definition FS_RO : Z := -6.

(** ** The mounted volume *)
Class volume (V : Type) := Volume {
  vol_mount : Z -> V -> res (Z * V);
  vol_unmount : V -> V;
  vol_write : str -> list Z -> Z -> V -> res (Z * V);
  vol_chdir : str -> V -> res (Z * V);
  vol_list : str -> Z -> V -> res (Z * list Z * V);
  vol_getcwd : Z -> V -> res (Z * list Z * V)
}.

(** ** State *)

(** A node; [name] is the string in the 32-byte array. *)
Record node := Node {
  name : str; parent : Z; is_dir : bool; n_used : bool; mode : Z; data : list Z; datalen : Z
}.

Record fs (V : Type) := Fs {
  nodes : list node; cwd : Z; mounted : bool; mounted_idx : Z; vol : V
}.
Arguments Fs {V}. Arguments nodes {V}. Arguments cwd {V}. Arguments mounted {V}.
Arguments mounted_idx {V}. Arguments vol {V}.

Definition set_nodes {V} (s : fs V) (ns : list node) : fs V :=
  Fs ns (cwd s) (mounted s) (mounted_idx s) (vol s).
Definition set_cwd {V} (s : fs V) (d : Z) : fs V :=
  Fs (nodes s) d (mounted s) (mounted_idx s) (vol s).
Definition set_vol {V} (s : fs V) (v : V) : fs V :=
  Fs (nodes s) (cwd s) (mounted s) (mounted_idx s) v.

(** ** Operations *)

Definition slen (s : str) : Z := Z.of_nat (length s).

(** Copies at most [NAME_MAX - 1] bytes. *)
Definition name_cp (src : str) : str := take (NAME_MAX - 1) src.

Definition find_kid (ns : list node) (dir : Z) (nm : str) : res Z :=
  c ← for_loop (Z.to_nat FS_MAX) 0 (fun i (_ : unit) =>
        nd ← rd ns i;
        if negb (n_used nd) || negb (parent nd =? dir) then mret (Next tt)
        else if same_condition (name nd) nm then mret (Done i) else mret (Next tt)) tt;
  mret (match c with Done i => i | Next _ => -1 end).

Definition next_part (p : str) : str := take_part (NAME_MAX - 1) (skip_slash p).

(** One iteration of the loop of [resolve]: [Done (Some d)] is [*out = d],
    [Done None] is the error return. *)
Definition resolve_step (ns : list node) (st : str * Z) : res (ctl (str * Z) (option Z)) :=
  let '(p, cur) := st in
  if deref p =? 0 then mret (Done (Some cur))
  else
    let p := skip_slash p in
    if deref p =? 0 then mret (Done (Some cur))
    else
      let part := next_part p in
      let p := skip_slash (drop (length part) p) in
      if same_condition part [DOT] then mret (Next (p, cur))
      else if same_condition part [DOT; DOT] then
        nd ← rd ns cur;
        mret (Next (p, if 0 <=? parent nd then parent nd else cur))
      else
        k ← find_kid ns cur part;
        if k <? 0 then mret (Done None)
        else
          nd ← rd ns k;
          if negb (deref p =? 0) && negb (is_dir nd) then mret (Done None)
          else mret (Next (p, k)).

Section ram.
Context {V : Type}.

Definition resolve (path : str) (s : fs V) : res (option Z) :=
  let cur := if deref path =? SLASH then 0 else cwd s in
  if (deref path =? 0) || same_condition path [DOT] then mret (Some cur)
  else while_loop (S (length path)) (resolve_step (nodes s)) (path, cur).

Definition resolve_dir (path : str) (s : fs V) : res (option Z) :=
  o ← resolve path s;
  match o with
  | None => mret None
  | Some d => nd ← rd (nodes s) d; mret (if is_dir nd then Some d else None)
  end.

Definition free_slot (ns : list node) : res Z :=
  c ← for_loop (Z.to_nat FS_MAX) 0 (fun i (_ : unit) =>
        nd ← rd ns i; mret (if negb (n_used nd) then Done i else Next tt)) tt;
  mret (match c with Done i => i | Next _ => -1 end).

(** The parent directory and the leaf; [pbuf] is a 128-byte array. *)
Definition split_parent (arg : str) (s : fs V) : res (option (Z * str)) :=
  let last := last_slash arg 0 (-1) in
  if 0 <=? last then
    let pbuf := take (Z.to_nat (Z.min last 127)) arg in
    o ← resolve_dir (if negb (deref pbuf =? 0) then pbuf else [SLASH]) s;
    mret (match o with
          | Some pdir => Some (pdir, next_part (drop (Z.to_nat (last + 1)) arg))
          | None => None
          end)
  else mret (Some (cwd s, next_part arg)).

Definition bad_leaf (leaf : str) : bool :=
  (deref leaf =? 0) || same_condition leaf [DOT] || same_condition leaf [DOT; DOT].

Definition fs_init (s : fs V) : res (fs V) :=
  let ns := (fun nd => Node (name nd) (parent nd) (is_dir nd) false (mode nd) (data nd) (datalen nd))
              <$> nodes s in
  nd ← rd ns 0;
  ns ← wr ns 0 (Node [] (-1) true true MODE_DIR (data nd) (datalen nd));
  mret (Fs ns 0 (mounted s) (mounted_idx s) (vol s)).

Definition fs_mkdir (arg : str) (s : fs V) : res (Z * fs V) :=
  if mounted s then mret (FS_RO, s)
  else if deref arg =? 0 then mret (FS_USAGE, s)
  else
    o ← split_parent arg s;
    match o with
    | None => mret (FS_BADPATH, s)
    | Some (pdir, leaf) =>
        if bad_leaf leaf then mret (FS_BADNAME, s)
        else
          k ← find_kid (nodes s) pdir leaf;
          if 0 <=? k then mret (FS_EXISTS, s)
          else
            fr ← free_slot (nodes s);
            if fr <? 0 then mret (FS_FULL, s)
            else
              nd ← rd (nodes s) fr;
              ns ← wr (nodes s) fr (Node (name_cp leaf) pdir true true MODE_DIR (data nd) 0);
              mret (FS_OK, set_nodes s ns)
    end.

(** [for (i = 0; i < len; i++) nodes[k].data[i] = buf[i]; datalen = len]. *)
Definition put_data (k : Z) (buf : list Z) (len : Z) (s : fs V) : res (Z * fs V) :=
  nd ← rd (nodes s) k;
  d ← for_each (Z.to_nat len) 0 (fun i d => c ← rd buf i; wr d i c) (data nd);
  ns ← wr (nodes s) k (Node (name nd) (parent nd) (is_dir nd) (n_used nd) (mode nd) d (u32 len));
  mret (FS_OK, set_nodes s ns).

Definition fs_fread_ram (path : str) (cap : Z) (s : fs V) : res (Z * list Z) :=
  o ← resolve path s;
  match o with
  | None => mret (-1, [])
  | Some idx =>
      nd ← rd (nodes s) idx;
      if is_dir nd then mret (-1, [])
      else
        let n := if cap <? datalen nd then u32 cap else datalen nd in
        out ← for_each (Z.to_nat n) 0 (fun i out => c ← rd (data nd) i; mret (out ++ [c])) [];
        mret (n, out)
  end.

Context `{!volume V}.

Definition fs_fwrite (path : str) (buf : list Z) (len : Z) (s : fs V) : res (Z * fs V) :=
  if mounted s then
    '(r, v) ← vol_write path buf len (vol s); mret (r, set_vol s v)
  else if deref path =? 0 then mret (FS_BADPATH, s)
  else if FILE_MAX <? len then mret (FS_FULL, s)
  else
    o ← split_parent path s;
    match o with
    | None => mret (FS_BADPATH, s)
    | Some (pdir, leaf) =>
        if bad_leaf leaf then mret (FS_BADNAME, s)
        else
          k ← find_kid (nodes s) pdir leaf;
          if 0 <=? k then
            nd ← rd (nodes s) k;
            if is_dir nd then mret (FS_BADPATH, s) else put_data k buf len s
          else
            k ← free_slot (nodes s);
            if k <? 0 then mret (FS_FULL, s)
            else
              nd ← rd (nodes s) k;
              ns ← wr (nodes s) k (Node (name_cp leaf) pdir false true MODE_FILE (data nd) (datalen nd));
              put_data k buf len (set_nodes s ns)
    end.

Definition fs_chdir (path : str) (s : fs V) : res (Z * fs V) :=
  if mounted s then
    '(r, v) ← vol_chdir path (vol s); mret (r, set_vol s v)
  else if deref path =? 0 then mret (FS_OK, set_cwd s 0)
  else
    o ← resolve_dir path s;
    match o with
    | None => mret (FS_BADPATH, s)
    | Some d => mret (FS_OK, set_cwd s d)
    end.

(** The text written to [out], [pos] bytes. *)
Definition list_loop (ns : list node) (dir cap : Z) : res (list Z) :=
  c ← for_loop (Z.to_nat FS_MAX) 0 (fun i out =>
        nd ← rd ns i;
        if negb (n_used nd) || negb (parent nd =? dir) then mret (Next out)
        else if cap <? Z.of_nat (length out) + slen (name nd) + 2 then mret (Done out)
        else mret (Next (out ++ name nd ++ (if is_dir nd then [SLASH] else []) ++ [10]))) [];
  mret (match c with Next out => out | Done out => out end).

Definition fs_listdir (path : str) (cap : Z) (s : fs V) : res (Z * list Z * fs V) :=
  if mounted s then
    '(r, v) ← vol_list path cap (vol s); mret (r, set_vol s v)
  else
    o ← (if deref path =? 0 then mret (Some (cwd s)) else resolve_dir path s);
    match o with
    | None => mret (FS_BADPATH, [], s)
    | Some dir => out ← list_loop (nodes s) dir cap; mret (Z.of_nat (length out), out, s)
    end.

(** [while (cur != 0 && depth < FS_MAX) ...]: the stack, last pushed first. *)
Fixpoint cwd_stack (fuel : nat) (ns : list node) (cur : Z) (stack : list Z) : res (list Z) :=
  match fuel with
  | O => mret stack
  | S fuel' =>
      if cur =? 0 then mret stack
      else nd ← rd ns cur; cwd_stack fuel' ns (parent nd) (cur :: stack)
  end.

(** The loop over the stack; [None] when [cap] is too small. *)
Fixpoint cwd_text (ns : list node) (stack : list Z) (cap : Z) (out : list Z) : res (option (list Z)) :=
  match stack with
  | [] => mret (Some out)
  | i :: stack' =>
      nd ← rd ns i;
      if cap <? Z.of_nat (length out) + slen (name nd) + 2 then mret None
      else cwd_text ns stack' cap (out ++ SLASH :: name nd)
  end.

Definition fs_getcwd (cap : Z) (s : fs V) : res (Z * list Z * fs V) :=
  if mounted s then
    '(r, v) ← vol_getcwd cap (vol s); mret (r, set_vol s v)
  else if cap <? 2 then mret (FS_BADPATH, [], s)
  else if cwd s =? 0 then mret (1, [SLASH], s)
  else
    stack ← cwd_stack (Z.to_nat FS_MAX) (nodes s) (cwd s) [];
    o ← cwd_text (nodes s) stack cap [];
    match o with
    | None => mret (FS_BADPATH, [], s)
    | Some out => mret (Z.of_nat (length out), out, s)
    end.

(** [part_get] is [drivers]' partition table: the first block of a partition. *)
Definition fs_mount_part (part_lba : Z -> option Z) (idx : Z) (s : fs V) : res (Z * fs V) :=
  match part_lba idx with
  | None => mret (FS_BADPATH, s)
  | Some lba =>
      '(r, v) ← vol_mount lba (vol s);
      if negb (r =? 0) then mret (FS_BADPATH, set_vol s v)
      else mret (FS_OK, Fs (nodes s) (cwd s) true idx v)
  end.

Definition fs_unmount (s : fs V) : fs V :=
  Fs (nodes s) (cwd s) false (-1) (vol_unmount (vol s)).

End ram.

(** ** Specification *)

(** The abstract file system: entries under their absolute paths. *)
Inductive entry := EDir | EFile (bytes : list Z).
Abbreviation tree := (gmap (list str) entry).

Definition entry_of (nd : node) : entry :=
  if is_dir nd then EDir else EFile (take (Z.to_nat (datalen nd)) (data nd)).

(** The names from the root down to node [i]. *)
Fixpoint path_up (fuel : nat) (ns : list node) (i : Z) : list str :=
  match fuel with
  | O => []
  | S fuel' =>
      if i =? 0 then []
      else match ns !! Z.to_nat i with
           | Some nd => path_up fuel' ns (parent nd) ++ [name nd]
           | None => []
           end
  end.

Definition path_of (ns : list node) (i : Z) : list str := path_up (Z.to_nat FS_MAX) ns i.

Definition abs (ns : list node) : tree :=
  list_to_map (omap (fun i => nd ← ns !! i;
    if n_used nd then Some (path_of ns (Z.of_nat i), entry_of nd) else None)
    (seq 0 (length ns))).

Definition good_name (n : str) : Prop :=
  n <> [] /\ (length n < NAME_MAX)%nat /\ plain n /\ n <> [DOT] /\ n <> [DOT; DOT].

(** Node [i] is in use. *)
Definition live (ns : list node) (i : Z) (nd : node) : Prop :=
  0 <= i /\ ns !! Z.to_nat i = Some nd /\ n_used nd = true.

Definition node_data (nd : node) : Prop :=
  Z.of_nat (length (data nd)) = FILE_MAX /\ 0 <= datalen nd <= FILE_MAX.

Record fs_wf (ns : list node) : Prop := {
  w_len : Z.of_nat (length ns) = FS_MAX;
  w_root : exists nd, live ns 0 nd /\ is_dir nd = true /\ parent nd = -1;
  w_prefix i j nd : live ns j nd -> 0 <= i < j -> exists nd', live ns i nd';
  w_node i nd : live ns i nd -> i <> 0 ->
    0 <= parent nd < i /\ good_name (name nd) /\
    exists pd, live ns (parent nd) pd /\ is_dir pd = true;
  w_uniq i j ni nj : live ns i ni -> live ns j nj -> i <> 0 -> j <> 0 ->
    parent ni = parent nj -> name ni = name nj -> i = j;
  w_data i nd : ns !! i = Some nd -> node_data nd
}.

Definition cwd_ok (ns : list node) (d : Z) : Prop := exists nd, live ns d nd /\ is_dir nd = true.

(** The invariant of the server. *)
Definition fs_inv {V} (s : fs V) : Prop := fs_wf (nodes s) /\ cwd_ok (nodes s) (cwd s).

Abbreviation root_path s := (path_of (nodes s) (cwd s)).

(** [s'] is a good server with the tree [T'] and the current directory of [s]. *)
Definition keeps {V} (s s' : fs V) (T' : tree) : Prop :=
  fs_inv s' /\ cwd s' = cwd s /\ mounted s' = mounted s /\ root_path s' = root_path s /\
  abs (nodes s') = T'.

(** Following components through the abstract tree: [.] stays, [..] goes up
    (the root is its own parent), a file is allowed at the end only. *)
Fixpoint follow (T : tree) (cur : list str) (cs : list str) : option (list str) :=
  match cs with
  | [] => Some cur
  | c :: cs' =>
      if bool_decide (c = [DOT]) then follow T cur cs'
      else if bool_decide (c = [DOT; DOT]) then follow T (take (length cur - 1) cur) cs'
      else match T !! (cur ++ [c]), cs' with
           | Some _, [] => Some (cur ++ [c])
           | Some EDir, _ => follow T (cur ++ [c]) cs'
           | _, _ => None
           end
  end.

(** The abstract meaning of a path argument. *)
Definition path_start (cwd_path : list str) (p : str) : list str :=
  if deref p =? SLASH then [] else cwd_path.

Definition resolve_spec (T : tree) (cwd_path : list str) (p : str) : option (list str) :=
  follow T (path_start cwd_path p) (comps (NAME_MAX - 2) p).

Definition target_spec (T : tree) (C : list str) (arg : str) : option (list str * str) :=
  let last := last_slash arg 0 (-1) in
  if 0 <=? last then
    let dir := take (Z.to_nat (Z.min last 127)) arg in
    P ← resolve_spec T C (if bool_decide (dir = []) then [SLASH] else dir);
    match T !! P with
    | Some EDir => Some (P, take (NAME_MAX - 1) (drop (Z.to_nat (last + 1)) arg))
    | _ => None
    end
  else Some (C, take (NAME_MAX - 1) arg).

Definition bad_spec (leaf : str) : bool :=
  bool_decide (leaf = [] \/ leaf = [DOT] \/ leaf = [DOT; DOT]).

(** [fs_mkdir] on the abstract tree: the code and the new tree. *)
Definition mkdir_spec (T : tree) (C : list str) (arg : str) : Z * tree :=
  if bool_decide (arg = []) then (FS_USAGE, T)
  else match target_spec T C arg with
  | None => (FS_BADPATH, T)
  | Some (P, leaf) =>
      if bad_spec leaf then (FS_BADNAME, T)
      else match T !! (P ++ [leaf]) with
      | Some _ => (FS_EXISTS, T)
      | None => if bool_decide (Z.of_nat (size T) = FS_MAX) then (FS_FULL, T)
                else (FS_OK, <[P ++ [leaf] := EDir]> T)
      end
  end.

(** [fs_fwrite] of the bytes [bs]. *)
Definition fwrite_spec (T : tree) (C : list str) (arg : str) (bs : list Z) : Z * tree :=
  if bool_decide (arg = []) then (FS_BADPATH, T)
  else if FILE_MAX <? Z.of_nat (length bs) then (FS_FULL, T)
  else match target_spec T C arg with
  | None => (FS_BADPATH, T)
  | Some (P, leaf) =>
      if bad_spec leaf then (FS_BADNAME, T)
      else match T !! (P ++ [leaf]) with
      | Some EDir => (FS_BADPATH, T)
      | Some (EFile _) => (FS_OK, <[P ++ [leaf] := EFile bs]> T)
      | None => if bool_decide (Z.of_nat (size T) = FS_MAX) then (FS_FULL, T)
                else (FS_OK, <[P ++ [leaf] := EFile bs]> T)
      end
  end.

Definition fread_spec (T : tree) (C : list str) (arg : str) (cap : Z) : Z * list Z :=
  match P ← resolve_spec T C arg; T !! P with
  | Some (EFile bs) =>
      let out := take (Z.to_nat cap) bs in (Z.of_nat (length out), out)
  | _ => (-1, [])
  end.

(** No buffer of the parser is too small for the path: the directory part fits
    [pbuf], the leaf fits a name. *)
Definition path_fits (arg : str) : Prop :=
  last_slash arg 0 (-1) <= 127 /\
  (length (drop (Z.to_nat (last_slash arg 0 (-1) + 1)) arg) < NAME_MAX)%nat.

(** The answer of [fs_getcwd] in the directory with path [P]. *)
Definition getcwd_spec (P : list str) (cap : Z) : Z * list Z :=
  if cap <? 2 then (FS_BADPATH, [])
  else if bool_decide (P = []) then (1, [SLASH])
  else if cap <? Z.of_nat (length (join P)) + 1 then (FS_BADPATH, [])
  else (Z.of_nat (length (join P)), join P).

(** The children of a directory in slot order, and a line of a listing. *)
Definition kids (ns : list node) (dir : Z) : list node :=
  filter (fun nd => n_used nd = true /\ parent nd = dir) ns.
Definition line (nd : node) : list Z := name nd ++ (if is_dir nd then [SLASH] else []) ++ [10].

(** A listing holds the lines of the first [m] children; it stops before the
    first one that may not fit. *)
Definition listing (ns : list node) (dir cap : Z) (out : list Z) : Prop :=
  exists m, out = flat_map line (take m (kids ns dir)) /\
    (out <> [] -> Z.of_nat (length out) <= cap) /\
    forall nd, kids ns dir !! m = Some nd -> cap < Z.of_nat (length out) + slen (name nd) + 2.

(** A volume on which every operation fails, and the server before [fs_init]. *)
Definition no_volume : volume unit := {|
  vol_mount _ v := Ok (-1, v); vol_unmount v := v; vol_write _ _ _ v := Ok (-1, v);
  vol_chdir _ v := Ok (-1, v); vol_list _ _ v := Ok (-1, [], v); vol_getcwd _ v := Ok (-1, [], v) |}.
Definition wit_fs : fs unit :=
  Fs (replicate 64 (Node [] 0 false false 0 (replicate 4096 0) 0)) 0 false (-1) tt.

(** ** Lemmas: the node array as a tree *)

Section tree.
Context (ns : list node) (Hwf : fs_wf ns).

Lemma live_range i nd : live ns i nd -> 0 <= i < FS_MAX.
Proof.
  intros (H0 & Hi & _). apply lookup_lt_Some in Hi. pose proof (w_len _ Hwf). lia.
Qed.

Lemma live_fun i nd nd' : live ns i nd -> live ns i nd' -> nd = nd'.
Proof. intros (_ & H1 & _) (_ & H2 & _). congruence. Qed.

Lemma live_rd i nd : live ns i nd -> rd ns i = Ok nd.
Proof. intros (? & ? & _). by apply rd_Ok. Qed.

Lemma path_fuel f g i nd : live ns i nd -> i < Z.of_nat f -> i < Z.of_nat g ->
  path_up f ns i = path_up g ns i.
Proof.
  revert g i nd. induction f as [|f IH]; intros g i nd Hl Hf Hg; [destruct Hl; lia|].
  destruct g as [|g]; [destruct Hl; lia|]. cbn [path_up].
  destruct (Z.eqb_spec i 0); [done|]. pose proof Hl as (_ & -> & _).
  destruct (w_node _ Hwf i nd Hl) as (Hp & _ & pd & Hpd & _); [done|].
  by rewrite (IH g (parent nd) pd) by (done || lia).
Qed.

Lemma path_root : path_of ns 0 = [].
Proof. reflexivity. Qed.

Lemma path_cons i nd : live ns i nd -> i <> 0 ->
  path_of ns i = path_of ns (parent nd) ++ [name nd].
Proof.
  intros Hl Hi. pose proof (live_range _ _ Hl) as Hr. unfold FS_MAX in Hr.
  destruct (w_node _ Hwf i nd Hl Hi) as (Hp & _ & pd & Hpd & _).
  unfold path_of. rewrite (path_fuel (Z.to_nat FS_MAX) 65 i nd Hl) by (unfold FS_MAX; lia).
  rewrite (path_fuel (Z.to_nat FS_MAX) 64 _ pd Hpd) by (unfold FS_MAX; lia).
  generalize 64%nat as f. intros f. cbn [path_up].
  destruct (Z.eqb_spec i 0); [done|]. by destruct Hl as (_ & -> & _).
Qed.

Lemma path_not_nil i nd : live ns i nd -> i <> 0 -> path_of ns i <> [].
Proof. intros Hl Hi. rewrite (path_cons i nd) by done. by destruct (path_of ns (parent nd)). Qed.

Lemma path_inj i j ni nj : live ns i ni -> live ns j nj -> path_of ns i = path_of ns j -> i = j.
Proof.
  intros Hi. assert (0 <= i) as H0 by apply Hi. revert j ni nj Hi.
  induction i as [i IH] using (well_founded_induction (Z.lt_wf 0)).
  intros j ni nj Hi Hj E. destruct (Z.eq_dec i 0) as [->|Hi0].
  { destruct (Z.eq_dec j 0) as [->|Hj0]; [done|]. symmetry in E.
    by apply (path_not_nil j nj) in E. }
  destruct (Z.eq_dec j 0) as [->|Hj0]; [by apply (path_not_nil i ni) in E|].
  rewrite (path_cons i ni), (path_cons j nj) in E by done.
  apply app_inj_tail in E as [E1 E2].
  destruct (w_node _ Hwf i ni Hi Hi0) as (Hpi & _ & pi & Hpil & _).
  destruct (w_node _ Hwf j nj Hj Hj0) as (Hpj & _ & pj & Hpjl & _).
  apply (w_uniq _ Hwf i j ni nj); try done.
  eapply (IH (parent ni)); [lia|lia|exact Hpil|exact Hpjl|exact E1].
Qed.

Lemma abs_in p e :
  (p, e) ∈ omap (fun i => nd ← ns !! i;
    if n_used nd then Some (path_of ns (Z.of_nat i), entry_of nd) else None)
    (seq 0 (length ns)) <->
  exists i nd, live ns i nd /\ path_of ns i = p /\ entry_of nd = e.
Proof.
  rewrite list_elem_of_omap. split.
  - intros (i & _ & H). destruct (ns !! i) as [nd|] eqn:Hi; cbn in H; [|done].
    destruct (n_used nd) eqn:Hu; [|done]. injection H as <- <-.
    exists (Z.of_nat i), nd. split; [|done]. split; [lia|]. by rewrite Nat2Z.id.
  - intros (i & nd & (H0 & Hi & Hu) & <- & <-). exists (Z.to_nat i). split.
    + apply elem_of_seq. apply lookup_lt_Some in Hi. lia.
    + rewrite Hi. cbn. rewrite Hu, Z2Nat.id by done. done.
Qed.

Lemma abs_keys : NoDup (omap (fun i => nd ← ns !! i;
    if n_used nd then Some (path_of ns (Z.of_nat i), entry_of nd) else None)
    (seq 0 (length ns))).*1.
Proof.
  assert (forall l, NoDup l -> NoDup (omap (fun i => nd ← ns !! i;
    if n_used nd then Some (path_of ns (Z.of_nat i), entry_of nd) else None) l).*1) as H;
    [|apply H, NoDup_seq].
  induction 1 as [|i l Hi Hl IH]; [constructor|]. cbn [omap list_omap].
  destruct (ns !! i) as [nd|] eqn:E; cbn [mbind option_bind]; [|done].
  destruct (n_used nd) eqn:Hu; [|done]. cbn [fmap list_fmap fst]. constructor; [|done].
  rewrite list_elem_of_fmap. intros ([p e] & Hp & Hin). cbn in Hp. subst p.
  apply list_elem_of_omap in Hin as (j & Hj & Hx).
  destruct (ns !! j) as [nj|] eqn:Ej; cbn in Hx; [|done].
  destruct (n_used nj) eqn:Huj; [|done]. injection Hx as Hpath _.
  assert (Z.of_nat i = Z.of_nat j); [|by replace j with i in Hj by lia].
  symmetry. eapply (path_inj _ _ nj nd); [..|done]; (split; [lia|]; by rewrite Nat2Z.id).
Qed.

Lemma abs_lookup p e : abs ns !! p = Some e <->
  exists i nd, live ns i nd /\ path_of ns i = p /\ entry_of nd = e.
Proof. unfold abs. rewrite <- elem_of_list_to_map by apply abs_keys. apply abs_in. Qed.

Lemma abs_live i nd : live ns i nd -> abs ns !! path_of ns i = Some (entry_of nd).
Proof. intros H. apply abs_lookup. eauto. Qed.

(** Children in the tree and in the array. *)
Lemma abs_kid d dn nm e : live ns d dn ->
  abs ns !! (path_of ns d ++ [nm]) = Some e <->
  exists k nd, live ns k nd /\ k <> 0 /\ parent nd = d /\ name nd = nm /\ entry_of nd = e.
Proof.
  intros Hd. rewrite abs_lookup. split.
  - intros (k & nd & Hk & Hp & He). exists k, nd.
    assert (k <> 0) as Hk0 by (intros ->; rewrite path_root in Hp; by destruct (path_of ns d)).
    rewrite (path_cons k nd) in Hp by done. apply app_inj_tail in Hp as [Hp Hn].
    destruct (w_node _ Hwf k nd Hk Hk0) as (_ & _ & pd & Hpd & _).
    pose proof (path_inj _ _ _ _ Hpd Hd Hp). done.
  - intros (k & nd & Hk & Hk0 & Hp & Hn & He). exists k, nd.
    rewrite (path_cons k nd), Hp, Hn by done. done.
Qed.
End tree.
Lemma abs_eq ns : abs ns = list_to_map (omap (fun i => nd ← ns !! i;
    if n_used nd then Some (path_of ns (Z.of_nat i), entry_of nd) else None)
    (seq 0 (length ns))).
Proof. reflexivity. Qed.

#[global] Opaque path_of abs.

Lemma good_cstr n : good_name n -> cstr n.
Proof. intros (_ & _ & H & _). by apply plain_cstr. Qed.

Lemma name_cases ns i nd d : fs_wf ns -> live ns i nd -> parent nd = d -> 0 <= d ->
  i <> 0 /\ good_name (name nd).
Proof.
  intros Hwf Hl Hp Hd. assert (i <> 0) as Hi.
  { intros ->. destruct (w_root _ Hwf) as (r & Hr & _ & Hpr).
    rewrite (live_fun ns 0 nd r Hl Hr) in Hp. lia. }
  split; [done|]. by apply (w_node _ Hwf i nd).
Qed.

Lemma find_kid_ok ns d nm : fs_wf ns -> 0 <= d -> cstr nm ->
  exists k, find_kid ns d nm = Ok k /\
    ((k = -1 /\ forall i nd, live ns i nd -> parent nd = d -> name nd <> nm) \/
     (exists nd, live ns k nd /\ k <> 0 /\ parent nd = d /\ name nd = nm)).
Proof.
  intros Hwf Hd Hnm. unfold find_kid.
  set (body := fun i (_ : unit) => _).
  destruct (for_loop_inv (fun i _ => forall j nd, live ns j nd -> j < i -> parent nd = d -> name nd <> nm)
    (fun k => exists nd, live ns k nd /\ k <> 0 /\ parent nd = d /\ name nd = nm)
    (Z.to_nat FS_MAX) 0 body tt) as [(u & -> & H)|(k & -> & H)].
  - intros j nd [? _]. lia.
  - intros i [] Hi HP. destruct (rd_in ns i) as (nd & E & Hnd).
    { rewrite (w_len _ Hwf). unfold FS_MAX in *. lia. }
    unfold body. rewrite E. cbn [mbind res_bind].
    destruct (n_used nd) eqn:Hu; cbn [negb orb].
    2:{ left. exists tt. split; [done|]. intros j nj Hj Hlt Hp. destruct (Z.eq_dec j i) as [->|?].
        - destruct Hj as (_ & Hj & Hju). congruence.
        - apply (HP j nj); done || lia. }
    assert (live ns i nd) as Hl by (split; [lia|done]).
    destruct (Z.eqb_spec (parent nd) d) as [Hp|Hp]; cbn [negb].
    2:{ left. exists tt. split; [done|]. intros j nj Hj Hlt Hpj. destruct (Z.eq_dec j i) as [->|?].
        - by rewrite (live_fun ns i nj nd Hj Hl) in Hpj.
        - apply (HP j nj); done || lia. }
    destruct (name_cases ns i nd d Hwf Hl Hp Hd) as [Hi0 Hgn].
    rewrite same_condition_eq by (done || by apply good_cstr).
    destruct (decide (name nd = nm)) as [Hn|Hn].
    + rewrite bool_decide_eq_true_2 by done. right. exists i. split; [done|]. by exists nd.
    + rewrite bool_decide_eq_false_2 by done. left. exists tt. split; [done|].
      intros j nj Hj Hlt Hpj. destruct (Z.eq_dec j i) as [->|?].
      * by rewrite (live_fun ns i nj nd Hj Hl).
      * apply (HP j nj); done || lia.
  - exists (-1). split; [done|]. left. split; [done|]. intros i nd Hl. apply (H i nd Hl).
    pose proof (live_range ns Hwf i nd Hl). unfold FS_MAX in *. lia.
  - exists k. split; [done|]. by right.
Qed.

(** [find_kid] in terms of the abstract tree. *)
Lemma find_kid_abs ns d dn nm : fs_wf ns -> live ns d dn -> cstr nm ->
  exists k, find_kid ns d nm = Ok k /\
    match abs ns !! (path_of ns d ++ [nm]) with
    | None => k = -1
    | Some e => exists nd, live ns k nd /\ k <> 0 /\ parent nd = d /\ name nd = nm /\ entry_of nd = e
    end.
Proof.
  intros Hwf Hd Hnm. assert (0 <= d) as Hd0 by apply Hd.
  destruct (find_kid_ok ns d nm Hwf Hd0 Hnm) as (k & E & H). exists k. split; [done|].
  destruct (abs ns !! _) as [e|] eqn:Ha.
  - apply (abs_kid ns Hwf d dn nm e Hd) in Ha as (k' & nd & Hl & H0 & Hp & Hn & He).
    destruct H as [(_ & Hno)|(nd' & Hl' & H0' & Hp' & Hn')]; [by apply (Hno k' nd) in Hl|].
    assert (k' = k) as -> by (apply (w_uniq _ Hwf k' k nd nd'); congruence).
    exists nd. done.
  - destruct H as [[-> _]|(nd & Hl & H0 & Hp & Hn)]; [done|].
    assert (abs ns !! (path_of ns d ++ [nm]) = Some (entry_of nd)); [|congruence].
    apply (abs_kid ns Hwf d dn nm _ Hd). by exists k, nd.
Qed.

Lemma entry_dir nd : entry_of nd = EDir <-> is_dir nd = true.
Proof. unfold entry_of. by destruct (is_dir nd). Qed.

(** ** Lemmas: [resolve] *)

Lemma path_parent ns d dn : fs_wf ns -> live ns d dn ->
  exists d' dn', d' = (if 0 <=? parent dn then parent dn else d) /\ live ns d' dn' /\
    (is_dir dn = true -> is_dir dn' = true) /\
    path_of ns d' = take (length (path_of ns d) - 1) (path_of ns d).
Proof.
  intros Hwf Hd. destruct (Z.eq_dec d 0) as [->|H0].
  - destruct (w_root _ Hwf) as (r & Hr & Hdir & Hp). exists 0, r.
    rewrite (live_fun ns 0 dn r Hd Hr), Hp. cbn. rewrite path_root. done.
  - destruct (w_node _ Hwf d dn Hd H0) as (Hp & _ & pd & Hpd & Hdir).
    exists (parent dn), pd. destruct (Z.leb_spec 0 (parent dn)); [|lia].
    split; [done|]. split; [done|]. split; [done|].
    rewrite (path_cons ns Hwf d dn) by done. rewrite length_app. cbn [length].
    replace (_ + 1 - 1)%nat with (length (path_of ns (parent dn))) by lia.
    by rewrite take_app_length.
Qed.

Lemma cstr_drop n p : cstr p -> cstr (drop n p).
Proof. apply Forall_drop. Qed.

Lemma comps_nil_iff k p : cstr p -> deref p <> SLASH -> (comps k p = [] <-> p = []).
Proof.
  intros Hp Hs. split; [|by intros ->]. intros H. destruct (decide (p = [])) as [|Hne]; [done|].
  destruct (comps_step k p Hp Hne Hs) as (_ & _ & _ & E). congruence.
Qed.

(** One iteration follows one component, or ends the loop. *)
Lemma resolve_step_ok ns p cur dn : fs_wf ns -> cstr p -> live ns cur dn ->
  (p <> [] -> is_dir dn = true) ->
  let spec := follow (abs ns) (path_of ns cur) (comps (NAME_MAX - 2) p) in
  (exists o, resolve_step ns (p, cur) = Ok (Done o) /\ path_of ns <$> o = spec /\
     forall d, o = Some d -> exists nd, live ns d nd) \/
  (exists p' cur' dn', resolve_step ns (p, cur) = Ok (Next (p', cur')) /\
     (length p' < length p)%nat /\ cstr p' /\ live ns cur' dn' /\
     (p' <> [] -> is_dir dn' = true) /\
     follow (abs ns) (path_of ns cur') (comps (NAME_MAX - 2) p') = spec).
Proof.
  intros Hwf Hp Hl Hdir. cbv zeta. unfold resolve_step.
  rewrite deref_0 by done. case_bool_decide as Hp0.
  { left. exists (Some cur). subst p. split; [done|]. split; [done|]. intros d [= <-]. eauto. }
  pose proof (skip_slash_cstr p Hp) as Hq. pose proof (skip_slash_length p) as Hql.
  pose proof (skip_slash_head p) as Hqs. rewrite <- comps_skip. set (q := skip_slash p) in *.
  cbv zeta. rewrite deref_0 by done. case_bool_decide as Hq0.
  { left. exists (Some cur). rewrite Hq0. split; [done|]. split; [done|]. intros d [= <-]. eauto. }
  destruct (comps_step (NAME_MAX - 2) q Hq Hq0 Hqs) as (Hn & Hpl & Hlen & E).
  rewrite E. unfold next_part. assert (skip_slash q = q) as -> by
    (destruct q as [|c q']; [done|]; cbn [skip_slash]; by rewrite (proj2 (Z.eqb_neq c SLASH) Hqs)).
  change (S (NAME_MAX - 2)) with (NAME_MAX - 1)%nat in *.
  set (part := take_part (NAME_MAX - 1) q) in *. rewrite <- (comps_skip _ (drop _ _)).
  pose proof (skip_slash_cstr _ (cstr_drop (length part) q Hq)) as Hr.
  pose proof (skip_slash_length (drop (length part) q)) as Hrl.
  pose proof (skip_slash_head (drop (length part) q)) as Hrs.
  set (r := skip_slash (drop (length part) q)) in *.
  assert (length r < length p)%nat as Hlt.
  { rewrite length_drop in Hrl. destruct part; [done|]. destruct q; [done|]. cbn [length] in *. lia. }
  assert (cstr part) as Hpc by by apply plain_cstr.
  assert (cstr [DOT] /\ cstr [DOT; DOT]) as [Hd1 Hd2] by (unfold cstr, DOT; split; repeat constructor; lia).
  specialize (Hdir Hp0). cbn [follow].
  rewrite !same_condition_eq by done. case_bool_decide as Hdot.
  { right. exists r, cur, dn. split_and!; auto. }
  case_bool_decide as Hdd.
  { right. rewrite (live_rd ns cur dn Hl). cbn [mbind res_bind].
    destruct (path_parent ns cur dn Hwf Hl) as (d' & dn' & -> & Hl' & Hd' & Hpp).
    eexists r, _, dn'. split; [reflexivity|]. rewrite Hpp. split_and!; auto. }
  destruct (find_kid_abs ns cur dn part Hwf Hl Hpc) as (k & -> & Hk). cbn [mbind res_bind].
  destruct (abs ns !! (path_of ns cur ++ [part])) as [e|].
  2:{ subst k. left. by exists None. }
  destruct Hk as (nd & Hkl & Hk0 & Hkp & Hkn & He). assert (0 <= k) by apply Hkl.
  destruct (Z.ltb_spec k 0); [lia|]. rewrite (live_rd ns k nd Hkl). cbn [mbind res_bind].
  assert (path_of ns k = path_of ns cur ++ [part]) as Hkpath.
  { rewrite (path_cons ns Hwf k nd) by done. congruence. }
  rewrite deref_0 by done. pose proof (comps_nil_iff (NAME_MAX - 2) r Hr Hrs) as Hrn.
  case_bool_decide as Hr0; cbn [negb andb].
  - right. exists r, k, nd. rewrite Hkpath, (proj2 Hrn Hr0). split_and!; try done. by destruct e.
  - destruct (is_dir nd) eqn:Hkd; cbn [negb].
    + right. exists r, k, nd. rewrite Hkpath. split_and!; try done.
      rewrite <- He, (proj2 (entry_dir nd) Hkd). destruct (comps _ r) eqn:Hc; [|done].
      by destruct (Hr0 (proj1 Hrn eq_refl)).
    + left. exists None. split; [done|]. split; [|done].
      destruct (comps _ r) eqn:Hc; [by destruct (Hr0 (proj1 Hrn eq_refl))|].
      destruct e; [|done]. apply entry_dir in He. congruence.
Qed.

Lemma resolve_loop_ok ns n p cur dn : fs_wf ns -> cstr p -> live ns cur dn ->
  (p <> [] -> is_dir dn = true) -> (length p < n)%nat ->
  exists o, while_loop n (resolve_step ns) (p, cur) = Ok o /\
    path_of ns <$> o = follow (abs ns) (path_of ns cur) (comps (NAME_MAX - 2) p) /\
    forall d, o = Some d -> exists nd, live ns d nd.
Proof.
  intros Hwf. revert p cur dn. induction n as [|n IH]; intros p cur dn Hp Hl Hdir Hn; [lia|].
  cbn [while_loop].
  destruct (resolve_step_ok ns p cur dn Hwf Hp Hl Hdir)
    as [(o & -> & H1 & H2)|(p' & cur' & dn' & -> & Hlt & Hp' & Hl' & Hd' & H)]; cbn [mbind res_bind].
  - by exists o.
  - rewrite <- H. apply (IH p' cur' dn'); done || lia.
Qed.

(** ** Lemmas: changing one node *)

Lemma live_insert ns k nd' i nd : fs_wf ns -> 0 <= k < FS_MAX -> n_used nd' = true ->
  live (<[Z.to_nat k := nd']> ns) i nd <-> (i = k /\ nd = nd') \/ (i <> k /\ live ns i nd).
Proof.
  intros Hwf Hk Hu. pose proof (w_len _ Hwf) as Hlen. unfold live. split.
  - intros (H0 & Hi & Hn). destruct (Z.eq_dec i k) as [->|Hne].
    + rewrite list_lookup_insert_eq in Hi by lia. left. split; [done|congruence].
    + rewrite list_lookup_insert_ne in Hi by lia. right. done.
  - intros [[-> ->]|(Hne & H0 & Hi & Hn)].
    + rewrite list_lookup_insert_eq by lia. split; [lia|done].
    + rewrite list_lookup_insert_ne by lia. done.
Qed.

(** Paths only depend on the names and parents of live nodes. *)
Lemma path_same ns ns' : fs_wf ns -> fs_wf ns' ->
  (forall i nd, live ns i nd -> exists nd', live ns' i nd' /\ parent nd' = parent nd /\ name nd' = name nd) ->
  forall i nd, live ns i nd -> path_of ns' i = path_of ns i.
Proof.
  intros Hwf Hwf' Hsame i nd Hi. assert (0 <= i) as H0 by apply Hi. revert nd Hi.
  induction i as [i IH] using (well_founded_induction (Z.lt_wf 0)). intros nd Hi.
  destruct (Z.eq_dec i 0) as [->|Hi0]; [by rewrite !path_root|].
  destruct (Hsame i nd Hi) as (nd' & Hi' & Hp & Hn).
  destruct (w_node _ Hwf i nd Hi Hi0) as (Hr & _ & pd & Hpd & _).
  rewrite (path_cons ns' Hwf' i nd'), (path_cons ns Hwf i nd), Hp, Hn by done.
  by rewrite (IH (parent nd) ltac:(lia) ltac:(lia) pd).
Qed.

Section change.
Context (ns : list node) (Hwf : fs_wf ns) (k : Z) (nd' : node).
Context (Hk : 0 <= k < FS_MAX) (Hu : n_used nd' = true) (Hdata : node_data nd').
Let ns' := <[Z.to_nat k := nd']> ns.

Lemma change_sizes : Z.of_nat (length ns') = FS_MAX /\
  (forall i nd, ns' !! i = Some nd -> node_data nd).
Proof.
  unfold ns'. split; [rewrite length_insert; apply Hwf|].
  intros i nd Hi. destruct (decide (i = Z.to_nat k)) as [->|?].
  - rewrite list_lookup_insert_eq in Hi by (apply lookup_lt_Some in Hi; by rewrite length_insert in Hi).
    by injection Hi as <-.
  - rewrite list_lookup_insert_ne in Hi by done. by apply (w_data _ Hwf i nd).
Qed.

(** The abstract tree after the change. *)
Lemma change_abs : fs_wf ns' ->
  (forall i nd, live ns i nd -> exists nd2, live ns' i nd2 /\ parent nd2 = parent nd /\ name nd2 = name nd) ->
  abs ns' = <[path_of ns' k := entry_of nd']> (abs ns).
Proof.
  intros Hwf' Hsame. pose proof (path_same ns ns' Hwf Hwf' Hsame) as Hpath.
  assert (live ns' k nd') as Hkl by (apply live_insert; auto).
  apply map_eq. intros p. apply option_eq. intros e.
  rewrite (abs_lookup ns' Hwf'). rewrite lookup_insert_Some, (abs_lookup ns Hwf). split.
  - intros (i & nd & Hi & Hp & He).
    apply (live_insert _ _ _ _ _ Hwf Hk Hu) in Hi as [[-> ->]|[Hne Hi]]; [by left|]. right. split.
    + intros Ep. apply Hne. symmetry. apply (path_inj ns' Hwf' k i nd' nd); [done| |congruence].
      apply live_insert; auto.
    + exists i, nd. by rewrite <- (Hpath i nd Hi).
  - intros [[<- <-]|(Hne & i & nd & Hi & Hp & He)]; [by exists k, nd'|].
    exists i, nd. rewrite (Hpath i nd Hi). split; [|done].
    apply live_insert; auto. right. split; [|done]. intros ->. apply Hne.
    rewrite <- Hp. by apply (Hpath k nd).
Qed.

(** Rewriting the contents of a live node. *)
Lemma change_live nd : live ns k nd -> parent nd' = parent nd -> name nd' = name nd ->
  is_dir nd' = is_dir nd ->
  fs_wf ns' /\ abs ns' = <[path_of ns k := entry_of nd']> (abs ns) /\
  (forall i ni, live ns i ni -> path_of ns' i = path_of ns i) /\
  (forall i ni, live ns i ni -> exists n2, live ns' i n2 /\ is_dir n2 = is_dir ni).
Proof.
  intros Hl Hp Hn Hd. destruct change_sizes as (S1 & S2).
  assert (forall i nd, live ns' i nd <-> (i = k /\ nd = nd') \/ (i <> k /\ live ns i nd)) as Hlive
    by (intros; by apply live_insert).
  assert (forall i n1, live ns i n1 -> exists n2, live ns' i n2 /\
    parent n2 = parent n1 /\ name n2 = name n1 /\ is_dir n2 = is_dir n1) as Hsame.
  { intros i n1 Hi. destruct (Z.eq_dec i k) as [->|?].
    - exists nd'. rewrite (live_fun ns k n1 nd Hi Hl). split; [apply Hlive; by left|done].
    - exists n1. split; [apply Hlive; by right|done]. }
  assert (forall i n1, live ns' i n1 -> exists n2, live ns i n2 /\
    parent n2 = parent n1 /\ name n2 = name n1) as Hback.
  { intros i n1 [[-> ->]|[_ Hi]]%Hlive; [by exists nd|by exists n1]. }
  assert (fs_wf ns') as Hwf'.
  { split; auto.
    - destruct (w_root _ Hwf) as (r & Hr & Hrd & Hrp).
      destruct (Hsame 0 r Hr) as (r' & Hr' & ? & _ & ?). exists r'. split; [done|]. split; congruence.
    - intros i j nj Hj Hij. apply Hback in Hj as (nj2 & Hj & _).
      destruct (w_prefix _ Hwf i j nj2 Hj Hij) as (ni & Hi). destruct (Hsame i ni Hi) as (ni2 & ? & _). eauto.
    - intros i n1 Hi Hi0. apply Hback in Hi as (n2 & Hi & <- & <-).
      destruct (w_node _ Hwf i n2 Hi Hi0) as (? & ? & pd & Hpd & Hpdd).
      destruct (Hsame _ pd Hpd) as (pd2 & ? & _ & _ & ?). split; [done|]. split; [done|].
      exists pd2. split; [done|congruence].
    - intros i j n1 n2 Hi Hj Hi0 Hj0 Ep En. apply Hback in Hi as (n1' & Hi & ? & ?).
      apply Hback in Hj as (n2' & Hj & ? & ?). apply (w_uniq _ Hwf i j n1' n2'); congruence. }
  assert (forall i n1, live ns i n1 -> exists n2, live ns' i n2 /\ parent n2 = parent n1 /\ name n2 = name n1)
    as Hsame2 by (intros i n1 Hi; destruct (Hsame i n1 Hi) as (n2 & ? & ? & ? & _); eauto).
  split; [done|]. split; [|split].
  - rewrite change_abs by done. by rewrite (path_same ns ns' Hwf Hwf' Hsame2 k nd).
  - by apply path_same.
  - intros i n1 Hi. destruct (Hsame i n1 Hi) as (n2 & ? & _ & _ & ?). eauto.
Qed.

(** Putting a node into the first free slot. *)
Lemma change_new pd : (forall nd, ~ live ns k nd) -> (forall i, 0 <= i < k -> exists nd, live ns i nd) ->
  live ns (parent nd') pd -> is_dir pd = true -> good_name (name nd') ->
  abs ns !! (path_of ns (parent nd') ++ [name nd']) = None ->
  fs_wf ns' /\ abs ns' = <[path_of ns (parent nd') ++ [name nd'] := entry_of nd']> (abs ns) /\
  (forall i ni, live ns i ni -> path_of ns' i = path_of ns i) /\
  (forall i ni, live ns i ni -> live ns' i ni).
Proof.
  intros Hfree Hbelow Hpd Hpdd Hgn Hnone. destruct change_sizes as (S1 & S2).
  assert (forall i nd, live ns' i nd <-> (i = k /\ nd = nd') \/ (i <> k /\ live ns i nd)) as Hlive
    by (intros; by apply live_insert).
  assert (forall i nd, live ns i nd -> live ns' i nd) as Hkeep.
  { intros i nd Hi. apply Hlive. right. split; [|done]. intros ->. by apply (Hfree nd). }
  assert (forall i nd, live ns i nd -> i < k) as Hlt.
  { intros i nd Hi. destruct (Z.lt_trichotomy i k) as [|[->|Hgt]]; [done|by apply Hfree in Hi|].
    destruct (w_prefix _ Hwf k i nd Hi) as (nk & Hnk); [lia|]. by apply Hfree in Hnk. }
  pose proof (Hlt _ _ Hpd) as Hpk. assert (0 <= parent nd') as Hp0 by apply Hpd.
  assert (fs_wf ns') as Hwf'.
  { split; auto.
    - destruct (w_root _ Hwf) as (r & Hr & Hrest). exists r. split; [by apply Hkeep|done].
    - intros i j nj [[-> ->]|[_ Hj]]%Hlive Hij.
      + destruct (Hbelow i Hij) as (ni & Hi). eauto.
      + destruct (w_prefix _ Hwf i j nj Hj Hij) as (ni & Hi). eauto.
    - intros i nd [[-> ->]|[_ Hi]]%Hlive Hi0.
      + split; [lia|]. split; [done|]. eauto.
      + destruct (w_node _ Hwf i nd Hi Hi0) as (? & ? & pn & ? & ?). eauto 6.
    - assert (forall i ni, live ns i ni -> i <> 0 -> parent nd' = parent ni -> name nd' = name ni -> False) as Hno.
      { intros i ni Hi Hi0 Ep En. eassert (Some _ = None) as Hx; [|discriminate Hx].
        rewrite <- Hnone. symmetry. apply (abs_kid ns Hwf _ pd _ _ Hpd). exists i, ni. eauto 6. }
      intros i j ni nj [[-> ->]|[_ Hi]]%Hlive [[-> ->]|[_ Hj]]%Hlive Hi0 Hj0 Ep En; [done|..].
      + by destruct (Hno j nj).
      + by destruct (Hno i ni).
      + by apply (w_uniq _ Hwf i j ni nj). }
  assert (forall i nd, live ns i nd -> exists nd2, live ns' i nd2 /\ parent nd2 = parent nd /\ name nd2 = name nd)
    as Hsame by (intros; eauto).
  pose proof (path_same ns ns' Hwf Hwf' Hsame) as Hpath.
  split; [done|]. split; [|split; [done|done]].
  rewrite change_abs by done. rewrite (path_cons ns' Hwf' k nd'); [|by apply Hlive; left|lia].
  by rewrite (Hpath _ pd).
Qed.
End change.

Section server.
Context {V : Type}.
Implicit Type s : fs V.

Lemma start_ok s path : fs_inv s -> exists dn,
  let cur := if deref path =? SLASH then 0 else cwd s in
  live (nodes s) cur dn /\ is_dir dn = true /\
  path_of (nodes s) cur = path_start (path_of (nodes s) (cwd s)) path.
Proof.
  intros [Hwf (dn & Hl & Hd)]. unfold path_start. destruct (deref path =? SLASH).
  - destruct (w_root _ Hwf) as (r & Hr & Hrd & _). by exists r.
  - by exists dn.
Qed.

Lemma resolve_ok s path : fs_inv s -> cstr path ->
  exists o, resolve path s = Ok o /\
    path_of (nodes s) <$> o =
      resolve_spec (abs (nodes s)) (path_of (nodes s) (cwd s)) path /\
    forall d, o = Some d -> exists nd, live (nodes s) d nd.
Proof.
  intros Hinv Hp. pose proof Hinv as [Hwf _]. unfold resolve, resolve_spec.
  destruct (start_ok s path Hinv) as (dn & Hl & Hd & <-). cbv zeta in *.
  set (cur := if _ =? _ then 0 else _) in *.
  rewrite deref_0 by done. rewrite same_condition_eq by (done || unfold cstr, DOT; repeat constructor; lia).
  destruct (decide (path = [])) as [->|Hp0].
  { exists (Some cur). split; [done|]. split; [done|]. intros d [= <-]. eauto. }
  rewrite bool_decide_eq_false_2 by done. cbn [orb].
  destruct (decide (path = [DOT])) as [->|Hdot].
  { exists (Some cur). split; [done|]. split; [done|]. intros d [= <-]. eauto. }
  rewrite bool_decide_eq_false_2 by done.
  apply (resolve_loop_ok (nodes s) _ path cur dn); auto with lia.
Qed.

Lemma resolve_dir_ok s path : fs_inv s -> cstr path ->
  exists o, resolve_dir path s = Ok o /\
    (forall d, o = Some d -> exists nd, live (nodes s) d nd /\ is_dir nd = true) /\
    path_of (nodes s) <$> o =
      (P ← resolve_spec (abs (nodes s)) (root_path s) path;
       match abs (nodes s) !! P with Some EDir => Some P | _ => None end).
Proof.
  intros Hinv Hp. pose proof Hinv as [Hwf _]. unfold resolve_dir.
  destruct (resolve_ok s path Hinv Hp) as (o & -> & <- & Hl). cbn [mbind res_bind].
  destruct o as [d|]; [|by exists None].
  destruct (Hl d eq_refl) as (nd & Hd). rewrite (live_rd _ d nd Hd). cbn [mbind res_bind].
  eexists. split; [reflexivity|]. cbn [fmap option_fmap option_map mbind option_bind].
  rewrite (abs_live _ Hwf d nd Hd). unfold entry_of. destruct (is_dir nd) eqn:Hdir; [|done].
  split; [|done]. intros d' [= <-]. eauto.
Qed.

Lemma skip_slash_plain p : plain p -> skip_slash p = p.
Proof. intros [|c p' [_ Hc] _]; cbn [skip_slash]; [done|]. by rewrite (proj2 (Z.eqb_neq c SLASH) Hc). Qed.

Lemma next_part_plain p : plain p -> next_part p = take (NAME_MAX - 1) p.
Proof.
  intros Hp. unfold next_part. rewrite skip_slash_plain by done.
  rewrite <- (app_nil_r p) at 1. apply take_part_word; [done|by left].
Qed.

(** The text behind the last slash. *)
Lemma last_slash_spec arg : cstr arg ->
  (last_slash arg 0 (-1) = -1 /\ plain arg) \/
  (0 <= last_slash arg 0 (-1) /\ plain (drop (Z.to_nat (last_slash arg 0 (-1) + 1)) arg)).
Proof.
  intros Ha. destruct (leaf_cases arg Ha) as [Hp|(a & w & -> & Hw)].
  - left. split; [by apply last_slash_none|done].
  - right. rewrite last_slash_app by done. split; [lia|].
    replace (Z.to_nat _) with (S (length a)) by lia.
    replace (drop _ _) with w; [done|]. change (S (length a)) with (1 + length a)%nat.
    rewrite Nat.add_comm, <- drop_drop, drop_app_length. done.
Qed.

Lemma split_parent_ok s arg : fs_inv s -> cstr arg ->
  exists o, split_parent arg s = Ok o /\
    (forall d leaf, o = Some (d, leaf) -> plain leaf /\ (length leaf < NAME_MAX)%nat /\
       exists nd, live (nodes s) d nd /\ is_dir nd = true) /\
    (prod_map (path_of (nodes s)) id <$> o) = target_spec (abs (nodes s)) (root_path s) arg.
Proof.
  intros Hinv Ha. pose proof Hinv as [Hwf Hcwd]. unfold split_parent, target_spec.
  assert (forall w, (length (take (NAME_MAX - 1) w : str) < NAME_MAX)%nat) as Hlen
    by (intros w; rewrite length_take; unfold NAME_MAX; lia).
  destruct (last_slash_spec arg Ha) as [[-> Hp]|[Hl Hp]].
  - cbn [Z.leb Z.compare]. rewrite next_part_plain by done.
    eexists. split; [reflexivity|]. split; [|done]. intros d leaf [= <- <-].
    split; [by apply Forall_take|]. split; [apply Hlen|]. destruct Hcwd as (nd & ? & ?). eauto.
  - cbv zeta. destruct (Z.leb_spec 0 (last_slash arg 0 (-1))); [|lia].
    set (dir := take _ arg). assert (cstr dir) as Hdir by by apply Forall_take.
    rewrite deref_0 by done.
    replace (if negb (bool_decide (dir = [])) then dir else [SLASH])
      with (if bool_decide (dir = []) then [SLASH] else dir) by by case_bool_decide.
    rewrite next_part_plain by done.
    destruct (resolve_dir_ok s (if bool_decide (dir = []) then [SLASH] else dir) Hinv) as (o & -> & Hd & Ho).
    { case_bool_decide; [|done]. unfold cstr, SLASH. repeat constructor; lia. }
    cbn [mbind res_bind]. eexists. split; [reflexivity|]. split.
    + intros d leaf. destruct o as [d0|]; [|done]. intros [= -> <-].
      split; [by apply Forall_take|]. split; [apply Hlen|]. auto.
    + destruct (resolve_spec _ _ _) as [P|]; cbn [mbind option_bind] in Ho |- *.
      * destruct o as [d|]; cbn in Ho |- *.
        -- destruct (abs (nodes s) !! P) as [[|]|]; congruence.
        -- destruct (abs (nodes s) !! P) as [[|]|]; congruence.
      * by destruct o.
Qed.

Lemma free_slot_ok ns : fs_wf ns ->
  exists k, free_slot ns = Ok k /\
    ((k = -1 /\ forall i, 0 <= i < FS_MAX -> exists nd, live ns i nd) \/
     (0 <= k < FS_MAX /\ (forall nd, ~ live ns k nd) /\ forall i, 0 <= i < k -> exists nd, live ns i nd)).
Proof.
  intros Hwf. unfold free_slot. set (body := fun i (_ : unit) => _).
  destruct (for_loop_inv (fun k _ => forall i, 0 <= i < k -> exists nd, live ns i nd)
    (fun k => 0 <= k < FS_MAX /\ (forall nd, ~ live ns k nd) /\ forall i, 0 <= i < k -> exists nd, live ns i nd)
    (Z.to_nat FS_MAX) 0 body tt) as [(u & -> & H)|(k & -> & H)].
  - lia.
  - intros i [] Hi HP. destruct (rd_in ns i) as (nd & E & Hnd).
    { rewrite (w_len _ Hwf). unfold FS_MAX in *. lia. }
    unfold body. rewrite E. cbn [mbind res_bind]. destruct (n_used nd) eqn:Hu; cbn [negb].
    + left. exists tt. split; [done|]. intros j Hj. destruct (Z.eq_dec j i) as [->|?].
      * exists nd. split; [lia|done].
      * apply HP. lia.
    + right. exists i. split; [done|]. split; [unfold FS_MAX in *; lia|]. split; [|done].
      intros nd' (_ & ? & ?). congruence.
  - exists (-1). split; [done|]. left. split; [done|]. intros i Hi. apply H. unfold FS_MAX in *. lia.
  - exists k. split; [done|]. by right.
Qed.

Lemma omap_le {A B} (f : A -> option B) l : (length (omap f l) <= length l)%nat.
Proof. induction l as [|x l IH]; cbn [omap list_omap length]; [done|]. case_match; cbn [length]; lia. Qed.

Lemma omap_full {A B} (f : A -> option B) l :
  (forall x, x ∈ l -> is_Some (f x)) <-> length (omap f l) = length l.
Proof.
  induction l as [|x l IH]; [split; [done|by intros _ x Hx%elem_of_nil]|]. cbn [omap list_omap].
  pose proof (omap_le f l) as Hle. setoid_rewrite elem_of_cons. destruct (f x) eqn:Hx; cbn [length].
  - split.
    + intros H. f_equal. apply IH. auto.
    + intros [= H] y [->|Hy]; [eauto|]. by apply IH.
  - split; [|unfold omap in *; lia]. intros H. destruct (H x (or_introl eq_refl)). congruence.
Qed.

(** The tree is full exactly when no slot is free. *)
Lemma abs_full ns : fs_wf ns ->
  Z.of_nat (size (abs ns)) = FS_MAX <-> forall i, 0 <= i < FS_MAX -> exists nd, live ns i nd.
Proof.
  intros Hwf. pose proof (w_len _ Hwf) as Hlen. rewrite abs_eq.
  rewrite map_size_list_to_map by by apply abs_keys. set (f := fun i => _).
  assert (Z.of_nat (length (omap f (seq 0 (length ns)))) = FS_MAX <->
          length (omap f (seq 0 (length ns))) = length (seq 0 (length ns))) as ->
    by (rewrite length_seq; lia).
  rewrite <- omap_full. split.
  - intros H i Hi. destruct (H (Z.to_nat i)) as (pe & E); [apply elem_of_seq; lia|].
    unfold f in E. destruct (ns !! Z.to_nat i) as [nd|] eqn:En; cbn in E; [|done].
    destruct (n_used nd) eqn:Hu; [|done]. exists nd. split; [lia|done].
  - intros H i Hi%elem_of_seq. destruct (H (Z.of_nat i)) as (nd & _ & En & Hu); [lia|].
    rewrite Nat2Z.id in En. unfold f. rewrite En. cbn. rewrite Hu. eauto.
Qed.

Lemma bad_leaf_ok leaf : plain leaf -> bad_leaf leaf = bad_spec leaf.
Proof.
  intros Hp%plain_cstr. unfold bad_leaf, bad_spec. rewrite deref_0 by done.
  rewrite !same_condition_eq by (done || unfold cstr, DOT; repeat constructor; lia).
  destruct (decide (leaf = [])), (decide (leaf = [DOT])), (decide (leaf = [DOT; DOT])); 
    repeat (rewrite bool_decide_eq_true_2 by tauto) || rewrite bool_decide_eq_false_2 by tauto; done.
Qed.

Lemma not_bad_good leaf : plain leaf -> (length leaf < NAME_MAX)%nat -> bad_spec leaf = false -> good_name leaf.
Proof.
  intros Hp Hl Hb. unfold bad_spec in Hb. apply bool_decide_eq_false in Hb. unfold good_name. naive_solver.
Qed.

Lemma keeps_refl s : fs_inv s -> keeps s s (abs (nodes s)).
Proof. done. Qed.

Lemma keeps_nodes s ns : fs_inv s -> fs_wf ns ->
  (forall i ni, live (nodes s) i ni -> path_of ns i = path_of (nodes s) i) ->
  (forall i ni, live (nodes s) i ni -> exists n2, live ns i n2 /\ is_dir n2 = is_dir ni) ->
  keeps s (set_nodes s ns) (abs ns).
Proof.
  intros [Hwf (dn & Hl & Hd)] Hwf' Hpath Hlive. split; [split; [done|]|].
  - destruct (Hlive _ _ Hl) as (n2 & ? & ?). exists n2. cbn. split; [done|congruence].
  - do 2 (split; [done|]). split; [|done]. cbn. by apply (Hpath _ dn).
Qed.

Lemma put_data_loop (buf : list Z) len (d : list Z) : 0 <= len <= FILE_MAX -> len <= Z.of_nat (length buf) ->
  Z.of_nat (length d) = FILE_MAX ->
  exists d' : list Z, for_each (Z.to_nat len) 0 (fun i d => c ← rd buf i; wr d i c) d = Ok d' /\
    Z.of_nat (length d') = FILE_MAX /\ take (Z.to_nat len) d' = take (Z.to_nat len) buf.
Proof.
  intros Hl Hb Hd.
  destruct (for_each_inv (fun i (d' : list Z) => Z.of_nat (length d') = FILE_MAX /\
      take (Z.to_nat i) d' = take (Z.to_nat i) buf) (Z.to_nat len) 0
      (fun i d => c ← rd buf i; wr d i c) d) as (d' & E & H1 & H2).
  - split; [done|reflexivity].
  - intros i d1 Hi (Hl1 & Ht1). destruct (rd_in buf i) as (c & -> & Hc); [lia|]. cbn [mbind res_bind].
    rewrite wr_in by lia. eexists. split; [reflexivity|]. rewrite length_insert. split; [done|].
    replace (Z.to_nat (i + 1)) with (S (Z.to_nat i)) by lia.
    rewrite (take_S_r buf _ c), (take_S_r _ _ c) by (done || rewrite list_lookup_insert_eq by lia; done).
    by rewrite take_insert_ge, Ht1 by lia.
  - exists d'. rewrite Z.add_0_l, Z2Nat.id in H2 by lia. done.
Qed.

Lemma put_data_ok s k nd buf len : fs_inv s -> live (nodes s) k nd -> is_dir nd = false ->
  0 <= len <= FILE_MAX -> len <= Z.of_nat (length buf) ->
  exists s', put_data k buf len s = Ok (FS_OK, s') /\
    keeps s s' (<[path_of (nodes s) k := EFile (take (Z.to_nat len) buf)]> (abs (nodes s))).
Proof.
  intros Hinv Hl Hd Hlen Hbuf. pose proof Hinv as [Hwf _]. pose proof (live_range _ Hwf k nd Hl) as Hr.
  unfold put_data. rewrite (live_rd _ k nd Hl). cbn [mbind res_bind].
  assert (node_data nd) as [Hnd1 Hnd2] by (eapply (w_data _ Hwf), Hl).
  destruct (put_data_loop buf len (data nd) Hlen Hbuf Hnd1) as (d' & -> & Hd1 & Hd2). cbn [mbind res_bind].
  rewrite wr_in by (rewrite (w_len _ Hwf); lia). cbn [mbind res_bind]. unfold FILE_MAX in *.
  rewrite u32_small by lia. eexists. split; [reflexivity|].
  set (nd' := Node (name nd) (parent nd) (is_dir nd) (n_used nd) (mode nd) d' len).
  destruct (change_live (nodes s) Hwf k nd' Hr ltac:(apply Hl) ltac:(done) nd Hl ltac:(done) ltac:(done) ltac:(done))
    as (Hwf' & Habs & Hpath & Hlive).
  replace (EFile _) with (entry_of nd').
  - rewrite <- Habs. by apply keeps_nodes.
  - unfold entry_of, nd'; cbn [is_dir data datalen]. by rewrite Hd, Hd2.
Qed.

Lemma name_cp_short leaf : (length leaf < NAME_MAX)%nat -> name_cp leaf = leaf.
Proof. intros. apply take_ge. unfold NAME_MAX in *. lia. Qed.

Lemma fs_mkdir_ok s arg : fs_inv s -> mounted s = false -> cstr arg ->
  exists r s', fs_mkdir arg s = Ok (r, s') /\
    mkdir_spec (abs (nodes s)) (root_path s) arg = (r, abs (nodes s')) /\
    keeps s s' (abs (nodes s')).
Proof.
  intros Hinv Hm Ha. pose proof Hinv as [Hwf _]. unfold fs_mkdir, mkdir_spec. rewrite Hm, deref_0 by done.
  case_bool_decide as Ha0; [by exists FS_USAGE, s|].
  destruct (split_parent_ok s arg Hinv Ha) as (o & -> & Ho & <-). cbn [mbind res_bind].
  destruct o as [[d leaf]|]; [|by exists FS_BADPATH, s]. cbn [fmap option_fmap option_map prod_map fst snd].
  destruct (Ho d leaf eq_refl) as (Hp & Hlen & dn & Hd & Hdir). unfold prod_map, id; cbn [fst snd].
  rewrite bad_leaf_ok by done. destruct (bad_spec leaf) eqn:Hb; [by exists FS_BADNAME, s|].
  pose proof (not_bad_good leaf Hp Hlen Hb) as Hg.
  destruct (find_kid_abs (nodes s) d dn leaf Hwf Hd (plain_cstr _ Hp)) as (k & -> & Hk). cbn [mbind res_bind].
  destruct (abs (nodes s) !! _) as [e|] eqn:Hnone.
  { destruct Hk as (nd & Hk & _). assert (0 <= k) by apply Hk.
    destruct (Z.leb_spec 0 k); [|lia]. by exists FS_EXISTS, s. }
  subst k. cbn [Z.leb Z.compare].
  destruct (free_slot_ok _ Hwf) as (k & -> & [[-> Hfull]|(Hk & Hfree & Hbelow)]); cbn [mbind res_bind].
  { rewrite bool_decide_eq_true_2 by by apply abs_full. by exists FS_FULL, s. }
  destruct (Z.ltb_spec k 0); [lia|].
  rewrite bool_decide_eq_false_2.
  2:{ intros Hx. destruct (proj1 (abs_full _ Hwf) Hx k Hk) as (nd & Hnd). by apply Hfree in Hnd. }
  destruct (rd_in (nodes s) k) as (nd & -> & Hnd); [rewrite (w_len _ Hwf); lia|]. cbn [mbind res_bind].
  rewrite wr_in by (rewrite (w_len _ Hwf); lia). cbn [mbind res_bind]. rewrite name_cp_short by done.
  set (nd' := Node leaf d true true MODE_DIR (data nd) 0).
  destruct (w_data _ Hwf _ _ Hnd) as [Hd1 Hd2].
  destruct (change_new (nodes s) Hwf k nd' Hk eq_refl ltac:(split; [done|cbn; lia]) dn Hfree Hbelow Hd Hdir Hg Hnone)
    as (Hwf' & Habs & Hpath & Hlive).
  eexists _, _. split; [reflexivity|]. cbn [nodes set_nodes]. split; [by rewrite Habs|].
  apply keeps_nodes; eauto.
Qed.

Lemma fs_fwrite_ok `{!volume V} s arg buf len : fs_inv s -> mounted s = false -> cstr arg ->
  0 <= len <= Z.of_nat (length buf) ->
  exists r s', fs_fwrite arg buf len s = Ok (r, s') /\
    fwrite_spec (abs (nodes s)) (root_path s) arg (take (Z.to_nat len) buf) = (r, abs (nodes s')) /\
    keeps s s' (abs (nodes s')).
Proof.
  intros Hinv Hm Ha Hl. pose proof Hinv as [Hwf _]. unfold fs_fwrite, fwrite_spec.
  rewrite Hm, deref_0 by done. case_bool_decide as Ha0; [by exists FS_BADPATH, s|].
  rewrite length_take, Nat.min_l, Z2Nat.id by lia.
  destruct (Z.ltb_spec FILE_MAX len) as [Hbig|Hsmall]; [by exists FS_FULL, s|].
  destruct (split_parent_ok s arg Hinv Ha) as (o & -> & Ho & <-). cbn [mbind res_bind].
  destruct o as [[d leaf]|]; [|by exists FS_BADPATH, s]. cbn [fmap option_fmap option_map prod_map fst snd].
  destruct (Ho d leaf eq_refl) as (Hp & Hlen & dn & Hd & Hdir). unfold prod_map, id; cbn [fst snd].
  rewrite bad_leaf_ok by done. destruct (bad_spec leaf) eqn:Hb; [by exists FS_BADNAME, s|].
  pose proof (not_bad_good leaf Hp Hlen Hb) as Hg.
  destruct (find_kid_abs (nodes s) d dn leaf Hwf Hd (plain_cstr _ Hp)) as (k & -> & Hk). cbn [mbind res_bind].
  destruct (abs (nodes s) !! _) as [e|] eqn:Hnone.
  { destruct Hk as (nd & Hk & Hk0 & Hkp & Hkn & <-). assert (0 <= k) by apply Hk.
    destruct (Z.leb_spec 0 k); [|lia]. rewrite (live_rd _ k nd Hk). cbn [mbind res_bind].
    destruct (is_dir nd) eqn:Hkd; unfold entry_of; rewrite Hkd; [by exists FS_BADPATH, s|].
    destruct (put_data_ok s k nd buf len Hinv Hk Hkd) as (s' & -> & Hkeep); [lia|lia|].
    exists FS_OK, s'. split; [done|]. pose proof Hkeep as (_ & _ & _ & _ & Habs).
    rewrite (path_cons _ Hwf k nd Hk Hk0), Hkp, Hkn in Habs. rewrite Habs. split; [done|].
    by rewrite <- Hkp, <- Hkn, <- (path_cons _ Hwf k nd Hk Hk0). }
  subst k. cbn [Z.leb Z.compare].
  destruct (free_slot_ok _ Hwf) as (k & -> & [[-> Hfull]|(Hk & Hfree & Hbelow)]); cbn [mbind res_bind].
  { rewrite bool_decide_eq_true_2 by by apply abs_full. by exists FS_FULL, s. }
  destruct (Z.ltb_spec k 0); [lia|].
  rewrite bool_decide_eq_false_2.
  2:{ intros Hx. destruct (proj1 (abs_full _ Hwf) Hx k Hk) as (nd & Hnd). by apply Hfree in Hnd. }
  destruct (rd_in (nodes s) k) as (nd & -> & Hnd); [rewrite (w_len _ Hwf); lia|]. cbn [mbind res_bind].
  rewrite wr_in by (rewrite (w_len _ Hwf); lia). cbn [mbind res_bind]. rewrite name_cp_short by done.
  set (nd' := Node leaf d false true MODE_FILE (data nd) (datalen nd)).
  destruct (change_new (nodes s) Hwf k nd' Hk eq_refl (w_data _ Hwf _ _ Hnd) dn Hfree Hbelow Hd Hdir Hg Hnone)
    as (Hwf' & Habs & Hpath & Hlive).
  set (ns' := <[Z.to_nat k := nd']> (nodes s)) in *.
  assert (keeps s (set_nodes s ns') (abs ns')) as (Hinv1 & Hc1 & Hm1 & Hr1 & _) by (apply keeps_nodes; eauto).
  assert (live ns' k nd') as Hkl.
  { apply (live_insert (nodes s) k nd' k nd' Hwf Hk eq_refl). left. split; reflexivity. }
  destruct (put_data_ok (set_nodes s ns') k nd' buf len Hinv1 Hkl eq_refl) as (s' & -> & Hkeep); [lia|lia|].
  exists FS_OK, s'. split; [done|]. destruct Hkeep as (Hinv2 & Hc2 & Hm2 & Hr2 & Habs2).
  cbn [nodes set_nodes] in Habs2. rewrite Habs, (path_cons _ Hwf' k nd' Hkl) in Habs2 by
    (intros ->; destruct (w_root _ Hwf) as (r & Hr & _); by apply Hfree in Hr).
  cbn [parent name nd'] in Habs2. rewrite (Hpath d dn Hd), insert_insert_eq in Habs2. rewrite Habs2.
  split; [done|]. split; [done|]. split; [congruence|]. split; [congruence|]. split; [congruence|done].
Qed.

Lemma fread_loop d n : Z.of_nat n <= Z.of_nat (length d) ->
  for_each n 0 (fun i out => c ← rd d i; mret (out ++ [c])) ([] : list Z) = Ok (take n d).
Proof.
  intros Hn. destruct (for_each_inv (fun i (out : list Z) => out = take (Z.to_nat i) d) n 0
    (fun i out => c ← rd d i; mret (out ++ [c])) []) as (out & E & H).
  - by rewrite take_0.
  - intros i out Hi ->. destruct (rd_in d i) as (c & -> & Hc); [lia|]. cbn [mbind res_bind].
    eexists. split; [reflexivity|]. replace (Z.to_nat (i + 1)) with (S (Z.to_nat i)) by lia.
    by rewrite (take_S_r _ _ c).
  - rewrite E, H. by replace (Z.to_nat (0 + Z.of_nat n)) with n by lia.
Qed.

Lemma fs_fread_ok s arg cap : fs_inv s -> cstr arg -> 0 <= cap ->
  fs_fread_ram arg cap s = Ok (fread_spec (abs (nodes s)) (root_path s) arg cap).
Proof.
  intros Hinv Ha Hc. pose proof Hinv as [Hwf _]. unfold fs_fread_ram, fread_spec.
  destruct (resolve_ok s arg Hinv Ha) as (o & -> & <- & Hl). cbn [mbind res_bind].
  destruct o as [d|]; [|done]. destruct (Hl d eq_refl) as (nd & Hd).
  rewrite (live_rd _ d nd Hd). cbn [mbind res_bind option_bind fmap option_fmap option_map].
  rewrite (abs_live _ Hwf d nd Hd). unfold entry_of. destruct (is_dir nd); [done|].
  destruct (w_data _ Hwf _ nd ltac:(apply Hd)) as [Hd1 Hd2]. unfold FILE_MAX in *.
  set (n := if cap <? datalen nd then u32 cap else datalen nd).
  assert (n = Z.min cap (datalen nd)) as Hn.
  { unfold n. destruct (Z.ltb_spec cap (datalen nd)); [rewrite u32_small by lia; lia|lia]. }
  rewrite fread_loop by lia. cbn [mbind res_bind]. rewrite take_take.
  replace (Z.to_nat cap `min` Z.to_nat (datalen nd))%nat with (Z.to_nat n) by lia.
  rewrite length_take. do 2 f_equal. lia.
Qed.

Lemma fs_chdir_ok `{!volume V} s arg : fs_inv s -> mounted s = false -> cstr arg ->
  exists r s', fs_chdir arg s = Ok (r, s') /\ fs_inv s' /\ nodes s' = nodes s /\ mounted s' = false /\
    (r, root_path s') =
      if bool_decide (arg = []) then (FS_OK, [])
      else match P ← resolve_spec (abs (nodes s)) (root_path s) arg;
                 match abs (nodes s) !! P with Some EDir => Some P | _ => None end with
           | Some P => (FS_OK, P)
           | None => (FS_BADPATH, root_path s)
           end.
Proof.
  intros Hinv Hm Ha. pose proof Hinv as [Hwf _]. unfold fs_chdir. rewrite Hm, deref_0 by done.
  case_bool_decide.
  - exists FS_OK, (set_cwd s 0). split; [done|]. split; [split; [done|]|by rewrite <- path_root with (ns := nodes s)].
    destruct (w_root _ Hwf) as (r & Hr & Hd & _). by exists r.
  - destruct (resolve_dir_ok s arg Hinv Ha) as (o & -> & Hd & <-). cbn [mbind res_bind].
    destruct o as [d|]; [|by exists FS_BADPATH, s].
    destruct (Hd d eq_refl) as (nd & ? & ?).
    exists FS_OK, (set_cwd s d). split; [done|]. split; [split; [done|by exists nd]|done].
Qed.

(** The RAM file system leaves the volume alone. *)
Lemma fs_vol_same `{!volume V} s s' r : mounted s = false ->
  (forall p, fs_mkdir p s = Ok (r, s') -> vol s' = vol s) /\
  (forall p bs len, fs_fwrite p bs len s = Ok (r, s') -> vol s' = vol s) /\
  (forall p, fs_chdir p s = Ok (r, s') -> vol s' = vol s).
Proof.
  intros Hm. unfold fs_mkdir, fs_fwrite, fs_chdir, put_data. rewrite Hm. split_and!; intros *; intros E;
    repeat (case_match; simplify_eq/=; try done); repeat (res_inv; simplify_eq/=; repeat (case_match; simplify_eq/=; try done)); done.
Qed.

Lemma fs_init_vol s s' : fs_init s = Ok s' -> vol s' = vol s.
Proof. unfold fs_init. intros E. apply res_bind_inv in E as (? & _ & E). by apply res_bind_inv in E as (? & _ & [= <-]). Qed.

Lemma fs_init_ok s : Z.of_nat (length (nodes s)) = FS_MAX -> Forall node_data (nodes s) ->
  exists s', fs_init s = Ok s' /\ fs_inv s' /\ root_path s' = [] /\
    abs (nodes s') = {[ [] := EDir ]} /\ mounted s' = mounted s.
Proof.
  intros Hlen Hdata. unfold fs_init. set (ns := _ <$> nodes s).
  assert (Z.of_nat (length ns) = FS_MAX) as Hlen' by (unfold ns; by rewrite length_fmap).
  assert (forall i nd, ns !! i = Some nd -> n_used nd = false /\ node_data nd) as Hns.
  { intros i nd Hi. unfold ns in Hi. rewrite list_lookup_fmap in Hi.
    destruct (nodes s !! i) as [n0|] eqn:E; [|done]. injection Hi as <-. split; [done|].
    rewrite Forall_forall in Hdata. exact (Hdata n0 (list_elem_of_lookup_2 _ _ _ E)). }
  destruct (rd_in ns 0) as (n0 & -> & Hn0); [rewrite Hlen'; done|]. cbn [mbind res_bind].
  rewrite wr_in by (rewrite Hlen'; done). cbn [mbind res_bind]. change (Z.to_nat 0) with 0%nat in *.
  set (r := Node [] (-1) true true MODE_DIR (data n0) (datalen n0)).
  assert (forall i nd, live (<[0%nat := r]> ns) i nd <-> i = 0 /\ nd = r) as Hlive.
  { intros i nd. unfold live. split.
    - intros (H0 & Hi & Hu). destruct (decide (Z.to_nat i = 0%nat)) as [E|Hne].
      + rewrite E, list_lookup_insert_eq in Hi by (unfold FS_MAX in *; lia). split; [lia|congruence].
      + rewrite list_lookup_insert_ne in Hi by done. apply Hns in Hi as [Hi _]. congruence.
    - intros [-> ->]. rewrite list_lookup_insert_eq by (unfold FS_MAX in *; lia). done. }
  assert (live (<[0%nat := r]> ns) 0 r) as Hr by by apply Hlive.
  assert (fs_wf (<[0%nat := r]> ns)) as Hwf.
  { split.
    - by rewrite length_insert.
    - by exists r.
    - intros i j nd [-> _]%Hlive Hij. lia.
    - intros i nd [-> _]%Hlive Hi0. done.
    - intros i j n1 n2 [-> _]%Hlive Hj Hi0. done.
    - intros i nd Hi. destruct (decide (i = 0%nat)) as [->|Hne].
      + rewrite list_lookup_insert_eq in Hi by (unfold FS_MAX in *; lia). injection Hi as <-.
        by apply (Hns 0%nat n0).
      + rewrite list_lookup_insert_ne in Hi by done. by apply Hns in Hi as [_ Hi]. }
  eexists. split; [reflexivity|]. cbn [nodes cwd]. split; [split; [done|by exists r]|].
  split; [apply path_root|]. split; [|done]. apply map_eq. intros p. apply option_eq. intros e.
  rewrite (abs_lookup _ Hwf), lookup_singleton_Some. split.
  - intros (i & nd & [-> ->]%Hlive & <- & <-). by rewrite path_root.
  - intros [<- <-]. exists 0, r. by rewrite path_root.
Qed.
End server.

(** ** Lemmas: paths in the abstract tree *)

Lemma good_dots w : good_name w ->
  bool_decide (w = [DOT]) = false /\ bool_decide (w = [DOT; DOT]) = false.
Proof. intros (_ & _ & _ & H1 & H2). by rewrite !bool_decide_eq_false_2. Qed.

Lemma follow_snoc T cur cs P w : follow T cur cs = Some P -> T !! P = Some EDir ->
  follow T cur (cs ++ [w]) = follow T P [w].
Proof.
  revert cur. induction cs as [|c cs IH]; intros cur H HP; cbn [follow app] in *.
  - by injection H as ->.
  - case_bool_decide; [by apply IH|]. case_bool_decide; [by apply IH|].
    destruct (T !! (cur ++ [c])) as [e|] eqn:E; [|done].
    destruct cs as [|c' cs].
    + assert (P = cur ++ [c]) as -> by (destruct e; congruence).
      rewrite HP in E. by injection E as <-.
    + destruct e; [|done]. cbn [app]. by apply IH.
Qed.

Lemma follow_insert T q bs cur cs P : T !! q <> Some EDir -> follow T cur cs = Some P ->
  T !! P = Some EDir -> follow (<[q := EFile bs]> T) cur cs = Some P.
Proof.
  intros Hq. revert cur. induction cs as [|c cs IH]; intros cur H HP; cbn [follow] in *; [done|].
  case_bool_decide; [by apply IH|]. case_bool_decide; [by apply IH|].
  destruct (T !! (cur ++ [c])) as [e|] eqn:E; [|done].
  assert (e = EDir) as ->.
  { destruct e; [done|]. destruct cs; [|done]. assert (P = cur ++ [c]) as -> by congruence. congruence. }
  rewrite lookup_insert_ne, E by congruence. destruct cs; [done|]. by apply IH.
Qed.

(** A path names the entry that a write through it created. *)
Lemma resolve_target T C arg P leaf bs : cstr arg -> path_fits arg ->
  T !! C = Some EDir ->
  target_spec T C arg = Some (P, leaf) -> good_name leaf -> T !! (P ++ [leaf]) <> Some EDir ->
  resolve_spec (<[P ++ [leaf] := EFile bs]> T) C arg = Some (P ++ [leaf]).
Proof.
  intros Ha [Hf1 Hf2] HC Ht Hg Hn. unfold target_spec, resolve_spec in *.
  set (T' := <[P ++ [leaf] := EFile bs]> T).
  destruct (good_dots leaf Hg) as [Hd1 Hd2].
  assert (follow T' P [leaf] = Some (P ++ [leaf])) as Hlast.
  { cbn [follow]. rewrite Hd1, Hd2. unfold T'. by rewrite lookup_insert_eq. }
  pose proof Hg as (Hg1 & Hg2 & Hg3 & _).
  assert (forall w : str, (length w < NAME_MAX)%nat -> take (NAME_MAX - 1) w = w) as Htake
    by (intros w ?; apply take_ge; unfold NAME_MAX in *; lia).
  assert (comps (NAME_MAX - 2) leaf = [leaf]) as Hcl
    by (apply comps_single; [done|done|unfold NAME_MAX in *; lia]).
  destruct (leaf_cases arg Ha) as [Hp|(a & w & -> & Hw)].
  - rewrite last_slash_none in Ht, Hf2 by done. cbn [Z.leb Z.compare] in Ht.
    rewrite drop_0 in Hf2. rewrite Htake in Ht by done. injection Ht as -> ->.
    rewrite Hcl. unfold path_start. destruct (Z.eqb_spec (deref leaf) SLASH) as [E|_]; [|done].
    destruct Hg3 as [|? ? [_ Hx] _]; [done|]. by cbn in E.
  - rewrite last_slash_app in Ht, Hf1, Hf2 by done.
    destruct (Z.leb_spec 0 (0 + Z.of_nat (length a))); [|lia]. cbv zeta in Ht.
    assert (drop (Z.to_nat (0 + Z.of_nat (length a) + 1)) (a ++ SLASH :: w) = w) as Hdrop.
    { replace (Z.to_nat _) with (length a + 1)%nat by lia. by rewrite <- drop_drop, drop_app_length. }
    rewrite Hdrop in Ht, Hf2. rewrite Htake in Ht by done.
    rewrite Z.min_l in Ht by lia. rewrite Z.add_0_l, Nat2Z.id, take_app_length in Ht.
    rewrite comps_cat. set (dir := if bool_decide (a = []) then [SLASH] else a) in Ht.
    assert (comps (NAME_MAX - 2) dir = comps (NAME_MAX - 2) a /\
            path_start C dir = path_start C (a ++ SLASH :: w)) as [<- <-].
    { unfold dir. destruct a; split; reflexivity. }
    destruct (follow T _ _) as [P0|] eqn:EF; cbn [mbind option_bind] in Ht; [|done].
    destruct (T !! P0) as [[|]|] eqn:EP; [|done|done].
    injection Ht as E1 E2. subst P0 w. rewrite Hcl.
    pose proof (follow_insert T (P ++ [leaf]) bs _ _ P Hn EF EP) as EF'.
    rewrite (follow_snoc _ _ _ P) by (done || unfold T'; rewrite lookup_insert_ne by congruence; done).
    exact Hlast.
Qed.

(** The text of [fs_getcwd] leads from the root to the directory. *)
Lemma follow_path ns d dn : fs_wf ns -> live ns d dn -> is_dir dn = true ->
  follow (abs ns) [] (path_of ns d) = Some (path_of ns d).
Proof.
  intros Hwf Hd. assert (0 <= d) as H0 by apply Hd. revert dn Hd.
  induction d as [d IH] using (well_founded_induction (Z.lt_wf 0)). intros dn Hd Hdir.
  destruct (Z.eq_dec d 0) as [->|Hd0]; [by rewrite path_root|].
  destruct (w_node _ Hwf d dn Hd Hd0) as (Hp & Hg & pd & Hpd & Hpdd).
  rewrite (path_cons ns Hwf d dn) by done.
  specialize (IH (parent dn) ltac:(lia) ltac:(lia) pd Hpd Hpdd).
  rewrite (follow_snoc _ _ _ (path_of ns (parent dn))); [|done|].
  - cbn [follow]. destruct (good_dots _ Hg) as [-> ->].
    rewrite <- (path_cons ns Hwf d dn), (abs_live ns Hwf d dn) by done. by destruct (entry_of dn).
  - rewrite (abs_live ns Hwf _ pd Hpd). by rewrite (proj2 (entry_dir pd) Hpdd).
Qed.

Lemma path_good ns d dn : fs_wf ns -> live ns d dn ->
  Forall (fun w => plain w /\ w <> [] /\ (length w <= S (NAME_MAX - 2))%nat) (path_of ns d).
Proof.
  intros Hwf Hd. assert (0 <= d) as H0 by apply Hd. revert dn Hd.
  induction d as [d IH] using (well_founded_induction (Z.lt_wf 0)). intros dn Hd.
  destruct (Z.eq_dec d 0) as [->|Hd0]; [rewrite path_root; constructor|].
  destruct (w_node _ Hwf d dn Hd Hd0) as (Hp & (Hg1 & Hg2 & Hg3 & _) & pd & Hpd & _).
  rewrite (path_cons ns Hwf d dn) by done. apply Forall_app. split.
  - by apply (IH (parent dn) ltac:(lia) ltac:(lia) pd).
  - apply Forall_singleton. split; [done|]. split; [done|]. unfold NAME_MAX in *. lia.
Qed.

(** ** Lemmas: [fs_getcwd] and [fs_listdir] *)

(** The stack holds the nodes of the path. *)
Lemma cwd_stack_ok ns f d dn st : fs_wf ns -> live ns d dn -> d < Z.of_nat f ->
  exists chain, cwd_stack f ns d st = Ok (chain ++ st) /\
    Forall2 (fun i w => exists nd, live ns i nd /\ name nd = w) chain (path_of ns d).
Proof.
  intros Hwf. revert d dn st. induction f as [|f IH]; intros d dn st Hd Hf; [destruct Hd; lia|].
  cbn [cwd_stack]. destruct (Z.eqb_spec d 0) as [->|Hd0].
  - exists []. rewrite path_root. split; [done|constructor].
  - rewrite (live_rd ns d dn Hd). cbn [mbind res_bind].
    destruct (w_node _ Hwf d dn Hd Hd0) as (Hp & _ & pd & Hpd & _).
    destruct (IH (parent dn) pd (d :: st) Hpd) as (chain & -> & Hc); [lia|].
    exists (chain ++ [d]). rewrite <- app_assoc. split; [done|].
    rewrite (path_cons ns Hwf d dn) by done. apply Forall2_app; [done|].
    constructor; [by exists dn|constructor].
Qed.

Lemma cwd_text_ok ns cap chain ws out :
  Forall2 (fun i w => exists nd, live ns i nd /\ name nd = w) chain ws ->
  (chain = [] -> Z.of_nat (length out) + 1 <= cap) ->
  cwd_text ns chain cap out =
    Ok (if cap <? Z.of_nat (length (out ++ join ws)) + 1 then None else Some (out ++ join ws)).
Proof.
  intros H. revert out. induction H as [|i w chain ws (nd & Hl & Hn) H IH]; intros out Hcap; cbn [cwd_text].
  - cbn [join flat_map]. rewrite app_nil_r. destruct (Z.ltb_spec cap (Z.of_nat (length out) + 1)); [|done].
    specialize (Hcap eq_refl). lia.
  - rewrite (live_rd ns i nd Hl). cbn [mbind res_bind]. rewrite Hn. unfold slen.
    assert (Z.of_nat (length (join (w :: ws))) = 1 + Z.of_nat (length w) + Z.of_nat (length (join ws))) as Hj
      by (cbn [join flat_map length]; rewrite length_app; cbn [length]; fold (join ws); lia).
    destruct (Z.ltb_spec cap (Z.of_nat (length out) + Z.of_nat (length w) + 2)).
    + destruct (Z.ltb_spec cap (Z.of_nat (length (out ++ join (w :: ws))) + 1)); [done|].
      rewrite length_app in *. lia.
    + rewrite IH.
      * by rewrite <- app_assoc.
      * intros _. rewrite length_app. cbn [length]. lia.
Qed.

Lemma fs_getcwd_ok {V} `{!volume V} (s : fs V) cap : fs_inv s -> mounted s = false ->
  exists r out, fs_getcwd cap s = Ok (r, out, s) /\ (r, out) = getcwd_spec (root_path s) cap.
Proof.
  intros [Hwf (dn & Hd & Hdir)] Hm. unfold fs_getcwd, getcwd_spec. rewrite Hm.
  destruct (Z.ltb_spec cap 2); [by exists FS_BADPATH, []|].
  destruct (Z.eqb_spec (cwd s) 0) as [E|Hd0].
  { rewrite E, path_root. by exists 1, [SLASH]. }
  rewrite bool_decide_eq_false_2 by (by apply (path_not_nil _ Hwf _ dn)).
  destruct (cwd_stack_ok (nodes s) (Z.to_nat FS_MAX) (cwd s) dn [] Hwf Hd) as (chain & -> & Hc).
  { pose proof (live_range _ Hwf _ _ Hd). unfold FS_MAX in *. lia. }
  cbn [mbind res_bind]. rewrite app_nil_r.
  rewrite (cwd_text_ok (nodes s) cap chain _ [] Hc) by (cbn; lia). cbn [mbind res_bind app].
  destruct (cap <? _); [by exists FS_BADPATH, []|].
  by exists (Z.of_nat (length (join (root_path s)))), (join (root_path s)).
Qed.

Lemma kids_snoc ns dir i nd : ns !! i = Some nd ->
  kids (take (S i) ns) dir =
    kids (take i ns) dir ++ (if decide (n_used nd = true /\ parent nd = dir) then [nd] else []).
Proof.
  intros H. unfold kids. rewrite (take_S_r _ _ nd) by done. by rewrite filter_app.
Qed.

Lemma kids_prefix ns dir i : exists rest, kids ns dir = kids (take i ns) dir ++ rest.
Proof. exists (kids (drop i ns) dir). unfold kids. by rewrite <- filter_app, take_drop. Qed.

Lemma list_loop_ok ns dir cap : fs_wf ns -> exists out, list_loop ns dir cap = Ok out /\ listing ns dir cap out.
Proof.
  intros Hwf. unfold list_loop. set (body := fun i out => _).
  destruct (for_loop_inv (fun i out => out = flat_map line (kids (take (Z.to_nat i) ns) dir) /\
      (out <> [] -> Z.of_nat (length out) <= cap))
    (listing ns dir cap) (Z.to_nat FS_MAX) 0 body []) as [(out & -> & Ho & Hc)|(out & -> & Ho)].
  - done.
  - intros i out Hi (-> & Hc). destruct (rd_in ns i) as (nd & E & Hnd).
    { rewrite (w_len _ Hwf). unfold FS_MAX in *. lia. }
    unfold body. rewrite E. cbn [mbind res_bind].
    replace (Z.to_nat (i + 1)) with (S (Z.to_nat i)) by lia. rewrite (kids_snoc ns dir _ nd) by done.
    set (K := kids (take (Z.to_nat i) ns) dir) in *.
    case_decide as Hkid.
    + destruct Hkid as [Hu Hp]. rewrite Hu, Hp, Z.eqb_refl. cbn [negb orb].
      destruct (Z.ltb_spec cap (Z.of_nat (length (flat_map line K)) + slen (name nd) + 2)).
      * right. eexists. split; [reflexivity|]. exists (length K).
        destruct (kids_prefix ns dir (S (Z.to_nat i))) as (rest & Hr).
        rewrite (kids_snoc ns dir _ nd), decide_True in Hr by done. fold K in Hr.
        rewrite Hr, <- app_assoc, take_app_length. split; [done|]. split; [done|].
        intros nd'. rewrite lookup_app_r, Nat.sub_diag by lia. intros [= <-]. done.
      * left. eexists. split; [reflexivity|]. rewrite flat_map_app. cbn [flat_map]. rewrite app_nil_r.
        split; [done|]. intros _. rewrite !length_app. unfold slen in *.
        destruct (is_dir nd); cbn [length]; lia.
    + left. exists (flat_map line K). rewrite app_nil_r. split; [|done].
      destruct (n_used nd) eqn:Hu; cbn [negb orb]; [|done].
      destruct (Z.eqb_spec (parent nd) dir); [|done]. by destruct Hkid.
  - exists out. split; [done|]. exists (length (kids ns dir)).
    rewrite take_ge in Ho by (pose proof (w_len _ Hwf); lia).
    rewrite firstn_all. split; [done|]. split; [done|]. intros nd H%lookup_lt_Some. lia.
  - exists out. done.
Qed.

(** ** Properties *)

(** [fs_init] sets up the tree that holds the root directory only, and the
    invariant of the server. *)
Theorem fs_init_root V (s : fs V) :
  Z.of_nat (length (nodes s)) = FS_MAX -> Forall node_data (nodes s) ->
  exists s', fs_init s = Ok s' /\ fs_inv s' /\ root_path s' = [] /\
    abs (nodes s') = {[ [] := EDir ]} /\ mounted s' = mounted s.
Proof. apply fs_init_ok. Qed.

(** C28. [resolve] ends within its fuel on every path, stays inside the node
    array, and finds what following the components through the abstract tree
    finds, or fails exactly when that fails. *)
Theorem resolve_refines V (s : fs V) path : fs_inv s -> cstr path ->
  exists o, resolve path s = Ok o /\
    path_of (nodes s) <$> o = resolve_spec (abs (nodes s)) (root_path s) path /\
    forall d, o = Some d -> exists nd, live (nodes s) d nd.
Proof. apply resolve_ok. Qed.

(** C9. [fs_mkdir] and [fs_fwrite] of the file system in memory refine the
    abstract tree on every branch: the return code and the new tree are those
    of [mkdir_spec] and [fwrite_spec] (one entry is added or replaced, an
    error changes nothing), and the invariant is kept. *)
Theorem fs_write_refines V `{!volume V} (s : fs V) arg buf len :
  fs_inv s -> mounted s = false -> cstr arg -> 0 <= len <= Z.of_nat (length buf) ->
  (exists r s', fs_mkdir arg s = Ok (r, s') /\
    mkdir_spec (abs (nodes s)) (root_path s) arg = (r, abs (nodes s')) /\
    keeps s s' (abs (nodes s'))) /\
  (exists r s', fs_fwrite arg buf len s = Ok (r, s') /\
    fwrite_spec (abs (nodes s)) (root_path s) arg (take (Z.to_nat len) buf) = (r, abs (nodes s')) /\
    keeps s s' (abs (nodes s'))).
Proof. intros. split; [by apply fs_mkdir_ok|by apply fs_fwrite_ok]. Qed.

Lemma fs_reads_back V `{!volume V} (s : fs V) arg buf len s' cap :
  fs_inv s -> mounted s = false -> cstr arg -> 0 <= len <= Z.of_nat (length buf) ->
  path_fits arg -> 0 <= cap ->
  fs_fwrite arg buf len s = Ok (FS_OK, s') ->
  fs_fread_ram arg cap s' = Ok (Z.min cap len, take (Z.to_nat (Z.min cap len)) buf).
Proof.
  intros Hinv Hm Ha Hl Hfit Hc E. pose proof Hinv as [Hwf (dn & Hd & Hdir)].
  destruct (fs_fwrite_ok s arg buf len Hinv Hm Ha Hl) as (r & s1 & E1 & Hspec & Hinv1 & _ & _ & Hroot & _).
  rewrite E in E1. injection E1 as <- <-. rewrite fs_fread_ok by done. unfold fread_spec. rewrite Hroot.
  unfold fwrite_spec in Hspec. destruct (bool_decide (arg = [])); [done|].
  destruct (FILE_MAX <? _); [done|].
  destruct (target_spec _ _ _) as [[P leaf]|] eqn:Ht; [|done].
  destruct (bad_spec leaf) eqn:Hb; [done|].
  destruct (split_parent_ok s arg Hinv Ha) as (o & _ & Ho & Ho').
  rewrite Ht in Ho'. destruct o as [[d leaf']|]; [|done]. injection Ho' as _ E2. cbn in E2. subst leaf'.
  destruct (Ho d leaf eq_refl) as (Hp & Hlen & _).
  set (bs := take (Z.to_nat len) buf) in *.
  assert (abs (nodes s') = <[P ++ [leaf] := EFile bs]> (abs (nodes s)) /\
          abs (nodes s) !! (P ++ [leaf]) <> Some EDir) as [-> Hn].
  { destruct (abs (nodes s) !! (P ++ [leaf])) as [[|]|]; [done|..].
    - injection Hspec as <-. done.
    - case_bool_decide; [done|]. injection Hspec as <-. done. }
  rewrite (resolve_target _ _ arg P leaf bs) by
    (done || by apply not_bad_good || (rewrite (abs_live _ Hwf _ dn Hd); by rewrite (proj2 (entry_dir dn) Hdir))).
  cbn [mbind option_bind]. rewrite lookup_insert_eq. unfold bs. rewrite take_take, length_take.
  replace (Z.to_nat cap `min` Z.to_nat len)%nat with (Z.to_nat (Z.min cap len)) by lia.
  do 2 f_equal. lia.
Qed.

(** C19. A file reads back as it was written: after a successful [fs_fwrite]
    through a path that no buffer of the parser cuts, [fs_fread_ram] of the
    same path returns the bytes, up to the capacity of the reader. *)
Theorem fs_read_after_write V `{!volume V} (s : fs V) arg buf len s' cap :
  fs_inv s -> mounted s = false -> cstr arg -> 0 <= len <= Z.of_nat (length buf) ->
  path_fits arg -> 0 <= cap ->
  fs_fwrite arg buf len s = Ok (FS_OK, s') ->
  fs_fread_ram arg cap s' = Ok (Z.min cap len, take (Z.to_nat (Z.min cap len)) buf).
Proof. apply fs_reads_back. Qed.

(** [fs_getcwd] and [fs_chdir] agree: [fs_getcwd] returns the path of the
    current directory, or an error when the buffer is too small for the text
    and its terminator, and never writes past the buffer; changing to the
    returned text from any directory leads to the same directory. *)
Theorem fs_getcwd_chdir V `{!volume V} (s : fs V) cap r out s2 :
  fs_inv s -> mounted s = false -> fs_getcwd cap s = Ok (r, out, s) ->
  (r, out) = getcwd_spec (root_path s) cap /\
  (0 <= r -> Z.of_nat (length out) < cap /\
   (fs_inv s2 -> mounted s2 = false -> nodes s2 = nodes s ->
    exists s3, fs_chdir out s2 = Ok (FS_OK, s3) /\ root_path s3 = root_path s)).
Proof.
  intros Hinv Hm E. pose proof Hinv as [Hwf (dn & Hd & Hdir)].
  destruct (fs_getcwd_ok s cap Hinv Hm) as (r' & out' & E' & Hspec).
  rewrite E in E'. injection E' as <- <-. split; [done|]. intros Hr.
  assert (out = (if bool_decide (root_path s = []) then [SLASH] else join (root_path s)) /\
          Z.of_nat (length out) < cap) as [Hout Hlt].
  { unfold getcwd_spec in Hspec. destruct (Z.ltb_spec cap 2).
    { injection Hspec as -> _. unfold FS_BADPATH in Hr. lia. }
    destruct (bool_decide (root_path s = [])).
    { injection Hspec as _ ->. split; [done|]. cbn [length]. lia. }
    destruct (Z.ltb_spec cap (Z.of_nat (length (join (root_path s))) + 1)).
    - injection Hspec as -> _. unfold FS_BADPATH in Hr. lia.
    - injection Hspec as _ ->. split; [done|lia]. }
  split; [done|]. intros Hinv2 Hm2 Hnodes.
  pose proof (path_good (nodes s) _ dn Hwf Hd) as Hpg.
  assert (cstr out) as Hco.
  { rewrite Hout. bdec as Hp; [unfold cstr, SLASH; repeat constructor; lia|].
    clear -Hpg. induction Hpg as [|w ws (Hw & _) _ IH]; [constructor|]. cbn [join flat_map].
    constructor; [unfold SLASH; lia|]. apply Forall_app. split; [by apply plain_cstr|done]. }
  destruct (fs_chdir_ok s2 out Hinv2 Hm2 Hco) as (r2 & s3 & E3 & _ & _ & _ & Hres).
  assert (forall C, resolve_spec (abs (nodes s)) C out = Some (root_path s)) as Hrs.
  { intros C. unfold resolve_spec. rewrite Hout. bdec as Hp.
    - cbn. by rewrite Hp.
    - assert (path_start C (join (root_path s)) = []) as ->
        by (unfold path_start; destruct (root_path s); [done|reflexivity]).
      rewrite comps_join by done. by apply (follow_path _ _ dn). }
  rewrite bool_decide_eq_false_2 in Hres
    by (rewrite Hout; bdec as Hp; [done|]; destruct (root_path s); done).
  rewrite Hnodes, Hrs in Hres. cbn [mbind option_bind] in Hres.
  rewrite (abs_live _ Hwf _ dn Hd), (proj2 (entry_dir dn) Hdir) in Hres. injection Hres as -> Hroot.
  exists s3. done.
Qed.

Lemma fs_listdir_ok V `{!volume V} (s : fs V) path cap :
  fs_inv s -> mounted s = false -> cstr path ->
  exists r out, fs_listdir path cap s = Ok (r, out, s) /\
    match (if bool_decide (path = []) then Some (root_path s)
           else P ← resolve_spec (abs (nodes s)) (root_path s) path;
                match abs (nodes s) !! P with Some EDir => Some P | _ => None end) with
    | None => r = FS_BADPATH /\ out = []
    | Some P => r = Z.of_nat (length out) /\
        exists d nd, live (nodes s) d nd /\ path_of (nodes s) d = P /\ listing (nodes s) d cap out
    end.
Proof.
  intros Hinv Hm Hp. pose proof Hinv as [Hwf (dn & Hd & Hdir)]. unfold fs_listdir. rewrite Hm, deref_0 by done.
  bdec as Hp0.
  - cbn [mbind res_bind mret res_ret]. destruct (list_loop_ok (nodes s) (cwd s) cap Hwf) as (out & -> & Hl).
    eexists _, out. split; [reflexivity|]. split; [done|]. by exists (cwd s), dn.
  - destruct (resolve_dir_ok s path Hinv Hp) as (o & -> & Hd' & <-). cbn [mbind res_bind].
    destruct o as [d|]; [|by exists FS_BADPATH, []].
    destruct (Hd' d eq_refl) as (nd & Hnd & _).
    destruct (list_loop_ok (nodes s) d cap Hwf) as (out & -> & Hl).
    eexists _, out. split; [reflexivity|]. split; [done|]. by exists d, nd.
Qed.

(** [fs_listdir] fills the buffer with the lines of the first children of
    the directory in slot order, never writes past the buffer, and stops only
    before a child that may not fit; it fails exactly when the path does not
    name a directory. *)
Theorem fs_listdir_lists V `{!volume V} (s : fs V) path cap :
  fs_inv s -> mounted s = false -> cstr path ->
  exists r out, fs_listdir path cap s = Ok (r, out, s) /\
    match (if bool_decide (path = []) then Some (root_path s)
           else P ← resolve_spec (abs (nodes s)) (root_path s) path;
                match abs (nodes s) !! P with Some EDir => Some P | _ => None end) with
    | None => r = FS_BADPATH /\ out = []
    | Some P => r = Z.of_nat (length out) /\
        exists d nd, live (nodes s) d nd /\ path_of (nodes s) d = P /\ listing (nodes s) d cap out
    end.
Proof. apply fs_listdir_ok. Qed.

(** ** Witnesses *)

Lemma wit_shape : Z.of_nat (length (nodes wit_fs)) = FS_MAX /\ Forall node_data (nodes wit_fs).
Proof.
  split; [reflexivity|]. apply Forall_replicate. split; [|split; discriminate].
  unfold data. rewrite length_replicate. reflexivity.
Qed.

(** A server after [fs_init] whose tree holds the root directory. *)
Lemma wit_init : exists s : fs unit, fs_inv s /\ mounted s = false /\ root_path s = [] /\
  abs (nodes s) = {[ [] := EDir ]}.
Proof.
  destruct wit_shape as [H1 H2].
  destruct (fs_init_ok wit_fs H1 H2) as (s & _ & Hi & Hr & Ha & Hm). by exists s.
Qed.

(** The path "/a". *)
Lemma wit_cstr : cstr [47; 97].
Proof. unfold cstr. repeat constructor; lia. Qed.

Lemma fs_init_root_witness : exists s', fs_init wit_fs = Ok s' /\ fs_inv s' /\
  root_path s' = [] /\ abs (nodes s') = {[ [] := EDir ]} /\ mounted s' = mounted wit_fs.
Proof. destruct wit_shape. by apply (fs_init_root unit wit_fs). Defined.

Lemma resolve_refines_witness : exists (s : fs unit) o, resolve [47; 97] s = Ok o /\
  path_of (nodes s) <$> o = None.
Proof.
  destruct wit_init as (s & Hi & _ & Hr & Ha). exists s.
  destruct (resolve_refines unit s [47; 97] Hi wit_cstr) as (o & E & Ho & _).
  exists o. split; [exact E|]. rewrite Ho, Hr, Ha. vm_compute. reflexivity.
Defined.

Lemma fs_write_refines_witness : exists (s : fs unit) s1 s2,
  fs_mkdir [47; 97] s = Ok (FS_OK, s1) /\ abs (nodes s1) !! [[97]] = Some EDir /\
  fs_fwrite (volume0 := no_volume) [47; 97] [1; 2; 3] 2 s = Ok (FS_OK, s2) /\
  abs (nodes s2) !! [[97]] = Some (EFile [1; 2]).
Proof.
  destruct wit_init as (s & Hi & Hm & Hr & Ha).
  destruct (fs_write_refines unit (volume0 := no_volume) s [47; 97] [1; 2; 3] 2 Hi Hm wit_cstr)
    as [(r1 & s1 & E1 & H1 & _) (r2 & s2 & E2 & H2 & _)]; [cbn; lia|].
  rewrite Ha, Hr in H1, H2. change (take (Z.to_nat 2) [1; 2; 3]) with [1; 2] in H2.
  assert (r1 = FS_OK) as -> by (change r1 with (r1, abs (nodes s1)).1; rewrite <- H1; reflexivity).
  assert (r2 = FS_OK) as -> by (change r2 with (r2, abs (nodes s2)).1; rewrite <- H2; reflexivity).
  apply (f_equal snd) in H1, H2. cbn [snd] in H1, H2. exists s, s1, s2. rewrite <- H1, <- H2.
  split; [exact E1|]. split; [vm_compute; reflexivity|]. split; [exact E2|]. vm_compute. reflexivity.
Defined.

Lemma fs_read_after_write_witness : exists (s s' : fs unit),
  fs_fwrite (volume0 := no_volume) [47; 97] [1; 2; 3] 3 s = Ok (FS_OK, s') /\
  fs_fread_ram [47; 97] 2 s' = Ok (2, [1; 2]).
Proof.
  destruct wit_init as (s & Hi & Hm & Hr & Ha).
  destruct (fs_fwrite_ok (volume0 := no_volume) s [47; 97] [1; 2; 3] 3 Hi Hm wit_cstr)
    as (r & s' & E & H & _); [cbn; lia|].
  rewrite Ha, Hr in H. assert (r = FS_OK) as ->.
  { change r with (r, abs (nodes s')).1. rewrite <- H. vm_compute. reflexivity. }
  exists s, s'. split; [exact E|].
  apply (fs_read_after_write unit (volume0 := no_volume) s [47; 97] [1; 2; 3] 3 s' 2 Hi Hm wit_cstr).
  - cbn. lia.
  - split; [discriminate|]. apply Nat.ltb_lt. reflexivity.
  - lia.
  - exact E.
Defined.

Lemma fs_getcwd_chdir_witness : exists (s s3 : fs unit),
  fs_getcwd (volume0 := no_volume) 3 s = Ok (2, [47; 97], s) /\
  fs_chdir (volume0 := no_volume) [47; 97] s = Ok (FS_OK, s3) /\ root_path s3 = [[97]].
Proof.
  destruct wit_init as (s & Hi & Hm & Hr & Ha).
  destruct (fs_mkdir_ok s [47; 97] Hi Hm wit_cstr) as (r & s1 & _ & H1 & (Hi1 & _ & Hm1 & Hr1 & _)).
  rewrite Hm in Hm1. rewrite Ha, Hr in H1.
  destruct (fs_chdir_ok (volume0 := no_volume) s1 [47; 97] Hi1 Hm1 wit_cstr)
    as (r2 & s2 & _ & Hi2 & Hn2 & Hm2 & H2).
  assert (abs (nodes s1) = (mkdir_spec {[ [] := EDir ]} [] [47; 97]).2) as Ha1 by by rewrite H1.
  rewrite Ha1, Hr1, Hr in H2.
  assert (root_path s2 = [[97]]) as Hr2.
  { change (root_path s2) with (r2, root_path s2).2. rewrite H2. vm_compute. reflexivity. }
  destruct (fs_getcwd_ok (volume0 := no_volume) s2 3 Hi2 Hm2) as (r3 & out & E & Hs).
  rewrite Hr2 in Hs. vm_compute in Hs. injection Hs as -> ->.
  destruct (fs_getcwd_chdir unit (volume0 := no_volume) s2 3 2 [47; 97] s2 Hi2 Hm2 E) as [_ H].
  destruct H as [_ H]; [lia|]. destruct (H Hi2 Hm2 eq_refl) as (s3 & E3 & H3).
  exists s2, s3. rewrite Hr2 in H3. done.
Defined.

Lemma fs_listdir_lists_witness : exists (s : fs unit) r out,
  fs_listdir (volume0 := no_volume) [] 10 s = Ok (r, out, s) /\ r = Z.of_nat (length out).
Proof.
  destruct wit_init as (s & Hi & Hm & Hr & Ha).
  destruct (fs_listdir_lists unit (volume0 := no_volume) s [] 10 Hi Hm) as (r & out & E & H & _).
  - constructor.
  - by exists s, r, out.
Defined.
