(* ===== verification/Kbd.v ===== *)
(** * The keyboard ([drivers/keyboard/keyboard.c])

    The interrupt handler decodes scan codes and pushes characters into a ring
    buffer of 32 bytes; [getchar] takes them out.  The handler can run between
    any two accesses of [getchar], so the buffer is also modelled as a step
    relation over those accesses. *)
From S2P Require Import Prelude.

(** ** Constants and tables *)
Definition KEY_UP : Z := 0x80.
Definition KEY_DOWN : Z := 0x81.
Definition KEY_LEFT : Z := 0x82.
Definition KEY_RIGHT : Z := 0x83.
Definition KEY_DEL : Z := 0x84.
Definition BUFSIZE : Z := 32.

Definition kbd_map : list Z :=
  [0; 27; 49; 50; 51; 52; 53; 54; 55; 56; 57; 48; 45; 61; 8; 9; 113; 119; 101; 114; 116; 121;
   117; 105; 111; 112; 91; 93; 10; 0; 97; 115; 100; 102; 103; 104; 106; 107; 108; 59; 39; 96;
   0; 92; 122; 120; 99; 118; 98; 110; 109; 44; 46; 47; 0; 42; 0; 32; 0]
  ++ replicate 69 0.

Definition shift_map : list Z :=
  [0; 27; 33; 64; 35; 36; 37; 94; 38; 42; 40; 41; 95; 43; 8; 9; 81; 87; 69; 82; 84; 89; 85;
   73; 79; 80; 123; 125; 10; 0; 65; 83; 68; 70; 71; 72; 74; 75; 76; 58; 34; 126; 0; 124; 90;
   88; 67; 86; 66; 78; 77; 60; 62; 63; 0; 42; 0; 32; 0]
  ++ replicate 69 0.

(** ** State *)

(** The decoder's [e0], [shift] and [caps]. *)
Record decoder := Decoder { e0 : Z; shift : Z; caps : Z }.

(** The ring buffer. *)
Record ring := Ring { buf : list Z; head : Z; tail : Z }.

Record keyboard := Keyboard { dec : decoder; kring : ring }.

(** ** Operations *)

Definition push (c : Z) (r : ring) : res ring :=
  let next := (head r + 1) mod BUFSIZE in
  if next =? tail r then mret r
  else b ← wr (buf r) (head r) c; mret (Ring b next (tail r)).

(** One turn of [getchar]'s loop: [None] waits for an interrupt. *)
Definition getchar (r : ring) : res (option (Z * ring)) :=
  if tail r =? head r then mret None
  else c ← rd (buf r) (tail r);
       mret (Some (u8 c, Ring (buf r) (head r) ((tail r + 1) mod BUFSIZE))).

Definition kbd_decode (sc : Z) (d : decoder) : res (Z * decoder) :=
  if sc =? 0xE0 then mret (0, Decoder 1 (shift d) (caps d))
  else if (sc =? 0x2A) || (sc =? 0x36) then mret (0, Decoder (e0 d) 1 (caps d))
  else if (sc =? 0xAA) || (sc =? 0xB6) then mret (0, Decoder (e0 d) 0 (caps d))
  else if sc =? 0x3A then mret (0, Decoder (e0 d) (shift d) (b2z (caps d =? 0)))
  else if negb (e0 d =? 0) then
    let d' := Decoder 0 (shift d) (caps d) in
    if negb (Z.land sc 0x80 =? 0) then mret (0, d')
    else if sc =? 0x48 then mret (KEY_UP, d')
    else if sc =? 0x50 then mret (KEY_DOWN, d')
    else if sc =? 0x4B then mret (KEY_LEFT, d')
    else if sc =? 0x4D then mret (KEY_RIGHT, d')
    else if sc =? 0x53 then mret (KEY_DEL, d')
    else mret (0, d')
  else if (128 <=? sc) || negb (Z.land sc 0x80 =? 0) then mret (0, d)
  else
    base ← rd kbd_map sc;
    if base =? 0 then mret (0, d)
    else if (97 <=? base) && (base <=? 122) then
      mret (if Bool.eqb (negb (shift d =? 0)) (negb (caps d =? 0)) then base else base - 32, d)
    else if negb (shift d =? 0) then c ← rd shift_map sc; mret (c, d)
    else mret (base, d).

(** [sc] is the byte read from port 0x60; the port and the acknowledgement are in
    [Entry.v].
    [push] gets the result cast to [char] and stores a byte. *)
Definition keyboard_handler (sc : Z) (k : keyboard) : res keyboard :=
  '(c, d) ← kbd_decode sc (dec k);
  if c =? 0 then mret (Keyboard d (kring k))
  else r ← push (s8 c) (kring k); mret (Keyboard d r).

(** ** Interleaving *)

(** Where [getchar] is: before its test, after a test that found a character,
    after the read of the character. *)
Inductive getting := Waiting | Found | Taken (c : Z).

(** The buffer, the position of [getchar], the characters the handler's pushes
    accepted and those [getchar] returned, in order. *)
Record sys := Sys { s_ring : ring; s_pc : getting; s_in : list Z; s_out : list Z }.

(** One access of [getchar], or one run of the handler's [push] (interrupts do
    not nest). *)
Inductive step : sys -> sys -> Prop :=
| step_push c r r' pc ins outs : push c r = Ok r' ->
    step (Sys r pc ins outs) (Sys r' pc (ins ++ (if head r' =? head r then [] else [c])) outs)
| step_wait r ins outs : tail r = head r -> step (Sys r Waiting ins outs) (Sys r Waiting ins outs)
| step_found r ins outs : tail r <> head r -> step (Sys r Waiting ins outs) (Sys r Found ins outs)
| step_read r c ins outs : rd (buf r) (tail r) = Ok c ->
    step (Sys r Found ins outs) (Sys r (Taken (u8 c)) ins outs)
| step_return r c ins outs :
    step (Sys r (Taken c) ins outs)
         (Sys (Ring (buf r) (head r) ((tail r + 1) mod BUFSIZE)) Waiting ins (outs ++ [c])).

(** ** Specification *)

Record ring_wf (r : ring) : Prop := {
  rw_len : Z.of_nat (length (buf r)) = BUFSIZE;
  rw_head : 0 <= head r < BUFSIZE;
  rw_tail : 0 <= tail r < BUFSIZE
}.

(** The number of characters, and the characters from the tail to the head. *)
Definition count (r : ring) : Z := (head r - tail r) mod BUFSIZE.
Definition contents (r : ring) : list Z :=
  (fun k => at_ (buf r) ((tail r + k) mod BUFSIZE)) <$> seqZ 0 (count r).

(** A bounded queue of 31 characters. *)
Definition enqueue (c : Z) (q : list Z) : list Z :=
  if decide (length q < 31)%nat then q ++ [c] else q.

(** What every reachable state satisfies: nothing is lost, repeated or
    reordered between the pushes that were accepted and the characters that
    were returned. *)
Record sys_ok (s : sys) : Prop := {
  so_ring : ring_wf (s_ring s);
  so_order : u8 <$> s_in s = s_out s ++ (u8 <$> contents (s_ring s));
  so_pc : match s_pc s with
          | Waiting => True
          | Found => tail (s_ring s) <> head (s_ring s)
          | Taken c => exists c' q, contents (s_ring s) = c' :: q /\ c = u8 c'
          end
}.

(** A decoder's flags are 0 or 1. *)
Definition dec_ok (d : decoder) : Prop :=
  (e0 d = 0 \/ e0 d = 1) /\ (shift d = 0 \/ shift d = 1) /\ (caps d = 0 \/ caps d = 1).

(** A key that types a letter. *)
Definition letter_key (sc l : Z) : Prop := kbd_map !! Z.to_nat sc = Some l /\ 97 <= l <= 122.

Definition all_decoders : list decoder :=
  flat_map (fun e => flat_map (fun s => map (Decoder e s) [0; 1]) [0; 1]) [0; 1].

(** Every scan code in every state of the decoder: the tables are not left,
    the code fits a byte, the flags stay 0 or 1, a release gives no character,
    letters follow shift and caps lock. *)
Definition decode_check (sc : Z) (d : decoder) : bool :=
  match kbd_decode sc d with
  | Ok (c, d') =>
      (0 <=? c) && (c <? 256) && ((e0 d' =? 0) || (e0 d' =? 1)) &&
      ((shift d' =? 0) || (shift d' =? 1)) && ((caps d' =? 0) || (caps d' =? 1)) &&
      ((sc <? 128) || (c =? 0)) &&
      match kbd_map !! Z.to_nat sc with
      | Some l => (l <? 97) || (122 <? l) || negb (e0 d =? 0) ||
                  (c =? (if xorb (shift d =? 1) (caps d =? 1) then l - 32 else l))
      | None => true
      end
  | _ => false
  end.

(** ** Lemmas *)

Lemma count_range r : 0 <= count r < BUFSIZE.
Proof. unfold count, BUFSIZE. zdm. Qed.

Lemma contents_length r : Z.of_nat (length (contents r)) = count r.
Proof. unfold contents. rewrite length_fmap, length_seqZ. pose proof (count_range r). lia. Qed.

Lemma count_0 r : ring_wf r -> count r = 0 <-> tail r = head r.
Proof. intros [_ H1 H2]. unfold count, BUFSIZE in *. split; intros; zdm. Qed.

Lemma push_ok c r : ring_wf r -> exists r', push c r = Ok r' /\ ring_wf r' /\
  contents r' = enqueue c (contents r) /\ tail r' = tail r /\
  (head r' =? head r) = negb (bool_decide (length (contents r) < 31)%nat).
Proof.
  intros Hwf. pose proof Hwf as [Hl Hh Ht]. pose proof (contents_length r) as Hc.
  unfold push. unfold BUFSIZE in *.
  assert ((head r + 1) mod 32 = tail r <-> count r = 31) as Hfull by (unfold count, BUFSIZE; split; intros; zdm).
  unfold enqueue. destruct (Z.eqb_spec ((head r + 1) mod 32) (tail r)) as [E|E].
  - exists r. rewrite decide_False, bool_decide_eq_false_2, Z.eqb_refl by lia. done.
  - rewrite wr_in by lia. cbn [mbind res_bind]. pose proof (count_range r) as Hcr. unfold BUFSIZE in Hcr.
    assert (count r <> 31) as Hcn by tauto. rewrite decide_True, bool_decide_eq_true_2 by lia.
    eexists. split; [reflexivity|]. split; [|split; [|split; [done|]]].
    + split; cbn [buf head tail]; [by rewrite length_insert|unfold BUFSIZE; zdm|done].
    + unfold contents. cbn [buf head tail].
      assert (count (Ring (<[Z.to_nat (head r) := c]> (buf r)) ((head r + 1) mod 32) (tail r)) = count r + 1) as ->
        by (unfold count, BUFSIZE in *; cbn [head tail]; zdm).
      rewrite (seqZ_app 0 (count r) 1) by lia. rewrite fmap_app. f_equal.
      * apply list_fmap_ext. intros i k Hk%lookup_seqZ. rewrite at_insert by (unfold BUFSIZE; zdm || lia).
        destruct (Z.eqb_spec ((tail r + k) mod BUFSIZE) (head r)) as [E2|?]; [|done].
        unfold count, BUFSIZE in *. exfalso. zdm.
      * change (seqZ (0 + count r) 1) with [0 + count r]. cbn [fmap list_fmap]. rewrite at_insert by (unfold BUFSIZE; zdm || lia).
        destruct (Z.eqb_spec ((tail r + (0 + count r)) mod BUFSIZE) (head r)) as [?|E2]; [done|].
        unfold count, BUFSIZE in *. exfalso. apply E2. zdm.
    + apply Z.eqb_neq. cbn [head]. zdm.
Qed.

Lemma pop_contents r : ring_wf r -> tail r <> head r ->
  let r' := Ring (buf r) (head r) ((tail r + 1) mod BUFSIZE) in
  rd (buf r) (tail r) = Ok (at_ (buf r) (tail r)) /\ ring_wf r' /\
  contents r = at_ (buf r) (tail r) :: contents r'.
Proof.
  intros [Hl Hh Ht] Hne. cbv zeta. split; [apply rd_at; unfold BUFSIZE in *; lia|].
  split; [split; cbn [buf head tail]; unfold BUFSIZE in *; [done|done|zdm]|].
  unfold contents. assert (0 < count r) as Hc by (unfold count, BUFSIZE in *; zdm).
  rewrite (seqZ_cons 0 (count r)) by lia. cbn [fmap list_fmap buf head tail]. f_equal.
  - f_equal. unfold BUFSIZE in *. zdm.
  - assert (count (Ring (buf r) (head r) ((tail r + 1) mod BUFSIZE)) = Z.pred (count r)) as ->
      by (unfold count, BUFSIZE in *; cbn [head tail]; zdm).
    change (Z.succ 0) with (1 + 0). rewrite <- fmap_add_seqZ, <- list_fmap_compose.
    apply list_fmap_ext. intros i k _. cbn. f_equal. unfold BUFSIZE. zdm.
Qed.

Lemma step_inv s s' : sys_ok s -> step s s' -> sys_ok s'.
Proof.
  intros Hok Hs. destruct Hs as [c r r' pc ins outs E|r ins outs E|r ins outs E|r c ins outs E|r c ins outs];
    destruct Hok as [Hwf Hord Hpc]; cbn [s_ring s_pc s_in s_out] in *.
  - destruct (push_ok c r Hwf) as (r2 & E2 & Hwf2 & Hc & Ht & Hh). rewrite E in E2. injection E2 as <-.
    split; cbn [s_ring s_pc s_in s_out]; [done| |].
    + rewrite Hc, Hh, fmap_app. unfold enqueue. case_bool_decide; cbn [negb fmap list_fmap].
      * rewrite decide_True by done. rewrite fmap_app, app_assoc, Hord. done.
      * rewrite decide_False, app_nil_r by done. done.
    + destruct pc as [| |c0]; [done| |].
      * rewrite <- count_0 in Hpc |- * by done. intros Hx. apply Hpc.
        rewrite <- contents_length in Hx |- *. rewrite Hc in Hx. unfold enqueue in Hx.
        case_decide; [rewrite length_app in Hx; cbn in Hx; lia|done].
      * destruct Hpc as (c' & q & Hq & ->). rewrite Hc, Hq. unfold enqueue.
        destruct (decide _); [exists c', (q ++ [c])|exists c', q]; split; reflexivity.
  - by split.
  - by split.
  - destruct (pop_contents r Hwf Hpc) as (E2 & _ & Hc). rewrite E in E2. injection E2 as ->.
    split; [done|done|]. cbn [s_pc s_ring].
    exists (at_ (buf r) (tail r)). eexists. split; [exact Hc|reflexivity].
  - destruct Hpc as (c' & q & Hq & ->).
    assert (tail r <> head r) as Hne.
    { rewrite <- count_0 by done. rewrite <- contents_length, Hq. cbn [length]. lia. }
    destruct (pop_contents r Hwf Hne) as (_ & Hwf2 & Hc). rewrite Hq in Hc. injection Hc as -> ->.
    split; cbn [s_ring s_pc s_in s_out]; [done| |done].
    rewrite Hord, Hq. cbn [fmap list_fmap]. by rewrite <- app_assoc.
Qed.

Lemma in_all_decoders d : dec_ok d -> d ∈ all_decoders.
Proof.
  destruct d as [e s c]. intros ([H1|H1] & [H2|H2] & [H3|H3]); cbn in *; subst;
    unfold all_decoders; cbn; rewrite !elem_of_cons; tauto.
Qed.

Lemma decode_checked sc d : 0 <= sc < 256 -> dec_ok d -> decode_check sc d = true.
Proof.
  intros Hsc Hd%in_all_decoders.
  assert (forallb (fun sc => forallb (decode_check sc) all_decoders) (seqZ 0 256) = true) as H
    by (vm_compute; reflexivity).
  rewrite forallb_forall in H. specialize (H sc). rewrite forallb_forall in H.
  apply H; apply list_elem_of_In; [apply elem_of_seqZ; lia|done].
Qed.

(** The check, as facts. *)
Lemma kbd_decode_ok sc d : 0 <= sc < 256 -> dec_ok d ->
  exists c d', kbd_decode sc d = Ok (c, d') /\ 0 <= c < 256 /\ dec_ok d' /\
    (128 <= sc -> c = 0) /\
    (forall l, letter_key sc l -> e0 d = 0 ->
       c = if xorb (shift d =? 1) (caps d =? 1) then l - 32 else l).
Proof.
  intros Hsc Hd. pose proof (decode_checked sc d Hsc Hd) as H. unfold decode_check in H.
  destruct (kbd_decode sc d) as [[c d']| |] eqn:E; [|done..]. exists c, d'. split; [done|].
  apply andb_true_iff in H as [H Hlet]. repeat (apply andb_true_iff in H as [H ?]).
  unfold dec_ok. split; [lia|]. split; [lia|]. split; [lia|].
  intros l [Hl Hr] He. rewrite Hl, He in Hlet. cbn [Z.eqb negb] in Hlet.
  rewrite (proj2 (Z.ltb_ge l 97)), (proj2 (Z.ltb_ge 122 l)) in Hlet by lia.
  by apply Z.eqb_eq in Hlet.
Qed.

(** The handler never fails and keeps the decoder's flags and the buffer; what
    it adds to the buffer is the character of the key, if there is one. *)
Lemma keyboard_handler_ok sc k : 0 <= sc < 256 -> dec_ok (dec k) -> ring_wf (kring k) ->
  exists c d' r', kbd_decode sc (dec k) = Ok (c, d') /\ keyboard_handler sc k = Ok (Keyboard d' r') /\ dec_ok d' /\ ring_wf r' /\
    contents r' = if c =? 0 then contents (kring k) else enqueue (s8 c) (contents (kring k)).
Proof.
  intros Hsc Hd Hr. destruct (kbd_decode_ok sc (dec k) Hsc Hd) as (c & d' & E & _ & Hd' & _). unfold keyboard_handler. rewrite E.
  cbn [mbind res_bind]. destruct (c =? 0) eqn:Ec; [by exists c, d', (kring k); rewrite Ec|].
  destruct (push_ok (s8 c) (kring k) Hr) as (r' & Ep & Hr' & Hc & _). rewrite Ep. cbn [mbind res_bind]. exists c, d', r'. by rewrite Ec.
Qed.

(** ** Properties *)

(** The ring buffer refines a queue of at most 31 characters: [push]
    stays inside the array and appends the character, or drops it when the
    queue is full; [getchar] waits exactly when the queue is empty and
    otherwise removes its first character. *)
Theorem kbd_ring_refines r c : ring_wf r ->
  (exists r', push c r = Ok r' /\ ring_wf r' /\ contents r' = enqueue c (contents r)) /\
  (getchar r = Ok None <-> contents r = []) /\
  (forall x q, contents r = x :: q ->
     exists r', getchar r = Ok (Some (u8 x, r')) /\ ring_wf r' /\ contents r' = q).
Proof.
  intros Hwf. split; [|split].
  - destruct (push_ok c r Hwf) as (r' & ? & ? & ? & _). by exists r'.
  - rewrite <- length_zero_iff_nil. pose proof (contents_length r). pose proof (count_0 r Hwf).
    unfold getchar. destruct (Z.eqb_spec (tail r) (head r)) as [E|E].
    + split; [intros _; lia|done].
    + destruct (pop_contents r Hwf E) as (-> & _). split; [done|]. intros. exfalso. apply E. lia.
  - intros x q Hq. assert (tail r <> head r) as Hne.
    { rewrite <- count_0 by done. rewrite <- contents_length, Hq. cbn [length]. lia. }
    unfold getchar. rewrite (proj2 (Z.eqb_neq _ _) Hne).
    destruct (pop_contents r Hwf Hne) as (-> & Hwf' & Hc). rewrite Hq in Hc. injection Hc as -> ->.
    eexists. split; [reflexivity|done].
Qed.

(** C31. Interrupts between the accesses of [getchar] do no harm: in every
    reachable state of the step relation the characters the pushes accepted
    are, in order, those returned so far followed by those in the buffer, and
    the buffer is well formed. *)
Theorem kbd_no_loss_no_reorder s s' : sys_ok s -> rtc step s s' -> sys_ok s'.
Proof. intros Hok Hs. induction Hs; [done|]. eauto using step_inv. Qed.

(** C40. Decoding a scan code never leaves the tables, yields a byte, keeps
    the flags 0 or 1, gives no character for a key release, and an unprefixed
    letter key gives the capital exactly when one of shift and caps lock is
    on. *)
Theorem kbd_decode_total sc d : 0 <= sc < 256 -> dec_ok d ->
  exists c d', kbd_decode sc d = Ok (c, d') /\ 0 <= c < 256 /\ dec_ok d' /\
    (128 <= sc -> c = 0) /\
    (forall l, letter_key sc l -> e0 d = 0 ->
       c = if xorb (shift d =? 1) (caps d =? 1) then l - 32 else l).
Proof. apply kbd_decode_ok. Qed.

(** ** Witnesses *)

Lemma wit_ring : ring_wf (Ring (replicate 32 0) 0 0).
Proof. split; cbn; unfold BUFSIZE; lia. Qed.

Lemma kbd_ring_refines_witness :
  exists r', push 65 (Ring (replicate 32 0) 0 0) = Ok r' /\ ring_wf r' /\ contents r' = [65].
Proof.
  destruct (kbd_ring_refines (Ring (replicate 32 0) 0 0) 65 wit_ring) as [(r' & E & Hw & Hc) _].
  by exists r'.
Defined.

Lemma kbd_no_loss_no_reorder_witness :
  exists s', rtc step (Sys (Ring (replicate 32 0) 0 0) Waiting [] []) s' /\ s_in s' = [65] /\ sys_ok s'.
Proof.
  assert (rtc step (Sys (Ring (replicate 32 0) 0 0) Waiting [] [])
    (Sys (Ring (<[0%nat := 65]> (replicate 32 0)) 1 0) Waiting [65] [])) as H.
  { apply rtc_once. apply (step_push 65 (Ring (replicate 32 0) 0 0)
      (Ring (<[0%nat := 65]> (replicate 32 0)) 1 0) Waiting [] []). reflexivity. }
  eexists. split; [exact H|]. split; [reflexivity|].
  apply (kbd_no_loss_no_reorder (Sys (Ring (replicate 32 0) 0 0) Waiting [] [])); [|exact H].
  split; [exact wit_ring|reflexivity|exact I].
Defined.

Lemma kbd_decode_total_witness :
  exists c d', kbd_decode 0x1E (Decoder 0 1 0) = Ok (c, d') /\ 0 <= c < 256 /\ c = 65.
Proof.
  destruct (kbd_decode_total 0x1E (Decoder 0 1 0)) as (c & d' & E & Hc & _ & _ & Hl).
  - lia.
  - split; [by left|]. split; [by right|by left].
  - exists c, d'. split; [exact E|]. split; [exact Hc|]. apply (Hl 97); [|done]. split; [reflexivity|lia].
Defined.
