(* ===== verification/Vga.v ===== *)
(** * The text terminal ([drivers/vga/vga.c])

    80 by 25 cells of 16 bits at 0xB8000, a cursor with a pending wrap (a full
    line wraps when the next character arrives), scrolling, and the cursor
    registers of the CRT controller.  [vga] is the array of cells; writes
    outside it are [Ub]. *)
From S2P Require Import Prelude.

(** ** Constants and state *)
Definition COLS : Z := 80.
Definition ROWS : Z := 25.
Definition CELLS : Z := ROWS * COLS.

Record term := Term {
  vga : list Z; row : Z; col : Z; wrap : bool; attr : Z;
  saved_fg : Z; saved_bg : Z;
  crt_pos : Z  (** the position in registers 0x0E and 0x0F *)
}.

Definition set_vga (t : term) (v : list Z) : term :=
  Term v (row t) (col t) (wrap t) (attr t) (saved_fg t) (saved_bg t) (crt_pos t).
Definition set_cursor (t : term) (r c : Z) (w : bool) : term :=
  Term (vga t) r c w (attr t) (saved_fg t) (saved_bg t) (crt_pos t).
Definition set_attr (t : term) (a : Z) : term :=
  Term (vga t) (row t) (col t) (wrap t) a (saved_fg t) (saved_bg t) (crt_pos t).
Definition set_crt (t : term) (p : Z) : term :=
  Term (vga t) (row t) (col t) (wrap t) (attr t) (saved_fg t) (saved_bg t) p.

(** [(unsigned short)((attr << 8) | c)]. *)
Definition cell (a c : Z) : Z := u16 (Z.lor (Z.shiftl a 8) c).

(** ** Operations *)

Definition update_cursor (t : term) : term :=
  let pos := u16 (if wrap t then (row t + 1) * COLS else row t * COLS + col t) in
  set_crt t (Z.lor (Z.shiftl (u8 (Z.shiftr pos 8)) 8) (u8 (Z.land pos 0xFF))).

Definition scroll (t : term) : res term :=
  v ← for_each (Z.to_nat ((ROWS - 1) * COLS)) 0
        (fun i v => c ← rd v (i + COLS); wr v i c) (vga t);
  v ← for_each (Z.to_nat COLS) ((ROWS - 1) * COLS)
        (fun i v => wr v i (cell (attr t) 32)) v;
  mret (set_cursor (set_vga t v) (ROWS - 1) (col t) false).

Definition term_clear (t : term) : res term :=
  v ← for_each (Z.to_nat CELLS) 0 (fun i v => wr v i (cell (attr t) 32)) (vga t);
  mret (update_cursor (set_cursor (set_vga t v) 0 0 false)).

Definition term_init (t : term) : res term := term_clear (set_attr t 0x0F).

Definition scroll_if_full (t : term) : res term :=
  if ROWS <=? row t then scroll t else mret t.

(** The pending wrap lands first. *)
Definition land_wrap (c : Z) (t : term) : res term :=
  if wrap t && negb (c =? 10) && negb (c =? 13)
  then scroll_if_full (set_cursor t (row t + 1) 0 false)
  else mret t.

(** The switch over the character. *)
Definition putc_switch (c : Z) (t : term) : res term :=
  if c =? 10 then mret (set_cursor t (row t + 1) 0 false)
  else if c =? 13 then mret (set_cursor t (row t) 0 false)
  else if c =? 8 then
    let t := if wrap t then set_cursor t (row t) (COLS - 1) false else t in
    if 0 <? col t then
      let t := set_cursor t (row t) (col t - 1) (wrap t) in
      v ← wr (vga t) (row t * COLS + col t) (cell (attr t) 32);
      mret (set_vga t v)
    else mret t
  else if c =? 9 then
    let c' := Z.land (col t + 4) (Z.lnot 3) in
    if COLS <=? c' then mret (set_cursor t (row t + 1) 0 (wrap t))
    else mret (set_cursor t (row t) c' (wrap t))
  else
    v ← wr (vga t) (row t * COLS + col t) (cell (attr t) (u8 c));
    mret (set_cursor (set_vga t v) (row t) (col t + 1)
                     (if COLS <=? col t + 1 then true else wrap t)).

Definition term_putc (c : Z) (t : term) : res term :=
  t ← land_wrap c t; t ← putc_switch c t; t ← scroll_if_full t; mret (update_cursor t).

(** [term_puts] writes the bytes of a string. *)
Fixpoint term_puts (s : list Z) (t : term) : res term :=
  match s with
  | [] => mret t
  | c :: s' => t ← term_putc c t; term_puts s' t
  end.

Definition term_write (s : list Z) (len : Z) (t : term) : res term :=
  for_each (Z.to_nat len) 0 (fun i t => c ← rd s i; term_putc c t) t.

Definition term_goto (r c : Z) (t : term) : term :=
  let r := if r <? 0 then 0 else r in
  let r := if ROWS <=? r then ROWS - 1 else r in
  let c := if c <? 0 then 0 else c in
  let c := if COLS <=? c then COLS - 1 else c in
  update_cursor (set_cursor t r c false).

Definition term_set_color (fg bg : Z) (t : term) : term :=
  set_attr t (u8 (Z.lor (Z.shiftl bg 4) (Z.land fg 0x0F))).

Definition term_save_color (t : term) : term :=
  Term (vga t) (row t) (col t) (wrap t) (attr t)
       (Z.land (attr t) 0x0F) (Z.land (Z.shiftr (attr t) 4) 0x0F) (crt_pos t).

Definition term_reset_color (t : term) : term := term_set_color (saved_fg t) (saved_bg t) t.

(** ** Specification *)

(** The linear position of the cursor; a pending wrap is the start of the next
    line. *)
Definition pos (t : term) : Z := row t * COLS + col t.

Record term_wf (t : term) : Prop := {
  tw_len : Z.of_nat (length (vga t)) = CELLS;
  tw_row : 0 <= row t < ROWS;
  tw_col : 0 <= col t <= COLS;
  tw_wrap : wrap t = true <-> col t = COLS
}.

(** The registers show the cursor. *)
Definition crt_ok (t : term) : Prop := crt_pos t = pos t.

(** A character that takes a cell. *)
Definition printable (c : Z) : Prop := is_byte c /\ c <> 8 /\ c <> 9 /\ c <> 10 /\ c <> 13.

(** The cells after scrolling. *)
Definition scrolled (a : Z) (v : list Z) : list Z :=
  drop (Z.to_nat COLS) v ++ replicate (Z.to_nat COLS) (cell a 32).

(** The cells [k] to [k + length cs] replaced. *)
Definition overlay (v : list Z) (k : Z) (cs : list Z) : list Z :=
  take (Z.to_nat k) v ++ cs ++ drop (Z.to_nat k + length cs) v.

(** An unbounded sheet of paper below the last line of which the screen sits:
    the screen shows the last 25 lines of the paper.  Printing on paper never
    scrolls; a new line at the bottom is blank paper. *)
Record paper := Paper { sheet : list Z; p_pos : Z; p_attr : Z }.

Definition paper_of (old : list Z) (t : term) : paper :=
  Paper (old ++ vga t) (Z.of_nat (length old) + pos t) (attr t).

(** One printable character on paper. *)
Definition paper_put (c : Z) (p : paper) : paper :=
  let sh := if p_pos p =? Z.of_nat (length (sheet p))
            then sheet p ++ replicate (Z.to_nat COLS) (cell (p_attr p) 32) else sheet p in
  Paper (<[Z.to_nat (p_pos p) := cell (p_attr p) c]> sh) (p_pos p + 1) (p_attr p).

Definition wit_term : term := Term (replicate 2000 0) 24 79 false 0x0F 15 0 1999.

(** ** Lemmas *)

Lemma crt_bytes z : 0 <= z < 65536 -> Z.lor (Z.shiftl (u8 (Z.shiftr z 8)) 8) (u8 (Z.land z 0xFF)) = z.
Proof.
  intros Hz. change 0xFF with (Z.ones 8). rewrite Z.land_ones, Z.shiftr_div_pow2 by lia.
  change (2 ^ 8) with 256. rewrite !u8_small by zdm.
  apply Z.bits_inj'. intros n Hn. rewrite Z.lor_spec, Z.shiftl_spec by done.
  change 256 with (2 ^ 8). destruct (decide (n < 8)).
  - rewrite Z.testbit_neg_r by lia. rewrite Z.mod_pow2_bits_low by lia. done.
  - rewrite Z.mod_pow2_bits_high by lia. rewrite orb_false_r, Z.div_pow2_bits by lia.
    f_equal. lia.
Qed.

Lemma update_cursor_ok t : term_wf t -> term_wf (update_cursor t) /\ crt_ok (update_cursor t) /\
  pos (update_cursor t) = pos t /\ vga (update_cursor t) = vga t /\ attr (update_cursor t) = attr t /\
  row (update_cursor t) = row t /\ col (update_cursor t) = col t.
Proof.
  intros [Hl Hr Hc Hw]. split; [by split|]. split; [|done]. unfold crt_ok, update_cursor, pos.
  cbn [crt_pos set_crt row col]. unfold ROWS, COLS in *.
  assert ((if wrap t then (row t + 1) * 80 else row t * 80 + col t) = row t * 80 + col t) as ->.
  { destruct (wrap t); [|done]. rewrite (proj1 Hw eq_refl). lia. }
  rewrite u16_small by lia. apply crt_bytes. lia.
Qed.

(** Two lists of the same length with the same cells are equal. *)
Lemma cells_eq (v w : list Z) : length v = length w ->
  (forall i, 0 <= i < Z.of_nat (length v) -> at_ v i = at_ w i) -> v = w.
Proof.
  intros Hl H. apply (nth_ext _ _ 0 0 Hl). intros n Hn. specialize (H (Z.of_nat n)).
  unfold at_ in H. rewrite Nat2Z.id in H. apply H. lia.
Qed.

Lemma at_app_l (v w : list Z) i : 0 <= i < Z.of_nat (length v) -> at_ (v ++ w) i = at_ v i.
Proof. intros. unfold at_. apply app_nth1. lia. Qed.

Lemma at_app_r (v w : list Z) i : Z.of_nat (length v) <= i -> at_ (v ++ w) i = at_ w (i - Z.of_nat (length v)).
Proof. intros. unfold at_. rewrite app_nth2 by lia. f_equal. lia. Qed.

Lemma at_drop n (v : list Z) i : 0 <= i -> at_ (drop n v) i = at_ v (i + Z.of_nat n).
Proof. intros. unfold at_. rewrite !nth_lookup, lookup_drop. do 2 f_equal. lia. Qed.

Lemma at_replicate n x i : 0 <= i < Z.of_nat n -> at_ (replicate n x) i = x.
Proof. intros. unfold at_. rewrite nth_lookup, lookup_replicate_2 by lia. done. Qed.

(** Filling a range of cells. *)
Lemma fill_loop n k x (v : list Z) : 0 <= k -> k + Z.of_nat n <= Z.of_nat (length v) ->
  exists v', for_each n k (fun i v => wr v i x) v = Ok v' /\ length v' = length v /\
    forall i, 0 <= i < Z.of_nat (length v) ->
      at_ v' i = if decide (k <= i < k + Z.of_nat n) then x else at_ v i.
Proof.
  intros Hk Hn.
  destruct (for_each_inv (fun j v' => length v' = length v /\
    forall i, 0 <= i < Z.of_nat (length v) -> at_ v' i = if decide (k <= i < j) then x else at_ v i)
    n k (fun i v => wr v i x) v) as (v' & E & H).
  - split; [done|]. intros i Hi. by rewrite decide_False by lia.
  - intros j s Hj (Hl & Hs). rewrite wr_in by lia. eexists. split; [reflexivity|].
    rewrite length_insert. split; [done|]. intros i Hi. rewrite at_insert, Hs by lia.
    destruct (Z.eqb_spec i j); [by rewrite decide_True by lia|].
    destruct (decide (k <= i < j)); [by rewrite decide_True by lia|by rewrite decide_False by lia].
  - by exists v'.
Qed.

(** Moving the lines up: cell [i] is read before it is overwritten. *)
Lemma move_loop (v : list Z) : Z.of_nat (length v) = CELLS ->
  exists v', for_each (Z.to_nat ((ROWS - 1) * COLS)) 0 (fun i v => c ← rd v (i + COLS); wr v i c) v = Ok v' /\
    length v' = length v /\
    forall i, 0 <= i < CELLS -> at_ v' i = at_ v (if decide (i < (ROWS - 1) * COLS) then i + COLS else i).
Proof.
  intros Hl. unfold CELLS, ROWS, COLS in *.
  destruct (for_each_inv (fun j v' => length v' = length v /\
    forall i, 0 <= i < 2000 -> at_ v' i = at_ v (if decide (i < j) then i + 80 else i))
    (Z.to_nat 1920) 0 (fun i v => c ← rd v (i + 80); wr v i c) v) as (v' & E & H).
  - split; [done|]. intros i Hi. by rewrite decide_False by lia.
  - intros j s Hj (Hls & Hs). rewrite rd_at by lia. cbn [mbind res_bind]. rewrite wr_in by lia.
    eexists. split; [reflexivity|]. rewrite length_insert. split; [done|]. intros i Hi.
    rewrite at_insert, !Hs by lia. rewrite (decide_False (P := j + 80 < j)) by lia.
    destruct (Z.eqb_spec i j) as [->|?]; [by rewrite decide_True by lia|].
    destruct (decide (i < j)); [by rewrite decide_True by lia|by rewrite decide_False by lia].
  - exists v'. exact (conj E H).
Qed.

Lemma scroll_ok t : Z.of_nat (length (vga t)) = CELLS ->
  scroll t = Ok (set_cursor (set_vga t (scrolled (attr t) (vga t))) (ROWS - 1) (col t) false).
Proof.
  intros Hl. unfold scroll. destruct (move_loop (vga t) Hl) as (v1 & -> & Hl1 & H1). cbn [mbind res_bind].
  destruct (fill_loop (Z.to_nat COLS) ((ROWS - 1) * COLS) (cell (attr t) 32) v1) as (v2 & -> & Hl2 & H2).
  - unfold ROWS, COLS. lia.
  - rewrite Hl1, Hl. unfold CELLS, ROWS, COLS. lia.
  - cbn [mbind res_bind]. do 2 f_equal. unfold set_vga. f_equal.
    assert (length (scrolled (attr t) (vga t)) = length (vga t)) as Hls.
    { unfold scrolled. rewrite length_app, length_drop, length_replicate. unfold CELLS, ROWS, COLS in *. lia. }
    apply cells_eq; [congruence|]. intros i Hi. rewrite Hl2, Hl1, Hl in Hi.
    rewrite H2 by (rewrite Hl1, Hl; exact Hi). rewrite H1 by done. unfold scrolled.
    assert (Z.of_nat (length (drop (Z.to_nat COLS) (vga t))) = 1920) as Hd
      by (rewrite length_drop; unfold CELLS, ROWS, COLS in *; lia).
    unfold CELLS, ROWS, COLS in *.
    destruct (decide ((25 - 1) * 80 <= i < (25 - 1) * 80 + Z.of_nat (Z.to_nat 80))).
    + rewrite at_app_r by lia. by rewrite at_replicate by lia.
    + rewrite decide_True by lia. rewrite at_app_l, at_drop by lia. done.
Qed.

Lemma scrolled_length a v : Z.of_nat (length v) = CELLS -> Z.of_nat (length (scrolled a v)) = CELLS.
Proof.
  intros H. unfold scrolled. rewrite length_app, length_drop, length_replicate.
  unfold CELLS, ROWS, COLS in *. lia.
Qed.

(** [land_wrap] on the states it changes, and the switch. *)
Lemma scroll_if_full_ok t : Z.of_nat (length (vga t)) = CELLS -> 0 <= row t <= ROWS -> 0 <= col t < COLS ->
  wrap t = false -> exists t', scroll_if_full t = Ok t' /\ term_wf t' /\ wrap t' = false /\
    col t' = col t /\ attr t' = attr t /\
    ((row t < ROWS /\ t' = t) \/ (row t = ROWS /\ row t' = ROWS - 1 /\ vga t' = scrolled (attr t) (vga t))).
Proof.
  intros Hl Hr Hc Hw. unfold scroll_if_full. destruct (Z.leb_spec ROWS (row t)) as [Hf|Hf].
  - rewrite scroll_ok by done. eexists. split; [reflexivity|]. cbn [wrap col attr row vga set_cursor set_vga].
    split; [split; cbn [vga row col wrap set_cursor set_vga]|].
    + by apply scrolled_length.
    + unfold ROWS. lia.
    + lia.
    + split; [done|]. intros ?. exfalso. lia.
    + do 3 (split; [done|]). right. split; [lia|done].
  - exists t. split; [done|]. split; [split; [done|lia|lia|]|].
    + rewrite Hw. split; [done|]. intros ?. exfalso. lia.
    + do 3 (split; [done|]). by left.
Qed.

Lemma land_wrap_ok c t : term_wf t -> exists t', land_wrap c t = Ok t' /\ term_wf t' /\
  attr t' = attr t /\ (c <> 10 -> c <> 13 -> wrap t' = false).
Proof.
  intros Hwf. pose proof Hwf as [Hl Hr Hc Hw]. unfold land_wrap.
  destruct (wrap t) eqn:Hwt; cbn [andb].
  2:{ exists t. done. }
  destruct (Z.eqb_spec c 10) as [->|H10]; cbn [negb andb]; [by exists t|].
  destruct (Z.eqb_spec c 13) as [->|H13]; cbn [negb andb]; [by exists t|].
  destruct (scroll_if_full_ok (set_cursor t (row t + 1) 0 false)) as (t' & -> & Hwf' & Hw' & _ & Ha & _);
    cbn [vga row col wrap set_cursor]; try done; unfold ROWS, COLS in *; try lia.
  exists t'. done.
Qed.

Lemma putc_switch_ok c t : term_wf t -> (c <> 10 -> c <> 13 -> wrap t = false) ->
  exists t', putc_switch c t = Ok t' /\ Z.of_nat (length (vga t')) = CELLS /\
    ((row t' < ROWS /\ term_wf t') \/ (0 <= row t' <= ROWS /\ 0 <= col t' < COLS /\ wrap t' = false)).
Proof.
  intros Hwf Hnw. pose proof Hwf as [Hl Hr Hc Hw]. unfold putc_switch.
  destruct (Z.eqb_spec c 10) as [->|H10].
  { eexists. split; [reflexivity|]. split; [done|]. right. cbn. unfold ROWS, COLS in *. lia. }
  destruct (Z.eqb_spec c 13) as [->|H13].
  { eexists. split; [reflexivity|]. split; [done|]. right. cbn. unfold ROWS, COLS in *. lia. }
  specialize (Hnw H10 H13).
  assert (col t < COLS) as Hc2 by (destruct (Z.eq_dec (col t) COLS) as [E|]; [apply Hw in E; congruence|lia]).
  destruct (Z.eqb_spec c 8) as [->|H8].
  { rewrite Hnw. destruct (Z.ltb_spec 0 (col t)).
    - cbn [vga row col wrap attr set_cursor].
      rewrite wr_in by (unfold CELLS, ROWS, COLS in *; lia). eexists. split; [reflexivity|].
      cbn [vga row col wrap set_cursor set_vga]. rewrite length_insert. split; [done|]. right.
      unfold ROWS, COLS in *. split_and!; [lia..|exact Hnw].
    - exists t. split; [done|]. split; [done|]. right. unfold ROWS, COLS in *. split_and!; [lia..|exact Hnw]. }
  destruct (Z.eqb_spec c 9) as [->|H9].
  { destruct (Z.leb_spec COLS (Z.land (col t + 4) (Z.lnot 3))) as [Hge|Hlt].
    - eexists. split; [reflexivity|]. split; [done|]. right. cbn. unfold ROWS, COLS in *.
      split_and!; [lia..|exact Hnw].
    - eexists. split; [reflexivity|]. split; [done|]. right. cbn.
      assert (0 <= Z.land (col t + 4) (Z.lnot 3)) by (apply Z.land_nonneg; left; lia).
      unfold ROWS, COLS in *. split_and!; [lia..|exact Hnw]. }
  rewrite Hnw. rewrite wr_in by (unfold CELLS, ROWS, COLS in *; lia). eexists. split; [reflexivity|].
  cbn [vga row col wrap set_cursor set_vga]. rewrite length_insert. split; [done|]. left. split; [lia|].
  split; cbn [vga row col wrap set_cursor set_vga]; [by rewrite length_insert|done|unfold COLS in *; lia|].
  destruct (Z.leb_spec COLS (col t + 1)); [split; [lia|done]|split; [done|intros ?; exfalso; lia]].
Qed.

Lemma term_putc_ok c t : term_wf t -> exists t', term_putc c t = Ok t' /\ term_wf t' /\ crt_ok t'.
Proof.
  intros Hwf. unfold term_putc. destruct (land_wrap_ok c t Hwf) as (t1 & -> & Hwf1 & _ & Hnw). cbn [mbind res_bind].
  destruct (putc_switch_ok c t1 Hwf1 Hnw) as (t2 & -> & Hl2 & [[Hr Hwf2]|(Hr & Hc & Hw)]); cbn [mbind res_bind].
  - unfold scroll_if_full. destruct (Z.leb_spec ROWS (row t2)); [lia|]. cbn [mbind res_bind mret res_ret].
    eexists. split; [reflexivity|]. destruct (update_cursor_ok t2 Hwf2) as (? & ? & _). done.
  - destruct (scroll_if_full_ok t2 Hl2 Hr Hc Hw) as (t3 & -> & Hwf3 & _). cbn [mbind res_bind].
    eexists. split; [reflexivity|]. destruct (update_cursor_ok t3 Hwf3) as (? & ? & _). done.
Qed.

Lemma term_puts_ok s t : term_wf t -> crt_ok t ->
  exists t', term_puts s t = Ok t' /\ term_wf t' /\ crt_ok t'.
Proof.
  revert t. induction s as [|c s IH]; intros t Hwf Hcrt; cbn [term_puts]; [by exists t|].
  destruct (term_putc_ok c t Hwf) as (t1 & -> & Hwf1 & Hcrt1). by apply IH.
Qed.

Lemma term_write_puts s len t : 0 <= len <= Z.of_nat (length s) ->
  term_write s len t = term_puts (take (Z.to_nat len) s) t.
Proof.
  intros Hl. unfold term_write.
  assert (forall n k t, k + Z.of_nat n <= Z.of_nat (length s) -> 0 <= k ->
    for_each n k (fun i t => c ← rd s i; term_putc c t) t =
    term_puts (take n (drop (Z.to_nat k) s)) t) as H.
  { induction n as [|n IH]; intros k t0 Hk H0; cbn [for_each]; [by rewrite take_0|].
    destruct (rd_in s k) as (c & -> & Hc); [lia|]. cbn [mbind res_bind].
    rewrite (drop_S _ c) by done. cbn [take term_puts].
    destruct (term_putc c t0) as [t1| |]; cbn [mbind res_bind]; [|done..].
    rewrite IH by lia. by replace (Z.to_nat (k + 1)) with (S (Z.to_nat k)) by lia. }
  rewrite H by lia. by rewrite drop_0.
Qed.

(** ** Lemmas: the screen as a window on paper *)

Lemma printable_switch c t : printable c -> term_wf t -> wrap t = false ->
  exists t', putc_switch c t = Ok t' /\ row t' = row t /\ attr t' = attr t /\ term_wf t' /\
    pos t' = pos t + 1 /\ vga t' = <[Z.to_nat (pos t) := cell (attr t) c]> (vga t) /\ pos t < CELLS.
Proof.
  intros (Hb & H8 & H9 & H10 & H13) [Hl Hr Hc Hw] Hnw. unfold putc_switch.
  rewrite (proj2 (Z.eqb_neq c 10)), (proj2 (Z.eqb_neq c 13)), (proj2 (Z.eqb_neq c 8)),
    (proj2 (Z.eqb_neq c 9)) by done.
  assert (col t < COLS) as Hc2.
  { destruct (Z.eq_dec (col t) COLS) as [E|]; [|lia]. apply Hw in E. congruence. }
  assert (pos t < CELLS) as Hpos by (unfold pos, CELLS, ROWS, COLS in *; lia).
  rewrite wr_in by (unfold CELLS, ROWS, COLS in *; lia). eexists. split; [reflexivity|].
  cbn [vga row col wrap attr set_cursor set_vga]. unfold is_byte in Hb. rewrite u8_small by lia.
  split; [done|]. split; [done|]. split.
  - split; cbn [vga row col wrap set_cursor set_vga]; [by rewrite length_insert|done|unfold COLS in *; lia|].
    rewrite Hnw. destruct (Z.leb_spec COLS (col t + 1)); [split; [lia|done]|split; [done|intros ?; exfalso; lia]].
  - split; [unfold pos; cbn; lia|]. done.
Qed.

Lemma term_putc_paper c t old : printable c -> term_wf t ->
  exists t' new, term_putc c t = Ok t' /\ term_wf t' /\
    paper_of (old ++ new) t' = paper_put c (paper_of old t).
Proof.
  intros Hp Hwf. pose proof Hwf as [Hl Hr Hc Hw]. pose proof Hp as (Hb & _ & _ & H10 & H13).
  assert (exists t1 new, land_wrap c t = Ok t1 /\ term_wf t1 /\ wrap t1 = false /\ attr t1 = attr t /\
    Z.of_nat (length (old ++ new)) + pos t1 = Z.of_nat (length old) + pos t /\
    (old ++ new) ++ vga t1 =
      (if Z.of_nat (length old) + pos t =? Z.of_nat (length (old ++ vga t))
       then (old ++ vga t) ++ replicate (Z.to_nat COLS) (cell (attr t) 32) else old ++ vga t))
    as (t1 & new & E1 & Hwf1 & Hw1 & Ha1 & Hp1 & Hs1).
  { unfold land_wrap. rewrite (proj2 (Z.eqb_neq c 10)), (proj2 (Z.eqb_neq c 13)) by done.
    rewrite length_app, Nat2Z.inj_add, Hl. destruct (wrap t) eqn:Hwt; cbn [andb negb].
    - pose proof (proj1 Hw eq_refl) as Hct.
      destruct (scroll_if_full_ok (set_cursor t (row t + 1) 0 false)) as (t1 & -> & Hwf1 & Hw1 & Hc1 & Ha1 & Hcase);
        cbn [vga row col wrap set_cursor] in *; try done; unfold ROWS, COLS in *; try lia.
      cbn [attr set_cursor] in *. destruct Hcase as [[Hlt ->]|(Hfull & Hr1 & Hv1)].
      + exists (set_cursor t (row t + 1) 0 false), []. unfold pos. cbn [row col vga attr set_cursor].
        rewrite app_nil_r. unfold CELLS, ROWS, COLS in *.
        rewrite (proj2 (Z.eqb_neq _ _)) by lia. split_and!; try done. lia.
      + exists t1, (take (Z.to_nat 80) (vga t)). split; [done|]. split; [done|]. split; [done|]. split; [done|].
        unfold pos. rewrite Hc1, Hr1, Hv1. unfold CELLS, ROWS, COLS in *. split.
        * rewrite length_app, length_take. lia.
        * rewrite (proj2 (Z.eqb_eq _ _)) by lia. unfold scrolled.
          rewrite <- !app_assoc. f_equal. rewrite !app_assoc. by rewrite take_drop.
    - exists t, []. rewrite app_nil_r.
      assert (col t <> COLS) by (intros E; by apply Hw in E).
      rewrite (proj2 (Z.eqb_neq _ _)) by (unfold pos, CELLS, ROWS, COLS in *; lia). done. }
  destruct (printable_switch c t1 Hp Hwf1 Hw1) as (t2 & E2 & Hr2 & Ha2 & Hwf2 & Hp2 & Hv2 & Hlt).
  unfold term_putc. rewrite E1. cbn [mbind res_bind]. rewrite E2. cbn [mbind res_bind].
  unfold scroll_if_full. pose proof (tw_row _ Hwf2). destruct (Z.leb_spec ROWS (row t2)); [lia|].
  cbn [mbind res_bind mret res_ret].
  destruct (update_cursor_ok t2 Hwf2) as (Hwf3 & _ & Hp3 & Hv3 & Ha3 & _).
  exists (update_cursor t2), new. split; [done|]. split; [done|].
  unfold paper_of, paper_put. cbn [sheet p_pos p_attr]. rewrite Hp3, Hv3, Ha3, Hp2, Ha2, Hv2, Ha1, <- Hs1, <- Hp1.
  f_equal; [|lia]. assert (0 <= pos t1) by (unfold pos, COLS; pose proof (tw_row _ Hwf1); pose proof (tw_col _ Hwf1); lia).
  rewrite insert_app_r_alt by lia.
  by replace (Z.to_nat _ - length (old ++ new))%nat with (Z.to_nat (pos t1)) by lia.
Qed.

(** ** Properties *)

Lemma term_clear_ok t : term_wf t -> exists t', term_clear t = Ok t' /\ term_wf t' /\ crt_ok t'.
Proof.
  intros Hwf. pose proof Hwf as [Hl Hr Hc Hw]. unfold term_clear.
  destruct (for_each_inv (fun _ v => Z.of_nat (length v) = CELLS) (Z.to_nat CELLS) 0
    (fun i v => wr v i (cell (attr t) 32)) (vga t)) as (v & -> & Hv); [done| |].
  - intros i v Hi Hv. rewrite wr_in by (unfold CELLS, ROWS, COLS in *; lia). eexists. split; [reflexivity|].
    by rewrite length_insert.
  - cbn [mbind res_bind mret res_ret]. eexists. split; [reflexivity|].
    destruct (update_cursor_ok (set_cursor (set_vga t v) 0 0 false)) as (H1 & H2 & _); [|done].
    split; cbn; unfold ROWS, COLS; done || lia.
Qed.

Lemma term_goto_ok r c t : term_wf t -> term_wf (term_goto r c t) /\ crt_ok (term_goto r c t).
Proof.
  intros [Hl Hr Hc Hw]. unfold term_goto. cbv zeta. set (r1 := if ROWS <=? _ then _ else _). set (c1 := if COLS <=? _ then _ else _).
  assert (0 <= r1 < ROWS /\ 0 <= c1 < COLS) as [Hr1 Hc1].
  { unfold r1, c1, ROWS, COLS. destruct (Z.ltb_spec r 0), (Z.ltb_spec c 0); split;
      match goal with |- context [?a <=? ?b] => destruct (Z.leb_spec a b) end; lia. }
  clearbody r1 c1. destruct (update_cursor_ok (set_cursor t r1 c1 false)) as (H1 & H2 & _); [|done].
  split; cbn [vga row col wrap set_cursor]; [done|done|lia|]. split; [done|]. lia.
Qed.

Lemma term_set_color_ok fg bg t : term_wf t -> crt_ok t -> term_wf (term_set_color fg bg t) /\ crt_ok (term_set_color fg bg t).
Proof. intros [Hl Hr Hc Hw] Hcrt. split; [by split|done]. Qed.

(** C33. The terminal is memory safe and keeps its invariant for every byte
    string: [term_write] never touches a cell outside the 25 by 80 screen,
    leaves the cursor on the screen (or pending at the end of a line), and the
    registers of the CRT controller show the cursor. *)
Theorem term_write_safe s len t : term_wf t -> crt_ok t -> 0 <= len <= Z.of_nat (length s) ->
  exists t', term_write s len t = Ok t' /\ term_wf t' /\ crt_ok t'.
Proof. intros. rewrite term_write_puts by done. by apply term_puts_ok. Qed.

(** C32. The screen is a window on an unbounded sheet of paper: writing
    printable text, whatever wraps and scrolls it causes, shows the last 25
    lines of the paper on which the text was printed without scrolling, and
    what scrolled off the screen is the older part of the paper, unchanged. *)
Theorem term_puts_paper s t old : Forall printable s -> term_wf t ->
  exists t' new, term_puts s t = Ok t' /\ term_wf t' /\
    paper_of (old ++ new) t' = foldl (fun p c => paper_put c p) (paper_of old t) s.
Proof.
  intros Hs. revert t old. induction Hs as [|c s Hc _ IH]; intros t old Hwf; cbn [term_puts foldl].
  - exists t, []. by rewrite app_nil_r.
  - destruct (term_putc_paper c t old Hc Hwf) as (t1 & new1 & -> & Hwf1 & <-). cbn [mbind res_bind].
    destruct (IH t1 (old ++ new1) Hwf1) as (t2 & new2 & E & Hwf2 & <-).
    exists t2, (new1 ++ new2). by rewrite app_assoc.
Qed.

(** A backspace right after a full line erases nothing: the pending wrap
    lands before the switch looks at the character, so the branch that would
    take the wrap back never runs. *)
Theorem backspace_after_full_line t : term_wf t -> wrap t = true -> row t < ROWS - 1 ->
  exists t', term_putc 8 t = Ok t' /\ vga t' = vga t /\ row t' = row t + 1 /\ col t' = 0.
Proof.
  intros Hwf Hw Hr. set (t1 := set_cursor t (row t + 1) 0 false).
  assert (scroll_if_full t1 = Ok t1) as Hs.
  { unfold scroll_if_full. cbn [row set_cursor t1]. destruct (Z.leb_spec ROWS (row t + 1)); [lia|done]. }
  unfold term_putc. assert (land_wrap 8 t = Ok t1) as -> by (unfold land_wrap; rewrite Hw; exact Hs).
  cbn [mbind res_bind]. assert (putc_switch 8 t1 = Ok t1) as -> by reflexivity.
  cbn [mbind res_bind]. rewrite Hs. eexists. split; [reflexivity|]. done.
Qed.

(** ** Witnesses *)

(** The cursor on the last cell of the screen. *)
Lemma wit_term_wf : term_wf wit_term /\ crt_ok wit_term.
Proof. split; [|reflexivity]. split; cbn; unfold CELLS, ROWS, COLS; [reflexivity|lia|lia|done]. Qed.

Lemma term_write_safe_witness : exists t', term_write [65; 66; 9; 10; 8] 5 wit_term = Ok t' /\
  term_wf t' /\ crt_ok t'.
Proof.
  destruct wit_term_wf. apply (term_write_safe [65; 66; 9; 10; 8] 5 wit_term); [done|done|cbn; lia].
Defined.

Lemma term_puts_paper_witness : exists t' new, term_puts [65; 66; 67] wit_term = Ok t' /\ term_wf t' /\
  paper_of ([] ++ new) t' =
    paper_put 67 (paper_put 66 (paper_put 65 (paper_of [] wit_term))).
Proof.
  apply (term_puts_paper [65; 66; 67] wit_term []).
  - unfold printable, is_byte. repeat constructor; lia.
  - apply wit_term_wf.
Defined.

Lemma backspace_after_full_line_witness : exists t', term_putc 8 (Term (replicate 2000 0) 3 80 true 15 0 0 320) = Ok t' /\
  vga t' = replicate 2000 0 /\ row t' = 4 /\ col t' = 0.
Proof.
  apply (backspace_after_full_line (Term (replicate 2000 0) 3 80 true 15 0 0 320)).
  - split; cbn; unfold CELLS, ROWS, COLS; [reflexivity|lia|lia|done].
  - reflexivity.
  - cbn. unfold ROWS. lia.
Defined.
