(* ===== verification/Disk.v ===== *)
(** * Block devices

    What the partition scanner and the FAT driver need of the disk driver:
    [ide_read] and [ide_write] of 512-byte blocks ([drivers/ide/ide.h]).
    [disk] has the two operations, [good_disk] the promises.  Clients are
    proved against [good_disk]; [Ide.v] shows that the driver keeps it. *)
From S2P Require Import Prelude.

Definition SECTOR : Z := 512.

(** [disk_read] returns the block, or [None] for the error return, which leaves
    the buffer of the caller alone; [disk_write] returns the code. *)
Class disk (D : Type) := Disk {
  disk_read : Z -> D -> res (option (list Z) * D);
  disk_write : Z -> list Z -> D -> res (Z * D)
}.

(** A block: 512 bytes. *)
Definition is_block (b : list Z) : Prop := Z.of_nat (length b) = SECTOR /\ Forall is_byte b.

Class good_disk (D : Type) `{!disk D} := GoodDisk {
  (** the device works *)
  d_ok : D -> Prop;
  (** the number of blocks, and their contents *)
  d_blocks : D -> Z;
  d_at : D -> Z -> list Z;
  d_is_block d i : d_ok d -> 0 <= i < d_blocks d -> is_block (d_at d i);
  (** reading changes nothing *)
  d_read d i : d_ok d -> 0 <= i < d_blocks d ->
    exists d', disk_read i d = Ok (Some (d_at d i), d') /\ d_ok d' /\
      d_blocks d' = d_blocks d /\ forall j, d_at d' j = d_at d j;
  (** a block past the end is refused *)
  d_read_out d i : d_ok d -> d_blocks d <= i -> disk_read i d = Ok (None, d);
  (** writing changes the one block *)
  d_write d i b : d_ok d -> 0 <= i < d_blocks d -> is_block b ->
    exists d', disk_write i b d = Ok (0, d') /\ d_ok d' /\
      d_blocks d' = d_blocks d /\ forall j, 0 <= j -> d_at d' j = if decide (j = i) then b else d_at d j;
  d_write_out d i b : d_ok d -> d_blocks d <= i -> disk_write i b d = Ok (-1, d)
}.

(** [uint16_t] views of a block, little-endian. *)
Fixpoint words_bytes (ws : list Z) : list Z :=
  match ws with
  | [] => []
  | w :: ws' => le_bytes 2 w ++ words_bytes ws'
  end.

Fixpoint bytes_words (bs : list Z) : list Z :=
  match bs with
  | a :: b :: bs' => (a + 256 * b) :: bytes_words bs'
  | _ => []
  end.

(** A disk in a list of blocks, for examples. *)
Definition list_disk : disk (list (list Z)) := {|
  disk_read i d := if (0 <=? i) && (i <? Z.of_nat (length d))
                   then b ← rd d i; mret (Some b, d) else mret (None, d);
  disk_write i b d := if (0 <=? i) && (i <? Z.of_nat (length d))
                      then d' ← wr d i b; mret (0, d') else mret (-1, d) |}.

Definition is_list_disk (d : list (list Z)) : Prop := Forall is_block d.

(** ** Lemmas *)

Lemma words_bytes_length ws : length (words_bytes ws) = (2 * length ws)%nat.
Proof. induction ws; cbn [words_bytes length]; [done|]. rewrite length_app, le_bytes_length. lia. Qed.

Lemma words_bytes_byte ws : Forall is_byte (words_bytes ws).
Proof. induction ws; cbn [words_bytes]; [constructor|]. apply Forall_app. split; [apply le_bytes_byte|done]. Qed.

Lemma bytes_words_bytes ws : Forall (fun w => 0 <= w < 65536) ws -> bytes_words (words_bytes ws) = ws.
Proof.
  induction 1 as [|w ws Hw _ IH]; [done|]. cbn [words_bytes le_bytes app bytes_words]. f_equal; [zdm|done].
Qed.

Lemma words_bytes_words n bs : length bs = (2 * n)%nat -> Forall is_byte bs ->
  words_bytes (bytes_words bs) = bs /\ length (bytes_words bs) = n /\
  Forall (fun w => 0 <= w < 65536) (bytes_words bs).
Proof.
  revert bs. induction n as [|n IH]; intros bs Hl Hb.
  - destruct bs; [repeat split; constructor|done].
  - destruct bs as [|a [|b bs]]; [done|cbn in Hl; lia|].
    apply Forall_cons in Hb as [Ha Hb]. apply Forall_cons in Hb as [Hb Hbs]. unfold is_byte in Ha, Hb.
    destruct (IH bs) as (H1 & H2 & H3); [cbn in Hl; lia|done|].
    cbn [bytes_words words_bytes le_bytes app length]. split; [|split; [lia|constructor; [lia|done]]].
    f_equal; [zdm|]. f_equal; [zdm|done].
Qed.

#[global] Instance list_good_disk : good_disk (disk0 := list_disk) (list (list Z)).
Proof.
  refine (GoodDisk _ list_disk is_list_disk (fun d => Z.of_nat (length d))
    (fun d i => default [] (d !! Z.to_nat i)) _ _ _ _ _).
  - intros d i Hd Hi. destruct (lookup_lt_is_Some_2 d (Z.to_nat i)) as [b Hb]; [lia|]. rewrite Hb.
    unfold is_list_disk in Hd. rewrite Forall_lookup in Hd. by apply (Hd (Z.to_nat i)).
  - intros d i Hd Hi. cbn [disk_read list_disk].
    destruct (Z.leb_spec 0 i); [|lia]. destruct (Z.ltb_spec i (Z.of_nat (length d))); [|lia]. cbn [andb].
    destruct (rd_in d i Hi) as (b & -> & ->). by exists d.
  - intros d i Hd Hi. cbn [disk_read list_disk].
    destruct (Z.ltb_spec i (Z.of_nat (length d))); [lia|]. by rewrite andb_false_r.
  - intros d i b Hd Hi Hb. cbn [disk_write list_disk].
    destruct (Z.leb_spec 0 i); [|lia]. destruct (Z.ltb_spec i (Z.of_nat (length d))); [|lia]. cbn [andb].
    rewrite wr_in by lia. eexists. split; [reflexivity|]. split; [by apply Forall_insert|].
    rewrite length_insert. split; [done|]. intros j Hj0. case_decide as Hj.
    + subst j. by rewrite list_lookup_insert_eq by lia.
    + by rewrite list_lookup_insert_ne by lia.
  - intros d i b Hd Hi. cbn [disk_write list_disk].
    destruct (Z.ltb_spec i (Z.of_nat (length d))); [lia|]. by rewrite andb_false_r.
Defined.
