(* ===== verification/Part.v ===== *)
(** * The partition table ([kernel/part.c])

    The four primary entries of the master boot record.  The disk is the
    interface [disk]; [init] is the result of [ide_init] of the driver. *)
From S2P Require Import Prelude Disk.

Definition PART_MAX : Z := 4.

Record part_t := PartT { type : Z; lba : Z; sectors : Z }.

(** [parts[4]], [nparts] and the block buffer [sec]. *)
Record table := Table { parts : list part_t; nparts : Z; sec : list Z }.

(** [p[0] | p[1] << 8 | p[2] << 16 | p[3] << 24] at offset [o] of a buffer. *)
Definition rd32 (b : list Z) (o : Z) : res Z :=
  b0 ← rd b o; b1 ← rd b (o + 1); b2 ← rd b (o + 2); b3 ← rd b (o + 3);
  mret (Z.lor (Z.lor (Z.lor b0 (Z.shiftl b1 8)) (Z.shiftl b2 16)) (Z.shiftl b3 24)).

(** The loop over the entries. *)
Definition scan_entries (t : table) : res table :=
  for_each (Z.to_nat PART_MAX) 0 (fun i t =>
    let e := 0x1BE + i * 16 in
    ty ← rd (sec t) (e + 4);
    if ty =? 0 then mret t
    else
      l ← rd32 (sec t) (e + 8);
      n ← rd32 (sec t) (e + 12);
      ps ← wr (parts t) (nparts t) (PartT ty l n);
      mret (Table ps (nparts t + 1) (sec t))) t.

Definition part_scan {D} `{!disk D} (init : D -> res (Z * D)) (t : table) (d : D)
  : res (Z * table * D) :=
  let t := Table (parts t) 0 (sec t) in
  '(r, d) ← init d;
  if negb (r =? 0) then mret (-1, t, d)
  else
    '(o, d) ← disk_read 0 d;
    match o with
    | None => mret (-1, t, d)
    | Some b =>
        let t := Table (parts t) 0 b in
        m0 ← rd b 510; m1 ← rd b 511;
        if negb (m0 =? 0x55) || negb (m1 =? 0xAA) then mret (0, t, d)
        else t ← scan_entries t; mret (nparts t, t, d)
    end.

Definition part_count (t : table) : Z := nparts t.

Definition part_get (t : table) (idx : Z) : res (option part_t) :=
  if (idx <? 0) || (nparts t <=? idx) then mret None
  else p ← rd (parts t) idx; mret (Some p).

(** ** Specification *)

(** The entries of a boot record, empty ones left out. *)
Definition mbr_entry (b : list Z) (i : Z) : option part_t :=
  let e := 0x1BE + i * 16 in
  if at_ b (e + 4) =? 0 then None
  else Some (PartT (at_ b (e + 4))
                   (le_val (take 4 (drop (Z.to_nat (e + 8)) b)))
                   (le_val (take 4 (drop (Z.to_nat (e + 12)) b)))).

Definition mbr_parts (b : list Z) : list part_t :=
  if (at_ b 510 =? 0x55) && (at_ b 511 =? 0xAA) then omap (mbr_entry b) [0; 1; 2; 3] else [].

Definition table_ok (t : table) : Prop :=
  Z.of_nat (length (parts t)) = PART_MAX /\ 0 <= nparts t <= PART_MAX.

(** A boot record with one entry: type 0x0C, first block 2048, 4096 blocks. *)
Definition wit_mbr : list Z :=
  replicate 446 0 ++ [0; 0; 0; 0; 0x0C; 0; 0; 0; 0; 8; 0; 0; 0; 16; 0; 0] ++ replicate 48 0 ++ [0x55; 0xAA].

(** ** Lemmas *)

Lemma lor4 b0 b1 b2 b3 : is_byte b0 -> is_byte b1 -> is_byte b2 -> is_byte b3 ->
  Z.lor (Z.lor (Z.lor b0 (Z.shiftl b1 8)) (Z.shiftl b2 16)) (Z.shiftl b3 24) = le_val [b0; b1; b2; b3].
Proof.
  unfold is_byte. intros H0 H1 H2 H3. cbn [le_val].
  rewrite (lor_shift b0 b1 8) by lia. change (2 ^ 8) with 256.
  rewrite (lor_shift _ b2 16) by lia. change (2 ^ 16) with 65536.
  rewrite (lor_shift _ b3 24) by lia. change (2 ^ 24) with 16777216. lia.
Qed.

Lemma take4_at (b : list Z) o : 0 <= o -> o + 4 <= Z.of_nat (length b) ->
  take 4 (drop (Z.to_nat o) b) = [at_ b o; at_ b (o + 1); at_ b (o + 2); at_ b (o + 3)].
Proof.
  intros Ho Hl.
  destruct (rd_in b o) as (b0 & E0 & H0); [lia|]. destruct (rd_in b (o + 1)) as (b1 & E1 & H1); [lia|].
  destruct (rd_in b (o + 2)) as (b2 & E2 & H2); [lia|]. destruct (rd_in b (o + 3)) as (b3 & E3 & H3); [lia|].
  rewrite rd_at in E0, E1, E2, E3 by lia. injection E0 as ->. injection E1 as ->. injection E2 as ->. injection E3 as ->.
  rewrite (drop_S _ b0) by done. cbn [take]. f_equal.
  replace (S (Z.to_nat o)) with (Z.to_nat (o + 1)) by lia. rewrite (drop_S _ b1) by done. f_equal.
  replace (S (Z.to_nat (o + 1))) with (Z.to_nat (o + 2)) by lia. rewrite (drop_S _ b2) by done. f_equal.
  replace (S (Z.to_nat (o + 2))) with (Z.to_nat (o + 3)) by lia. rewrite (drop_S _ b3) by done. done.
Qed.

Lemma at_byte (b : list Z) i : Forall is_byte b -> is_byte (at_ b i).
Proof.
  intros H. unfold at_. destruct (nth_in_or_default (Z.to_nat i) b 0) as [Hin| ->]; [|done].
  rewrite Forall_forall in H. by apply H, list_elem_of_In.
Qed.

Lemma rd32_ok b o : Forall is_byte b -> 0 <= o -> o + 4 <= Z.of_nat (length b) ->
  rd32 b o = Ok (le_val (take 4 (drop (Z.to_nat o) b))).
Proof.
  intros Hb Ho Hl. unfold rd32. rewrite !rd_at by lia. cbn [mbind res_bind].
  rewrite take4_at, lor4 by (done || lia || by apply at_byte). done.
Qed.

Lemma scan_entries_ok t : table_ok t -> nparts t = 0 -> is_block (sec t) ->
  exists t', scan_entries t = Ok t' /\ table_ok t' /\ sec t' = sec t /\
    take (Z.to_nat (nparts t')) (parts t') = omap (mbr_entry (sec t)) [0; 1; 2; 3].
Proof.
  intros [Hl Hn] H0 [Hs Hb]. unfold scan_entries, SECTOR, PART_MAX in *.
  destruct (for_each_inv (fun i t' => Z.of_nat (length (parts t')) = 4 /\ 0 <= nparts t' <= i /\
      sec t' = sec t /\
      take (Z.to_nat (nparts t')) (parts t') = omap (mbr_entry (sec t)) (seqZ 0 i))
    (Z.to_nat 4) 0 (fun i t => let e := 0x1BE + i * 16 in
      ty ← rd (sec t) (e + 4);
      if ty =? 0 then mret t
      else l ← rd32 (sec t) (e + 8); n ← rd32 (sec t) (e + 12);
           ps ← wr (parts t) (nparts t) (PartT ty l n); mret (Table ps (nparts t + 1) (sec t))) t)
    as (t' & E & H1 & H2 & H3 & H4).
  - rewrite H0. split; [done|]. split; [lia|]. done.
  - intros i s Hi (I1 & I2 & I3 & I4). cbv zeta. rewrite I3.
    rewrite (seqZ_app 0 i 1), omap_app, Z.add_0_l by lia. change (seqZ i 1) with [i].
    rewrite rd_at by lia. cbn [mbind res_bind omap list_omap]. unfold mbr_entry at 2. cbv zeta.
    destruct (at_ (sec t) (0x1BE + i * 16 + 4) =? 0).
    + exists s. rewrite app_nil_r. split_and!; done || lia.
    + rewrite !rd32_ok by (done || lia). cbn [mbind res_bind]. rewrite wr_in by lia.
      eexists. split; [reflexivity|]. cbn [parts nparts sec]. rewrite length_insert.
      split; [done|]. split; [lia|]. split; [done|].
      replace (Z.to_nat (nparts s + 1)) with (S (Z.to_nat (nparts s))) by lia.
      erewrite take_S_r by (rewrite list_lookup_insert_eq by lia; done).
      by rewrite take_insert_ge, I4 by lia.
  - exists t'. split; [exact E|]. split; [split; [done|unfold PART_MAX; lia]|]. split; [done|]. exact H4.
Qed.

(** The fields of an entry are 32-bit numbers. *)
Definition part_ok (p : part_t) : Prop := 0 <= lba p < 2 ^ 32 /\ 0 <= sectors p < 2 ^ 32.

Lemma rd32_range b o v : Forall is_byte b -> rd32 b o = Ok v -> 0 <= v < 2 ^ 32.
Proof.
  intros Hb E. unfold rd32 in E. apply res_bind_inv in E as (b0 & E0 & E). apply res_bind_inv in E as (b1 & E1 & E).
  apply res_bind_inv in E as (b2 & E2 & E). apply res_bind_inv in E as (b3 & E3 & [= <-]).
  assert (forall i x, rd b i = Ok x -> is_byte x) as Hx.
  { intros i x [_ H]%rd_Ok. rewrite Forall_lookup in Hb. by eapply Hb. }
  apply Hx in E0, E1, E2, E3. rewrite lor4 by done. unfold is_byte in *. cbn [le_val]. lia.
Qed.

Lemma scan_parts t t' : Forall is_byte (sec t) -> scan_entries t = Ok t' -> Forall part_ok (parts t) -> Forall part_ok (parts t').
Proof.
  intros Hb E Hp. refine (proj2 (for_each_keeps (fun t => Forall is_byte (sec t) /\ Forall part_ok (parts t)) _ _ _ _ _ _ E (conj Hb Hp))).
  clear. intros j t t' E [Hb Hp]. cbv zeta in E. apply res_bind_inv in E as (ty & _ & E). destruct (ty =? 0); [by injection E as <-|].
  apply res_bind_inv in E as (l & El & E). apply res_bind_inv in E as (n & En & E). apply res_bind_inv in E as (ps & Ep & [= <-]).
  split; [exact Hb|]. cbn [parts]. apply wr_Ok in Ep as [_ ->]. apply Forall_insert; [done|]. split; cbn [lba sectors]; by eapply rd32_range.
Qed.

Lemma part_scan_ok D `{!disk D, !good_disk D} init t (d0 d : D) :
  table_ok t -> d_ok d -> 0 < d_blocks d -> init d0 = Ok (0, d) ->
  exists t' d', part_scan init t d0 = Ok (Z.of_nat (length (mbr_parts (d_at d 0))), t', d') /\
    table_ok t' /\ d_ok d' /\ d_blocks d' = d_blocks d /\ (Forall part_ok (parts t) -> Forall part_ok (parts t')) /\
    (forall i, part_get t' i = Ok (if 0 <=? i then mbr_parts (d_at d 0) !! Z.to_nat i else None)).
Proof.
  intros [Ht1 Ht2] Hd Hn Hi. unfold part_scan. rewrite Hi. cbn [mbind res_bind Z.eqb negb].
  destruct (d_read d 0 Hd) as (d' & -> & Hd' & Hbs & Hat); [lia|]. cbn [mbind res_bind].
  pose proof (d_is_block d 0 Hd ltac:(lia)) as Hb. pose proof Hb as [Hbl Hbb]. unfold SECTOR in Hbl.
  rewrite !rd_at by lia. cbn [mbind res_bind]. unfold mbr_parts.
  assert (forall t', table_ok t' -> forall ps, take (Z.to_nat (nparts t')) (parts t') = ps ->
    nparts t' = Z.of_nat (length ps) /\
    forall i, part_get t' i = Ok (if 0 <=? i then ps !! Z.to_nat i else None)) as Hget.
  { intros t' [H1 H2] ps <-. rewrite length_take. split; [unfold PART_MAX in *; lia|]. intros i. unfold part_get.
    destruct (Z.ltb_spec i 0), (Z.leb_spec 0 i); try lia; [done|]. cbn [orb].
    destruct (Z.leb_spec (nparts t') i).
    - rewrite lookup_ge_None_2; [done|]. rewrite length_take. lia.
    - rewrite lookup_take_lt by lia. destruct (rd_in (parts t') i) as (p & -> & ->); [unfold PART_MAX in *; lia|]. done. }
  destruct (at_ (d_at d 0) 510 =? 0x55), (at_ (d_at d 0) 511 =? 0xAA); cbn [negb orb andb parts].
  1: { destruct (scan_entries_ok (Table (parts t) 0 (d_at d 0))) as (t' & Escan & Ht' & _ & Hp); [split; [done|]|done|done|].
       { cbn. unfold PART_MAX. lia. }
       rewrite Escan. pose proof (scan_parts (Table (parts t) 0 (d_at d 0)) t' Hbb Escan) as Hf.
       destruct (Hget t' Ht' _ Hp) as [Hlen Hg]. cbn [mbind res_bind sec] in *. exists t', d'.
       rewrite Hlen. split_and!; done. }
  all: eexists (Table (parts t) 0 (d_at d 0)), d'; split; [reflexivity|]; (assert (table_ok (Table (parts t) 0 (d_at d 0))) as Hok
         by (split; [done|cbn; unfold PART_MAX; lia])); split; [done|]; split; [done|]; split; [done|]; split; [done|];
       apply (Hget _ Hok []); reflexivity.
Qed.

(** ** Properties *)

(** [part_scan] on a working disk reads block 0 and stores exactly the
    non-empty primary entries of the boot record, in order, with their 32-bit
    fields decoded little-endian; a block without the signature has none.
    Every access to the block and to the table is in range, [part_get] returns
    the stored entries and refuses every other index. *)
Theorem part_scan_parses D `{!disk D, !good_disk D} init t (d : D) :
  table_ok t -> d_ok d -> 0 < d_blocks d -> init d = Ok (0, d) ->
  exists t' d', part_scan init t d = Ok (Z.of_nat (length (mbr_parts (d_at d 0))), t', d') /\
    table_ok t' /\ d_ok d' /\
    (forall i, part_get t' i = Ok (if 0 <=? i then mbr_parts (d_at d 0) !! Z.to_nat i else None)).
Proof.
  intros Ht Hd Hn Hi. destruct (part_scan_ok D init t d d Ht Hd Hn Hi) as (t' & d' & E & H1 & H2 & _ & _ & H3). by exists t', d'.
Qed.

(** ** Witnesses *)

Lemma part_scan_parses_witness : exists t' d',
  part_scan (disk0 := list_disk) (fun d => Ok (0, d)) (Table (replicate 4 (PartT 0 0 0)) 0 []) [wit_mbr]
    = Ok (1, t', d') /\ part_get t' 0 = Ok (Some (PartT 0x0C 2048 4096)).
Proof.
  destruct (part_scan_parses (list (list Z)) (disk0 := list_disk) (fun d => Ok (0, d))
    (Table (replicate 4 (PartT 0 0 0)) 0 []) [wit_mbr]) as (t' & d' & E & _ & _ & Hg).
  - split; cbn; unfold PART_MAX; lia.
  - apply Forall_singleton. split; [reflexivity|].
    apply (bool_decide_unpack _). vm_compute. exact I.
  - reflexivity.
  - reflexivity.
  - exists t', d'. split; [exact E|]. rewrite (Hg 0). reflexivity.
Defined.
