(* ===== verification/Ide.v ===== *)
(** * The disk driver ([drivers/ide/ide.c])

    ATA PIO with 48-bit block addresses on the primary master.  The ports are
    an interface ([ports], the functions of [io.h]).  The class [ata_drive]
    states the ATA command protocol of the drive behind them, which says
    nothing about how long a drive is busy.  That the drive is ready before the
    driver's counters run out, and ready when the flush is sent behind the last
    word of a block, is the class [prompt_drive]: ATA allows such a drive, and
    the driver relies on one.  Over it the driver keeps the interface
    [good_disk]; without it the driver may time out. *)
From S2P Require Import Prelude Disk.

(** ** Ports *)
Class ports (D : Type) := Ports {
  inb : Z -> D -> Z * D;
  outb : Z -> Z -> D -> D;
  inw : Z -> D -> Z * D;
  outw : Z -> Z -> D -> D
}.

(** ** Constants and state *)
Definition BASE : Z := 0x1F0.
Definition CTL : Z := 0x3F6.
Definition REG_DATA : Z := 0.
Definition REG_COUNT : Z := 2.
Definition REG_LBA0 : Z := 3.
Definition REG_LBA1 : Z := 4.
Definition REG_LBA2 : Z := 5.
Definition REG_DRIVE : Z := 6.
Definition REG_CMD : Z := 7.
Definition ST_BSY : Z := 0x80.
Definition ST_DRQ : Z := 0x08.
Definition ST_ERR : Z := 0x01.
Definition CMD_IDENTIFY : Z := 0xEC.
Definition CMD_READ_EXT : Z := 0x24.
Definition CMD_WRITE_EXT : Z := 0x34.
Definition CMD_FLUSH_EXT : Z := 0xEA.
Definition TIMEOUT : Z := 100000.

(** The driver's [total] and [present], and the hardware. *)
Record ide (D : Type) := Ide { total : Z; present : bool; dev : D }.
Arguments Ide {D}. Arguments total {D}. Arguments present {D}. Arguments dev {D}.

(** ** Operations *)
Section driver.
Context {D : Type} `{!ports D}.

Definition delay400 (d : D) : D :=
  snd (inb CTL (snd (inb CTL (snd (inb CTL (snd (inb CTL d))))))).

(** [while (test(inb(status)) && timeout--);]: the final [timeout]. *)
Fixpoint wait_loop (test : Z -> bool) (timeout : nat) (d : D) : Z * D :=
  let '(v, d) := inb (BASE + REG_CMD) d in
  match timeout with
  | O => if test v then (-1, d) else (0, d)
  | S n => if test v then wait_loop test n d else (Z.of_nat timeout, d)
  end.

Definition wait_clear (mask timeout : Z) (d : D) : Z * D :=
  let '(t, d) := wait_loop (fun v => negb (Z.land v mask =? 0)) (Z.to_nat timeout) d in
  (if 0 <? t then 0 else -1, d).

Definition wait_set (mask timeout : Z) (d : D) : Z * D :=
  let '(t, d) := wait_loop (fun v => Z.land v mask =? 0) (Z.to_nat timeout) d in
  (if 0 <? t then 0 else -1, d).

(** [for (i = 0; i < n; i++) w[i] = inw(data)]. *)
Fixpoint read_words (n : nat) (d : D) : list Z * D :=
  match n with
  | O => ([], d)
  | S n' =>
      let '(w, d) := inw (BASE + REG_DATA) d in
      let '(ws, d) := read_words n' d in (w :: ws, d)
  end.

Definition write_words (ws : list Z) (d : D) : D :=
  foldl (fun d w => outw (BASE + REG_DATA) w d) d ws.

Definition ide_init (s : ide D) : res (Z * ide D) :=
  let fail d := mret (-1, Ide (total s) (present s) d) in
  let '(v, d) := inb (BASE + REG_CMD) (dev s) in
  if v =? 0xFF then fail d
  else
    let d := delay400 (outb (BASE + REG_DRIVE) 0xE0 d) in
    let d := delay400 (outb (BASE + REG_CMD) CMD_IDENTIFY d) in
    let '(v, d) := inb (BASE + REG_CMD) d in
    if v =? 0 then fail d
    else
      let '(r, d) := wait_clear ST_BSY TIMEOUT d in
      if negb (r =? 0) then fail d
      else
        let '(v, d) := inb (BASE + REG_CMD) d in
        if negb (Z.land v ST_ERR =? 0) then fail d
        else
          let '(r, d) := wait_set ST_DRQ TIMEOUT d in
          if negb (r =? 0) then fail d
          else
            let '(id, d) := read_words 256 d in
            w83 ← rd id 83;
            if Z.land w83 (Z.shiftl 1 10) =? 0 then fail d
            else
              w100 ← rd id 100; w101 ← rd id 101; w102 ← rd id 102; w103 ← rd id 103;
              mret (0, Ide (Z.lor (Z.lor (Z.lor w100 (Z.shiftl w101 16)) (Z.shiftl w102 32))
                                  (Z.shiftl w103 48)) true d).

(** The registers of a command: the high bytes first. *)
Definition select_block (lba cmd : Z) (d : D) : D :=
  let d := outb (BASE + REG_DRIVE) 0xE0 d in
  let d := outb (BASE + REG_COUNT) 0 d in
  let d := outb (BASE + REG_LBA0) (Z.land (Z.shiftr lba 24) 0xFF) d in
  let d := outb (BASE + REG_LBA1) (Z.land (Z.shiftr lba 32) 0xFF) d in
  let d := outb (BASE + REG_LBA2) (Z.land (Z.shiftr lba 40) 0xFF) d in
  let d := outb (BASE + REG_COUNT) 1 d in
  let d := outb (BASE + REG_LBA0) (Z.land lba 0xFF) d in
  let d := outb (BASE + REG_LBA1) (Z.land (Z.shiftr lba 8) 0xFF) d in
  let d := outb (BASE + REG_LBA2) (Z.land (Z.shiftr lba 16) 0xFF) d in
  outb (BASE + REG_CMD) cmd d.

(** [buf] is returned as bytes, [None] when it was not written. *)
Definition ide_read (lba : Z) (s : ide D) : res (option (list Z) * ide D) :=
  let fail d := mret (None, Ide (total s) (present s) d) in
  if negb (present s) || (total s <=? lba) then mret (None, s)
  else
    let '(r, d) := wait_clear ST_BSY TIMEOUT (dev s) in
    if negb (r =? 0) then fail d
    else
      let d := select_block lba CMD_READ_EXT d in
      let '(r, d) := wait_clear ST_BSY TIMEOUT d in
      if negb (r =? 0) then fail d
      else
        let '(r, d) := wait_set ST_DRQ TIMEOUT d in
        if negb (r =? 0) then fail d
        else
          let '(ws, d) := read_words 256 d in
          mret (Some (words_bytes ws), Ide (total s) (present s) (delay400 d)).

Definition ide_write (lba : Z) (buf : list Z) (s : ide D) : res (Z * ide D) :=
  let fail d := mret (-1, Ide (total s) (present s) d) in
  if negb (present s) || (total s <=? lba) then mret (-1, s)
  else
    let '(r, d) := wait_clear ST_BSY TIMEOUT (dev s) in
    if negb (r =? 0) then fail d
    else
      let d := select_block lba CMD_WRITE_EXT d in
      let '(r, d) := wait_clear ST_BSY TIMEOUT d in
      if negb (r =? 0) then fail d
      else
        let '(r, d) := wait_set ST_DRQ TIMEOUT d in
        if negb (r =? 0) then fail d
        else
          let d := write_words (take 256 (bytes_words buf)) d in
          let d := outb (BASE + REG_CMD) CMD_FLUSH_EXT d in
          let '(r, d) := wait_clear ST_BSY TIMEOUT d in
          if negb (r =? 0) then fail d
          else mret (0, Ide (total s) (present s) (delay400 d)).

Definition ide_sectors (s : ide D) : Z := total s.

(** The driver as a disk. *)
#[global] Instance ide_disk : disk (ide D) := {|
  disk_read := ide_read; disk_write := ide_write |}.

End driver.

(** ** The drive: what the ATA command set promises *)

(** What the data register is for. *)
Inductive phase := Idle | DataIn (ws : list Z) | DataOut (lba : Z) (ws : list Z).

(** The count and address registers are two bytes deep: previous, current. *)
Record taskfile := Taskfile { tf_count : Z * Z; tf_lba0 : Z * Z; tf_lba1 : Z * Z; tf_lba2 : Z * Z }.

Definition shift_in (v : Z) (r : Z * Z) : Z * Z := (r.2, v).

Definition tf_out (reg v : Z) (t : taskfile) : taskfile :=
  if reg =? REG_COUNT then Taskfile (shift_in v (tf_count t)) (tf_lba0 t) (tf_lba1 t) (tf_lba2 t)
  else if reg =? REG_LBA0 then Taskfile (tf_count t) (shift_in v (tf_lba0 t)) (tf_lba1 t) (tf_lba2 t)
  else if reg =? REG_LBA1 then Taskfile (tf_count t) (tf_lba0 t) (shift_in v (tf_lba1 t)) (tf_lba2 t)
  else if reg =? REG_LBA2 then Taskfile (tf_count t) (tf_lba0 t) (tf_lba1 t) (shift_in v (tf_lba2 t))
  else t.

(** The 48-bit address and the 16-bit count of a command. *)
Definition tf_addr (t : taskfile) : Z :=
  le_val [(tf_lba0 t).2; (tf_lba1 t).2; (tf_lba2 t).2; (tf_lba0 t).1; (tf_lba1 t).1; (tf_lba2 t).1].
Definition tf_blocks (t : taskfile) : Z := le_val [(tf_count t).2; (tf_count t).1].

(** The visible state of a drive: its blocks of 256 words, what its data
    register does, its registers, and how many more status reads show it
    busy. *)
Record view := View {
  v_blocks : Z; v_at : Z -> list Z; v_phase : phase; v_tf : taskfile; v_busy : nat
}.

Definition busy_in (v : view) (n : nat) : view := View (v_blocks v) (v_at v) (v_phase v) (v_tf v) n.
Definition phase_in (v : view) (p : phase) : view := View (v_blocks v) (v_at v) p (v_tf v) (v_busy v).

Definition is_words (ws : list Z) : Prop := length ws = 256%nat /\ Forall (fun w => 0 <= w < 65536) ws.

(** The words a drive identifies itself with: 48-bit addresses, and the
    number of its blocks. *)
Definition identity (blocks : Z) (ws : list Z) : Prop := is_words ws /\
  exists f w0 w1 w2 w3, ws !! 83%nat = Some f /\ Z.testbit f 10 = true /\
    ws !! 100%nat = Some w0 /\ ws !! 101%nat = Some w1 /\ ws !! 102%nat = Some w2 /\ ws !! 103%nat = Some w3 /\
    blocks = w0 + 2 ^ 16 * w1 + 2 ^ 32 * w2 + 2 ^ 48 * w3.

Class ata_view (D : Type) := AtaView { drive_ok : D -> Prop; drive_view : D -> view }.

(** The drive works and looks like [v]. *)
Definition shows {D} `{!ata_view D} (d : D) (v : view) : Prop := drive_ok d /\ drive_view d = v.

Class ata_drive (D : Type) `{!ports D, !ata_view D} := AtaDrive {
  drive_words d v i : shows d v -> 0 <= i < v_blocks v -> is_words (v_at v i);
  drive_size d v : shows d v -> v_blocks v <= 2 ^ 48;
  (** the alternate status register can be read at any time *)
  drive_alt d v : shows d v -> shows (snd (inb CTL d)) v;
  (** status: busy for a while, then the data request of the phase *)
  drive_status d v : shows d v ->
    let '(s, d') := inb (BASE + REG_CMD) d in
    shows d' (busy_in v (pred (v_busy v))) /\
    (Z.land s ST_BSY = 0 <-> v_busy v = O) /\
    (v_busy v = O -> (Z.land s ST_DRQ = 0 <-> v_phase v = Idle) /\ Z.land s ST_ERR = 0);
  (** writing a register of an idle drive *)
  drive_reg d v reg b : shows d v -> v_busy v = O -> v_phase v = Idle -> 2 <= reg <= 6 -> is_byte b ->
    shows (outb (BASE + reg) b d) (View (v_blocks v) (v_at v) Idle (tf_out reg b (v_tf v)) O);
  (** the commands, to a drive that is ready: it is busy for some time *)
  drive_ident d v : shows d v -> v_busy v = O -> v_phase v = Idle ->
    exists ws tf n, identity (v_blocks v) ws /\
      shows (outb (BASE + REG_CMD) CMD_IDENTIFY d) (View (v_blocks v) (v_at v) (DataIn ws) tf n);
  drive_read d v : shows d v -> v_busy v = O -> v_phase v = Idle ->
    tf_blocks (v_tf v) = 1 -> tf_addr (v_tf v) < v_blocks v ->
    exists n, shows (outb (BASE + REG_CMD) CMD_READ_EXT d)
      (View (v_blocks v) (v_at v) (DataIn (v_at v (tf_addr (v_tf v)))) (v_tf v) n);
  drive_write d v : shows d v -> v_busy v = O -> v_phase v = Idle ->
    tf_blocks (v_tf v) = 1 -> tf_addr (v_tf v) < v_blocks v ->
    exists n, shows (outb (BASE + REG_CMD) CMD_WRITE_EXT d)
      (View (v_blocks v) (v_at v) (DataOut (tf_addr (v_tf v)) []) (v_tf v) n);
  drive_flush d v : shows d v -> v_busy v = O -> v_phase v = Idle ->
    exists n, shows (outb (BASE + REG_CMD) CMD_FLUSH_EXT d) (busy_in v n);
  (** the data register *)
  drive_in d v w ws : shows d v -> v_busy v = O -> v_phase v = DataIn (w :: ws) ->
    fst (inw (BASE + REG_DATA) d) = w /\
    shows (snd (inw (BASE + REG_DATA) d))
      (phase_in v (match ws with [] => Idle | _ => DataIn ws end));
  drive_out d v a ws w : shows d v -> v_busy v = O -> v_phase v = DataOut a ws -> 0 <= w < 65536 ->
    (length ws < 255)%nat ->
    shows (outw (BASE + REG_DATA) w d) (phase_in v (DataOut a (ws ++ [w])));
  drive_last d v a ws w : shows d v -> v_busy v = O -> v_phase v = DataOut a ws -> 0 <= w < 65536 ->
    length ws = 255%nat ->
    exists n, shows (outw (BASE + REG_DATA) w d)
      (View (v_blocks v) (fun i => if decide (i = a) then ws ++ [w] else v_at v i) Idle (v_tf v) n)
}.

(** A drive that is ready again before the counters of the driver run out, and
    ready at once behind the last word of a block. *)
Class prompt_drive (D : Type) `{!ports D, !ata_view D} := PromptDrive {
  prompt_ready d v cmd : shows d v -> v_busy v = O -> v_phase v = Idle -> cmd ∈ [CMD_IDENTIFY; CMD_READ_EXT; CMD_WRITE_EXT; CMD_FLUSH_EXT] ->
    (v_busy (drive_view (outb (BASE + REG_CMD) cmd d)) < Z.to_nat TIMEOUT)%nat;
  prompt_last d v a ws w : shows d v -> v_busy v = O -> v_phase v = DataOut a ws -> length ws = 255%nat ->
    v_busy (drive_view (outw (BASE + REG_DATA) w d)) = O
}.

(** A command that the drive takes longer for. *)
Definition slow {D} `{!ports D, !ata_view D} (cmd : Z) : Prop := forall (d : D) v, shows d v -> v_busy v = O -> v_phase v = Idle ->
  (Z.to_nat TIMEOUT <= v_busy (drive_view (outb (BASE + REG_CMD) cmd d)))%nat.

(** The state of a driver that has found a drive; the drive can be busy. *)
Definition ide_found {D} `{!ata_view D} (s : ide D) : Prop :=
  present s = true /\ total s = v_blocks (drive_view (dev s)) /\ drive_ok (dev s) /\ v_phase (drive_view (dev s)) = Idle.

(** The driver still knows the same drive, and its blocks are as they were. *)
Definition same_blocks {D} `{!ata_view D} (s s' : ide D) : Prop :=
  present s' = present s /\ total s' = total s /\ forall i, v_at (drive_view (dev s')) i = v_at (drive_view (dev s)) i.

(** The state between two commands: the drive is ready in time. *)
Definition ide_good {D} `{!ata_view D} (s : ide D) : Prop :=
  present s = true /\ total s = v_blocks (drive_view (dev s)) /\ drive_ok (dev s) /\
  v_phase (drive_view (dev s)) = Idle /\ (v_busy (drive_view (dev s)) < Z.to_nat TIMEOUT)%nat.

(** The nine register writes before the command. *)
Definition selected (lba : Z) : taskfile :=
  Taskfile (0, 1) (Z.land (Z.shiftr lba 24) 0xFF, Z.land lba 0xFF)
    (Z.land (Z.shiftr lba 32) 0xFF, Z.land (Z.shiftr lba 8) 0xFF)
    (Z.land (Z.shiftr lba 40) 0xFF, Z.land (Z.shiftr lba 16) 0xFF).

(** A simulated drive: its state is its view. *)
Definition sim_status (v : view) : Z :=
  if (v_busy v =? 0)%nat then match v_phase v with Idle => 0x40 | _ => 0x48 end else 0x80.

(** It is busy for [late] status reads after a command. *)
Definition sim_identity (blocks : Z) : list Z :=
  replicate 83 0 ++ [0x400] ++ replicate 16 0 ++
  [blocks mod 2 ^ 16; blocks / 2 ^ 16 mod 2 ^ 16; blocks / 2 ^ 32 mod 2 ^ 16; blocks / 2 ^ 48] ++ replicate 152 0.

Definition sim_command (late : nat) (cmd : Z) (v : view) : view :=
  if cmd =? CMD_READ_EXT then phase_in (busy_in v late) (DataIn (v_at v (tf_addr (v_tf v))))
  else if cmd =? CMD_WRITE_EXT then phase_in (busy_in v late) (DataOut (tf_addr (v_tf v)) [])
  else if cmd =? CMD_IDENTIFY then phase_in (busy_in v late) (DataIn (sim_identity (v_blocks v)))
  else busy_in v late.

Definition sim_ports (late : nat) : ports view := {|
  inb p v := if p =? BASE + REG_CMD then (sim_status v, busy_in v (pred (v_busy v))) else (0, v);
  outb p b v :=
    if p =? BASE + REG_CMD then sim_command late b v
    else View (v_blocks v) (v_at v) (v_phase v) (tf_out (p - BASE) b (v_tf v)) (v_busy v);
  inw p v := match v_phase v with
             | DataIn (w :: ws) => (w, phase_in v (match ws with [] => Idle | _ => DataIn ws end))
             | _ => (0, v)
             end;
  outw p w v := match v_phase v with
                | DataOut a ws =>
                    if (length ws =? 255)%nat
                    then View (v_blocks v) (fun i => if decide (i = a) then ws ++ [w] else v_at v i) Idle (v_tf v) 0
                    else phase_in v (DataOut a (ws ++ [w]))
                | _ => v
                end |}.

Definition sim_ok (v : view) : Prop :=
  (forall i, 0 <= i < v_blocks v -> is_words (v_at v i)) /\ 0 <= v_blocks v <= 2 ^ 48 /\
  match v_phase v with DataOut _ ws => Forall (fun w => 0 <= w < 65536) ws | _ => True end.

Definition sim_view : ata_view view := {| drive_ok := sim_ok; drive_view := id |}.

(** A driver over a simulated drive of eight blocks of zeros. *)
Definition wit_ide : ide view :=
  Ide 8 true (View 8 (fun _ => replicate 256 0) Idle (Taskfile (0, 0) (0, 0) (0, 0) (0, 0)) 0).

(** ** Lemmas *)

Section laws.
Context {D : Type} `{!ports D, !ata_view D, !ata_drive D}.
Implicit Types (d : D) (v : view) (s : ide D).

Lemma delay_ok d v : shows d v -> shows (delay400 d) v.
Proof. intros. unfold delay400. by repeat apply drive_alt. Qed.

Lemma wait_clear_loop d v n : shows d v -> (v_busy v < n)%nat ->
  exists t d', wait_loop (fun x => negb (Z.land x ST_BSY =? 0)) n d = (t, d') /\ 0 < t /\ shows d' (busy_in v 0).
Proof.
  revert d v. induction n as [|n IH]; intros d v Hd Hn; [lia|]. cbn [wait_loop].
  pose proof (drive_status d v Hd) as Hs. destruct (inb (BASE + REG_CMD) d) as [s d'].
  destruct Hs as (Hd' & Hb & _). destruct (Z.eqb_spec (Z.land s ST_BSY) 0) as [E|E]; cbn [negb].
  - apply Hb in E. exists (Z.of_nat (S n)), d'. split; [done|]. split; [lia|]. by rewrite E in Hd'.
  - assert (v_busy v <> O) by tauto.
    destruct (IH d' (busy_in v (pred (v_busy v))) Hd') as (t & d2 & -> & Ht & Hd2); [cbn [busy_in v_busy]; lia|].
    by exists t, d2.
Qed.

Lemma wait_clear_ok d v : shows d v -> (v_busy v < Z.to_nat TIMEOUT)%nat ->
  exists d', wait_clear ST_BSY TIMEOUT d = (0, d') /\ shows d' (busy_in v 0).
Proof.
  intros Hd Hn. unfold wait_clear.
  destruct (wait_clear_loop d v _ Hd Hn) as (t & d' & -> & Ht & Hd'). exists d'.
  by rewrite (proj2 (Z.ltb_lt 0 t) Ht).
Qed.

(** A drive that stays busy: the counter runs out. *)
Lemma wait_clear_late d v n : shows d v -> (n <= v_busy v)%nat ->
  exists t d', wait_loop (fun x => negb (Z.land x ST_BSY =? 0)) n d = (t, d') /\ t <= 0 /\ shows d' (busy_in v (v_busy v - S n)).
Proof.
  revert d v. induction n as [|n IH]; intros d v Hd Hn; cbn [wait_loop];
    pose proof (drive_status d v Hd) as Hs; destruct (inb (BASE + REG_CMD) d) as [s d']; destruct Hs as (Hd' & Hb & _).
  - replace (v_busy v - 1)%nat with (pred (v_busy v)) by lia. destruct (negb _); [exists (-1), d'|exists 0, d']; (split; [done|]; split; [lia|done]).
  - destruct (Z.eqb_spec (Z.land s ST_BSY) 0) as [E|E]; cbn [negb]; [apply Hb in E; lia|].
    destruct (IH d' (busy_in v (pred (v_busy v))) Hd') as (t & d2 & -> & Ht & Hd2); [cbn [busy_in v_busy]; lia|].
    exists t, d2. split; [done|]. split; [done|]. cbn [busy_in v_busy] in Hd2.
    by replace (v_busy v - S (S n))%nat with (pred (v_busy v) - S n)%nat by lia.
Qed.

Lemma wait_clear_fails d v : shows d v -> (Z.to_nat TIMEOUT <= v_busy v)%nat ->
  exists d', wait_clear ST_BSY TIMEOUT d = (-1, d') /\ shows d' (busy_in v (v_busy v - S (Z.to_nat TIMEOUT))).
Proof.
  intros Hd Hn. unfold wait_clear. destruct (wait_clear_late d v _ Hd Hn) as (t & d' & -> & Ht & Hd'). exists d'.
  by rewrite (proj2 (Z.ltb_ge 0 t) Ht).
Qed.

Lemma wait_set_ok d v : shows d v -> v_busy v = O -> v_phase v <> Idle ->
  exists d', wait_set ST_DRQ TIMEOUT d = (0, d') /\ shows d' v.
Proof.
  intros Hd Hb Hp. unfold wait_set.
  assert (exists n, Z.to_nat TIMEOUT = S n) as [n ->] by (exists (pred (Z.to_nat TIMEOUT)); unfold TIMEOUT; lia).
  cbn [wait_loop]. pose proof (drive_status d v Hd) as Hs. destruct (inb (BASE + REG_CMD) d) as [s d'].
  destruct Hs as (Hd' & _ & Hq). destruct (Hq Hb) as [Hq' _].
  destruct (Z.eqb_spec (Z.land s ST_DRQ) 0) as [E|E]; [by apply Hq' in E|].
  exists d'. split; [by rewrite (proj2 (Z.ltb_lt 0 (Z.of_nat (S n)))) by lia|].
  destruct v; cbn in *. by subst.
Qed.

Lemma reg_byte x k : 0 <= k -> is_byte (Z.land (Z.shiftr x k) 0xFF).
Proof. intros. change 0xFF with (Z.ones 8). rewrite Z.land_ones by lia. unfold is_byte. zdm. Qed.

Lemma addr_bytes lba : 0 <= lba < 2 ^ 48 ->
  le_val [Z.land lba 0xFF; Z.land (Z.shiftr lba 8) 0xFF; Z.land (Z.shiftr lba 16) 0xFF;
          Z.land (Z.shiftr lba 24) 0xFF; Z.land (Z.shiftr lba 32) 0xFF; Z.land (Z.shiftr lba 40) 0xFF] = lba.
Proof.
  intros Hl. change (2 ^ 48) with 281474976710656 in Hl.
  rewrite <- (Z.shiftr_0_r lba) at 1. rewrite !byte_at by lia. change (2 ^ 0) with 1. rewrite Z.div_1_r.
  change (2 ^ 8) with 256. change (2 ^ 16) with (256 * 256). change (2 ^ 24) with (256 * 256 * 256).
  change (2 ^ 32) with (256 * 256 * 256 * 256). change (2 ^ 40) with (256 * 256 * 256 * 256 * 256).
  rewrite <- !Z.div_div by lia. change [lba mod 256; _; _; _; _; _] with (le_bytes 6 lba).
  rewrite le_val_bytes. apply Z.mod_small. done.
Qed.

Lemma reg_step d n at_f tf reg b : shows d (View n at_f Idle tf O) -> 2 <= reg <= 6 -> is_byte b ->
  shows (outb (BASE + reg) b d) (View n at_f Idle (tf_out reg b tf) O).
Proof. intros Hd Hr Hb. exact (drive_reg d (View n at_f Idle tf O) reg b Hd eq_refl eq_refl Hr Hb). Qed.

Lemma select_block_ok d v lba cmd : shows d v -> v_busy v = O -> v_phase v = Idle -> 0 <= lba < 2 ^ 48 ->
  exists d', select_block lba cmd d = outb (BASE + REG_CMD) cmd d' /\
    shows d' (View (v_blocks v) (v_at v) Idle (selected lba) O) /\
    tf_addr (selected lba) = lba /\ tf_blocks (selected lba) = 1.
Proof.
  intros Hd Hb Hp Hl. eexists. split; [reflexivity|].
  assert (is_byte (Z.land lba 0xFF)) as H0 by (rewrite <- (Z.shiftr_0_r lba); by apply reg_byte).
  split; [|split; [by apply addr_bytes|done]].
  assert (shows d (View (v_blocks v) (v_at v) Idle (v_tf v) O)) as H by (destruct v; cbn in *; by subst).
  apply (reg_step _ _ _ _ REG_DRIVE 0xE0) in H; [|done|by split].
  apply (reg_step _ _ _ _ REG_COUNT 0) in H; [|done|by split].
  apply (reg_step _ _ _ _ REG_LBA0 (Z.land (Z.shiftr lba 24) 0xFF)) in H; [|done|by apply reg_byte].
  apply (reg_step _ _ _ _ REG_LBA1 (Z.land (Z.shiftr lba 32) 0xFF)) in H; [|done|by apply reg_byte].
  apply (reg_step _ _ _ _ REG_LBA2 (Z.land (Z.shiftr lba 40) 0xFF)) in H; [|done|by apply reg_byte].
  apply (reg_step _ _ _ _ REG_COUNT 1) in H; [|done|by split].
  apply (reg_step _ _ _ _ REG_LBA0 (Z.land lba 0xFF)) in H; [|done|done].
  apply (reg_step _ _ _ _ REG_LBA1 (Z.land (Z.shiftr lba 8) 0xFF)) in H; [|done|by apply reg_byte].
  apply (reg_step _ _ _ _ REG_LBA2 (Z.land (Z.shiftr lba 16) 0xFF)) in H; [|done|by apply reg_byte].
  exact H.
Qed.

Lemma read_words_ok d n at_f tf ws : shows d (View n at_f (DataIn ws) tf O) -> ws <> [] ->
  exists d', read_words (length ws) d = (ws, d') /\ shows d' (View n at_f Idle tf O).
Proof.
  intros Hd Hn. revert d Hd. induction ws as [|w ws IH]; intros d Hd; [done|]. cbn [length read_words].
  destruct (drive_in d _ w ws Hd eq_refl eq_refl) as [Hw Hd2].
  destruct (inw (BASE + REG_DATA) d) as [w' d2]. cbn [fst snd] in *. subst w'.
  destruct ws as [|w2 ws]; [by exists d2|].
  destruct (IH ltac:(done) d2 Hd2) as (d' & -> & Hd'). by exists d'.
Qed.

(** *** Time-outs *)

Lemma ide_busy_fails s lba b : ide_found s -> 0 <= lba < total s -> (Z.to_nat TIMEOUT <= v_busy (drive_view (dev s)))%nat ->
  exists s', ide_read lba s = Ok (None, s') /\ ide_write lba b s = Ok (-1, s') /\ ide_found s' /\ same_blocks s s'.
Proof.
  intros (Hpr & Htot & Hok & Hph) Hl Hb. unfold ide_read, ide_write. rewrite Hpr. destruct (Z.leb_spec (total s) lba); [lia|]. cbn [negb orb].
  destruct (wait_clear_fails (dev s) _ (conj Hok eq_refl) Hb) as (d & -> & Hd & Hv). cbn [negb Z.eqb].
  eexists. split; [reflexivity|]. split; [done|]. unfold ide_found, same_blocks. cbn [present total dev]. rewrite Hv. by rewrite Hpr.
Qed.

(** A command that the drive has not taken in time moves no data. *)
Lemma ide_slow_fails s lba b : ide_good s -> 0 <= lba < total s ->
  (slow (D := D) CMD_READ_EXT -> exists s', ide_read lba s = Ok (None, s') /\ same_blocks s s') /\
  (slow (D := D) CMD_WRITE_EXT -> exists s', ide_write lba b s = Ok (-1, s') /\ same_blocks s s').
Proof.
  intros (Hpr & Htot & Hok & Hph & Hbu) Hl. assert (shows (dev s) (drive_view (dev s))) as Hd by done. pose proof (drive_size _ _ Hd) as Hsz.
  unfold ide_read, ide_write. rewrite Hpr. destruct (Z.leb_spec (total s) lba); [lia|]. cbn [negb orb].
  destruct (wait_clear_ok (dev s) _ Hd Hbu) as (d1 & -> & Hd1). cbn [negb Z.eqb].
  split; intros Hslow.
  - destruct (select_block_ok d1 _ lba CMD_READ_EXT Hd1 eq_refl Hph) as (d2 & -> & Hd2 & Ha & Hc); [lia|]. cbn [busy_in v_blocks v_at] in Hd2.
    destruct (drive_read d2 _ Hd2 eq_refl eq_refl Hc) as (n & Hd3); [cbn [v_tf v_blocks]; rewrite Ha; lia|].
    pose proof (Hslow _ _ Hd2 eq_refl eq_refl) as Hn. rewrite (proj2 Hd3) in Hn.
    destruct (wait_clear_fails _ _ Hd3 Hn) as (d4 & -> & _ & Hv). cbn [negb Z.eqb].
    eexists. split; [reflexivity|]. unfold same_blocks. cbn [present total dev]. by rewrite Hv.
  - destruct (select_block_ok d1 _ lba CMD_WRITE_EXT Hd1 eq_refl Hph) as (d2 & -> & Hd2 & Ha & Hc); [lia|]. cbn [busy_in v_blocks v_at] in Hd2.
    destruct (drive_write d2 _ Hd2 eq_refl eq_refl Hc) as (n & Hd3); [cbn [v_tf v_blocks]; rewrite Ha; lia|].
    pose proof (Hslow _ _ Hd2 eq_refl eq_refl) as Hn. rewrite (proj2 Hd3) in Hn.
    destruct (wait_clear_fails _ _ Hd3 Hn) as (d4 & -> & _ & Hv). cbn [negb Z.eqb].
    eexists. split; [reflexivity|]. unfold same_blocks. cbn [present total dev]. by rewrite Hv.
Qed.

(** *** A prompt drive *)

Context `{!prompt_drive D}.

Lemma prompt_in d v cmd v' : shows d v -> v_busy v = O -> v_phase v = Idle -> cmd ∈ [CMD_IDENTIFY; CMD_READ_EXT; CMD_WRITE_EXT; CMD_FLUSH_EXT] ->
  shows (outb (BASE + REG_CMD) cmd d) v' -> (v_busy v' < Z.to_nat TIMEOUT)%nat.
Proof. intros Hd Hb Hp Hc [_ <-]. by apply (prompt_ready d v). Qed.

Lemma write_words_ok d n at_f tf a acc ws : shows d (View n at_f (DataOut a acc) tf O) ->
  Forall (fun w => 0 <= w < 65536) ws -> ws <> [] -> (length acc + length ws = 256)%nat ->
  shows (write_words ws d) (View n (fun i => if decide (i = a) then acc ++ ws else at_f i) Idle tf O).
Proof.
  intros Hd Hw. revert d acc Hd. induction Hw as [|w ws Hw _ IH]; intros d acc Hd Hn Hl; [done|].
  cbn [length] in Hl. unfold write_words. cbn [foldl].
  destruct ws as [|w2 ws].
  - assert (length acc = 255%nat) as Ha by (cbn in Hl; lia). destruct (drive_last d _ a acc w Hd eq_refl eq_refl Hw Ha) as (k & Hk).
    pose proof (prompt_last d _ a acc w Hd eq_refl eq_refl Ha) as H0. rewrite (proj2 Hk) in H0. cbn [v_busy] in H0. by rewrite H0 in Hk.
  - pose proof (drive_out d _ a acc w Hd eq_refl eq_refl Hw ltac:(cbn in Hl; lia)) as Hd2.
    assert (length (acc ++ [w]) + length (w2 :: ws) = 256)%nat as Hl2 by (rewrite length_app; cbn in *; lia).
    pose proof (IH _ (acc ++ [w]) Hd2 ltac:(done) Hl2) as Hk. rewrite <- app_assoc in Hk. exact Hk.
Qed.

Lemma ide_read_ok s lba : ide_good s -> 0 <= lba < total s ->
  exists s', ide_read lba s = Ok (Some (words_bytes (v_at (drive_view (dev s)) lba)), s') /\
    ide_good s' /\ total s' = total s /\ v_at (drive_view (dev s')) = v_at (drive_view (dev s)).
Proof.
  intros (Hpr & Htot & Hok & Hph & Hbu) Hl. set (v := drive_view (dev s)) in *.
  assert (shows (dev s) v) as Hd by done. pose proof (drive_size _ _ Hd) as Hsz.
  unfold ide_read. rewrite Hpr. destruct (Z.leb_spec (total s) lba); [lia|]. cbn [negb orb].
  destruct (wait_clear_ok (dev s) v Hd Hbu) as (d1 & -> & Hd1). cbn [negb Z.eqb].
  destruct (select_block_ok d1 _ lba CMD_READ_EXT Hd1 eq_refl Hph) as (d2 & -> & Hd2 & Ha & Hc); [lia|].
  cbn [busy_in v_blocks v_at] in Hd2.
  destruct (drive_read d2 _ Hd2 eq_refl eq_refl Hc) as (n & Hd3); [cbn [v_tf v_blocks]; rewrite Ha; lia|].
  pose proof (prompt_in _ _ CMD_READ_EXT _ Hd2 eq_refl eq_refl ltac:(set_solver) Hd3) as Hn.
  cbn [v_blocks v_at v_tf] in Hd3. rewrite Ha in Hd3.
  destruct (wait_clear_ok _ _ Hd3 Hn) as (d4 & -> & Hd4). cbn [negb Z.eqb].
  destruct (wait_set_ok d4 _ Hd4 eq_refl) as (d5 & -> & Hd5); [done|]. cbn [negb Z.eqb].
  destruct (drive_words _ _ lba Hd ltac:(lia)) as [Hlen _].
  destruct (read_words_ok d5 _ _ _ _ Hd5) as (d6 & E & Hd6); [destruct (v_at v lba); done|].
  rewrite Hlen in E. rewrite E. pose proof (delay_ok _ _ Hd6) as Hd7.
  eexists. split; [reflexivity|]. cbn [total present dev]. destruct Hd7 as [Hk7 Hv7].
  unfold ide_good. cbn [total present dev]. rewrite Hv7. cbn. unfold TIMEOUT. split_and!; try done. lia.
Qed.

Lemma ide_write_ok s lba b : ide_good s -> 0 <= lba < total s -> is_block b ->
  exists s', ide_write lba b s = Ok (0, s') /\ ide_good s' /\ total s' = total s /\
    forall i, v_at (drive_view (dev s')) i =
      if decide (i = lba) then bytes_words b else v_at (drive_view (dev s)) i.
Proof.
  intros (Hpr & Htot & Hok & Hph & Hbu) Hl [Hbl Hbb]. set (v := drive_view (dev s)) in *.
  unfold SECTOR in Hbl. destruct (words_bytes_words 256 b) as (_ & Hwl & Hwr); [lia|done|].
  assert (shows (dev s) v) as Hd by done. pose proof (drive_size _ _ Hd) as Hsz.
  unfold ide_write. rewrite Hpr. destruct (Z.leb_spec (total s) lba); [lia|]. cbn [negb orb].
  destruct (wait_clear_ok (dev s) v Hd Hbu) as (d1 & -> & Hd1). cbn [negb Z.eqb].
  destruct (select_block_ok d1 _ lba CMD_WRITE_EXT Hd1 eq_refl Hph) as (d2 & -> & Hd2 & Ha & Hc); [lia|].
  cbn [busy_in v_blocks v_at] in Hd2.
  destruct (drive_write d2 _ Hd2 eq_refl eq_refl Hc) as (n & Hd3); [cbn [v_tf v_blocks]; rewrite Ha; lia|].
  pose proof (prompt_in _ _ CMD_WRITE_EXT _ Hd2 eq_refl eq_refl ltac:(set_solver) Hd3) as Hn.
  cbn [v_blocks v_at v_tf] in Hd3. rewrite Ha in Hd3.
  destruct (wait_clear_ok _ _ Hd3 Hn) as (d4 & -> & Hd4). cbn [negb Z.eqb].
  destruct (wait_set_ok d4 _ Hd4 eq_refl) as (d5 & -> & Hd5); [done|]. cbn [negb Z.eqb].
  rewrite take_ge by lia.
  assert (bytes_words b <> []) as Hne by (destruct (bytes_words b); done).
  pose proof (write_words_ok d5 _ _ _ _ [] (bytes_words b) Hd5 Hwr Hne Hwl) as Hd6.
  destruct (drive_flush _ _ Hd6 eq_refl eq_refl) as (n2 & Hd7).
  pose proof (prompt_in _ _ CMD_FLUSH_EXT _ Hd6 eq_refl eq_refl ltac:(set_solver) Hd7) as Hn2.
  destruct (wait_clear_ok _ _ Hd7 Hn2) as (d8 & -> & Hd8). cbn [negb Z.eqb].
  pose proof (delay_ok _ _ Hd8) as [Hk9 Hv9].
  eexists. split; [reflexivity|]. unfold ide_good. cbn [total present dev]. rewrite Hv9. cbn.
  unfold TIMEOUT. split_and!; try done. lia.
Qed.

(** The words of the drive's identity, as [ide_init] reads them. *)
Lemma identity_reads n ws : identity n ws -> exists f w0 w1 w2 w3,
  rd ws 83 = Ok f /\ Z.land f (Z.shiftl 1 10) <> 0 /\ rd ws 100 = Ok w0 /\ rd ws 101 = Ok w1 /\ rd ws 102 = Ok w2 /\ rd ws 103 = Ok w3 /\
  Z.lor (Z.lor (Z.lor w0 (Z.shiftl w1 16)) (Z.shiftl w2 32)) (Z.shiftl w3 48) = n.
Proof.
  intros ([_ Hr] & f & w0 & w1 & w2 & w3 & Ef & Hf & E0 & E1 & E2 & E3 & ->). exists f, w0, w1, w2, w3.
  pose proof (Forall_lookup_1 _ _ _ _ Hr E0) as H0. pose proof (Forall_lookup_1 _ _ _ _ Hr E1) as H1.
  pose proof (Forall_lookup_1 _ _ _ _ Hr E2) as H2. pose proof (Forall_lookup_1 _ _ _ _ Hr E3) as H3. cbv beta in *.
  split; [by apply rd_Ok|]. split.
  { intros E. apply (f_equal (fun z => Z.testbit z 10)) in E. rewrite Z.land_spec, Hf, Z.bits_0 in E. discriminate. }
  do 4 (split; [by apply rd_Ok|]).
  change (2 ^ 16) with 65536. change (2 ^ 32) with 4294967296. change (2 ^ 48) with 281474976710656.
  rewrite (lor_shift w0 w1 16) by (change (2 ^ 16) with 65536; lia). change (2 ^ 16) with 65536.
  rewrite (lor_shift _ w2 32) by (change (2 ^ 32) with 4294967296; lia). change (2 ^ 32) with 4294967296.
  rewrite (lor_shift _ w3 48) by (change (2 ^ 48) with 281474976710656; lia). change (2 ^ 48) with 281474976710656. lia.
Qed.

(** Behind IDENTIFY the status shows the drive busy, or its data. *)
Lemma status_nonzero d v : shows d v -> v_phase v <> Idle ->
  exists x d', inb (BASE + REG_CMD) d = (x, d') /\ x <> 0 /\ shows d' (busy_in v (pred (v_busy v))).
Proof.
  intros Hd Hp. pose proof (drive_status d v Hd) as Hs. destruct (inb (BASE + REG_CMD) d) as [x d']. destruct Hs as (Hd' & Hb & Hq).
  exists x, d'. split; [done|]. split; [|done]. intros ->. destruct (proj1 Hb eq_refl). destruct (Hq eq_refl) as [H _]. by apply Hp, H.
Qed.

(** A ready drive: its status is 0x00 in the bits of busy and error. *)
Lemma status_ready d v : shows d v -> v_busy v = O ->
  exists x d', inb (BASE + REG_CMD) d = (x, d') /\ Z.land x ST_BSY = 0 /\ Z.land x ST_ERR = 0 /\ shows d' v.
Proof.
  intros Hd Hn. pose proof (drive_status d v Hd) as Hs. destruct (inb (BASE + REG_CMD) d) as [x d']. destruct Hs as (Hd' & Hb & Hq).
  exists x, d'. split; [done|]. split; [by apply Hb|]. split; [by apply Hq|]. destruct v; cbn in *. by subst.
Qed.

Lemma ide_init_ok s : let v := drive_view (dev s) in drive_ok (dev s) -> v_busy v = O -> v_phase v = Idle ->
  exists s', ide_init s = Ok (0, s') /\ ide_good s' /\ total s' = v_blocks v /\ v_at (drive_view (dev s')) = v_at v.
Proof.
  intros v Hok Hb Hp. assert (shows (dev s) v) as Hd by done. unfold ide_init.
  destruct (status_ready _ _ Hd Hb) as (x & d1 & -> & Hx & _ & Hd1).
  destruct (Z.eqb_spec x 0xFF) as [->|_]; [discriminate|].
  pose proof (drive_reg _ _ REG_DRIVE 0xE0 Hd1 Hb Hp ltac:(done) ltac:(by split)) as Hd2. apply delay_ok in Hd2.
  destruct (drive_ident _ _ Hd2 eq_refl eq_refl) as (ws & tf & n & Hid & Hd3). cbn [v_blocks v_at] in Hid, Hd3.
  pose proof (prompt_in _ _ CMD_IDENTIFY _ Hd2 eq_refl eq_refl ltac:(set_solver) Hd3) as Hn. cbn [v_busy] in Hn.
  apply delay_ok in Hd3. destruct (status_nonzero _ _ Hd3) as (y & d4 & -> & Hy & Hd4); [done|].
  rewrite (proj2 (Z.eqb_neq y 0) Hy).
  destruct (wait_clear_ok _ _ Hd4) as (d5 & -> & Hd5); [cbn [busy_in v_busy]; lia|]. cbn [negb Z.eqb].
  destruct (status_ready _ _ Hd5 eq_refl) as (z & d6 & -> & _ & Hz & Hd6). rewrite Hz. cbn [negb Z.eqb].
  destruct (wait_set_ok d6 _ Hd6 eq_refl) as (d7 & -> & Hd7); [done|]. cbn [negb Z.eqb].
  destruct Hid as [[Hl Hw] Hid]. destruct (read_words_ok d7 _ _ _ ws Hd7) as (d8 & E & Hd8); [by intros ->|]. rewrite Hl in E. rewrite E.
  destruct (identity_reads _ ws (conj (conj Hl Hw) Hid)) as (f & w0 & w1 & w2 & w3 & -> & Hf & -> & -> & -> & -> & Ht).
  cbn [mbind res_bind]. rewrite (proj2 (Z.eqb_neq _ 0) Hf). eexists. split; [reflexivity|].
  destruct Hd8 as [Hk Hv]. unfold ide_good. cbn [total present dev]. rewrite Hv, Ht. cbn. unfold TIMEOUT. split_and!; try done. lia.
Qed.

(** The driver keeps the promises of a block device. *)
#[global] Instance ide_good_disk : good_disk (ide D).
Proof.
  refine (GoodDisk _ _ ide_good total (fun s i => words_bytes (v_at (drive_view (dev s)) i)) _ _ _ _ _).
  - intros s i (Hpr & Htot & Hok & _) Hi.
    destruct (drive_words (dev s) _ i (conj Hok eq_refl)) as [Hl Hr]; [lia|].
    split; [rewrite words_bytes_length; unfold SECTOR; lia|apply words_bytes_byte].
  - intros s i Hs Hi. destruct (ide_read_ok s i Hs Hi) as (s' & E & Hs' & Ht & Hv).
    exists s'. split; [exact E|]. split; [done|]. split; [done|]. intros j. by rewrite Hv.
  - intros s i Hs Hi. cbn. unfold ide_read. rewrite (proj2 (Z.leb_le _ _) Hi). by rewrite orb_true_r.
  - intros s i b Hs Hi Hb. destruct (ide_write_ok s i b Hs Hi Hb) as (s' & E & Hs' & Ht & Hv).
    exists s'. split; [exact E|]. split; [done|]. split; [done|]. intros j _. rewrite Hv.
    case_decide; [|done]. destruct Hb as [Hbl Hbb]. unfold SECTOR in Hbl.
    destruct (words_bytes_words 256 b) as (-> & _); [lia|done|done].
  - intros s i b Hs Hi. cbn. unfold ide_write. rewrite (proj2 (Z.leb_le _ _) Hi). by rewrite orb_true_r.
Defined.
End laws.

(** ** Properties *)


(** ** Witnesses *)

Lemma sim_identity_ok n : 0 <= n <= 2 ^ 48 -> identity n (sim_identity n).
Proof.
  change (2 ^ 48) with (65536 * 65536 * 65536). intros Hn. unfold sim_identity. change (2 ^ 16) with 65536.
  change (2 ^ 32) with (65536 * 65536). change (2 ^ 48) with (65536 * 65536 * 65536). rewrite <- !Z.div_div by lia. split.
  - split; [done|]. rewrite !Forall_app. split_and!; try (apply Forall_replicate; lia); repeat constructor; zdm.
  - eexists _, _, _, _, _. split; [reflexivity|]. split; [reflexivity|]. do 4 (split; [reflexivity|]).
    change (2 ^ 16) with 65536. change (2 ^ 32) with (65536 * 65536). change (2 ^ 48) with (65536 * 65536 * 65536). zdm.
Qed.

#[global] Instance sim_drive late : ata_drive (ports0 := sim_ports late) (ata_view0 := sim_view) view.
Proof.
  refine (AtaDrive view (sim_ports late) sim_view _ _ _ _ _ _ _ _ _ _ _ _).
  - intros d v i [(Hw & _) <-] Hi. by apply Hw.
  - intros d v [(_ & Hs & _) <-]. apply Hs.
  - intros d v Hd. exact Hd.
  - intros d v [Hok <-]. cbn. split; [by split|]. unfold sim_status, id.
    destruct (v_busy d) as [|n]; cbn.
    + split; [by destruct (v_phase d)|]. intros _. by destruct (v_phase d).
    + split; [done|]. discriminate.
  - intros d v reg b [(Hw & Hs & _) <-] Hb Hp Hr Hby. cbn [drive_view sim_view] in *; unfold id in *. cbn [outb sim_ports].
    destruct (Z.eqb_spec (BASE + reg) (BASE + REG_CMD)) as [E|_]; [unfold REG_CMD in E; lia|].
    replace (BASE + reg - BASE) with reg by lia. rewrite Hb, Hp. by split.
  - intros d v [(Hw & Hs & _) <-] Hb Hp. exists (sim_identity (v_blocks d)), (v_tf d), late. split; [by apply sim_identity_ok|]. by split.
  - intros d v [(Hw & Hs & _) <-] Hb Hp Hc Ha. exists late. by split.
  - intros d v [(Hw & Hs & _) <-] Hb Hp Hc Ha. exists late. split; [split; [done|split; [done|constructor]]|done].
  - intros d v [Hok <-] Hb Hp. exists late. by split.
  - intros d v w ws [(Hw & Hs & _) <-] Hb Hp. cbn [drive_view sim_view] in *; unfold id in *. cbn [inw sim_ports]. rewrite Hp. cbn [fst snd].
    split; [done|]. split; [|done]. split; [done|]. split; [done|]. by destruct ws.
  - intros d v a ws w [(Hw & Hs & Hph) <-] Hb Hp Hr Hl. cbn [drive_view sim_view] in *; unfold id in *. cbn [outw sim_ports].
    rewrite Hp in Hph |- *. rewrite (proj2 (Nat.eqb_neq _ _)) by lia. split; [|done].
    split; [done|]. split; [done|]. apply Forall_app. split; [done|]. by constructor.
  - intros d v a ws w [(Hw & Hs & Hph) <-] Hb Hp Hr Hl. cbn [drive_view sim_view] in *; unfold id in *. cbn [outw sim_ports].
    rewrite Hp in Hph |- *. rewrite (proj2 (Nat.eqb_eq _ _)) by done. exists O. split; [|done].
    split; [|by split]. cbn [v_at v_blocks]. intros i Hi. case_decide; [|by apply Hw].
    split; [rewrite length_app; cbn; lia|]. apply Forall_app. split; [done|]. by constructor.
Qed.

(** After any command the simulated drive is busy as long as it says. *)
Lemma sim_late late d cmd : cmd ∈ [CMD_IDENTIFY; CMD_READ_EXT; CMD_WRITE_EXT; CMD_FLUSH_EXT] ->
  v_busy (outb (ports := sim_ports late) (BASE + REG_CMD) cmd d) = late.
Proof. intros H. repeat (apply elem_of_cons in H as [->|H]; [reflexivity|]). by apply elem_of_nil in H. Qed.

Lemma sim_prompt late : (late < Z.to_nat TIMEOUT)%nat -> prompt_drive (ports0 := sim_ports late) (ata_view0 := sim_view) view.
Proof.
  intros Hl. refine (PromptDrive view (sim_ports late) sim_view _ _).
  - intros d v cmd _ _ _ Hc. change (v_busy (outb (ports := sim_ports late) (BASE + REG_CMD) cmd d) < Z.to_nat TIMEOUT)%nat. by rewrite sim_late.
  - intros d v a ws w [_ <-] Hb Hp Hw. cbn [drive_view sim_view] in *; unfold id in *. cbn [outw sim_ports]. rewrite Hp, Hw. done.
Qed.

Lemma sim_slow late cmd : (Z.to_nat TIMEOUT <= late)%nat -> cmd ∈ [CMD_IDENTIFY; CMD_READ_EXT; CMD_WRITE_EXT; CMD_FLUSH_EXT] ->
  slow (ports0 := sim_ports late) (ata_view0 := sim_view) (D := view) cmd.
Proof.
  intros Hl Hc d v _ _ _. change (Z.to_nat TIMEOUT <= v_busy (outb (ports := sim_ports late) (BASE + REG_CMD) cmd d))%nat. by rewrite sim_late.
Qed.

Lemma wit_ide_good : ide_good (ata_view0 := sim_view) wit_ide.
Proof.
  split; [done|]. split; [done|]. split; [|split; [done|cbn; unfold TIMEOUT; lia]].
  split; [|split; [split; discriminate|done]]. intros i _. split; [done|]. by apply Forall_replicate.
Qed.

