(* ===== verification/FatName.v ===== *)
(** * Names and paths of the FAT driver ([kernel/fat.c], [abspath], [to83],
    [entry_name], [name_match], [fill_entry])

    Directory entries are 32 bytes; characters are byte values. *)
From S2P Require Import Prelude Str.

(** ** Constants *)
Definition ATTR_DIR : Z := 0x10.
Definition ATTR_VOL : Z := 0x08.
Definition ATTR_LFN : Z := 0x0F.
Definition PATH_MAX : Z := 256.
Definition SPACE : Z := 32.

(** ** Arrays of bytes *)

Fixpoint wr_bytes (l : list Z) (o : Z) (bs : list Z) : res (list Z) :=
  match bs with
  | [] => mret l
  | b :: bs' => l' ← wr l o b; wr_bytes l' (o + 1) bs'
  end.

(** [wr16(p, v)] and [wr32(p, v)] at offset [o]. *)
Definition wr16 (l : list Z) (o v : Z) : res (list Z) :=
  wr_bytes l o [Z.land v 0xFF; Z.land (Z.shiftr v 8) 0xFF].
Definition wr32 (l : list Z) (o v : Z) : res (list Z) :=
  wr_bytes l o [Z.land v 0xFF; Z.land (Z.shiftr v 8) 0xFF; Z.land (Z.shiftr v 16) 0xFF;
                Z.land (Z.shiftr v 24) 0xFF].

(** [rd16(p)] at offset [o]. *)
Definition rd16 (l : list Z) (o : Z) : res Z :=
  b0 ← rd l o; b1 ← rd l (o + 1); mret (Z.lor b0 (Z.shiftl b1 8)).

(** ** Names *)

Definition upper (c : Z) : Z := if (97 <=? c) && (c <=? 122) then c - 32 else c.

Fixpoint name_match (disk in_ : str) : bool :=
  match disk, in_ with
  | x :: disk', c :: in' => if x =? upper c then name_match disk' in' else false
  | _, _ => deref disk =? deref in_
  end.

(** The string in a buffer: the bytes before the first 0. *)
Fixpoint cut (l : list Z) : str :=
  match l with
  | [] => []
  | c :: l' => if c =? 0 then [] else c :: cut l'
  end.

(** [for (i = 0; i < n && e[i] != ' '; i++) out[k++] = e[i];] *)
Fixpoint until_space (l : list Z) : list Z :=
  match l with
  | [] => []
  | c :: l' => if c =? SPACE then [] else c :: until_space l'
  end.

(** The 8.3 name of the 32-byte entry [e]; [None] is the return of -1. *)
Definition entry_name (e : list Z) : option str :=
  if (at_ e 0 =? 0x00) || (at_ e 0 =? 0xE5) then None
  else if (Z.land (at_ e 11) ATTR_LFN =? ATTR_LFN) || negb (Z.land (at_ e 11) ATTR_VOL =? 0) then None
  else
    let base := until_space (take 8 e) in
    let out := if at_ e 8 =? SPACE then base
               else base ++ DOT :: until_space (take 3 (drop 8 e)) in
    if same_condition (cut out) [DOT] || same_condition (cut out) [DOT; DOT] then None
    else Some (cut out).

(** A character of a short name. *)
Definition ok83 (c : Z) : bool :=
  ((65 <=? c) && (c <=? 90)) || ((48 <=? c) && (c <=? 57)) || (c =? 95) || (c =? 45).

(** One of the two loops of [to83]: at most [n] characters, up to the end or
    (when [dot] is set) a dot; the characters and the rest of the input. *)
Fixpoint take83 (n : nat) (dot : bool) (in_ : str) : option (str * str) :=
  match n, in_ with
  | S n', c :: in' =>
      if dot && (c =? DOT) then Some ([], in_)
      else if ok83 (upper c)
           then '(cs, r) ← take83 n' dot in'; Some (upper c :: cs, r)
           else None
  | _, _ => Some ([], in_)
  end.

Definition pad (n : nat) (s : str) : list Z := s ++ replicate (n - length s) SPACE.

(** The 11 bytes, or [None] for -1. *)
Definition to83 (in_ : str) : option (list Z) :=
  '(base, r) ← take83 8 true in_;
  match r with
  | [] => if bool_decide (base = []) then None else Some (pad 8 base ++ pad 3 [])
  | c :: r' =>
      if negb (c =? DOT) then None
      else
        '(ext, r2) ← take83 3 false r';
        match r2 with
        | _ :: _ => None
        | [] => if bool_decide (base = []) then None else Some (pad 8 base ++ pad 3 ext)
        end
  end.

Definition entry_match83 (e name83 : list Z) : bool := bool_decide (take 11 e = take 11 name83).

(** [fill_entry(sec + o, ...)]. *)
Definition fill_entry (sec : list Z) (o : Z) (name83 : list Z) (attr clus size : Z) : res (list Z) :=
  s ← wr_bytes sec o (take 11 name83);
  s ← wr s (o + 11) attr;
  s ← wr_bytes s (o + 12) (replicate 8 0);
  s ← wr16 s (o + 20) (Z.land (Z.shiftr clus 16) 0xFFFF);
  s ← wr16 s (o + 22) 0x0021;
  s ← wr16 s (o + 24) 0x0021;
  s ← wr16 s (o + 26) (Z.land clus 0xFFFF);
  wr32 s (o + 28) size.

(** ** Paths *)

(** [out[n++] = c] into a buffer of [PATH_MAX] bytes. *)
Definition put (out : list Z) (c : Z) : res (list Z) :=
  if Z.of_nat (length out) <? PATH_MAX then mret (out ++ [c]) else Ub.

(** [while (p[m] && p[m] != '/' && m < 12) m++;]: the component, or [None]
    when it is too long. *)
Definition next_comp (p : str) : option str :=
  let comp := take_part 12 p in
  let r := drop (length comp) p in
  if (length comp =? 0)%nat || (negb (deref r =? 0) && negb (deref r =? SLASH))
  then None else Some comp.

(** [while (n > 1 && out[n - 1] != '/') n--;], on the reversed buffer. *)
Fixpoint drop_comp (rev_out : list Z) : list Z :=
  match rev_out with
  | c :: ((_ :: _) as r') => if c =? SLASH then rev_out else drop_comp r'
  | _ => rev_out
  end.

Definition last_up (out : list Z) : list Z :=
  let r := drop_comp (rev out) in
  rev (if (1 <? length r)%nat then tl r else r).

(** Appending a component, [None] when the buffer is full. *)
Fixpoint put_comp (comp : str) (out : list Z) : res (option (list Z)) :=
  match comp with
  | [] => mret (Some out)
  | c :: comp' =>
      if PATH_MAX <=? Z.of_nat (length out) + 1 then mret None
      else out' ← put out c; put_comp comp' out'
  end.

Definition abspath_step (st : str * list Z) : res (ctl (str * list Z) (option (list Z))) :=
  let '(path, out) := st in
  if deref path =? 0 then mret (Done (Some out))
  else
    let path := skip_slash path in
    if deref path =? 0 then mret (Done (Some out))
    else match next_comp path with
    | None => mret (Done None)
    | Some comp =>
        let path := drop (length comp) path in
        if same_condition comp [DOT] then mret (Next (path, out))
        else if same_condition comp [DOT; DOT] then mret (Next (path, last_up out))
        else
          out ← (if 1 <? Z.of_nat (length out) then put out SLASH else mret out);
          o ← put_comp comp out;
          match o with
          | None => mret (Done None)
          | Some out => mret (Next (path, out))
          end
    end.

(** The buffer before the loop. *)
Definition abspath_start (cwd_path path : str) : res (str * list Z) :=
  if deref path =? SLASH then out ← put [] SLASH; mret (tl path, out)
  else
    let out := take (Z.to_nat (PATH_MAX - 1)) cwd_path in
    out ← (if 1 <? Z.of_nat (length out) then put out SLASH else mret out);
    mret (path, out).

(** [None] is -1; the terminator is stored after the text. *)
Definition abspath (cwd_path path : str) : res (option str) :=
  st ← abspath_start cwd_path path;
  o ← while_loop (S (length path)) abspath_step st;
  match o with
  | None => mret None
  | Some out => _ ← put out 0; mret (Some out)
  end.

(** ** Specification *)

(** What [to83] accepts: a base of one to eight characters and, behind a dot,
    an extension of at most three. *)
Definition name83_of (s base ext : str) : Prop :=
  Forall (fun c => ok83 (upper c) = true) (base ++ ext) /\
  (1 <= length base <= 8)%nat /\ (length ext <= 3)%nat /\
  (s = base /\ ext = [] \/ s = base ++ DOT :: ext).

(** The name as the directory shows it. *)
Definition shown83 (base ext : str) : str :=
  (upper <$> base) ++ (if bool_decide (ext = []) then [] else DOT :: (upper <$> ext)).

(** The 32 bytes of an entry. *)
Definition entry_bytes (name83 : list Z) (attr clus size : Z) : list Z :=
  name83 ++ [attr] ++ replicate 8 0 ++ le_bytes 2 (clus / 65536) ++ [0x21; 0; 0x21; 0] ++
  le_bytes 2 clus ++ le_bytes 4 size.

(** An absolute path as text. *)
Definition text (ws : list str) : str := if bool_decide (ws = []) then [SLASH] else join ws.

(** The words of a path. *)
Definition words (p : str) : list str := filter (fun w => w <> []) (split p).

(** Normalising: [.] and [..] are resolved, components of more than 12 bytes
    and results of more than 255 bytes are refused. *)
Fixpoint norm (ws : list str) (cs : list str) : option (list str) :=
  match cs with
  | [] => Some ws
  | c :: cs' =>
      if (12 <? length c)%nat then None
      else if bool_decide (c = [DOT]) then norm ws cs'
      else if bool_decide (c = [DOT; DOT]) then norm (removelast ws) cs'
      else if Z.of_nat (length (text (ws ++ [c]))) <? PATH_MAX then norm (ws ++ [c]) cs'
      else None
  end.

(** A normal path: a list of words that are not dots, short enough. *)
Definition normal (ws : list str) : Prop :=
  Forall (fun w => plain w /\ w <> []) ws /\ Z.of_nat (length (text ws)) < PATH_MAX.

(** What [abspath] leaves in a buffer: [/], or a slash and something else. *)
Definition absolute (p : str) : Prop := cstr p /\ (p = [SLASH] \/ exists c r, p = SLASH :: c :: r /\ c <> SLASH).

(** It fits into the buffer. *)
Definition path_buf (out : list Z) : Prop := absolute out /\ Z.of_nat (length out) < PATH_MAX.

(** A path with a slash at its end. *)
Definition slash_end (p : str) : bool := bool_decide (last p = Some SLASH).

(** ** Lemmas: names *)

Lemma upper_byte c : 0 < c < 256 -> 0 < upper c < 256.
Proof. unfold upper. intros. destruct (_ && _) eqn:E; zbool; lia. Qed.

Lemma cut_cstr s : cstr s -> cut s = s.
Proof.
  induction 1 as [|c s Hc _ IH]; cbn [cut]; [done|].
  destruct (Z.eqb_spec c 0); [lia|]. by rewrite IH.
Qed.

Lemma name_match_eq d s : cstr d -> cstr s -> name_match d s = bool_decide (d = upper <$> s).
Proof.
  intros Hd. revert s. induction Hd as [|x d Hx _ IH]; intros s Hs; cbn [name_match].
  - destruct Hs as [|c s Hc _]; cbn [deref]; [done|].
    rewrite bool_decide_eq_false_2 by done. apply Z.eqb_neq. lia.
  - destruct Hs as [|c s Hc Hs]; cbn [deref].
    + rewrite bool_decide_eq_false_2 by done. apply Z.eqb_neq. lia.
    + destruct (Z.eqb_spec x (upper c)) as [->|Hne].
      * rewrite IH by done. apply bool_decide_ext. cbn. split; [by intros ->|by intros [= ->]].
      * rewrite bool_decide_eq_false_2; [done|]. cbn. congruence.
Qed.

Lemma ok83_range c : ok83 c = true -> 0 < c < 128 /\ c <> SPACE /\ c <> DOT /\ c <> SLASH.
Proof.
  unfold ok83, SPACE, DOT, SLASH. intros H. repeat (apply orb_true_iff in H as [H|H]); zbool; lia.
Qed.

Lemma upper_dot c : ok83 (upper c) = true -> c <> DOT.
Proof. intros H ->. discriminate H. Qed.

(** What the loops of [to83] return. *)
Lemma take83_ok n dot s cs r : take83 n dot s = Some (cs, r) ->
  exists t, s = t ++ r /\ cs = upper <$> t /\ Forall (fun c => ok83 (upper c) = true) t /\
    (length t <= n)%nat /\ (r = [] \/ length t = n \/ (dot = true /\ deref r = DOT)).
Proof.
  revert s cs r. induction n as [|n IH]; intros s cs r; cbn [take83].
  - intros [= <- <-]. exists []. split_and!; try done. right; by left.
  - destruct s as [|c s].
    { intros [= <- <-]. exists []. split_and!; try done; [cbn; lia|]. by left. }
    destruct (dot && (c =? DOT)) eqn:Ed.
    { intros [= <- <-]. apply andb_true_iff in Ed as [-> Ed%Z.eqb_eq]. exists [].
      split_and!; try done; [cbn; lia|]. right; right. done. }
    destruct (ok83 (upper c)) eqn:Ho; [|done].
    destruct (take83 n dot s) as [[cs' r']|] eqn:E; cbn; [|done]. intros [= <- <-].
    destruct (IH _ _ _ E) as (t & -> & -> & Ht & Hl & Hr). exists (c :: t).
    split_and!; [done|done|by constructor|cbn; lia|]. destruct Hr as [?|[?|?]]; [by left|right; left; cbn; lia|by right; right].
Qed.

Lemma take83_all n dot t r : Forall (fun c => ok83 (upper c) = true) t -> (length t <= n)%nat ->
  (r = [] \/ length t = n \/ (dot = true /\ deref r = DOT)) ->
  take83 n dot (t ++ r) = Some (upper <$> t, r).
Proof.
  intros Ht. revert n. induction Ht as [|c t Hc _ IH]; intros n Hl Hr; cbn [app].
  - destruct n as [|n]; [done|]. cbn [take83]. destruct r as [|c r]; [done|].
    destruct Hr as [?|[?|[-> Hd]]]; [done|done|]. cbn in Hd. by rewrite Hd.
  - destruct n as [|n]; [cbn in Hl; lia|]. cbn [take83].
    rewrite (proj2 (Z.eqb_neq c DOT)) by by apply upper_dot. rewrite andb_false_r, Hc.
    rewrite IH; [done|cbn in Hl; lia|]. destruct Hr as [?|[?|?]]; [by left|right; left; cbn in *; lia|by right; right].
Qed.

Lemma to83_ok base ext s : name83_of s base ext ->
  to83 s = Some (pad 8 (upper <$> base) ++ pad 3 (upper <$> ext)).
Proof.
  intros ([Hb He]%Forall_app & Hl1 & Hl2 & Hs). unfold to83.
  assert (forall A (x y : A), (if bool_decide ((upper <$> base : list Z) = []) then x else y) = y) as Hne.
  { intros A x y. rewrite bool_decide_eq_false_2; [done|]. by destruct base; cbn in *; [lia|]. }
  destruct Hs as [[-> ->]| ->].
  - rewrite <- (app_nil_r base) at 1. rewrite take83_all; [|done|lia|by left]. cbn. apply Hne.
  - rewrite take83_all; [|done|lia|by right; right]. cbn [mbind option_bind].
    rewrite Z.eqb_refl. cbn [negb]. rewrite <- (app_nil_r ext) at 1.
    rewrite take83_all; [|done|lia|by left]. cbn [mbind option_bind]. apply Hne.
Qed.

Lemma to83_inv s n : to83 s = Some n -> exists base ext, name83_of s base ext /\
  n = pad 8 (upper <$> base) ++ pad 3 (upper <$> ext).
Proof.
  unfold to83. destruct (take83 8 true s) as [[b r]|] eqn:E; cbn [mbind option_bind]; [|done].
  destruct (take83_ok _ _ _ _ _ E) as (base & -> & -> & Hb & Hl & Hr).
  assert (forall A (x : option A) y, (if bool_decide ((upper <$> base : list Z) = []) then None else x) = Some y ->
    x = Some y /\ (1 <= length base)%nat) as Hne.
  { intros A x y. bdec as Hx; [done|]. intros ->. split; [done|]. destruct base; [done|cbn; lia]. }
  destruct r as [|c r].
  - intros [[= <-] Hl1]%Hne. exists base, []. unfold name83_of. rewrite app_nil_r. split_and!; try done; [cbn; lia|by left].
  - destruct (Z.eqb_spec c DOT) as [->|?]; cbn [negb]; [|done].
    destruct (take83 3 false r) as [[x r2]|] eqn:E2; cbn [mbind option_bind]; [|done].
    destruct r2; [|done]. destruct (take83_ok _ _ _ _ _ E2) as (ext & -> & -> & He & Hl3 & _).
    intros [[= <-] Hl1]%Hne. exists base, ext. rewrite app_nil_r. unfold name83_of.
    split_and!; try done; [by apply Forall_app|by right].
Qed.

Lemma pad_length n s : (length s <= n)%nat -> length (pad n s) = n.
Proof. intros. unfold pad. rewrite length_app, length_replicate. lia. Qed.

Lemma until_space_pad n s l : Forall (fun c => c <> SPACE) s ->
  until_space (s ++ replicate n SPACE ++ l) = if (n =? 0)%nat then s ++ until_space l else s.
Proof.
  induction 1 as [|c s Hc _ IH]; cbn [app until_space].
  - destruct n; done.
  - rewrite (proj2 (Z.eqb_neq c SPACE) Hc), IH. by destruct (n =? 0)%nat.
Qed.

Lemma until_pad n s : Forall (fun c => c <> SPACE) s -> until_space (pad n s) = s.
Proof.
  intros H. unfold pad. rewrite <- (app_nil_r (replicate _ _)). rewrite until_space_pad by done.
  destruct (_ =? 0)%nat; [by rewrite app_nil_r|done].
Qed.

Lemma upper_ok_forall t : Forall (fun c => ok83 (upper c) = true) t ->
  cstr (upper <$> t) /\ Forall (fun c => c <> SPACE) (upper <$> t) /\ Forall (fun c => c <> DOT) (upper <$> t).
Proof.
  intros H. unfold cstr. rewrite !Forall_fmap. split_and!; (eapply Forall_impl; [exact H|]);
    intros c Hc%ok83_range; cbn; lia.
Qed.

(** An entry made from [to83]'s bytes shows the name. *)
Lemma entry_name_83 base ext e : Forall (fun c => ok83 (upper c) = true) (base ++ ext) ->
  (1 <= length base <= 8)%nat -> (length ext <= 3)%nat ->
  take 11 e = pad 8 (upper <$> base) ++ pad 3 (upper <$> ext) ->
  Z.land (at_ e 11) ATTR_VOL = 0 -> entry_name e = Some (shown83 base ext).
Proof.
  intros [Hb He]%Forall_app Hl1 Hl2 H11 Hattr. unfold entry_name.
  destruct (upper_ok_forall base Hb) as (Cb & Sb & Db). destruct (upper_ok_forall ext He) as (Ce & Se & De).
  assert (length (pad 8 (upper <$> base)) = 8%nat) as Hp8 by (apply pad_length; rewrite length_fmap; lia).
  assert (length (pad 3 (upper <$> ext)) = 3%nat) as Hp3 by (apply pad_length; rewrite length_fmap; lia).
  assert (take 8 e = pad 8 (upper <$> base)) as H8.
  { assert (take 8 (take 11 e) = take 8 e) as <- by by rewrite take_take.
    rewrite H11. by apply take_app_length'. }
  assert (take 3 (drop 8 e) = pad 3 (upper <$> ext)) as H3.
  { rewrite take_drop_commute. cbn [Nat.add]. rewrite H11. by apply drop_app_length'. }
  assert (forall i, 0 <= i < 11 -> at_ e i = at_ (take 11 e) i) as Hat.
  { intros i Hi. unfold at_. rewrite !nth_lookup, lookup_take_lt by lia. done. }
  assert (exists c0 b, base = c0 :: b) as (c0 & b & Eb) by (destruct base; [cbn in *; lia|eauto]).
  assert (at_ e 0 = upper c0) as H0.
  { rewrite Hat by lia. rewrite H11, Eb. reflexivity. }
  assert (ok83 (upper c0) = true) as Hc0 by (rewrite Eb in Hb; by apply Forall_cons in Hb as [? _]).
  assert (0 < upper c0 < 128) as Hr0 by by apply ok83_range.
  rewrite H0, (proj2 (Z.eqb_neq (upper c0) 0)), (proj2 (Z.eqb_neq (upper c0) 0xE5)) by lia. cbn [orb].
  rewrite Hattr. cbn [Z.eqb negb]. rewrite orb_false_r.
  destruct (Z.eqb_spec (Z.land (at_ e 11) ATTR_LFN) ATTR_LFN) as [Hl|_].
  { exfalso. assert (Z.testbit (Z.land (at_ e 11) ATTR_LFN) 3 = true) as Hx by by rewrite Hl.
    assert (Z.testbit (Z.land (at_ e 11) ATTR_VOL) 3 = true) as Hy; [|by rewrite Hattr in Hy].
    rewrite Z.land_spec in Hx |- *. exact Hx. }
  rewrite H8, H3, !until_pad by done.
  assert ((at_ e 8 =? SPACE) = bool_decide (ext = [])) as ->.
  { rewrite Hat, H11 by lia. unfold at_. rewrite app_nth2 by (rewrite Hp8; lia). rewrite Hp8.
    change (Z.to_nat 8 - 8)%nat with 0%nat. destruct ext as [|c ext]; [done|].
    rewrite bool_decide_eq_false_2 by done. apply Z.eqb_neq. cbn. by apply Forall_cons in Se as [? _]. }
  set (out := if bool_decide (ext = []) then _ else _).
  assert (out = shown83 base ext) as ->.
  { unfold out, shown83. destruct (bool_decide (ext = [])); [by rewrite app_nil_r|done]. }
  assert (cstr (shown83 base ext)) as Hcs.
  { unfold shown83. apply Forall_app. split; [done|]. destruct (bool_decide (ext = [])); [constructor|].
    constructor; [unfold DOT; lia|done]. }
  rewrite cut_cstr by done.
  assert (deref (shown83 base ext) = upper c0) as Hd by (unfold shown83; by rewrite Eb).
  rewrite !same_condition_eq by (done || unfold cstr, DOT; repeat constructor; lia).
  assert (upper c0 <> DOT) as Hnd by by apply ok83_range.
  rewrite !bool_decide_eq_false_2 by (intros Ex; rewrite Ex in Hd; by apply Hnd). done.
Qed.

(** ** Lemmas: writing entries *)

Lemma wr_bytes_ok bs l o : 0 <= o -> o + Z.of_nat (length bs) <= Z.of_nat (length l) ->
  wr_bytes l o bs = Ok (take (Z.to_nat o) l ++ bs ++ drop (Z.to_nat o + length bs) l).
Proof.
  revert l o. induction bs as [|b bs IH]; intros l o Ho Hl; cbn [wr_bytes length] in *.
  - cbn. by rewrite Nat.add_0_r, take_drop.
  - rewrite wr_in by lia. cbn [mbind res_bind]. rewrite IH by (rewrite ?length_insert; lia). f_equal.
    replace (Z.to_nat (o + 1)) with (S (Z.to_nat o)) by lia.
    erewrite take_S_r by (rewrite list_lookup_insert_eq by lia; done).
    rewrite take_insert_ge, drop_insert_lt by lia. rewrite <- app_assoc. cbn [app]. do 4 f_equal. lia.
Qed.

Lemma wr_bytes_app l o bs1 bs2 : wr_bytes l o (bs1 ++ bs2) =
  (l' ← wr_bytes l o bs1; wr_bytes l' (o + Z.of_nat (length bs1)) bs2).
Proof.
  revert l o. induction bs1 as [|b bs1 IH]; intros l o; cbn [app wr_bytes length].
  - cbn. by rewrite Z.add_0_r.
  - destruct (wr l o b) as [l'| |]; cbn [mbind res_bind]; [|done..]. rewrite IH.
    destruct (wr_bytes l' (o + 1) bs1); cbn [mbind res_bind]; [|done..]. f_equal. lia.
Qed.

Lemma le2 v : [Z.land v 0xFF; Z.land (Z.shiftr v 8) 0xFF] = le_bytes 2 v.
Proof.
  change 0xFF with (Z.ones 8). rewrite !Z.land_ones, Z.shiftr_div_pow2 by lia. reflexivity.
Qed.

Lemma le4 v : [Z.land v 0xFF; Z.land (Z.shiftr v 8) 0xFF; Z.land (Z.shiftr v 16) 0xFF;
               Z.land (Z.shiftr v 24) 0xFF] = le_bytes 4 v.
Proof.
  change 0xFF with (Z.ones 8). rewrite !Z.land_ones, !Z.shiftr_div_pow2 by lia. cbn [le_bytes].
  rewrite !Z.div_div by lia. reflexivity.
Qed.

Lemma le2_mod v : le_bytes 2 (v mod 65536) = le_bytes 2 v.
Proof. cbn [le_bytes]. f_equal; [zdm|]. f_equal. zdm. Qed.

Lemma entry_bytes_length name83 attr clus size : length name83 = 11%nat ->
  length (entry_bytes name83 attr clus size) = 32%nat.
Proof.
  intros H. unfold entry_bytes. rewrite !length_app, H, length_replicate, !le_bytes_length. reflexivity.
Qed.

Lemma fill_entry_ok sec o name83 attr clus size : length name83 = 11%nat -> 0 <= o ->
  o + 32 <= Z.of_nat (length sec) ->
  fill_entry sec o name83 attr clus size =
    Ok (take (Z.to_nat o) sec ++ entry_bytes name83 attr clus size ++ drop (Z.to_nat o + 32) sec).
Proof.
  intros Hn Ho Hl.
  replace (fill_entry sec o name83 attr clus size) with (wr_bytes sec o (entry_bytes name83 attr clus size)).
  { rewrite wr_bytes_ok by (rewrite ?entry_bytes_length by done; lia). by rewrite entry_bytes_length. }
  unfold entry_bytes, fill_entry, wr16, wr32. rewrite le4, !le2, take_ge by lia.
  change 0xFFFF with (Z.ones 16). rewrite !Z.land_ones, Z.shiftr_div_pow2 by lia.
  change (2 ^ 16) with 65536. rewrite !le2_mod.
  rewrite wr_bytes_app. destruct (wr_bytes sec o name83) as [s1| |]; cbn [mbind res_bind]; [|done..].
  rewrite Hn, wr_bytes_app. cbn [wr_bytes]. change (Z.of_nat 11) with 11.
  destruct (wr s1 (o + 11) attr) as [s2| |]; cbn [mbind res_bind mret res_ret]; [|done..].
  rewrite wr_bytes_app. cbn [length]. rewrite length_replicate.
  replace (o + 11 + Z.of_nat 1) with (o + 12) by lia.
  destruct (wr_bytes s2 (o + 12) (replicate 8 0)) as [s3| |]; cbn [mbind res_bind]; [|done..].
  rewrite wr_bytes_app, le_bytes_length. replace (o + 12 + Z.of_nat 8) with (o + 20) by lia.
  destruct (wr_bytes s3 (o + 20) (le_bytes 2 (clus / 65536))) as [s4| |]; cbn [mbind res_bind]; [|done..].
  change [33; 0; 33; 0] with (le_bytes 2 0x21 ++ le_bytes 2 0x21). rewrite <- app_assoc.
  rewrite wr_bytes_app, le_bytes_length. replace (o + 20 + Z.of_nat 2) with (o + 22) by lia.
  destruct (wr_bytes s4 (o + 22) (le_bytes 2 33)) as [s5| |]; cbn [mbind res_bind]; [|done..].
  rewrite wr_bytes_app, le_bytes_length. replace (o + 22 + Z.of_nat 2) with (o + 24) by lia.
  destruct (wr_bytes s5 (o + 24) (le_bytes 2 33)) as [s6| |]; cbn [mbind res_bind]; [|done..].
  rewrite wr_bytes_app, le_bytes_length. replace (o + 24 + Z.of_nat 2) with (o + 26) by lia.
  destruct (wr_bytes s6 (o + 26) (le_bytes 2 clus)) as [s7| |]; cbn [mbind res_bind]; [|done..].
  by replace (o + 26 + Z.of_nat 2) with (o + 28) by lia.
Qed.

Lemma shown83_cstr base ext : Forall (fun c => ok83 (upper c) = true) (base ++ ext) -> cstr (shown83 base ext).
Proof.
  intros [Hb He]%Forall_app. destruct (upper_ok_forall base Hb) as (Cb & _). destruct (upper_ok_forall ext He) as (Ce & _).
  unfold shown83. apply Forall_app. split; [done|]. destruct (bool_decide (ext = [])); [constructor|].
  constructor; [unfold DOT; lia|done].
Qed.

Lemma name83_cstr s base ext : name83_of s base ext -> cstr s.
Proof.
  intros ([Hb He]%Forall_app & _ & _ & Hs).
  assert (forall t, Forall (fun c => ok83 (upper c) = true) t -> cstr t) as Hc.
  { intros t Ht. eapply Forall_impl; [exact Ht|]. intros c Hc%ok83_range. cbn.
    unfold upper in Hc. destruct (_ && _) eqn:E; zbool; lia. }
  destruct Hs as [[-> _]| ->]; [by apply Hc|]. apply Forall_app. split; [by apply Hc|].
  constructor; [unfold DOT; lia|by apply Hc].
Qed.

(** ** Lemmas: paths *)

Lemma text_nil : text [] = [SLASH]. Proof. reflexivity. Qed.

Lemma text_ne ws : ws <> [] -> text ws = join ws.
Proof. intros. unfold text. by rewrite bool_decide_eq_false_2. Qed.

Lemma join_app a b : join (a ++ b) = join a ++ join b.
Proof. unfold join. by rewrite flat_map_app. Qed.

Lemma text_snoc ws w : text (ws ++ [w]) = (if bool_decide (ws = []) then [] else text ws) ++ SLASH :: w.
Proof.
  rewrite text_ne by (by destruct ws). rewrite join_app. cbn [join flat_map]. rewrite app_nil_r.
  bdec as Hws; [by subst|]. by rewrite text_ne.
Qed.

Lemma words_step p : cstr p -> p <> [] -> deref p <> SLASH ->
  exists w r, p = w ++ r /\ plain w /\ w <> [] /\ (r = [] \/ exists r', r = SLASH :: r') /\
    words p = w :: words r /\ words (skip_slash p) = words p.
Proof.
  intros Hp Hn Hs. destruct (word_cases p Hp) as (w & r & -> & Hw & Hr).
  assert (w <> []) as Hwn by (intros ->; destruct Hr as [->|[r' ->]]; [done|by cbn in Hs]).
  exists w, r. split_and!; try done.
  - unfold words. destruct Hr as [->|[r' ->]].
    + rewrite app_nil_r, split_word by done. rewrite filter_cons_True by done. reflexivity.
    + rewrite split_app by done. rewrite filter_cons_True by done. reflexivity.
  - destruct w as [|c w]; [done|]. cbn [app skip_slash]. apply Forall_cons in Hw as [[_ Hc] _].
    by rewrite (proj2 (Z.eqb_neq c SLASH) Hc).
Qed.

Lemma words_skip p : words (skip_slash p) = words p.
Proof.
  induction p as [|c p IH]; cbn [skip_slash]; [done|].
  destruct (Z.eqb_spec c SLASH) as [->|?]; [|done]. rewrite IH. reflexivity.
Qed.

Lemma next_comp_ok w r : plain w -> w <> [] -> (r = [] \/ exists r', r = SLASH :: r') ->
  next_comp (w ++ r) = if (12 <? length w)%nat then None else Some w.
Proof.
  intros Hw Hn Hr. unfold next_comp. rewrite take_part_word by done.
  assert (length (take 12 w) <> 0)%nat as Hl by (rewrite length_take; destruct w; [done|cbn; lia]).
  rewrite (proj2 (Nat.eqb_neq _ _) Hl). cbn [orb].
  destruct (Nat.ltb_spec 12 (length w)) as [Hlt|Hle].
  - rewrite length_take, Nat.min_l by lia. rewrite drop_app_le by lia.
    destruct (lookup_lt_is_Some_2 w 12 Hlt) as [c Hc]. rewrite (drop_S _ c) by done. cbn [app deref].
    apply (Forall_lookup_1 _ _ _ _ Hw) in Hc as [Hc1 Hc2].
    rewrite (proj2 (Z.eqb_neq c 0)), (proj2 (Z.eqb_neq c SLASH)) by lia. done.
  - rewrite take_ge by lia. rewrite drop_app_length. by destruct Hr as [->|[r' ->]].
Qed.

Lemma drop_comp_word w R : plain w -> drop_comp (rev w ++ SLASH :: R) = SLASH :: R.
Proof.
  intros Hw. assert (plain (rev w)) as Hr by by apply Forall_rev. clear Hw.
  induction Hr as [|c x [_ Hc] _ IH]; cbn [app drop_comp].
  - destruct R; done.
  - destruct (x ++ SLASH :: R) as [|y l] eqn:E; [by destruct x|].
    by rewrite (proj2 (Z.eqb_neq c SLASH) Hc).
Qed.

Lemma last_up_text ws : Forall (fun w => plain w /\ w <> []) ws -> last_up (text ws) = text (removelast ws).
Proof.
  intros Hws. destruct ws as [|w ws _] using rev_ind; [reflexivity|].
  rewrite removelast_last. apply Forall_app in Hws as [_ Hw]. apply Forall_singleton in Hw as [Hw _].
  rewrite text_snoc. unfold last_up. rewrite rev_app_distr. cbn [rev]. rewrite <- app_assoc.
  cbn [app]. rewrite drop_comp_word by done. bdec as Hn; [by subst|].
  rewrite text_ne by done. destruct ws as [|w0 ws]; [done|]. cbn [length join flat_map app].
  rewrite (proj2 (Nat.ltb_lt _ _)) by (cbn [rev]; rewrite length_app; cbn; lia).
  cbn [tl]. by rewrite rev_involutive.
Qed.

Lemma put_comp_ok comp out : comp <> [] -> Z.of_nat (length out) <= PATH_MAX ->
  put_comp comp out = Ok (if Z.of_nat (length (out ++ comp)) <? PATH_MAX then Some (out ++ comp) else None).
Proof.
  intros Hc. revert out. induction comp as [|c comp IH]; intros out Ho; [done|]. cbn [put_comp].
  destruct (Z.leb_spec PATH_MAX (Z.of_nat (length out) + 1)).
  - rewrite (proj2 (Z.ltb_ge _ _)); [done|]. rewrite length_app. cbn [length]. lia.
  - unfold put. rewrite (proj2 (Z.ltb_lt _ _)) by lia. cbn [mbind res_bind mret res_ret].
    destruct comp as [|c2 comp].
    + cbn [put_comp]. rewrite (proj2 (Z.ltb_lt _ _)); [done|]. rewrite length_app. cbn [length]. lia.
    + rewrite IH by (done || rewrite length_app; cbn [length]; lia).
      rewrite <- app_assoc. done.
Qed.

Lemma normal_snoc ws w : normal ws -> plain w -> w <> [] ->
  Z.of_nat (length (text (ws ++ [w]))) < PATH_MAX -> normal (ws ++ [w]).
Proof.
  intros [H1 _] Hw Hn Hl. split; [|done]. apply Forall_app. split; [done|]. by apply Forall_singleton.
Qed.

Lemma normal_up ws : normal ws -> normal (removelast ws).
Proof.
  intros [H1 H2]. destruct ws as [|w ws _] using rev_ind; [by split|]. rewrite removelast_last.
  apply Forall_app in H1 as [H1 _]. split; [done|]. rewrite text_snoc in H2.
  destruct (decide (ws = [])) as [->|Hn]; [done|].
  rewrite bool_decide_eq_false_2, length_app in H2 by done. lia.
Qed.

(** The slash before a component. *)
Lemma text_slash ws : normal ws ->
  (if 1 <? Z.of_nat (length (text ws)) then put (text ws) SLASH else mret (text ws)) =
    Ok ((if bool_decide (ws = []) then [] else text ws) ++ [SLASH]).
Proof.
  intros [Hf Hl]. bdec as He; [by subst|]. rewrite (proj2 (Z.ltb_lt _ _)).
  - unfold put. by rewrite (proj2 (Z.ltb_lt _ _)).
  - rewrite text_ne by done. destruct ws as [|w0 ws]; [done|].
    apply Forall_cons in Hf as [[_ Hw0] _]. cbn [join flat_map length]. rewrite length_app.
    destruct w0; [done|cbn [length]; lia].
Qed.

(** One iteration of [abspath] normalises one component. *)
Lemma abspath_step_ok p ws : cstr p -> normal ws ->
  (exists o, abspath_step (p, text ws) = Ok (Done o) /\ o = text <$> norm ws (words p) /\
     (norm ws (words p) = None \/ norm ws (words p) = Some ws)) \/
  (exists p' ws', abspath_step (p, text ws) = Ok (Next (p', text ws')) /\ cstr p' /\ normal ws' /\
     (length p' < length p)%nat /\ norm ws' (words p') = norm ws (words p)).
Proof.
  intros Hp Hws. unfold abspath_step. rewrite deref_0 by done.
  destruct (decide (p = [])) as [->|Hp0]; [left; eexists; split; [reflexivity|]; split; [done|by right]|].
  rewrite bool_decide_eq_false_2 by done. rewrite <- (words_skip p).
  pose proof (skip_slash_cstr p Hp) as Hq. pose proof (skip_slash_length p) as Hql.
  pose proof (skip_slash_head p) as Hqs. set (q := skip_slash p) in *. clearbody q.
  rewrite deref_0 by done.
  destruct (decide (q = [])) as [->|Hq0]; [left; eexists; split; [reflexivity|]; split; [done|by right]|].
  rewrite bool_decide_eq_false_2 by done.
  destruct (words_step q Hq Hq0 Hqs) as (w & r & -> & Hw & Hwn & Hr & Hwords & _).
  rewrite Hwords, next_comp_ok by done. cbn [norm].
  destruct (Nat.ltb_spec 12 (length w)) as [|Hw12]; [left; eexists; split; [reflexivity|]; split; [done|by left]|].
  rewrite drop_app_length. assert (cstr r) as Hrc by by apply Forall_app in Hq as [_ ?].
  assert (length r < length p)%nat as Hlr by (rewrite length_app in Hql; destruct w; [done|cbn in *; lia]).
  assert (cstr w) as Hwc by by apply plain_cstr.
  rewrite !same_condition_eq by (done || unfold cstr, DOT; repeat constructor; lia).
  bdec as Hd; [right; by exists r, ws|].
  bdec as Hdd.
  { right. exists r, (removelast ws). pose proof Hws as [Hws1 _]. rewrite last_up_text by done.
    split_and!; try done. by apply normal_up. }
  pose proof Hws as [_ Hws2]. rewrite text_slash by done. cbn [mbind res_bind].
  assert (((if bool_decide (ws = []) then [] else text ws) ++ [SLASH]) ++ w = text (ws ++ [w])) as Htext
    by (rewrite text_snoc, <- app_assoc; done).
  rewrite put_comp_ok, Htext.
  2: done.
  2: { bdec as He; rewrite length_app; cbn [length]; unfold PATH_MAX in *; lia. }
  cbn [mbind res_bind]. destruct (Z.ltb_spec (Z.of_nat (length (text (ws ++ [w])))) PATH_MAX).
  - right. exists r, (ws ++ [w]). split_and!; try done. by apply normal_snoc.
  - left. eexists. split; [reflexivity|]. split; [done|by left].
Qed.

(** The loop of [abspath] normalises. *)
Lemma abspath_loop n p ws : cstr p -> normal ws -> (length p < n)%nat ->
  while_loop n abspath_step (p, text ws) = Ok (text <$> norm ws (words p)) /\
  (forall ws', norm ws (words p) = Some ws' -> normal ws').
Proof.
  revert p ws. induction n as [|n IH]; intros p ws Hp Hws Hn; [lia|]. cbn [while_loop].
  destruct (abspath_step_ok p ws Hp Hws) as [(o & -> & -> & Hc)|(p' & ws' & -> & Hp' & Hws' & Hlt & <-)];
    cbn [mbind res_bind].
  - split; [done|]. intros ws' E. destruct Hc as [Hc|Hc]; [congruence|]. rewrite E in Hc. by injection Hc as ->.
  - apply IH; done || lia.
Qed.

(** ** Lemmas: paths from any current directory *)

Lemma absolute_ne p : absolute p -> (1 <= length p)%nat /\ deref p = SLASH.
Proof. intros [_ [->|(c & r & -> & _)]]; cbn; split; (done || lia). Qed.

(** Something behind it, and a beginning of it. *)
Lemma absolute_app p q : absolute p -> p <> [SLASH] -> cstr q -> absolute (p ++ q).
Proof.
  intros [Hp [->|(c & r & -> & Hc)]] Hn Hq; [done|]. split; [by apply Forall_app|]. right. by exists c, (r ++ q).
Qed.

Lemma absolute_take p n : absolute p -> (1 <= n)%nat -> absolute (take n p).
Proof.
  intros [Hp H] Hn. split; [by apply Forall_take|]. destruct n as [|n]; [lia|].
  destruct H as [->|(c & r & -> & Hc)]; [left; by destruct n|]. destruct n as [|n]; [by left|]. right. by exists c, (take n r).
Qed.

Lemma drop_comp_suffix r : r <> [] -> exists a, r = a ++ drop_comp r /\ drop_comp r <> [].
Proof.
  induction r as [|c r IH]; intros Hn; [done|]. destruct r as [|d r]; [by exists []|].
  cbn [drop_comp]. destruct (c =? SLASH); [by exists []|]. destruct (IH ltac:(done)) as (a & E & Hd). exists (c :: a). split; [|exact Hd].
  cbn [app]. f_equal. exact E.
Qed.

Lemma last_up_take out : out <> [] -> exists n, (1 <= n <= length out)%nat /\ last_up out = take n out.
Proof.
  intros Hn. unfold last_up. assert (rev out <> []) as Hr by (intros E; apply (f_equal length) in E; rewrite length_rev in E; by destruct out).
  destruct (drop_comp_suffix _ Hr) as (a & E & Hd).
  set (r := if (1 <? length (drop_comp (rev out)))%nat then tl (drop_comp (rev out)) else drop_comp (rev out)).
  assert (exists b, rev out = b ++ r /\ (1 <= length r)%nat) as (b & Eb & Hl).
  { unfold r. destruct (drop_comp (rev out)) as [|x l]; [done|]. destruct (Nat.ltb_spec 1 (length (x :: l))) as [Hlt|_].
    - exists (a ++ [x]). rewrite <- app_assoc. split; [exact E|cbn [tl length] in *; lia].
    - exists a. split; [exact E|cbn; lia]. }
  assert (out = rev r ++ rev b) as Eo by (rewrite <- rev_app_distr, <- Eb; by rewrite rev_involutive).
  exists (length r). split.
  - rewrite Eo, length_app, !length_rev. lia.
  - rewrite Eo. symmetry. apply take_app_length'. by rewrite length_rev.
Qed.

Lemma abspath_step_any p out : cstr p -> path_buf out ->
  (exists o, abspath_step (p, out) = Ok (Done o) /\ (o = None \/ o = Some out)) \/
  (exists p' out', abspath_step (p, out) = Ok (Next (p', out')) /\ cstr p' /\ (length p' < length p)%nat /\ path_buf out').
Proof.
  intros Hp [Ha Hl]. unfold abspath_step. rewrite deref_0 by done.
  destruct (decide (p = [])) as [->|Hp0]; [left; eexists; split; [reflexivity|by right]|].
  rewrite bool_decide_eq_false_2 by done.
  pose proof (skip_slash_cstr p Hp) as Hq. pose proof (skip_slash_length p) as Hql.
  pose proof (skip_slash_head p) as Hqs. set (q := skip_slash p) in *. clearbody q. rewrite deref_0 by done.
  destruct (decide (q = [])) as [->|Hq0]; [left; eexists; split; [reflexivity|by right]|].
  rewrite bool_decide_eq_false_2 by done.
  destruct (words_step q Hq Hq0 Hqs) as (w & r & -> & Hw & Hwn & Hr & _ & _). rewrite next_comp_ok by done.
  destruct (12 <? length w)%nat; [left; eexists; split; [reflexivity|by left]|].
  rewrite drop_app_length. assert (cstr r) as Hrc by by apply Forall_app in Hq as [_ ?].
  assert (length r < length p)%nat as Hlr by (rewrite length_app in Hql; destruct w; [done|cbn in *; lia]).
  destruct (absolute_ne _ Ha) as [Hl1 _].
  destruct (same_condition w [DOT]); [right; by exists r, out|].
  destruct (same_condition w [DOT; DOT]).
  { right. destruct (last_up_take out) as (n & Hn & ->); [intros ->; cbn in Hl1; lia|]. exists r, (take n out). split; [done|]. split; [done|]. split; [done|].
    split; [apply absolute_take; [done|lia]|]. rewrite length_take. lia. }
  assert (exists out1, (if 1 <? Z.of_nat (length out) then put out SLASH else mret out) = Ok out1 /\ absolute (out1 ++ w) /\
    Z.of_nat (length out1) <= PATH_MAX) as (out1 & -> & Hout1 & Hl2).
  { destruct (Z.ltb_spec 1 (Z.of_nat (length out))).
    - unfold put. rewrite (proj2 (Z.ltb_lt _ _)) by done. exists (out ++ [SLASH]). split; [done|]. split; [|rewrite length_app; cbn [length]; lia].
      rewrite <- app_assoc. apply absolute_app; [done|by intros ->|]. apply Forall_app. split; [repeat constructor; unfold SLASH; lia|by apply plain_cstr].
    - exists out. split; [done|]. split; [|lia]. destruct Ha as [_ [->|(c & r' & -> & _)]]; [|cbn in *; lia].
      destruct w as [|c w]; [done|]. apply Forall_cons in Hw as [[Hc1 Hc2] Hw]. split; [|right; by exists c, w].
      repeat (apply Forall_cons; split); [unfold SLASH; lia|lia|by apply plain_cstr]. }
  cbn [mbind res_bind]. rewrite put_comp_ok by done. cbn [mbind res_bind].
  destruct (Z.ltb_spec (Z.of_nat (length (out1 ++ w))) PATH_MAX); [|left; eexists; split; [reflexivity|by left]].
  right. by exists r, (out1 ++ w).
Qed.

Lemma abspath_loop_any n p out : cstr p -> path_buf out -> (length p < n)%nat ->
  exists o, while_loop n abspath_step (p, out) = Ok o /\ forall abs, o = Some abs -> path_buf abs.
Proof.
  revert p out. induction n as [|n IH]; intros p out Hp Ho Hn; [lia|]. cbn [while_loop].
  destruct (abspath_step_any p out Hp Ho) as [(o & -> & Hc)|(p' & out' & -> & Hp' & Hlt & Ho')]; cbn [mbind res_bind].
  - exists o. split; [done|]. intros abs ->. by destruct Hc as [?|[= ->]].
  - apply IH; [done|done|lia].
Qed.

(** With at least one free byte behind the current directory, [abspath] stays
    inside its buffer, for every path. *)
Lemma abspath_any C path : cstr path -> deref path = SLASH \/ absolute C /\ Z.of_nat (length C) < PATH_MAX - 1 ->
  exists o, abspath C path = Ok o /\ forall abs, o = Some abs -> path_buf abs.
Proof.
  intros Hp Hc. unfold abspath.
  assert (exists q out, abspath_start C path = Ok (q, out) /\ cstr q /\ (length q <= length path)%nat /\ path_buf out) as (q & out & -> & Hq & Hql & Ho).
  { unfold abspath_start. destruct (Z.eqb_spec (deref path) SLASH) as [E|E].
    - exists (tl path), [SLASH]. split; [done|]. destruct Hp as [|c p Hx Hp]; [done|]. split; [done|]. split; [cbn; lia|].
      split; [|done]. split; [repeat constructor; unfold SLASH; lia|by left].
    - destruct Hc as [?|[Ha Hl]]; [done|]. rewrite take_ge by (unfold PATH_MAX in *; lia). exists path.
      destruct (Z.ltb_spec 1 (Z.of_nat (length C))).
      + unfold put. rewrite (proj2 (Z.ltb_lt _ _)) by lia. exists (C ++ [SLASH]). split; [done|]. split; [done|]. split; [done|].
        split; [|rewrite length_app; cbn [length]; lia]. apply absolute_app; [done|by intros ->|]. repeat constructor; unfold SLASH; lia.
      + exists C. split; [done|]. split; [done|]. split; [done|]. split; [done|]. lia. }
  cbn [mbind res_bind]. destruct (abspath_loop_any (S (length path)) q out Hq Ho) as (o & -> & Hout); [lia|]. cbn [mbind res_bind].
  destruct o as [out'|]; [|by exists None]. destruct (Hout out' eq_refl) as [Ha' Hl']. unfold put. rewrite (proj2 (Z.ltb_lt _ _)) by done.
  exists (Some out'). split; [done|]. by intros abs [= <-].
Qed.

(** *** The words of a path, and a slash at its end *)

Lemma slash_end_app w r : r <> [] -> slash_end (w ++ r) = slash_end r.
Proof. intros Hr. unfold slash_end. rewrite last_app. by destruct (last_is_Some r) as [_ [x ->]]. Qed.

Lemma slash_end_plain w : plain w -> slash_end w = false.
Proof.
  intros Hw. unfold slash_end. bdec as Hl; [|done]. apply last_Some in Hl as [l ->]. apply Forall_app in Hw as [_ Hw].
  by apply Forall_singleton in Hw as [_ ?].
Qed.

Lemma skip_slash_suffix p : exists a, p = a ++ skip_slash p.
Proof.
  induction p as [|c p [a IH]]; cbn [skip_slash]; [by exists []|]. destruct (c =? SLASH); [|by exists []].
  exists (c :: a). cbn [app]. by rewrite <- IH.
Qed.

Lemma words_nil_slash r : cstr r -> words r = [] -> r <> [] -> slash_end r = true.
Proof.
  induction 1 as [|c r Hc Hr IH]; intros Hw Hn; [done|]. destruct (Z.eqb_spec c SLASH) as [->|Hne].
  - destruct (decide (r = [])) as [->|Hr0]; [done|]. change (SLASH :: r) with ([SLASH] ++ r). rewrite slash_end_app by done. by apply IH.
  - destruct (words_step (c :: r)) as (w & r' & _ & _ & _ & _ & E & _); [by constructor|done|done|]. by rewrite E in Hw.
Qed.

Lemma words_snoc a w : plain w -> words (a ++ SLASH :: w) = words a ++ (if bool_decide (w = []) then [] else [w]).
Proof.
  intros Hw. unfold words. assert (split (a ++ SLASH :: w) = split a ++ [w]) as ->; [|rewrite filter_app; f_equal; bdec as He].
  - induction a as [|c a IH]; cbn [app split].
    + by rewrite split_word by done.
    + destruct (c =? SLASH); [by rewrite IH|]. rewrite IH. pose proof (split_not_nil a). by destruct (split a).
  - by subst.
  - by rewrite filter_cons_True.
Qed.

Lemma words_text ws : Forall (fun w => plain w /\ w <> []) ws -> words (text ws) = ws.
Proof.
  induction ws as [|w ws IH] using rev_ind; intros H; [done|]. apply Forall_app in H as [H [[Hw Hn] _]%Forall_cons].
  rewrite text_snoc, words_snoc, (bool_decide_eq_false_2 (w = [])) by done. f_equal. bdec as He; [by subst|by apply IH].
Qed.

Lemma slash_end_text ws : Forall (fun w => plain w /\ w <> []) ws -> ws <> [] -> slash_end (text ws) = false.
Proof.
  destruct ws as [|w ws _] using rev_ind; intros H Hn; [done|]. apply Forall_app in H as [_ [[Hw Hwn] _]%Forall_cons].
  rewrite text_snoc. change (SLASH :: w) with ([SLASH] ++ w). rewrite app_assoc, slash_end_app by done. by apply slash_end_plain.
Qed.

(** The last component and what is before it. *)
Lemma last_comp p : absolute p -> exists a w, p = a ++ SLASH :: w /\ plain w /\ absolute (a ++ [SLASH]).
Proof.
  intros Ha. assert (forall q, cstr q -> plain q \/ exists a w, q = a ++ SLASH :: w /\ plain w) as H.
  { induction 1 as [|c q Hc _ [IH|(a & w & -> & Hw)]]; [by left; constructor| |right; by exists (c :: a), w].
    destruct (Z.eq_dec c SLASH) as [->|Hn]; [right; by exists [], q|left; by constructor]. }
  destruct (H p (proj1 Ha)) as [Hp|(a & w & -> & Hw)].
  - destruct Ha as [_ [->|(c & r & -> & _)]]; by apply Forall_cons in Hp as [[_ ?] _].
  - exists a, w. split; [done|]. split; [done|]. apply (absolute_take _ (S (length a))) in Ha; [|lia].
    replace (a ++ SLASH :: w) with ((a ++ [SLASH]) ++ w) in Ha by by rewrite <- app_assoc.
    rewrite take_app_length' in Ha by (rewrite length_app; cbn; lia). exact Ha.
Qed.

Lemma abspath_ok C path : cstr path -> C = [SLASH] \/ deref path = SLASH ->
  abspath C path = Ok (text <$> norm [] (words path)) /\
  forall ws, norm [] (words path) = Some ws -> normal ws.
Proof.
  intros Hp Hc. unfold abspath.
  assert (exists q, abspath_start C path = Ok (q, [SLASH]) /\ cstr q /\ words q = words path /\
    (length q <= length path)%nat) as (q & -> & Hq & <- & Hl).
  { unfold abspath_start. destruct (Z.eqb_spec (deref path) SLASH) as [E|E].
    - exists (tl path). split; [done|]. destruct Hp as [|c p Hx Hp]; [done|]. cbn in E. subst c.
      split; [done|]. split; [done|cbn; lia].
    - destruct Hc as [->|?]; [|done]. by exists path. }
  cbn [mbind res_bind].
  destruct (abspath_loop (S (length path)) q [] Hq) as [E Hn]; [split; [constructor|done]|lia|].
  rewrite text_nil in E. rewrite E. split; [|done]. cbn [mbind res_bind].
  destruct (norm [] (words q)) as [ws|]; [|done]. cbn [fmap option_fmap option_map].
  destruct (Hn ws eq_refl) as [_ Hlen]. unfold put. by rewrite (proj2 (Z.ltb_lt _ _)).
Qed.

(** ** Properties *)

(** Short names: [to83] accepts exactly the names of one to eight letters,
    digits, [_] and [-] with at most three more behind a dot; the entry that
    [fill_entry] builds from its bytes is written in place, shows as the name
    in capitals, and matches the name it was made from, unless that ends in a
    dot: a file created as "A." is stored under "A". *)
Theorem to83_roundtrip s n sec o attr clus size :
  to83 s = Some n -> Z.land attr ATTR_VOL = 0 -> 0 <= o -> o + 32 <= Z.of_nat (length sec) ->
  exists base ext e, name83_of s base ext /\
    fill_entry sec o n attr clus size = Ok (take (Z.to_nat o) sec ++ e ++ drop (Z.to_nat o + 32) sec) /\
    length e = 32%nat /\ entry_name e = Some (shown83 base ext) /\
    name_match (shown83 base ext) s = negb (bool_decide (s = base ++ [DOT])).
Proof.
  intros H Ha Ho Hl. destruct (to83_inv s n H) as (base & ext & Hn & ->).
  pose proof Hn as (Hok & Hl1 & Hl2 & Hs).
  assert (length (pad 8 (upper <$> base) ++ pad 3 (upper <$> ext)) = 11%nat) as H11
    by (rewrite length_app, !pad_length by (rewrite length_fmap; lia); done).
  eexists base, ext, _. split; [done|]. split; [by apply fill_entry_ok|].
  split; [by apply entry_bytes_length|]. split.
  - apply entry_name_83; try done; unfold entry_bytes.
    + by apply take_app_length'.
    + unfold at_. rewrite app_nth2 by (rewrite H11; cbn; lia). rewrite H11. exact Ha.
  - rewrite name_match_eq by (by apply shown83_cstr || by eapply name83_cstr).
    unfold shown83. destruct Hs as [[-> ->]| ->].
    + rewrite app_nil_r, bool_decide_eq_true_2 by done. rewrite bool_decide_eq_false_2; [done|].
      intros E. apply (f_equal length) in E. rewrite length_app in E. cbn in E. lia.
    + destruct ext as [|c ext].
      * rewrite (bool_decide_eq_true_2 ([] = [])), (bool_decide_eq_true_2 (base ++ [DOT] = _)) by done.
        rewrite bool_decide_eq_false_2; [done|]. intros E. apply (f_equal length) in E.
        rewrite app_nil_r, !length_fmap, length_app in E. cbn in E. lia.
      * rewrite (bool_decide_eq_false_2 (c :: ext = [])) by done.
        rewrite bool_decide_eq_true_2 by by rewrite fmap_app.
        rewrite bool_decide_eq_false_2; [done|]. intros E%app_inv_head. done.
Qed.

(** [abspath] of an absolute path, or of any path when the current
    directory is the root: it ends, stays inside its 256-byte buffer and
    returns the normal form, or fails when a component is longer than 12 bytes
    or the result does not fit. *)
Theorem abspath_normalizes C path : cstr path -> C = [SLASH] \/ deref path = SLASH ->
  abspath C path = Ok (text <$> norm [] (words path)) /\
  forall ws, norm [] (words path) = Some ws -> normal ws.
Proof. apply abspath_ok. Qed.

(** [..] does nothing in a directory below the root: the start of a
    relative path is the current directory with a slash behind it, and that
    slash is all that [..] takes away. *)
Theorem abspath_dotdot_stays ws : normal ws -> ws <> [] -> abspath (text ws) [DOT; DOT] = Ok (Some (text ws)).
Proof.
  intros [Hf Hl] Hn. unfold abspath, abspath_start. change (deref [DOT; DOT] =? SLASH) with false. cbv iota.
  unfold PATH_MAX in *. rewrite take_ge by lia.
  assert (1 < Z.of_nat (length (text ws))) as H1.
  { rewrite text_ne by done. destruct ws as [|w0 ws]; [done|]. apply Forall_cons in Hf as [[_ Hw0] _].
    cbn [join flat_map length]. rewrite length_app. destruct w0; [done|cbn [length]; lia]. }
  rewrite (proj2 (Z.ltb_lt _ _) H1). unfold put, PATH_MAX.
  rewrite (proj2 (Z.ltb_lt _ 256)) by done. cbn [mbind res_bind mret res_ret].
  change (S (length [DOT; DOT])) with 3%nat. cbn [while_loop].
  assert (last_up (text ws ++ [SLASH]) = text ws) as Hup.
  { unfold last_up. rewrite rev_app_distr. cbn [rev app drop_comp].
    destruct (rev (text ws)) as [|c r] eqn:Er.
    { apply (f_equal length) in Er. rewrite length_rev in Er. cbn in Er. lia. }
    change (rev (c :: r) = text ws). by rewrite <- Er, rev_involutive. }
  change (abspath_step ([DOT; DOT], text ws ++ [SLASH])) with
    (Ok (Next ([] : str, last_up (text ws ++ [SLASH]))) : res (ctl (str * list Z) (option (list Z)))).
  cbn [mbind res_bind]. rewrite Hup. cbn [abspath_step deref Z.eqb mbind res_bind mret res_ret].
  by rewrite (proj2 (Z.ltb_lt _ 256)).
Qed.

(** [cd B] in [/A] leads to [/A//B]: the slash behind the current directory and
    the one in front of the name. *)
Example abspath_double_slash : abspath [SLASH; 65] [66] = Ok (Some [SLASH; 65; SLASH; SLASH; 66]).
Proof. reflexivity. Qed.

(** A current directory that fills its buffer: [cd .] below the root appends a
    slash each time, and with 255 bytes every relative path, the empty one
    included, makes [abspath] store its terminator one past its buffer. *)
Theorem cwd_overruns C : cstr C -> 1 < Z.of_nat (length C) ->
  (Z.of_nat (length C) < 255 -> abspath C [DOT] = Ok (Some (C ++ [SLASH]))) /\
  (Z.of_nat (length C) = 255 -> abspath C [] = Ub /\ abspath C [DOT] = Ub).
Proof.
  intros HC H1. assert (forall path, path = [] \/ path = [DOT] -> Z.of_nat (length C) <= 255 ->
    abspath C path = (_ ← put (C ++ [SLASH]) 0; mret (Some (C ++ [SLASH])))) as H.
  { intros path Hp Hl. unfold abspath, abspath_start. assert ((deref path =? SLASH) = false) as -> by by destruct Hp as [-> | ->].
    rewrite take_ge by (unfold PATH_MAX; lia). rewrite (proj2 (Z.ltb_lt _ _) H1).
    assert (put C SLASH = Ok (C ++ [SLASH])) as -> by (unfold put, PATH_MAX; by rewrite (proj2 (Z.ltb_lt _ _)) by lia).
    by destruct Hp as [-> | ->]. }
  unfold PATH_MAX in *. split; [intros Hl|intros Hl; split]; rewrite H by (lia || tauto); unfold put, PATH_MAX; rewrite length_app; cbn [length].
  - by rewrite (proj2 (Z.ltb_lt _ _)) by lia.
  - by rewrite (proj2 (Z.ltb_ge _ _)) by lia.
  - by rewrite (proj2 (Z.ltb_ge _ _)) by lia.
Qed.

(** ** Witnesses *)

Lemma to83_roundtrip_witness : exists base ext e,
  name83_of [97; 46; 116] base ext /\
  fill_entry (replicate 512 0) 32 (pad 8 [65] ++ pad 3 [84]) 0x20 5 100 =
    Ok (take 32 (replicate 512 0) ++ e ++ drop 64 (replicate 512 0)) /\
  entry_name e = Some (shown83 base ext).
Proof.
  destruct (to83_roundtrip [97; 46; 116] (pad 8 [65] ++ pad 3 [84]) (replicate 512 0) 32 0x20 5 100)
    as (base & ext & e & H1 & H2 & _ & H3 & _).
  - reflexivity.
  - reflexivity.
  - lia.
  - rewrite length_replicate. lia.
  - exists base, ext, e. split; [exact H1|]. split; [exact H2|exact H3].
Defined.

(** "/A/../B". *)
Lemma abspath_normalizes_witness : abspath [SLASH] [47; 65; 47; 46; 46; 47; 66] = Ok (Some [47; 66]).
Proof.
  destruct (abspath_normalizes [SLASH] [47; 65; 47; 46; 46; 47; 66]) as [H _].
  - unfold cstr. repeat constructor; lia.
  - by left.
  - exact H.
Defined.

Lemma abspath_dotdot_stays_witness : abspath [47; 65] [DOT; DOT] = Ok (Some [47; 65]).
Proof.
  apply (abspath_dotdot_stays [[65]]).
  - split; [|reflexivity]. apply Forall_singleton. split; [|done]. apply Forall_singleton.
    unfold SLASH. lia.
  - done.
Defined.

Lemma cwd_overruns_witness : abspath (SLASH :: replicate 254 65) [] = Ub.
Proof.
  apply (cwd_overruns (SLASH :: replicate 254 65)); [|reflexivity|reflexivity].
  constructor; [unfold SLASH; lia|]. apply Forall_replicate. lia.
Defined.
