(* ===== verification/Fat.v ===== *)
(** * The FAT32 driver ([kernel/fat.c])

    The file allocation table, directories and files of a mounted FAT32
    volume, over the block device interface [disk].  One static block buffer
    [sec] is shared by every function, as in the code: which block it holds
    after a call is part of the state.

    The loops over cluster chains have no bound in the code (a cyclic chain
    makes them run for ever), so they take fuel; [Oof] means that a chain was
    longer than the fuel. *)
From S2P Require Import Prelude Str Disk Part FatName.

(** ** Constants and state *)
Definition EOC : Z := 0x0FFFFFF8.

Record fat (D : Type) := Fat {
  sec : list Z; fat_start : Z; data_start : Z; sec_per_clus : Z; num_fats : Z; fat_sz : Z;
  root_clus : Z; cwd_clus : Z; cwd_path : str; is_mounted : bool; alloc_hint : Z; fdisk : D
}.
Arguments Fat {D}. Arguments sec {D}. Arguments fat_start {D}. Arguments data_start {D}.
Arguments sec_per_clus {D}. Arguments num_fats {D}. Arguments fat_sz {D}. Arguments root_clus {D}.
Arguments cwd_clus {D}. Arguments cwd_path {D}. Arguments is_mounted {D}. Arguments alloc_hint {D}.
Arguments fdisk {D}.

Section volume.
Context {D : Type} `{!disk D}.
Implicit Type st : fat D.

Definition set_sec st (b : list Z) : fat D :=
  Fat b (fat_start st) (data_start st) (sec_per_clus st) (num_fats st) (fat_sz st) (root_clus st)
      (cwd_clus st) (cwd_path st) (is_mounted st) (alloc_hint st) (fdisk st).
Definition set_disk st (d : D) : fat D :=
  Fat (sec st) (fat_start st) (data_start st) (sec_per_clus st) (num_fats st) (fat_sz st) (root_clus st)
      (cwd_clus st) (cwd_path st) (is_mounted st) (alloc_hint st) d.
Definition set_hint st (h : Z) : fat D :=
  Fat (sec st) (fat_start st) (data_start st) (sec_per_clus st) (num_fats st) (fat_sz st) (root_clus st)
      (cwd_clus st) (cwd_path st) (is_mounted st) h (fdisk st).
Definition set_fcwd st (c : Z) (p : str) : fat D :=
  Fat (sec st) (fat_start st) (data_start st) (sec_per_clus st) (num_fats st) (fat_sz st) (root_clus st)
      c p (is_mounted st) (alloc_hint st) (fdisk st).

(** ** Blocks and the table *)

(** [rd32(sec + o)]. *)
Definition rd32 (l : list Z) (o : Z) : res Z :=
  b0 ← rd l o; b1 ← rd l (o + 1); b2 ← rd l (o + 2); b3 ← rd l (o + 3);
  mret (Z.lor (Z.lor (Z.lor b0 (Z.shiftl b1 8)) (Z.shiftl b2 16)) (Z.shiftl b3 24)).

(** [ide_read(lba, sec)] and [ide_write(lba, buf)]. *)
Definition read_sec (lba : Z) st : res (Z * fat D) :=
  '(o, d) ← disk_read lba (fdisk st);
  match o with
  | Some b => mret (0, set_sec (set_disk st d) b)
  | None => mret (-1, set_disk st d)
  end.

Definition write_from (lba : Z) (b : list Z) st : res (Z * fat D) :=
  '(r, d) ← disk_write lba b (fdisk st); mret (r, set_disk st d).

Definition write_sec (lba : Z) st : res (Z * fat D) := write_from lba (sec st) st.

Definition clus_lba (c : Z) st : Z := u64 (data_start st + u32 (c - 2) * sec_per_clus st).

Definition fat_next (c : Z) st : res (Z * fat D) :=
  let off := c * 4 in
  '(r, st) ← read_sec (u64 (fat_start st + off / 512)) st;
  if negb (r =? 0) then mret (EOC, st)
  else v ← rd32 (sec st) (off mod 512); mret (Z.land v 0x0FFFFFFF, st).

Definition fat_set (c v : Z) st : res (Z * fat D) :=
  let off := c * 4 in
  r ← for_loop (Z.to_nat (num_fats st)) 0 (fun k st =>
        let lba := u64 (fat_start st + k * fat_sz st + off / 512) in
        '(r, st) ← read_sec lba st;
        if negb (r =? 0) then mret (Done (-1, st))
        else
          b ← wr32 (sec st) (off mod 512) v;
          '(r, st) ← write_sec lba (set_sec st b);
          if negb (r =? 0) then mret (Done (-1, st)) else mret (Next st)) st;
  mret (match r with Next st => (0, st) | Done x => x end).

Definition fat_max st : Z := u32 (fat_sz st * 128).

Definition alloc_clus st : res (Z * fat D) :=
  let max := fat_max st in
  r ← for_loop (Z.to_nat max) 0 (fun i st =>
        let c := u32 (2 + u32 (alloc_hint st + i) mod (if 0 <? u32 (max - 2) then u32 (max - 2) else 1)) in
        if max <=? c then mret (Next st)
        else
          let off := c * 4 in
          '(r, st) ← read_sec (u64 (fat_start st + off / 512)) st;
          if negb (r =? 0) then mret (Done (0, st))
          else
            v ← rd32 (sec st) (off mod 512);
            if v =? 0 then
              '(r, st) ← fat_set c 0x0FFFFFFF st;
              if negb (r =? 0) then mret (Done (0, st)) else mret (Done (c, set_hint st c))
            else mret (Next st)) st;
  mret (match r with Next st => (0, st) | Done x => x end).

Fixpoint free_chain (fuel : nat) (c : Z) st : res (fat D) :=
  match fuel with
  | O => Oof
  | S fuel' =>
      if (2 <=? c) && (c <? EOC) then
        let off := c * 4 in
        '(r, st) ← read_sec (u64 (fat_start st + off / 512)) st;
        nx ← (if r =? 0 then v ← rd32 (sec st) (off mod 512); mret (Z.land v 0x0FFFFFFF) else mret EOC);
        '(_, st) ← fat_set c 0 st;
        free_chain fuel' nx st
      else mret st
  end.

(** [for (c = c0; c < EOC; c = fat_next(c)) body]. *)
Fixpoint chain_loop {R} (fuel : nat) (body : Z -> fat D -> res (ctl (fat D) R)) (c : Z) st
  : res (ctl (fat D) R) :=
  match fuel with
  | O => Oof
  | S fuel' =>
      if c <? EOC then
        r ← body c st;
        match r with
        | Done x => mret (Done x)
        | Next st => '(c', st) ← fat_next c st; chain_loop fuel' body c' st
        end
      else mret (Next st)
  end.

(** [for (s = 0; s < sec_per_clus; s++) { ide_read(clus_lba(c) + s, sec) ... }]:
    [fail] is the return when the block cannot be read. *)
Definition cluster_loop {R} (fail : fat D -> R) (body : Z -> fat D -> res (ctl (fat D) R)) (c : Z) st
  : res (ctl (fat D) R) :=
  for_loop (Z.to_nat (sec_per_clus st)) 0 (fun s st =>
    let l := u64 (clus_lba c st + s) in
    '(r, st) ← read_sec l st;
    if negb (r =? 0) then mret (Done (fail st)) else body l st) st.

(** The 32 bytes of entry [i] of the buffer. *)
Definition slot st (i : Z) : res (list Z) :=
  if (0 <=? i) && (i * 32 + 32 <=? Z.of_nat (length (sec st)))
  then mret (take 32 (drop (Z.to_nat (i * 32)) (sec st))) else Ub.

(** The first cluster of an entry. *)
Definition entry_clus (e : list Z) : res Z :=
  h0 ← rd e 20; h1 ← rd e 21; l ← rd16 e 26;
  mret (Z.lor (Z.lor (Z.shiftl h0 16) (Z.shiftl h1 24)) l).

(** ** Directories *)

(** What [walk] finds for one component in a directory block: [Some] entry, or
    the end of the directory. *)
Definition walk_block (comp : str) (l : Z) st : res (ctl (fat D) (option (list Z) * fat D)) :=
  r ← for_loop 16 0 (fun i (_ : unit) =>
        e ← slot st i;
        if at_ e 0 =? 0 then mret (Done None)
        else match entry_name e with
             | None => mret (Next tt)
             | Some nm => if name_match nm comp then mret (Done (Some e)) else mret (Next tt)
             end) tt;
  mret (match r with Next _ => Next st | Done x => Done (x, st) end).

(** The search of a directory; [None] is [return -1] or not found. *)
Definition walk_dir (fuel : nat) (comp : str) (c : Z) st : res (option (list Z) * fat D) :=
  r ← chain_loop fuel (cluster_loop (fun st => (None, st)) (walk_block comp)) c st;
  mret (match r with Next st => (None, st) | Done x => x end).

(** One iteration of the loop over the components; the loop state is the path,
    the current cluster, [*isdir] and [*size]. *)
Definition walk_step (fuel : nat) (w : str * Z * bool * Z * fat D)
  : res (ctl (str * Z * bool * Z * fat D) (option (Z * bool * Z) * fat D)) :=
  let '(p, cur, isdir, size, st) := w in
  if deref p =? 0 then mret (Done (Some (cur, isdir, size), st))
  else
    let p := skip_slash p in
    if deref p =? 0 then mret (Done (Some (cur, isdir, size), st))
    else match next_comp p with
    | None => mret (Done (None, st))
    | Some comp =>
        let p := drop (length comp) p in
        '(o, st) ← walk_dir fuel comp cur st;
        match o with
        | None => mret (Done (None, st))
        | Some e =>
            cur ← entry_clus e;
            if negb (Z.land (at_ e 11) ATTR_DIR =? 0)
            then mret (Next (p, cur, true, size, st))
            else
              size ← rd32 e 28;
              if negb (deref p =? 0) then mret (Done (None, st))
              else mret (Next (p, cur, false, size, st))
        end
    end.

(** [isdir] and [size] are the values of the caller's variables. *)
Definition walk (fuel : nat) (abs : str) (isdir : bool) (size : Z) st
  : res (option (Z * bool * Z) * fat D) :=
  if (deref abs =? 0) || same_condition abs [SLASH] then mret (Some (root_clus st, true, size), st)
  else while_loop (S (length abs)) (walk_step fuel) (abs, root_clus st, isdir, size, st).

(** [lookup]: block, offset, directory flag, first cluster, size. *)
Definition lookup_block (name83 : list Z) (l : Z) st
  : res (ctl (fat D) (option (Z * Z * bool * Z * Z) * fat D)) :=
  r ← for_loop 16 0 (fun i (_ : unit) =>
        e ← slot st i;
        if at_ e 0 =? 0 then mret (Done None)
        else if (at_ e 0 =? 0xE5) || (Z.land (at_ e 11) ATTR_LFN =? ATTR_LFN)
                || negb (Z.land (at_ e 11) ATTR_VOL =? 0) then mret (Next tt)
        else if negb (entry_match83 e name83) then mret (Next tt)
        else
          c ← entry_clus e; n ← rd32 e 28;
          mret (Done (Some (l, i * 32, negb (Z.land (at_ e 11) ATTR_DIR =? 0), c, n)))) tt;
  mret (match r with Next _ => Next st | Done x => Done (x, st) end).

Definition lookup83 (fuel : nat) (dirclus : Z) (name83 : list Z) st
  : res (option (Z * Z * bool * Z * Z) * fat D) :=
  r ← chain_loop fuel (cluster_loop (fun st => (None, st)) (lookup_block name83)) dirclus st;
  mret (match r with Next st => (None, st) | Done x => x end).

(** The first free slot of a directory block. *)
Definition slot_block (l : Z) st : res (ctl (fat D) (option (Z * Z) * fat D)) :=
  r ← for_loop 16 0 (fun i (_ : unit) =>
        b ← rd (sec st) (i * 32);
        mret (if (b =? 0) || (b =? 0xE5) then Done (l, i * 32) else Next tt)) tt;
  mret (match r with Next _ => Next st | Done x => Done (Some x, st) end).

(** The chain loop of [dir_slot], which also remembers the last cluster. *)
Fixpoint slot_loop (fuel : nat) (c prev : Z) st
  : res (ctl (Z * fat D) (option (Z * Z) * fat D)) :=
  match fuel with
  | O => Oof
  | S fuel' =>
      if c <? EOC then
        r ← cluster_loop (fun st => (None, st)) slot_block c st;
        match r with
        | Done x => mret (Done x)
        | Next st => '(c', st) ← fat_next c st; slot_loop fuel' c' c st
        end
      else mret (Next (prev, st))
  end.

Definition dir_slot (fuel : nat) (dirclus : Z) st : res (option (Z * Z) * fat D) :=
  r ← slot_loop fuel dirclus 0 st;
  match r with
  | Done x => mret x
  | Next (prev, st) =>
      if prev =? 0 then mret (None, st)
      else
        '(nc, st) ← alloc_clus st;
        if nc =? 0 then mret (None, st)
        else
          z ← for_loop (Z.to_nat (sec_per_clus st)) 0 (fun s st =>
                '(r, st) ← write_from (u64 (clus_lba nc st + s)) (replicate 512 0) st;
                mret (if negb (r =? 0) then Done st else Next st)) st;
          match z with
          | Done st => mret (None, st)
          | Next st =>
              '(r, st) ← fat_set prev nc st;
              if negb (r =? 0) then mret (None, st)
              else
                '(r, st) ← read_sec (clus_lba nc st) st;
                if negb (r =? 0) then mret (None, st)
                else mret (Some (clus_lba nc st, 0), st)
          end
  end.

(** ** The operations of [fat.h] *)

Definition fat_mount (part_lba : Z) st : res (Z * fat D) :=
  '(r, st) ← read_sec part_lba st;
  if negb (r =? 0) then mret (-1, st)
  else
    m0 ← rd (sec st) 510; m1 ← rd (sec st) 511;
    if negb (m0 =? 0x55) || negb (m1 =? 0xAA) then mret (-1, st)
    else
      bps ← rd16 (sec st) 11; spc ← rd (sec st) 13; reserved ← rd16 (sec st) 14;
      fats ← rd (sec st) 16; sz ← rd32 (sec st) 36; root ← rd32 (sec st) 44;
      let st := Fat (sec st) (fat_start st) (data_start st) spc (num_fats st) sz root
                    (cwd_clus st) (cwd_path st) (is_mounted st) (alloc_hint st) (fdisk st) in
      if negb (bps =? 512) || (spc =? 0) || (fats =? 0) || (sz =? 0) || (root <? 2) then mret (-1, st)
      else
        let fs := u64 (part_lba + reserved) in
        mret (0, Fat (sec st) fs (u64 (fs + fats * sz)) spc fats sz root root [SLASH] true
                     (alloc_hint st) (fdisk st)).

Definition fat_unmount st : fat D :=
  Fat (sec st) (fat_start st) (data_start st) (sec_per_clus st) (num_fats st) (fat_sz st) (root_clus st)
      (cwd_clus st) (cwd_path st) false (alloc_hint st) (fdisk st).

Definition fat_chdir (fuel : nat) (path : str) st : res (Z * fat D) :=
  let path := if deref path =? 0 then [SLASH] else path in
  o ← abspath (cwd_path st) path;
  match o with
  | None => mret (-1, st)
  | Some abs =>
      '(w, st) ← walk fuel abs false 0 st;
      match w with
      | Some (c, true, _) => mret (0, set_fcwd st c abs)
      | _ => mret (-1, st)
      end
  end.

Definition fat_getcwd (cap : Z) st : Z * list Z :=
  let n := Z.of_nat (length (cwd_path st)) in
  if cap <? n + 1 then (-1, []) else (n, cwd_path st).

(** A directory block in a listing; the loop state is the text so far. *)
Definition list_block (cap : Z) (out : list Z) st : res (ctl (list Z) (list Z)) :=
  for_loop 16 0 (fun i out =>
    e ← slot st i;
    if at_ e 0 =? 0 then mret (Done out)
    else match entry_name e with
         | None => mret (Next out)
         | Some nm =>
             if cap <? Z.of_nat (length out) + Z.of_nat (length nm) + 2 then mret (Done out)
             else mret (Next (out ++ nm ++ (if negb (Z.land (at_ e 11) ATTR_DIR =? 0) then [SLASH] else []) ++ [10]))
         end) out.

(** The chain loop of [fat_list]; [None] is [return -1]. *)
Fixpoint list_chain (fuel : nat) (cap c : Z) (out : list Z) st : res (option (list Z) * fat D) :=
  match fuel with
  | O => Oof
  | S fuel' =>
      if c <? EOC then
        r ← for_loop (Z.to_nat (sec_per_clus st)) 0 (fun s '(out, st) =>
              '(r, st) ← read_sec (u64 (clus_lba c st + s)) st;
              if negb (r =? 0) then mret (Done (None, st))
              else
                b ← list_block cap out st;
                mret (match b with Next out => Next (out, st) | Done out => Done (Some out, st) end)) (out, st);
        match r with
        | Done x => mret x
        | Next (out, st) => '(c', st) ← fat_next c st; list_chain fuel' cap c' out st
        end
      else mret (Some out, st)
  end.

Definition fat_list (fuel : nat) (path : str) (cap : Z) st : res (Z * list Z * fat D) :=
  o ← abspath (cwd_path st) path;
  match o with
  | None => mret (-1, [], st)
  | Some abs =>
      '(w, st) ← (if negb (deref path =? 0) then walk fuel abs false 0 st
                  else mret (Some (cwd_clus st, true, 0), st));
      match w with
      | Some (c, true, _) =>
          '(o, st) ← list_chain fuel cap c [] st;
          mret (match o with Some out => (Z.of_nat (length out), out, st) | None => (-1, [], st) end)
      | _ => mret (-1, [], st)
      end
  end.

(** The blocks of one cluster of a file, while [pos < cap]. *)
Definition read_cluster (cap cl : Z) (out : list Z) st
  : res (ctl (list Z * fat D) (option (list Z) * fat D)) :=
  for_loop (Z.to_nat (sec_per_clus st)) 0 (fun s '(out, st) =>
    if cap <=? Z.of_nat (length out) then mret (Next (out, st))
    else
      '(r, st) ← read_sec (u64 (clus_lba cl st + s)) st;
      if negb (r =? 0) then mret (Done (None, st))
      else
        let n := if cap <? Z.of_nat (length out) + 512 then cap - Z.of_nat (length out) else 512 in
        out ← for_each (Z.to_nat n) 0 (fun i out => c ← rd (sec st) i; mret (out ++ [c])) out;
        mret (Next (out, st))) (out, st).

Fixpoint read_chain (fuel : nat) (cap cl : Z) (out : list Z) st : res (option (list Z) * fat D) :=
  match fuel with
  | O => Oof
  | S fuel' =>
      if Z.of_nat (length out) <? cap then
        if EOC <=? cl then mret (Some out, st)
        else
          r ← read_cluster cap cl out st;
          match r with
          | Done x => mret x
          | Next (out, st) => '(cl', st) ← fat_next cl st; read_chain fuel' cap cl' out st
          end
      else mret (Some out, st)
  end.

Definition fat_read (fuel : nat) (path : str) (cap : Z) st : res (Z * list Z * fat D) :=
  o ← abspath (cwd_path st) path;
  match o with
  | None => mret (-1, [], st)
  | Some abs =>
      '(w, st) ← walk fuel abs true 0 st;
      match w with
      | Some (c, false, size) =>
          let cap := if size <? cap then size else cap in
          '(o, st) ← read_chain fuel cap c [] st;
          mret (match o with Some out => (Z.of_nat (length out), out, st) | None => (-1, [], st) end)
      | _ => mret (-1, [], st)
      end
  end.

(** One block of a new cluster: at most 512 bytes of the rest of the buffer,
    zeros behind. *)
Definition write_block (c s : Z) (rest : list Z) st : res (Z * list Z * fat D) :=
  let st := set_sec st (take 512 (take 512 rest ++ replicate 512 0)) in
  '(r, st) ← write_sec (u64 (clus_lba c st + s)) st;
  mret (r, drop 512 rest, st).

(** The loop that allocates and fills the new chain; [rest] is the part of
    [buf] that is left.  [None] is the error return. *)
Fixpoint write_chain (fuel : nat) (newclus tail : Z) (rest : list Z) st : res (option Z * fat D) :=
  match fuel with
  | O => Oof
  | S fuel' =>
      match rest with
      | [] => mret (Some newclus, st)
      | _ :: _ =>
          '(c, st) ← alloc_clus st;
          if c =? 0 then st ← free_chain fuel newclus st; mret (None, st)
          else
            '(r, st) ← (if newclus =? 0 then mret (0, st) else fat_set tail c st);
            let newclus := if newclus =? 0 then c else newclus in
            if negb (r =? 0) then st ← free_chain fuel newclus st; mret (None, st)
            else
              b ← for_loop (Z.to_nat (sec_per_clus st)) 0 (fun s '(rest, st) =>
                    match rest with
                    | [] => mret (Next (rest, st))
                    | _ :: _ =>
                        '(r, rest, st) ← write_block c s rest st;
                        mret (if negb (r =? 0) then Done st else Next (rest, st))
                    end) (rest, st);
              match b with
              | Done st => st ← free_chain fuel newclus st; mret (None, st)
              | Next (rest, st) => write_chain fuel' newclus c rest st
              end
      end
  end.

(** The parent path and the leaf of an absolute path. *)
Definition split_leaf (abs : str) : option (str * str) :=
  let last := last_slash abs 0 (-1) in
  if last <? 0 then None
  else
    let leaf := drop (Z.to_nat (last + 1)) abs in
    if (12 <? length leaf)%nat then None
    else Some (take (Z.to_nat (Z.min (last + 1) (PATH_MAX - 1))) abs, leaf).

(** The chain for the bytes, the entry, and the old chain: [l] is what [lookup]
    found. *)
Definition put_file (fuel : nat) (pclus : Z) (name83 : list Z) (l : option (Z * Z * bool * Z * Z)) (buf : list Z) (len : Z) st
  : res (Z * fat D) :=
  '(n, st) ← (if Z.of_nat (length buf) <? len then Ub else write_chain fuel 0 0 (take (Z.to_nat len) buf) st);
  match n with
  | None => mret (-1, st)
  | Some newclus =>
      '(place, st) ← match l with
                     | Some (lba, off, _, _, _) =>
                         '(r, st) ← read_sec lba st;
                         mret (if negb (r =? 0) then (None, st) else (Some (lba, off), st))
                     | None => dir_slot fuel pclus st
                     end;
      match place with
      | None => st ← free_chain fuel newclus st; mret (-1, st)
      | Some (lba, off) =>
          b ← fill_entry (sec st) off name83 0x20 newclus (u32 len);
          '(r, st) ← write_sec lba (set_sec st b);
          if negb (r =? 0) then st ← free_chain fuel newclus st; mret (-1, st)
          else
            match l with
            | Some (_, _, _, oldclus, _) =>
                if 2 <=? oldclus then st ← free_chain fuel oldclus st; mret (0, st)
                else mret (0, st)
            | None => mret (0, st)
            end
      end
  end.

(** The directory, the short name and the old entry. *)
Definition put_leaf (fuel : nat) (par leaf : str) (buf : list Z) (len : Z) st : res (Z * fat D) :=
  '(w, st) ← walk fuel (if negb (deref par =? 0) then par else [SLASH]) false 0 st;
  match w with
  | Some (pclus, true, _) =>
      match to83 leaf with
      | None => mret (-1, st)
      | Some name83 =>
          '(l, st) ← lookup83 fuel pclus name83 st;
          match l with
          | Some (_, _, true, _, _) => mret (-1, st)
          | _ => put_file fuel pclus name83 l buf len st
          end
      end
  | _ => mret (-1, st)
  end.

Definition fat_write (fuel : nat) (path : str) (buf : list Z) (len : Z) st : res (Z * fat D) :=
  o ← abspath (cwd_path st) path;
  match o ≫= split_leaf with
  | None => mret (-1, st)
  | Some (par, leaf) => put_leaf fuel par leaf buf len st
  end.
End volume.

(** ** Specification *)

Section spec.
Context {D : Type} `{!disk D, !good_disk D}.
Implicit Type st : fat D.

(** Block [i] of the disk. *)
Definition blk st (i : Z) : list Z := d_at (fdisk st) i.

(** A mounted volume: a good disk, a geometry that lies on it (every cluster
    number of the table has its blocks), no block number beyond 2^63. *)
Record fat_ok st : Prop := {
  fo_disk : d_ok (fdisk st);
  fo_fats : 1 <= num_fats st < 256;
  fo_spc : 1 <= sec_per_clus st < 256;
  fo_sz : 0 < fat_sz st;
  fo_max : 3 <= fat_max st <= EOC /\ fat_max st = fat_sz st * 128;
  fo_start : 0 <= fat_start st;
  fo_data : fat_start st + num_fats st * fat_sz st <= data_start st;
  fo_room : data_start st + (fat_max st - 2) * sec_per_clus st <= d_blocks (fdisk st) < 2 ^ 63;
  fo_hint : 0 <= alloc_hint st < fat_max st
}.

(** The entry of cluster [c] in copy [k] of the table, as the 32-bit value. *)
Definition fat_entry st (k c : Z) : Z :=
  le_val (take 4 (drop (Z.to_nat (c * 4 mod 512)) (blk st (fat_start st + k * fat_sz st + c * 4 / 512)))).

(** The next cluster of the chain. *)
Definition next_of st (c : Z) : Z := Z.land (fat_entry st 0 c) 0x0FFFFFFF.

(** The copies of the table agree. *)
Definition mirrored st : Prop :=
  forall k c, 0 <= k < num_fats st -> 0 <= c < fat_max st -> fat_entry st k c = fat_entry st 0 c.

(** The fields of a boot block. *)
Definition word (b : list Z) (n o : nat) : Z := le_val (take n (drop o b)).
Definition bpb_signed (b : list Z) : bool := (at_ b 510 =? 0x55) && (at_ b 511 =? 0xAA).
Definition bpb_good (b : list Z) : bool :=
  (word b 2 11 =? 512) && negb (at_ b 13 =? 0) && negb (at_ b 16 =? 0) &&
  negb (word b 4 36 =? 0) && (2 <=? word b 4 44).

(** The clusters from [c] to the end mark. *)
Inductive chain st : Z -> list Z -> Prop :=
| chain_end c : EOC <= c -> chain st c []
| chain_cons c cs : 2 <= c < fat_max st -> chain st (next_of st c) cs -> chain st c (c :: cs).

(** The blocks of a cluster and the bytes of a chain. *)
Definition clus_block st (c s : Z) : Z := data_start st + (c - 2) * sec_per_clus st + s.
Definition clus_data st (c : Z) : list Z :=
  flat_map (fun s => blk st (clus_block st c s)) (seqZ 0 (sec_per_clus st)).
Definition chain_data st (cs : list Z) : list Z := flat_map (clus_data st) cs.

(** Only the disk and the buffer differ. *)
Definition same_geometry st st' : Prop :=
  fat_start st' = fat_start st /\ data_start st' = data_start st /\ sec_per_clus st' = sec_per_clus st /\
  num_fats st' = num_fats st /\ fat_sz st' = fat_sz st /\ root_clus st' = root_clus st /\
  cwd_clus st' = cwd_clus st /\ cwd_path st' = cwd_path st /\ is_mounted st' = is_mounted st /\
  d_blocks (fdisk st') = d_blocks (fdisk st).

(** [st'] is a good volume whose blocks are [f]. *)
Definition becomes st st' (f : Z -> list Z) : Prop :=
  fat_ok st' /\ same_geometry st st' /\ forall j, 0 <= j -> blk st' j = f j.

(** A block of the tables. *)
Definition in_fat st (j : Z) : Prop := fat_start st <= j < fat_start st + num_fats st * fat_sz st.

(** What changing the entry of [c] does. *)
Definition entry_set st st' (c v : Z) : Prop :=
  fat_ok st' /\ same_geometry st st' /\
  (forall j, 0 <= j -> ~ in_fat st j -> blk st' j = blk st j) /\
  forall k c', 0 <= k < num_fats st -> 0 <= c' < fat_max st ->
    fat_entry st' k c' = if decide (c' = c) then v else fat_entry st k c'.

(** The cluster [alloc_clus] looks at in round [i]. *)
Definition candidate st (i : Z) : Z := 2 + (alloc_hint st + i) mod (fat_max st - 2).

(** What freeing the clusters [cs] does: their entries are 0 in every copy. *)
Definition freed st st' (cs : list Z) : Prop :=
  fat_ok st' /\ same_geometry st st' /\ alloc_hint st' = alloc_hint st /\
  (forall j, 0 <= j -> ~ in_fat st j -> blk st' j = blk st j) /\
  forall k c', 0 <= k < num_fats st -> 0 <= c' < fat_max st ->
    fat_entry st' k c' = if decide (c' ∈ cs) then 0 else fat_entry st k c'.

(** What [alloc_clus] does: the answer is a cluster whose entry was 0 and is
    now the end mark, or 0 when there is none. *)
Definition alloc_spec st (c : Z) st' : Prop :=
  (c = 0 /\ becomes st st' (blk st) /\ forall c', 2 <= c' < fat_max st -> fat_entry st 0 c' <> 0) \/
  (2 <= c < fat_max st /\ fat_entry st 0 c = 0 /\ entry_set st st' c 0x0FFFFFFF).
End spec.

(** A small volume: one copy of a one-block table, one block per cluster; the
    root directory is cluster 2 and a file has the clusters 3 and 4. *)
Definition wit_boot : list Z :=
  replicate 11 0 ++ [0; 2; 1; 1; 0; 1] ++ replicate 19 0 ++ [1; 0; 0; 0] ++ replicate 4 0 ++ [2; 0; 0; 0]
  ++ replicate 462 0 ++ [0x55; 0xAA].
Definition wit_table : list Z :=
  flat_map (le_bytes 4) [0x0FFFFFF8; 0x0FFFFFFF; 0x0FFFFFFF; 4; 0x0FFFFFFF] ++ replicate 492 0.
Definition wit_disk : list (list Z) := wit_boot :: wit_table :: replicate 126 (replicate 512 0).
Definition wit_fat : fat (list (list Z)) :=
  Fat [] 1 2 1 1 1 2 2 [SLASH] true 2 wit_disk.

(** ** Lemmas: blocks *)

Section lemmas.
Context {D : Type} `{!disk D, !good_disk D}.
Implicit Type st : fat D.

Lemma same_geometry_refl st : same_geometry st st.
Proof. by repeat split. Qed.

Lemma same_geometry_trans st1 st2 st3 : same_geometry st1 st2 -> same_geometry st2 st3 -> same_geometry st1 st3.
Proof. unfold same_geometry. intuition congruence. Qed.

(** The fields that [fat_ok] speaks of. *)
Lemma fat_ok_geometry st st' : fat_ok st -> same_geometry st st' -> d_ok (fdisk st') ->
  0 <= alloc_hint st' < fat_max st -> fat_ok st'.
Proof.
  intros [] (E1 & E2 & E3 & E4 & E5 & _ & _ & _ & _ & E10) Hd Hh. unfold fat_max in *.
  split; rewrite ?E1, ?E2, ?E3, ?E4, ?E5, ?E10; try done; unfold fat_max; rewrite ?E5; done.
Qed.

Lemma read_sec_ok st i : fat_ok st -> 0 <= i < d_blocks (fdisk st) ->
  exists st', read_sec i st = Ok (0, st') /\ becomes st st' (blk st) /\ sec st' = blk st i /\
    alloc_hint st' = alloc_hint st.
Proof.
  intros Hok Hi. unfold read_sec. destruct (d_read (fdisk st) i (fo_disk _ Hok) Hi) as (d' & -> & Hd & Hb & Hat).
  cbn [mbind res_bind]. eexists. split; [reflexivity|]. split; [|done].
  assert (same_geometry st (set_sec (set_disk st d') (d_at (fdisk st) i))) as Hg by by repeat split.
  split; [|split; [done|]].
  - apply (fat_ok_geometry st); [done|done|done|apply Hok].
  - intros j _. apply Hat.
Qed.

Lemma write_from_ok st i b : fat_ok st -> 0 <= i < d_blocks (fdisk st) -> is_block b ->
  exists st', write_from i b st = Ok (0, st') /\
    becomes st st' (fun j => if decide (j = i) then b else blk st j) /\ sec st' = sec st /\
    alloc_hint st' = alloc_hint st.
Proof.
  intros Hok Hi Hb. unfold write_from.
  destruct (d_write (fdisk st) i b (fo_disk _ Hok) Hi Hb) as (d' & -> & Hd & Hn & Hat).
  cbn [mbind res_bind]. eexists. split; [reflexivity|]. split; [|done].
  assert (same_geometry st (set_disk st d')) as Hg by by repeat split.
  split; [|split; [done|]].
  - apply (fat_ok_geometry st); [done|done|done|apply Hok].
  - intros j Hj. by apply Hat.
Qed.

Lemma blk_block st i : fat_ok st -> 0 <= i < d_blocks (fdisk st) -> is_block (blk st i).
Proof. intros Hok Hi. by apply d_is_block; [apply Hok|]. Qed.

(** Where the entry of a cluster lies. *)
Lemma entry_place st k c : fat_ok st -> 0 <= k < num_fats st -> 0 <= c < fat_max st ->
  let l := fat_start st + k * fat_sz st + c * 4 / 512 in
  0 <= l < d_blocks (fdisk st) /\ u64 l = l /\ in_fat st l /\
  0 <= c * 4 mod 512 /\ c * 4 mod 512 + 4 <= 512 /\ 0 <= c * 4 / 512 < fat_sz st.
Proof.
  intros Hok Hk Hc. destruct Hok as [_ H1 H2 H3 [H4 H4'] H5 H6 H7 _]. cbv zeta.
  assert (0 <= c * 4 / 512 < fat_sz st) as Hq by (rewrite H4' in Hc; clear -Hc; zdm).
  assert (0 <= (fat_max st - 2) * sec_per_clus st) by (apply Z.mul_nonneg_nonneg; lia).
  assert (k * fat_sz st + fat_sz st <= num_fats st * fat_sz st) by nia.
  assert (0 <= k * fat_sz st) by nia.
  unfold in_fat. change (2 ^ 63) with 9223372036854775808 in *.
  split; [lia|]. split; [apply u64_small; lia|]. split; [lia|].
  split; [clear -Hc; zdm|]. split; [|exact Hq]. clear -Hc; zdm.
Qed.

Lemma rd32_eq (b : list Z) o : is_block b -> 0 <= o -> o + 4 <= 512 ->
  rd32 b o = Ok (le_val (take 4 (drop (Z.to_nat o) b))).
Proof.
  intros [Hl Hb] Ho Hn. unfold SECTOR in Hl. change (rd32 b o) with (Part.rd32 b o).
  apply Part.rd32_ok; [done|done|lia].
Qed.

Lemma le_val4_range (b : list Z) o : is_block b -> 0 <= le_val (take 4 (drop o b)) < 4294967296.
Proof.
  intros [_ Hb]. pose proof (le_val_range (take 4 (drop o b))) as H.
  assert (Forall is_byte (take 4 (drop o b))) as Hf by by apply Forall_take, Forall_drop.
  specialize (H Hf). rewrite length_take in H.
  assert (256 ^ Z.of_nat (4 `min` length (drop o b)) <= 256 ^ 4) by (apply Z.pow_le_mono_r; lia).
  change (256 ^ 4) with 4294967296 in *. lia.
Qed.

Lemma fat_next_ok st c : fat_ok st -> 0 <= c < fat_max st ->
  exists st', fat_next c st = Ok (next_of st c, st') /\ becomes st st' (blk st) /\ alloc_hint st' = alloc_hint st.
Proof.
  intros Hok Hc. destruct (entry_place st 0 c Hok ltac:(pose proof (fo_fats _ Hok); lia) Hc) as (Hl & Hu & _ & Ho & Ho4 & _).
  unfold fat_next. replace (fat_start st + c * 4 / 512) with (fat_start st + 0 * fat_sz st + c * 4 / 512) by lia.
  rewrite Hu. destruct (read_sec_ok st _ Hok Hl) as (st' & -> & Hb & Hs & Hh). cbn [mbind res_bind Z.eqb negb].
  rewrite Hs, rd32_eq by (done || by apply blk_block). by exists st'.
Qed.

(** The bytes of an entry in a block that was written at offset [o]. *)
Lemma entry_after_write (b : list Z) o o' v : length b = 512%nat -> 0 <= o -> o + 4 <= 512 ->
  0 <= o' -> o' + 4 <= 512 -> o mod 4 = 0 -> o' mod 4 = 0 ->
  let b' := take (Z.to_nat o) b ++ le_bytes 4 v ++ drop (Z.to_nat o + 4) b in
  take 4 (drop (Z.to_nat o') b') = if decide (o' = o) then le_bytes 4 v else take 4 (drop (Z.to_nat o') b).
Proof.
  intros Hl Ho Ho4 Ho' Ho4' Hm Hm'. cbv zeta. case_decide as Hd.
  - subst o'. rewrite drop_app_ge by (rewrite length_take; lia). rewrite length_take, Nat.min_l by lia.
    rewrite Nat.sub_diag, drop_0. by rewrite take_app_length' by (by rewrite le_bytes_length).
  - assert (o' + 4 <= o \/ o + 4 <= o') as [H|H] by zdm.
    + rewrite drop_app_le by (rewrite length_take; lia). rewrite take_app_le by (rewrite length_drop, length_take; lia).
      rewrite skipn_firstn_comm, take_take. f_equal. lia.
    + rewrite drop_app_ge by (rewrite length_take; lia). rewrite length_take, Nat.min_l by lia.
      rewrite drop_app_ge by (rewrite le_bytes_length; lia). rewrite le_bytes_length, drop_drop. f_equal. f_equal. lia.
Qed.

(** ** The table *)

Lemma fat_entry_ext st st' k c : fat_ok st -> same_geometry st st' -> 0 <= k < num_fats st ->
  0 <= c < fat_max st ->
  let l := fat_start st + k * fat_sz st + c * 4 / 512 in
  blk st' l = blk st l -> fat_entry st' k c = fat_entry st k c.
Proof.
  intros _ (E1 & _ & _ & _ & E5 & _) _ _. cbv zeta. unfold fat_entry. rewrite E1, E5. by intros ->.
Qed.

Lemma fat_max_geometry st st' : same_geometry st st' -> fat_max st' = fat_max st.
Proof. intros (_ & _ & _ & _ & E & _). unfold fat_max. by rewrite E. Qed.

Lemma mod_512_4 c : (c * 4 mod 512) mod 4 = 0.
Proof. zdm. Qed.

(** The entries after the block of one of them has been written. *)
Lemma entry_write st st' k c v : fat_ok st -> 0 <= k < num_fats st -> 0 <= c < fat_max st ->
  0 <= v < 4294967296 ->
  let l := fat_start st + k * fat_sz st + c * 4 / 512 in
  let o := Z.to_nat (c * 4 mod 512) in
  becomes st st' (fun j => if decide (j = l)
    then take o (blk st l) ++ le_bytes 4 v ++ drop (o + 4) (blk st l) else blk st j) ->
  forall k' c', 0 <= k' < num_fats st -> 0 <= c' < fat_max st ->
    fat_entry st' k' c' = if decide (k' = k /\ c' = c) then v else fat_entry st k' c'.
Proof.
  intros Hok Hk Hc Hv. cbv zeta. intros (Hok' & Hg & Hb) k' c' Hk' Hc'.
  pose proof (entry_place st k c Hok Hk Hc) as (Hl & _ & _ & Ho & Ho4 & Hq).
  pose proof (entry_place st k' c' Hok Hk' Hc') as (Hl' & _ & _ & Ho' & Ho4' & Hq').
  unfold fat_entry. destruct Hg as (E1 & _ & _ & _ & E5 & _). rewrite E1, E5, Hb by lia.
  destruct (decide (fat_start st + k' * fat_sz st + c' * 4 / 512 = fat_start st + k * fat_sz st + c * 4 / 512)) as [Hbl|Hbl].
  - assert (k' = k /\ c' * 4 / 512 = c * 4 / 512) as [-> Hcc].
    { clear -Hbl Hq Hq'. apply (Z.div_mod_unique (fat_sz st)); lia. }
    destruct (blk_block st _ Hok Hl) as [Hlen _]. unfold SECTOR in Hlen.
    pose proof (mod_512_4 c). pose proof (mod_512_4 c').
    rewrite (entry_after_write _ (c * 4 mod 512) (c' * 4 mod 512)) by lia.
    rewrite Hcc. destruct (decide (c' = c)) as [->|Hne].
    + rewrite !decide_True by done. rewrite le_val_bytes. change (256 ^ Z.of_nat 4) with 4294967296.
      by apply Z.mod_small.
    + rewrite !decide_False; [done|by intros [_ ?]|]. clear -Hcc Hne. zdm.
  - rewrite decide_False; [done|]. intros [-> ->]. done.
Qed.

Lemma wr32_block (b : list Z) o v : is_block b -> 0 <= o -> o + 4 <= 512 -> 0 <= v < 4294967296 ->
  let b' := take (Z.to_nat o) b ++ le_bytes 4 v ++ drop (Z.to_nat o + 4) b in
  wr32 b o v = Ok b' /\ is_block b'.
Proof.
  intros [Hl Hb] Ho Ho4 Hv. cbv zeta. unfold SECTOR in *. split.
  - unfold wr32. rewrite le4. by rewrite wr_bytes_ok, ?le_bytes_length by (rewrite ?le_bytes_length; lia).
  - split; [unfold SECTOR; rewrite !length_app, length_take, length_drop, le_bytes_length; lia|].
    rewrite !Forall_app. split; [by apply Forall_take|]. split; [apply le_bytes_byte|by apply Forall_drop].
Qed.

(** One copy of the table. *)
Lemma fat_set_copy st k c v : fat_ok st -> 0 <= k < num_fats st -> 0 <= c < fat_max st ->
  0 <= v < 4294967296 ->
  exists st', (let lba := u64 (fat_start st + k * fat_sz st + c * 4 / 512) in
        '(r, st) ← read_sec lba st;
        if negb (r =? 0) then mret (Done (-1, st))
        else
          b ← wr32 (sec st) (c * 4 mod 512) v;
          '(r, st) ← write_sec lba (set_sec st b);
          if negb (r =? 0) then mret (Done (-1, st)) else mret (Next st)) = Ok (@Next _ (Z * fat D) st') /\
    fat_ok st' /\ same_geometry st st' /\ alloc_hint st' = alloc_hint st /\
    (forall j, 0 <= j -> ~ in_fat st j -> blk st' j = blk st j) /\
    forall k' c', 0 <= k' < num_fats st -> 0 <= c' < fat_max st ->
      fat_entry st' k' c' = if decide (k' = k /\ c' = c) then v else fat_entry st k' c'.
Proof.
  intros Hok Hk Hc Hv. pose proof (entry_place st k c Hok Hk Hc) as (Hl & Hu & Hin & Ho & Ho4 & _).
  cbv zeta. rewrite Hu. destruct (read_sec_ok st _ Hok Hl) as (st1 & -> & Hb1 & Hs1 & Hh1).
  cbn [mbind res_bind Z.eqb negb].
  destruct (wr32_block (sec st1) (c * 4 mod 512) v) as [-> Hb']; [rewrite Hs1; by apply blk_block|lia..|].
  cbn [mbind res_bind]. destruct Hb1 as (Hok1 & Hg1 & Hbl1).
  set (b' := _ ++ _) in *. set (st2 := set_sec st1 b').
  assert (fat_ok st2) as Hok2 by by apply (fat_ok_geometry st1); [|repeat split|apply Hok1..].
  assert (d_blocks (fdisk st2) = d_blocks (fdisk st)) as Hn by apply Hg1.
  destruct (write_from_ok st2 (fat_start st + k * fat_sz st + c * 4 / 512) b' Hok2 ltac:(lia) Hb')
    as (st3 & E3 & (Hok3 & Hg3 & Hbl3) & _ & Hh3).
  unfold write_sec. change (sec st2) with b'. rewrite E3. cbn [mbind res_bind Z.eqb negb].
  exists st3. split; [reflexivity|].
  assert (same_geometry st st3) as Hg13 by (eapply same_geometry_trans; [exact Hg1|]; exact Hg3).
  assert (becomes st st3 (fun j => if decide (j = fat_start st + k * fat_sz st + c * 4 / 512)
     then b' else blk st j)) as Hbe.
  { split; [done|]. split; [done|]. intros j Hj. rewrite Hbl3 by done. case_decide; [done|]. by apply Hbl1. }
  split; [done|]. split; [done|]. split; [exact (eq_trans Hh3 Hh1)|]. split.
  - intros j Hj Hnin. destruct Hbe as (_ & _ & ->); [|done]. rewrite decide_False; [done|]. by intros ->.
  - apply entry_write; [done..|]. rewrite <- Hs1. exact Hbe.
Qed.

Lemma fat_set_ok st c v : fat_ok st -> 0 <= c < fat_max st -> 0 <= v < 4294967296 ->
  exists st', fat_set c v st = Ok (0, st') /\ entry_set st st' c v /\ alloc_hint st' = alloc_hint st.
Proof.
  intros Hok Hc Hv. unfold fat_set. pose proof (fo_fats _ Hok).
  edestruct (for_loop_inv (fun k st' => fat_ok st' /\ same_geometry st st' /\ alloc_hint st' = alloc_hint st /\
    (forall j, 0 <= j -> ~ in_fat st j -> blk st' j = blk st j) /\
    forall k' c', 0 <= k' < num_fats st -> 0 <= c' < fat_max st ->
      fat_entry st' k' c' = if decide (k' < k /\ c' = c) then v else fat_entry st k' c')
    (fun _ : Z * fat D => False)) as [(st' & -> & HP)|(r & _ & [])]; cycle -1.
  - cbn [mbind res_bind]. destruct HP as (Hok' & Hg & Hh & Hnf & He). exists st'. split; [reflexivity|].
    split; [|done]. split; [done|]. split; [done|]. split; [done|]. intros k' c' Hk' Hc'.
    rewrite He by done. destruct (decide (c' = c)) as [->|?]; [rewrite decide_True by lia|rewrite decide_False by (by intros [_ ?])]; done.
  - split; [done|]. split; [apply same_geometry_refl|]. split; [done|]. split; [done|]. intros k' c' Hk' Hc'.
    rewrite decide_False by lia. done.
  - intros k s Hk (Hok' & Hg & Hh & Hnf & He). left. rewrite Z2Nat.id in Hk by lia.
    pose proof Hg as (E1 & _ & _ & E4 & E5 & _). pose proof (fat_max_geometry _ _ Hg) as Em.
    destruct (fat_set_copy s k c v Hok') as (s' & E & Hok2 & Hg2 & Hh2 & Hnf2 & He2); [lia..|].
    exists s'. split; [exact E|]. split; [done|]. split; [by eapply same_geometry_trans|]. split; [congruence|]. split.
    + intros j Hj Hn. rewrite Hnf2, Hnf; [done..|]. unfold in_fat in *. by rewrite E1, E4, E5.
    + intros k' c' Hk' Hc'. rewrite He2, He by lia. destruct (decide (c' = c)) as [->|?].
      * destruct (decide (k' = k)) as [->|?].
        -- rewrite !decide_True by lia. done.
        -- rewrite decide_False by (by intros [? _]). do 2 case_decide; try done; lia.
      * rewrite !decide_False by (by intros [_ ?]). done.
Qed.

Lemma unchanged_trans st st1 st2 : becomes st st1 (blk st) -> becomes st1 st2 (blk st1) -> becomes st st2 (blk st).
Proof.
  intros (_ & Hg & Hb) (H1 & H2 & H3). split; [done|]. split; [by eapply same_geometry_trans|].
  intros j Hj. rewrite H3 by done. by apply Hb.
Qed.

(** Only the entries of copy 0 in the blocks count for a chain. *)
Lemma becomes_entry st st' k c : fat_ok st -> becomes st st' (blk st) -> 0 <= k < num_fats st ->
  0 <= c < fat_max st -> fat_entry st' k c = fat_entry st k c.
Proof.
  intros Hok (_ & Hg & Hb) Hk Hc. apply fat_entry_ext; [done..|]. apply Hb.
  by apply (entry_place st k c).
Qed.

Lemma entry_range st k c : fat_ok st -> 0 <= k < num_fats st -> 0 <= c < fat_max st ->
  0 <= fat_entry st k c < 4294967296.
Proof. intros Hok Hk Hc. apply le_val4_range, blk_block; [done|]. by apply (entry_place st k c). Qed.

(** ** Allocation *)

Lemma candidate_range st i : fat_ok st -> 2 <= candidate st i < fat_max st.
Proof.
  intros Hok. destruct (fo_max _ Hok) as [Hm _]. unfold candidate.
  pose proof (Z.mod_pos_bound (alloc_hint st + i) (fat_max st - 2)). lia.
Qed.

(** Every cluster is looked at. *)
Lemma candidate_covers st c : fat_ok st -> 2 <= c < fat_max st ->
  exists i, 0 <= i < fat_max st /\ candidate st i = c.
Proof.
  intros Hok Hc. set (m := fat_max st - 2). exists ((c - 2 - alloc_hint st) mod m).
  pose proof (Z.mod_pos_bound (c - 2 - alloc_hint st) m ltac:(lia)). split; [lia|].
  unfold candidate. rewrite Zplus_mod_idemp_r. fold m. rewrite Z.mod_small by lia. lia.
Qed.

Lemma alloc_scan st s i : fat_ok st -> becomes st s (blk st) -> alloc_hint s = alloc_hint st ->
  0 <= i < fat_max st ->
  u32 (2 + u32 (alloc_hint s + i) mod (if 0 <? u32 (fat_max st - 2) then u32 (fat_max st - 2) else 1))
  = candidate st i.
Proof.
  intros Hok _ -> Hi. destruct (fo_max _ Hok) as [Hm _]. pose proof (fo_hint _ Hok). unfold EOC in Hm.
  pose proof (candidate_range st i Hok) as Hc. unfold candidate in *.
  rewrite !(u32_small (fat_max st - 2)) by lia. rewrite (proj2 (Z.ltb_lt _ _)) by lia.
  rewrite (u32_small (alloc_hint st + i)) by lia. apply u32_small. lia.
Qed.

Lemma entry_set_becomes st st1 st2 c v : fat_ok st -> becomes st st1 (blk st) -> entry_set st1 st2 c v ->
  entry_set st st2 c v.
Proof.
  intros Hok Hb (H1 & H2 & H3 & H4). pose proof Hb as (_ & Hg & Hbl). pose proof Hg as (E1 & _ & _ & E4 & E5 & _).
  split; [done|]. split; [by eapply same_geometry_trans|]. split.
  - intros j Hj Hn. rewrite H3; [by apply Hbl|done|]. unfold in_fat in *. by rewrite E1, E4, E5.
  - intros k c' Hk Hc'. rewrite H4 by (rewrite ?E4, ?(fat_max_geometry _ _ Hg); done).
    by rewrite (becomes_entry st st1).
Qed.

Lemma alloc_clus_ok st : fat_ok st ->
  exists c st', alloc_clus st = Ok (c, st') /\ alloc_spec st c st' /\
    alloc_hint st' = if c =? 0 then alloc_hint st else c.
Proof.
  intros Hok. destruct (fo_max _ Hok) as [Hm _]. pose proof (fo_fats _ Hok) as Hf. unfold alloc_clus.
  edestruct (for_loop_inv (fun i s => becomes st s (blk st) /\ alloc_hint s = alloc_hint st /\
      forall i', 0 <= i' < i -> fat_entry st 0 (candidate st i') <> 0)
    (fun r : Z * fat D => let '(c, s) := r in (2 <= c < fat_max st /\ fat_entry st 0 c = 0 /\
       entry_set st s c 0x0FFFFFFF) /\ alloc_hint s = c))
    as [(s & -> & Hb & Hh & Hn)|([c s] & -> & Hs & Hh)]; cycle -2.
  - cbn [mbind res_bind]. exists 0, s. split; [reflexivity|]. split; [|done]. left. split; [done|]. split; [done|].
    intros c Hc. destruct (candidate_covers st c Hok Hc) as (i & Hi & <-). apply Hn. lia.
  - cbn [mbind res_bind]. exists c, s. split; [reflexivity|]. split; [by right|].
    destruct Hs. destruct (Z.eqb_spec c 0); [lia|done].
  - split; [split; [done|split; [apply same_geometry_refl|done]]|]. split; [done|]. intros i' ?. lia.
  - intros i s Hi (Hb & Hh & Hn). rewrite Z2Nat.id in Hi by lia. rewrite (alloc_scan st s i) by (done || lia).
    pose proof (candidate_range st i Hok) as Hc. set (c := candidate st i) in *.
    rewrite (proj2 (Z.leb_gt _ _)) by lia. pose proof Hb as (Hoks & Hg & _). pose proof (fat_max_geometry _ _ Hg) as Em.
    pose proof Hg as (_ & _ & _ & E4 & _).
    destruct (entry_place s 0 c Hoks ltac:(lia) ltac:(lia)) as (Hl & Hu & _ & Ho & Ho4 & _).
    replace (fat_start s + c * 4 / 512) with (fat_start s + 0 * fat_sz s + c * 4 / 512) by lia. rewrite Hu.
    destruct (read_sec_ok s _ Hoks Hl) as (s1 & -> & Hb1 & Hs1 & Hh1). cbn [mbind res_bind Z.eqb negb].
    rewrite Hs1, rd32_eq by (done || by apply blk_block). cbn [mbind res_bind].
    fold (fat_entry s 0 c). rewrite (becomes_entry st s) by (done || lia).
    destruct (Z.eqb_spec (fat_entry st 0 c) 0) as [Hz|Hz].
    + right. pose proof Hb1 as (Hok1 & Hg1 & Hbl1). pose proof (unchanged_trans _ _ _ Hb Hb1) as Hbs.
      destruct (fat_set_ok s1 c 0x0FFFFFFF Hok1) as (s2 & -> & He & Hh2);
        [rewrite (fat_max_geometry _ _ Hg1); lia|lia|].
      cbn [mbind res_bind Z.eqb negb]. eexists. split; [reflexivity|]. split; [|done]. split; [lia|]. split; [done|].
      pose proof (entry_set_becomes _ _ _ _ _ Hok Hbs He) as (Ha & Hb2 & Hc2 & Hd2).
      split; [|done]. apply (fat_ok_geometry s2); [done|repeat split|apply Ha|].
      cbn [alloc_hint set_hint]. rewrite (fat_max_geometry _ _ Hb2). lia.
    + left. eexists. split; [reflexivity|]. split; [|split; [congruence|]].
      * by eapply unchanged_trans.
      * intros i' Hi'. destruct (decide (i' = i)) as [->|?]; [done|]. apply Hn. lia.
Qed.

(** ** Chains *)

Lemma chain_det st c cs cs' : fat_max st <= EOC -> chain st c cs -> chain st c cs' -> cs = cs'.
Proof.
  intros Hm H. revert cs'. induction H as [c Hc|c cs Hc H IH]; intros cs' H'.
  - inversion H'; [done|lia].
  - inversion H'; [lia|]. subst. f_equal. by apply IH.
Qed.

Lemma chain_suffix st c cs cs1 d cs2 : chain st c cs -> cs = cs1 ++ d :: cs2 -> chain st d (d :: cs2).
Proof.
  intros H. revert cs1. induction H as [c Hc|c cs Hc H IH]; intros cs1 E.
  - by destruct cs1.
  - destruct cs1 as [|x cs1]; injection E as -> ->; [by constructor|]. by apply (IH cs1).
Qed.

(** A chain that ends visits no cluster twice. *)
Lemma chain_nodup st c cs : fat_max st <= EOC -> chain st c cs -> NoDup cs.
Proof.
  intros Hm H. induction H as [c Hc|c cs Hc H IH]; [constructor|]. constructor; [|done].
  intros Hin. apply list_elem_of_split in Hin as (l1 & l2 & E).
  pose proof (chain_suffix _ _ _ _ _ _ H E) as H2.
  assert (chain st c (c :: cs)) as H1 by by constructor.
  apply (f_equal length) in E. pose proof (f_equal length (chain_det _ _ _ _ Hm H1 H2)).
  rewrite length_app in E. cbn [length] in *. lia.
Qed.

Lemma chain_range st c cs : chain st c cs -> Forall (fun d => 2 <= d < fat_max st) cs.
Proof. induction 1; by constructor. Qed.

(** Its length is below the number of clusters: this much fuel is enough. *)
Lemma chain_length st c cs : fat_ok st -> chain st c cs -> Z.of_nat (length cs) <= fat_max st - 2.
Proof.
  intros Hok H. destruct (fo_max _ Hok) as [Hm _].
  assert (cs ⊆+ seqZ 2 (fat_max st - 2)) as Hs.
  { apply NoDup_submseteq; [apply (chain_nodup st c); [lia|done]|]. intros d Hd. apply elem_of_seqZ.
    pose proof (chain_range _ _ _ H) as Hr. rewrite Forall_forall in Hr. specialize (Hr d Hd). lia. }
  apply submseteq_length in Hs. rewrite length_seqZ in Hs. lia.
Qed.

(** A chain depends on the entries of its clusters only. *)
Lemma chain_ext st st' c cs : fat_max st' = fat_max st ->
  (forall d, d ∈ cs -> fat_entry st' 0 d = fat_entry st 0 d) -> chain st c cs -> chain st' c cs.
Proof.
  intros Em He H. induction H as [c Hc|c cs Hc H IH]; [by constructor|].
  constructor; [by rewrite Em|]. unfold next_of. rewrite He by by left. apply IH. intros d Hd. apply He. by right.
Qed.

Lemma chain_unchanged st st' c cs : fat_ok st -> becomes st st' (blk st) -> chain st c cs -> chain st' c cs.
Proof.
  intros Hok Hb H. apply (chain_ext st); [by apply fat_max_geometry, Hb| |done].
  intros d Hd. pose proof (chain_range _ _ _ H) as Hr. rewrite Forall_forall in Hr. specialize (Hr d Hd).
  apply becomes_entry; [done|done| |lia]. pose proof (fo_fats _ Hok). lia.
Qed.

(** ** Freeing a chain *)

Lemma free_chain_ok cs fuel st c : fat_ok st -> chain st c cs -> (length cs < fuel)%nat ->
  exists st', free_chain fuel c st = Ok st' /\ freed st st' cs.
Proof.
  revert fuel st c. induction cs as [|d cs IH]; intros fuel st c Hok Hch Hfuel.
  - destruct fuel as [|fuel]; [lia|]. inversion Hch; subst. cbn [free_chain].
    rewrite (proj2 (Z.ltb_ge c EOC)), andb_false_r by done. exists st. split; [reflexivity|].
    split; [done|]. split; [apply same_geometry_refl|]. split; [done|]. split; [done|].
    intros k c' _ _. rewrite decide_False by set_solver. done.
  - destruct fuel as [|fuel]; [cbn in Hfuel; lia|]. destruct (fo_max _ Hok) as [Hm _].
    pose proof (fo_fats _ Hok) as Hf. pose proof (chain_nodup st c _ (proj2 Hm) Hch) as Hnd.
    inversion Hch as [|? ? Hd Htl]; subst. apply NoDup_cons in Hnd as [Hnin Hnd]. cbn [free_chain].
    rewrite (proj2 (Z.leb_le 2 d)), (proj2 (Z.ltb_lt d EOC)) by lia. cbn [andb].
    destruct (entry_place st 0 d Hok ltac:(lia) ltac:(lia)) as (Hl & Hu & _ & Ho & Ho4 & _).
    replace (fat_start st + d * 4 / 512) with (fat_start st + 0 * fat_sz st + d * 4 / 512) by lia. rewrite Hu.
    destruct (read_sec_ok st _ Hok Hl) as (st1 & -> & Hb1 & Hs1 & Hh1). cbn [mbind res_bind Z.eqb].
    rewrite Hs1, rd32_eq by (done || by apply blk_block). cbn [mbind res_bind mret res_ret].
    fold (fat_entry st 0 d). fold (next_of st d).
    destruct (fat_set_ok st1 d 0) as (st2 & -> & He & Hh2);
      [apply Hb1|rewrite (fat_max_geometry _ _ (proj1 (proj2 Hb1))); split; [lia|apply Hd]|lia|]. cbn [mbind res_bind].
    pose proof (entry_set_becomes _ _ _ _ _ Hok Hb1 He) as (Hok2 & Hg2 & Hn2 & He2).
    pose proof Hg2 as (E1 & _ & _ & E4 & E5 & _). pose proof (fat_max_geometry _ _ Hg2) as Em.
    assert (chain st2 (next_of st d) cs) as Hch2.
    { apply (chain_ext st); [done| |done]. intros x Hx. pose proof (chain_range _ _ _ Htl) as Hr.
      rewrite Forall_forall in Hr. specialize (Hr x Hx). rewrite He2 by lia. rewrite decide_False; [done|]. by intros ->. }
    destruct (IH fuel st2 _ Hok2 Hch2) as (st3 & -> & Hok3 & Hg3 & Hh3 & Hn3 & He3); [cbn in Hfuel; lia|].
    exists st3. split; [reflexivity|]. split; [done|]. split; [by eapply same_geometry_trans|].
    split; [congruence|]. split.
    + intros j Hj Hi. rewrite Hn3, Hn2; [done..|]. unfold in_fat in *. by rewrite E1, E4, E5.
    + intros k c' Hk Hc'. rewrite He3, He2 by (rewrite ?E4, ?Em; done).
      destruct (decide (c' ∈ cs)); [rewrite decide_True by set_solver; done|].
      destruct (decide (c' = d)) as [->|?]; [rewrite decide_True by set_solver|rewrite decide_False by set_solver]; done.
Qed.
End lemmas.

(** ** Mounting *)

Section mount.
Context {D : Type} `{!disk D, !good_disk D}.
Implicit Type st : fat D.

Lemma rd16_ok (b : list Z) o : Forall is_byte b -> 0 <= o -> o + 2 <= Z.of_nat (length b) ->
  rd16 b o = Ok (word b 2 (Z.to_nat o)).
Proof.
  intros Hb Ho Hn. unfold rd16, word. rewrite !rd_at by lia. cbn [mbind res_bind mret res_ret].
  f_equal. pose proof (at_byte b o Hb) as H0. pose proof (at_byte b (o + 1) Hb) as H1. unfold is_byte in H0, H1.
  rewrite (lor_shift _ _ 8) by lia.
  assert (take 2 (drop (Z.to_nat o) b) = [at_ b o; at_ b (o + 1)]) as ->; [|cbn [le_val]; lia].
  unfold at_. rewrite !nth_lookup. destruct (rd_in b o) as (b0 & _ & E0); [lia|].
  destruct (rd_in b (o + 1)) as (b1 & _ & E1); [lia|]. rewrite E0, E1. cbn [default].
  rewrite (drop_S _ b0) by done. cbn [take]. replace (S (Z.to_nat o)) with (Z.to_nat (o + 1)) by lia.
  rewrite (drop_S _ b1) by done. done.
Qed.

Lemma rd16_eq (b : list Z) o : is_block b -> 0 <= o -> o + 2 <= 512 -> rd16 b o = Ok (word b 2 (Z.to_nat o)).
Proof. intros [Hl Hb] Ho Hn. unfold SECTOR in Hl. apply rd16_ok; [done|done|lia]. Qed.

Lemma word4_eq (b : list Z) o : is_block b -> 0 <= o -> o + 4 <= 512 -> rd32 b o = Ok (word b 4 (Z.to_nat o)).
Proof. intros. by rewrite rd32_eq. Qed.

(** Mounting anything: it ends, and writes nothing to the disk. *)
Lemma fat_mount_any st lba : d_ok (fdisk st) -> 0 <= lba ->
  exists r st', fat_mount lba st = Ok (r, st') /\ d_ok (fdisk st') /\ is_mounted st' = (if r =? 0 then true else is_mounted st) /\
    (forall i, d_at (fdisk st') i = d_at (fdisk st) i).
Proof.
  intros Hd Hl. unfold fat_mount, read_sec. destruct (Z.lt_ge_cases lba (d_blocks (fdisk st))) as [Hlt|Hge].
  - destruct (d_read _ lba Hd) as (d' & -> & Hd' & _ & Hat); [lia|]. cbn [mbind res_bind mret res_ret Z.eqb negb].
    pose proof (d_is_block _ lba Hd ltac:(lia)) as Hb. pose proof Hb as [Hlen _]. unfold SECTOR in Hlen.
    cbn [sec set_sec set_disk]. rewrite !rd_at by lia. cbn [mbind res_bind].
    destruct (_ || _); [by eexists _, _|]. unfold rd16, rd32. rewrite !rd_at by lia. cbn [mbind res_bind mret res_ret].
    destruct (_ || _); by eexists _, _.
  - rewrite (d_read_out _ _ Hd Hge). cbn [mbind res_bind mret res_ret]. by eexists _, _.
Qed.

Lemma fat_mount_ok st lba b : d_ok (fdisk st) -> 0 <= lba < d_blocks (fdisk st) -> d_at (fdisk st) lba = b ->
  exists st', fat_mount lba st = Ok (if bpb_signed b && bpb_good b then 0 else -1, st') /\
    (forall i, d_at (fdisk st') i = d_at (fdisk st) i) /\
    (sec_per_clus st', fat_sz st', root_clus st') =
      (if bpb_signed b then (at_ b 13, word b 4 36, word b 4 44) else (sec_per_clus st, fat_sz st, root_clus st)) /\
    let start := u64 (lba + word b 2 14) in
    (fat_start st', data_start st', num_fats st', cwd_clus st', cwd_path st', is_mounted st') =
      if bpb_signed b && bpb_good b
      then (start, u64 (start + at_ b 16 * word b 4 36), at_ b 16, word b 4 44, [SLASH], true)
      else (fat_start st, data_start st, num_fats st, cwd_clus st, cwd_path st, is_mounted st).
Proof.
  intros Hd Hl <-. pose proof (d_is_block _ _ Hd Hl) as Hb. set (b := d_at (fdisk st) lba) in *.
  unfold fat_mount, read_sec. destruct (d_read _ _ Hd Hl) as (d' & -> & _ & _ & Hat). fold b.
  cbn [mbind res_bind mret res_ret Z.eqb negb sec set_sec set_disk].
  pose proof Hb as [Hlen _]. unfold SECTOR in Hlen. rewrite !rd_at by lia. cbn [mbind res_bind].
  unfold bpb_signed. destruct (at_ b 510 =? 0x55), (at_ b 511 =? 0xAA); cbn [negb orb andb];
    try (eexists; split; [reflexivity|done]).
  rewrite !rd16_eq, !word4_eq by (done || lia). cbn [mbind res_bind].
  change (Z.to_nat 11) with 11%nat. change (Z.to_nat 14) with 14%nat.
  change (Z.to_nat 36) with 36%nat. change (Z.to_nat 44) with 44%nat.
  unfold bpb_good. rewrite Z.ltb_antisym.
  destruct (word b 2 11 =? 512), (at_ b 13 =? 0), (at_ b 16 =? 0), (word b 4 36 =? 0), (2 <=? word b 4 44);
    cbn [negb orb andb]; (eexists; split; [reflexivity|done]).
Qed.
End mount.

(** ** Properties *)

(** Allocation on a good volume always answers: either a cluster whose
    entry was 0, whose entry is now the end mark in every copy of the table,
    every other entry and every data block being as before; or 0, and then no
    cluster is free and nothing has changed.  The rotating start of the search
    leaves no cluster out. *)
Theorem alloc_clus_takes D `{!disk D, !good_disk D} (st : fat D) : fat_ok st ->
  exists c st', alloc_clus st = Ok (c, st') /\ alloc_spec st c st'.
Proof. intros Hok. destruct (alloc_clus_ok st Hok) as (c & st' & E & H & _). by exists c, st'. Qed.

(** C25. Freeing a chain that reaches an end mark ends, and sets exactly the
    entries of its clusters to 0, in every copy of the table: as many steps as
    the volume has clusters are enough, because such a chain visits no cluster
    twice. *)
Theorem free_chain_frees D `{!disk D, !good_disk D} (st : fat D) c cs fuel : fat_ok st -> chain st c cs ->
  fat_max st <= Z.of_nat fuel ->
  NoDup cs /\ exists st', free_chain fuel c st = Ok st' /\ freed st st' cs.
Proof.
  intros Hok Hch Hf. split; [apply (chain_nodup st c); [apply (fo_max _ Hok)|done]|].
  pose proof (chain_length _ _ _ Hok Hch). apply (free_chain_ok _ _ _ c); [done|done|lia].
Qed.

(** [fat_mount] accepts exactly the blocks that carry the signature and a
    usable geometry, and takes the geometry from them; the root becomes the
    current directory.  A block that has the signature and is refused has
    replaced the cluster size, the table size and the root of the volume that
    was mounted before, which stays mounted. *)
Theorem fat_mount_geometry D `{!disk D, !good_disk D} (st : fat D) lba b :
  d_ok (fdisk st) -> 0 <= lba < d_blocks (fdisk st) -> d_at (fdisk st) lba = b ->
  exists st', fat_mount lba st = Ok (if bpb_signed b && bpb_good b then 0 else -1, st') /\
    (forall i, d_at (fdisk st') i = d_at (fdisk st) i) /\
    (sec_per_clus st', fat_sz st', root_clus st') =
      (if bpb_signed b then (at_ b 13, word b 4 36, word b 4 44) else (sec_per_clus st, fat_sz st, root_clus st)) /\
    let start := u64 (lba + word b 2 14) in
    (fat_start st', data_start st', num_fats st', cwd_clus st', cwd_path st', is_mounted st') =
      if bpb_signed b && bpb_good b
      then (start, u64 (start + at_ b 16 * word b 4 36), at_ b 16, word b 4 44, [SLASH], true)
      else (fat_start st, data_start st, num_fats st, cwd_clus st, cwd_path st, is_mounted st).
Proof. apply fat_mount_ok. Qed.

(** ** Witnesses *)

Lemma wit_blocks : is_list_disk wit_disk.
Proof.
  apply Forall_cons. split; [|apply Forall_cons; split].
  3: { apply Forall_replicate. split; [reflexivity|]. apply Forall_replicate. unfold is_byte. lia. }
  all: split; [reflexivity|]; apply (bool_decide_unpack _); vm_compute; exact I.
Qed.

Lemma wit_fat_ok : fat_ok (disk0 := list_disk) wit_fat.
Proof.
  split; cbn -[wit_disk Z.pow]; try lia; [exact wit_blocks|vm_compute; split; [split; discriminate|reflexivity]| |vm_compute; split; [discriminate|reflexivity]].
  change (Z.of_nat (length wit_disk)) with 128. change (fat_max wit_fat) with 128. change (2 ^ 63) with 9223372036854775808. lia.
Qed.

Lemma wit_chain : chain (disk0 := list_disk) wit_fat 3 [3; 4].
Proof.
  assert (fat_max wit_fat = 128) as Em by reflexivity.
  constructor; [rewrite Em; lia|]. replace (next_of (disk0 := list_disk) wit_fat 3) with 4 by (vm_compute; reflexivity).
  constructor; [rewrite Em; lia|]. constructor. vm_compute. discriminate.
Qed.

Lemma alloc_clus_takes_witness : exists c st',
  alloc_clus (disk0 := list_disk) wit_fat = Ok (c, st') /\ alloc_spec (disk0 := list_disk) wit_fat c st'.
Proof. apply (alloc_clus_takes (list (list Z)) wit_fat). exact wit_fat_ok. Defined.

Lemma free_chain_frees_witness : NoDup [3; 4] /\
  exists st', free_chain (disk0 := list_disk) 128 3 wit_fat = Ok st' /\ freed (disk0 := list_disk) wit_fat st' [3; 4].
Proof.
  apply (free_chain_frees (list (list Z)) wit_fat 3 [3; 4] 128); [exact wit_fat_ok|exact wit_chain|].
  vm_compute. discriminate.
Defined.

Lemma fat_mount_geometry_witness : exists st', fat_mount (disk0 := list_disk) 0 wit_fat = Ok (0, st') /\
  data_start st' = 2.
Proof.
  destruct (fat_mount_geometry (list (list Z)) (disk0 := list_disk) wit_fat 0 wit_boot) as (st' & E & _ & _ & G).
  - exact wit_blocks.
  - vm_compute. split; [discriminate|reflexivity].
  - reflexivity.
  - exists st'. split; [exact E|]. cbv zeta in G. replace (bpb_signed wit_boot && bpb_good wit_boot) with true in G
      by (vm_compute; reflexivity).
    injection G as _ -> _ _ _ _. vm_compute. reflexivity.
Defined.
