(* ===== verification/FatFile.v ===== *)
(** * Files and directories of a FAT32 volume

    What the operations of [kernel/fat.c] do to files: reading a file returns
    the bytes of its chain, writing builds a new chain that holds the buffer,
    and the directory searches find the first entry that fits.  The operations
    are those of [Fat.v]. *)
From S2P Require Import Prelude Str Disk Part FatName Fat.

(** ** Specification *)

(** The first element where [f] answers. *)
Fixpoint first {A X} (f : A -> option X) (ls : list A) : option (A * X) :=
  match ls with
  | [] => None
  | a :: ls' => match f a with Some x => Some (a, x) | None => first f ls' end
  end.

Section spec.
Context {D : Type} `{!disk D, !good_disk D}.
Implicit Type st : fat D.

Definition clus_blocks st (c : Z) : list Z := clus_block st c <$> seqZ 0 (sec_per_clus st).
Definition chain_blocks st (cs : list Z) : list Z := flat_map (clus_blocks st) cs.

(** What is read while there is room: the first [cap] bytes. *)
Definition upto (cap : Z) (l : list Z) : list Z := take (Z.to_nat cap) l.

(** Cluster [c] can be allocated. *)
Definition free_in st (c : Z) : Prop := 2 <= c < fat_max st /\ fat_entry st 0 c = 0.

(** Block [j] belongs to one of the clusters [cs]. *)
Definition of_chain st (cs : list Z) (j : Z) : Prop :=
  exists c s, c ∈ cs /\ 0 <= s < sec_per_clus st /\ j = clus_block st c s.

(** The bytes of a cluster. *)
Definition clus_size st : Z := 512 * sec_per_clus st.

(** The clusters [cs], found from [c], begin with [data]; an empty file has no
    cluster and its entry holds 0. *)
Definition holds st (c : Z) (cs data : list Z) : Prop :=
  (data = [] /\ cs = [] /\ c = 0) \/
  (data <> [] /\ chain st c cs /\ take (length data) (chain_data st cs) = data).

(** From [st] to [st'], the free clusters [cs] were taken and nothing else. *)
Definition took st st' (cs : list Z) : Prop :=
  fat_ok st' /\ same_geometry st st' /\ Forall (free_in st) cs /\ NoDup cs /\
  (forall k d, 0 <= k < num_fats st -> 0 <= d < fat_max st -> d ∉ cs -> fat_entry st' k d = fat_entry st k d) /\
  (forall j, 0 <= j -> ~ in_fat st j -> ~ of_chain st cs j -> blk st' j = blk st j).

(** Nothing a file can see has changed: the table and the blocks of the
    clusters in use are as before. *)
Definition undone st st' : Prop :=
  fat_ok st' /\ same_geometry st st' /\
  (forall d, 0 <= d < fat_max st -> fat_entry st' 0 d = fat_entry st 0 d) /\
  exists cs, Forall (free_in st) cs /\
    forall j, 0 <= j -> ~ in_fat st j -> ~ of_chain st cs j -> blk st' j = blk st j.

(** The volume has not room for [n] bytes. *)
Definition no_room st (n : Z) : Prop :=
  exists cs, (forall c, free_in st c -> c ∈ cs) /\ NoDup cs /\ Z.of_nat (length cs) * clus_size st < n.

(** The chain [cs] that starts at [newclus] and ends at [tail]; 0 stands for none. *)
Definition grown st (newclus tail : Z) (cs : list Z) : Prop :=
  (cs = [] /\ newclus = 0) \/ (chain st newclus cs /\ last cs = Some tail /\ newclus <> 0).

(** How far [write_chain] is: the chain holds [pre]. *)
Definition building st st' (newclus tail : Z) (cs pre : list Z) : Prop :=
  took st st' cs /\ grown st' newclus tail cs /\ take (length pre) (chain_data st' cs) = pre /\
  (Z.of_nat (length cs) - 1) * clus_size st < Z.of_nat (length pre) <= Z.of_nat (length cs) * clus_size st.

(** Nothing but the buffer and the state of the disk driver changed. *)
Definition unchanged st st' : Prop := becomes st st' (blk st) /\ alloc_hint st' = alloc_hint st.
End spec.

(** ** Lemmas: clusters *)

Section lemmas.
Context {D : Type} `{!disk D, !good_disk D}.
Implicit Type st : fat D.

Lemma unchanged_refl st : fat_ok st -> unchanged st st.
Proof. intros. split; [split; [done|split; [apply same_geometry_refl|done]]|done]. Qed.

Lemma unchanged_comp st st1 st2 : unchanged st st1 -> unchanged st1 st2 -> unchanged st st2.
Proof. intros [H1 E1] [H2 E2]. split; [by eapply unchanged_trans|congruence]. Qed.

Lemma unchanged_ok st st' : unchanged st st' -> fat_ok st'.
Proof. intros [[H _] _]. exact H. Qed.

Lemma unchanged_geo st st' : unchanged st st' -> same_geometry st st'.
Proof. intros [(_ & H & _) _]. exact H. Qed.

Lemma unchanged_blk st st' j : unchanged st st' -> 0 <= j -> blk st' j = blk st j.
Proof. intros [(_ & _ & H) _]. apply H. Qed.

Lemma clus_block_range st c s : fat_ok st -> 2 <= c < fat_max st -> 0 <= s < sec_per_clus st ->
  0 <= clus_block st c s < d_blocks (fdisk st) /\ u64 (clus_lba c st + s) = clus_block st c s /\
  u64 (clus_lba c st) = clus_lba c st /\ ~ in_fat st (clus_block st c s).
Proof.
  intros Hok Hc Hs. destruct Hok as [_ H1 H2 H3 [H4 H4'] H5 H6 H7 _]. unfold clus_block, clus_lba, in_fat.
  unfold EOC in H4. rewrite (u32_small (c - 2)) by lia. change (2 ^ 63) with 9223372036854775808 in H7.
  assert (0 <= (c - 2) * sec_per_clus st) by (apply Z.mul_nonneg_nonneg; lia).
  assert ((c - 1) * sec_per_clus st <= (fat_max st - 2) * sec_per_clus st) by (apply Z.mul_le_mono_nonneg_r; lia).
  assert ((c - 1) * sec_per_clus st = (c - 2) * sec_per_clus st + sec_per_clus st) by ring.
  assert (0 <= num_fats st * fat_sz st) by (apply Z.mul_nonneg_nonneg; lia).
  clear H4'. generalize dependent ((c - 2) * sec_per_clus st). intros x. intros.
  assert (u64 (data_start st + x) = data_start st + x) as E1 by (apply u64_small; lia).
  rewrite !E1. split; [lia|]. split; [apply u64_small; lia|]. split; [done|lia].
Qed.

(** Different clusters have different blocks. *)
Lemma clus_block_inj st c s c' s' : 0 <= s < sec_per_clus st -> 0 <= s' < sec_per_clus st ->
  clus_block st c s = clus_block st c' s' -> c = c' /\ s = s'.
Proof.
  unfold clus_block. intros Hs Hs' E.
  assert (c - 2 = c' - 2 /\ s = s') as [? ?]; [|lia].
  apply (Z.div_mod_unique (sec_per_clus st)); lia.
Qed.

Lemma clus_blocks_geo st st' c : same_geometry st st' -> clus_blocks st' c = clus_blocks st c.
Proof. intros (_ & E2 & E3 & _). unfold clus_blocks, clus_block. by rewrite E2, E3. Qed.

Lemma chain_unchanged' st st' c cs : fat_ok st -> unchanged st st' -> chain st c cs -> chain st' c cs.
Proof. intros Hok [H _]. by apply chain_unchanged. Qed.

Lemma next_unchanged st st' c : fat_ok st -> unchanged st st' -> 2 <= c < fat_max st ->
  next_of st' c = next_of st c.
Proof.
  intros Hok [H _] Hc. unfold next_of. pose proof (fo_fats _ Hok). f_equal. by apply becomes_entry; [..|lia|lia].
Qed.

Lemma fat_next_unchanged st c : fat_ok st -> 2 <= c < fat_max st ->
  exists st', fat_next c st = Ok (next_of st c, st') /\ unchanged st st'.
Proof.
  intros Hok Hc. destruct (fat_next_ok st c Hok ltac:(lia)) as (st' & E & Hb & Hh). by exists st'.
Qed.

(** ** Searching the blocks of a chain *)

(** [body] looks at a block and leaves it alone. *)
Definition scans {X} (f : Z -> list Z -> option X) (body : Z -> fat D -> res (ctl (fat D) (X * fat D))) : Prop :=
  forall l s, is_block (sec s) ->
    body l s = Ok (match f l (sec s) with Some x => Done (x, s) | None => Next s end).

(** How a search ends. *)
Definition scan_end {X} st (f : Z -> list Z -> option X) (ls : list Z) (r : ctl (fat D) (X * fat D)) : Prop :=
  match first (fun l => f l (blk st l)) ls with
  | Some (l, x) => exists st', r = Done (x, st') /\ unchanged st st' /\ sec st' = blk st l
  | None => exists st', r = Next st' /\ unchanged st st'
  end.

Lemma scan_blocks_ok {X} (f : Z -> list Z -> option X) body (fail : fat D -> X * fat D) st c n i s :
  scans f body -> fat_ok st -> 2 <= c < fat_max st -> unchanged st s -> 0 <= i ->
  i + Z.of_nat n <= sec_per_clus st ->
  exists r, for_loop n i (fun s st =>
    let l := u64 (clus_lba c st + s) in
    '(r, st) ← read_sec l st;
    if negb (r =? 0) then mret (Done (fail st)) else body l st) s = Ok r /\
  scan_end st f (clus_block st c <$> seqZ i (Z.of_nat n)) r.
Proof.
  intros Hf Hok Hc. revert i s. induction n as [|n IH]; intros i s Hun Hi Hn; cbn [for_loop].
  - exists (Next s). split; [done|]. by exists s.
  - rewrite seqZ_cons by lia. cbn [fmap list_fmap first]. unfold scan_end. cbn [first].
    pose proof (unchanged_ok _ _ Hun) as Hoks. pose proof (unchanged_geo _ _ Hun) as Hg.
    pose proof Hg as (_ & E2 & E3 & _ & _ & _ & _ & _ & _ & E10).
    destruct (clus_block_range st c i Hok Hc ltac:(lia)) as (Hr & Hu & _).
    assert (u64 (clus_lba c s + i) = clus_block st c i) as ->
      by (rewrite <- Hu; unfold clus_lba; by rewrite E2, E3).
    destruct (read_sec_ok s (clus_block st c i) Hoks ltac:(lia)) as (s1 & -> & Hb1 & Hs1 & Hh1).
    cbn [mbind res_bind Z.eqb negb]. rewrite (unchanged_blk st s) in Hs1 by (done || lia).
    rewrite Hf by (rewrite Hs1; by apply blk_block). rewrite Hs1. cbn [mbind res_bind].
    assert (unchanged st s1) as Hun1 by by eapply unchanged_comp.
    destruct (f _ (blk st (clus_block st c i))) as [x|]; cbn [mbind res_bind].
    + exists (Done (x, s1)). split; [done|]. exists s1. done.
    + replace (Z.succ i) with (i + 1) by lia. replace (Z.pred (Z.of_nat (S n))) with (Z.of_nat n) by lia.
      by apply IH; [|lia..].
Qed.

Lemma first_app {A X} (f : A -> option X) l1 l2 :
  first f (l1 ++ l2) = match first f l1 with Some r => Some r | None => first f l2 end.
Proof. induction l1 as [|a l1 IH]; cbn [app first]; [done|]. by destruct (f a). Qed.

Lemma first_ext {A X} (f g : A -> option X) ls : (forall a, a ∈ ls -> f a = g a) -> first f ls = first g ls.
Proof.
  induction ls as [|a ls IH]; intros H; cbn [first]; [done|]. rewrite H by by left.
  destruct (g a); [done|]. apply IH. intros b Hb. apply H. by right.
Qed.

Lemma scan_cluster_ok {X} (f : Z -> list Z -> option X) body (fail : fat D -> X * fat D) st c s :
  scans f body -> fat_ok st -> 2 <= c < fat_max st -> unchanged st s ->
  exists r, cluster_loop fail body c s = Ok r /\ scan_end st f (clus_blocks st c) r.
Proof.
  intros Hf Hok Hc Hun. pose proof (unchanged_geo _ _ Hun) as (_ & _ & E3 & _). pose proof (fo_spc _ Hok).
  unfold cluster_loop, clus_blocks. rewrite E3.
  destruct (scan_blocks_ok f body fail st c (Z.to_nat (sec_per_clus st)) 0 s) as (r & E & Hr); [done..|lia|lia|].
  rewrite Z2Nat.id in Hr by lia. by exists r.
Qed.

(** [for (c = c0; c < EOC; c = fat_next(c)) for (s ...) ...]. *)
Lemma scan_chain_ok {X} (f : Z -> list Z -> option X) body (fail : fat D -> X * fat D) cs fuel st c s :
  scans f body -> fat_ok st -> chain st c cs -> (length cs < fuel)%nat -> unchanged st s ->
  exists r, chain_loop fuel (cluster_loop fail body) c s = Ok r /\ scan_end st f (chain_blocks st cs) r.
Proof.
  intros Hf Hok. revert fuel c s. induction cs as [|d cs IH]; intros fuel c s Hch Hfu Hun.
  - destruct fuel as [|fuel]; [cbn in Hfu; lia|]. inversion Hch. cbn [chain_loop].
    rewrite (proj2 (Z.ltb_ge c EOC)) by done. exists (Next s). split; [done|]. by exists s.
  - destruct fuel as [|fuel]; [cbn in Hfu; lia|]. inversion Hch as [|? ? Hd Htl]; subst. cbn [chain_loop].
    destruct (fo_max _ Hok) as [Hm _]. rewrite (proj2 (Z.ltb_lt d EOC)) by lia.
    destruct (scan_cluster_ok f body fail st d s) as (r & -> & Hr); [done..|]. cbn [mbind res_bind].
    cbn [chain_blocks flat_map]. unfold scan_end in Hr |- *. rewrite first_app.
    destruct (first _ (clus_blocks st d)) as [[l x]|].
    + destruct Hr as (s' & -> & Hs'). eexists. split; [reflexivity|]. by exists s'.
    + destruct Hr as (s' & -> & Hs'). pose proof (fat_max_geometry _ _ (unchanged_geo _ _ Hs')) as Em.
      destruct (fat_next_unchanged s' d (unchanged_ok _ _ Hs')) as (s2 & -> & Hs2); [by rewrite Em|].
      cbn [mbind res_bind]. rewrite (next_unchanged st s') by done.
      apply IH; [done|cbn in Hfu; lia|]. by eapply unchanged_comp.
Qed.

(** ** Reading the bytes of a chain *)

(** [for (i = 0; i < n; i++) out[pos++] = sec[i];]. *)
Lemma copy_loop (b : list Z) n i out : 0 <= i -> i + Z.of_nat n <= Z.of_nat (length b) ->
  for_each n i (fun i out => c ← rd b i; mret (out ++ [c])) out = Ok (out ++ take n (drop (Z.to_nat i) b)).
Proof.
  revert i out. induction n as [|n IH]; intros i out Hi Hn; cbn [for_each].
  - by rewrite take_0, app_nil_r.
  - destruct (rd_in b i) as (x & -> & Hx); [lia|]. cbn [mbind res_bind mret res_ret].
    rewrite IH by lia. f_equal. rewrite (drop_S _ x (Z.to_nat i)) by done. cbn [take]. rewrite <- app_assoc.
    cbn [app]. replace (Z.to_nat (i + 1)) with (S (Z.to_nat i)) by lia. done.
Qed.

Lemma upto_full cap l : cap <= Z.of_nat (length l) -> forall b, upto cap (l ++ b) = upto cap l.
Proof. intros H b. unfold upto. by rewrite take_app_le by lia. Qed.

Lemma upto_length cap l : 0 <= cap -> Z.of_nat (length (upto cap l)) = Z.min cap (Z.of_nat (length l)).
Proof. intros. unfold upto. rewrite length_take. lia. Qed.

Lemma upto_more cap l b : 0 <= cap -> Z.of_nat (length (upto cap l)) < cap -> length b = 512%nat ->
  upto cap l ++ take (Z.to_nat (if cap <? Z.of_nat (length (upto cap l)) + 512
    then cap - Z.of_nat (length (upto cap l)) else 512)) b = upto cap (l ++ b).
Proof.
  intros Hc Hl Hb. rewrite upto_length in * by done. rewrite Z.min_r by lia.
  unfold upto. rewrite (take_ge l), take_app_ge by lia. f_equal.
  destruct (Z.ltb_spec cap (Z.of_nat (length l) + 512)); [f_equal; lia|].
  rewrite !take_ge by lia. done.
Qed.

Lemma read_blocks_ok cap st c n i s pre : 0 <= cap -> fat_ok st -> 2 <= c < fat_max st -> unchanged st s ->
  0 <= i -> i + Z.of_nat n <= sec_per_clus st ->
  exists s', for_loop n i (fun s '(out, st) =>
    if cap <=? Z.of_nat (length out) then mret (Next (out, st))
    else
      '(r, st) ← read_sec (u64 (clus_lba c st + s)) st;
      if negb (r =? 0) then mret (Done (None, st))
      else
        let n := if cap <? Z.of_nat (length out) + 512 then cap - Z.of_nat (length out) else 512 in
        out ← for_each (Z.to_nat n) 0 (fun i out => c ← rd (sec st) i; mret (out ++ [c])) out;
        mret (Next (out, st))) (upto cap pre, s) =
    Ok (@Next _ (option (list Z) * fat D) (upto cap (pre ++ flat_map (fun s => blk st (clus_block st c s)) (seqZ i (Z.of_nat n))), s')) /\
  unchanged st s'.
Proof.
  intros Hcap Hok Hc. revert i s pre. induction n as [|n IH]; intros i s pre Hun Hi Hn; cbn [for_loop].
  - exists s. split; [|done]. cbn. by rewrite app_nil_r.
  - rewrite seqZ_cons by lia. cbn [flat_map]. rewrite app_assoc.
    replace (Z.succ i) with (i + 1) by lia. replace (Z.pred (Z.of_nat (S n))) with (Z.of_nat n) by lia.
    pose proof (unchanged_ok _ _ Hun) as Hoks. pose proof (unchanged_geo _ _ Hun) as (_ & E2 & E3 & _ & _ & _ & _ & _ & _ & E10).
    destruct (clus_block_range st c i Hok Hc ltac:(lia)) as (Hr & Hu & _).
    destruct (Z.leb_spec cap (Z.of_nat (length (upto cap pre)))) as [Hf|Hf]; cbn [mbind res_bind mret res_ret].
    + rewrite upto_length in Hf by done.
      rewrite <- (upto_full cap pre) with (b := blk st (clus_block st c i)) by lia. by apply IH; [|lia..].
    + assert (u64 (clus_lba c s + i) = clus_block st c i) as ->
        by (rewrite <- Hu; unfold clus_lba; by rewrite E2, E3).
      destruct (read_sec_ok s (clus_block st c i) Hoks ltac:(lia)) as (s1 & -> & Hb1 & Hs1 & Hh1).
      cbn [mbind res_bind Z.eqb negb]. rewrite (unchanged_blk st s) in Hs1 by (done || lia).
      destruct (blk_block st _ Hok Hr) as [Hlen _]. unfold SECTOR in Hlen.
      rewrite copy_loop by (rewrite ?Hs1; try (case_match; zbool); lia). cbn [mbind res_bind mret res_ret].
      rewrite Hs1, drop_0, upto_more by (try done; lia). apply IH; [by eapply unchanged_comp|lia..].
Qed.

Lemma read_cluster_ok cap st c s pre : 0 <= cap -> fat_ok st -> 2 <= c < fat_max st -> unchanged st s ->
  exists s', read_cluster cap c (upto cap pre) s = Ok (Next (upto cap (pre ++ clus_data st c), s')) /\
  unchanged st s'.
Proof.
  intros Hcap Hok Hc Hun. pose proof (unchanged_geo _ _ Hun) as (_ & _ & E3 & _). pose proof (fo_spc _ Hok).
  unfold read_cluster, clus_data. rewrite E3.
  destruct (read_blocks_ok cap st c (Z.to_nat (sec_per_clus st)) 0 s pre) as (s' & E & Hu); [done..|lia|lia|].
  rewrite Z2Nat.id in E by lia. by exists s'.
Qed.

Lemma clus_data_length st c : fat_ok st -> 2 <= c < fat_max st ->
  Z.of_nat (length (clus_data st c)) = 512 * sec_per_clus st.
Proof.
  intros Hok Hc. pose proof (fo_spc _ Hok). unfold clus_data.
  assert (forall n i, 0 <= i -> i + Z.of_nat n <= sec_per_clus st ->
    length (flat_map (fun s => blk st (clus_block st c s)) (seqZ i (Z.of_nat n))) = (512 * n)%nat) as Hg.
  { induction n as [|n IH]; intros i Hi Hn; [done|]. rewrite seqZ_cons by lia. cbn [flat_map]. rewrite length_app.
    replace (Z.pred (Z.of_nat (S n))) with (Z.of_nat n) by lia. rewrite IH by lia.
    destruct (blk_block st (clus_block st c i) Hok) as [Hl _]; [by apply clus_block_range; [..|lia]|].
    unfold SECTOR in Hl. lia. }
  specialize (Hg (Z.to_nat (sec_per_clus st)) 0). rewrite Z2Nat.id in Hg by lia. rewrite Hg by lia. lia.
Qed.

(** Reading a chain that holds at least [cap] bytes, or ends before. *)
Lemma read_chain_ok cap cs fuel st c s pre : 0 <= cap -> fat_ok st -> chain st c cs -> (length cs < fuel)%nat ->
  unchanged st s ->
  exists s', read_chain fuel cap c (upto cap pre) s = Ok (Some (upto cap (pre ++ chain_data st cs)), s') /\
  unchanged st s'.
Proof.
  intros Hcap Hok. revert fuel c s pre. induction cs as [|d cs IH]; intros fuel c s pre Hch Hfu Hun.
  - destruct fuel as [|fuel]; [cbn in Hfu; lia|]. inversion Hch. cbn [read_chain chain_data flat_map].
    rewrite app_nil_r. exists s. split; [|done]. rewrite (proj2 (Z.leb_le EOC c)) by done. by case_match.
  - destruct fuel as [|fuel]; [cbn in Hfu; lia|]. inversion Hch as [|? ? Hd Htl]; subst. cbn [read_chain].
    destruct (Z.ltb_spec (Z.of_nat (length (upto cap pre))) cap) as [Hl|Hl].
    + destruct (fo_max _ Hok) as [Hm _]. rewrite (proj2 (Z.leb_gt EOC d)) by lia.
      destruct (read_cluster_ok cap st d s pre) as (s1 & -> & Hs1); [done..|]. cbn [mbind res_bind].
      pose proof (fat_max_geometry _ _ (unchanged_geo _ _ Hs1)) as Em.
      destruct (fat_next_unchanged s1 d (unchanged_ok _ _ Hs1)) as (s2 & -> & Hs2); [by rewrite Em|].
      cbn [mbind res_bind]. rewrite (next_unchanged st s1) by done.
      cbn [chain_data flat_map]. rewrite app_assoc. apply IH; [done|cbn in Hfu; lia|]. by eapply unchanged_comp.
    + exists s. split; [|done]. rewrite upto_length in Hl by done. by rewrite upto_full by lia.
Qed.

(** ** Writing blocks *)

Lemma pad_block_len (rest : list Z) : length (take 512 (take 512 rest ++ replicate 512 0)) = 512%nat.
Proof. rewrite length_take, length_app, length_take, length_replicate. lia. Qed.

Lemma write_block_ok st c i rest : fat_ok st -> 2 <= c < fat_max st -> 0 <= i < sec_per_clus st ->
  Forall is_byte rest ->
  exists st', write_block c i rest st = Ok (0, drop 512 rest, st') /\ alloc_hint st' = alloc_hint st /\
    becomes st st' (fun j => if decide (j = clus_block st c i)
      then take 512 (take 512 rest ++ replicate 512 0) else blk st j).
Proof.
  intros Hok Hc Hi Hr. destruct (clus_block_range st c i Hok Hc Hi) as (Hl & Hu & _).
  unfold write_block, write_sec. set (b := take 512 (take 512 rest ++ replicate 512 0)).
  assert (is_block b) as Hb.
  { split; [unfold SECTOR, b; rewrite pad_block_len; lia|].
    apply Forall_take, Forall_app. split; [by apply Forall_take|]. apply Forall_replicate. unfold is_byte. lia. }
  assert (fat_ok (set_sec st b)) as Hok1 by by apply (fat_ok_geometry st); [|repeat split|apply Hok..].
  change (clus_lba c (set_sec st b)) with (clus_lba c st). cbv zeta. rewrite Hu.
  destruct (write_from_ok (set_sec st b) (clus_block st c i) b Hok1 Hl Hb) as (s' & E & Hbe & _ & Hh).
  change (sec (set_sec st b)) with b. rewrite E. cbn [mbind res_bind mret res_ret]. exists s'.
  split; [done|]. split; [done|]. exact Hbe.
Qed.

(** A padded block followed by the blocks of the rest. *)
Lemma take_pad (rest more : list Z) n :
  take (length (drop 512 rest)) more = take (512 * n) (drop 512 rest) ->
  take (length rest) (take 512 (take 512 rest ++ replicate 512 0) ++ more) = take (512 * S n) rest.
Proof.
  intros H. destruct (decide (length rest <= 512)%nat) as [Hl|Hl].
  - rewrite take_app_le by (rewrite pad_block_len; lia). rewrite (take_ge rest) by lia.
    rewrite take_take, Nat.min_l, take_app_length by lia. by rewrite take_ge by lia.
  - rewrite (take_app_le (take 512 rest)) by (rewrite length_take; lia). rewrite take_take, Nat.min_id.
    rewrite take_app_ge by (rewrite length_take; lia). rewrite length_take, Nat.min_l by lia.
    rewrite length_drop in H. rewrite H. rewrite <- (take_drop 512 rest) at 3.
    rewrite (take_app_ge (take 512 rest)) by (rewrite length_take; lia).
    rewrite length_take, Nat.min_l by lia. do 2 f_equal. lia.
Qed.

(** The block loop of [fat_write]. *)
Lemma write_blocks_ok st c n i s rest : fat_ok st -> fat_ok s -> same_geometry st s -> 2 <= c < fat_max st ->
  0 <= i -> i + Z.of_nat n <= sec_per_clus st -> Forall is_byte rest ->
  exists s', for_loop n i (fun s '(rest, st) =>
      match rest with
      | [] => mret (Next (rest, st))
      | _ :: _ =>
          '(r, rest, st) ← write_block c s rest st;
          mret (if negb (r =? 0) then Done st else Next (rest, st))
      end) (rest, s) = Ok (@Next _ (fat D) (drop (512 * n) rest, s')) /\
    fat_ok s' /\ same_geometry st s' /\ alloc_hint s' = alloc_hint s /\
    (forall j, 0 <= j -> (forall t, i <= t < i + Z.of_nat n -> j <> clus_block st c t) -> blk s' j = blk s j) /\
    take (length rest) (flat_map (fun t => blk s' (clus_block st c t)) (seqZ i (Z.of_nat n))) = take (512 * n) rest.
Proof.
  intros Hok Hoks Hg Hc. revert i s rest Hoks Hg. induction n as [|n IH]; intros i s rest Hoks Hg Hi Hn Hr; cbn [for_loop].
  - exists s. rewrite Nat.mul_0_r. split; [done|]. split; [done|]. split; [done|]. split; [done|]. split; [done|].
    change (seqZ i (Z.of_nat 0)) with (@nil Z). cbn [flat_map]. by rewrite firstn_nil, take_0.
  - rewrite seqZ_cons by lia. cbn [flat_map].
    replace (Z.succ i) with (i + 1) by lia. replace (Z.pred (Z.of_nat (S n))) with (Z.of_nat n) by lia.
    destruct rest as [|x r0].
    + cbn [mbind res_bind mret res_ret].
      destruct (IH (i + 1) s [] Hoks Hg) as (s' & E & H1 & H2 & H3 & H4 & _); [lia|lia|done|].
      exists s'. rewrite E. rewrite !drop_nil. split; [done|]. split; [done|]. split; [done|]. split; [done|].
      split; [|by rewrite firstn_nil, take_0]. intros j Hj Ht. apply H4; [done|]. intros t Ht'. apply Ht. lia.
    + set (rest := x :: r0) in *.
      pose proof Hg as (_ & E2 & E3 & _ & E5 & _). pose proof (fat_max_geometry _ _ Hg) as Em.
      destruct (write_block_ok s c i rest Hoks) as (s1 & -> & Hh1 & Hok1 & Hg1 & Hb1); [lia|lia|done|].
      cbn [mbind res_bind mret res_ret Z.eqb negb].
      assert (clus_block s c i = clus_block st c i) as Ecb by (unfold clus_block; by rewrite E2, E3).
      destruct (IH (i + 1) s1 (drop 512 rest) Hok1) as (s' & E & H1 & H2 & H3 & H4 & H5);
        [by eapply same_geometry_trans|lia|lia|by apply Forall_drop|].
      exists s'. rewrite E, drop_drop. replace (512 + 512 * n)%nat with (512 * S n)%nat by lia.
      split; [done|]. split; [done|]. split; [done|]. split; [congruence|]. split.
      * intros j Hj Ht. rewrite H4; [|done|intros t Ht'; apply Ht; lia]. rewrite Hb1 by done.
        rewrite decide_False; [done|]. rewrite Ecb. apply Ht. lia.
      * destruct (clus_block_range st c i Hok Hc ltac:(lia)) as (Hl & _).
        rewrite (H4 (clus_block st c i)); [|lia|intros t Ht Heq; apply clus_block_inj in Heq; lia].
        rewrite Hb1, decide_True by (done || lia). apply take_pad. exact H5.
Qed.

(** ** Growing a chain *)

Lemma chain_entry_nonzero st x cs d : fat_max st <= EOC -> chain st x cs -> d ∈ cs -> fat_entry st 0 d <> 0.
Proof.
  intros Hm H Hd E. apply list_elem_of_split in Hd as (l1 & l2 & El).
  pose proof (chain_suffix _ _ _ _ _ _ H El) as H2. inversion H2 as [|? ? Hr H3]; subst.
  assert (next_of st d = 0) as E2 by (unfold next_of; by rewrite E).
  rewrite E2 in H3. inversion H3; unfold EOC in *; lia.
Qed.

Lemma next_of_small st c v : fat_entry st 0 c = v -> 0 <= v < 2 ^ 28 -> next_of st c = v.
Proof.
  intros E Hv. unfold next_of. rewrite E. change 0x0FFFFFFF with (Z.ones 28). rewrite Z.land_ones by lia.
  by apply Z.mod_small.
Qed.

Lemma chain_snoc st st' x cs tail c : fat_max st' = fat_max st -> fat_max st <= EOC -> chain st x cs ->
  last cs = Some tail -> NoDup cs -> 2 <= c < fat_max st ->
  (forall d, d ∈ cs -> d <> tail -> fat_entry st' 0 d = fat_entry st 0 d) ->
  fat_entry st' 0 tail = c -> fat_entry st' 0 c = 0x0FFFFFFF -> chain st' x (cs ++ [c]).
Proof.
  intros Em Hm H. revert tail. induction H as [x Hx|x cs Hx H IH]; intros tail Hl Hnd Hc He Ht Hcm; [done|].
  apply NoDup_cons in Hnd as [Hn Hnd]. cbn [app]. constructor; [by rewrite Em|].
  destruct cs as [|y cs].
  - injection Hl as ->. rewrite (next_of_small _ _ c) by (done || (unfold EOC in Hm; change (2 ^ 28) with 268435456; lia)).
    constructor; [by rewrite Em|]. constructor. rewrite (next_of_small _ _ _ Hcm); unfold EOC; lia.
  - assert (x <> tail) as Hxt.
    { intros ->. apply Hn. rewrite last_cons_cons in Hl. apply last_Some in Hl as [l' ->]. apply elem_of_app. right. by left. }
    assert (next_of st' x = next_of st x) as -> by (unfold next_of; rewrite He; [done|by left|done]).
    apply (IH tail); try done. intros d Hd. apply He. by right.
Qed.

Lemma link_ok s s1 newclus tail cs c : fat_ok s -> grown s newclus tail cs -> NoDup cs ->
  Forall (fun d => 2 <= d < fat_max s) cs ->
  2 <= c < fat_max s -> fat_entry s 0 c = 0 -> entry_set s s1 c 0x0FFFFFFF ->
  (c ∉ cs) /\
  exists s2, (if newclus =? 0 then mret (0, s1) else fat_set tail c s1) = Ok (0, s2) /\
    fat_ok s2 /\ same_geometry s s2 /\ chain s2 (if newclus =? 0 then c else newclus) (cs ++ [c]) /\
    (forall k d, 0 <= k < num_fats s -> 0 <= d < fat_max s -> d ∉ (cs ++ [c]) -> fat_entry s2 k d = fat_entry s k d) /\
    (forall j, 0 <= j -> ~ in_fat s j -> blk s2 j = blk s j).
Proof.
  intros Hok Hgr Hnd Hr Hc Hz (Hok1 & Hg1 & Hb1 & He1). pose proof (fo_fats _ Hok) as Hf.
  destruct (fo_max _ Hok) as [Hm _]. pose proof (fat_max_geometry _ _ Hg1) as Em1.
  destruct Hgr as [[-> ->]|(Hch & Hl & Hne)].
  - split; [by apply not_elem_of_nil|]. exists s1. cbn [Z.eqb app]. split; [done|]. split; [done|]. split; [done|].
    split; [|split; [|done]].
    + constructor; [by rewrite Em1|]. constructor.
      rewrite (next_of_small _ _ 0x0FFFFFFF); [unfold EOC; lia|rewrite He1 by lia; by rewrite decide_True|lia].
    + intros k d Hk Hd Hn. rewrite He1 by done. rewrite decide_False; [done|]. intros ->. apply Hn. by left.
  - assert (c ∉ cs) as Hcn by (intros Hin; apply (chain_entry_nonzero s newclus cs c); [lia|done..]).
    split; [done|]. rewrite (proj2 (Z.eqb_neq newclus 0)) by done.
    assert (tail ∈ cs) as Htl by (apply last_Some in Hl as [l' ->]; apply elem_of_app; right; by left).
    rewrite Forall_forall in Hr. pose proof (Hr tail Htl) as Htr.
    destruct (fat_set_ok s1 tail c Hok1) as (s2 & -> & (Hok2 & Hg2 & Hb2 & He2) & _);
      [rewrite Em1; lia|unfold EOC in Hm; lia|].
    pose proof Hg1 as (E1 & _ & _ & E4 & E5 & _). exists s2. split; [done|]. split; [done|].
    split; [by eapply same_geometry_trans|].
    assert (forall k d, 0 <= k < num_fats s -> 0 <= d < fat_max s -> fat_entry s2 k d =
      if decide (d = tail) then c else if decide (d = c) then 0x0FFFFFFF else fat_entry s k d) as He.
    { intros k d Hk Hd. rewrite He2 by (rewrite ?E4, ?Em1; done). case_decide; [done|]. by apply He1. }
    assert (c <> tail) by (intros ->; done).
    split; [|split].
    + apply (chain_snoc s s2 newclus cs tail c); [by rewrite (fat_max_geometry _ _ Hg2)|lia|done..| | |].
      * intros d Hd Hdt. pose proof (Hr d Hd). rewrite He by lia. rewrite !decide_False; [done| |done]. by intros ->.
      * rewrite He by lia. by rewrite decide_True.
      * rewrite He by lia. rewrite decide_False, decide_True by done. done.
    + intros k d Hk Hd Hn. rewrite He by done. rewrite !decide_False; [done| |];
        intros ->; apply Hn; apply elem_of_app; [right; by left|by left].
    + intros j Hj Hn. rewrite Hb2, Hb1; [done..|]. unfold in_fat in *. by rewrite E1, E4, E5.
Qed.

Lemma flat_map_ext_in {A B} (f g : A -> list B) l : (forall a, a ∈ l -> f a = g a) -> flat_map f l = flat_map g l.
Proof.
  induction l as [|a l IH]; intros H; [done|]. cbn [flat_map]. rewrite H by by left. f_equal. apply IH.
  intros b Hb. apply H. by right.
Qed.

Lemma clus_data_ext st s c : same_geometry st s ->
  (forall t, 0 <= t < sec_per_clus st -> blk s (clus_block st c t) = blk st (clus_block st c t)) ->
  clus_data s c = clus_data st c.
Proof.
  intros (_ & E2 & E3 & _) H. unfold clus_data. rewrite E3. apply flat_map_ext_in. intros t Ht.
  apply elem_of_seqZ in Ht. unfold clus_block at 1. rewrite E2, E3. apply H. lia.
Qed.

Lemma chain_data_ext st s cs : same_geometry st s ->
  (forall c t, c ∈ cs -> 0 <= t < sec_per_clus st -> blk s (clus_block st c t) = blk st (clus_block st c t)) ->
  chain_data s cs = chain_data st cs.
Proof. intros Hg H. apply flat_map_ext_in. intros c Hc. apply clus_data_ext; [done|]. intros t. by apply H. Qed.

Lemma chain_data_length st cs : fat_ok st -> Forall (fun d => 2 <= d < fat_max st) cs ->
  Z.of_nat (length (chain_data st cs)) = Z.of_nat (length cs) * clus_size st.
Proof.
  intros Hok. induction 1 as [|c cs Hc _ IH]; [done|]. cbn [chain_data flat_map length]. rewrite length_app, Nat2Z.inj_add.
  fold (chain_data st cs). rewrite IH, clus_data_length by done. unfold clus_size. lia.
Qed.

Lemma building_range st s newclus tail cs pre : building st s newclus tail cs pre ->
  Forall (fun d => 2 <= d < fat_max st) cs.
Proof. intros ((_ & _ & H & _) & _). eapply Forall_impl; [exact H|]. by intros c [? _]. Qed.

Lemma size_geo st s : same_geometry st s -> clus_size s = clus_size st.
Proof. intros (_ & _ & E & _). unfold clus_size. by rewrite E. Qed.

(** Entries do not see the blocks of a cluster. *)
Lemma entries_data st s c : fat_ok st -> same_geometry st s -> 2 <= c < fat_max st ->
  (forall j, 0 <= j -> (forall t, 0 <= t < sec_per_clus st -> j <> clus_block st c t) -> blk s j = blk st j) ->
  forall k d, 0 <= k < num_fats st -> 0 <= d < fat_max st -> fat_entry s k d = fat_entry st k d.
Proof.
  intros Hok Hg Hc Hb k d Hk Hd. apply fat_entry_ext; [done..|]. destruct (entry_place st k d Hok Hk Hd) as (Hl & _ & Hin & _).
  apply Hb; [lia|]. intros t Ht E. rewrite E in Hin. by destruct (clus_block_range st c t Hok Hc Ht) as (_ & _ & _ & Hn).
Qed.

Lemma same_geometry_sym st s : same_geometry st s -> same_geometry s st.
Proof. unfold same_geometry. intuition congruence. Qed.

(** Filling cluster [c] behind the clusters [cs]. *)
Lemma fill_ok s rest c cs : fat_ok s -> 2 <= c < fat_max s -> Forall is_byte rest ->
  c ∉ cs -> Forall (fun d => 2 <= d < fat_max s) cs ->
  exists s', for_loop (Z.to_nat (sec_per_clus s)) 0 (fun t '(rest, st) =>
      match rest with
      | [] => mret (Next (rest, st))
      | _ :: _ =>
          '(r, rest, st) ← write_block c t rest st;
          mret (if negb (r =? 0) then Done st else Next (rest, st))
      end) (rest, s) = Ok (@Next _ (fat D) (drop (Z.to_nat (clus_size s)) rest, s')) /\
    fat_ok s' /\ same_geometry s s' /\
    (forall k d, 0 <= k < num_fats s -> 0 <= d < fat_max s -> fat_entry s' k d = fat_entry s k d) /\
    (forall j, 0 <= j -> ~ of_chain s [c] j -> blk s' j = blk s j) /\
    chain_data s' cs = chain_data s cs /\
    take (length rest) (clus_data s' c) = take (Z.to_nat (clus_size s)) rest.
Proof.
  intros Hok Hc Hr Hn Hcs. rewrite Forall_forall in Hcs. pose proof (fo_spc _ Hok) as Hspc.
  destruct (write_blocks_ok s c (Z.to_nat (sec_per_clus s)) 0 s rest) as (s' & E & H1 & H2 & H3 & H4 & H5);
    [done|done|apply same_geometry_refl|done|lia|lia|done|].
  replace (512 * Z.to_nat (sec_per_clus s))%nat with (Z.to_nat (clus_size s)) in * by (unfold clus_size; lia).
  rewrite Z2Nat.id, ?Z.add_0_l in * by lia.
  exists s'. split; [exact E|]. split; [done|]. split; [done|]. split; [by apply (entries_data s s' c)|].
  split; [|split].
  - intros j Hj Hnc. apply H4; [done|]. intros t Ht ->. apply Hnc. exists c, t. split; [by left|done].
  - apply chain_data_ext; [done|]. intros d t Hd Ht. apply H4; [by apply clus_block_range; [|apply Hcs|]|].
    intros t' Ht' Eq. apply clus_block_inj in Eq as [-> _]; done.
  - unfold clus_data. pose proof H2 as (_ & E2 & E3 & _). rewrite E3. rewrite <- H5. f_equal.
    apply flat_map_ext_in. intros t _. unfold clus_block. by rewrite E2, E3.
Qed.

Lemma of_chain_app st cs1 cs2 j : of_chain st (cs1 ++ cs2) j <-> of_chain st cs1 j \/ of_chain st cs2 j.
Proof.
  split.
  - intros (c & t & [H|H]%elem_of_app & Ht); [left|right]; by exists c, t.
  - intros [(c & t & H & Ht)|(c & t & H & Ht)]; exists c, t; (split; [apply elem_of_app; by auto|done]).
Qed.

Lemma of_chain_geo st s cs j : same_geometry st s -> of_chain s cs j <-> of_chain st cs j.
Proof. intros (_ & E2 & E3 & _). unfold of_chain, clus_block. by rewrite E2, E3. Qed.

Lemma in_fat_geo st s j : same_geometry st s -> in_fat s j <-> in_fat st j.
Proof. intros (E1 & _ & _ & E4 & E5 & _). unfold in_fat. by rewrite E1, E4, E5. Qed.

Lemma took_snoc st s s' cs c : took st s cs -> free_in s c -> c ∉ cs -> fat_ok s' -> same_geometry s s' ->
  (forall k d, 0 <= k < num_fats s -> 0 <= d < fat_max s -> d ∉ (cs ++ [c]) -> fat_entry s' k d = fat_entry s k d) ->
  (forall j, 0 <= j -> ~ in_fat s j -> ~ of_chain s [c] j -> blk s' j = blk s j) -> 0 < num_fats st ->
  took st s' (cs ++ [c]).
Proof.
  intros (Hok & Hg & Hfr & Hnd & He & Hb) [Hc Hz] Hn Hok' Hg' He' Hb' Hpos.
  pose proof Hg as (_ & _ & _ & E4 & _). pose proof (fat_max_geometry _ _ Hg) as Em.
  split; [done|]. split; [by eapply same_geometry_trans|]. split; [|split; [|split]].
  - apply Forall_app. split; [done|]. apply Forall_singleton. rewrite Em in Hc. split; [done|].
    rewrite <- He by (done || lia). done.
  - apply NoDup_app. split; [done|]. split; [|apply NoDup_singleton]. intros d Hd ->%list_elem_of_singleton. done.
  - intros k d Hk Hd Hnd'. rewrite He' by (rewrite ?E4, ?Em; done). apply He; [done..|].
    intros ?. apply Hnd'. apply elem_of_app. by left.
  - intros j Hj Hi Ho. rewrite of_chain_app in Ho. rewrite Hb'; [apply Hb; tauto|done| |].
    + by rewrite (in_fat_geo st).
    + rewrite (of_chain_geo st) by done. tauto.
Qed.

(** Taking the old and the new part together. *)
Lemma take_both (a b old new : list Z) n : length a = length old -> take (length a) old = a ->
  take (length b) new = take n b -> (length (take n b) <= length new)%nat ->
  take (length (a ++ take n b)) (old ++ new) = a ++ take n b.
Proof.
  intros Hl Ha Hb Hn. rewrite length_app, Hl. rewrite take_app_ge by lia.
  replace (length old + length (take n b) - length old)%nat with (length (take n b)) by lia.
  rewrite take_ge in Ha by lia. subst a. f_equal.
  assert (length (take n b) <= length b)%nat by (rewrite length_take; lia).
  replace (take (length (take n b)) new) with (take (length (take n b)) (take (length b) new)) by (rewrite take_take; f_equal; lia).
  rewrite Hb. by apply take_ge.
Qed.

(** One more cluster: from a chain whose clusters are full to one that holds the
    next part of the buffer. *)
Lemma grow_ok st s s1 newclus tail cs pre rest c : fat_ok st -> building st s newclus tail cs pre ->
  Z.of_nat (length pre) = Z.of_nat (length cs) * clus_size st -> rest <> [] -> Forall is_byte rest ->
  2 <= c < fat_max s -> fat_entry s 0 c = 0 -> entry_set s s1 c 0x0FFFFFFF ->
  exists s2 s3, (if newclus =? 0 then mret (0, s1) else fat_set tail c s1) = Ok (0, s2) /\
    for_loop (Z.to_nat (sec_per_clus s2)) 0 (fun t '(rest, st) =>
      match rest with
      | [] => mret (Next (rest, st))
      | _ :: _ =>
          '(r, rest, st) ← write_block c t rest st;
          mret (if negb (r =? 0) then Done st else Next (rest, st))
      end) (rest, s2) = Ok (@Next _ (fat D) (drop (Z.to_nat (clus_size st)) rest, s3)) /\
    building st s3 (if newclus =? 0 then c else newclus) c (cs ++ [c]) (pre ++ take (Z.to_nat (clus_size st)) rest).
Proof.
  intros Hok Hb Hfull Hne Hrest Hc Hz Hset. pose proof (building_range _ _ _ _ _ _ Hb) as Hr.
  destruct Hb as (Htook & Hgr & Htk & _). pose proof Htook as (Hoks & Hgs & _ & Hnd & _).
  pose proof (fat_max_geometry _ _ Hgs) as Em. pose proof (fo_fats _ Hok) as Hf. pose proof (fo_spc _ Hok) as Hspc.
  destruct (link_ok s s1 newclus tail cs c) as (Hcn & s2 & E2 & Hok2 & Hg2 & Hch2 & He2 & Hb2); try done.
  { by rewrite Em. }
  pose proof (fat_max_geometry _ _ Hg2) as Em2. pose proof (same_geometry_trans _ _ _ Hgs Hg2) as Hgt.
  destruct (fill_ok s2 rest c cs) as (s3 & E3 & Hok3 & Hg3 & He3 & Hb3 & Hd3 & Hl3);
    [done|by rewrite Em2|done|done|by rewrite Em2, Em|].
  rewrite (size_geo st s2) in * by done. exists s2, s3. split; [exact E2|]. split; [exact E3|].
  pose proof (same_geometry_trans _ _ _ Hgt Hg3) as Hg. pose proof Hg2 as (_ & _ & _ & E4 & _).
  assert (0 < clus_size st) as Hcs by (unfold clus_size; lia).
  assert (length (clus_data s3 c) = Z.to_nat (clus_size st)) as Hlc.
  { pose proof (clus_data_length s3 c Hok3) as H. rewrite (fat_max_geometry _ _ Hg3), Em2 in H. specialize (H Hc).
    pose proof (size_geo _ _ Hg) as H2. unfold clus_size in *. lia. }
  split; [|split; [|split]].
  - apply (took_snoc st s); [done|by split|done|done|by eapply same_geometry_trans| | |lia].
    + intros k d Hk Hd Hn. rewrite He3 by (rewrite ?E4, ?Em2; done). by apply He2.
    + intros j Hj Hi Ho. rewrite Hb3; [by apply Hb2|done|]. by rewrite (of_chain_geo s).
  - right. rewrite last_snoc. split; [|split; [done|]].
    + apply (chain_ext s2); [by apply fat_max_geometry| |done]. intros d Hd. apply He3; [rewrite E4; pose proof Hgs as (_ & _ & _ & -> & _); lia|].
      rewrite Em2, Em. apply elem_of_app in Hd as [Hd| ->%list_elem_of_singleton]; [|rewrite Em in Hc; lia].
      rewrite Forall_forall in Hr. specialize (Hr d Hd). lia.
    + destruct (Z.eqb_spec newclus 0); [lia|done].
  - unfold chain_data. rewrite flat_map_app. cbn [flat_map]. rewrite app_nil_r. fold (chain_data s3 cs). rewrite Hd3.
    assert (chain_data s2 cs = chain_data s cs) as ->.
    { apply chain_data_ext; [done|]. intros d t Hd Ht. rewrite Forall_forall in Hr. specialize (Hr d Hd).
      destruct (clus_block_range s d t Hoks) as (Hp & _ & _ & Hn); [by rewrite Em|done|]. apply Hb2; [lia|done]. }
    apply take_both; [|done|done|].
    + pose proof (chain_data_length s cs Hoks) as H. rewrite Em in H. specialize (H Hr). rewrite (size_geo st s) in H by done. lia.
    + rewrite Hlc, length_take. lia.
  - rewrite !length_app, length_take. cbn [length]. destruct rest; [done|]. cbn [length]. nia.
Qed.

(** The way back when no cluster is free. *)
Lemma give_back_ok st s s1 newclus tail cs pre rest fuel : fat_ok st -> building st s newclus tail cs pre ->
  Z.of_nat (length pre) = Z.of_nat (length cs) * clus_size st -> rest <> [] ->
  becomes s s1 (blk s) -> (forall c, 2 <= c < fat_max s -> fat_entry s 0 c <> 0) ->
  fat_max st <= Z.of_nat fuel ->
  exists s', free_chain fuel newclus s1 = Ok s' /\ undone st s' /\ no_room st (Z.of_nat (length (pre ++ rest))).
Proof.
  intros Hok Hb Hfull Hne Hbe Hno Hfu. pose proof (building_range _ _ _ _ _ _ Hb) as Hr.
  destruct Hb as (Htook & Hgr & _ & _). pose proof Htook as (Hoks & Hgs & Hfr & Hnd & He & Hblk).
  pose proof (fat_max_geometry _ _ Hgs) as Em. pose proof (fo_fats _ Hok) as Hf. destruct (fo_max _ Hok) as [Hm _].
  pose proof Hbe as (Hok1 & Hg1 & Hb1). pose proof (fat_max_geometry _ _ Hg1) as Em1.
  pose proof Hgs as (_ & _ & _ & E4 & _). pose proof Hg1 as (_ & _ & _ & E41 & _).
  assert (forall d, 0 <= d < fat_max st -> fat_entry s1 0 d = fat_entry s 0 d) as He1.
  { intros d Hd. apply becomes_entry; [done|done| |]; rewrite ?E4, ?Em; lia. }
  rewrite Forall_forall in Hr. rewrite Forall_forall in Hfr.
  assert (exists s', free_chain fuel newclus s1 = Ok s' /\ freed s1 s' cs) as (s' & E & Hok' & Hg' & _ & Hb' & He').
  { destruct Hgr as [[-> ->]|(Hch & _ & _)].
    - destruct fuel as [|fuel]; [lia|]. exists s1. split; [done|]. split; [done|]. split; [apply same_geometry_refl|].
      split; [done|]. split; [done|]. intros k d _ _. rewrite decide_False; [done|]. apply not_elem_of_nil.
    - pose proof (chain_length s newclus cs Hoks Hch). apply free_chain_ok; [done| |lia].
      by apply (chain_unchanged s). }
  exists s'. split; [exact E|]. split.
  - split; [done|]. split; [by do 2 (eapply same_geometry_trans; [eassumption|])|]. split.
    + intros d Hd. rewrite He' by (rewrite ?E41, ?E4, ?Em1, ?Em; lia). rewrite He1 by done. case_decide as Hin.
      * symmetry. apply (Hfr d Hin).
      * apply He; [lia|done|done].
    + exists cs. split; [by apply Forall_forall|]. intros j Hj Hi Ho. rewrite Hb', Hb1, Hblk; [done..|].
      by rewrite (in_fat_geo s), (in_fat_geo st).
  - exists cs. split; [|split; [done|]].
    + intros c [Hc Hz]. destruct (decide (c ∈ cs)) as [|Hn]; [done|]. exfalso.
      apply (Hno c); [by rewrite Em|]. rewrite He; [done|lia|lia|done].
    + rewrite length_app. destruct rest; [done|]. cbn [length]. lia.
Qed.

Lemma write_chain_ok st fuel : forall s newclus tail cs pre rest, fat_ok st ->
  building st s newclus tail cs pre ->
  (rest <> [] -> Z.of_nat (length pre) = Z.of_nat (length cs) * clus_size st) -> Forall is_byte rest ->
  2 * fat_max st <= Z.of_nat fuel + Z.of_nat (length cs) ->
  exists o s', write_chain fuel newclus tail rest s = Ok (o, s') /\
    match o with
    | Some nc => exists tl cs', building st s' nc tl cs' (pre ++ rest)
    | None => undone st s' /\ no_room st (Z.of_nat (length (pre ++ rest)))
    end.
Proof.
  induction fuel as [|fuel IH]; intros s newclus tail cs pre rest Hok Hb Hfull Hrest Hfu;
    pose proof (building_range _ _ _ _ _ _ Hb) as Hr; pose proof Hb as ((Hoks & Hgs & _ & Hnd & _) & Hgr & _);
    destruct (fo_max _ Hok) as [Hm _]; pose proof (fat_max_geometry _ _ Hgs) as Em;
    assert (Z.of_nat (length cs) <= fat_max st) as Hlc
      by (destruct Hgr as [[-> _]|(Hch & _)]; [cbn; lia|pose proof (chain_length _ _ _ Hoks Hch); lia]).
  { lia. }
  cbn [write_chain]. destruct rest as [|x r0].
  { exists (Some newclus), s. split; [done|]. exists tail, cs. by rewrite app_nil_r. }
  set (rest := x :: r0) in *. assert (rest <> []) as Hne by done. specialize (Hfull Hne).
  destruct (alloc_clus_ok s Hoks) as (c & s1 & -> & Hsp & _). cbn [mbind res_bind].
  destruct Hsp as [(-> & Hbe & Hno)|(Hc & Hz & Hset)].
  - cbn [Z.eqb]. destruct (give_back_ok st s s1 newclus tail cs pre rest (S fuel)) as (s' & E & H); try done; [lia|].
    rewrite E. cbn [mbind res_bind]. by exists None, s'.
  - rewrite (proj2 (Z.eqb_neq c 0)) by lia.
    destruct (grow_ok st s s1 newclus tail cs pre rest c) as (s2 & s3 & E2 & E3 & Hb3); try done.
    rewrite E2. cbn [mbind res_bind Z.eqb negb]. rewrite E3. cbn [mbind res_bind].
    destruct (IH s3 (if newclus =? 0 then c else newclus) c (cs ++ [c]) (pre ++ take (Z.to_nat (clus_size st)) rest)
      (drop (Z.to_nat (clus_size st)) rest)) as (o & s' & E & H); [done|done| |by apply Forall_drop| |].
    + intros Hd. assert (Z.to_nat (clus_size st) <= length rest)%nat.
      { destruct (decide (Z.to_nat (clus_size st) <= length rest)%nat) as [|Hn]; [done|]. rewrite drop_ge in Hd by lia. done. }
      rewrite !length_app, length_take. cbn [length]. pose proof (fo_spc _ Hok). unfold clus_size in *. lia.
    + rewrite length_app. cbn [length]. lia.
    + rewrite <- app_assoc, take_drop in H. exists o, s'. split; [exact E|exact H].
Qed.

Lemma building_holds st s c tl cs data : fat_ok st -> building st s c tl cs data -> took st s cs /\ holds s c cs data.
Proof.
  intros Hok (Ht & Hgr & Htk & Hlo & Hhi). split; [done|]. pose proof (fo_spc _ Hok). unfold clus_size in *.
  destruct data as [|x data].
  - left. assert (cs = []) as -> by (destruct cs; [done|cbn [length] in *; nia]). split; [done|]. split; [done|].
    destruct Hgr as [[_ ->]|(_ & Hl & _)]; [done|done].
  - right. split; [done|]. split; [|done]. destruct Hgr as [[-> ->]|(Hch & _)]; [|done]. cbn [length] in *. lia.
Qed.
End lemmas.

(** ** Properties *)

(** C12. Writing the bytes of a file is all or nothing: on a good volume
    [write_chain] ends, and either the new chain holds the whole buffer, was
    made of free clusters only, and no other entry of the table and no other
    block has changed; or the volume has no room for the buffer, every entry of
    the table is as it was and only blocks of free clusters have changed. *)
Theorem write_chain_stores D `{!disk D, !good_disk D} (st : fat D) buf fuel : fat_ok st -> Forall is_byte buf ->
  2 * fat_max st <= Z.of_nat fuel ->
  exists o st', write_chain fuel 0 0 buf st = Ok (o, st') /\
    match o with
    | Some c => exists cs, took st st' cs /\ holds st' c cs buf
    | None => undone st st' /\ no_room st (Z.of_nat (length buf))
    end.
Proof.
  intros Hok Hbuf Hf. destruct (write_chain_ok st fuel st 0 0 [] [] buf Hok) as (o & st' & E & H).
  - split; [|split; [by left|split; [done|]]].
    + split; [done|]. split; [apply same_geometry_refl|]. split; [constructor|]. split; [constructor|]. done.
    + pose proof (fo_spc _ Hok). unfold clus_size. cbn. lia.
  - done.
  - done.
  - cbn. lia.
  - exists o, st'. split; [exact E|]. cbn [app] in H. destruct o as [c|]; [|exact H].
    destruct H as (tl & cs & Hb). exists cs. by apply (building_holds _ _ _ tl).
Qed.

(** Reading a file that the clusters of a chain hold returns its first
    [cap] bytes, and changes nothing on the disk; as many steps as the volume
    has clusters are enough. *)
Theorem read_chain_reads D `{!disk D, !good_disk D} (st : fat D) c cs data cap fuel : fat_ok st ->
  holds st c cs data -> 0 <= cap <= Z.of_nat (length data) -> fat_max st <= Z.of_nat fuel ->
  exists st', read_chain fuel cap c [] st = Ok (Some (take (Z.to_nat cap) data), st') /\
    forall j, 0 <= j -> blk st' j = blk st j.
Proof.
  intros Hok Hh Hcap Hf. destruct (fo_max _ Hok) as [Hm _]. destruct Hh as [(-> & -> & ->)|(_ & Hch & Hd)].
  - destruct fuel as [|fuel]; [lia|]. exists st. split; [|done]. cbn [read_chain length]. cbn [length] in Hcap.
    rewrite (proj2 (Z.ltb_ge _ _)) by lia. by rewrite firstn_nil.
  - pose proof (chain_length _ _ _ Hok Hch).
    destruct (read_chain_ok cap cs fuel st c st []) as (st' & E & Hu); [lia|done|done|lia|by apply unchanged_refl|].
    replace (upto cap []) with (@nil Z) in E by (unfold upto; by rewrite firstn_nil).
    exists st'. split; [|intros j Hj; by apply unchanged_blk]. rewrite E. cbn [app]. do 2 f_equal.
    unfold upto. rewrite <- Hd. rewrite take_take. f_equal. f_equal. lia.
Qed.

(** ** Witnesses *)

Lemma write_chain_stores_witness : exists o st',
  write_chain (disk0 := list_disk) 256 0 0 (replicate 700 65) wit_fat = Ok (o, st') /\
  match o with
  | Some c => exists cs, took (disk0 := list_disk) wit_fat st' cs /\ holds (disk0 := list_disk) st' c cs (replicate 700 65)
  | None => undone (disk0 := list_disk) wit_fat st' /\ no_room (disk0 := list_disk) wit_fat 700
  end.
Proof.
  apply (write_chain_stores (list (list Z)) (disk0 := list_disk) wit_fat (replicate 700 65) 256); [exact wit_fat_ok| |vm_compute; discriminate].
  apply Forall_replicate. unfold is_byte. lia.
Defined.

Lemma read_chain_reads_witness : exists st',
  read_chain (disk0 := list_disk) 128 600 3 [] wit_fat = Ok (Some (replicate 600 0), st').
Proof.
  destruct (read_chain_reads (list (list Z)) (disk0 := list_disk) wit_fat 3 [3; 4] (replicate 700 0) 600 128) as (st' & E & _).
  - exact wit_fat_ok.
  - right. split; [discriminate|]. split; [exact wit_chain|]. vm_compute. reflexivity.
  - rewrite length_replicate. lia.
  - vm_compute. discriminate.
  - exists st'. rewrite E. reflexivity.
Defined.
