(* ===== verification/FatDir.v ===== *)
(** * Directories of a FAT32 volume

    A directory is the list of the 32-byte entries in the blocks of its chain.
    The three searches of [kernel/fat.c] ([walk], [lookup], [dir_slot]) are
    searches of that list, and writing one entry changes one element of it.
    The operations are those of [Fat.v]. *)
From S2P Require Import Prelude Str Disk Part FatName Fat FatFile.

(** ** Specification *)

(** The sixteen entries of a block. *)
Definition slot_of (b : list Z) (i : Z) : list Z := take 32 (drop (Z.to_nat (i * 32)) b).
Definition slots (b : list Z) : list (list Z) := slot_of b <$> seqZ 0 16.

(** The fields of an entry. *)
Definition e_dir (e : list Z) : bool := negb (Z.land (at_ e 11) ATTR_DIR =? 0).
Definition e_clus (e : list Z) : Z := word e 2 26 + 65536 * word e 2 20.
Definition e_size (e : list Z) : Z := word e 4 28.

(** The first entry that [cls] does not skip, its position, and whether it is a
    hit or ends the search. *)
Fixpoint search (cls : list Z -> option bool) (k : nat) (es : list (list Z)) : option (nat * list Z * bool) :=
  match es with
  | [] => None
  | e :: es' => match cls e with Some h => Some (k, e, h) | None => search cls (S k) es' end
  end.

(** What the three searches do with an entry. *)
Definition by_name (comp : str) (e : list Z) : option bool :=
  if at_ e 0 =? 0 then Some false
  else match entry_name e with
       | Some nm => if name_match nm comp then Some true else None
       | None => None
       end.
Definition by_83 (name83 : list Z) (e : list Z) : option bool :=
  if at_ e 0 =? 0 then Some false
  else if (at_ e 0 =? 0xE5) || (Z.land (at_ e 11) ATTR_LFN =? ATTR_LFN) || negb (Z.land (at_ e 11) ATTR_VOL =? 0)
       then None
       else if entry_match83 e name83 then Some true else None.
Definition by_free (e : list Z) : option bool :=
  if (at_ e 0 =? 0) || (at_ e 0 =? 0xE5) then Some true else None.

(** The entry shown under a name, with its position. *)
Definition find_shown (k : str) (es : list (list Z)) : option (nat * list Z) :=
  list_find (fun e => entry_name e = Some k) es.

(** A directory as the driver and others keep it: behind the first entry that
    ends it there are only such entries, and a name that could have been made
    by [to83] is stored the way [to83] stores it. *)
Record good_dir (es : list (list Z)) : Prop := {
  gd_length : Forall (fun e => length e = 32%nat /\ Forall is_byte e) es;
  gd_end i j e e' : es !! i = Some e -> at_ e 0 = 0 -> (i <= j)%nat -> es !! j = Some e' -> at_ e' 0 = 0;
  gd_name i e s base ext : es !! i = Some e -> name83_of s base ext -> entry_name e = Some (shown83 base ext) ->
    take 11 e = pad 8 (upper <$> base) ++ pad 3 (upper <$> ext)
}.

Section spec.
Context {D : Type} `{!disk D, !good_disk D}.
Implicit Type st : fat D.

Definition entries st (ls : list Z) : list (list Z) := flat_map (fun l => slots (blk st l)) ls.
Definition dir_entries st (cs : list Z) : list (list Z) := entries st (chain_blocks st cs).
End spec.

(** ** Lemmas: searching a list *)

Lemma slots_length b : length (slots b) = 16%nat.
Proof. reflexivity. Qed.

Lemma search_app cls k a b : search cls k (a ++ b) =
  match search cls k a with Some r => Some r | None => search cls (k + length a) b end.
Proof.
  revert k. induction a as [|e a IH]; intros k; cbn [app search length]; [by rewrite Nat.add_0_r|].
  destruct (cls e); [done|]. rewrite IH. by replace (S k + length a)%nat with (k + S (length a))%nat by lia.
Qed.

Lemma search_Some cls k es n e h : search cls k es = Some (n, e, h) ->
  (k <= n)%nat /\ es !! (n - k)%nat = Some e /\ cls e = Some h /\
  forall j e', (j < n - k)%nat -> es !! j = Some e' -> cls e' = None.
Proof.
  revert k. induction es as [|x es IH]; intros k; cbn [search]; [done|].
  destruct (cls x) as [h'|] eqn:E.
  - intros [= <- <- <-]. rewrite Nat.sub_diag. split; [done|]. split; [done|]. split; [done|]. lia.
  - intros (Hk & Hl & Hc & Hn)%IH. replace (n - k)%nat with (S (n - S k)) by lia. split; [lia|].
    split; [done|]. split; [done|]. intros [|j] e' Hj; [by intros [= <-]|]. cbn. apply Hn. lia.
Qed.

Lemma search_None cls k es : search cls k es = None -> Forall (fun e => cls e = None) es.
Proof.
  revert k. induction es as [|x es IH]; intros k; cbn [search]; [done|].
  destruct (cls x) eqn:E; [done|]. intros H. constructor; [done|by eapply IH].
Qed.

(** The sixteen entries of the buffer, one after the other. *)
Lemma slots_loop {X} cls (val : Z -> list Z -> bool -> X) body b :
  (forall i, 0 <= i < 16 -> body i tt = Ok (match cls (slot_of b i) with
     Some h => Done (val i (slot_of b i) h) | None => Next tt end)) ->
  for_loop 16 0 body tt = Ok (match search cls 0 (slots b) with
    Some (k, e, h) => Done (val (Z.of_nat k) e h) | None => Next tt end).
Proof.
  intros Hb. unfold slots.
  assert (forall n (k : nat), (k + n <= 16)%nat -> for_loop n (Z.of_nat k) body tt =
    Ok (match search cls k (slot_of b <$> seqZ (Z.of_nat k) (Z.of_nat n)) with
      Some (k, e, h) => Done (val (Z.of_nat k) e h) | None => Next tt end)) as H; [|exact (H 16%nat 0%nat ltac:(lia))].
  induction n as [|n IH]; intros k Hk; cbn [for_loop]; [done|].
  rewrite seqZ_cons by lia. cbn [fmap list_fmap search]. rewrite Hb by lia. cbn [mbind res_bind].
  destruct (cls (slot_of b (Z.of_nat k))); [done|]. replace (Z.of_nat k + 1) with (Z.of_nat (S k)) by lia.
  rewrite IH by lia. by replace (Z.succ (Z.of_nat k)) with (Z.of_nat (S k)) by lia;
    replace (Z.pred (Z.of_nat (S n))) with (Z.of_nat n) by lia.
Qed.

(** What a search of one block answers, for [scan_chain_ok]. *)
Definition in_block {X} cls (val : Z -> Z -> list Z -> bool -> X) (l : Z) (b : list Z) : option X :=
  match search cls 0 (slots b) with Some (k, e, h) => Some (val l (Z.of_nat k) e h) | None => None end.

(** The blocks one after the other are the list of all entries. *)
Lemma first_entries {X} cls (val : Z -> Z -> list Z -> bool -> X) (bs : Z -> list Z) ls j :
  match first (fun l => in_block cls val l (bs l)) ls with
  | Some (l, x) => exists i k e h, ls !! i = Some l /\ (k < 16)%nat /\
      search cls (16 * j) (flat_map (fun l => slots (bs l)) ls) = Some ((16 * (j + i) + k)%nat, e, h) /\
      slots (bs l) !! k = Some e /\ x = val l (Z.of_nat k) e h
  | None => search cls (16 * j) (flat_map (fun l => slots (bs l)) ls) = None
  end.
Proof.
  revert j. induction ls as [|l ls IH]; intros j; cbn [first flat_map]; [done|].
  rewrite search_app. unfold in_block at 1.
  assert (forall k0, search cls k0 (slots (bs l)) =
    match search cls 0 (slots (bs l)) with Some (k, e, h) => Some ((k0 + k)%nat, e, h) | None => None end) as Hs.
  { generalize (slots (bs l)). intros es. assert (forall a k0, search cls (k0 + a) es =
      match search cls a es with Some (k, e, h) => Some ((k0 + k)%nat, e, h) | None => None end) as H.
    { induction es as [|e es IH']; intros a k0; cbn [search]; [done|]. destruct (cls e); [done|].
      by rewrite <- IH', Nat.add_succ_r. }
    intros k0. rewrite <- H. by rewrite Nat.add_0_r. }
  rewrite (Hs (16 * j)%nat). destruct (search cls 0 (slots (bs l))) as [[[k e] h]|] eqn:E.
  - pose proof (search_Some _ _ _ _ _ _ E) as (_ & Hl & _). rewrite Nat.sub_0_r in Hl.
    exists 0%nat, k, e, h. split; [done|]. pose proof (lookup_lt_Some _ _ _ Hl). rewrite slots_length in *.
    split; [done|]. split; [by rewrite Nat.add_0_r|]. by split.
  - rewrite slots_length. replace (16 * j + 16)%nat with (16 * S j)%nat by lia. specialize (IH (S j)).
    destruct (first _ ls) as [[l' x]|]; [|done]. destruct IH as (i & k & e & h & H1 & H2 & H3 & H4).
    exists (S i), k, e, h. split; [done|]. split; [done|]. split; [|done].
    by replace (16 * (j + S i) + k)%nat with (16 * (S j + i) + k)%nat by lia.
Qed.

(** ** Lemmas: entries *)

Lemma at_slot b i j : 0 <= i < 16 -> 0 <= j < 32 -> at_ (slot_of b i) j = at_ b (i * 32 + j).
Proof.
  intros Hi Hj. unfold at_, slot_of. rewrite !nth_lookup, lookup_take_lt by lia. rewrite lookup_drop.
  do 2 f_equal. lia.
Qed.

Lemma slot_entry b i : is_block b -> 0 <= i < 16 -> length (slot_of b i) = 32%nat /\ Forall is_byte (slot_of b i).
Proof.
  intros [Hl Hb] Hi. unfold SECTOR, slot_of in *. split; [|by apply Forall_take, Forall_drop].
  rewrite length_take, length_drop. lia.
Qed.

Lemma entry_clus_ok e : length e = 32%nat -> Forall is_byte e -> entry_clus e = Ok (e_clus e).
Proof.
  intros Hl Hb. unfold entry_clus. rewrite !rd_at by lia. cbn [mbind res_bind]. rewrite rd16_ok by (done || lia).
  cbn [mbind res_bind mret res_ret]. f_equal. unfold e_clus. change (Z.to_nat 26) with 26%nat.
  assert (word e 2 20 = at_ e 20 + 256 * at_ e 21) as ->.
  { unfold word. assert (take 2 (drop 20 e) = [at_ e 20; at_ e 21]) as ->; [|cbn [le_val]; lia].
    do 32 (destruct e as [|? e]; [discriminate|]). destruct e; [|discriminate]. reflexivity. }
  pose proof (at_byte e 20 Hb) as H0. pose proof (at_byte e 21 Hb) as H1. unfold is_byte in H0, H1.
  assert (0 <= word e 2 26 < 65536) as Hw.
  { pose proof (le_val_range (take 2 (drop 26 e))) as H. rewrite length_take, length_drop, Hl in H.
    apply H. by apply Forall_take, Forall_drop. }
  rewrite Z.lor_comm.
  assert (Z.lor (Z.shiftl (at_ e 20) 16) (Z.shiftl (at_ e 21) 24) = Z.shiftl (at_ e 20 + 256 * at_ e 21) 16) as ->.
  { rewrite lor_shift by (rewrite ?Z.shiftl_mul_pow2 by lia; change (2 ^ 16) with 65536; change (2 ^ 24) with 16777216; lia).
    rewrite !Z.shiftl_mul_pow2 by lia. change (2 ^ 16) with 65536. change (2 ^ 24) with 16777216. lia. }
  rewrite lor_shift by (change (2 ^ 16) with 65536; lia). change (2 ^ 16) with 65536. lia.
Qed.

Lemma entry_size_ok e : length e = 32%nat -> Forall is_byte e -> rd32 e 28 = Ok (e_size e).
Proof.
  intros Hl Hb. change (rd32 e 28) with (Part.rd32 e 28). rewrite Part.rd32_ok by (done || lia). reflexivity.
Qed.

(** The fields of the entry that [fill_entry] writes. *)
Lemma entry_bytes_fields name83 attr clus size : length name83 = 11%nat ->
  0 <= clus < 2 ^ 32 -> 0 <= size < 2 ^ 32 -> is_byte attr -> Forall is_byte name83 ->
  let e := entry_bytes name83 attr clus size in
  length e = 32%nat /\ Forall is_byte e /\ take 11 e = name83 /\ at_ e 11 = attr /\ e_clus e = clus /\ e_size e = size.
Proof.
  intros Hn Hc Hs Ha Hb e. change (2 ^ 32) with 4294967296 in *.
  assert (length e = 32%nat) as Hl by by apply entry_bytes_length.
  assert (forall n v, Forall is_byte (le_bytes n v)) as Hle by (intros; apply le_bytes_byte).
  split; [done|]. split; [|split; [|split; [|split]]].
  - unfold e, entry_bytes. rewrite !Forall_app. unfold is_byte in Ha.
    split_and!; [done|repeat constructor; lia|apply Forall_replicate; unfold is_byte; lia|apply Hle| |apply Hle|apply Hle].
    unfold is_byte. repeat constructor; lia.
  - unfold e, entry_bytes. by apply take_app_length'.
  - unfold e, entry_bytes, at_. rewrite app_nth2 by (rewrite Hn; cbn; lia). by rewrite Hn.
  - unfold e_clus, word, e, entry_bytes.
    do 11 (destruct name83 as [|? name83]; [discriminate|]). destruct name83; [|discriminate].
    cbn [app drop take replicate le_bytes le_val]. zdm.
  - unfold e_size, word, e, entry_bytes.
    do 11 (destruct name83 as [|? name83]; [discriminate|]). destruct name83; [|discriminate].
    cbn [app drop take replicate le_bytes le_val]. zdm.
Qed.

(** ** Lemmas: the three searches *)

Section searches.
Context {D : Type} `{!disk D, !good_disk D}.
Implicit Type st : fat D.

Lemma slot_ok st i : is_block (sec st) -> 0 <= i < 16 -> slot st i = Ok (slot_of (sec st) i).
Proof.
  intros [Hl _] Hi. unfold slot, SECTOR in *. rewrite (proj2 (Z.leb_le 0 i)), (proj2 (Z.leb_le _ _)) by lia. done.
Qed.

Lemma walk_block_scans comp : scans (in_block (by_name comp) (fun _ _ e h => if h then Some e else None)) (walk_block comp : Z -> fat D -> _).
Proof.
  intros l s Hb. unfold walk_block, in_block.
  rewrite (slots_loop (by_name comp) (fun _ e (h : bool) => if h then Some e else None) _ (sec s)).
  - cbn [mbind res_bind mret res_ret]. by destruct (search _ _ _) as [[[k e] h]|].
  - intros i Hi. rewrite slot_ok by done. cbn [mbind res_bind]. unfold by_name.
    destruct (_ =? 0); [done|]. destruct (entry_name _); [|done]. by destruct (name_match _ _).
Qed.

Lemma lookup_block_scans n : scans (in_block (by_83 n)
  (fun l i e h => if h then Some (l, i * 32, e_dir e, e_clus e, e_size e) else None)) (lookup_block n : Z -> fat D -> _).
Proof.
  intros l s Hb. unfold lookup_block, in_block.
  rewrite (slots_loop (by_83 n) (fun i e (h : bool) => if h then Some (l, i * 32, e_dir e, e_clus e, e_size e) else None) _ (sec s)).
  - cbn [mbind res_bind mret res_ret]. by destruct (search _ _ _) as [[[k e] h]|].
  - intros i Hi. rewrite slot_ok by done. cbn [mbind res_bind]. unfold by_83.
    destruct (slot_entry _ _ Hb Hi) as [Hl Hby].
    destruct (_ =? 0); [done|]. destruct (_ || _); [done|]. destruct (entry_match83 _ _); cbn [negb]; [|done].
    by rewrite entry_clus_ok, entry_size_ok.
Qed.

Lemma slot_block_scans : scans (in_block by_free (fun l i _ _ => Some (l, i * 32))) (slot_block : Z -> fat D -> _).
Proof.
  intros l s Hb. pose proof Hb as [Hl _]. unfold SECTOR in Hl. unfold slot_block, in_block.
  rewrite (slots_loop by_free (fun i _ (_ : bool) => (l, i * 32)) _ (sec s)).
  - cbn [mbind res_bind mret res_ret]. by destruct (search _ _ _) as [[[k e] h]|].
  - intros i Hi. rewrite rd_at by lia. cbn [mbind res_bind mret res_ret]. unfold by_free.
    rewrite at_slot, Z.add_0_r by lia. by destruct (_ || _).
Qed.

Lemma walk_dir_ok fuel comp st c cs : fat_ok st -> chain st c cs -> (length cs < fuel)%nat ->
  exists st', walk_dir fuel comp c st = Ok (match search (by_name comp) 0 (dir_entries st cs) with
    Some (_, e, true) => Some e | _ => None end, st') /\ unchanged st st'.
Proof.
  intros Hok Hch Hf. unfold walk_dir, dir_entries, entries.
  destruct (scan_chain_ok _ (walk_block comp) (fun st => (None, st)) cs fuel st c st (walk_block_scans comp) Hok Hch Hf (unchanged_refl _ Hok))
    as (r & -> & Hr). cbn [mbind res_bind]. unfold scan_end in Hr.
  pose proof (first_entries (by_name comp) (fun _ _ e (h : bool) => if h then Some e else None) (blk st) (chain_blocks st cs) 0) as H.
  change (16 * 0)%nat with 0%nat in H. destruct (first _ _) as [[l x]|].
  - destruct Hr as (s' & -> & Hs' & _). destruct H as (i & k & e & h & _ & _ & -> & _ & ->).
    exists s'. split; [|done]. by destruct h.
  - destruct Hr as (s' & -> & Hs'). rewrite H. by exists s'.
Qed.

Lemma lookup83_ok fuel n st c cs : fat_ok st -> chain st c cs -> (length cs < fuel)%nat ->
  exists st' r, lookup83 fuel c n st = Ok (r, st') /\ unchanged st st' /\
    match search (by_83 n) 0 (dir_entries st cs) with
    | Some (p, e, true) => exists l i k, r = Some (l, Z.of_nat k * 32, e_dir e, e_clus e, e_size e) /\
        chain_blocks st cs !! i = Some l /\ (k < 16)%nat /\ p = (16 * i + k)%nat
    | _ => r = None
    end.
Proof.
  intros Hok Hch Hf. unfold lookup83, dir_entries, entries.
  destruct (scan_chain_ok _ (lookup_block n) (fun st => (None, st)) cs fuel st c st (lookup_block_scans n) Hok Hch Hf (unchanged_refl _ Hok))
    as (r & -> & Hr). cbn [mbind res_bind]. unfold scan_end in Hr.
  pose proof (first_entries (by_83 n) (fun l i e (h : bool) => if h then Some (l, i * 32, e_dir e, e_clus e, e_size e) else None)
    (blk st) (chain_blocks st cs) 0) as H.
  change (16 * 0)%nat with 0%nat in H. destruct (first _ _) as [[l x]|].
  - destruct Hr as (s' & -> & Hs' & _). destruct H as (i & k & e & h & Hi & Hk & -> & _ & ->).
    eexists s', _. split; [reflexivity|]. split; [done|]. destruct h; [|done]. exists l, i, k. done.
  - destruct Hr as (s' & -> & Hs'). rewrite H. by eexists s', _.
Qed.

(** The loop of [dir_slot] over the chain: the first free entry, or the last
    cluster. *)
Lemma slot_loop_ok fuel st c cs prev s : fat_ok st -> chain st c cs -> (length cs < fuel)%nat -> unchanged st s ->
  match search by_free 0 (dir_entries st cs) with
  | Some (p, e, _) => exists l i k s', slot_loop fuel c prev s = Ok (Done (Some (l, Z.of_nat k * 32), s')) /\
      unchanged st s' /\ sec s' = blk st l /\ chain_blocks st cs !! i = Some l /\ (k < 16)%nat /\ p = (16 * i + k)%nat
  | None => exists s', slot_loop fuel c prev s = Ok (Next (default prev (last cs), s')) /\ unchanged st s'
  end.
Proof.
  intros Hok. revert fuel c prev s. unfold dir_entries, entries.
  assert (forall cs fuel c prev s, chain st c cs -> (length cs < fuel)%nat -> unchanged st s ->
    match first (fun l => in_block by_free (fun l i _ _ => Some (l, i * 32)) l (blk st l)) (chain_blocks st cs) with
    | Some (l, x) => exists s', slot_loop fuel c prev s = Ok (Done (x, s')) /\ unchanged st s' /\ sec s' = blk st l
    | None => exists s', slot_loop fuel c prev s = Ok (Next (default prev (last cs), s')) /\ unchanged st s'
    end) as H.
  { clear cs. induction cs as [|d cs IH]; intros fuel c prev s Hch Hfu Hun; (destruct fuel as [|fuel]; [cbn in Hfu; lia|]).
    - inversion Hch. cbn [slot_loop]. rewrite (proj2 (Z.ltb_ge c EOC)) by done. by exists s.
    - inversion Hch as [|? ? Hd Htl]; subst. cbn [slot_loop].
      destruct (fo_max _ Hok) as [Hm _]. rewrite (proj2 (Z.ltb_lt d EOC)) by lia.
      destruct (scan_cluster_ok _ slot_block (fun st => (None, st)) st d s slot_block_scans) as (r & -> & Hr); [done..|].
      cbn [mbind res_bind chain_blocks flat_map]. unfold scan_end in Hr. rewrite first_app.
      destruct (first _ (clus_blocks st d)) as [[l x]|].
      + destruct Hr as (s' & -> & Hs'). eexists. split; [reflexivity|]. done.
      + destruct Hr as (s' & -> & Hs'). pose proof (fat_max_geometry _ _ (unchanged_geo _ _ Hs')) as Em.
        destruct (fat_next_unchanged s' d (unchanged_ok _ _ Hs')) as (s2 & -> & Hs2); [by rewrite Em|].
        cbn [mbind res_bind]. rewrite (next_unchanged st s') by done.
        specialize (IH fuel (next_of st d) d s2 Htl ltac:(cbn in Hfu; lia) ltac:(by eapply unchanged_comp)).
        replace (default prev (last (d :: cs))) with (default d (last cs)); [exact IH|].
        destruct cs as [|y cs]; [done|]. rewrite last_cons_cons. by destruct (last_is_Some (y :: cs)) as [_ [? ->]]. }
  intros fuel c prev s Hch Hf Hun. specialize (H cs fuel c prev s Hch Hf Hun).
  pose proof (first_entries by_free (fun l i _ (_ : bool) => Some (l, i * 32)) (blk st) (chain_blocks st cs) 0) as H2.
  change (16 * 0)%nat with 0%nat in H2. destruct (first _ _) as [[l x]|].
  - destruct H as (s' & E & Hs' & Hsec). destruct H2 as (i & k & e & h & Hi & Hk & -> & _ & ->).
    exists l, i, k, s'. done.
  - by rewrite H2.
Qed.
End searches.

(** ** Lemmas: the searches as a look-up of the name *)

Lemma cut_pos l : Forall is_byte l -> cstr (cut l).
Proof.
  induction 1 as [|c l Hc _ IH]; cbn [cut]; [constructor|]. unfold is_byte in Hc.
  destruct (Z.eqb_spec c 0); [constructor|]. constructor; [lia|done].
Qed.

Lemma until_space_byte l : Forall is_byte l -> Forall is_byte (until_space l).
Proof. induction 1 as [|c l Hc _ IH]; cbn [until_space]; [done|]. destruct (c =? SPACE); [done|by constructor]. Qed.

Lemma entry_name_cstr e k : Forall is_byte e -> entry_name e = Some k -> cstr k.
Proof.
  intros Hb. unfold entry_name. destruct (_ || _); [done|]. destruct (_ || _); [done|]. cbv zeta.
  destruct (_ || _); [done|]. intros [= <-]. apply cut_pos.
  assert (Forall is_byte (until_space (take 8 e))) by (apply until_space_byte; by apply Forall_take).
  destruct (at_ e 8 =? SPACE); [done|]. apply Forall_app. split; [done|].
  constructor; [unfold is_byte, DOT; lia|]. apply until_space_byte. by apply Forall_take, Forall_drop.
Qed.

Lemma entry_name_free e : at_ e 0 = 0 \/ at_ e 0 = 0xE5 -> entry_name e = None.
Proof. intros [H|H]; unfold entry_name; by rewrite H. Qed.

(** A search that stops at the end mark finds what a search of everything
    finds, when nothing but end marks is behind it. *)
Lemma search_find cls (P : list Z -> Prop) `{!forall e, Decision (P e)} es :
  (forall i e, es !! i = Some e -> cls e = if at_ e 0 =? 0 then Some false else if bool_decide (P e) then Some true else None) ->
  (forall e, at_ e 0 = 0 -> ~ P e) ->
  (forall i j e e', es !! i = Some e -> at_ e 0 = 0 -> (i <= j)%nat -> es !! j = Some e' -> at_ e' 0 = 0) ->
  match search cls 0 es with Some (k, e, true) => Some (k, e) | _ => None end = list_find P es.
Proof.
  intros Hc H0 He. destruct (search cls 0 es) as [[[k e] h]|] eqn:E.
  - apply search_Some in E as (_ & Hl & Hh & Hn). rewrite Nat.sub_0_r in *. rewrite (Hc k) in Hh by done.
    assert (forall j y, es !! j = Some y -> (j < k)%nat -> ~ P y) as Hbefore.
    { intros j y Hy Hj HP. specialize (Hn j y Hj Hy). rewrite (Hc j) in Hn by done.
      destruct (at_ y 0 =? 0); [done|]. by rewrite bool_decide_eq_true_2 in Hn. }
    symmetry. destruct (Z.eqb_spec (at_ e 0) 0) as [Hz|Hz].
    + injection Hh as <-. apply list_find_None, Forall_lookup. intros j y Hy.
      destruct (decide (j < k)%nat); [by eapply Hbefore|]. apply H0. eapply (He k j); [done|done|lia|done].
    + destruct (bool_decide (P e)) eqn:Ep; [|done]. injection Hh as <-. apply bool_decide_eq_true in Ep.
      apply list_find_Some. split; [done|]. split; [done|]. intros j y Hy Hj. by eapply Hbefore.
  - symmetry. apply list_find_None, Forall_lookup. intros j y Hy HP. apply search_None in E.
    pose proof (Forall_lookup_1 _ _ _ _ E Hy) as Hcl. cbn in Hcl. rewrite (Hc j) in Hcl by done.
    destruct (Z.eqb_spec (at_ y 0) 0); [done|]. by rewrite bool_decide_eq_true_2 in Hcl.
Qed.

Lemma search_name comp es : good_dir es -> cstr comp ->
  match search (by_name comp) 0 es with Some (k, e, true) => Some (k, e) | _ => None end = find_shown (upper <$> comp) es.
Proof.
  intros Hg Hc. apply search_find.
  - intros i e Hi. unfold by_name. destruct (at_ e 0 =? 0); [done|].
    destruct (Forall_lookup_1 _ _ _ _ (gd_length _ Hg) Hi) as [_ Hb].
    destruct (entry_name e) as [nm|] eqn:En; [|by rewrite bool_decide_eq_false_2].
    rewrite name_match_eq by (done || by eapply entry_name_cstr).
    destruct (decide (nm = upper <$> comp)) as [->|Hne]; [by rewrite !bool_decide_eq_true_2|].
    rewrite !bool_decide_eq_false_2; [done|congruence|done].
  - intros e H. rewrite entry_name_free by by left. done.
  - apply Hg.
Qed.

Lemma name83_length s base ext : name83_of s base ext ->
  length (pad 8 (upper <$> base) ++ pad 3 (upper <$> ext)) = 11%nat.
Proof. intros (_ & H1 & H2 & _). rewrite length_app, !pad_length by (rewrite length_fmap; lia). done. Qed.

Lemma search_83 s base ext es : good_dir es -> name83_of s base ext ->
  match search (by_83 (pad 8 (upper <$> base) ++ pad 3 (upper <$> ext))) 0 es with Some (k, e, true) => Some (k, e) | _ => None end =
    find_shown (shown83 base ext) es.
Proof.
  intros Hg Hn. pose proof Hn as (Hok & Hl1 & Hl2 & _). apply search_find.
  - intros i e Hi. unfold by_83. destruct (Z.eqb_spec (at_ e 0) 0) as [|Hz]; [done|].
    destruct (_ || _) eqn:Es.
    + rewrite bool_decide_eq_false_2; [done|]. unfold entry_name. rewrite (proj2 (Z.eqb_neq _ _) Hz).
      apply orb_true_iff in Es as [[Es|Es]%orb_true_iff|Es]; rewrite Es; cbn [orb]; rewrite ?orb_true_r; try done; by case_match.
    + apply orb_false_iff in Es as [[_ _]%orb_false_iff Hv%negb_false_iff%Z.eqb_eq].
      unfold entry_match83. rewrite (take_ge (pad 8 _ ++ _)) by (rewrite (name83_length s) by done; done).
      assert (take 11 e = pad 8 (upper <$> base) ++ pad 3 (upper <$> ext) <-> entry_name e = Some (shown83 base ext)) as Hi2.
      { split; [by intros; apply entry_name_83|]. by apply (gd_name _ Hg i e s). }
      by rewrite (bool_decide_ext _ _ Hi2).
  - intros e H. rewrite entry_name_free by by left. done.
  - apply Hg.
Qed.

(** A free entry comes before the end mark, or is it. *)
Lemma search_free es p e h : search by_free 0 es = Some (p, e, h) ->
  es !! p = Some e /\ entry_name e = None /\ forall j e', (j < p)%nat -> es !! j = Some e' -> at_ e' 0 <> 0.
Proof.
  intros (_ & Hl & Hc & Hn)%search_Some. rewrite Nat.sub_0_r in *. split; [done|]. unfold by_free in *. split.
  - apply entry_name_free. destruct (_ || _) eqn:E; [|done]. apply orb_true_iff in E as [E|E]; zbool; auto.
  - intros j e' Hj He Hz. specialize (Hn j e' Hj He). by rewrite Hz in Hn.
Qed.

(** ** Lemmas: changing one entry *)

Lemma find_shown_ne k es p e0 e : es !! p = Some e0 -> entry_name e0 <> Some k -> entry_name e <> Some k ->
  find_shown k (<[p := e]> es) = find_shown k es.
Proof.
  intros Hp H0 He. pose proof (lookup_lt_Some _ _ _ Hp) as Hlt. unfold find_shown. destruct (list_find _ es) as [[i x]|] eqn:E.
  - apply list_find_Some in E as (Hx & HP & Hn). assert (p <> i) by (intros ->; congruence).
    apply list_find_Some. rewrite list_lookup_insert_ne by done. split; [done|]. split; [done|].
    intros j y Hy Hj. destruct (decide (j = p)) as [->|?].
    + rewrite list_lookup_insert_eq in Hy by done. by injection Hy as <-.
    + rewrite list_lookup_insert_ne in Hy by done. by eapply Hn.
  - apply list_find_None in E. apply list_find_None. by apply Forall_insert.
Qed.

Lemma find_shown_eq k es p e : (p < length es)%nat -> entry_name e = Some k ->
  (forall j e', (j < p)%nat -> es !! j = Some e' -> entry_name e' <> Some k) ->
  find_shown k (<[p := e]> es) = Some (p, e).
Proof.
  intros Hp He Hn. apply list_find_Some. rewrite list_lookup_insert_eq by done. split; [done|]. split; [done|].
  intros j y Hy Hj. rewrite list_lookup_insert_ne in Hy by lia. by eapply Hn.
Qed.

Lemma good_dir_insert es p e : good_dir es -> (forall j e', (j < p)%nat -> es !! j = Some e' -> at_ e' 0 <> 0) ->
  length e = 32%nat -> Forall is_byte e -> at_ e 0 <> 0 ->
  (forall s base ext, name83_of s base ext -> entry_name e = Some (shown83 base ext) ->
    take 11 e = pad 8 (upper <$> base) ++ pad 3 (upper <$> ext)) ->
  good_dir (<[p := e]> es).
Proof.
  intros [H1 H2 H3] Hb Hl Hby Hz Hnm. split.
  - by apply Forall_insert.
  - intros i j x y Hi Hx0 Hij Hj. apply list_lookup_insert_Some in Hi as [(_ & -> & _)|[Hip Hi]]; [done|].
    apply list_lookup_insert_Some in Hj as [(<- & _ & Hlt)|[_ Hj]]; [|by eapply (H2 i j)].
    exfalso. apply (Hb i x); [lia|done|done].
  - intros i x s base ext Hi Hs Hx. apply list_lookup_insert_Some in Hi as [(_ & -> & _)|[_ Hi]]; [by eapply Hnm|by eapply (H3 i)].
Qed.

(** A cluster of zeros behind a directory without an end mark. *)
Lemma zero_entry : entry_name (replicate 32 0) = None.
Proof. reflexivity. Qed.

Lemma good_dir_grow es n : good_dir es -> Forall (fun e => at_ e 0 <> 0) es -> good_dir (es ++ replicate n (replicate 32 0)).
Proof.
  intros [H1 H2 H3] Hz. split.
  - apply Forall_app. split; [done|]. apply Forall_replicate. split; [reflexivity|]. apply Forall_replicate. unfold is_byte. lia.
  - intros i j x y Hi Hx0 Hij Hj. apply lookup_app_Some in Hi as [Hi|[Hlt Hi]].
    + by destruct (Forall_lookup_1 _ _ _ _ Hz Hi).
    + apply lookup_app_Some in Hj as [Hj|[_ Hj]]; [apply lookup_lt_Some in Hj; lia|].
      by apply lookup_replicate in Hj as [-> _].
  - intros i x s base ext Hi Hs Hx. apply lookup_app_Some in Hi as [Hi|[_ Hi]]; [by eapply (H3 i)|].
    apply lookup_replicate in Hi as [-> _]. by rewrite zero_entry in Hx.
Qed.

Lemma find_shown_grow k es n : find_shown k (es ++ replicate n (replicate 32 0)) = find_shown k es.
Proof.
  unfold find_shown. destruct (list_find _ es) as [[i x]|] eqn:E.
  - apply list_find_Some in E as (Hx & HP & Hn). apply list_find_Some. split; [by apply lookup_app_l_Some|]. split; [done|].
    intros j y Hy Hj. apply lookup_lt_Some in Hx as Hlt. rewrite lookup_app_l in Hy by lia. by eapply Hn.
  - apply list_find_None in E. apply list_find_None, Forall_app. split; [done|]. by apply Forall_replicate.
Qed.

(** ** Lemmas: writing one entry of a block *)

Lemma flat_lookup {A B} (f : A -> list B) n ls j : (0 < n)%nat -> (forall a, length (f a) = n) ->
  flat_map f ls !! j = (ls !! (j / n)%nat ≫= fun a => f a !! (j mod n)%nat).
Proof.
  intros Hn Hf. revert j. induction ls as [|a ls IH]; intros j; cbn [flat_map]; [done|].
  destruct (decide (j < n)%nat) as [Hj|Hj].
  - rewrite Nat.div_small, Nat.mod_small by done. cbn. apply lookup_app_l. by rewrite Hf.
  - rewrite lookup_app_r by (rewrite Hf; lia). rewrite Hf, IH.
    assert (j / n = S ((j - n) / n) /\ j mod n = (j - n) mod n)%nat as [-> ->]; [|done].
    assert (j = (j - n) + 1 * n)%nat as Ej by lia. split; rewrite Ej at 1.
    + by rewrite Nat.div_add, Nat.add_1_r by lia.
    + by rewrite Nat.Div0.mod_add.
Qed.

(** The block [b] with the entry [e] at place [k]. *)
Definition put_entry (b : list Z) (k : nat) (e : list Z) : list Z := take (k * 32) b ++ e ++ drop (k * 32 + 32) b.

Lemma put_entry_block b k e : is_block b -> (k < 16)%nat -> length e = 32%nat -> Forall is_byte e -> is_block (put_entry b k e).
Proof.
  intros [Hl Hb] Hk He Hbe. unfold is_block, SECTOR, put_entry in *. split.
  - rewrite !length_app, length_take, length_drop. lia.
  - rewrite !Forall_app. split; [by apply Forall_take|]. split; [done|by apply Forall_drop].
Qed.

Lemma slots_put b k e : is_block b -> (k < 16)%nat -> length e = 32%nat -> slots (put_entry b k e) = <[k := e]> (slots b).
Proof.
  intros [Hl _] Hk He. unfold SECTOR in Hl. apply list_eq. intros j. unfold slots.
  destruct (decide (j < 16)%nat) as [Hj|Hj].
  2: { by rewrite !lookup_ge_None_2 by (rewrite ?length_insert, ?length_fmap, ?length_seqZ; lia). }
  rewrite list_lookup_fmap, lookup_seqZ_lt by lia. cbn [fmap option_fmap option_map]. rewrite Z.add_0_l.
  destruct (decide (j = k)) as [->|Hne].
  - rewrite list_lookup_insert_eq by (rewrite length_fmap, length_seqZ; lia). f_equal. unfold slot_of, put_entry.
    rewrite drop_app_ge by (rewrite length_take; lia). rewrite length_take, Nat.min_l by lia.
    replace (Z.to_nat (Z.of_nat k * 32) - k * 32)%nat with 0%nat by lia. rewrite drop_0. by apply take_app_length'.
  - rewrite list_lookup_insert_ne by done. rewrite list_lookup_fmap, lookup_seqZ_lt by lia. cbn [fmap option_fmap option_map].
    rewrite Z.add_0_l. f_equal. unfold slot_of, put_entry. replace (Z.to_nat (Z.of_nat j * 32)) with (j * 32)%nat by lia.
    destruct (decide (j < k)%nat).
    + rewrite drop_app_le by (rewrite length_take; lia). rewrite take_app_le by (rewrite length_drop, length_take; lia).
      rewrite skipn_firstn_comm, take_take. f_equal. lia.
    + rewrite drop_app_ge by (rewrite length_take; lia). rewrite length_take, Nat.min_l by lia.
      rewrite drop_app_ge by lia. rewrite He, drop_drop. do 2 f_equal. lia.
Qed.

Section blocks.
Context {D : Type} `{!disk D, !good_disk D}.
Implicit Type st : fat D.

Lemma entries_put st st' ls i k l e : ls !! i = Some l -> (k < 16)%nat -> NoDup ls -> is_block (blk st l) -> length e = 32%nat ->
  (forall l', l' ∈ ls -> blk st' l' = if decide (l' = l) then put_entry (blk st l) k e else blk st l') ->
  entries st' ls = <[(16 * i + k)%nat := e]> (entries st ls).
Proof.
  intros Hi Hk Hnd Hbl He Hb. apply list_eq. intros j. unfold entries.
  assert (forall s : fat D, flat_map (fun l => slots (blk s l)) ls !! j = (ls !! (j / 16)%nat ≫= fun l => slots (blk s l) !! (j mod 16)%nat)) as Hf
    by (intros s; apply flat_lookup; [lia|done]).
  assert (j = 16 * (j / 16) + j mod 16)%nat as Ej by (apply Nat.div_mod; lia).
  pose proof (Nat.mod_upper_bound j 16 ltac:(lia)) as Hj.
  destruct (decide (j = 16 * i + k)%nat) as [Hjk|Hne].
  - assert (j / 16 = i)%nat as Ei by lia. assert (j mod 16 = k)%nat as Ek by lia. rewrite Hf, Ei, Ek, Hi. cbn [mbind option_bind].
    rewrite Hb by by eapply list_elem_of_lookup_2. rewrite decide_True, slots_put by done.
    rewrite list_lookup_insert_eq by (by rewrite slots_length). rewrite Hjk, list_lookup_insert_eq; [done|].
    apply lookup_lt_Some in Hi. rewrite <- Hjk.
    destruct (flat_map (fun l => slots (blk st l)) ls !! j) as [x|] eqn:E; [by apply lookup_lt_Some in E|].
    exfalso. rewrite Hf, Ei, Ek in E. destruct (lookup_lt_is_Some_2 ls i Hi) as [l0 El]. rewrite El in E. cbn in E.
    apply lookup_ge_None in E. rewrite slots_length in E. lia.
  - rewrite list_lookup_insert_ne by done. rewrite !Hf. destruct (ls !! (j / 16)%nat) as [l'|] eqn:El; [|done]. cbn [mbind option_bind].
    rewrite Hb by by eapply list_elem_of_lookup_2. case_decide as Hd; [|done]. subst l'.
    assert (j / 16 = i)%nat as Ei by by eapply NoDup_lookup. rewrite slots_put by done. rewrite list_lookup_insert_ne; [done|lia].
Qed.

Lemma chain_blocks_of st cs l : l ∈ chain_blocks st cs <-> of_chain st cs l.
Proof.
  unfold chain_blocks, clus_blocks, of_chain. rewrite list_elem_of_In, in_flat_map. split.
  - intros (c & Hc & Hl). apply list_elem_of_In in Hc, Hl. apply list_elem_of_fmap in Hl as (s & -> & Hs).
    apply elem_of_seqZ in Hs. exists c, s. split; [done|]. split; [lia|done].
  - intros (c & s & Hc & Hs & ->). exists c. split; [by apply list_elem_of_In|]. apply list_elem_of_In, list_elem_of_fmap.
    exists s. split; [done|]. apply elem_of_seqZ. lia.
Qed.

Lemma chain_blocks_nodup st cs : NoDup cs -> NoDup (chain_blocks st cs).
Proof.
  induction 1 as [|c cs Hc _ IH]; [constructor|]. cbn [chain_blocks flat_map]. fold (chain_blocks st cs).
  apply NoDup_app. split; [|split; [|done]].
  - unfold clus_blocks. apply NoDup_fmap_2_strong; [|apply NoDup_seqZ]. intros s s' Hs Hs' E.
    apply elem_of_seqZ in Hs, Hs'. by apply clus_block_inj in E as [_ ?]; [|lia..].
  - intros l Hl (c' & s' & Hc' & Hs' & ->)%chain_blocks_of. unfold clus_blocks in Hl.
    apply list_elem_of_fmap in Hl as (s & E & Hs). apply elem_of_seqZ in Hs.
    apply clus_block_inj in E as [-> _]; [done|lia..].
Qed.

Lemma chain_blocks_geo st st' cs : same_geometry st st' -> chain_blocks st' cs = chain_blocks st cs.
Proof. intros Hg. apply flat_map_ext. intros c. by apply clus_blocks_geo. Qed.

(** The entries depend on the blocks of the chain only. *)
Lemma dir_entries_ext st st' cs : same_geometry st st' -> (forall l, of_chain st cs l -> blk st' l = blk st l) ->
  dir_entries st' cs = dir_entries st cs.
Proof.
  intros Hg Hb. unfold dir_entries, entries. rewrite (chain_blocks_geo st) by done. apply flat_map_ext_in. intros l Hl.
  by rewrite Hb by by apply chain_blocks_of.
Qed.

Lemma dir_entries_app st cs1 cs2 : dir_entries st (cs1 ++ cs2) = dir_entries st cs1 ++ dir_entries st cs2.
Proof. unfold dir_entries, entries, chain_blocks. by rewrite !flat_map_app. Qed.

(** A cluster of zero blocks holds end marks. *)
Lemma dir_entries_zero st c : (forall s, 0 <= s < sec_per_clus st -> blk st (clus_block st c s) = replicate 512 0) ->
  exists n, dir_entries st [c] = replicate n (replicate 32 0) /\ (0 < sec_per_clus st -> (0 < n)%nat).
Proof.
  intros Hz. unfold dir_entries, chain_blocks. cbn [flat_map]. rewrite app_nil_r. unfold clus_blocks.
  assert (forall ls, (forall l, l ∈ ls -> blk st l = replicate 512 0) -> entries st ls = replicate (16 * length ls) (replicate 32 0)) as H.
  { induction ls as [|l ls IH]; intros Hl; [done|]. unfold entries in *. cbn [flat_map]. rewrite Hl by by left.
    rewrite IH by (intros; apply Hl; by right). change (slots (replicate 512 0)) with (replicate 16 (replicate 32 0) : list (list Z)).
    rewrite <- replicate_add. f_equal. cbn [length]. lia. }
  exists (16 * length (clus_block st c <$> seqZ 0 (sec_per_clus st)))%nat. split.
  - apply H. intros l (s & -> & Hs)%list_elem_of_fmap. apply elem_of_seqZ in Hs. apply Hz. lia.
  - rewrite length_fmap, length_seqZ. lia.
Qed.
End blocks.
