(* ===== verification/FatTree.v ===== *)
(** * A FAT32 volume as a tree of files

    The tree of [Fs.v] (entries under their absolute paths) describes a mounted
    volume too: [vol_tree st T L] says that the directories and files of the
    volume [st] are the entries of [T], and [L] gives for every path the first
    cluster and the chain.  Reading and changing directories look a path up in
    [T]; writing a file inserts into [T], or leaves it alone and there was no
    room.  Names are compared in capitals, so the keys of [T] that paths can
    reach are in capitals. *)
From S2P Require Import Prelude Str Fs Disk Part FatName Fat FatFile FatDir.

(** ** Specification *)

(** A path as the volume stores it. *)
Definition upath (ws : list str) : list str := (fun w : str => upper <$> w) <$> ws.

(** The name a file created as [w] is shown under, or [None] when [w] is no
    short name. *)
Definition stored_name (w : str) : option str :=
  n ← to83 w; entry_name (entry_bytes n 0x20 0 0).

(** An entry of a directory and what the tree and the chains have under its name. *)
Definition kid_agrees (o : option (nat * list Z)) (t : option entry) (l : option (Z * list Z)) : Prop :=
  match o, t, l with
  | Some (_, e), Some EDir, Some (c, _) => e_dir e = true /\ e_clus e = c
  | Some (_, e), Some (EFile bs), Some (c, _) => e_dir e = false /\ e_clus e = c /\ e_size e = Z.of_nat (length bs)
  | None, None, None => True
  | _, _, _ => False
  end.

(** Where the parts of a tree lie: the first cluster and the chain. *)
Abbreviation places := (gmap (list str) (Z * list Z)).

Section spec.
Context {D : Type} `{!disk D, !good_disk D}.
Implicit Types st s : fat D.

Record vol_tree st (T : tree) (L : places) : Prop := {
  vt_ok : fat_ok st;
  vt_root : T !! [] = Some EDir /\ exists cs, L !! [] = Some (root_clus st, cs);
  vt_dom p : is_Some (T !! p) <-> is_Some (L !! p);
  vt_up p k : is_Some (T !! (p ++ [k])) -> T !! p = Some EDir;
  vt_dir p c cs : T !! p = Some EDir -> L !! p = Some (c, cs) ->
    chain st c cs /\ cs <> [] /\ good_dir (dir_entries st cs) /\
    forall k, kid_agrees (find_shown k (dir_entries st cs)) (T !! (p ++ [k])) (L !! (p ++ [k]));
  vt_file p c cs bs : T !! p = Some (EFile bs) -> L !! p = Some (c, cs) -> holds st c cs bs;
  vt_apart p q c cs c' cs' d : L !! p = Some (c, cs) -> L !! q = Some (c', cs') -> d ∈ cs -> d ∈ cs' -> p = q
}.

(** The clusters of the volume's files and directories are as they were. *)
Definition untouched st st' (cs : list Z) : Prop :=
  forall d, d ∈ cs -> fat_entry st' 0 d = fat_entry st 0 d /\
    forall t, 0 <= t < sec_per_clus st -> blk st' (clus_block st d t) = blk st (clus_block st d t).

(** What [walk] answers for a path: first cluster, directory flag and size
    ([size0] is the caller's); [slash] says that the path ends in a slash. *)
Definition walked (T : tree) (L : places) (size0 : Z) (p : list str) (slash : bool) : option (Z * bool * Z) :=
  match T !! p, L !! p with
  | Some EDir, Some (c, _) => Some (c, true, size0)
  | Some (EFile bs), Some (c, _) => if slash then None else Some (c, false, Z.of_nat (length bs))
  | _, _ => None
  end.

(** What [fat_read] answers. *)
Definition tree_read (T : tree) (p : list str) (slash : bool) (cap : Z) : Z * list Z :=
  match T !! p with
  | Some (EFile bs) => if slash then (-1, []) else (Z.min cap (Z.of_nat (length bs)), take (Z.to_nat cap) bs)
  | _ => (-1, [])
  end.

(** What [fat_write] does to the tree, for a name [w] in the directory [P];
    [None] when it is refused. *)
Definition write_in (T : tree) (P : list str) (w : str) (bs : list Z) : option tree :=
  match T !! P with
  | Some EDir =>
      k ← stored_name w;
      match T !! (P ++ [k]) with
      | Some EDir => None
      | _ => Some (<[P ++ [k] := EFile bs]> T)
      end
  | _ => None
  end.

Definition fat_write_spec (T : tree) (ws : list str) (bs : list Z) : option tree :=
  w ← last ws; write_in T (upath (removelast ws)) w bs.

(** Directories keep their first cluster. *)
Definition dirs_stay (T : tree) (L L' : places) : Prop :=
  forall p c cs, T !! p = Some EDir -> L !! p = Some (c, cs) -> exists cs', L' !! p = Some (c, cs').

(** With this current directory every path is resolved inside the buffer. *)
Definition resolvable (C path : str) : Prop :=
  deref path = SLASH \/ absolute C /\ Z.of_nat (length C) < PATH_MAX - 1.

(** The entry of a file. *)
Definition file_entry (e : list Z) (key : str) (c n : Z) : Prop :=
  length e = 32%nat /\ Forall is_byte e /\ at_ e 0 <> 0 /\ entry_name e = Some key /\
  e_dir e = false /\ e_clus e = c /\ e_size e = n /\
  forall (w : str) base ext, name83_of w base ext -> entry_name e = Some (shown83 base ext) ->
    take 11 e = pad 8 (upper <$> base) ++ pad 3 (upper <$> ext).

(** The answer for a path from the root. *)
Definition root_read (T : tree) (path : str) (cap : Z) : Z * list Z :=
  match norm [] (words path) with Some ws => tree_read T (upath ws) false cap | None => (-1, []) end.

(** The current directory is a directory of the tree. *)
Definition cwd_at st (T : tree) (L : places) : Prop := absolute (cwd_path st) /\ Z.of_nat (length (cwd_path st)) < PATH_MAX /\
  T !! upath (words (cwd_path st)) = Some EDir /\ exists cs, L !! upath (words (cwd_path st)) = Some (cwd_clus st, cs).

(** A place for an entry: slot [p] of the directory [pcs] is slot [off / 32] of
    block [l], it is [e0], and the slots before it are in use. *)
Definition slot_at s (pcs : list Z) (l off : Z) (e0 : list Z) (i k : nat) : Prop :=
  chain_blocks s pcs !! i = Some l /\ (k < 16)%nat /\ off = Z.of_nat k * 32 /\
  dir_entries s pcs !! (16 * i + k)%nat = Some e0 /\
  forall j x, (j < 16 * i + k)%nat -> dir_entries s pcs !! j = Some x -> at_ x 0 <> 0.

(** What a search for a free entry leaves: a place in the directory, which may
    have a new cluster; every other cluster in use is untouched. *)
Definition place_ready s s' (T : tree) (L : places) (P : list str) (pc : Z) (pcs : list Z) (l off : Z) : Prop :=
  fat_ok s' /\ same_geometry s s' /\
  (forall cs, Forall (fun d => 2 <= d < fat_max s /\ fat_entry s 0 d <> 0) cs -> (forall d, d ∈ cs -> d ∉ pcs) -> untouched s s' cs) /\
  exists pcs' e0 i k, vol_tree s' T (<[P := (pc, pcs')]> L) /\ slot_at s' pcs' l off e0 i k /\
    entry_name e0 = None /\ sec s' = blk s' l /\ forall d, d ∈ pcs' -> d ∈ pcs \/ fat_entry s 0 d = 0.

(** What writing a file does when everything but the room is in order. *)
Definition written st st' (r : Z) (T T' : tree) (L : places) (len : Z) : Prop :=
  same_geometry st st' /\
  ((r = 0 /\ exists L', vol_tree st' T' L' /\ dirs_stay T L L') \/ (r = -1 /\ vol_tree st' T L /\ no_room st (len + clus_size st))).
End spec.

(** ** Lemmas: names *)

Lemma entry_name_length e k : entry_name e = Some k -> (length k <= 12)%nat.
Proof.
  assert (forall l, (length (cut l) <= length l)%nat) as Hc
    by (induction l as [|c l IH]; cbn [cut length]; [done|]; destruct (c =? 0); cbn [length]; lia).
  assert (forall l, (length (until_space l) <= length l)%nat) as Hu
    by (induction l as [|c l IH]; cbn [until_space length]; [done|]; destruct (c =? SPACE); cbn [length]; lia).
  unfold entry_name. destruct (_ || _); [done|]. destruct (_ || _); [done|]. cbv zeta.
  destruct (_ || _); [done|]. intros [= <-]. etrans; [apply Hc|].
  pose proof (Hu (take 8 e)) as H8. pose proof (Hu (take 3 (drop 8 e))) as H3. rewrite length_take in H8, H3.
  destruct (at_ e 8 =? SPACE); [lia|]. rewrite length_app. cbn [length]. lia.
Qed.

(** What is stored for a name that [to83] takes. *)
Lemma stored_name_ok w k : stored_name w = Some k ->
  exists base ext, name83_of w base ext /\ k = shown83 base ext /\
    to83 w = Some (pad 8 (upper <$> base) ++ pad 3 (upper <$> ext)).
Proof.
  unfold stored_name. destruct (to83 w) as [n|] eqn:E; cbn [mbind option_bind]; [|done].
  destruct (to83_inv _ _ E) as (base & ext & Hn & ->). intros H. exists base, ext. split; [done|]. split; [|done].
  pose proof Hn as (Hok & Hl1 & Hl2 & _). pose proof (name83_length _ _ _ Hn) as Hl.
  rewrite (entry_name_83 base ext) in H; [by injection H|done..| |].
  - unfold entry_bytes. by apply take_app_length'.
  - unfold entry_bytes, at_. rewrite app_nth2 by (rewrite Hl; cbn; lia). rewrite Hl. reflexivity.
Qed.

Lemma stored_name_none w : stored_name w = None -> to83 w = None.
Proof.
  unfold stored_name. destruct (to83 w) as [n|] eqn:E; cbn [mbind option_bind]; [|done].
  destruct (to83_inv _ _ E) as (base & ext & Hn & ->). pose proof Hn as (Hok & Hl1 & Hl2 & _).
  pose proof (name83_length _ _ _ Hn) as Hl. rewrite (entry_name_83 base ext); [done|done..| |].
  - unfold entry_bytes. by apply take_app_length'.
  - unfold entry_bytes, at_. rewrite app_nth2 by (rewrite Hl; cbn; lia). rewrite Hl. reflexivity.
Qed.

(** Different short names are shown differently, but for their case and a dot
    at the end. *)
Lemma shown83_inj b1 x1 b2 x2 : Forall (fun c => ok83 (upper c) = true) (b1 ++ x1) ->
  Forall (fun c => ok83 (upper c) = true) (b2 ++ x2) -> shown83 b1 x1 = shown83 b2 x2 ->
  upper <$> b1 = upper <$> b2 /\ upper <$> x1 = upper <$> x2.
Proof.
  intros [Hb1 Hx1]%Forall_app [Hb2 Hx2]%Forall_app. unfold shown83.
  destruct (upper_ok_forall _ Hb1) as (_ & _ & D1). destruct (upper_ok_forall _ Hb2) as (_ & _ & D2).
  clear Hx1 Hx2. assert (forall x : str, bool_decide (x = []) = bool_decide ((upper <$> x : str) = [])) as Hx
    by (intros []; done).
  rewrite (Hx x1), (Hx x2). revert D1 D2. generalize (upper <$> b1 : str) (upper <$> b2 : str) (upper <$> x1 : str) (upper <$> x2 : str).
  intros b b' x x' H. revert b'. induction H as [|c b Hc _ IH]; intros b' H' E.
  - destruct b' as [|c' b']; [|].
    + split; [done|]. destruct x, x'; cbn in E; congruence.
    + apply Forall_cons in H' as [Hc' _]. destruct x; cbn in E; congruence.
  - destruct H' as [|c' b' Hc' H'].
    + destruct x'; cbn in E; congruence.
    + cbn [app] in E. injection E as -> E. destruct (IH b' H' E) as [-> ->]. done.
Qed.

Lemma file_entry_ok w base ext c n : name83_of w base ext -> 0 <= c < 2 ^ 32 -> 0 <= n < 2 ^ 32 ->
  file_entry (entry_bytes (pad 8 (upper <$> base) ++ pad 3 (upper <$> ext)) 0x20 c n) (shown83 base ext) c n.
Proof.
  intros Hn Hc Hs. set (e := entry_bytes _ _ _ _). pose proof Hn as (Hok & Hl1 & Hl2 & _). pose proof (name83_length _ _ _ Hn) as Hl.
  assert (Forall is_byte (pad 8 (upper <$> base) ++ pad 3 (upper <$> ext))) as Hby.
  { apply Forall_app in Hok as [Hb He]. destruct (upper_ok_forall _ Hb) as (Cb & _). destruct (upper_ok_forall _ He) as (Ce & _).
    assert (forall k t, cstr t -> Forall is_byte (pad k t)) as Hp; [|by apply Forall_app; split; apply Hp].
    intros k t Ht. apply Forall_app. split; [eapply Forall_impl; [exact Ht|]; intros x; unfold is_byte; lia|].
    apply Forall_replicate. unfold is_byte, SPACE. lia. }
  destruct (entry_bytes_fields _ 0x20 c n Hl Hc Hs ltac:(unfold is_byte; lia) Hby) as (H1 & H2 & H3 & H4 & H5 & H6). fold e in H1, H2, H3, H4, H5, H6.
  assert (entry_name e = Some (shown83 base ext)) as Hnm by (apply entry_name_83; [done..|by rewrite H4]).
  split; [done|]. split; [done|]. split; [intros Hz; by rewrite entry_name_free in Hnm by by left|]. split; [done|].
  split; [unfold e_dir; by rewrite H4|]. split; [done|]. split; [done|].
  intros s base' ext' (Hok' & _) [= E]%(eq_trans (eq_sym Hnm)). rewrite H3.
  by destruct (shown83_inj base ext base' ext' Hok Hok' E) as [-> ->].
Qed.

(** ** Lemmas: the tree *)

Section lemmas.
Context {D : Type} `{!disk D, !good_disk D}.
Implicit Types (st : fat D) (T : tree) (L : places).

Lemma vt_node st T L p : vol_tree st T L -> is_Some (T !! p) -> exists e c cs, T !! p = Some e /\ L !! p = Some (c, cs).
Proof. intros H [e He]. destruct (proj1 (vt_dom _ _ _ H p)) as [[c cs] Hc]; [by eexists|]. by exists e, c, cs. Qed.

(** Below a file there is nothing. *)
Lemma vt_under st T L p q : vol_tree st T L -> is_Some (T !! (p ++ q)) -> q <> [] -> T !! p = Some EDir.
Proof.
  intros H. induction q as [|k q IH] using rev_ind; intros Hq Hn; [done|]. rewrite app_assoc in Hq.
  apply (vt_up _ _ _ H) in Hq as Hd. destruct q as [|k' q]; [by rewrite app_nil_r in Hd|]. apply IH; [by rewrite Hd|done].
Qed.

Lemma vt_clusters st T L p c cs : vol_tree st T L -> L !! p = Some (c, cs) ->
  Forall (fun d => 2 <= d < fat_max st) cs /\ NoDup cs /\ Z.of_nat (length cs) <= fat_max st - 2 /\
  Forall (fun d => fat_entry st 0 d <> 0) cs.
Proof.
  intros H Hl. pose proof (vt_ok _ _ _ H) as Hok. destruct (fo_max _ Hok) as [Hm _].
  assert (chain st c cs \/ cs = []) as [Hch| ->].
  - destruct (proj2 (vt_dom _ _ _ H p)) as [[|bs] He]; [by eexists| |].
    + left. by apply (vt_dir _ _ _ H p).
    + destruct (vt_file _ _ _ H _ _ _ _ He Hl) as [(_ & -> & _)|(_ & ? & _)]; auto.
  - split; [by eapply chain_range|]. split; [apply (chain_nodup st c); [lia|done]|]. split; [by eapply chain_length|].
    apply Forall_forall. intros d Hd. apply (chain_entry_nonzero st c cs); [lia|done..].
  - split; [constructor|]. split; [constructor|]. split; [cbn; lia|constructor].
Qed.

Lemma untouched_unchanged st st' cs : fat_ok st -> unchanged st st' -> Forall (fun d => 2 <= d < fat_max st) cs -> untouched st st' cs.
Proof.
  intros Hok Hu Hr d Hd. rewrite Forall_forall in Hr. specialize (Hr d Hd). pose proof (fo_fats _ Hok). split.
  - apply becomes_entry; [done|apply Hu|lia|lia].
  - intros t Ht. apply (unchanged_blk st); [done|]. by apply clus_block_range.
Qed.

Lemma untouched_chain st st' c cs : same_geometry st st' -> untouched st st' cs -> chain st c cs -> chain st' c cs.
Proof. intros Hg Hu. apply chain_ext; [by apply fat_max_geometry|]. intros d Hd. by apply Hu. Qed.

Lemma untouched_data st st' cs : same_geometry st st' -> untouched st st' cs -> chain_data st' cs = chain_data st cs.
Proof. intros Hg Hu. apply chain_data_ext; [done|]. intros d t Hd. by apply Hu. Qed.

Lemma untouched_entries st st' cs : same_geometry st st' -> untouched st st' cs -> dir_entries st' cs = dir_entries st cs.
Proof. intros Hg Hu. apply dir_entries_ext; [done|]. intros l (d & t & Hd & Ht & ->). by apply Hu. Qed.

Lemma untouched_holds st st' c cs bs : same_geometry st st' -> untouched st st' cs -> holds st c cs bs -> holds st' c cs bs.
Proof.
  intros Hg Hu [H|(Hn & Hch & Hd)]; [by left|right]. split; [done|]. split; [by apply (untouched_chain st)|].
  by rewrite (untouched_data st).
Qed.

(** The tree depends on the clusters of its files and directories only. *)
Lemma vol_tree_untouched st st' T L : vol_tree st T L -> fat_ok st' -> same_geometry st st' ->
  (forall p c cs, L !! p = Some (c, cs) -> untouched st st' cs) -> vol_tree st' T L.
Proof.
  intros [H1 H2 H3 H4 H5 H6 H7] Hok Hg Hu. split; try done.
  - pose proof Hg as (_ & _ & _ & _ & _ & -> & _). done.
  - intros p c cs Hp Hl. destruct (H5 p c cs Hp Hl) as (Hch & Hn & Hgd & Hk). rewrite (untouched_entries st) by (done || by eapply Hu).
    split; [|done]. apply (untouched_chain st); [done|by eapply Hu|done].
  - intros p c cs bs Hp Hl. apply (untouched_holds st); [done|by eapply Hu|by apply (H6 p)].
Qed.

Lemma vol_tree_unchanged st st' T L : vol_tree st T L -> unchanged st st' -> vol_tree st' T L.
Proof.
  intros H Hu. apply (vol_tree_untouched st); [done|by eapply unchanged_ok|by apply unchanged_geo|].
  intros p c cs Hp. apply untouched_unchanged; [by eapply vt_ok|done|]. by eapply vt_clusters.
Qed.
End lemmas.

(** ** Lemmas: following a path *)

Lemma upath_app a b : upath (a ++ b) = upath a ++ upath b.
Proof. apply fmap_app. Qed.

Section walking.
Context {D : Type} `{!disk D, !good_disk D} (fuel : nat).
Implicit Types (st : fat D) (T : tree) (L : places).

(** The search of one directory of the tree. *)
Lemma walk_dir_tree st T L p c cs w : vol_tree st T L -> fat_max st <= Z.of_nat fuel -> T !! p = Some EDir -> L !! p = Some (c, cs) ->
  cstr w -> exists st', unchanged st st' /\
    match T !! (p ++ [upper <$> w]), L !! (p ++ [upper <$> w]) with
    | Some t, Some (kc, _) => exists e, walk_dir fuel w c st = Ok (Some e, st') /\ entry_clus e = Ok kc /\
        match t with EDir => e_dir e = true | EFile bs => e_dir e = false /\ rd32 e 28 = Ok (Z.of_nat (length bs)) end
    | _, _ => walk_dir fuel w c st = Ok (None, st')
    end.
Proof.
  intros H Hf Hp Hl Hw. destruct (vt_dir _ _ _ H p c cs Hp Hl) as (Hch & _ & Hgd & Hk).
  pose proof (vt_clusters _ _ _ _ _ _ H Hl) as (_ & _ & Hlen & _).
  destruct (walk_dir_ok fuel w st c cs) as (st' & E & Hu); [by eapply vt_ok|done|lia|]. exists st'. split; [done|].
  assert (match search (by_name w) 0 (dir_entries st cs) with Some (_, e, true) => Some e | _ => None end =
    snd <$> find_shown (upper <$> w) (dir_entries st cs)) as Es.
  { rewrite <- (search_name w) by done. by destruct (search _ _ _) as [[[? ?] []]|]. }
  rewrite Es in E. specialize (Hk (upper <$> w)). unfold kid_agrees in Hk.
  destruct (find_shown (upper <$> w) (dir_entries st cs)) as [[k e]|] eqn:Ef.
  - apply list_find_Some in Ef as (Hi & _). destruct (Forall_lookup_1 _ _ _ _ (gd_length _ Hgd) Hi) as [He Hb].
    destruct (T !! (p ++ [upper <$> w])) as [[|bs]|]; [| |done];
      (destruct (L !! (p ++ [upper <$> w])) as [[kc kcs]|]; [|done]); exists e; (split; [exact E|]);
      rewrite (entry_clus_ok e), ?entry_size_ok by done.
    + by destruct Hk as [? ->].
    + by destruct Hk as (? & -> & ->).
  - by destruct (T !! (p ++ [upper <$> w])) as [[|bs]|], (L !! (p ++ [upper <$> w])).
Qed.

(** A component that is too long, or names nothing, or a file with more behind it. *)
Lemma walk_loop st T L : vol_tree st T L -> fat_max st <= Z.of_nat fuel ->
  forall n p ws1 cur cs isdir size s, cstr p -> T !! upath ws1 = Some EDir -> L !! upath ws1 = Some (cur, cs) -> unchanged st s ->
  (words p = [] -> isdir = true) -> (length p < n)%nat ->
  exists s', while_loop n (walk_step fuel) (p, cur, isdir, size, s) =
    Ok (walked T L size (upath (ws1 ++ words p)) (slash_end p), s') /\ unchanged st s'.
Proof.
  intros H Hf. induction n as [|n IH]; intros p ws1 cur cs isdir size s Hp Hd Hl Hu Hdir Hn; [lia|]. cbn [while_loop].
  assert (words p = [] -> exists s', Ok (Some (cur, isdir, size), s) = Ok (walked T L size (upath (ws1 ++ words p)) (slash_end p), s') /\ unchanged st s') as Hend.
  { intros E. rewrite E, app_nil_r, Hdir by done. unfold walked. rewrite Hd, Hl. by exists s. }
  unfold walk_step. rewrite deref_0 by done. destruct (decide (p = [])) as [->|Hp0]; [exact (Hend eq_refl)|].
  rewrite bool_decide_eq_false_2 by done. pose proof (words_skip p) as Ew. pose proof (skip_slash_cstr p Hp) as Hq.
  pose proof (skip_slash_length p) as Hql. pose proof (skip_slash_head p) as Hqs. destruct (skip_slash_suffix p) as [pre Epre].
  set (q := skip_slash p) in *. clearbody q. rewrite deref_0 by done.
  destruct (decide (q = [])) as [->|Hq0]; [by apply Hend|]. rewrite bool_decide_eq_false_2 by done.
  destruct (words_step q Hq Hq0 Hqs) as (w & r & -> & Hw & Hne & Hr & Hwords & _). rewrite next_comp_ok by done.
  rewrite Epre, slash_end_app by done. rewrite <- Epre. rewrite Hwords in Ew. rewrite <- Ew.
  assert (cstr r) as Hrc by by apply Forall_app in Hq as [_ ?].
  assert (length r < n)%nat as Hrn by (rewrite length_app in Hql; destruct w; [done|cbn in *; lia]).
  pose proof (vol_tree_unchanged _ _ _ _ H Hu) as Hs. pose proof (fat_max_geometry _ _ (unchanged_geo _ _ Hu)) as Em.
  replace (ws1 ++ w :: words r) with ((ws1 ++ [w]) ++ words r) by by rewrite <- app_assoc.
  rewrite !upath_app. cbn [upath fmap list_fmap]. set (P := upath ws1) in *. set (k := upper <$> w) in *.
  assert (T !! (P ++ [k]) <> Some EDir -> T !! ((P ++ [k]) ++ upath (words r)) = if bool_decide (words r = []) then T !! (P ++ [k]) else None) as Hbelow.
  { intros Hnd. destruct (words r) as [|w2 ws2]; [by rewrite app_nil_r|]. rewrite bool_decide_eq_false_2 by done.
    apply eq_None_not_Some. intros Hin. apply Hnd. by eapply vt_under. }
  assert (T !! (P ++ [k]) = None -> walked T L size ((P ++ [k]) ++ upath (words r)) (slash_end (w ++ r)) = None) as Hnone.
  { intros E. unfold walked. rewrite Hbelow by by rewrite E. rewrite E. by case_match. }
  destruct (Nat.ltb_spec 12 (length w)) as [Hlong|Hshort].
  { exists s. split; [|done]. cbn [mbind res_bind mret res_ret]. rewrite Hnone; [done|].
    destruct (vt_dir _ _ _ H P cur cs Hd Hl) as (_ & _ & _ & Hk). specialize (Hk k). unfold kid_agrees in Hk.
    destruct (find_shown k _) as [[i e]|] eqn:Ef; [|by destruct (T !! (P ++ [k])) as [[]|]].
    apply list_find_Some in Ef as (_ & He & _). apply entry_name_length in He. unfold k in He. rewrite length_fmap in He. lia. }
  rewrite drop_app_length. destruct (walk_dir_tree s T L P cur cs w Hs) as (s1 & Hu1 & Hstep); [by rewrite Em|done..|by apply plain_cstr|].
  fold k in Hstep. assert (unchanged st s1) as Hu2 by by eapply unchanged_comp.
  destruct (T !! (P ++ [k])) as [t|] eqn:Et.
  2: { rewrite Hstep. cbn [mbind res_bind mret res_ret]. exists s1. by rewrite Hnone. }
  destruct (vt_node _ _ _ (P ++ [k]) H) as (t' & kc & kcs & Et' & El); [by eexists|]. rewrite El in Hstep.
  assert (t' = t) as -> by congruence. destruct Hstep as (e & -> & Ec & Hkind). cbn [mbind res_bind]. rewrite Ec. cbn [mbind res_bind].
  unfold e_dir in Hkind. destruct t as [|bs].
  - rewrite Hkind. cbn [mbind res_bind mret res_ret].
    destruct (IH r (ws1 ++ [w]) kc kcs true size s1) as (s' & E & Hu'); [done|by rewrite upath_app..|done|done|done|].
    exists s'. split; [|done]. etrans; [exact E|]. rewrite !upath_app. cbn [upath fmap list_fmap]. do 2 f_equal. fold k P.
    destruct (decide (r = [])) as [->|Hr0]; [|by rewrite slash_end_app]. cbn [words split filter upath fmap list_fmap]. unfold walked.
    change (words []) with (@nil str). cbn [upath fmap list_fmap]. by rewrite app_nil_r, Et, El.
  - destruct Hkind as [Hnd Esz]. rewrite Hnd, Esz. cbn [mbind res_bind]. rewrite deref_0 by done.
    destruct (decide (r = [])) as [->|Er].
    + rewrite bool_decide_eq_true_2 by done. cbn [negb mret res_ret]. destruct n as [|n]; [lia|].
      cbn [while_loop walk_step deref Z.eqb mbind res_bind mret res_ret]. exists s1. split; [|done].
      change (words []) with (@nil str). unfold walked. cbn [upath fmap list_fmap]. rewrite !app_nil_r, Et, El. by rewrite slash_end_plain.
    + rewrite bool_decide_eq_false_2 by done. cbn [negb mbind res_bind mret res_ret]. exists s1. split; [|done]. unfold walked.
      rewrite Hbelow by done. bdec as Hwr; [|done]. rewrite Hwr. cbn [upath fmap list_fmap].
      by rewrite app_nil_r, El, slash_end_app, words_nil_slash.
Qed.

Lemma walk_ok st T L p isdir size : vol_tree st T L -> fat_max st <= Z.of_nat fuel -> absolute p ->
  exists st', walk fuel p isdir size st = Ok (walked T L size (upath (words p)) (slash_end p), st') /\ unchanged st st'.
Proof.
  intros H Hf [Hp Ha]. destruct (vt_root _ _ _ H) as (Hr & cs & Hl). unfold walk. destruct Ha as [->|(c & r & -> & Hc)].
  - exists st. split; [|by apply unchanged_refl, (vt_ok _ _ _ H)]. change (words [SLASH]) with (@nil str). unfold walked. cbn [upath fmap list_fmap].
    by rewrite Hr, Hl.
  - pose proof Hp as [_ [Hc0 _]%Forall_cons]%Forall_cons. rewrite (deref_0 (SLASH :: c :: r)) by done. rewrite bool_decide_eq_false_2 by done.
    rewrite same_condition_eq by (done || by repeat constructor). rewrite bool_decide_eq_false_2 by done. cbn [orb].
    apply (walk_loop st T L H Hf (S (length (SLASH :: c :: r))) (SLASH :: c :: r) [] (root_clus st) cs); try done; [|intros E|lia].
    + by apply unchanged_refl, (vt_ok _ _ _ H).
    + exfalso. rewrite <- words_skip in E. cbn [skip_slash] in E. rewrite Z.eqb_refl, (proj2 (Z.eqb_neq c SLASH) Hc) in E.
      destruct (words_step (c :: r)) as (w & r' & _ & _ & _ & _ & E' & _); [by apply Forall_cons in Hp as [_ ?]|done|done|]. by rewrite E' in E.
Qed.
End walking.

(** ** Lemmas: whole paths *)

Lemma text_absolute ws : Forall (fun w => plain w /\ w <> []) ws -> absolute (text ws).
Proof.
  intros H. unfold text. bdec as Hn; [split; [repeat constructor; unfold SLASH; lia|by left]|].
  assert (cstr (join ws)) as Hc.
  { clear Hn. induction H as [|w ws [Hw _] _ IH]; [constructor|]. cbn [join flat_map app]. fold (join ws).
    apply Forall_cons. split; [unfold SLASH; lia|]. apply Forall_app. split; [by apply plain_cstr|done]. }
  split; [done|]. right. destruct H as [|[|c w] ws [Hw Hwn] _]; [done|done|]. apply Forall_cons in Hw as [[_ Hs] _].
  by exists c, (w ++ join ws).
Qed.

Lemma snoc_comp_inj a b w w' : plain w -> plain w' -> a ++ SLASH :: w = b ++ SLASH :: w' -> a = b /\ w = w'.
Proof.
  intros Hw Hw' E. assert (length a = length b) as Hl.
  { pose proof (last_slash_app a w 0 (-1) Hw) as H1. rewrite E, last_slash_app in H1 by done. lia. }
  apply app_inj_1 in E as [-> E]; [|done]. by injection E.
Qed.

(** The path of the parent directory, with its slash, and the last component. *)
Lemma split_leaf_any p : path_buf p -> exists a w, p = a ++ SLASH :: w /\ plain w /\ absolute (a ++ [SLASH]) /\
  split_leaf p = if (12 <? length w)%nat then None else Some (a ++ [SLASH], w).
Proof.
  intros [Ha Hl]. destruct (last_comp p Ha) as (a & w & -> & Hw & Hpar). exists a, w. split; [done|]. split; [done|]. split; [done|].
  unfold split_leaf. rewrite last_slash_app by done. rewrite length_app in Hl. cbn [length] in Hl. unfold PATH_MAX in *.
  rewrite (proj2 (Z.ltb_ge _ _)) by lia. cbv zeta.
  assert (drop (Z.to_nat (0 + Z.of_nat (length a) + 1)) (a ++ SLASH :: w) = w) as ->.
  { rewrite drop_app_ge by lia. replace (Z.to_nat (0 + Z.of_nat (length a) + 1) - length a)%nat with 1%nat by lia. done. }
  destruct (12 <? length w)%nat; [done|]. do 2 f_equal. change (SLASH :: w) with ([SLASH] ++ w). rewrite app_assoc.
  apply take_app_length'. rewrite length_app. cbn [length]. lia.
Qed.

Section paths.
Context {D : Type} `{!disk D, !good_disk D} (fuel : nat).
Implicit Types (st : fat D) (T : tree) (L : places).

(** ** Lemmas: reading and changing directories *)

Lemma fat_read_any st T L path cap : vol_tree st T L -> cstr path -> resolvable (cwd_path st) path ->
  0 <= cap -> fat_max st <= Z.of_nat fuel ->
  exists o st', abspath (cwd_path st) path = Ok o /\ unchanged st st' /\ fat_read fuel path cap st =
    Ok (match o with Some p => tree_read T (upath (words p)) (slash_end p) cap | None => (-1, []) end, st').
Proof.
  intros H Hp Hc Hcap Hf. pose proof (vt_ok _ _ _ H) as Hok. unfold fat_read.
  destruct (abspath_any _ _ Hp Hc) as (o & -> & Ho). exists o. cbn [mbind res_bind].
  destruct o as [p|]; [|exists st; split; [done|]; split; [by apply unchanged_refl|done]].
  destruct (Ho p eq_refl) as [Ha _]. destruct (walk_ok fuel st T L p true 0 H Hf Ha) as (s1 & -> & Hu1). cbn [mbind res_bind].
  unfold walked, tree_read. set (P := upath (words p)).
  destruct (T !! P) as [t|] eqn:Et; [|by exists s1].
  destruct (vt_node _ _ _ P H) as (t' & c & cs & Et' & El); [by eexists|]. rewrite El.
  assert (t' = t) as -> by congruence. destruct t as [|bs]; [by exists s1|]. destruct (slash_end p); [by exists s1|]. cbv zeta.
  set (n := if Z.of_nat (length bs) <? cap then Z.of_nat (length bs) else cap).
  assert (n = Z.min cap (Z.of_nat (length bs))) as En by (unfold n; destruct (Z.ltb_spec (Z.of_nat (length bs)) cap); lia).
  pose proof (vt_file _ _ _ (vol_tree_unchanged _ _ _ _ H Hu1) _ _ _ _ Et El) as Hh.
  pose proof (fat_max_geometry _ _ (unchanged_geo _ _ Hu1)) as Em.
  assert (exists s2, read_chain fuel n c [] s1 = Ok (Some (take (Z.to_nat n) bs), s2) /\ unchanged s1 s2) as (s2 & -> & Hu2).
  { destruct Hh as [(-> & -> & ->)|(_ & Hch & Hd)].
    - cbn [length] in En. assert (n = 0) as -> by lia. destruct fuel as [|fuel']; [destruct (fo_max _ Hok); lia|].
      exists s1. split; [done|]. by apply unchanged_refl, (unchanged_ok st).
    - pose proof (chain_length _ _ _ (unchanged_ok _ _ Hu1) Hch).
      destruct (read_chain_ok n cs fuel s1 c s1 []) as (s2 & E & Hu); [lia|by eapply unchanged_ok|done|lia|by apply unchanged_refl, (unchanged_ok st)|].
      exists s2. split; [|done]. replace (upto n []) with (@nil Z) in E by (unfold upto; by rewrite take_nil). rewrite E. do 3 f_equal.
      cbn [app]. unfold upto. rewrite <- Hd, take_take. f_equal. lia. }
  cbn [mbind res_bind mret res_ret]. exists s2. split; [done|]. split; [by eapply unchanged_comp|]. do 3 f_equal.
  - rewrite length_take. lia.
  - rewrite En. destruct (decide (cap <= Z.of_nat (length bs))); [f_equal; lia|]. rewrite !take_ge by lia. done.
Qed.

Lemma resolvable_root C path : C = [SLASH] \/ deref path = SLASH -> resolvable C path.
Proof.
  intros [-> |H]; [right|by left]. split; [|done]. split; [repeat constructor; unfold SLASH; lia|by left].
Qed.

Lemma fat_read_ok st T L path cap : vol_tree st T L -> cstr path -> cwd_path st = [SLASH] \/ deref path = SLASH ->
  0 <= cap -> fat_max st <= Z.of_nat fuel ->
  exists st', fat_read fuel path cap st = Ok (root_read T path cap, st') /\ unchanged st st'.
Proof.
  intros H Hp Hc Hcap Hf. destruct (fat_read_any st T L path cap) as (o & st' & E & Hu & ->); [done|done|by apply resolvable_root|done..|].
  exists st'. split; [|done]. do 2 f_equal. destruct (abspath_ok _ _ Hp Hc) as [E' Hn]. rewrite E in E'. injection E' as ->.
  unfold root_read. destruct (norm [] (words path)) as [ws|]; [|done]. cbn [fmap option_fmap option_map].
  destruct (Hn ws eq_refl) as [Hws _]. rewrite words_text by done. destruct (decide (ws = [])) as [->|Hne]; [|by rewrite slash_end_text].
  unfold tree_read. cbn [upath fmap list_fmap]. by rewrite (proj1 (vt_root _ _ _ H)).
Qed.

Lemma fat_chdir_any st T L path : vol_tree st T L -> cstr path -> resolvable (cwd_path st) path \/ path = [] -> fat_max st <= Z.of_nat fuel ->
  exists o st', abspath (cwd_path st) (if bool_decide (path = []) then [SLASH] else path) = Ok o /\ unchanged st st' /\
    fat_chdir fuel path st =
    Ok (match o with
        | Some p => match T !! upath (words p), L !! upath (words p) with
                    | Some EDir, Some (c, _) => (0, set_fcwd st' c p)
                    | _, _ => (-1, st')
                    end
        | None => (-1, st')
        end) /\ forall p, o = Some p -> path_buf p.
Proof.
  intros H Hp Hc Hf. unfold fat_chdir. rewrite deref_0 by done.
  set (path' := if bool_decide (path = []) then [SLASH] else path).
  assert (cstr path' /\ resolvable (cwd_path st) path') as [Hp' Hc'].
  { unfold path'. bdec as He; [split; [repeat constructor; unfold SLASH; lia|by left]|]. by destruct Hc. }
  destruct (abspath_any _ _ Hp' Hc') as (o & -> & Ho). exists o. cbn [mbind res_bind].
  destruct o as [p|]; [|exists st; split; [done|]; split; [by apply unchanged_refl, (vt_ok _ _ _ H)|done]].
  destruct (Ho p eq_refl) as [Ha _]. destruct (walk_ok fuel st T L p false 0 H Hf Ha) as (s1 & -> & Hu1). cbn [mbind res_bind].
  exists s1. split; [done|]. split; [done|]. split; [|done]. unfold walked.
  destruct (T !! upath (words p)) as [[|bs]|]; [| |done]; destruct (L !! upath (words p)) as [[c cs]|]; [done|done| |done]. by destruct (slash_end p).
Qed.
End paths.

(** ** Lemmas: writing a file *)

Section writing.
Context {D : Type} `{!disk D, !good_disk D}.
Implicit Types (st s : fat D) (T : tree) (L : places).

(** Entries of the table do not see a block outside it. *)
Lemma becomes_table s s' l b : fat_ok s -> ~ in_fat s l -> becomes s s' (fun j => if decide (j = l) then b else blk s j) ->
  forall d, 0 <= d < fat_max s -> fat_entry s' 0 d = fat_entry s 0 d.
Proof.
  intros Hok Hl (_ & Hg & Hb) d Hd. pose proof (fo_fats _ Hok).
  apply fat_entry_ext; [done..|lia|done|]. destruct (entry_place s 0 d Hok ltac:(lia) Hd) as (Hp & _ & Hin & _).
  rewrite Hb, decide_False; [done| |lia]. by intros <-.
Qed.

(** Writing a block of one cluster leaves the others alone. *)
Lemma becomes_untouched s s' l b pcs cs : fat_ok s -> of_chain s pcs l -> Forall (fun d => 2 <= d < fat_max s) pcs ->
  Forall (fun d => 2 <= d < fat_max s) cs -> (forall d, d ∈ cs -> d ∉ pcs) ->
  becomes s s' (fun j => if decide (j = l) then b else blk s j) -> untouched s s' cs.
Proof.
  intros Hok (c & t & Hc & Ht & ->) Hp Hr Hd Hb x Hx. rewrite Forall_forall in Hp, Hr.
  specialize (Hr x Hx). specialize (Hp c Hc). destruct (clus_block_range s c t Hok Hp Ht) as (_ & _ & _ & Hn). split.
  - eapply becomes_table; [done|exact Hn|done|lia].
  - intros u Hu. destruct Hb as (_ & _ & Hb). rewrite Hb by by apply clus_block_range.
    rewrite decide_False; [done|]. intros [-> _]%clus_block_inj; [|done..]. by apply (Hd c).
Qed.

Lemma vol_tree_insert s s' T L P pc pcs i k l e0 e key cn csn data :
  vol_tree s T L -> T !! P = Some EDir -> L !! P = Some (pc, pcs) ->
  chain_blocks s pcs !! i = Some l -> (k < 16)%nat -> dir_entries s pcs !! (16 * i + k)%nat = Some e0 ->
  (forall j x, (j < 16 * i + k)%nat -> dir_entries s pcs !! j = Some x -> at_ x 0 <> 0) ->
  (entry_name e0 = None /\ find_shown key (dir_entries s pcs) = None \/ find_shown key (dir_entries s pcs) = Some ((16 * i + k)%nat, e0)) ->
  T !! (P ++ [key]) <> Some EDir -> file_entry e key cn (Z.of_nat (length data)) -> holds s cn csn data ->
  (forall q c cs d, q <> P ++ [key] -> L !! q = Some (c, cs) -> d ∈ cs -> d ∉ csn) ->
  becomes s s' (fun j => if decide (j = l) then put_entry (blk s l) k e else blk s j) ->
  vol_tree s' (<[P ++ [key] := EFile data]> T) (<[P ++ [key] := (cn, csn)]> L).
Proof.
  intros H HP HL Hi Hk He0 Hbefore Hold Hnd (Hel & Heb & Hez & Hen & Hed & Hec & Hes & Hprop) Hh Hdis Hb.
  pose proof (vt_ok _ _ _ H) as Hok. pose proof Hb as (Hok' & Hg & Hbl).
  pose proof (vt_clusters _ _ _ _ _ _ H HL) as (Hr & Hndp & _ & _).
  assert (of_chain s pcs l) as Hof by (apply chain_blocks_of; by eapply list_elem_of_lookup_2).
  assert (is_block (blk s l) /\ ~ in_fat s l) as [Hblk Hnf].
  { destruct Hof as (c & t & Hc & Ht & ->). rewrite Forall_forall in Hr. destruct (clus_block_range s c t Hok (Hr c Hc) Ht) as (? & _ & _ & ?).
    split; [by apply blk_block|done]. }
  assert (P <> P ++ [key]) as HPne by (intros E; apply (f_equal length) in E; rewrite length_app in E; cbn in E; lia).
  assert (forall p, T !! p = Some EDir -> p <> P ++ [key]) as Hdir by (intros p Hp ->; by rewrite Hp in Hnd).
  assert (forall p c cs, p <> P -> L !! p = Some (c, cs) -> untouched s s' cs) as Hun.
  { intros p c cs Hne Hp. apply (becomes_untouched s s' l (put_entry (blk s l) k e) pcs); try done.
    - by eapply vt_clusters.
    - intros d Hd Hd'. apply Hne. by eapply (vt_apart _ _ _ H p P). }
  assert (Forall (fun d => 2 <= d < fat_max s) csn) as Hrn by (destruct Hh as [(_ & -> & _)|(_ & Hch & _)]; [constructor|by eapply chain_range]).
  assert (untouched s s' csn) as Hunn.
  { apply (becomes_untouched s s' l (put_entry (blk s l) k e) pcs); try done. intros d Hd Hd'. by apply (Hdis P pc pcs d). }
  assert (chain s' pc pcs /\ dir_entries s' pcs = <[(16 * i + k)%nat := e]> (dir_entries s pcs)) as [HchP HeP].
  { split.
    - apply (chain_ext s); [by apply fat_max_geometry| |by apply (vt_dir _ _ _ H P)]. intros d Hd. rewrite Forall_forall in Hr. specialize (Hr d Hd).
      eapply becomes_table; [done|exact Hnf|done|lia].
    - unfold dir_entries. rewrite (chain_blocks_geo s) by done. apply (entries_put s s' (chain_blocks s pcs) i k l e); try done.
      + by apply chain_blocks_nodup.
      + intros l' Hl'. rewrite Hbl; [done|]. apply chain_blocks_of in Hl' as (c & t & Hc & Ht & ->).
        rewrite Forall_forall in Hr. by apply clus_block_range; [|apply Hr|]. }
  split.
  - done.
  - destruct (vt_root _ _ _ H) as (Hrt & cs & Hrl). pose proof Hg as (_ & _ & _ & _ & _ & -> & _).
    rewrite !lookup_insert_ne by (by apply Hdir || (intros E; by apply (Hdir [])) || by destruct P). split; [done|by exists cs].
  - intros p. destruct (decide (p = P ++ [key])) as [->|Hne]; [rewrite !lookup_insert_eq; split; by eexists|].
    rewrite !lookup_insert_ne by done. apply (vt_dom _ _ _ H).
  - intros p k' Hs. destruct (decide (p ++ [k'] = P ++ [key])) as [E|Hne].
    + apply app_inj_tail in E as [-> _]. by rewrite lookup_insert_ne by done.
    + rewrite lookup_insert_ne in Hs by done. apply (vt_up _ _ _ H) in Hs. rewrite lookup_insert_ne; [done|]. intros E. by apply (Hdir p).
  - intros p c cs Hp Hl. destruct (decide (p = P ++ [key])) as [->|Hne]; [by rewrite lookup_insert_eq in Hp|].
    rewrite lookup_insert_ne in Hp by done. rewrite lookup_insert_ne in Hl by done. destruct (vt_dir _ _ _ H p c cs Hp Hl) as (Hch & Hn & Hgd & Hkid).
    destruct (decide (p = P)) as [->|HneP].
    + rewrite HL in Hl. injection Hl as <- <-. split; [done|]. split; [done|]. rewrite HeP.
      split; [by apply good_dir_insert|]. intros k'. destruct (decide (k' = key)) as [->|Hkk].
      * rewrite find_shown_eq; [|by eapply lookup_lt_Some|done|].
        { rewrite !lookup_insert_eq. cbn. done. }
        intros j x Hj Hx. destruct Hold as [[_ Hf]|Hf].
        -- apply list_find_None in Hf. apply (Forall_lookup_1 _ _ _ _ Hf Hx).
        -- apply list_find_Some in Hf as (_ & _ & Hf). by eapply Hf.
      * rewrite (find_shown_ne k' _ _ e0); [|done| |congruence].
        2: { destruct Hold as [[-> _]|Hf]; [done|]. apply list_find_Some in Hf as (_ & -> & _). congruence. }
        rewrite !lookup_insert_ne by (intros [_ ?]%app_inj_tail; done). apply Hkid.
    + rewrite (untouched_entries s) by (done || by eapply Hun). split; [by apply (untouched_chain s); [|eapply Hun|]|].
      split; [done|]. split; [done|]. intros k'. rewrite !lookup_insert_ne by (intros [? _]%app_inj_tail; done). apply Hkid.
  - intros p c cs bs Hp Hl. destruct (decide (p = P ++ [key])) as [->|Hne].
    + rewrite lookup_insert_eq in Hp. rewrite lookup_insert_eq in Hl. injection Hp as <-. injection Hl as <- <-. by apply (untouched_holds s).
    + rewrite lookup_insert_ne in Hp by done. rewrite lookup_insert_ne in Hl by done. apply (untouched_holds s); [done| |by apply (vt_file _ _ _ H p)].
      apply (Hun p c); [|done]. intros ->. congruence.
  - intros p q c cs c' cs' d Hp Hq Hd Hd'. destruct (decide (p = P ++ [key])) as [->|Hp1], (decide (q = P ++ [key])) as [->|Hq1]; [done|..].
    + rewrite lookup_insert_eq in Hp. injection Hp as <- <-. rewrite lookup_insert_ne in Hq by done. by destruct (Hdis q c' cs' d).
    + rewrite lookup_insert_eq in Hq. injection Hq as <- <-. rewrite lookup_insert_ne in Hp by done. by destruct (Hdis p c cs d).
    + rewrite lookup_insert_ne in Hp, Hq by done. by eapply (vt_apart _ _ _ H p q).
Qed.

(** A directory gets one more cluster. *)
Lemma vol_tree_grow s s' T L P pc pcs nc :
  vol_tree s T L -> T !! P = Some EDir -> L !! P = Some (pc, pcs) -> 2 <= nc < fat_max s -> fat_entry s 0 nc = 0 ->
  Forall (fun e => at_ e 0 <> 0) (dir_entries s pcs) ->
  fat_ok s' -> same_geometry s s' -> chain s' pc (pcs ++ [nc]) ->
  (forall d, 0 <= d < fat_max s -> d ∉ (pcs ++ [nc]) -> fat_entry s' 0 d = fat_entry s 0 d) ->
  (forall j, 0 <= j -> ~ in_fat s j -> ~ of_chain s [nc] j -> blk s' j = blk s j) ->
  (forall t, 0 <= t < sec_per_clus s -> blk s' (clus_block s nc t) = replicate 512 0) ->
  exists n, (0 < n)%nat /\ dir_entries s' (pcs ++ [nc]) = dir_entries s pcs ++ replicate n (replicate 32 0) /\
    vol_tree s' T (<[P := (pc, pcs ++ [nc])]> L).
Proof.
  intros H HP HL Hnc Hz Hfull Hok' Hg Hch' He Hb Hzero. pose proof (vt_ok _ _ _ H) as Hok.
  destruct (vt_dir _ _ _ H P pc pcs HP HL) as (_ & Hne & Hgd & Hkid). pose proof (fo_spc _ Hok) as Hspc.
  pose proof (vt_clusters _ _ _ _ _ _ H HL) as (Hr & _ & _ & _).
  assert (forall p c cs d, L !! p = Some (c, cs) -> d ∈ cs -> d <> nc) as Hnew.
  { intros p c cs d Hp Hd ->. pose proof (vt_clusters _ _ _ _ _ _ H Hp) as (_ & _ & _ & Hn).
    rewrite Forall_forall in Hn. by apply (Hn nc). }
  assert (forall p c cs d t, L !! p = Some (c, cs) -> d ∈ cs -> 0 <= t < sec_per_clus s ->
    blk s' (clus_block s d t) = blk s (clus_block s d t)) as Hblk.
  { intros p c cs d t Hp Hd Ht. pose proof (vt_clusters _ _ _ _ _ _ H Hp) as (Hr' & _). rewrite Forall_forall in Hr'.
    destruct (clus_block_range s d t Hok (Hr' d Hd) Ht) as (? & _ & _ & Hnf). apply Hb; [lia|done|].
    intros (x & u & ->%list_elem_of_singleton & Hu & [-> _]%clus_block_inj); [by apply (Hnew p c cs nc)|done..]. }
  assert (forall p c cs, p <> P -> L !! p = Some (c, cs) -> untouched s s' cs) as Hun.
  { intros p c cs Hnp Hp d Hd. split; [|intros t Ht; by eapply Hblk]. pose proof (vt_clusters _ _ _ _ _ _ H Hp) as (Hr' & _).
    rewrite Forall_forall in Hr'. specialize (Hr' d Hd). apply He; [lia|]. intros [Hd'| ->%list_elem_of_singleton]%elem_of_app.
    - apply Hnp. by eapply (vt_apart _ _ _ H p P).
    - by apply (Hnew p c cs nc). }
  destruct (dir_entries_zero s' nc) as (n & En & Hn).
  { pose proof Hg as (_ & E2 & E3 & _). intros t Ht. rewrite E3 in Ht. rewrite <- (Hzero t Ht). unfold clus_block. by rewrite E2, E3. }
  assert (dir_entries s' (pcs ++ [nc]) = dir_entries s pcs ++ replicate n (replicate 32 0)) as Ede.
  { rewrite dir_entries_app, En. f_equal. apply dir_entries_ext; [done|]. intros l (d & t & Hd & Ht & ->). by eapply Hblk. }
  exists n. pose proof Hg as (_ & _ & E3 & _). split; [apply Hn; rewrite E3; lia|]. split; [done|]. split.
  - done.
  - destruct (vt_root _ _ _ H) as (Hrt & cs & Hrl). split; [done|]. pose proof Hg as (_ & _ & _ & _ & _ & -> & _).
    destruct (decide (P = [])) as [->|Hp]; [|rewrite lookup_insert_ne by done; by exists cs].
    rewrite lookup_insert_eq. rewrite HL in Hrl. injection Hrl as -> _. by eexists.
  - intros p. rewrite (vt_dom _ _ _ H). destruct (decide (p = P)) as [->|Hp]; [rewrite lookup_insert_eq, HL; split; by eexists|].
    by rewrite lookup_insert_ne.
  - apply (vt_up _ _ _ H).
  - assert (forall q k x, kid_agrees x (T !! (q ++ [k])) (L !! (q ++ [k])) ->
      kid_agrees x (T !! (q ++ [k])) (<[P := (pc, pcs ++ [nc])]> L !! (q ++ [k]))) as Hk.
    { intros q k x Hk. destruct (decide (q ++ [k] = P)) as [<-|Hq]; [|by rewrite lookup_insert_ne].
      rewrite lookup_insert_eq. rewrite HL in Hk. exact Hk. }
    intros p c cs Hp Hl. destruct (decide (p = P)) as [->|Hpne].
    + rewrite lookup_insert_eq in Hl. injection Hl as <- <-. split; [done|]. split; [by destruct pcs|]. rewrite Ede.
      split; [by apply good_dir_grow|]. intros k. rewrite find_shown_grow. apply Hk, Hkid.
    + rewrite lookup_insert_ne in Hl by done. destruct (vt_dir _ _ _ H p c cs Hp Hl) as (Hch & Hcn & Hcg & Hck).
      rewrite (untouched_entries s) by (done || by eapply Hun). split; [by apply (untouched_chain s); [|eapply Hun|]|].
      split; [done|]. split; [done|]. intros k. apply Hk, Hck.
  - intros p c cs bs Hp Hl. assert (p <> P) by (intros ->; congruence). rewrite lookup_insert_ne in Hl by done.
    apply (untouched_holds s); [done|by eapply Hun|by apply (vt_file _ _ _ H p)].
  - intros p q c cs c' cs' d Hp Hq Hd Hd'. destruct (decide (p = P)) as [->|Hp1], (decide (q = P)) as [->|Hq1]; [done|..].
    + rewrite lookup_insert_eq in Hp. injection Hp as <- <-. rewrite lookup_insert_ne in Hq by done.
      apply elem_of_app in Hd as [Hd| ->%list_elem_of_singleton]; [by eapply (vt_apart _ _ _ H P q)|].
      by destruct (Hnew q c' cs' nc).
    + rewrite lookup_insert_eq in Hq. injection Hq as <- <-. rewrite lookup_insert_ne in Hp by done.
      apply elem_of_app in Hd' as [Hd'| ->%list_elem_of_singleton]; [by eapply (vt_apart _ _ _ H p P)|].
      by destruct (Hnew p c cs nc).
    + rewrite lookup_insert_ne in Hp by done. rewrite lookup_insert_ne in Hq by done. by eapply (vt_apart _ _ _ H p q).
Qed.

(** The loop of [dir_slot] that clears a cluster. *)
Lemma zero_blocks_ok st c n i s : fat_ok st -> fat_ok s -> same_geometry st s -> 2 <= c < fat_max st ->
  0 <= i -> i + Z.of_nat n <= sec_per_clus st ->
  exists s', for_loop n i (fun t st =>
      '(r, st) ← write_from (u64 (clus_lba c st + t)) (replicate 512 0) st;
      mret (if negb (r =? 0) then Done st else Next st)) s = Ok (@Next _ (fat D) s') /\
    fat_ok s' /\ same_geometry st s' /\
    (forall j, 0 <= j -> (forall t, i <= t < i + Z.of_nat n -> j <> clus_block st c t) -> blk s' j = blk s j) /\
    (forall t, i <= t < i + Z.of_nat n -> blk s' (clus_block st c t) = replicate 512 0).
Proof.
  intros Hok Hoks Hg Hc. revert i s Hoks Hg. induction n as [|n IH]; intros i s Hoks Hg Hi Hn; cbn [for_loop].
  - exists s. split; [done|]. split; [done|]. split; [done|]. split; [done|]. lia.
  - pose proof Hg as (_ & E2 & E3 & _ & _ & _ & _ & _ & _ & E10).
    destruct (clus_block_range st c i Hok Hc ltac:(lia)) as (Hr & Hu & _).
    assert (u64 (clus_lba c s + i) = clus_block st c i) as -> by (rewrite <- Hu; unfold clus_lba; by rewrite E2, E3).
    destruct (write_from_ok s (clus_block st c i) (replicate 512 0) Hoks) as (s1 & -> & (Hok1 & Hg1 & Hb1) & _); [lia| |].
    { split; [reflexivity|]. apply Forall_replicate. unfold is_byte. lia. }
    cbn [mbind res_bind mret res_ret Z.eqb negb].
    destruct (IH (i + 1) s1 Hok1) as (s' & E & H1 & H2 & H3 & H4); [by eapply same_geometry_trans|lia|lia|].
    exists s'. split; [exact E|]. split; [done|]. split; [done|]. split.
    + intros j Hj Ht. rewrite H3; [|done|intros t Ht'; apply Ht; lia]. rewrite Hb1, decide_False; [done| |done]. apply Ht. lia.
    + intros t Ht. destruct (decide (t = i)) as [->|]; [|apply H4; lia].
      rewrite H3; [|lia|intros u Hu' E'; apply clus_block_inj in E' as [_ ->]; lia]. rewrite Hb1, decide_True by (done || lia). done.
Qed.

Lemma chain_blocks_length st cs : Z.of_nat (length (chain_blocks st cs)) = Z.max 0 (sec_per_clus st) * Z.of_nat (length cs).
Proof.
  induction cs as [|c cs IH]; [cbn; lia|]. cbn [chain_blocks flat_map]. fold (chain_blocks st cs). unfold clus_blocks at 1.
  rewrite length_app, length_fmap, length_seqZ. cbn [length]. lia.
Qed.

Lemma entries_length st ls : length (entries st ls) = (16 * length ls)%nat.
Proof. induction ls as [|l ls IH]; [done|]. unfold entries in *. cbn [flat_map length]. rewrite length_app, IH, slots_length. lia. Qed.

(** Clearing a new cluster and linking it to the end of a chain. *)
Lemma link_dir_ok s s2 pc pcs prev nc : fat_ok s -> chain s pc pcs -> last pcs = Some prev ->
  2 <= nc < fat_max s -> fat_entry s 0 nc = 0 -> entry_set s s2 nc 0x0FFFFFFF ->
  exists s3 s4, for_loop (Z.to_nat (sec_per_clus s2)) 0 (fun t st =>
      '(r, st) ← write_from (u64 (clus_lba nc st + t)) (replicate 512 0) st;
      mret (if negb (r =? 0) then Done st else Next st)) s2 = Ok (@Next _ (fat D) s3) /\
    fat_set prev nc s3 = Ok (0, s4) /\ fat_ok s4 /\ same_geometry s s4 /\ nc ∉ pcs /\ chain s4 pc (pcs ++ [nc]) /\
    (forall d, 0 <= d < fat_max s -> d <> prev -> d <> nc -> fat_entry s4 0 d = fat_entry s 0 d) /\
    (forall j, 0 <= j -> ~ in_fat s j -> ~ of_chain s [nc] j -> blk s4 j = blk s j) /\
    (forall t, 0 <= t < sec_per_clus s -> blk s4 (clus_block s nc t) = replicate 512 0).
Proof.
  intros Hok Hch Hprev Hnc Hz (Hok2 & Hg2 & Hb2 & He2). destruct (fo_max _ Hok) as [Hm _]. pose proof (fo_fats _ Hok) as Hnf.
  pose proof (chain_range _ _ _ Hch) as Hr. rewrite Forall_forall in Hr. pose proof Hg2 as (_ & E22 & E23 & E24 & _).
  pose proof (Hr prev ltac:(apply last_Some in Hprev as [? ->]; apply elem_of_app; right; by left)) as Hpr.
  assert (nc ∉ pcs) as Hncn by (intros Hin; apply (chain_entry_nonzero s pc pcs nc); [lia|done..]).
  destruct (zero_blocks_ok s nc (Z.to_nat (sec_per_clus s2)) 0 s2 Hok Hok2 Hg2 Hnc) as (s3 & Ez & Hok3 & Hg3 & Hb3 & Hz3);
    [lia|rewrite E23; pose proof (fo_spc _ Hok); lia|].
  pose proof (fat_max_geometry _ _ Hg3) as Em3. pose proof Hg3 as (_ & _ & _ & E43 & _).
  destruct (fat_set_ok s3 prev nc Hok3) as (s4 & El & (Hok4 & Hg4 & Hb4 & He4) & _); [rewrite Em3; lia|unfold EOC in Hm; lia|].
  rewrite E23, Z2Nat.id, !Z.add_0_l in * by (pose proof (fo_spc _ Hok); lia).
  pose proof (same_geometry_trans _ _ _ Hg3 Hg4) as Hg. exists s3, s4. split; [exact Ez|]. split; [exact El|].
  assert (forall d, 0 <= d < fat_max s -> fat_entry s4 0 d = if decide (d = prev) then nc else if decide (d = nc) then 0x0FFFFFFF else fat_entry s 0 d) as He.
  { intros d Hd. rewrite He4 by (rewrite ?Em3, ?E43; lia). case_decide; [done|]. rewrite <- He2 by lia.
    apply (entries_data s2 s3 nc Hok2); [by eapply same_geometry_trans; [apply same_geometry_sym|]|by rewrite (fat_max_geometry _ _ Hg2)| |lia|by rewrite (fat_max_geometry _ _ Hg2)].
    intros j Hj Hjn. apply Hb3; [done|]. intros t Ht ->. apply (Hjn t); [by rewrite E23|]. unfold clus_block. by rewrite E22, E23. }
  split; [done|]. split; [done|]. split; [done|]. split; [|split; [|split]].
  - apply (chain_snoc s s4 pc pcs prev nc); [by apply fat_max_geometry|lia|done..|by apply (chain_nodup s pc); [lia|]|done| | |].
    + intros d Hd Hdp. pose proof (Hr d Hd). rewrite He by lia. rewrite decide_False, decide_False by (done || by intros ->). done.
    + rewrite He by lia. by rewrite decide_True.
    + rewrite He by lia. rewrite decide_False, decide_True by (done || intros <-; apply Hncn; apply last_Some in Hprev as [? ->]; apply elem_of_app; right; by left). done.
  - intros d Hd Hp Hn. rewrite He by done. by rewrite !decide_False.
  - intros j Hj Hi Ho. rewrite Hb4; [|done|by rewrite (in_fat_geo s)]. rewrite Hb3; [by apply Hb2|done|].
    intros t Ht ->. apply Ho. exists nc, t. split; [by left|done].
  - intros t Ht. destruct (clus_block_range s nc t Hok Hnc Ht) as (? & _ & _ & ?). rewrite Hb4; [by apply Hz3|lia|by rewrite (in_fat_geo s)].
Qed.

Lemma grow_dir_ok s s2 T L P pc pcs prev nc : vol_tree s T L -> T !! P = Some EDir -> L !! P = Some (pc, pcs) ->
  Forall (fun e => at_ e 0 <> 0) (dir_entries s pcs) -> last pcs = Some prev ->
  2 <= nc < fat_max s -> fat_entry s 0 nc = 0 -> entry_set s s2 nc 0x0FFFFFFF ->
  exists s3 s4 s5, for_loop (Z.to_nat (sec_per_clus s2)) 0 (fun t st =>
      '(r, st) ← write_from (u64 (clus_lba nc st + t)) (replicate 512 0) st;
      mret (if negb (r =? 0) then Done st else Next st)) s2 = Ok (@Next _ (fat D) s3) /\
    fat_set prev nc s3 = Ok (0, s4) /\ read_sec (clus_lba nc s4) s4 = Ok (0, s5) /\
    place_ready s s5 T L P pc pcs (clus_lba nc s5) 0.
Proof.
  intros H HP HL Hfull Hprev Hnc Hz Hset. pose proof (vt_ok _ _ _ H) as Hok. pose proof (fo_fats _ Hok) as Hnf. pose proof (fo_spc _ Hok) as Hspc.
  destruct (vt_dir _ _ _ H P pc pcs HP HL) as (Hch & _).
  destruct (link_dir_ok s s2 pc pcs prev nc) as (s3 & s4 & E3 & E4 & Hok4 & Hg & Hncn & Hch4 & He & Hb & Hzero); [done..|].
  exists s3, s4. destruct (clus_block_range s nc 0 Hok Hnc ltac:(lia)) as (Hl0 & Hu0 & Hlu & _). rewrite Z.add_0_r in Hu0.
  pose proof Hg as (_ & E42 & E43 & E44 & _ & _ & _ & _ & _ & E410). pose proof (fat_max_geometry _ _ Hg) as Em4.
  assert (clus_lba nc s4 = clus_block s nc 0) as El by (rewrite <- Hu0, Hlu; unfold clus_lba; by rewrite E42, E43).
  rewrite El. destruct (read_sec_ok s4 (clus_block s nc 0) Hok4 ltac:(lia)) as (s5 & E5 & Hb5 & Hs5 & Hh5).
  assert (unchanged s4 s5) as Hu5 by done. pose proof (unchanged_geo _ _ Hu5) as Hg5.
  exists s5. split; [exact E3|]. split; [exact E4|]. split; [exact E5|].
  assert (clus_lba nc s5 = clus_block s nc 0) as -> by (rewrite <- El; unfold clus_lba; pose proof Hg5 as (_ & -> & -> & _); done).
  destruct (vol_tree_grow s s4 T L P pc pcs nc H HP HL Hnc Hz Hfull Hok4 Hg Hch4) as (n & Hn & Ede & Hv4); [|done..|].
  { intros d Hd Hdn. apply He; [done|intros ->..]; apply Hdn, elem_of_app; [left|right; by left].
    apply last_Some in Hprev as [? ->]. apply elem_of_app. right. by left. }
  split; [by eapply unchanged_ok|]. split; [by eapply same_geometry_trans|]. split.
  - intros cs Hcs Hdis d Hd. rewrite Forall_forall in Hcs. destruct (Hcs d Hd) as [Hdr Hdz]. split.
    + rewrite (becomes_entry s4 s5) by (done || apply Hu5 || lia). apply He; [lia| |by intros ->].
      intros ->. apply (Hdis prev); [done|]. apply last_Some in Hprev as [? ->]. apply elem_of_app. right. by left.
    + intros t Ht. destruct (clus_block_range s d t Hok Hdr Ht) as (? & _ & _ & ?). rewrite (unchanged_blk s4 s5) by (done || lia).
      apply Hb; [lia|done|]. by intros (x & u & ->%list_elem_of_singleton & Hu & [-> _]%clus_block_inj).
  - exists (pcs ++ [nc]), (replicate 32 0), (length (chain_blocks s pcs)), 0%nat.
    assert (dir_entries s5 (pcs ++ [nc]) = dir_entries s4 (pcs ++ [nc])) as Ede5.
    { apply (untouched_entries s4); [done|]. apply untouched_unchanged; [done|done|by eapply chain_range]. }
    assert (length (dir_entries s pcs) = 16 * length (chain_blocks s pcs))%nat as Elen by apply entries_length.
    split; [by eapply vol_tree_unchanged|]. split; [|split; [done|split]].
    + unfold slot_at. rewrite Ede5, Ede, (chain_blocks_geo s s5) by (done || by eapply same_geometry_trans). rewrite Nat.add_0_r, <- Elen.
      split; [|split; [lia|split; [done|split]]].
      * unfold chain_blocks. rewrite flat_map_app. cbn [flat_map]. rewrite app_nil_r, lookup_app_r by lia. rewrite Nat.sub_diag.
        unfold clus_blocks. rewrite list_lookup_fmap, lookup_seqZ_lt by lia. done.
      * rewrite lookup_app_r, Nat.sub_diag by lia. by rewrite lookup_replicate_2.
      * intros j x Hj Hx. rewrite lookup_app_l in Hx by lia. by apply (Forall_lookup_1 _ _ _ _ Hfull Hx).
    + rewrite Hs5. symmetry. apply (unchanged_blk s4); [done|lia].
    + intros d [Hd| ->%list_elem_of_singleton]%elem_of_app; [by left|by right].
Qed.

Lemma dir_slot_ok fuel s T L P pc pcs : vol_tree s T L -> T !! P = Some EDir -> L !! P = Some (pc, pcs) ->
  fat_max s <= Z.of_nat fuel ->
  exists r s', dir_slot fuel pc s = Ok (r, s') /\
    match r with
    | Some (l, off) => place_ready s s' T L P pc pcs l off
    | None => unchanged s s' /\ forall c, 2 <= c < fat_max s -> fat_entry s 0 c <> 0
    end.
Proof.
  intros H HP HL Hf. pose proof (vt_ok _ _ _ H) as Hok. destruct (vt_dir _ _ _ H P pc pcs HP HL) as (Hch & Hne & Hgd & Hkid).
  pose proof (vt_clusters _ _ _ _ _ _ H HL) as (Hr & Hnd & Hlen & _).
  unfold dir_slot. pose proof (slot_loop_ok fuel s pc pcs 0 s Hok Hch ltac:(lia) (unchanged_refl _ Hok)) as Hsl.
  destruct (search by_free 0 (dir_entries s pcs)) as [[[p e] h]|] eqn:Es.
  - destruct Hsl as (l & i & k & s' & -> & Hu & Hsec & Hi & Hk & ->). cbn [mbind res_bind mret res_ret].
    eexists (Some (l, _)), s'. split; [reflexivity|]. pose proof (unchanged_geo _ _ Hu) as Hg.
    split; [by eapply unchanged_ok|]. split; [done|]. split.
    { intros cs Hcs _. apply untouched_unchanged; [done|done|]. eapply Forall_impl; [exact Hcs|]. by intros d [? _]. }
    destruct (search_free _ _ _ _ Es) as (He & Hen & Hbef).
    exists pcs, e, i, k. rewrite insert_id by done. split; [by eapply vol_tree_unchanged|].
    split; [|split; [done|split; [|by left]]].
    + unfold slot_at. rewrite (chain_blocks_geo s), (untouched_entries s) by (done || by apply untouched_unchanged). done.
    + rewrite Hsec. symmetry. apply unchanged_blk; [done|].
      assert (of_chain s pcs l) as (c & t & Hc & Ht & ->) by (apply chain_blocks_of; by eapply list_elem_of_lookup_2).
      rewrite Forall_forall in Hr. by apply clus_block_range; [|apply Hr|].
  - destruct Hsl as (s1 & -> & Hu1). cbn [mbind res_bind]. destruct (last_is_Some pcs) as [_ Hl]. destruct (Hl Hne) as [prev Hprev].
    rewrite Hprev. change (default 0 (Some prev)) with prev. rewrite Forall_forall in Hr.
    rewrite (proj2 (Z.eqb_neq prev 0)) by (pose proof (Hr prev ltac:(apply last_Some in Hprev as [? ->]; apply elem_of_app; right; by left)); lia).
    pose proof (unchanged_ok _ _ Hu1) as Hok1. pose proof (fat_max_geometry _ _ (unchanged_geo _ _ Hu1)) as Em1.
    pose proof (fo_fats _ Hok) as Hnf. destruct (alloc_clus_ok s1 Hok1) as (nc & s2 & -> & Hsp & Hh). cbn [mbind res_bind].
    destruct Hsp as [(-> & Hbe & Hno)|(Hnc & Hz & Hset)].
    + cbn [Z.eqb]. exists None, s2. split; [done|]. split; [eapply unchanged_comp; [done|by split]|].
      intros c Hc. rewrite <- (becomes_entry s s1) by (done || apply Hu1 || lia). apply Hno. by rewrite Em1.
    + rewrite (proj2 (Z.eqb_neq nc 0)) by lia. rewrite Em1 in Hnc.
      rewrite (becomes_entry s s1) in Hz by (done || apply Hu1 || lia).
      destruct (grow_dir_ok s s2 T L P pc pcs prev nc H HP HL) as (s3 & s4 & s5 & E3 & E4 & E5 & Hready); [|done..| |].
      { apply search_None in Es. eapply Forall_impl; [exact Es|]. intros e He' Hz0. unfold by_free in He'. by rewrite Hz0 in He'. }
      { apply (entry_set_becomes s s1); [done|apply Hu1|done]. }
      rewrite E3. cbn [mbind res_bind]. rewrite E4. cbn [mbind res_bind Z.eqb negb]. rewrite E5. cbn [mbind res_bind Z.eqb negb].
      by eexists (Some (_, _)), s5.
Qed.

(** ** Lemmas: the parts of [fat_write] *)

Lemma lookup_tree fuel st T L P pc pcs w base ext : vol_tree st T L -> T !! P = Some EDir -> L !! P = Some (pc, pcs) ->
  fat_max st <= Z.of_nat fuel -> name83_of w base ext ->
  exists st' r, lookup83 fuel pc (pad 8 (upper <$> base) ++ pad 3 (upper <$> ext)) st = Ok (r, st') /\ unchanged st st' /\
    match find_shown (shown83 base ext) (dir_entries st pcs) with
    | Some (p, e) => exists l off i k, r = Some (l, off, e_dir e, e_clus e, e_size e) /\ p = (16 * i + k)%nat /\ slot_at st pcs l off e i k
    | None => r = None
    end.
Proof.
  intros H HP HL Hf Hn. destruct (vt_dir _ _ _ H P pc pcs HP HL) as (Hch & _ & Hgd & _).
  pose proof (vt_clusters _ _ _ _ _ _ H HL) as (_ & _ & Hlen & _).
  destruct (lookup83_ok fuel (pad 8 (upper <$> base) ++ pad 3 (upper <$> ext)) st pc pcs) as (st' & r & E & Hu & Hr); [by eapply vt_ok|done|lia|].
  exists st', r. split; [exact E|]. split; [done|]. rewrite <- (search_83 w) by done.
  destruct (search (by_83 _) 0 (dir_entries st pcs)) as [[[p e] h]|] eqn:Es; [|done].
  destruct h; [|done]. destruct Hr as (l & i & k & -> & Hi & Hk & ->). exists l, (Z.of_nat k * 32), i, k. split; [done|]. split; [done|].
  apply search_Some in Es as (_ & He & _ & Hb). rewrite Nat.sub_0_r in *. split; [done|]. split; [done|]. split; [done|]. split; [done|].
  intros j x Hj Hx Hz. specialize (Hb j x Hj Hx). unfold by_83 in Hb. by rewrite Hz in Hb.
Qed.

(** Filling in the entry and writing its block. *)
Lemma store_ok s T L P pc pcs l off e0 i k w base ext cn csn data : vol_tree s T L -> T !! P = Some EDir -> L !! P = Some (pc, pcs) ->
  slot_at s pcs l off e0 i k -> sec s = blk s l -> name83_of w base ext ->
  (entry_name e0 = None /\ T !! (P ++ [shown83 base ext]) = None \/
   find_shown (shown83 base ext) (dir_entries s pcs) = Some ((16 * i + k)%nat, e0)) ->
  T !! (P ++ [shown83 base ext]) <> Some EDir -> holds s cn csn data -> Z.of_nat (length data) < 2 ^ 32 ->
  (forall q c cs d, q <> P ++ [shown83 base ext] -> L !! q = Some (c, cs) -> d ∈ cs -> d ∉ csn) ->
  exists b s', fill_entry (sec s) off (pad 8 (upper <$> base) ++ pad 3 (upper <$> ext)) 0x20 cn (u32 (Z.of_nat (length data))) = Ok b /\
    write_sec l (set_sec s b) = Ok (0, s') /\ same_geometry s s' /\
    (forall d, 0 <= d < fat_max s -> fat_entry s' 0 d = fat_entry s 0 d) /\
    vol_tree s' (<[P ++ [shown83 base ext] := EFile data]> T) (<[P ++ [shown83 base ext] := (cn, csn)]> L).
Proof.
  intros H HP HL (Hi & Hk & -> & He0 & Hb) Hsec Hn Hold Hnd Hh Hsz Hdis. pose proof (vt_ok _ _ _ H) as Hok.
  destruct (fo_max _ Hok) as [Hm _]. change (2 ^ 32) with 4294967296 in *. rewrite u32_small by lia.
  assert (0 <= cn < 2 ^ 32) as Hcn.
  { change (2 ^ 32) with 4294967296. unfold EOC in Hm. destruct Hh as [(_ & _ & ->)|(Hne & Hch & Hd)]; [lia|].
    inversion Hch; subst; [by rewrite firstn_nil in Hd|lia]. }
  pose proof (vt_clusters _ _ _ _ _ _ H HL) as (Hr & _). rewrite Forall_forall in Hr.
  assert (of_chain s pcs l) as (c & t & Hc & Ht & El) by (apply chain_blocks_of; by eapply list_elem_of_lookup_2).
  destruct (clus_block_range s c t Hok (Hr c Hc) Ht) as (Hl & _ & _ & Hnf). rewrite <- El in Hl, Hnf.
  pose proof (blk_block s l Hok Hl) as Hbl. pose proof Hbl as [Hlen _]. unfold SECTOR in Hlen.
  pose proof (file_entry_ok w base ext cn (Z.of_nat (length data)) Hn Hcn ltac:(change (2 ^ 32) with 4294967296; lia)) as Hfe.
  set (e := entry_bytes _ _ _ _) in Hfe.
  exists (put_entry (blk s l) k e). rewrite Hsec, fill_entry_ok by (lia || by eapply name83_length). fold e.
  destruct Hfe as (Hfl & Hfb & Hfe).
  assert (is_block (put_entry (blk s l) k e)) as Hpb by by apply put_entry_block.
  assert (fat_ok (set_sec s (put_entry (blk s l) k e))) as Hok1 by by apply (fat_ok_geometry s); [|repeat split|apply Hok..].
  destruct (write_from_ok (set_sec s (put_entry (blk s l) k e)) l (put_entry (blk s l) k e) Hok1 Hl Hpb) as (s' & E & Hbe & _ & _).
  exists s'. split; [unfold put_entry; by replace (Z.to_nat (Z.of_nat k * 32)) with (k * 32)%nat by lia|].
  split; [exact E|].
  assert (becomes s s' (fun j => if decide (j = l) then put_entry (blk s l) k e else blk s j)) as Hbe'.
  { destruct Hbe as (H1 & H2 & H3). split; [done|]. split; [|exact H3]. exact H2. }
  split; [apply Hbe'|]. split; [by eapply becomes_table|].
  eapply (vol_tree_insert s s' T L P pc pcs i k l e0 e); try done.
  destruct Hold as [[He Ht0]|Hf]; [left|by right]. split; [done|].
  destruct (vt_dir _ _ _ H P pc pcs HP HL) as (_ & _ & _ & Hkid). specialize (Hkid (shown83 base ext)).
  rewrite Ht0 in Hkid. unfold kid_agrees in Hkid. by destruct (find_shown _ _) as [[]|].
Qed.

(** Freeing the chain of a file. *)
Lemma free_held fuel s c cs bs : fat_ok s -> holds s c cs bs -> fat_max s <= Z.of_nat fuel ->
  exists s', free_chain fuel c s = Ok s' /\ freed s s' cs.
Proof.
  intros Hok [(-> & -> & ->)|(_ & Hch & _)] Hf; destruct (fo_max _ Hok) as [Hm _].
  - destruct fuel as [|fuel]; [lia|]. exists s. split; [done|]. split; [done|]. split; [apply same_geometry_refl|].
    split; [done|]. split; [done|]. intros k d _ _. rewrite decide_False; [done|]. apply not_elem_of_nil.
  - pose proof (chain_length _ _ _ Hok Hch). apply free_chain_ok; [done|done|lia].
Qed.

Lemma freed_untouched s s' ocs cs : fat_ok s -> freed s s' ocs -> Forall (fun d => 2 <= d < fat_max s) cs ->
  (forall d, d ∈ cs -> d ∉ ocs) -> untouched s s' cs.
Proof.
  intros Hok (_ & _ & _ & Hb & He) Hr Hd d Hdc. rewrite Forall_forall in Hr. specialize (Hr d Hdc). pose proof (fo_fats _ Hok). split.
  - rewrite He, decide_False by (lia || by apply Hd). done.
  - intros t Ht. destruct (clus_block_range s d t Hok Hr Ht) as (? & _ & _ & ?). apply Hb; [lia|done].
Qed.

(** Taking free clusters leaves those in use alone. *)
Lemma took_untouched s s' ncs cs : fat_ok s -> took s s' ncs -> Forall (fun d => 2 <= d < fat_max s /\ fat_entry s 0 d <> 0) cs ->
  untouched s s' cs.
Proof.
  intros Hok (_ & _ & Hfr & _ & He & Hb) Hcs d Hd. rewrite Forall_forall in Hcs, Hfr. destruct (Hcs d Hd) as [Hr Hz]. pose proof (fo_fats _ Hok).
  assert (d ∉ ncs) as Hn by (intros Hin; by destruct (Hfr d Hin)). split; [apply He; [lia|lia|done]|].
  intros t Ht. destruct (clus_block_range s d t Hok Hr Ht) as (? & _ & _ & ?). apply Hb; [lia|done|].
  by intros (x & u & Hx & Hu & [-> _]%clus_block_inj).
Qed.

Lemma undone_untouched s s' cs : fat_ok s -> undone s s' -> Forall (fun d => 2 <= d < fat_max s /\ fat_entry s 0 d <> 0) cs ->
  untouched s s' cs.
Proof.
  intros Hok (_ & _ & He & ncs & Hfr & Hb) Hcs d Hd. rewrite Forall_forall in Hcs, Hfr. destruct (Hcs d Hd) as [Hr Hz].
  assert (d ∉ ncs) as Hn by (intros Hin; by destruct (Hfr d Hin)). split; [apply He; lia|].
  intros t Ht. destruct (clus_block_range s d t Hok Hr Ht) as (? & _ & _ & ?). apply Hb; [lia|done|].
  by intros (x & u & Hx & Hu & [-> _]%clus_block_inj).
Qed.

Lemma vt_used st T L p c cs : vol_tree st T L -> L !! p = Some (c, cs) ->
  Forall (fun d => 2 <= d < fat_max st /\ fat_entry st 0 d <> 0) cs.
Proof. intros H Hp. pose proof (vt_clusters _ _ _ _ _ _ H Hp) as (Hr & _ & _ & Hn). apply Forall_and. by split. Qed.

(** After the new chain was built: the tree is still there, and the chain is
    apart from it. *)
Lemma wrote_tree s s' T L cn csn data : vol_tree s T L -> took s s' csn -> holds s' cn csn data ->
  vol_tree s' T L /\ (forall q c cs d, L !! q = Some (c, cs) -> d ∈ cs -> d ∉ csn) /\
  Forall (fun d => 2 <= d < fat_max s' /\ fat_entry s' 0 d <> 0) csn.
Proof.
  intros H Ht Hh. pose proof (vt_ok _ _ _ H) as Hok. pose proof Ht as (Hok' & Hg & Hfr & _). split; [|split].
  - apply (vol_tree_untouched s); [done..|]. intros p c cs Hp. eapply took_untouched; [done|done|by eapply vt_used].
  - intros q c cs d Hq Hd Hin. pose proof (vt_used _ _ _ _ _ _ H Hq) as Hu. rewrite Forall_forall in Hu, Hfr.
    destruct (Hu d Hd) as [_ Hn]. by destruct (Hfr d Hin).
  - destruct (fo_max _ Hok') as [Hm _]. destruct Hh as [(_ & -> & _)|(_ & Hch & _)]; [constructor|]. apply Forall_and. split; [by eapply chain_range|].
    apply Forall_forall. intros d Hd. apply (chain_entry_nonzero s' cn csn d); [lia|done..].
Qed.

(** Replacing a file: its entry is written, and its old clusters are freed. *)
Lemma finish_old fuel s2 s T L P pc pcs l off e0 i k w base ext cn csn data oc ocs obs :
  vol_tree s2 T L -> took s2 s csn -> holds s cn csn data -> T !! P = Some EDir -> L !! P = Some (pc, pcs) ->
  find_shown (shown83 base ext) (dir_entries s2 pcs) = Some ((16 * i + k)%nat, e0) -> slot_at s2 pcs l off e0 i k ->
  name83_of w base ext -> T !! (P ++ [shown83 base ext]) = Some (EFile obs) -> L !! (P ++ [shown83 base ext]) = Some (oc, ocs) ->
  Z.of_nat (length data) < 2 ^ 32 -> fat_max s <= Z.of_nat fuel ->
  exists s4 b s5 s6, read_sec l s = Ok (0, s4) /\
    fill_entry (sec s4) off (pad 8 (upper <$> base) ++ pad 3 (upper <$> ext)) 0x20 cn (u32 (Z.of_nat (length data))) = Ok b /\
    write_sec l (set_sec s4 b) = Ok (0, s5) /\ (if 2 <=? oc then free_chain fuel oc s5 else Ok s5) = Ok s6 /\ same_geometry s s6 /\
    vol_tree s6 (<[P ++ [shown83 base ext] := EFile data]> T) (<[P ++ [shown83 base ext] := (cn, csn)]> L).
Proof.
  intros H2 Htook Hh HP HL Hf Hslot Hn HTf HLf Hsz Hfu. destruct (wrote_tree s2 s T L cn csn data H2 Htook Hh) as (H & Hdis & Hcsn).
  pose proof (vt_ok _ _ _ H) as Hok. pose proof Htook as (_ & Hg2 & _). pose proof (vt_clusters _ _ _ _ _ _ H HL) as (Hr & _).
  assert (exists s4, read_sec l s = Ok (0, s4) /\ unchanged s s4 /\ sec s4 = blk s4 l) as (s4 & E4 & Hu4 & Hsec).
  { destruct Hslot as (Hi & _). assert (of_chain s2 pcs l) as (c & t & Hc & Ht & El) by (apply chain_blocks_of; by eapply list_elem_of_lookup_2).
    rewrite Forall_forall in Hr. pose proof Hg2 as (_ & E2 & E3 & _). destruct (clus_block_range s c t Hok (Hr c Hc)) as (Hl & _); [by rewrite E3|].
    assert (clus_block s c t = l) as El2 by (rewrite El; unfold clus_block; by rewrite E2, E3). rewrite El2 in Hl.
    destruct (read_sec_ok s l Hok Hl) as (s4 & E & Hb & Hs & Hh4). exists s4. split; [done|].
    assert (unchanged s s4) as Hu by done. split; [done|]. rewrite Hs. symmetry. apply unchanged_blk; [done|lia]. }
  pose proof (vol_tree_unchanged _ _ _ _ H Hu4) as H4. pose proof (unchanged_geo _ _ Hu4) as Hg4.
  pose proof (same_geometry_trans _ _ _ Hg2 Hg4) as Hg24.
  assert (dir_entries s4 pcs = dir_entries s2 pcs) as Ede.
  { rewrite (untouched_entries s s4), (untouched_entries s2 s); [done|done| |done|by apply untouched_unchanged].
    eapply took_untouched; [by eapply vt_ok|done|by eapply vt_used]. }
  assert (untouched s s4 csn) as Huc by (apply untouched_unchanged; [done..|]; eapply Forall_impl; [exact Hcsn|]; by intros d [? _]).
  destruct (store_ok s4 T L P pc pcs l off e0 i k w base ext cn csn data) as (b & s5 & Eb & E5 & Hg5 & He5 & H5); try done.
  { unfold slot_at in *. rewrite Ede, (chain_blocks_geo s2 s4) by done. done. }
  { right. by rewrite Ede. }
  { by rewrite HTf. }
  { by apply (untouched_holds s). }
  { intros q c cs d _. apply Hdis. }
  exists s4, b, s5. pose proof (same_geometry_trans _ _ _ Hg4 Hg5) as Hg45. pose proof (vt_ok _ _ _ H5) as Hok5.
  pose proof (vt_file _ _ _ H4 _ _ _ _ HTf HLf) as Hold. destruct (fo_max _ Hok5) as [Hm5 _].
  assert (oc = 0 /\ ocs = [] \/ 2 <= oc) as [[-> ->]|Hoc].
  { destruct Hold as [(_ & -> & ->)|(_ & Hch & Hd)]; [by left|]. inversion Hch; [right; unfold EOC in *; lia|right; lia]. }
  - exists s5. done.
  - rewrite (proj2 (Z.leb_le 2 oc)) by done. pose proof (vt_clusters _ _ _ _ _ _ H4 HLf) as (Hro & _). rewrite Forall_forall in Hro.
    assert (chain s5 oc ocs) as Hch5.
    { destruct Hold as [(_ & _ & ->)|(_ & Hch & _)]; [lia|]. apply (chain_ext s4); [by apply fat_max_geometry| |done].
      intros d Hd. apply He5. pose proof (Hro d Hd). lia. }
    pose proof (chain_length _ _ _ Hok5 Hch5) as Hlen. rewrite (fat_max_geometry _ _ Hg45) in Hlen.
    destruct (free_chain_ok ocs fuel s5 oc Hok5 Hch5) as (s6 & E6 & Hfr); [lia|]. exists s6.
    split; [done|]. split; [done|]. split; [done|]. split; [exact E6|]. pose proof Hfr as (Hok6 & Hg6 & _).
    split; [by eapply same_geometry_trans|]. apply (vol_tree_untouched s5); [done..|]. intros q c cs Hq.
    apply (freed_untouched s5 s6 ocs); [done|done|by eapply vt_clusters|]. intros d Hd Hdo.
    destruct (decide (q = P ++ [shown83 base ext])) as [->|Hne].
    + rewrite lookup_insert_eq in Hq. injection Hq as <- <-. by eapply (Hdis _ oc ocs d).
    + rewrite lookup_insert_ne in Hq by done. apply Hne. by eapply (vt_apart _ _ _ H q _ c cs oc ocs d).
Qed.

(** A new file: its entry goes to a free place of the directory, or there is
    none and its clusters are freed. *)
Lemma finish_new fuel s2 s T L P pc pcs w base ext cn csn data :
  vol_tree s2 T L -> took s2 s csn -> holds s cn csn data -> T !! P = Some EDir -> L !! P = Some (pc, pcs) ->
  name83_of w base ext -> T !! (P ++ [shown83 base ext]) = None -> Z.of_nat (length data) < 2 ^ 32 -> fat_max s <= Z.of_nat fuel ->
  exists r s4, dir_slot fuel pc s = Ok (r, s4) /\
    match r with
    | Some (l, off) => exists b s5 L',
        fill_entry (sec s4) off (pad 8 (upper <$> base) ++ pad 3 (upper <$> ext)) 0x20 cn (u32 (Z.of_nat (length data))) = Ok b /\
        write_sec l (set_sec s4 b) = Ok (0, s5) /\ same_geometry s s5 /\ dirs_stay T L L' /\
        vol_tree s5 (<[P ++ [shown83 base ext] := EFile data]> T) L'
    | None => exists s5, free_chain fuel cn s4 = Ok s5 /\ same_geometry s s5 /\ vol_tree s5 T L /\
        forall c, 2 <= c < fat_max s -> fat_entry s 0 c <> 0
    end.
Proof.
  intros H2 Htook Hh HP HL Hn HT Hsz Hfu. destruct (wrote_tree s2 s T L cn csn data H2 Htook Hh) as (H & Hdis & Hcsn).
  pose proof (vt_ok _ _ _ H) as Hok. destruct (dir_slot_ok fuel s T L P pc pcs H HP HL Hfu) as (r & s4 & E4 & Hr). exists r, s4. split; [exact E4|].
  destruct r as [[l off]|].
  - destruct Hr as (Hok4 & Hg4 & Hun & pcs' & e0 & i & k & H4 & Hslot & He0 & Hsec & Hnew).
    assert (untouched s s4 csn) as Huc.
    { apply Hun; [done|]. intros d Hd Hd'. by apply (Hdis P pc pcs d). }
    destruct (store_ok s4 T (<[P := (pc, pcs')]> L) P pc pcs' l off e0 i k w base ext cn csn data) as (b & s5 & Eb & E5 & Hg5 & _ & H5); try done.
    { apply lookup_insert_eq. }
    { by left. }
    { by rewrite HT. }
    { by apply (untouched_holds s). }
    { intros q c cs d _ Hq Hd. destruct (decide (q = P)) as [->|Hne].
      - rewrite lookup_insert_eq in Hq. injection Hq as <- <-. destruct (Hnew d Hd) as [Hdp|Hz]; [by eapply Hdis|].
        intros Hin. rewrite Forall_forall in Hcsn. by destruct (Hcsn d Hin).
      - rewrite lookup_insert_ne in Hq by done. by eapply Hdis. }
    exists b, s5. eexists. split; [done|]. split; [done|]. split; [by eapply same_geometry_trans|]. split; [|exact H5].
    intros q c cs Hq Hqc. rewrite lookup_insert_ne by (intros <-; congruence). destruct (decide (q = P)) as [->|Hne].
    + rewrite lookup_insert_eq. rewrite HL in Hqc. injection Hqc as -> _. by eexists.
    + rewrite lookup_insert_ne by done. by eexists.
  - destruct Hr as [Hu4 Hno]. pose proof (unchanged_ok _ _ Hu4) as Hok4. pose proof (unchanged_geo _ _ Hu4) as Hg4.
    assert (holds s4 cn csn data) as Hh4.
    { apply (untouched_holds s); [done| |done]. apply untouched_unchanged; [done..|]. eapply Forall_impl; [exact Hcsn|]. by intros d [? _]. }
    destruct (free_held fuel s4 cn csn data Hok4 Hh4) as (s5 & E5 & Hfr); [by rewrite (fat_max_geometry _ _ Hg4)|].
    exists s5. split; [done|]. pose proof Hfr as (Hok5 & Hg5 & _). split; [by eapply same_geometry_trans|]. split; [|done].
    apply (vol_tree_untouched s4); [by eapply vol_tree_unchanged|done|done|]. intros q c cs Hq.
    apply (freed_untouched s4 s5 csn); [done|done| |by intros d Hd; eapply Hdis].
    eapply vt_clusters; [by apply (vol_tree_unchanged s s4)|done].
Qed.
End writing.

(** ** Lemmas: [fat_write] *)

Section write.
Context {D : Type} `{!disk D, !good_disk D} (fuel : nat).
Implicit Types (st s : fat D) (T : tree) (L : places).

Lemma last_snoc_parts (ws : list str) w : last (ws ++ [w]) = Some w /\ removelast (ws ++ [w]) = ws.
Proof. by rewrite last_snoc, removelast_last. Qed.

(** What is known after the new chain has been built, or has not. *)
Lemma write_chain_tree s T L data : vol_tree s T L -> Forall is_byte data -> 2 * fat_max s <= Z.of_nat fuel ->
  exists o s', write_chain fuel 0 0 data s = Ok (o, s') /\ same_geometry s s' /\
    match o with
    | Some cn => exists csn, took s s' csn /\ holds s' cn csn data /\
        (Z.of_nat (length csn) - 1) * clus_size s < Z.of_nat (length data)
    | None => vol_tree s' T L /\ no_room s (Z.of_nat (length data))
    end.
Proof.
  intros H Hb Hf. pose proof (vt_ok _ _ _ H) as Hok.
  destruct (write_chain_ok s fuel s 0 0 [] [] data Hok) as (o & s' & E & Ho).
  - split; [|split; [by left|split; [done|]]].
    + split; [done|]. split; [apply same_geometry_refl|]. split; [constructor|]. split; [constructor|]. done.
    + pose proof (fo_spc _ Hok). unfold clus_size. cbn. lia.
  - done.
  - done.
  - cbn. lia.
  - exists o, s'. split; [exact E|]. cbn [app] in Ho. destruct o as [cn|].
    + destruct Ho as (tl & csn & Hbu). destruct (building_holds _ _ _ _ _ _ Hok Hbu) as [Htook Hh].
      split; [apply Htook|]. exists csn. split; [done|]. split; [done|]. apply Hbu.
    + destruct Ho as [Hun Hno]. split; [apply Hun|]. split; [|done]. apply (vol_tree_untouched s); [done|apply Hun|apply Hun|].
      intros p c cs Hp. eapply undone_untouched; [done|done|by eapply vt_used].
Qed.

Lemma no_room_unchanged s s' n m : fat_ok s -> unchanged s s' -> no_room s' n -> n <= m -> no_room s m.
Proof.
  intros Hok Hu (cs & Hc & Hnd & Hl) Hnm. exists cs. pose proof (unchanged_geo _ _ Hu) as Hg. pose proof (fo_fats _ Hok).
  split; [|split; [done|rewrite (size_geo s s') in Hl by done; lia]].
  intros c [Hr Hz]. apply Hc. split; [by rewrite (fat_max_geometry _ _ Hg)|]. rewrite (becomes_entry s s') by (done || apply Hu || lia). done.
Qed.

(** The chain for the data took the last free clusters. *)
Lemma no_room_took s s' csn n : fat_ok s -> took s s' csn -> (Z.of_nat (length csn) - 1) * clus_size s < n ->
  (forall c, 2 <= c < fat_max s' -> fat_entry s' 0 c <> 0) -> no_room s (n + clus_size s).
Proof.
  intros Hok (_ & Hg & _ & Hnd & He & _) Hl Hno. pose proof (fo_fats _ Hok). exists csn. split; [|split; [done|lia]].
  intros c [Hr Hz]. destruct (decide (c ∈ csn)) as [|Hn]; [done|]. exfalso.
  apply (Hno c); [by rewrite (fat_max_geometry _ _ Hg)|]. rewrite He by (done || lia). done.
Qed.

(** The part of [fat_write] behind the look-up. *)
Lemma put_file_ok s1 s2 T L P pc pcs w base ext l buf len : vol_tree s1 T L -> unchanged s1 s2 ->
  T !! P = Some EDir -> L !! P = Some (pc, pcs) -> name83_of w base ext -> T !! (P ++ [shown83 base ext]) <> Some EDir ->
  match find_shown (shown83 base ext) (dir_entries s1 pcs) with
  | Some (p, e) => exists b off i k, l = Some (b, off, e_dir e, e_clus e, e_size e) /\ p = (16 * i + k)%nat /\ slot_at s1 pcs b off e i k
  | None => l = None
  end ->
  Forall is_byte buf -> 0 <= len <= Z.of_nat (length buf) -> len < 2 ^ 32 -> 2 * fat_max s1 <= Z.of_nat fuel ->
  exists r s', put_file fuel pc (pad 8 (upper <$> base) ++ pad 3 (upper <$> ext)) l buf len s2 = Ok (r, s') /\
    written s2 s' r T (<[P ++ [shown83 base ext] := EFile (take (Z.to_nat len) buf)]> T) L len.
Proof.
  intros H1 Hu ET HL Hnm Hnd Hl Hb Hlen Hl32 Hf. pose proof (vol_tree_unchanged _ _ _ _ H1 Hu) as H2.
  pose proof (fat_max_geometry _ _ (unchanged_geo _ _ Hu)) as Em2. pose proof (vt_ok _ _ _ H2) as Hok2.
  destruct (vt_dir _ _ _ H1 _ _ _ ET HL) as (_ & _ & _ & Hkid). specialize (Hkid (shown83 base ext)). unfold kid_agrees in Hkid.
  set (p := P ++ [shown83 base ext]) in *. set (data := take (Z.to_nat len) buf).
  assert (Z.of_nat (length data) = len) as Hdl by (unfold data; rewrite length_take; lia).
  unfold put_file. rewrite (proj2 (Z.ltb_ge _ _)) by lia. fold data.
  destruct (write_chain_tree s2 T L data H2) as (o & s3 & -> & Hg3 & Ho); [by apply Forall_take|by rewrite Em2|]. cbn [mbind res_bind].
  pose proof (fat_max_geometry _ _ Hg3) as Em3.
  assert (fat_max s3 <= Z.of_nat fuel) as Hf3 by (rewrite Em3, Em2; destruct (fo_max _ Hok2); lia).
  destruct o as [cn|].
  2: { destruct Ho as [Hv (cs & Hc & Hndc & Hlc)]. exists (-1), s3. split; [done|]. split; [done|]. right. split; [done|]. split; [done|].
       exists cs. split; [done|]. split; [done|]. pose proof (fo_spc _ Hok2). unfold clus_size in *. lia. }
  destruct Ho as (csn & Htook & Hh & Hbound).
  destruct (find_shown (shown83 base ext) (dir_entries s1 pcs)) as [[q e]|] eqn:Efs.
  - destruct Hl as (lb & off & i & k & -> & -> & Hslot). destruct (T !! p) as [[|obs]|] eqn:ETp; [done| |done].
    destruct (L !! p) as [[oc ocs]|] eqn:ELp; [|done]. destruct Hkid as (_ & -> & _).
    assert (dir_entries s2 pcs = dir_entries s1 pcs) as Ede.
    { apply untouched_entries; [by apply unchanged_geo|]. apply untouched_unchanged; [by eapply vt_ok|done|by eapply vt_clusters]. }
    destruct (finish_old fuel s2 s3 T L P pc pcs lb off e i k w base ext cn csn data oc ocs obs)
      as (s4 & b & s5 & s6 & -> & Eb & E5 & E6 & Hg6 & H6); try done; [by rewrite Ede| |by rewrite Hdl|].
    { unfold slot_at in *. rewrite Ede, (chain_blocks_geo s1 s2) by by apply unchanged_geo. done. }
    cbn [mbind res_bind Z.eqb negb mret res_ret]. rewrite Hdl in Eb. rewrite Eb. cbn [mbind res_bind]. rewrite E5. cbn [mbind res_bind Z.eqb negb].
    exists 0, s6. split; [destruct (2 <=? oc); [by rewrite E6|by injection E6 as ->]|]. split; [by eapply same_geometry_trans|].
    left. split; [done|]. eexists. split; [exact H6|]. intros q' c cs Hq Hqc.
    rewrite lookup_insert_ne by (intros <-; unfold p in ETp; congruence). by eexists.
  - subst l. assert (T !! p = None) as ETp by (destruct (T !! p) as [[]|]; done).
    destruct (finish_new fuel s2 s3 T L P pc pcs w base ext cn csn data) as (r & s4 & -> & Hr); try done; [by rewrite Hdl|].
    cbn [mbind res_bind]. destruct r as [[lb off]|].
    + destruct Hr as (b & s5 & L' & Eb & E5 & Hg5 & Hst5 & H5). rewrite Hdl in Eb. rewrite Eb. cbn [mbind res_bind]. rewrite E5. cbn [mbind res_bind Z.eqb negb].
      exists 0, s5. split; [done|]. split; [by eapply same_geometry_trans|]. left. split; [done|]. by exists L'.
    + destruct Hr as (s5 & -> & Hg5 & H5 & Hno). cbn [mbind res_bind]. exists (-1), s5. split; [done|].
      split; [by eapply same_geometry_trans|]. right. split; [done|]. split; [done|]. rewrite <- Hdl. by eapply no_room_took.
Qed.

Lemma stored_name_short w k : stored_name w = Some k -> (length w <= 12)%nat.
Proof.
  intros (base & ext & (_ & ? & ? & Hs) & _ & _)%stored_name_ok. destruct Hs as [[-> ->]| ->]; [lia|].
  rewrite length_app. cbn [length]. lia.
Qed.

(** A file [w] in the directory of the path [par]. *)
Lemma put_leaf_ok st T L par w buf len : vol_tree st T L -> absolute par -> slash_end par = true -> (length w <= 12)%nat ->
  Forall is_byte buf -> 0 <= len <= Z.of_nat (length buf) -> len < 2 ^ 32 -> 2 * fat_max st <= Z.of_nat fuel ->
  exists r st', put_leaf fuel par w buf len st = Ok (r, st') /\
    match write_in T (upath (words par)) w (take (Z.to_nat len) buf) with
    | Some T' => written st st' r T T' L len
    | None => r = -1 /\ same_geometry st st' /\ vol_tree st' T L
    end.
Proof.
  intros H Ha Hse Hw Hb Hlen Hl32 Hf. pose proof (vt_ok _ _ _ H) as Hok. unfold put_leaf, write_in. set (P := upath (words par)).
  assert (forall s, unchanged st s -> vol_tree s T L -> exists r st', (mret (-1, s) : res (Z * fat D)) = Ok (r, st') /\
    r = -1 /\ same_geometry st st' /\ vol_tree st' T L) as Hfail.
  { intros s Hu Hs. exists (-1), s. split; [done|]. split; [done|]. split; [by apply unchanged_geo|done]. }
  assert ((deref par =? 0) = false) as -> by (destruct (absolute_ne _ Ha) as [_ ->]; done). cbn [negb].
  destruct (walk_ok fuel st T L par false 0 H ltac:(lia) Ha) as (s1 & -> & Hu1). fold P. cbn [mbind res_bind].
  pose proof (vol_tree_unchanged _ _ _ _ H Hu1) as H1. pose proof (fat_max_geometry _ _ (unchanged_geo _ _ Hu1)) as Em1.
  pose proof (Hfail s1 Hu1 H1) as Hfail1. unfold walked.
  destruct (T !! P) as [[|bs]|] eqn:ET; [|rewrite Hse; by destruct (L !! P) as [[]|]|exact Hfail1].
  destruct (vt_node _ _ _ P H) as (t & pc & pcs & Et & HL); [by eexists|]. rewrite HL.
  destruct (stored_name w) as [key|] eqn:Ek; cbn [mbind option_bind]; [|by rewrite stored_name_none].
  destruct (stored_name_ok _ _ Ek) as (base & ext & Hnm & -> & ->).
  destruct (lookup_tree fuel s1 T L P pc pcs w base ext H1 ET HL) as (s2 & r2 & -> & Hu2 & Hr2); [by rewrite Em1; lia|done|].
  cbn [mbind res_bind]. assert (unchanged st s2) as Hu by by eapply unchanged_comp.
  destruct (vt_dir _ _ _ H1 _ _ _ ET HL) as (_ & _ & _ & Hkid). specialize (Hkid (shown83 base ext)). unfold kid_agrees in Hkid.
  pose proof (put_file_ok s1 s2 T L P pc pcs w base ext r2 buf len H1 Hu2 ET HL Hnm) as Hput.
  set (p := P ++ [shown83 base ext]) in *. set (data := take (Z.to_nat len) buf) in *.
  assert (forall r s', written s2 s' r T (<[p := EFile data]> T) L len -> written st s' r T (<[p := EFile data]> T) L len) as Hst.
  { intros r s' [Hg Hwr]. pose proof (unchanged_geo _ _ Hu) as Hg2. split; [by eapply same_geometry_trans|].
    destruct Hwr as [?|(? & ? & Hno)]; [by left|right]. split; [done|]. split; [done|]. rewrite (size_geo st s2) in Hno by done.
    eapply no_room_unchanged; [done|done|exact Hno|reflexivity]. }
  destruct (T !! p) as [[|obs]|] eqn:Etp.
  - destruct (find_shown _ _) as [[q e]|]; [|done]. destruct Hr2 as (lb & off & i & k & -> & _).
    destruct (L !! p) as [[]|]; [|done]. destruct Hkid as [-> _]. apply Hfail; [done|by eapply vol_tree_unchanged].
  - destruct (Hput ltac:(done) Hr2 Hb Hlen Hl32) as (r & s' & E & Hwr); [by rewrite Em1|]. exists r, s'. split; [|by apply Hst].
    rewrite <- E. destruct (find_shown _ _) as [[q e]|]; [|by subst r2]. destruct Hr2 as (lb & off & i & k & -> & _).
    destruct (L !! p) as [[]|]; [|done]. by destruct Hkid as [-> _].
  - destruct (Hput ltac:(done) Hr2 Hb Hlen Hl32) as (r & s' & E & Hwr); [by rewrite Em1|]. exists r, s'. split; [|by apply Hst].
    rewrite <- E. by destruct (find_shown _ _) as [[q e]|]; [|subst r2].
Qed.

Lemma fat_write_any st T L path buf len : vol_tree st T L -> cstr path -> resolvable (cwd_path st) path ->
  Forall is_byte buf -> 0 <= len <= Z.of_nat (length buf) -> len < 2 ^ 32 -> 2 * fat_max st <= Z.of_nat fuel ->
  exists o r st', abspath (cwd_path st) path = Ok o /\ fat_write fuel path buf len st = Ok (r, st') /\
    match o with
    | Some p => exists a w, p = a ++ SLASH :: w /\ plain w /\
        match write_in T (upath (words a)) w (take (Z.to_nat len) buf) with
        | Some T' => written st st' r T T' L len
        | None => r = -1 /\ same_geometry st st' /\ vol_tree st' T L
        end
    | None => r = -1 /\ st' = st
    end.
Proof.
  intros H Hp Hc Hb Hlen Hl32 Hf. pose proof (vt_ok _ _ _ H) as Hok. unfold fat_write.
  destruct (abspath_any _ _ Hp Hc) as (o & -> & Ho). exists o. cbn [mbind res_bind].
  destruct o as [p|]; cbn [mbind option_bind]; [|by exists (-1), st].
  destruct (split_leaf_any p (Ho p eq_refl)) as (a & w & -> & Hw & Ha & ->).
  destruct (Nat.ltb_spec 12 (length w)) as [Hlong|Hshort].
  - exists (-1), st. split; [done|]. split; [done|]. exists a, w. split; [done|]. split; [done|]. unfold write_in.
    destruct (stored_name w) as [k|] eqn:Ek; [apply stored_name_short in Ek; lia|].
    destruct (T !! _) as [[|bs]|]; exact (conj eq_refl (conj (same_geometry_refl _) H)).
  - assert (slash_end (a ++ [SLASH]) = true) as Hse by by rewrite slash_end_app.
    destruct (put_leaf_ok st T L (a ++ [SLASH]) w buf len H Ha Hse Hshort Hb Hlen Hl32 Hf) as (r & st' & E & Hr).
    rewrite words_snoc, app_nil_r in Hr by constructor. exists r, st'. split; [done|]. split; [exact E|]. by exists a, w.
Qed.

Lemma fat_write_ok st T L path buf len : vol_tree st T L -> cstr path -> cwd_path st = [SLASH] \/ deref path = SLASH ->
  Forall is_byte buf -> 0 <= len <= Z.of_nat (length buf) -> len < 2 ^ 32 -> 2 * fat_max st <= Z.of_nat fuel ->
  exists r st', fat_write fuel path buf len st = Ok (r, st') /\
    match norm [] (words path) ≫= fun ws => fat_write_spec T ws (take (Z.to_nat len) buf) with
    | Some T' => written st st' r T T' L len
    | None => r = -1 /\ same_geometry st st' /\ vol_tree st' T L
    end.
Proof.
  intros H Hp Hc Hb Hlen Hl32 Hf.
  destruct (fat_write_any st T L path buf len) as (o & r & st' & Eo & E & Hr); [done|done|by apply resolvable_root|done..|].
  exists r, st'. split; [done|]. destruct (abspath_ok _ _ Hp Hc) as [E' Hn]. rewrite Eo in E'. injection E' as ->.
  destruct (norm [] (words path)) as [ws|]; cbn [fmap option_fmap option_map mbind option_bind] in Hr |- *.
  2: { destruct Hr as [-> ->]. exact (conj eq_refl (conj (same_geometry_refl _) H)). }
  destruct Hr as (a & w & Ep & Hw & Hr). destruct (Hn ws eq_refl) as [Hws _]. unfold fat_write_spec.
  destruct ws as [|w' P _] using rev_ind.
  - cbn [last mbind option_bind]. assert (w = []) as -> by (destruct a as [|? [|]]; by injection Ep).
    unfold write_in in Hr. by destruct (T !! upath (words a)) as [[|bs]|].
  - destruct (last_snoc_parts P w') as [-> ->]. cbn [mbind option_bind]. apply Forall_app in Hws as [HP [[Hw' Hne] _]%Forall_cons].
    assert (w = w' /\ words a = P) as [-> Ea]; [|rewrite Ea in Hr; exact Hr].
    rewrite text_snoc in Ep. destruct (snoc_comp_inj _ _ _ _ Hw' Hw Ep) as [<- <-]. split; [done|].
    bdec as HP0; [by subst|by apply words_text].
Qed.
End write.

(** ** Lemmas: reading what was written *)

Lemma written_key T ws bs T' : fat_write_spec T ws bs = Some T' ->
  exists P w k, ws = P ++ [w] /\ stored_name w = Some k /\ T' = <[upath P ++ [k] := EFile bs]> T.
Proof.
  unfold fat_write_spec, write_in. destruct ws as [|w P _] using rev_ind; [done|]. destruct (last_snoc_parts P w) as [-> ->].
  cbn [mbind option_bind]. destruct (T !! upath P) as [[|?]|]; [|done..]. destruct (stored_name w) as [k|] eqn:Ek; [|done].
  cbn [mbind option_bind]. intros H. exists P, w, k. split; [done|]. split; [done|]. destruct (T !! (upath P ++ [k])) as [[]|]; congruence.
Qed.

(** A name is stored as its capitals, but for a dot at its end. *)
Lemma stored_name_upper w k : stored_name w = Some k -> last w <> Some DOT -> k = upper <$> w.
Proof.
  intros (base & ext & (Hok & _ & _ & Hs) & -> & _)%stored_name_ok Hl. unfold shown83.
  destruct Hs as [[-> ->]| ->]; [by rewrite bool_decide_eq_true_2, app_nil_r by done|].
  destruct ext as [|c ext]; [by rewrite last_snoc in Hl|]. by rewrite bool_decide_eq_false_2, fmap_app by done.
Qed.

Lemma fat_write_zero {D} `{!disk D, !good_disk D} fuel (st : fat D) T L path buf len st' : vol_tree st T L -> cstr path ->
  cwd_path st = [SLASH] \/ deref path = SLASH -> Forall is_byte buf -> 0 <= len <= Z.of_nat (length buf) -> len < 2 ^ 32 ->
  2 * fat_max st <= Z.of_nat fuel -> fat_write fuel path buf len st = Ok (0, st') ->
  exists P w k L', norm [] (words path) = Some (P ++ [w]) /\ stored_name w = Some k /\ same_geometry st st' /\
    vol_tree st' (<[upath P ++ [k] := EFile (take (Z.to_nat len) buf)]> T) L'.
Proof.
  intros H Hp Hc Hb Hl Hl32 Hf E. destruct (fat_write_ok fuel st T L path buf len) as (r & s & E' & Hr); [done..|].
  rewrite E in E'. injection E' as <- <-. destruct (norm [] (words path)) as [ws|]; cbn [mbind option_bind] in Hr; [|by destruct Hr].
  destruct (fat_write_spec T ws _) as [T'|] eqn:Es; [|by destruct Hr].
  destruct (written_key _ _ _ _ Es) as (P & w & k & -> & Hk & ->). destruct Hr as [Hg [[_ (L' & H' & _)]|[? _]]]; [|done].
  by exists P, w, k, L'.
Qed.

(** ** Properties *)

Section properties.
Context (D : Type) `{!disk D, !good_disk D}.

(** C8. Writing a file on a volume refines inserting into its tree.  A path that
    does not fit, that has a name that is no short name, whose directory does
    not exist, or that names a directory is refused, and the tree stays.
    Otherwise the file at its stored name holds the bytes afterwards, all other
    files and directories being what they were, or the call reports that the
    volume is full, the tree stays, and there was less room left than the file
    and one more cluster for its directory take. *)
Theorem fat_write_refines (st : fat D) T L path buf len fuel : vol_tree st T L -> cstr path ->
  cwd_path st = [SLASH] \/ deref path = SLASH -> Forall is_byte buf -> 0 <= len <= Z.of_nat (length buf) -> len < 2 ^ 32 ->
  2 * fat_max st <= Z.of_nat fuel ->
  exists r st', fat_write fuel path buf len st = Ok (r, st') /\ same_geometry st st' /\
    match norm [] (words path) ≫= fun ws => fat_write_spec T ws (take (Z.to_nat len) buf) with
    | Some T' => (r = 0 /\ exists L', vol_tree st' T' L') \/
                 (r = -1 /\ vol_tree st' T L /\ no_room st (len + clus_size st))
    | None => r = -1 /\ vol_tree st' T L
    end.
Proof.
  intros H Hp Hc Hb Hl Hl32 Hf. destruct (fat_write_ok fuel st T L path buf len) as (r & st' & E & Hr); [done..|].
  exists r, st'. split; [exact E|]. destruct (norm [] (words path) ≫= _) as [T'|].
  { destruct Hr as [Hg [(-> & L' & H' & _)|Hr]]; (split; [exact Hg|]); [left; split; [done|]; by exists L'|by right]. }
  destruct Hr as (-> & Hg & Hv). exact (conj Hg (conj eq_refl Hv)).
Qed.

(** C13. A file that was written is read back: every path that leads to its stored
    name, among them the one it was written with when its name does not end in
    a dot, gives its bytes, as many as the reader has room for; every other
    path is answered as before. *)
Theorem fat_read_after_write (st : fat D) T L path buf len fuel st' : vol_tree st T L -> cstr path ->
  cwd_path st = [SLASH] \/ deref path = SLASH -> Forall is_byte buf -> 0 <= len <= Z.of_nat (length buf) -> len < 2 ^ 32 ->
  2 * fat_max st <= Z.of_nat fuel -> fat_write fuel path buf len st = Ok (0, st') ->
  exists P w k, norm [] (words path) = Some (P ++ [w]) /\ stored_name w = Some k /\
    (last w <> Some DOT -> upath (P ++ [w]) = upath P ++ [k]) /\
    forall q cap, cstr q -> cwd_path st = [SLASH] \/ deref q = SLASH -> 0 <= cap -> exists a s s',
      fat_read fuel q cap st' = Ok (a, s) /\
      if bool_decide (upath <$> norm [] (words q) = Some (upath P ++ [k]))
      then a = (Z.min cap len, take (Z.to_nat cap) (take (Z.to_nat len) buf))
      else fat_read fuel q cap st = Ok (a, s').
Proof.
  intros H Hp Hc Hb Hl Hl32 Hf E.
  destruct (fat_write_zero fuel st T L path buf len st') as (P & w & k & L' & Ew & Ek & Hg & H'); [done..|].
  exists P, w, k. split; [done|]. split; [done|]. split; [intros Hd; by rewrite upath_app, (stored_name_upper w k)|].
  intros q cap Hq Hcq Hcap. pose proof (fat_max_geometry _ _ Hg) as Em. destruct (fo_max _ (vt_ok _ _ _ H)) as [Hm _].
  pose proof Hg as (_ & _ & _ & _ & _ & _ & _ & Ecwd & _).
  destruct (fat_read_ok fuel st' _ L' q cap H') as (s & -> & _); [done|by rewrite Ecwd|done|rewrite Em; lia|].
  destruct (fat_read_ok fuel st T L q cap H) as (s' & -> & _); [done|done|done|lia|].
  eexists _, s, s'. split; [reflexivity|]. unfold root_read, tree_read. destruct (norm [] (words q)) as [wq|]; cbn [fmap option_fmap option_map mbind option_bind].
  - bdec as He.
    + injection He as ->. rewrite lookup_insert_eq. f_equal. rewrite length_take. lia.
    + rewrite lookup_insert_ne by congruence. done.
  - by rewrite bool_decide_eq_false_2.
Qed.
End properties.

(** ** Examples *)

Lemma wit_tree : vol_tree (disk0 := list_disk) wit_fat {[ [] := EDir ]} {[ [] := (2, [2]) ]}.
Proof.
  assert (dir_entries (disk0 := list_disk) wit_fat [2] = replicate 16 (replicate 32 0)) as Ed by (vm_compute; reflexivity).
  split.
  - exact wit_fat_ok.
  - rewrite !lookup_singleton_eq. split; [done|]. by exists [2].
  - intros p. destruct (decide (p = [])) as [->|Hp]; [rewrite !lookup_singleton_eq; split; by eexists|]. by rewrite !lookup_singleton_ne.
  - intros p k. rewrite lookup_singleton_ne by (by destruct p). by intros [].
  - intros p c cs [<- _]%lookup_singleton_Some [_ [= <- <-]]%lookup_singleton_Some. rewrite Ed. split; [|split; [done|split]].
    + assert (fat_max wit_fat = 128) as Em by reflexivity. constructor; [rewrite Em; lia|].
      apply chain_end. vm_compute. intros ?. discriminate.
    + rewrite <- (app_nil_l (replicate 16 _)). apply good_dir_grow; [|constructor]. split; [constructor| |]; intros i *; by rewrite lookup_nil.
    + intros k. rewrite <- (app_nil_l (replicate 16 _)), find_shown_grow. cbn [app]. by rewrite !lookup_singleton_ne.
  - intros p c cs bs [_ ?]%lookup_singleton_Some. done.
  - intros p q c cs c' cs' d [<- _]%lookup_singleton_Some [<- _]%lookup_singleton_Some. done.
Qed.

(** A path and its bytes: [/Notes.txt]. *)
Definition wit_path : str := SLASH :: [78; 111; 116; 101; 115; 46; 116; 120; 116].

Lemma fat_write_refines_witness : exists r st', fat_write (disk0 := list_disk) 256 wit_path (replicate 700 65) 700 wit_fat = Ok (r, st') /\
  same_geometry (disk0 := list_disk) wit_fat st' /\
  match norm [] (words wit_path) ≫= fun ws => fat_write_spec {[ [] := EDir ]} ws (take (Z.to_nat 700) (replicate 700 65)) with
  | Some T' => (r = 0 /\ exists L', vol_tree (disk0 := list_disk) st' T' L') \/
      (r = -1 /\ vol_tree (disk0 := list_disk) st' {[ [] := EDir ]} {[ [] := (2, [2]) ]} /\
       no_room (disk0 := list_disk) wit_fat (700 + clus_size wit_fat))
  | None => r = -1 /\ vol_tree (disk0 := list_disk) st' {[ [] := EDir ]} {[ [] := (2, [2]) ]}
  end.
Proof.
  apply (fat_write_refines (list (list Z)) (disk0 := list_disk) wit_fat).
  - exact wit_tree.
  - repeat constructor; unfold SLASH; lia.
  - by right.
  - apply Forall_replicate. unfold is_byte. lia.
  - rewrite length_replicate. lia.
  - lia.
  - vm_compute. discriminate.
Defined.

Lemma fat_read_after_write_witness : exists st' s s', fat_write (disk0 := list_disk) 256 wit_path [72; 105] 2 wit_fat = Ok (0, st') /\
  fat_read (disk0 := list_disk) 256 (upper <$> wit_path) 512 st' = Ok ((2, [72; 105]), s) /\
  fat_read (disk0 := list_disk) 256 [SLASH; 65] 512 st' = Ok ((-1, []), s').
Proof.
  assert (match fat_write (disk0 := list_disk) 256 wit_path [72; 105] 2 wit_fat with Ok (r, _) => r | _ => 1 end = 0) as Er
    by (vm_compute; reflexivity).
  destruct (fat_write (disk0 := list_disk) 256 wit_path [72; 105] 2 wit_fat) as [[r st']| |] eqn:E; [|done..]. rewrite Er in E.
  destruct (fat_read_after_write (list (list Z)) (disk0 := list_disk) wit_fat {[ [] := EDir ]} {[ [] := (2, [2]) ]} wit_path [72; 105] 2 256 st')
    as (P & w & k & Ew & Ek & _ & Hq).
  - exact wit_tree.
  - repeat constructor; unfold SLASH; lia.
  - by right.
  - repeat constructor; unfold is_byte; lia.
  - cbn. lia.
  - lia.
  - vm_compute. discriminate.
  - exact E.
  - assert (norm [] (words wit_path) = Some [[78; 111; 116; 101; 115; 46; 116; 120; 116]]) as Ew' by (vm_compute; reflexivity).
    rewrite Ew' in Ew. injection Ew as Ew. apply (app_inj_tail [] P) in Ew as [<- <-].
    assert (stored_name [78; 111; 116; 101; 115; 46; 116; 120; 116] = Some [78; 79; 84; 69; 83; 46; 84; 88; 84]) as Ek' by (vm_compute; reflexivity).
    rewrite Ek' in Ek. injection Ek as <-.
    destruct (Hq (upper <$> wit_path) 512) as (a & s & s0 & E1 & Ha); [repeat constructor; vm_compute; (split; reflexivity || discriminate)|by right|lia|].
    destruct (Hq [SLASH; 65] 512) as (a' & s' & s1 & E2 & Ha'); [repeat constructor; unfold SLASH; lia|by right|lia|].
    exists st', s, s'. split; [by rewrite Er|]. split; [rewrite E1, Ha; reflexivity|]. rewrite E2. do 2 f_equal.
    change (fat_read (disk0 := list_disk) 256 [SLASH; 65] 512 wit_fat = Ok (a', s1)) in Ha'.
    assert (match fat_read (disk0 := list_disk) 256 [SLASH; 65] 512 wit_fat with Ok (a, _) => a | _ => (0, []) end = (-1, [])) as Er2
      by (vm_compute; reflexivity). rewrite Ha' in Er2. exact Er2.
Defined.
