(* ===== verification/FatList.v ===== *)
(** * Listing a directory of a FAT32 volume

    [fat_list] writes a line for every entry it shows, until the end of the
    directory or the first line that may not fit.  The text is computed from the
    entries of the directory ([list_ctl]); with [FatTree.v] the lines are those
    of the names below the path in the tree.  At the end, what the driver needs
    from a volume for all of its operations ([vol_ready]). *)
From S2P Require Import Prelude Str Fs Disk Part FatName Fat FatFile FatDir FatTree.

(** ** Specification *)

(** The line of an entry, without a name nothing. *)
Definition list_line (nm : str) (isdir : bool) : str := nm ++ (if isdir then [SLASH] else []) ++ [10].

(** The loop over the entries; [Done] is an early return. *)
Fixpoint list_ctl (cap : Z) (es : list (list Z)) (out : str) : ctl str str :=
  match es with
  | [] => Next out
  | e :: es' =>
      if at_ e 0 =? 0 then Done out
      else match entry_name e with
           | None => list_ctl cap es' out
           | Some nm => if cap <? Z.of_nat (length out) + Z.of_nat (length nm) + 2 then Done out
                        else list_ctl cap es' (out ++ list_line nm (e_dir e))
           end
  end.

Definition ctl_out {A} (c : ctl A A) : A := match c with Next a => a | Done a => a end.

(** The names that a directory shows, and which are directories. *)
Definition shown (es : list (list Z)) : list (str * bool) :=
  omap (fun e => nm ← entry_name e; Some (nm, e_dir e)) es.

Definition kind_of (t : entry) : bool := match t with EDir => true | EFile _ => false end.

(** A listing in [cap] bytes: the lines of the first names, up to the first
    that may not fit. *)
Definition listed (names : list (str * bool)) (cap : Z) (out : str) : Prop :=
  exists m, out = flat_map (fun kd => list_line kd.1 kd.2) (take m names) /\
    forall kd, names !! m = Some kd -> cap < Z.of_nat (length out) + Z.of_nat (length kd.1) + 2.

(** The names of the children of [P] and what they are; a name that is shown
    twice stands for its first entry. *)
Definition children (T : tree) (P : list str) (names : list (str * bool)) : Prop :=
  forall k, (snd ∘ snd <$> list_find (fun kd => kd.1 = k) names) = kind_of <$> T !! (P ++ [k]).

(** A mounted volume in order: a tree, with the current directory in it, and
    enough fuel for its chains. *)
Definition vol_ready {D} `{!disk D, !good_disk D} (fuel : nat) (st : fat D) : Prop := exists T L, vol_tree st T L /\ cwd_at st T L /\ 2 * fat_max st <= Z.of_nat fuel.

(** Room for a slash and a terminator behind the current directory. *)
Definition cwd_room {D} (st : fat D) : Prop := Z.of_nat (length (cwd_path st)) < PATH_MAX - 1.

(** ** Lemmas: the text *)

Lemma list_ctl_app cap es1 es2 out : list_ctl cap (es1 ++ es2) out =
  match list_ctl cap es1 out with Next o => list_ctl cap es2 o | Done o => Done o end.
Proof.
  revert out. induction es1 as [|e es1 IH]; intros out; cbn [app list_ctl]; [done|]. destruct (_ =? 0); [done|].
  destruct (entry_name e); [|done]. by destruct (_ <? _).
Qed.

Lemma list_ctl_length cap es out : Z.of_nat (length out) <= cap -> Z.of_nat (length (ctl_out (list_ctl cap es out))) <= cap.
Proof.
  revert out. induction es as [|e es IH]; intros out Ho; cbn [list_ctl]; [done|]. destruct (_ =? 0); [done|].
  destruct (entry_name e) as [nm|]; [|by apply IH]. destruct (Z.ltb_spec cap (Z.of_nat (length out) + Z.of_nat (length nm) + 2)); [done|].
  apply IH. unfold list_line. rewrite !length_app. destruct (e_dir e); cbn [length]; lia.
Qed.

Lemma shown_ended es : Forall (fun e => at_ e 0 = 0) es -> shown es = [].
Proof.
  induction 1 as [|e es He _ IH]; [done|]. unfold shown in *. cbn [omap list_omap].
  by rewrite entry_name_free by by left.
Qed.

Lemma list_ctl_listed cap es : (forall i j e e', es !! i = Some e -> at_ e 0 = 0 -> (i <= j)%nat -> es !! j = Some e' -> at_ e' 0 = 0) ->
  forall out, exists m, ctl_out (list_ctl cap es out) = out ++ flat_map (fun kd => list_line kd.1 kd.2) (take m (shown es)) /\
    forall kd, shown es !! m = Some kd -> cap < Z.of_nat (length (ctl_out (list_ctl cap es out))) + Z.of_nat (length kd.1) + 2.
Proof.
  induction es as [|e es IH]; intros Hend out; cbn [list_ctl].
  - exists 0%nat. cbn. by rewrite app_nil_r.
  - destruct (Z.eqb_spec (at_ e 0) 0) as [Hz|Hz].
    + exists 0%nat. rewrite shown_ended; [cbn; by rewrite app_nil_r|]. apply Forall_lookup_2. intros j x Hx.
      apply (Hend 0%nat j e x); [done|done|lia|done].
    + destruct (IH ltac:(intros i j x x' H1 H2 H3 H4; apply (Hend (S i) (S j) x x'); (done || lia))
        (match entry_name e with Some nm => out ++ list_line nm (e_dir e) | None => out end)) as (m & E & Hm).
      unfold shown in *. cbn [omap list_omap]. destruct (entry_name e) as [nm|]; cbn [mbind option_bind]; [|by exists m].
      destruct (Z.ltb_spec cap (Z.of_nat (length out) + Z.of_nat (length nm) + 2)).
      * exists 0%nat. cbn [take flat_map ctl_out]. rewrite app_nil_r. split; [done|]. by intros kd [= <-].
      * exists (S m). cbn [take flat_map fst snd]. split; [by rewrite E, <- app_assoc|exact Hm].
Qed.

Lemma shown_children (es : list (list Z)) (T : tree) (P : list str) (L : places) : (forall k, kid_agrees (find_shown k es) (T !! (P ++ [k])) (L !! (P ++ [k]))) -> children T P (shown es).
Proof.
  intros Hk k. specialize (Hk k). unfold kid_agrees in Hk.
  assert (snd ∘ snd <$> list_find (fun kd => kd.1 = k) (shown es) = e_dir ∘ snd <$> find_shown k es) as ->.
  { clear Hk. unfold find_shown, shown. induction es as [|e es IH]; [done|]. cbn [omap list_omap list_find].
    destruct (entry_name e) as [nm|]; cbn [mbind option_bind].
    - cbn [list_find fst]. destruct (decide (nm = k)) as [->|Hn].
      + rewrite !decide_True by done. done.
      + rewrite (decide_False (P := Some nm = Some k)) by congruence. rewrite !option_fmap_compose in *.
        destruct (list_find _ (omap _ es)), (list_find _ es); done.
    - destruct (list_find _ (omap _ es)), (list_find _ es); done. }
  destruct (find_shown k es) as [[i e]|], (T !! (P ++ [k])) as [[|bs]|], (L !! (P ++ [k])) as [[c cs]|]; try done; cbn; f_equal; apply Hk.
Qed.

(** ** Lemmas: the loops *)

Section loops.
Context {D : Type} `{!disk D, !good_disk D}.
Implicit Types (st s : fat D) (T : tree) (L : places).

Lemma list_block_ok cap out s : is_block (sec s) -> list_block cap out s = Ok (list_ctl cap (slots (sec s)) out).
Proof.
  intros Hb. unfold list_block, slots.
  assert (forall n k out, 0 <= k -> k + Z.of_nat n <= 16 -> for_loop n k (fun i out =>
    e ← slot s i;
    if at_ e 0 =? 0 then mret (Done out)
    else match entry_name e with
         | None => mret (Next out)
         | Some nm =>
             if cap <? Z.of_nat (length out) + Z.of_nat (length nm) + 2 then mret (Done out)
             else mret (Next (out ++ nm ++ (if negb (Z.land (at_ e 11) ATTR_DIR =? 0) then [SLASH] else []) ++ [10]))
         end) out = Ok (list_ctl cap (slot_of (sec s) <$> seqZ k (Z.of_nat n)) out)) as H; [|by apply (H 16%nat)].
  induction n as [|n IH]; intros k o Hk Hn; cbn [for_loop]; [done|].
  rewrite seqZ_cons by lia. cbn [fmap list_fmap list_ctl]. rewrite slot_ok by (done || lia). cbn [mbind res_bind].
  replace (Z.succ k) with (k + 1) by lia. replace (Z.pred (Z.of_nat (S n))) with (Z.of_nat n) by lia.
  destruct (_ =? 0); [done|]. destruct (entry_name _) as [nm|]; [|cbn [mbind res_bind mret res_ret]; apply IH; lia].
  destruct (cap <? _); [done|]. cbn [mbind res_bind mret res_ret]. apply IH; lia.
Qed.

Lemma list_cluster_ok cap st c n i s out : fat_ok st -> 2 <= c < fat_max st -> unchanged st s -> 0 <= i -> i + Z.of_nat n <= sec_per_clus st ->
  exists s', unchanged st s' /\ for_loop n i (fun t '(out, st) =>
      '(r, st) ← read_sec (u64 (clus_lba c st + t)) st;
      if negb (r =? 0) then mret (Done (None, st))
      else
        b ← list_block cap out st;
        mret (match b with Next out => Next (out, st) | Done out => Done (Some out, st) end)) (out, s) =
    Ok (match list_ctl cap (entries st (clus_block st c <$> seqZ i (Z.of_nat n))) out with
        | Next o => Next (o, s') | Done o => Done (Some o, s') end).
Proof.
  intros Hok Hc. revert i s out. induction n as [|n IH]; intros i s out Hu Hi Hn; cbn [for_loop]; [by exists s|].
  destruct (clus_block_range st c i Hok Hc ltac:(lia)) as (Hr & Hlba & _ & _).
  pose proof (unchanged_geo _ _ Hu) as Hg. pose proof Hg as (_ & E2 & E3 & _ & _ & _ & _ & _ & _ & E10).
  assert (u64 (clus_lba c s + i) = clus_block st c i) as -> by (rewrite <- Hlba; unfold clus_lba; by rewrite E2, E3).
  destruct (read_sec_ok s (clus_block st c i) (unchanged_ok _ _ Hu)) as (s1 & -> & Hb1 & Hs1 & Hh1); [lia|].
  assert (unchanged s s1) as Hu1 by done. assert (unchanged st s1) as Hu2 by by eapply unchanged_comp.
  rewrite (unchanged_blk st s) in Hs1 by (done || lia). cbn [mbind res_bind Z.eqb negb].
  rewrite list_block_ok by (rewrite Hs1; by apply blk_block). rewrite Hs1. cbn [mbind res_bind mret res_ret].
  rewrite seqZ_cons by lia. cbn [fmap list_fmap entries flat_map]. rewrite list_ctl_app.
  replace (Z.succ i) with (i + 1) by lia. replace (Z.pred (Z.of_nat (S n))) with (Z.of_nat n) by lia.
  destruct (list_ctl cap (slots (blk st (clus_block st c i))) out) as [o|o]; [|by exists s1].
  apply (IH (i + 1) s1 o); [done|lia|lia].
Qed.

Lemma list_chain_ok cap st cs fuel c s out : fat_ok st -> chain st c cs -> (length cs < fuel)%nat -> unchanged st s ->
  exists s', list_chain fuel cap c out s = Ok (Some (ctl_out (list_ctl cap (dir_entries st cs) out)), s') /\ unchanged st s'.
Proof.
  intros Hok. revert fuel c s out. induction cs as [|d cs IH]; intros fuel c s out Hch Hf Hu; (destruct fuel as [|fuel]; [cbn in Hf; lia|]).
  - inversion Hch. cbn [list_chain]. rewrite (proj2 (Z.ltb_ge c EOC)) by done. by exists s.
  - inversion Hch as [|? ? Hd Htl]; subst. cbn [list_chain]. destruct (fo_max _ Hok) as [Hm _]. pose proof (fo_spc _ Hok).
    rewrite (proj2 (Z.ltb_lt d EOC)) by lia. pose proof (unchanged_geo _ _ Hu) as (_ & _ & E3 & _). rewrite E3.
    destruct (list_cluster_ok cap st d (Z.to_nat (sec_per_clus st)) 0 s out Hok Hd Hu) as (s1 & Hu1 & ->); [lia|lia|].
    cbn [mbind res_bind]. rewrite Z2Nat.id by lia. unfold dir_entries. cbn [chain_blocks flat_map].
    unfold entries at 2. rewrite flat_map_app. fold (entries st (clus_blocks st d)) (entries st (flat_map (clus_blocks st) cs)).
    rewrite list_ctl_app. unfold clus_blocks at 1 2. destruct (list_ctl cap _ out) as [o|o]; [|by exists s1].
    pose proof (fat_max_geometry _ _ (unchanged_geo _ _ Hu1)) as Em.
    destruct (fat_next_unchanged s1 d (unchanged_ok _ _ Hu1)) as (s2 & -> & Hu2); [by rewrite Em|].
    cbn [mbind res_bind]. rewrite (next_unchanged st s1) by done.
    apply (IH fuel (next_of st d) s2 o); [done|cbn in Hf; lia|]. by eapply unchanged_comp.
Qed.
End loops.

(** ** Lemmas: whole paths *)

Section paths.
Context {D : Type} `{!disk D, !good_disk D} (fuel : nat).
Implicit Types (st s : fat D) (T : tree) (L : places).

(** A directory of the tree is listed. *)
Lemma list_dir_ok cap st s T L P c cs : vol_tree st T L -> T !! P = Some EDir -> L !! P = Some (c, cs) -> unchanged st s ->
  0 <= cap -> fat_max st <= Z.of_nat fuel ->
  exists out s', list_chain fuel cap c [] s = Ok (Some out, s') /\ unchanged st s' /\ Z.of_nat (length out) <= cap /\
    exists names, children T P names /\ listed names cap out.
Proof.
  intros H HP HL Hu Hcap Hf. pose proof (vt_ok _ _ _ H) as Hok. destruct (vt_dir _ _ _ H P c cs HP HL) as (Hch & _ & Hgd & Hk).
  pose proof (chain_length _ _ _ Hok Hch).
  destruct (list_chain_ok cap st cs fuel c s [] Hok Hch ltac:(lia) Hu) as (s' & E & Hu'). eexists _, s'. split; [exact E|].
  split; [done|]. split; [by apply list_ctl_length|]. exists (shown (dir_entries st cs)). split; [by eapply shown_children|].
  exact (list_ctl_listed cap (dir_entries st cs) (gd_end _ Hgd) []).
Qed.

(** The directory that a path names; without a path the current one. *)
Lemma fat_list_any st T L path cap : vol_tree st T L -> cwd_at st T L -> cstr path -> resolvable (cwd_path st) path ->
  0 <= cap -> fat_max st <= Z.of_nat fuel ->
  exists o r out st', abspath (cwd_path st) path = Ok o /\ fat_list fuel path cap st = Ok (r, out, st') /\ unchanged st st' /\
    Z.of_nat (length out) <= cap /\
    match o with
    | Some p => let P := upath (words (if bool_decide (path = []) then cwd_path st else p)) in
        match T !! P with
        | Some EDir => r = Z.of_nat (length out) /\ exists names, children T P names /\ listed names cap out
        | _ => r = -1 /\ out = []
        end
    | None => r = -1 /\ out = []
    end.
Proof.
  intros H (_ & _ & Hcd & ccs & Hcl) Hp Hc Hcap Hf. pose proof (vt_ok _ _ _ H) as Hok. unfold fat_list.
  destruct (abspath_any _ _ Hp Hc) as (o & -> & Ho). exists o. cbn [mbind res_bind].
  assert (forall s, unchanged st s -> exists r out st', (mret (-1, [], s) : res (Z * list Z * fat D)) = Ok (r, out, st') /\ unchanged st st' /\
    Z.of_nat (length out) <= cap /\ r = -1 /\ out = []) as Hfail by (intros s Hu; by exists (-1), [], s).
  destruct o as [p|].
  2: { destruct (Hfail st (unchanged_refl _ Hok)) as (r & out & st' & H1 & H2). by exists r, out, st'. }
  rewrite deref_0 by done. destruct (Ho p eq_refl) as [Ha _].
  assert (forall P c cs s, T !! P = Some EDir -> L !! P = Some (c, cs) -> unchanged st s -> exists r out st',
    ('(o, st) ← list_chain fuel cap c [] s;
     mret (match o with Some out => (Z.of_nat (length out), out, st) | None => (-1, [], st) end)) = Ok (r, out, st') /\
    unchanged st st' /\ Z.of_nat (length out) <= cap /\ r = Z.of_nat (length out) /\ exists names, children T P names /\ listed names cap out) as Hlist.
  { intros P c cs s HP HL Hu. destruct (list_dir_ok cap st s T L P c cs) as (out & s' & -> & Hu' & Hl & Hn); [done..|].
    eexists _, out, s'. split; [reflexivity|]. done. }
  bdec as Hpn; cbn [negb]; cbn [mbind res_bind mret res_ret].
  - cbv zeta. rewrite Hcd. destruct (Hlist _ _ _ st Hcd Hcl (unchanged_refl _ Hok)) as (r & out & st' & E & HH). by exists r, out, st'.
  - destruct (walk_ok fuel st T L p false 0 H Hf Ha) as (s1 & -> & Hu1). cbn [mbind res_bind]. cbv zeta. unfold walked.
    set (P := upath (words p)). destruct (Hfail s1 Hu1) as (r & out & st' & E & Hu & HH).
    destruct (T !! P) as [t|] eqn:Et; [|by exists r, out, st'].
    destruct (vt_node _ _ _ P H) as (t' & c & cs & Et' & El); [by eexists|]. rewrite El. assert (t' = t) as -> by congruence.
    destruct t as [|bs]; [|destruct (slash_end p); by exists r, out, st'].
    destruct (Hlist _ _ _ s1 Et El Hu1) as (r' & out' & s' & E' & HH'). by exists r', out', s'.
Qed.
End paths.

(** ** Lemmas: a volume in order stays in order *)

Section ready.
Context {D : Type} `{!disk D, !good_disk D} (fuel : nat).
Implicit Types (st s : fat D) (T : tree) (L : places).

Lemma ready_resolvable st T L path : cwd_at st T L -> cwd_room st -> resolvable (cwd_path st) path.
Proof. intros (Ha & _) Hr. by right. Qed.

Lemma ready_unchanged st s : vol_ready fuel st -> unchanged st s -> vol_ready fuel s.
Proof.
  intros (T & L & H & (Ha & Hl & Hd & cs & Hc) & Hf) Hu. exists T, L. pose proof (unchanged_geo _ _ Hu) as Hg.
  pose proof Hg as (_ & _ & _ & _ & _ & _ & E7 & E8 & _). split; [by eapply vol_tree_unchanged|].
  split; [|by rewrite (fat_max_geometry _ _ Hg)]. unfold cwd_at. rewrite E7, E8. split; [done|]. split; [done|]. split; [done|]. by exists cs.
Qed.

Lemma geo_mounted st s : same_geometry st s -> is_mounted s = is_mounted st.
Proof. by intros (_ & _ & _ & _ & _ & _ & _ & _ & -> & _). Qed.

(** The current directory belongs to the geometry that the calls keep. *)
Lemma geo_room st s : same_geometry st s -> cwd_room st -> cwd_room s.
Proof. unfold cwd_room. by intros (_ & _ & _ & _ & _ & _ & _ & -> & _). Qed.

Lemma fat_read_ready st path cap : vol_ready fuel st -> cwd_room st -> cstr path -> 0 <= cap ->
  exists r out st', fat_read fuel path cap st = Ok (r, out, st') /\ Z.of_nat (length out) <= cap /\ vol_ready fuel st' /\ cwd_room st' /\
    is_mounted st' = is_mounted st.
Proof.
  intros Hv Hr Hp Hcap. pose proof Hv as (T & L & H & Hc & Hf). destruct (fo_max _ (vt_ok _ _ _ H)) as [Hm _].
  destruct (fat_read_any fuel st T L path cap H Hp) as (o & st' & _ & Hu & ->); [by eapply ready_resolvable|done|lia|].
  assert (exists r out, (match o with Some p => tree_read T (upath (words p)) (slash_end p) cap | None => (-1, []) end) = (r, out) /\
    Z.of_nat (length out) <= cap) as (r & out & -> & Hl).
  { destruct o as [p|]; [|by exists (-1), []]. unfold tree_read. destruct (T !! _) as [[|bs]|]; [by exists (-1), []| |by exists (-1), []].
    destruct (slash_end p); [by exists (-1), []|]. eexists _, _. split; [reflexivity|]. rewrite length_take. lia. }
  exists r, out, st'. pose proof (unchanged_geo _ _ Hu). split_and!; [done|done|by eapply ready_unchanged|by eapply geo_room|by apply geo_mounted].
Qed.

Lemma fat_list_ready st path cap : vol_ready fuel st -> cwd_room st -> cstr path -> 0 <= cap ->
  exists r out st', fat_list fuel path cap st = Ok (r, out, st') /\ Z.of_nat (length out) <= cap /\ vol_ready fuel st' /\ cwd_room st' /\
    is_mounted st' = is_mounted st.
Proof.
  intros Hv Hr Hp Hcap. pose proof Hv as (T & L & H & Hc & Hf). destruct (fo_max _ (vt_ok _ _ _ H)) as [Hm _].
  destruct (fat_list_any fuel st T L path cap H Hc Hp) as (o & r & out & st' & _ & -> & Hu & Hl & _); [by eapply ready_resolvable|done|lia|].
  exists r, out, st'. pose proof (unchanged_geo _ _ Hu). split_and!; [done|done|by eapply ready_unchanged|by eapply geo_room|by apply geo_mounted].
Qed.

(** The current directory is no part of the tree. *)
Lemma vol_tree_fcwd st T L c p : vol_tree st T L -> vol_tree (set_fcwd st c p) T L.
Proof.
  intros [H1 H2 H3 H4 H5 H6 H7]. assert (forall c' cs, chain st c' cs -> chain (set_fcwd st c p) c' cs) as Hch by (intros ? ?; by apply chain_ext).
  split; try done.
  - destruct H1. by split.
  - intros q qc qcs Hq Hl. destruct (H5 q qc qcs Hq Hl) as (Hc & Hr). split; [by apply Hch|exact Hr].
  - intros q qc qcs bs Hq Hl. destruct (H6 q qc qcs bs Hq Hl) as [Hh|(Hn & Hc & Hd)]; [by left|right].
    split; [done|]. split; [by apply Hch|exact Hd].
Qed.

Lemma fat_chdir_ready st path : vol_ready fuel st -> cwd_room st -> cstr path ->
  exists r st', fat_chdir fuel path st = Ok (r, st') /\ vol_ready fuel st' /\ is_mounted st' = is_mounted st.
Proof.
  intros Hv Hr Hp. pose proof Hv as (T & L & H & Hc & Hf). destruct (fo_max _ (vt_ok _ _ _ H)) as [Hm _].
  destruct (fat_chdir_any fuel st T L path H Hp) as (o & st' & _ & Hu & -> & Ho); [left; by eapply ready_resolvable|lia|].
  pose proof (ready_unchanged _ _ Hv Hu) as Hv'. pose proof (geo_mounted _ _ (unchanged_geo _ _ Hu)) as Em.
  destruct o as [p|]; [|by exists (-1), st']. destruct (T !! upath (words p)) as [[|bs]|] eqn:Et; [|by exists (-1), st'..].
  destruct (L !! upath (words p)) as [[c cs]|] eqn:El; [|by exists (-1), st'].
  exists 0, (set_fcwd st' c p). split; [done|]. split; [|done]. pose proof (unchanged_geo _ _ Hu) as Hg. exists T, L.
  pose proof (vol_tree_unchanged _ _ _ _ H Hu) as H'. destruct (Ho p eq_refl) as [Ha Hl]. split; [|split].
  - by apply vol_tree_fcwd.
  - split; [done|]. split; [done|]. split; [done|]. by exists cs.
  - change (fat_max (set_fcwd st' c p)) with (fat_max st'). by rewrite (fat_max_geometry _ _ Hg).
Qed.

Lemma write_in_dirs T P w bs T' p : write_in T P w bs = Some T' -> T !! p = Some EDir -> T' !! p = Some EDir.
Proof.
  unfold write_in. destruct (T !! P) as [[|?]|]; [|done..]. destruct (stored_name w) as [k|]; [|done]. cbn [mbind option_bind].
  intros E Hp. destruct (decide (p = P ++ [k])) as [->|Hne]; [by rewrite Hp in E|].
  destruct (T !! (P ++ [k])) as [[|?]|]; [done|injection E as <-..]; by rewrite lookup_insert_ne.
Qed.

Lemma fat_write_ready st path buf len : vol_ready fuel st -> cwd_room st -> cstr path -> Forall is_byte buf ->
  0 <= len <= Z.of_nat (length buf) -> len < 2 ^ 32 ->
  exists r st', fat_write fuel path buf len st = Ok (r, st') /\ vol_ready fuel st' /\ cwd_room st' /\ is_mounted st' = is_mounted st.
Proof.
  intros Hv Hr Hp Hb Hl Hl32. pose proof Hv as (T & L & H & Hc & Hf).
  destruct (fat_write_any fuel st T L path buf len) as (o & r & st' & _ & -> & Ho); [done|done|by eapply ready_resolvable|done..|].
  exists r, st'. split; [done|]. destruct o as [p|]; [|by destruct Ho as [_ ->]].
  pose proof Hc as (Ha & Hcl & Hd & cs & HL).
  assert (forall T' L', same_geometry st st' -> vol_tree st' T' L' -> T' !! upath (words (cwd_path st)) = Some EDir ->
    (exists cs', L' !! upath (words (cwd_path st)) = Some (cwd_clus st, cs')) -> vol_ready fuel st' /\ cwd_room st' /\ is_mounted st' = is_mounted st) as Hdone.
  { intros T' L' Hg H' Hd' HL'. split; [|by split; [eapply geo_room|apply geo_mounted]]. exists T', L'. split; [done|]. split; [|by rewrite (fat_max_geometry _ _ Hg)].
    pose proof Hg as (_ & _ & _ & _ & _ & _ & E7 & E8 & _). unfold cwd_at. by rewrite E7, E8. }
  destruct Ho as (a & w & _ & _ & Hw). destruct (write_in T (upath (words a)) w (take (Z.to_nat len) buf)) as [T'|] eqn:Ew.
  - destruct Hw as [Hg [(_ & L' & H' & Hst)|(_ & H' & _)]]; [|by apply (Hdone T L); [..|by exists cs]].
    apply (Hdone T' L'); [done|done|by eapply write_in_dirs|]. by eapply Hst.
  - destruct Hw as (_ & Hg & H'). apply (Hdone T L); [done..|]. by exists cs.
Qed.

Lemma fat_getcwd_ready st cap : let '(r, out) := fat_getcwd cap st in 0 <= r -> Z.of_nat (length out) + 1 <= cap.
Proof. unfold fat_getcwd. destruct (Z.ltb_spec cap (Z.of_nat (length (cwd_path st)) + 1)); lia. Qed.
End ready.

(** ** Properties *)

(** C35. A directory of a volume is listed: the text holds a line for every name the
    directory has in the tree, directories with a slash, in the order of the
    volume, as many lines as fit; the tree stays as it is.  A path that leads to
    no directory is refused. *)
Theorem fat_list_lists D `{!disk D, !good_disk D} (st : fat D) T L path cap fuel : vol_tree st T L -> cwd_at st T L -> cstr path ->
  cwd_path st = [SLASH] \/ deref path = SLASH -> 0 <= cap -> fat_max st <= Z.of_nat fuel ->
  exists r out st', fat_list fuel path cap st = Ok (r, out, st') /\ vol_tree st' T L /\ same_geometry st st' /\
    match norm [] (words path) ≫= fun ws => (T !! upath ws ≫= fun t => Some (upath ws, t)) with
    | Some (P, EDir) => r = Z.of_nat (length out) /\ r <= cap /\ exists names, children T P names /\ listed names cap out
    | _ => r = -1 /\ out = []
    end.
Proof.
  intros H Hcw Hp Hc Hcap Hf.
  destruct (fat_list_any fuel st T L path cap) as (o & r & out & st' & Eo & -> & Hu & Hl & Ho); [done|done|done|by apply resolvable_root|done..|].
  exists r, out, st'. split; [done|]. split; [by eapply vol_tree_unchanged|]. split; [by apply unchanged_geo|].
  destruct (abspath_ok _ _ Hp Hc) as [E' Hn]. rewrite Eo in E'. injection E' as ->.
  destruct (norm [] (words path)) as [ws|] eqn:En; cbn [fmap option_fmap option_map mbind option_bind] in Ho |- *; [|done].
  destruct (Hn ws eq_refl) as [Hws _].
  assert (words (if bool_decide (path = []) then cwd_path st else text ws) = ws) as Ew.
  { bdec as He; [|by apply words_text]. subst path. injection En as <-. destruct Hc as [->|?]; done. }
  cbv zeta in Ho. rewrite Ew in Ho. destruct (T !! upath ws) as [[|bs]|]; cbn [mbind option_bind]; [|done..].
  destruct Ho as [-> Hn']. done.
Qed.

(** ** Examples *)

Lemma wit_cwd : cwd_at wit_fat {[ [] := EDir ]} {[ [] := (2, [2]) ]} /\ cwd_room wit_fat.
Proof.
  split; [|done].
  split; [split; [repeat constructor; unfold SLASH; lia|by left]|]. split; [done|].
  change (upath (words (cwd_path wit_fat))) with (@nil str). rewrite !lookup_singleton_eq. split; [done|]. by exists [2].
Qed.

Lemma wit_volume : vol_ready (disk0 := list_disk) 256 wit_fat.
Proof.
  exists {[ [] := EDir ]}, {[ [] := (2, [2]) ]}. split; [exact wit_tree|]. split; [apply wit_cwd|vm_compute; discriminate].
Qed.

(** The empty root. *)
Lemma fat_list_lists_witness : exists r out st', fat_list (disk0 := list_disk) 128 [SLASH] 64 wit_fat = Ok (r, out, st') /\
  r = Z.of_nat (length out) /\ exists names, children {[ [] := EDir ]} [] names /\ listed names 64 out.
Proof.
  destruct (fat_list_lists (list (list Z)) (disk0 := list_disk) wit_fat {[ [] := EDir ]} {[ [] := (2, [2]) ]} [SLASH] 64 128) as (r & out & st' & E & _ & _ & H).
  - exact wit_tree.
  - by destruct wit_cwd.
  - repeat constructor; unfold SLASH; lia.
  - by left.
  - lia.
  - vm_compute. discriminate.
  - exists r, out, st'. split; [exact E|]. change (norm [] (words [SLASH])) with (Some (@nil str)) in H. cbn [mbind option_bind] in H.
    change (upath []) with (@nil str) in H. rewrite lookup_singleton_eq in H. destruct H as (-> & _ & H). by split.
Defined.
