(* ===== verification/Dec.v ===== *)
(** * Decimal numbers

    The digit loop that [emit_dec] of [kernel/syscall.c], [put_dec] of
    [user/calc.c] and [user/shell.c] share: digits go into a buffer of 20
    characters, last digit first, and are written out backwards. *)
From S2P Require Import Prelude Str.

(** [tmp[i++] = c]. *)
Definition put_tmp (tmp : list Z) (c : Z) : res (list Z) :=
  if (length tmp <? 20)%nat then mret (tmp ++ [c]) else Ub.

(** [while (v) { tmp[i++] = '0' + v % 10; v /= 10; }]. *)
Fixpoint dec_loop (fuel : nat) (v : Z) (tmp : list Z) : res (list Z) :=
  match fuel with
  | O => Oof
  | S fuel' =>
      if v =? 0 then mret tmp
      else tmp ← put_tmp tmp (48 + v mod 10); dec_loop fuel' (v / 10) tmp
  end.

Definition dec_tmp (v : Z) : res (list Z) :=
  tmp ← (if v =? 0 then put_tmp [] 48 else mret []);
  dec_loop 21 v tmp.

(** ** Specification *)

Definition digit (c : Z) : Prop := 48 <= c <= 57.

(** The value of a digit string, first digit first. *)
Definition dec_value (ds : str) : Z := foldl (fun v c => v * 10 + (c - 48)) 0 ds.

(** The decimal numeral of [v]. *)
Definition numeral (v : Z) (ds : str) : Prop :=
  ds <> [] /\ Forall digit ds /\ dec_value ds = v /\ (length ds <= 20)%nat /\
  (v <> 0 -> deref ds <> 48).

(** ** Lemmas *)

Lemma dec_value_snoc ds c : dec_value (ds ++ [c]) = dec_value ds * 10 + (c - 48).
Proof. unfold dec_value. by rewrite foldl_app. Qed.

(** Digits put in front of a numeral. *)
Lemma dec_loop_ok k : forall v tmp, 0 <= v < 10 ^ Z.of_nat k -> (length tmp + k <= 20)%nat ->
  exists ds, dec_loop (S k) v tmp = Ok (tmp ++ rev ds) /\ (length ds <= k)%nat /\ Forall digit ds /\
    dec_value ds = v /\ (v <> 0 -> ds <> [] /\ deref ds <> 48) /\ (v = 0 -> ds = []).
Proof.
  induction k as [|k IH]; intros v tmp Hv Hl.
  - assert (v = 0) as -> by (cbn in Hv; lia). exists []. cbn. rewrite app_nil_r. split_and!; done.
  - rewrite Nat2Z.inj_succ, Z.pow_succ_r in Hv by lia. remember (S k) as m. cbn [dec_loop]. subst m.
    destruct (Z.eqb_spec v 0) as [->|Hne].
    { exists []. rewrite app_nil_r. split_and!; done || (cbn; lia). }
    unfold put_tmp. rewrite (proj2 (Nat.ltb_lt _ _)) by lia. cbn [mbind res_bind mret res_ret].
    destruct (IH (v / 10) (tmp ++ [48 + v mod 10])) as (ds & E & Hlen & Hd & Hval & Hn & Hz);
      [zdm|rewrite length_app; cbn; lia|].
    exists (ds ++ [48 + v mod 10]). rewrite E, rev_app_distr, <- app_assoc. split; [done|].
    rewrite length_app. cbn [length]. split; [lia|]. split.
    { apply Forall_app. split; [done|]. apply Forall_singleton. unfold digit. zdm. }
    split; [rewrite dec_value_snoc, Hval; zdm|]. split; [|done]. intros _. split; [by destruct ds|].
    destruct (decide (v / 10 = 0)) as [E0|E0].
    + rewrite (Hz E0). cbn. zdm.
    + destruct (Hn E0) as [Hne' Hh]. by destruct ds.
Qed.

Lemma dec_tmp_ok v : 0 <= v < 2 ^ 64 -> exists ds, dec_tmp v = Ok (rev ds) /\ numeral v ds.
Proof.
  intros Hv. unfold dec_tmp. destruct (Z.eqb_spec v 0) as [->|Hne].
  - exists [48]. split; [reflexivity|]. split; [done|]. split; [by repeat constructor|]. split; [done|]. cbn. split; [lia|done].
  - cbn [mbind res_bind mret res_ret].
    destruct (dec_loop_ok 20 v []) as (ds & E & Hl & Hd & Hval & Hn & _); [|cbn; lia|].
    { change (10 ^ Z.of_nat 20) with 100000000000000000000. change (2 ^ 64) with 18446744073709551616 in Hv. lia. }
    exists ds. rewrite E. destruct (Hn Hne). done.
Qed.

Lemma dec_value_cons c ds : dec_value (c :: ds) = (c - 48) * 10 ^ Z.of_nat (length ds) + dec_value ds.
Proof.
  induction ds as [|d ds IH] using rev_ind; [cbn; lia|].
  change (c :: ds ++ [d]) with ((c :: ds) ++ [d]). rewrite !dec_value_snoc, IH, length_app, Nat.add_1_r, Nat2Z.inj_succ, Z.pow_succ_r by lia.
  lia.
Qed.

Lemma dec_value_nonneg ds : Forall digit ds -> 0 <= dec_value ds.
Proof.
  induction 1 as [|c ds Hc _ IH]; [done|]. rewrite dec_value_cons. unfold digit in Hc.
  assert (0 < 10 ^ Z.of_nat (length ds)) by (apply Z.pow_pos_nonneg; lia). nia.
Qed.

(** A numeral is as short as its value. *)
Lemma numeral_length v ds k : 0 < v < 10 ^ Z.of_nat k -> numeral v ds -> (length ds <= k)%nat.
Proof.
  intros Hv (Hn & Hd & <- & _ & Hh). destruct Hd as [|c ds Hc Hd]; [done|]. cbn [deref] in Hh. cbn [length].
  destruct (decide (length ds < k)%nat); [lia|]. exfalso.
  pose proof (dec_value_nonneg ds Hd) as H0. rewrite dec_value_cons in Hv, Hh. unfold digit in Hc.
  assert (0 < 10 ^ Z.of_nat k) as Hp by (apply Z.pow_pos_nonneg; lia).
  assert (10 ^ Z.of_nat k <= 10 ^ Z.of_nat (length ds)) by (apply Z.pow_le_mono_r; lia).
  assert (c <> 48) by (apply Hh; lia). nia.
Qed.
