(* ===== verification/Hex.v ===== *)
(** * Hexadecimal numbers

    The digit table that [emit_hex] of [kernel/syscall.c], [print_hex8] of
    [drivers/pci/pci.c] and [print_hex32] of [drivers/nic/e1000.c] share, and
    the text of a number in a fixed number of digits. *)
From S2P Require Import Prelude Str.

Definition hex_digits : str := lit "0123456789ABCDEF".

(** ** Specification *)

(** [n] digits of [v], most significant first. *)
Fixpoint hexn (n : nat) (v : Z) : str :=
  match n with
  | O => []
  | S n' => hexn n' (v / 16) ++ [nth (Z.to_nat (v mod 16)) hex_digits 0]
  end.

Definition hex_val (c : Z) : Z := if c <=? 57 then c - 48 else c - 55.

(** ** Lemmas *)

Lemma hex_digit v : exists c, rd hex_digits (Z.land v 0xF) = Ok c /\ is_byte c /\ c = nth (Z.to_nat (Z.land v 0xF)) hex_digits 0.
Proof.
  change 0xF with (Z.ones 4). rewrite Z.land_ones by lia. change (2 ^ 4) with 16.
  pose proof (Z.mod_pos_bound v 16 ltac:(lia)) as Hr. set (i := v mod 16) in *. clearbody i.
  assert (forallb (fun i => match rd hex_digits i with Ok c => (0 <=? c) && (c <? 256) && (c =? nth (Z.to_nat i) hex_digits 0) | _ => false end)
    (seqZ 0 16) = true) as Hall by reflexivity.
  rewrite forallb_forall in Hall. specialize (Hall i). rewrite <- list_elem_of_In, elem_of_seqZ in Hall. specialize (Hall ltac:(lia)).
  destruct (rd hex_digits i) as [c| |]; try discriminate. zbool. exists c. split; [done|]. unfold is_byte. split; [lia|done].
Qed.

Lemma hex_nibble v : rd hex_digits (Z.land v 0xF) = Ok (nth (Z.to_nat (v mod 16)) hex_digits 0).
Proof.
  destruct (hex_digit v) as (c & E & _ & Hc). rewrite E, Hc. change 0xF with (Z.ones 4). by rewrite Z.land_ones by lia.
Qed.

Lemma hexn_length n v : length (hexn n v) = n.
Proof. revert v. induction n as [|n IH]; intros v; [done|]. cbn [hexn]. rewrite length_app, IH. cbn. lia. Qed.

(** The text reads back as the number. *)
Lemma hexn_value n v : foldl (fun a c => a * 16 + hex_val c) 0 (hexn n v) = v mod 16 ^ Z.of_nat n.
Proof.
  revert v. induction n as [|n IH]; intros v; [by rewrite Z.mod_1_r|]. cbn [hexn]. rewrite foldl_app, IH. cbn [foldl].
  pose proof (Z.mod_pos_bound v 16 ltac:(lia)) as Hr.
  assert (hex_val (nth (Z.to_nat (v mod 16)) hex_digits 0) = v mod 16) as ->.
  { assert (forallb (fun i => hex_val (nth (Z.to_nat i) hex_digits 0) =? i) (seqZ 0 16) = true) as Hall by reflexivity.
    rewrite forallb_forall in Hall. apply Z.eqb_eq, Hall, list_elem_of_In, elem_of_seqZ. lia. }
  rewrite Nat2Z.inj_succ, Z.pow_succ_r, Z.rem_mul_r by lia. lia.
Qed.
