(* ===== verification/Line.v ===== *)
(** * Line editing

    What the line editors of [user/calc.c] and [user/shell.c] share: the
    128-byte buffer, and what a terminal shows of an echo with backspaces. *)
From S2P Require Import Prelude Str.

(** [line[i++] = c] in [char line[128]]. *)
Definition put_line (line : str) (c : Z) : res str :=
  if (length line <? 128)%nat then mret (line ++ [c]) else Ub.

(** ** Specification *)

Definition printable (c : Z) : Prop := 32 <= c < 127.

(** What a terminal line shows after the echo. *)
Definition shown (out : str) : str :=
  foldl (fun l c => if c =? 8 then removelast l else l ++ [c]) [] out.

(** ** Lemmas *)

Lemma put_line_ok line c : (length line <= 127)%nat -> put_line line c = Ok (line ++ [c]).
Proof. intros H. unfold put_line. by rewrite (proj2 (Nat.ltb_lt _ _)) by lia. Qed.

Lemma shown_snoc out c : shown (out ++ [c]) = if c =? 8 then removelast (shown out) else shown out ++ [c].
Proof. unfold shown. by rewrite foldl_app. Qed.

Lemma removelast_snoc {A} (l : list A) x : removelast (l ++ [x]) = l.
Proof. apply removelast_last. Qed.

Lemma removelast_length {A} (l : list A) : length (removelast l) = pred (length l).
Proof.
  destruct l as [|x l _] using rev_ind; [done|]. rewrite removelast_snoc, length_app. cbn. lia.
Qed.

Lemma removelast_Forall {A} (P : A -> Prop) l : Forall P l -> Forall P (removelast l).
Proof.
  destruct l as [|x l _] using rev_ind; [done|]. rewrite removelast_snoc. by intros [? _]%Forall_app.
Qed.

(** Printed text is appended. *)
Lemma shown_print out s : Forall printable s -> shown (out ++ s) = shown out ++ s.
Proof.
  intros H. revert out. induction H as [|c s Hc _ IH]; intros out; [by rewrite !app_nil_r|].
  change (c :: s) with ([c] ++ s). rewrite !app_assoc, IH, shown_snoc.
  unfold printable in Hc. by rewrite (proj2 (Z.eqb_neq c 8)) by lia.
Qed.

(** Backspaces wipe the line. *)
Lemma shown_wipe out n : (length (shown out) <= n)%nat -> shown (out ++ replicate n 8) = [].
Proof.
  revert out. induction n as [|n IH]; intros out H.
  - rewrite app_nil_r. by destruct (shown out); [|cbn in H; lia].
  - change (replicate (S n) 8) with ([8] ++ replicate n 8). rewrite app_assoc. apply IH.
    rewrite shown_snoc. cbn. rewrite removelast_length. lia.
Qed.

Lemma printable_cstr s : Forall printable s -> cstr s.
Proof. intros H. eapply Forall_impl; [exact H|]. unfold printable. cbn. lia. Qed.
