(* ===== verification/Expr.v ===== *)
(** * Integer expressions ([user/expr.c])

    The recursive-descent evaluator of the calculator and the shell.  The
    cursor [pos] and the flag [*ok] are passed along; a signed overflow, which
    C leaves undefined, is [Ub].  The functions recurse on fuel; the fuel
    [expr_eval] gives is shown to be enough for every string. *)
From S2P Require Import Prelude Str Dec.

(** ** The evaluator *)

Definition LONG_MIN : Z := -9223372036854775808.
Definition LONG_MAX : Z := 9223372036854775807.
Definition in_long (v : Z) : bool := (LONG_MIN <=? v) && (v <=? LONG_MAX).

(** The result of a signed operation. *)
Definition chk (v : Z) : res Z := if in_long v then mret v else Ub.

Definition is_space (c : Z) : bool := (c =? 32) || (c =? 9).
Definition is_digit (c : Z) : bool := (48 <=? c) && (c <=? 57).

Fixpoint skip (p : str) : str :=
  match p with
  | c :: p' => if is_space c then skip p' else p
  | [] => []
  end.

(** The digit loop of [parse_num]: the value, the number of digits, the rest. *)
Fixpoint digits (p : str) (v n : Z) : res (Z * Z * str) :=
  match p with
  | c :: p' =>
      if is_digit c then v ← chk (v * 10); v ← chk (v + (c - 48)); digits p' v (n + 1)
      else mret (v, n, p)
  | [] => mret (v, n, [])
  end.

Definition parse_num (p : str) (ok : bool) : res (Z * str * bool) :=
  '(v, n, p) ← digits (skip p) 0 0;
  mret (v, p, if n =? 0 then false else ok).

Definition is_mulop (c : Z) : bool := (c =? 42) || (c =? 47) || (c =? 37).
Definition is_addop (c : Z) : bool := (c =? 43) || (c =? 45).

(** One operation of [parse_term]; a division by zero keeps [v] and clears [ok]. *)
Definition mulop (op v r : Z) : res (Z * bool) :=
  if op =? 42 then v ← chk (v * r); mret (v, true)
  else if r =? 0 then mret (v, false)
  else q ← chk (Z.quot v r);
       mret (if op =? 47 then q else Z.rem v r, true).

Definition addop (op v r : Z) : res Z := chk (if op =? 43 then v + r else v - r).

Fixpoint parse_factor (fuel : nat) (p : str) (ok : bool) : res (Z * str * bool) :=
  match fuel with
  | O => Oof
  | S fuel' =>
      let p := skip p in
      if deref p =? 40 then
        '(v, p, ok) ← parse_expr fuel' (tl p) ok;
        let p := skip p in
        if negb (deref p =? 41) then mret (v, p, false) else mret (v, tl p, ok)
      else if deref p =? 45 then
        '(v, p, ok) ← parse_factor fuel' (tl p) ok;
        v ← chk (- v); mret (v, p, ok)
      else parse_num p ok
  end
with parse_term (fuel : nat) (p : str) (ok : bool) : res (Z * str * bool) :=
  match fuel with
  | O => Oof
  | S fuel' => '(v, p, ok) ← parse_factor fuel' p ok; term_loop fuel' v p ok
  end
with term_loop (fuel : nat) (v : Z) (p : str) (ok : bool) : res (Z * str * bool) :=
  match fuel with
  | O => Oof
  | S fuel' =>
      let p := skip p in
      let op := deref p in
      if negb (is_mulop op) then mret (v, p, ok)
      else
        '(r, p, ok) ← parse_factor fuel' (tl p) ok;
        if negb ok then mret (0, p, ok)
        else '(v, ok) ← mulop op v r; term_loop fuel' v p ok
  end
with parse_expr (fuel : nat) (p : str) (ok : bool) : res (Z * str * bool) :=
  match fuel with
  | O => Oof
  | S fuel' => '(v, p, ok) ← parse_term fuel' p ok; expr_loop fuel' v p ok
  end
with expr_loop (fuel : nat) (v : Z) (p : str) (ok : bool) : res (Z * str * bool) :=
  match fuel with
  | O => Oof
  | S fuel' =>
      let p := skip p in
      let op := deref p in
      if negb (is_addop op) then mret (v, p, ok)
      else
        '(r, p, ok) ← parse_term fuel' (tl p) ok;
        if negb ok then mret (0, p, ok)
        else v ← addop op v r; expr_loop fuel' v p ok
  end.

Definition expr_eval (s : str) (ok : bool) : res (Z * bool) :=
  '(v, p, ok) ← parse_expr (4 * length s + 3) s ok;
  mret (v, if negb (deref (skip p) =? 0) then false else ok).

(** ** Specification: the language of expressions and their values *)

Definition spaces (s : str) : Prop := Forall (fun c => is_space c = true) s.

Inductive factor_str : str -> Z -> Prop :=
| F_num sp ds : spaces sp -> ds <> [] -> Forall (fun c => is_digit c = true) ds ->
    dec_value ds <= LONG_MAX -> factor_str (sp ++ ds) (dec_value ds)
| F_par sp s v sp' : spaces sp -> expr_str s v -> spaces sp' ->
    factor_str (sp ++ 40 :: s ++ sp' ++ [41]) v
| F_neg sp s v : spaces sp -> factor_str s v -> in_long (- v) = true ->
    factor_str (sp ++ 45 :: s) (- v)
with term_str : str -> Z -> Prop :=
| T_one s v : factor_str s v -> term_str s v
| T_mul s1 v1 sp s2 v2 : term_str s1 v1 -> spaces sp -> factor_str s2 v2 ->
    in_long (v1 * v2) = true -> term_str (s1 ++ sp ++ 42 :: s2) (v1 * v2)
| T_div s1 v1 sp s2 v2 : term_str s1 v1 -> spaces sp -> factor_str s2 v2 -> v2 <> 0 ->
    in_long (Z.quot v1 v2) = true -> term_str (s1 ++ sp ++ 47 :: s2) (Z.quot v1 v2)
| T_mod s1 v1 sp s2 v2 : term_str s1 v1 -> spaces sp -> factor_str s2 v2 -> v2 <> 0 ->
    in_long (Z.quot v1 v2) = true -> term_str (s1 ++ sp ++ 37 :: s2) (Z.rem v1 v2)
with expr_str : str -> Z -> Prop :=
| E_one s v : term_str s v -> expr_str s v
| E_add s1 v1 sp s2 v2 : expr_str s1 v1 -> spaces sp -> term_str s2 v2 ->
    in_long (v1 + v2) = true -> expr_str (s1 ++ sp ++ 43 :: s2) (v1 + v2)
| E_sub s1 v1 sp s2 v2 : expr_str s1 v1 -> spaces sp -> term_str s2 v2 ->
    in_long (v1 - v2) = true -> expr_str (s1 ++ sp ++ 45 :: s2) (v1 - v2).

Scheme factor_mut := Minimality for factor_str Sort Prop
with term_mut := Minimality for term_str Sort Prop
with expr_mut := Minimality for expr_str Sort Prop.
Combined Scheme expr_ind_all from factor_mut, term_mut, expr_mut.

(** [f] answers [x] from some fuel on. *)
Definition settles {X} (f : nat -> res X) (x : X) : Prop := exists n, forall m, (n <= m)%nat -> f m = Ok x.

(** The rest does not go on with a digit. *)
Definition no_digit (r : str) : Prop := is_digit (deref r) = false.

(** The run ends within its fuel and does not lengthen the input. *)
Definition ends (p : str) (r : res (Z * str * bool)) : Prop :=
  match r with Ok (_, p', _) => (length p' <= length p)%nat | Ub => True | Oof => False end.

(** More fuel keeps an answer. *)
Definition grows {X} (f : nat -> res X) : Prop := forall n, f n <> Oof -> f (S n) = f n.

(** The functions accept a string in front of any rest that does not go on with it. *)
Definition accepts_factor (s : str) (v : Z) : Prop := forall r, no_digit r ->
  settles (fun n => parse_factor n (s ++ r) true) (v, r, true).
Definition accepts_term (s : str) (v : Z) : Prop := forall r x, no_digit r ->
  settles (fun n => term_loop n v r true) x -> settles (fun n => parse_term n (s ++ r) true) x.
Definition accepts_expr (s : str) (v : Z) : Prop := forall r x, no_digit r ->
  is_mulop (deref (skip r)) = false ->
  settles (fun n => expr_loop n v r true) x -> settles (fun n => parse_expr n (s ++ r) true) x.

(** ** Lemmas: the fuel *)

Lemma skip_length p : (length (skip p) <= length p)%nat.
Proof. induction p as [|c p IH]; cbn [skip length]; [done|]. case_match; cbn [length]; lia. Qed.

Lemma deref_cons p c : deref p = c -> c <> 0 -> exists p', p = c :: p'.
Proof. destruct p as [|x p]; cbn; [by intros <-|]. intros -> _. by exists p. Qed.

Lemma mulop_nonzero op : is_mulop op = true -> op <> 0.
Proof. unfold is_mulop. intros H ->. done. Qed.

Lemma addop_nonzero op : is_addop op = true -> op <> 0.
Proof. unfold is_addop. intros H ->. done. Qed.

Lemma tl_length p : deref p <> 0 -> (S (length (tl p)) = length p)%nat.
Proof. by destruct p. Qed.

Lemma ends_weaken p q r : ends p r -> (length p <= length q)%nat -> ends q r.
Proof. destruct r as [[[v p'] ok]| |]; cbn; lia || done. Qed.

Lemma ends_bind p r k : ends p r ->
  (forall v p' ok, (length p' <= length p)%nat -> ends p (k (v, p', ok))) -> ends p (r ≫= k).
Proof. destruct r as [[[v p'] ok]| |]; cbn; intros H Hk; [by apply Hk|done|done]. Qed.

Lemma digits_length p v n :
  match digits p v n with Ok (_, _, p') => (length p' <= length p)%nat | Ub => True | Oof => False end.
Proof.
  revert v n. induction p as [|c p IH]; intros v n; cbn [digits]; [cbn; lia|].
  destruct (is_digit c); [|cbn; lia]. unfold chk.
  destruct (in_long (v * 10)); cbn [mbind res_bind mret res_ret]; [|done].
  destruct (in_long (v * 10 + (c - 48))); cbn [mbind res_bind mret res_ret]; [|done].
  specialize (IH (v * 10 + (c - 48)) (n + 1)).
  destruct (digits p (v * 10 + (c - 48)) (n + 1)) as [[[? ?] ?]| |]; cbn [length]; lia || done.
Qed.

Lemma parse_num_ends p ok : ends p (parse_num p ok).
Proof.
  unfold parse_num. pose proof (digits_length (skip p) 0 0) as H. pose proof (skip_length p).
  destruct (digits (skip p) 0 0) as [[[v n] p']| |]; cbn in *; lia || done.
Qed.

Lemma chk_bind {A} v (k : Z -> res A) : chk v ≫= k = if in_long v then k v else Ub.
Proof. unfold chk. by destruct (in_long v). Qed.

Lemma mulop_cases {A} op v r (k : Z * bool -> res A) : mulop op v r ≫= k = Ub \/ exists w b, mulop op v r ≫= k = k (w, b).
Proof.
  unfold mulop, chk. destruct (op =? 42); [destruct (in_long (v * r)); cbn; eauto|].
  destruct (r =? 0); [cbn; eauto|]. destruct (in_long (Z.quot v r)); cbn; eauto.
Qed.

(** Enough fuel for each function. *)
Lemma parse_ends n :
  (forall p ok, (4 * length p + 1 <= n)%nat -> ends p (parse_factor n p ok)) /\
  (forall p ok, (4 * length p + 2 <= n)%nat -> ends p (parse_term n p ok)) /\
  (forall v p ok, (4 * length p + 1 <= n)%nat -> ends p (term_loop n v p ok)) /\
  (forall p ok, (4 * length p + 3 <= n)%nat -> ends p (parse_expr n p ok)) /\
  (forall v p ok, (4 * length p + 2 <= n)%nat -> ends p (expr_loop n v p ok)).
Proof.
  induction n as [|n (IHf & IHt & IHtl & IHe & IHel)]; [split_and!; intros; lia|].
  split_and!; cbn [parse_factor parse_term term_loop parse_expr expr_loop].
  - intros p ok Hn. pose proof (skip_length p) as Hs.
    destruct (Z.eqb_spec (deref (skip p)) 40) as [E|_].
    { pose proof (tl_length (skip p) ltac:(lia)) as Ht. apply (ends_weaken (tl (skip p))); [|lia].
      apply ends_bind; [apply IHe; lia|]. intros v p' ok' Hp'. pose proof (skip_length p').
      destruct (Z.eqb_spec (deref (skip p')) 41) as [E'|_]; cbn [negb ends mret res_ret]; [|lia].
      pose proof (tl_length (skip p') ltac:(lia)). lia. }
    destruct (Z.eqb_spec (deref (skip p)) 45) as [E|_].
    { pose proof (tl_length (skip p) ltac:(lia)) as Ht. apply (ends_weaken (tl (skip p))); [|lia].
      apply ends_bind; [apply IHf; lia|]. intros v p' ok' Hp'. rewrite chk_bind. by destruct (in_long (- v)). }
    apply (ends_weaken (skip p)); [apply parse_num_ends|lia].
  - intros p ok Hn. apply ends_bind; [apply IHf; lia|]. intros v p' ok' Hp'.
    apply (ends_weaken p'); [apply IHtl; lia|lia].
  - intros v p ok Hn. pose proof (skip_length p) as Hs. destruct (is_mulop (deref (skip p))) eqn:E; cbn [negb]; [|exact Hs].
    pose proof (tl_length (skip p) (mulop_nonzero _ E)) as Ht. apply (ends_weaken (tl (skip p))); [|lia].
    apply ends_bind; [apply IHf; lia|]. intros r p' ok' Hp'. destruct ok'; cbn [negb]; [|exact Hp'].
    destruct (mulop_cases (deref (skip p)) v r (fun '(v, ok) => term_loop n v p' ok)) as [->|(w & b & ->)]; [done|].
    apply (ends_weaken p'); [apply IHtl; lia|lia].
  - intros p ok Hn. apply ends_bind; [apply IHt; lia|]. intros v p' ok' Hp'.
    apply (ends_weaken p'); [apply IHel; lia|lia].
  - intros v p ok Hn. pose proof (skip_length p) as Hs. destruct (is_addop (deref (skip p))) eqn:E; cbn [negb]; [|exact Hs].
    pose proof (tl_length (skip p) (addop_nonzero _ E)) as Ht. apply (ends_weaken (tl (skip p))); [|lia].
    apply ends_bind; [apply IHt; lia|]. intros r p' ok' Hp'. destruct ok'; cbn [negb]; [|exact Hp'].
    unfold addop. rewrite chk_bind. case_match; [|done]. apply (ends_weaken p'); [apply IHel; lia|lia].
Qed.

Lemma bind_Oof {A B} (m : res A) (k : A -> res B) : m ≫= k <> Oof -> m <> Oof.
Proof. by intros H ->. Qed.

(** More fuel does not change an answer. *)
Lemma parse_grows n :
  (forall p ok, parse_factor n p ok <> Oof -> parse_factor (S n) p ok = parse_factor n p ok) /\
  (forall p ok, parse_term n p ok <> Oof -> parse_term (S n) p ok = parse_term n p ok) /\
  (forall v p ok, term_loop n v p ok <> Oof -> term_loop (S n) v p ok = term_loop n v p ok) /\
  (forall p ok, parse_expr n p ok <> Oof -> parse_expr (S n) p ok = parse_expr n p ok) /\
  (forall v p ok, expr_loop n v p ok <> Oof -> expr_loop (S n) v p ok = expr_loop n v p ok).
Proof.
  induction n as [|n (IHf & IHt & IHtl & IHe & IHel)]; [split_and!; intros; done|].
  remember (S n) as m eqn:Em in *. split_and!.
  - intros p ok. cbn [parse_factor]. replace (parse_factor m p ok) with (parse_factor (S n) p ok) by by rewrite Em. cbn [parse_factor].
    destruct (deref (skip p) =? 40); [|destruct (deref (skip p) =? 45); [|done]]; intros H.
    + by rewrite IHe by by eapply bind_Oof.
    + by rewrite IHf by by eapply bind_Oof.
  - intros p ok. cbn [parse_term]. replace (parse_term m p ok) with (parse_term (S n) p ok) by by rewrite Em. cbn [parse_term]. intros H.
    rewrite IHf by by eapply bind_Oof. destruct (parse_factor n p ok) as [[[v p'] ok']| |]; [|done..]. by apply IHtl.
  - intros v p ok. cbn [term_loop]. replace (term_loop m v p ok) with (term_loop (S n) v p ok) by by rewrite Em. cbn [term_loop].
    destruct (is_mulop (deref (skip p))); cbn [negb]; [|done]. intros H. rewrite IHf by by eapply bind_Oof.
    destruct (parse_factor n (tl (skip p)) ok) as [[[r p'] ok']| |]; [|done..]. cbn [mbind res_bind] in *.
    destruct ok'; cbn [negb] in *; [|done]. destruct (mulop _ v r) as [[w b]| |]; [|done..]. by apply IHtl.
  - intros p ok. cbn [parse_expr]. replace (parse_expr m p ok) with (parse_expr (S n) p ok) by by rewrite Em. cbn [parse_expr]. intros H.
    rewrite IHt by by eapply bind_Oof. destruct (parse_term n p ok) as [[[v p'] ok']| |]; [|done..]. by apply IHel.
  - intros v p ok. cbn [expr_loop]. replace (expr_loop m v p ok) with (expr_loop (S n) v p ok) by by rewrite Em. cbn [expr_loop].
    destruct (is_addop (deref (skip p))); cbn [negb]; [|done]. intros H. rewrite IHt by by eapply bind_Oof.
    destruct (parse_term n (tl (skip p)) ok) as [[[r p'] ok']| |]; [|done..]. cbn [mbind res_bind] in *.
    destruct ok'; cbn [negb] in *; [|done]. destruct (addop _ v r) as [w| |]; [|done..]. by apply IHel.
Qed.

Lemma grows_le {X} (f : nat -> res X) n m : grows f -> f n <> Oof -> (n <= m)%nat -> f m = f n.
Proof. intros Hg H Hle. induction Hle as [|m _ IH]; [done|]. by rewrite (Hg m), IH by by rewrite IH. Qed.

Lemma settles_at {X} (f : nat -> res X) n x : grows f -> f n <> Oof -> settles f x -> f n = Ok x.
Proof.
  intros Hg H [k Hk]. rewrite <- (grows_le f n (max n k)) by (done || lia). apply Hk. lia.
Qed.

(** ** Lemmas: the language is accepted *)

Lemma skip_spaces sp s : spaces sp -> skip (sp ++ s) = skip s.
Proof. induction 1 as [|c sp Hc _ IH]; [done|]. cbn [app skip]. by rewrite Hc. Qed.

Lemma skip_stop s : is_space (deref s) = false -> skip s = s.
Proof. destruct s as [|c s]; [done|]. cbn [deref skip]. by intros ->. Qed.

Lemma skip_split p : exists sp, p = sp ++ skip p /\ spaces sp.
Proof.
  induction p as [|c p (sp & E & Hs)]; [exists []; split; [done|constructor]|]. cbn [skip]. destruct (is_space c) eqn:Hc.
  - exists (c :: sp). split; [cbn [app]; congruence|by constructor].
  - exists []. split; [done|constructor].
Qed.

Lemma skip_skip p : skip (skip p) = skip p.
Proof.
  induction p as [|c p IH]; [done|]. cbn [skip]. destruct (is_space c) eqn:E; [done|]. cbn [skip]. by rewrite E.
Qed.

Lemma digit_range c : is_digit c = true -> 48 <= c <= 57.
Proof. unfold is_digit. intros H. zbool. lia. Qed.

Lemma digit_not_space c : is_digit c = true -> is_space c = false.
Proof.
  intros H%digit_range. unfold is_space. by rewrite !(proj2 (Z.eqb_neq _ _)) by lia.
Qed.

Lemma no_digit_spaces sp c s : spaces sp -> is_digit c = false -> no_digit (sp ++ c :: s).
Proof.
  unfold no_digit. intros [|x sp' Hx _] Hc; cbn [app deref]; [done|].
  destruct (is_digit x) eqn:E; [|done]. by rewrite (digit_not_space x E) in Hx.
Qed.

Lemma in_long_range v : in_long v = true <-> LONG_MIN <= v <= LONG_MAX.
Proof. unfold in_long. rewrite andb_true_iff, !Z.leb_le. done. Qed.

Lemma dec_mono ds v : Forall (fun c => is_digit c = true) ds -> 0 <= v ->
  v <= foldl (fun v c => v * 10 + (c - 48)) v ds.
Proof.
  intros H. revert v. induction H as [|c ds Hc _ IH]; intros v Hv; cbn [foldl]; [lia|].
  apply digit_range in Hc. specialize (IH (v * 10 + (c - 48)) ltac:(lia)). lia.
Qed.

Lemma digits_ok ds r v n : Forall (fun c => is_digit c = true) ds -> no_digit r -> 0 <= v ->
  foldl (fun v c => v * 10 + (c - 48)) v ds <= LONG_MAX ->
  digits (ds ++ r) v n = Ok (foldl (fun v c => v * 10 + (c - 48)) v ds, n + Z.of_nat (length ds), r).
Proof.
  intros H Hr. revert v n. induction H as [|c ds Hc Hds IH]; intros v n Hv Hm; cbn [app foldl length].
  - rewrite Z.add_0_r. destruct r as [|x r]; cbn [digits]; [done|]. unfold no_digit in Hr. cbn [deref] in Hr. by rewrite Hr.
  - cbn [digits foldl] in *. rewrite Hc. pose proof (digit_range c Hc).
    pose proof (dec_mono ds (v * 10 + (c - 48)) Hds ltac:(lia)).
    rewrite !chk_bind. rewrite !(proj2 (in_long_range _)) by (unfold LONG_MIN; lia).
    rewrite IH by (lia || done). do 3 f_equal. lia.
Qed.

Lemma term_loop_stop v r : is_mulop (deref (skip r)) = false -> settles (fun n => term_loop n v r true) (v, skip r, true).
Proof. intros H. exists 1%nat. intros [|m] Hm; [lia|]. cbn [term_loop]. by rewrite H. Qed.

Lemma expr_loop_stop v r : is_addop (deref (skip r)) = false -> settles (fun n => expr_loop n v r true) (v, skip r, true).
Proof. intros H. exists 1%nat. intros [|m] Hm; [lia|]. cbn [expr_loop]. by rewrite H. Qed.

Lemma expr_loop_skip n v r ok : expr_loop n v (skip r) ok = expr_loop n v r ok.
Proof. destruct n; [done|]. cbn [expr_loop]. by rewrite skip_skip. Qed.

Lemma term_loop_skip n v r ok : term_loop n v (skip r) ok = term_loop n v r ok.
Proof. destruct n; [done|]. cbn [term_loop]. by rewrite skip_skip. Qed.

(** One turn of each loop. *)
Lemma term_loop_turn v sp op s v2 w r x : spaces sp -> is_mulop op = true -> is_space op = false ->
  settles (fun n => parse_factor n (s ++ r) true) (v2, r, true) -> mulop op v v2 = Ok (w, true) ->
  settles (fun n => term_loop n w r true) x -> settles (fun n => term_loop n v (sp ++ op :: s ++ r) true) x.
Proof.
  intros Hsp Hop Hns [n1 H1] Hm [n2 H2]. exists (S (max n1 n2)). intros [|m] Hle; [lia|]. cbn [term_loop].
  rewrite skip_spaces, skip_stop by done. cbn [deref tl]. rewrite Hop. cbn [negb]. rewrite H1 by lia.
  cbn [mbind res_bind negb]. rewrite Hm. cbn [mbind res_bind]. apply H2. lia.
Qed.

Lemma expr_loop_turn v sp op s v2 w r r' x : spaces sp -> is_addop op = true -> is_space op = false ->
  settles (fun n => parse_term n (s ++ r) true) (v2, r', true) -> addop op v v2 = Ok w ->
  settles (fun n => expr_loop n w r' true) x -> settles (fun n => expr_loop n v (sp ++ op :: s ++ r) true) x.
Proof.
  intros Hsp Hop Hns [n1 H1] Hm [n2 H2]. exists (S (max n1 n2)). intros [|m] Hle; [lia|]. cbn [expr_loop].
  rewrite skip_spaces, skip_stop by done. cbn [deref tl]. rewrite Hop. cbn [negb]. rewrite H1 by lia.
  cbn [mbind res_bind negb]. rewrite Hm. cbn [mbind res_bind]. apply H2. lia.
Qed.

Lemma accepts_num sp ds : spaces sp -> ds <> [] -> Forall (fun c => is_digit c = true) ds ->
  dec_value ds <= LONG_MAX -> accepts_factor (sp ++ ds) (dec_value ds).
Proof.
  intros Hsp Hne Hds Hm r Hr. exists 1%nat. intros [|m] Hle; [lia|]. cbn [parse_factor].
  rewrite <- app_assoc, skip_spaces by done. destruct ds as [|d ds]; [done|]. pose proof (Forall_inv Hds) as Hd.
  cbn in Hd. assert (skip ((d :: ds) ++ r) = (d :: ds) ++ r) as Es by (apply skip_stop, digit_not_space, Hd).
  rewrite Es. cbn [app deref]. pose proof (digit_range d Hd).
  destruct (Z.eqb_spec d 40); [lia|]. destruct (Z.eqb_spec d 45); [lia|].
  unfold parse_num. change (d :: ds ++ r) with ((d :: ds) ++ r). rewrite Es, digits_ok by (done || lia).
  cbn [mbind res_bind mret res_ret length]. unfold dec_value. destruct (Z.eqb_spec (0 + Z.of_nat (S (length ds))) 0); [lia|done].
Qed.

Lemma accepts_all :
  (forall s v, factor_str s v -> accepts_factor s v) /\ (forall s v, term_str s v -> accepts_term s v) /\
  (forall s v, expr_str s v -> accepts_expr s v).
Proof.
  assert (forall c, is_digit c = false -> forall s, no_digit (c :: s)) as Hnd by done.
  apply expr_ind_all.
  - exact accepts_num.
  - intros sp s v sp' Hsp _ IH Hsp' r Hr.
    destruct (IH (sp' ++ 41 :: r) (v, 41 :: r, true)) as [n Hn].
    + by apply no_digit_spaces.
    + by rewrite skip_spaces, skip_stop.
    + pose proof (expr_loop_stop v (sp' ++ 41 :: r)) as H. rewrite skip_spaces, skip_stop in H by done. by apply H.
    + exists (S n). intros [|m] Hle; [lia|]. cbn [parse_factor]. rewrite <- app_assoc. cbn [app].
      rewrite skip_spaces, skip_stop by done. cbn [deref tl Z.eqb].
      replace ((s ++ sp' ++ [41]) ++ r) with (s ++ sp' ++ 41 :: r) by by rewrite <- !app_assoc.
      cbn [Pos.eqb]. rewrite Hn by lia. reflexivity.
  - intros sp s v Hsp _ IH Hl r Hr. destruct (IH r Hr) as [n Hn]. exists (S n). intros [|m] Hle; [lia|].
    cbn [parse_factor]. rewrite <- app_assoc. cbn [app]. rewrite skip_spaces, skip_stop by done. cbn [deref tl].
    change (45 =? 40) with false. change (45 =? 45) with true. cbv iota. rewrite Hn by lia. cbn [mbind res_bind].
    by rewrite chk_bind, Hl.
  - intros s v _ IH r x Hr [n2 H2]. destruct (IH r Hr) as [n1 H1]. exists (S (max n1 n2)). intros [|m] Hle; [lia|].
    cbn [parse_term]. rewrite H1 by lia. cbn [mbind res_bind]. apply H2. lia.
  - intros s1 v1 sp s2 v2 _ IH1 Hsp _ IH2 Hl r x Hr Hx. rewrite <- !app_assoc. cbn [app]. apply IH1; [by apply no_digit_spaces|].
    apply (term_loop_turn v1 sp 42 s2 v2 (v1 * v2)); try done; [by apply IH2|]. unfold mulop. cbn [Z.eqb Pos.eqb]. by rewrite chk_bind, Hl.
  - intros s1 v1 sp s2 v2 _ IH1 Hsp _ IH2 Hz Hl r x Hr Hx. rewrite <- !app_assoc. cbn [app]. apply IH1; [by apply no_digit_spaces|].
    apply (term_loop_turn v1 sp 47 s2 v2 (Z.quot v1 v2)); try done; [by apply IH2|]. unfold mulop. cbn [Z.eqb Pos.eqb].
    rewrite (proj2 (Z.eqb_neq v2 0)) by done. by rewrite chk_bind, Hl.
  - intros s1 v1 sp s2 v2 _ IH1 Hsp _ IH2 Hz Hl r x Hr Hx. rewrite <- !app_assoc. cbn [app]. apply IH1; [by apply no_digit_spaces|].
    apply (term_loop_turn v1 sp 37 s2 v2 (Z.rem v1 v2)); try done; [by apply IH2|]. unfold mulop. cbn [Z.eqb Pos.eqb].
    rewrite (proj2 (Z.eqb_neq v2 0)) by done. by rewrite chk_bind, Hl.
  - intros s v _ IH r x Hr Hm [n2 H2]. destruct (IH r (v, skip r, true) Hr) as [n1 H1]; [by apply term_loop_stop|].
    exists (S (max n1 n2)). intros [|m] Hle; [lia|]. cbn [parse_expr]. rewrite H1 by lia. cbn [mbind res_bind].
    rewrite expr_loop_skip. apply H2. lia.
  - intros s1 v1 sp s2 v2 _ IH1 Hsp _ IH2 Hl r x Hr Hm Hx. rewrite <- !app_assoc. cbn [app].
    apply IH1; [by apply no_digit_spaces|by rewrite skip_spaces, skip_stop|].
    apply (expr_loop_turn v1 sp 43 s2 v2 (v1 + v2) r (skip r)); try done.
    + apply IH2; [done|]. by apply term_loop_stop.
    + unfold addop, chk. cbn [Z.eqb Pos.eqb]. by rewrite Hl.
    + destruct Hx as [n Hn]. exists n. intros m Hle. rewrite expr_loop_skip. by apply Hn.
  - intros s1 v1 sp s2 v2 _ IH1 Hsp _ IH2 Hl r x Hr Hm Hx. rewrite <- !app_assoc. cbn [app].
    apply IH1; [by apply no_digit_spaces|by rewrite skip_spaces, skip_stop|].
    apply (expr_loop_turn v1 sp 45 s2 v2 (v1 - v2) r (skip r)); try done.
    + apply IH2; [done|]. by apply term_loop_stop.
    + unfold addop, chk. cbn [Z.eqb Pos.eqb]. by rewrite Hl.
    + destruct Hx as [n Hn]. exists n. intros m Hle. rewrite expr_loop_skip. by apply Hn.
Qed.

Ltac norm_app := repeat (rewrite <- !app_assoc; cbn [app]).

(** ** Lemmas: only the language is accepted *)

Lemma digits_inv p v n v' n' p' : 0 <= v <= LONG_MAX -> digits p v n = Ok (v', n', p') ->
  exists ds, p = ds ++ p' /\ Forall (fun c => is_digit c = true) ds /\ n' = n + Z.of_nat (length ds) /\
    v' = foldl (fun v c => v * 10 + (c - 48)) v ds /\ v' <= LONG_MAX.
Proof.
  revert v n. induction p as [|c p IH]; intros v n Hv; cbn [digits].
  - intros [= <- <- <-]. exists []. cbn. split_and!; try done; lia || constructor.
  - destruct (is_digit c) eqn:Hc.
    + rewrite !chk_bind. destruct (in_long (v * 10)) eqn:E1; [|done].
      destruct (in_long (v * 10 + (c - 48))) eqn:E2; [|done]. apply in_long_range in E2.
      pose proof (digit_range c Hc). intros Hd. apply IH in Hd as (ds & -> & Hds & -> & -> & Hm); [|lia].
      exists (c :: ds). cbn [app foldl length]. split_and!; try done; [by constructor|lia].
    + intros [= <- <- <-]. exists []. cbn. split_and!; try done; lia || constructor.
Qed.

Lemma parse_num_inv p v p' : parse_num (skip p) true = Ok (v, p', true) ->
  exists s, p = s ++ p' /\ factor_str s v.
Proof.
  unfold parse_num. rewrite skip_skip. destruct (skip_split p) as (sp & Ep & Hsp).
  destruct (digits (skip p) 0 0) as [[[w n] q]| |] eqn:E; cbn; try discriminate. intros [= -> -> Hn].
  apply digits_inv in E as (ds & E & Hds & -> & -> & Hm); [|unfold LONG_MAX; lia].
  exists (sp ++ ds). split; [by rewrite <- app_assoc, <- E|]. apply F_num; [done| |done|done].
  intros ->. cbn in Hn. discriminate.
Qed.

(** The flag, once cleared, stays cleared. *)
Lemma flag_stays n :
  (forall p v p' b, parse_factor n p false = Ok (v, p', b) -> b = false) /\
  (forall p v p' b, parse_term n p false = Ok (v, p', b) -> b = false) /\
  (forall w p v p' b, term_loop n w p false = Ok (v, p', b) -> b = false) /\
  (forall p v p' b, parse_expr n p false = Ok (v, p', b) -> b = false) /\
  (forall w p v p' b, expr_loop n w p false = Ok (v, p', b) -> b = false).
Proof.
  induction n as [|n (IHf & IHt & IHtl & IHe & IHel)]; [split_and!; intros; discriminate|].
  split_and!; cbn [parse_factor parse_term term_loop parse_expr expr_loop].
  - intros p v p' b. destruct (deref (skip p) =? 40).
    { destruct (parse_expr n (tl (skip p)) false) as [[[w q] c]| |] eqn:E; cbn; try discriminate.
      apply IHe in E as ->. destruct (deref (skip q) =? 41); cbn; by intros [= _ _ <-]. }
    destruct (deref (skip p) =? 45).
    { destruct (parse_factor n (tl (skip p)) false) as [[[w q] c]| |] eqn:E; cbn; try discriminate.
      apply IHf in E as ->. rewrite chk_bind. destruct (in_long (- w)); [|discriminate]. by intros [= _ _ <-]. }
    unfold parse_num. destruct (digits _ 0 0) as [[[w m] q]| |]; cbn; try discriminate. intros [= _ _ <-]. by case_match.
  - intros p v p' b. destruct (parse_factor n p false) as [[[w q] c]| |] eqn:E; cbn; try discriminate.
    apply IHf in E as ->. apply IHtl.
  - intros w p v p' b. destruct (is_mulop (deref (skip p))); cbn [negb]; [|by intros [= _ _ <-]].
    destruct (parse_factor n (tl (skip p)) false) as [[[r q] c]| |] eqn:E; cbn; try discriminate.
    apply IHf in E as ->. cbn. by intros [= _ _ <-].
  - intros p v p' b. destruct (parse_term n p false) as [[[w q] c]| |] eqn:E; cbn; try discriminate.
    apply IHt in E as ->. apply IHel.
  - intros w p v p' b. destruct (is_addop (deref (skip p))); cbn [negb]; [|by intros [= _ _ <-]].
    destruct (parse_term n (tl (skip p)) false) as [[[r q] c]| |] eqn:E; cbn; try discriminate.
    apply IHt in E as ->. cbn. by intros [= _ _ <-].
Qed.

(** One operation, on the language side. *)
Lemma term_op op s1 v1 sp s2 v2 w : is_mulop op = true -> term_str s1 v1 -> spaces sp -> factor_str s2 v2 ->
  mulop op v1 v2 = Ok (w, true) -> term_str (s1 ++ sp ++ op :: s2) w.
Proof.
  unfold is_mulop, mulop. intros Hop H1 Hsp H2. rewrite !chk_bind.
  destruct (Z.eqb_spec op 42) as [->|?].
  { destruct (in_long (v1 * v2)) eqn:E; [|discriminate]. intros [= <-]. by constructor. }
  destruct (Z.eqb_spec v2 0); [discriminate|]. destruct (in_long (Z.quot v1 v2)) eqn:E; [|discriminate].
  cbn [orb] in Hop. destruct (Z.eqb_spec op 47) as [->|?]; intros [= <-]; [by constructor|].
  cbn [orb] in Hop. apply Z.eqb_eq in Hop as ->. by constructor.
Qed.

Lemma expr_op op s1 v1 sp s2 v2 w : is_addop op = true -> expr_str s1 v1 -> spaces sp -> term_str s2 v2 ->
  addop op v1 v2 = Ok w -> expr_str (s1 ++ sp ++ op :: s2) w.
Proof.
  unfold is_addop, addop, chk. intros Hop H1 Hsp H2.
  destruct (Z.eqb_spec op 43) as [->|?].
  { destruct (in_long (v1 + v2)) eqn:E; [|discriminate]. intros [= <-]. by constructor. }
  cbn [orb] in Hop. apply Z.eqb_eq in Hop as ->. destruct (in_long (v1 - v2)) eqn:E; [|discriminate].
  intros [= <-]. by constructor.
Qed.

Lemma at_op p op : deref (skip p) = op -> op <> 0 -> exists sp, p = sp ++ op :: tl (skip p) /\ spaces sp.
Proof.
  intros E Hn. destruct (skip_split p) as (sp & Ep & Hsp). exists sp. split; [|done].
  destruct (deref_cons _ _ E Hn) as [q Eq]. rewrite Ep at 1. by rewrite Eq.
Qed.

Lemma sound_all n :
  (forall p v p', parse_factor n p true = Ok (v, p', true) -> exists s, p = s ++ p' /\ factor_str s v) /\
  (forall p v p', parse_term n p true = Ok (v, p', true) ->
     exists s sp, p = s ++ sp ++ p' /\ term_str s v /\ spaces sp) /\
  (forall w p v p', term_loop n w p true = Ok (v, p', true) -> forall s0, term_str s0 w ->
     exists s sp, p = s ++ sp ++ p' /\ term_str (s0 ++ s) v /\ spaces sp) /\
  (forall p v p', parse_expr n p true = Ok (v, p', true) ->
     exists s sp, p = s ++ sp ++ p' /\ expr_str s v /\ spaces sp) /\
  (forall w p v p', expr_loop n w p true = Ok (v, p', true) -> forall s0 sp0, expr_str s0 w -> spaces sp0 ->
     exists s sp, sp0 ++ p = s ++ sp ++ p' /\ expr_str (s0 ++ s) v /\ spaces sp).
Proof.
  induction n as [|n (IHf & IHt & IHtl & IHe & IHel)]; [split_and!; intros; discriminate|].
  pose proof (flag_stays n) as (_ & _ & Ftl & _ & Fel).
  split_and!; cbn [parse_factor parse_term term_loop parse_expr expr_loop].
  - intros p v p'. destruct (Z.eqb_spec (deref (skip p)) 40) as [E0|_].
    { destruct (parse_expr n (tl (skip p)) true) as [[[w q] c]| |] eqn:E; cbn [mbind res_bind]; try discriminate.
      destruct (Z.eqb_spec (deref (skip q)) 41) as [E1|_]; cbn; [|discriminate]. intros [= -> <- ->].
      apply IHe in E as (s & sp1 & E & He & Hsp1). destruct (at_op _ _ E0) as (sp & Ep & Hsp); [done|].
      destruct (at_op _ _ E1) as (sp2 & Eq & Hsp2); [done|].
      exists (sp ++ 40 :: s ++ (sp1 ++ sp2) ++ [41]). split; [|apply F_par; [done|done|by apply Forall_app]].
      rewrite Ep at 1. rewrite E at 1. rewrite Eq at 1. by norm_app. }
    destruct (Z.eqb_spec (deref (skip p)) 45) as [E0|_].
    { destruct (parse_factor n (tl (skip p)) true) as [[[w q] c]| |] eqn:E; cbn [mbind res_bind]; try discriminate.
      rewrite chk_bind. destruct (in_long (- w)) eqn:El; [|discriminate]. intros [= <- -> ->].
      apply IHf in E as (s & E & Hs). destruct (at_op _ _ E0) as (sp & Ep & Hsp); [done|].
      exists (sp ++ 45 :: s). split; [|by apply F_neg]. rewrite Ep at 1. rewrite E. by norm_app. }
    apply parse_num_inv.
  - intros p v p'. destruct (parse_factor n p true) as [[[w q] c]| |] eqn:E; cbn [mbind res_bind]; try discriminate.
    destruct c; [|intros H; by apply Ftl in H]. intros H. apply IHf in E as (s & -> & Hs).
    destruct (IHtl _ _ _ _ H s (T_one _ _ Hs)) as (s1 & sp & -> & Ht & Hsp). exists (s ++ s1), sp.
    by rewrite <- app_assoc.
  - intros w p v p'. destruct (is_mulop (deref (skip p))) eqn:Hop; cbn [negb].
    2:{ intros [= <- <-] s0 H0. destruct (skip_split p) as (sp & Ep & Hsp). exists [], sp. by rewrite app_nil_r. }
    destruct (parse_factor n (tl (skip p)) true) as [[[r q] c]| |] eqn:E; cbn [mbind res_bind]; try discriminate.
    destruct c; [|discriminate]. cbn [negb]. destruct (mulop (deref (skip p)) w r) as [[w' b]| |] eqn:Em; cbn [mbind res_bind]; try discriminate.
    destruct b; [|intros H; by apply Ftl in H]. intros H s0 H0. apply IHf in E as (s & E & Hs).
    destruct (at_op p _ eq_refl (mulop_nonzero _ Hop)) as (sp & Ep & Hsp).
    pose proof (term_op _ _ _ _ _ _ _ Hop H0 Hsp Hs Em) as H1. destruct (IHtl _ _ _ _ H _ H1) as (s1 & sp' & -> & Ht & Hsp').
    exists (sp ++ deref (skip p) :: s ++ s1), sp'. split; [rewrite Ep at 1; rewrite E at 1; by norm_app|].
    split; [|done]. revert Ht. by norm_app.
  - intros p v p'. destruct (parse_term n p true) as [[[w q] c]| |] eqn:E; cbn [mbind res_bind]; try discriminate.
    destruct c; [|intros H; by apply Fel in H]. intros H. apply IHt in E as (s & sp0 & -> & Hs & Hsp0).
    destruct (IHel _ _ _ _ H s sp0 (E_one _ _ Hs) Hsp0) as (s1 & sp & E & He & Hsp).
    exists (s ++ s1), sp. split; [by rewrite E, app_assoc|done].
  - intros w p v p'. destruct (is_addop (deref (skip p))) eqn:Hop; cbn [negb].
    2:{ intros [= <- <-] s0 sp0 H0 Hsp0. destruct (skip_split p) as (sp & Ep & Hsp). exists [], (sp0 ++ sp).
        rewrite app_nil_r. split; [rewrite Ep at 1; by norm_app|]. split; [done|by apply Forall_app]. }
    destruct (parse_term n (tl (skip p)) true) as [[[r q] c]| |] eqn:E; cbn [mbind res_bind]; try discriminate.
    destruct c; [|discriminate]. cbn [negb]. destruct (addop (deref (skip p)) w r) as [w'| |] eqn:Em; cbn [mbind res_bind]; try discriminate.
    intros H s0 sp0 H0 Hsp0. apply IHt in E as (s & spt & E & Hs & Hspt).
    destruct (at_op p _ eq_refl (addop_nonzero _ Hop)) as (sp & Ep & Hsp).
    assert (spaces (sp0 ++ sp)) as Hsp2 by by apply Forall_app.
    pose proof (expr_op _ _ _ _ _ _ _ Hop H0 Hsp2 Hs Em) as H1.
    destruct (IHel _ _ _ _ H _ spt H1 Hspt) as (s1 & sp' & Eq & He & Hsp').
    exists (sp0 ++ sp ++ deref (skip p) :: s ++ s1), sp'. split.
    + rewrite Ep at 1. rewrite E at 1. rewrite Eq. by norm_app.
    + split; [|done]. revert He. by norm_app.
Qed.


Lemma expr_eval_ok s v : cstr s ->
  expr_eval s true = Ok (v, true) <-> exists s0 sp, s = s0 ++ sp /\ expr_str s0 v /\ spaces sp.
Proof.
  intros Hs. unfold expr_eval. split.
  - destruct (parse_expr _ s true) as [[[w p] ok]| |] eqn:E; cbn [mbind res_bind mret res_ret]; try discriminate.
    destruct (Z.eqb_spec (deref (skip p)) 0) as [E0|]; cbn [negb]; [|discriminate]. intros [= -> ->].
    destruct (sound_all (4 * length s + 3)) as (_ & _ & _ & H & _). apply H in E as (s0 & sp & -> & He & Hsp).
    exists s0, (sp ++ p). split; [done|]. split; [done|]. apply Forall_app. split; [done|].
    destruct (skip_split p) as (sp' & Ep & Hsp').
    assert (skip p = []) as Eq; [|rewrite Eq, app_nil_r in Ep; by rewrite Ep].
    apply Forall_app in Hs as [_ [_ Hs]%Forall_app]. rewrite Ep in Hs. apply Forall_app in Hs as [_ Hs].
    destruct (skip p) as [|c q]; [done|]. apply Forall_cons in Hs as [Hc _]. cbn in E0. lia.
  - intros (s0 & sp & -> & He & Hsp). destruct accepts_all as (_ & _ & Hacc).
    assert (skip sp = []) as Esp by (rewrite <- (app_nil_r sp); by rewrite skip_spaces).
    assert (settles (fun n => parse_expr n (s0 ++ sp) true) (v, [], true)) as Hset.
    { apply (Hacc s0 v He sp (v, [], true)); [|by rewrite Esp|].
      - destruct Hsp as [|c sp' Hc _]; [done|]. unfold no_digit. cbn. destruct (is_digit c) eqn:Hd; [|done].
        cbn in Hc. by rewrite (digit_not_space c Hd) in Hc.
      - rewrite <- Esp. apply expr_loop_stop. by rewrite Esp. }
    destruct (parse_ends (4 * length (s0 ++ sp) + 3)) as (_ & _ & _ & Hends & _).
    specialize (Hends (s0 ++ sp) true ltac:(lia)).
    rewrite (settles_at (fun n => parse_expr n (s0 ++ sp) true) _ (v, [], true)); [done| |intros E; by rewrite E in Hends|done].
    intros n. apply (parse_grows n).
Qed.

Lemma expr_eval_total s ok : expr_eval s ok <> Oof.
Proof.
  unfold expr_eval. destruct (parse_ends (4 * length s + 3)) as (_ & _ & _ & H & _). specialize (H s ok ltac:(lia)).
  by destruct (parse_expr _ s ok) as [[[v p] b]| |].
Qed.

(** Every value is in the range of [long]. *)
Lemma lang_long : (forall s v, factor_str s v -> in_long v = true) /\ (forall s v, term_str s v -> in_long v = true) /\
  (forall s v, expr_str s v -> in_long v = true).
Proof.
  apply expr_ind_all; try done.
  - intros sp ds _ _ Hd Hm. apply in_long_range. pose proof (dec_mono ds 0 Hd). unfold dec_value, LONG_MIN in *. lia.
  - intros s1 v1 sp s2 v2 _ H1%in_long_range _ _ H2%in_long_range Hz _. apply in_long_range.
    unfold LONG_MIN, LONG_MAX in *. pose proof (Z.rem_bound_abs v1 v2 Hz). lia.
Qed.

Lemma expr_eval_long s v : expr_eval s true = Ok (v, true) -> in_long v = true.
Proof.
  unfold expr_eval. destruct (parse_expr _ s true) as [[[w p] ok]| |] eqn:E; cbn [mbind res_bind mret res_ret]; try discriminate.
  intros [= -> Hok]. destruct ok; [|by destruct (negb _)].
  destruct (sound_all (4 * length s + 3)) as (_ & _ & _ & H & _). apply H in E as (s0 & sp & _ & He & _).
  by apply lang_long in He.
Qed.

(** ** Properties *)

(** C14. The evaluator decides the language of expressions: on a C string it
    succeeds with [v] exactly when the string, up to blanks at the end, is an
    expression of value [v] - numbers, brackets, unary minus, the left
    associative operators with their precedence, truncating division - no part
    of which leaves the range of [long]. *)
Theorem expr_eval_correct s v : cstr s ->
  expr_eval s true = Ok (v, true) <-> exists s0 sp, s = s0 ++ sp /\ expr_str s0 v /\ spaces sp.
Proof. apply expr_eval_ok. Qed.

(** C39. The evaluator ends on every string: the fuel never runs out, however
    deep the brackets and signs are nested; the only runs without an answer
    are signed overflows. *)
Theorem expr_eval_ends s ok : expr_eval s ok <> Oof.
Proof. apply expr_eval_total. Qed.

(** ** Witnesses *)

(** "2 + 3 * (4 - 6)" has the value -4. *)
Lemma expr_eval_correct_witness : exists s0 sp,
  [50; 32; 43; 32; 51; 32; 42; 32; 40; 52; 32; 45; 32; 54; 41; 32] = s0 ++ sp /\ expr_str s0 (-4) /\ spaces sp.
Proof.
  apply (expr_eval_correct [50; 32; 43; 32; 51; 32; 42; 32; 40; 52; 32; 45; 32; 54; 41; 32] (-4)).
  - unfold cstr. repeat constructor; lia.
  - vm_compute. reflexivity.
Defined.
