(* ===== verification/Calc.v ===== *)
(** * The calculator ([user/calc.c])

    A line editor, the evaluator and decimal output.  [sys_getc] is a list of
    the characters that arrive; what [sys_puts] and [sys_write] print is a
    string.  The copy of the evaluator in [calc.c] is never called: [user_main]
    calls [expr_eval] of [expr.c], which is [Expr.v]. *)
From S2P Require Import Prelude Str Dec Line Expr.

(** ** The program *)

(** The inner loop of [user_main]: the line and the echo when the newline has
    come, [None] when it has not. *)
Fixpoint read_line (keys : list Z) (line out : str) : res (option (str * str * list Z)) :=
  match keys with
  | [] => mret None
  | k :: keys' =>
      let c := s8 k in
      if c =? 10 then mret (Some (line, out, keys'))
      else if c =? 8 then
        if (0 <? length line)%nat then read_line keys' (removelast line) (out ++ [8])
        else read_line keys' line out
      else if (32 <=? c) && (c <? 127) && (length line <? 127)%nat then
        line ← put_line line c; read_line keys' line (out ++ [c])
      else read_line keys' line out
  end.

Definition put_dec (v : Z) : res str :=
  let u := if v <? 0 then u64 (- (v + 1)) + 1 else v in
  tmp ← dec_tmp u;
  mret ((if v <? 0 then lit "-" else []) ++ rev tmp ++ [10]).

(** What is printed for a line; [None] is [sys_exit]. *)
Definition calc_line (line : str) : res (option str) :=
  if same_condition line (lit "exit") then mret None
  else
    '(v, ok) ← expr_eval line true;
    if negb ok then mret (Some (lit "err" ++ [10]))
    else out ← put_dec v; mret (Some out).

(** One turn of the loop: the keys that are left and the output so far.  It
    ends with [sys_exit], or waits for a key for ever. *)
Definition calc_turn (st : list Z * str) : res (ctl (list Z * str) str) :=
  let '(keys, out) := st in
  let out := out ++ lit "calc> " in
  o ← read_line keys [] [];
  match o with
  | None => mret (Done out)
  | Some (line, echo, keys) =>
      let out := out ++ echo ++ [10] in
      a ← calc_line line;
      match a with
      | None => mret (Done out)
      | Some text => mret (Next (keys, out ++ text))
      end
  end.

Definition user_main (keys : list Z) : res str :=
  while_loop (S (length keys)) calc_turn (keys, lit "calc, exit to quit" ++ [10]).

(** ** Lemmas *)

Lemma read_line_ok keys line out : (length line <= 127)%nat -> Forall printable line -> shown out = line ->
  exists o, read_line keys line out = Ok o /\
    match o with
    | Some (line', echo, rest) => (length line' <= 127)%nat /\ Forall printable line' /\ shown echo = line' /\
        (length rest < length keys)%nat
    | None => True
    end.
Proof.
  revert line out. induction keys as [|k keys IH]; intros line out Hl Hp Hs; cbn [read_line]; [by exists None|].
  assert (forall line out, (length line <= 127)%nat -> Forall printable line -> shown out = line ->
    exists o, read_line keys line out = Ok o /\
    match o with
    | Some (line', echo, rest) => (length line' <= 127)%nat /\ Forall printable line' /\ shown echo = line' /\
        (length rest < length (k :: keys))%nat
    | None => True
    end) as IH'.
  { intros line' out' H1 H2 H3. destruct (IH line' out' H1 H2 H3) as (o & E & H). exists o. split; [done|].
    destruct o as [[[? ?] ?]|]; [|done]. cbn [length]. destruct H as (? & ? & ? & ?). split_and!; done || lia. }
  destruct (Z.eqb_spec (s8 k) 10).
  { eexists. split; [done|]. cbn [length]. split_and!; done || lia. }
  destruct (Z.eqb_spec (s8 k) 8).
  { destruct (0 <? length line)%nat eqn:E; [|by apply IH'].
    apply IH'; [rewrite removelast_length; lia|by apply removelast_Forall|]. rewrite shown_snoc, Hs. done. }
  destruct ((32 <=? s8 k) && (s8 k <? 127) && (length line <? 127)%nat) eqn:E; [|by apply IH'].
  zbool. apply Nat.ltb_lt in H0. unfold put_line. rewrite (proj2 (Nat.ltb_lt _ _)) by lia.
  cbn [mbind res_bind mret res_ret]. apply IH'.
  - rewrite length_app. cbn. lia.
  - apply Forall_app. split; [done|]. by apply Forall_singleton.
  - rewrite shown_snoc, Hs. destruct (Z.eqb_spec (s8 k) 8); [done|done].
Qed.

(** Typing a printable line and a newline. *)
Lemma read_line_typed s line out rest : Forall printable s -> (length line + length s <= 127)%nat ->
  read_line (s ++ 10 :: rest) line out = Ok (Some (line ++ s, out ++ s, rest)).
Proof.
  revert line out. induction s as [|c s IH]; intros line out Hp Hl; cbn [app read_line].
  - by rewrite !app_nil_r.
  - apply Forall_cons in Hp as [Hc Hp]. unfold printable in Hc. cbn [length] in Hl.
    assert (s8 c = c) as -> by (unfold s8; zdm).
    destruct (Z.eqb_spec c 10); [lia|]. destruct (Z.eqb_spec c 8); [lia|].
    rewrite (proj2 (Z.leb_le 32 c)), (proj2 (Z.ltb_lt c 127)), (proj2 (Nat.ltb_lt _ 127)) by lia. cbn [andb].
    unfold put_line. rewrite (proj2 (Nat.ltb_lt _ _)) by lia. cbn [mbind res_bind mret res_ret].
    rewrite IH by (done || (rewrite length_app; cbn; lia)). by rewrite <- !app_assoc.
Qed.

Lemma put_dec_ok v : in_long v = true -> exists ds, put_dec v = Ok ((if v <? 0 then [45] else []) ++ ds ++ [10]) /\
  numeral (Z.abs v) ds.
Proof.
  intros Hv. apply in_long_range in Hv. unfold LONG_MIN, LONG_MAX in Hv. unfold put_dec.
  assert ((if v <? 0 then u64 (- (v + 1)) + 1 else v) = Z.abs v) as ->.
  { destruct (Z.ltb_spec v 0); [rewrite u64_small by lia|]; lia. }
  destruct (dec_tmp_ok (Z.abs v)) as (ds & -> & Hn); [change (2 ^ 64) with 18446744073709551616; lia|].
  cbn [mbind res_bind mret res_ret]. exists ds. by rewrite rev_involutive.
Qed.

(** A numeral is an expression of its value. *)
Lemma numeral_eval v ds : numeral (Z.abs v) ds -> LONG_MIN < v <= LONG_MAX ->
  expr_str ((if v <? 0 then [45] else []) ++ ds) v.
Proof.
  intros (Hne & Hd & Hval & _) Hv. assert (factor_str ds (Z.abs v)) as Hf.
  { rewrite <- Hval. change ds with ([] ++ ds). apply F_num; [constructor|done| |unfold LONG_MAX, LONG_MIN in *; cbn [app]; lia].
    eapply Forall_impl; [exact Hd|]. intros c Hc. unfold digit in Hc. unfold is_digit.
    by rewrite (proj2 (Z.leb_le _ _)), (proj2 (Z.leb_le _ _)) by lia. }
  apply E_one, T_one. destruct (Z.ltb_spec v 0).
  - replace v with (- Z.abs v) at 1 by lia. apply (F_neg []); [constructor|done|].
    apply in_long_range. unfold LONG_MIN, LONG_MAX in *. lia.
  - by replace v with (Z.abs v) by lia.
Qed.

Lemma numeral_cstr v ds : numeral v ds -> cstr ds.
Proof. intros (_ & H & _). eapply Forall_impl; [exact H|]. unfold digit. cbn. lia. Qed.

(** ** Properties *)

(** What the calculator prints for a number reads back as that number:
    the digits fit the 20-byte buffer, also for the least [long], and
    evaluating the printed text gives the number again, unless it is the least
    [long], whose magnitude the evaluator cannot read. *)
Theorem put_dec_reads_back v : in_long v = true ->
  exists t, put_dec v = Ok (t ++ [10]) /\ (v <> LONG_MIN -> expr_eval t true = Ok (v, true)).
Proof.
  intros Hv. destruct (put_dec_ok v Hv) as (ds & E & Hn). exists ((if v <? 0 then [45] else []) ++ ds).
  split; [by rewrite <- app_assoc|]. intros Hne. apply in_long_range in Hv. apply expr_eval_ok.
  - apply Forall_app. split; [destruct (v <? 0); repeat constructor; lia|by apply (numeral_cstr (Z.abs v))].
  - exists ((if v <? 0 then [45] else []) ++ ds), []. rewrite app_nil_r. split; [done|]. split; [|constructor].
    apply numeral_eval; [done|]. unfold LONG_MIN in *. lia.
Qed.

(** Whatever keys arrive, the line editor stays inside its 128-byte
    buffer, the line has printable characters only, and the echo, backspaces
    included, shows exactly the line. *)
Theorem read_line_safe keys : exists o, read_line keys [] [] = Ok o /\
  match o with
  | Some (line, echo, rest) => (length line <= 127)%nat /\ Forall printable line /\ shown echo = line /\
      (length rest < length keys)%nat
  | None => True
  end.
Proof. apply read_line_ok; [cbn; lia|constructor|done]. Qed.

(** A line that is an expression is answered with its value: typing it
    prints the prompt, the line and the numeral of the value, and leaves the
    keys behind the newline for the next turn; any other line without an
    overflow is answered with "err". *)
Theorem calc_answers s rest out r : Forall printable s -> (length s <= 127)%nat -> s <> lit "exit" ->
  expr_eval s true = Ok r ->
  exists t, calc_turn (s ++ 10 :: rest, out) = Ok (Next (rest, out ++ lit "calc> " ++ s ++ 10 :: t ++ [10])) /\
    match r with
    | (v, true) => exists ds, t = (if v <? 0 then [45] else []) ++ ds /\ numeral (Z.abs v) ds
    | (_, false) => t = lit "err"
    end.
Proof.
  intros Hp Hl He Hev. unfold calc_turn. rewrite read_line_typed by done. cbn [mbind res_bind app].
  unfold calc_line. assert (cstr s) as Hs by (eapply Forall_impl; [exact Hp|]; unfold printable; cbn; lia).
  rewrite same_condition_eq by (done || (repeat constructor; lia)). rewrite bool_decide_eq_false_2 by done.
  rewrite Hev. cbn [mbind res_bind]. destruct r as [v ok]. destruct ok; cbn [negb].
  - destruct (put_dec_ok v (expr_eval_long s v Hev)) as (ds & -> & Hn).
    cbn [mbind res_bind mret res_ret]. exists ((if v <? 0 then [45] else []) ++ ds).
    split; [|by exists ds]. by rewrite <- !app_assoc.
  - cbn [mbind res_bind mret res_ret]. exists (lit "err"). by rewrite <- !app_assoc.
Qed.

(** A session ends or waits: the loop of [user_main] uses at least one key
    per turn. *)
Theorem calc_session_ends keys : user_main keys <> Oof.
Proof.
  apply (while_loop_ends (fun st => length st.1)); [| |cbn; lia].
  - intros [ks out]. unfold calc_turn. destruct (read_line_ok ks [] []) as (o & -> & _); [cbn; lia|constructor|done|].
    cbn [mbind res_bind]. destruct o as [[[line echo] rest]|]; [|done]. unfold calc_line.
    destruct (same_condition line (lit "exit")); [done|]. pose proof (expr_eval_total line true) as Ht.
    destruct (expr_eval line true) as [[v ok]| |] eqn:Hev; cbn [mbind res_bind]; [|done|done].
    destruct ok; cbn [negb]; [|done]. destruct (put_dec_ok v (expr_eval_long line v Hev)) as (ds & -> & _). done.
  - intros [ks out] [ks' out']. unfold calc_turn. destruct (read_line_ok ks [] []) as (o & -> & Ho); [cbn; lia|constructor|done|].
    cbn [mbind res_bind]. destruct o as [[[line echo] rest]|]; [|discriminate].
    destruct (calc_line line) as [[t|]| |]; cbn; try discriminate. intros [= <- <-]. apply Ho.
Qed.

(** ** Witnesses *)

Lemma put_dec_reads_back_witness : exists t, put_dec (-120) = Ok (t ++ [10]) /\ expr_eval t true = Ok (-120, true).
Proof.
  destruct (put_dec_reads_back (-120)) as (t & E & H); [reflexivity|]. exists t. split; [exact E|]. apply H. discriminate.
Defined.

(** "1+2" and a newline. *)
Lemma calc_answers_witness : exists ds,
  calc_turn ([49; 43; 50; 10], []) = Ok (Next ([], lit "calc> 1+2" ++ 10 :: ds ++ [10])) /\ numeral 3 ds.
Proof.
  destruct (calc_answers [49; 43; 50] [] [] (3, true)) as (t & E & ds & Ht & Hn).
  - unfold printable. repeat constructor; lia.
  - cbn. lia.
  - discriminate.
  - vm_compute. reflexivity.
  - exists ds. split; [|exact Hn]. rewrite Ht in E. exact E.
Defined.
