(* ===== verification/Keo.v ===== *)
(** * The text editor ([user/keo.c])

    Lines of text in fixed arrays, a cursor, three modes.  The part of the
    kernel a key can reach is an argument: [fwrite name data] is the result of
    [sys_fwrite].  [sys_exit] does not return.  The strings [fname], [cmd] and
    [msg] are lists without the terminator, the file array of [save] is the list
    of the characters stored so far; a store past an array is [Ub]. *)
From S2P Require Import Prelude Str Dec Line Kbd Fs.

(** ** Constants and state *)
Definition MAXL : Z := 256.
Definition MAXC : Z := 256.
Definition TXT_ROWS : Z := 23.
Definition ROW_STAT : Z := 23.
Definition ROW_CMD : Z := 24.

(** The buffer: [lines], [lens], [nlines]. *)
Record buffer := Buffer { lines : list (list Z); lens : list Z; nlines : Z }.

Record keo := Keo {
  kbuf : buffer; cx : Z; cy : Z; top : Z; dirty : bool; fname : str; mode : Z; cmd : str; msg : str;
  pend_d : bool; pend_g : bool
}.

Definition set_buf (b : buffer) (st : keo) : keo :=
  Keo b (cx st) (cy st) (top st) (dirty st) (fname st) (mode st) (cmd st) (msg st) (pend_d st) (pend_g st).
Definition set_cur (x y : Z) (st : keo) : keo :=
  Keo (kbuf st) x y (top st) (dirty st) (fname st) (mode st) (cmd st) (msg st) (pend_d st) (pend_g st).
Definition set_top (t : Z) (st : keo) : keo :=
  Keo (kbuf st) (cx st) (cy st) t (dirty st) (fname st) (mode st) (cmd st) (msg st) (pend_d st) (pend_g st).
Definition set_dirty (d : bool) (st : keo) : keo :=
  Keo (kbuf st) (cx st) (cy st) (top st) d (fname st) (mode st) (cmd st) (msg st) (pend_d st) (pend_g st).
Definition set_fname (f : str) (st : keo) : keo :=
  Keo (kbuf st) (cx st) (cy st) (top st) (dirty st) f (mode st) (cmd st) (msg st) (pend_d st) (pend_g st).
Definition set_mode (m : Z) (st : keo) : keo :=
  Keo (kbuf st) (cx st) (cy st) (top st) (dirty st) (fname st) m (cmd st) (msg st) (pend_d st) (pend_g st).
Definition set_cmd (c : str) (st : keo) : keo :=
  Keo (kbuf st) (cx st) (cy st) (top st) (dirty st) (fname st) (mode st) c (msg st) (pend_d st) (pend_g st).
Definition put_msg (m : str) (st : keo) : keo :=
  Keo (kbuf st) (cx st) (cy st) (top st) (dirty st) (fname st) (mode st) (cmd st) m (pend_d st) (pend_g st).
Definition set_pend (d g : bool) (st : keo) : keo :=
  Keo (kbuf st) (cx st) (cy st) (top st) (dirty st) (fname st) (mode st) (cmd st) (msg st) d g.

(** ** Rows *)

(** [a[i] = b[j]] over two different arrays, [n] times. *)
Definition copy_row (src dst : list Z) (si di n : Z) : res (list Z) :=
  for_each (Z.to_nat n) 0 (fun k dst => c ← rd src (si + k); wr dst (di + k) c) dst.

(** [for (i = x; i + 1 < n; i++) row[i] = row[i + 1];] *)
Definition shift_left (row : list Z) (x n : Z) : res (list Z) :=
  for_each (Z.to_nat (n - 1 - x)) x (fun i row => c ← rd row (i + 1); wr row i c) row.

(** [for (j = n; j > x; j--) row[j] = row[j - 1];] *)
Definition shift_right (row : list Z) (x n : Z) : res (list Z) :=
  for_each (Z.to_nat (n - x)) 0 (fun k row => c ← rd row (n - k - 1); wr row (n - k) c) row.

(** [for (j < lens[src]) lines[dst][j] = lines[src][j]; lens[dst] = lens[src];] *)
Definition move_row (dst src : Z) (b : buffer) : res buffer :=
  n ← rd (lens b) src; s ← rd (lines b) src; d ← rd (lines b) dst;
  d ← copy_row s d 0 0 n;
  ls ← wr (lines b) dst d; ns ← wr (lens b) dst n;
  mret (Buffer ls ns (nlines b)).

(** Replacing row [i] and its length. *)
Definition put_row (i : Z) (row : list Z) (n : Z) (b : buffer) : res buffer :=
  ls ← wr (lines b) i row; ns ← wr (lens b) i n; mret (Buffer ls ns (nlines b)).

(** [for (i = at; i + 1 < nlines; i++) move row i + 1 to i; nlines--;] *)
Definition del_line_at (at_ : Z) (b : buffer) : res buffer :=
  b ← for_each (Z.to_nat (nlines b - 1 - at_)) at_ (fun i b => move_row i (i + 1) b) b;
  mret (Buffer (lines b) (lens b) (nlines b - 1)).

(** [for (i = nlines; i > at; i--) move row i - 1 to i;] *)
Definition make_room (at_ : Z) (b : buffer) : res buffer :=
  for_each (Z.to_nat (nlines b - at_)) 0 (fun k b => move_row (nlines b - k) (nlines b - k - 1) b) b.

(** ** Screen *)

Definition clamp (st : keo) : res keo :=
  let n := nlines (kbuf st) in
  let y := if cy st <? 0 then 0 else cy st in
  let y := if n - 1 <? y then n - 1 else y in
  let x := if cx st <? 0 then 0 else cx st in
  l ← rd (lens (kbuf st)) y;
  let x := if l <? x then l else x in
  let t := if y <? top st then y else top st in
  let t := if t <? y - (TXT_ROWS - 1) then y - (TXT_ROWS - 1) else t in
  let t := if t <? 0 then 0 else t in
  mret (set_top t (set_cur x y st)).

(** [row[n++] = c] in [char row[80]]. *)
Definition put_cell (row : list Z) (c : Z) : res (list Z) :=
  if Z.of_nat (length row) <? 80 then mret (row ++ [c]) else Ub.

Definition put_cells (row cs : list Z) : res (list Z) :=
  for_each (length cs) 0 (fun i row => c ← rd cs i; put_cell row c) row.

(** [while (n < k) row[n++] = ' ';] *)
Definition pad_to (k : Z) (row : list Z) : res (list Z) :=
  for_each (Z.to_nat (k - Z.of_nat (length row))) 0 (fun _ row => put_cell row 32) row.

(** [for (i = 0; s[i] && n < k; i++) row[n++] = s[i];] *)
Definition put_upto (k : Z) (row s : list Z) : res (list Z) :=
  put_cells row (take (Z.to_nat (k - Z.of_nat (length row))) s).

Definition emit_dec (row : list Z) (v : Z) : res (list Z) :=
  row ← (if v <? 0 then put_cell row 45 else mret row);
  tmp ← dec_tmp (if v <? 0 then u64 (- (v + 1)) + 1 else v);
  put_cells row (rev tmp).

(** What [draw] sends to the terminal. *)
Inductive out := Color (fg bg : Z) | Goto (r c : Z) | Write (s : list Z).

Definition draw_row (st : keo) (r : Z) : res (list out) :=
  let li := top st + r in
  row ← (if li <? nlines (kbuf st) then
           n ← rd (lens (kbuf st)) li; l ← rd (lines (kbuf st)) li;
           for_each (Z.to_nat (Z.min n 80)) 0 (fun i row => c ← rd l i; put_cell row c) []
         else put_cell [] 126);
  row ← pad_to 80 row;
  mret [Color 0x0F 0x00; Goto r 0; Write row].

Definition mode_name (m : Z) : str :=
  if m =? 0 then lit "NORMAL" else if m =? 1 then lit "INSERT" else lit "CMD".

Definition status_row (st : keo) : res (list Z) :=
  row ← put_cells [] (lit "keo ");
  row ← put_upto 40 row (fname st);
  row ← (if dirty st && (Z.of_nat (length row) <? 80) then put_cell row 42 else mret row);
  row ← pad_to 52 row;
  row ← emit_dec row (cy st + 1);
  row ← put_cell row 44;
  row ← emit_dec row (cx st + 1);
  row ← put_cell row 32;
  row ← put_upto 80 row (mode_name (mode st));
  pad_to 80 row.

Definition cmd_row (st : keo) : res (list Z) :=
  row ← (if mode st =? 2 then row ← put_cell [] 58; put_upto 80 row (cmd st) else put_upto 80 [] (msg st));
  pad_to 80 row.

Definition draw (st : keo) : res (list out * keo) :=
  st ← clamp st;
  text ← for_each (Z.to_nat TXT_ROWS) 0 (fun r o => l ← draw_row st r; mret (o ++ l)) [];
  stat ← status_row st;
  cmdr ← cmd_row st;
  let cursor := if mode st =? 2 then Goto ROW_CMD (Z.min (1 + Z.of_nat (length (cmd st))) 79)
                else Goto (cy st - top st) (Z.min (cx st) 79) in
  mret (text ++ [Color 0x00 0x07; Goto ROW_STAT 0; Write stat; Color 0x0F 0x00; Goto ROW_CMD 0; Write cmdr; cursor], st).

(** ** Files *)

(** [buf[pos++] = c] in [static char buf[FILE_MAX]], of which the first [pos]
    characters are kept here: a store behind the array is [Ub]. *)
Definition put_file (buf : list Z) (c : Z) : res (list Z) :=
  if Z.of_nat (length buf) <? FILE_MAX then mret (buf ++ [c]) else Ub.

(** The bytes [save] collects; [None] when they do not fit. *)
Definition save_bytes (b : buffer) : res (option (list Z)) :=
  r ← for_loop (Z.to_nat (nlines b)) 0 (fun i (buf : list Z) =>
        n ← rd (lens b) i; l ← rd (lines b) i;
        if FILE_MAX <? Z.of_nat (length buf) + n + 1 then mret (Done tt)
        else
          buf ← for_each (Z.to_nat n) 0 (fun j buf => c ← rd l j; put_file buf c) buf;
          buf ← put_file buf 10;
          mret (Next buf)) [];
  mret (match r with Next buf => Some buf | Done _ => None end).

Section kernel.
Context (fwrite : str -> list Z -> Z).

(** [return (int)r;]: the answer of the kernel is a [long], the test of [r == 0]
    is on the [long] and the callers see the [int]. *)
Definition save (st : keo) : res (Z * keo) :=
  if deref (fname st) =? 0 then mret (-99, st)
  else
    o ← save_bytes (kbuf st);
    match o with
    | None => mret (FS_FULL, st)
    | Some buf => let r := fwrite (fname st) buf in
                  mret (s32 r, if r =? 0 then set_dirty false st else st)
    end.

(** The body of the loop of [load]: the character [c] arrives while line [li]
    is read. *)
Definition load_char (c : Z) (s : Z * buffer) : res (Z * buffer) :=
  let '(li, b) := s in
  if c =? 10 then
    if li + 1 <? MAXL then ns ← wr (lens b) (li + 1) 0; mret (li + 1, Buffer (lines b) ns (nlines b))
    else mret (li, b)
  else
    k ← rd (lens b) li;
    if k <? MAXC - 1 then
      row ← rd (lines b) li; row ← wr row k c;
      b ← put_row li row (k + 1) b; mret (li, b)
    else mret (li, b).

(** [static char buf[FILE_MAX]] of [load] after [sys_fread] has stored [bs]. *)
Definition file_array (bs : list Z) : list Z :=
  take (Z.to_nat FILE_MAX) (bs ++ replicate (Z.to_nat FILE_MAX) 0).

(** [load] after [sys_fread] has answered [n] and stored the bytes [bs] into
    the array.  Reading [buf[i]] behind the array is [Ub]. *)
Definition load (n : Z) (bs : list Z) (st : keo) : res keo :=
  let buf := file_array bs in
  lens0 ← wr (lens (kbuf st)) 0 0;
  let st := Keo (Buffer (lines (kbuf st)) lens0 1) 0 0 0 false (fname st) 0 (cmd st) [] (pend_d st) (pend_g st) in
  if n <=? 0 then mret st
  else
    '(li, b) ← for_each (Z.to_nat n) 0 (fun i s => c ← rd buf i; load_char c s) (0, kbuf st);
    c ← rd buf (n - 1);
    let nl := li + 1 in
    let nl := if (0 <? n) && (c =? 10) && (1 <? nl) then nl - 1 else nl in
    mret (set_buf (Buffer (lines b) (lens b) nl) st).

(** ** Commands *)

(** [set_msg] keeps at most 79 characters. *)
Definition set_msg (s : str) (st : keo) : keo := put_msg (take 79 s) st.

(** How a key ends: the editor goes on or has called [sys_exit]. *)
Inductive after := Stay (st : keo) | Exited (st : keo).

(** The code of [save], or the exit. *)
Definition do_save (st : keo) : res (Z * after) :=
  '(r, st) ← save st;
  mret (r, if r =? 0 then Exited st
           else if r =? FS_FULL then Stay (set_msg (lit "too big") st)
           else if r =? FS_RO then Stay (set_msg (lit "read-only") st)
           else Stay (set_msg (lit "cannot save") st)).

Definition exec_cmd (st : keo) : res after :=
  let c := cmd st in
  if same_condition c (lit "w") then '(_, a) ← do_save st; mret a
  else if (deref c =? 119) && (deref (tl c) =? 32) then
    '(_, a) ← do_save (set_fname (take 127 (tl (tl c))) st); mret a
  else if same_condition c (lit "q") then
    mret (if dirty st then Stay (set_msg (lit "unsaved, use q!") st) else Exited st)
  else if same_condition c (lit "q!") then mret (Exited st)
  else if same_condition c (lit "wq") then
    '(r, a) ← do_save st; mret (if r =? 0 then Exited (match a with Stay st => st | Exited st => st end) else a)
  else mret (Stay (set_msg (lit "bad cmd") st)).

(** ** Edits *)

Definition del_char (st : keo) : res keo :=
  let b := kbuf st in
  n ← rd (lens b) (cy st);
  if cx st <? n then
    row ← rd (lines b) (cy st);
    row ← shift_left row (cx st) n;
    b ← put_row (cy st) row (n - 1) b;
    mret (set_dirty true (set_buf b st))
  else mret st.

Definition del_line (st : keo) : res keo :=
  let b := kbuf st in
  if nlines b <=? 1 then
    ns ← wr (lens b) 0 0;
    mret (set_dirty true (set_cur 0 (cy st) (set_buf (Buffer (lines b) ns (nlines b)) st)))
  else
    b ← del_line_at (cy st) b; mret (set_dirty true (set_buf b st)).

Definition open_line (below : bool) (st : keo) : res keo :=
  let b := kbuf st in
  if MAXL <=? nlines b then mret (set_msg (lit "full") st)
  else
    let at_ := if below then cy st + 1 else cy st in
    b ← make_room at_ b;
    ns ← wr (lens b) at_ 0;
    mret (set_mode 1 (set_dirty true (set_cur 0 at_ (set_buf (Buffer (lines b) ns (nlines b + 1)) st)))).

(** The two assignments at the end of [normal_key]. *)
Definition unpend (c : Z) (st : keo) : keo :=
  set_pend (if c =? 100 then pend_d st else false) (if c =? 103 then pend_g st else false) st.

Definition normal_key (c : Z) (st : keo) : res keo :=
  let b := kbuf st in
  let x := cx st in let y := cy st in
  if (c =? 104) || (c =? KEY_LEFT) then
    mret (unpend c (if 0 <? x then set_cur (x - 1) y st else st))
  else if (c =? 108) || (c =? KEY_RIGHT) then
    n ← rd (lens b) y; mret (unpend c (if x <? n then set_cur (x + 1) y st else st))
  else if (c =? 106) || (c =? KEY_DOWN) then
    mret (unpend c (if y <? nlines b - 1 then set_cur x (y + 1) st else st))
  else if (c =? 107) || (c =? KEY_UP) then
    mret (unpend c (if 0 <? y then set_cur x (y - 1) st else st))
  else if c =? 105 then mret (unpend c (set_mode 1 st))
  else if c =? 97 then
    n ← rd (lens b) y; mret (unpend c (set_mode 1 (if x <? n then set_cur (x + 1) y st else st)))
  else if c =? 65 then
    n ← rd (lens b) y; mret (unpend c (set_mode 1 (set_cur n y st)))
  else if c =? 111 then st ← open_line true st; mret (unpend c st)
  else if c =? 79 then st ← open_line false st; mret (unpend c st)
  else if (c =? 120) || (c =? KEY_DEL) then st ← del_char st; mret (unpend c st)
  else if c =? 100 then
    if pend_d st then st ← del_line st; mret (unpend c (set_pend false (pend_g st) st))
    else mret (set_pend true (pend_g st) st)
  else if c =? 103 then
    if pend_g st then mret (unpend c (set_pend (pend_d st) false (set_cur x 0 st)))
    else mret (set_pend (pend_d st) true st)
  else if c =? 71 then mret (unpend c (set_cur x (nlines b - 1) st))
  else if c =? 48 then mret (unpend c (set_cur 0 y st))
  else if c =? 36 then
    n ← rd (lens b) y; mret (unpend c (set_cur (if negb (n =? 0) then n - 1 else 0) y st))
  else if c =? 58 then mret (unpend c (set_cmd [] (set_mode 2 st)))
  else mret (unpend c st).

(** The newline of [insert_key]: the row is split at the cursor. *)
Definition split_line (st : keo) : res keo :=
  let b := kbuf st in
  let x := cx st in let y := cy st in
  if MAXL <=? nlines b then mret (set_msg (lit "full") st)
  else
    b ← make_room (y + 1) b;
    n ← rd (lens b) y; row ← rd (lines b) y; below ← rd (lines b) (y + 1);
    below ← copy_row row below x 0 (n - x);
    b ← put_row (y + 1) below (n - x) b;
    ns ← wr (lens b) y x;
    mret (set_dirty true (set_cur 0 (y + 1) (set_buf (Buffer (lines b) ns (nlines b + 1)) st))).

(** The backspace of [insert_key]. *)
Definition back_space (st : keo) : res keo :=
  let b := kbuf st in
  let x := cx st in let y := cy st in
  if 0 <? x then del_char (set_cur (x - 1) y st)
  else if 0 <? y then
    pl ← rd (lens b) (y - 1); n ← rd (lens b) y;
    if pl + n <? MAXC then
      row ← rd (lines b) y; above ← rd (lines b) (y - 1);
      above ← copy_row row above 0 pl n;
      b ← put_row (y - 1) above (pl + n) b;
      b ← del_line_at y b;
      mret (set_dirty true (set_cur pl (y - 1) (set_buf b st)))
    else mret st
  else mret st.

Definition insert_char (c : Z) (st : keo) : res keo :=
  let b := kbuf st in
  n ← rd (lens b) (cy st);
  if (32 <=? c) && (c <? 127) && (n <? MAXC - 1) then
    row ← rd (lines b) (cy st);
    row ← shift_right row (cx st) n;
    row ← wr row (cx st) c;
    b ← put_row (cy st) row (n + 1) b;
    mret (set_dirty true (set_cur (cx st + 1) (cy st) (set_buf b st)))
  else mret st.

Definition insert_key (c : Z) (st : keo) : res keo :=
  if c =? 27 then
    let st := set_mode 0 st in
    n ← rd (lens (kbuf st)) (cy st);
    mret (if n <? cx st then set_cur n (cy st) st else st)
  else if (c =? KEY_UP) || (c =? KEY_DOWN) || (c =? KEY_LEFT) || (c =? KEY_RIGHT) then normal_key c st
  else if c =? 10 then split_line st
  else if c =? 8 then back_space st
  else insert_char c st.

(** [cmd[cmdlen++] = c; cmd[cmdlen] = 0] in [char cmd[128]]. *)
Definition put_cmd (s : str) (c : Z) : res str :=
  if Z.of_nat (length s) + 1 <? 128 then mret (s ++ [c]) else Ub.

Definition cmd_key (c : Z) (st : keo) : res after :=
  if c =? 27 then mret (Stay (set_mode 0 st))
  else if c =? 10 then exec_cmd (set_mode 0 st)
  else if c =? 8 then
    mret (Stay (if (0 <? length (cmd st))%nat then set_cmd (removelast (cmd st)) st else st))
  else if (32 <=? c) && (c <? 127) && (Z.of_nat (length (cmd st)) <? 127) then
    s ← put_cmd (cmd st) c; mret (Stay (set_cmd s st))
  else mret (Stay st).

(** One turn of the loop of [user_main]: a key and the screen after it. *)
Definition keo_key (c : Z) (st : keo) : res (list out * after) :=
  let st := put_msg [] st in
  a ← (if mode st =? 0 then st ← normal_key c st; mret (Stay st)
       else if mode st =? 1 then st ← insert_key c st; mret (Stay st)
       else cmd_key c st);
  match a with
  | Exited st => mret ([], Exited st)
  | Stay st => '(o, st) ← draw st; mret (o, Stay st)
  end.

Fixpoint keo_keys (cs : list Z) (st : keo) : res after :=
  match cs with
  | [] => mret (Stay st)
  | c :: cs' =>
      '(_, a) ← keo_key c st;
      match a with Exited st => mret (Exited st) | Stay st => keo_keys cs' st end
  end.

(** [user_main] up to its loop: the argument, the answer of [sys_fread]. *)
Definition keo_start (arg : str) (n : Z) (bs : list Z) (st : keo) : res (list out * keo) :=
  st ← load n bs (set_fname (take 127 arg) st); draw st.
End kernel.

(** ** Specification *)

(** The buffer's arrays have their sizes, a row is at most 255 long. *)
Record buf_ok (b : buffer) : Prop := {
  bo_lines : length (lines b) = 256%nat;
  bo_rows : Forall (fun r => length r = 256%nat) (lines b);
  bo_lens : length (lens b) = 256%nat;
  bo_range : Forall (fun n => 0 <= n <= 255) (lens b);
  bo_n : 1 <= nlines b <= 256
}.

(** The 256 rows, cut to their lengths, and the text. *)
Definition rows (b : buffer) : list (list Z) := zip_with (fun l n => take (Z.to_nat n) l) (lines b) (lens b).
Definition text (b : buffer) : list (list Z) := take (Z.to_nat (nlines b)) (rows b).

(** The file of a text: every line with its newline. *)
Definition unlines (t : list (list Z)) : list Z := flat_map (fun l => l ++ [10]) t.

(** The file in front of the cursor and behind it. *)
Definition row_of (st : keo) : list Z := default [] (text (kbuf st) !! Z.to_nat (cy st)).
Definition gap (st : keo) : list Z * list Z :=
  (unlines (take (Z.to_nat (cy st)) (text (kbuf st))) ++ take (Z.to_nat (cx st)) (row_of st),
   drop (Z.to_nat (cx st)) (row_of st) ++ [10] ++ unlines (drop (S (Z.to_nat (cy st))) (text (kbuf st)))).

(** What a character typed in insert mode does to the file: it arrives at the
    gap, or the character before the gap goes; [room] says whether the fixed
    arrays can hold the result. *)
Definition gap_key (c : Z) (room : bool) (g : list Z * list Z) : list Z * list Z :=
  let '(bef, aft) := g in
  if negb room then g
  else if c =? 8 then (removelast bef, aft)
  else if (c =? 10) || ((32 <=? c) && (c <? 127)) then (bef ++ [c], aft)
  else g.

Definition room (c : Z) (st : keo) : bool :=
  let row := Z.of_nat (length (row_of st)) in
  if c =? 10 then nlines (kbuf st) <? MAXL
  else if c =? 8 then
    (0 <? cx st) || ((0 <? cy st) &&
      (Z.of_nat (length (default [] (text (kbuf st) !! Z.to_nat (cy st - 1)))) + row <? MAXC))
  else row <? MAXC - 1.

(** The state at any time, and the state when a key is awaited. *)
Record keo_wf (st : keo) : Prop := {
  kw_buf : buf_ok (kbuf st);
  kw_nonl : Forall (Forall (fun c => c <> 10)) (text (kbuf st));
  kw_fname : (length (fname st) <= 127)%nat;
  kw_cmd : (length (cmd st) <= 127)%nat;
  kw_cmdc : cstr (cmd st);
  kw_msg : (length (msg st) <= 79)%nat;
  kw_mode : 0 <= mode st <= 2
}.

Record keo_ok (st : keo) : Prop := {
  ko_wf : keo_wf st;
  ko_cy : 0 <= cy st < nlines (kbuf st);
  ko_cx : 0 <= cx st <= Z.of_nat (length (row_of st));
  ko_top : 0 <= top st <= cy st;
  ko_win : cy st < top st + TXT_ROWS
}.

(** The static variables at the start. *)
Definition keo0 : keo :=
  Keo (Buffer (replicate 256 (replicate 256 0)) (replicate 256 0) 1) 0 0 0 false [] 0 [] [] false false.

(** An operation that leaves the buffer clean found it clean and changed no
    character: [dirty] records every edit. *)
Definition tracks (st st' : keo) : Prop := dirty st' = false -> dirty st = false /\ kbuf st' = kbuf st.

(** The text fits a file, and the kernel has answered the [sys_fwrite] of its
    bytes under its name with a [long] whose [int] is 0. *)
Definition file_stored (fwrite : str -> list Z -> Z) (st : keo) : Prop :=
  let bs := unlines (text (kbuf st)) in
  Z.of_nat (length bs) <= FILE_MAX /\ s32 (fwrite (fname st) bs) = 0 /\ (fwrite (fname st) bs = 0 -> dirty st = false).

(** Where a session that started on the text [base] may end: by [q!], on a
    buffer that still holds [base], or after the text was stored. *)
Definition may_end (fwrite : str -> list Z -> Z) (base : list (list Z)) (st : keo) : Prop :=
  cmd st = lit "q!" \/ (dirty st = false /\ text (kbuf st) = base) \/ file_stored fwrite st.

(** What the screen shows of the text. *)
Definition pad (n : nat) (l : list Z) : list Z := l ++ replicate (n - length l) 32.
Definition screen_row (st : keo) (r : Z) : list Z :=
  pad 80 (match text (kbuf st) !! Z.to_nat (top st + r) with Some l => take 80 l | None => [126] end).

(** A request the terminal can carry out. *)
Definition on_screen (o : out) : Prop :=
  match o with
  | Color fg bg => True
  | Goto r c => 0 <= r < 25 /\ 0 <= c < 80
  | Write s => length s = 80%nat
  end.

Definition text_rows (st : keo) : list out :=
  flat_map (fun r => [Color 0x0F 0x00; Goto r 0; Write (screen_row st r)]) (seqZ 0 TXT_ROWS).

(** Dropping element [x], as the shifting loop leaves it at [i]; opening a gap
    at [x], as the loop leaves it at [j]. *)
Definition shl {A} (x i : nat) (l : list A) : list A := take x l ++ take (i - x) (drop (S x) l) ++ drop i l.
Definition shr {A} (j n : nat) (l : list A) : list A := take (S j) l ++ take (n - j) (drop j l) ++ drop (S n) l.

(** ** Lemmas: rows *)

Lemma lookup_shl {A} x i (l : list A) k : (x <= i < length l)%nat ->
  shl x i l !! k = if decide (k < x)%nat then l !! k else if decide (k < i)%nat then l !! S k else l !! k.
Proof.
  intros H. unfold shl. destruct (decide (k < x)%nat).
  { rewrite lookup_app_l by (rewrite length_take; lia). by apply lookup_take_lt. }
  rewrite lookup_app_r by (rewrite length_take; lia). rewrite length_take, Nat.min_l by lia.
  destruct (decide (k < i)%nat).
  - rewrite lookup_app_l by (rewrite length_take, length_drop; lia).
    rewrite lookup_take_lt by lia. rewrite lookup_drop. f_equal. lia.
  - rewrite lookup_app_r by (rewrite length_take, length_drop; lia).
    rewrite lookup_drop, length_take, length_drop. f_equal. lia.
Qed.

Lemma shl_length {A} x i (l : list A) : (x <= i < length l)%nat -> length (shl x i l) = length l.
Proof. intros H. unfold shl. rewrite !length_app, !length_take, !length_drop. lia. Qed.

Lemma shl_step {A} x i (l : list A) a : (x <= i)%nat -> (S i < length l)%nat -> l !! S i = Some a ->
  <[i := a]> (shl x i l) = shl x (S i) l.
Proof.
  intros Hx Hi Ha. apply list_eq. intros k. rewrite lookup_shl by lia. destruct (decide (k = i)) as [->|Hk].
  - rewrite list_lookup_insert_eq by (rewrite shl_length; lia). rewrite decide_False, decide_True by lia. done.
  - rewrite list_lookup_insert_ne by done. rewrite lookup_shl by lia.
    destruct (decide (k < x)%nat); [done|]. do 2 case_decide; done || lia.
Qed.

Lemma lookup_shr {A} j n (l : list A) k : (j <= n < length l)%nat ->
  shr j n l !! k = if decide (k <= j)%nat then l !! k else if decide (k <= n)%nat then l !! pred k else l !! k.
Proof.
  intros H. unfold shr. destruct (decide (k <= j)%nat).
  { rewrite lookup_app_l by (rewrite length_take; lia). apply lookup_take_lt. lia. }
  rewrite lookup_app_r by (rewrite length_take; lia). rewrite length_take, Nat.min_l by lia.
  destruct (decide (k <= n)%nat).
  - rewrite lookup_app_l by (rewrite length_take, length_drop; lia).
    rewrite lookup_take_lt by lia. rewrite lookup_drop. f_equal. lia.
  - rewrite lookup_app_r by (rewrite length_take, length_drop; lia).
    rewrite lookup_drop, length_take, length_drop. f_equal. lia.
Qed.

Lemma shr_length {A} j n (l : list A) : (j <= n < length l)%nat -> length (shr j n l) = length l.
Proof. intros H. unfold shr. rewrite !length_app, !length_take, !length_drop. lia. Qed.

Lemma shr_step {A} j n (l : list A) a : (S j <= n < length l)%nat -> l !! j = Some a ->
  <[S j := a]> (shr (S j) n l) = shr j n l.
Proof.
  intros Hj Ha. apply list_eq. intros k. rewrite lookup_shr by lia. destruct (decide (k = S j)) as [->|Hk].
  - rewrite list_lookup_insert_eq by (rewrite shr_length; lia). rewrite decide_False, decide_True by lia. done.
  - rewrite list_lookup_insert_ne by done. rewrite lookup_shr by lia.
    do 2 (repeat case_decide; try done; try lia).
Qed.

Lemma shl_0 {A} x (l : list A) : (x < length l)%nat -> shl x x l = l.
Proof. intros H. unfold shl. rewrite Nat.sub_diag, take_0. cbn [app]. apply take_drop. Qed.

Lemma shr_0 {A} n (l : list A) : (n < length l)%nat -> shr n n l = l.
Proof. intros H. unfold shr. rewrite Nat.sub_diag, take_0. cbn [app]. apply take_drop. Qed.

Lemma shift_left_ok row x n : 0 <= x < n -> n <= Z.of_nat (length row) ->
  shift_left row x n = Ok (shl (Z.to_nat x) (Z.to_nat (n - 1)) row).
Proof.
  intros Hx Hn. unfold shift_left.
  destruct (for_each_inv (fun i r => r = shl (Z.to_nat x) (Z.to_nat i) row) (Z.to_nat (n - 1 - x)) x
    (fun i row => c ← rd row (i + 1); wr row i c) row) as (r & -> & ->).
  - by rewrite shl_0 by lia.
  - intros i r Hi ->. destruct (rd_in row (i + 1)) as (a & _ & Ha); [lia|].
    assert (rd (shl (Z.to_nat x) (Z.to_nat i) row) (i + 1) = Ok a) as ->.
    { apply rd_Ok. split; [lia|]. rewrite lookup_shl by lia. rewrite !decide_False by lia. exact Ha. }
    cbn [mbind res_bind]. rewrite wr_in by (rewrite shl_length; lia). eexists. split; [reflexivity|].
    replace (Z.to_nat (i + 1)) with (S (Z.to_nat i)) in * by lia. apply shl_step; done || lia.
  - do 2 f_equal. lia.
Qed.

Lemma shift_right_ok row x n : 0 <= x <= n -> n < Z.of_nat (length row) ->
  shift_right row x n = Ok (shr (Z.to_nat x) (Z.to_nat n) row).
Proof.
  intros Hx Hn. unfold shift_right.
  destruct (for_each_inv (fun k r => r = shr (Z.to_nat (n - k)) (Z.to_nat n) row) (Z.to_nat (n - x)) 0
    (fun k row => c ← rd row (n - k - 1); wr row (n - k) c) row) as (r & -> & ->).
  - rewrite Z.sub_0_r. by rewrite shr_0 by lia.
  - intros k r Hk ->. destruct (rd_in row (n - k - 1)) as (a & _ & Ha); [lia|].
    assert (rd (shr (Z.to_nat (n - k)) (Z.to_nat n) row) (n - k - 1) = Ok a) as ->.
    { apply rd_Ok. split; [lia|]. rewrite lookup_shr by lia. rewrite decide_True by lia. exact Ha. }
    cbn [mbind res_bind]. rewrite wr_in by (rewrite shr_length; lia). eexists. split; [reflexivity|].
    replace (Z.to_nat (n - k)) with (S (Z.to_nat (n - k - 1))) by lia.
    replace (Z.to_nat (n - (k + 1))) with (Z.to_nat (n - k - 1)) by lia. apply shr_step; done || lia.
  - do 2 f_equal. lia.
Qed.

Lemma copy_row_ok src dst si di n : 0 <= si -> 0 <= di -> 0 <= n -> si + n <= Z.of_nat (length src) ->
  di + n <= Z.of_nat (length dst) ->
  copy_row src dst si di n =
    Ok (take (Z.to_nat di) dst ++ take (Z.to_nat n) (drop (Z.to_nat si) src) ++ drop (Z.to_nat (di + n)) dst).
Proof.
  intros Hsi Hdi Hn0 Hs Hd. unfold copy_row.
  destruct (for_each_inv (fun k d => d = take (Z.to_nat di) dst ++ take (Z.to_nat k) (drop (Z.to_nat si) src)
    ++ drop (Z.to_nat (di + k)) dst) (Z.to_nat n) 0 (fun k dst => c ← rd src (si + k); wr dst (di + k) c) dst)
    as (d & -> & ->).
  - rewrite Z.add_0_r. change (Z.to_nat 0) with 0%nat. rewrite take_0. symmetry. apply take_drop.
  - intros k d Hk ->. destruct (rd_in src (si + k)) as (a & -> & Ha); [lia|]. cbn [mbind res_bind].
    rewrite wr_in by (rewrite !length_app, !length_take, !length_drop; lia). eexists. split; [reflexivity|].
    rewrite insert_app_r_alt by (rewrite length_take; lia). f_equal. rewrite length_take, Nat.min_l by lia.
    rewrite insert_app_r_alt by (rewrite length_take, length_drop; lia).
    rewrite length_take, length_drop, Nat.min_l by lia.
    replace (Z.to_nat (k + 1)) with (S (Z.to_nat k)) by lia.
    rewrite (take_S_r _ _ a) by (rewrite lookup_drop; rewrite <- Ha; f_equal; lia). rewrite <- app_assoc. f_equal.
    replace (Z.to_nat (di + k) - Z.to_nat di - Z.to_nat k)%nat with 0%nat by lia.
    destruct (lookup_lt_is_Some_2 dst (Z.to_nat (di + k))) as [y Hy]; [lia|].
    rewrite (drop_S _ _ _ Hy). by replace (Z.to_nat (di + (k + 1))) with (S (Z.to_nat (di + k))) by lia.
  - by replace (0 + Z.of_nat (Z.to_nat n)) with n by lia.
Qed.

(** ** Lemmas: the buffer *)

Lemma rows_lookup b i l n : lines b !! i = Some l -> lens b !! i = Some n ->
  rows b !! i = Some (take (Z.to_nat n) l).
Proof. intros Hl Hn. unfold rows. by rewrite lookup_zip_with, Hl, Hn. Qed.

Lemma rows_length b : buf_ok b -> length (rows b) = 256%nat.
Proof. intros H. unfold rows. rewrite length_zip_with, (bo_lines b H), (bo_lens b H). lia. Qed.

Lemma text_length b : buf_ok b -> length (text b) = Z.to_nat (nlines b).
Proof. intros H. unfold text. rewrite length_take, rows_length by done. pose proof (bo_n b H). lia. Qed.

Lemma row_get b i : buf_ok b -> 0 <= i < 256 ->
  exists l n, rd (lens b) i = Ok n /\ rd (lines b) i = Ok l /\ length l = 256%nat /\ 0 <= n <= 255 /\
    rows b !! Z.to_nat i = Some (take (Z.to_nat n) l).
Proof.
  intros H Hi. destruct (rd_in (lines b) i) as (l & E1 & L1); [rewrite (bo_lines b H); lia|].
  destruct (rd_in (lens b) i) as (n & E2 & L2); [rewrite (bo_lens b H); lia|].
  exists l, n. split_and!; try done.
  - by apply (Forall_lookup_1 _ _ _ _ (bo_rows b H) L1).
  - apply (Forall_lookup_1 _ _ _ _ (bo_range b H) L2).
  - apply (Forall_lookup_1 _ _ _ _ (bo_range b H) L2).
  - by apply rows_lookup.
Qed.

Lemma text_get b i : buf_ok b -> 0 <= i < nlines b ->
  exists l n, rd (lens b) i = Ok n /\ rd (lines b) i = Ok l /\ length l = 256%nat /\ 0 <= n <= 255 /\
    text b !! Z.to_nat i = Some (take (Z.to_nat n) l).
Proof.
  intros H Hi. pose proof (bo_n b H). destruct (row_get b i H) as (l & n & ? & ? & ? & ? & ?); [lia|].
  exists l, n. split_and!; try done || lia. unfold text. by rewrite lookup_take_lt by lia.
Qed.

(** A row is written. *)
Lemma put_row_ok i row n b : buf_ok b -> 0 <= i < 256 -> length row = 256%nat -> 0 <= n <= 255 ->
  exists b', put_row i row n b = Ok b' /\ buf_ok b' /\ nlines b' = nlines b /\
    rows b' = <[Z.to_nat i := take (Z.to_nat n) row]> (rows b).
Proof.
  intros H Hi Hr Hn. unfold put_row. pose proof (bo_lines b H) as B1. pose proof (bo_lens b H) as B2.
  rewrite !wr_in by lia. cbn [mbind res_bind]. eexists. split; [reflexivity|].
  destruct H as [H1 H2 H3 H4 H5]. split; [split; cbn; rewrite ?length_insert; try done; by apply Forall_insert|].
  split; [done|]. unfold rows. cbn. by rewrite <- insert_zip_with.
Qed.

Lemma set_len_ok i n b : buf_ok b -> 0 <= i < 256 -> forall r, rows b !! Z.to_nat i = Some r ->
  0 <= n <= Z.of_nat (length r) ->
  exists ns, wr (lens b) i n = Ok ns /\ buf_ok (Buffer (lines b) ns (nlines b)) /\
    rows (Buffer (lines b) ns (nlines b)) = <[Z.to_nat i := take (Z.to_nat n) r]> (rows b).
Proof.
  intros H Hi r Hr Hn. destruct (row_get b i H Hi) as (l & m & E1 & E2 & Hl & Hm & Hr').
  rewrite Hr in Hr'. injection Hr' as ->. rewrite length_take in Hn.
  rewrite wr_in by (rewrite (bo_lens b H); lia). eexists. split; [reflexivity|].
  destruct H as [H1 H2 H3 H4 H5]. split.
  { split; cbn; rewrite ?length_insert; try done. apply Forall_insert; [done|lia]. }
  unfold rows. cbn. rewrite take_take, Nat.min_l by lia. apply rd_Ok in E2 as [_ E2].
  rewrite <- (list_insert_id _ _ _ E2) at 1. by rewrite <- insert_zip_with.
Qed.

Lemma nlines_ok b m : buf_ok b -> 1 <= m <= 256 -> buf_ok (Buffer (lines b) (lens b) m).
Proof. intros [H1 H2 H3 H4 H5] Hm. by split. Qed.

Lemma move_row_ok dst src b r : buf_ok b -> 0 <= dst < 256 -> 0 <= src < 256 ->
  rows b !! Z.to_nat src = Some r ->
  exists b', move_row dst src b = Ok b' /\ buf_ok b' /\ nlines b' = nlines b /\
    rows b' = <[Z.to_nat dst := r]> (rows b).
Proof.
  intros H Hd Hs Hr. unfold move_row.
  destruct (row_get b src H Hs) as (l & n & -> & -> & Hl & Hn & Hr'). rewrite Hr in Hr'. injection Hr' as ->.
  destruct (row_get b dst H Hd) as (l' & n' & _ & -> & Hl' & _ & _). cbn [mbind res_bind].
  rewrite copy_row_ok by lia. cbn [mbind res_bind].
  destruct (put_row_ok dst (take (Z.to_nat 0) l' ++ take (Z.to_nat n) (drop (Z.to_nat 0) l)
    ++ drop (Z.to_nat (0 + n)) l') n b) as (b' & E & Hb & Hn' & Hrows); try done.
  { rewrite !length_app, !length_take, !length_drop. lia. }
  exists b'. unfold put_row in E. split; [exact E|]. split_and!; try done. rewrite Hrows. f_equal.
  change (Z.to_nat 0) with 0%nat. rewrite take_0, drop_0. cbn [app].
  rewrite take_app_le by (rewrite length_take; lia). by rewrite take_take, Nat.min_id.
Qed.

Lemma del_line_at_ok y b : buf_ok b -> 0 <= y < nlines b -> 2 <= nlines b ->
  exists b', del_line_at y b = Ok b' /\ buf_ok b' /\ nlines b' = nlines b - 1 /\
    text b' = delete (Z.to_nat y) (text b).
Proof.
  intros H Hy H2. pose proof (bo_n b H) as HN. pose proof (rows_length b H) as Hlen. unfold del_line_at.
  destruct (for_each_inv (fun i c => buf_ok c /\ nlines c = nlines b /\
    rows c = shl (Z.to_nat y) (Z.to_nat i) (rows b)) (Z.to_nat (nlines b - 1 - y)) y
    (fun i b => move_row i (i + 1) b) b) as (c & -> & Hc & Hn & Hr).
  - split_and!; try done. by rewrite shl_0 by lia.
  - intros i c Hi (Hc & Hn & Hr).
    destruct (lookup_lt_is_Some_2 (rows b) (S (Z.to_nat i))) as [r Hri]; [lia|].
    destruct (move_row_ok i (i + 1) c r) as (c' & E & Hc' & Hn' & Hr'); [done|lia|lia| |].
    { rewrite Hr, lookup_shl by lia. rewrite !decide_False by lia. rewrite <- Hri. f_equal. lia. }
    exists c'. split; [done|]. split_and!; [done|lia|]. rewrite Hr', Hr.
    replace (Z.to_nat (i + 1)) with (S (Z.to_nat i)) by lia. apply shl_step; done || lia.
  - cbn [mbind res_bind]. eexists. split; [reflexivity|]. split; [apply nlines_ok; [done|lia]|].
    split; [cbn; lia|]. unfold text. cbn [nlines]. change (rows (Buffer (lines c) (lens c) (nlines c - 1))) with (rows c).
    rewrite Hr, Hn. replace (y + Z.of_nat (Z.to_nat (nlines b - 1 - y))) with (nlines b - 1) by lia.
    rewrite delete_take_drop. unfold shl.
    rewrite take_app_ge by (rewrite length_take; lia). rewrite length_take, take_take, Nat.min_l by lia. f_equal; [f_equal; lia|].
    rewrite take_app_le by (rewrite length_take, length_drop; lia).
    apply list_eq. intros k. rewrite lookup_drop, !lookup_take, lookup_drop. repeat case_decide; done || lia.
Qed.

Lemma make_room_ok y b : buf_ok b -> 0 <= y <= nlines b -> nlines b < 256 ->
  exists b' r, make_room y b = Ok b' /\ buf_ok b' /\ nlines b' = nlines b /\ rows b' !! Z.to_nat y = Some r /\
    forall s, take (Z.to_nat (nlines b + 1)) (<[Z.to_nat y := s]> (rows b')) =
      take (Z.to_nat y) (text b) ++ s :: drop (Z.to_nat y) (text b).
Proof.
  intros H Hy H2. pose proof (bo_n b H) as HN. pose proof (rows_length b H) as Hlen. unfold make_room.
  destruct (for_each_inv (fun k c => buf_ok c /\ nlines c = nlines b /\
    rows c = shr (Z.to_nat (nlines b - k)) (Z.to_nat (nlines b)) (rows b)) (Z.to_nat (nlines b - y)) 0
    (fun k b => move_row (nlines b - k) (nlines b - k - 1) b) b) as (c & -> & Hc & Hn & Hr).
  - split_and!; try done. rewrite Z.sub_0_r. by rewrite shr_0 by lia.
  - intros k c Hk (Hc & Hn & Hr).
    destruct (lookup_lt_is_Some_2 (rows b) (Z.to_nat (nlines b - k - 1))) as [r Hri]; [lia|].
    destruct (move_row_ok (nlines b - k) (nlines b - k - 1) c r) as (c' & E & Hc' & Hn' & Hr'); [done|lia|lia| |].
    { rewrite Hr, lookup_shr by lia. rewrite decide_True by lia. done. }
    exists c'. split; [by rewrite Hn|]. split_and!; [done|lia|]. rewrite Hr', Hr.
    replace (Z.to_nat (nlines b - k)) with (S (Z.to_nat (nlines b - k - 1))) by lia.
    replace (Z.to_nat (nlines b - (k + 1))) with (Z.to_nat (nlines b - k - 1)) by lia. apply shr_step; done || lia.
  - replace (nlines b - (0 + Z.of_nat (Z.to_nat (nlines b - y)))) with y in Hr by lia.
    destruct (lookup_lt_is_Some_2 (rows c) (Z.to_nat y)) as [r Hcr]; [rewrite rows_length by done; lia|].
    exists c, r. split_and!; try done. intros s. apply list_eq. intros k. rewrite Hr.
    assert (length (text b) = Z.to_nat (nlines b)) as HT by by apply text_length.
    assert (forall i, text b !! i = if decide (i < Z.to_nat (nlines b))%nat then rows b !! i else None) as HTL
      by (intros i; unfold text; by rewrite lookup_take).
    destruct (decide (k < Z.to_nat y)%nat).
    { rewrite lookup_take_lt by lia. rewrite list_lookup_insert_ne by lia. rewrite lookup_shr by lia.
      rewrite lookup_app_l by (rewrite length_take; lia). rewrite lookup_take_lt by lia.
      rewrite HTL, !decide_True by lia. done. }
    rewrite lookup_app_r by (rewrite length_take; lia). rewrite length_take, Nat.min_l by lia.
    destruct (decide (k = Z.to_nat y)) as [->|].
    { rewrite lookup_take_lt by lia. rewrite list_lookup_insert_eq by (rewrite shr_length; lia).
      by rewrite Nat.sub_diag. }
    replace (k - Z.to_nat y)%nat with (S (k - Z.to_nat y - 1)) by lia. cbn [lookup list_lookup].
    change (?a !! ?b) with (a !! b). rewrite lookup_drop, HTL, lookup_take. repeat case_decide; try (done || lia).
    rewrite list_lookup_insert_ne by lia. rewrite lookup_shr by lia. rewrite decide_False, decide_True by lia.
    f_equal. lia.
Qed.

(** ** Lemmas: edits *)

Create HintDb c_keo.

Ltac kwf := match goal with H : keo_wf _ |- _ => destruct H end; split; cbn; rewrite ?length_take; try done; try lia.

Lemma wf_set_cur x y st : keo_wf st -> keo_wf (set_cur x y st). Proof. intros H. kwf. Qed.
Lemma wf_set_top t st : keo_wf st -> keo_wf (set_top t st). Proof. intros H. kwf. Qed.
Lemma wf_set_dirty d st : keo_wf st -> keo_wf (set_dirty d st). Proof. intros H. kwf. Qed.
Lemma wf_set_fname f st : (length f <= 127)%nat -> keo_wf st -> keo_wf (set_fname f st). Proof. intros Hf H. kwf. Qed.
Lemma wf_set_mode m st : 0 <= m <= 2 -> keo_wf st -> keo_wf (set_mode m st). Proof. intros Hm H. kwf. Qed.
Lemma wf_set_cmd c st : (length c <= 127)%nat -> cstr c -> keo_wf st -> keo_wf (set_cmd c st). Proof. intros Hc Hs H. kwf. Qed.
Lemma wf_put_msg m st : (length m <= 79)%nat -> keo_wf st -> keo_wf (put_msg m st). Proof. intros Hm H. kwf. Qed.
Lemma wf_set_msg s st : keo_wf st -> keo_wf (set_msg s st). Proof. intros H. kwf. Qed.
Lemma wf_set_pend d g st : keo_wf st -> keo_wf (set_pend d g st). Proof. intros H. kwf. Qed.
Lemma wf_set_buf b st : buf_ok b -> Forall (Forall (fun c => c <> 10)) (text b) -> keo_wf st -> keo_wf (set_buf b st).
Proof. intros Hb Ht H. kwf. Qed.

#[export] Hint Resolve wf_set_cur wf_set_top wf_set_dirty wf_set_mode wf_put_msg wf_set_msg wf_set_pend : c_keo.

(** The line under the cursor. *)
Lemma cur_row st y : keo_wf st -> 0 <= y < nlines (kbuf st) ->
  exists l n, rd (lens (kbuf st)) y = Ok n /\ rd (lines (kbuf st)) y = Ok l /\ length l = 256%nat /\ 0 <= n <= 255 /\
    text (kbuf st) !! Z.to_nat y = Some (take (Z.to_nat n) l) /\ length (take (Z.to_nat n) l) = Z.to_nat n /\
    Forall (fun c => c <> 10) (take (Z.to_nat n) l).
Proof.
  intros H Hy. destruct (text_get (kbuf st) y (kw_buf _ H) Hy) as (l & n & ? & ? & Hl & ? & Ht).
  exists l, n. split_and!; try done || lia; [rewrite length_take; lia|].
  by apply (Forall_lookup_1 _ _ _ _ (kw_nonl _ H) Ht).
Qed.

Lemma text_insert b b' i r : nlines b' = nlines b -> rows b' = <[i := r]> (rows b) ->
  (i < Z.to_nat (nlines b))%nat -> text b' = <[i := r]> (text b).
Proof. intros Hn Hr Hi. unfold text. by rewrite Hn, Hr, take_insert_lt. Qed.

(** Row [y] is replaced. *)
Lemma edit_row st y row n : keo_wf st -> 0 <= y < nlines (kbuf st) -> length row = 256%nat -> 0 <= n <= 255 ->
  Forall (fun c => c <> 10) (take (Z.to_nat n) row) ->
  exists b, put_row y row n (kbuf st) = Ok b /\ keo_wf (set_buf b st) /\ nlines b = nlines (kbuf st) /\
    text b = <[Z.to_nat y := take (Z.to_nat n) row]> (text (kbuf st)).
Proof.
  intros H Hy Hr Hn Hnl. pose proof (bo_n _ (kw_buf _ H)).
  destruct (put_row_ok y row n (kbuf st) (kw_buf _ H)) as (b & E & Hb & Hnb & Hrows); try done || lia.
  assert (text b = <[Z.to_nat y := take (Z.to_nat n) row]> (text (kbuf st))) as Ht
    by (apply text_insert; done || lia).
  exists b. split_and!; try done. apply wf_set_buf; [done| |done]. rewrite Ht. apply Forall_insert; [apply H|done].
Qed.

Lemma del_char_ok st l : keo_wf st -> 0 <= cy st < nlines (kbuf st) -> text (kbuf st) !! Z.to_nat (cy st) = Some l ->
  0 <= cx st <= Z.of_nat (length l) ->
  exists st', del_char st = Ok st' /\ keo_wf st' /\ cx st' = cx st /\ cy st' = cy st /\ top st' = top st /\
    nlines (kbuf st') = nlines (kbuf st) /\
    text (kbuf st') = <[Z.to_nat (cy st) := delete (Z.to_nat (cx st)) l]> (text (kbuf st)).
Proof.
  intros H Hy Hl Hx. unfold del_char.
  destruct (cur_row st (cy st) H Hy) as (row & n & -> & E & Hrow & Hn & Ht & Hlen & Hnl).
  rewrite Hl in Ht. injection Ht as ->. cbn [mbind res_bind]. destruct (Z.ltb_spec (cx st) n).
  - rewrite E. cbn [mbind res_bind]. rewrite shift_left_ok by lia. cbn [mbind res_bind].
    assert (take (Z.to_nat (n - 1)) (shl (Z.to_nat (cx st)) (Z.to_nat (n - 1)) row) =
      delete (Z.to_nat (cx st)) (take (Z.to_nat n) row)) as Hd.
    { apply list_eq. intros k. rewrite lookup_take, lookup_shl by lia.
      destruct (decide (k < Z.to_nat (cx st))%nat).
      - rewrite list_lookup_delete_lt, lookup_take by done. by rewrite !decide_True by lia.
      - rewrite list_lookup_delete_ge, lookup_take by lia. repeat case_decide; done || lia. }
    destruct (edit_row st (cy st) (shl (Z.to_nat (cx st)) (Z.to_nat (n - 1)) row) (n - 1)) as (b & -> & Hw & Hn' & Ht');
      [done|done|rewrite shl_length; lia|lia| |].
    { rewrite Hd, delete_take_drop. apply Forall_app. split; [by apply Forall_take|by apply Forall_drop]. }
    cbn [mbind res_bind]. eexists. split; [reflexivity|]. split_and!; try done; [by apply wf_set_dirty|].
    cbn. by rewrite Ht', Hd.
  - eexists. split; [reflexivity|]. split_and!; try done. symmetry. rewrite delete_take_drop.
    rewrite (drop_ge _ (S _)) by lia. rewrite app_nil_r, (take_ge (take _ _)) by lia. by apply list_insert_id.
Qed.

Lemma insert_char_ok c st l : keo_wf st -> 0 <= cy st < nlines (kbuf st) ->
  text (kbuf st) !! Z.to_nat (cy st) = Some l -> 0 <= cx st <= Z.of_nat (length l) -> 32 <= c < 127 ->
  (length l < 255)%nat ->
  exists st', insert_char c st = Ok st' /\ keo_wf st' /\ cx st' = cx st + 1 /\ cy st' = cy st /\
    nlines (kbuf st') = nlines (kbuf st) /\
    text (kbuf st') = <[Z.to_nat (cy st) := take (Z.to_nat (cx st)) l ++ c :: drop (Z.to_nat (cx st)) l]> (text (kbuf st)).
Proof.
  intros H Hy Hl Hx Hc Hlt. unfold insert_char, MAXC.
  destruct (cur_row st (cy st) H Hy) as (row & n & -> & E & Hrow & Hn & Ht & Hlen & Hnl).
  rewrite Hl in Ht. injection Ht as ->. cbn [mbind res_bind].
  rewrite (proj2 (Z.leb_le _ _)), !(proj2 (Z.ltb_lt _ _)) by lia. cbn [andb].
  rewrite E. cbn [mbind res_bind]. rewrite shift_right_ok by lia. cbn [mbind res_bind].
  rewrite wr_in by (rewrite shr_length; lia). cbn [mbind res_bind].
  set (row' := <[Z.to_nat (cx st) := c]> (shr (Z.to_nat (cx st)) (Z.to_nat n) row)).
  assert (take (Z.to_nat (n + 1)) row' = take (Z.to_nat (cx st)) (take (Z.to_nat n) row) ++
    c :: drop (Z.to_nat (cx st)) (take (Z.to_nat n) row)) as Hd.
  { apply list_eq. intros k. rewrite lookup_take. unfold row'.
    destruct (decide (k < Z.to_nat (cx st))%nat).
    - rewrite lookup_app_l by (rewrite length_take; lia). rewrite list_lookup_insert_ne, lookup_shr by lia.
      rewrite !lookup_take, !decide_True by lia. done.
    - rewrite lookup_app_r by (rewrite length_take; lia). rewrite length_take, Nat.min_l by lia.
      destruct (decide (k = Z.to_nat (cx st))) as [->|].
      + rewrite decide_True, list_lookup_insert_eq, Nat.sub_diag by (rewrite ?shr_length; lia). done.
      + rewrite list_lookup_insert_ne, lookup_shr by lia.
        replace (k - Z.to_nat (cx st))%nat with (S (k - Z.to_nat (cx st) - 1)) by lia. cbn [lookup list_lookup].
        change (?a !! ?b) with (a !! b). rewrite lookup_drop, lookup_take.
        repeat case_decide; try (done || lia). f_equal. lia. }
  destruct (edit_row st (cy st) row' (n + 1)) as (b & -> & Hw & Hn' & Ht'); [done|done| |lia| |].
  { unfold row'. rewrite length_insert, shr_length; lia. }
  { rewrite Hd. apply Forall_app. split; [by apply Forall_take|]. constructor; [lia|by apply Forall_drop]. }
  cbn [mbind res_bind]. eexists. split; [reflexivity|]. split_and!; try done.
  - by apply wf_set_dirty, wf_set_cur.
  - cbn. by rewrite Ht', Hd.
Qed.

Lemma make_room_row y b b' r : buf_ok b -> 0 <= y <= nlines b -> nlines b < 256 -> rows b' !! Z.to_nat y = Some r ->
  (forall s, take (Z.to_nat (nlines b + 1)) (<[Z.to_nat y := s]> (rows b')) =
      take (Z.to_nat y) (text b) ++ s :: drop (Z.to_nat y) (text b)) ->
  forall i, (i < Z.to_nat y)%nat -> rows b' !! i = text b !! i.
Proof.
  intros H Hy H2 Hr Hs i Hi. specialize (Hs r). rewrite list_insert_id in Hs by done.
  apply (f_equal (.!! i)) in Hs. rewrite lookup_take_lt in Hs by lia. rewrite Hs.
  rewrite lookup_app_l by (rewrite length_take, text_length by done; lia). by rewrite lookup_take_lt.
Qed.

Lemma split_line_ok st l : keo_wf st -> 0 <= cy st < nlines (kbuf st) -> nlines (kbuf st) < 256 ->
  text (kbuf st) !! Z.to_nat (cy st) = Some l -> 0 <= cx st <= Z.of_nat (length l) ->
  exists st', split_line st = Ok st' /\ keo_wf st' /\ cx st' = 0 /\ cy st' = cy st + 1 /\
    nlines (kbuf st') = nlines (kbuf st) + 1 /\
    text (kbuf st') = take (Z.to_nat (cy st)) (text (kbuf st)) ++ take (Z.to_nat (cx st)) l ::
      drop (Z.to_nat (cx st)) l :: drop (S (Z.to_nat (cy st))) (text (kbuf st)).
Proof.
  intros H Hy HM Hl Hx. unfold split_line, MAXL. rewrite (proj2 (Z.leb_gt _ _)) by lia.
  pose proof (bo_n _ (kw_buf _ H)) as HN.
  destruct (make_room_ok (cy st + 1) (kbuf st) (kw_buf _ H)) as (b1 & r1 & -> & Hb1 & Hn1 & Hr1 & Hins); [lia|lia|].
  assert (rows b1 !! Z.to_nat (cy st) = text (kbuf st) !! Z.to_nat (cy st)) as Hrow.
  { eapply make_room_row; [apply H| |exact HM|exact Hr1|exact Hins|]; lia. }
  rewrite Hl in Hrow. cbn [mbind res_bind].
  destruct (row_get b1 (cy st) Hb1) as (row & n & -> & -> & Hlr & Hn & Hrn); [lia|].
  destruct (row_get b1 (cy st + 1) Hb1) as (below & n' & _ & -> & Hlb & _ & _); [lia|].
  rewrite Hrow in Hrn. injection Hrn as ->. rewrite length_take in Hx. cbn [mbind res_bind].
  rewrite copy_row_ok by lia. cbn [mbind res_bind]. change (Z.to_nat 0) with 0%nat. rewrite take_0. cbn [app].
  rewrite Z.add_0_l. set (below' := _ ++ _).
  assert (take (Z.to_nat (n - cx st)) below' = drop (Z.to_nat (cx st)) (take (Z.to_nat n) row)) as Hd.
  { unfold below'. rewrite take_app_le by (rewrite length_take, length_drop; lia). rewrite take_take, Nat.min_id.
    rewrite skipn_firstn_comm. f_equal. lia. }
  destruct (put_row_ok (cy st + 1) below' (n - cx st) b1) as (b2 & -> & Hb2 & Hn2 & Hr2); [done|lia| |lia|].
  { unfold below'. rewrite length_app, length_take, !length_drop. lia. }
  cbn [mbind res_bind].
  destruct (set_len_ok (cy st) (cx st) b2 Hb2 ltac:(lia) (take (Z.to_nat n) row)) as (ns & -> & Hb3 & Hr3).
  { rewrite Hr2, list_lookup_insert_ne by lia. done. }
  { rewrite length_take. lia. }
  cbn [mbind res_bind]. eexists. split; [reflexivity|].
  replace (nlines b2) with (nlines (kbuf st)) by lia. set (b3 := Buffer (lines b2) ns (nlines (kbuf st) + 1)).
  assert (text b3 = take (Z.to_nat (cy st)) (text (kbuf st)) ++ take (Z.to_nat (cx st)) (take (Z.to_nat n) row) ::
      drop (Z.to_nat (cx st)) (take (Z.to_nat n) row) :: drop (S (Z.to_nat (cy st))) (text (kbuf st))) as Ht.
  { unfold text at 1. change (rows b3) with (rows (Buffer (lines b2) ns (nlines b2))). cbn [nlines b3].
    rewrite Hr3, Hr2, Hd, take_insert_lt, Hins by lia.
    replace (Z.to_nat (cy st + 1)) with (S (Z.to_nat (cy st))) by lia.
    rewrite (take_S_r _ _ _ Hl), <- app_assoc. cbn [app].
    rewrite insert_app_r_alt by (rewrite length_take; lia). f_equal.
    rewrite length_take, text_length by apply H. by replace (_ - _)%nat with 0%nat by lia. }
  assert (buf_ok b3) as Hb3' by (apply (nlines_ok _ (nlines (kbuf st) + 1)) in Hb3; [done|lia]).
  split_and!; try done. apply wf_set_dirty, wf_set_cur, wf_set_buf; [done| |done].
  pose proof (kw_nonl _ H) as Hnl. pose proof (Forall_lookup_1 _ _ _ _ Hnl Hl).
  rewrite Ht. apply Forall_app. split; [by apply Forall_take|].
  constructor; [by apply Forall_take|]. constructor; [by apply Forall_drop|by apply Forall_drop].
Qed.

Lemma open_line_ok (below : bool) st : keo_wf st -> 0 <= cy st < nlines (kbuf st) -> nlines (kbuf st) < 256 ->
  let i := if below then cy st + 1 else cy st in
  exists st', open_line below st = Ok st' /\ keo_wf st' /\ cx st' = 0 /\ cy st' = i /\ mode st' = 1 /\
    text (kbuf st') = take (Z.to_nat i) (text (kbuf st)) ++ [] :: drop (Z.to_nat i) (text (kbuf st)).
Proof.
  intros H Hy HM i. unfold open_line, MAXL. rewrite (proj2 (Z.leb_gt _ _)) by lia. fold i.
  pose proof (bo_n _ (kw_buf _ H)) as HN.
  destruct (make_room_ok i (kbuf st) (kw_buf _ H)) as (b1 & r1 & -> & Hb1 & Hn1 & Hr1 & Hins);
    [destruct below; lia|lia|]. cbn [mbind res_bind].
  destruct (set_len_ok i 0 b1 Hb1 ltac:(destruct below; lia) r1 Hr1 ltac:(lia)) as (ns & -> & Hb2 & Hr2).
  cbn [mbind res_bind]. eexists. split; [reflexivity|].
  replace (nlines b1) with (nlines (kbuf st)) by lia. set (b3 := Buffer (lines b1) ns (nlines (kbuf st) + 1)).
  assert (text b3 = take (Z.to_nat i) (text (kbuf st)) ++ [] :: drop (Z.to_nat i) (text (kbuf st))) as Ht.
  { unfold text at 1. change (rows b3) with (rows (Buffer (lines b1) ns (nlines b1))). cbn [nlines b3].
    rewrite Hr2. change (Z.to_nat 0) with 0%nat. by rewrite take_0, Hins. }
  assert (buf_ok b3) as Hb3 by (apply (nlines_ok _ (nlines (kbuf st) + 1)) in Hb2; [done|lia]).
  split_and!; try done. apply wf_set_mode; [lia|]. apply wf_set_dirty, wf_set_cur, wf_set_buf; [done| |done].
  rewrite Ht. pose proof (kw_nonl _ H). apply Forall_app. split; [by apply Forall_take|].
  constructor; [done|by apply Forall_drop].
Qed.

Lemma del_line_ok st : keo_wf st -> 0 <= cy st < nlines (kbuf st) ->
  exists st', del_line st = Ok st' /\ keo_wf st' /\
    text (kbuf st') = if 1 <? nlines (kbuf st) then delete (Z.to_nat (cy st)) (text (kbuf st)) else [[]].
Proof.
  intros H Hy. unfold del_line. pose proof (bo_n _ (kw_buf _ H)) as HN. destruct (Z.ltb_spec 1 (nlines (kbuf st))).
  - rewrite (proj2 (Z.leb_gt _ _)) by lia.
    destruct (del_line_at_ok (cy st) (kbuf st) (kw_buf _ H)) as (b & -> & Hb & Hn & Ht); [lia|lia|].
    cbn [mbind res_bind]. eexists. split; [reflexivity|]. split; [|done].
    apply wf_set_dirty, wf_set_buf; [done| |done]. rewrite Ht, delete_take_drop. pose proof (kw_nonl _ H).
    apply Forall_app. split; [by apply Forall_take|by apply Forall_drop].
  - rewrite (proj2 (Z.leb_le _ _)) by lia. destruct (row_get (kbuf st) 0 (kw_buf _ H)) as (l & n & _ & _ & _ & Hn & Hr); [lia|].
    destruct (set_len_ok 0 0 (kbuf st) (kw_buf _ H) ltac:(lia) _ Hr) as (ns & -> & Hb & Hrows); [lia|].
    cbn [mbind res_bind]. eexists. split; [reflexivity|]. 
    assert (text (Buffer (lines (kbuf st)) ns (nlines (kbuf st))) = [[]]) as Ht.
    { unfold text. rewrite Hrows. cbn [nlines]. replace (nlines (kbuf st)) with 1 by lia.
      change (Z.to_nat 0) with 0%nat. rewrite take_0. destruct (rows (kbuf st)); done. }
    split; [|done]. apply wf_set_dirty, wf_set_cur, wf_set_buf; [done| |done]. rewrite Ht. by repeat constructor.
Qed.

(** Backspace in column 0: the line goes to the end of the one above. *)
Lemma join_ok st l a : keo_wf st -> 0 < cy st < nlines (kbuf st) -> cx st = 0 ->
  text (kbuf st) !! Z.to_nat (cy st) = Some l -> text (kbuf st) !! Z.to_nat (cy st - 1) = Some a ->
  (length a + length l < 256)%nat ->
  exists st', back_space st = Ok st' /\ keo_wf st' /\ cx st' = Z.of_nat (length a) /\ cy st' = cy st - 1 /\
    text (kbuf st') = take (Z.to_nat (cy st - 1)) (text (kbuf st)) ++ (a ++ l) :: drop (S (Z.to_nat (cy st))) (text (kbuf st)).
Proof.
  intros H Hy Hx Hl Ha Hlen. unfold back_space, MAXC. rewrite Hx, (proj2 (Z.ltb_lt 0 (cy st))) by lia.
  change (0 <? 0) with false. cbv iota.
  destruct (cur_row st (cy st) H) as (row & n & -> & Er & Hlr & Hn & Hr & Hnr & Hnl); [lia|].
  destruct (cur_row st (cy st - 1) H) as (above & pl & -> & -> & Hla & Hpl & Hra & Hna & Hnla); [lia|].
  rewrite Hl in Hr. injection Hr as ->. rewrite Ha in Hra. injection Hra as ->. rewrite Er. cbn [mbind res_bind].
  rewrite Hnr, Hna in Hlen. rewrite (proj2 (Z.ltb_lt (pl + n) 256)) by lia.
  rewrite copy_row_ok by lia. cbn [mbind res_bind]. set (row' := _ ++ _).
  assert (take (Z.to_nat (pl + n)) row' = take (Z.to_nat pl) above ++ take (Z.to_nat n) row) as Hd.
  { unfold row'. change (Z.to_nat 0) with 0%nat. rewrite drop_0, app_assoc.
    rewrite take_app_length' by (rewrite length_app, !length_take; lia). done. }
  destruct (edit_row st (cy st - 1) row' (pl + n)) as (b & -> & Hw & Hn' & Ht); [done|lia| |lia| |].
  { unfold row'. rewrite !length_app, !length_take, !length_drop. lia. }
  { rewrite Hd. by apply Forall_app. }
  cbn [mbind res_bind].
  destruct (del_line_at_ok (cy st) b (kw_buf _ Hw)) as (b' & -> & Hb' & Hn2 & Ht2); [lia|lia|].
  cbn [mbind res_bind]. eexists. split; [reflexivity|].
  assert (text b' = take (Z.to_nat (cy st - 1)) (text (kbuf st)) ++ (take (Z.to_nat pl) above ++ take (Z.to_nat n) row) ::
    drop (S (Z.to_nat (cy st))) (text (kbuf st))) as Htb.
  { rewrite Ht2, Ht, Hd, delete_take_drop, drop_insert_lt by lia.
    replace (Z.to_nat (cy st)) with (S (Z.to_nat (cy st - 1))) by lia.
    rewrite (take_S_r _ _ (take (Z.to_nat pl) above ++ take (Z.to_nat n) row)).
    2:{ apply list_lookup_insert_eq. rewrite text_length by apply H. lia. }
    rewrite <- app_assoc, take_insert_ge by lia. done. }
  split_and!; try (done || lia); [|cbn; lia].
  apply wf_set_dirty, wf_set_cur, wf_set_buf; [done| |done]. rewrite Htb. pose proof (kw_nonl _ H).
  apply Forall_app. split; [by apply Forall_take|]. constructor; [by apply Forall_app|by apply Forall_drop].
Qed.

(** ** Lemmas: keys *)

Lemma row_of_ok st : keo_wf st -> 0 <= cy st < nlines (kbuf st) ->
  text (kbuf st) !! Z.to_nat (cy st) = Some (row_of st) /\ rd (lens (kbuf st)) (cy st) = Ok (Z.of_nat (length (row_of st))) /\
  (length (row_of st) <= 255)%nat.
Proof.
  intros H Hy. destruct (cur_row st (cy st) H Hy) as (l & n & E & _ & _ & Hn & Ht & Hl & _).
  unfold row_of. rewrite Ht. cbn [from_option]. unfold id. split; [done|]. rewrite Hl. split; [|lia]. rewrite E. f_equal. lia.
Qed.

Lemma wf_unpend c st : keo_wf st -> keo_wf (unpend c st).
Proof. apply wf_set_pend. Qed.
#[export] Hint Resolve wf_unpend : c_keo.

Lemma normal_key_wf c st : keo_ok st -> exists st', normal_key c st = Ok st' /\ keo_wf st'.
Proof.
  intros [H Hy Hx _ _]. destruct (row_of_ok st H Hy) as (Hrow & E & _). unfold normal_key. rewrite !E. cbn [mbind res_bind].
  assert (forall x y, keo_wf (set_cur x y st)) as Hc by (intros; by apply wf_set_cur).
  assert (forall b, exists st', open_line b st = Ok st' /\ keo_wf st') as Hopen.
  { intros b. destruct (decide (nlines (kbuf st) < 256)).
    - destruct (open_line_ok b st) as (st' & ? & ? & _); eauto.
    - unfold open_line, MAXL. rewrite (proj2 (Z.leb_le _ _)) by lia. eexists. split; [done|]. by apply wf_set_msg. }
  repeat match goal with
  | |- context [if ?b then _ else _] =>
      lazymatch b with (_ || _) => destruct b eqn:? | (c =? _) => destruct b eqn:? | pend_d st => destruct b | pend_g st => destruct b end
  end; try (eexists; split; [reflexivity|]; auto with c_keo; repeat case_match; auto 6 with c_keo lia).
  - destruct (Hopen true) as (st' & -> & Hw). eexists. split; [reflexivity|]. auto with c_keo.
  - destruct (Hopen false) as (st' & -> & Hw). eexists. split; [reflexivity|]. auto with c_keo.
  - destruct (del_char_ok st (row_of st)) as (st' & -> & Hw & _); try done. eexists. split; [reflexivity|]. auto with c_keo.
  - destruct (del_line_ok st) as (st' & -> & Hw & _); try done. eexists. split; [reflexivity|]. auto with c_keo.
  - apply wf_unpend, wf_set_cmd; [cbn; lia|constructor|]. apply wf_set_mode; [lia|done].
Qed.

Lemma normal_key_arrow c st : keo_ok st -> c = KEY_UP \/ c = KEY_DOWN \/ c = KEY_LEFT \/ c = KEY_RIGHT ->
  exists st', normal_key c st = Ok st' /\ keo_wf st' /\ kbuf st' = kbuf st.
Proof.
  intros H Hc. destruct (normal_key_wf c st H) as (st' & E & Hw). exists st'. split; [done|]. split; [done|].
  destruct H as [H Hy Hx _ _]. destruct (row_of_ok st H Hy) as (_ & E' & _).
  unfold normal_key in E. rewrite !E' in E. cbn [mbind res_bind] in E.
  destruct Hc as [->|[->|[->| ->]]]; cbn in E; injection E as <-; cbn; by case_match.
Qed.

Lemma unlines_app t u : unlines (t ++ u) = unlines t ++ unlines u.
Proof. apply flat_map_app. Qed.

(** The two sides of the gap are the file. *)
Lemma gap_file st : keo_ok st -> fst (gap st) ++ snd (gap st) = unlines (text (kbuf st)).
Proof.
  intros [H Hy Hx _ _]. destruct (row_of_ok st H Hy) as (Hrow & _ & _). cbn [gap fst snd].
  rewrite <- app_assoc, (app_assoc (take _ (row_of st))), take_drop.
  rewrite <- (take_drop (Z.to_nat (cy st)) (text (kbuf st))) at 3. rewrite unlines_app. f_equal.
  rewrite (drop_S _ _ _ Hrow). cbn [unlines flat_map]. by rewrite <- app_assoc.
Qed.

(** The gap of a text that is given as lines around row [y]. *)
Lemma gap_around st t l u : text (kbuf st) = t ++ l :: u -> cy st = Z.of_nat (length t) ->
  gap st = (unlines t ++ take (Z.to_nat (cx st)) l, drop (Z.to_nat (cx st)) l ++ [10] ++ unlines u).
Proof.
  intros Ht Hy. unfold gap, row_of. rewrite Ht, Hy, Nat2Z.id.
  rewrite list_lookup_middle by done. cbn [from_option]. unfold id. rewrite take_app_length.
  replace (drop (S (length t)) (t ++ l :: u)) with u; [done|].
  change (t ++ l :: u) with (t ++ [l] ++ u). rewrite app_assoc, drop_app_length'; [done|]. rewrite length_app. cbn. lia.
Qed.

Lemma gap_parts st : keo_ok st -> exists t u,
  text (kbuf st) = t ++ row_of st :: u /\ cy st = Z.of_nat (length t) /\ Z.of_nat (length t) + 1 + Z.of_nat (length u) = nlines (kbuf st) /\
  t = take (Z.to_nat (cy st)) (text (kbuf st)) /\ u = drop (S (Z.to_nat (cy st))) (text (kbuf st)).
Proof.
  intros [H Hy Hx _ _]. destruct (row_of_ok st H Hy) as (Hrow & _ & _).
  exists (take (Z.to_nat (cy st)) (text (kbuf st))), (drop (S (Z.to_nat (cy st))) (text (kbuf st))).
  pose proof (text_length _ (kw_buf _ H)). pose proof (bo_n _ (kw_buf _ H)). split_and!; try done.
  - by rewrite take_drop_middle.
  - rewrite length_take. lia.
  - rewrite length_take, length_drop. lia.
Qed.

Lemma list_insert_middle {A} (t u : list A) l l' : <[length t := l']> (t ++ l :: u) = t ++ l' :: u.
Proof. rewrite insert_app_r_alt by lia. by rewrite Nat.sub_diag. Qed.

(** Backspace. *)
Lemma back_space_gap st : keo_ok st -> exists st', back_space st = Ok st' /\ keo_wf st' /\
  gap st' = if room 8 st then (removelast (fst (gap st)), snd (gap st)) else gap st.
Proof.
  intros H. destruct (gap_parts st H) as (t & u & Ht & Hcy & Hn & _ & _). pose proof (gap_around st t _ u Ht Hcy) as Hg.
  destruct H as [H Hy Hx _ _]. destruct (row_of_ok st H Hy) as (Hrow & E & Hlen).
  unfold room. change (8 =? 10) with false. change (8 =? 8) with true. cbv iota.
  destruct (Z.ltb_spec 0 (cx st)) as [H0|H0]; cbn [orb].
  { unfold back_space. rewrite (proj2 (Z.ltb_lt _ _)) by lia.
    destruct (del_char_ok (set_cur (cx st - 1) (cy st) st) (row_of st)) as (st' & -> & Hw & Hcx & Hcy' & _ & _ & Ht');
      [by apply wf_set_cur|done|done|cbn; lia|].
    exists st'. split; [done|]. split; [done|]. cbn in Hcx, Hcy', Ht'. rewrite Ht, Hcy, Nat2Z.id, list_insert_middle in Ht'.
    rewrite (gap_around st' t _ u Ht') by lia. rewrite Hg, Hcx. cbn [fst snd]. rewrite delete_take_drop.
    replace (Z.to_nat (cx st)) with (S (Z.to_nat (cx st - 1))) by lia. set (x := Z.to_nat (cx st - 1)).
    rewrite take_app_length', drop_app_length' by (rewrite length_take; lia).
    destruct (lookup_lt_is_Some_2 (row_of st) x) as [c Hc]; [lia|].
    by rewrite (take_S_r _ _ _ Hc), (app_assoc (unlines t)), removelast_snoc. }
  assert (cx st = 0) as Hx0 by lia.
  destruct (Z.ltb_spec 0 (cy st)) as [H1|H1]; cbn [andb].
  2:{ unfold back_space. rewrite !(proj2 (Z.ltb_ge _ _)) by lia. exists st. done. }
  destruct (exists_last (l := t)) as (t' & a & ->); [by destruct t; [cbn in Hcy; lia|]|].
  rewrite length_app in Hcy. cbn [length] in Hcy. rewrite <- app_assoc in Ht. cbn [app] in Ht.
  assert (text (kbuf st) !! Z.to_nat (cy st - 1) = Some a) as Ha.
  { rewrite Ht. rewrite lookup_app_r by lia. by replace (_ - _)%nat with 0%nat by lia. }
  rewrite Ha. cbn [from_option]. unfold id, MAXC. destruct (Z.ltb_spec (Z.of_nat (length a) + Z.of_nat (length (row_of st))) 256).
  - destruct (join_ok st (row_of st) a) as (st' & -> & Hw & Hcx & Hcy' & Ht'); [done|lia|done|done|done|lia|].
    exists st'. split; [done|]. split; [done|].
    assert (text (kbuf st') = t' ++ (a ++ row_of st) :: u) as Ht2.
    { rewrite Ht', Ht. rewrite take_app_length' by lia. do 2 f_equal.
      change (t' ++ a :: row_of st :: u) with (t' ++ [a; row_of st] ++ u). rewrite app_assoc.
      apply drop_app_length'. rewrite length_app. cbn [length]. lia. }
    rewrite (gap_around st' t' _ u Ht2) by lia. rewrite Hg, Hcx, Hx0, Nat2Z.id, take_app_length, drop_app_length.
    cbn [fst snd]. change (Z.to_nat 0) with 0%nat. rewrite take_0, drop_0, app_nil_r, unlines_app. f_equal.
    cbn [unlines flat_map]. by rewrite app_nil_r, !app_assoc, removelast_snoc.
  - exists st. unfold back_space. rewrite (proj2 (Z.ltb_ge _ _)), (proj2 (Z.ltb_lt _ _)) by lia.
    destruct (row_of_ok (set_cur 0 (cy st - 1) st)) as (Hr & E' & _); [by apply wf_set_cur|cbn; lia|].
    cbn in Hr. rewrite Ha in Hr. injection Hr as Hr. cbn in E'. rewrite <- Hr in E'. rewrite E', E. cbn [mbind res_bind].
    unfold MAXC. rewrite (proj2 (Z.ltb_ge _ _)) by lia. done.
Qed.

Lemma split_line_gap st : keo_ok st -> exists st', split_line st = Ok st' /\ keo_wf st' /\
  gap st' = if room 10 st then (fst (gap st) ++ [10], snd (gap st)) else gap st.
Proof.
  intros H. destruct (gap_parts st H) as (t & u & Ht & Hcy & Hn & Htk & Hdr). pose proof (gap_around st t _ u Ht Hcy) as Hg.
  destruct H as [H Hy Hx _ _]. destruct (row_of_ok st H Hy) as (Hrow & E & Hlen).
  unfold room. change (10 =? 10) with true. cbv iota. destruct (Z.ltb_spec (nlines (kbuf st)) MAXL) as [HM|HM]; unfold MAXL in HM.
  - destruct (split_line_ok st (row_of st)) as (st' & -> & Hw & Hcx & Hcy' & _ & Ht'); try done.
    exists st'. split; [done|]. split; [done|]. rewrite <- Htk, <- Hdr in Ht'. set (x := Z.to_nat (cx st)) in *.
    rewrite (gap_around st' (t ++ [take x (row_of st)]) (drop x (row_of st)) u).
    + rewrite Hg, Hcx. change (Z.to_nat 0) with 0%nat. rewrite take_0, drop_0, app_nil_r, unlines_app. cbn [fst snd]. f_equal.
      cbn [unlines flat_map]. by rewrite app_nil_r, app_assoc.
    + rewrite Ht', <- app_assoc. done.
    + rewrite length_app. cbn [length]. lia.
  - unfold split_line, MAXL. rewrite (proj2 (Z.leb_le _ _)) by lia. eexists. split; [reflexivity|].
    split; [by apply wf_set_msg|done].
Qed.

Lemma insert_char_gap c st : keo_ok st -> c <> 8 -> c <> 10 -> exists st', insert_char c st = Ok st' /\ keo_wf st' /\
  gap st' = gap_key c (room c st) (gap st).
Proof.
  intros H H8 H10. destruct (gap_parts st H) as (t & u & Ht & Hcy & Hn & Htk & Hdr). pose proof (gap_around st t _ u Ht Hcy) as Hg.
  destruct H as [H Hy Hx _ _]. destruct (row_of_ok st H Hy) as (Hrow & E & Hlen).
  unfold room, gap_key. rewrite (proj2 (Z.eqb_neq c 8)), (proj2 (Z.eqb_neq c 10)) by done. cbn [orb].
  destruct ((32 <=? c) && (c <? 127) && (Z.of_nat (length (row_of st)) <? MAXC - 1)) eqn:Ec.
  - apply andb_true_iff in Ec as [Ec1 Ec2]. rewrite Ec1, Ec2. cbn [negb]. zbool. unfold MAXC in *.
    destruct (insert_char_ok c st (row_of st)) as (st' & -> & Hw & Hcx & Hcy' & _ & Ht'); try done || lia.
    exists st'. split; [done|]. split; [done|]. rewrite Ht, Hcy, Nat2Z.id, list_insert_middle in Ht'.
    rewrite (gap_around st' t _ u Ht') by lia. rewrite Hg, Hcx.
    replace (Z.to_nat (cx st + 1)) with (S (Z.to_nat (cx st))) by lia. set (x := Z.to_nat (cx st)) in *.
    rewrite <- app_assoc. f_equal.
    + f_equal. rewrite take_app_ge by (rewrite length_take; lia). rewrite length_take, Nat.min_l by lia.
      by replace (S x - x)%nat with 1%nat by lia.
    + rewrite drop_app_ge by (rewrite length_take; lia). rewrite length_take, Nat.min_l by lia.
      by replace (S x - x)%nat with 1%nat by lia.
  - exists st. unfold insert_char. rewrite E. cbn [mbind res_bind]. rewrite Ec. split; [done|]. split; [done|].
    destruct (gap st) as [bef aft]. destruct (_ <? MAXC - 1) eqn:E2; cbn [negb]; [|done].
    by rewrite andb_true_r in Ec; rewrite Ec.
Qed.

Lemma insert_key_ok c st : keo_ok st -> exists st', insert_key c st = Ok st' /\ keo_wf st' /\
  if (c =? KEY_UP) || (c =? KEY_DOWN) || (c =? KEY_LEFT) || (c =? KEY_RIGHT) then kbuf st' = kbuf st
  else gap st' = gap_key c (room c st) (gap st).
Proof.
  intros H. unfold insert_key. destruct (Z.eqb_spec c 27) as [->|H27].
  { destruct (row_of_ok st (ko_wf _ H) (ko_cy _ H)) as (_ & E & _). cbn. rewrite E. cbn [mbind res_bind].
    pose proof (ko_cx _ H). rewrite (proj2 (Z.ltb_ge _ _)) by lia. eexists. split; [reflexivity|].
    split; [apply wf_set_mode; [lia|apply H]|]. change (gap (set_mode 0 st)) with (gap st).
    unfold gap_key. destruct (gap st). by destruct (negb _). }
  destruct ((c =? KEY_UP) || (c =? KEY_DOWN) || (c =? KEY_LEFT) || (c =? KEY_RIGHT)) eqn:Ea.
  { apply normal_key_arrow; [done|]. rewrite !orb_true_iff, !Z.eqb_eq in Ea. tauto. }
  destruct (Z.eqb_spec c 10) as [->|H10].
  { destruct (split_line_gap st H) as (st' & -> & Hw & Hg). exists st'. split_and!; try done. rewrite Hg.
    unfold gap_key. destruct (gap st). by destruct (room 10 st). }
  destruct (Z.eqb_spec c 8) as [->|H8]; [|by apply insert_char_gap].
  destruct (back_space_gap st H) as (st' & -> & Hw & Hg). exists st'. split_and!; try done. rewrite Hg.
  unfold gap_key. destruct (gap st). by destruct (room 8 st).
Qed.

(** ** Lemmas: the screen *)

Lemma clamp_ok st : keo_wf st -> exists st', clamp st = Ok st' /\ keo_ok st' /\ kbuf st' = kbuf st /\
  mode st' = mode st /\ cmd st' = cmd st /\ msg st' = msg st /\ fname st' = fname st /\ dirty st' = dirty st /\
  (keo_ok st -> st' = st).
Proof.
  intros H. pose proof (bo_n _ (kw_buf _ H)) as HN. unfold clamp.
  set (y0 := if cy st <? 0 then 0 else cy st). set (y := if nlines (kbuf st) - 1 <? y0 then nlines (kbuf st) - 1 else y0).
  assert (0 <= y < nlines (kbuf st)) as Hy.
  { unfold y, y0. zif. }
  destruct (row_of_ok (set_cur 0 y st)) as (Hr & E & _); [by apply wf_set_cur|done|]. cbn [set_cur kbuf cy] in E, Hr.
  rewrite E. cbn [mbind res_bind]. set (x0 := if cx st <? 0 then 0 else cx st).
  set (len := Z.of_nat (length (row_of (set_cur 0 y st)))) in *.
  set (t0 := if y <? top st then y else top st). set (t1 := if t0 <? y - (TXT_ROWS - 1) then y - (TXT_ROWS - 1) else t0).
  eexists. split; [reflexivity|]. split_and!; try done.
  - split; cbn.
    + by apply wf_set_top, wf_set_cur.
    + done.
    + replace (row_of _) with (row_of (set_cur 0 y st)) by reflexivity. fold len.
      unfold x0. zif.
    + unfold t1, t0, TXT_ROWS. zif.
    + unfold t1, t0, TXT_ROWS. zif.
  - intros [_ Hy' Hx' Ht' Hw']. unfold TXT_ROWS in *.
    assert (y = cy st) as Ey by (unfold y, y0; zif).
    assert (len = Z.of_nat (length (row_of st))) as El by (unfold len, row_of; cbn; by rewrite Ey).
    assert (x0 = cx st) as Ex by (unfold x0; zif).
    assert (t0 = top st) as Et0 by (unfold t0; zif).
    assert (t1 = top st) as Et1 by (unfold t1; zif).
    rewrite Et1, Ex, Ey, !(proj2 (Z.ltb_ge _ _)) by lia. by destruct st.
Qed.

Lemma put_cells_ok row cs : (length row + length cs <= 80)%nat -> put_cells row cs = Ok (row ++ cs).
Proof.
  intros H. unfold put_cells. 
  destruct (for_each_inv (fun i r => r = row ++ take (Z.to_nat i) cs) (length cs) 0
    (fun i row => c ← rd cs i; put_cell row c) row) as (r & -> & ->).
  - change (Z.to_nat 0) with 0%nat. by rewrite take_0, app_nil_r.
  - intros i r Hi ->. destruct (rd_in cs i) as (c & -> & Hc); [lia|]. cbn [mbind res_bind]. unfold put_cell.
    rewrite length_app, length_take. rewrite (proj2 (Z.ltb_lt _ _)) by lia. eexists. split; [reflexivity|].
    replace (Z.to_nat (i + 1)) with (S (Z.to_nat i)) by lia. by rewrite (take_S_r _ _ _ Hc), app_assoc.
  - rewrite take_ge by lia. done.
Qed.

Lemma put_cell_ok row c : (length row < 80)%nat -> put_cell row c = Ok (row ++ [c]).
Proof. intros H. unfold put_cell. by rewrite (proj2 (Z.ltb_lt _ _)) by lia. Qed.

Lemma pad_to_ok k row : 0 <= k <= 80 -> pad_to k row = Ok (pad (Z.to_nat k) row).
Proof.
  intros Hk. unfold pad_to, pad.
  destruct (for_each_inv (fun i r => r = row ++ replicate (Z.to_nat i) 32) (Z.to_nat (k - Z.of_nat (length row))) 0
    (fun _ row => put_cell row 32) row) as (r & -> & ->).
  - change (Z.to_nat 0) with 0%nat. by rewrite app_nil_r.
  - intros i r Hi ->. rewrite put_cell_ok by (rewrite length_app, length_replicate; lia).
    eexists. split; [reflexivity|]. rewrite <- app_assoc. f_equal. replace (Z.to_nat (i + 1)) with (Z.to_nat i + 1)%nat by lia.
    by rewrite replicate_add.
  - do 3 f_equal. lia.
Qed.

Lemma row_pad_length k l : (length l <= k)%nat -> length (pad k l) = k.
Proof. intros H. unfold pad. rewrite length_app, length_replicate. lia. Qed.

Lemma pad_length_max k l : length (pad k l) = Nat.max k (length l).
Proof. unfold pad. rewrite length_app, length_replicate. lia. Qed.

Lemma put_upto_ok k row s : Z.of_nat (length row) <= k -> k <= 80 ->
  put_upto k row s = Ok (row ++ take (Z.to_nat k - length row) s).
Proof.
  intros H Hk. unfold put_upto. replace (Z.to_nat (k - Z.of_nat (length row))) with (Z.to_nat k - length row)%nat by lia.
  apply put_cells_ok. rewrite length_take. lia.
Qed.

Lemma emit_dec_ok row v : 0 < v < 1000 -> (length row + 3 <= 80)%nat ->
  exists ds, emit_dec row v = Ok (row ++ ds) /\ numeral v ds /\ (length ds <= 3)%nat.
Proof.
  intros Hv Hl. unfold emit_dec. rewrite (proj2 (Z.ltb_ge v 0)) by lia. cbn [mbind res_bind mret res_ret].
  destruct (dec_tmp_ok v) as (ds & -> & Hd); [lia|]. cbn [mbind res_bind]. rewrite rev_involutive. exists ds.
  assert (length ds <= 3)%nat as Hds by (apply (numeral_length v ds 3); done).
  split; [apply put_cells_ok; lia|done].
Qed.

Lemma draw_row_ok st r : keo_ok st -> 0 <= r -> 
  draw_row st r = Ok [Color 0x0F 0x00; Goto r 0; Write (screen_row st r)].
Proof.
  intros H Hr. unfold draw_row, screen_row. pose proof (ko_top _ H). pose proof (text_length _ (kw_buf _ (ko_wf _ H))).
  destruct (Z.ltb_spec (top st + r) (nlines (kbuf st))) as [Hlt|Hge].
  - destruct (cur_row st (top st + r) (ko_wf _ H)) as (l & n & -> & -> & Hl & Hn & Ht & Hlen & _); [lia|].
    rewrite Ht. cbn [mbind res_bind].
    assert (for_each (Z.to_nat (Z.min n 80)) 0 (fun i row => c ← rd l i; put_cell row c) [] =
      Ok (take 80 (take (Z.to_nat n) l))) as ->.
    { rewrite take_take. replace (80 `min` Z.to_nat n)%nat with (Z.to_nat (Z.min n 80)) by lia.
      destruct (for_each_inv (fun i (row : list Z) => row = take (Z.to_nat i) l) (Z.to_nat (Z.min n 80)) 0
        (fun i row => c ← rd l i; put_cell row c) []) as (row & -> & ->).
      - done.
      - intros i row Hi ->. destruct (rd_in l i) as (c & -> & Hc); [lia|]. cbn [mbind res_bind].
        rewrite put_cell_ok by (rewrite length_take; lia). eexists. split; [reflexivity|].
        replace (Z.to_nat (i + 1)) with (S (Z.to_nat i)) by lia. by rewrite (take_S_r _ _ _ Hc).
      - do 2 f_equal. lia. }
    cbn [mbind res_bind]. rewrite pad_to_ok by lia. done.
  - rewrite lookup_ge_None_2 by lia. cbn [mbind res_bind]. rewrite put_cell_ok by (cbn; lia). cbn [mbind res_bind app].
    rewrite pad_to_ok by lia. done.
Qed.

Lemma status_row_ok st : keo_ok st -> exists row, status_row st = Ok row /\ length row = 80%nat.
Proof.
  intros [H Hy Hx _ _]. pose proof (bo_n _ (kw_buf _ H)) as HN. destruct (row_of_ok st H Hy) as (_ & _ & Hl).
  unfold status_row. rewrite put_cells_ok by (cbn; lia). cbn [mbind res_bind app].
  rewrite put_upto_ok by (cbn; lia). cbn [mbind res_bind]. set (r1 := lit "keo " ++ _).
  assert (length r1 <= 40)%nat as H1 by (unfold r1; rewrite length_app, length_take; cbn; lia).
  clearbody r1. assert (exists r2, (if dirty st && (Z.of_nat (length r1) <? 80) then put_cell r1 42 else mret r1) = Ok r2 /\
    (length r2 <= 41)%nat) as (r2 & -> & H2).
  { destruct (_ && _).
    - rewrite put_cell_ok by lia. eexists. split; [done|]. rewrite length_app. cbn. lia.
    - eexists. split; [done|]. lia. }
  cbn [mbind res_bind]. rewrite pad_to_ok by lia. cbn [mbind res_bind].
  assert (length (pad (Z.to_nat 52) r2) = 52%nat) as H3 by (rewrite row_pad_length; lia).
  destruct (emit_dec_ok (pad (Z.to_nat 52) r2) (cy st + 1)) as (d1 & -> & _ & Hd1); [lia|lia|]. cbn [mbind res_bind].
  rewrite put_cell_ok by (rewrite length_app; lia). cbn [mbind res_bind].
  destruct (emit_dec_ok ((pad (Z.to_nat 52) r2 ++ d1) ++ [44]) (cx st + 1)) as (d2 & -> & _ & Hd2);
    [lia|rewrite !length_app; cbn; lia|]. cbn [mbind res_bind].
  rewrite put_cell_ok by (rewrite !length_app; cbn; lia). cbn [mbind res_bind].
  rewrite put_upto_ok by (rewrite ?length_app; cbn; lia). cbn [mbind res_bind].
  rewrite pad_to_ok by lia. eexists. split; [reflexivity|]. apply row_pad_length.
  rewrite !length_app, length_take, H3. cbn [length]. change (Z.to_nat 80) with 80%nat. lia.
Qed.

Lemma cmd_row_ok st : keo_wf st -> exists row, cmd_row st = Ok row /\ length row = 80%nat.
Proof.
  intros H. unfold cmd_row. destruct (mode st =? 2).
  - rewrite put_cell_ok by (cbn; lia). cbn [mbind res_bind app]. rewrite put_upto_ok by (cbn; lia). cbn [mbind res_bind].
    rewrite pad_to_ok by lia. eexists. split; [reflexivity|]. apply row_pad_length. rewrite length_app, length_take. cbn. lia.
  - rewrite put_upto_ok by (cbn; lia). cbn [mbind res_bind].
    rewrite pad_to_ok by lia. eexists. split; [reflexivity|]. apply row_pad_length. rewrite length_app, length_take. cbn. lia.
Qed.

Lemma draw_ok st : keo_wf st -> exists o st' tail, draw st = Ok (o, st') /\ keo_ok st' /\ kbuf st' = kbuf st /\
  mode st' = mode st /\ (keo_ok st -> st' = st) /\ o = text_rows st' ++ tail /\ Forall on_screen o /\
  (mode st' <> 2 -> last o = Some (Goto (cy st' - top st') (Z.min (cx st') 79))).
Proof.
  intros H. destruct (clamp_ok st H) as (st' & E & Hok & Hb & Hm & _ & _ & _ & _ & Hid). unfold draw. rewrite E.
  cbn [mbind res_bind].
  destruct (for_each_inv (fun r o => o = flat_map (fun r => [Color 0x0F 0x00; Goto r 0; Write (screen_row st' r)]) (seqZ 0 r))
    (Z.to_nat TXT_ROWS) 0 (fun r o => l ← draw_row st' r; mret (o ++ l)) []) as (o & -> & ->).
  - done.
  - intros r o Hr ->. rewrite draw_row_ok by (done || lia). cbn [mbind res_bind]. eexists. split; [reflexivity|].
    rewrite seqZ_app, flat_map_app, Z.add_0_l by lia. done.
  - destruct (status_row_ok st' Hok) as (stat & -> & Hs). destruct (cmd_row_ok st' (ko_wf _ Hok)) as (cr & -> & Hc).
    cbn [mbind res_bind]. do 3 eexists. split; [reflexivity|]. split_and!; try done.
    + apply Forall_app. split.
      * apply Forall_flat_map, Forall_forall. intros r [Hr1 Hr2]%elem_of_seqZ. change (Z.of_nat (Z.to_nat TXT_ROWS)) with 23 in Hr2.
        repeat constructor; cbn; try lia. unfold screen_row. apply row_pad_length.
        destruct (text (kbuf st') !! _); [rewrite length_take|cbn]; lia.
      * pose proof (ko_top _ Hok). pose proof (ko_win _ Hok). pose proof (ko_cx _ Hok).
        repeat constructor; cbn; try done; try lia.
        destruct (_ =? 2); unfold on_screen, ROW_CMD, TXT_ROWS in *; lia.
    + intros Hne. rewrite (proj2 (Z.eqb_neq _ 2)) by done. by rewrite !last_app.
Qed.

(** ** Lemmas: files *)

Lemma put_file_in buf c : Z.of_nat (length buf) < FILE_MAX -> put_file buf c = Ok (buf ++ [c]).
Proof. intros H. unfold put_file. by rewrite (proj2 (Z.ltb_lt _ _)). Qed.

Lemma append_loop (l : list Z) n buf : 0 <= n <= Z.of_nat (length l) -> Z.of_nat (length buf) + n <= FILE_MAX ->
  for_each (Z.to_nat n) 0 (fun j buf => c ← rd l j; put_file buf c) buf = Ok (buf ++ take (Z.to_nat n) l).
Proof.
  intros Hn Hm. destruct (for_each_inv (fun j b => b = buf ++ take (Z.to_nat j) l) (Z.to_nat n) 0
    (fun j buf => c ← rd l j; put_file buf c) buf) as (b & -> & ->).
  - change (Z.to_nat 0) with 0%nat. by rewrite take_0, app_nil_r.
  - intros j b Hj ->. destruct (rd_in l j) as (c & -> & Hc); [lia|]. cbn [mbind res_bind].
    rewrite put_file_in by (rewrite length_app, length_take; lia). eexists. split; [reflexivity|].
    replace (Z.to_nat (j + 1)) with (S (Z.to_nat j)) by lia. by rewrite (take_S_r _ _ _ Hc), app_assoc.
  - do 3 f_equal. lia.
Qed.

Lemma save_bytes_ok b : buf_ok b -> save_bytes b =
  Ok (if FILE_MAX <? Z.of_nat (length (unlines (text b))) then None else Some (unlines (text b))).
Proof.
  intros H. pose proof (text_length b H) as HT. pose proof (bo_n b H). unfold save_bytes.
  set (body := fun i buf => _).
  destruct (for_loop_inv (fun i buf => buf = unlines (take (Z.to_nat i) (text b)) /\ Z.of_nat (length buf) <= FILE_MAX)
    (fun _ : unit => FILE_MAX < Z.of_nat (length (unlines (text b)))) (Z.to_nat (nlines b)) 0 body [])
    as [(buf & -> & -> & Hle)|([] & -> & Hgt)].
  - by split.
  - intros i buf Hi [-> Hle]. unfold body.
    destruct (text_get b i H) as (l & n & -> & -> & Hl & Hn & Ht); [lia|]. cbn [mbind res_bind].
    assert (unlines (take (S (Z.to_nat i)) (text b)) = (unlines (take (Z.to_nat i) (text b)) ++ take (Z.to_nat n) l) ++ [10]) as E.
    { rewrite (take_S_r _ _ _ Ht), unlines_app. cbn [unlines flat_map]. by rewrite app_nil_r, app_assoc. }
    destruct (Z.ltb_spec FILE_MAX (Z.of_nat (length (unlines (take (Z.to_nat i) (text b)))) + n + 1)).
    + right. exists tt. split; [done|]. rewrite <- (take_drop (S (Z.to_nat i)) (text b)), unlines_app, E, !length_app, length_take.
      cbn [length]. lia.
    + left. rewrite append_loop by lia. cbn [mbind res_bind].
      rewrite put_file_in by (rewrite length_app, length_take; lia). cbn [mbind res_bind]. eexists. split; [reflexivity|].
      replace (Z.to_nat (i + 1)) with (S (Z.to_nat i)) by lia. rewrite E. split; [done|].
      rewrite !length_app, length_take. cbn [length]. lia.
  - rewrite take_ge in * by lia. cbn [mbind res_bind]. by rewrite (proj2 (Z.ltb_ge _ _)) by lia.
  - cbn [mbind res_bind]. by rewrite (proj2 (Z.ltb_lt _ _)) by lia.
Qed.

Section kernel_lemmas.
Context (fwrite : str -> list Z -> Z).

(** [save] stores the text or changes nothing. *)
Lemma save_ok st : keo_wf st -> exists r st', save fwrite st = Ok (r, st') /\
  (r = 0 -> file_stored fwrite st') /\ (r <> 0 -> st' = st).
Proof.
  intros H. unfold save. destruct (deref (fname st) =? 0); [by exists (-99), st|].
  rewrite save_bytes_ok by apply H. cbn [mbind res_bind].
  destruct (Z.ltb_spec FILE_MAX (Z.of_nat (length (unlines (text (kbuf st)))))); [by exists FS_FULL, st|].
  do 2 eexists. split; [reflexivity|]. split.
  - intros Hr. unfold file_stored. destruct (Z.eqb_spec (fwrite (fname st) (unlines (text (kbuf st)))) 0); done.
  - intros Hr. destruct (Z.eqb_spec (fwrite (fname st) (unlines (text (kbuf st)))) 0) as [E|]; [|done].
    by rewrite E in Hr.
Qed.

(** How a command may end the editor, and how it may leave it. *)
Definition leaves (st : keo) (a : after) : Prop :=
  match a with
  | Stay st' => keo_wf st' /\ tracks st st'
  | Exited st' => cmd st' = lit "q!" \/ (dirty st' = false /\ tracks st st') \/ file_stored fwrite st'
  end.

Lemma tracks_refl st : tracks st st.
Proof. done. Qed.

Lemma tracks_trans st1 st2 st3 : tracks st1 st2 -> tracks st2 st3 -> tracks st1 st3.
Proof. unfold tracks. intros H1 H2 H. destruct (H2 H) as [Hd ->]. by apply H1. Qed.

Lemma leaves_trans st st1 a : tracks st st1 -> leaves st1 a -> leaves st a.
Proof.
  intros H. destruct a as [st'|st']; cbn.
  - intros [Hw Ht]. split; [done|by eapply tracks_trans].
  - intros [?|[[??]|?]]; [by left|right; left; split; [done|by eapply tracks_trans]|by right; right].
Qed.

Lemma do_save_leaves st : keo_wf st -> exists r a, do_save fwrite st = Ok (r, a) /\ leaves st a /\
  (r = 0 -> match a with Stay _ => False | Exited _ => True end).
Proof.
  intros H. unfold do_save. destruct (save_ok st H) as (r & st' & -> & H0 & H1). cbn [mbind res_bind]. do 2 eexists.
  split; [reflexivity|]. destruct (Z.eqb_spec r 0) as [->|Hr]; [split; [right; right; by apply H0|done]|].
  rewrite H1 by done. split; [|by intros ->].
  destruct (r =? FS_FULL); [|destruct (r =? FS_RO)]; (split; [by apply wf_set_msg|done]).
Qed.

Lemma exec_cmd_leaves st : keo_wf st -> exists a, exec_cmd fwrite st = Ok a /\ leaves st a.
Proof.
  intros H. pose proof (kw_cmdc _ H) as Hc. unfold exec_cmd.
  destruct (do_save_leaves st H) as (r & a & E & Ha & Hr).
  destruct (same_condition (cmd st) (lit "w")); [rewrite E; by eexists|].
  destruct ((deref (cmd st) =? 119) && _).
  { destruct (do_save_leaves (set_fname (take 127 (tl (tl (cmd st)))) st)) as (r' & a' & -> & Ha' & _).
    { apply wf_set_fname; [rewrite length_take; lia|done]. }
    eexists. split; [reflexivity|]. by eapply leaves_trans. }
  destruct (same_condition (cmd st) (lit "q")).
  { eexists. split; [reflexivity|]. destruct (dirty st) eqn:Ed; [split; [by apply wf_set_msg|done]|].
    by right; left. }
  destruct (same_condition (cmd st) (lit "q!")) eqn:Eqq.
  { eexists. split; [reflexivity|]. left.
    rewrite same_condition_eq in Eqq by (done || by repeat constructor). by apply bool_decide_eq_true in Eqq. }
  destruct (same_condition (cmd st) (lit "wq")).
  { rewrite E. cbn [mbind res_bind]. eexists. split; [reflexivity|].
    destruct (Z.eqb_spec r 0) as [->|]; [|done]. destruct a; [by destruct (Hr eq_refl)|done]. }
  eexists. split; [reflexivity|]. split; [by apply wf_set_msg|done].
Qed.
End kernel_lemmas.

(** ** Lemmas: loading *)

(** The loop of [load] over the characters of a file. *)
Fixpoint load_chars (cs : list Z) (s : Z * buffer) : res (Z * buffer) :=
  match cs with [] => mret s | c :: cs' => s ← load_char c s; load_chars cs' s end.

Lemma load_loop pre cs s :
  for_each (length cs) (Z.of_nat (length pre)) (fun i s => c ← rd (pre ++ cs) i; load_char c s) s = load_chars cs s.
Proof.
  revert pre s. induction cs as [|c cs IH]; intros pre s; [done|]. cbn [length for_each load_chars].
  assert (rd (pre ++ c :: cs) (Z.of_nat (length pre)) = Ok c) as ->.
  { apply rd_Ok. split; [lia|]. rewrite Nat2Z.id. by apply list_lookup_middle. }
  cbn [mbind res_bind]. destruct (load_char c s) as [s'| |]; cbn [mbind res_bind]; try done.
  specialize (IH (pre ++ [c]) s'). rewrite length_app in IH. cbn [length] in IH. rewrite <- app_assoc in IH. cbn [app] in IH.
  rewrite <- IH. f_equal. lia.
Qed.

Lemma load_chars_app cs ds s : load_chars (cs ++ ds) s = (s ← load_chars cs s; load_chars ds s).
Proof.
  revert s. induction cs as [|c cs IH]; intros s; [done|]. cbn [app load_chars].
  destruct (load_char c s); cbn [mbind res_bind]; [apply IH|done|done].
Qed.

(** The lines read so far: [ts], and line [li], which is [l] as yet. *)
Definition loading (ts : list (list Z)) (l : list Z) (s : Z * buffer) : Prop :=
  buf_ok (snd s) /\ fst s = Z.of_nat (length ts) /\ (length ts < 256)%nat /\
  take (S (length ts)) (rows (snd s)) = ts ++ [l].

Lemma loading_row ts l s : loading ts l s -> rows (snd s) !! length ts = Some l.
Proof.
  intros (_ & _ & Hl & Ht). apply (f_equal (.!! length ts)) in Ht.
  rewrite lookup_take_lt in Ht by lia. rewrite Ht. by apply list_lookup_middle.
Qed.

Lemma load_char_row ts l s c : loading ts l s -> c <> 10 -> (length l <= 255)%nat ->
  exists s', load_char c s = Ok s' /\ loading ts (take 255 (l ++ [c])) s'.
Proof.
  intros H Hc Hl255. pose proof (loading_row _ _ _ H) as Hrow. destruct s as [li b]. destruct H as (Hb & Hli & Hlt & Ht).
  cbn [fst snd] in *. subst li. unfold load_char, MAXC. rewrite (proj2 (Z.eqb_neq c 10)) by done.
  destruct (row_get b (Z.of_nat (length ts)) Hb) as (row & n & -> & -> & Hlr & Hn & Hr); [lia|].
  rewrite Nat2Z.id, Hrow in Hr. injection Hr as ->. rewrite length_take in Hl255. cbn [mbind res_bind].
  destruct (Z.ltb_spec n (256 - 1)).
  - rewrite wr_in by lia. cbn [mbind res_bind].
    destruct (put_row_ok (Z.of_nat (length ts)) (<[Z.to_nat n := c]> row) (n + 1) b) as (b' & -> & Hb' & Hn' & Hr');
      [done|lia|by rewrite length_insert|lia|].
    cbn [mbind res_bind]. eexists. split; [reflexivity|]. rewrite Nat2Z.id in Hr'. split_and!; try done. cbn [snd].
    rewrite Hr', take_insert_lt, Ht by lia. rewrite list_insert_middle. do 2 f_equal.
    rewrite (take_ge (_ ++ _)) by (rewrite length_app, length_take; cbn; lia).
    replace (Z.to_nat (n + 1)) with (S (Z.to_nat n)) by lia.
    rewrite (take_S_r _ _ c) by (apply list_lookup_insert_eq; lia). by rewrite take_insert_ge.
  - eexists. split; [reflexivity|]. split_and!; try done. cbn [snd]. rewrite Ht. do 2 f_equal.
    rewrite take_app_length' by (rewrite length_take; lia). done.
Qed.

Lemma load_char_newline ts l s : loading ts l s ->
  exists s', load_char 10 s = Ok s' /\
    if (length ts <? 255)%nat then loading (ts ++ [l]) [] s' else s' = s.
Proof.
  intros H. pose proof (loading_row _ _ _ H) as Hrow. destruct s as [li b]. destruct H as (Hb & Hli & Hlt & Ht).
  cbn [fst snd] in *. subst li. unfold load_char, MAXL. change (10 =? 10) with true. cbv iota.
  destruct (Nat.ltb_spec (length ts) 255).
  - rewrite (proj2 (Z.ltb_lt _ _)) by lia.
    destruct (lookup_lt_is_Some_2 (rows b) (S (length ts))) as [r Hr]; [rewrite rows_length by done; lia|].
    replace (S (length ts)) with (Z.to_nat (Z.of_nat (length ts) + 1)) in Hr by lia.
    destruct (set_len_ok (Z.of_nat (length ts) + 1) 0 b Hb ltac:(lia) r Hr) as (ns & -> & Hb' & Hr'); [lia|]. cbn [mbind res_bind].
    eexists. split; [reflexivity|]. change (Z.to_nat 0) with 0%nat in Hr'. rewrite take_0 in Hr'.
    replace (Z.to_nat (Z.of_nat (length ts) + 1)) with (S (length ts)) in Hr' by lia.
    unfold loading. cbn [fst snd]. rewrite length_app. cbn [length]. split_and!; try done || lia.
    rewrite Hr'. replace (length ts + 1)%nat with (S (length ts)) by lia. 
    rewrite (take_S_r _ _ []) by (apply list_lookup_insert_eq; rewrite rows_length by done; lia).
    by rewrite take_insert_ge, Ht by lia.
  - rewrite (proj2 (Z.ltb_ge _ _)) by lia. by eexists.
Qed.

(** A row arrives, from wherever it is. *)
Lemma load_row ts l r s : loading ts l s -> Forall (fun c => c <> 10) r -> (length l <= 255)%nat ->
  exists s', load_chars r s = Ok s' /\ loading ts (take 255 (l ++ r)) s'.
Proof.
  intros H Hr. revert l s H. induction Hr as [|c r Hc _ IH]; intros l s H Hl; cbn [load_chars].
  - eexists. split; [reflexivity|]. by rewrite app_nil_r, take_ge.
  - destruct (load_char_row ts l s c H Hc Hl) as (s1 & -> & H1). cbn [mbind res_bind].
    destruct (IH _ _ H1) as (s' & -> & H'); [rewrite length_take; lia|]. eexists. split; [reflexivity|].
    replace (take 255 (l ++ c :: r)) with (take 255 (take 255 (l ++ [c]) ++ r)); [done|].
    change (c :: r) with ([c] ++ r). rewrite (app_assoc l). destruct (decide (length (l ++ [c]) <= 255)%nat).
    + by rewrite (take_ge (l ++ [c])).
    + rewrite take_app_le by (rewrite length_take; lia). rewrite take_take, Nat.min_id. by rewrite (take_app_le _ r) by lia.
Qed.

(** A file of lines that fit. *)
Lemma load_lines us ts s : loading ts [] s -> Forall (Forall (fun c => c <> 10)) us ->
  Forall (fun r => (length r <= 255)%nat) us -> (length ts + length us <= 255)%nat ->
  exists s', load_chars (unlines us) s = Ok s' /\ loading (ts ++ us) [] s'.
Proof.
  intros H Hnl. revert ts s H. induction Hnl as [|r us Hr _ IH]; intros ts s H Hlen Hc.
  - eexists. split; [reflexivity|]. by rewrite app_nil_r.
  - apply Forall_cons in Hlen as [Hlr Hlen]. cbn [length] in Hc. cbn [unlines flat_map]. fold (unlines us).
    rewrite <- app_assoc, load_chars_app.
    destruct (load_row ts [] r s H Hr) as (s1 & -> & H1); [cbn; lia|]. cbn [mbind res_bind app load_chars].
    rewrite take_ge in H1 by (cbn [app]; lia). cbn [app] in H1.
    destruct (load_char_newline ts r s1 H1) as (s2 & -> & H2). cbn [mbind res_bind].
    rewrite (proj2 (Nat.ltb_lt _ _)) in H2 by lia.
    destruct (IH (ts ++ [r]) s2 H2 Hlen) as (s' & -> & H'); [rewrite length_app; cbn; lia|].
    eexists. split; [reflexivity|]. by rewrite <- app_assoc in H'.
Qed.

(** Any file at all. *)
Lemma load_any cs s ts l : loading ts l s -> (length l <= 255)%nat ->
  Forall (Forall (fun c => c <> 10)) (ts ++ [l]) ->
  exists s' ts' l', load_chars cs s = Ok s' /\ loading ts' l' s' /\ Forall (Forall (fun c => c <> 10)) (ts' ++ [l']) /\
    (length ts <= length ts')%nat.
Proof.
  revert s ts l. induction cs as [|c cs IH]; intros s ts l H Hl Hnl; cbn [load_chars]; [by exists s, ts, l|].
  destruct (Z.eq_dec c 10) as [->|Hc].
  - destruct (load_char_newline ts l s H) as (s' & -> & H'). cbn [mbind res_bind].
    destruct (length ts <? 255)%nat eqn:E; [|subst; by apply (IH s ts l)].
    destruct (IH s' (ts ++ [l]) [] H') as (s2 & ts' & l' & E2 & H2 & Hn2 & Hle); [cbn; lia|by apply Forall_app; repeat constructor|].
    exists s2, ts', l'. split_and!; try done. rewrite length_app in Hle. lia.
  - destruct (load_char_row ts l s c H Hc Hl) as (s' & -> & H'). cbn [mbind res_bind]. apply (IH s' ts _ H'); [rewrite length_take; lia|].
    apply Forall_app in Hnl as [H1 H2]. inversion_clear H2 as [|? ? Hl' _]. apply Forall_app. split; [done|].
    constructor; [|constructor]. apply Forall_take, Forall_app. split; [done|by repeat constructor].
Qed.

(** The buffer [load] starts from. *)
Definition empty_buf (b : buffer) : res buffer := ns ← wr (lens b) 0 0; mret (Buffer (lines b) ns 1).

Lemma empty_buf_ok b : buf_ok b -> exists b', empty_buf b = Ok b' /\ loading [] [] (0, b') /\ nlines b' = 1.
Proof.
  intros H. unfold empty_buf. destruct (row_get b 0 H) as (l & n & _ & _ & _ & Hn & Hr); [lia|].
  destruct (set_len_ok 0 0 b H ltac:(lia) _ Hr) as (ns & -> & Hb & Hrows); [lia|]. cbn [mbind res_bind].
  eexists. split; [reflexivity|]. split; [|done]. unfold loading. cbn [fst snd length]. split_and!; try done || lia.
  - apply (nlines_ok _ 1) in Hb; [done|lia].
  - change (rows (Buffer (lines b) ns 1)) with (rows (Buffer (lines b) ns (nlines b))). rewrite Hrows.
    change (Z.to_nat 0) with 0%nat. rewrite take_0. by destruct (rows b).
Qed.

(** The number of lines after the loop. *)
Lemma load_finish ts l li b nl : loading ts l (li, b) -> 1 <= nl <= li + 1 ->
  buf_ok (Buffer (lines b) (lens b) nl) /\ text (Buffer (lines b) (lens b) nl) = take (Z.to_nat nl) (ts ++ [l]).
Proof.
  intros (Hb & Hli & Hlt & Ht) Hnl. cbn [fst snd] in *. subst li. split; [apply nlines_ok; [done|lia]|].
  rewrite <- Ht, take_take, Nat.min_l by lia. done.
Qed.

Lemma load_eq n bs st : load n bs st =
  (let buf := file_array bs in
   b0 ← empty_buf (kbuf st);
   let st0 := Keo b0 0 0 0 false (fname st) 0 (cmd st) [] (pend_d st) (pend_g st) in
   if n <=? 0 then mret st0
   else
     '(li, b) ← for_each (Z.to_nat n) 0 (fun i s => c ← rd buf i; load_char c s) (0, b0);
     c ← rd buf (n - 1);
     mret (set_buf (Buffer (lines b) (lens b) (if (0 <? n) && (c =? 10) && (1 <? li + 1) then li + 1 - 1 else li + 1)) st0)).
Proof. unfold load, empty_buf. by destruct (wr (lens (kbuf st)) 0 0). Qed.

Lemma file_array_length bs : Z.of_nat (length (file_array bs)) = FILE_MAX.
Proof. unfold file_array. rewrite length_take, length_app, length_replicate. unfold FILE_MAX. lia. Qed.

Lemma file_array_take n bs : (n <= length bs)%nat -> Z.of_nat n <= FILE_MAX -> take n (file_array bs) = take n bs.
Proof. intros H1 H2. unfold file_array. rewrite take_take, Nat.min_l by lia. apply take_app_le. lia. Qed.

(** Whatever the file holds, [load] leaves a well-formed state. *)
Lemma load_wf n bs st : keo_wf st -> n <= FILE_MAX -> exists st', load n bs st = Ok st' /\ keo_wf st' /\
  fname st' = fname st /\ mode st' = 0 /\ dirty st' = false.
Proof.
  intros H Hn. rewrite <- (file_array_length bs) in Hn. rewrite load_eq. cbv zeta. set (buf := file_array bs) in *. clearbody buf.
  destruct (empty_buf_ok (kbuf st) (kw_buf _ H)) as (b0 & -> & H0 & Hn0).
  cbn [mbind res_bind]. cbv zeta.
  assert (forall b, buf_ok b -> Forall (Forall (fun c => c <> 10)) (text b) ->
    keo_wf (Keo b 0 0 0 false (fname st) 0 (cmd st) [] (pend_d st) (pend_g st))) as Hwf
    by (intros b Hb Hnl; destruct H; split; cbn; done || lia).
  destruct (Z.leb_spec n 0).
  - eexists. split; [reflexivity|]. split; [|done]. apply Hwf; [apply H0|].
    destruct H0 as (_ & _ & _ & H0). cbn [snd length app] in H0. unfold text. rewrite Hn0. change (Z.to_nat 1) with 1%nat.
    rewrite H0. by repeat constructor.
  - rewrite <- (take_drop (Z.to_nat n) buf). set (cs := take (Z.to_nat n) buf).
    assert (length cs = Z.to_nat n) as Hlc by (unfold cs; rewrite length_take; lia).
    assert (for_each (Z.to_nat n) 0 (fun i s => c ← rd (cs ++ drop (Z.to_nat n) buf) i; load_char c s) (0, b0) =
      load_chars cs (0, b0)) as ->.
    { rewrite <- Hlc. rewrite (for_each_ext _ _ _ (fun i s => c ← rd ([] ++ cs) i; load_char c s)).
      - apply (load_loop []).
      - intros i s Hi. cbn [app]. by rewrite rd_app_l by lia. }
    destruct (load_any cs (0, b0) [] [] H0) as ([li b] & ts & l & -> & HL & Hnl & _); [cbn; lia|by repeat constructor|].
    cbn [mbind res_bind]. destruct (rd_in (cs ++ drop (Z.to_nat n) buf) (n - 1)) as (c & -> & _); [rewrite length_app; lia|].
    cbn [mbind res_bind]. eexists. split; [reflexivity|]. split; [|done].
    destruct (load_finish _ _ _ _ (if (0 <? n) && (c =? 10) && (1 <? li + 1) then li + 1 - 1 else li + 1) HL) as [Hb Ht].
    { destruct HL as (_ & Hli & _ & _). cbn in Hli. destruct (Z.ltb_spec 1 (li + 1)); rewrite ?andb_false_r; [|lia].
      destruct (_ && _); lia. }
    apply Hwf; [done|]. rewrite Ht. by apply Forall_take.
Qed.

Lemma unlines_snoc t r : unlines (t ++ [r]) = unlines t ++ r ++ [10].
Proof. rewrite unlines_app. cbn [unlines flat_map]. by rewrite app_nil_r. Qed.

Lemma text_short b : buf_ok b -> Forall (fun r => (length r <= 255)%nat) (text b).
Proof.
  intros H. apply Forall_lookup. intros i r Hr. pose proof (lookup_lt_Some _ _ _ Hr) as Hi.
  rewrite text_length in Hi by done. destruct (text_get b (Z.of_nat i) H) as (l & n & _ & _ & Hl & Hn & Ht); [lia|].
  rewrite Nat2Z.id, Hr in Ht. injection Ht as ->. rewrite length_take. lia.
Qed.

(** The characters of a saved text, read back. *)
Lemma load_saved t s : loading [] [] s -> t <> [] -> (length t <= 256)%nat -> Forall (Forall (fun c => c <> 10)) t ->
  Forall (fun r => (length r <= 255)%nat) t ->
  exists s' ts l, load_chars (unlines t) s = Ok s' /\ loading ts l s' /\ length ts = Nat.min 255 (length t) /\
    take (length ts) (ts ++ [l]) = take 255 t.
Proof.
  intros H Hne Hlen Hnl Hs. destruct (decide (length t <= 255)%nat).
  - destruct (load_lines t [] s H Hnl Hs) as (s' & -> & H'); [done|]. exists s', t, []. split_and!; try done; [lia|].
    rewrite take_app_length. by rewrite take_ge.
  - destruct (exists_last (l := t)) as (t' & r & ->); [done|]. rewrite length_app in *. cbn [length] in *.
    apply Forall_app in Hnl as [Hnl Hr]. apply Forall_app in Hs as [Hs Hsr].
    inversion_clear Hr as [|? ? Hr' _]. inversion_clear Hsr as [|? ? Hsr' _].
    destruct (load_lines t' [] s H Hnl Hs) as (s1 & E1 & H1); [cbn; lia|]. cbn [app] in H1.
    destruct (load_row t' [] r s1 H1 Hr') as (s2 & E2 & H2); [cbn; lia|]. cbn [app] in H2. rewrite take_ge in H2 by done.
    destruct (load_char_newline t' r s2 H2) as (s3 & E3 & H3). rewrite (proj2 (Nat.ltb_ge _ _)) in H3 by lia. subst s3.
    exists s2, t', r. split_and!; try done; [|lia|].
    + rewrite unlines_snoc, !load_chars_app, E1. cbn [mbind res_bind]. rewrite load_chars_app, E2. cbn [mbind res_bind load_chars].
      by rewrite E3.
    + rewrite take_app_length. by rewrite take_app_length' by lia.
Qed.

(** Reading the array of a saved text. *)
Lemma load_loop_saved bs s : Z.of_nat (length bs) <= FILE_MAX ->
  for_each (length bs) 0 (fun i s => c ← rd (file_array bs) i; load_char c s) s = load_chars bs s.
Proof.
  intros H. rewrite <- (load_loop [] bs). cbn [app length]. apply for_each_ext. intros i s' Hi.
  assert (rd (file_array bs) i = rd bs i) as ->; [|done].
  rewrite <- (take_drop (length bs) (file_array bs)), file_array_take, take_ge by lia. by rewrite rd_app_l by lia.
Qed.

Lemma save_load_ok st st0 bs : keo_wf st -> keo_wf st0 -> save_bytes (kbuf st) = Ok (Some bs) ->
  exists st', load (Z.of_nat (length bs)) bs st0 = Ok st' /\ keo_wf st' /\ text (kbuf st') = take 255 (text (kbuf st)).
Proof.
  intros H H0 Hs. rewrite save_bytes_ok in Hs by apply H. destruct (Z.ltb_spec FILE_MAX (Z.of_nat (length (unlines (text (kbuf st)))))) as [|Hm]; [done|].
  injection Hs as <-. set (t := text (kbuf st)) in *.
  destruct (load_wf (Z.of_nat (length (unlines t))) (unlines t) st0 H0 Hm) as (st' & E & Hw & _).
  exists st'. split; [done|]. split; [done|].
  pose proof (bo_n _ (kw_buf _ H)) as HN. pose proof (text_length _ (kw_buf _ H)) as HL. fold t in HL.
  assert (t <> []) as Hne by (intros E1; rewrite E1 in HL; cbn in HL; lia).
  rewrite load_eq in E. destruct (empty_buf_ok (kbuf st0) (kw_buf _ H0)) as (b0 & E0 & HB & _). cbv zeta in E. rewrite E0 in E.
  cbn [mbind res_bind] in E. cbv zeta in E. destruct (exists_last Hne) as (t' & r & Ht).
  assert (0 < Z.of_nat (length (unlines t))) as Hpos by (rewrite Ht, unlines_snoc, !length_app; cbn; lia).
  rewrite (proj2 (Z.leb_gt _ _)), (proj2 (Z.ltb_lt 0 _)), Nat2Z.id in E by done.
  rewrite (load_loop_saved (unlines t)) in E by done.
  destruct (load_saved t (0, b0) HB Hne ltac:(lia) (kw_nonl _ H) (text_short _ (kw_buf _ H))) as ([li b] & ts & l & E1 & HF & Hlts & Htk).
  rewrite E1 in E. cbn [mbind res_bind] in E.
  assert (rd (file_array (unlines t)) (Z.of_nat (length (unlines t)) - 1) = Ok 10) as Er.
  { rewrite <- (take_drop (length (unlines t)) (file_array (unlines t))), file_array_take, take_ge, rd_app_l by lia.
    apply rd_Ok. split; [lia|]. rewrite Ht, unlines_snoc, app_assoc, length_app. cbn [length].
    rewrite lookup_app_r by lia. by replace (_ - _)%nat with 0%nat by lia. }
  rewrite Er in E. cbn [mbind res_bind andb] in E. change (10 =? 10) with true in E. cbn [andb] in E.
  pose proof HF as (_ & Hli & _ & _). cbn [fst] in Hli. rewrite (proj2 (Z.ltb_lt _ _)) in E by lia.
  injection E as <-. cbn [set_buf kbuf]. destruct (load_finish _ _ _ _ (li + 1 - 1) HF ltac:(lia)) as [_ ->].
  rewrite <- Htk. f_equal. lia.
Qed.

(** ** Lemmas: edits are recorded *)

(** Closes a case of an operation that ends with [dirty] set, or that touches
    neither the buffer nor [dirty]. *)
Ltac tracked := repeat (res_inv; repeat case_match; simplify_eq/=); try done.

Lemma del_char_tracks st st' : del_char st = Ok st' -> tracks st st'.
Proof. unfold del_char, tracks. intros E. tracked. Qed.

Lemma open_line_tracks below st st' : open_line below st = Ok st' -> tracks st st'.
Proof. unfold open_line, tracks. intros E. tracked. Qed.

Lemma del_line_tracks st st' : del_line st = Ok st' -> tracks st st'.
Proof. unfold del_line, tracks. intros E. tracked. Qed.

Lemma unpend_tracks c st st' : tracks st st' -> tracks st (unpend c st').
Proof. done. Qed.

Lemma normal_key_tracks c st st' : normal_key c st = Ok st' -> tracks st st'.
Proof.
  unfold normal_key. intros E. repeat (case_match; [|]); res_inv;
    repeat match goal with
    | H : open_line _ _ = Ok _ |- _ => apply open_line_tracks in H
    | H : del_char _ = Ok _ |- _ => apply del_char_tracks in H
    | H : del_line _ = Ok _ |- _ => apply del_line_tracks in H
    end; try done; by case_match.
Qed.

Lemma insert_key_tracks c st st' : insert_key c st = Ok st' -> tracks st st'.
Proof.
  unfold insert_key. cbv zeta. intros E. destruct (c =? 27); [unfold tracks; tracked|].
  destruct (_ || _); [by eapply normal_key_tracks|]. destruct (c =? 10); [unfold split_line, tracks in *; tracked|].
  destruct (c =? 8).
  - unfold back_space in E. destruct (0 <? cx st); [by apply del_char_tracks in E|]. unfold tracks. tracked.
  - unfold insert_char, tracks in *. tracked.
Qed.

Lemma draw_tracks o st st' : draw st = Ok (o, st') -> tracks st st'.
Proof. unfold draw, clamp. intros E. res_inv. done. Qed.

(** ** Lemmas: a session *)

Section session.
Context (fwrite : str -> list Z -> Z).

Lemma cmd_key_leaves c st : keo_wf st -> exists a, cmd_key fwrite c st = Ok a /\ leaves fwrite st a.
Proof.
  intros H. unfold cmd_key. destruct (c =? 27).
  { eexists. split; [reflexivity|]. split; [|done]. by apply wf_set_mode. }
  destruct (c =? 10).
  { destruct (exec_cmd_leaves fwrite (set_mode 0 st)) as (a & -> & Ha); [by apply wf_set_mode|]. eexists. split; [reflexivity|].
    by eapply leaves_trans. }
  pose proof (kw_cmd _ H) as Hl. pose proof (kw_cmdc _ H) as Hc. destruct (c =? 8).
  { eexists. split; [reflexivity|]. destruct (0 <? length (cmd st))%nat; [|done]. split; [|done].
    destruct (cmd st) as [|x s _] using rev_ind; [by apply wf_set_cmd|]. rewrite removelast_snoc.
    rewrite length_app in Hl. apply Forall_app in Hc as [Hc _]. apply wf_set_cmd; [lia|done|done]. }
  destruct ((32 <=? c) && (c <? 127) && _) eqn:E; [|by eexists].
  zbool. unfold put_cmd. rewrite (proj2 (Z.ltb_lt _ _)) by lia. cbn [mbind res_bind]. eexists. split; [reflexivity|].
  split; [|done]. apply wf_set_cmd; [rewrite length_app; cbn; lia| |done].
  apply Forall_app. split; [done|]. constructor; [lia|constructor].
Qed.

Lemma ok_put_msg st : keo_ok st -> keo_ok (put_msg [] st).
Proof. intros []. split; try done. apply wf_put_msg; [cbn; lia|done]. Qed.

(** A key before the screen is drawn. *)
Lemma key_leaves c st : keo_ok st ->
  exists a, (if mode st =? 0 then st ← normal_key c st; mret (Stay st)
       else if mode st =? 1 then st ← insert_key c st; mret (Stay st)
       else cmd_key fwrite c st) = Ok a /\ leaves fwrite st a.
Proof.
  intros H. destruct (mode st =? 0); [|destruct (mode st =? 1)].
  - destruct (normal_key_wf c st H) as (st' & E & Hw). rewrite E. eexists. split; [reflexivity|].
    split; [done|by eapply normal_key_tracks].
  - destruct (insert_key_ok c st H) as (st' & E & Hw & _). rewrite E. eexists. split; [reflexivity|].
    split; [done|by eapply insert_key_tracks].
  - by apply cmd_key_leaves, ko_wf.
Qed.

Lemma keo_key_leaves c st : keo_ok st -> exists o a, keo_key fwrite c st = Ok (o, a) /\ Forall on_screen o /\
  leaves fwrite st a /\ match a with Stay st' => keo_ok st' | Exited _ => True end.
Proof.
  intros H. apply ok_put_msg in H. unfold keo_key. cbv zeta.
  destruct (key_leaves c _ H) as (a & -> & Ha). cbn [mbind res_bind].
  apply (leaves_trans fwrite st) in Ha; [|done]. destruct a as [st'|st'].
  - destruct (draw_ok st' (proj1 Ha)) as (o & st2 & tail & E & Hok & _ & _ & _ & _ & Ho & _). rewrite E. do 2 eexists.
    split; [reflexivity|]. split; [done|]. split; [|done]. split; [apply Hok|]. apply draw_tracks in E.
    by eapply tracks_trans; [apply Ha|].
  - by do 2 eexists.
Qed.

Lemma keo_keys_leaves cs st : keo_ok st -> exists a, keo_keys fwrite cs st = Ok a /\
  leaves fwrite st a /\ match a with Stay st' => keo_ok st' | Exited _ => True end.
Proof.
  revert st. induction cs as [|c cs IH]; intros st H; cbn [keo_keys].
  { eexists. split; [reflexivity|]. split; [split; [apply H|done]|done]. }
  destruct (keo_key_leaves c st H) as (o & a & -> & _ & Hl & Ha). cbn [mbind res_bind].
  destruct a as [st1|st1]; [|by eexists]. destruct (IH st1 Ha) as (a & -> & Hl' & Ha'). eexists. split; [reflexivity|].
  split; [|done]. eapply leaves_trans; [apply Hl|done].
Qed.

Lemma leaves_may_end st st' : dirty st = false -> leaves fwrite st (Exited st') -> may_end fwrite (text (kbuf st)) st'.
Proof.
  intros Hd [?|[[Hd' Ht]|?]]; [by left| |by right; right]. right; left. split; [done|]. by destruct (Ht Hd') as [_ ->].
Qed.
End session.

Lemma keo0_wf : keo_wf keo0.
Proof.
  assert (text (kbuf keo0) = [[]]) as Ht by reflexivity.
  split; rewrite ?Ht; [|by repeat constructor|cbn; lia|cbn; lia|constructor|cbn; lia|cbn; lia].
  split; [done|by apply Forall_replicate|done|apply Forall_replicate; lia|cbn; lia].
Qed.

Lemma keo_start_ok arg n bs : n <= FILE_MAX ->
  exists o st, keo_start arg n bs keo0 = Ok (o, st) /\ keo_ok st /\ dirty st = false /\ Forall on_screen o.
Proof.
  intros Hn. unfold keo_start.
  destruct (load_wf n bs (set_fname (take 127 arg) keo0)) as (st & -> & Hw & _ & _ & Hd); [|done|].
  { apply wf_set_fname; [rewrite length_take; lia|apply keo0_wf]. }
  cbn [mbind res_bind]. destruct (draw_ok st Hw) as (o & st' & tail & E & Hok & _ & _ & _ & _ & Ho & _). rewrite E.
  do 2 eexists. split_and!; try done. unfold draw, clamp in E. res_inv. done.
Qed.

(** ** Properties *)

(** C16. The editor never leaves its arrays and loses no edit unasked.
    Whatever [sys_fread] stores into the array of 4096 bytes it was given,
    whatever keys arrive and whatever [sys_fwrite] answers, no access of the
    editor is out of bounds, those of [save] and [load] to their file arrays
    included, and whenever it waits for a key the cursor is on a character or
    the end of a line inside the 23-line window.  While the buffer is not
    marked dirty the text is still the one loaded.  The editor ends only by the
    command [q!], on the text it loaded, or after a [sys_fwrite] of the whole
    text under the name of the buffer whose answer, a [long] cut to [int], is
    0; an answer that is 0 before the cut has cleared [dirty]. *)
Theorem keo_session_safe : forall fwrite arg n bs cs, n <= FILE_MAX ->
  exists o st a, keo_start arg n bs keo0 = Ok (o, st) /\ keo_ok st /\ dirty st = false /\ Forall on_screen o /\
    keo_keys fwrite cs st = Ok a /\
    match a with
    | Stay st' => keo_ok st' /\ (dirty st' = false -> text (kbuf st') = text (kbuf st))
    | Exited st' => may_end fwrite (text (kbuf st)) st'
    end.
Proof.
  intros fwrite arg n bs cs Hn. destruct (keo_start_ok arg n bs Hn) as (o & st & E & Hok & Hd & Ho).
  destruct (keo_keys_leaves fwrite cs st Hok) as (a & Ea & Hl & Ha). exists o, st, a. split_and!; try done.
  destruct a as [st'|st']; [|by apply leaves_may_end]. split; [done|]. intros Hd'. by destruct (proj2 Hl Hd') as [_ ->].
Qed.

Lemma keo_session_safe_witness : exists o st a,
  keo_start (lit "f") 3 (lit "a" ++ [10; 98]) keo0 = Ok (o, st) /\ keo_ok st /\ dirty st = false /\ Forall on_screen o /\
    keo_keys (fun _ _ => 0) (lit "jdd:wq" ++ [10]) st = Ok a /\
    match a with
    | Stay st' => keo_ok st' /\ (dirty st' = false -> text (kbuf st') = text (kbuf st))
    | Exited st' => may_end (fun _ _ => 0) (text (kbuf st)) st'
    end.
Proof. apply (keo_session_safe (fun _ _ => 0) (lit "f") 3 (lit "a" ++ [10; 98]) (lit "jdd:wq" ++ [10])). unfold FILE_MAX. lia. Defined.

(** C26. Insert mode is a gap buffer over the file.  A key that is no arrow
    changes the characters in front of the cursor and those behind it as
    [gap_key] says: a printable character or a newline arrives at the gap,
    backspace takes the character in front of it (joining lines when that is
    a newline), and nothing changes when the fixed arrays have no room. *)
Theorem insert_key_types : forall c st, keo_ok st ->
  ((c =? KEY_UP) || (c =? KEY_DOWN) || (c =? KEY_LEFT) || (c =? KEY_RIGHT)) = false ->
  exists st', insert_key c st = Ok st' /\ keo_wf st' /\ gap st' = gap_key c (room c st) (gap st) /\
    unlines (text (kbuf st)) = fst (gap st) ++ snd (gap st).
Proof.
  intros c st H Hc. destruct (insert_key_ok c st H) as (st' & E & Hw & Hg). rewrite Hc in Hg.
  exists st'. split_and!; try done. symmetry. by apply gap_file.
Qed.

(** The editor on an empty file. *)
Lemma keo0_ok : keo_ok keo0.
Proof. split; [apply keo0_wf|cbn; lia|cbn; lia|cbn; lia|done]. Qed.

Lemma insert_key_types_witness : exists st', insert_key 65 keo0 = Ok st' /\ keo_wf st' /\
  gap st' = ([65], [10]) /\ unlines (text (kbuf keo0)) = [] ++ [10].
Proof.
  destruct (insert_key_types 65 keo0 keo0_ok) as (st' & E & Hw & Hg & Hu); [reflexivity|]. exists st'.
  split; [exact E|]. split; [exact Hw|]. split; [rewrite Hg; reflexivity|exact Hu].
Defined.

(** C27. Saving and loading.  The bytes [save] writes, read by [load] into any
    editor, give the text back, except that a text of 256 lines loses its
    last line. *)
Theorem save_load_roundtrip : forall st st0 bs, keo_wf st -> keo_wf st0 -> save_bytes (kbuf st) = Ok (Some bs) ->
  exists st', load (Z.of_nat (length bs)) bs st0 = Ok st' /\ keo_wf st' /\ text (kbuf st') = take 255 (text (kbuf st)).
Proof. exact save_load_ok. Qed.

Lemma save_load_roundtrip_witness : exists st',
  load (Z.of_nat (length [10])) [10] keo0 = Ok st' /\ keo_wf st' /\ text (kbuf st') = take 255 (text (kbuf keo0)).
Proof. apply (save_load_roundtrip keo0 keo0 [10] keo0_wf keo0_wf). vm_compute. reflexivity. Defined.

(** The screen shows the text.  After any edit [draw] brings the cursor
    back into the text and the window over the cursor, writes the 23 lines of
    the window, each cut or padded to 80 columns and [~] below the text, asks
    for nothing outside the 80x25 screen, and leaves the text alone. *)
Theorem draw_shows : forall st, keo_wf st ->
  exists o st' tail, draw st = Ok (o, st') /\ keo_ok st' /\ kbuf st' = kbuf st /\ (keo_ok st -> st' = st) /\
    o = text_rows st' ++ tail /\ Forall on_screen o /\
    (mode st' <> 2 -> last o = Some (Goto (cy st' - top st') (Z.min (cx st') 79))).
Proof.
  intros st H. destruct (draw_ok st H) as (o & st' & tail & E & Hok & Hb & _ & Hid & Ho & Hs & Hl).
  by exists o, st', tail.
Qed.

Lemma draw_shows_witness : exists o st' tail, draw keo0 = Ok (o, st') /\ keo_ok st' /\ kbuf st' = kbuf keo0 /\
    (keo_ok keo0 -> st' = keo0) /\ o = text_rows st' ++ tail /\ Forall on_screen o /\
    (mode st' <> 2 -> last o = Some (Goto (cy st' - top st') (Z.min (cx st') 79))).
Proof. apply (draw_shows keo0). exact keo0_wf. Defined.
