(* ===== verification/Shell.v ===== *)
(** * The shell ([user/shell.c])

    The history, the line editor, the command dispatcher and the main loop.
    The kernel behind [syscall] is an argument: [sys c k] answers the call [c]
    in kernel state [k] with the value the wrapper returns and, when that is
    positive, the first bytes of the buffer it filled; or it does not return
    (the machine stops or another program is entered).  A command runs in a
    state monad over the kernel. *)
From S2P Require Import Prelude Str Kbd Fs Dec Expr Line.

(** ** History *)

Definition HIST_N : Z := 16.

(** [hist] holds strings in rows of 128 characters, [hcount] of them in use. *)
Record history := History { hist : list str; hcount : Z }.

(** [for (i = 0; line[i]; i++) row[i] = line[i]; row[i] = 0]. *)
Definition put_hist (h : list str) (i : Z) (s : str) : res (list str) :=
  if (length s <? 128)%nat then wr h i s else Ub.

Definition hist_push (line : str) (h : history) : res history :=
  if deref line =? 0 then mret h
  else
    dup ← (if 0 <? hcount h then l ← rd (hist h) (hcount h - 1); mret (same_condition l line) else mret false);
    if dup : bool then mret h
    else if hcount h <? HIST_N then
      l ← put_hist (hist h) (hcount h) line; mret (History l (hcount h + 1))
    else
      l ← for_each (Z.to_nat (HIST_N - 1)) 0 (fun i l => s ← rd l (i + 1); put_hist l i s) (hist h);
      l ← put_hist l (HIST_N - 1) line; mret (History l (hcount h)).

(** ** Strings *)

Fixpoint start (s pre : str) : bool :=
  match pre with
  | [] => true
  | c :: pre' => if deref s =? c then start (tl s) pre' else false
  end.

Definition blank (c : Z) : bool := (c =? 32) || (c =? 9).

Fixpoint skip_sp (s : str) : str :=
  match s with
  | c :: s' => if blank c then skip_sp s' else s
  | [] => []
  end.

(** The loop of [trim_end] at length [n]. *)
Fixpoint trim_to (n : nat) (s : str) : str :=
  match n with
  | O => []
  | S n' => if blank (nth n' s 0) then trim_to n' s else take n s
  end.

Definition trim_end (s : str) : str := trim_to (length s) s.

(** [while ( *s >= '0' && *s <= '9') { v = v * 10 + ( *s - '0'); s++; digits++; }]
    in type [long]. *)
Fixpoint idx_digits (s : str) (v : Z) (digits : nat) : res (Z * str * nat) :=
  match s with
  | c :: s' =>
      if is_digit c then v10 ← chk (v * 10); v' ← chk (v10 + (c - 48)); idx_digits s' v' (S digits)
      else mret (v, s, digits)
  | [] => mret (v, [], digits)
  end.

Definition parse_idx (s : str) : res (option Z) :=
  '(v, rest, digits) ← idx_digits s 0 0;
  mret (if (digits =? 0)%nat || negb (deref rest =? 0) then None else Some v).

(** ** Line editing *)

(** The inner loop of [user_main]: the line, its echo and the keys that are
    left when the newline has come. *)
Fixpoint edit_line (h : history) (keys : list Z) (line out : str) (hidx : Z) : res (option (str * str * list Z)) :=
  match keys with
  | [] => mret None
  | k :: keys' =>
      if k =? 10 then mret (Some (line, out, keys'))
      else if (k =? KEY_UP) || (k =? KEY_DOWN) then
        if (if k =? KEY_UP then hcount h =? 0 else hidx <? 0) then edit_line h keys' line out hidx
        else
          let nh := if k =? KEY_UP then (if hidx <? 0 then hcount h - 1 else if 0 <? hidx then hidx - 1 else hidx)
                    else (if hidx =? hcount h - 1 then -1 else hidx + 1) in
          let out := out ++ replicate (length line) 8 in
          if 0 <=? nh then
            s ← rd (hist h) nh;
            let l := take 127 s in edit_line h keys' l (out ++ l) nh
          else edit_line h keys' [] out nh
      else if k =? 8 then
        if (0 <? length line)%nat then edit_line h keys' (removelast line) (out ++ [8]) (-1)
        else edit_line h keys' line out (-1)
      else if (32 <=? k) && (k <? 127) && (length line <? 127)%nat then
        line ← put_line line k; edit_line h keys' line (out ++ [k]) (-1)
      else edit_line h keys' line out (-1)
  end.

(** ** System calls *)

Inductive call :=
| Puts (s : str) | Write (s : str) | Clear | Reboot | Poweroff | Setcolor (fg bg : Z) | Getcwd (cap : Z)
| Listdir (path : str) (cap : Z) | Chdir (path : str) | Mkdir (path : str) | Meminfo (cap : Z) | Lsmod (cap : Z)
| Run (name : str) (arg : option str) | Partlist (cap : Z) | Mount (idx : Z) | Fread (path : str) (cap : Z).

(** A program that issues calls; [None] when one does not return. *)
Definition prog (K A : Type) : Type := K -> res (option A * K).

#[global] Instance prog_ret {K} : MRet (prog K) := fun A a k => Ok (Some a, k).
#[global] Instance prog_bind {K} : MBind (prog K) := fun A B f m k =>
  '(o, k) ← m k; match o with Some a => f a k | None => Ok (None, k) end.

(** A computation without calls. *)
Definition lift {K A} (m : res A) : prog K A := fun k => a ← m; Ok (Some a, k).

Section shell.
Context {K : Type} (sys : call -> prog K (Z * list Z)).

Definition do (c : call) : prog K unit := _ ← sys c; mret tt.
Definition puts (s : str) : prog K unit := do (Puts s).

(** [n = sys_...(buf, cap); if (n > 0) sys_write(buf, n);], the value handed on. *)
Definition show (c : call) : prog K Z :=
  '(n, data) ← sys c;
  if 0 <? n then _ ← do (Write (take (Z.to_nat n) data)); mret n else mret n.

(** [for (;;) hlt] *)
Definition hlt : prog K unit := fun k => Ok (None, k).

Fixpoint puts_all (ss : list str) : prog K unit :=
  match ss with [] => mret tt | s :: ss' => _ ← puts s; puts_all ss' end.

(** ** Commands *)

Definition cmd_ls (arg : str) : prog K unit :=
  n ← show (Listdir (trim_end (skip_sp arg)) 2048);
  if n <? 0 then puts (lit "bad path" ++ [10]) else mret tt.

Definition cmd_cd (arg : str) : prog K unit :=
  '(r, _) ← sys (Chdir (trim_end (skip_sp arg)));
  if negb (r =? 0) then puts (lit "bad path" ++ [10]) else mret tt.

Definition cmd_mkdir (arg : str) : prog K unit :=
  '(r, _) ← sys (Mkdir (trim_end (skip_sp arg)));
  if r =? FS_USAGE then puts (lit "usage: mkdir name" ++ [10])
  else if r =? FS_BADPATH then puts (lit "bad path" ++ [10])
  else if r =? FS_BADNAME then puts (lit "bad name" ++ [10])
  else if r =? FS_EXISTS then puts (lit "exists" ++ [10])
  else if r =? FS_FULL then puts (lit "full" ++ [10])
  else if r =? FS_RO then puts (lit "read-only" ++ [10])
  else mret tt.

Definition help_text : list str :=
  map (fun s => lit s ++ [10])
    ["Available Command:"; "help - Command List:"; "echo - Print the Text:"; "info - About:"; "reboot - Restart:";
     "poweroff - Power off:"; "ls - List files:"; "cd - Change dir:"; "mkdir - Make dir:"; "sin - Run as superuser:";
     "mem - Show memory:"; "run - Run program:"; "moon - Mount disk:"; "clear - Clear program"; "cat - Show file:";
     "keo - Edit file:"]%string.

Definition cmd_run (name : str) (arg : option str) : prog K unit :=
  '(r, _) ← sys (Run name arg);
  if negb (r =? 0) then puts (lit "no such program" ++ [10]) else mret tt.

Definition cmd_moon (arg : str) : prog K unit :=
  let arg := trim_end (skip_sp arg) in
  if same_condition arg (lit "-u") then do (Mount (-1))
  else
    o ← lift (parse_idx arg);
    match o with
    | None => puts (lit "cannot moon" ++ [10])
    | Some idx =>
        '(r, _) ← sys (Mount idx);
        if negb (r =? 0) then puts (lit "cannot moon" ++ [10]) else mret tt
    end.

Definition cmd_cat (arg : str) : prog K unit :=
  n ← show (Fread (trim_end (skip_sp arg)) 2048);
  if n <? 0 then puts (lit "cannot read" ++ [10]) else mret tt.

Fixpoint running (fuel : nat) (line : str) : prog K unit :=
  match fuel with
  | O => fun _ => Oof
  | S fuel' =>
      if deref line =? 0 then mret tt
      else if same_condition line (lit "help") then puts_all help_text
      else if same_condition line (lit "echo") then puts [10]
      else if start line (lit "echo ") then _ ← puts (drop 5 line); puts [10]
      else if same_condition line (lit "clear") then do Clear
      else if same_condition line (lit "info") then puts (lit "Inaneos beta 0.0.2 version" ++ [10])
      else if same_condition line (lit "reboot") then _ ← do Reboot; hlt
      else if same_condition line (lit "poweroff") || same_condition line (lit "shutdown") then _ ← do Poweroff; hlt
      else if same_condition line (lit "ls") then cmd_ls []
      else if start line (lit "ls ") then cmd_ls (drop 3 line)
      else if same_condition line (lit "cd") then cmd_cd []
      else if start line (lit "cd ") then cmd_cd (drop 3 line)
      else if same_condition line (lit "mkdir") then cmd_mkdir []
      else if start line (lit "mkdir ") then cmd_mkdir (drop 6 line)
      else if same_condition line (lit "sin") then puts (lit "usage: sin command" ++ [10])
      else if start line (lit "sin ") then running fuel' (drop 4 line)
      else if same_condition line (lit "mem") then _ ← show (Meminfo 256); mret tt
      else if same_condition line (lit "run") then _ ← show (Lsmod 256); mret tt
      else if start line (lit "run ") then cmd_run (trim_end (skip_sp (drop 4 line))) None
      else if same_condition line (lit "keo") then puts (lit "usage: keo file" ++ [10])
      else if start line (lit "keo ") then cmd_run (lit "keo") (Some (trim_end (skip_sp (drop 4 line))))
      else if same_condition line (lit "moon") then
        n ← show (Partlist 256); if 0 <? n then mret tt else puts (lit "no disk" ++ [10])
      else if start line (lit "moon ") then cmd_moon (drop 5 line)
      else if start line (lit "cat ") then cmd_cat (drop 4 line)
      else _ ← puts line; puts (lit ": Command Not Found" ++ [10])
  end.

(** ** The main loop *)

Definition prompt : prog K unit :=
  _ ← do (Setcolor 0x0A 0x00);
  _ ← puts (lit "root@inaneos:");
  _ ← show (Getcwd 128);
  _ ← puts (lit "# ");
  do (Setcolor 0x0F 0x00).

Fixpoint put1s (s : str) : prog K unit :=
  match s with [] => mret tt | c :: s' => _ ← do (Write [c]); put1s s' end.

(** One turn: the history and the keys that are left; [None] when the keys end. *)
Definition shell_turn (h : history) (keys : list Z) : prog K (option (history * list Z)) :=
  _ ← prompt;
  o ← lift (edit_line h keys [] [] (-1));
  match o with
  | None => mret None
  | Some (line, echo, keys) =>
      _ ← put1s (echo ++ [10]);
      h ← lift (hist_push line h);
      _ ← running (S (length line)) line;
      mret (Some (h, keys))
  end.

Fixpoint user_main (fuel : nat) (h : history) (keys : list Z) : prog K unit :=
  match fuel with
  | O => fun _ => Oof
  | S fuel' =>
      o ← shell_turn h keys;
      match o with None => mret tt | Some (h, keys) => user_main fuel' h keys end
  end.
End shell.

(** ** Specification *)

(** The lines in use, oldest first. *)
Definition view (h : history) : list str := take (Z.to_nat (hcount h)) (hist h).

Record hist_ok (h : history) : Prop := {
  ho_len : length (hist h) = 16%nat;
  ho_count : 0 <= hcount h <= 16;
  ho_lines : Forall (fun s => s <> [] /\ Forall printable s /\ (length s <= 127)%nat) (view h)
}.

Definition hist0 : history := History (replicate 16 []) 0.

Definition lastn {A} (n : nat) (l : list A) : list A := drop (length l - n) l.

(** Lines without the empty ones and without repetitions. *)
Definition keep (v : list str) (l : str) : list str :=
  if decide (l = []) then v else if decide (last v = Some l) then v else v ++ [l].
Definition squeeze (ls : list str) : list str := foldl keep [] ls.

Fixpoint push_all (ls : list str) (h : history) : res history :=
  match ls with [] => mret h | l :: ls' => h ← hist_push l h; push_all ls' h end.

(** A line cut at its first space. *)
Fixpoint cut (s : str) : str * option str :=
  match s with
  | [] => ([], None)
  | c :: s' => if c =? 32 then ([], Some s') else let '(w, r) := cut s' in (c :: w, r)
  end.

Fixpoint find {B} (w : str) (t : list (str * B)) : option B :=
  match t with [] => None | (x, b) :: t' => if decide (w = x) then Some b else find w t' end.

Section table.
Context {K : Type} (sys : call -> prog K (Z * list Z)).

(** The commands that stand alone. *)
Definition bare : list (str * prog K unit) :=
  [([], mret tt); (lit "help", puts_all sys help_text); (lit "echo", puts sys [10]); (lit "clear", do sys Clear);
   (lit "info", puts sys (lit "Inaneos beta 0.0.2 version" ++ [10])); (lit "reboot", (_ ← do sys Reboot; hlt));
   (lit "poweroff", (_ ← do sys Poweroff; hlt)); (lit "shutdown", (_ ← do sys Poweroff; hlt));
   (lit "ls", cmd_ls sys []); (lit "cd", cmd_cd sys []); (lit "mkdir", cmd_mkdir sys []);
   (lit "sin", puts sys (lit "usage: sin command" ++ [10])); (lit "mem", (_ ← show sys (Meminfo 256); mret tt));
   (lit "run", (_ ← show sys (Lsmod 256); mret tt)); (lit "keo", puts sys (lit "usage: keo file" ++ [10]));
   (lit "moon", (n ← show sys (Partlist 256); if 0 <? n then mret tt else puts sys (lit "no disk" ++ [10])))].

(** The commands that take the rest of the line; [sin] runs it again. *)
Definition with_rest (again : str -> prog K unit) : list (str * (str -> prog K unit)) :=
  [(lit "echo", fun a => _ ← puts sys a; puts sys [10]); (lit "ls", cmd_ls sys); (lit "cd", cmd_cd sys);
   (lit "mkdir", cmd_mkdir sys); (lit "sin", again); (lit "run", fun a => cmd_run sys (trim_end (skip_sp a)) None);
   (lit "keo", fun a => cmd_run sys (lit "keo") (Some (trim_end (skip_sp a)))); (lit "moon", cmd_moon sys);
   (lit "cat", cmd_cat sys)].

Definition unknown (line : str) : prog K unit := _ ← puts sys line; puts sys (lit ": Command Not Found" ++ [10]).

Definition dispatch (again : str -> prog K unit) (line : str) : prog K unit :=
  match cut line with
  | (w, None) => default (unknown line) (find w bare)
  | (w, Some a) => match find w (with_rest again) with Some f => f a | None => unknown line end
  end.
End table.

(** How a line ends: the shell goes on, it has asked for the end of the
    machine, it may have been replaced by another program, or the number
    behind [moon] does not fit [long]. *)
Inductive ending := Returns | Stops | Leaves | Overflows.

Fixpoint ending_of (fuel : nat) (line : str) : ending :=
  match cut line with
  | (w, None) => if decide (w = lit "reboot" \/ w = lit "poweroff" \/ w = lit "shutdown") then Stops else Returns
  | (w, Some a) =>
      if decide (w = lit "sin") then match fuel with O => Returns | S fuel' => ending_of fuel' a end
      else if decide (w = lit "run" \/ w = lit "keo") then Leaves
      else if decide (w = lit "moon") then
        let arg := trim_end (skip_sp a) in
        if same_condition arg (lit "-u") then Returns else match parse_idx arg with Ub => Overflows | _ => Returns end
      else Returns
  end.

Definition end_of (line : str) : ending := ending_of (length line) line.

(** The lines that the keys enter. *)
Fixpoint entered (fuel : nat) (h : history) (keys : list Z) : list str :=
  match fuel with
  | O => []
  | S fuel' =>
      match edit_line h keys [] [] (-1) with
      | Ok (Some (line, _, keys)) => line :: match hist_push line h with Ok h => entered fuel' h keys | _ => [] end
      | _ => []
      end
  end.

(** A kernel that answers every call, but that it need not come back from a
    restart, a power-off or the start of a program. *)
Definition exits (c : call) : bool := match c with Reboot | Poweroff | Run _ _ => true | _ => false end.
Definition answers {K} (sys : call -> prog K (Z * list Z)) : Prop :=
  forall c k, exists o k', sys c k = Ok (o, k') /\ (exits c = false -> o <> None).

(** ** Lemmas: strings *)

Lemma cut_none s w : cut s = (w, None) -> s = w /\ Forall (fun c => c <> 32) w.
Proof.
  revert w. induction s as [|c s IH]; intros w; cbn [cut]; [by intros [= <-]|].
  destruct (Z.eqb_spec c 32); [done|]. destruct (cut s) as [w' r]. intros [= <- ->].
  destruct (IH w' eq_refl) as [-> H]. split; [done|by constructor].
Qed.

Lemma cut_some s w a : cut s = (w, Some a) -> s = w ++ 32 :: a /\ Forall (fun c => c <> 32) w.
Proof.
  revert w. induction s as [|c s IH]; intros w; cbn [cut]; [done|].
  destruct (Z.eqb_spec c 32) as [->|]; [by intros [= <- ->]|]. destruct (cut s) as [w' r]. intros [= <- ->].
  destruct (IH w' eq_refl) as [-> H]. split; [done|by constructor].
Qed.

Lemma start_app s p : cstr p -> start s p = bool_decide (p `prefix_of` s).
Proof.
  intros Hp. revert s. induction Hp as [|c p Hc _ IH]; intros s; cbn [start].
  - rewrite bool_decide_eq_true_2; [done|]. by exists s.
  - destruct s as [|x s]; cbn [deref tl].
    + destruct (Z.eqb_spec 0 c); [lia|]. rewrite bool_decide_eq_false_2; [done|]. intros [? ?]. done.
    + destruct (Z.eqb_spec x c) as [->|].
      * rewrite IH. apply bool_decide_ext. split; [by apply prefix_cons|]. apply prefix_cons_inv_2.
      * rewrite bool_decide_eq_false_2; [done|]. intros H. apply prefix_cons_inv_1 in H. done.
Qed.

Lemma start_word q p w : q = p ++ [32] -> cstr p -> Forall (fun c => c <> 32) w -> start w q = false.
Proof.
  intros -> Hp Hw. rewrite start_app by (apply Forall_app; split; [done|repeat constructor; lia]).
  apply bool_decide_eq_false_2. intros [k ->]. rewrite <- app_assoc in Hw. apply Forall_app in Hw as [_ Hw].
  by inversion_clear Hw.
Qed.

Lemma word_unique w p a b : Forall (fun c => c <> 32) w -> Forall (fun c => c <> 32) p ->
  w ++ 32 :: a = p ++ 32 :: b -> w = p /\ a = b.
Proof.
  intros Hw. revert p. induction Hw as [|c w Hc _ IH]; intros p Hp E.
  - destruct p as [|d p]; [by injection E|]. inversion_clear Hp. by injection E.
  - destruct p as [|d p]; [by injection E|]. inversion_clear Hp. injection E as -> E.
    destruct (IH p) as [-> ->]; done.
Qed.

Lemma start_rest q p w a : q = p ++ [32] -> cstr p -> Forall (fun c => c <> 32) p -> Forall (fun c => c <> 32) w ->
  start (w ++ 32 :: a) q = bool_decide (w = p).
Proof.
  intros -> Hp Hp' Hw. rewrite start_app by (apply Forall_app; split; [done|repeat constructor; lia]).
  apply bool_decide_ext. split.
  - intros [k E]. rewrite <- app_assoc in E. cbn [app] in E. by apply word_unique in E as [-> _].
  - intros ->. exists a. by rewrite <- app_assoc.
Qed.

Lemma same_rest w a p : cstr (w ++ 32 :: a) -> cstr p -> Forall (fun c => c <> 32) p ->
  same_condition (w ++ 32 :: a) p = false.
Proof.
  intros Hs Hp Hp'. rewrite same_condition_eq by done. apply bool_decide_eq_false_2. intros <-.
  apply Forall_app in Hp' as [_ H]. by inversion_clear H.
Qed.

(** A literal's characters are checked by computation. *)
Ltac lit_ok := unfold cstr; apply (bool_decide_unpack _); vm_compute; exact I.

Ltac starts lem :=
  rewrite (lem (lit "echo ") (lit "echo")), (lem (lit "ls ") (lit "ls")), (lem (lit "cd ") (lit "cd")),
    (lem (lit "mkdir ") (lit "mkdir")), (lem (lit "sin ") (lit "sin")), (lem (lit "run ") (lit "run")),
    (lem (lit "keo ") (lit "keo")), (lem (lit "moon ") (lit "moon")), (lem (lit "cat ") (lit "cat"))
    by (done || lit_ok).

(** The order of the tests is that of a table of words. *)
Lemma running_dispatch {K} (sys : call -> prog K (Z * list Z)) n line : cstr line ->
  running sys (S n) line = dispatch sys (running sys n) line.
Proof.
  intros Hs. unfold dispatch. destruct (cut line) as [w [a|]] eqn:E.
  - apply cut_some in E as [-> Hw]. cbn [running]. rewrite !same_rest by (done || lit_ok).
    rewrite (proj2 (Z.eqb_neq (deref _) 0)) by (destruct w as [|c w]; cbn; [done|]; inversion_clear Hs; lia).
    starts start_rest.
    unfold with_rest. cbn [find]. clear Hs Hw. cbn [orb].
    do 9 (case_decide as Hd; [subst w; reflexivity|rewrite (bool_decide_eq_false_2 _ Hd); clear Hd]). done.
  - apply cut_none in E as [-> Hw]. cbn [running].
    starts start_word.
    rewrite deref_0 by done. rewrite !same_condition_eq by (done || lit_ok).
    unfold bare. cbn [find]. clear Hs Hw.
    do 16 (case_decide as Hd; [subst w; reflexivity|rewrite (bool_decide_eq_false_2 _ Hd); clear Hd; cbn [orb]]). done.
Qed.

(** ** Lemmas: the history *)

Lemma put_hist_ok l i s : (length s <= 127)%nat -> 0 <= i < Z.of_nat (length l) -> put_hist l i s = Ok (<[Z.to_nat i := s]> l).
Proof. intros Hs Hi. unfold put_hist. rewrite (proj2 (Nat.ltb_lt _ _)) by lia. by apply wr_in. Qed.

(** The rows move up by one. *)
Lemma hist_shift (l : list str) : length l = 16%nat -> Forall (fun s => (length s <= 127)%nat) l ->
  exists l', for_each (Z.to_nat (HIST_N - 1)) 0 (fun i l => s ← rd l (i + 1); put_hist l i s) l = Ok l' /\
    length l' = 16%nat /\ take 15 l' = drop 1 l.
Proof.
  intros Hl Hs. destruct (for_each_inv (fun i l' => l' = take (Z.to_nat i) (drop 1 l) ++ drop (Z.to_nat i) l)
    (Z.to_nat (HIST_N - 1)) 0 (fun i l => s ← rd l (i + 1); put_hist l i s) l) as (l' & -> & ->).
  - done.
  - change (Z.of_nat (Z.to_nat (HIST_N - 1))) with 15. intros i l' Hi ->.
    destruct (lookup_lt_is_Some_2 l (S (Z.to_nat i))) as [s Hs1]; [lia|].
    destruct (lookup_lt_is_Some_2 l (Z.to_nat i)) as [x Hx]; [lia|].
    assert (rd (take (Z.to_nat i) (drop 1 l) ++ drop (Z.to_nat i) l) (i + 1) = Ok s) as ->.
    { apply rd_Ok. split; [lia|]. rewrite lookup_app_r, length_take, length_drop by (rewrite length_take, length_drop; lia).
      rewrite lookup_drop. rewrite <- Hs1. f_equal. lia. }
    cbn [mbind res_bind]. rewrite put_hist_ok.
    + eexists. split; [reflexivity|]. rewrite insert_app_r_alt by (rewrite length_take; lia).
      rewrite length_take, length_drop. replace (Z.to_nat i - _)%nat with 0%nat by lia.
      rewrite (drop_S l _ (Z.to_nat i) Hx). replace (Z.to_nat (i + 1)) with (S (Z.to_nat i)) by lia.
      rewrite (take_S_r _ _ s) by (by rewrite lookup_drop). by rewrite <- app_assoc.
    + apply (Forall_lookup_1 _ _ _ _ Hs Hs1).
    + rewrite length_app, length_take, !length_drop. lia.
  - eexists. split; [reflexivity|]. change (Z.to_nat (0 + Z.of_nat (Z.to_nat (HIST_N - 1)))) with 15%nat.
    rewrite length_app, length_take, !length_drop. split; [lia|].
    rewrite take_app_length' by (rewrite length_take, length_drop; lia). apply take_ge. rewrite length_drop. lia.
Qed.

Lemma view_last h : hist_ok h -> 0 < hcount h ->
  exists l, rd (hist h) (hcount h - 1) = Ok l /\ last (view h) = Some l /\ cstr l.
Proof.
  intros H Hc. destruct (rd_in (hist h) (hcount h - 1)) as (l & E & Hl); [rewrite (ho_len _ H); pose proof (ho_count _ H); lia|].
  exists l. split; [done|]. assert (last (view h) = Some l) as Hv.
  { rewrite last_lookup. unfold view. rewrite length_take, (ho_len _ H). pose proof (ho_count _ H).
    rewrite lookup_take_lt by lia. rewrite <- Hl. f_equal. lia. }
  split; [done|]. apply last_Some_elem_of in Hv. pose proof (ho_lines _ H) as HF. rewrite Forall_forall in HF.
  apply printable_cstr. by apply HF.
Qed.

Lemma view_length h : hist_ok h -> length (view h) = Z.to_nat (hcount h).
Proof. intros H. unfold view. rewrite length_take, (ho_len _ H). pose proof (ho_count _ H). lia. Qed.

(** A push appends a new line to the last sixteen. *)
Lemma hist_push_ok line h : hist_ok h -> Forall printable line -> (length line <= 127)%nat ->
  Forall (fun s => (length s <= 127)%nat) (hist h) ->
  exists h', hist_push line h = Ok h' /\ hist_ok h' /\ Forall (fun s => (length s <= 127)%nat) (hist h') /\
    view h' = lastn 16 (keep (view h) line).
Proof.
  intros H Hp Hlen Hall. pose proof (printable_cstr _ Hp) as Hcs. pose proof (ho_count _ H) as Hc. pose proof (view_length _ H) as Hvl.
  assert (lastn 16 (view h) = view h) as Hid by (unfold lastn; rewrite Hvl; replace (Z.to_nat (hcount h) - 16)%nat with 0%nat by lia; done).
  unfold hist_push, keep. rewrite deref_0 by done.
  destruct (decide (line = [])) as [E|Hne]; [rewrite bool_decide_eq_true_2 by done; exists h; by rewrite Hid|].
  rewrite bool_decide_eq_false_2 by done.
  assert ((if 0 <? hcount h then l ← rd (hist h) (hcount h - 1); mret (same_condition l line) else mret false) =
    Ok (bool_decide (last (view h) = Some line))) as ->.
  { destruct (Z.ltb_spec 0 (hcount h)) as [Hpos|Hz].
    - destruct (view_last h H Hpos) as (l & -> & -> & Hl). cbn [mbind res_bind]. rewrite same_condition_eq by done.
      unfold mret, res_ret. f_equal. apply bool_decide_ext. split; [by intros ->|by intros [= ->]].
    - unfold view. replace (Z.to_nat (hcount h)) with 0%nat by lia. rewrite take_0. done. }
  cbn [mbind res_bind]. destruct (decide (last (view h) = Some line)) as [E|Hnl];
    [rewrite bool_decide_eq_true_2 by done; exists h; by rewrite Hid|].
  rewrite bool_decide_eq_false_2 by done. pose proof (ho_len _ H) as HL.
  assert (forall l, Forall (fun s => s <> [] /\ Forall printable s /\ (length s <= 127)%nat) l ->
    Forall (fun s => s <> [] /\ Forall printable s /\ (length s <= 127)%nat) (l ++ [line])) as Hsnoc
    by (intros l Hl; apply Forall_app; split; [done|constructor; [done|constructor]]).
  pose proof (ho_lines _ H) as HF. pose proof (hist_shift (hist h) HL Hall) as Hsh.
  unfold HIST_N in *. destruct (Z.ltb_spec (hcount h) 16).
  - rewrite put_hist_ok by lia. cbn [mbind res_bind]. eexists. split; [reflexivity|].
    assert (view (History (<[Z.to_nat (hcount h) := line]> (hist h)) (hcount h + 1)) = view h ++ [line]) as Hv.
    { unfold view. cbn [hist hcount]. replace (Z.to_nat (hcount h + 1)) with (S (Z.to_nat (hcount h))) by lia.
      rewrite (take_S_r _ _ line) by (apply list_lookup_insert_eq; lia). by rewrite take_insert_ge. }
    split; [split; [cbn [hist]; by rewrite length_insert|cbn; lia|rewrite Hv; by apply Hsnoc]|].
    split; [by apply Forall_insert|]. rewrite Hv. unfold lastn. rewrite length_app. cbn [length].
    by replace (_ - 16)%nat with 0%nat by lia.
  - destruct Hsh as (l & -> & Hll & Htl). cbn [mbind res_bind].
    rewrite put_hist_ok by lia. cbn [mbind res_bind]. eexists. split; [reflexivity|].
    assert (hcount h = 16) as Hc16 by lia. rewrite Hc16 in *.
    assert (view h = hist h) as Hvh by (unfold view; rewrite Hc16; apply take_ge; rewrite HL; done).
    change (Z.to_nat (16 - 1)) with 15%nat.
    assert (<[15%nat := line]> l = drop 1 (hist h) ++ [line]) as Hl.
    { rewrite <- Htl, <- (take_ge (<[15%nat := line]> l) 16) by (rewrite length_insert; lia).
      rewrite (take_S_r _ _ line) by (apply list_lookup_insert_eq; lia). by rewrite take_insert_ge. }
    assert (view (History (<[15%nat := line]> l) 16) = drop 1 (hist h) ++ [line]) as Hv.
    { unfold view. cbn [hist hcount]. rewrite Hl. apply take_ge. rewrite length_app, length_drop, HL. done. }
    rewrite Hvh in *. split; [split; [cbn [hist]; by rewrite length_insert|done|rewrite Hv; apply Hsnoc; by apply Forall_drop]|].
    split. { cbn [hist]. rewrite Hl. apply Forall_app. split; [by apply Forall_drop|constructor; [done|constructor]]. }
    rewrite Hv. unfold lastn. rewrite length_app, HL. cbn [length]. rewrite drop_app_le by lia. done.
Qed.

Lemma lastn_keep v l : lastn 16 (keep (lastn 16 v) l) = lastn 16 (keep v l).
Proof.
  assert (forall v : list str, lastn 16 (lastn 16 v) = lastn 16 v) as Hid.
  { intros u. unfold lastn. rewrite length_drop, drop_drop. f_equal. lia. }
  unfold keep. destruct (decide (l = [])); [apply Hid|].
  assert (last (lastn 16 v) = last v) as ->.
  { unfold lastn. destruct v as [|x v _] using rev_ind; [done|]. rewrite length_app. cbn [length].
    rewrite drop_app_le by lia. by rewrite !last_snoc. }
  destruct (decide (last v = Some l)); [apply Hid|]. unfold lastn. rewrite !length_app, length_drop. cbn [length].
  rewrite drop_app_le by (rewrite length_drop; lia). rewrite drop_drop, drop_app_le by lia. do 2 f_equal. lia.
Qed.

Lemma push_all_ok ls h : hist_ok h -> Forall (fun s => (length s <= 127)%nat) (hist h) ->
  Forall (fun l => Forall printable l /\ (length l <= 127)%nat) ls ->
  exists h', push_all ls h = Ok h' /\ hist_ok h' /\ view h' = lastn 16 (foldl keep (view h) ls).
Proof.
  intros H Ha Hls. revert h H Ha. induction Hls as [|l ls [Hp Hl] _ IH]; intros h H Ha; cbn [push_all foldl].
  - exists h. split; [done|]. split; [done|]. unfold lastn. rewrite view_length by done. pose proof (ho_count _ H).
    by replace (_ - 16)%nat with 0%nat by lia.
  - destruct (hist_push_ok l h H Hp Hl Ha) as (h1 & -> & H1 & Ha1 & Hv). cbn [mbind res_bind].
    destruct (IH h1 H1 Ha1) as (h' & -> & H' & Hv'). exists h'. split; [done|]. split; [done|]. rewrite Hv', Hv.
    generalize (keep (view h) l). clear. induction ls as [|x ls IH] using rev_ind; intros v.
    + cbn [foldl]. unfold lastn. rewrite length_drop, drop_drop. f_equal. lia.
    + rewrite !foldl_app. cbn [foldl]. rewrite <- lastn_keep, IH, lastn_keep. done.
Qed.

Lemma hist0_ok : hist_ok hist0 /\ Forall (fun s : str => (length s <= 127)%nat) (hist hist0).
Proof. split; [split; [done|cbn; lia|constructor]|]. apply Forall_replicate. cbn. lia. Qed.

(** ** Lemmas: the line editor *)

Lemma recall_ok h nh : hist_ok h -> 0 <= nh < hcount h ->
  exists s, rd (hist h) nh = Ok s /\ view h !! Z.to_nat nh = Some s /\ Forall printable s /\ take 127 s = s /\ (length s <= 127)%nat.
Proof.
  intros H Hn. pose proof (ho_len _ H). pose proof (ho_count _ H). destruct (rd_in (hist h) nh) as (s & E & Hs); [lia|].
  assert (view h !! Z.to_nat nh = Some s) as Hv by (unfold view; by rewrite lookup_take_lt by lia).
  destruct (Forall_lookup_1 _ _ _ _ (ho_lines _ H) Hv) as (_ & Hp & Hl). exists s. split_and!; try done. by apply take_ge.
Qed.

(** What holds when a line has been read. *)
Definition edited (keys : list Z) (o : option (str * str * list Z)) : Prop :=
  match o with
  | Some (line, echo, rest) => (length line <= 127)%nat /\ Forall printable line /\ shown echo = line /\
      (length rest < length keys)%nat
  | None => True
  end.

Lemma edited_cons k keys o : edited keys o -> edited (k :: keys) o.
Proof. destruct o as [[[line echo] rest]|]; [|done]. unfold edited. cbn [length]. intros (? & ? & ? & ?). split_and!; done || lia. Qed.

Lemma edit_line_ok h keys line out hidx : hist_ok h -> (length line <= 127)%nat -> Forall printable line -> shown out = line ->
  -1 <= hidx < Z.max 1 (hcount h) -> (hidx < 0 \/ 0 < hcount h) ->
  exists o, edit_line h keys line out hidx = Ok o /\ edited keys o.
Proof.
  intros H. pose proof (ho_count _ H) as Hc. revert line out hidx.
  induction keys as [|k keys IH]; intros line out hidx Hl Hp Hs Hi Hi2; cbn [edit_line]; [by exists None|].
  assert (forall line out hidx, (length line <= 127)%nat -> Forall printable line -> shown out = line ->
    -1 <= hidx < Z.max 1 (hcount h) -> (hidx < 0 \/ 0 < hcount h) ->
    exists o, edit_line h keys line out hidx = Ok o /\ edited (k :: keys) o) as IH'.
  { intros l' o' i' H1 H2 H3 H4 H5. destruct (IH l' o' i' H1 H2 H3 H4 H5) as (o & E & Ho). exists o. split; [done|by apply edited_cons]. }
  clear IH. destruct (Z.eqb_spec k 10).
  { eexists. split; [reflexivity|]. unfold edited. cbn [length]. split_and!; done || lia. }
  destruct ((k =? KEY_UP) || (k =? KEY_DOWN)).
  { destruct (if k =? KEY_UP then hcount h =? 0 else hidx <? 0) eqn:Ec; [by apply IH'|]. cbv zeta. set (nh := if k =? KEY_UP then _ else _).
    assert (-1 <= nh < hcount h /\ 0 < hcount h) as [Hn Hpos].
    { unfold nh. destruct (k =? KEY_UP); zbool; [zif|]. destruct (Z.eqb_spec hidx (hcount h - 1)); lia. }
    assert (shown (out ++ replicate (length line) 8) = []) as Hw by (apply shown_wipe; by rewrite Hs).
    destruct (Z.leb_spec 0 nh).
    - destruct (recall_ok h nh H) as (s & -> & _ & Hsp & Hst & Hsl); [lia|]. cbn [mbind res_bind]. rewrite Hst.
      apply IH'; [done|done| |lia|by right]. by rewrite shown_print, Hw by done.
    - apply IH'; [cbn; lia|constructor|done|lia|by right]. }
  destruct (Z.eqb_spec k 8).
  { destruct (0 <? length line)%nat eqn:E; [|apply IH'; done || lia].
    apply IH'; [rewrite removelast_length; lia|by apply removelast_Forall| |lia|lia]. by rewrite shown_snoc, Hs. }
  destruct ((32 <=? k) && (k <? 127) && (length line <? 127)%nat) eqn:E; [|apply IH'; done || lia].
  zbool. rewrite Nat.ltb_lt in *. rewrite put_line_ok by lia. cbn [mbind res_bind]. apply IH'; [| | |lia|lia].
  - rewrite length_app. cbn. lia.
  - apply Forall_app. split; [done|]. constructor; [done|constructor].
  - rewrite shown_snoc, Hs. by destruct (Z.eqb_spec k 8).
Qed.

(** Walking up the history from entry [i]. *)
Lemma up_walk h m rest : hist_ok h -> forall line out i, 0 <= i < hcount h ->
  view h !! Z.to_nat i = Some line ->
  exists l out', edit_line h (replicate m KEY_UP ++ rest) line out i = edit_line h rest l out' (Z.max 0 (i - Z.of_nat m)) /\
    view h !! Z.to_nat (Z.max 0 (i - Z.of_nat m)) = Some l.
Proof.
  intros H. induction m as [|m IH]; intros line out i Hi Hl.
  - cbn [replicate app]. exists line, out. replace (Z.max 0 (i - Z.of_nat 0)) with i by lia. done.
  - cbn [replicate app edit_line]. change (KEY_UP =? 10) with false. change (KEY_UP =? KEY_UP) with true. cbn [orb].
    rewrite (proj2 (Z.eqb_neq (hcount h) 0)), (proj2 (Z.ltb_ge i 0)) by lia. set (j := if 0 <? i then i - 1 else i).
    assert (j = Z.max 0 (i - 1)) as Ej by (unfold j; zif). rewrite (proj2 (Z.leb_le 0 j)) by lia.
    destruct (recall_ok h j H) as (s & -> & Hv & _ & Hst & _); [lia|]. cbn [mbind res_bind]. rewrite Hst.
    destruct (IH s ((out ++ replicate (length line) 8) ++ s) j) as (l & out' & -> & Hl'); [lia|done|].
    exists l, out'. replace (Z.max 0 (j - Z.of_nat m)) with (Z.max 0 (i - Z.of_nat (S m))) in * by lia. done.
Qed.

Lemma type_line h s rest line out : Forall printable s -> (length line + length s <= 127)%nat ->
  edit_line h (s ++ rest) line out (-1) = edit_line h rest (line ++ s) (out ++ s) (-1).
Proof.
  intros Hs. revert line out. induction Hs as [|c s Hc _ IH]; intros line out Hl; [by rewrite !app_nil_r|].
  cbn [app edit_line length] in *. unfold printable in Hc. unfold KEY_UP, KEY_DOWN.
  rewrite !(proj2 (Z.eqb_neq c _)) by lia. cbn [orb].
  rewrite (proj2 (Z.leb_le 32 c)), (proj2 (Z.ltb_lt c 127)), (proj2 (Nat.ltb_lt _ _)) by lia. cbn [andb].
  rewrite put_line_ok by lia. cbn [mbind res_bind]. rewrite IH by (rewrite length_app; cbn; lia). by rewrite <- !app_assoc.
Qed.

Lemma up_recalls_ok h s m rest : hist_ok h -> 0 < hcount h -> Forall printable s -> (length s <= 127)%nat ->
  exists l echo, edit_line h (s ++ replicate (S m) KEY_UP ++ 10 :: rest) [] [] (-1) = Ok (Some (l, echo, rest)) /\
    view h !! Z.to_nat (Z.max 0 (hcount h - 1 - Z.of_nat m)) = Some l.
Proof.
  intros H Hc Hs Hl. rewrite type_line by done. cbn [app replicate edit_line].
  change (KEY_UP =? 10) with false. change (KEY_UP =? KEY_UP) with true. cbn [orb]. change (-1 <? 0) with true. cbv iota zeta.
  rewrite (proj2 (Z.eqb_neq (hcount h) 0)), (proj2 (Z.leb_le 0 (hcount h - 1))) by lia.
  destruct (recall_ok h (hcount h - 1) H) as (t & -> & Hv & _ & Hst & _); [lia|]. cbn [mbind res_bind]. rewrite Hst.
  destruct (up_walk h m (10 :: rest) H t ((s ++ replicate (length s) 8) ++ t) (hcount h - 1)) as (l & out' & -> & Hl'); [lia|done|].
  exists l, out'. done.
Qed.

(** ** Lemmas: numbers and termination *)

Lemma idx_digits_ok ds rest v n : Forall digit ds -> (is_digit (deref rest) = false) -> 0 <= v <= LONG_MAX ->
  idx_digits (ds ++ rest) v n =
    if foldl (fun v c => v * 10 + (c - 48)) v ds <=? LONG_MAX
    then Ok (foldl (fun v c => v * 10 + (c - 48)) v ds, rest, (n + length ds)%nat) else Ub.
Proof.
  intros Hd Hr. revert v n. induction Hd as [|c ds Hc Hds IH]; intros v n Hv.
  - cbn [app foldl length]. rewrite (proj2 (Z.leb_le _ _)), Nat.add_0_r by lia. destruct rest as [|c rest]; cbn [idx_digits]; [done|].
    cbn [deref] in Hr. by rewrite Hr.
  - cbn [app idx_digits foldl length]. unfold digit in Hc. unfold is_digit.
    rewrite (proj2 (Z.leb_le 48 c)), (proj2 (Z.leb_le c 57)) by lia. cbn [andb].
    assert (forall w u, Forall digit u -> w <= foldl (fun v c => v * 10 + (c - 48)) w u \/ w < 0) as Hmono.
    { clear. intros w u Hu. revert w. induction Hu as [|d u Hd _ IH]; intros w; cbn [foldl]; [lia|].
      unfold digit in Hd. specialize (IH (w * 10 + (d - 48))). lia. }
    specialize (Hmono (v * 10 + (c - 48)) ds Hds). unfold chk, in_long, LONG_MIN, LONG_MAX in *.
    rewrite (proj2 (Z.leb_le _ (v * 10))) by lia. cbn [andb].
    destruct (Z.leb_spec (v * 10) 9223372036854775807); cbn [mbind res_bind mret res_ret].
    2:{ destruct (Z.leb_spec (foldl (fun v c => v * 10 + (c - 48)) (v * 10 + (c - 48)) ds) 9223372036854775807); [lia|done]. }
    rewrite (proj2 (Z.leb_le _ (v * 10 + (c - 48)))) by lia. cbn [andb].
    destruct (Z.leb_spec (v * 10 + (c - 48)) 9223372036854775807); cbn [mbind res_bind mret res_ret].
    + rewrite IH by lia. by rewrite <- Nat.add_succ_comm.
    + destruct (Z.leb_spec (foldl (fun v c => v * 10 + (c - 48)) (v * 10 + (c - 48)) ds) 9223372036854775807); [lia|done].
Qed.

(** A program that comes back, one that comes back or not, one that does not. *)
Definition returns {K A} (m : prog K A) : Prop := forall k, exists a k', m k = Ok (Some a, k').
Definition settles {K A} (m : prog K A) : Prop := forall k, exists o k', m k = Ok (o, k').
Definition stops {K A} (m : prog K A) : Prop := forall k, exists k', m k = Ok (None, k').

Section ends.
Context {K : Type} (sys : call -> prog K (Z * list Z)) (Hsys : answers sys).

Lemma ret_returns {A} (a : A) : returns (mret a : prog K A).
Proof. intros k. by exists a, k. Qed.

Lemma bind_at {A B} (m : prog K A) (f : A -> prog K B) a k k' : m k = Ok (Some a, k') -> (a ← m; f a) k = f a k'.
Proof. intros E. unfold mbind, prog_bind. by rewrite E. Qed.

Lemma bind_returns {A B} (m : prog K A) (f : A -> prog K B) : returns m -> (forall a, returns (f a)) -> returns (a ← m; f a).
Proof. intros Hm Hf k. destruct (Hm k) as (a & k1 & E). unfold mbind, prog_bind. rewrite E. apply Hf. Qed.

Lemma bind_settles {A B} (m : prog K A) (f : A -> prog K B) : settles m -> (forall a, settles (f a)) -> settles (a ← m; f a).
Proof.
  intros Hm Hf k. destruct (Hm k) as ([a|] & k1 & E); unfold mbind, prog_bind; rewrite E; cbn; [apply Hf|by exists None, k1].
Qed.

Lemma returns_settles {A} (m : prog K A) : returns m -> settles m.
Proof. intros H k. destruct (H k) as (a & k' & E). by exists (Some a), k'. Qed.

Lemma sys_settles c : settles (sys c).
Proof. intros k. destruct (Hsys c k) as (o & k' & E & _). by exists o, k'. Qed.

Lemma sys_returns c : exits c = false -> returns (sys c).
Proof. intros Hc k. destruct (Hsys c k) as ([v|] & k' & E & H); [by exists v, k'|by destruct (H Hc)]. Qed.

Lemma do_returns c : exits c = false -> returns (do sys c).
Proof. intros Hc. apply bind_returns; [by apply sys_returns|intros _; apply ret_returns]. Qed.
Lemma puts_returns s : returns (puts sys s).
Proof. by apply do_returns. Qed.
Lemma show_returns c : exits c = false -> returns (show sys c).
Proof.
  intros Hc. apply bind_returns; [by apply sys_returns|]. intros [n d]. destruct (0 <? n); [|apply ret_returns].
  apply bind_returns; [by apply do_returns|intros _; apply ret_returns].
Qed.
Lemma puts_all_returns ss : returns (puts_all sys ss).
Proof. induction ss as [|s ss IH]; [apply ret_returns|]. apply bind_returns; [apply puts_returns|done]. Qed.
Lemma put1s_returns s : returns (put1s sys s).
Proof. induction s as [|c s IH]; [apply ret_returns|]. apply bind_returns; [by apply do_returns|done]. Qed.

(** The rest of a command: messages, depending on the answers. *)
Ltac settle := repeat match goal with
  | |- returns (_ ← _; _) => apply bind_returns; [|intros ?]
  | |- returns (if ?b then _ else _) => destruct b
  | |- returns (let '(_, _) := ?x in _) => destruct x
  | |- returns (puts _ _) => apply puts_returns
  | |- returns (do _ _) => by apply do_returns
  | |- returns (show _ _) => by apply show_returns
  | |- returns (sys _) => by apply sys_returns
  | |- returns (mret _) => apply ret_returns
  end.

Lemma prompt_returns : returns (prompt sys).
Proof. unfold prompt. settle. Qed.
Lemma cmd_ls_returns a : returns (cmd_ls sys a).
Proof. unfold cmd_ls. settle. Qed.
Lemma cmd_cd_returns a : returns (cmd_cd sys a).
Proof. unfold cmd_cd. settle. Qed.
Lemma cmd_mkdir_returns a : returns (cmd_mkdir sys a).
Proof. unfold cmd_mkdir. settle. Qed.
Lemma cmd_cat_returns a : returns (cmd_cat sys a).
Proof. unfold cmd_cat. settle. Qed.

Lemma cmd_run_settles a o : settles (cmd_run sys a o).
Proof. apply bind_settles; [apply sys_settles|]. intros [x d]. apply returns_settles. settle. Qed.

Lemma halt_stops c : stops (_ ← do sys c; hlt : prog K unit).
Proof.
  intros k. unfold do, mbind, prog_bind. destruct (sys_settles c k) as ([v|] & k' & ->); cbn; by exists k'.
Qed.

Lemma idx_digits_total s v n : idx_digits s v n <> Oof.
Proof.
  revert v n. induction s as [|c s IH]; intros v n; cbn [idx_digits]; [done|]. destruct (is_digit c); [|done].
  unfold chk. destruct (in_long (v * 10)); cbn [mbind res_bind mret res_ret]; [|done]. destruct (in_long _); [apply IH|done].
Qed.

Lemma parse_idx_total s : parse_idx s <> Oof.
Proof. unfold parse_idx. pose proof (idx_digits_total s 0 0). by destruct (idx_digits s 0 0) as [[[v r] n]| |]. Qed.

Lemma cmd_moon_ends a : let arg := trim_end (skip_sp a) in
  if same_condition arg (lit "-u") then returns (cmd_moon sys a)
  else match parse_idx arg with Ub => forall k, cmd_moon sys a k = Ub | _ => returns (cmd_moon sys a) end.
Proof.
  cbv zeta. unfold cmd_moon. destruct (same_condition _ _); [by apply do_returns|]. pose proof (parse_idx_total (trim_end (skip_sp a))) as Hp.
  destruct (parse_idx _) as [[i|]| |] eqn:E; [| |done|done]; intros k; unfold lift, mbind at 1, prog_bind; cbn [mbind res_bind].
  - revert k. change (returns ('(r, _) ← sys (Mount i); if negb (r =? 0) then puts sys (lit "cannot moon" ++ [10]) else mret tt)). settle.
  - revert k. apply puts_returns.
Qed.

(** Every line ends the way it says. *)
Definition ends_so (e : ending) (m : prog K unit) : Prop :=
  match e with Returns => returns m | Stops => stops m | Leaves => settles m | Overflows => forall k, m k = Ub end.

Lemma cut_rest line w a : cut line = (w, Some a) -> (length a < length line)%nat.
Proof. intros [-> _]%cut_some. rewrite length_app. cbn. lia. Qed.

Lemma word_ends w : ends_so (if decide (w = lit "reboot" \/ w = lit "poweroff" \/ w = lit "shutdown") then Stops else Returns)
  (default (unknown sys w) (find w (bare sys))).
Proof.
  case_decide as Hs.
  - destruct Hs as [->|[->| ->]]; apply halt_stops.
  - unfold ends_so, bare. cbn [find].
    repeat (case_decide as Hd; [first [exfalso; apply Hs; tauto|
      cbv [from_option id]; first [apply puts_all_returns|apply cmd_ls_returns|apply cmd_cd_returns|apply cmd_mkdir_returns|settle]]|clear Hd]).
    cbv [from_option id]. unfold unknown. settle.
Qed.

Lemma running_ends n : forall line, cstr line -> (length line < n)%nat -> ends_so (ending_of (pred n) line) (running sys n line).
Proof.
  induction n as [|n IH]; intros line Hs Hn; [lia|]. rewrite running_dispatch by done. unfold dispatch. cbn [pred].
  destruct (cut line) as [w [a|]] eqn:E.
  - assert (cstr a) as Ha. { apply cut_some in E as [-> _]. apply Forall_app in Hs as [_ Hs]. by apply Forall_cons in Hs as [_ Hs]. }
    pose proof (cut_rest _ _ _ E) as Hl. specialize (IH a Ha ltac:(lia)). pose proof (cmd_moon_ends a) as Hm. cbv zeta in Hm.
    assert (ending_of n line = if decide (w = lit "sin") then match n with O => Returns | S n' => ending_of n' a end
      else if decide (w = lit "run" \/ w = lit "keo") then Leaves
      else if decide (w = lit "moon") then
        if same_condition (trim_end (skip_sp a)) (lit "-u") then Returns else match parse_idx (trim_end (skip_sp a)) with Ub => Overflows | _ => Returns end
      else Returns) as -> by (destruct n; cbn [ending_of]; by rewrite E).
    destruct (decide (w = lit "sin")) as [->|N1]; [destruct n; [lia|exact IH]|].
    destruct (decide (w = lit "run" \/ w = lit "keo")) as [[-> | ->]|N2]; [apply cmd_run_settles..|].
    destruct (decide (w = lit "moon")) as [->|N3].
    + change (find (lit "moon") _) with (Some (cmd_moon sys)). destruct (same_condition _ _); [exact Hm|].
      by destruct (parse_idx _).
    + unfold with_rest. cbn [find]. unfold ends_so.
      repeat (case_decide as Hd; [first [tauto|apply cmd_ls_returns|apply cmd_cd_returns|apply cmd_mkdir_returns|apply cmd_cat_returns|settle]|clear Hd]).
      unfold unknown. settle.
  - assert (ending_of n line = if decide (w = lit "reboot" \/ w = lit "poweroff" \/ w = lit "shutdown") then Stops else Returns) as ->
      by (destruct n; cbn [ending_of]; by rewrite E).
    apply cut_none in E as [-> _]. apply word_ends.
Qed.

(** One turn: the line is read, and ends so. *)
Lemma shell_turn_ends h keys : hist_ok h -> Forall (fun s => (length s <= 127)%nat) (hist h) ->
  match edit_line h keys [] [] (-1) with
  | Ok None => forall k, exists k', shell_turn sys h keys k = Ok (Some None, k')
  | Ok (Some (line, _, rest)) => (length rest < length keys)%nat /\ exists h', hist_push line h = Ok h' /\
      hist_ok h' /\ Forall (fun s => (length s <= 127)%nat) (hist h') /\
      ends_so (end_of line) (running sys (S (length line)) line) /\
      forall k, exists k1, shell_turn sys h keys k = (_ ← running sys (S (length line)) line; mret (Some (h', rest))) k1
  | _ => False
  end.
Proof.
  intros H Ha. destruct (edit_line_ok h keys [] [] (-1) H) as (o & E & Ho); [cbn; lia|constructor|done|lia|by left|]. rewrite E.
  destruct o as [[[line echo] rest]|].
  - destruct Ho as (Hl & Hpr & _ & Hr). split; [done|]. destruct (hist_push_ok line h H Hpr Hl Ha) as (h' & Eh & H' & Ha' & _).
    exists h'. split; [done|]. split; [done|]. split; [done|]. split; [apply (running_ends (S (length line))); [by apply printable_cstr|lia]|].
    intros k. unfold shell_turn.
    destruct (prompt_returns k) as (u & k1 & Ep). destruct (put1s_returns (echo ++ [10]) k1) as (u2 & k2 & Ee). exists k2.
    rewrite (bind_at _ _ _ _ _ Ep), (bind_at _ _ (Some (line, echo, rest)) k1 k1) by (unfold lift; by rewrite E).
    rewrite (bind_at _ _ _ _ _ Ee), (bind_at _ _ h' k2 k2) by (unfold lift; by rewrite Eh). done.
  - intros k. unfold shell_turn. destruct (prompt_returns k) as (u & k1 & Ep). exists k1.
    by rewrite (bind_at _ _ _ _ _ Ep), (bind_at _ _ None k1 k1) by (unfold lift; by rewrite E).
Qed.

(** A session, line by line. *)
Definition session_ends (lines : list str) (m : prog K unit) : Prop :=
  (Forall (fun l => end_of l = Returns) lines -> returns m) /\
  (Forall (fun l => end_of l <> Overflows) lines -> settles m) /\
  (forall pre l post, lines = pre ++ l :: post -> Forall (fun l => end_of l = Returns) pre ->
    (end_of l = Stops -> stops m) /\ (end_of l = Overflows -> forall k, m k = Ub)).

(** A line that comes back leaves the others to the rest of the session. *)
Lemma session_cons line lines (cmd m : prog K unit) : ends_so (end_of line) cmd -> session_ends lines m ->
  session_ends (line :: lines) (_ ← cmd; m).
Proof.
  intros Hc (H1 & H2 & H3). unfold session_ends. rewrite !Forall_cons. split; [|split].
  - intros [E H]. rewrite E in Hc. apply bind_returns; [exact Hc|]. intros _. by apply H1.
  - intros [E H]. apply bind_settles; [|intros _; by apply H2].
    destruct (end_of line); [by apply returns_settles|..|done]; cbn in Hc; [|done]. intros k. destruct (Hc k) as (k' & Ek). by exists None, k'.
  - intros [|x pre] l post [= -> ->] Hpre.
    + split; intros E; rewrite E in Hc; intros k; unfold mbind, prog_bind.
      * destruct (Hc k) as (k' & ->). by exists k'.
      * by rewrite Hc.
    + apply Forall_cons in Hpre as [Hx Hpre]. rewrite Hx in Hc. destruct (H3 pre l post eq_refl Hpre) as [S O].
      split; intros E k; unfold mbind, prog_bind; destruct (Hc k) as (u & k' & ->); cbn; [by apply S|by apply O].
Qed.

Lemma session_ext lines (m m' : prog K unit) : (forall k, exists k1, m' k = m k1) -> session_ends lines m -> session_ends lines m'.
Proof.
  intros E (H1 & H2 & H3). split; [|split].
  - intros H k. destruct (E k) as [k1 ->]. by apply H1.
  - intros H k. destruct (E k) as [k1 ->]. by apply H2.
  - intros pre l post Hl Hpre. destruct (H3 pre l post Hl Hpre) as [S O]. split; intros He k; destruct (E k) as [k1 ->]; [by apply S|by apply O].
Qed.

Lemma user_main_ends fuel : forall keys h, hist_ok h -> Forall (fun s => (length s <= 127)%nat) (hist h) ->
  (length keys < fuel)%nat -> session_ends (entered fuel h keys) (user_main sys fuel h keys).
Proof.
  induction fuel as [|fuel IH]; intros keys h H Ha Hf; [lia|]. cbn [user_main entered]. pose proof (shell_turn_ends h keys H Ha) as Ht.
  destruct (edit_line h keys [] [] (-1)) as [[[[line echo] rest]|]| |]; try done.
  - destruct Ht as (Hr & h' & -> & H' & Ha' & Ht). specialize (IH rest h' H' Ha' ltac:(lia)).
    destruct Ht as [Hends Ht]. eapply session_ext; [|exact (session_cons line _ _ _ Hends IH)].
    + intros k. destruct (Ht k) as (k1 & E). exists k1. unfold mbind at 1, prog_bind at 1. rewrite E. unfold mbind, prog_bind.
      by destruct (running sys (S (length line)) line k1) as [[[u|] k2]| |].
  - assert (returns (o ← shell_turn sys h keys; match o with None => mret tt | Some (h, keys) => user_main sys fuel h keys end)) as Hret.
    { intros k. destruct (Ht k) as (k1 & E). unfold mbind, prog_bind. rewrite E. by exists tt, k1. }
    split; [done|]. split; [intros _; by apply returns_settles|]. intros [|] ? ? [=].
Qed.
End ends.

(** ** Properties *)

(** C15. The chain of comparisons in [running] is a dispatch on words: the line
    is cut at its first space, the word is looked up among the commands that
    stand alone or among those that take the rest of the line, and [sin] runs
    the rest again. *)
Theorem running_is_dispatch {K} (sys : call -> prog K (Z * list Z)) n line : cstr line ->
  running sys (S n) line = dispatch sys (running sys n) line.
Proof. apply running_dispatch. Qed.

(** The history.  After any lines have been entered it holds the last
    sixteen of them, without the empty ones and repetitions; pressing the up
    key [m] times, whatever was typed before, brings back the [m]-th last of
    these, or the oldest. *)
Theorem history_recalls ls s m rest : Forall (fun l => Forall printable l /\ (length l <= 127)%nat) ls ->
  Forall printable s -> (length s <= 127)%nat ->
  exists h, push_all ls hist0 = Ok h /\ view h = lastn 16 (squeeze ls) /\
    (view h <> [] -> exists l echo,
      edit_line h (s ++ replicate (S m) KEY_UP ++ 10 :: rest) [] [] (-1) = Ok (Some (l, echo, rest)) /\
      view h !! (length (view h) - 1 - m)%nat = Some l).
Proof.
  intros Hls Hs Hl. destruct hist0_ok as [H0 Ha0]. destruct (push_all_ok ls hist0 H0 Ha0 Hls) as (h & E & H & Hv).
  exists h. split; [done|]. split; [exact Hv|]. intros Hne. pose proof (view_length h H) as HL. pose proof (ho_count _ H).
  assert (0 < hcount h) by (destruct (view h); [done|cbn in HL; lia]).
  destruct (up_recalls_ok h s m rest H) as (l & echo & E' & Hl'); try done. exists l, echo. split; [done|].
  rewrite <- Hl'. f_equal. lia.
Qed.

(** Whatever keys arrive, the line editor of the shell stays inside its
    buffers, the history keys included; the line is printable, and what the
    terminal shows is the line. *)
Theorem edit_line_safe h keys : hist_ok h -> exists o, edit_line h keys [] [] (-1) = Ok o /\
  match o with
  | Some (line, echo, rest) => (length line <= 127)%nat /\ Forall printable line /\ shown echo = line /\
      (length rest < length keys)%nat
  | None => True
  end.
Proof.
  intros H. destruct (edit_line_ok h keys [] [] (-1) H) as (o & E & Ho); [cbn; lia|constructor|done|lia|by left|].
  by exists o.
Qed.

(** C38. A session of the shell, over a kernel that answers every call but that
    it need not come back from a restart, a power-off or the start of a
    program.  Whatever the keys: while every line that they enter is one that
    returns, the shell is back at its prompt when the keys end, nested [sin]
    prefixes included, and never leaves its arrays; the first [reboot],
    [poweroff] or [shutdown] ends the session; a line [run] or [keo] with a
    program may end it; and the only lines with undefined behaviour are [moon]
    with a number that does not fit [long].  One turn per key is enough. *)
Theorem shell_session_ends {K} (sys : call -> prog K (Z * list Z)) keys : answers sys ->
  let lines := entered (S (length keys)) hist0 keys in let session := user_main sys (S (length keys)) hist0 keys in
  (Forall (fun l => end_of l = Returns) lines -> forall k, exists k', session k = Ok (Some tt, k')) /\
  (Forall (fun l => end_of l <> Overflows) lines -> forall k, exists o k', session k = Ok (o, k')) /\
  (forall pre l post, lines = pre ++ l :: post -> Forall (fun l => end_of l = Returns) pre ->
    (end_of l = Stops -> forall k, exists k', session k = Ok (None, k')) /\ (end_of l = Overflows -> forall k, session k = Ub)).
Proof.
  intros Hsys lines session. destruct hist0_ok as [H0 Ha0].
  destruct (user_main_ends sys Hsys (S (length keys)) keys hist0 H0 Ha0 ltac:(lia)) as (H1 & H2 & H3). split; [|exact (conj H2 H3)].
  intros H k. destruct (H1 H k) as ([] & k' & E). by exists k'.
Qed.

(** The index of [moon] is read exactly: a numeral that fits [long] gives
    its value, a longer one overflows, and anything else is refused. *)
Theorem parse_idx_reads v ds rest : numeral v ds -> is_digit (deref rest) = false ->
  parse_idx (ds ++ rest) = if v <=? LONG_MAX then Ok (if deref rest =? 0 then Some v else None) else Ub.
Proof.
  intros (Hne & Hd & Hv & _) Hr. unfold parse_idx. rewrite idx_digits_ok by (done || unfold LONG_MAX; lia).
  change (foldl _ 0 ds) with (dec_value ds). rewrite Hv. destruct (v <=? LONG_MAX); [|done].
  cbn [mbind res_bind mret res_ret]. destruct ds as [|c ds]; [done|]. cbn [length Nat.add Nat.eqb orb].
  by destruct (deref rest =? 0).
Qed.

(** ** Witnesses *)

Definition log_sys (c : call) : prog (list call) (Z * list Z) := fun k => Ok (Some (0, []), k ++ [c]).

Lemma running_is_dispatch_witness : running log_sys 3 (lit "sin cd  a ") [] = Ok (Some tt, [Chdir (lit "a")]).
Proof.
  rewrite (running_is_dispatch log_sys 2 (lit "sin cd  a ")); [vm_compute; reflexivity|lit_ok].
Defined.

Lemma history_recalls_witness : exists h, push_all [lit "a"; lit "a"; []; lit "b"] hist0 = Ok h /\
  view h = [lit "a"; lit "b"] /\ exists l echo,
    edit_line h (lit "x" ++ replicate 2 KEY_UP ++ [10]) [] [] (-1) = Ok (Some (l, echo, [])) /\ Some l = Some (lit "a").
Proof.
  destruct (history_recalls [lit "a"; lit "a"; []; lit "b"] (lit "x") 1 []) as (h & E & Hv & Hr).
  - lit_ok.
  - lit_ok.
  - cbn. lia.
  - exists h. split; [exact E|]. split; [rewrite Hv; reflexivity|]. destruct Hr as (l & echo & El & Hl).
    + rewrite Hv. discriminate.
    + exists l, echo. split; [exact El|]. rewrite <- Hl, Hv. reflexivity.
Defined.

Lemma edit_line_safe_witness : exists o, edit_line hist0 [KEY_UP; 65; KEY_DOWN; 8; 8; 10] [] [] (-1) = Ok o /\
  match o with
  | Some (line, echo, rest) => (length line <= 127)%nat /\ Forall printable line /\ shown echo = line /\ (length rest < 6)%nat
  | None => True
  end.
Proof. apply (edit_line_safe hist0 [KEY_UP; 65; KEY_DOWN; 8; 8; 10]). exact (proj1 hist0_ok). Defined.

(** "ls", then "sin reboot", on a kernel that always answers. *)
Lemma shell_session_ends_witness : exists k',
  user_main log_sys 15 hist0 (lit "ls" ++ [10] ++ lit "sin reboot" ++ [10]) [] = Ok (None, k') /\
  entered 15 hist0 (lit "ls" ++ [10] ++ lit "sin reboot" ++ [10]) = [lit "ls"; lit "sin reboot"].
Proof.
  destruct (shell_session_ends log_sys (lit "ls" ++ [10] ++ lit "sin reboot" ++ [10])) as (_ & _ & H).
  { intros c k. exists (Some (0, [])), (k ++ [c]). by split. }
  assert (entered 15 hist0 (lit "ls" ++ [10] ++ lit "sin reboot" ++ [10]) = [lit "ls"] ++ lit "sin reboot" :: []) as E by reflexivity.
  destruct (H [lit "ls"] (lit "sin reboot") [] E) as [Hs _]; [by repeat constructor|]. destruct (Hs eq_refl []) as (k' & Ek).
  exists k'. split; [exact Ek|exact E].
Defined.

Lemma parse_idx_reads_witness : parse_idx (lit "9223372036854775808") = Ub.
Proof.
  apply (parse_idx_reads 9223372036854775808 (lit "9223372036854775808") []); [|reflexivity].
  unfold numeral. split; [discriminate|]. split; [unfold digit; lit_ok|]. split; [reflexivity|]. split; [cbn; lia|discriminate].
Defined.
