(* ===== verification/Uspace.v ===== *)
(** * Memory through the page tables

    The kernel and the programs share one address space: a pointer is
    translated by the page tables of [Vmm.v] before memory is read or written.
    A page that is not mapped is [Ub] (a fault).  This file has the accesses
    that [kernel/elf.c], [kernel/exec.c] and [kernel/syscall.c] make through
    pointers into user pages, and the lemma that lets a region of mapped pages
    be used as an array. *)
From S2P Require Import Prelude Mem Pmm Vmm.

Section with_pml4.
Context (pml4 : Z).

(** ** Accesses through kernel pointers *)

Definition kload (st : vmm) (a : Z) : res Z :=
  let p := vmm_phys pml4 (vm_mem st) a in
  if p =? 0 then Ub else mret (load8 (vm_mem st) p).

Definition kstore (a v : Z) (st : vmm) : res vmm :=
  let p := vmm_phys pml4 (vm_mem st) a in
  if p =? 0 then Ub else mret (Vmm (store8 (vm_mem st) p v) (vm_pmm st)).

(** An object of [n] bytes, little-endian. *)
Fixpoint kload_bytes (n : nat) (st : vmm) (a : Z) : res (list Z) :=
  match n with
  | O => mret []
  | S n' => b ← kload st a; bs ← kload_bytes n' st (u64 (a + 1)); mret (b :: bs)
  end.

Definition kword (n : nat) (st : vmm) (a : Z) : res Z := bs ← kload_bytes n st a; mret (le_val bs).

(** [for (i = 0; i < n; i++) ( ( char* )a )[i] = bs[i]]. *)
Fixpoint kstore_bytes (a : Z) (bs : list Z) (st : vmm) : res vmm :=
  match bs with
  | [] => mret st
  | b :: bs' => st ← kstore a b st; kstore_bytes (u64 (a + 1)) bs' st
  end.

(** A 64-bit store. *)
Definition kstore64 (a v : Z) (st : vmm) : res vmm := kstore_bytes a (le_bytes 8 v) st.
End with_pml4.

(** ** Specification *)

Section spec.
Context (pml4 : Z).

(** The byte a mapped address holds. *)
Definition kbyte (st : vmm) (a : Z) : Z := load8 (vm_mem st) (vmm_phys pml4 (vm_mem st) a).

(** A set of addresses that behaves like an array: mapped, to bytes outside the
    tables, no two to the same one. *)
Record window (st : vmm) (T : tree) (R : Z -> Prop) : Prop := {
  win_range a : R a -> 0 <= a < 2 ^ 64 - 1;
  win_phys a : R a -> vmm_phys pml4 (vm_mem st) a <> 0;
  win_off a : R a -> off_tables T (vmm_phys pml4 (vm_mem st) a);
  win_inj a b : R a -> R b -> vmm_phys pml4 (vm_mem st) a = vmm_phys pml4 (vm_mem st) b -> a = b
}.

(** [st'] differs from [st] in the bytes of [R] only, which are [f] there. *)
Definition stored (st st' : vmm) (T : tree) (R : Z -> Prop) (f : Z -> Z) : Prop :=
  vm_tree pml4 st' T /\ vm_pmm st' = vm_pmm st /\
  (forall w, vmm_phys pml4 (vm_mem st') w = vmm_phys pml4 (vm_mem st) w) /\
  (forall p, (forall a, R a -> vmm_phys pml4 (vm_mem st) a <> p) -> load8 (vm_mem st') p = load8 (vm_mem st) p) /\
  (forall a, R a -> kbyte st' a = f a).

(** [bs] laid over [f] at [a]. *)
Definition overlay (f : Z -> Z) (a : Z) (bs : list Z) (b : Z) : Z :=
  if decide (a <= b < a + Z.of_nat (length bs)) then nth (Z.to_nat (b - a)) bs 0 else f b.

(** ** Lemmas *)

Lemma ent_store8 T t l i p m v : lev T !! t = Some l -> t mod 4096 = 0 -> 0 <= i < 512 -> off_tables T p ->
  ent (store8 m p v) t i = ent m t i.
Proof.
  intros Ht Ha Hi Hp. unfold ent. apply load64_store8_out. specialize (Hp t l Ht). unfold disjoint. clear -Ha Hi Hp. zdm.
Qed.

Lemma store8_tree st T p v : vm_tree pml4 st T -> off_tables T p ->
  vm_tree pml4 (Vmm (store8 (vm_mem st) p v) (vm_pmm st)) T /\
  forall w, vmm_phys pml4 (store8 (vm_mem st) p v) w = vmm_phys pml4 (vm_mem st) w.
Proof.
  intros (Hp & H0 & HT) Hoff.
  assert (forall t l i, lev T !! t = Some l -> 0 <= i < 512 -> ent (store8 (vm_mem st) p v) t i = ent (vm_mem st) t i) as He.
  { intros t l i Ht Hi. eapply ent_store8; [exact Ht| |done|done]. by apply (wt_aligned _ _ _ _ HT) in Ht as (_ & ? & _). }
  split.
  - split; [done|]. split; [done|]. cbn [vm_mem vm_pmm]. eapply wf_tree_stable; [exact HT|exact He|done].
  - intros w. unfold vmm_phys. apply (same_phys_ents pml4 _ _ _ _ HT He). apply (wt_root _ _ _ _ HT).
Qed.

Lemma kload_window st T R a : window st T R -> R a -> kload pml4 st a = Ok (kbyte st a).
Proof. intros H Ha. unfold kload. by rewrite (proj2 (Z.eqb_neq _ 0) (win_phys _ _ _ H a Ha)). Qed.

Lemma stored_window st st' T R f : window st T R -> stored st st' T R f -> window st' T R.
Proof.
  intros H (_ & _ & Hp & _). split; [apply H|..]; intros a; rewrite ?Hp.
  - by apply H.
  - by apply H.
  - intros b. rewrite Hp. by apply H.
Qed.

Lemma stored_id st T R : vm_tree pml4 st T -> stored st st T R (kbyte st).
Proof. intros H. split; [exact H|]. split; [done|]. split; [done|]. by split. Qed.

Lemma stored_trans st1 st2 st3 T R f g : stored st1 st2 T R f -> stored st2 st3 T R g -> stored st1 st3 T R g.
Proof.
  intros (_ & M1 & P1 & O1 & _) (T2 & M2 & P2 & O2 & F2). split_and!; [done|congruence|intros w; by rewrite P2| |done].
  intros p Hp. rewrite O2; [by apply O1|]. intros a Ha. rewrite P1. by apply Hp.
Qed.

Lemma stored_ext st st' T R f g : stored st st' T R f -> (forall a, R a -> f a = g a) -> stored st st' T R g.
Proof. intros (H1 & H2 & H3 & H4 & H5) Hg. split_and!; try done. intros a Ha. rewrite H5 by done. by apply Hg. Qed.

Lemma kstore_ok st0 st T R f a v : window st0 T R -> stored st0 st T R f -> R a -> is_byte v ->
  exists st', kstore pml4 a v st = Ok st' /\ stored st0 st' T R (fun b => if decide (b = a) then v else f b).
Proof.
  intros H Hs Ha Hv. pose proof (stored_window _ _ _ _ _ H Hs) as Hw. destruct Hs as (HT & Hpm & Hph & Hout & Hin).
  unfold kstore. rewrite (proj2 (Z.eqb_neq _ 0) (win_phys _ _ _ Hw a Ha)). eexists. split; [reflexivity|].
  set (p := vmm_phys pml4 (vm_mem st) a) in *.
  destruct (store8_tree st T p v HT (win_off _ _ _ Hw a Ha)) as [HT' Hp']. split; [done|]. split; [done|].
  cbn [vm_mem vm_pmm]. split; [intros w; by rewrite Hp'|]. split.
  - intros q Hq. rewrite load8_store8_ne; [by apply Hout|]. unfold p. rewrite Hph. by apply Hq.
  - intros b Hb. unfold kbyte. cbn [vm_mem]. rewrite Hp'. case_decide as Hd.
    + subst b. fold p. rewrite load8_store8. by apply u8_small.
    + rewrite load8_store8_ne; [by apply Hin|]. intros E. apply Hd. symmetry. by apply (win_inj _ _ _ Hw).
Qed.

Lemma kstore_bytes_ok st0 T R bs : window st0 T R -> Forall is_byte bs ->
  forall a st f, stored st0 st T R f -> (forall b, a <= b < a + Z.of_nat (length bs) -> R b) ->
  exists st', kstore_bytes pml4 a bs st = Ok st' /\ stored st0 st' T R (overlay f a bs).
Proof.
  intros H Hbs. induction Hbs as [|v bs Hv _ IH]; intros a st f Hs Hr; cbn [kstore_bytes].
  - exists st. split; [done|]. eapply stored_ext; [exact Hs|]. intros b _. unfold overlay. cbn [length].
    rewrite decide_False by lia. done.
  - cbn [length] in Hr. assert (R a) as Ha by (apply Hr; lia).
    destruct (kstore_ok st0 st T R f a v H Hs Ha Hv) as (st1 & -> & Hs1). cbn [mbind res_bind].
    pose proof (win_range _ _ _ H a Ha) as Har. change (2 ^ 64) with 18446744073709551616 in Har. rewrite u64_small by lia.
    destruct (IH (a + 1) st1 _ Hs1) as (st' & -> & Hs'); [intros b Hb; apply Hr; lia|].
    exists st'. split; [done|]. eapply stored_ext; [exact Hs'|]. intros b _. unfold overlay. cbn [length].
    repeat case_decide; try lia; try done.
    + replace (Z.to_nat (b - a)) with (S (Z.to_nat (b - (a + 1)))) by lia. done.
    + subst b. by rewrite Z.sub_diag.
Qed.

Lemma kload_bytes_window st T R n : window st T R -> forall a, (forall b, a <= b < a + Z.of_nat n -> R b) ->
  kload_bytes pml4 n st a = Ok (map (kbyte st) (seqZ a (Z.of_nat n))).
Proof.
  intros H. induction n as [|n IH]; intros a Hr; cbn [kload_bytes]; [done|].
  assert (R a) as Ha by (apply Hr; lia). rewrite (kload_window _ _ _ _ H Ha). cbn [mbind res_bind].
  pose proof (win_range _ _ _ H a Ha) as Har. change (2 ^ 64) with 18446744073709551616 in Har. rewrite u64_small by lia.
  rewrite IH by (intros b Hb; apply Hr; lia). cbn [mbind res_bind mret res_ret].
  rewrite (seqZ_cons a) by lia. cbn [map]. do 3 f_equal. replace (Z.pred (Z.of_nat (S n))) with (Z.of_nat n) by lia. done.
Qed.

(** A byte sequence read back where it lies. *)
Lemma map_bytes f a bs : (forall i, (i < length bs)%nat -> f (a + Z.of_nat i) = nth i bs 0) ->
  map f (seqZ a (Z.of_nat (length bs))) = bs.
Proof.
  revert a. induction bs as [|b bs IH]; intros a H; [done|]. cbn [length]. rewrite (seqZ_cons a) by lia. cbn [map]. f_equal.
  - specialize (H 0%nat). cbn in H. rewrite Z.add_0_r in H. apply H. lia.
  - replace (Z.pred (Z.of_nat (S (length bs)))) with (Z.of_nat (length bs)) by lia. apply IH. intros i Hi.
    specialize (H (S i)). cbn [length nth] in H. rewrite <- H by lia. f_equal. lia.
Qed.

Lemma kstore64_ok st0 T R a v st f : window st0 T R -> stored st0 st T R f -> (forall b, a <= b < a + 8 -> R b) ->
  exists st', kstore64 pml4 a v st = Ok st' /\ stored st0 st' T R (overlay f a (le_bytes 8 v)).
Proof.
  intros H Hs Hr. apply (kstore_bytes_ok st0 T R _ H (le_bytes_byte 8 v) a st f Hs). by rewrite le_bytes_length.
Qed.
End spec.

(** ** Reading what was stored *)

Section reads.
Context (pml4 : Z).

Lemma overlay_seq_in f a bs : map (overlay f a bs) (seqZ a (Z.of_nat (length bs))) = bs.
Proof. apply map_bytes. intros i Hi. unfold overlay. rewrite decide_True by lia. f_equal. lia. Qed.

Lemma overlay_seq_out f a bs b n : disjoint a (Z.of_nat (length bs)) b n ->
  map (overlay f a bs) (seqZ b n) = map f (seqZ b n).
Proof.
  intros H. apply map_ext_in. intros c Hc. apply list_elem_of_In, elem_of_seqZ in Hc. unfold overlay, disjoint in *.
  by rewrite decide_False by lia.
Qed.

Lemma kload_bytes_stored st0 st T R f a n : window pml4 st0 T R -> stored pml4 st0 st T R f ->
  (forall b, a <= b < a + Z.of_nat n -> R b) ->
  kload_bytes pml4 n st a = Ok (map f (seqZ a (Z.of_nat n))).
Proof.
  intros Hw Hs Hr. pose proof (stored_window _ _ _ _ _ _ Hw Hs) as Hw'. destruct Hs as (_ & _ & _ & _ & Hf).
  rewrite (kload_bytes_window _ _ _ _ _ Hw') by done. f_equal. apply map_ext_in. intros b Hb.
  apply list_elem_of_In, elem_of_seqZ in Hb. apply Hf, Hr. lia.
Qed.

Lemma kword_stored st0 st T R f a n : window pml4 st0 T R -> stored pml4 st0 st T R f ->
  (forall b, a <= b < a + Z.of_nat n -> R b) ->
  kword pml4 n st a = Ok (le_val (map f (seqZ a (Z.of_nat n)))).
Proof. intros Hw Hs Hr. unfold kword. by rewrite (kload_bytes_stored _ _ _ _ _ _ _ Hw Hs) by done. Qed.

Lemma le_val_64 v : 0 <= v < 2 ^ 64 -> le_val (le_bytes 8 v) = v.
Proof. intros H. rewrite le_val_bytes. change (256 ^ Z.of_nat 8) with (2 ^ 64). by rewrite Z.mod_small. Qed.
End reads.
