(* ===== verification/Elf.v ===== *)
(** * The program loader's ELF reader ([kernel/elf.c])

    The image lies in memory and is read through the page tables, one field
    at a time, each time the code names it: the loader itself changes the
    tables and the memory.  An access through a pointer goes through the
    translation of the pointer; a page that is not mapped is [Ub].  The three
    loops over addresses get [fuel]. *)
From S2P Require Import Prelude Mem Pmm Vmm Uspace.

(** ** Constants *)
Definition USER_MIN : Z := 0x400000.
Definition USER_MAX : Z := 0x40000000.
Definition PT_LOAD : Z := 1.
Definition PF_W : Z := 2.
Definition EHDR_SIZE : Z := 64.
Definition PHDR_SIZE : Z := 56.

Section with_pml4.
Context (pml4 : Z).

(** ** The headers: [e->f] and [p->f] *)

Definition e_byte (st : vmm) (img i : Z) : res Z := kload pml4 st (img + i).
Definition e_machine (st : vmm) (img : Z) : res Z := kword pml4 2 st (img + 18).
Definition e_entry (st : vmm) (img : Z) : res Z := kword pml4 8 st (img + 24).
Definition e_phoff (st : vmm) (img : Z) : res Z := kword pml4 8 st (img + 32).
Definition e_phentsize (st : vmm) (img : Z) : res Z := kword pml4 2 st (img + 54).
Definition e_phnum (st : vmm) (img : Z) : res Z := kword pml4 2 st (img + 56).

Definition p_type (st : vmm) (p : Z) : res Z := kword pml4 4 st p.
Definition p_flags (st : vmm) (p : Z) : res Z := kword pml4 4 st (u64 (p + 4)).
Definition p_off (st : vmm) (p : Z) : res Z := kword pml4 8 st (u64 (p + 8)).
Definition p_vaddr (st : vmm) (p : Z) : res Z := kword pml4 8 st (u64 (p + 16)).
Definition p_filesz (st : vmm) (p : Z) : res Z := kword pml4 8 st (u64 (p + 32)).
Definition p_memsz (st : vmm) (p : Z) : res Z := kword pml4 8 st (u64 (p + 40)).

(** The six bytes of [ident] that are compared, in the order of the tests. *)
Fixpoint ident_is (want : list Z) (i : Z) (st : vmm) (img : Z) : res bool :=
  match want with
  | [] => mret true
  | b :: want' => c ← e_byte st img i; if c =? b then ident_is want' (i + 1) st img else mret false
  end.

(** The checks before the loop over the program headers. *)
Definition header_ok (img len : Z) (st : vmm) : res bool :=
  if len <? EHDR_SIZE then mret false
  else
    magic ← ident_is [0x7F; 69; 76; 70] 0 st img;
    if negb magic then mret false
    else
      class ← ident_is [2; 1] 4 st img;
      if negb class then mret false
      else
        m ← e_machine st img;
        if negb (m =? 0x3E) then mret false
        else
          n ← e_phnum st img;
          ps ← e_phentsize st img;
          if negb (n =? 0) && (ps <? PHDR_SIZE) then mret false
          else
            off ← e_phoff st img;
            mret (negb (len <? u64 (off + u64 (n * ps)))).

(** ** One segment *)

(** [for (va = vaddr & ~0xFFF; va < vaddr + memsz; va += 0x1000)]: a frame for
    every page; [false] when the frames run out. *)
Definition map_step (p w : Z) (s : Z * vmm) : res (ctl (Z * vmm) (bool * vmm)) :=
  let '(va, st) := s in
  v ← p_vaddr st p; n ← p_memsz st p;
  if u64 (v + n) <=? va then mret (Done (true, st))
  else
    '(f, pm) ← pmm_alloc_frame (vm_pmm st);
    let st := Vmm (vm_mem st) pm in
    if f =? 0 then mret (Done (false, st))
    else
      st ← vmm_map pml4 va f (Z.lor (Z.lor PTE_P PTE_U) w) st;
      mret (Next (u64 (va + 0x1000), st)).

(** [for (o = 0; o < filesz; o++)]: the bytes of the file; [false] when the page
    is not mapped. *)
Definition copy_step (img p : Z) (s : Z * vmm) : res (ctl (Z * vmm) (bool * vmm)) :=
  let '(o, st) := s in
  n ← p_filesz st p;
  if n <=? o then mret (Done (true, st))
  else
    v ← p_vaddr st p;
    let phys := vmm_phys pml4 (vm_mem st) (u64 (v + o)) in
    if phys =? 0 then mret (Done (false, st))
    else
      off ← p_off st p;
      c ← kload pml4 st (u64 (img + u64 (off + o)));
      st ← kstore pml4 phys c st;
      mret (Next (u64 (o + 1), st)).

(** [for (o = filesz; o < memsz; o++)]: zeros. *)
Definition zero_step (p : Z) (s : Z * vmm) : res (ctl (Z * vmm) (bool * vmm)) :=
  let '(o, st) := s in
  n ← p_memsz st p;
  if n <=? o then mret (Done (true, st))
  else
    v ← p_vaddr st p;
    let phys := vmm_phys pml4 (vm_mem st) (u64 (v + o)) in
    if phys =? 0 then mret (Done (false, st))
    else st ← kstore pml4 phys 0 st; mret (Next (u64 (o + 1), st)).

(** The body of the loop over the headers for header [p]. *)
Definition load_segment (fuel : nat) (img len p : Z) (st : vmm) : res (bool * vmm) :=
  fl ← p_flags st p;
  let w := if negb (Z.land fl PF_W =? 0) then PTE_W else 0 in
  t ← p_type st p;
  if negb (t =? PT_LOAD) then mret (true, st)
  else
    n ← p_memsz st p;
    if n =? 0 then mret (true, st)
    else
      off ← p_off st p; fs ← p_filesz st p;
      if (len <? u64 (off + fs)) || (n <? fs) then mret (false, st)
      else
        v ← p_vaddr st p;
        if (v <? USER_MIN) || (USER_MAX <? u64 (v + n)) then mret (false, st)
        else
          '(ok, st) ← while_loop fuel (map_step p w) (align4k v, st);
          if negb ok then mret (false, st)
          else
            '(ok, st) ← while_loop fuel (copy_step img p) (0, st);
            if negb ok then mret (false, st)
            else
              o ← p_filesz st p;
              while_loop fuel (zero_step p) (o, st).

(** ** The loader *)

(** One turn of the loop over the headers. *)
Definition segment_step (fuel : nat) (img len : Z) (s : Z * vmm) : res (ctl (Z * vmm) (bool * vmm)) :=
  let '(i, st) := s in
  n ← e_phnum st img;
  if n <=? i then mret (Done (true, st))
  else
    off ← e_phoff st img; ps ← e_phentsize st img;
    '(ok, st) ← load_segment fuel img len (u64 (u64 (img + off) + u64 (i * ps))) st;
    if (ok : bool) then mret (Next (i + 1, st)) else mret (Done (false, st)).

(** The result, the entry point when it is 0, and the memory. *)
Definition elf_load (fuel : nat) (img len : Z) (st : vmm) : res (Z * Z * vmm) :=
  good ← header_ok img len st;
  if negb good then mret (-1, 0, st)
  else
    '(ok, st) ← while_loop fuel (segment_step fuel img len) (0, st);
    if negb ok then mret (-1, 0, st)
    else
      e ← e_entry st img;
      if (e <? USER_MIN) || (USER_MAX <=? e) then mret (-1, 0, st)
      else mret (0, e, st).
End with_pml4.
