(* ===== verification/ElfLoad.v ===== *)
(** * What the ELF loader does ([kernel/elf.c])

    The specification of [elf_load] on an image that is a good executable, and
    the proof.  The kernel reads the image and writes the frames it allocates
    through its identity mapping, so the theorem asks that the pages of the
    image and of the free frames are not themselves user pages that the image
    maps: this is where the loader depends on the memory layout. *)
From S2P Require Import Prelude Mem Pmm Vmm Uspace Elf.

(** ** The image as data *)

(** A little-endian field of [n] bytes at offset [o]. *)
Definition fld (B : list Z) (o : Z) (n : nat) : Z := le_val (take n (drop (Z.to_nat o) B)).

Definition phdr_off (B : list Z) (i : Z) : Z := fld B 32 8 + i * fld B 54 2.

(** A segment to load. *)
Record seg := Seg { g_off : Z; g_vaddr : Z; g_filesz : Z; g_memsz : Z; g_write : bool }.

(** Program header [i]; [None] when it is skipped. *)
Definition seg_at (B : list Z) (i : Z) : option seg :=
  let o := phdr_off B i in
  if (fld B o 4 =? PT_LOAD) && negb (fld B (o + 40) 8 =? 0)
  then Some (Seg (fld B (o + 8) 8) (fld B (o + 16) 8) (fld B (o + 32) 8) (fld B (o + 40) 8)
                 (negb (Z.land (fld B (o + 4) 4) PF_W =? 0)))
  else None.

Definition segs (B : list Z) (n : Z) : list seg := omap (seg_at B) (seqZ 0 n).
Definition all_segs (B : list Z) : list seg := segs B (fld B 56 2).

Definition seg_ok (len : Z) (s : seg) : Prop :=
  g_off s + g_filesz s <= len /\ g_filesz s <= g_memsz s /\ USER_MIN <= g_vaddr s /\ g_vaddr s + g_memsz s <= USER_MAX.

(** The pages of a segment. *)
Definition seg_lo (s : seg) : Z := g_vaddr s / 4096.
Definition seg_hi (s : seg) : Z := (g_vaddr s + g_memsz s - 1) / 4096 + 1.
Definition in_seg (s : seg) (pg : Z) : Prop := seg_lo s <= pg < seg_hi s.

(** The number of pages of segments. *)
Definition pages (ss : list seg) : Z := fold_right Z.add 0 (map (fun s => seg_hi s - seg_lo s) ss).

(** An executable for this machine whose segments lie in the user range, in
    pages of their own. *)
Record good_image (B : list Z) : Prop := {
  gi_bytes : Forall is_byte B;
  gi_len : EHDR_SIZE <= Z.of_nat (length B);
  gi_ident : take 6 B = [0x7F; 69; 76; 70; 2; 1];
  gi_machine : fld B 18 2 = 0x3E;
  gi_phentsize : PHDR_SIZE <= fld B 54 2;
  gi_phdrs : fld B 32 8 + fld B 56 2 * fld B 54 2 <= Z.of_nat (length B);
  gi_segs : Forall (seg_ok (Z.of_nat (length B))) (all_segs B);
  gi_apart i j s t pg : all_segs B !! i = Some s -> all_segs B !! j = Some t -> in_seg s pg -> in_seg t pg -> i = j;
  gi_entry : USER_MIN <= fld B 24 8 < USER_MAX
}.

(** The byte a loaded segment has at [a]. *)
Definition seg_byte (B : list Z) (s : seg) (a : Z) : Z :=
  let o := a - g_vaddr s in
  if o <? g_filesz s then nth (Z.to_nat (g_off s + o)) B 0 else 0.

(** ** Lemmas: fields *)

Lemma fld_range B o n : Forall is_byte B -> 0 <= fld B o n < 256 ^ Z.of_nat n.
Proof.
  intros HB. unfold fld. assert (Forall is_byte (take n (drop (Z.to_nat o) B))) as H by by apply Forall_take, Forall_drop.
  apply le_val_range in H. split; [lia|]. eapply Z.lt_le_trans; [apply H|]. apply Z.pow_le_mono_r; [lia|]. rewrite length_take. lia.
Qed.

Section load.
Context (pml4 img : Z) (B : list Z) (X : Z) (F0 : gset Z) (UP : Z -> Prop).
Local Abbreviation len := (Z.of_nat (length B)).
Context (Himg : 0 <= img /\ img + len <= 2 ^ 39) (Hlen : 0 < len).
Context (HX : X < TOTAL) (HF0 : forall f, f ∈ F0 -> 0 < f < TOTAL).
Context (HUP : forall pg, UP pg -> USER_MIN <= pg * 4096 < 0x40002000 /\ (pg ∉ F0) /\ ~ (img / 4096 <= pg <= (img + len - 1) / 4096)).

(** The state while segments are loaded: [M] maps the pages that have been
    given a frame. *)
Record linv (st : vmm) (T : tree) (M : gmap Z Z) : Prop := {
  li_tree : vm_tree pml4 st T;
  li_root : present (ent (vm_mem st) pml4 0) = true;
  li_free : low X (vm_pmm st) ⊆ F0;
  li_img a : img <= a < img + len ->
    vmm_phys pml4 (vm_mem st) a <> 0 /\ (vmm_phys pml4 (vm_mem st) a / 4096 ∉ F0) /\
    (vmm_phys pml4 (vm_mem st) a / 4096 ∉ free_set (vm_pmm st)) /\
    off_tables T (vmm_phys pml4 (vm_mem st) a) /\ kbyte pml4 st a = nth (Z.to_nat (a - img)) B 0;
  li_id f o : f ∈ F0 -> 0 <= o < 4096 -> vmm_phys pml4 (vm_mem st) (f * 4096 + o) = f * 4096 + o;
  li_map pg f : M !! pg = Some f -> UP pg /\ (f ∈ F0) /\ (f ∉ free_set (vm_pmm st)) /\ off_tables T (f * 4096) /\
    forall o, 0 <= o < 4096 -> vmm_phys pml4 (vm_mem st) (pg * 4096 + o) = f * 4096 + o;
  li_inj pg pg' f : M !! pg = Some f -> M !! pg' = Some f -> pg = pg'
}.

(** The addresses of the pages of [M]. *)
Definition mapped (M : gmap Z Z) (a : Z) : Prop := M !! (a / 4096) <> None.

Lemma off_tables_page T p q : p / 4096 = q / 4096 -> off_tables T p -> off_tables T q.
Proof. intros E H t l Ht. rewrite <- E. by apply (H t l). Qed.

Lemma page_split a : a = a / 4096 * 4096 + a mod 4096 /\ 0 <= a mod 4096 < 4096.
Proof. clear. zdm. Qed.

Lemma page_of f o : 0 <= o < 4096 -> (f * 4096 + o) / 4096 = f.
Proof. clear. zdm. Qed.

Lemma mapped_phys st T M a f : linv st T M -> M !! (a / 4096) = Some f ->
  vmm_phys pml4 (vm_mem st) a = f * 4096 + a mod 4096 /\ (f ∈ F0) /\ vmm_phys pml4 (vm_mem st) a / 4096 = f.
Proof.
  intros H Hf. destruct (li_map _ _ _ H _ _ Hf) as (_ & HfF & _ & _ & Hp). destruct (page_split a) as [Ea Hm].
  rewrite Ea at 1 3. rewrite Hp by done. by rewrite page_of.
Qed.

(** The mapped pages behave like an array. *)
Lemma linv_window st T M : linv st T M -> window pml4 st T (mapped M).
Proof.
  intros H. split.
  - intros a Ha. unfold mapped in Ha. destruct (M !! (a / 4096)) as [f|] eqn:Hf; [|done].
    destruct (li_map _ _ _ H _ _ Hf) as (Hu & _). destruct (HUP _ Hu) as (Hr & _). unfold USER_MIN in Hr.
    change (2 ^ 64) with 18446744073709551616. clear -Hr. zdm.
  - intros a Ha. unfold mapped in Ha. destruct (M !! (a / 4096)) as [f|] eqn:Hf; [|done].
    destruct (mapped_phys _ _ _ _ _ H Hf) as (-> & HfF & _). apply HF0 in HfF. destruct (page_split a). lia.
  - intros a Ha. unfold mapped in Ha. destruct (M !! (a / 4096)) as [f|] eqn:Hf; [|done].
    destruct (mapped_phys _ _ _ _ _ H Hf) as (_ & _ & E). destruct (li_map _ _ _ H _ _ Hf) as (_ & _ & _ & Ho & _).
    eapply off_tables_page; [|exact Ho]. rewrite E. clear. zdm.
  - intros a b Ha Hb E. unfold mapped in Ha, Hb. destruct (M !! (a / 4096)) as [f|] eqn:Hf; [|done].
    destruct (M !! (b / 4096)) as [g|] eqn:Hg; [|done].
    destruct (mapped_phys _ _ _ _ _ H Hf) as (E1 & _ & P1). destruct (mapped_phys _ _ _ _ _ H Hg) as (E2 & _ & P2).
    assert (f = g) as -> by congruence. pose proof (li_inj _ _ _ H _ _ _ Hf Hg) as Epg. rewrite E1, E2 in E.
    destruct (page_split a) as [-> _], (page_split b) as [-> _]. rewrite Epg. lia.
Qed.

(** A translation below 512 GB goes through entry 0 of the root. *)
Lemma phys_root m a : 0 <= a < 2 ^ 39 -> vmm_phys pml4 m a <> 0 -> present (ent m pml4 0) = true.
Proof.
  intros Ha. unfold vmm_phys. cbn [phys_from]. assert (idx a (Z.of_nat 3) = 0) as ->.
  { change (Z.of_nat 3) with 3. rewrite idx_eq by lia. change (2 ^ (12 + 9 * 3)) with (2 ^ 39). by rewrite Z.div_small. }
  by destruct (present (ent m pml4 0)).
Qed.

(** Storing into the mapped pages keeps the invariant. *)
Lemma linv_stored st st' T M f : linv st T M -> stored pml4 st st' T (mapped M) f -> linv st' T M.
Proof.
  intros H (HT & Hpm & Hph & Hout & Hin). split.
  - exact HT.
  - apply (phys_root _ img); [lia|]. rewrite Hph. apply (li_img _ _ _ H). lia.
  - rewrite Hpm. apply (li_free _ _ _ H).
  - intros a Ha. destruct (li_img _ _ _ H a Ha) as (H1 & H2 & H2' & H3 & H4). rewrite Hph, Hpm. split_and!; try done.
    unfold kbyte. rewrite Hph, Hout; [exact H4|]. intros b Hb E. unfold mapped in Hb.
    destruct (M !! (b / 4096)) as [g|] eqn:Hg; [|done]. destruct (mapped_phys _ _ _ _ _ H Hg) as (_ & HgF & E').
    apply H2. by rewrite <- E, E'.
  - intros g o Hg Ho. rewrite Hph. by apply (li_id _ _ _ H).
  - intros pg g Hg. rewrite Hpm. destruct (li_map _ _ _ H _ _ Hg) as (H1 & H2 & H3 & H4 & H5). split_and!; try done.
    intros o Ho. rewrite Hph. by apply H5.
  - apply (li_inj _ _ _ H).
Qed.

(** A frame taken from the allocator and not yet used. *)
Record spare (st : vmm) (T : tree) (M : gmap Z Z) (f : Z) : Prop := {
  sp_F0 : f ∈ F0;
  sp_free : f ∉ free_set (vm_pmm st);
  sp_off : off_tables T (f * 4096);
  sp_new q : M !! q <> Some f
}.

Lemma linv_alloc st T M : linv st T M -> (0 < size (low X (vm_pmm st)))%nat ->
  exists f pm, pmm_alloc_frame (vm_pmm st) = Ok (f * 4096, pm) /\ 0 < f /\ linv (Vmm (vm_mem st) pm) T M /\
    spare (Vmm (vm_mem st) pm) T M f /\ (size (low X (vm_pmm st)) <= size (low X pm) + 1)%nat /\
    forall g, spare st T M g -> spare (Vmm (vm_mem st) pm) T M g /\ g <> f.
Proof.
  intros H Hsz. destruct (li_tree _ _ _ H) as (Hwf & H0 & HT).
  destruct (alloc_frame_ok (vm_pmm st) Hwf) as (r & pm & Ea & Hw & Hs & Hnf).
  destruct (alloc_low _ _ _ X Hwf HX Hsz Hnf Hs H0) as (f & -> & Hfl & Hlow).
  assert (f ∈ F0) as HfF by by apply (li_free _ _ _ H). apply elem_low in Hfl as Hf. destruct Hf as [Hf _].
  pose proof (HF0 _ HfF) as Hfr. unfold FRAME_SIZE in *.
  assert (takes 1 (vm_pmm st) pm) as (Hsub & _ & Htk).
  { eapply takes_alloc; [exact Hwf|exact H0|exact Hnf|exact Hs|unfold FRAME_SIZE; lia]. }
  destruct (Htk X HX ltac:(lia)) as [Hls Hlz].
  assert (free_set pm = free_set (vm_pmm st) ∖ {[f]}) as HF.
  { destruct Hs as [(_ & ? & _)|(g & _ & Eg & ->)]; [lia|]. unfold FRAME_SIZE in Eg. by replace g with f by lia. }
  exists f, pm. split; [exact Ea|]. split; [lia|]. split; [|split; [|split; [lia|]]].
  - destruct H as [H1 H2 H3 H4 H5 H6 H7]. split; try done; cbn [vm_mem vm_pmm].
    + split; [done|]. split; [cbn [vm_pmm]; by intros ?%Hsub|]. cbn [vm_mem vm_pmm]. by eapply wf_tree_stable; [exact HT| |].
    + by transitivity (low X (vm_pmm st)).
    + intros a Ha. destruct (H4 a Ha) as (? & ? & ? & ? & ?). split_and!; try done. by intros ?%Hsub.
    + intros p g Hg. destruct (H6 p g Hg) as (? & ? & ? & ? & ?). split_and!; try done. by intros ?%Hsub.
  - split; [done| | |].
    + cbn [vm_pmm]. rewrite HF. intros [_ Hn]%elem_of_difference. by apply Hn, elem_of_singleton.
    + intros t l Ht. rewrite Z.div_mul by lia. intros ->. by apply (wt_used _ _ _ _ HT _ _ Ht).
    + intros q Hq. destruct (li_map _ _ _ H _ _ Hq) as (_ & _ & Hn & _). done.
  - intros g [G1 G2 G3 G4]. split; [split; try done; cbn [vm_pmm]; by intros ?%Hsub|]. by intros ->.
Qed.

(** A page is given such a frame. *)
Lemma linv_put st T M pg f flags : linv st T M -> UP pg -> M !! pg = None -> spare st T M f ->
  (2 <= size (low X (vm_pmm st)))%nat ->
  exists st' T', vmm_map pml4 (pg * 4096) (f * 4096) flags st = Ok st' /\ linv st' T' (<[pg := f]> M) /\
    (size (low X (vm_pmm st)) <= size (low X (vm_pmm st')) + 2)%nat /\
    (forall a, mapped M a -> kbyte pml4 st' a = kbyte pml4 st a) /\
    (forall g, spare st T M g -> g <> f -> spare st' T' (<[pg := f]> M) g).
Proof.
  intros H Hu Hnone [HfF Hfpm HfT Hfresh] Hsz. destruct (HUP _ Hu) as (Hr & HpF & HpI). unfold USER_MIN in Hr.
  pose proof (li_tree _ _ _ H) as HT1. pose proof (HF0 _ HfF) as Hfr. unfold TOTAL in Hfr.
  assert (size (low X (vm_pmm st)) <= size (free_set (vm_pmm st)))%nat as Hls by (apply subseteq_size; by intros ? [? _]%elem_low).
  destruct (vmm_map_tree pml4 (pg * 4096) (f * 4096) flags st T HT1 (li_root _ _ _ H))
    as (st' & pt & T' & E & HT' & Hroot' & (G1 & (G2 & G3 & G5) & G4) & _ & _ & Hph);
    [change (2 ^ 39) with 549755813888; lia|change (2 ^ 64) with 18446744073709551616; lia|lia|].
  destruct (G5 X HX Hsz) as [Gl Gz].
  assert (forall w, 0 <= w < 2 ^ 48 -> w / 4096 <> pg -> vmm_phys pml4 (vm_mem st') w = vmm_phys pml4 (vm_mem st) w) as Hother.
  { intros w Hw48 Hne. rewrite Hph by done. rewrite decide_False; [done|]. rewrite Z.div_mul by lia. done. }
  assert (forall o, 0 <= o < 4096 -> vmm_phys pml4 (vm_mem st') (pg * 4096 + o) = f * 4096 + o) as Hnew.
  { intros o Ho. rewrite Hph by (change (2 ^ 48) with 281474976710656; lia). rewrite decide_True by (rewrite Z.div_mul, page_of by lia; done).
    rewrite align4k_eq. replace ((f * 4096) mod 4096) with 0 by (clear; zdm). replace ((pg * 4096 + o) mod 4096) with o by (clear -Ho; zdm).
    rewrite Z.sub_0_r. apply u64_small. lia. }
  assert (forall a, 0 <= a < 2 ^ 48 -> a / 4096 <> pg -> off_tables T (vmm_phys pml4 (vm_mem st) a) ->
    vmm_phys pml4 (vm_mem st) a / 4096 ∉ free_set (vm_pmm st) -> kbyte pml4 st' a = kbyte pml4 st a) as Hkeep.
  { intros a Ha Hne Ho Hfr'. unfold kbyte. rewrite Hother by done. by apply G4. }
  assert (forall p, off_tables T p -> p / 4096 ∉ free_set (vm_pmm st) -> off_tables T' p) as Htab.
  { intros p Hp Hpf t l Ht. destruct (G1 t l Ht) as [Ho|Hn]; [by apply (Hp t l)|]. intros Ep. apply Hpf. by rewrite Ep. }
  assert (forall g, off_tables T (g * 4096) -> g ∉ free_set (vm_pmm st) -> off_tables T' (g * 4096)) as Htab'.
  { intros g Hg Hgf. apply Htab; [done|]. by rewrite Z.div_mul by lia. }
  exists st', T'. split; [exact E|]. split; [split|split; [lia|split]].
  - exact HT'.
  - exact Hroot'.
  - transitivity (low X (vm_pmm st)); [done|apply (li_free _ _ _ H)].
  - intros a Hia. destruct (li_img _ _ _ H a Hia) as (H1 & H2 & H2' & H3 & H4).
    assert (a / 4096 <> pg) as Hne by (intros <-; apply HpI; clear -Hia; zdm).
    assert (0 <= a < 2 ^ 48) as Ha48 by (change (2 ^ 48) with 281474976710656; change (2 ^ 39) with 549755813888 in Himg; lia).
    rewrite Hother by done. split_and!; try done; [by intros ?%G2|by apply Htab|by rewrite Hkeep].
  - intros g o Hg Ho. pose proof (HF0 _ Hg) as Hgr. unfold TOTAL in Hgr.
    rewrite Hother; [by apply (li_id _ _ _ H)|change (2 ^ 48) with 281474976710656; lia|]. rewrite page_of by done. congruence.
  - intros p g Hg. destruct (decide (p = pg)) as [->|Hne].
    + rewrite lookup_insert_eq in Hg. injection Hg as <-. split_and!; try done; [by intros ?%G2|by apply Htab'].
    + rewrite lookup_insert_ne in Hg by done. destruct (li_map _ _ _ H _ _ Hg) as (M1 & M2 & M3 & M4 & M5).
      destruct (HUP _ M1) as (Hpr & _). unfold USER_MIN in Hpr. split_and!; try done; [by intros ?%G2|by apply Htab'|].
      intros o Ho. rewrite Hother; [by apply M5|change (2 ^ 48) with 281474976710656; lia|by rewrite page_of].
  - intros p p' g Hg Hg'. apply lookup_insert_Some in Hg, Hg'.
    destruct Hg as [[<- <-]|[_ Hg]], Hg' as [[<- E2]|[_ Hg']]; try done.
    + by apply Hfresh in Hg'.
    + subst g. by apply Hfresh in Hg.
    + by apply (li_inj _ _ _ H p p' g).
  - intros a Ha. pose proof (linv_window _ _ _ H) as Hw'. unfold mapped in Ha.
    destruct (M !! (a / 4096)) as [g|] eqn:Hg; [|done]. destruct (mapped_phys _ _ _ _ _ H Hg) as (_ & HgF & Ep).
    destruct (li_map _ _ _ H _ _ Hg) as (M1 & _ & M3 & _ & _). destruct (HUP _ M1) as (Hpr & _). unfold USER_MIN in Hpr.
    apply Hkeep; [change (2 ^ 48) with 281474976710656; clear -Hpr; zdm|congruence| |by rewrite Ep].
    apply (win_off _ _ _ _ Hw'). unfold mapped. by rewrite Hg.
  - intros g [S1 S2 S3 S4] Hgf. split; [done|by intros ?%G2|by apply Htab'|]. intros q.
    destruct (decide (q = pg)) as [->|]; [rewrite lookup_insert_eq; congruence|by rewrite lookup_insert_ne].
Qed.

(** A page is given a fresh frame. *)
Lemma linv_map st T M pg flags : linv st T M -> UP pg -> M !! pg = None ->
  (3 <= size (low X (vm_pmm st)))%nat ->
  exists f pm st' T', pmm_alloc_frame (vm_pmm st) = Ok (f * 4096, pm) /\ 0 < f /\
    vmm_map pml4 (pg * 4096) (f * 4096) flags (Vmm (vm_mem st) pm) = Ok st' /\ linv st' T' (<[pg := f]> M) /\
    (size (low X (vm_pmm st)) <= size (low X (vm_pmm st')) + 3)%nat /\
    (forall a, mapped M a -> kbyte pml4 st' a = kbyte pml4 st a).
Proof.
  intros H Hu Hnone Hsz. destruct (linv_alloc st T M H) as (f & pm & E & Hf & H1 & Hsp & Hs1 & _); [lia|].
  destruct (linv_put _ T M pg f flags H1 Hu Hnone Hsp) as (st' & T' & E' & H2 & Hs2 & Hk & _); [cbn [vm_pmm]; lia|].
  cbn [vm_pmm] in Hs2. exists f, pm, st', T'. split_and!; try done. lia.
Qed.

(** ** Lemmas: reading the image *)

Lemma img_byte st T M o : linv st T M -> 0 <= o < len -> kload pml4 st (img + o) = Ok (nth (Z.to_nat o) B 0).
Proof.
  intros H Ho. destruct (li_img _ _ _ H (img + o)) as (H1 & _ & _ & _ & H4); [lia|]. unfold kload.
  rewrite (proj2 (Z.eqb_neq _ 0) H1). unfold kbyte in H4. rewrite H4. do 3 f_equal. lia.
Qed.

(** The image can be read. *)
Definition readable (st : vmm) : Prop := forall o, 0 <= o < len -> kload pml4 st (img + o) = Ok (nth (Z.to_nat o) B 0).

Lemma rd_bytes st n : readable st -> forall o, 0 <= o -> o + Z.of_nat n <= len ->
  kload_bytes pml4 n st (img + o) = Ok (take n (drop (Z.to_nat o) B)).
Proof.
  intros H. change (2 ^ 39) with 549755813888 in Himg.
  induction n as [|n IH]; intros o Ho Hn; cbn [kload_bytes]; [by rewrite take_0|].
  rewrite H by lia. cbn [mbind res_bind]. rewrite u64_small by lia.
  replace (img + o + 1) with (img + (o + 1)) by lia. rewrite IH by lia. cbn [mbind res_bind mret res_ret].
  destruct (lookup_lt_is_Some_2 B (Z.to_nat o)) as [b Hb]; [lia|].
  rewrite (drop_S _ _ _ Hb). cbn [take]. rewrite (nth_lookup_Some _ _ _ _ Hb). by replace (Z.to_nat (o + 1)) with (S (Z.to_nat o)) by lia.
Qed.

Lemma rd_fld st o n : readable st -> 0 <= o -> o + Z.of_nat n <= len -> kword pml4 n st (img + o) = Ok (fld B o n).
Proof. intros H Ho Hn. unfold kword. by rewrite (rd_bytes _ _ H) by done. Qed.

Lemma img_fld st T M o n : linv st T M -> 0 <= o -> o + Z.of_nat n <= len -> kword pml4 n st (img + o) = Ok (fld B o n).
Proof. intros H. apply rd_fld. intros o' Ho'. by eapply img_byte. Qed.

(** ** Lemmas: the header *)

Lemma ident_is_ok st want : readable st -> forall i, 0 <= i -> i + Z.of_nat (length want) <= len ->
  ident_is pml4 want i st img = Ok (bool_decide (take (length want) (drop (Z.to_nat i) B) = want)).
Proof.
  intros H. induction want as [|w want IH]; intros i Hi Hl; cbn [ident_is length]; [by rewrite take_0|].
  cbn [length] in Hl. unfold e_byte. rewrite H by lia. cbn [mbind res_bind].
  destruct (lookup_lt_is_Some_2 B (Z.to_nat i)) as [b Hb]; [lia|].
  rewrite (nth_lookup_Some _ _ _ _ Hb), (drop_S _ _ _ Hb). cbn [take]. destruct (Z.eqb_spec b w) as [->|Hne].
  - rewrite IH by lia. replace (Z.to_nat (i + 1)) with (S (Z.to_nat i)) by lia. f_equal. apply bool_decide_ext.
    split; [by intros ->|by intros [= ->]].
  - cbn [mret res_ret]. rewrite bool_decide_eq_false_2 by congruence. done.
Qed.

(** What the checks before the loop accept. *)
Definition header_good : bool :=
  (EHDR_SIZE <=? len) && bool_decide (take 4 B = [0x7F; 69; 76; 70]) && bool_decide (take 2 (drop 4 B) = [2; 1]) &&
  (fld B 18 2 =? 0x3E) && ((fld B 56 2 =? 0) || (PHDR_SIZE <=? fld B 54 2)) &&
  (u64 (fld B 32 8 + fld B 56 2 * fld B 54 2) <=? len).

Lemma header_ok_ok st : readable st -> Forall is_byte B -> header_ok pml4 img len st = Ok header_good.
Proof.
  intros H HB. unfold header_ok, header_good, EHDR_SIZE. destruct (Z.ltb_spec len 64), (Z.leb_spec 64 len); try lia; cbn [andb]; [done|].
  rewrite (ident_is_ok st [0x7F; 69; 76; 70] H 0) by (cbn; lia). cbn [mbind res_bind length]. change (drop (Z.to_nat 0) B) with B.
  destruct (bool_decide (take 4 B = _)); cbn [negb andb]; [|done].
  rewrite (ident_is_ok st [2; 1] H 4) by (cbn; lia). cbn [mbind res_bind length]. change (Z.to_nat 4) with 4%nat.
  destruct (bool_decide (take 2 (drop 4 B) = _)); cbn [negb andb]; [|done].
  unfold e_machine, e_phnum, e_phentsize, e_phoff.
  rewrite (rd_fld _ 18 2 H) by lia. cbn [mbind res_bind]. destruct (fld B 18 2 =? 0x3E); cbn [negb andb]; [|done].
  rewrite (rd_fld _ 56 2 H) by lia. cbn [mbind res_bind]. rewrite (rd_fld _ 54 2 H) by lia. cbn [mbind res_bind].
  pose proof (fld_range B 56 2 HB) as R1. pose proof (fld_range B 54 2 HB) as R2.
  assert ((negb (fld B 56 2 =? 0) && (fld B 54 2 <? PHDR_SIZE)) = negb ((fld B 56 2 =? 0) || (PHDR_SIZE <=? fld B 54 2))) as ->.
  { rewrite negb_orb. f_equal. destruct (Z.ltb_spec (fld B 54 2) PHDR_SIZE), (Z.leb_spec PHDR_SIZE (fld B 54 2)); done || lia. }
  destruct (_ || _); cbn [negb andb]; [|done]. rewrite (rd_fld _ 32 8 H) by lia. cbn [mbind res_bind mret res_ret].
  change (256 ^ Z.of_nat 2) with 65536 in *. rewrite (u64_small (_ * _)) by nia. f_equal.
  set (x := u64 _). destruct (Z.ltb_spec len x), (Z.leb_spec x len); done || lia.
Qed.

(** A bad header is refused and nothing changes. *)
Lemma elf_load_refused fuel st : readable st -> Forall is_byte B -> header_good = false ->
  elf_load pml4 fuel img len st = Ok (-1, 0, st).
Proof. intros H HB Hh. unfold elf_load. by rewrite header_ok_ok, Hh by done. Qed.

(** ** Lemmas: the loops of one segment *)

Section segment.
Context (po : Z) (s : seg).
Context (Hpo : 0 <= po /\ po + PHDR_SIZE <= len) (Hs : seg_ok len s) (Hm : 0 < g_memsz s).
Context (Hb : 0 <= g_off s /\ 0 <= g_filesz s /\ 0 <= g_vaddr s).
Context (Foff : fld B (po + 8) 8 = g_off s) (Fva : fld B (po + 16) 8 = g_vaddr s).
Context (Ffs : fld B (po + 32) 8 = g_filesz s) (Fms : fld B (po + 40) 8 = g_memsz s).
Context (Hpages : forall pg, in_seg s pg -> UP pg).

Lemma p_word st T M o n : linv st T M -> 0 <= o -> o + Z.of_nat n <= PHDR_SIZE ->
  kword pml4 n st (u64 (img + po + o)) = Ok (fld B (po + o) n).
Proof.
  intros H Ho Hn. unfold PHDR_SIZE in *. change (2 ^ 39) with 549755813888 in Himg. rewrite u64_small by lia.
  rewrite <- Z.add_assoc. apply (img_fld _ _ _ _ _ H); lia.
Qed.

Lemma p_fields st T M : linv st T M ->
  p_off pml4 st (img + po) = Ok (g_off s) /\ p_vaddr pml4 st (img + po) = Ok (g_vaddr s) /\
  p_filesz pml4 st (img + po) = Ok (g_filesz s) /\ p_memsz pml4 st (img + po) = Ok (g_memsz s).
Proof.
  intros H. unfold p_off, p_vaddr, p_filesz, p_memsz. rewrite !(p_word _ _ _ _ _ H) by (unfold PHDR_SIZE; lia).
  by rewrite Foff, Fva, Ffs, Fms.
Qed.

Lemma seg_sum : u64 (g_vaddr s + g_memsz s) = g_vaddr s + g_memsz s.
Proof. apply u64_small. destruct Hs as (_ & _ & _ & H). unfold USER_MAX in H. lia. Qed.

(** The pages from [lo] on, as the loop takes them. *)
Lemma map_loop w fuel st T M : linv st T M -> (forall pg, in_seg s pg -> M !! pg = None) ->
  3 * (seg_hi s - seg_lo s) <= Z.of_nat (size (low X (vm_pmm st))) -> (Z.to_nat (seg_hi s - seg_lo s) < fuel)%nat ->
  exists st' T' M', while_loop fuel (map_step pml4 (img + po) w) (align4k (g_vaddr s), st) = Ok (true, st') /\
    linv st' T' M' /\ (forall pg, in_seg s pg -> M' !! pg <> None) /\ (forall pg, ~ in_seg s pg -> M' !! pg = M !! pg) /\
    Z.of_nat (size (low X (vm_pmm st))) <= Z.of_nat (size (low X (vm_pmm st'))) + 3 * (seg_hi s - seg_lo s) /\
    (forall a, mapped M a -> kbyte pml4 st' a = kbyte pml4 st a).
Proof.
  intros H HM Hsz Hfuel. pose proof Hs as (_ & _ & Hmin & Hmax). unfold USER_MIN, USER_MAX in *.
  set (n0 := Z.of_nat (size (low X (vm_pmm st)))) in *.
  assert (0 <= seg_lo s) as Hlo0 by (unfold seg_lo; clear -Hb; zdm).
  assert (seg_lo s < seg_hi s /\ seg_lo s * 4096 = align4k (g_vaddr s) /\
    forall k, k < seg_hi s <-> k * 4096 < g_vaddr s + g_memsz s) as (Hlohi & Hlo & Hhi).
  { unfold seg_lo, seg_hi. rewrite align4k_eq. clear -Hm. split; [zdm|]. split; [zdm|]. intros k. split; zdm. }
  destruct (while_loop_inv
    (fun '(va, st1) => exists k T1 M1, va = k * 4096 /\ seg_lo s <= k <= seg_hi s /\ linv st1 T1 M1 /\
      (forall pg, seg_lo s <= pg < k -> M1 !! pg <> None) /\ (forall pg, ~ (seg_lo s <= pg < k) -> M1 !! pg = M !! pg) /\
      n0 <= Z.of_nat (size (low X (vm_pmm st1))) + 3 * (k - seg_lo s) /\
      (forall a, mapped M a -> kbyte pml4 st1 a = kbyte pml4 st a))
    (fun '(ok, st') => ok = true /\ exists T' M', linv st' T' M' /\ (forall pg, in_seg s pg -> M' !! pg <> None) /\
      (forall pg, ~ in_seg s pg -> M' !! pg = M !! pg) /\
      n0 <= Z.of_nat (size (low X (vm_pmm st'))) + 3 * (seg_hi s - seg_lo s) /\
      (forall a, mapped M a -> kbyte pml4 st' a = kbyte pml4 st a))
    (fun '(va, _) => Z.to_nat (seg_hi s - va / 4096)) fuel (map_step pml4 (img + po) w) (align4k (g_vaddr s), st))
    as ([ok st'] & E & -> & T' & M' & H1 & H2 & H3 & H4 & H5).
  - intros [va st1] (k & T1 & M1 & -> & Hk & H1 & HMin & HMout & Hsz1 & Hkeep). cbn [map_step].
    destruct (p_fields _ _ _ H1) as (_ & -> & _ & ->). cbn [mbind res_bind]. rewrite seg_sum.
    destruct (Z.leb_spec (g_vaddr s + g_memsz s) (k * 4096)) as [Hend|Hgo].
    + right. eexists. split; [reflexivity|]. split; [done|]. exists T1, M1.
      assert (k = seg_hi s) as -> by (pose proof (Hhi k); lia). by split_and!.
    + left. assert (k < seg_hi s) as Hk' by by apply Hhi.
      assert (UP k) as Hu by (apply Hpages; unfold in_seg; lia).
      destruct (linv_map st1 T1 M1 k (Z.lor (Z.lor PTE_P PTE_U) w) H1 Hu) as (f & pm & st2 & T2 & -> & Hf & E & H2 & Hsz2 & Hkeep2).
      { rewrite HMout by lia. apply HM. unfold in_seg. lia. }
      { lia. }
      cbn [mbind res_bind]. rewrite (proj2 (Z.eqb_neq _ 0)) by lia. rewrite E. cbn [mbind res_bind].
      eexists. split; [reflexivity|]. rewrite u64_small by lia. split.
      * exists (k + 1), T2, (<[k := f]> M1). split; [lia|]. split; [lia|]. split; [done|]. split; [|split; [|split; [lia|]]].
        -- intros pg Hpg. destruct (decide (pg = k)) as [->|]; [by rewrite lookup_insert_eq|].
           rewrite lookup_insert_ne by done. apply HMin. lia.
        -- intros pg Hpg. rewrite lookup_insert_ne by lia. apply HMout. lia.
        -- intros a Ha. rewrite Hkeep2; [by apply Hkeep|]. unfold mapped in *. rewrite HMout; [done|].
           intros Hin. apply Ha, HM. unfold in_seg. lia.
      * replace ((k * 4096 + 0x1000) / 4096) with (k + 1) by (clear; zdm). rewrite Z.div_mul by lia. lia.
  - exists (seg_lo s), T, M. split_and!; try done || lia.
  - rewrite <- Hlo, Z.div_mul by lia. done.
  - exists st', T', M'. by split_and!.
Qed.

(** A store through the translation of a mapped page is a store to the page. *)
Lemma kstore_phys st T M a v : linv st T M -> mapped M a ->
  kstore pml4 (vmm_phys pml4 (vm_mem st) a) v st = kstore pml4 a v st.
Proof.
  intros H Ha. unfold mapped in Ha. destruct (M !! (a / 4096)) as [f|] eqn:Hf; [|done].
  destruct (mapped_phys _ _ _ _ _ H Hf) as (E & HfF & _). unfold kstore.
  assert (vmm_phys pml4 (vm_mem st) (vmm_phys pml4 (vm_mem st) a) = vmm_phys pml4 (vm_mem st) a) as ->; [|done].
  rewrite E. apply (li_id _ _ _ H); [done|]. apply page_split.
Qed.

(** The addresses of the segment are mapped. *)
Lemma seg_mapped M o : (forall pg, in_seg s pg -> M !! pg <> None) -> 0 <= o < g_memsz s -> mapped M (g_vaddr s + o).
Proof. intros HM Ho. apply HM. unfold in_seg, seg_lo, seg_hi. clear -Ho. zdm. Qed.

Lemma copy_file_loop fuel st0 T M : linv st0 T M -> (forall pg, in_seg s pg -> M !! pg <> None) -> Forall is_byte B ->
  (Z.to_nat (g_filesz s) < fuel)%nat ->
  exists st', while_loop fuel (copy_step pml4 img (img + po)) (0, st0) = Ok (true, st') /\
    stored pml4 st0 st' T (mapped M)
      (fun a => if decide (g_vaddr s <= a < g_vaddr s + g_filesz s) then seg_byte B s a else kbyte pml4 st0 a).
Proof.
  intros H HM HB Hfuel. pose proof Hs as (Hoff & Hfm & Hmin & Hmax). unfold USER_MIN, USER_MAX in *.
  change (2 ^ 39) with 549755813888 in Himg. set (k := g_vaddr s) in *.
  set (F := fun o a => if decide (k <= a < k + o) then seg_byte B s a else kbyte pml4 st0 a).
  destruct (while_loop_inv (fun '(o, st) => 0 <= o <= g_filesz s /\ stored pml4 st0 st T (mapped M) (F o))
    (fun '(ok, st') => ok = true /\ stored pml4 st0 st' T (mapped M) (F (g_filesz s)))
    (fun '(o, _) => Z.to_nat (g_filesz s - o)) fuel (copy_step pml4 img (img + po)) (0, st0)) as ([ok st'] & E & -> & H').
  - intros [o st] (Ho & Hst). pose proof (linv_stored _ _ _ _ _ H Hst) as Hi. cbn [copy_step].
    destruct (p_fields _ _ _ Hi) as (-> & -> & -> & _). cbn [mbind res_bind].
    destruct (Z.leb_spec (g_filesz s) o).
    + right. eexists. split; [reflexivity|]. split; [done|]. by replace (g_filesz s) with o by lia.
    + left. fold k. rewrite (u64_small (k + o)) by lia. assert (mapped M (k + o)) as Hmo by (apply seg_mapped; done || lia).
      rewrite (proj2 (Z.eqb_neq _ 0) (win_phys _ _ _ _ (linv_window _ _ _ Hi) _ Hmo)). cbn [mbind res_bind].
      rewrite (u64_small (g_off s + o)), (u64_small (img + (g_off s + o))) by lia. rewrite (img_byte _ _ _ _ Hi) by lia. cbn [mbind res_bind].
      rewrite (kstore_phys _ _ _ _ _ Hi Hmo).
      destruct (kstore_ok pml4 st0 st T (mapped M) (F o) (k + o) (nth (Z.to_nat (g_off s + o)) B 0)) as (st2 & -> & Hst2);
        [by apply linv_window|done|done| |].
      { destruct (nth_in_or_default (Z.to_nat (g_off s + o)) B 0) as [Hin| ->]; [|done]. rewrite Forall_forall in HB.
        by apply HB, list_elem_of_In. }
      cbn [mbind res_bind]. eexists. split; [reflexivity|]. rewrite u64_small by lia. split; [|lia]. split; [lia|].
      eapply stored_ext; [exact Hst2|]. intros a _. unfold F. cbv beta. fold k. repeat case_decide; try done; try lia.
      unfold seg_byte. subst a. fold k. replace (k + o - k) with o by lia. by rewrite (proj2 (Z.ltb_lt _ _)) by lia.
  - split; [lia|]. eapply stored_ext; [apply stored_id, H|]. intros a _. unfold F. by rewrite decide_False by lia.
  - by rewrite Z.sub_0_r.
  - exists st'. by split.
Qed.

Lemma zero_loop fuel st0 T M : linv st0 T M -> (forall pg, in_seg s pg -> M !! pg <> None) ->
  (Z.to_nat (g_memsz s - g_filesz s) < fuel)%nat ->
  exists st', while_loop fuel (zero_step pml4 (img + po)) (g_filesz s, st0) = Ok (true, st') /\
    stored pml4 st0 st' T (mapped M)
      (fun a => if decide (g_vaddr s + g_filesz s <= a < g_vaddr s + g_memsz s) then 0 else kbyte pml4 st0 a).
Proof.
  intros H HM Hfuel. pose proof Hs as (Hoff & Hfm & Hmin & Hmax). unfold USER_MIN, USER_MAX in *. set (k := g_vaddr s) in *.
  set (F := fun o a => if decide (k + g_filesz s <= a < k + o) then 0 else kbyte pml4 st0 a).
  destruct (while_loop_inv (fun '(o, st) => g_filesz s <= o <= g_memsz s /\ stored pml4 st0 st T (mapped M) (F o))
    (fun '(ok, st') => ok = true /\ stored pml4 st0 st' T (mapped M) (F (g_memsz s)))
    (fun '(o, _) => Z.to_nat (g_memsz s - o)) fuel (zero_step pml4 (img + po)) (g_filesz s, st0)) as ([ok st'] & E & -> & H').
  - intros [o st] (Ho & Hst). pose proof (linv_stored _ _ _ _ _ H Hst) as Hi. cbn [zero_step].
    destruct (p_fields _ _ _ Hi) as (_ & -> & _ & ->). cbn [mbind res_bind].
    destruct (Z.leb_spec (g_memsz s) o).
    + right. eexists. split; [reflexivity|]. split; [done|]. by replace (g_memsz s) with o by lia.
    + left. fold k. rewrite (u64_small (k + o)) by lia. assert (mapped M (k + o)) as Hmo by (apply seg_mapped; done || lia).
      rewrite (proj2 (Z.eqb_neq _ 0) (win_phys _ _ _ _ (linv_window _ _ _ Hi) _ Hmo)).
      rewrite (kstore_phys _ _ _ _ _ Hi Hmo).
      destruct (kstore_ok pml4 st0 st T (mapped M) (F o) (k + o) 0) as (st2 & -> & Hst2); [by apply linv_window|done|done|done|].
      cbn [mbind res_bind]. eexists. split; [reflexivity|]. rewrite u64_small by lia. split; [|lia]. split; [lia|].
      eapply stored_ext; [exact Hst2|]. intros a _. unfold F. cbv beta. repeat case_decide; try done; lia.
  - split; [lia|]. eapply stored_ext; [apply stored_id, H|]. intros a _. unfold F. by rewrite decide_False by lia.
  - done.
  - exists st'. by split.
Qed.
End segment.
(** ** Lemmas: the loop over the headers *)

Section image.
Context (HB : good_image B).
Context (HUPs : forall s pg, s ∈ all_segs B -> in_seg s pg -> UP pg).

Lemma phdr_bounds i : 0 <= i < fld B 56 2 -> 0 <= phdr_off B i /\ phdr_off B i + PHDR_SIZE <= len.
Proof.
  intros Hi. pose proof (gi_phdrs _ HB). pose proof (gi_phentsize _ HB). pose proof (fld_range B 32 8 (gi_bytes _ HB)).
  unfold phdr_off, PHDR_SIZE in *. nia.
Qed.

Lemma phdr_addr i : 0 <= i < fld B 56 2 ->
  u64 (u64 (img + fld B 32 8) + u64 (i * fld B 54 2)) = img + phdr_off B i.
Proof.
  intros Hi. destruct (phdr_bounds i Hi) as [H1 H2]. unfold PHDR_SIZE, phdr_off in *. change (2 ^ 39) with 549755813888 in Himg.
  pose proof (fld_range B 32 8 (gi_bytes _ HB)). pose proof (fld_range B 54 2 (gi_bytes _ HB)).
  assert (0 <= i * fld B 54 2) by nia. rewrite (u64_small (img + _)), (u64_small (i * _)), u64_small by lia. lia.
Qed.

Lemma segs_snoc i : 0 <= i -> segs B (i + 1) = segs B i ++ match seg_at B i with Some s => [s] | None => [] end.
Proof. intros H. unfold segs. rewrite seqZ_app, omap_app by lia. reflexivity. Qed.

Lemma segs_all i : 0 <= i <= fld B 56 2 -> exists l, all_segs B = segs B i ++ l.
Proof.
  intros Hi. unfold all_segs, segs. replace (fld B 56 2) with (i + (fld B 56 2 - i)) by lia.
  rewrite seqZ_app, omap_app by lia. eauto.
Qed.

Lemma pages_app l l' : pages (l ++ l') = pages l + pages l'.
Proof. unfold pages. induction l as [|s l IH]; cbn [app map fold_right] in *; lia. Qed.

Lemma seg_fields i s : seg_at B i = Some s ->
  fld B (phdr_off B i) 4 = PT_LOAD /\ fld B (phdr_off B i + 8) 8 = g_off s /\ fld B (phdr_off B i + 16) 8 = g_vaddr s /\
  fld B (phdr_off B i + 32) 8 = g_filesz s /\ fld B (phdr_off B i + 40) 8 = g_memsz s /\ g_memsz s <> 0 /\
  0 <= g_off s /\ 0 <= g_filesz s /\ 0 <= g_vaddr s /\ 0 <= g_memsz s.
Proof.
  unfold seg_at. destruct (_ && _) eqn:E; [|done]. intros [= <-]. cbn. zbool.
  pose proof (fun o => fld_range B o 8 (gi_bytes _ HB)) as Hr. split_and!; try done; apply Hr.
Qed.

Lemma load_segment_ok fuel i st T M : linv st T M -> 0 <= i < fld B 56 2 ->
  match seg_at B i with
  | None => load_segment pml4 fuel img len (img + phdr_off B i) st = Ok (true, st)
  | Some s => s ∈ all_segs B -> (forall pg, in_seg s pg -> M !! pg = None) ->
      3 * (seg_hi s - seg_lo s) <= Z.of_nat (size (low X (vm_pmm st))) -> (Z.to_nat (g_memsz s) < fuel)%nat ->
      exists st' T' M', load_segment pml4 fuel img len (img + phdr_off B i) st = Ok (true, st') /\ linv st' T' M' /\
        (forall pg, in_seg s pg -> M' !! pg <> None) /\ (forall pg, ~ in_seg s pg -> M' !! pg = M !! pg) /\
        Z.of_nat (size (low X (vm_pmm st))) <= Z.of_nat (size (low X (vm_pmm st'))) + 3 * (seg_hi s - seg_lo s) /\
        (forall a, g_vaddr s <= a < g_vaddr s + g_memsz s -> kbyte pml4 st' a = seg_byte B s a) /\
        (forall a, mapped M a -> kbyte pml4 st' a = kbyte pml4 st a)
  end.
Proof.
  intros H Hi. destruct (phdr_bounds i Hi) as [Hp1 Hp2]. set (po := phdr_off B i) in *. unfold load_segment.
  unfold p_flags, p_type. rewrite (p_word po (conj Hp1 Hp2) _ _ _ 4 4 H) by (unfold PHDR_SIZE; lia). cbn [mbind res_bind].
  rewrite (img_fld st T M po 4 H) by (unfold PHDR_SIZE in *; lia). cbn [mbind res_bind].
  destruct (seg_at B i) as [s|] eqn:Es.
  - destruct (seg_fields i s Es) as (Ft & Foff & Fva & Ffs & Fms & Hnz & B1 & B2 & B3 & B4). fold po in Ft, Foff, Fva, Ffs, Fms.
    intros Hin HM Hsz Hfuel. pose proof (gi_segs _ HB) as Hso. rewrite Forall_forall in Hso. specialize (Hso s Hin).
    pose proof Hso as (Ho & Hfm & Hmin & Hmax). unfold USER_MIN, USER_MAX in *.
    assert (0 < g_memsz s) as Hm by lia.
    destruct (p_fields po s (conj Hp1 Hp2) Foff Fva Ffs Fms _ _ _ H) as (Eo & Ev & Ef & Em).
    rewrite Ft. change (negb (PT_LOAD =? PT_LOAD)) with false. cbv iota. rewrite Em. cbn [mbind res_bind].
    rewrite (proj2 (Z.eqb_neq _ 0)) by done. rewrite Eo, Ef. cbn [mbind res_bind].
    change (2 ^ 39) with 549755813888 in Himg. rewrite (u64_small (g_off s + _)) by lia.
    rewrite !(proj2 (Z.ltb_ge _ _)) by lia. cbn [orb]. rewrite Ev. cbn [mbind res_bind].
    rewrite (u64_small (g_vaddr s + _)) by lia. rewrite !(proj2 (Z.ltb_ge _ _)) by lia. cbn [orb].
    set (w := if negb _ then PTE_W else 0).
    assert (Z.to_nat (seg_hi s - seg_lo s) < fuel)%nat as Hf1.
    { assert (seg_hi s - seg_lo s <= g_memsz s) by (unfold seg_hi, seg_lo; clear -Hm; zdm). lia. }
    destruct (map_loop po s (conj Hp1 Hp2) Hso Hm (conj B1 (conj B2 B3)) Foff Fva Ffs Fms ltac:(intros pg Hpg; by eapply HUPs) w fuel
      st T M H HM Hsz Hf1) as (st1 & T1 & M1 & -> & H1 & HMin & HMout & Hsz1 & Hk1). cbn [mbind res_bind negb].
    destruct (copy_file_loop po s (conj Hp1 Hp2) Hso Hm (conj B1 (conj B2 B3)) Foff Fva Ffs Fms fuel st1 T1 M1 H1 HMin (gi_bytes _ HB))
      as (st2 & -> & Hst2); [lia|]. cbn [mbind res_bind negb].
    pose proof (linv_stored _ _ _ _ _ H1 Hst2) as H2.
    destruct (p_fields po s (conj Hp1 Hp2) Foff Fva Ffs Fms _ _ _ H2) as (_ & _ & -> & _). cbn [mbind res_bind].
    destruct (zero_loop po s (conj Hp1 Hp2) Hso Hm (conj B1 (conj B2 B3)) Foff Fva Ffs Fms fuel st2 T1 M1 H2 HMin)
      as (st3 & E3 & Hst3); [lia|].
    exists st3, T1, M1. split; [exact E3|]. split; [by eapply linv_stored|]. split; [done|]. split; [done|].
    destruct Hst2 as (_ & Hpm2 & _ & _ & Hb2). destruct Hst3 as (_ & Hpm3 & _ & _ & Hb3). split; [by rewrite Hpm3, Hpm2|]. split.
    + intros a Ha. assert (mapped M1 a) as Hma.
      { replace a with (g_vaddr s + (a - g_vaddr s)) by lia. apply (seg_mapped s); done || lia. }
      rewrite Hb3 by done. case_decide.
      * unfold seg_byte. rewrite (proj2 (Z.ltb_ge _ _)) by lia. done.
      * rewrite Hb2 by done. by rewrite decide_True by lia.
    + intros a Ha. assert (~ in_seg s (a / 4096)) as Hns by (intros Hin'; by apply Ha, HM).
      assert (mapped M1 a) as Hma by (unfold mapped in *; by rewrite HMout).
      assert (~ (g_vaddr s <= a < g_vaddr s + g_memsz s)) as Hna.
      { intros Hr. apply Hns. unfold in_seg, seg_lo, seg_hi. clear -Hr. zdm. }
      rewrite Hb3, decide_False by (done || lia). rewrite Hb2, decide_False by (done || lia). by apply Hk1.
  - unfold seg_at in Es. fold po in Es. destruct (Z.eqb_spec (fld B po 4) PT_LOAD) as [Et|Et]; [|done].
    cbn [andb negb] in Es. unfold p_memsz. rewrite (p_word po (conj Hp1 Hp2) _ _ _ 40 8 H) by (unfold PHDR_SIZE; lia).
    cbn [mbind res_bind negb]. by destruct (Z.eqb_spec (fld B (po + 40) 8) 0).
Qed.

(** The loop: every segment is loaded. *)
Lemma segments_ok fuel st T : linv st T ∅ -> 3 * pages (all_segs B) <= Z.of_nat (size (low X (vm_pmm st))) ->
  (Z.to_nat (fld B 56 2) < fuel)%nat -> Forall (fun s => (Z.to_nat (g_memsz s) < fuel)%nat) (all_segs B) ->
  exists st' T' M', while_loop fuel (segment_step pml4 fuel img len) (0, st) = Ok (true, st') /\ linv st' T' M' /\
    (forall pg, M' !! pg <> None <-> exists s, s ∈ all_segs B /\ in_seg s pg) /\
    Z.of_nat (size (low X (vm_pmm st))) <= Z.of_nat (size (low X (vm_pmm st'))) + 3 * pages (all_segs B) /\
    (forall s a, s ∈ all_segs B -> g_vaddr s <= a < g_vaddr s + g_memsz s -> kbyte pml4 st' a = seg_byte B s a).
Proof.
  intros H Hsz Hf Hfs. set (n0 := Z.of_nat (size (low X (vm_pmm st)))) in *. pose proof (gi_len _ HB) as HL. unfold EHDR_SIZE in HL.
  pose proof (fld_range B 56 2 (gi_bytes _ HB)) as Hn. rewrite Forall_forall in Hfs.
  destruct (while_loop_inv
    (fun '(i, st1) => 0 <= i <= fld B 56 2 /\ exists T1 M1, linv st1 T1 M1 /\
      (forall pg, M1 !! pg <> None <-> exists s, s ∈ segs B i /\ in_seg s pg) /\
      n0 <= Z.of_nat (size (low X (vm_pmm st1))) + 3 * pages (segs B i) /\
      (forall s a, s ∈ segs B i -> g_vaddr s <= a < g_vaddr s + g_memsz s -> kbyte pml4 st1 a = seg_byte B s a))
    (fun '(ok, st') => ok = true /\ exists T' M', linv st' T' M' /\
      (forall pg, M' !! pg <> None <-> exists s, s ∈ all_segs B /\ in_seg s pg) /\
      n0 <= Z.of_nat (size (low X (vm_pmm st'))) + 3 * pages (all_segs B) /\
      (forall s a, s ∈ all_segs B -> g_vaddr s <= a < g_vaddr s + g_memsz s -> kbyte pml4 st' a = seg_byte B s a))
    (fun '(i, _) => Z.to_nat (fld B 56 2 - i)) fuel (segment_step pml4 fuel img len) (0, st))
    as ([ok st'] & E & -> & T' & M' & H1 & H2 & H3 & H4).
  - intros [i st1] (Hi & T1 & M1 & H1 & HM & Hs1 & Hc1). cbn [segment_step]. unfold e_phnum, e_phoff, e_phentsize.
    rewrite (img_fld _ _ _ 56 2 H1) by lia. cbn [mbind res_bind].
    destruct (Z.leb_spec (fld B 56 2) i) as [Hend|Hgo].
    + right. assert (i = fld B 56 2) as -> by lia. eexists. split; [reflexivity|]. split; [done|]. by exists T1, M1.
    + left. rewrite (img_fld _ _ _ 32 8 H1) by lia. cbn [mbind res_bind]. rewrite (img_fld _ _ _ 54 2 H1) by lia. cbn [mbind res_bind].
      rewrite phdr_addr by lia. pose proof (load_segment_ok fuel i st1 T1 M1 H1 ltac:(lia)) as Hseg.
      destruct (segs_all (i + 1)) as [rest Hrest]; [lia|]. pose proof (segs_snoc i ltac:(lia)) as Hsn. rewrite Hsn in Hrest.
      destruct (seg_at B i) as [s|] eqn:Es.
      * assert (s ∈ all_segs B) as Hin by (rewrite Hrest, !elem_of_app, list_elem_of_singleton; tauto).
        assert (all_segs B !! length (segs B i) = Some s) as Hat.
        { rewrite Hrest, <- app_assoc. apply list_lookup_middle. done. }
        assert (forall s', s' ∈ segs B i -> forall pg, in_seg s pg -> ~ in_seg s' pg) as Hap.
        { intros s' Hs' pg Hpg Hpg'. apply list_elem_of_lookup_1 in Hs' as [j Hj]. pose proof (lookup_lt_Some _ _ _ Hj) as Hlt.
          assert (all_segs B !! j = Some s') as Hj' by (rewrite Hrest, <- app_assoc; by apply lookup_app_l_Some).
          pose proof (gi_apart _ HB _ _ _ _ _ Hj' Hat Hpg' Hpg). lia. }
        assert (forall pg, in_seg s pg -> M1 !! pg = None) as HMn.
        { intros pg Hpg. destruct (M1 !! pg) eqn:Epg; [|done]. destruct (proj1 (HM pg)) as (s' & Hs' & Hpg'); [by rewrite Epg|].
          by destruct (Hap s' Hs' pg Hpg). }
        assert (pages (all_segs B) = pages (segs B i) + (seg_hi s - seg_lo s) + pages rest) as Hpgs.
        { rewrite Hrest, !pages_app. cbn. lia. }
        assert (forall l, (forall s, s ∈ l -> s ∈ all_segs B) -> 0 <= pages l) as Hpn.
        { induction l as [|x l IHl]; intros Hl; [done|]. cbn [pages map fold_right]. change (fold_right Z.add 0 (map _ l)) with (pages l).
          assert (0 <= pages l) by (apply IHl; intros y Hy; apply Hl; by right).
          assert (seg_lo x <= seg_hi x); [|lia]. pose proof (gi_segs _ HB) as Hso. rewrite Forall_forall in Hso.
          destruct (Hso x) as (_ & ? & _); [apply Hl; by left|]. unfold seg_lo, seg_hi.
          assert (0 <= g_memsz x) as Hx; [|clear -Hx; zdm].
          assert (x ∈ all_segs B) as Hxin by (apply Hl; by left). apply list_elem_of_omap in Hxin as (j & _ & Hj).
          by destruct (seg_fields j x Hj) as (_ & _ & _ & _ & _ & _ & _ & _ & _ & ?). }
        assert (0 <= pages rest) by (apply Hpn; intros y Hy; rewrite Hrest, elem_of_app; tauto).
        destruct (Hseg Hin HMn) as (st2 & T2 & M2 & -> & H2 & HMin & HMout & Hs2 & Hc2 & Hk2); [lia|by apply Hfs|].
        cbn [mbind res_bind]. eexists. split; [reflexivity|]. split; [|lia]. split; [lia|]. exists T2, M2. split; [done|].
        rewrite Hsn. split; [|split].
        -- intros pg. setoid_rewrite elem_of_app. setoid_rewrite list_elem_of_singleton.
           destruct (decide (seg_lo s <= pg < seg_hi s)) as [Hd|Hd].
           ++ split; [intros _; exists s; split; [by right|done]|intros _; by apply HMin].
           ++ rewrite HMout by done. rewrite HM. split; [intros (s' & ? & ?); exists s'; tauto|].
              intros (s' & [Hs'| ->] & Hp'); [by exists s'|done].
        -- rewrite pages_app. assert (pages [s] = seg_hi s - seg_lo s) as -> by (cbn; lia). lia.
        -- intros s' a Hs' Ha. apply elem_of_app in Hs' as [Hs'|Hs'%list_elem_of_singleton]; [|subst s'; by apply Hc2].
           rewrite Hk2; [by apply Hc1|]. unfold mapped. apply HM. exists s'. split; [done|]. unfold in_seg, seg_lo, seg_hi.
           clear -Ha. zdm.
      * rewrite Hseg. cbn [mbind res_bind]. eexists. split; [reflexivity|]. split; [|lia]. split; [lia|]. exists T1, M1.
        rewrite Hsn, app_nil_r. by split_and!.
  - split; [lia|]. exists T, ∅. split; [done|]. split; [|split; [change (pages (segs B 0)) with 0; lia|]].
    + intros pg. rewrite lookup_empty. split; [done|]. intros (s & Hs & _). by apply elem_of_nil in Hs.
    + intros s a Hs. by apply elem_of_nil in Hs.
  - rewrite Z.sub_0_r. done.
  - exists st', T', M'. by split_and!.
Qed.

Lemma good_header : header_good = true.
Proof.
  pose proof (gi_len _ HB) as HL. pose proof (gi_phentsize _ HB). pose proof (gi_phdrs _ HB) as Hp. pose proof (gi_ident _ HB) as Hid.
  pose proof (fld_range B 32 8 (gi_bytes _ HB)). pose proof (fld_range B 56 2 (gi_bytes _ HB)). pose proof (fld_range B 54 2 (gi_bytes _ HB)).
  unfold header_good. change (2 ^ 39) with 549755813888 in Himg.
  assert (take 4 B = [0x7F; 69; 76; 70] /\ take 2 (drop 4 B) = [2; 1]) as [-> ->].
  { destruct B as [|b0 [|b1 [|b2 [|b3 [|b4 [|b5 B']]]]]]; try discriminate Hid. cbn in Hid. injection Hid as -> -> -> -> -> ->. done. }
  rewrite !bool_decide_eq_true_2 by done. rewrite (gi_machine _ HB), u64_small by nia.
  rewrite (proj2 (Z.leb_le _ _)), (proj2 (Z.leb_le PHDR_SIZE _)), (proj2 (Z.leb_le _ len)) by done. by rewrite orb_true_r.
Qed.

Lemma elf_load_ok fuel st T : linv st T ∅ -> 3 * pages (all_segs B) <= Z.of_nat (size (low X (vm_pmm st))) ->
  (Z.to_nat (fld B 56 2) < fuel)%nat -> Forall (fun s => (Z.to_nat (g_memsz s) < fuel)%nat) (all_segs B) ->
  exists st' T' M', elf_load pml4 fuel img len st = Ok (0, fld B 24 8, st') /\ linv st' T' M' /\
    (forall pg, M' !! pg <> None <-> exists s, s ∈ all_segs B /\ in_seg s pg) /\
    Z.of_nat (size (low X (vm_pmm st))) <= Z.of_nat (size (low X (vm_pmm st'))) + 3 * pages (all_segs B) /\
    (forall s a, s ∈ all_segs B -> g_vaddr s <= a < g_vaddr s + g_memsz s -> kload pml4 st' a = Ok (seg_byte B s a)).
Proof.
  intros H Hsz Hf Hfs. unfold elf_load.
  rewrite header_ok_ok, good_header by ((intros o Ho; by eapply img_byte) || apply (gi_bytes _ HB)). cbn [mbind res_bind negb].
  destruct (segments_ok fuel st T H Hsz Hf Hfs) as (st' & T' & M' & -> & H' & HM & Hs & Hc). cbn [mbind res_bind negb].
  pose proof (gi_len _ HB) as HL. unfold EHDR_SIZE in HL. unfold e_entry. rewrite (img_fld _ _ _ 24 8 H') by lia.
  cbn [mbind res_bind]. destruct (gi_entry _ HB). rewrite (proj2 (Z.ltb_ge _ _)), (proj2 (Z.leb_gt _ _)) by done. cbn [orb].
  exists st', T', M'. split; [done|]. split; [done|]. split; [done|]. split; [done|]. intros s a Hin Ha.
  rewrite <- (Hc s a Hin Ha). apply (kload_window pml4 st' T' (mapped M')); [by apply linv_window|].
  apply HM. exists s. split; [done|]. unfold in_seg, seg_lo, seg_hi. clear -Ha. zdm.
Qed.
End image.
End load.

(** ** Properties *)

(** The state before the load: the image [B] is mapped at [img] to bytes that
    lie neither in free frames nor in tables.  The allocator hands out the
    frames below [X] first: the kernel reaches them under their physical
    addresses, and the segments' pages are neither pages of the image nor such
    addresses.  ([X] can be 1024: user pages start at 4 MB.) *)
Record load_ready (pml4 img : Z) (B : list Z) (X : Z) (st : vmm) (T : tree) : Prop := {
  lr_X : X < TOTAL;
  lr_tree : vm_tree pml4 st T;
  lr_addr : 0 <= img /\ img + Z.of_nat (length B) <= 2 ^ 39;
  lr_img a : img <= a < img + Z.of_nat (length B) ->
    vmm_phys pml4 (vm_mem st) a <> 0 /\ (vmm_phys pml4 (vm_mem st) a / 4096 ∉ free_set (vm_pmm st)) /\
    off_tables T (vmm_phys pml4 (vm_mem st) a) /\ kbyte pml4 st a = nth (Z.to_nat (a - img)) B 0;
  lr_id f o : f ∈ low X (vm_pmm st) -> 0 <= o < 4096 -> vmm_phys pml4 (vm_mem st) (f * 4096 + o) = f * 4096 + o;
  lr_user s pg : s ∈ all_segs B -> in_seg s pg ->
    (pg ∉ low X (vm_pmm st)) /\ ~ (img / 4096 <= pg <= (img + Z.of_nat (length B) - 1) / 4096)
}.

Lemma free_range st T pml4 : vm_tree pml4 st T -> forall X f, f ∈ low X (vm_pmm st) -> 0 < f < TOTAL.
Proof.
  intros (_ & H0 & _) X f [Hf _]%elem_low. assert (f <> 0) by (by intros ->). apply elem_free_set in Hf as [Hr _]. lia.
Qed.

(** The pages that the image's segments take. *)
Definition seg_page (B : list Z) (pg : Z) : Prop := exists s, s ∈ all_segs B /\ in_seg s pg.

Lemma seg_page_ok pml4 img B X st T : good_image B -> load_ready pml4 img B X st T -> forall pg, seg_page B pg ->
  USER_MIN <= pg * 4096 < 0x40002000 /\ (pg ∉ low X (vm_pmm st)) /\
  ~ (img / 4096 <= pg <= (img + Z.of_nat (length B) - 1) / 4096).
Proof.
  intros HB HR pg (s & Hs & Hpg). split; [|by eapply lr_user].
  pose proof (gi_segs _ HB) as Hso. rewrite Forall_forall in Hso. destruct (Hso s Hs) as (_ & _ & H1 & H2).
  unfold USER_MIN, USER_MAX, in_seg, seg_lo, seg_hi in *. clear -H1 H2 Hpg. zdm.
Qed.

Lemma ready_linv pml4 img B X st T : good_image B -> load_ready pml4 img B X st T ->
  linv pml4 img B X (low X (vm_pmm st)) (seg_page B) st T ∅.
Proof.
  intros HB HR. pose proof (gi_len _ HB) as HL. unfold EHDR_SIZE in HL. split; try done; try apply HR.
  - eapply (phys_root pml4 B (vm_mem st) img); [|apply (lr_img _ _ _ _ _ _ HR); lia].
    pose proof (lr_addr _ _ _ _ _ _ HR). change (2 ^ 39) with 549755813888 in *. lia.
  - intros a Ha. destruct (lr_img _ _ _ _ _ _ HR a Ha) as (H1 & H2 & H3 & H4). split_and!; try done. by intros [? _]%elem_low.
Qed.

(** C3. A good executable is loaded when there are frames: [elf_load] ends,
    returns 0 and the entry point of the header, every byte of every loadable
    segment can be read at its virtual address and is the byte of the image,
    or 0 past the file's part; the tables stay well formed, the image can
    still be read, and no more than three frames per page are taken. *)
Theorem elf_load_loads pml4 img B X fuel st T : good_image B -> load_ready pml4 img B X st T ->
  3 * pages (all_segs B) <= Z.of_nat (size (low X (vm_pmm st))) ->
  (Z.to_nat (fld B 56 2) < fuel)%nat -> Forall (fun s => (Z.to_nat (g_memsz s) < fuel)%nat) (all_segs B) ->
  exists st' T', elf_load pml4 fuel img (Z.of_nat (length B)) st = Ok (0, fld B 24 8, st') /\ vm_tree pml4 st' T' /\
    (forall s a, s ∈ all_segs B -> g_vaddr s <= a < g_vaddr s + g_memsz s -> kload pml4 st' a = Ok (seg_byte B s a)) /\
    (forall o, 0 <= o < Z.of_nat (length B) -> kload pml4 st' (img + o) = Ok (nth (Z.to_nat o) B 0)) /\
    low X (vm_pmm st') ⊆ low X (vm_pmm st) /\
    Z.of_nat (size (low X (vm_pmm st))) <= Z.of_nat (size (low X (vm_pmm st'))) + 3 * pages (all_segs B).
Proof.
  intros HB HR Hsz Hf Hfs. pose proof (gi_len _ HB) as HL. unfold EHDR_SIZE in HL.
  destruct (elf_load_ok pml4 img B X (low X (vm_pmm st)) (seg_page B) (lr_addr _ _ _ _ _ _ HR) ltac:(lia) (lr_X _ _ _ _ _ _ HR)
    (free_range _ _ _ (lr_tree _ _ _ _ _ _ HR) X) (seg_page_ok _ _ _ _ _ _ HB HR) HB) with (fuel := fuel) (st := st) (T := T)
    as (st' & T' & M' & E & H' & _ & Hs & Hc); try done.
  - intros s pg Hs Hpg. by exists s.
  - by apply ready_linv.
  - exists st', T'. split; [exact E|]. split; [apply H'|]. split; [exact Hc|]. split; [|split; [apply H'|exact Hs]].
    intros o Ho. eapply img_byte; [exact H'|done].
Qed.

(** C30. A file that is not an executable for this machine (too short, a wrong
    magic, class or machine, program headers that are too small or past the
    end) is refused with -1 and nothing changes. *)
Theorem elf_load_refuses pml4 img B fuel st : 0 <= img /\ img + Z.of_nat (length B) <= 2 ^ 39 -> 0 < Z.of_nat (length B) ->
  Forall is_byte B -> (forall o, 0 <= o < Z.of_nat (length B) -> kload pml4 st (img + o) = Ok (nth (Z.to_nat o) B 0)) ->
  header_good B = false -> elf_load pml4 fuel img (Z.of_nat (length B)) st = Ok (-1, 0, st).
Proof. intros Hi Hl HB Hr Hh. by apply elf_load_refused. Qed.

(** ** Witnesses *)

(** A program of four bytes in a page at 4 MB that asks for eight. *)
Definition wit_img : list Z :=
  [0x7F; 69; 76; 70; 2; 1; 1; 0] ++ repeat 0 8 ++ [2; 0; 0x3E; 0; 1; 0; 0; 0] ++ le_bytes 8 0x400000 ++ le_bytes 8 64 ++
  le_bytes 8 0 ++ le_bytes 4 0 ++ [64; 0; 56; 0; 1; 0; 0; 0; 0; 0; 0; 0] ++
  le_bytes 4 PT_LOAD ++ le_bytes 4 7 ++ le_bytes 8 120 ++ le_bytes 8 0x400000 ++ le_bytes 8 0x400000 ++ le_bytes 8 4 ++
  le_bytes 8 8 ++ le_bytes 8 0x1000 ++ [0x90; 0x90; 0xEB; 0xFE].

Lemma wit_segs : all_segs wit_img = [Seg 120 0x400000 4 8 true].
Proof. vm_compute. reflexivity. Qed.

Lemma wit_img_good : good_image wit_img.
Proof.
  split.
  - apply (bool_decide_unpack _). vm_compute. exact I.
  - vm_compute. discriminate.
  - reflexivity.
  - reflexivity.
  - vm_compute. discriminate.
  - vm_compute. discriminate.
  - rewrite wit_segs. constructor; [|constructor]. unfold seg_ok. cbn [g_off g_filesz g_memsz g_vaddr].
    change (length wit_img) with 124%nat. unfold USER_MIN, USER_MAX. lia.
  - intros i j s t pg. rewrite wit_segs. by destruct i as [|i], j as [|j].
  - change (fld wit_img 24 8) with 0x400000. unfold USER_MIN, USER_MAX. lia.
Qed.

Lemma store_bytes_tree pml4 pm T bs m a : vm_tree pml4 (Vmm m pm) T ->
  (forall b, a <= b < a + Z.of_nat (length bs) -> off_tables T b) ->
  vm_tree pml4 (Vmm (store_bytes m a bs) pm) T /\ forall w, vmm_phys pml4 (store_bytes m a bs) w = vmm_phys pml4 m w.
Proof.
  intros HT. revert a. induction bs as [|b bs IH]; intros a Ho; [done|]. cbn [store_bytes length] in *.
  destruct (IH (a + 1)) as [H1 H2]; [intros c Hc; apply Ho; lia|].
  destruct (store8_tree pml4 _ T a b H1) as [H3 H4]; [apply Ho; lia|]. split; [exact H3|]. intros w. rewrite H4. apply H2.
Qed.

Lemma free_frame_cursor st phys st' : pmm_free_frame phys st = Ok st' -> cursor st' = cursor st.
Proof.
  unfold pmm_free_frame, mark_free. destruct (_ <? _); [|by intros [= ->]]. unfold mbind, res_bind.
  intros E. repeat case_match; try discriminate; by injection E as <-.
Qed.

(** Freeing one more frame of a state whose cursor is 0. *)
Lemma wit_free pm f : Pmm.wf pm -> cursor pm = 0 -> 0 <= f < TOTAL ->
  exists pm', Pmm.wf pm' /\ cursor pm' = 0 /\ free_set pm' = {[f]} ∪ free_set pm.
Proof.
  intros Hwf Hc Hf. destruct (free_frame_ok pm (f * FRAME_SIZE) Hwf) as (pm' & E & Hwf' & Hs); [unfold FRAME_SIZE; lia|].
  exists pm'. split; [done|]. split; [by rewrite (free_frame_cursor _ _ _ E)|]. unfold free_spec in Hs.
  unfold FRAME_SIZE in Hs. rewrite Z.div_mul in Hs by lia. by rewrite decide_True in Hs by lia.
Qed.

(** An allocator with the frames of [fs] free. *)
Lemma wit_frames fs : Forall (fun f => 0 <= f < TOTAL) fs ->
  exists pm, Pmm.wf pm /\ cursor pm = 0 /\ forall f, f ∈ free_set pm <-> f ∈ 256 :: fs.
Proof.
  induction 1 as [|f fs Hf _ (pm & Hwf & Hc & Hs)].
  - exists wit_state. split; [exact wit_state_wf|]. split; [reflexivity|]. intros f.
    by rewrite wit_state_free, elem_of_singleton, list_elem_of_singleton.
  - destruct (wit_free pm f Hwf Hc Hf) as (pm' & Hwf' & Hc' & Hs'). exists pm'. split; [done|]. split; [done|].
    intros g. rewrite Hs', elem_of_union, elem_of_singleton, Hs, !elem_of_cons. tauto.
Qed.

Lemma wit_phys v : 0 <= v < 2 ^ 32 -> vmm_phys 0x10000 wit_mem v = v.
Proof. apply boot_identity; [exact wit_layout|exact wit_zero]. Qed.

(** The boot tables with an image of bytes at 0x20000 and twelve free frames. *)
Lemma wit_ready bs : (length bs <= 4096)%nat -> Forall is_byte bs ->
  (forall s pg, s ∈ all_segs bs -> in_seg s pg -> pg = 1024) ->
  exists pm, load_ready 0x10000 0x20000 bs 1024 (Vmm (store_bytes wit_mem 0x20000 bs) pm) (boot_tree 0x10000 0x11000 0x12000) /\
    size (low 1024 pm) = 12%nat.
Proof.
  intros Hl Hb Hs. destruct (wit_frames (seqZ 257 11)) as (pm & Hwf & Hc & Hf0).
  { apply Forall_forall. intros f Hf%elem_of_seqZ. unfold TOTAL. lia. }
  assert (forall f, f ∈ free_set pm <-> 256 <= f < 268) as Hf.
  { intros f. rewrite Hf0, elem_of_cons, elem_of_seqZ. lia. }
  exists pm. assert (size (low 1024 pm) = 12%nat) as Hsz.
  { replace (low 1024 pm) with (list_to_set (seqZ 256 12) : gset Z); [rewrite size_list_to_set by apply NoDup_seqZ; done|].
    apply set_eq. intros f. rewrite elem_of_list_to_set, elem_of_seqZ, elem_low, Hf, Hc. lia. }
  split; [|exact Hsz].
  assert (vm_tree 0x10000 (Vmm wit_mem pm) (boot_tree 0x10000 0x11000 0x12000)) as HT.
  { split; [exact Hwf|]. split; [cbn [vm_pmm]; rewrite Hf; lia|]. apply boot_wf_tree; [exact wit_layout|exact wit_zero|].
    intros t l Ht%wit_lev. cbn [vm_pmm]. rewrite Hf. unfold FRAME_SIZE. clear -Ht. zdm. }
  assert (forall b, 0x20000 <= b < 0x20000 + Z.of_nat (length bs) -> off_tables (boot_tree 0x10000 0x11000 0x12000) b) as Ho.
  { intros b Hr t l Ht%wit_lev. clear -Hr Hl Ht. zdm. }
  destruct (store_bytes_tree _ _ _ bs wit_mem 0x20000 HT Ho) as [HT' Hp]. split.
  - done.
  - exact HT'.
  - change (2 ^ 39) with 549755813888. lia.
  - intros a Ha. cbn [vm_mem vm_pmm]. unfold kbyte. cbn [vm_mem]. rewrite !Hp, !wit_phys by (change (2 ^ 32) with 4294967296; lia).
    split; [lia|]. split; [rewrite Hf; clear -Ha Hl; zdm|]. split; [by apply Ho|].
    clear -Ha Hb. remember 0x20000 as s eqn:E. clear E. generalize wit_mem as m. revert s Ha.
    induction Hb as [|b bs Hb _ IH]; intros s Ha m; cbn [length store_bytes] in *; [lia|].
    destruct (decide (a = s)) as [->|Hne]; [by rewrite load8_store8, u8_small, Z.sub_diag by done|].
    rewrite load8_store8_ne by done. rewrite IH by lia. replace (Z.to_nat (a - s)) with (S (Z.to_nat (a - (s + 1)))) by lia. done.
  - intros f o. cbn [vm_mem vm_pmm]. rewrite elem_low, Hf. intros [Hfr _] Ho'. rewrite Hp. apply wit_phys. change (2 ^ 32) with 4294967296. lia.
  - intros s pg Hi Hpg. rewrite (Hs s pg Hi Hpg). cbn [vm_pmm]. rewrite elem_low. split; [lia|]. clear -Hl. zdm.
Qed.

Lemma elf_load_loads_witness : exists st st' T',
  elf_load 0x10000 10 0x20000 124 st = Ok (0, 0x400000, st') /\ vm_tree 0x10000 st' T' /\
  kload 0x10000 st' 0x400002 = Ok 0xEB /\ kload 0x10000 st' 0x400006 = Ok 0.
Proof.
  destruct (wit_ready wit_img) as (pm & HR & Hsz).
  - vm_compute. lia.
  - apply (gi_bytes _ wit_img_good).
  - rewrite wit_segs. intros s pg ->%list_elem_of_singleton. unfold in_seg.
    change (seg_lo _) with 1024. change (seg_hi _) with 1025. lia.
  - destruct (elf_load_loads 0x10000 0x20000 wit_img 1024 10 _ _ wit_img_good HR) as (st' & T' & E & HT & Hc & _).
    + cbn [vm_pmm]. rewrite Hsz, wit_segs. vm_compute. discriminate.
    + vm_compute. lia.
    + rewrite wit_segs. constructor; [vm_compute; lia|constructor].
    + exists (Vmm (store_bytes wit_mem 0x20000 wit_img) pm), st', T'. split; [exact E|]. split; [exact HT|].
      assert (Seg 120 0x400000 4 8 true ∈ all_segs wit_img) as Hin by (rewrite wit_segs; by left).
      split; [rewrite (Hc _ 0x400002 Hin); [reflexivity|by split]|rewrite (Hc _ 0x400006 Hin); [reflexivity|by split]].
Defined.

(** A file that starts with "abc". *)
Lemma elf_load_refuses_witness : exists st, elf_load 0x10000 10 0x20000 100 st = Ok (-1, 0, st).
Proof.
  pose (bs := [97; 98; 99] ++ repeat 0 97).
  destruct (wit_ready bs) as (pm & HR & _).
  - vm_compute. lia.
  - apply (bool_decide_unpack _). vm_compute. exact I.
  - replace (all_segs bs) with (@nil seg) by (vm_compute; reflexivity). by intros s pg ?%elem_of_nil.
  - exists (Vmm (store_bytes wit_mem 0x20000 bs) pm). apply (elf_load_refuses 0x10000 0x20000 bs).
    + vm_compute. split; discriminate.
    + reflexivity.
    + apply (bool_decide_unpack _). vm_compute. exact I.
    + intros o Ho. destruct (lr_img _ _ _ _ _ _ HR (0x20000 + o)) as (H1 & _ & _ & H4); [lia|]. unfold kload.
      rewrite (proj2 (Z.eqb_neq _ 0) H1). unfold kbyte in H4. rewrite H4. by replace (0x20000 + o - 0x20000) with o by lia.
    + reflexivity.
Defined.
