(* ===== verification/Exec.v ===== *)
(** * Programs ([kernel/exec.c])

    The registry of boot modules and the entry into a program: the old user
    pages go, the image is loaded, two stack pages are mapped and [argv] is
    built on them.  [jump_usermode] does not return; the model ends with the
    program counter and the stack pointer it is given. *)
From S2P Require Import Prelude Mem Pmm Vmm Str Uspace Elf ElfLoad.

(** ** The registry *)

Definition MAX_MODS : Z := 8.
Definition MOD_NAME_LEN : Z := 32.
Definition USTACK_BASE : Z := 0x40000000.
Definition USTACK_TOP : Z := 0x40002000.

(** A slot; the name is the string in the 32-byte array. *)
Record prog_mod := Mod { m_start : Z; m_end : Z; m_name : str }.

Record registry := Registry { mods : list prog_mod; nmods : Z }.

(** [while (n + 1 < MOD_NAME_LEN && cmd[n]) name[n] = cmd[n];] *)
Fixpoint read_name (n : nat) (m : mem) (cmd : Z) : str :=
  match n with
  | O => []
  | S n' => let c := load8 m cmd in if c =? 0 then [] else c :: read_name n' m (cmd + 1)
  end.

(** The loop of [exec_init_mods]; [m] is the memory the boot loader filled. *)
Definition init_mod (m : mem) (mods_addr i : Z) (s : registry * pmm) : res (ctl (registry * pmm) (registry * pmm)) :=
  let '(r, pm) := s in
  if negb (nmods r <? MAX_MODS) then mret (Done (r, pm))
  else
    let e := mods_addr + 16 * i in
    let start := load32 m e in let end_ := load32 m (e + 4) in let cmd := load32 m (e + 8) in
    if (end_ <=? start) || (0x40000000 <? end_) then mret (Next (r, pm))
    else if (cmd =? 0) || (load8 m cmd =? 0) then mret (Next (r, pm))
    else
      l ← wr (mods r) (nmods r) (Mod start end_ (read_name (Z.to_nat (MOD_NAME_LEN - 1)) m cmd));
      pm ← pmm_reserve start end_ pm;
      mret (Next (Registry l (nmods r + 1), pm)).

Definition exec_init_mods (m : mem) (mods_addr count : Z) (r : registry) (pm : pmm) : res (registry * pmm) :=
  c ← for_loop (Z.to_nat count) 0 (init_mod m mods_addr) (Registry (mods r) 0, pm);
  mret (match c with Next s => s | Done s => s end).

Definition exec_find (name : str) (r : registry) : res Z :=
  c ← for_loop (Z.to_nat (nmods r)) 0 (fun i (_ : unit) =>
        e ← rd (mods r) i; mret (if same_condition (m_name e) name then Done i else Next tt)) tt;
  mret (match c with Done i => i | Next _ => -1 end).

(** The bytes [exec_lsmod] writes; their number is the result. *)
Definition exec_lsmod (cap : Z) (r : registry) : res (list Z) :=
  c ← for_loop (Z.to_nat (nmods r)) 0 (fun i out =>
        e ← rd (mods r) i;
        if cap <? Z.of_nat (length out) + Z.of_nat (length (m_name e)) + 1 then mret (Done out)
        else mret (Next (out ++ m_name e ++ [10]))) [];
  mret (match c with Next out => out | Done out => out end).

(** ** Entering a program *)

(** [(n + 8) & ~7]: room for a string and its terminator in words. *)
Definition str_room (n : Z) : Z := Z.land (n + 8) (Z.lnot 7).

Inductive entered := Failed | Jump (rip rsp : Z).

Section with_pml4.
Context (pml4 : Z).

(** [argv] on the fresh stack: the new stack pointer. *)
Definition push_args (name : str) (arg : option str) (st : vmm) : res (Z * vmm) :=
  let sp := USTACK_TOP in
  let sp := sp - str_room (Z.of_nat (length name)) in
  let name_ptr := sp in
  st ← kstore_bytes pml4 sp (name ++ [0]) st;
  '(argc, arg_ptr, sp, st) ←
    match arg with
    | Some a =>
        if deref a =? 0 then mret (1, 0, sp, st)
        else
          let sp := sp - str_room (Z.of_nat (length a)) in
          st ← kstore_bytes pml4 sp (a ++ [0]) st;
          mret (2, sp, sp, st)
    | None => mret (1, 0, sp, st)
    end;
  let sp := sp - (argc + 2) * 8 in
  let sp := Z.land sp (Z.lnot 15) in
  st ← kstore64 pml4 sp argc st;
  st ← kstore64 pml4 (sp + 8) name_ptr st;
  st ← kstore64 pml4 (sp + 16) arg_ptr st;
  st ← (if argc <? 2 then kstore64 pml4 (sp + 16) 0 st else mret st);
  st ← kstore64 pml4 (sp + 8 * (1 + argc)) 0 st;
  mret (sp, st).

Definition enter_program (fuel : nat) (idx : Z) (arg : option str) (r : registry) (st : vmm) : res (entered * vmm) :=
  if (idx <? 0) || (nmods r <=? idx) then mret (Failed, st)
  else
    st ← vmm_unmap_range pml4 USER_MIN USTACK_TOP st;
    e ← rd (mods r) idx;
    '(rc, entry, st) ← elf_load pml4 fuel (m_start e) (m_end e - m_start e) st;
    if negb (rc =? 0) then mret (Failed, st)
    else
      '(s1, pm) ← pmm_alloc_frame (vm_pmm st);
      '(s2, pm) ← pmm_alloc_frame pm;
      let st := Vmm (vm_mem st) pm in
      if (s1 =? 0) || (s2 =? 0) then mret (Failed, st)
      else
        st ← vmm_map pml4 USTACK_BASE s1 (Z.lor (Z.lor PTE_P PTE_W) PTE_U) st;
        st ← vmm_map pml4 (USTACK_BASE + 0x1000) s2 (Z.lor (Z.lor PTE_P PTE_W) PTE_U) st;
        '(sp, st) ← push_args (m_name e) arg st;
        mret (Jump entry sp, st).
End with_pml4.

(** ** Specification *)

(** The modules in use. *)
Definition modules (r : registry) : list prog_mod := take (Z.to_nat (nmods r)) (mods r).

Definition mod_ok (e : prog_mod) : Prop :=
  0 <= m_start e < m_end e /\ m_end e <= 0x40000000 /\ cstr (m_name e) /\ m_name e <> [] /\ (length (m_name e) <= 31)%nat.

Record reg_ok (r : registry) : Prop := {
  ro_len : length (mods r) = 8%nat;
  ro_n : 0 <= nmods r <= 8;
  ro_mods : Forall mod_ok (modules r)
}.

(** The boot loader's entry [i], when it describes a program. *)
Definition boot_mod (m : mem) (mods_addr i : Z) : option prog_mod :=
  let e := mods_addr + 16 * i in
  let start := load32 m e in let end_ := load32 m (e + 4) in let cmd := load32 m (e + 8) in
  if (start <? end_) && (end_ <=? 0x40000000) && negb (cmd =? 0) && negb (load8 m cmd =? 0)
  then Some (Mod start end_ (read_name 31 m cmd)) else None.

(** The names, a line each. *)
Definition name_lines (es : list prog_mod) : list Z := flat_map (fun e => m_name e ++ [10]) es.

(** The argument vector of a program. *)
Definition args_of (name : str) (arg : option str) : list str :=
  name :: match arg with Some (c :: a) => [c :: a] | _ => [] end.

(** [sp] points to a count, as many pointers to strings, and a null pointer. *)
Definition argv_at (pml4 : Z) (st : vmm) (sp : Z) (args : list str) : Prop :=
  kword pml4 8 st sp = Ok (Z.of_nat (length args)) /\
  (forall i s, args !! i = Some s -> exists p, kword pml4 8 st (sp + 8 + 8 * Z.of_nat i) = Ok p /\
     kload_bytes pml4 (S (length s)) st p = Ok (s ++ [0])) /\
  kword pml4 8 st (sp + 8 + 8 * Z.of_nat (length args)) = Ok 0.

Definition stack_page (a : Z) : Prop := USTACK_BASE <= a < USTACK_TOP.

(** ** Lemmas: the registry *)

Lemma read_name_ok n m cmd : cstr (read_name n m cmd) /\ (length (read_name n m cmd) <= n)%nat.
Proof.
  revert cmd. induction n as [|n IH]; intros cmd; cbn [read_name]; [by split; [constructor|]|].
  pose proof (load8_byte m cmd) as Hb. unfold is_byte in Hb. destruct (Z.eqb_spec (load8 m cmd) 0).
  - split; [constructor|cbn; lia].
  - destruct (IH (cmd + 1)) as [H1 H2]. split; [constructor; [lia|done]|cbn [length]; lia].
Qed.

Lemma boot_mod_ok m a i e : boot_mod m a i = Some e -> mod_ok e.
Proof.
  unfold boot_mod. destruct (_ && _) eqn:E; [|done]. intros [= <-]. zbool.
  pose proof (load32_range m (a + 16 * i)). destruct (read_name_ok 31 m (load32 m (a + 16 * i + 8))) as [Hc1 Hc2].
  set (c := load32 m (a + 16 * i + 8)) in *. split_and!; cbn [m_start m_end m_name]; try done || lia.
  change 31%nat with (S 30). remember 30%nat as k. cbn [read_name]. destruct (Z.eqb_spec (load8 m c) 0); [lia|done].
Qed.

Lemma modules_length r : length (mods r) = 8%nat -> 0 <= nmods r <= 8 -> length (modules r) = Z.to_nat (nmods r).
Proof. intros H1 H2. unfold modules. rewrite length_take, H1. lia. Qed.

Lemma init_mod_ok m a i r pm : length (mods r) = 8%nat -> 0 <= nmods r < 8 -> Pmm.wf pm ->
  exists r' pm', init_mod m a i (r, pm) = Ok (Next (r', pm')) /\ length (mods r') = 8%nat /\ Pmm.wf pm' /\
    match boot_mod m a i with
    | None => r' = r /\ pm' = pm
    | Some e => nmods r' = nmods r + 1 /\ modules r' = modules r ++ [e] /\
        forall g, g ∈ free_set pm' <-> g ∈ free_set pm /\ ~ touches (m_start e) (m_end e) g
    end.
Proof.
  intros Hl Hn Hw. unfold init_mod, boot_mod, MAX_MODS. rewrite (proj2 (Z.ltb_lt _ _)) by lia. cbn [negb]. cbv zeta.
  pose proof (load32_range m (a + 16 * i)) as R1. pose proof (load32_range m (a + 16 * i + 4)) as R2.
  set (s := load32 m (a + 16 * i)) in *. set (e := load32 m (a + 16 * i + 4)) in *. set (c := load32 m (a + 16 * i + 8)).
  destruct (Z.leb_spec e s), (Z.ltb_spec s e); try lia; cbn [orb andb]; [by eexists _, _|].
  destruct (Z.ltb_spec 0x40000000 e), (Z.leb_spec e 0x40000000); try lia; cbn [orb andb]; [by eexists _, _|].
  destruct (c =? 0); cbn [orb andb negb]; [by eexists _, _|].
  destruct (load8 m c =? 0); cbn [negb]; [by eexists _, _|].
  rewrite wr_in by lia. cbn [mbind res_bind].
  destruct (reserve_ok pm s e Hw) as (pm' & -> & Hw' & Hf); [lia|change (2 ^ 63) with 9223372036854775808; lia|].
  cbn [mbind res_bind]. eexists _, pm'. split; [reflexivity|]. cbn [mods nmods]. rewrite length_insert. split_and!; try done.
  unfold modules. cbn [mods nmods]. replace (Z.to_nat (nmods r + 1)) with (S (Z.to_nat (nmods r))) by lia.
  rewrite (take_S_r _ _ (Mod s e (read_name 31 m c))) by (apply list_lookup_insert_eq; lia). by rewrite take_insert_ge.
Qed.

Lemma take_snoc_full {A} n (l : list A) x : length (take n l) = n -> take n (l ++ [x]) = take n l.
Proof. intros H. rewrite length_take in H. by rewrite take_app_le by lia. Qed.

Lemma omap_seqZ_snoc {A} (f : Z -> option A) i : 0 <= i ->
  omap f (seqZ 0 (i + 1)) = omap f (seqZ 0 i) ++ match f i with Some x => [x] | None => [] end.
Proof. intros H. rewrite seqZ_app, omap_app by lia. reflexivity. Qed.

Lemma exec_init_mods_ok m a count r pm : Pmm.wf pm -> length (mods r) = 8%nat -> 0 <= count ->
  exists r' pm', exec_init_mods m a count r pm = Ok (r', pm') /\ reg_ok r' /\ Pmm.wf pm' /\
    modules r' = take 8 (omap (boot_mod m a) (seqZ 0 count)) /\
    forall g, g ∈ free_set pm' <-> g ∈ free_set pm /\ forall e, e ∈ modules r' -> ~ touches (m_start e) (m_end e) g.
Proof.
  intros Hw Hl Hc. unfold exec_init_mods.
  set (I := fun (i : Z) (s : registry * pmm) => length (mods s.1) = 8%nat /\ 0 <= nmods s.1 <= 8 /\ Pmm.wf s.2 /\
    modules s.1 = take 8 (omap (boot_mod m a) (seqZ 0 i)) /\
    forall g, g ∈ free_set s.2 <-> g ∈ free_set pm /\ forall e, e ∈ modules s.1 -> ~ touches (m_start e) (m_end e) g).
  assert (forall i s, 0 <= i -> I i s -> nmods s.1 = 8 -> I (i + 1) s) as Hfull.
  { intros i s Hi (H1 & H2 & H3 & H4 & H5) H8. split_and!; try done; [lia|lia|]. pose proof (modules_length _ H1 H2) as Hlen.
    rewrite omap_seqZ_snoc by done. destruct (boot_mod m a i); [|by rewrite app_nil_r].
    rewrite take_snoc_full; [done|]. rewrite <- H4, Hlen, H8. done. }
  destruct (for_loop_inv I (I count) (Z.to_nat count) 0 (init_mod m a) (Registry (mods r) 0, pm))
    as [(s & -> & Hs)|(s & -> & Hs)].
  - split_and!; try done. intros g. split; [|by intros [? _]]. intros Hg. split; [done|].
    intros e He. unfold modules in He. cbn in He. by apply elem_of_nil in He.
  - intros i [r1 pm1] Hi HI. destruct (decide (nmods r1 = 8)) as [E8|E8].
    + right. unfold init_mod, MAX_MODS. rewrite E8. change (negb (8 <? 8)) with true. cbv iota. eexists. split; [reflexivity|].
      assert (forall k : nat, I (i + Z.of_nat k) (r1, pm1)) as Hk.
      { induction k as [|k IHk]; [by rewrite Z.add_0_r|]. replace (i + Z.of_nat (S k)) with (i + Z.of_nat k + 1) by lia.
        apply Hfull; [lia|exact IHk|exact E8]. }
      specialize (Hk (Z.to_nat (count - i))). by replace (i + Z.of_nat (Z.to_nat (count - i))) with count in Hk by lia.
    + left. destruct HI as (H1 & H2 & H3 & H4 & H5). cbn [fst snd] in *.
      destruct (init_mod_ok m a i r1 pm1) as (r2 & pm2 & -> & Hl2 & Hw2 & Hm); [done|lia|done|].
      eexists. split; [reflexivity|]. pose proof (modules_length _ H1 H2) as Hlen.
      assert (length (omap (boot_mod m a) (seqZ 0 i)) < 8)%nat as Hlt.
      { rewrite H4, length_take in Hlen. lia. }
      unfold I. cbn [fst snd]. rewrite omap_seqZ_snoc by lia. destruct (boot_mod m a i) as [e|] eqn:Eb.
      * destruct Hm as (Hn & Hmod & Hf). split_and!; try done || lia.
        -- rewrite Hmod, H4, (take_ge (omap _ _)), take_ge by (rewrite ?length_app; cbn; lia). done.
        -- intros g. rewrite Hf, H5, Hmod. setoid_rewrite elem_of_app. setoid_rewrite list_elem_of_singleton. naive_solver.
      * destruct Hm as [-> ->]. rewrite app_nil_r. done.
  - rewrite Z.add_0_l, Z2Nat.id in Hs by lia. destruct s as [r' pm']. destruct Hs as (H1 & H2 & H3 & H4 & H5). cbn [fst snd] in *. exists r', pm'.
    split; [done|]. split; [|done]. split; [done|done|]. rewrite H4. apply Forall_take, Forall_forall.
    intros e (i & _ & He)%list_elem_of_omap. by eapply boot_mod_ok.
  - destruct s as [r' pm']. destruct Hs as (H1 & H2 & H3 & H4 & H5). cbn [fst snd] in *. exists r', pm'.
    split; [done|]. split; [|done]. split; [done|done|]. rewrite H4. apply Forall_take, Forall_forall.
    intros e (i & _ & He)%list_elem_of_omap. by eapply boot_mod_ok.
Qed.

Lemma exec_init_cursor m a count r pm r' pm' : exec_init_mods m a count r pm = Ok (r', pm') -> cursor pm' = cursor pm.
Proof.
  unfold exec_init_mods. intros E. apply res_bind_inv in E as (c & E & H).
  assert (forall j s c, init_mod m a j s = Ok c -> cursor s.2 = cursor pm -> cursor (match c with Next s' | Done s' => s' end).2 = cursor pm) as Hb.
  { intros j [r1 p1] c1 Eb <-. unfold init_mod in Eb.
    destruct (negb _); [by injection Eb as <-|]. destruct (_ || _); [by injection Eb as <-|]. destruct (_ || _); [by injection Eb as <-|].
    apply res_bind_inv in Eb as (l & _ & Eb). apply res_bind_inv in Eb as (p2 & Er & [= <-]). exact (reserve_cursor _ _ _ _ Er). }
  pose proof (for_loop_keeps (fun s : registry * pmm => cursor s.2 = cursor pm) _ _ _ _ _ Hb E eq_refl) as Hc.
  injection H as H. rewrite H in Hc. exact Hc.
Qed.

Lemma module_get r i : reg_ok r -> 0 <= i < nmods r ->
  exists e, rd (mods r) i = Ok e /\ modules r !! Z.to_nat i = Some e /\ mod_ok e.
Proof.
  intros [Hl Hn Hm] Hi. destruct (rd_in (mods r) i) as (e & E & He); [lia|]. exists e. split; [done|].
  assert (modules r !! Z.to_nat i = Some e) as Hv by (unfold modules; by rewrite lookup_take_lt by lia).
  split; [done|]. by apply (Forall_lookup_1 _ _ _ _ Hm Hv).
Qed.

(** [exec_find]: the first module of the name. *)
Lemma exec_find_ok name r : reg_ok r -> cstr name -> exists k, exec_find name r = Ok k /\
  ((k = -1 /\ forall e, e ∈ modules r -> m_name e <> name) \/
   (0 <= k < nmods r /\ (exists e, modules r !! Z.to_nat k = Some e /\ m_name e = name) /\
    forall j e, 0 <= j < k -> modules r !! Z.to_nat j = Some e -> m_name e <> name)).
Proof.
  intros H Hname. pose proof (ro_n _ H) as Hn. unfold exec_find.
  destruct (for_loop_inv (fun i (_ : unit) => forall j e, 0 <= j < i -> modules r !! Z.to_nat j = Some e -> m_name e <> name)
    (fun k => 0 <= k < nmods r /\ (exists e, modules r !! Z.to_nat k = Some e /\ m_name e = name) /\
      forall j e, 0 <= j < k -> modules r !! Z.to_nat j = Some e -> m_name e <> name)
    (Z.to_nat (nmods r)) 0
    (fun i _ => e ← rd (mods r) i; mret (if same_condition (m_name e) name then Done i else Next tt)) tt)
    as [([] & -> & Hs)|(k & -> & Hk)].
  - intros j e Hj. lia.
  - intros i [] Hi Hs. destruct (module_get r i H) as (e & -> & He & (_ & _ & Hc & _)); [lia|]. cbn [mbind res_bind].
    rewrite same_condition_eq by done. destruct (decide (m_name e = name)) as [E|E].
    + right. exists i. rewrite bool_decide_eq_true_2 by done. split; [done|]. split; [lia|]. split; [by exists e|done].
    + left. exists tt. rewrite bool_decide_eq_false_2 by done. split; [done|]. intros j e' Hj He'.
      destruct (decide (j = i)) as [->|]; [congruence|]. apply (Hs j); [lia|done].
  - exists (-1). split; [done|]. left. split; [done|]. intros e [i Hi]%list_elem_of_lookup_1.
    apply (Hs (Z.of_nat i)); [|by rewrite Nat2Z.id]. apply lookup_lt_Some in Hi.
    rewrite (modules_length _ (ro_len _ H) Hn) in Hi. lia.
  - exists k. split; [done|by right].
Qed.

Lemma name_lines_snoc es e : name_lines (es ++ [e]) = name_lines es ++ m_name e ++ [10].
Proof. unfold name_lines. rewrite flat_map_app. cbn [flat_map]. by rewrite app_nil_r. Qed.

(** [exec_lsmod]: as many whole lines as fit. *)
Lemma exec_lsmod_ok cap r : reg_ok r -> 0 <= cap -> exists n, exec_lsmod cap r = Ok (name_lines (take n (modules r))) /\
  Z.of_nat (length (name_lines (take n (modules r)))) <= cap /\
  (n = length (modules r) \/ (n < length (modules r))%nat /\ cap < Z.of_nat (length (name_lines (take (S n) (modules r))))).
Proof.
  intros H Hc. pose proof (ro_n _ H) as Hn. pose proof (modules_length _ (ro_len _ H) Hn) as HL. unfold exec_lsmod.
  set (body := fun i out => _).
  destruct (for_loop_inv (fun i out => out = name_lines (take (Z.to_nat i) (modules r)) /\ Z.of_nat (length out) <= cap)
    (fun out => exists n, out = name_lines (take n (modules r)) /\ Z.of_nat (length out) <= cap /\ (n < length (modules r))%nat /\
      cap < Z.of_nat (length (name_lines (take (S n) (modules r))))) (Z.to_nat (nmods r)) 0 body [])
    as [(out & -> & -> & Hle)|(out & -> & n & -> & Hle & Hlt & Hgt)].
  - by split.
  - intros i out Hi [-> Hle]. unfold body. destruct (module_get r i H) as (e & -> & He & _); [lia|]. cbn [mbind res_bind].
    assert (name_lines (take (S (Z.to_nat i)) (modules r)) = name_lines (take (Z.to_nat i) (modules r)) ++ m_name e ++ [10]) as E
      by (by rewrite (take_S_r _ _ _ He), name_lines_snoc).
    destruct (Z.ltb_spec cap (Z.of_nat (length (name_lines (take (Z.to_nat i) (modules r)))) + Z.of_nat (length (m_name e)) + 1)).
    + right. eexists. split; [reflexivity|]. exists (Z.to_nat i). split_and!; try done || lia. rewrite E, !length_app. cbn [length]. lia.
    + left. eexists. split; [reflexivity|]. replace (Z.to_nat (i + 1)) with (S (Z.to_nat i)) by lia. rewrite E. split; [done|].
      rewrite !length_app. cbn [length]. lia.
  - replace (Z.to_nat (0 + Z.of_nat (Z.to_nat (nmods r)))) with (Z.to_nat (nmods r)) in * by lia.
    exists (Z.to_nat (nmods r)). split; [done|]. split; [done|]. left. lia.
  - exists n. split; [done|]. split; [done|]. by right.
Qed.

(** ** Lemmas: the arguments *)

Lemma str_room_bounds n : 0 <= n -> n + 1 <= str_room n <= n + 8.
Proof.
  intros Hn. unfold str_room. change (Z.lnot 7) with (Z.lnot (Z.ones 3)). rewrite land_lnot_mask by lia.
  change (2 ^ 3) with 8. zdm.
Qed.

Lemma align16 x : Z.land x (Z.lnot 15) = x - x mod 16.
Proof. change (Z.lnot 15) with (Z.lnot (Z.ones 4)). by rewrite land_lnot_mask by lia. Qed.

Lemma cstr_bytes s : cstr s -> Forall is_byte (s ++ [0]).
Proof.
  intros H. apply Forall_app. split; [|by repeat constructor]. eapply Forall_impl; [exact H|]. unfold is_byte. cbn. lia.
Qed.

Section args.
Context (pml4 : Z) (st0 : vmm) (T : tree) (Hw : window pml4 st0 T stack_page).

(** One store to the stack, as the data it leaves. *)
Lemma push_word st f a v : stored pml4 st0 st T stack_page f -> USTACK_BASE <= a -> a + 8 <= USTACK_TOP ->
  exists st', kstore64 pml4 a v st = Ok st' /\ stored pml4 st0 st' T stack_page (overlay f a (le_bytes 8 v)).
Proof. intros Hs H1 H2. apply (kstore64_ok pml4 st0 T stack_page); try done. intros b Hb. unfold stack_page. lia. Qed.

Lemma push_str st f a s : stored pml4 st0 st T stack_page f -> cstr s -> USTACK_BASE <= a ->
  a + Z.of_nat (length s) + 1 <= USTACK_TOP ->
  exists st', kstore_bytes pml4 a (s ++ [0]) st = Ok st' /\ stored pml4 st0 st' T stack_page (overlay f a (s ++ [0])).
Proof.
  intros Hs Hc H1 H2. apply (kstore_bytes_ok pml4 st0 T stack_page _ Hw (cstr_bytes s Hc) a st f Hs).
  intros b Hb. rewrite length_app in Hb. cbn [length] in Hb. unfold stack_page. lia.
Qed.

Lemma read_word st f a v : stored pml4 st0 st T stack_page f -> USTACK_BASE <= a -> a + 8 <= USTACK_TOP ->
  map f (seqZ a 8) = le_bytes 8 v -> 0 <= v < 2 ^ 64 -> kword pml4 8 st a = Ok v.
Proof.
  intros Hs H1 H2 Hf Hv. rewrite (kword_stored pml4 st0 st T stack_page f a 8 Hw Hs).
  - change (Z.of_nat 8) with 8. by rewrite Hf, le_val_64.
  - intros b Hb. unfold stack_page. lia.
Qed.

Lemma read_str st f a s : stored pml4 st0 st T stack_page f -> USTACK_BASE <= a ->
  a + Z.of_nat (length s) + 1 <= USTACK_TOP ->
  map f (seqZ a (Z.of_nat (length (s ++ [0])))) = s ++ [0] -> kload_bytes pml4 (S (length s)) st a = Ok (s ++ [0]).
Proof.
  intros Hs H1 H2 Hf. rewrite (kload_bytes_stored pml4 st0 st T stack_page f a (S (length s)) Hw Hs).
  - rewrite length_app in Hf. cbn [length] in Hf. by replace (Z.of_nat (S (length s))) with (Z.of_nat (length s + 1)) by lia; rewrite Hf.
  - intros b Hb. unfold stack_page. lia.
Qed.

(** [overlay]s are peeled off from the outside. *)
Ltac peel_out := rewrite overlay_seq_out by (rewrite ?length_app, ?le_bytes_length; unfold Mem.disjoint; cbn [length]; lia).
Ltac peel_in := first [apply (overlay_seq_in _ _ (le_bytes 8 _)) | apply overlay_seq_in].

(** The slots: the stores at the end of [push_args]. *)
Lemma push_slots st f argc np ap sp : stored pml4 st0 st T stack_page f -> (argc = 1 /\ ap = 0 \/ argc = 2) ->
  USTACK_BASE + 64 <= sp <= USTACK_TOP ->
  let q := Z.land (sp - (argc + 2) * 8) (Z.lnot 15) in
  exists st' f', (st ← kstore64 pml4 q argc st; st ← kstore64 pml4 (q + 8) np st; st ← kstore64 pml4 (q + 16) ap st;
      st ← (if argc <? 2 then kstore64 pml4 (q + 16) 0 st else mret st);
      st ← kstore64 pml4 (q + 8 * (1 + argc)) 0 st; mret (q, st)) = Ok (q, st') /\
    stored pml4 st0 st' T stack_page f' /\ q mod 16 = 0 /\ USTACK_BASE <= q /\ q + 8 * (argc + 2) <= sp /\
    map f' (seqZ q 8) = le_bytes 8 argc /\ map f' (seqZ (q + 8) 8) = le_bytes 8 np /\
    (argc = 2 -> map f' (seqZ (q + 16) 8) = le_bytes 8 ap) /\ map f' (seqZ (q + 8 * (1 + argc)) 8) = le_bytes 8 0 /\
    forall b n, sp <= b -> map f' (seqZ b n) = map f (seqZ b n).
Proof.
  intros S0 Hc Hsp q. unfold USTACK_BASE, USTACK_TOP in *.
  assert (q mod 16 = 0 /\ sp - (argc + 2) * 8 - 15 <= q <= sp - (argc + 2) * 8) as [Hq Hb] by (unfold q; rewrite align16; clear; zdm).
  destruct (push_word st f q argc S0) as (st1 & -> & S1); [unfold USTACK_BASE; lia|unfold USTACK_TOP; lia|]. cbn [mbind res_bind].
  destruct (push_word st1 _ (q + 8) np S1) as (st2 & -> & S2); [unfold USTACK_BASE; lia|unfold USTACK_TOP; lia|]. cbn [mbind res_bind].
  destruct (push_word st2 _ (q + 16) ap S2) as (st3 & -> & S3); [unfold USTACK_BASE; lia|unfold USTACK_TOP; lia|]. cbn [mbind res_bind].
  destruct Hc as [[-> ->]| ->].
  - change (1 <? 2) with true. cbv iota.
    destruct (push_word st3 _ (q + 16) 0 S3) as (st4 & -> & S4); [unfold USTACK_BASE; lia|unfold USTACK_TOP; lia|]. cbn [mbind res_bind].
    destruct (push_word st4 _ (q + 8 * (1 + 1)) 0 S4) as (st5 & -> & S5); [unfold USTACK_BASE; lia|unfold USTACK_TOP; lia|]. cbn [mbind res_bind].
    eexists st5, _. split; [reflexivity|]. split; [exact S5|]. split_and!; try done || lia.
    + do 4 peel_out. peel_in.
    + do 3 peel_out. peel_in.
    + peel_in.
    + intros b n Hbn. do 5 peel_out. done.
  - change (2 <? 2) with false. cbv iota. cbn [mbind res_bind mret res_ret].
    destruct (push_word st3 _ (q + 8 * (1 + 2)) 0 S3) as (st5 & -> & S5); [unfold USTACK_BASE; lia|unfold USTACK_TOP; lia|]. cbn [mbind res_bind].
    eexists st5, _. split; [reflexivity|]. split; [exact S5|]. split_and!; try done || lia.
    + do 3 peel_out. peel_in.
    + do 2 peel_out. peel_in.
    + intros _. do 1 peel_out. peel_in.
    + peel_in.
    + intros b n Hbn. do 4 peel_out. done.
Qed.

Lemma push_args_ok name arg : vm_tree pml4 st0 T -> cstr name -> (length name <= 31)%nat ->
  (forall a, arg = Some a -> cstr a /\ (length a <= 127)%nat) ->
  exists sp st' f, push_args pml4 name arg st0 = Ok (sp, st') /\ stored pml4 st0 st' T stack_page f /\
    sp mod 16 = 0 /\ USTACK_BASE <= sp < USTACK_TOP /\ argv_at pml4 st' sp (args_of name arg).
Proof.
  intros HT Hn Hnl Ha. pose proof (stored_id pml4 st0 T stack_page HT) as S0.
  pose proof (str_room_bounds (Z.of_nat (length name)) ltac:(lia)) as Rn. unfold push_args.
  set (np := USTACK_TOP - str_room (Z.of_nat (length name))) in *.
  assert (0x40001fd8 <= np /\ np + Z.of_nat (length name) + 1 <= USTACK_TOP) as Hnp by (unfold np, USTACK_TOP in *; lia).
  destruct (push_str st0 _ np name S0 Hn) as (st1 & -> & S1); [unfold USTACK_BASE; lia|lia|]. cbn [mbind res_bind].
  set (f1 := overlay _ np _) in *.
  assert (map f1 (seqZ np (Z.of_nat (length (name ++ [0])))) = name ++ [0]) as N1 by apply overlay_seq_in.
  assert ((exists c a, arg = Some (c :: a)) \/ args_of name arg = [name] /\
    match arg with Some a => deref a =? 0 | None => true end = true) as [(c & a & ->)|[Eargs Earg]].
  { destruct arg as [[|c a]|]; [by right|left; eauto|by right]. }
  - destruct (Ha _ eq_refl) as [Hca Hla]. cbn [deref]. pose proof (str_room_bounds (Z.of_nat (length (c :: a))) ltac:(lia)) as Ra.
    rewrite (proj2 (Z.eqb_neq c 0)) by (inversion_clear Hca; lia).
    set (ap := np - str_room (Z.of_nat (length (c :: a)))) in *.
    assert (0x40001f00 <= ap /\ ap + Z.of_nat (length (c :: a)) + 1 <= np) as Hap by (unfold ap; lia).
    destruct (push_str st1 _ ap (c :: a) S1 Hca) as (st2 & -> & S2); [unfold USTACK_BASE; lia|lia|]. cbn [mbind res_bind mret res_ret].
    destruct (push_slots st2 _ 2 np ap ap S2) as (st' & f' & E & S' & Hal & Hb & Hsp & H1 & H2 & H3 & H4 & Hup);
      [by right|unfold USTACK_BASE, USTACK_TOP in *; lia|].
    rewrite E. set (q := Z.land _ _) in *. clearbody q. eexists q, st', f'. split; [reflexivity|]. split; [done|]. split; [done|].
    unfold USTACK_BASE, USTACK_TOP in *. split; [lia|]. change (args_of name (Some (c :: a))) with [name; c :: a]. split_and!.
    + apply (read_word _ _ _ _ S'); try done; unfold USTACK_BASE, USTACK_TOP; lia.
    + intros i s Hi. destruct i as [|[|i]]; cbn in Hi; [injection Hi as <-|injection Hi as <-|done].
      * exists np. split; [apply (read_word _ _ _ _ S'); [unfold USTACK_BASE; lia|unfold USTACK_TOP; lia| |lia]|].
        { by replace (q + 8 + 8 * Z.of_nat 0) with (q + 8) by lia. }
        apply (read_str _ _ _ _ S'); [unfold USTACK_BASE; lia|unfold USTACK_TOP; lia|].
        rewrite Hup by lia. rewrite overlay_seq_out; [done|]. unfold Mem.disjoint. rewrite length_app. cbn [length] in *. lia.
      * exists ap. split; [apply (read_word _ _ _ _ S'); [unfold USTACK_BASE; lia|unfold USTACK_TOP; lia| |lia]|].
        { replace (q + 8 + 8 * Z.of_nat 1) with (q + 16) by lia. by apply H3. }
        apply (read_str _ _ _ _ S'); [unfold USTACK_BASE; lia|unfold USTACK_TOP; lia|].
        rewrite Hup by lia. apply overlay_seq_in.
    + cbn [length]. apply (read_word _ _ _ _ S'); [unfold USTACK_BASE; lia|unfold USTACK_TOP; lia| |lia].
      by replace (q + 8 + 8 * Z.of_nat 2) with (q + 8 * (1 + 2)) by lia.
  - assert ((match arg with
      | Some a => if deref a =? 0 then mret (1, 0, np, st1) else
          st ← kstore_bytes pml4 (np - str_room (Z.of_nat (length a))) (a ++ [0]) st1;
          mret (2, np - str_room (Z.of_nat (length a)), np - str_room (Z.of_nat (length a)), st)
      | None => mret (1, 0, np, st1) end) = Ok (1, 0, np, st1)) as -> by (destruct arg; [by rewrite Earg|done]).
    cbn [mbind res_bind].
    destruct (push_slots st1 _ 1 np 0 np S1) as (st' & f' & E & S' & Hal & Hb & Hsp & H1 & H2 & H3 & H4 & Hup);
      [by left|unfold USTACK_BASE, USTACK_TOP in *; lia|].
    rewrite E. set (q := Z.land _ _) in *. clearbody q. eexists q, st', f'. split; [reflexivity|]. split; [done|]. split; [done|].
    unfold USTACK_BASE, USTACK_TOP in *. split; [lia|]. rewrite Eargs. split_and!.
    + apply (read_word _ _ _ _ S'); try done; unfold USTACK_BASE, USTACK_TOP; lia.
    + intros i s Hi. destruct i as [|i]; cbn in Hi; [injection Hi as <-|done].
      exists np. split; [apply (read_word _ _ _ _ S'); [unfold USTACK_BASE; lia|unfold USTACK_TOP; lia| |lia]|].
      { by replace (q + 8 + 8 * Z.of_nat 0) with (q + 8) by lia. }
      apply (read_str _ _ _ _ S'); [unfold USTACK_BASE; lia|unfold USTACK_TOP; lia|]. by rewrite Hup by lia.
    + cbn [length]. apply (read_word _ _ _ _ S'); [unfold USTACK_BASE; lia|unfold USTACK_TOP; lia| |lia].
      by replace (q + 8 + 8 * Z.of_nat 1) with (q + 8 * (1 + 1)) by lia.
Qed.
End args.

(** ** Lemmas: a program is entered *)

Lemma window_sub pml4 st T (R R' : Z -> Prop) : window pml4 st T R -> (forall a, R' a -> R a) -> window pml4 st T R'.
Proof. intros [H1 H2 H3 H4] HR. split; eauto. Qed.

(** Windows depend on the translation only. *)
Lemma window_phys pml4 st st' T R : window pml4 st T R ->
  (forall w, vmm_phys pml4 (vm_mem st') w = vmm_phys pml4 (vm_mem st) w) -> window pml4 st' T R.
Proof. intros [H1 H2 H3 H4] HP. split; intros; rewrite ?HP in *; eauto. Qed.

Section enter.
Context (pml4 : Z) (B : list Z) (X : Z) (e : prog_mod) (T : tree) (st1 : vmm).
Local Abbreviation img := (m_start e).
Context (He : mod_ok e) (HL : Z.of_nat (length B) = m_end e - m_start e).
Context (HB : good_image B) (HR : load_ready pml4 img B X st1 T).

(** The pages a program gets. *)
Definition prog_page (pg : Z) : Prop := seg_page B pg \/ pg = 0x40000 \/ pg = 0x40001.
Definition prog_mem (a : Z) : Prop := prog_page (a / 4096).

Lemma prog_page_ok pg : prog_page pg -> USER_MIN <= pg * 4096 < 0x40002000 /\ (pg ∉ low X (vm_pmm st1)) /\
  ~ (img / 4096 <= pg <= (img + Z.of_nat (length B) - 1) / 4096).
Proof.
  destruct He as ((H1 & H2) & H3 & _). intros [H|H]; [by eapply seg_page_ok|]. unfold USER_MIN. split; [lia|]. split.
  - intros Hf. pose proof (free_range _ _ _ (lr_tree _ _ _ _ _ _ HR) X pg Hf) as Hr. unfold TOTAL in Hr. lia.
  - rewrite HL. intros Hr. clear HL HB HR. zdm.
Qed.

Local Abbreviation Linv := (linv pml4 img B X (low X (vm_pmm st1)) prog_page).

Lemma addr_ok : 0 <= img /\ img + Z.of_nat (length B) <= 2 ^ 39.
Proof. apply (lr_addr _ _ _ _ _ _ HR). Qed.

Lemma prog_linv : Linv st1 T ∅.
Proof. by destruct (ready_linv _ _ _ _ _ _ HB HR). Qed.

Lemma img_len : 0 < Z.of_nat (length B).
Proof. pose proof (gi_len _ HB) as H. unfold EHDR_SIZE in H. lia. Qed.

(** The two stack pages. *)
Lemma stack_mapped fuel st2 T2 M2 : Linv st2 T2 M2 -> (forall pg, M2 !! pg <> None -> seg_page B pg) ->
  (6 <= size (low X (vm_pmm st2)))%nat ->
  exists s1 s2 pm pm' st3 st4 T4 M4, pmm_alloc_frame (vm_pmm st2) = Ok (s1, pm) /\ pmm_alloc_frame pm = Ok (s2, pm') /\
    s1 <> 0 /\ s2 <> 0 /\ vmm_map pml4 USTACK_BASE s1 fuel (Vmm (vm_mem st2) pm') = Ok st3 /\
    vmm_map pml4 (USTACK_BASE + 0x1000) s2 fuel st3 = Ok st4 /\ Linv st4 T4 M4 /\
    (forall a, stack_page a -> mapped M4 a) /\ (forall a, mapped M2 a -> mapped M4 a /\ ~ stack_page a) /\
    (forall a, mapped M2 a -> kbyte pml4 st4 a = kbyte pml4 st2 a).
Proof.
  pose proof addr_ok as Ha. pose proof img_len as Hl. pose proof (lr_X _ _ _ _ _ _ HR) as HX.
  pose proof (free_range _ _ _ (lr_tree _ _ _ _ _ _ HR) X) as HF. intros H HM Hsz.
  assert (forall pg, pg = 0x40000 \/ pg = 0x40001 -> M2 !! pg = None) as Hno.
  { intros pg Hpg. destruct (M2 !! pg) eqn:E; [|done]. destruct (HM pg) as (s & Hs & Hin); [by rewrite E|].
    pose proof (gi_segs _ HB) as Hso. rewrite Forall_forall in Hso. destruct (Hso s Hs) as (_ & _ & Hmin & Hmax).
    unfold USER_MIN, USER_MAX, in_seg, seg_hi in *. clear -Hpg Hin Hmax. zdm. }
  destruct (linv_alloc _ _ _ _ _ _ HX HF st2 T2 M2 H) as (f1 & pm & E1 & Hf1 & H1 & Sp1 & Z1 & _); [lia|].
  destruct (linv_alloc _ _ _ _ _ _ HX HF _ T2 M2 H1) as (f2 & pm' & E2 & Hf2 & H2 & Sp2 & Z2 & K2); [cbn [vm_pmm]; lia|].
  cbn [vm_mem vm_pmm] in *. destruct (K2 f1 Sp1) as [Sp1' Hne].
  destruct (linv_put pml4 img B X _ prog_page Ha HX HF prog_page_ok _ T2 M2 0x40000 f1 fuel H2) as (st3 & T3 & E3 & H3 & Z3 & K3 & S3);
    [by right; left|by apply Hno; left|done|cbn [vm_pmm]; lia|]. cbn [vm_mem vm_pmm] in *.
  destruct (linv_put pml4 img B X _ prog_page Ha HX HF prog_page_ok st3 T3 _ 0x40001 f2 fuel H3) as (st4 & T4 & E4 & H4 & Z4 & K4 & _);
    [by right; right|rewrite lookup_insert_ne by done; by apply Hno; right|by apply S3|lia|].
  exists (f1 * 4096), (f2 * 4096), pm, pm', st3, st4, T4, (<[0x40001 := f2]> (<[0x40000 := f1]> M2)).
  split; [done|]. split; [done|]. split; [lia|]. split; [lia|]. split; [exact E3|]. split; [exact E4|]. split; [done|].
  assert (forall a, mapped M2 a -> ~ stack_page a) as Hns.
  { intros a Hm Hs. apply Hm, Hno. unfold stack_page, USTACK_BASE, USTACK_TOP in Hs. clear -Hs. zdm. }
  assert (forall a, mapped M2 a -> mapped (<[0x40000 := f1]> M2) a) as Hup1.
  { intros a Hm. unfold mapped in *. destruct (decide (a / 4096 = 0x40000)) as [->|]; [by rewrite lookup_insert_eq|by rewrite lookup_insert_ne]. }
  assert (forall a, mapped M2 a -> mapped (<[0x40001 := f2]> (<[0x40000 := f1]> M2)) a) as Hup2.
  { intros a Hm%Hup1. unfold mapped in *. destruct (decide (a / 4096 = 0x40001)) as [->|]; [by rewrite lookup_insert_eq|by rewrite lookup_insert_ne]. }
  split; [|split; [by intros a Hm; split; [apply Hup2|apply Hns]|]].
  - intros a Hs. unfold stack_page, USTACK_BASE, USTACK_TOP, mapped in *.
    assert (a / 4096 = 0x40000 \/ a / 4096 = 0x40001) as [-> | ->] by (clear -Hs; zdm).
    + by rewrite lookup_insert_ne, lookup_insert_eq.
    + by rewrite lookup_insert_eq.
  - intros a Hm. rewrite K4 by by apply Hup1. by apply K3.
Qed.

Lemma enter_program_ok fuel idx arg r st : reg_ok r -> modules r !! Z.to_nat idx = Some e -> 0 <= idx ->
  vmm_unmap_range pml4 USER_MIN USTACK_TOP st = Ok st1 ->
  3 * pages (all_segs B) + 6 <= Z.of_nat (size (low X (vm_pmm st1))) ->
  (Z.to_nat (fld B 56 2) < fuel)%nat -> Forall (fun s => (Z.to_nat (g_memsz s) < fuel)%nat) (all_segs B) ->
  (forall a, arg = Some a -> cstr a /\ (length a <= 127)%nat) ->
  exists sp st', enter_program pml4 fuel idx arg r st = Ok (Jump (fld B 24 8) sp, st') /\
    (forall s a, s ∈ all_segs B -> g_vaddr s <= a < g_vaddr s + g_memsz s -> kload pml4 st' a = Ok (seg_byte B s a)) /\
    sp mod 16 = 0 /\ USTACK_BASE <= sp < USTACK_TOP /\ argv_at pml4 st' sp (args_of (m_name e) arg) /\
    exists T', vm_tree pml4 st' T' /\ window pml4 st' T' prog_mem.
Proof.
  intros Hr Hidx Hi Hun Hsz Hf Hfs Harg. pose proof addr_ok as Ha. pose proof img_len as Hl. pose proof (lr_X _ _ _ _ _ _ HR) as HX.
  pose proof (free_range _ _ _ (lr_tree _ _ _ _ _ _ HR) X) as HF. pose proof He as (_ & _ & Hnc & _ & Hnl).
  assert (idx < nmods r) as Hin.
  { apply lookup_lt_Some in Hidx. rewrite (modules_length _ (ro_len _ Hr) (ro_n _ Hr)) in Hidx. lia. }
  unfold enter_program. rewrite (proj2 (Z.ltb_ge _ _)), (proj2 (Z.leb_gt _ _)) by lia. cbn [orb]. rewrite Hun. cbn [mbind res_bind].
  destruct (module_get r idx Hr) as (e' & -> & He' & _); [lia|]. rewrite Hidx in He'. injection He' as <-. cbn [mbind res_bind].
  destruct (elf_load_ok pml4 img B X _ prog_page Ha Hl HX HF prog_page_ok HB) with (fuel := fuel) (st := st1) (T := T)
    as (st2 & T2 & M2 & E & H2 & HM & Hs2 & Hc); [intros s pg Hs Hpg; left; by exists s|apply prog_linv|lia|done|done|].
  rewrite HL in E. rewrite E. cbn [mbind res_bind]. change (negb (0 =? 0)) with false. cbv iota.
  destruct (stack_mapped (Z.lor (Z.lor PTE_P PTE_W) PTE_U) st2 T2 M2 H2) as (s1 & s2 & pm & pm' & st3 & st4 & T4 & M4 & -> & E2 & Hn1 & Hn2 & E3 & E4 & H4 & Hst & Hup & Hk);
    [by intros pg (s & Hs)%HM; exists s|lia|].
  cbn [mbind res_bind]. rewrite E2. cbn [mbind res_bind]. rewrite (proj2 (Z.eqb_neq _ 0) Hn1), (proj2 (Z.eqb_neq _ 0) Hn2). cbn [orb].
  rewrite E3. cbn [mbind res_bind]. rewrite E4. cbn [mbind res_bind].
  pose proof (linv_window _ _ _ _ _ _ HF prog_page_ok _ _ _ H4) as Hw.
  destruct (push_args_ok pml4 st4 T4 (window_sub _ _ _ _ _ Hw Hst) (m_name e) arg (li_tree _ _ _ _ _ _ _ _ _ H4) Hnc Hnl Harg)
    as (sp & st' & f & -> & Hstd & Hal & Hb & Hargs). cbn [mbind res_bind mret res_ret].
  assert (forall a, prog_mem a -> mapped M4 a) as Hprog.
  { intros a [(s & Hs & Hseg)|Hpg]; [apply Hup, HM; by exists s|]. apply Hst. unfold stack_page, USTACK_BASE, USTACK_TOP. clear -Hpg. zdm. }
  exists sp, st'. split; [done|]. split; [|split; [done|split; [done|split; [done|]]]].
  2: { exists T4. split; [apply Hstd|]. apply (window_phys _ st4); [exact (window_sub _ _ _ _ _ Hw Hprog)|apply Hstd]. }
  intros s a Hs Hran.
  assert (mapped M2 a) as Hm2 by (apply HM; exists s; split; [done|]; unfold in_seg, seg_lo, seg_hi; clear -Hran; zdm).
  destruct (Hup a Hm2) as [Hm4 Hns]. rewrite <- (Hc s a Hs Hran).
  rewrite (kload_window _ _ _ _ _ (linv_window _ _ _ _ _ _ HF prog_page_ok _ _ _ H2) Hm2). rewrite <- Hk by done.
  destruct Hstd as (_ & _ & Hph & Hout & _). unfold kload, kbyte. rewrite Hph.
  rewrite (proj2 (Z.eqb_neq _ 0) (win_phys _ _ _ _ Hw a Hm4)), Hout; [done|]. intros b Hb' Eb. apply Hns.
  apply (win_inj _ _ _ _ Hw) in Eb; [by subst b|by apply Hst|done].
Qed.
End enter.

(** ** Properties *)

(** C4. A program is entered: when the user range has been unmapped, the
    module's image is a good executable and there are frames, [enter_program]
    jumps to the entry point of the image; every byte of its segments is in
    place, and the stack pointer is 16-byte aligned, inside the two stack
    pages, and points to the argument vector: the count, the module's name,
    the argument if one was given, and a null pointer.  The tables stay well
    formed, and the pages of the segments and of the stack are the program's:
    mapped, each to memory of its own outside the tables. *)
Theorem enter_program_runs pml4 B X fuel idx arg r e st st1 T : reg_ok r -> modules r !! Z.to_nat idx = Some e -> 0 <= idx ->
  vmm_unmap_range pml4 USER_MIN USTACK_TOP st = Ok st1 ->
  Z.of_nat (length B) = m_end e - m_start e -> good_image B -> load_ready pml4 (m_start e) B X st1 T ->
  3 * pages (all_segs B) + 6 <= Z.of_nat (size (low X (vm_pmm st1))) ->
  (Z.to_nat (fld B 56 2) < fuel)%nat -> Forall (fun s => (Z.to_nat (g_memsz s) < fuel)%nat) (all_segs B) ->
  (forall a, arg = Some a -> cstr a /\ (length a <= 127)%nat) ->
  exists sp st', enter_program pml4 fuel idx arg r st = Ok (Jump (fld B 24 8) sp, st') /\
    (forall s a, s ∈ all_segs B -> g_vaddr s <= a < g_vaddr s + g_memsz s -> kload pml4 st' a = Ok (seg_byte B s a)) /\
    sp mod 16 = 0 /\ USTACK_BASE <= sp < USTACK_TOP /\ argv_at pml4 st' sp (args_of (m_name e) arg) /\
    exists T', vm_tree pml4 st' T' /\ window pml4 st' T' (prog_mem B).
Proof.
  intros Hr Hidx Hi Hun HL HB HR Hsz Hf Hfs Harg.
  assert (mod_ok e) as He by exact (Forall_lookup_1 _ _ _ _ (ro_mods _ Hr) Hidx).
  by apply (enter_program_ok pml4 B X e T st1 He HL HB HR fuel idx arg r st).
Qed.

(** The registry: [exec_init_mods] keeps the first eight entries of the
    boot loader that have a range below 1 GB and a name, in order, cuts the
    names at 31 bytes, and takes exactly the frames they touch out of the
    allocator. *)
Theorem exec_init_registers m a count r pm : Pmm.wf pm -> length (mods r) = 8%nat -> 0 <= count ->
  exists r' pm', exec_init_mods m a count r pm = Ok (r', pm') /\ reg_ok r' /\ Pmm.wf pm' /\
    modules r' = take 8 (omap (boot_mod m a) (seqZ 0 count)) /\
    forall g, g ∈ free_set pm' <-> g ∈ free_set pm /\ forall e, e ∈ modules r' -> ~ touches (m_start e) (m_end e) g.
Proof. apply exec_init_mods_ok. Qed.

(** The registry is searched and listed: [exec_find] returns the first
    module of the name or -1, and [exec_lsmod] writes the longest run of whole
    lines that fits the buffer. *)
Theorem registry_answers name cap r : reg_ok r -> cstr name -> 0 <= cap ->
  (exists k, exec_find name r = Ok k /\
    ((k = -1 /\ forall e, e ∈ modules r -> m_name e <> name) \/
     (0 <= k < nmods r /\ (exists e, modules r !! Z.to_nat k = Some e /\ m_name e = name) /\
      forall j e, 0 <= j < k -> modules r !! Z.to_nat j = Some e -> m_name e <> name))) /\
  (exists n, exec_lsmod cap r = Ok (name_lines (take n (modules r))) /\
    Z.of_nat (length (name_lines (take n (modules r)))) <= cap /\
    (n = length (modules r) \/ (n < length (modules r))%nat /\ cap < Z.of_nat (length (name_lines (take (S n) (modules r)))))).
Proof. intros Hr Hn Hc. split; [by apply exec_find_ok|by apply exec_lsmod_ok]. Qed.

(** ** Witnesses *)

Lemma pt_of_level pml4 m pm T l t v p : wf_tree pml4 m pm T -> lev T !! t = Some l -> pt_of_from m l t v = Some p -> lev T !! p = Some 0%nat.
Proof.
  intros HT. revert t. induction l as [|l IH]; intros t Ht; cbn [pt_of_from]; [by intros [= <-]|].
  destruct (_ || _) eqn:Hg; [done|]. destruct (child pml4 m pm T HT t l v Ht Hg) as [Hc _]. by apply IH.
Qed.

(** Without page tables nothing is unmapped. *)
Lemma unmap_range_none pml4 st T a b : vm_tree pml4 st T -> (forall t, lev T !! t <> Some 0%nat) ->
  vmm_unmap_range pml4 a b st = Ok st.
Proof.
  intros (_ & _ & HT) Hno. unfold vmm_unmap_range.
  match goal with |- for_each ?n ?i ?f st = _ => destruct (for_each_inv (fun _ s => s = st) n i f st) as (s & -> & ->) end; [done| |done].
  intros j s _ ->. exists st. split; [|done]. unfold unmap_page.
  destruct (pt_of_from _ 3 pml4 _) as [p|] eqn:E; [|done]. apply (pt_of_level _ _ _ _ 3 _ _ _ HT (wt_root _ _ _ _ HT)) in E.
  by apply Hno in E.
Qed.

Definition wit_reg : registry := Registry (Mod 0x20000 (0x20000 + 124) [105; 110; 105; 116] :: replicate 7 (Mod 0 0 [])) 1.

Lemma wit_reg_ok : reg_ok wit_reg.
Proof.
  split; [done|done|]. constructor; [|constructor]. split_and!; cbn; try done || lia. repeat constructor; lia.
Qed.

Lemma enter_program_runs_witness : exists st sp st',
  enter_program 0x10000 10 0 (Some [104; 105]) wit_reg st = Ok (Jump 0x400000 sp, st') /\
  kload 0x10000 st' 0x400002 = Ok 0xEB /\ kword 0x10000 8 st' sp = Ok 2.
Proof.
  destruct (wit_ready wit_img) as (pm & HR & Hsz).
  - vm_compute. lia.
  - apply (gi_bytes _ wit_img_good).
  - rewrite wit_segs. intros s pg ->%list_elem_of_singleton. unfold in_seg.
    change (seg_lo _) with 1024. change (seg_hi _) with 1025. lia.
  - set (st := Vmm (store_bytes wit_mem 0x20000 wit_img) pm) in *.
    destruct (enter_program_runs 0x10000 wit_img 1024 10 0 (Some [104; 105]) wit_reg (Mod 0x20000 (0x20000 + 124) [105; 110; 105; 116]) st st
      (boot_tree 0x10000 0x11000 0x12000)) as (sp & st' & E & Hc & _ & _ & (Hargs & _) & _).
    + exact wit_reg_ok.
    + reflexivity.
    + done.
    + apply (unmap_range_none _ _ _ _ _ (lr_tree _ _ _ _ _ _ HR)). intros t Ht.
      apply (boot_lev _ _ _ wit_layout) in Ht as [[_ ?]|[[_ ?]|(k & _ & _ & ?)]]; done.
    + reflexivity.
    + exact wit_img_good.
    + exact HR.
    + cbn [vm_pmm st]. rewrite Hsz, wit_segs. vm_compute. discriminate.
    + vm_compute. lia.
    + rewrite wit_segs. constructor; [vm_compute; lia|constructor].
    + intros a [= <-]. split; [repeat constructor; lia|cbn; lia].
    + exists st, sp, st'. split; [exact E|]. split; [|exact Hargs].
      assert (Seg 120 0x400000 4 8 true ∈ all_segs wit_img) as Hin by (rewrite wit_segs; by left).
      rewrite (Hc _ 0x400002 Hin); [reflexivity|by split].
Defined.

(** One entry: the bytes at 0x100000 under the name at 0x600. *)
Definition wit_mods : mem :=
  store_bytes (store_bytes ∅ 0x500 (le_bytes 4 0x100000 ++ le_bytes 4 0x100010 ++ le_bytes 4 0x600)) 0x600 [115; 104; 0].

Lemma exec_init_registers_witness : exists r' pm', exec_init_mods wit_mods 0x500 1 wit_reg wit_state = Ok (r', pm') /\
  modules r' = [Mod 0x100000 0x100010 [115; 104]] /\ 256 ∉ free_set pm'.
Proof.
  destruct (exec_init_registers wit_mods 0x500 1 wit_reg wit_state wit_state_wf) as (r' & pm' & E & _ & _ & Hm & Hf);
    [reflexivity|done|].
  replace (take 8 _) with [Mod 0x100000 0x100010 [115; 104]] in Hm by (vm_compute; reflexivity).
  exists r', pm'. split; [exact E|]. split; [exact Hm|]. rewrite Hf, Hm. intros [_ Ht].
  apply (Ht _ ltac:(by left)). unfold touches. vm_compute. split; [discriminate|reflexivity].
Defined.

Lemma registry_answers_witness : exec_find [105; 110; 105; 116] wit_reg = Ok 0 /\ exec_lsmod 5 wit_reg = Ok [105; 110; 105; 116; 10].
Proof.
  destruct (registry_answers [105; 110; 105; 116] 5 wit_reg wit_reg_ok) as [_ _]; [repeat constructor; lia|done|].
  split; reflexivity.
Defined.
