(* ===== verification/Volume.v ===== *)
(** * The FAT32 volume as the server's volume

    [kernel/fs.c] and [kernel/syscall.c] call the FAT driver through
    [kernel/fat.h].  The server's interface [volume] of [Fs.v] is filled with
    the driver of [Fat.v]; [file_volume] adds the two calls that the system
    calls make themselves.  [fuel] bounds the walks over chains.

    [safe_volume] is what the system calls rely on: on a volume in order every
    operation runs, leaves the volume in order, and stays inside the buffer it
    fills.  The driver satisfies it on a volume that is a tree of files. *)
From S2P Require Import Prelude Str Disk FatName Fat Fs FatTree FatList.

(** [fat_mounted] and [fat_read]. *)
Class file_volume (V : Type) `{!volume V} := FileVolume {
  vol_mounted : V -> bool;
  vol_read : str -> Z -> V -> res (Z * list Z * V)
}.

Section fat.
Context {D : Type} `{!disk D} (fuel : nat).

Definition fat_volume : volume (fat D) := {|
  vol_mount := fat_mount;
  vol_unmount := fat_unmount;
  vol_write := fat_write fuel;
  vol_chdir := fat_chdir fuel;
  vol_list := fat_list fuel;
  vol_getcwd := fun cap st => mret (fat_getcwd cap st, st)
|}.

Definition fat_file_volume : file_volume (volume0 := fat_volume) (fat D) := FileVolume _ fat_volume is_mounted (fat_read fuel).
End fat.

(** No volume: nothing is mounted. *)
Definition no_file_volume : file_volume (volume0 := no_volume) unit :=
  FileVolume _ no_volume (fun _ => false) (fun _ _ v => mret (-1, [], v)).

(** ** What the system calls rely on *)

Class safe_volume (V : Type) `{!volume V, !file_volume V} := SafeVolume {
  (** a mounted volume is in order *)
  v_ok : V -> Prop;
  (** its current directory leaves room for relative paths; every operation but
      [vol_chdir] keeps that *)
  v_room : V -> Prop;
  v_unmount v : vol_mounted (vol_unmount v) = false;
  v_write v path buf len : v_ok v -> v_room v -> cstr path -> Forall is_byte buf -> 0 <= len <= Z.of_nat (length buf) -> len < 2 ^ 32 ->
    exists r v', vol_write path buf len v = Ok (r, v') /\ v_ok v' /\ v_room v' /\ vol_mounted v' = vol_mounted v;
  v_chdir v path : v_ok v -> v_room v -> cstr path ->
    exists r v', vol_chdir path v = Ok (r, v') /\ v_ok v' /\ vol_mounted v' = vol_mounted v;
  v_list v path cap : v_ok v -> v_room v -> cstr path -> 0 <= cap ->
    exists r out v', vol_list path cap v = Ok (r, out, v') /\ Z.of_nat (length out) <= cap /\ v_ok v' /\ v_room v' /\
      vol_mounted v' = vol_mounted v;
  v_read v path cap : v_ok v -> v_room v -> cstr path -> 0 <= cap ->
    exists r out v', vol_read path cap v = Ok (r, out, v') /\ Z.of_nat (length out) <= cap /\ v_ok v' /\ v_room v' /\
      vol_mounted v' = vol_mounted v;
  v_getcwd v cap : v_ok v -> exists r out v', vol_getcwd cap v = Ok (r, out, v') /\
    (0 <= r -> Z.of_nat (length out) + 1 <= cap) /\ v_ok v' /\ (v_room v -> v_room v') /\ vol_mounted v' = vol_mounted v
}.

Definition fat_safe_volume {D} `{!disk D, !good_disk D} (fuel : nat) :
  safe_volume (volume0 := fat_volume fuel) (file_volume0 := fat_file_volume fuel) (fat D).
Proof.
  refine (SafeVolume _ (fat_volume fuel) (fat_file_volume fuel) (vol_ready fuel) cwd_room _ _ _ _ _ _).
  - done.
  - intros v path buf len. apply fat_write_ready.
  - intros v path. apply fat_chdir_ready.
  - intros v path cap. apply fat_list_ready.
  - intros v path cap. apply fat_read_ready.
  - intros v cap Hv. pose proof (fat_getcwd_ready v cap) as H. destruct (fat_getcwd cap v) as [r out] eqn:E.
    exists r, out, v. cbn [vol_getcwd fat_volume]. by rewrite E.
Defined.

Definition no_safe_volume : safe_volume (volume0 := no_volume) (file_volume0 := no_file_volume) unit.
Proof.
  refine (SafeVolume _ no_volume no_file_volume (fun _ => True) (fun _ => True) _ _ _ _ _ _); intros.
  - done.
  - by exists (-1), v.
  - by exists (-1), v.
  - exists (-1), [], v. cbn. done.
  - exists (-1), [], v. cbn. done.
  - exists (-1), [], v. cbn. split; [done|]. split; [lia|done].
Defined.
