(* ===== verification/Syscall.v ===== *)
(** * System calls ([kernel/syscall.c])

    The dispatcher over the state of the kernel: screen, keyboard ring, file
    system, partition table, registry of programs, and memory.  User pointers
    are addresses; they are read and written through the page tables, a page
    that is not mapped is [Ub].  A call returns a value, waits for a key,
    enters a program, or stops the machine.  A buffer that a call fills is
    written when the callee has returned; what a failing callee leaves in it
    is not modelled.  A buffer that [fs_fwrite] takes is read before the call. *)
From S2P Require Import Prelude Mem Pmm Vmm Str Dec Hex Vga Kbd Part Fs Uspace Elf Exec Volume.

(** ** Constants *)
Definition SYS_PUTS : Z := 0.
Definition SYS_GETC : Z := 1.
Definition SYS_INFO : Z := 2.
Definition SYS_REBOOT : Z := 3.
Definition SYS_POWEROFF : Z := 4.
Definition SYS_EXIT : Z := 5.
Definition SYS_WRITE : Z := 6.
Definition SYS_CHDIR : Z := 7.
Definition SYS_MKDIR : Z := 8.
Definition SYS_LISTDIR : Z := 9.
Definition SYS_GETCWD : Z := 10.
Definition SYS_SETCOLOR : Z := 11.
Definition SYS_MEMINFO : Z := 12.
Definition SYS_RUN : Z := 13.
Definition SYS_LSMOD : Z := 14.
Definition SYS_PARTLIST : Z := 15.
Definition SYS_MOUNT : Z := 16.
Definition SYS_FREAD : Z := 17.
Definition SYS_GOTO : Z := 18.
Definition SYS_FWRITE : Z := 19.
Definition SYS_CLEAR : Z := 20.
Definition E_INVAL : Z := -22.
Definition E_NOSYS : Z := -38.
Definition SYS_IO_MAX : Z := 4096.
(** [(unsigned long)-1]. *)
Definition NOPOS : Z := 2 ^ 64 - 1.

(** ** State *)

Record kernel (V : Type) := Kernel {
  k_term : term; k_ring : ring; k_fs : fs V; k_parts : table; k_reg : registry; k_vm : vmm
}.
Arguments Kernel {V}. Arguments k_term {V}. Arguments k_ring {V}. Arguments k_fs {V}.
Arguments k_parts {V}. Arguments k_reg {V}. Arguments k_vm {V}.

(** What a call does to the caller: it returns with [rax], waits for an
    interrupt, is replaced by a program, or the machine stops. *)
Inductive outcome := Return (rax : Z) | Wait | Enter (rip rsp : Z) | Halted | Reset | Off.

Section kernel.
Context {V : Type} `{!volume V, !file_volume V} (pml4 : Z) (fuel : nat).
Implicit Types k : kernel V.

Definition with_term k t : kernel V := Kernel t (k_ring k) (k_fs k) (k_parts k) (k_reg k) (k_vm k).
Definition with_ring k r : kernel V := Kernel (k_term k) r (k_fs k) (k_parts k) (k_reg k) (k_vm k).
Definition with_fs k f : kernel V := Kernel (k_term k) (k_ring k) f (k_parts k) (k_reg k) (k_vm k).
Definition with_vm k m : kernel V := Kernel (k_term k) (k_ring k) (k_fs k) (k_parts k) (k_reg k) m.

(** [f->rax = (uint64_t)v]. *)
Definition ret (v : Z) k : res (outcome * kernel V) := mret (Return (u64 v), k).

(** ** User memory *)

(** The string at [a], when it ends within [cap] bytes. *)
Fixpoint scan_str (cap : nat) (st : vmm) (a : Z) : res (option str) :=
  match cap with
  | O => mret None
  | S cap' =>
      c ← kload pml4 st a;
      if c =? 0 then mret (Some [])
      else o ← scan_str cap' st (u64 (a + 1)); mret (match o with Some s => Some (c :: s) | None => None end)
  end.

Definition copy_str (src : Z) (cap : nat) (st : vmm) : res (option str) :=
  if (src =? 0) || (cap =? 0)%nat then mret None else scan_str cap st src.

(** ** The emitters: the new position, [NOPOS] on overflow *)

Fixpoint emit_str (buf pos cap : Z) (s : str) (st : vmm) : res (Z * vmm) :=
  match s with
  | [] => mret (pos, st)
  | c :: s' =>
      if cap <=? pos then mret (NOPOS, st)
      else st ← kstore pml4 (u64 (buf + pos)) c st; emit_str buf (u64 (pos + 1)) cap s' st
  end.

(** [while (i--) buf[pos++] = tmp[i]]. *)
Definition emit_dec (buf pos cap v : Z) (st : vmm) : res (Z * vmm) :=
  tmp ← dec_tmp v; emit_str buf pos cap (rev tmp) st.

Definition emit_hex (buf pos cap v : Z) (st : vmm) : res (Z * vmm) :=
  if cap <? u64 (pos + 2) then mret (NOPOS, st)
  else
    h ← rd hex_digits (Z.land (Z.shiftr v 4) 0xF);
    l ← rd hex_digits (Z.land v 0xF);
    st ← kstore pml4 (u64 (buf + pos)) h st;
    let pos := u64 (pos + 1) in
    st ← kstore pml4 (u64 (buf + pos)) l st;
    mret (u64 (pos + 1), st).

(** ** The calls *)

Definition sys_puts (s : Z) k : res (outcome * kernel V) :=
  if s =? 0 then ret E_INVAL k
  else
    o ← scan_str (Z.to_nat SYS_IO_MAX) (k_vm k) s;
    match o with
    | None => ret E_INVAL k
    | Some bs => t ← term_write bs (Z.of_nat (length bs)) (k_term k); ret 0 (with_term k t)
    end.

Definition sys_write (s n : Z) k : res (outcome * kernel V) :=
  if (s =? 0) || (SYS_IO_MAX <? n) then ret E_INVAL k
  else
    bs ← kload_bytes pml4 (Z.to_nat n) (k_vm k) s;
    t ← term_write bs n (k_term k);
    ret n (with_term k t).

Definition sys_getc k : res (outcome * kernel V) :=
  o ← getchar (k_ring k);
  match o with
  | None => mret (Wait, k)
  | Some (c, r) => ret c (with_ring k r)
  end.

(** [cpu_poweroff]. *)
Definition power_off k : res (outcome * kernel V) :=
  t ← term_puts (lit "safe to power off" ++ [10]) (k_term k); mret (Off, with_term k t).

(** [enter_program(idx, ap) != 0 && enter_program(0, 0) != 0], and the end of the
    system when that fails. *)
Definition enter_init k : res (outcome * kernel V) :=
  '(e, vm) ← enter_program pml4 fuel 0 None (k_reg k) (k_vm k);
  let k := with_vm k vm in
  match e with
  | Jump rip rsp => mret (Enter rip rsp, k)
  | Failed => t ← term_puts (lit "init lost" ++ [10]) (k_term k); mret (Halted, with_term k t)
  end.

Definition enter_or_init (idx : Z) (ap : option str) k : res (outcome * kernel V) :=
  '(e, vm) ← enter_program pml4 fuel idx ap (k_reg k) (k_vm k);
  let k := with_vm k vm in
  match e with
  | Jump rip rsp => mret (Enter rip rsp, k)
  | Failed => enter_init k
  end.

Definition sys_run (name arg : Z) k : res (outcome * kernel V) :=
  o ← copy_str name 32 (k_vm k);
  match o with
  | None => ret E_INVAL k
  | Some nm =>
      '(bad, ap) ← (if arg =? 0 then mret (false, None)
                    else o ← copy_str arg 128 (k_vm k); mret (match o with Some a => (false, Some a) | None => (true, None) end));
      if (bad : bool) then ret E_INVAL k
      else
        idx ← exec_find nm (k_reg k);
        if idx <? 0 then ret E_INVAL k else enter_or_init idx ap k
  end.

(** A callee has filled the buffer with [out] and returned [r]. *)
Definition fill_user (buf : Z) (out : list Z) (r : Z) k : res (outcome * kernel V) :=
  vm ← kstore_bytes pml4 buf out (k_vm k); ret r (with_vm k vm).

Definition sys_lsmod (buf cap : Z) k : res (outcome * kernel V) :=
  if (buf =? 0) || (256 <? cap) then ret E_INVAL k
  else out ← exec_lsmod cap (k_reg k); fill_user buf out (Z.of_nat (length out)) k.

(** One line of the partition list. *)
Definition emit_part (buf cap i : Z) (p : part_t) (mnt : Z) (pos : Z) (st : vmm) : res (Z * vmm) :=
  '(pos, st) ← emit_dec buf pos cap i st;
  '(pos, st) ← emit_str buf pos cap (if i =? mnt then lit "* " else lit " ") st;
  '(pos, st) ← emit_hex buf pos cap (type p) st;
  '(pos, st) ← emit_str buf pos cap (lit " ") st;
  '(pos, st) ← emit_dec buf pos cap (lba p) st;
  '(pos, st) ← emit_str buf pos cap (lit " ") st;
  '(pos, st) ← emit_dec buf pos cap (sectors p) st;
  emit_str buf pos cap [10] st.

Definition sys_partlist (buf cap : Z) k : res (outcome * kernel V) :=
  if (buf =? 0) || (512 <? cap) then ret E_INVAL k
  else
    c ← for_loop (Z.to_nat (part_count (k_parts k))) 0 (fun i '(pos, st) =>
          o ← part_get (k_parts k) i;
          match o with
          | None => Ub
          | Some p =>
              '(pos, st) ← emit_part buf cap i p (mounted_idx (k_fs k)) pos st;
              mret (if pos =? NOPOS then Done (pos, st) else Next (pos, st))
          end) (0, k_vm k);
    let '(pos, vm) := match c with Next s => s | Done s => s end in
    ret (if pos =? NOPOS then E_INVAL else pos) (with_vm k vm).

(** [part_get(idx)->lba]. *)
Definition part_lba k (idx : Z) : option Z :=
  match part_get (k_parts k) idx with Ok (Some p) => Some (lba p) | _ => None end.

Definition sys_mount (idx : Z) k : res (outcome * kernel V) :=
  if s64 idx <? 0 then ret 0 (with_fs k (fs_unmount (k_fs k)))
  else '(r, f) ← fs_mount_part (part_lba k) (s32 (s64 idx)) (k_fs k); ret r (with_fs k f).

Definition sys_fread (p buf cap : Z) k : res (outcome * kernel V) :=
  o ← copy_str p 128 (k_vm k);
  match o with
  | None => ret E_INVAL k
  | Some path =>
      if (buf =? 0) || (8192 <? cap) then ret E_INVAL k
      else if vol_mounted (vol (k_fs k)) then
        '(r, out, v) ← vol_read path cap (vol (k_fs k)); fill_user buf out r (with_fs k (set_vol (k_fs k) v))
      else '(r, out) ← fs_fread_ram path cap (k_fs k); fill_user buf out r k
  end.

Definition sys_fwrite (p buf len : Z) k : res (outcome * kernel V) :=
  o ← copy_str p 128 (k_vm k);
  match o with
  | None => ret E_INVAL k
  | Some path =>
      if (buf =? 0) || (FILE_MAX <? len) then ret E_INVAL k
      else
        bs ← kload_bytes pml4 (Z.to_nat len) (k_vm k) buf;
        '(r, f) ← fs_fwrite path bs len (k_fs k); ret r (with_fs k f)
  end.

(** [r < 0 ? r : op(path)]. *)
Definition sys_path_call (op : str -> fs V -> res (Z * fs V)) (p : Z) k : res (outcome * kernel V) :=
  o ← copy_str p 128 (k_vm k);
  match o with
  | None => ret E_INVAL k
  | Some path => '(r, f) ← op path (k_fs k); ret r (with_fs k f)
  end.

Definition sys_listdir (p buf cap : Z) k : res (outcome * kernel V) :=
  o ← copy_str p 128 (k_vm k);
  match o with
  | None => ret E_INVAL k
  | Some path =>
      if (buf =? 0) || (8192 <? cap) then ret E_INVAL k
      else '(r, out, f) ← fs_listdir path cap (k_fs k); fill_user buf out r (with_fs k f)
  end.

(** The text comes with its final 0. *)
Definition sys_getcwd (buf cap : Z) k : res (outcome * kernel V) :=
  if (buf =? 0) || (512 <? cap) || (cap <? 2) then ret E_INVAL k
  else
    '(r, out, f) ← fs_getcwd cap (k_fs k);
    fill_user buf (if r <? 0 then [] else out ++ [0]) r (with_fs k f).

Definition sys_meminfo (buf cap : Z) k : res (outcome * kernel V) :=
  if (buf =? 0) || (256 <? cap) || (cap <? 32) then ret E_INVAL k
  else
    '(pos, st) ← emit_str buf 0 cap (lit "free: ") (k_vm k);
    '(pos, st) ← emit_dec buf pos cap (pmm_free_kb (vm_pmm st)) st;
    '(pos, st) ← emit_str buf pos cap (lit " KB total: ") st;
    '(pos, st) ← emit_dec buf pos cap (pmm_total_kb (vm_pmm st)) st;
    '(pos, st) ← emit_str buf pos cap (lit " KB" ++ [10]) st;
    ret (if pos =? NOPOS then E_INVAL else pos) (with_vm k st).

(** ** The dispatcher *)

Definition syscall_dispatcher (rax rdi rsi rdx : Z) k : res (outcome * kernel V) :=
  if rax =? SYS_PUTS then sys_puts rdi k
  else if rax =? SYS_CLEAR then t ← term_clear (k_term k); ret 0 (with_term k t)
  else if rax =? SYS_WRITE then sys_write rdi rsi k
  else if rax =? SYS_GETC then sys_getc k
  else if rax =? SYS_INFO then t ← term_puts (lit "inaneos beta 0.0.2" ++ [10]) (k_term k); ret 0 (with_term k t)
  else if rax =? SYS_REBOOT then mret (Reset, k)
  else if rax =? SYS_POWEROFF then power_off k
  else if rax =? SYS_EXIT then enter_init k
  else if rax =? SYS_RUN then sys_run rdi rsi k
  else if rax =? SYS_LSMOD then sys_lsmod rdi rsi k
  else if rax =? SYS_PARTLIST then sys_partlist rdi rsi k
  else if rax =? SYS_MOUNT then sys_mount rdi k
  else if rax =? SYS_FREAD then sys_fread rdi rsi rdx k
  else if rax =? SYS_GOTO then ret 0 (with_term k (term_goto (s32 rdi) (s32 rsi) (k_term k)))
  else if rax =? SYS_FWRITE then sys_fwrite rdi rsi rdx k
  else if rax =? SYS_CHDIR then sys_path_call fs_chdir rdi k
  else if rax =? SYS_MKDIR then sys_path_call fs_mkdir rdi k
  else if rax =? SYS_LISTDIR then sys_listdir rdi rsi rdx k
  else if rax =? SYS_GETCWD then sys_getcwd rdi rsi k
  else if rax =? SYS_SETCOLOR then ret 0 (with_term k (term_set_color (s32 rdi) (s32 rsi) (k_term k)))
  else if rax =? SYS_MEMINFO then sys_meminfo rdi rsi k
  else ret E_NOSYS k.
End kernel.
