(* ===== verification/SysLaws.v ===== *)
(** * What the system calls do ([kernel/syscall.c])

    User memory is a [window] of mapped pages that behaves like an array.  A
    call reads strings and buffers in it, and what it writes lies in it.  The
    theorems compose the laws of the components behind the dispatcher: the
    file system, the registry and the loader, the screen. *)
From S2P Require Import Prelude Disk Fat FatList Mem Pmm Vmm Str Dec Hex Vga Kbd Part Fs Uspace Elf ElfLoad Exec Volume Syscall.

(** ** Specification *)

(** The bytes [bs] lie at [a]. *)
Record holds_at (pml4 : Z) (st : vmm) (a : Z) (bs : list Z) : Prop := {
  ha_range : 0 <= a /\ a + Z.of_nat (length bs) < 2 ^ 64;
  ha_bytes i b : bs !! i = Some b -> kload pml4 st (a + Z.of_nat i) = Ok b
}.

Section emit.
Context (pml4 : Z) (st0 : vmm) (T : Vmm.tree) (R : Z -> Prop) (buf cap : Z).
Local Abbreviation stored_as := (stored pml4 st0).

(** An emitter: from a position inside the buffer it writes [s] there when it
    fits, and it never leaves the region. *)
Definition emits (e : Z -> vmm -> res (Z * vmm)) (s : str) : Prop := forall pos st f,
  0 <= pos -> pos + Z.of_nat (length s) <= cap -> stored_as st T R f ->
  exists st', e pos st = Ok (pos + Z.of_nat (length s), st') /\ stored_as st' T R (overlay f (buf + pos) s).

Definition pos_ok (pos : Z) : Prop := 0 <= pos <= cap \/ pos = NOPOS.

Definition emits_safe (e : Z -> vmm -> res (Z * vmm)) : Prop := forall pos st f,
  pos_ok pos -> stored_as st T R f -> exists pos' st' f', e pos st = Ok (pos', st') /\ pos_ok pos' /\ stored_as st' T R f'.
End emit.

(** The decimal text of a number, and two hexadecimal digits. *)
Definition dec_text (v : Z) : str := match dec_tmp v with Ok tmp => rev tmp | _ => [] end.
Definition hex_text (v : Z) : str :=
  [nth (Z.to_nat (Z.land (Z.shiftr v 4) 0xF)) hex_digits 0; nth (Z.to_nat (Z.land v 0xF)) hex_digits 0].

(** One line of the partition list. *)
Definition part_line (mnt i : Z) (p : part_t) : str :=
  dec_text i ++ (if i =? mnt then lit "* " else lit " ") ++ hex_text (type p) ++ lit " " ++ dec_text (lba p) ++
  lit " " ++ dec_text (sectors p) ++ [10].

Definition part_lines (mnt : Z) (ps : list part_t) : str := concat (imap (fun i p => part_line mnt (Z.of_nat i) p) ps).

(** Entries as [part_scan] reads them. *)
Definition parts_ok (t : table) : Prop := table_ok t /\ Forall part_ok (parts t).

(** The text of [SYS_MEMINFO]. *)
Definition mem_line (pm : pmm) : str :=
  lit "free: " ++ dec_text (pmm_free_kb pm) ++ lit " KB total: " ++ dec_text (pmm_total_kb pm) ++ lit " KB" ++ [10].

(** ** Lemmas: reading user memory *)

Lemma holds_cons pml4 st a b bs : holds_at pml4 st a (b :: bs) ->
  kload pml4 st a = Ok b /\ u64 (a + 1) = a + 1 /\ holds_at pml4 st (a + 1) bs.
Proof.
  intros [Hr Hb]. cbn [length] in Hr. change (2 ^ 64) with 18446744073709551616 in *. split; [|split].
  - specialize (Hb 0%nat b eq_refl). by rewrite Z.add_0_r in Hb.
  - apply u64_small. lia.
  - split; [change (2 ^ 64) with 18446744073709551616; lia|]. intros i c Hi. specialize (Hb (S i) c Hi).
    by replace (a + 1 + Z.of_nat i) with (a + Z.of_nat (S i)) by lia.
Qed.

Lemma scan_str_ok pml4 st s : cstr s -> forall cap a, holds_at pml4 st a (s ++ [0]) ->
  scan_str pml4 cap st a = Ok (if (length s <? cap)%nat then Some s else None).
Proof.
  induction 1 as [|c s Hc _ IH]; intros [|cap] a H; cbn [scan_str app length]; try done.
  - destruct (holds_cons _ _ _ _ _ H) as (-> & _). done.
  - destruct (holds_cons _ _ _ _ _ H) as (-> & -> & H'). cbn [mbind res_bind]. rewrite (proj2 (Z.eqb_neq c 0)) by lia.
    rewrite (IH cap _ H'). cbn [mbind res_bind mret res_ret].
    destruct (Nat.ltb_spec (length s) cap), (Nat.ltb_spec (S (length s)) (S cap)); done || lia.
Qed.

Lemma copy_str_ok pml4 st s cap a : cstr s -> a <> 0 -> holds_at pml4 st a (s ++ [0]) -> (length s < cap)%nat ->
  copy_str pml4 a cap st = Ok (Some s).
Proof.
  intros Hs Ha H Hl. unfold copy_str. rewrite (proj2 (Z.eqb_neq a 0) Ha), (proj2 (Nat.eqb_neq cap 0)) by lia. cbn [orb].
  rewrite (scan_str_ok _ _ _ Hs) by done. by rewrite (proj2 (Nat.ltb_lt _ _)).
Qed.

(** A string that does not end in time is refused. *)
Lemma scan_str_long pml4 st bs a : Forall (fun c => c <> 0) bs -> holds_at pml4 st a bs ->
  scan_str pml4 (length bs) st a = Ok None.
Proof.
  intros Hb. revert a. induction Hb as [|b bs Hb _ IH]; intros a H; [done|].
  cbn [scan_str length]. destruct (holds_cons _ _ _ _ _ H) as (-> & -> & H'). cbn [mbind res_bind].
  rewrite (proj2 (Z.eqb_neq b 0) Hb). by rewrite IH.
Qed.

Lemma copy_str_long pml4 st bs a : Forall (fun c => c <> 0) bs -> holds_at pml4 st a bs ->
  copy_str pml4 a (length bs) st = Ok None.
Proof. intros Hb H. unfold copy_str. destruct (_ || _); [done|]. by apply scan_str_long. Qed.

Lemma kload_bytes_ok pml4 st bs : forall a, holds_at pml4 st a bs -> kload_bytes pml4 (length bs) st a = Ok bs.
Proof.
  induction bs as [|b bs IH]; intros a H; cbn [kload_bytes length]; [done|].
  destruct (holds_cons _ _ _ _ _ H) as (-> & -> & H'). cbn [mbind res_bind]. by rewrite IH.
Qed.

Lemma kload_byte pml4 st a b : kload pml4 st a = Ok b -> is_byte b.
Proof. unfold kload. destruct (_ =? 0); [done|]. intros [= <-]. apply load8_byte. Qed.

Lemma holds_byte pml4 st a bs : holds_at pml4 st a bs -> Forall is_byte bs.
Proof. intros [_ H]. apply Forall_lookup_2. intros i b Hb. eapply kload_byte, H, Hb. Qed.

(** A region of a window holds what it holds. *)
Lemma window_holds pml4 st T R a n : window pml4 st T R -> (forall b, a <= b < a + Z.of_nat n -> R b) -> 0 <= a -> a + Z.of_nat n < 2 ^ 64 ->
  holds_at pml4 st a (map (kbyte pml4 st) (seqZ a (Z.of_nat n))).
Proof.
  intros Hw Hr H0 H1. split; [rewrite length_map, length_seqZ, Nat2Z.id; done|]. intros i b.
  rewrite list_lookup_fmap. destruct (seqZ a (Z.of_nat n) !! i) as [x|] eqn:E; [|done]. intros [= <-].
  apply lookup_seqZ in E as [-> Hi]. apply (kload_window _ _ _ _ _ Hw). apply Hr. lia.
Qed.

(** What is stored elsewhere leaves a string alone. *)
Lemma holds_stored pml4 st st' T R f a bs : stored pml4 st st' T R f -> window pml4 st T R -> holds_at pml4 st a bs ->
  (forall i, (i < length bs)%nat -> forall b, R b -> vmm_phys pml4 (vm_mem st) b <> vmm_phys pml4 (vm_mem st) (a + Z.of_nat i)) ->
  holds_at pml4 st' a bs.
Proof.
  intros (_ & _ & Hp & Ho & _) Hw [Hr Hb] Hd. split; [done|]. intros i b Hi. specialize (Hb i b Hi).
  unfold kload in *. rewrite Hp. destruct (_ =? 0); [done|]. rewrite Ho; [done|]. apply (Hd i). by apply lookup_lt_Some in Hi.
Qed.

(** ** Lemmas: the emitters *)

Lemma overlay_app f a s1 s2 b : overlay (overlay f a s1) (a + Z.of_nat (length s1)) s2 b = overlay f a (s1 ++ s2) b.
Proof.
  unfold overlay. rewrite length_app, Nat2Z.inj_add. repeat case_decide; try lia.
  - rewrite app_nth2 by lia. f_equal. lia.
  - by rewrite app_nth1 by lia.
Qed.

Lemma overlay_nil f a b : overlay f a [] b = f b.
Proof. unfold overlay. cbn [length]. by rewrite decide_False by lia. Qed.

Section emitters.
Context (pml4 : Z) (st0 : vmm) (T : Vmm.tree) (R : Z -> Prop) (buf cap : Z).
Context (Hw : window pml4 st0 T R) (Hcap : 0 <= buf /\ 0 <= cap < 2 ^ 32).
Local Abbreviation Emits := (emits pml4 st0 T R buf cap).
Local Abbreviation Safe := (emits_safe pml4 st0 T R cap).

Lemma emits_bind e1 e2 s1 s2 : Emits e1 s1 -> Emits e2 s2 ->
  Emits (fun pos st => '(pos, st) ← e1 pos st; e2 pos st) (s1 ++ s2).
Proof.
  intros H1 H2 pos st f Hp Hl Hs. rewrite length_app in Hl.
  destruct (H1 pos st f) as (st1 & -> & Hs1); [done|lia|done|]. cbn [mbind res_bind].
  destruct (H2 (pos + Z.of_nat (length s1)) st1 _ ltac:(lia) ltac:(lia) Hs1) as (st2 & -> & Hs2).
  exists st2. split; [rewrite length_app; do 2 f_equal; lia|]. eapply stored_ext; [exact Hs2|].
  intros b _. rewrite Z.add_assoc. apply overlay_app.
Qed.

Lemma safe_bind e1 e2 : Safe e1 -> Safe e2 -> Safe (fun pos st => '(pos, st) ← e1 pos st; e2 pos st).
Proof.
  intros H1 H2 pos st f Hp Hs. destruct (H1 pos st f Hp Hs) as (pos1 & st1 & f1 & -> & Hp1 & Hs1). cbn [mbind res_bind].
  by apply (H2 pos1 st1 f1).
Qed.

Lemma pos_step pos : 0 <= pos < cap -> u64 (pos + 1) = pos + 1 /\ pos_ok cap (pos + 1).
Proof. intros H. change (2 ^ 32) with 4294967296 in Hcap. rewrite u64_small by lia. split; [done|]. left. lia. Qed.

Lemma nopos_cap : cap < NOPOS.
Proof. unfold NOPOS. change (2 ^ 32) with 4294967296 in Hcap. change (2 ^ 64) with 18446744073709551616. lia. Qed.

(** One character inside the buffer. *)
Lemma put_char pos st f c : (forall b, buf <= b < buf + cap -> R b) -> 0 <= pos < cap -> is_byte c -> stored pml4 st0 st T R f ->
  u64 (buf + pos) = buf + pos /\
  exists st', kstore pml4 (buf + pos) c st = Ok st' /\ stored pml4 st0 st' T R (overlay f (buf + pos) [c]).
Proof.
  intros HR Hp Hc Hs. assert (R (buf + pos)) as Hin by (apply HR; lia). pose proof (win_range _ _ _ _ Hw _ Hin) as Hr.
  split; [apply u64_small; change (2 ^ 64) with 18446744073709551616 in Hr; lia|].
  destruct (kstore_ok pml4 st0 st T R f (buf + pos) c Hw Hs Hin Hc) as (st' & E & Hs'). exists st'. split; [done|].
  eapply stored_ext; [exact Hs'|]. intros b _. cbv beta. unfold overlay. cbn [length]. repeat case_decide; try lia; try done.
  subst b. by rewrite Z.sub_diag.
Qed.

Lemma emit_str_ok s : (forall b, buf <= b < buf + cap -> R b) -> Forall is_byte s ->
  Emits (fun pos st => emit_str pml4 buf pos cap s st) s /\ Safe (fun pos st => emit_str pml4 buf pos cap s st).
Proof.
  intros HR Hs. induction Hs as [|c s Hc Hs IH]; split.
  - intros pos st f _ _ H. exists st. cbn [emit_str length]. rewrite Z.add_0_r. split; [done|].
    eapply stored_ext; [exact H|]. intros b _. by rewrite overlay_nil.
  - intros pos st f Hp H. by exists pos, st, f.
  - intros pos st f Hp Hl H. cbn [emit_str length] in *. destruct (Z.leb_spec cap pos); [lia|].
    destruct (put_char pos st f c HR ltac:(lia) Hc H) as (-> & st1 & -> & H1). cbn [mbind res_bind].
    destruct (pos_step pos ltac:(lia)) as [-> _].
    destruct (proj1 IH (pos + 1) st1 _ ltac:(lia) ltac:(lia) H1) as (st' & -> & H'). exists st'. split; [do 2 f_equal; lia|].
    eapply stored_ext; [exact H'|]. intros b _. rewrite Z.add_assoc. exact (overlay_app f (buf + pos) [c] s b).
  - intros pos st f Hp H. cbn [emit_str]. destruct (Z.leb_spec cap pos).
    + exists NOPOS, st, f. split; [done|]. split; [by right|done].
    + destruct Hp as [Hp| ->]; [|pose proof nopos_cap; lia].
      destruct (put_char pos st f c HR ltac:(lia) Hc H) as (-> & st1 & -> & H1). cbn [mbind res_bind].
      destruct (pos_step pos ltac:(lia)) as [-> Hp']. exact (proj2 IH (pos + 1) st1 _ Hp' H1).
Qed.

Lemma digits_byte ds : Forall digit ds -> Forall is_byte ds.
Proof. intros H. eapply Forall_impl; [exact H|]. unfold digit, is_byte. cbn. lia. Qed.

Lemma dec_text_ok v : 0 <= v < 2 ^ 64 -> exists tmp, dec_tmp v = Ok tmp /\ dec_text v = rev tmp /\ numeral v (rev tmp).
Proof.
  intros Hv. destruct (dec_tmp_ok v Hv) as (ds & E & Hn). exists (rev ds). split; [done|]. unfold dec_text.
  rewrite E, rev_involutive. done.
Qed.

Lemma emit_dec_emits v : (forall b, buf <= b < buf + cap -> R b) -> 0 <= v < 2 ^ 64 ->
  Emits (fun pos st => emit_dec pml4 buf pos cap v st) (dec_text v) /\ Safe (fun pos st => emit_dec pml4 buf pos cap v st).
Proof.
  intros HR Hv. destruct (dec_text_ok v Hv) as (tmp & E & -> & _ & Hd & _).
  destruct (emit_str_ok (rev tmp) HR (digits_byte _ Hd)) as [H1 H2].
  split; intros pos st f; unfold emit_dec; rewrite E; cbn [mbind res_bind]; [apply H1|apply H2].
Qed.

Lemma emit_hex_fits v pos st f : (forall b, buf <= b < buf + cap -> R b) -> 0 <= pos -> pos + 2 <= cap -> stored pml4 st0 st T R f ->
  exists st', emit_hex pml4 buf pos cap v st = Ok (pos + 2, st') /\ stored pml4 st0 st' T R (overlay f (buf + pos) (hex_text v)).
Proof.
  intros HR Hp Hl H. unfold emit_hex. change (2 ^ 32) with 4294967296 in Hcap.
  rewrite (u64_small (pos + 2)) by lia. rewrite (proj2 (Z.ltb_ge _ _)) by lia.
  destruct (hex_digit (Z.shiftr v 4)) as (h & -> & Hh & Eh), (hex_digit v) as (l & -> & Hl' & El). cbn [mbind res_bind].
  destruct (put_char pos st f h HR ltac:(lia) Hh H) as (-> & st1 & -> & H1). cbn [mbind res_bind].
  rewrite (u64_small (pos + 1)) by lia.
  destruct (put_char (pos + 1) st1 _ l HR ltac:(lia) Hl' H1) as (-> & st2 & -> & H2). cbn [mbind res_bind mret res_ret].
  rewrite u64_small by lia. exists st2. split; [do 2 f_equal; lia|]. eapply stored_ext; [exact H2|]. intros b _.
  unfold hex_text. rewrite <- Eh, <- El. rewrite Z.add_assoc. exact (overlay_app f (buf + pos) [h] [l] b).
Qed.

Lemma emit_hex_emits v : (forall b, buf <= b < buf + cap -> R b) -> Emits (fun pos st => emit_hex pml4 buf pos cap v st) (hex_text v).
Proof. intros HR pos st f Hp Hl H. by apply emit_hex_fits. Qed.

(** From [NOPOS] the check of [emit_hex] overflows: the digits go to the byte
    before the buffer and to its first byte. *)
Lemma emit_hex_wraps v st f : (forall b, buf - 1 <= b < buf + cap -> R b) -> 0 < buf -> 0 < cap -> stored pml4 st0 st T R f ->
  exists st', emit_hex pml4 buf NOPOS cap v st = Ok (1, st') /\ stored pml4 st0 st' T R (overlay f (buf - 1) (hex_text v)).
Proof.
  intros HR Hbuf Hc H. unfold emit_hex. change (u64 (NOPOS + 2)) with 1. rewrite (proj2 (Z.ltb_ge _ _)) by lia.
  destruct (hex_digit (Z.shiftr v 4)) as (h & -> & Hh & Eh), (hex_digit v) as (l & -> & Hl' & El). cbn [mbind res_bind].
  assert (R (buf - 1)) as Hb1 by (apply HR; lia). assert (R buf) as Hb0 by (apply HR; lia).
  pose proof (win_range _ _ _ _ Hw _ Hb0) as Hr. change (2 ^ 64) with 18446744073709551616 in Hr.
  assert (u64 (buf + NOPOS) = buf - 1) as ->.
  { unfold NOPOS, u64. change (2 ^ 64) with 18446744073709551616. clear -Hr Hbuf. zdm. }
  destruct (kstore_ok pml4 st0 st T R f (buf - 1) h Hw H Hb1 Hh) as (st1 & -> & H1). cbn [mbind res_bind].
  change (u64 (NOPOS + 1)) with 0. rewrite Z.add_0_r, (u64_small buf) by lia.
  destruct (kstore_ok pml4 st0 st1 T R _ buf l Hw H1 Hb0 Hl') as (st2 & -> & H2). cbn [mbind res_bind mret res_ret].
  exists st2. split; [done|]. eapply stored_ext; [exact H2|]. intros b _. cbv beta. unfold overlay, hex_text. rewrite <- Eh, <- El.
  cbn [length]. repeat case_decide; try lia; try done; subst b.
  - by replace (buf - (buf - 1)) with 1 by lia.
  - by rewrite Z.sub_diag.
Qed.

Lemma emit_hex_safe v : (forall b, buf - 1 <= b < buf + cap -> R b) -> 0 < buf -> Safe (fun pos st => emit_hex pml4 buf pos cap v st).
Proof.
  intros HR Hbuf pos st f Hp H. pose proof nopos_cap as Hn. change (2 ^ 32) with 4294967296 in Hcap.
  assert (exists st', Ok (NOPOS, st) = Ok (NOPOS, st') /\ stored pml4 st0 st' T R f) as Hno by by exists st.
  destruct Hp as [Hp| ->].
  - destruct (decide (pos + 2 <= cap)) as [Hfit|Hnf].
    + destruct (emit_hex_fits v pos st f) as (st' & -> & H'); [intros b Hb; apply HR; lia|lia|done|done|].
      eexists _, st', _. split; [done|]. split; [left; lia|exact H'].
    + unfold emit_hex. rewrite (u64_small (pos + 2)) by lia. rewrite (proj2 (Z.ltb_lt _ _)) by lia.
      exists NOPOS, st, f. split; [done|]. split; [by right|done].
  - destruct (decide (0 < cap)) as [Hc|Hc].
    + destruct (emit_hex_wraps v st f HR Hbuf Hc H) as (st' & -> & H'). eexists _, st', _. split; [done|]. split; [left; lia|exact H'].
    + unfold emit_hex. change (u64 (NOPOS + 2)) with 1. rewrite (proj2 (Z.ltb_lt _ _)) by lia.
      exists NOPOS, st, f. split; [done|]. split; [by right|done].
Qed.

(** *** The lines *)

Lemma lit_bytes s : Forall is_byte (lit s).
Proof.
  induction s as [|c s IH]; cbn; constructor; [|done]. unfold is_byte. pose proof (Ascii.N_ascii_bounded c). lia.
Qed.

Lemma emit_part_ok i p mnt : (forall b, buf <= b < buf + cap -> R b) -> 0 <= i < 2 ^ 64 -> part_ok p ->
  Emits (emit_part pml4 buf cap i p mnt) (part_line mnt i p).
Proof.
  intros HR Hi [Hl Hs]. unfold emit_part, part_line. change (2 ^ 64) with 18446744073709551616 in *. change (2 ^ 32) with 4294967296 in *.
  pose proof (fun s => proj1 (emit_str_ok (lit s) HR (lit_bytes s))) as Hlit.
  repeat (apply emits_bind; [first [apply Hlit|apply emit_hex_emits, HR|apply emit_dec_emits; [exact HR|change (2 ^ 64) with 18446744073709551616; lia]|
    destruct (i =? mnt); apply Hlit]|]).
  apply emit_str_ok; [exact HR|by repeat constructor].
Qed.

Lemma emit_part_safe i p mnt : (forall b, buf - 1 <= b < buf + cap -> R b) -> 0 < buf -> 0 <= i < 2 ^ 64 -> part_ok p ->
  Safe (emit_part pml4 buf cap i p mnt).
Proof.
  intros HR Hb Hi [Hl Hs]. unfold emit_part. change (2 ^ 64) with 18446744073709551616 in *. change (2 ^ 32) with 4294967296 in *.
  assert (forall b, buf <= b < buf + cap -> R b) as HR' by (intros b Hb'; apply HR; lia).
  pose proof (fun s => proj2 (emit_str_ok (lit s) HR' (lit_bytes s))) as Hlit.
  repeat (apply safe_bind; [first [apply Hlit|apply emit_hex_safe; done|apply emit_dec_emits; [exact HR'|change (2 ^ 64) with 18446744073709551616; lia]|
    destruct (i =? mnt); apply Hlit]|]).
  apply emit_str_ok; [exact HR'|by repeat constructor].
Qed.
End emitters.

(** ** Lemmas: the calls *)

Lemma part_get_in t i : table_ok t -> 0 <= i < nparts t -> exists p, part_get t i = Ok (Some p) /\ parts t !! Z.to_nat i = Some p.
Proof.
  intros [Hl Hn] Hi. unfold part_get, PART_MAX in *. rewrite (proj2 (Z.ltb_ge _ _)), (proj2 (Z.leb_gt _ _)) by lia. cbn [orb].
  destruct (rd_in (parts t) i) as (p & -> & Hp); [lia|]. by exists p.
Qed.

Lemma part_lines_snoc mnt ps p : part_lines mnt (ps ++ [p]) = part_lines mnt ps ++ part_line mnt (Z.of_nat (length ps)) p.
Proof. unfold part_lines. rewrite imap_app, concat_app. cbn [imap concat]. by rewrite app_nil_r, Nat.add_0_r. Qed.

Lemma part_lines_length mnt ps n : (length (part_lines mnt (take n ps)) <= length (part_lines mnt ps))%nat.
Proof.
  rewrite <- (take_drop n ps) at 2. unfold part_lines. rewrite imap_app, concat_app, length_app. lia.
Qed.

Section calls.
Context {V : Type} `{!volume V, !file_volume V} (pml4 : Z) (fuel : nat) (k : kernel V) (T : Vmm.tree) (R : Z -> Prop).
Context (Hw : window pml4 (k_vm k) T R) (HT : vm_tree pml4 (k_vm k) T).
Local Abbreviation st0 := (k_vm k).

Lemma sys_partlist_fits buf cap : parts_ok (k_parts k) -> 0 < buf -> 0 <= cap <= 512 -> (forall b, buf <= b < buf + cap -> R b) ->
  let text := part_lines (mounted_idx (k_fs k)) (take (Z.to_nat (nparts (k_parts k))) (parts (k_parts k))) in
  Z.of_nat (length text) <= cap ->
  exists vm, sys_partlist pml4 buf cap k = Ok (Return (Z.of_nat (length text)), with_vm k vm) /\
    stored pml4 st0 vm T R (overlay (kbyte pml4 st0) buf text).
Proof.
  intros [Htab Hp] Hb Hc HR text Hfit. pose proof Htab as [Hl Hn]. unfold PART_MAX in *. set (t := k_parts k) in *.
  set (mnt := mounted_idx (k_fs k)) in *. unfold sys_partlist. rewrite (proj2 (Z.eqb_neq buf 0)), (proj2 (Z.ltb_ge _ _)) by lia. cbn [orb].
  fold t. fold mnt. unfold part_count.
  set (I := fun (i : Z) (s : Z * vmm) => s.1 = Z.of_nat (length (part_lines mnt (take (Z.to_nat i) (parts t)))) /\
    stored pml4 st0 s.2 T R (overlay (kbyte pml4 st0) buf (part_lines mnt (take (Z.to_nat i) (parts t))))).
  set (body := fun i '(pos, st) => _).
  destruct (for_loop_inv I (fun _ => False) (Z.to_nat (nparts t)) 0 body (0, st0)) as [([pos vm] & -> & Hs)|(s & _ & [])].
  - unfold I. change (Z.to_nat 0) with 0%nat. rewrite take_0. split; [done|]. eapply stored_ext; [by apply stored_id|].
    intros b _. by rewrite overlay_nil.
  - intros i [pos st] Hi [Hpos Hst]. cbn [fst snd] in *. left. unfold body.
    destruct (part_get_in t i Htab) as (p & -> & Hip); [lia|]. cbn [mbind res_bind].
    assert (part_lines mnt (take (S (Z.to_nat i)) (parts t)) = part_lines mnt (take (Z.to_nat i) (parts t)) ++ part_line mnt i p) as Esn.
    { rewrite (take_S_r _ _ _ Hip), part_lines_snoc, length_take. do 3 f_equal. lia. }
    assert (Z.of_nat (length (part_lines mnt (take (S (Z.to_nat i)) (parts t)))) <= cap) as Hle.
    { unfold text in Hfit. pose proof (part_lines_length mnt (take (Z.to_nat (nparts t)) (parts t)) (S (Z.to_nat i))) as H.
      rewrite take_take, Nat.min_l in H by lia. lia. }
    rewrite Esn, length_app in Hle.
    destruct (emit_part_ok pml4 st0 T R buf cap Hw ltac:(change (2 ^ 32) with 4294967296; lia) i p mnt HR
      ltac:(change (2 ^ 64) with 18446744073709551616; lia) (Forall_lookup_1 _ _ _ _ Hp Hip) pos st _ ltac:(lia) ltac:(lia) Hst) as (st' & -> & Hst').
    cbn [mbind res_bind mret res_ret].
    destruct (Z.eqb_spec (pos + Z.of_nat (length (part_line mnt i p))) NOPOS) as [E|_].
    { unfold NOPOS in E. change (2 ^ 64) with 18446744073709551616 in E. lia. }
    eexists. split; [reflexivity|]. unfold I. cbn [fst snd]. replace (Z.to_nat (i + 1)) with (S (Z.to_nat i)) by lia.
    rewrite Esn, length_app. split; [lia|]. eapply stored_ext; [exact Hst'|]. intros b _. rewrite Hpos. apply overlay_app.
  - unfold I in Hs. cbn [fst snd] in Hs. replace (Z.to_nat (0 + Z.of_nat (Z.to_nat (nparts t)))) with (Z.to_nat (nparts t)) in Hs by lia.
    fold text in Hs. destruct Hs as [-> Hs]. cbn [mbind res_bind].
    destruct (Z.eqb_spec (Z.of_nat (length text)) NOPOS) as [E|_].
    { unfold NOPOS in E. change (2 ^ 64) with 18446744073709551616 in E. lia. }
    exists vm. split; [|exact Hs]. unfold ret. rewrite u64_small by lia. done.
Qed.

(** Whatever the capacity, the list stays in the buffer, but for one byte. *)
Lemma sys_partlist_safe buf cap : parts_ok (k_parts k) -> 0 < buf -> 0 <= cap <= 512 -> (forall b, buf - 1 <= b < buf + cap -> R b) ->
  exists r vm f, sys_partlist pml4 buf cap k = Ok (Return r, with_vm k vm) /\ stored pml4 st0 vm T R f.
Proof.
  intros [Htab Hp] Hb Hc HR. pose proof Htab as [Hl Hn]. unfold PART_MAX in *. set (t := k_parts k) in *.
  set (mnt := mounted_idx (k_fs k)) in *. unfold sys_partlist. rewrite (proj2 (Z.eqb_neq buf 0)), (proj2 (Z.ltb_ge _ _)) by lia. cbn [orb].
  fold t. fold mnt. unfold part_count. set (I := fun (s : Z * vmm) => pos_ok cap s.1 /\ exists f, stored pml4 st0 s.2 T R f).
  set (body := fun i '(pos, st) => _).
  destruct (for_loop_inv (fun _ => I) I (Z.to_nat (nparts t)) 0 body (0, st0)) as [([pos vm] & -> & _ & f & Hs)|([pos vm] & -> & _ & f & Hs)].
  - split; [left; cbn; lia|]. eexists. by apply stored_id.
  - intros i [pos st] Hi [Hpos [f Hst]]. cbn [fst snd] in *. unfold body. destruct (part_get_in t i Htab) as (p & -> & Hip); [lia|].
    cbn [mbind res_bind].
    destruct (emit_part_safe pml4 st0 T R buf cap Hw ltac:(change (2 ^ 32) with 4294967296; lia) i p mnt HR Hb
      ltac:(change (2 ^ 64) with 18446744073709551616; lia) (Forall_lookup_1 _ _ _ _ Hp Hip) pos st _ Hpos Hst) as (pos' & st' & f' & -> & Hp' & Hst').
    cbn [mbind res_bind mret res_ret]. destruct (pos' =? NOPOS); [right|left]; (eexists; split; [reflexivity|]; split; [exact Hp'|by exists f']).
  - cbn [mbind res_bind snd] in *. unfold ret. by eexists _, vm, f.
  - cbn [mbind res_bind snd] in *. unfold ret. by eexists _, vm, f.
Qed.

Lemma sys_meminfo_ok buf cap : 0 < buf -> 32 <= cap <= 256 -> (forall b, buf <= b < buf + cap -> R b) ->
  Z.of_nat (length (mem_line (vm_pmm st0))) <= cap ->
  exists vm, sys_meminfo pml4 buf cap k = Ok (Return (Z.of_nat (length (mem_line (vm_pmm st0)))), with_vm k vm) /\
    stored pml4 st0 vm T R (overlay (kbyte pml4 st0) buf (mem_line (vm_pmm st0))).
Proof.
  intros Hb Hc HR Hfit. unfold sys_meminfo.
  rewrite (proj2 (Z.eqb_neq buf 0)), (proj2 (Z.ltb_ge 256 _)), (proj2 (Z.ltb_ge cap 32)) by lia. cbn [orb].
  assert (0 <= buf /\ 0 <= cap < 2 ^ 32) as Hcap by (change (2 ^ 32) with 4294967296; lia).
  pose proof (fun s => proj1 (emit_str_ok pml4 st0 T R buf cap Hw Hcap (lit s) HR (lit_bytes s))) as Hlit.
  assert (forall z, 0 <= u64 z < 2 ^ 64) as Hu by (intros z; unfold u64; change (2 ^ 64) with 18446744073709551616; clear; zdm).
  unfold mem_line in *. rewrite !length_app in *. set (kb := dec_text (pmm_free_kb (vm_pmm st0))) in *.
  set (tot := dec_text (pmm_total_kb (vm_pmm st0))) in *. cbn [length] in Hfit.
  set (n1 := 0 + Z.of_nat (length (lit "free: "))). set (n2 := n1 + Z.of_nat (length kb)).
  set (n3 := n2 + Z.of_nat (length (lit " KB total: "))). set (n4 := n3 + Z.of_nat (length tot)).
  destruct (Hlit "free: "%string 0 st0 _ ltac:(lia) ltac:(lia) (stored_id pml4 st0 T R HT)) as (s1 & -> & S1). cbn [mbind res_bind].
  assert (vm_pmm s1 = vm_pmm st0) as E1 by apply S1. rewrite E1. fold n1.
  destruct (proj1 (emit_dec_emits pml4 st0 T R buf cap Hw Hcap (pmm_free_kb (vm_pmm st0)) HR (Hu _)) n1 s1 _ ltac:(lia) ltac:(fold kb; lia) S1) as (s2 & -> & S2).
  cbn [mbind res_bind]. fold kb in S2 |- *. fold n2.
  destruct (Hlit " KB total: "%string n2 s2 _ ltac:(lia) ltac:(lia) S2) as (s3 & -> & S3). cbn [mbind res_bind].
  assert (vm_pmm s3 = vm_pmm st0) as E3 by apply S3. rewrite E3. fold n3.
  destruct (proj1 (emit_dec_emits pml4 st0 T R buf cap Hw Hcap (pmm_total_kb (vm_pmm st0)) HR (Hu _)) n3 s3 _ ltac:(lia) ltac:(fold tot; lia) S3) as (s4 & -> & S4).
  cbn [mbind res_bind]. fold tot in S4 |- *. fold n4.
  destruct (proj1 (emit_str_ok pml4 st0 T R buf cap Hw Hcap (lit " KB" ++ [10]) HR ltac:(apply Forall_app; split; [apply lit_bytes|by repeat constructor])) n4 s4 _ ltac:(lia) ltac:(rewrite length_app; cbn [length]; lia) S4) as (s5 & -> & S5).
  cbn [mbind res_bind]. rewrite length_app. cbn [length].
  match goal with |- context [?z =? NOPOS] => destruct (Z.eqb_spec z NOPOS) as [E|_] end.
  { unfold NOPOS in E. change (2 ^ 64) with 18446744073709551616 in E. lia. }
  exists s5. unfold ret. rewrite u64_small by lia. split; [do 3 f_equal; lia|].
  eapply stored_ext; [exact S5|]. intros b _.
  unfold n4, n3, n2, n1. rewrite !Z.add_0_l, !Z.add_assoc, !Z.add_0_r. by rewrite !overlay_app.
Qed.

(** Filling the user's buffer. *)
Lemma fill_user_ok buf out r (k' : kernel V) : k_vm k' = st0 -> Forall is_byte out ->
  (forall b, buf <= b < buf + Z.of_nat (length out) -> R b) ->
  exists vm, fill_user pml4 buf out r k' = Ok (Return (u64 r), with_vm k' vm) /\ stored pml4 st0 vm T R (overlay (kbyte pml4 st0) buf out).
Proof.
  intros Hk Ho HR. unfold fill_user. rewrite Hk.
  destruct (kstore_bytes_ok pml4 st0 T R out Hw Ho buf st0 _ (stored_id pml4 st0 T R HT) HR) as (vm & -> & Hs).
  exists vm. by split.
Qed.

Lemma fill_user_reads buf out vm : stored pml4 st0 vm T R (overlay (kbyte pml4 st0) buf out) ->
  (forall b, buf <= b < buf + Z.of_nat (length out) -> R b) -> kload_bytes pml4 (length out) vm buf = Ok out.
Proof. intros Hs HR. rewrite (kload_bytes_stored pml4 st0 vm T R _ buf _ Hw Hs HR). f_equal. apply overlay_seq_in. Qed.

Lemma sys_fwrite_ok p path src bs : fs_inv (k_fs k) -> mounted (k_fs k) = false -> cstr path -> (length path < 128)%nat -> p <> 0 ->
  holds_at pml4 st0 p (path ++ [0]) -> src <> 0 -> holds_at pml4 st0 src bs -> Z.of_nat (length bs) <= FILE_MAX ->
  exists r f, sys_fwrite pml4 p src (Z.of_nat (length bs)) k = Ok (Return (u64 r), with_fs k f) /\
    fs_fwrite path bs (Z.of_nat (length bs)) (k_fs k) = Ok (r, f) /\ fs_inv f /\ mounted f = false /\ vol f = vol (k_fs k).
Proof.
  intros Hi Hm Hc Hl Hp Hpath Hs Hbs Hn. unfold sys_fwrite. rewrite (copy_str_ok _ _ _ _ _ Hc Hp Hpath Hl). cbn [mbind res_bind].
  rewrite (proj2 (Z.eqb_neq src 0) Hs), (proj2 (Z.ltb_ge _ _)) by done. cbn [orb].
  rewrite Nat2Z.id, (kload_bytes_ok _ _ _ _ Hbs). cbn [mbind res_bind].
  destruct (fs_fwrite_ok (k_fs k) path bs (Z.of_nat (length bs)) Hi Hm Hc) as (r & f & E & _ & Hf & _ & Hmf & _); [lia|].
  rewrite E. cbn [mbind res_bind]. exists r, f. split; [done|]. split; [done|]. split; [done|]. split; [congruence|].
  by eapply (proj1 (proj2 (fs_vol_same (k_fs k) f r Hm))).
Qed.

Lemma sys_fread_ok p path dst cap f n data : vol_mounted (vol f) = false ->
  cstr path -> (length path < 128)%nat -> p <> 0 -> holds_at pml4 st0 p (path ++ [0]) -> dst <> 0 -> cap <= 8192 ->
  fs_fread_ram path cap f = Ok (n, data) -> Forall is_byte data -> (forall b, dst <= b < dst + Z.of_nat (length data) -> R b) ->
  exists vm, sys_fread pml4 p dst cap (with_fs k f) = Ok (Return (u64 n), with_vm (with_fs k f) vm) /\
    stored pml4 st0 vm T R (overlay (kbyte pml4 st0) dst data).
Proof.
  intros Hv Hc Hl Hp Hpath Hd Hcap E Hb HR. unfold sys_fread. cbn [k_vm with_fs k_fs].
  rewrite (copy_str_ok _ _ _ _ _ Hc Hp Hpath Hl). cbn [mbind res_bind].
  rewrite (proj2 (Z.eqb_neq dst 0) Hd), (proj2 (Z.ltb_ge _ _)) by done. cbn [orb]. rewrite Hv, E. cbn [mbind res_bind].
  by apply fill_user_ok.
Qed.
End calls.

(** ** Lemmas: no call leaves the program's pages *)

Lemma emit_str_full pml4 buf pos cap s st : s <> [] -> cap <= pos -> emit_str pml4 buf pos cap s st = Ok (NOPOS, st).
Proof. intros Hs Hp. destruct s as [|c s]; [done|]. cbn [emit_str]. by rewrite (proj2 (Z.leb_le _ _)). Qed.

Lemma getchar_safe r : ring_wf r -> exists o, getchar r = Ok o /\ forall c r', o = Some (c, r') -> ring_wf r'.
Proof.
  intros [Hl Hh Ht]. unfold getchar. destruct (tail r =? head r); [by exists None|].
  destruct (rd_in (buf r) (tail r)) as (c & -> & _); [lia|]. cbn [mbind res_bind mret res_ret]. eexists. split; [reflexivity|].
  intros c' r' [= _ <-]. split; cbn; [done|done|]. unfold BUFSIZE. apply Z.mod_pos_bound. lia.
Qed.

Section safe.
Context {V : Type} `{!volume V, !file_volume V, !safe_volume V} (pml4 : Z) (fuel : nat) (T : Vmm.tree) (R : Z -> Prop).

(** The invariant of the kernel between calls; a mounted volume is in order. *)
Record kernel_ok (k : kernel V) : Prop := {
  ko_term : term_wf (k_term k) /\ crt_ok (k_term k);
  ko_ring : ring_wf (k_ring k);
  ko_fs : fs_inv (k_fs k) /\ vol_mounted (vol (k_fs k)) = mounted (k_fs k) /\ (mounted (k_fs k) = true -> v_ok (vol (k_fs k)));
  ko_parts : parts_ok (k_parts k);
  ko_reg : reg_ok (k_reg k);
  ko_vm : vm_tree pml4 (k_vm k) T;
  ko_win : window pml4 (k_vm k) T R
}.

(** The current directory of a mounted volume leaves room for relative paths. *)
Definition cwd_fits (k : kernel V) : Prop := mounted (k_fs k) = true -> v_room (vol (k_fs k)).

Definition region (a n : Z) : Prop := forall b, a <= b < a + n -> R b.

(** The regions of memory a call may use. *)
Definition user_args (rax rdi rsi rdx : Z) : Prop :=
  if rax =? SYS_PUTS then region rdi SYS_IO_MAX
  else if rax =? SYS_WRITE then region rdi rsi
  else if rax =? SYS_LSMOD then region rdi rsi
  else if rax =? SYS_PARTLIST then region (rdi - 1) (rsi + 1)
  else if (rax =? SYS_FREAD) || (rax =? SYS_LISTDIR) || (rax =? SYS_FWRITE) then region rdi 128 /\ region rsi rdx
  else if (rax =? SYS_CHDIR) || (rax =? SYS_MKDIR) then region rdi 128
  else if rax =? SYS_GETCWD then region rdi rsi
  else if rax =? SYS_MEMINFO then region rdi rsi
  else True.

(** The calls of a program that stays itself: registers of 64 bits, the memory
    they name is the program's, no other program is entered and no volume
    mounted. *)
Record asks (rax rdi rsi rdx : Z) : Prop := {
  as_rdi : 0 <= rdi < 2 ^ 64; as_rsi : 0 <= rsi < 2 ^ 64; as_rdx : 0 <= rdx < 2 ^ 64;
  as_stays : rax ∉ [SYS_RUN; SYS_EXIT];
  as_mount : rax = SYS_MOUNT -> s64 rdi < 0;
  as_mem : user_args rax rdi rsi rdx
}.

(** What may happen while the program runs: it stores into its memory, a key
    arrives, or a call returns or waits.  Entering a directory of a volume
    counts as long as the name of the directory leaves room. *)
Inductive turn (k : kernel V) : kernel V -> Prop :=
  | turn_store vm f : stored pml4 (k_vm k) vm T R f -> turn k (with_vm k vm)
  | turn_key c r : push c (k_ring k) = Ok r -> turn k (with_ring k r)
  | turn_call rax rdi rsi rdx o k' : asks rax rdi rsi rdx ->
      syscall_dispatcher pml4 fuel rax rdi rsi rdx k = Ok (o, k') -> (rax = SYS_CHDIR -> cwd_fits k') -> turn k k'.

(** From [k] to [k'] the invariant stands, the partition table and the registry
    are as they were, memory differs in bytes of [R] only, and, when [c] holds,
    the current directory still leaves room. *)
Definition preserves (c : Prop) (k k' : kernel V) : Prop :=
  kernel_ok k' /\ k_parts k' = k_parts k /\ k_reg k' = k_reg k /\
  (exists f, stored pml4 (k_vm k) (k_vm k') T R f) /\ (c -> cwd_fits k -> cwd_fits k').

(** A result that keeps it: the call returns, waits or stops the machine. *)
Definition fine (c : Prop) (k : kernel V) (r : res (outcome * kernel V)) : Prop :=
  exists o k', r = Ok (o, k') /\ preserves c k k' /\ match o with Enter _ _ | Halted => False | _ => True end.

(** The files and the screen may change, memory does not. *)
Lemma preserves_vm (c : Prop) k k' : kernel_ok k -> kernel_ok k' -> k_parts k' = k_parts k -> k_reg k' = k_reg k -> k_vm k' = k_vm k ->
  (c -> cwd_fits k -> cwd_fits k') -> preserves c k k'.
Proof.
  intros Hk Hk' H1 H2 H3 H4. split_and!; try done. rewrite H3. eexists. apply stored_id, Hk.
Qed.

Lemma preserves_refl c k : kernel_ok k -> preserves c k k.
Proof. intros Hk. by apply preserves_vm. Qed.

Lemma fine_ret c k v k' : preserves c k k' -> fine c k (ret v k').
Proof. intros H. by exists (Return (u64 v)), k'. Qed.

Lemma fine_same c k v : kernel_ok k -> fine c k (ret v k).
Proof. intros Hk. by apply fine_ret, preserves_refl. Qed.

Lemma preserves_term c k t : kernel_ok k -> term_wf t -> crt_ok t -> preserves c k (with_term k t).
Proof. intros Hk H1 H2. apply preserves_vm; try done. by destruct Hk. Qed.

Lemma fine_term c k v t : kernel_ok k -> term_wf t -> crt_ok t -> fine c k (ret v (with_term k t)).
Proof. intros Hk H1 H2. by apply fine_ret, preserves_term. Qed.

Lemma preserves_ring c k r : kernel_ok k -> ring_wf r -> preserves c k (with_ring k r).
Proof. intros Hk Hr. apply preserves_vm; try done. by destruct Hk. Qed.

Lemma fine_fs (c : Prop) k v f : kernel_ok k -> fs_inv f -> vol_mounted (vol f) = mounted f -> (mounted f = true -> v_ok (vol f)) ->
  (c -> cwd_fits k -> mounted f = true -> v_room (vol f)) -> fine c k (ret v (with_fs k f)).
Proof. intros Hk H1 H2 H3 H4. apply fine_ret, preserves_vm; try done. by destruct Hk. Qed.

(** The tree in memory changed, or the volume did. *)
Lemma fine_ram c k v f : kernel_ok k -> mounted (k_fs k) = false -> fs_inv f -> mounted f = false -> vol f = vol (k_fs k) ->
  fine c k (ret v (with_fs k f)).
Proof.
  intros Hk Hm Hf Hmf Hv. destruct (ko_fs _ Hk) as (_ & Hvm & _). apply fine_fs; [done|done|congruence| |]; by rewrite Hmf.
Qed.

Lemma ok_vol k v : kernel_ok k -> v_ok v -> vol_mounted v = vol_mounted (vol (k_fs k)) -> kernel_ok (with_fs k (set_vol (k_fs k) v)).
Proof.
  intros [H1 H2 (Hi & Hm & Hv) H4 H5 H6 H7] Ho Hvm. split; try done. split; [done|]. split; [|done]. cbn [k_fs with_fs set_vol vol mounted]. congruence.
Qed.

Lemma fine_vol (c : Prop) k r v : kernel_ok k -> v_ok v -> (c -> cwd_fits k -> v_room v) -> vol_mounted v = vol_mounted (vol (k_fs k)) ->
  fine c k (ret r (with_fs k (set_vol (k_fs k) v))).
Proof. intros Hk Ho Hr Hv. apply fine_ret, preserves_vm; try done; [by apply ok_vol|]. intros Hc Hf _. by apply Hr. Qed.

Lemma ok_stored k vm f : kernel_ok k -> stored pml4 (k_vm k) vm T R f -> kernel_ok (with_vm k vm).
Proof. intros [H1 H2 H3 H4 H5 H6 H7] Hs. split; try done; [apply Hs|by eapply stored_window]. Qed.

Lemma preserves_stored c k vm f : kernel_ok k -> stored pml4 (k_vm k) vm T R f -> preserves c k (with_vm k vm).
Proof. intros Hk Hs. split_and!; try done; [by eapply ok_stored|by exists f]. Qed.

Lemma fine_stored c k v vm f : kernel_ok k -> stored pml4 (k_vm k) vm T R f -> fine c k (ret v (with_vm k vm)).
Proof. intros Hk Hs. by eapply fine_ret, preserves_stored. Qed.

Lemma preserves_trans (c : Prop) k1 k2 k3 : preserves c k1 k2 -> preserves c k2 k3 -> preserves c k1 k3.
Proof.
  intros (_ & P1 & G1 & (f1 & S1) & C1) (Hk & P2 & G2 & (f2 & S2) & C2). split_and!; [done|congruence|congruence| |tauto].
  exists f2. by eapply stored_trans.
Qed.

(** Any bytes can be stored in the program's pages. *)
Lemma kstore_bytes_safe st0 bs : window pml4 st0 T R -> forall a st f, stored pml4 st0 st T R f -> region a (Z.of_nat (length bs)) ->
  exists st' f', kstore_bytes pml4 a bs st = Ok st' /\ stored pml4 st0 st' T R f'.
Proof.
  intros Hw. induction bs as [|b bs IH]; intros a st f Hs Hr; cbn [kstore_bytes]; [by exists st, f|]. cbn [length] in Hr.
  assert (R a) as Ha by (apply Hr; lia).
  assert (kstore pml4 a b st = kstore pml4 a (u8 b) st) as ->.
  { unfold kstore. destruct (_ =? 0); [done|]. unfold store8. by rewrite (u8_small (u8 b)) by apply u8_range. }
  destruct (kstore_ok pml4 st0 st T R f a (u8 b) Hw Hs Ha (u8_range b)) as (st1 & -> & Hs1). cbn [mbind res_bind].
  pose proof (win_range _ _ _ _ Hw _ Ha) as Har. change (2 ^ 64) with 18446744073709551616 in Har. rewrite u64_small by lia.
  apply (IH (a + 1) st1 _ Hs1). intros c Hc. apply Hr. lia.
Qed.

(** A volume that changed, and then the program's buffer. *)
Lemma fine_with_vol (c : Prop) k v r : kernel_ok k -> v_ok v -> (c -> cwd_fits k -> v_room v) -> vol_mounted v = vol_mounted (vol (k_fs k)) ->
  fine c (with_fs k (set_vol (k_fs k) v)) r -> fine c k r.
Proof.
  intros Hk Ho Hr Hv (o & k' & -> & H & Ht). exists o, k'. split; [done|]. split; [|done].
  eapply preserves_trans; [|exact H]. apply preserves_vm; try done; [by apply ok_vol|]. intros Hc Hf _. by apply Hr.
Qed.

Lemma fill_safe C k buf out r : kernel_ok k -> region buf (Z.of_nat (length out)) -> fine C k (fill_user pml4 buf out r k).
Proof.
  intros Hk Hr. unfold fill_user.
  destruct (kstore_bytes_safe (k_vm k) out (ko_win _ Hk) buf (k_vm k) _ (stored_id pml4 _ T R (ko_vm _ Hk)) Hr) as (vm & f & -> & Hs).
  cbn [mbind res_bind]. by eapply fine_stored.
Qed.

(** Strings of the program. *)
Lemma scan_str_safe k cap : kernel_ok k -> forall a, region a (Z.of_nat cap) ->
  exists o, scan_str pml4 cap (k_vm k) a = Ok o /\ forall s, o = Some s -> cstr s /\ (length s < cap)%nat.
Proof.
  intros Hk. induction cap as [|cap IH]; intros a Hr; cbn [scan_str]; [by exists None|].
  assert (R a) as Ha by (apply Hr; lia). rewrite (kload_window _ _ _ _ _ (ko_win _ Hk) Ha). cbn [mbind res_bind].
  pose proof (win_range _ _ _ _ (ko_win _ Hk) _ Ha) as Har. change (2 ^ 64) with 18446744073709551616 in Har.
  pose proof (load8_byte (vm_mem (k_vm k)) (vmm_phys pml4 (vm_mem (k_vm k)) a)) as Hb. fold (kbyte pml4 (k_vm k) a) in Hb. unfold is_byte in Hb.
  destruct (Z.eqb_spec (kbyte pml4 (k_vm k) a) 0) as [E|E].
  - exists (Some []). split; [done|]. intros s [= <-]. split; [constructor|cbn; lia].
  - rewrite u64_small by lia. destruct (IH (a + 1)) as (o & -> & Ho); [intros b Hb'; apply Hr; lia|]. cbn [mbind res_bind mret res_ret].
    eexists. split; [reflexivity|]. intros s. destruct o as [s'|]; [|done]. intros [= <-]. destruct (Ho s' eq_refl).
    split; [constructor; [lia|done]|cbn [length]; lia].
Qed.

Lemma copy_str_safe k a cap : kernel_ok k -> region a (Z.of_nat cap) ->
  exists o, copy_str pml4 a cap (k_vm k) = Ok o /\ forall s, o = Some s -> cstr s /\ (length s < cap)%nat.
Proof. intros Hk Hr. unfold copy_str. destruct (_ || _); [by exists None|]. by apply scan_str_safe. Qed.

Lemma load_safe k a n : kernel_ok k -> region a (Z.of_nat n) -> exists bs, kload_bytes pml4 n (k_vm k) a = Ok bs /\ length bs = n /\ Forall is_byte bs.
Proof.
  intros Hk Hr. eexists. split; [by apply (kload_bytes_window _ _ _ _ _ (ko_win _ Hk))|]. split; [rewrite length_map, length_seqZ; lia|].
  apply Forall_map, Forall_true. intros b. apply load8_byte.
Qed.

Lemma listing_length ns d cap out : listing ns d cap out -> 0 <= cap -> Z.of_nat (length out) <= cap.
Proof. intros (m & _ & H & _) Hc. destruct out; [cbn; lia|]. by apply H. Qed.

Lemma puts_safe C k a : kernel_ok k -> region a SYS_IO_MAX -> fine C k (sys_puts pml4 a k).
Proof.
  intros Hk Hr. unfold sys_puts. destruct (a =? 0); [by apply fine_same|].
  destruct (scan_str_safe k (Z.to_nat SYS_IO_MAX) Hk a) as ([bs|] & -> & _); [by rewrite Z2Nat.id|..]; cbn [mbind res_bind]; [|by apply fine_same].
  destruct (ko_term _ Hk) as [Ht Hc]. rewrite term_write_puts by lia.
  destruct (term_puts_ok (take (Z.to_nat (Z.of_nat (length bs))) bs) _ Ht Hc) as (t & -> & Ht' & Hc'). cbn [mbind res_bind].
  by apply fine_term.
Qed.

Lemma write_safe C k a n : kernel_ok k -> 0 <= n -> region a n -> fine C k (sys_write pml4 a n k).
Proof.
  intros Hk Hn Hr. unfold sys_write. destruct (_ || _); [by apply fine_same|].
  destruct (load_safe k a (Z.to_nat n) Hk) as (bs & -> & Hl & _); [by rewrite Z2Nat.id|]. cbn [mbind res_bind].
  destruct (ko_term _ Hk) as [Ht Hc]. rewrite term_write_puts by lia.
  destruct (term_puts_ok (take (Z.to_nat n) bs) _ Ht Hc) as (t & -> & Ht' & Hc'). cbn [mbind res_bind]. by apply fine_term.
Qed.

Lemma getc_safe C k : kernel_ok k -> fine C k (sys_getc k).
Proof.
  intros Hk. unfold sys_getc. destruct (getchar_safe _ (ko_ring _ Hk)) as ([[c r]|] & -> & Hr); cbn [mbind res_bind].
  - apply fine_ret, preserves_ring; [done|by eapply Hr].
  - exists Wait, k. by split; [|split; [apply preserves_refl|]].
Qed.

Lemma off_safe C k : kernel_ok k -> fine C k (power_off k).
Proof.
  intros Hk. destruct (ko_term _ Hk) as [Ht Hc]. unfold power_off. destruct (term_puts_ok (lit "safe to power off" ++ [10]) _ Ht Hc) as (t & -> & Ht' & Hc').
  cbn [mbind res_bind]. exists Off, (with_term k t). split; [done|]. split; [by apply preserves_term|done].
Qed.

Lemma lsmod_safe C k a cap : kernel_ok k -> 0 <= cap -> region a cap -> fine C k (sys_lsmod pml4 a cap k).
Proof.
  intros Hk Hc Hr. unfold sys_lsmod. destruct (_ || _); [by apply fine_same|].
  destruct (exec_lsmod_ok cap (k_reg k) (ko_reg _ Hk) Hc) as (n & -> & Hl & _). cbn [mbind res_bind].
  apply fill_safe; [done|]. intros b Hb. apply Hr. lia.
Qed.

Lemma fread_safe C k p a cap : kernel_ok k -> cwd_fits k -> 0 <= cap -> region p 128 -> region a cap -> fine C k (sys_fread pml4 p a cap k).
Proof.
  intros Hk Hroom Hc Hp Hr. unfold sys_fread. destruct (copy_str_safe k p 128 Hk Hp) as ([path|] & -> & Hs); cbn [mbind res_bind]; [|by apply fine_same].
  destruct (Hs path eq_refl) as [Hcs _]. destruct (_ || _); [by apply fine_same|]. destruct (ko_fs _ Hk) as (Hi & Hv & Hok). rewrite Hv.
  destruct (mounted (k_fs k)) eqn:Hm.
  - destruct (v_read (vol (k_fs k)) path cap (Hok eq_refl) (Hroom Hm) Hcs Hc) as (r & out & v & -> & Hl & Hov & Hrv & Hmv). cbn [mbind res_bind].
    apply (fine_with_vol _ k v); [done|done|done|done|]. apply fill_safe; [by apply ok_vol|]. intros b Hb. apply Hr. lia.
  - rewrite (fs_fread_ok (k_fs k) path cap Hi Hcs Hc). destruct (fread_spec _ _ path cap) as [r out] eqn:E. cbn [mbind res_bind].
    apply fill_safe; [done|]. assert (Z.of_nat (length out) <= cap) as Hl; [|intros b Hb; apply Hr; lia].
    unfold fread_spec in E. repeat case_match; simplify_eq/=; try lia. rewrite length_take. lia.
Qed.

Lemma fwrite_safe C k p a len : kernel_ok k -> cwd_fits k -> 0 <= len -> region p 128 -> region a len -> fine C k (sys_fwrite pml4 p a len k).
Proof.
  intros Hk Hroom Hc Hp Hr. unfold sys_fwrite. destruct (copy_str_safe k p 128 Hk Hp) as ([path|] & -> & Hs); cbn [mbind res_bind]; [|by apply fine_same].
  destruct (Hs path eq_refl) as [Hcs _]. destruct (_ || _) eqn:Ea; [by apply fine_same|]. apply orb_false_iff in Ea as [_ Ea%Z.ltb_ge]. unfold FILE_MAX in Ea.
  destruct (ko_fs _ Hk) as (Hi & Hv & Hok).
  destruct (load_safe k a (Z.to_nat len) Hk) as (bs & -> & Hl & Hb); [by rewrite Z2Nat.id|]. cbn [mbind res_bind].
  destruct (mounted (k_fs k)) eqn:Hm.
  - unfold fs_fwrite. rewrite Hm. change (2 ^ 32) with 4294967296 in *.
    destruct (v_write (vol (k_fs k)) path bs len (Hok eq_refl) (Hroom Hm) Hcs Hb) as (r & v & -> & Hov & Hrv & Hmv); [lia|lia|].
    cbn [mbind res_bind mret res_ret]. by apply fine_vol.
  - destruct (fs_fwrite_ok (k_fs k) path bs len Hi Hm Hcs) as (r & f & E & _ & Hf & _ & Hmf & _); [lia|]. rewrite E. cbn [mbind res_bind].
    apply fine_ram; [done|done|done|congruence|]. by rewrite (proj1 (proj2 (fs_vol_same (k_fs k) f r Hm)) _ _ _ E).
Qed.

Lemma chdir_safe k p : kernel_ok k -> cwd_fits k -> region p 128 ->
  fine (mounted (k_fs k) = false) k (sys_path_call pml4 fs_chdir p k).
Proof.
  intros Hk Hroom Hp. unfold sys_path_call. destruct (copy_str_safe k p 128 Hk Hp) as ([path|] & -> & Hs); cbn [mbind res_bind]; [|by apply fine_same].
  destruct (Hs path eq_refl) as [Hcs _]. destruct (ko_fs _ Hk) as (Hi & Hv & Hok). destruct (mounted (k_fs k)) eqn:Hm.
  - unfold fs_chdir. rewrite Hm.
    destruct (v_chdir (vol (k_fs k)) path (Hok eq_refl) (Hroom Hm) Hcs) as (r & v & -> & Hov & Hmv). cbn [mbind res_bind mret res_ret]. by apply fine_vol.
  - destruct (fs_chdir_ok (k_fs k) path Hi Hm Hcs) as (r & f & E & Hf & _ & Hmf & _). rewrite E. cbn [mbind res_bind].
    apply fine_ram; [done..|]. by rewrite (proj2 (proj2 (fs_vol_same (k_fs k) f r Hm)) _ E).
Qed.

Lemma with_same (k : kernel V) : with_fs k (k_fs k) = k.
Proof. by destruct k. Qed.

(** On a volume there are no new directories. *)
Lemma mkdir_safe C k p : kernel_ok k -> region p 128 -> fine C k (sys_path_call pml4 fs_mkdir p k).
Proof.
  intros Hk Hp. unfold sys_path_call. destruct (copy_str_safe k p 128 Hk Hp) as ([path|] & -> & Hs); cbn [mbind res_bind]; [|by apply fine_same].
  destruct (Hs path eq_refl) as [Hcs _]. destruct (ko_fs _ Hk) as (Hi & Hv & Hok). destruct (mounted (k_fs k)) eqn:Hm.
  - unfold fs_mkdir. rewrite Hm. cbn [mbind res_bind mret res_ret]. rewrite with_same. by apply fine_same.
  - destruct (fs_mkdir_ok (k_fs k) path Hi Hm Hcs) as (r & f & E & _ & Hf & _ & Hmf & _). rewrite E. cbn [mbind res_bind].
    apply fine_ram; [done|done|done|congruence|]. by rewrite (proj1 (fs_vol_same (k_fs k) f r Hm) _ E).
Qed.

Lemma listdir_safe C k p a cap : kernel_ok k -> cwd_fits k -> 0 <= cap -> region p 128 -> region a cap -> fine C k (sys_listdir pml4 p a cap k).
Proof.
  intros Hk Hroom Hc Hp Hr. unfold sys_listdir. destruct (copy_str_safe k p 128 Hk Hp) as ([path|] & -> & Hs); cbn [mbind res_bind]; [|by apply fine_same].
  destruct (Hs path eq_refl) as [Hcs _]. destruct (_ || _); [by apply fine_same|]. destruct (ko_fs _ Hk) as (Hi & Hv & Hok).
  destruct (mounted (k_fs k)) eqn:Hm.
  - unfold fs_listdir. rewrite Hm.
    destruct (v_list (vol (k_fs k)) path cap (Hok eq_refl) (Hroom Hm) Hcs Hc) as (r & out & v & -> & Hl & Hov & Hrv & Hmv). cbn [mbind res_bind mret res_ret].
    apply (fine_with_vol _ k v); [done|done|done|done|]. apply fill_safe; [by apply ok_vol|]. intros b Hb. apply Hr. lia.
  - destruct (fs_listdir_ok V (k_fs k) path cap Hi Hm Hcs) as (r & out & -> & Hout). cbn [mbind res_bind]. rewrite with_same.
    apply fill_safe; [done|]. assert (Z.of_nat (length out) <= cap) as Hl; [|intros b Hb; apply Hr; lia].
    destruct (if bool_decide (path = []) then _ else _) as [P|].
    + destruct Hout as (_ & d & nd & _ & _ & H). by apply listing_length in H.
    + destruct Hout as [_ ->]. cbn. lia.
Qed.

Lemma getcwd_safe C k a cap : kernel_ok k -> region a cap -> fine C k (sys_getcwd pml4 a cap k).
Proof.
  intros Hk Hr. unfold sys_getcwd. destruct (_ || _) eqn:E; [by apply fine_same|]. zbool. destruct (ko_fs _ Hk) as (Hi & Hv & Hok).
  destruct (mounted (k_fs k)) eqn:Hm.
  - unfold fs_getcwd. rewrite Hm. destruct (v_getcwd (vol (k_fs k)) cap (Hok eq_refl)) as (r & out & v & -> & Hl & Hov & Hrv & Hmv). cbn [mbind res_bind mret res_ret].
    apply (fine_with_vol _ k v); [done|done| |done|]; [intros _ Hf; by apply Hrv, Hf|].
    apply fill_safe; [by apply ok_vol|]. intros b Hb. apply Hr. destruct (Z.ltb_spec r 0); [cbn in Hb; lia|].
    rewrite length_app in Hb. cbn [length] in Hb. lia.
  - destruct (fs_getcwd_ok (k_fs k) cap Hi Hm) as (r & out & -> & Hout). cbn [mbind res_bind]. rewrite with_same.
    apply fill_safe; [done|]. intros b Hb. apply Hr. revert Hb Hout. unfold getcwd_spec.
    destruct (Z.ltb_spec cap 2); [lia|]. destruct (bool_decide (root_path (k_fs k) = [])).
    + intros Hb [= -> ->]. cbn in Hb. lia.
    + destruct (Z.ltb_spec cap (Z.of_nat (length (join (root_path (k_fs k)))) + 1)); intros Hb [= -> ->]; [cbn in Hb; lia|].
      rewrite (proj2 (Z.ltb_ge _ _)) in Hb by lia. rewrite length_app in Hb. cbn [length] in Hb. lia.
Qed.

(** Taking the volume away. *)
Lemma unmount_safe C k idx : kernel_ok k -> s64 idx < 0 -> fine C k (sys_mount idx k).
Proof.
  intros Hk Hx. unfold sys_mount. rewrite (proj2 (Z.ltb_lt _ _) Hx). destruct (ko_fs _ Hk) as (Hi & _). apply fine_fs; [done|done| |done|done].
  apply v_unmount.
Qed.

Lemma meminfo_safe C k a cap : kernel_ok k -> 0 <= a -> region a cap -> fine C k (sys_meminfo pml4 a cap k).
Proof.
  intros Hk Ha Hr. unfold sys_meminfo. destruct (_ || _) eqn:E; [by apply fine_same|]. zbool.
  pose proof (ko_win _ Hk) as Hw. assert (0 <= a /\ 0 <= cap < 2 ^ 32) as Hcap by (change (2 ^ 32) with 4294967296; lia).
  assert (forall z, 0 <= u64 z < 2 ^ 64) as Hu by (intros z; unfold u64; change (2 ^ 64) with 18446744073709551616; clear; zdm).
  pose proof (fun s => proj2 (emit_str_ok pml4 (k_vm k) T R a cap Hw Hcap (lit s) Hr (lit_bytes s))) as Hlit.
  destruct (Hlit "free: "%string 0 (k_vm k) _ ltac:(left; lia) (stored_id pml4 _ T R (ko_vm _ Hk))) as (p1 & s1 & f1 & -> & P1 & S1). cbn [mbind res_bind].
  destruct (proj2 (emit_dec_emits pml4 (k_vm k) T R a cap Hw Hcap (pmm_free_kb (vm_pmm s1)) Hr (Hu _)) p1 s1 f1 P1 S1) as (p2 & s2 & f2 & -> & P2 & S2). cbn [mbind res_bind].
  destruct (Hlit " KB total: "%string p2 s2 f2 P2 S2) as (p3 & s3 & f3 & -> & P3 & S3). cbn [mbind res_bind].
  destruct (proj2 (emit_dec_emits pml4 (k_vm k) T R a cap Hw Hcap (pmm_total_kb (vm_pmm s3)) Hr (Hu _)) p3 s3 f3 P3 S3) as (p4 & s4 & f4 & -> & P4 & S4). cbn [mbind res_bind].
  destruct (proj2 (emit_str_ok pml4 (k_vm k) T R a cap Hw Hcap (lit " KB" ++ [10]) Hr ltac:(apply Forall_app; split; [apply lit_bytes|by repeat constructor])) p4 s4 f4 P4 S4)
    as (p5 & s5 & f5 & -> & _ & S5). cbn [mbind res_bind]. by eapply fine_stored.
Qed.

Lemma partlist_safe C k a cap : kernel_ok k -> 0 <= a -> 0 <= cap -> region (a - 1) (cap + 1) -> fine C k (sys_partlist pml4 a cap k).
Proof.
  intros Hk Ha Hc Hr. destruct (decide (a = 0 \/ 512 < cap)) as [Hbad|Hgood].
  - assert ((a =? 0) || (512 <? cap) = true) as E by (destruct Hbad as [->|H]; [done|by rewrite (proj2 (Z.ltb_lt _ _) H), orb_true_r]).
    unfold sys_partlist. rewrite E. by apply fine_same.
  - destruct (sys_partlist_safe pml4 k T R (ko_win _ Hk) (ko_vm _ Hk) a cap (ko_parts _ Hk)) as (r & vm & f & E & Hs); [lia|lia|intros b Hb; apply Hr; lia|].
    rewrite E. exists (Return r), (with_vm k vm). split; [done|]. split; [by eapply preserves_stored|done].
Qed.
(** *** The dispatcher *)

(** Which calls may use up the room behind the current directory. *)
Definition keeps_room (rax : Z) (k : kernel V) : Prop := rax = SYS_CHDIR -> mounted (k_fs k) = false.

Lemma fine_weaken (c c' : Prop) k r : (c' -> c) -> fine c k r -> fine c' k r.
Proof. intros H (o & k' & -> & (H1 & H2 & H3 & H4 & H5) & Ho). exists o, k'. split; [done|]. split; [|done].
  repeat (split; [done|]). intros Hc. by apply H5, H.
Qed.

(** The calls that use the screen, the keyboard and the machine only. *)
Lemma dispatch_terminal c k rax rdi rsi rdx : kernel_ok k -> asks rax rdi rsi rdx ->
  rax ∈ [SYS_PUTS; SYS_CLEAR; SYS_WRITE; SYS_GETC; SYS_INFO; SYS_REBOOT; SYS_POWEROFF; SYS_GOTO; SYS_SETCOLOR] ->
  fine c k (syscall_dispatcher pml4 fuel rax rdi rsi rdx k).
Proof.
  intros Hk [_ Hsi _ _ _ Ha] Hin. pose proof (ko_term _ Hk) as [Ht Hc].
  rewrite !elem_of_cons, elem_of_nil in Hin. unfold syscall_dispatcher, user_args in *.
  destruct Hin as [->|[->|[->|[->|[->|[->|[->|[->|[->|[]]]]]]]]]]; cbn -[term_puts term_goto term_set_color SYS_IO_MAX lit app] in *.
  - by apply puts_safe.
  - destruct (term_clear_ok _ Ht) as (t & -> & Ht' & Hc'). cbn [mbind res_bind]. by apply fine_term.
  - by apply write_safe; [|lia|].
  - by apply getc_safe.
  - destruct (term_puts_ok (lit "inaneos beta 0.0.2" ++ [10]) _ Ht Hc) as (t & -> & Ht' & Hc'). cbn [mbind res_bind]. by apply fine_term.
  - exists Reset, k. split; [done|]. split; [by apply preserves_refl|done].
  - by apply off_safe.
  - destruct (term_goto_ok (s32 rdi) (s32 rsi) _ Ht). by apply fine_term.
  - destruct (term_set_color_ok (s32 rdi) (s32 rsi) _ Ht Hc). by apply fine_term.
Qed.

(** The calls that use the files, the partitions, the programs and memory. *)
Lemma dispatch_files k rax rdi rsi rdx : kernel_ok k -> cwd_fits k -> asks rax rdi rsi rdx ->
  rax ∈ [SYS_LSMOD; SYS_PARTLIST; SYS_MOUNT; SYS_FREAD; SYS_FWRITE; SYS_CHDIR; SYS_MKDIR; SYS_LISTDIR; SYS_GETCWD; SYS_MEMINFO] ->
  fine (keeps_room rax k) k (syscall_dispatcher pml4 fuel rax rdi rsi rdx k).
Proof.
  intros Hk Hroom [Hdi Hsi Hdx _ Hmnt Ha] Hin.
  rewrite !elem_of_cons, elem_of_nil in Hin. unfold syscall_dispatcher, user_args in *.
  destruct Hin as [->|[->|[->|[->|[->|[->|[->|[->|[->|[->|[]]]]]]]]]]]; cbn -[Z.pow] in *.
  - apply lsmod_safe; [done|lia|done].
  - apply partlist_safe; [done|lia|lia|done].
  - by apply unmount_safe, Hmnt.
  - destruct Ha. apply fread_safe; [done|done|lia|done|done].
  - destruct Ha. apply fwrite_safe; [done|done|lia|done|done].
  - eapply fine_weaken; [|by apply chdir_safe]. intros H. by apply H.
  - by apply mkdir_safe.
  - destruct Ha. apply listdir_safe; [done|done|lia|done|done].
  - by apply getcwd_safe.
  - by apply meminfo_safe; [|lia|].
Qed.

Lemma dispatch_safe k rax rdi rsi rdx : kernel_ok k -> cwd_fits k -> asks rax rdi rsi rdx ->
  fine (keeps_room rax k) k (syscall_dispatcher pml4 fuel rax rdi rsi rdx k).
Proof.
  intros Hk Hroom Ha. destruct (decide (rax ∈ [SYS_PUTS; SYS_CLEAR; SYS_WRITE; SYS_GETC; SYS_INFO; SYS_REBOOT; SYS_POWEROFF; SYS_GOTO; SYS_SETCOLOR])) as [H1|H1];
    [by apply dispatch_terminal|].
  destruct (decide (rax ∈ [SYS_LSMOD; SYS_PARTLIST; SYS_MOUNT; SYS_FREAD; SYS_FWRITE; SYS_CHDIR; SYS_MKDIR; SYS_LISTDIR; SYS_GETCWD; SYS_MEMINFO])) as [H2|H2];
    [by apply dispatch_files|].
  pose proof (as_stays _ _ _ _ Ha) as H3. rewrite !not_elem_of_cons in H1. rewrite !not_elem_of_cons in H2. rewrite !not_elem_of_cons in H3. unfold syscall_dispatcher.
  rewrite !(proj2 (Z.eqb_neq rax _)) by tauto. by apply fine_same.
Qed.

(** The invariant over a run of the program. *)
Lemma turns_keep k k' : rtc turn k k' -> kernel_ok k -> cwd_fits k ->
  cwd_fits k' /\ preserves False k k'.
Proof.
  intros H. induction H as [k|k k1 k' Ht _ IH]; intros Hk Hroom; [split; [done|by apply preserves_refl]|].
  assert (cwd_fits k1 /\ preserves False k k1) as [Hroom1 Hk1].
  { destruct Ht as [vm f Hs|c r Hp|rax rdi rsi rdx o k1 Ha E Hc].
    - split; [done|by eapply preserves_stored].
    - split; [done|]. destruct (push_ok c _ (ko_ring _ Hk)) as (r' & E & Hr & _). rewrite E in Hp. injection Hp as <-.
      by apply preserves_ring.
    - destruct (dispatch_safe k rax rdi rsi rdx Hk Hroom Ha) as (o' & k2 & E' & Hk2 & _). rewrite E in E'. injection E' as <- <-.
      split; [|by destruct Hk2 as (H1 & H2 & H3 & H4 & _); split_and!].
      destruct (decide (rax = SYS_CHDIR)) as [|Hne]; [by apply Hc|]. apply Hk2; [|done]. by intros ->. }
  destruct (IH (proj1 Hk1) Hroom1) as [Hroom' Hk']. split; [done|]. by eapply preserves_trans.
Qed.
End safe.

(** The first line in a buffer of one byte: the position becomes [NOPOS] and
    stays there, but for [emit_hex]. *)
Lemma emit_part_tiny pml4 st0 T R buf p mnt : window pml4 st0 T R -> vm_tree pml4 st0 T -> 0 < buf ->
  (forall b, buf - 1 <= b < buf + 1 -> R b) -> part_ok p ->
  exists st', emit_part pml4 buf 1 0 p mnt 0 st0 = Ok (NOPOS, st') /\ exists f, stored pml4 st0 st' T R (overlay f (buf - 1) (hex_text (type p))).
Proof.
  intros Hw HT Hb HR [Hl Hs]. assert (0 <= buf /\ 0 <= 1 < 2 ^ 32) as Hcap by (split; [lia|done]).
  assert (forall b, buf <= b < buf + 1 -> R b) as HR' by (intros b Hb'; apply HR; lia). unfold emit_part.
  pose proof (fun s n st Hs => emit_str_full pml4 buf n 1 s st Hs) as Hfull.
  assert (forall v n st, 0 <= v < 2 ^ 64 -> 1 <= n -> emit_dec pml4 buf n 1 v st = Ok (NOPOS, st)) as Hdec.
  { intros v n st Hv Hn1. destruct (dec_text_ok v Hv) as (tmp & E & _ & Hne & _). unfold emit_dec. rewrite E. cbn [mbind res_bind]. by apply Hfull. }
  destruct (proj1 (emit_dec_emits pml4 st0 T R buf 1 Hw Hcap 0 HR' ltac:(done)) 0 st0 _ ltac:(lia) ltac:(cbn; lia) (stored_id pml4 _ T R HT)) as (s1 & -> & S1).
  cbn [mbind res_bind]. change (0 + Z.of_nat (length (dec_text 0))) with 1.
  rewrite Hfull by (done || by destruct (_ =? _)). cbn [mbind res_bind].
  destruct (emit_hex_wraps pml4 st0 T R buf 1 Hw Hcap (type p) s1 _ HR ltac:(lia) ltac:(lia) S1) as (s2 & -> & S2). cbn [mbind res_bind].
  assert (1 <= NOPOS) as HN by done. change (2 ^ 32) with 4294967296 in Hl, Hs. change (2 ^ 64) with 18446744073709551616 in Hdec.
  rewrite Hfull by done. cbn [mbind res_bind]. rewrite Hdec by lia. cbn [mbind res_bind]. rewrite Hfull by done. cbn [mbind res_bind].
  rewrite Hdec by lia. cbn [mbind res_bind]. rewrite Hfull by done. exists s2. split; [done|]. by eexists.
Qed.

(** ** Properties *)

Section properties.
Context {V : Type} `{!volume V, !file_volume V} (pml4 : Z) (fuel : nat).

(** C6. A file that a program writes with [SYS_FWRITE] reads back with
    [SYS_FREAD] into the program's buffer: without a volume, for a path that
    no buffer of the kernel cuts, when the write has returned 0, the read
    returns the number of bytes that fit, the program's buffer holds them, and
    memory outside the program's pages is as it was. *)
Theorem syscall_file_roundtrip (k : kernel V) T R p path src bs dst cap rdx k1 :
  window pml4 (k_vm k) T R -> vm_tree pml4 (k_vm k) T ->
  fs_inv (k_fs k) -> mounted (k_fs k) = false -> vol_mounted (vol (k_fs k)) = false ->
  cstr path -> path_fits path -> (length path < 128)%nat -> p <> 0 -> holds_at pml4 (k_vm k) p (path ++ [0]) ->
  src <> 0 -> holds_at pml4 (k_vm k) src bs -> rdx = Z.of_nat (length bs) -> rdx <= FILE_MAX ->
  dst <> 0 -> 0 <= cap <= 8192 -> (forall b, dst <= b < dst + cap -> R b) ->
  syscall_dispatcher pml4 fuel SYS_FWRITE p src rdx k = Ok (Return 0, k1) ->
  let n := Z.min cap rdx in
  exists k2, syscall_dispatcher pml4 fuel SYS_FREAD p dst cap k1 = Ok (Return n, k2) /\
    kload_bytes pml4 (Z.to_nat n) (k_vm k2) dst = Ok (take (Z.to_nat n) bs) /\
    stored pml4 (k_vm k) (k_vm k2) T R (overlay (kbyte pml4 (k_vm k)) dst (take (Z.to_nat n) bs)).
Proof.
  intros Hw HT Hi Hm Hv Hc Hfit Hl Hp Hpath Hs Hbs -> Hn Hd Hcap HR E n.
  change (syscall_dispatcher pml4 fuel SYS_FWRITE p src (Z.of_nat (length bs)) k) with (sys_fwrite pml4 p src (Z.of_nat (length bs)) k) in E.
  destruct (sys_fwrite_ok pml4 k p path src bs Hi Hm Hc Hl Hp Hpath Hs Hbs Hn) as (r & f & E1 & Ef & Hf & Hmf & Hvf).
  rewrite E1 in E. injection E as Er <-.
  assert (r = FS_OK) as ->.
  { destruct (fs_fwrite_ok (k_fs k) path bs (Z.of_nat (length bs)) Hi Hm Hc) as (r' & f' & E' & Hspec & _); [lia|].
    rewrite Ef in E'. injection E' as <- <-. unfold fwrite_spec in Hspec. unfold u64 in Er.
    repeat case_match; simplify_eq/=; try done; discriminate. }
  pose proof (fs_reads_back V (k_fs k) path bs (Z.of_nat (length bs)) f cap Hi Hm Hc ltac:(lia) Hfit ltac:(lia) Ef) as Erd. fold n in Erd.
  assert (length (take (Z.to_nat n) bs) = Z.to_nat n) as Hlen by (rewrite length_take; lia).
  assert (forall b, dst <= b < dst + Z.of_nat (length (take (Z.to_nat n) bs)) -> R b) as HR' by (intros b Hb; apply HR; lia).
  destruct (sys_fread_ok pml4 k T R Hw HT p path dst cap f n (take (Z.to_nat n) bs)) as (vm & E2 & Hst); try done; try lia.
  { congruence. }
  { by eapply Forall_take, holds_byte. }
  exists (with_vm (with_fs k f) vm). split; [|split; [|done]].
  - change (syscall_dispatcher pml4 fuel SYS_FREAD p dst cap (with_fs k f)) with (sys_fread pml4 p dst cap (with_fs k f)).
    rewrite E2. unfold FILE_MAX in Hn. rewrite u64_small by lia. done.
  - cbn [k_vm with_vm]. pose proof (fill_user_reads pml4 k T R Hw dst _ vm Hst HR') as H. by rewrite Hlen in H.
Qed.

(** C21. [SYS_RUN]: the name and the argument are copied from the caller, the
    first module of that name is found, and the caller is replaced by it: when
    its image is good and there are frames, the call ends in the entry point
    of the image with the program's bytes in place and the argument vector on
    its stack. *)
Theorem sys_run_enters (k : kernel V) name nm arg ap rdx i e B X T st1 :
  reg_ok (k_reg k) -> cstr nm -> (length nm < 32)%nat -> name <> 0 -> holds_at pml4 (k_vm k) name (nm ++ [0]) ->
  match ap with
  | None => arg = 0
  | Some a => arg <> 0 /\ cstr a /\ (length a < 128)%nat /\ holds_at pml4 (k_vm k) arg (a ++ [0])
  end ->
  modules (k_reg k) !! i = Some e -> m_name e = nm ->
  (forall j e', (j < i)%nat -> modules (k_reg k) !! j = Some e' -> m_name e' <> nm) ->
  vmm_unmap_range pml4 USER_MIN USTACK_TOP (k_vm k) = Ok st1 ->
  Z.of_nat (length B) = m_end e - m_start e -> good_image B -> load_ready pml4 (m_start e) B X st1 T ->
  3 * pages (all_segs B) + 6 <= Z.of_nat (size (low X (vm_pmm st1))) ->
  (Z.to_nat (fld B 56 2) < fuel)%nat -> Forall (fun s => (Z.to_nat (g_memsz s) < fuel)%nat) (all_segs B) ->
  exists sp vm, syscall_dispatcher pml4 fuel SYS_RUN name arg rdx k = Ok (Enter (fld B 24 8) sp, with_vm k vm) /\
    (forall s a, s ∈ all_segs B -> g_vaddr s <= a < g_vaddr s + g_memsz s -> kload pml4 vm a = Ok (seg_byte B s a)) /\
    argv_at pml4 vm sp (args_of nm ap).
Proof.
  intros Hr Hnm Hl Hn Hh Hap Hi He Hfirst Hun HL HB HR Hsz Hf Hfs.
  assert (mod_ok e) as Hm by exact (Forall_lookup_1 _ _ _ _ (ro_mods _ Hr) Hi).
  pose proof (lookup_lt_Some _ _ _ Hi) as Hlt. rewrite (modules_length _ (ro_len _ Hr) (ro_n _ Hr)) in Hlt.
  change (syscall_dispatcher pml4 fuel SYS_RUN name arg rdx k) with (sys_run pml4 fuel name arg k). unfold sys_run.
  rewrite (copy_str_ok _ _ _ _ _ Hnm Hn Hh Hl). cbn [mbind res_bind].
  assert ((if arg =? 0 then mret (false, None)
     else o ← copy_str pml4 arg 128 (k_vm k); mret (match o with Some a => (false, Some a) | None => (true, None) end)) = Ok (false, ap)) as ->.
  { destruct ap as [a|]; [|by subst arg]. destruct Hap as (Ha & Hca & Hla & Hha). rewrite (proj2 (Z.eqb_neq arg 0) Ha).
    by rewrite (copy_str_ok _ _ _ _ _ Hca Ha Hha Hla). }
  cbn [mbind res_bind]. destruct (exec_find_ok nm (k_reg k) Hr Hnm) as (idx & -> & Hidx). cbn [mbind res_bind].
  assert (idx = Z.of_nat i) as ->.
  { destruct Hidx as [[_ Hno]|(Hrange & (e' & He' & Hne') & Hmin)].
    - exfalso. apply (Hno e); [by eapply list_elem_of_lookup_2|done].
    - destruct (Z.lt_trichotomy idx (Z.of_nat i)) as [Hlt'|[?|Hgt]]; [|done|].
      + exfalso. by apply (Hfirst (Z.to_nat idx) e' ltac:(lia) He').
      + exfalso. apply (Hmin (Z.of_nat i) e); [lia|by rewrite Nat2Z.id|done]. }
  rewrite (proj2 (Z.ltb_ge _ _)) by lia. unfold enter_or_init.
  destruct (enter_program_ok pml4 B X e T st1 Hm HL HB HR fuel (Z.of_nat i) ap (k_reg k) (k_vm k) Hr) as (sp & vm & -> & Hc & _ & _ & Ha & _);
    [by rewrite Nat2Z.id|lia|done|done|done|done| |].
  - intros a ->. destruct Hap as (_ & ? & ? & _). split; [done|lia].
  - exists sp, vm. split; [done|]. split; [done|]. by rewrite <- He.
Qed.

(** [SYS_WRITE] and [SYS_PUTS] print exactly the caller's bytes: the
    screen becomes what [term_puts] of them makes it, and stays well formed. *)
Theorem sys_write_prints (k : kernel V) a bs rdx : a <> 0 -> holds_at pml4 (k_vm k) a bs -> Z.of_nat (length bs) <= SYS_IO_MAX ->
  term_wf (k_term k) -> crt_ok (k_term k) ->
  exists t, term_puts bs (k_term k) = Ok t /\ term_wf t /\ crt_ok t /\
    syscall_dispatcher pml4 fuel SYS_WRITE a (Z.of_nat (length bs)) rdx k = Ok (Return (Z.of_nat (length bs)), with_term k t) /\
    forall s rsi, bs = s ++ [0] -> cstr s -> exists t', term_puts s (k_term k) = Ok t' /\ term_wf t' /\
      syscall_dispatcher pml4 fuel SYS_PUTS a rsi rdx k = Ok (Return 0, with_term k t').
Proof.
  intros Ha Hb Hn Ht Hcrt. unfold SYS_IO_MAX in *. destruct (term_puts_ok bs (k_term k) Ht Hcrt) as (t & E & Ht' & Hcrt').
  exists t. split; [done|]. split; [done|]. split; [done|]. split.
  - change (syscall_dispatcher pml4 fuel SYS_WRITE a (Z.of_nat (length bs)) rdx k) with (sys_write pml4 a (Z.of_nat (length bs)) k).
    unfold sys_write, SYS_IO_MAX. rewrite (proj2 (Z.eqb_neq a 0) Ha), (proj2 (Z.ltb_ge _ _)) by done. cbn [orb].
    rewrite Nat2Z.id, (kload_bytes_ok _ _ _ _ Hb). cbn [mbind res_bind].
    rewrite term_write_puts, Nat2Z.id, firstn_all by lia. rewrite E. cbn [mbind res_bind]. unfold ret. by rewrite u64_small by lia.
  - intros s rsi -> Hs. destruct (term_puts_ok s (k_term k) Ht Hcrt) as (t1 & E1 & Ht1 & _). exists t1. split; [done|]. split; [done|].
    change (syscall_dispatcher pml4 fuel SYS_PUTS a rsi rdx k) with (sys_puts pml4 a k). unfold sys_puts.
    rewrite (proj2 (Z.eqb_neq a 0) Ha), (scan_str_ok _ _ _ Hs) by done. rewrite length_app in Hn. cbn [length] in Hn.
    rewrite (proj2 (Nat.ltb_lt _ _)) by (unfold SYS_IO_MAX; lia). cbn [mbind res_bind].
    rewrite term_write_puts, Nat2Z.id, firstn_all by lia. by rewrite E1.
Qed.

(** The calls that are refused for their arguments alone. *)
Definition bad_args (rax rdi rsi rdx : Z) : bool :=
  if rax =? SYS_PUTS then rdi =? 0
  else if rax =? SYS_WRITE then (rdi =? 0) || (SYS_IO_MAX <? rsi)
  else if (rax =? SYS_RUN) || (rax =? SYS_FREAD) || (rax =? SYS_FWRITE) || (rax =? SYS_CHDIR) || (rax =? SYS_MKDIR) || (rax =? SYS_LISTDIR)
  then rdi =? 0
  else if rax =? SYS_LSMOD then (rdi =? 0) || (256 <? rsi)
  else if rax =? SYS_PARTLIST then (rdi =? 0) || (512 <? rsi)
  else if rax =? SYS_GETCWD then (rdi =? 0) || (512 <? rsi) || (rsi <? 2)
  else if rax =? SYS_MEMINFO then (rdi =? 0) || (256 <? rsi) || (rsi <? 32)
  else false.

(** C22. Bad arguments are refused and nothing changes: a null pointer or a
    capacity out of bounds gives [E_INVAL]; so does every string that does not
    end in time: the text of [SYS_PUTS] within 4096 bytes, a path within 128,
    the name of a program within 32, and behind a good name its argument
    within 128; and for the calls that take a path and a buffer, a null buffer
    or one that is too large; an unknown number gives [E_NOSYS]. *)
Theorem syscall_refuses (k : kernel V) rax rdi rsi rdx :
  (bad_args rax rdi rsi rdx = true -> syscall_dispatcher pml4 fuel rax rdi rsi rdx k = Ok (Return (u64 E_INVAL), k)) /\
  (forall bs, rax ∈ [SYS_FREAD; SYS_FWRITE; SYS_CHDIR; SYS_MKDIR; SYS_LISTDIR] -> length bs = 128%nat -> Forall (fun c => c <> 0) bs ->
     holds_at pml4 (k_vm k) rdi bs -> syscall_dispatcher pml4 fuel rax rdi rsi rdx k = Ok (Return (u64 E_INVAL), k)) /\
  (forall bs, rax = SYS_PUTS -> length bs = Z.to_nat SYS_IO_MAX -> Forall (fun c => c <> 0) bs ->
     holds_at pml4 (k_vm k) rdi bs -> syscall_dispatcher pml4 fuel rax rdi rsi rdx k = Ok (Return (u64 E_INVAL), k)) /\
  (forall bs, rax = SYS_RUN -> length bs = 32%nat -> Forall (fun c => c <> 0) bs ->
     holds_at pml4 (k_vm k) rdi bs -> syscall_dispatcher pml4 fuel rax rdi rsi rdx k = Ok (Return (u64 E_INVAL), k)) /\
  (forall name bs, rax = SYS_RUN -> cstr name -> (length name < 32)%nat -> rdi <> 0 -> holds_at pml4 (k_vm k) rdi (name ++ [0]) ->
     rsi <> 0 -> length bs = 128%nat -> Forall (fun c => c <> 0) bs ->
     holds_at pml4 (k_vm k) rsi bs -> syscall_dispatcher pml4 fuel rax rdi rsi rdx k = Ok (Return (u64 E_INVAL), k)) /\
  (forall path, rax = SYS_FREAD \/ rax = SYS_LISTDIR -> cstr path -> (length path < 128)%nat -> rdi <> 0 -> holds_at pml4 (k_vm k) rdi (path ++ [0]) ->
     rsi = 0 \/ 8192 < rdx -> syscall_dispatcher pml4 fuel rax rdi rsi rdx k = Ok (Return (u64 E_INVAL), k)) /\
  (forall path, rax = SYS_FWRITE -> cstr path -> (length path < 128)%nat -> rdi <> 0 -> holds_at pml4 (k_vm k) rdi (path ++ [0]) ->
     rsi = 0 \/ FILE_MAX < rdx -> syscall_dispatcher pml4 fuel rax rdi rsi rdx k = Ok (Return (u64 E_INVAL), k)) /\
  (20 < rax -> syscall_dispatcher pml4 fuel rax rdi rsi rdx k = Ok (Return (u64 E_NOSYS), k)).
Proof.
  split; [|split; [|split; [|split; [|split; [|split; [|split]]]]]].
  - unfold bad_args. intros H.
    repeat match type of H with (if ?c then _ else _) = true => let E := fresh "E" in destruct c eqn:E end; [..|done];
      try match goal with E : (_ || _) = true |- _ => repeat (apply orb_true_iff in E as [E|E]) end;
      match goal with E : (rax =? _) = true |- _ => apply Z.eqb_eq in E; subst rax end;
      unfold syscall_dispatcher; cbn -[copy_str u64 Z.ltb SYS_IO_MAX ret];
      unfold sys_puts, sys_write, sys_lsmod, sys_partlist, sys_getcwd, sys_meminfo, sys_run, sys_fread, sys_fwrite, sys_path_call, sys_listdir, copy_str;
      rewrite H, ?orb_true_r; done.
  - intros bs Hin Hl Hb H. pose proof (copy_str_long _ _ _ _ Hb H) as E. rewrite Hl in E.
    repeat (apply elem_of_cons in Hin as [->|Hin]); [..|by apply elem_of_nil in Hin];
      unfold syscall_dispatcher; cbn -[copy_str u64]; unfold sys_fread, sys_fwrite, sys_path_call, sys_listdir; by rewrite E.
  - intros bs -> Hl Hb H. unfold syscall_dispatcher; cbn -[scan_str u64 SYS_IO_MAX]. unfold sys_puts.
    rewrite <- Hl, (scan_str_long _ _ _ _ Hb H). by destruct (_ =? 0).
  - intros bs -> Hl Hb H. pose proof (copy_str_long _ _ _ _ Hb H) as E. rewrite Hl in E.
    unfold syscall_dispatcher; cbn -[copy_str u64]; unfold sys_run; by rewrite E.
  - intros name bs -> Hc Hn Hp Hh Hs Hl Hb H. pose proof (copy_str_ok _ _ _ _ _ Hc Hp Hh Hn) as E1.
    pose proof (copy_str_long _ _ _ _ Hb H) as E2. rewrite Hl in E2.
    unfold syscall_dispatcher; cbn -[copy_str u64]; unfold sys_run. rewrite E1, (proj2 (Z.eqb_neq rsi 0) Hs). cbn [mbind res_bind]. by rewrite E2.
  - intros path Hrax Hc Hl Hp H Hbad. pose proof (copy_str_ok _ _ _ _ _ Hc Hp H Hl) as E.
    assert ((rsi =? 0) || (8192 <? rdx) = true) as Hor by (destruct Hbad as [->|?]; [done|by rewrite (proj2 (Z.ltb_lt _ _)), orb_true_r]).
    destruct Hrax as [-> | ->]; unfold syscall_dispatcher; cbn -[copy_str u64 Z.ltb]; unfold sys_fread, sys_listdir; rewrite E; cbn [mbind res_bind]; by rewrite Hor.
  - intros path -> Hc Hl Hp H Hbad. pose proof (copy_str_ok _ _ _ _ _ Hc Hp H Hl) as E.
    assert ((rsi =? 0) || (FILE_MAX <? rdx) = true) as Hor by (destruct Hbad as [->|?]; [done|by rewrite (proj2 (Z.ltb_lt _ _)), orb_true_r]).
    unfold syscall_dispatcher; cbn -[copy_str u64 Z.ltb FILE_MAX]; unfold sys_fwrite; rewrite E; cbn [mbind res_bind]; by rewrite Hor.
  - intros H. unfold syscall_dispatcher, SYS_PUTS, SYS_CLEAR, SYS_WRITE, SYS_GETC, SYS_INFO, SYS_REBOOT, SYS_POWEROFF, SYS_EXIT, SYS_RUN,
      SYS_LSMOD, SYS_PARTLIST, SYS_MOUNT, SYS_FREAD, SYS_GOTO, SYS_FWRITE, SYS_CHDIR, SYS_MKDIR, SYS_LISTDIR, SYS_GETCWD, SYS_SETCOLOR, SYS_MEMINFO.
    rewrite !(proj2 (Z.eqb_neq rax _)) by lia. done.
Qed.

(** C1. The kernel keeps its invariant under the system calls of a program.
    From a kernel in order, let the program store into its memory, make calls,
    and let keys arrive, for as long as it likes ([turn]); then any further
    call runs without leaving an array or a mapped page, returns, waits for a
    key or stops the machine, and leaves the kernel in order.  The partition
    table and the registry never change, and memory differs from the start in
    bytes of the program's region only, and over the call as well.  The calls
    meant are those of [asks]: the memory the arguments name is in the
    program's region (for [SYS_PARTLIST] with the byte before the buffer, the
    kernel checks none of this), no program is entered ([SYS_RUN],
    [SYS_EXIT]) and no volume mounted.  On a mounted volume the current
    directory must leave room for a slash and a terminator: every call keeps
    that except [SYS_CHDIR] into a directory of the volume. *)
Theorem syscall_safe `{!safe_volume V} T R (k k1 : kernel V) rax rdi rsi rdx :
  kernel_ok pml4 T R k -> cwd_fits k -> rtc (turn pml4 fuel T R) k k1 -> asks R rax rdi rsi rdx ->
  exists o k2, syscall_dispatcher pml4 fuel rax rdi rsi rdx k1 = Ok (o, k2) /\
    match o with Enter _ _ | Halted => False | _ => True end /\
    kernel_ok pml4 T R k2 /\ (keeps_room rax k1 -> cwd_fits k2) /\
    k_parts k2 = k_parts k /\ k_reg k2 = k_reg k /\
    (exists f, stored pml4 (k_vm k1) (k_vm k2) T R f) /\ (exists f, stored pml4 (k_vm k) (k_vm k2) T R f).
Proof.
  intros Hk Hroom Ht Ha. destruct (turns_keep pml4 fuel T R k k1 Ht Hk Hroom) as [Hroom1 Hk1].
  destruct (dispatch_safe pml4 fuel T R k1 rax rdi rsi rdx (proj1 Hk1) Hroom1 Ha) as (o & k2 & E & Hk2 & Ho).
  exists o, k2. split; [done|]. split; [done|]. pose proof Hk2 as (H1 & _ & _ & H2 & H3).
  destruct (preserves_trans pml4 T R False k k1 k2 Hk1) as (_ & P & G & S & _).
  { destruct Hk2 as (? & ? & ? & ? & _). by split_and!. }
  split_and!; try done. intros Hc. by apply H3.
Qed.

(** The reports: when the text fits the buffer, [SYS_PARTLIST] writes one
    line per partition and returns the length of the text, and [SYS_MEMINFO]
    writes the free and the total memory; each text lies in the program's
    buffer and nothing else is written. *)
Theorem syscall_reports T R (k : kernel V) buf cap rdx :
  window pml4 (k_vm k) T R -> vm_tree pml4 (k_vm k) T -> 0 < buf -> 0 <= cap -> (forall b, buf <= b < buf + cap -> R b) ->
  let list := part_lines (mounted_idx (k_fs k)) (take (Z.to_nat (nparts (k_parts k))) (parts (k_parts k))) in
  let info := mem_line (vm_pmm (k_vm k)) in
  (parts_ok (k_parts k) -> cap <= 512 -> Z.of_nat (length list) <= cap ->
   exists vm, syscall_dispatcher pml4 fuel SYS_PARTLIST buf cap rdx k = Ok (Return (Z.of_nat (length list)), with_vm k vm) /\
     kload_bytes pml4 (length list) vm buf = Ok list /\ stored pml4 (k_vm k) vm T R (overlay (kbyte pml4 (k_vm k)) buf list)) /\
  (32 <= cap <= 256 -> Z.of_nat (length info) <= cap ->
   exists vm, syscall_dispatcher pml4 fuel SYS_MEMINFO buf cap rdx k = Ok (Return (Z.of_nat (length info)), with_vm k vm) /\
     kload_bytes pml4 (length info) vm buf = Ok info /\ stored pml4 (k_vm k) vm T R (overlay (kbyte pml4 (k_vm k)) buf info)).
Proof.
  intros Hw HT Hb Hc HR list info. split.
  - intros Hp Hc' Hl. destruct (sys_partlist_fits pml4 k T R Hw HT buf cap Hp Hb ltac:(lia) HR Hl) as (vm & E & Hs).
    exists vm. split; [exact E|]. split; [|exact Hs]. apply (fill_user_reads pml4 k T R Hw); [exact Hs|]. intros b Hb'. apply HR. lia.
  - intros Hc' Hl. destruct (sys_meminfo_ok pml4 k T R Hw HT buf cap Hb Hc' HR Hl) as (vm & E & Hs).
    exists vm. split; [exact E|]. split; [|exact Hs]. apply (fill_user_reads pml4 k T R Hw); [exact Hs|]. intros b Hb'. apply HR. lia.
Qed.

(** [SYS_PARTLIST] with a buffer of one byte writes outside it: the text
    of the first line does not fit, the position becomes the largest unsigned
    number, and the check of [emit_hex] wraps around: the call returns
    [E_INVAL], but a hexadecimal digit of the partition's type has been stored
    in the byte before the buffer. *)
Theorem partlist_underflow T R (k : kernel V) buf rdx p :
  window pml4 (k_vm k) T R -> vm_tree pml4 (k_vm k) T -> parts_ok (k_parts k) -> 0 < nparts (k_parts k) -> parts (k_parts k) !! 0%nat = Some p ->
  1 < buf -> (forall b, buf - 1 <= b < buf + 1 -> R b) ->
  exists vm, syscall_dispatcher pml4 fuel SYS_PARTLIST buf 1 rdx k = Ok (Return (u64 E_INVAL), with_vm k vm) /\
    kload_bytes pml4 2 vm (buf - 1) = Ok (hex_text (type p)).
Proof.
  intros Hw HT [Htab Hp] Hn Hp0 Hb HR. pose proof (Forall_lookup_1 _ _ _ _ Hp Hp0) as [Hl Hs].
  change (syscall_dispatcher pml4 fuel SYS_PARTLIST buf 1 rdx k) with (sys_partlist pml4 buf 1 k). unfold sys_partlist.
  rewrite (proj2 (Z.eqb_neq buf 0)) by lia. cbn [orb]. change (512 <? 1) with false. cbv iota. unfold part_count.
  replace (Z.to_nat (nparts (k_parts k))) with (S (Z.to_nat (nparts (k_parts k) - 1))) by lia. cbn [for_loop].
  destruct (part_get_in (k_parts k) 0 Htab) as (p' & -> & Hp'); [lia|]. change (Z.to_nat 0) with 0%nat in Hp'. rewrite Hp0 in Hp'. injection Hp' as <-.
  cbn [mbind res_bind].
  destruct (emit_part_tiny pml4 (k_vm k) T R buf p (mounted_idx (k_fs k)) Hw HT ltac:(lia) HR (conj Hl Hs)) as (s2 & -> & f & S2).
  cbn [mbind res_bind]. rewrite Z.eqb_refl. cbn [mret res_ret mbind res_bind].
  exists s2. split; [reflexivity|].
  rewrite (kload_bytes_stored pml4 (k_vm k) s2 T R _ (buf - 1) 2 Hw S2) by (intros b Hb'; apply HR; lia). f_equal.
  exact (overlay_seq_in _ (buf - 1) (hex_text (type p))).
Qed.
End properties.

(** ** Witnesses *)

#[local] Existing Instance no_volume.
#[local] Existing Instance no_file_volume.
#[local] Existing Instance no_safe_volume.

(** The pages of the program in the witnesses: 16 KB from 4 MB on, still mapped
    one to one. *)
Definition wit_R (a : Z) : Prop := 0x400000 <= a < 0x404000.

Lemma wit_user bs : (length bs <= 4096)%nat -> Forall is_byte bs -> exists vm,
  vm_tree 0x10000 vm (boot_tree 0x10000 0x11000 0x12000) /\
  window 0x10000 vm (boot_tree 0x10000 0x11000 0x12000) wit_R /\ holds_at 0x10000 vm 0x400000 bs.
Proof.
  intros Hl Hb. destruct wit_boot as (pm & Hf & HT & _). set (T := boot_tree _ _ _) in *. exists (Vmm (store_bytes wit_mem 0x400000 bs) pm).
  assert (forall b, wit_R b -> off_tables T b) as Ho.
  { intros b Hr t l Ht%wit_lev. unfold wit_R in Hr. clear -Hr Ht. zdm. }
  destruct (store_bytes_tree _ _ _ bs wit_mem 0x400000 HT) as [HT' Hp]; [intros b Hr; apply Ho; unfold wit_R; lia|].
  assert (forall a, wit_R a -> vmm_phys 0x10000 (store_bytes wit_mem 0x400000 bs) a = a) as Hid.
  { intros a Ha. rewrite Hp. apply wit_phys. unfold wit_R in Ha. change (2 ^ 32) with 4294967296. lia. }
  assert (forall a, wit_R a -> a <> 0) as Hnz by (unfold wit_R; lia).
  split; [exact HT'|]. split.
  - split; cbn [vm_mem].
    + intros a Ha. unfold wit_R in Ha. change (2 ^ 64) with 18446744073709551616. lia.
    + intros a Ha. rewrite Hid by done. by apply Hnz.
    + intros a Ha. rewrite Hid by done. by apply Ho.
    + intros a b Ha Hb'. by rewrite !Hid by done.
  - split; [change (2 ^ 64) with 18446744073709551616; lia|]. intros i b Hi. apply lookup_lt_Some in Hi as Hlt. unfold kload. cbn [vm_mem].
    rewrite Hid by (unfold wit_R; lia). rewrite (proj2 (Z.eqb_neq _ 0)) by lia. unfold mret, res_ret. f_equal.
    revert Hi Hb. generalize 0x400000 as a, wit_mem as m. clear. revert i. induction bs as [|c bs IH]; intros i a m Hi Hb; [done|].
    inversion_clear Hb. cbn [store_bytes]. destruct i as [|i].
    + injection Hi as <-. by rewrite Z.add_0_r, load8_store8, u8_small.
    + rewrite load8_store8_ne by lia. replace (a + Z.of_nat (S i)) with (a + 1 + Z.of_nat i) by lia. by apply IH.
Qed.

Lemma holds_app pml4 st a xs ys : holds_at pml4 st a (xs ++ ys) -> holds_at pml4 st a xs /\ holds_at pml4 st (a + Z.of_nat (length xs)) ys.
Proof.
  intros [Hr Hb]. rewrite length_app in Hr. split; (split; [lia|]); intros i b Hi.
  - apply Hb. by apply lookup_app_l_Some.
  - rewrite <- Z.add_assoc, <- Nat2Z.inj_add. apply Hb. rewrite lookup_app_r by lia.
    by replace (length xs + i - length xs)%nat with i by lia.
Qed.

Definition wit_ring : ring := Ring (replicate 32 0) 0 0.
Definition wit_parts : table := Table (PartT 0x0C 2048 4096 :: replicate 3 (PartT 0 0 0)) 1 [].

Lemma wit_parts_ok : parts_ok wit_parts.
Proof.
  split; [split; [reflexivity|split; discriminate]|]. repeat constructor; discriminate.
Qed.

Lemma wit_kernel bs : (length bs <= 4096)%nat -> Forall is_byte bs -> exists k : kernel unit,
  kernel_ok 0x10000 (boot_tree 0x10000 0x11000 0x12000) wit_R k /\ mounted (k_fs k) = false /\ holds_at 0x10000 (k_vm k) 0x400000 bs /\
  k_term k = wit_term /\ k_parts k = wit_parts /\ k_reg k = wit_reg /\ root_path (k_fs k) = [] /\ abs (nodes (k_fs k)) = {[ [] := EDir ]}.
Proof.
  intros Hl Hb. destruct (wit_user bs Hl Hb) as (vm & HT & Hw & Hh). destruct wit_init as (s & Hi & Hm & Hr & Ha).
  pose proof wit_term_wf. exists (Kernel wit_term wit_ring s wit_parts wit_reg vm). split; [|done].
  split; cbn [k_term k_ring k_fs k_parts k_reg k_vm]; try done.
  - exact wit_parts_ok.
  - exact wit_reg_ok.
Qed.

(** "/a", then the bytes 1, 2, 3. *)
Lemma syscall_file_roundtrip_witness : exists (k k1 k2 : kernel unit),
  syscall_dispatcher 0x10000 10 SYS_FWRITE 0x400000 0x400003 3 k = Ok (Return 0, k1) /\
  syscall_dispatcher 0x10000 10 SYS_FREAD 0x400000 0x401000 2 k1 = Ok (Return 2, k2) /\
  kload_bytes 0x10000 2 (k_vm k2) 0x401000 = Ok [1; 2].
Proof.
  destruct (wit_kernel ([47; 97; 0] ++ [1; 2; 3])) as (k & Hk & Hm & Hh & _ & _ & _ & Hr & Ha); [cbn; lia|by repeat constructor|].
  destruct (holds_app _ _ _ _ _ Hh) as [Hp Hs]. change (0x400000 + Z.of_nat (length [47; 97; 0])) with 0x400003 in Hs.
  destruct (ko_fs _ _ _ _ Hk) as (Hi & Hv & _). rewrite Hm in Hv.
  destruct (sys_fwrite_ok 0x10000 k 0x400000 [47; 97] 0x400003 [1; 2; 3] Hi Hm wit_cstr) as (r & f & E & Ef & _);
    [cbn; lia|done|done|done|done|discriminate|].
  assert (r = FS_OK) as ->.
  { destruct (fs_fwrite_ok (k_fs k) [47; 97] [1; 2; 3] 3 Hi Hm wit_cstr) as (r' & f' & E' & H & _); [cbn; lia|].
    change (Z.of_nat (length [1; 2; 3])) with 3 in Ef. rewrite Ef in E'. injection E' as <- <-. rewrite Ha, Hr in H.
    change r with (r, abs (nodes f)).1. rewrite <- H. vm_compute. reflexivity. }
  destruct (syscall_file_roundtrip 0x10000 10 k (boot_tree 0x10000 0x11000 0x12000) wit_R 0x400000 [47; 97] 0x400003 [1; 2; 3] 0x401000 2 3 (with_fs k f)) as (k2 & E2 & Hld & _).
  - apply (ko_win _ _ _ _ Hk).
  - apply (ko_vm _ _ _ _ Hk).
  - done.
  - done.
  - done.
  - exact wit_cstr.
  - split; [discriminate|]. apply Nat.ltb_lt. reflexivity.
  - cbn. lia.
  - done.
  - exact Hp.
  - done.
  - exact Hs.
  - done.
  - discriminate.
  - done.
  - split; discriminate.
  - intros b Hb. unfold wit_R. lia.
  - exact E.
  - exists k, (with_fs k f), k2. split; [exact E|]. split; [exact E2|exact Hld].
Defined.

Lemma sys_write_prints_witness : exists (k : kernel unit) t,
  syscall_dispatcher 0x10000 10 SYS_WRITE 0x400000 3 0 k = Ok (Return 3, with_term k t) /\ term_puts [72; 105; 0] (k_term k) = Ok t.
Proof.
  destruct (wit_kernel [72; 105; 0]) as (k & Hk & _ & Hh & _); [cbn; lia|by repeat constructor|]. destruct (ko_term _ _ _ _ Hk).
  destruct (sys_write_prints 0x10000 10 k 0x400000 [72; 105; 0] 0) as (t & E & _ & _ & E' & _); [done|done|discriminate|done|done|].
  by exists k, t.
Defined.

(** A kernel with the volume of [Fat.v] mounted; a key arrives before the
    program writes a file. *)
Lemma syscall_safe_witness : exists (k k1 k2 : kernel (fat (list (list Z)))) o,
  let V := fat_volume (disk0 := list_disk) 256 in let F := fat_file_volume (disk0 := list_disk) 256 in
  mounted (k_fs k) = true /\ k_ring k1 <> k_ring k /\
  @syscall_dispatcher _ V F 0x10000 10 SYS_FWRITE 0x400000 0x400080 700 k1 = Ok (o, k2) /\
  @kernel_ok _ V F (fat_safe_volume (disk0 := list_disk) 256) 0x10000 (boot_tree 0x10000 0x11000 0x12000) wit_R k2 /\
  @cwd_fits _ V F (fat_safe_volume (disk0 := list_disk) 256) k2.
Proof.
  destruct (wit_user []) as (vm & HT & Hw & _); [cbn; lia|constructor|]. destruct wit_init as (s & Hi & _). pose proof wit_term_wf.
  pose (k := Kernel wit_term wit_ring (Fs (nodes s) (cwd s) true 0 wit_fat) wit_parts wit_reg vm).
  assert (@kernel_ok _ (fat_volume (disk0 := list_disk) 256) (fat_file_volume (disk0 := list_disk) 256) (fat_safe_volume (disk0 := list_disk) 256)
    0x10000 (boot_tree 0x10000 0x11000 0x12000) wit_R k) as Hk.
  { split; cbn [k_term k_ring k_fs k_parts k_reg k_vm k]; try done.
    - split; [exact Hi|]. split; [done|]. intros _. exact wit_volume.
    - exact wit_parts_ok.
    - exact wit_reg_ok. }
  pose (k1 := with_ring k (Ring (<[0%nat := 97]> (replicate 32 0)) 1 0)).
  destruct (@syscall_safe _ (fat_volume (disk0 := list_disk) 256) (fat_file_volume (disk0 := list_disk) 256) 0x10000 10
    (fat_safe_volume (disk0 := list_disk) 256) _ wit_R k k1 SYS_FWRITE 0x400000 0x400080 700 Hk) as (o & k2 & E & _ & Hk' & Hroom & _).
  - done.
  - apply rtc_once, (turn_key _ _ _ _ _ 97). reflexivity.
  - split; [done|done|done| |discriminate|].
    + rewrite !not_elem_of_cons. split_and!; try discriminate. apply not_elem_of_nil.
    + split; intros b Hb; unfold wit_R; lia.
  - exists k, k1, k2, o. cbv zeta. split; [done|]. split; [done|]. split; [exact E|]. split; [exact Hk'|]. apply Hroom. discriminate.
Defined.

(** "0 0C 2048 4096" and a newline. *)
Lemma syscall_reports_witness : exists (k : kernel unit) vm,
  syscall_dispatcher 0x10000 10 SYS_PARTLIST 0x400010 64 0 k = Ok (Return 15, with_vm k vm) /\
  kload_bytes 0x10000 15 vm 0x400010 = Ok (lit "0 0C 2048 4096" ++ [10]).
Proof.
  destruct wit_user with (bs := @nil Z) as (vm & HT & Hw & _); [cbn; lia|constructor|]. destruct wit_init as (s & Hi & Hm & Hr & Ha).
  pose (k := Kernel wit_term wit_ring (Fs (nodes s) 0 false (-1) tt) wit_parts wit_reg vm).
  destruct (syscall_reports 0x10000 10 _ wit_R k 0x400010 64 0 Hw HT) as [H _]; [lia|lia|intros b Hb; unfold wit_R; lia|].
  destruct H as (vm' & E & Hl & _); [exact wit_parts_ok|lia|vm_compute; discriminate|]. by exists k, vm'.
Defined.

(** The type 0C: its first digit lands before the buffer. *)
Lemma partlist_underflow_witness : exists (k : kernel unit) vm,
  syscall_dispatcher 0x10000 10 SYS_PARTLIST 0x400010 1 0 k = Ok (Return (u64 E_INVAL), with_vm k vm) /\
  kload_bytes 0x10000 2 vm 0x40000F = Ok (lit "0C").
Proof.
  destruct (wit_kernel []) as (k & Hk & _ & _ & _ & Hp & _); [cbn; lia|constructor|].
  destruct (partlist_underflow 0x10000 10 _ wit_R k 0x400010 0 (PartT 0x0C 2048 4096) (ko_win _ _ _ _ Hk) (ko_vm _ _ _ _ Hk) (ko_parts _ _ _ _ Hk)) as (vm & E & H).
  - by rewrite Hp.
  - by rewrite Hp.
  - lia.
  - intros b Hb. unfold wit_R. lia.
  - by exists k, vm.
Defined.

(** A module whose name is the bytes 2, 1, 1: the image holds that string. *)
Lemma sys_run_enters_witness : exists (k : kernel unit) sp vm,
  syscall_dispatcher 0x10000 10 SYS_RUN 0x20004 0 0 k = Ok (Enter 0x400000 sp, with_vm k vm) /\
  kload 0x10000 vm 0x400002 = Ok 0xEB /\ kword 0x10000 8 vm sp = Ok 1.
Proof.
  destruct (wit_ready wit_img) as (pm & HR & Hsz); [vm_compute; lia|apply (gi_bytes _ wit_img_good)| |].
  { rewrite wit_segs. intros s pg ->%list_elem_of_singleton. unfold in_seg. change (seg_lo _) with 1024. change (seg_hi _) with 1025. lia. }
  set (vm := Vmm (store_bytes wit_mem 0x20000 wit_img) pm) in *. destruct wit_init as (s & _).
  pose (e := Mod 0x20000 (0x20000 + 124) [2; 1; 1]). pose (r := Registry (e :: replicate 7 (Mod 0 0 [])) 1).
  assert (reg_ok r) as Hr.
  { split; [done|done|]. constructor; [|constructor]. split_and!; cbn; try done || lia. repeat constructor; lia. }
  assert (holds_at 0x10000 vm 0x20004 ([2; 1; 1] ++ [0])) as Hh.
  { split; [split; [lia|reflexivity]|]. intros i b Hi.
    assert (i < 4)%nat as Hi4 by exact (lookup_lt_Some _ _ _ Hi). destruct (lr_img _ _ _ _ _ _ HR (0x20004 + Z.of_nat i)) as (H1 & _ & _ & H4).
    { change (Z.of_nat (length wit_img)) with 124. lia. }
    unfold kload. rewrite (proj2 (Z.eqb_neq _ 0) H1). unfold kbyte in H4. rewrite H4. unfold mret, res_ret. f_equal.
    replace (Z.to_nat (0x20004 + Z.of_nat i - 0x20000)) with (4 + i)%nat by lia.
    destruct i as [|[|[|[|i]]]]; [injection Hi as <-; reflexivity..|lia]. }
  pose (k := Kernel wit_term wit_ring s wit_parts r vm).
  destruct (sys_run_enters 0x10000 10 k 0x20004 [2; 1; 1] 0 None 0 0 e wit_img 1024 (boot_tree 0x10000 0x11000 0x12000) vm) as (sp & vm' & E & Hc & Ha & _).
  - exact Hr.
  - repeat constructor; lia.
  - cbn. lia.
  - done.
  - exact Hh.
  - done.
  - done.
  - done.
  - intros j e' Hj. lia.
  - apply (unmap_range_none _ _ _ _ _ (lr_tree _ _ _ _ _ _ HR)). intros t Ht.
    apply (boot_lev _ _ _ wit_layout) in Ht as [[_ ?]|[[_ ?]|(j & _ & _ & ?)]]; done.
  - reflexivity.
  - exact wit_img_good.
  - exact HR.
  - cbn [vm_pmm vm]. rewrite Hsz, wit_segs. vm_compute. discriminate.
  - vm_compute. lia.
  - rewrite wit_segs. constructor; [vm_compute; lia|constructor].
  - exists k, sp, vm'. split; [exact E|]. split; [|exact Ha].
    assert (Seg 120 0x400000 4 8 true ∈ all_segs wit_img) as Hin by (rewrite wit_segs; by left).
    rewrite (Hc _ 0x400002 Hin); [reflexivity|by split].
Defined.

Lemma syscall_refuses_witness : exists k : kernel unit,
  syscall_dispatcher 0x10000 10 SYS_PUTS 0 0 0 k = Ok (Return (u64 E_INVAL), k) /\
  syscall_dispatcher 0x10000 10 21 0 0 0 k = Ok (Return (u64 E_NOSYS), k).
Proof.
  destruct (wit_kernel []) as (k & _); [cbn; lia|constructor|]. exists k. split.
  - by apply (proj1 (syscall_refuses 0x10000 10 k SYS_PUTS 0 0 0)).
  - by apply (syscall_refuses 0x10000 10 k 21 0 0 0).
Defined.
