(* ===== verification/SysVol.v ===== *)
(** * System calls on a mounted volume

    [SYS_FWRITE] and [SYS_FREAD] go to the FAT driver while a volume is mounted
    ([kernel/syscall.c], [kernel/fs.c], [kernel/fat.c]): the laws of the
    dispatcher and of the volume's tree together. *)
From S2P Require Import Prelude Disk FatName Fat FatFile FatTree FatList Mem Pmm Vmm Str Vga Kbd Part Fs Uspace Exec Volume Syscall SysLaws.

Section volume.
Context {D : Type} `{!disk D, !good_disk D} (pml4 : Z) (fuel vfuel : nat).

#[local] Instance fat_vol : volume (fat D) := fat_volume vfuel.
#[local] Instance fat_fvol : file_volume (fat D) := fat_file_volume vfuel.

(** ** Lemmas *)

Lemma vol_fwrite (k : kernel (fat D)) T L p path src bs :
  mounted (k_fs k) = true -> vol_tree (vol (k_fs k)) T L -> 2 * fat_max (vol (k_fs k)) <= Z.of_nat vfuel ->
  cstr path -> cwd_path (vol (k_fs k)) = [SLASH] \/ deref path = SLASH -> (length path < 128)%nat -> p <> 0 ->
  holds_at pml4 (k_vm k) p (path ++ [0]) -> src <> 0 -> holds_at pml4 (k_vm k) src bs -> Z.of_nat (length bs) <= FILE_MAX ->
  exists v' r, sys_fwrite pml4 p src (Z.of_nat (length bs)) k = Ok (Return (u64 r), with_fs k (set_vol (k_fs k) v')) /\
    (r = 0 \/ r = -1) /\ fat_write vfuel path bs (Z.of_nat (length bs)) (vol (k_fs k)) = Ok (r, v').
Proof.
  intros Hm Ht Hf Hc Hcw Hl Hp Hpath Hs Hbs Hn. unfold sys_fwrite, FILE_MAX in *. rewrite (copy_str_ok _ _ _ _ _ Hc Hp Hpath Hl). cbn [mbind res_bind].
  rewrite (proj2 (Z.eqb_neq src 0) Hs), (proj2 (Z.ltb_ge _ _)) by done. cbn [orb].
  rewrite Nat2Z.id, (kload_bytes_ok _ _ _ _ Hbs). cbn [mbind res_bind]. unfold fs_fwrite. rewrite Hm. cbn [vol_write fat_vol fat_volume].
  destruct (fat_write_ok vfuel (vol (k_fs k)) T L path bs (Z.of_nat (length bs)) Ht Hc Hcw (holds_byte _ _ _ _ Hbs)) as (r' & v' & -> & Hr);
    [lia|change (2 ^ 32) with 4294967296; lia|done|].
  cbn [mbind res_bind mret res_ret]. exists v', r'. split; [done|]. split; [|done].
  destruct (norm [] (words path) ≫= _) as [T'|]; [|right; apply Hr]. destruct Hr as [_ [[-> _]|[-> _]]]; [by left|by right].
Qed.

Lemma vol_fread (k : kernel (fat D)) T R p path dst cap TT LL : window pml4 (k_vm k) T R -> vm_tree pml4 (k_vm k) T ->
  is_mounted (vol (k_fs k)) = true -> vol_tree (vol (k_fs k)) TT LL -> fat_max (vol (k_fs k)) <= Z.of_nat vfuel ->
  cstr path -> cwd_path (vol (k_fs k)) = [SLASH] \/ deref path = SLASH -> (length path < 128)%nat -> p <> 0 ->
  holds_at pml4 (k_vm k) p (path ++ [0]) -> dst <> 0 -> 0 <= cap <= 8192 -> (forall b, dst <= b < dst + cap -> R b) ->
  forall n data, root_read TT path cap = (n, data) -> Forall is_byte data -> Z.of_nat (length data) <= cap ->
  exists vm v', sys_fread pml4 p dst cap k = Ok (Return (u64 n), with_vm (with_fs k (set_vol (k_fs k) v')) vm) /\
    stored pml4 (k_vm k) vm T R (overlay (kbyte pml4 (k_vm k)) dst data).
Proof.
  intros Hw HT Hm Ht Hf Hc Hcw Hl Hp Hpath Hd Hcap HR n data Er Hb Hlen. unfold sys_fread. rewrite (copy_str_ok _ _ _ _ _ Hc Hp Hpath Hl). cbn [mbind res_bind].
  rewrite (proj2 (Z.eqb_neq dst 0) Hd), (proj2 (Z.ltb_ge _ _)) by lia. cbn [orb vol_mounted fat_fvol fat_file_volume vol_read]. rewrite Hm.
  destruct (fat_read_ok vfuel (vol (k_fs k)) TT LL path cap Ht Hc Hcw ltac:(lia) Hf) as (v' & -> & _). rewrite Er. cbn [mbind res_bind].
  destruct (fill_user_ok pml4 k T R Hw HT dst data n (with_fs k (set_vol (k_fs k) v')) eq_refl Hb) as (vm & E & Hs); [intros b Hb'; apply HR; lia|].
  by exists vm, v'.
Qed.

(** ** Properties *)

(** C7. A file that a program writes to a mounted volume reads back: when
    [SYS_FWRITE] has returned 0, and the name in its path does not end in a dot,
    [SYS_FREAD] of the path returns the number of bytes that fit, the program's
    buffer holds them, and memory outside the program's pages is as it was; the
    volume's tree is the old one with the file in it. *)
Theorem syscall_volume_roundtrip (k : kernel (fat D)) T R TT L p path src bs dst cap rdx k1 :
  window pml4 (k_vm k) T R -> vm_tree pml4 (k_vm k) T ->
  mounted (k_fs k) = true -> is_mounted (vol (k_fs k)) = true -> vol_tree (vol (k_fs k)) TT L -> 2 * fat_max (vol (k_fs k)) <= Z.of_nat vfuel ->
  cstr path -> cwd_path (vol (k_fs k)) = [SLASH] \/ deref path = SLASH ->
  (forall P w, norm [] (words path) = Some (P ++ [w]) -> last w <> Some DOT) ->
  (length path < 128)%nat -> p <> 0 -> holds_at pml4 (k_vm k) p (path ++ [0]) ->
  src <> 0 -> holds_at pml4 (k_vm k) src bs -> rdx = Z.of_nat (length bs) -> rdx <= FILE_MAX ->
  dst <> 0 -> 0 <= cap <= 8192 -> (forall b, dst <= b < dst + cap -> R b) ->
  syscall_dispatcher pml4 fuel SYS_FWRITE p src rdx k = Ok (Return 0, k1) ->
  let n := Z.min cap rdx in
  exists k2 P L', syscall_dispatcher pml4 fuel SYS_FREAD p dst cap k1 = Ok (Return n, k2) /\
    norm [] (words path) = Some P /\ vol_tree (vol (k_fs k1)) (<[upath P := EFile bs]> TT) L' /\
    kload_bytes pml4 (Z.to_nat n) (k_vm k2) dst = Ok (take (Z.to_nat n) bs) /\
    stored pml4 (k_vm k) (k_vm k2) T R (overlay (kbyte pml4 (k_vm k)) dst (take (Z.to_nat n) bs)).
Proof.
  intros Hw HT Hm Hv Ht Hf Hc Hcw Hdot Hl Hp Hpath Hs Hbs -> Hn Hd Hcap HR E n.
  change (syscall_dispatcher pml4 fuel SYS_FWRITE p src (Z.of_nat (length bs)) k) with (sys_fwrite pml4 p src (Z.of_nat (length bs)) k) in E.
  destruct (vol_fwrite k TT L p path src bs) as (v' & r' & E1 & Hr' & Ew); [done..|]. unfold FILE_MAX in Hn. rewrite E1 in E.
  injection E as Hr <-. assert (r' = 0) as -> by (destruct Hr' as [?| ->]; [done|discriminate Hr]).
  pose proof (holds_byte _ _ _ _ Hbs) as Hby.
  destruct (fat_write_zero vfuel (vol (k_fs k)) TT L path bs (Z.of_nat (length bs)) v' Ht Hc Hcw Hby) as (P & w & key & L' & En & Ek & Hg & Ht');
    [lia|change (2 ^ 32) with 4294967296; lia|done|done|]. rewrite Nat2Z.id, firstn_all in Ht'.
  assert (upath P ++ [key] = upath (P ++ [w])) as EP by (rewrite upath_app; by rewrite (stored_name_upper w key Ek (Hdot P w En))). rewrite EP in Ht'.
  pose proof Hg as (_ & _ & _ & _ & _ & _ & _ & Ecwd & Emnt & _).
  assert (root_read (<[upath (P ++ [w]) := EFile bs]> TT) path cap = (n, take (Z.to_nat n) bs)) as Err.
  { unfold root_read, tree_read. rewrite En, lookup_insert_eq. f_equal. unfold n. destruct (Z.min_spec cap (Z.of_nat (length bs))) as [[? ->]|[? ->]]; [done|].
    rewrite !take_ge by lia. done. }
  assert (Z.of_nat (length (take (Z.to_nat n) bs)) = n) as Hlen by (rewrite length_take; lia).
  destruct (vol_fread (with_fs k (set_vol (k_fs k) v')) T R p path dst cap (<[upath (P ++ [w]) := EFile bs]> TT) L' Hw HT) with (n := n) (data := take (Z.to_nat n) bs)
    as (vm & v2 & E2 & Hst); [cbn [k_fs with_fs set_vol vol]; congruence|done|cbn [k_fs with_fs set_vol vol]; rewrite (fat_max_geometry _ _ Hg); lia|done|cbn [k_fs with_fs set_vol vol]; by rewrite Ecwd|done..| |lia|].
  { by apply Forall_take. }
  exists (with_vm (with_fs (with_fs k (set_vol (k_fs k) v')) (set_vol (set_vol (k_fs k) v') v2)) vm), (P ++ [w]), L'.
  split; [|split; [done|split; [done|split; [|done]]]].
  - change (syscall_dispatcher pml4 fuel SYS_FREAD p dst cap (with_fs k (set_vol (k_fs k) v'))) with (sys_fread pml4 p dst cap (with_fs k (set_vol (k_fs k) v'))).
    rewrite E2. by rewrite u64_small by lia.
  - cbn [k_vm with_vm]. pose proof (fill_user_reads pml4 k T R Hw dst _ vm Hst) as H. rewrite length_take, Nat.min_l in H by lia. apply H. intros b Hb. apply HR. lia.
Qed.
End volume.

(** ** Witness *)

(** The path "/a" and the bytes 1, 2, 3 on the volume of [Fat.v]. *)
Lemma syscall_volume_roundtrip_witness : exists k k1 k2 : kernel (fat (list (list Z))),
  let V := fat_volume (disk0 := list_disk) 256 in let F := fat_file_volume (disk0 := list_disk) 256 in
  @syscall_dispatcher _ V F 0x10000 10 SYS_FWRITE 0x400000 0x400003 3 k = Ok (Return 0, k1) /\
  @syscall_dispatcher _ V F 0x10000 10 SYS_FREAD 0x400000 0x401000 2 k1 = Ok (Return 2, k2) /\
  kload_bytes 0x10000 2 (k_vm k2) 0x401000 = Ok [1; 2].
Proof.
  destruct (wit_user ([47; 97; 0] ++ [1; 2; 3])) as (vm & HT & Hw & Hh); [cbn; lia|by repeat constructor|]. destruct wit_init as (s & _).
  destruct (holds_app _ _ _ _ _ Hh) as [Hp Hs]. change (0x400000 + Z.of_nat (length [47; 97; 0])) with 0x400003 in Hs.
  pose (k := Kernel wit_term wit_ring (Fs (nodes s) (cwd s) true 0 wit_fat) wit_parts wit_reg vm).
  assert (cstr [47; 97]) as Hc by (repeat constructor; lia). assert (2 * fat_max wit_fat <= 256) as Hf by (vm_compute; discriminate).
  destruct (vol_fwrite (disk0 := list_disk) 0x10000 256 k {[ [] := EDir ]} {[ [] := (2, [2]) ]} 0x400000 [47; 97] 0x400003 [1; 2; 3])
    as (v & r & E & Hr & Ew); [done|exact wit_tree|exact Hf|exact Hc|by left|cbn; lia|done|exact Hp|done|exact Hs|discriminate|].
  assert (match fat_write (disk0 := list_disk) 256 [47; 97] [1; 2; 3] 3 wit_fat with Ok (r, _) => r | _ => 1 end = 0) as Er by (vm_compute; reflexivity).
  change (vol (k_fs k)) with wit_fat in Ew. change (Z.of_nat (length [1; 2; 3])) with 3 in Ew. rewrite Ew in Er. subst r.
  destruct (syscall_volume_roundtrip (disk0 := list_disk) 0x10000 10 256 k (boot_tree 0x10000 0x11000 0x12000) wit_R {[ [] := EDir ]} {[ [] := (2, [2]) ]}
    0x400000 [47; 97] 0x400003 [1; 2; 3] 0x401000 2 3 (with_fs k (set_vol (k_fs k) v))) as (k2 & P & L' & E2 & _ & _ & Hld & _).
  - exact Hw.
  - exact HT.
  - done.
  - done.
  - exact wit_tree.
  - exact Hf.
  - exact Hc.
  - by left.
  - intros P w H. assert (norm [] (words [47; 97]) = Some ([] ++ [[97]])) as E1 by (vm_compute; reflexivity). rewrite E1 in H. injection H as H.
    apply (app_inj_tail [] P) in H as [_ <-]. discriminate.
  - cbn. lia.
  - done.
  - exact Hp.
  - done.
  - exact Hs.
  - done.
  - discriminate.
  - done.
  - split; discriminate.
  - intros b Hb. unfold wit_R. lia.
  - exact E.
  - exists k, (with_fs k (set_vol (k_fs k) v)), k2. cbv zeta. split; [exact E|]. split; [exact E2|exact Hld].
Defined.
