(* ===== verification/Pci.v ===== *)
(** * The PCI bus ([drivers/pci/pci.c])

    Configuration space through the address and data ports.  The ports are an
    interface ([pci_ports], the functions [inl] and [outl] of [io.h]); what the
    code relies on of the bus behind them is the class [pci_bus], a statement of
    configuration mechanism 1: the data port is the 32-bit register that the
    address port names. *)
From S2P Require Import Prelude Str Hex Vga.

(** ** Ports *)
Class pci_ports (B : Type) := PciPorts {
  outl : Z -> Z -> B -> B;
  inl : Z -> B -> Z * B
}.

(** ** Constants *)
Definition CONFIG_ADDRESS : Z := 0xCF8.
Definition CONFIG_DATA : Z := 0xCFC.
Definition VENDOR_ID : Z := 0x00.
Definition DEVICE_ID : Z := 0x02.
Definition PCI_COMMAND : Z := 0x04.
Definition BAR0 : Z := 0x10.
Definition COMMAND_BUS_MASTER : Z := 0x0004.

(** [device_s]. *)
Record device_s := Device {
  d_bus : Z; d_slot : Z; d_func : Z; vendor_id : Z; device_id : Z; class_code : Z; subclass : Z; bar : list Z
}.

(** ** Configuration space *)

Definition make_address (bus slot func offset : Z) : Z :=
  Z.lor (Z.lor (Z.lor (Z.lor 0x80000000 (u32 (Z.shiftl bus 16))) (u32 (Z.shiftl slot 11))) (u32 (Z.shiftl func 8)))
        (Z.land offset 0xFC).

Section ports.
Context {B : Type} `{!pci_ports B}.

Definition config_read32 (bus slot func offset : Z) (b : B) : Z * B :=
  inl CONFIG_DATA (outl CONFIG_ADDRESS (make_address bus slot func offset) b).

Definition config_read16 (bus slot func offset : Z) (b : B) : Z * B :=
  let '(value, b) := config_read32 bus slot func offset b in
  let shift := u8 (Z.land offset 2 * 8) in
  (u16 (Z.land (Z.shiftr value shift) 0xFFFF), b).

Definition config_write32 (bus slot func offset value : Z) (b : B) : B :=
  outl CONFIG_DATA value (outl CONFIG_ADDRESS (make_address bus slot func offset) b).

Definition config_write16 (bus slot func offset value : Z) (b : B) : B :=
  let address := make_address bus slot func offset in
  let shift := u8 (Z.land offset 2 * 8) in
  let '(current, b) := inl CONFIG_DATA (outl CONFIG_ADDRESS address b) in
  let current := Z.land current (u32 (Z.lnot (u32 (Z.shiftl 0xFFFF shift)))) in
  let current := Z.lor current (u32 (Z.shiftl value shift)) in
  outl CONFIG_DATA current (outl CONFIG_ADDRESS address b).

Definition enable_bus_mastering (bus slot func : Z) (b : B) : B :=
  let '(command, b) := config_read16 bus slot func PCI_COMMAND b in
  config_write16 bus slot func PCI_COMMAND (u16 (Z.lor command COMMAND_BUS_MASTER)) b.

(** ** Scanning *)

(** [for (bus < 256) for (slot < 32) for (func < 8)]. *)
Definition each_function {S R} (body : Z -> Z -> Z -> S -> res (ctl S R)) (s : S) : res (ctl S R) :=
  for_loop 256 0 (fun bus => for_loop 32 0 (fun slot => for_loop 8 0 (fun func => body bus slot func))) s.

(** [for (i = 0; i < 6; i++) bar[i] = config_read32(bus, slot, func, off(i));] *)
Definition read_bars (off : Z -> Z) (bus slot func : Z) (l : list Z) (b : B) : res (list Z * B) :=
  for_each 6 0 (fun i '(l, b) =>
    let '(v, b) := config_read32 bus slot func (u8 (off i)) b in l ← wr l i v; mret (l, b)) (l, b).

(** [device] is null or points to a structure. *)
Definition find_device (vendor_id device_id : Z) (device : option device_s) (b : B) : res (Z * option device_s * B) :=
  c ← each_function (fun bus slot func b =>
        let '(vendor, b) := config_read16 bus slot func VENDOR_ID b in
        if vendor =? 0xFFFF then mret (Next b)
        else
          let '(found_device, b) := config_read16 bus slot func DEVICE_ID b in
          if negb (vendor =? vendor_id) || negb (found_device =? device_id) then mret (Next b)
          else
            match device with
            | None => mret (Done (None, b))
            | Some d =>
                let '(dev, b) := config_read16 bus slot func DEVICE_ID b in
                let '(class_reg, b) := config_read32 bus slot func 0x08 b in
                '(bars, b) ← read_bars (fun i => BAR0 + i * 4) bus slot func (bar d) b;
                mret (Done (Some (Device (u8 bus) slot func vendor dev (Z.land (Z.shiftr class_reg 24) 0xFF)
                                         (Z.land (Z.shiftr class_reg 16) 0xFF) bars), b))
            end) b;
  mret (match c with Done (d, b) => (0, d, b) | Next b => (-1, device, b) end).

Definition print_hex8 (value : Z) (t : term) : res term :=
  h ← rd hex_digits (Z.land (Z.shiftr value 4) 0xF);
  l ← rd hex_digits (Z.land value 0xF);
  term_puts [h; l] t.

Definition print_hex16 (value : Z) (t : term) : res term :=
  t ← print_hex8 (u8 (Z.shiftr value 8)) t; print_hex8 (u8 value) t.

(** The body of the loop. *)
Definition scan_line (bus slot func : Z) (s : term * B) : res (ctl (term * B) (term * B)) :=
  let '(t, b) := s in
  let '(vendor, b) := config_read16 bus slot func VENDOR_ID b in
  if vendor =? 0xFFFF then mret (Next (t, b))
  else
    let '(device, b) := config_read16 bus slot func DEVICE_ID b in
    t ← term_puts (lit "PCI ") t;
    t ← print_hex8 (u8 bus) t;
    t ← term_puts (lit ":") t;
    t ← print_hex8 slot t;
    t ← term_puts (lit ".") t;
    t ← print_hex8 func t;
    t ← term_puts (lit " Vendor=") t;
    t ← print_hex16 vendor t;
    t ← term_puts (lit " Device=") t;
    t ← print_hex16 device t;
    t ← term_puts [10] t;
    mret (Next (t, b)).

Definition pci_scan (t : term) (b : B) : res (term * B) :=
  c ← each_function scan_line (t, b);
  let '(t, b) := match c with Next s => s | Done s => s end in
  t ← term_puts (lit "PCI scan complete." ++ [10]) t;
  mret (t, b).
End ports.

(** ** Specification *)

(** Configuration mechanism 1: [b_cfg b a] is the register at address [a]; a
    write of [v] to it leaves [b_put a v old], whatever the device does. *)
Class pci_bus (B : Type) `{!pci_ports B} := PciBus {
  b_ok : B -> Prop;
  b_addr : B -> Z;
  b_cfg : B -> Z -> Z;
  b_put : Z -> Z -> Z -> Z;
  bus_word b a : b_ok b -> 0 <= b_cfg b a < 2 ^ 32;
  bus_addr b a : b_ok b -> 0 <= a < 2 ^ 32 ->
    b_ok (outl CONFIG_ADDRESS a b) /\ b_addr (outl CONFIG_ADDRESS a b) = a /\
    forall x, b_cfg (outl CONFIG_ADDRESS a b) x = b_cfg b x;
  bus_read b : b_ok b -> fst (inl CONFIG_DATA b) = b_cfg b (b_addr b) /\ b_ok (snd (inl CONFIG_DATA b)) /\
    forall x, b_cfg (snd (inl CONFIG_DATA b)) x = b_cfg b x;
  bus_write b v : b_ok b -> 0 <= v < 2 ^ 32 ->
    b_ok (outl CONFIG_DATA v b) /\
    forall x, b_cfg (outl CONFIG_DATA v b) x = if decide (x = b_addr b) then b_put x v (b_cfg b x) else b_cfg b x
}.

(** The functions in the order of the scan. *)
Definition functions : list (Z * Z * Z) :=
  bus ← seqZ 0 256; slot ← seqZ 0 32; func ← seqZ 0 8; [(bus, slot, func)].

Section spec.
Context {B : Type} `{!pci_ports B, !pci_bus B}.

(** Register [offset] of a function. *)
Definition reg_of (b : B) (f : Z * Z * Z) (offset : Z) : Z :=
  let '(bus, slot, func) := f in b_cfg b (make_address bus slot func offset).

Definition vendor_of (b : B) (f : Z * Z * Z) : Z := reg_of b f 0 mod 2 ^ 16.
Definition device_of (b : B) (f : Z * Z * Z) : Z := reg_of b f 0 / 2 ^ 16.
Definition class_of (b : B) (f : Z * Z * Z) : Z := reg_of b f 8 / 2 ^ 24.
Definition subclass_of (b : B) (f : Z * Z * Z) : Z := reg_of b f 8 / 2 ^ 16 mod 2 ^ 8.

(** The same bus with the same registers. *)
Definition same_cfg (b b' : B) : Prop := b_ok b' /\ forall x, b_cfg b' x = b_cfg b x.

(** The structure that describes [f]. *)
Definition describe (b : B) (f : Z * Z * Z) : device_s :=
  let '(bus, slot, func) := f in
  Device bus slot func (vendor_of b f) (device_of b f) (class_of b f) (subclass_of b f)
         (map (fun i => reg_of b f (16 + 4 * i)) (seqZ 0 6)).

(** The line of a function that is present. *)
Definition pci_line (b : B) (f : Z * Z * Z) : str :=
  let '(bus, slot, func) := f in
  if vendor_of b f =? 0xFFFF then []
  else lit "PCI " ++ hexn 2 bus ++ lit ":" ++ hexn 2 slot ++ lit "." ++ hexn 2 func ++ lit " Vendor=" ++
       hexn 4 (vendor_of b f) ++ lit " Device=" ++ hexn 4 (device_of b f) ++ [10].
End spec.

(** The first element of a list that satisfies [P]. *)
Definition first_of {A} (P : A -> Prop) (l : list A) (x : A) : Prop :=
  exists pre post, l = pre ++ x :: post /\ P x /\ Forall (fun y => ~ P y) pre.

(** ** Lemmas: addresses *)

Lemma lor_add a x k : 0 <= k -> 0 <= x < 2 ^ k -> 0 <= a -> a mod 2 ^ k = 0 -> Z.lor a x = a + x.
Proof.
  intros Hk Hx Ha Hm. pose proof (Z.div_mod a (2 ^ k) ltac:(lia)) as Hd.
  rewrite Z.lor_comm. replace a with (Z.shiftl (a / 2 ^ k) k) at 1 by (rewrite Z.shiftl_mul_pow2 by done; lia).
  rewrite lor_shift; [lia|done|done|]. apply Z.div_pos; lia.
Qed.

Lemma land_fc off : 0 <= off < 256 -> Z.land off 0xFC = off - off mod 4.
Proof.
  intros H. assert (forallb (fun o => Z.land o 0xFC =? o - o mod 4) (seqZ 0 256) = true) as Hall by reflexivity.
  rewrite forallb_forall in Hall. apply Z.eqb_eq, Hall, list_elem_of_In, elem_of_seqZ. lia.
Qed.

Definition in_bus (f : Z * Z * Z) : Prop := let '(bus, slot, func) := f in 0 <= bus < 256 /\ 0 <= slot < 32 /\ 0 <= func < 8.

Lemma make_address_eq bus slot func off : in_bus (bus, slot, func) -> 0 <= off < 256 ->
  make_address bus slot func off = 0x80000000 + bus * 65536 + slot * 2048 + func * 256 + (off - off mod 4).
Proof.
  intros (Hb & Hs & Hf) Ho. unfold make_address. rewrite land_fc by done. rewrite !Z.shiftl_mul_pow2 by lia.
  change (2 ^ 16) with 65536. change (2 ^ 11) with 2048. change (2 ^ 8) with 256. rewrite !u32_small by lia.
  rewrite (lor_add 0x80000000 _ 24) by (change (2 ^ 24) with 16777216; lia || done).
  rewrite (lor_add _ (slot * 2048) 16) by (change (2 ^ 16) with 65536; lia || zdm).
  rewrite (lor_add _ (func * 256) 11) by (change (2 ^ 11) with 2048; lia || zdm).
  rewrite (lor_add _ _ 8) by (change (2 ^ 8) with 256; zdm). done.
Qed.

(** Two addresses are equal only for the same register of the same function. *)
Lemma make_address_inj b1 s1 f1 o1 b2 s2 f2 o2 : in_bus (b1, s1, f1) -> in_bus (b2, s2, f2) -> 0 <= o1 < 256 -> 0 <= o2 < 256 ->
  make_address b1 s1 f1 o1 = make_address b2 s2 f2 o2 -> (b1, s1, f1) = (b2, s2, f2) /\ o1 / 4 = o2 / 4.
Proof.
  intros H1 H2 Ho1 Ho2. rewrite !make_address_eq by done. destruct H1 as (? & ? & ?), H2 as (? & ? & ?). intros E.
  assert (b1 = b2) as <- by zdm. assert (s1 = s2) as <- by zdm. assert (f1 = f2) as <- by zdm. split; [done|zdm].
Qed.

Lemma elem_functions f : f ∈ functions <-> in_bus f.
Proof.
  destruct f as [[bus slot] func]. unfold functions, in_bus. rewrite list_elem_of_bind. setoid_rewrite list_elem_of_bind.
  setoid_rewrite list_elem_of_bind. setoid_rewrite elem_of_seqZ. setoid_rewrite list_elem_of_singleton. split.
  - intros (b & (s & (g & [= -> -> ->] & ?) & ?) & ?). lia.
  - intros (? & ? & ?). exists bus. split; [|lia]. exists slot. split; [|lia]. exists func. split; [done|lia].
Qed.

(** ** Lemmas: scans over lists *)

Fixpoint scan {A S R} (l : list A) (body : A -> S -> res (ctl S R)) (s : S) : res (ctl S R) :=
  match l with
  | [] => Ok (Next s)
  | x :: l' => c ← body x s; match c with Next s => scan l' body s | Done r => Ok (Done r) end
  end.

Lemma for_loop_scan {S R} n i (body : Z -> S -> res (ctl S R)) s : for_loop n i body s = scan (seqZ i (Z.of_nat n)) body s.
Proof.
  revert i s. induction n as [|n IH]; intros i s; [done|]. rewrite (seqZ_cons i) by lia. cbn [for_loop scan].
  destruct (body i s) as [[s'|r]| |]; cbn [mbind res_bind]; [|done..]. rewrite IH. f_equal. f_equal; lia.
Qed.

Lemma scan_app {A S R} (l k : list A) (body : A -> S -> res (ctl S R)) s :
  scan (l ++ k) body s = (c ← scan l body s; match c with Next s => scan k body s | Done r => Ok (Done r) end).
Proof.
  revert s. induction l as [|x l IH]; intros s; [done|]. cbn [app scan].
  destruct (body x s) as [[s'|r]| |]; cbn [mbind res_bind]; [apply IH|done..].
Qed.

Lemma scan_bind {A C S R} (l : list A) (g : A -> list C) (body : C -> S -> res (ctl S R)) s :
  scan (x ← l; g x) body s = scan l (fun x => scan (g x) body) s.
Proof.
  revert s. induction l as [|x l IH]; intros s; [done|]. change (x ← x :: l; g x) with (g x ++ (x ← l; g x)). cbn [scan].
  rewrite scan_app. destruct (scan (g x) body s) as [[s'|r]| |]; cbn [mbind res_bind]; [apply IH|done..].
Qed.

Lemma scan_ext {A S R} (l : list A) (f g : A -> S -> res (ctl S R)) s : (forall x s, f x s = g x s) -> scan l f s = scan l g s.
Proof.
  intros H. revert s. induction l as [|x l IH]; intros s; [done|]. cbn [scan]. rewrite H.
  destruct (g x s) as [[s'|r]| |]; cbn [mbind res_bind]; [apply IH|done..].
Qed.

Lemma each_function_scan {S R} (body : Z -> Z -> Z -> S -> res (ctl S R)) s :
  each_function body s = scan functions (fun '(bus, slot, func) => body bus slot func) s.
Proof.
  unfold each_function, functions. rewrite scan_bind, for_loop_scan. apply scan_ext. intros bus s'.
  rewrite scan_bind, for_loop_scan. apply scan_ext. intros slot s''.
  rewrite scan_bind, for_loop_scan. apply scan_ext. intros func s'''. cbn [scan].
  destruct (body bus slot func s''') as [[?|?]| |]; done.
Qed.

(** A scan ends at the first element that satisfies [P], or passes them all. *)
Lemma scan_first {A S R} (P : A -> Prop) `{!forall x, Decision (P x)} (I : S -> Prop) (Q : A -> R -> Prop)
  (l : list A) (body : A -> S -> res (ctl S R)) :
  (forall x s, x ∈ l -> I s -> ~ P x -> exists s', body x s = Ok (Next s') /\ I s') ->
  (forall x s, x ∈ l -> I s -> P x -> exists r, body x s = Ok (Done r) /\ Q x r) ->
  forall s, I s ->
  (exists x r, first_of P l x /\ scan l body s = Ok (Done r) /\ Q x r) \/
  (Forall (fun x => ~ P x) l /\ exists s', scan l body s = Ok (Next s') /\ I s').
Proof.
  induction l as [|x l IH]; intros Hn Hd s Hs; [right; split; [constructor|by exists s]|]. cbn [scan].
  destruct (decide (P x)) as [Hx|Hx].
  - destruct (Hd x s ltac:(left) Hs Hx) as (r & E & Hr). left. exists x, r. rewrite E. split; [by exists [], l|done].
  - destruct (Hn x s ltac:(left) Hs Hx) as (s' & -> & Hs'). cbn [mbind res_bind].
    destruct (IH (fun y t Hy => Hn y t (list_elem_of_further _ _ _ Hy)) (fun y t Hy => Hd y t (list_elem_of_further _ _ _ Hy)) s' Hs') as [(y & r & Hf & Hr)|(Hall & Hr)].
    + left. exists y, r. split; [|done]. destruct Hf as (pre & post & -> & Hy & Hpre). exists (x :: pre), post. split; [done|]. split; [done|]. by constructor.
    + right. split; [by constructor|done].
Qed.

(** ** Lemmas: accesses *)

Section bus.
Context {B : Type} `{!pci_ports B, !pci_bus B}.
Implicit Types b : B.

Lemma same_cfg_refl b : b_ok b -> same_cfg b b.
Proof. by split. Qed.

Lemma same_cfg_trans b1 b2 b3 : same_cfg b1 b2 -> same_cfg b2 b3 -> same_cfg b1 b3.
Proof. intros [_ E1] [H E2]. split; [done|]. intros x. by rewrite E2, E1. Qed.

Lemma reg_of_same b b' f o : same_cfg b b' -> reg_of b' f o = reg_of b f o.
Proof. intros [_ E]. destruct f as [[bus slot] func]. apply E. Qed.

Lemma vendor_same b b' f : same_cfg b b' -> vendor_of b' f = vendor_of b f.
Proof. intros H. unfold vendor_of. by rewrite (reg_of_same _ _ _ _ H). Qed.

Lemma reg_range b f o : b_ok b -> 0 <= reg_of b f o < 2 ^ 32.
Proof. intros H. destruct f as [[bus slot] func]. by apply bus_word. Qed.

Lemma address_range bus slot func off : in_bus (bus, slot, func) -> 0 <= off < 256 -> 0 <= make_address bus slot func off < 2 ^ 32.
Proof. intros H Ho. rewrite make_address_eq by done. destruct H as (? & ? & ?). change (2 ^ 32) with 4294967296. zdm. Qed.

Lemma config_read32_ok b0 b bus slot func off : same_cfg b0 b -> in_bus (bus, slot, func) -> 0 <= off < 256 ->
  exists b', config_read32 bus slot func off b = (reg_of b0 (bus, slot, func) off, b') /\ same_cfg b0 b'.
Proof.
  intros [Hb He] Hf Ho. unfold config_read32.
  destruct (bus_addr b _ Hb (address_range _ _ _ _ Hf Ho)) as (H1 & E1 & C1).
  destruct (bus_read _ H1) as (E2 & H2 & C2). destruct (inl CONFIG_DATA _) as [v b']. cbn [fst snd] in *. exists b'.
  split; [|split; [done|intros x; by rewrite C2, C1]]. f_equal. rewrite E2, E1, C1. apply He.
Qed.

Lemma config_read16_ok b0 b bus slot func off : same_cfg b0 b -> in_bus (bus, slot, func) -> 0 <= off < 256 ->
  exists b', config_read16 bus slot func off b =
    (reg_of b0 (bus, slot, func) off / 2 ^ (8 * Z.land off 2) mod 2 ^ 16, b') /\ same_cfg b0 b'.
Proof.
  intros Hb Hf Ho. unfold config_read16. destruct (config_read32_ok b0 b bus slot func off Hb Hf Ho) as (b' & -> & Hb').
  exists b'. split; [|done]. f_equal. change 0xFFFF with (Z.ones 16). rewrite Z.land_ones by lia.
  assert (0 <= Z.land off 2 < 4) as Hl.
  { split; [apply Z.land_nonneg; lia|]. change 4 with (2 ^ 2). apply bits_bound; [lia|apply Z.land_nonneg; lia|].
    intros j Hj. rewrite Z.land_spec. change 2 with (2 ^ 1). rewrite (Z.pow2_bits_false 1 j) by lia. apply andb_false_r. }
  rewrite u8_small by lia. rewrite Z.shiftr_div_pow2 by lia. rewrite u16_small, (Z.mul_comm _ 8) by (apply Z.mod_pos_bound; lia). done.
Qed.

(** The register holds the vendor below the device. *)
Lemma read_vendor b0 b bus slot func : same_cfg b0 b -> in_bus (bus, slot, func) ->
  exists b', config_read16 bus slot func VENDOR_ID b = (vendor_of b0 (bus, slot, func), b') /\ same_cfg b0 b'.
Proof.
  intros Hb Hf. destruct (config_read16_ok b0 b bus slot func VENDOR_ID Hb Hf ltac:(done)) as (b' & -> & Hb'). exists b'.
  split; [|done]. f_equal. unfold vendor_of. change (Z.land VENDOR_ID 2) with 0. by rewrite Z.div_1_r.
Qed.

Lemma reg_device bus slot func b : in_bus (bus, slot, func) -> reg_of b (bus, slot, func) 2 = reg_of b (bus, slot, func) 0.
Proof. intros H. cbn. by rewrite !make_address_eq by done. Qed.

Lemma read_device b0 b bus slot func : b_ok b0 -> same_cfg b0 b -> in_bus (bus, slot, func) ->
  exists b', config_read16 bus slot func DEVICE_ID b = (device_of b0 (bus, slot, func), b') /\ same_cfg b0 b'.
Proof.
  intros H0 Hb Hf. destruct (config_read16_ok b0 b bus slot func DEVICE_ID Hb Hf ltac:(done)) as (b' & -> & Hb'). exists b'.
  split; [|done]. f_equal. unfold device_of, DEVICE_ID. change (8 * Z.land 2 2) with 16. rewrite reg_device by done.
  apply Z.mod_small. pose proof (reg_range b0 (bus, slot, func) 0 H0) as Hr. change (2 ^ 32) with (65536 * 65536) in Hr.
  change (2 ^ 16) with 65536. zdm.
Qed.

Lemma vendor_range b f : 0 <= vendor_of b f < 2 ^ 16.
Proof. apply Z.mod_pos_bound. lia. Qed.

Lemma class_bytes b f : b_ok b ->
  Z.land (Z.shiftr (reg_of b f 8) 24) 0xFF = class_of b f /\ Z.land (Z.shiftr (reg_of b f 8) 16) 0xFF = subclass_of b f.
Proof.
  intros Hb. rewrite !byte_at by lia. split; [|done]. unfold class_of. apply Z.mod_small.
  pose proof (reg_range b f 8 Hb) as Hr. change (2 ^ 32) with (256 * 16777216) in Hr. change (2 ^ 24) with 16777216. zdm.
Qed.

Lemma read_bars_ok off b0 b bus slot func l : same_cfg b0 b -> in_bus (bus, slot, func) -> length l = 6%nat ->
  (forall i, 0 <= i < 6 -> 0 <= off i < 256) ->
  exists b', read_bars off bus slot func l b = Ok (map (fun i => reg_of b0 (bus, slot, func) (off i)) (seqZ 0 6), b') /\ same_cfg b0 b'.
Proof.
  intros Hb Hf Hl Ho. unfold read_bars.
  set (g := fun i => reg_of b0 (bus, slot, func) (off i)).
  destruct (for_each_inv (fun i '(l', b') => same_cfg b0 b' /\ l' = map g (seqZ 0 i) ++ drop (Z.to_nat i) l) 6 0
    (fun i '(l, b) => let '(v, b) := config_read32 bus slot func (u8 (off i)) b in l ← wr l i v; mret (l, b)) (l, b)) as ([l' b'] & E & Hb' & El).
  - split; [done|]. by rewrite drop_0.
  - intros i [l' b'] Hi [Hb' ->]. destruct (config_read32_ok b0 b' bus slot func (u8 (off i)) Hb' Hf) as (b2 & -> & Hb2); [apply u8_range|].
    rewrite u8_small by (apply Ho; lia).
    assert (length (map g (seqZ 0 i)) = Z.to_nat i) as Hm by (rewrite length_map, length_seqZ; lia).
    rewrite wr_in by (rewrite length_app, Hm, length_drop; lia). cbn [mbind res_bind mret res_ret].
    eexists (_, b2). split; [reflexivity|]. split; [done|].
    rewrite insert_app_r_alt by lia. rewrite Hm, Nat.sub_diag.
    rewrite (seqZ_app 0 i 1), map_app, <- app_assoc by lia. cbn [seqZ map]. f_equal.
    destruct (drop (Z.to_nat i) l) as [|x d] eqn:Ed; [apply (f_equal length) in Ed; rewrite length_drop in Ed; cbn in Ed; lia|].
    replace (Z.to_nat (i + 1)) with (Z.to_nat i + 1)%nat by lia. rewrite <- (drop_drop l), Ed. cbn. unfold g. by rewrite Z.add_0_l.
  - rewrite E. exists b'. split; [|done]. rewrite El, drop_ge by lia. by rewrite app_nil_r.
Qed.

(** ** Lemmas: the scans *)

(** The function that [find_device] looks for. *)
Definition wanted (b : B) (v d : Z) (f : Z * Z * Z) : Prop := vendor_of b f <> 0xFFFF /\ vendor_of b f = v /\ device_of b f = d.

#[local] Instance wanted_dec b v d f : Decision (wanted b v d f).
Proof. unfold wanted. apply _. Defined.

Lemma describe_eq b bus slot func : b_ok b -> in_bus (bus, slot, func) ->
  describe b (bus, slot, func) =
  Device (u8 bus) slot func (vendor_of b (bus, slot, func)) (device_of b (bus, slot, func))
    (Z.land (Z.shiftr (reg_of b (bus, slot, func) 8) 24) 0xFF) (Z.land (Z.shiftr (reg_of b (bus, slot, func) 8) 16) 0xFF)
    (map (fun i => reg_of b (bus, slot, func) (BAR0 + i * 4)) (seqZ 0 6)).
Proof.
  intros Hb (Hbus & _). destruct (class_bytes b (bus, slot, func) Hb) as [-> ->]. rewrite u8_small by done.
  unfold describe. f_equal.
Qed.

Lemma find_device_ok v d dev b : b_ok b -> length (bar dev) = 6%nat ->
  exists b', same_cfg b b' /\
    ((exists f, first_of (wanted b v d) functions f /\ find_device v d (Some dev) b = Ok (0, Some (describe b f), b')) \/
     (Forall (fun f => ~ wanted b v d f) functions /\ find_device v d (Some dev) b = Ok (-1, Some dev, b'))).
Proof.
  intros Hb Hl. unfold find_device. rewrite each_function_scan.
  match goal with |- context [scan functions ?body b] =>
    destruct (scan_first (wanted b v d) (same_cfg b) (fun f (r : option device_s * B) => fst r = Some (describe b f) /\ same_cfg b (snd r)) functions body)
      with (s := b) as [(f & [r b'] & Hf & E & Hr & Hb')|(Hall & b' & E & Hb')]; [| |by apply same_cfg_refl|..] end.
  - intros [[bus slot] func] b1 Hin Hb1 Hno. apply elem_functions in Hin.
    destruct (read_vendor b b1 bus slot func Hb1 Hin) as (b2 & -> & Hb2).
    destruct (Z.eqb_spec (vendor_of b (bus, slot, func)) 0xFFFF) as [Ev|Ev]; [by exists b2|].
    destruct (read_device b b2 bus slot func Hb Hb2 Hin) as (b3 & -> & Hb3). exists b3. split; [|done].
    destruct (Z.eqb_spec (vendor_of b (bus, slot, func)) v), (Z.eqb_spec (device_of b (bus, slot, func)) d); try done.
    by destruct Hno.
  - intros [[bus slot] func] b1 Hin Hb1 (Ev & E1 & E2). apply elem_functions in Hin.
    destruct (read_vendor b b1 bus slot func Hb1 Hin) as (b2 & -> & Hb2). rewrite (proj2 (Z.eqb_neq _ _) Ev).
    destruct (read_device b b2 bus slot func Hb Hb2 Hin) as (b3 & -> & Hb3). rewrite (proj2 (Z.eqb_eq _ _) E1), (proj2 (Z.eqb_eq _ _) E2).
    cbn [negb orb]. destruct (read_device b b3 bus slot func Hb Hb3 Hin) as (b4 & -> & Hb4).
    destruct (config_read32_ok b b4 bus slot func 8 Hb4 Hin ltac:(lia)) as (b5 & -> & Hb5).
    destruct (read_bars_ok (fun i => BAR0 + i * 4) b b5 bus slot func (bar dev) Hb5 Hin Hl) as (b6 & -> & Hb6); [unfold BAR0; lia|].
    cbn [mbind res_bind mret res_ret]. eexists. split; [reflexivity|]. cbn [fst snd]. split; [|done]. by rewrite describe_eq.
  - exists b'. split; [done|]. left. exists f. split; [done|]. rewrite E. cbn in Hr. by rewrite Hr.
  - exists b'. split; [done|]. right. split; [done|]. by rewrite E.
Qed.
End bus.

(** ** Lemmas: printing *)

Lemma term_puts_app s1 s2 t : term_puts (s1 ++ s2) t = (t ← term_puts s1 t; term_puts s2 t).
Proof.
  revert t. induction s1 as [|c s1 IH]; intros t; [done|]. cbn [app term_puts].
  destruct (term_putc c t); cbn [mbind res_bind]; [apply IH|done..].
Qed.

Lemma print_hex8_eq v t : 0 <= v < 256 -> print_hex8 v t = term_puts (hexn 2 v) t.
Proof.
  intros H. unfold print_hex8. rewrite !hex_nibble. cbn [mbind res_bind]. rewrite Z.shiftr_div_pow2 by lia. done.
Qed.

Lemma hexn_app v : 0 <= v -> hexn 2 (v / 256) ++ hexn 2 v = hexn 4 v.
Proof.
  intros H. cbn [hexn app]. change 256 with (16 * 16). rewrite <- !(Z.div_div v 16 16) by lia. done.
Qed.

Lemma print_hex16_eq v t : 0 <= v < 2 ^ 16 -> print_hex16 v t = term_puts (hexn 4 v) t.
Proof.
  intros H. change (2 ^ 16) with 65536 in H. unfold print_hex16. rewrite Z.shiftr_div_pow2 by lia. change (2 ^ 8) with 256.
  rewrite print_hex8_eq by apply u8_range. rewrite <- hexn_app by lia. rewrite term_puts_app.
  rewrite (u8_small (v / 256)) by zdm. destruct (term_puts (hexn 2 (v / 256)) t) as [t'| |]; cbn [mbind res_bind]; [|done..].
  rewrite print_hex8_eq by apply u8_range. f_equal. cbn [hexn app]. unfold u8.
  assert (v mod 256 / 16 mod 16 = v / 16 mod 16) as -> by zdm. assert (v mod 256 mod 16 = v mod 16) as -> by zdm. done.
Qed.

Section scan_bus.
Context {B : Type} `{!pci_ports B, !pci_bus B}.

Lemma device_range (b : B) f : b_ok b -> 0 <= device_of b f < 2 ^ 16.
Proof.
  intros Hb. unfold device_of. pose proof (reg_range b f 0 Hb) as H. change (2 ^ 32) with (65536 * 65536) in H. change (2 ^ 16) with 65536. zdm.
Qed.

(** What the scan prints. *)
Definition listing (b : B) : str := flat_map (pci_line b) functions ++ lit "PCI scan complete." ++ [10].

(** The calls that print one line. *)
Lemma print_line (t t' : term) bus slot func vendor device : 0 <= bus < 256 -> 0 <= slot < 256 -> 0 <= func < 256 ->
  0 <= vendor < 2 ^ 16 -> 0 <= device < 2 ^ 16 ->
  term_puts (lit "PCI " ++ hexn 2 bus ++ lit ":" ++ hexn 2 slot ++ lit "." ++ hexn 2 func ++ lit " Vendor=" ++
             hexn 4 vendor ++ lit " Device=" ++ hexn 4 device ++ [10]) t = Ok t' ->
  forall A (k : term -> res A),
  (t ← term_puts (lit "PCI ") t; t ← print_hex8 (u8 bus) t; t ← term_puts (lit ":") t; t ← print_hex8 slot t;
   t ← term_puts (lit ".") t; t ← print_hex8 func t; t ← term_puts (lit " Vendor=") t; t ← print_hex16 vendor t;
   t ← term_puts (lit " Device=") t; t ← print_hex16 device t; t ← term_puts [10] t; k t) = k t'.
Proof.
  intros Hb Hs Hf Hv Hd E A k. rewrite u8_small by done.
  assert (forall s1 s2 (t : term), term_puts (s1 ++ s2) t = Ok t' -> exists t1, term_puts s1 t = Ok t1 /\ term_puts s2 t1 = Ok t') as Hcut.
  { intros s1 s2 u. rewrite term_puts_app. destruct (term_puts s1 u) as [u'| |]; cbn [mbind res_bind]; [by exists u'|done..]. }
  repeat (let u := fresh "u" in let E1 := fresh "E" in apply Hcut in E as (u & E1 & E); first
    [rewrite E1|rewrite print_hex8_eq by done; rewrite E1|rewrite print_hex16_eq by done; rewrite E1]; cbn [mbind res_bind]).
  by rewrite E.
Qed.

Lemma scan_line_ok t (b0 b : B) bus slot func : term_wf t -> crt_ok t -> b_ok b0 -> same_cfg b0 b -> in_bus (bus, slot, func) ->
  exists t' b', scan_line bus slot func (t, b) = Ok (Next (t', b')) /\ term_puts (pci_line b0 (bus, slot, func)) t = Ok t' /\
    same_cfg b0 b' /\ term_wf t' /\ crt_ok t'.
Proof.
  intros Ht Hc H0 Hb Hin. unfold scan_line. destruct (read_vendor b0 b bus slot func Hb Hin) as (b2 & -> & Hb2). unfold pci_line.
  destruct (Z.eqb_spec (vendor_of b0 (bus, slot, func)) 0xFFFF) as [Ev|Ev]; [by exists t, b2|].
  destruct (read_device b0 b2 bus slot func H0 Hb2 Hin) as (b3 & -> & Hb3). destruct Hin as (H1 & H2 & H3).
  match goal with |- context [term_puts ?s t = _] => destruct (term_puts_ok s t Ht Hc) as (t1 & E & Ht1 & Hc1) end.
  rewrite (print_line t t1 bus slot func _ _ H1 ltac:(lia) ltac:(lia) (vendor_range _ _) (device_range _ _ H0) E). by exists t1, b3.
Qed.

Lemma scan_lines_ok (b0 : B) l : b_ok b0 -> Forall in_bus l -> forall t b, term_wf t -> crt_ok t -> same_cfg b0 b ->
  exists t' b', scan l (fun '(bus, slot, func) => scan_line bus slot func) (t, b) = Ok (Next (t', b')) /\
    term_puts (flat_map (pci_line b0) l) t = Ok t' /\ same_cfg b0 b' /\ term_wf t' /\ crt_ok t'.
Proof.
  intros H0 Hl. induction Hl as [|[[bus slot] func] l Hf _ IH]; intros t b Ht Hc Hb; cbn [scan flat_map]; [by exists t, b|].
  destruct (scan_line_ok t b0 b bus slot func Ht Hc H0 Hb Hf) as (t1 & b1 & -> & E & Hb1 & Ht1 & Hc1). cbn [mbind res_bind].
  rewrite term_puts_app, E. by apply IH.
Qed.

Lemma pci_scan_ok t (b : B) : term_wf t -> crt_ok t -> b_ok b ->
  exists t' b', pci_scan t b = Ok (t', b') /\ term_puts (listing b) t = Ok t' /\ same_cfg b b' /\ term_wf t' /\ crt_ok t'.
Proof.
  intros Ht Hc Hb. unfold pci_scan. rewrite each_function_scan.
  assert (Forall in_bus functions) as Hall by (apply Forall_forall; intros f Hf; by apply elem_functions).
  destruct (scan_lines_ok b functions Hb Hall t b Ht Hc (same_cfg_refl b Hb)) as (t1 & b' & -> & E1 & Hb' & Ht1 & Hc1).
  cbn [mbind res_bind mret res_ret]. destruct (term_puts_ok (lit "PCI scan complete." ++ [10]) t1 Ht1 Hc1) as (t2 & E2 & Ht2 & Hc2).
  rewrite E2. exists t2, b'. split; [done|]. split; [|done]. unfold listing. rewrite term_puts_app, E1. exact E2.
Qed.
End scan_bus.

(** ** Lemmas: the command register *)

Section command.
Context {B : Type} `{!pci_ports B, !pci_bus B}.

Lemma write_low cur v : 0 <= cur < 2 ^ 32 -> 0 <= v < 2 ^ 16 ->
  Z.lor (Z.land cur (u32 (Z.lnot (u32 (Z.shiftl 0xFFFF 0))))) (u32 (Z.shiftl v 0)) = cur - cur mod 2 ^ 16 + v.
Proof.
  intros Hc Hv. change (u32 (Z.lnot (u32 (Z.shiftl 0xFFFF 0)))) with (Z.shiftl (Z.ones 16) 16). rewrite Z.shiftl_0_r.
  change (2 ^ 32) with (65536 * 65536) in Hc. change (2 ^ 16) with 65536 in *. rewrite (u32_small v) by lia.
  assert (Z.land cur (Z.shiftl (Z.ones 16) 16) = cur / 65536 * 65536) as ->.
  { replace (cur / 65536 * 65536) with (Z.shiftl (Z.shiftr cur 16) 16) by (rewrite Z.shiftl_mul_pow2, Z.shiftr_div_pow2 by lia; done).
    apply Z.bits_inj'. intros j Hj. rewrite Z.land_spec, !Z.shiftl_spec by done. destruct (decide (j < 16)) as [Hl|Hl].
    - rewrite !(Z.testbit_neg_r _ (j - 16)) by lia. apply andb_false_r.
    - rewrite Z.shiftr_spec, Z.sub_add by lia. destruct (decide (j < 32)).
      + rewrite Z.ones_spec_low by lia. apply andb_true_r.
      + assert (Z.testbit cur j = false) as ->; [|done]. apply Z.testbit_false; [done|]. rewrite Z.div_small; [done|]. split; [lia|].
        assert (2 ^ 32 <= 2 ^ j) by (apply Z.pow_le_mono_r; lia). change (2 ^ 32) with (65536 * 65536) in *. lia. }
  rewrite (lor_add _ v 16); [zdm|lia|done| |change (2 ^ 16) with 65536]; zdm.
Qed.

Lemma enable_bus_mastering_ok (b : B) bus slot func : b_ok b -> in_bus (bus, slot, func) ->
  let f := (bus, slot, func) in
  let b' := enable_bus_mastering bus slot func b in
  let old := reg_of b f PCI_COMMAND in
  b_ok b' /\ forall x, b_cfg b' x =
    if decide (x = make_address bus slot func PCI_COMMAND) then b_put x (old - old mod 2 ^ 16 + Z.lor (old mod 2 ^ 16) 4) old else b_cfg b x.
Proof.
  intros Hb Hf f b' old. unfold b', enable_bus_mastering.
  destruct (config_read16_ok b b bus slot func PCI_COMMAND (same_cfg_refl b Hb) Hf ltac:(done)) as (b1 & -> & Hb1).
  change (Z.land PCI_COMMAND 2) with 0. rewrite Z.div_1_r. fold f. fold old. unfold config_write16. change (u8 (Z.land PCI_COMMAND 2 * 8)) with 0.
  destruct (config_read32_ok b b1 bus slot func PCI_COMMAND Hb1 Hf ltac:(done)) as (b2 & E2 & Hb2). unfold config_read32 in E2. rewrite E2.
  fold f. fold old. pose proof (reg_range b f PCI_COMMAND Hb) as Hr. fold old in Hr.
  assert (0 <= Z.lor (old mod 2 ^ 16) COMMAND_BUS_MASTER < 2 ^ 16) as Hv.
  { pose proof (Z.mod_pos_bound old (2 ^ 16) ltac:(lia)) as Hm. split; [apply Z.lor_nonneg; unfold COMMAND_BUS_MASTER; lia|].
    apply bits_bound; [lia|apply Z.lor_nonneg; unfold COMMAND_BUS_MASTER; lia|]. intros j Hj.
    rewrite Z.lor_spec, Z.mod_pow2_bits_high by lia. change COMMAND_BUS_MASTER with (2 ^ 2). by rewrite Z.pow2_bits_false by lia. }
  rewrite (u16_small _ Hv), write_low by done.
  destruct (bus_addr b2 _ (proj1 Hb2) (address_range bus slot func PCI_COMMAND Hf ltac:(done))) as (H3 & E3 & C3).
  match goal with |- context [outl CONFIG_DATA ?v _] => destruct (bus_write _ v H3) as [H4 C4] end.
  { change (2 ^ 32) with (65536 * 65536) in *. change (2 ^ 16) with 65536 in *. zdm. }
  split; [done|]. intros x. rewrite C4, E3, C3. destruct Hb2 as [_ C2]. rewrite C2. case_decide as Hx; [|done]. subst x. done.
Qed.
End command.

(** ** Properties *)

Section properties.
Context {B : Type} `{!pci_ports B, !pci_bus B}.

(** [find_device] finds the first function, in the order of bus, slot and
    function number, that has the two identifiers, and describes it: its
    place, its class and its six base addresses are the registers of that
    function.  It returns -1 and leaves the structure alone when there is none.
    The bus is left as it was. *)
Theorem find_device_finds v d dev (b : B) : b_ok b -> length (bar dev) = 6%nat ->
  exists b', same_cfg b b' /\
    ((exists f, first_of (wanted b v d) functions f /\ find_device v d (Some dev) b = Ok (0, Some (describe b f), b')) \/
     (Forall (fun f => ~ wanted b v d f) functions /\ find_device v d (Some dev) b = Ok (-1, Some dev, b'))).
Proof. apply find_device_ok. Qed.

(** [pci_scan] prints one line for each function that is present, in order,
    with its place and its identifiers in hexadecimal, and leaves the bus as it
    was; two registers never share an address, so that each line shows the
    function it names. *)
Theorem pci_scan_lists t (b : B) : term_wf t -> crt_ok t -> b_ok b ->
  (exists t' b', pci_scan t b = Ok (t', b') /\ term_puts (listing b) t = Ok t' /\ same_cfg b b' /\ term_wf t' /\ crt_ok t') /\
  (forall f g o p, in_bus f -> in_bus g -> 0 <= o < 256 -> 0 <= p < 256 ->
    (let '(b1, s1, f1) := f in make_address b1 s1 f1 o) = (let '(b2, s2, f2) := g in make_address b2 s2 f2 p) -> f = g /\ o / 4 = p / 4).
Proof.
  intros Ht Hc Hb. split; [by apply pci_scan_ok|]. intros [[b1 s1] f1] [[b2 s2] f2] o p. apply make_address_inj.
Qed.

(** [enable_bus_mastering] changes one register of the bus: the dword of
    the command register is written with the bus-master bit set and its other
    bits as they were read.  The upper half of that dword is the status
    register, so its bits are written back too; on a device whose status bits
    are cleared by writing ones, this clears them. *)
Theorem enable_bus_mastering_sets (b : B) bus slot func : b_ok b -> in_bus (bus, slot, func) ->
  let f := (bus, slot, func) in
  let b' := enable_bus_mastering bus slot func b in
  let old := reg_of b f PCI_COMMAND in
  b_ok b' /\ forall x, b_cfg b' x =
    if decide (x = make_address bus slot func PCI_COMMAND) then b_put x (old - old mod 2 ^ 16 + Z.lor (old mod 2 ^ 16) 4) old else b_cfg b x.
Proof. apply enable_bus_mastering_ok. Qed.
End properties.

(** ** Witnesses: a bus with one network card at 0:3.0 *)

(** The address register and the registers, plain memory. *)
Definition mem_ports : pci_ports (Z * (Z -> Z)) := {|
  outl port v b := if port =? CONFIG_ADDRESS then (v, snd b)
                   else (fst b, fun a => if a =? fst b then v else snd b a);
  inl port b := (snd b (fst b), b) |}.

Lemma mem_bus : @pci_bus (Z * (Z -> Z)) mem_ports.
Proof.
  refine (@PciBus _ mem_ports (fun b => forall a, 0 <= snd b a < 2 ^ 32) fst (fun b a => snd b a) (fun _ v _ => v) _ _ _ _).
  - intros b a H. apply H.
  - intros b a H _. done.
  - intros b H. done.
  - intros b v H Hv. split; cbn.
    + intros a. case_match; [done|apply H].
    + intros x. destruct (Z.eqb_spec x (fst b)); case_decide; done.
Defined.

(** Registers 0, 8 and 16 of the card; nothing answers elsewhere. *)
Definition wit_card (a : Z) : Z :=
  if a =? 0x80001800 then 0x100E8086 else if a =? 0x80001804 then 0x00000003 else if a =? 0x80001808 then 0x02000003
  else if a =? 0x80001810 then 0xFEBC0000 else if (0x80001814 <=? a) && (a <? 0x80001828) then 0 else 0xFFFFFFFF.

Lemma wit_card_ok : @b_ok _ _ mem_bus (0, wit_card).
Proof. intros a. cbn. unfold wit_card. repeat case_match; lia. Qed.

Lemma find_device_finds_witness : exists b', @same_cfg _ mem_ports mem_bus (0, wit_card) b' /\
  ((exists f, first_of (@wanted _ mem_ports mem_bus (0, wit_card) 0x8086 0x100E) functions f /\
     @find_device _ mem_ports 0x8086 0x100E (Some (Device 0 0 0 0 0 0 0 (replicate 6 0))) (0, wit_card) =
       Ok (0, Some (@describe _ mem_ports mem_bus (0, wit_card) f), b')) \/
   (Forall (fun f => ~ @wanted _ mem_ports mem_bus (0, wit_card) 0x8086 0x100E f) functions /\
     @find_device _ mem_ports 0x8086 0x100E (Some (Device 0 0 0 0 0 0 0 (replicate 6 0))) (0, wit_card) =
       Ok (-1, Some (Device 0 0 0 0 0 0 0 (replicate 6 0)), b'))).
Proof.
  exact (@find_device_finds _ mem_ports mem_bus 0x8086 0x100E (Device 0 0 0 0 0 0 0 (replicate 6 0)) (0, wit_card) wit_card_ok eq_refl).
Defined.

Lemma pci_scan_lists_witness :
  exists t' b', @pci_scan _ mem_ports wit_term (0, wit_card) = Ok (t', b') /\
    term_puts (@listing _ mem_ports mem_bus (0, wit_card)) wit_term = Ok t'.
Proof.
  destruct (proj1 (@pci_scan_lists _ mem_ports mem_bus wit_term (0, wit_card) (proj1 wit_term_wf) (proj2 wit_term_wf) wit_card_ok)) as (t' & b' & E & Et & _).
  exists t', b'. split; [exact E|exact Et].
Defined.

Lemma enable_bus_mastering_sets_witness :
  @b_cfg _ _ mem_bus (@enable_bus_mastering _ mem_ports 0 3 0 (0, wit_card)) 0x80001804 = 7.
Proof. exact (proj2 (@enable_bus_mastering_sets _ mem_ports mem_bus (0, wit_card) 0 3 0 wit_card_ok ltac:(cbn; lia)) 0x80001804). Defined.
