(* ===== verification/Nic.v ===== *)
(** * Finding the network card ([drivers/nic/nic.c])

    The scan of [Pci.v] for the class of Ethernet controllers. *)
From S2P Require Import Prelude Str Hex Vga Pci.

Section ports.
Context {B : Type} `{!pci_ports B}.

(** [device] is null or points to a structure; its [subclass] is not set, and
    base address [i] is read at [BAR0 + (i + 4)]. *)
Definition find_nic (device : option device_s) (b : B) : res (Z * option device_s * B) :=
  c ← each_function (fun bus slot func b =>
        let '(vendor, b) := config_read16 bus slot func VENDOR_ID b in
        if vendor =? 0xFFFF then mret (Next b)
        else
          let '(class_reg, b) := config_read32 bus slot func 0x08 b in
          let sub := Z.land (Z.shiftr class_reg 16) 0xFF in
          let class := Z.land (Z.shiftr class_reg 24) 0xFF in
          if negb (class =? 0x02) || negb (sub =? 0x00) then mret (Next b)
          else
            match device with
            | None => mret (Done (None, b))
            | Some d =>
                let '(dev, b) := config_read16 bus slot func DEVICE_ID b in
                '(bars, b) ← read_bars (fun i => BAR0 + (i + 4)) bus slot func (bar d) b;
                mret (Done (Some (Device (u8 bus) slot func vendor dev class (subclass d) bars), b))
            end) b;
  mret (match c with Done (d, b) => (0, d, b) | Next b => (-1, device, b) end).
End ports.

(** ** Specification *)

Section spec.
Context {B : Type} `{!pci_ports B, !pci_bus B}.
Implicit Types b : B.

(** An Ethernet controller. *)
Definition ethernet b (f : Z * Z * Z) : Prop := vendor_of b f <> 0xFFFF /\ class_of b f = 2 /\ subclass_of b f = 0.

#[local] Instance ethernet_dec b f : Decision (ethernet b f).
Proof. unfold ethernet. apply _. Defined.

(** What the scan stores for [f] in [d]. *)
Definition nic_found b (f : Z * Z * Z) (d : device_s) : device_s :=
  let '(bus, slot, func) := f in
  Device bus slot func (vendor_of b f) (device_of b f) 2 (subclass d)
         [reg_of b f 0x14; reg_of b f 0x14; reg_of b f 0x14; reg_of b f 0x14; reg_of b f 0x18; reg_of b f 0x18].

(** ** Lemmas *)

Lemma reg_aligned b bus slot func o : in_bus (bus, slot, func) -> 0 <= o < 256 ->
  reg_of b (bus, slot, func) o = reg_of b (bus, slot, func) (o - o mod 4).
Proof. intros H Ho. cbn. rewrite !make_address_eq by (done || zdm). f_equal. zdm. Qed.

Lemma nic_bars b bus slot func : in_bus (bus, slot, func) ->
  let f := (bus, slot, func) in
  map (fun i => reg_of b f (BAR0 + (i + 4))) (seqZ 0 6) =
  [reg_of b f 0x14; reg_of b f 0x14; reg_of b f 0x14; reg_of b f 0x14; reg_of b f 0x18; reg_of b f 0x18].
Proof.
  intros H f. change (seqZ 0 6) with [0; 1; 2; 3; 4; 5]. unfold BAR0. cbn [map]. unfold f.
  by rewrite (reg_aligned b bus slot func (16 + (1 + 4)) H), (reg_aligned b bus slot func (16 + (2 + 4)) H),
    (reg_aligned b bus slot func (16 + (3 + 4)) H), (reg_aligned b bus slot func (16 + (5 + 4)) H) by lia.
Qed.

Lemma find_nic_ok dev b : b_ok b -> length (bar dev) = 6%nat ->
  exists b', same_cfg b b' /\
    ((exists f, first_of (ethernet b) functions f /\ find_nic (Some dev) b = Ok (0, Some (nic_found b f dev), b')) \/
     (Forall (fun f => ~ ethernet b f) functions /\ find_nic (Some dev) b = Ok (-1, Some dev, b'))).
Proof.
  intros Hb Hl. unfold find_nic. rewrite each_function_scan.
  match goal with |- context [scan functions ?body b] =>
    destruct (scan_first (ethernet b) (same_cfg b) (fun f (r : option device_s * B) => fst r = Some (nic_found b f dev) /\ same_cfg b (snd r)) functions body)
      with (s := b) as [(f & [r b'] & Hf & E & Hr & Hb')|(Hall & b' & E & Hb')]; [| |by apply same_cfg_refl|..] end.
  - intros [[bus slot] func] b1 Hin Hb1 Hno. apply elem_functions in Hin.
    destruct (read_vendor b b1 bus slot func Hb1 Hin) as (b2 & -> & Hb2).
    destruct (Z.eqb_spec (vendor_of b (bus, slot, func)) 0xFFFF) as [Ev|Ev]; [by exists b2|].
    destruct (config_read32_ok b b2 bus slot func 8 Hb2 Hin ltac:(lia)) as (b3 & -> & Hb3). exists b3. split; [|done].
    destruct (class_bytes b (bus, slot, func) Hb) as [-> ->].
    destruct (Z.eqb_spec (class_of b (bus, slot, func)) 2), (Z.eqb_spec (subclass_of b (bus, slot, func)) 0); try done.
    by destruct Hno.
  - intros [[bus slot] func] b1 Hin Hb1 (Ev & E1 & E2). apply elem_functions in Hin.
    destruct (read_vendor b b1 bus slot func Hb1 Hin) as (b2 & -> & Hb2). rewrite (proj2 (Z.eqb_neq _ _) Ev).
    destruct (config_read32_ok b b2 bus slot func 8 Hb2 Hin ltac:(lia)) as (b3 & -> & Hb3).
    destruct (class_bytes b (bus, slot, func) Hb) as [-> ->]. rewrite E1, E2. cbn [negb orb Z.eqb Pos.eqb].
    destruct (read_device b b3 bus slot func Hb Hb3 Hin) as (b4 & -> & Hb4).
    destruct (read_bars_ok (fun i => BAR0 + (i + 4)) b b4 bus slot func (bar dev) Hb4 Hin Hl) as (b5 & -> & Hb5); [unfold BAR0; lia|].
    cbn [mbind res_bind mret res_ret]. eexists. split; [reflexivity|]. cbn [fst snd]. split; [|done].
    rewrite (nic_bars b bus slot func Hin). destruct Hin as (Hbus & _). by rewrite u8_small by done.
  - exists b'. split; [done|]. left. exists f. split; [done|]. rewrite E. cbn in Hr. by rewrite Hr.
  - exists b'. split; [done|]. right. split; [done|]. by rewrite E.
Qed.

(** ** Properties *)

(** [find_nic] finds the first Ethernet controller in the order of the scan
    and stores its place and identifiers, or returns -1.  It leaves the
    subclass of the structure as it was, and the addresses it stores are not
    the six base addresses of the card: the first four are the second base
    address register, the last two the third. *)
Theorem find_nic_finds dev b : b_ok b -> length (bar dev) = 6%nat ->
  exists b', same_cfg b b' /\
    ((exists f, first_of (ethernet b) functions f /\ find_nic (Some dev) b = Ok (0, Some (nic_found b f dev), b')) \/
     (Forall (fun f => ~ ethernet b f) functions /\ find_nic (Some dev) b = Ok (-1, Some dev, b'))).
Proof. apply find_nic_ok. Qed.
End spec.

(** The card of [Pci.v]: its registers are at 0xFEBC0000, address 0 is stored. *)
Lemma find_nic_finds_witness : exists b', @same_cfg _ mem_ports mem_bus (0, wit_card) b' /\
  ((exists f, first_of (@ethernet _ mem_ports mem_bus (0, wit_card)) functions f /\
     @find_nic _ mem_ports (Some (Device 0 0 0 0 0 0 0 (replicate 6 0))) (0, wit_card) =
       Ok (0, Some (@nic_found _ mem_ports mem_bus (0, wit_card) f (Device 0 0 0 0 0 0 0 (replicate 6 0))), b')) \/
   (Forall (fun f => ~ @ethernet _ mem_ports mem_bus (0, wit_card) f) functions /\
     @find_nic _ mem_ports (Some (Device 0 0 0 0 0 0 0 (replicate 6 0))) (0, wit_card) =
       Ok (-1, Some (Device 0 0 0 0 0 0 0 (replicate 6 0)), b'))).
Proof. exact (@find_nic_finds _ mem_ports mem_bus (Device 0 0 0 0 0 0 0 (replicate 6 0)) (0, wit_card) wit_card_ok eq_refl). Defined.

Example nic_found_example :
  match @find_nic _ mem_ports (Some (Device 0 0 0 0 0 0 0 (replicate 6 0))) (0, wit_card) with
  | Ok (r, Some d, _) => r = 0 /\ d_slot d = 3 /\ device_id d = 0x100E /\ bar d = [0; 0; 0; 0; 0; 0] /\ wit_card 0x80001810 = 0xFEBC0000
  | _ => False
  end.
Proof. vm_compute. done. Qed.
