(* ===== verification/E1000.v ===== *)
(** * The network card driver ([drivers/nic/e1000.c])

    The descriptor rings and packet buffers lie in [e1000_device_t], which the
    card reads and writes by DMA; the card's registers are an interface
    ([mmio]).  What the driver relies on of the card is the class
    [e1000_card]: which descriptors it takes, and what it stores in them, when
    its control registers and the descriptors' commands tell it to.  The steps
    of the driver and of the card interleave in any order. *)
From S2P Require Import Prelude Str Hex Vga Pci.

(** ** Registers *)
Class mmio (M : Type) := Mmio {
  mm_write : Z -> Z -> M -> M;
  mm_read : Z -> M -> Z * M
}.

Definition TDBAL : Z := 0x3800.
Definition TDBAH : Z := 0x3804.
Definition TDLEN : Z := 0x3808.
Definition TDH : Z := 0x3810.
Definition TDT : Z := 0x3818.
Definition TCTL : Z := 0x0400.
Definition RDBAL : Z := 0x2800.
Definition RDBAH : Z := 0x2804.
Definition RDLEN : Z := 0x2808.
Definition RDH : Z := 0x2810.
Definition RDT : Z := 0x2818.
Definition RCTL : Z := 0x0100.
Definition RCTL_EN : Z := Z.shiftl 1 1.
Definition RCTL_BAM : Z := Z.shiftl 1 15.
Definition RCTL_SECRC : Z := Z.shiftl 1 26.
Definition TCTL_EN : Z := Z.shiftl 1 1.
Definition TCTL_PSP : Z := Z.shiftl 1 3.
Definition NUM_TX_DESC : Z := 8.
Definition NUM_RX_DESC : Z := 8.
Definition PACKET_SIZE : Z := 2048.
Definition TXD_CMD_EOP : Z := 0x01.
Definition TXD_CMD_IFCS : Z := 0x02.
Definition TXD_CMD_RS : Z := 0x08.
Definition TXD_STAT_DD : Z := 0x01.
Definition RXD_STAT_DD : Z := 0x01.

(** ** State *)

Record e1000_tx_desc_t := TxDesc {
  t_addr : Z; t_length : Z; t_cso : Z; t_cmd : Z; t_status : Z; t_css : Z; t_special : Z
}.
Record e1000_rx_desc_t := RxDesc {
  r_addr : Z; r_length : Z; r_checksum : Z; r_status : Z; r_errors : Z; r_special : Z
}.

Record e1000_device_t := E1000 {
  regs : Z; mac : list Z; e_bus : Z; e_slot : Z; e_func : Z;
  tx_desc : list e1000_tx_desc_t; rx_desc : list e1000_rx_desc_t;
  tx_buffers : list (list Z); rx_buffers : list (list Z);
  tx_index : Z; rx_index : Z
}.

(** The layout: offsets of the arrays in the structure, sizes of descriptors. *)
Definition TX_DESC_OFF : Z := 24.
Definition RX_DESC_OFF : Z := 152.
Definition TX_BUF_OFF : Z := 280.
Definition RX_BUF_OFF : Z := 16664.
Definition DESC_SIZE : Z := 16.

Definition set_tx (d : list e1000_tx_desc_t) (b : list (list Z)) (i : Z) (s : e1000_device_t) : e1000_device_t :=
  E1000 (regs s) (mac s) (e_bus s) (e_slot s) (e_func s) d (rx_desc s) b (rx_buffers s) i (rx_index s).
Definition set_rx (d : list e1000_rx_desc_t) (i : Z) (s : e1000_device_t) : e1000_device_t :=
  E1000 (regs s) (mac s) (e_bus s) (e_slot s) (e_func s) (tx_desc s) d (tx_buffers s) (rx_buffers s) (tx_index s) i.

Section driver.
Context {M : Type} `{!mmio M}.

Definition mmio_write (dev : e1000_device_t) (offset value : Z) (m : M) : M := mm_write (regs dev + 4 * (offset / 4)) value m.
Definition mmio_read (dev : e1000_device_t) (offset : Z) (m : M) : Z * M := mm_read (regs dev + 4 * (offset / 4)) m.

(** [a] is the address of the structure. *)
Definition setup_tx (a : Z) (dev : e1000_device_t) (m : M) : res (e1000_device_t * M) :=
  ds ← for_each (Z.to_nat NUM_TX_DESC) 0 (fun i ds =>
         d ← rd ds i;
         wr ds i (TxDesc (u64 (a + TX_BUF_OFF + PACKET_SIZE * i)) 0 0 0 TXD_STAT_DD 0 (t_special d))) (tx_desc dev);
  let dev := set_tx ds (tx_buffers dev) (tx_index dev) dev in
  let addr := u64 (a + TX_DESC_OFF) in
  let m := mmio_write dev TDBAL (u32 (Z.land addr 0xFFFFFFFF)) m in
  let m := mmio_write dev TDBAH (u32 (Z.shiftr addr 32)) m in
  let m := mmio_write dev TDLEN (NUM_TX_DESC * DESC_SIZE) m in
  let m := mmio_write dev TDH 0 m in
  let m := mmio_write dev TDT 0 m in
  let m := mmio_write dev TCTL (Z.lor TCTL_EN TCTL_PSP) m in
  mret (dev, m).

Definition setup_rx (a : Z) (dev : e1000_device_t) (m : M) : res (e1000_device_t * M) :=
  ds ← for_each (Z.to_nat NUM_RX_DESC) 0 (fun i ds =>
         d ← rd ds i;
         wr ds i (RxDesc (u64 (a + RX_BUF_OFF + PACKET_SIZE * i)) 0 0 0 0 0)) (rx_desc dev);
  let dev := set_rx ds 0 dev in
  let addr := u64 (a + RX_DESC_OFF) in
  let m := mmio_write dev RDBAL (u32 (Z.land addr 0xFFFFFFFF)) m in
  let m := mmio_write dev RDBAH (u32 (Z.shiftr addr 32)) m in
  let m := mmio_write dev RDLEN (NUM_RX_DESC * DESC_SIZE) m in
  let m := mmio_write dev RDH 0 m in
  let m := mmio_write dev RDT (NUM_RX_DESC - 1) m in
  let m := mmio_write dev RCTL (Z.lor (Z.lor RCTL_EN RCTL_BAM) RCTL_SECRC) m in
  mret (dev, m).

(** [print_hex32]: the digits are stored from the last one. *)
Definition print_hex32 (value : Z) (t : term) : res term :=
  '(buf, _) ← for_each 8 0 (fun i '(buf, value) =>
      h ← rd hex_digits (Z.land value 0xF);
      buf ← wr buf (7 - i) h;
      mret (buf, Z.shiftr value 4)) (replicate 9 0, value);
  term_puts (take 8 buf) t.

(** ** Sending and receiving; a null pointer is [None] *)

Definition e1000_send (dev : option e1000_device_t) (data : option (list Z)) (length : Z) (m : M)
  : res (Z * option e1000_device_t * M) :=
  match dev, data with
  | Some d, Some bytes =>
      if (length =? 0) || (PACKET_SIZE <? length) then mret (-1, dev, m)
      else
        let index := tx_index d mod NUM_TX_DESC in
        desc ← rd (tx_desc d) index;
        if Z.land (t_status desc) TXD_STAT_DD =? 0 then mret (-1, dev, m)
        else
          row ← rd (tx_buffers d) index;
          row ← for_each (Z.to_nat length) 0 (fun i row => c ← rd bytes i; wr row i c) row;
          bufs ← wr (tx_buffers d) index row;
          ds ← wr (tx_desc d) index
                 (TxDesc (t_addr desc) length 0 (Z.lor (Z.lor TXD_CMD_EOP TXD_CMD_IFCS) TXD_CMD_RS) 0 0 0);
          let next := (index + 1) mod NUM_TX_DESC in
          let m := mmio_write d TDT next m in
          mret (0, Some (set_tx ds bufs next d), m)
  | _, _ => mret (-1, dev, m)
  end.

(** The result, the structure and the buffer of the caller. *)
Definition e1000_receive (dev : option e1000_device_t) (buffer : option (list Z)) (buffer_size : Z) (m : M)
  : res (Z * option e1000_device_t * option (list Z) * M) :=
  match dev, buffer with
  | Some d, Some buf =>
      let index := rx_index d mod NUM_RX_DESC in
      desc ← rd (rx_desc d) index;
      if Z.land (r_status desc) RXD_STAT_DD =? 0 then mret (0, dev, buffer, m)
      else
        let length := if buffer_size <? r_length desc then buffer_size else r_length desc in
        row ← rd (rx_buffers d) index;
        buf ← for_each (Z.to_nat length) 0 (fun i buf => c ← rd row i; wr buf i c) buf;
        ds ← wr (rx_desc d) index (RxDesc (r_addr desc) (r_length desc) (r_checksum desc) 0 (r_errors desc) (r_special desc));
        let m := mmio_write d RDT index m in
        mret (length, Some (set_rx ds ((index + 1) mod NUM_RX_DESC) d), Some buf, m)
  | _, _ => mret (-1, dev, buffer, m)
  end.

(** ** Start-up *)

Context {B : Type} `{!pci_ports B}.

Definition puts_hex (name : str) (v : Z) (t : term) : res term :=
  t ← term_puts name t; t ← print_hex32 v t; term_puts [10] t.

Definition e1000_init (a : Z) (dev : option e1000_device_t) (pci_dev : option device_s) (t : term) (b : B) (m : M)
  : res (Z * option e1000_device_t * term * B * M) :=
  match dev, pci_dev with
  | Some d, Some p =>
      bar0 ← rd (bar p) 0;
      let d := E1000 (Z.land bar0 0xFFFFFFF0) (mac d) (d_bus p) (d_slot p) (d_func p) (tx_desc d) (rx_desc d)
                     (tx_buffers d) (rx_buffers d) 0 0 in
      t ← term_puts (lit "E1000 INIT" ++ [10]) t;
      t ← puts_hex (lit "Vendor: ") (vendor_id p) t;
      t ← puts_hex (lit "Device: ") (device_id p) t;
      t ← puts_hex (lit "BAR0: ") bar0 t;
      let b := enable_bus_mastering (d_bus p) (d_slot p) (d_func p) b in
      t ← term_puts (lit "Bus Mastering Enabled" ++ [10]) t;
      '(d, m) ← setup_tx a d m;
      '(d, m) ← setup_rx a d m;
      let '(v, m) := mmio_read d RDH m in t ← puts_hex (lit "RX RDH: ") v t;
      let '(v, m) := mmio_read d RDT m in t ← puts_hex (lit "RX RDT: ") v t;
      let '(v, m) := mmio_read d RCTL m in t ← puts_hex (lit "RX RCTL: ") v t;
      t ← term_puts (lit "E1000: TX/RX Ready!" ++ [10]) t;
      mret (0, Some d, t, b, m)
  | _, _ => mret (-1, dev, t, b, m)
  end.
End driver.

(** ** Specification *)

(** What the card does to the rings: it has sent a frame, or stored a packet
    that arrived. *)
Inductive card_event := Sent (f : list Z) | Arrived (p : list Z).

Definition ring_regs : list Z := [TDBAL; TDBAH; TDLEN; TDH; TDT; TCTL; RDBAL; RDBAH; RDLEN; RDH; RDT; RCTL].

(** The registers that describe the rings, but for the heads and tails. *)
Definition layout_regs : list Z := [TDBAL; TDBAH; TDLEN; RDBAL; RDBAH; RDLEN].

(** The rings as the card expects them: the base registers name the array, the
    array is aligned to 16 bytes, and each descriptor names its buffer. *)
Record rings (reg : Z -> Z) (a : Z) (d : e1000_device_t) : Prop := {
  rg_aligned : a mod 16 = 8;
  rg_tbase : reg TDBAL + 2 ^ 32 * reg TDBAH = a + TX_DESC_OFF;
  rg_tlen : reg TDLEN = 128;
  rg_tx i : (i < 8)%nat -> exists desc row, tx_desc d !! i = Some desc /\ t_addr desc = a + TX_BUF_OFF + 2048 * Z.of_nat i /\
    tx_buffers d !! i = Some row /\ length row = 2048%nat;
  rg_rbase : reg RDBAL + 2 ^ 32 * reg RDBAH = a + RX_DESC_OFF;
  rg_rlen : reg RDLEN = 128;
  rg_rx i : (i < 8)%nat -> exists desc row, rx_desc d !! i = Some desc /\ r_addr desc = a + RX_BUF_OFF + 2048 * Z.of_nat i /\
    rx_buffers d !! i = Some row /\ length row = 2048%nat;
  rg_lens : length (tx_desc d) = 8%nat /\ length (rx_desc d) = 8%nat /\ length (tx_buffers d) = 8%nat /\ length (rx_buffers d) = 8%nat
}.

(** The transmitter is on and pads short frames; the receiver is on, takes broadcasts, and stores a
    packet of up to 2048 bytes in one buffer: no long packets, and the size
    fields 0. *)
Definition tx_on (reg : Z -> Z) : Prop := Z.testbit (reg TCTL) 1 = true /\ Z.testbit (reg TCTL) 3 = true.
Definition rx_on (reg : Z -> Z) : Prop :=
  Z.testbit (reg RCTL) 1 = true /\ Z.testbit (reg RCTL) 15 = true /\
  Z.testbit (reg RCTL) 5 = false /\ Z.testbit (reg RCTL) 16 = false /\ Z.testbit (reg RCTL) 17 = false /\ Z.testbit (reg RCTL) 25 = false.

(** A legacy descriptor that orders a whole frame, with the checksum appended
    and with a report: EOP, IFCS and RS, and no other format or offload. *)
Definition ordered (x : e1000_tx_desc_t) : Prop := Z.land (t_cmd x) 0x7F = 0x0B.

(** The frame of the descriptor at the head of the transmit ring. *)
Definition head_order (reg : Z -> Z) (d : e1000_device_t) (f : list Z) : Prop :=
  exists (desc : e1000_tx_desc_t) (row : list Z), tx_desc d !! Z.to_nat (reg TDH) = Some desc /\ tx_buffers d !! Z.to_nat (reg TDH) = Some row /\
    ordered desc /\ f = take (Z.to_nat (t_length desc)) row.

(** A packet the card takes whatever its address filters hold. *)
Definition broadcast (p : list Z) : Prop := take 6 p = replicate 6 0xFF /\ (60 <= length p <= 1514)%nat.

(** The card as its manual describes it, on a bus it may master.  With the
    transmitter on, and while head and tail of the transmit ring differ, it can
    send the frame that the descriptor at the head orders; having done so it
    reports the descriptor done.  Of a descriptor that does not order a frame
    so, nothing is known.  With the receiver on, and while head and tail of the
    receive ring differ, it can take a broadcast, and a packet it takes it
    stores in the buffer at the head.  It does nothing on a ring whose head and
    tail are equal, and nothing with the side turned off. *)
Class e1000_card (M : Type) `{!mmio M} := Card {
  c_base : Z;
  c_reg : M -> Z -> Z;
  c_step : e1000_device_t * M -> card_event -> e1000_device_t * M -> Prop;
  c_write m off v : off ∈ ring_regs -> 0 <= v < 2 ^ 32 ->
    forall o, o ∈ ring_regs -> c_reg (mm_write (c_base + off) v m) o = if decide (o = off) then v else c_reg m o;
  c_read m off o : off ∈ ring_regs -> o ∈ ring_regs -> c_reg (snd (mm_read (c_base + off) m)) o = c_reg m o;
  c_works a d m e d' m' : rings (c_reg m) a d -> c_step (d, m) e (d', m') ->
    match e with
    | Sent _ => Z.testbit (c_reg m TCTL) 1 = true /\ c_reg m TDH <> c_reg m TDT
    | Arrived _ => Z.testbit (c_reg m RCTL) 1 = true /\ c_reg m RDH <> c_reg m RDT
    end;
  c_can_send a d m f : rings (c_reg m) a d -> tx_on (c_reg m) -> c_reg m TDH <> c_reg m TDT -> head_order (c_reg m) d f ->
    exists s', c_step (d, m) (Sent f) s';
  c_sent a d m f g d' m' : rings (c_reg m) a d -> head_order (c_reg m) d g -> c_step (d, m) (Sent f) (d', m') ->
    let h := Z.to_nat (c_reg m TDH) in
    f = g /\ (forall o, o ∈ ring_regs -> c_reg m' o = if decide (o = TDH) then (c_reg m TDH + 1) mod 8 else c_reg m o) /\
    exists desc st, tx_desc d !! h = Some desc /\ Z.land st TXD_STAT_DD <> 0 /\
      d' = set_tx (<[h := TxDesc (t_addr desc) (t_length desc) (t_cso desc) (t_cmd desc) st (t_css desc) (t_special desc)]> (tx_desc d))
                  (tx_buffers d) (tx_index d) d;
  c_can_take a d m p : rings (c_reg m) a d -> rx_on (c_reg m) -> 0 <= c_reg m RDH < 8 -> c_reg m RDH <> c_reg m RDT -> broadcast p ->
    exists s', c_step (d, m) (Arrived p) s';
  c_arrived a d m p d' m' : rings (c_reg m) a d -> rx_on (c_reg m) -> c_step (d, m) (Arrived p) (d', m') ->
    let h := Z.to_nat (c_reg m RDH) in
    (forall o, o ∈ ring_regs -> c_reg m' o = if decide (o = RDH) then (c_reg m RDH + 1) mod 8 else c_reg m o) /\
    (length p <= 2048)%nat /\
    exists desc row st sum err sp, rx_desc d !! h = Some desc /\ rx_buffers d !! h = Some row /\ Z.land st RXD_STAT_DD <> 0 /\
      d' = E1000 (regs d) (mac d) (e_bus d) (e_slot d) (e_func d) (tx_desc d)
             (<[h := RxDesc (r_addr desc) (Z.of_nat (length p)) sum st err sp]> (rx_desc d))
             (tx_buffers d) (<[h := p ++ drop (length p) row]> (rx_buffers d)) (tx_index d) (rx_index d)
}.

(** The descriptor [j] places behind [h]. *)
Definition slot (h j : Z) : nat := Z.to_nat ((h + j) mod 8).

(** A descriptor as both sides see it: done or not, the length, the buffer. *)
Definition tx_view (d : e1000_device_t) (i : nat) : option (bool * Z * list Z) :=
  x ← tx_desc d !! i; row ← tx_buffers d !! i; Some (negb (Z.land (t_status x) TXD_STAT_DD =? 0), t_length x, row).
Definition rx_view (d : e1000_device_t) (i : nat) : option (bool * Z * list Z) :=
  x ← rx_desc d !! i; row ← rx_buffers d !! i; Some (negb (Z.land (r_status x) RXD_STAT_DD =? 0), r_length x, row).

(** The descriptors from [h] on hold [items], the others are in the other state. *)
Definition holds_items (v : nat -> option (bool * Z * list Z)) (full : bool) (h : Z) (items : list (list Z)) : Prop :=
  (forall j f, items !! j = Some f -> exists row, v (slot h (Z.of_nat j)) = Some (full, Z.of_nat (length f), row) /\ take (length f) row = f) /\
  (forall j, (length items <= j < 8)%nat -> exists n row, v (slot h (Z.of_nat j)) = Some (negb full, n, row)).

(** The [n] descriptors from [h] on order frames. *)
Definition orders (d : e1000_device_t) (h : Z) (n : nat) : Prop :=
  forall j, (j < n)%nat -> exists x, tx_desc d !! slot h (Z.of_nat j) = Some x /\ ordered x.

Section card.
Context {M : Type} `{!mmio M, !e1000_card M} (a : Z).

(** The driver and the card, with the frames that [e1000_send] has accepted,
    those the card has sent, the packets that have arrived, and the bytes
    [e1000_receive] has handed out. *)
Record net := Net {
  n_dev : e1000_device_t; n_mm : M; queued : list (list Z); sent : list (list Z); arrived : list (list Z); taken : list (list Z)
}.

(** A packet is waiting for [e1000_receive]. *)
Definition rx_ready (d : e1000_device_t) : bool :=
  match rx_desc d !! Z.to_nat (rx_index d mod 8) with Some x => negb (Z.land (r_status x) RXD_STAT_DD =? 0) | None => false end.

(** One step of either side; the driver sends only while fewer than [limit]
    frames are on their way. *)
Inductive step (limit : nat) : net -> net -> Prop :=
| step_send d m q s ar tk data len r d' m' : (length q - length s < limit)%nat -> Z.of_nat (length data) >= len -> 0 <= len ->
    e1000_send (Some d) (Some data) len m = Ok (r, Some d', m') ->
    step limit (Net d m q s ar tk) (Net d' m' (if r =? 0 then q ++ [take (Z.to_nat len) data] else q) s ar tk)
| step_sent d m q s ar tk f d' m' : c_step (d, m) (Sent f) (d', m') ->
    step limit (Net d m q s ar tk) (Net d' m' q (s ++ [f]) ar tk)
| step_arrived d m q s ar tk p d' m' : c_step (d, m) (Arrived p) (d', m') ->
    step limit (Net d m q s ar tk) (Net d' m' q s (ar ++ [p]) tk)
| step_receive d m q s ar tk buf size r d' buf' m' : 0 <= size <= Z.of_nat (length buf) ->
    e1000_receive (Some d) (Some buf) size m = Ok (r, Some d', Some buf', m') ->
    step limit (Net d m q s ar tk) (Net d' m' q s ar (if rx_ready d then tk ++ [take (Z.to_nat r) buf'] else tk)).

(** The rings between steps, with the frames on their way and the packets that
    wait. *)
Record ring_inv (d : e1000_device_t) (m : M) (rest pend : list (list Z)) : Prop := {
  ri_rings : rings (c_reg m) a d;
  ri_base : regs d = c_base;
  ri_on : tx_on (c_reg m) /\ rx_on (c_reg m);
  ri_rest : (length rest <= 8)%nat;
  ri_tx : 0 <= tx_index d < 8;
  ri_tdt : c_reg m TDT = tx_index d;
  ri_tdh : c_reg m TDH = (tx_index d - Z.of_nat (length rest)) mod 8;
  ri_out : holds_items (tx_view d) false (c_reg m TDH) rest;
  ri_cmd : orders d (c_reg m TDH) (length rest);
  ri_pend : (length pend <= 7)%nat;
  ri_rx : 0 <= rx_index d < 8;
  ri_rdt : c_reg m RDT = (rx_index d + 7) mod 8;
  ri_rdh : c_reg m RDH = (rx_index d + Z.of_nat (length pend)) mod 8;
  ri_in : holds_items (rx_view d) true (rx_index d) pend;
  ri_short : Forall (fun p => (length p <= 2048)%nat) pend
}.

(** What came out is what went in, in order: the frames on the wire are the
    first of those accepted, the packets handed out the first of those that
    arrived, each cut to the size of the caller's buffer. *)
Definition in_order (n : net) (rest pend : list (list Z)) : Prop :=
  queued n = sent n ++ rest /\
  exists got, arrived n = got ++ pend /\ Forall2 (fun p t => exists size, t = take size p) got (taken n).

(** ** Lemmas: rings *)

Lemma slot_lt h j : (slot h j < 8)%nat.
Proof. unfold slot. zdm. Qed.

Lemma slot_inj h i j : 0 <= i < 8 -> 0 <= j < 8 -> slot h i = slot h j -> i = j.
Proof. unfold slot. intros Hi Hj H. apply Z2Nat.inj in H; zdm. Qed.

Lemma slot_0 h : 0 <= h < 8 -> slot h 0 = Z.to_nat h.
Proof. unfold slot. intros H. f_equal. zdm. Qed.

Lemma slot_next h j : slot ((h + 1) mod 8) j = slot h (j + 1).
Proof. unfold slot. f_equal. zdm. Qed.

Lemma items_push v v' full h items f row : (length items < 8)%nat -> holds_items v full h items ->
  v' (slot h (Z.of_nat (length items))) = Some (full, Z.of_nat (length f), row) -> take (length f) row = f ->
  (forall i, (i < 8)%nat -> i <> slot h (Z.of_nat (length items)) -> v' i = v i) -> holds_items v' full h (items ++ [f]).
Proof.
  intros Hl [H1 H2] Hv Hf Hsame. split.
  - intros j g Hj. destruct (decide (j < length items)%nat) as [Hlt|Hge].
    + rewrite lookup_app_l in Hj by done. destruct (H1 j g Hj) as (r & E & Hr). exists r. split; [|done].
      rewrite Hsame; [done|apply slot_lt|]. intros Es. apply slot_inj in Es; lia.
    + pose proof (lookup_lt_Some _ _ _ Hj) as Hlt. rewrite length_app in Hlt. cbn in Hlt.
      assert (j = length items) as -> by lia. rewrite list_lookup_middle in Hj by done. injection Hj as <-. by exists row.
  - intros j Hj. rewrite length_app in Hj. cbn in Hj. rewrite Hsame; [apply H2; lia|apply slot_lt|].
    intros Es. apply slot_inj in Es; lia.
Qed.

Lemma items_pop v v' full h f items n row : (length items < 8)%nat -> holds_items v full h (f :: items) ->
  v' (slot h 0) = Some (negb full, n, row) -> (forall i, (i < 8)%nat -> i <> slot h 0 -> v' i = v i) ->
  holds_items v' full ((h + 1) mod 8) items.
Proof.
  intros Hl [H1 H2] Hv Hsame. cbn [length] in H2. split.
  - intros j g Hj. rewrite slot_next. pose proof (lookup_lt_Some _ _ _ Hj) as Hlt.
    destruct (H1 (S j) g Hj) as (r & E & Hr). exists r. split; [|done]. rewrite Nat2Z.inj_succ in E. unfold Z.succ in E.
    rewrite Hsame; [done|apply slot_lt|]. destruct (decide (length items = 7)%nat).
    + intros Es. unfold slot in Es. apply Z2Nat.inj in Es; [|zdm..]. assert (Z.of_nat j < 7) by lia. zdm.
    + intros Es. apply slot_inj in Es; lia.
  - intros j Hj. rewrite slot_next. destruct (decide (j = 7)%nat) as [->|Hne].
    + exists n, row. replace (slot h (Z.of_nat 7 + 1)) with (slot h 0) by (unfold slot; f_equal; zdm). done.
    + replace (Z.of_nat j + 1) with (Z.of_nat (S j)) by lia. rewrite Hsame; [apply H2; lia|apply slot_lt|].
      intros Es. apply slot_inj in Es; lia.
Qed.

Lemma items_ext v v' full h items : (forall i, (i < 8)%nat -> v' i = v i) -> holds_items v full h items -> holds_items v' full h items.
Proof.
  intros E [H1 H2]. split.
  - intros j f Hj. rewrite E by apply slot_lt. by apply H1.
  - intros j Hj. rewrite E by apply slot_lt. by apply H2.
Qed.

(** The orders along a ring, pushed behind and popped in front. *)
Lemma orders_push d d' h n x : (n < 8)%nat -> orders d h n -> tx_desc d' !! slot h (Z.of_nat n) = Some x -> ordered x ->
  (forall i, i <> slot h (Z.of_nat n) -> tx_desc d' !! i = tx_desc d !! i) -> orders d' h (S n).
Proof.
  intros Hn H Hx Ho Hsame j Hj. destruct (decide (j = n)) as [->|Hne]; [by exists x|].
  rewrite Hsame; [apply H; lia|]. intros E%slot_inj; lia.
Qed.

Lemma orders_pop d d' h n : (n < 8)%nat -> orders d h (S n) ->
  (forall i, i <> slot h 0 -> tx_desc d' !! i = tx_desc d !! i) -> orders d' ((h + 1) mod 8) n.
Proof.
  intros Hn H Hsame j Hj. rewrite slot_next. replace (Z.of_nat j + 1) with (Z.of_nat (S j)) by lia.
  destruct (H (S j)) as (x & Hx & Ho); [lia|]. exists x. split; [|done]. rewrite Hsame; [done|].
  destruct (decide (j = 7)%nat) as [->|]; [lia|]. intros E%slot_inj; lia.
Qed.

Lemma orders_ext d d' h n : tx_desc d' = tx_desc d -> orders d h n -> orders d' h n.
Proof. intros E H j Hj. rewrite E. by apply H. Qed.

Lemma on_ext reg reg' : reg' TCTL = reg TCTL -> reg' RCTL = reg RCTL -> tx_on reg /\ rx_on reg -> tx_on reg' /\ rx_on reg'.
Proof. unfold tx_on, rx_on. by intros -> ->. Qed.

(** ** Lemmas: the steps *)

(** Membership of a given register. *)
Ltac in_regs := apply (bool_decide_unpack _); vm_compute; exact I.

Lemma layout_ring o : o ∈ layout_regs -> o ∈ ring_regs /\ o <> TDH /\ o <> TDT /\ o <> RDH /\ o <> RDT.
Proof.
  unfold layout_regs. intros H. repeat (apply elem_of_cons in H as [->|H]; [split; [in_regs|done]|]). by apply elem_of_nil in H.
Qed.

Lemma reg_in r : r ∈ ring_regs -> r / 4 * 4 = r.
Proof.
  unfold ring_regs. intros H. repeat (apply elem_of_cons in H as [->|H]; [reflexivity|]). by apply elem_of_nil in H.
Qed.

Lemma write_reg (d : e1000_device_t) m off v o : regs d = c_base -> off ∈ ring_regs -> o ∈ ring_regs -> 0 <= v < 2 ^ 32 ->
  c_reg (mmio_write d off v m) o = if decide (o = off) then v else c_reg m o.
Proof.
  intros Hb Hoff Ho Hv. unfold mmio_write. rewrite Hb, (Z.mul_comm 4), (reg_in off Hoff). by apply c_write.
Qed.

Lemma tx_row d reg i : rings reg a d -> (i < 8)%nat -> exists desc row, tx_desc d !! i = Some desc /\ tx_buffers d !! i = Some row /\
  length row = 2048%nat /\ tx_view d i = Some (negb (Z.land (t_status desc) TXD_STAT_DD =? 0), t_length desc, row).
Proof.
  intros H Hi. destruct (rg_tx _ _ _ H i Hi) as (desc & row & E1 & _ & E2 & Hl). exists desc, row. unfold tx_view. by rewrite E1, E2.
Qed.

Lemma rx_row d reg i : rings reg a d -> (i < 8)%nat -> exists desc row, rx_desc d !! i = Some desc /\ rx_buffers d !! i = Some row /\
  length row = 2048%nat /\ rx_view d i = Some (negb (Z.land (r_status desc) RXD_STAT_DD =? 0), r_length desc, row).
Proof.
  intros H Hi. destruct (rg_rx _ _ _ H i Hi) as (desc & row & E1 & _ & E2 & Hl). exists desc, row. unfold rx_view. by rewrite E1, E2.
Qed.

Lemma rd_nat {A} (l : list A) i x : 0 <= i -> l !! Z.to_nat i = Some x -> rd l i = Ok x.
Proof. intros. by apply rd_Ok. Qed.

(** The rings stay laid out when a descriptor keeps its address and a buffer its
    size, and no base register changes. *)
Lemma rings_tx reg reg' d i t x row : rings reg a d -> (i < 8)%nat ->
  (forall o, o ∈ layout_regs -> reg' o = reg o) ->
  t_addr x = a + TX_BUF_OFF + 2048 * Z.of_nat i -> length row = 2048%nat ->
  rings reg' a (set_tx (<[i := x]> (tx_desc d)) (<[i := row]> (tx_buffers d)) t d).
Proof.
  intros H Hi Hr Hx Hrow. destruct (rg_lens _ _ _ H) as (L1 & L2 & L3 & L4).
  split; cbn [set_tx tx_desc rx_desc tx_buffers rx_buffers]; rewrite ?Hr by in_regs; try apply H.
  - intros k Hk. destruct (decide (k = i)) as [->|Hne].
    + exists x, row. by rewrite !list_lookup_insert_eq by lia.
    + rewrite !list_lookup_insert_ne by done. by apply H.
  - rewrite !length_insert. done.
Qed.

Lemma rings_rx reg reg' d i t x row : rings reg a d -> (i < 8)%nat ->
  (forall o, o ∈ layout_regs -> reg' o = reg o) ->
  r_addr x = a + RX_BUF_OFF + 2048 * Z.of_nat i -> length row = 2048%nat ->
  rings reg' a (E1000 (regs d) (mac d) (e_bus d) (e_slot d) (e_func d) (tx_desc d) (<[i := x]> (rx_desc d))
                 (tx_buffers d) (<[i := row]> (rx_buffers d)) (tx_index d) t).
Proof.
  intros H Hi Hr Hx Hrow. destruct (rg_lens _ _ _ H) as (L1 & L2 & L3 & L4).
  split; cbn [tx_desc rx_desc tx_buffers rx_buffers]; rewrite ?Hr by in_regs; try apply H.
  - intros k Hk. destruct (decide (k = i)) as [->|Hne].
    + exists x, row. by rewrite !list_lookup_insert_eq by lia.
    + rewrite !list_lookup_insert_ne by done. by apply H.
  - rewrite !length_insert. done.
Qed.

Lemma tx_view_set d i t x row : length (tx_desc d) = 8%nat -> length (tx_buffers d) = 8%nat -> (i < 8)%nat ->
  let d' := set_tx (<[i := x]> (tx_desc d)) (<[i := row]> (tx_buffers d)) t d in
  tx_view d' i = Some (negb (Z.land (t_status x) TXD_STAT_DD =? 0), t_length x, row) /\
  forall k, k <> i -> tx_view d' k = tx_view d k.
Proof.
  intros H1 H2 Hi d'. unfold tx_view, d'. cbn [set_tx tx_desc tx_buffers]. split.
  - by rewrite !list_lookup_insert_eq by lia.
  - intros k Hk. by rewrite !list_lookup_insert_ne by done.
Qed.

Lemma rx_view_set d i t x row : length (rx_desc d) = 8%nat -> length (rx_buffers d) = 8%nat -> (i < 8)%nat ->
  let d' := E1000 (regs d) (mac d) (e_bus d) (e_slot d) (e_func d) (tx_desc d) (<[i := x]> (rx_desc d))
                  (tx_buffers d) (<[i := row]> (rx_buffers d)) (tx_index d) t in
  rx_view d' i = Some (negb (Z.land (r_status x) RXD_STAT_DD =? 0), r_length x, row) /\
  forall k, k <> i -> rx_view d' k = rx_view d k.
Proof.
  intros H1 H2 Hi d'. unfold rx_view, d'. cbn [rx_desc rx_buffers]. split.
  - by rewrite !list_lookup_insert_eq by lia.
  - intros k Hk. by rewrite !list_lookup_insert_ne by done.
Qed.

(** [e1000_send]: bad lengths and a full ring are refused, anything else is
    queued behind the frames on their way. *)
Lemma send_ok d m rest pend data len : ring_inv d m rest pend -> 0 <= len -> len <= Z.of_nat (length data) ->
  if (len =? 0) || (PACKET_SIZE <? len) || (8 <=? length rest)%nat
  then e1000_send (Some d) (Some data) len m = Ok (-1, Some d, m)
  else exists d' m', e1000_send (Some d) (Some data) len m = Ok (0, Some d', m') /\ ring_inv d' m' (rest ++ [take (Z.to_nat len) data]) pend.
Proof.
  intros H Hlen Hd. destruct H as [Hr Hb Hon Hrest Ht Htdt Htdh Hout Hcmd Hpend Hrx Hrdt Hrdh Hin Hsh]. unfold e1000_send.
  destruct ((len =? 0) || (PACKET_SIZE <? len)) eqn:Ebad; [done|]. cbn [orb]. apply orb_false_iff in Ebad as [E0 E1]. zbool. unfold PACKET_SIZE in E1.
  unfold NUM_TX_DESC. rewrite (Z.mod_small (tx_index d) 8) by lia.
  destruct (tx_row d _ (Z.to_nat (tx_index d)) Hr ltac:(lia)) as (desc & row & Edesc & Erow & Hrow & Ev).
  rewrite (rd_nat _ _ desc) by (done || lia). cbn [mbind res_bind].
  assert (slot (c_reg m TDH) (Z.of_nat (length rest)) = Z.to_nat (tx_index d)) as Hslot by (rewrite Htdh; unfold slot; f_equal; zdm).
  destruct (Nat.leb_spec 8 (length rest)) as [Hfull|Hroom].
  - destruct rest as [|f rest]; [cbn in Hfull; lia|]. destruct (proj1 Hout 0%nat f eq_refl) as (row' & E & _).
    assert (slot (c_reg m TDH) (Z.of_nat 0) = Z.to_nat (tx_index d)) as Hs0.
    { rewrite <- Hslot. unfold slot. f_equal. replace (length (f :: rest)) with 8%nat by lia. zdm. }
    rewrite Hs0, Ev in E. injection E as E _ _. apply negb_false_iff in E. by rewrite E.
  - destruct (proj2 Hout (length rest)) as (n & row' & E); [lia|]. rewrite Hslot, Ev in E. injection E as E _ _.
    apply negb_true_iff in E. rewrite E. rewrite (rd_nat _ _ row) by (done || lia). cbn [mbind res_bind].
    rewrite copy_prefix by lia. cbn [mbind res_bind]. destruct (rg_lens _ _ _ Hr) as (L1 & L2 & L3 & L4).
    rewrite !wr_in by lia. cbn [mbind res_bind mret res_ret]. eexists _, _. split; [reflexivity|].
    set (row2 := take (Z.to_nat len) data ++ drop (Z.to_nat len) row).
    assert (length row2 = 2048%nat) as Hrow2 by (unfold row2; rewrite length_app, length_take, length_drop; lia).
    assert (forall o, o ∈ ring_regs -> c_reg (mmio_write d TDT ((tx_index d + 1) mod 8) m) o = if decide (o = TDT) then (tx_index d + 1) mod 8 else c_reg m o) as Hw.
    { intros o Ho. apply write_reg; [done|in_regs|done|]. zdm. }
    match goal with |- context [TxDesc (t_addr desc) len 0 ?c 0 0 0] => set (x := TxDesc (t_addr desc) len 0 c 0 0 0) end.
    destruct (tx_view_set d (Z.to_nat (tx_index d)) ((tx_index d + 1) mod 8) x row2 L1 L3 ltac:(lia)) as [V1 V2].
    split; try done.
    + eapply rings_tx; [exact Hr|lia| |cbn|done].
      * intros o Ho. apply layout_ring in Ho as (? & ? & ? & ? & ?). rewrite Hw by done. by rewrite decide_False by done.
      * destruct (rg_tx _ _ _ Hr (Z.to_nat (tx_index d)) ltac:(lia)) as (desc' & _ & E' & Ha & _). by simplify_eq.
    + eapply on_ext; [| |exact Hon]; rewrite Hw by in_regs; by rewrite decide_False by done.
    + rewrite length_app. cbn. lia.
    + cbn. zdm.
    + rewrite Hw by in_regs. cbn. by rewrite decide_True by done.
    + rewrite Hw by in_regs. rewrite decide_False by done. rewrite Htdh, length_app. cbn. zdm.
    + rewrite Hw by in_regs. rewrite decide_False by done. eapply items_push; [done|exact Hout| | |].
      * rewrite Hslot, V1. cbn. rewrite length_take. do 3 f_equal. lia.
      * unfold row2. rewrite length_take, take_app_le, take_take by (rewrite length_take; lia). f_equal. lia.
      * intros i _ Hi. rewrite Hslot in Hi. by apply V2.
    + rewrite Hw by in_regs. rewrite decide_False by done. rewrite length_app, Nat.add_comm. cbn [length Nat.add].
      apply (orders_push d _ _ _ x); [done|exact Hcmd|..]; rewrite ?Hslot; cbn [set_tx tx_desc].
      * by rewrite list_lookup_insert_eq by lia.
      * reflexivity.
      * intros i Hi. by rewrite list_lookup_insert_ne by done.
    + rewrite Hw by in_regs. by rewrite decide_False by done.
    + rewrite Hw by in_regs. by rewrite decide_False by done.
Qed.

Lemma insert_same {A} (l : list A) i x : l !! i = Some x -> <[i := x]> l = l.
Proof. intros H. by apply list_insert_id. Qed.

(** The descriptor at the head orders the oldest frame on its way. *)
Lemma head_ordered d m f rest : rings (c_reg m) a d -> 0 <= c_reg m TDH < 8 -> holds_items (tx_view d) false (c_reg m TDH) (f :: rest) ->
  orders d (c_reg m TDH) (length (f :: rest)) -> head_order (c_reg m) d f.
Proof.
  intros Hr Hh Hout Hcmd. destruct (Hcmd 0%nat) as (x & Hx & Ho); [cbn; lia|]. destruct (proj1 Hout 0%nat f eq_refl) as (row' & E & Hf).
  change (Z.of_nat 0) with 0 in Hx, E. rewrite slot_0 in Hx, E by done. destruct (tx_row d _ (Z.to_nat (c_reg m TDH)) Hr ltac:(lia)) as (x' & row & Ex & Er & _ & Ev).
  rewrite Hx in Ex. injection Ex as <-. rewrite Ev in E. injection E as _ El <-. exists x, row. split; [done|]. split; [done|]. split; [done|].
  by rewrite El, Nat2Z.id.
Qed.

(** The card sends the oldest frame on its way. *)
Lemma sent_ok d m rest pend f d' m' : ring_inv d m rest pend -> c_step (d, m) (Sent f) (d', m') ->
  exists rest', rest = f :: rest' /\ ring_inv d' m' rest' pend.
Proof.
  intros [Hr Hb Hon Hrest Ht Htdt Htdh Hout Hcmd Hpend Hrx Hrdt Hrdh Hin Hsh] Hs. destruct (c_works a d m _ d' m' Hr Hs) as [_ Hne].
  assert (0 <= c_reg m TDH < 8) as Hh by (rewrite Htdh; apply Z.mod_pos_bound; lia).
  destruct rest as [|g rest]; [exfalso; apply Hne; rewrite Htdt, Htdh; cbn; zdm|].
  assert (length rest < 7)%nat as Hl.
  { destruct (decide (length rest = 7)%nat) as [E|E]; [|cbn in Hrest; lia]. exfalso. apply Hne. rewrite Htdt, Htdh. cbn [length]. rewrite E. zdm. }
  destruct (c_sent a d m f g d' m' Hr (head_ordered d m g rest Hr Hh Hout Hcmd) Hs) as (-> & Hreg & desc & st & Edesc & Hst & ->).
  set (h := Z.to_nat (c_reg m TDH)) in *. assert (slot (c_reg m TDH) 0 = h) as Hslot by by apply slot_0.
  assert (h < 8)%nat as Hh8 by lia. destruct (tx_row d _ h Hr Hh8) as (desc' & row & E' & Erow & _ & _). exists rest. split; [done|].
  rewrite Edesc in E'. injection E' as <-. destruct (rg_lens _ _ _ Hr) as (L1 & L2 & L3 & L4).
  match goal with |- context [<[h := ?x]> (tx_desc d)] => set (x' := x) end.
  destruct (tx_view_set d h (tx_index d) x' row L1 L3 Hh8) as [V1 V2]. rewrite (insert_same _ _ _ Erow) in V1, V2.
  split; try done.
  - rewrite <- (insert_same (tx_buffers d) h row Erow). eapply rings_tx; [exact Hr|done| | |].
    + intros o (? & ? & ? & ? & ?)%layout_ring. rewrite Hreg by done. by rewrite decide_False by done.
    + destruct (rg_tx _ _ _ Hr h Hh8) as (desc' & _ & E' & Ha & _). cbn. by simplify_eq.
    + destruct (rg_tx _ _ _ Hr h Hh8) as (_ & row' & _ & _ & E' & Ha). by simplify_eq.
  - eapply on_ext; [| |exact Hon]; rewrite Hreg by in_regs; by rewrite decide_False by done.
  - cbn [length] in *. lia.
  - rewrite Hreg by in_regs. by rewrite decide_False by done.
  - rewrite Hreg by in_regs. rewrite decide_True by done. rewrite Htdh. cbn [set_tx tx_index length]. zdm.
  - rewrite Hreg by in_regs. rewrite decide_True by done. eapply items_pop; [|exact Hout| |].
    + lia.
    + rewrite Hslot, V1. cbn. by rewrite (proj2 (Z.eqb_neq _ 0) Hst).
    + intros i _ Hi. rewrite Hslot in Hi. by apply V2.
  - rewrite Hreg by in_regs. rewrite decide_True by done. apply (orders_pop d); [lia|exact Hcmd|]. rewrite Hslot. intros i Hi.
    cbn [set_tx tx_desc]. by rewrite list_lookup_insert_ne by done.
  - rewrite Hreg by in_regs. by rewrite decide_False by done.
  - rewrite Hreg by in_regs. by rewrite decide_False by done.
Qed.

(** Between steps the card can send the oldest frame, but for a full ring, and
    take a broadcast. *)
Lemma can_send_ok d m f rest pend : ring_inv d m (f :: rest) pend -> (length (f :: rest) < 8)%nat -> exists s', c_step (d, m) (Sent f) s'.
Proof.
  intros [Hr _ [Htx _] _ Ht Htdt Htdh Hout Hcmd _ _ _ _ _ _] Hl. cbn [length] in *.
  apply (c_can_send a); [done|done| |apply (head_ordered d m f rest Hr); [|done|done]].
  - rewrite Htdt, Htdh. zdm.
  - rewrite Htdh. apply Z.mod_pos_bound. lia.
Qed.

Lemma can_take_ok d m p rest pend : ring_inv d m rest pend -> (length pend < 7)%nat -> broadcast p -> exists s', c_step (d, m) (Arrived p) s'.
Proof.
  intros [Hr _ [_ Hrx] _ _ _ _ _ _ _ Hi Hrdt Hrdh _ _] Hl Hb. apply (c_can_take a); [done|done| | |done]; rewrite ?Hrdt, Hrdh; [apply Z.mod_pos_bound; lia|zdm].
Qed.

(** A packet that arrives waits behind the others. *)
Lemma arrived_ok d m rest pend p d' m' : ring_inv d m rest pend -> c_step (d, m) (Arrived p) (d', m') -> ring_inv d' m' rest (pend ++ [p]).
Proof.
  intros [Hr Hb Hon Hrest Ht Htdt Htdh Hout Hcmd Hpend Hrx Hrdt Hrdh Hin Hsh] Hs.
  destruct (c_works a d m _ d' m' Hr Hs) as [_ Hne].
  destruct (c_arrived a d m p d' m' Hr (proj2 Hon) Hs) as (Hreg & Hp & desc & row & st & sum & err & sp & Edesc & Erow & Hst & ->).
  assert (0 <= c_reg m RDH < 8) as Hh by (rewrite Hrdh; apply Z.mod_pos_bound; lia).
  set (h := Z.to_nat (c_reg m RDH)) in *. assert (slot (rx_index d) (Z.of_nat (length pend)) = h) as Hslot by (unfold slot, h; by rewrite Hrdh).
  assert (length pend < 7)%nat as Hl.
  { destruct (decide (length pend = 7)%nat) as [E|E]; [|lia]. exfalso. apply Hne. rewrite Hrdt, Hrdh, E. done. }
  destruct (rg_lens _ _ _ Hr) as (L1 & L2 & L3 & L4). assert (h < 8)%nat as Hh8 by lia.
  destruct (rg_rx _ _ _ Hr h Hh8) as (desc' & row' & E1 & Ha & E2 & Hrow). rewrite Edesc in E1. rewrite Erow in E2. injection E1 as <-. injection E2 as <-.
  match goal with |- context [<[h := ?x]> (rx_desc d)] => set (x' := x) end.
  assert (length (p ++ drop (length p) row) = 2048%nat) as Hrow' by (rewrite length_app, length_drop; lia).
  destruct (rx_view_set d h (rx_index d) x' (p ++ drop (length p) row) L2 L4 Hh8) as [V1 V2].
  split; try done.
  - eapply rings_rx; [exact Hr|done| |done|done].
    intros o (? & ? & ? & ? & ?)%layout_ring. rewrite Hreg by done. by rewrite decide_False by done.
  - eapply on_ext; [| |exact Hon]; rewrite Hreg by in_regs; by rewrite decide_False by done.
  - rewrite Hreg by in_regs. by rewrite decide_False by done.
  - rewrite Hreg by in_regs. by rewrite decide_False by done.
  - rewrite Hreg by in_regs. rewrite decide_False by done. eapply items_ext; [|exact Hout]. done.
  - rewrite Hreg by in_regs. rewrite decide_False by done. by apply (orders_ext d).
  - rewrite length_app. cbn. lia.
  - rewrite Hreg by in_regs. by rewrite decide_False by done.
  - rewrite Hreg by in_regs. rewrite decide_True by done. rewrite Hrdh, length_app. cbn [rx_index length]. zdm.
  - eapply items_push; [lia|exact Hin| | |].
    + cbn [rx_index]. rewrite Hslot, V1. cbn. by rewrite (proj2 (Z.eqb_neq _ 0) Hst).
    + by rewrite take_app_length.
    + intros i _ Hi. cbn [rx_index] in Hi. rewrite Hslot in Hi. by apply V2.
  - apply Forall_app. split; [done|]. by constructor.
Qed.

(** [e1000_receive]: nothing when nothing waits, else the oldest packet. *)
Lemma receive_ok d m rest pend buf size : ring_inv d m rest pend -> 0 <= size <= Z.of_nat (length buf) ->
  match pend with
  | [] => rx_ready d = false /\ e1000_receive (Some d) (Some buf) size m = Ok (0, Some d, Some buf, m)
  | p :: pend' => rx_ready d = true /\ exists d' m', let n := Z.min size (Z.of_nat (length p)) in
      e1000_receive (Some d) (Some buf) size m = Ok (n, Some d', Some (take (Z.to_nat n) p ++ drop (Z.to_nat n) buf), m') /\
      ring_inv d' m' rest pend'
  end.
Proof.
  intros [Hr Hb Hon Hrest Ht Htdt Htdh Hout Hcmd Hpend Hrx Hrdt Hrdh Hin Hsh] Hsize. unfold e1000_receive, rx_ready, NUM_RX_DESC.
  rewrite (Z.mod_small (rx_index d) 8) by lia.
  destruct (rx_row d _ (Z.to_nat (rx_index d)) Hr ltac:(lia)) as (desc & row & Edesc & Erow & Hrow & Ev).
  assert (slot (rx_index d) 0 = Z.to_nat (rx_index d)) as Hslot by by apply slot_0.
  rewrite Edesc, (rd_nat _ _ desc) by (done || lia). cbn [mbind res_bind].
  destruct pend as [|p pend].
  - destruct (proj2 Hin 0%nat) as (n & row' & E); [cbn; lia|]. change (Z.of_nat 0) with 0 in E. rewrite Hslot, Ev in E. injection E as E _ _.
    apply negb_false_iff in E. rewrite E. done.
  - destruct (proj1 Hin 0%nat p eq_refl) as (row' & E & Hp). change (Z.of_nat 0) with 0 in E. rewrite Hslot, Ev in E. injection E as E Elen <-.
    apply negb_true_iff in E. rewrite E. split; [done|]. apply Forall_cons in Hsh as [Hp2 Hsh].
    rewrite (rd_nat _ _ row) by (done || lia). cbn [mbind res_bind]. rewrite Elen.
    assert ((if size <? Z.of_nat (length p) then size else Z.of_nat (length p)) = Z.min size (Z.of_nat (length p))) as -> by (case_match; zbool; lia).
    set (n := Z.min size (Z.of_nat (length p))) in *. rewrite copy_prefix by lia. cbn [mbind res_bind].
    assert (take (Z.to_nat n) row = take (Z.to_nat n) p) as ->.
    { transitivity (take (Z.to_nat n) (take (length p) row)); [rewrite take_take; f_equal; lia|by rewrite Hp]. }
    destruct (rg_lens _ _ _ Hr) as (L1 & L2 & L3 & L4). rewrite wr_in by lia. cbn [mbind res_bind mret res_ret]. eexists _, _.
    split; [reflexivity|].
    set (i := Z.to_nat (rx_index d)) in *. assert (i < 8)%nat as Hi by lia.
    match goal with |- context [<[i := ?x]> (rx_desc d)] => set (x' := x) end.
    assert (set_rx (<[i := x']> (rx_desc d)) ((rx_index d + 1) mod 8) d =
      E1000 (regs d) (mac d) (e_bus d) (e_slot d) (e_func d) (tx_desc d) (<[i := x']> (rx_desc d))
            (tx_buffers d) (<[i := row]> (rx_buffers d)) (tx_index d) ((rx_index d + 1) mod 8)) as ->.
    { unfold set_rx. f_equal. symmetry. by apply insert_same. }
    destruct (rx_view_set d i ((rx_index d + 1) mod 8) x' row L2 L4 Hi) as [V1 V2].
    assert (forall o, o ∈ ring_regs -> c_reg (mmio_write d RDT (rx_index d) m) o = if decide (o = RDT) then rx_index d else c_reg m o) as Hw.
    { intros o Ho. apply write_reg; [done|in_regs|done|lia]. }
    split; try done.
    + eapply rings_rx; [exact Hr|done| | |done].
      * intros o (? & ? & ? & ? & ?)%layout_ring. rewrite Hw by done. by rewrite decide_False by done.
      * destruct (rg_rx _ _ _ Hr i Hi) as (desc' & _ & E' & Ha & _). cbn. by simplify_eq.
    + eapply on_ext; [| |exact Hon]; rewrite Hw by in_regs; by rewrite decide_False by done.
    + rewrite Hw by in_regs. by rewrite decide_False by done.
    + rewrite Hw by in_regs. by rewrite decide_False by done.
    + rewrite Hw by in_regs. rewrite decide_False by done. eapply items_ext; [|exact Hout]. done.
    + rewrite Hw by in_regs. rewrite decide_False by done. by apply (orders_ext d).
    + cbn in Hpend. lia.
    + cbn. zdm.
    + rewrite Hw by in_regs. rewrite decide_True by done. cbn. zdm.
    + rewrite Hw by in_regs. rewrite decide_False by done. rewrite Hrdh. cbn [rx_index length]. zdm.
    + cbn [rx_index]. cbn [length] in Hpend. eapply items_pop; [|exact Hin| |].
      * lia.
      * rewrite Hslot, V1. cbn. done.
      * intros k _ Hk. rewrite Hslot in Hk. by apply V2.
Qed.

(** ** Lemmas: start-up *)

(** The structure has its arrays, wherever it lies. *)
Record shaped (d : e1000_device_t) : Prop := {
  sh_lens : length (tx_desc d) = 8%nat /\ length (rx_desc d) = 8%nat /\ length (tx_buffers d) = 8%nat /\ length (rx_buffers d) = 8%nat;
  sh_rows : Forall (fun r => length r = 2048%nat) (tx_buffers d) /\ Forall (fun r => length r = 2048%nat) (rx_buffers d)
}.

(** Filling an array. *)
Lemma fill_descs {A} (f : Z -> A -> A) (ds : list A) : length ds = 8%nat ->
  exists ds', for_each 8 0 (fun i ds => d ← rd ds i; wr ds i (f i d)) ds = Ok ds' /\ length ds' = 8%nat /\
    forall k, (k < 8)%nat -> exists d, ds' !! k = Some (f (Z.of_nat k) d).
Proof.
  intros Hl.
  destruct (for_each_inv (fun i ds' => 0 <= i /\ length ds' = 8%nat /\ forall k, Z.of_nat k < i -> exists d, ds' !! k = Some (f (Z.of_nat k) d)) 8 0
    (fun i ds => d ← rd ds i; wr ds i (f i d)) ds) as (ds' & E & _ & Hl' & Hk).
  - split; [done|]. split; [done|]. intros k Hk. lia.
  - intros i l Hi (_ & Hl' & Hk). destruct (rd_in l i) as (d & -> & Hd); [lia|]. cbn [mbind res_bind].
    rewrite wr_in by lia. eexists. split; [reflexivity|]. split; [lia|]. rewrite length_insert. split; [done|].
    intros k Hki. destruct (decide (k = Z.to_nat i)) as [->|Hne].
    + exists d. rewrite list_lookup_insert_eq by lia. by rewrite Z2Nat.id by lia.
    + rewrite list_lookup_insert_ne by done. apply Hk. lia.
  - exists ds'. split; [exact E|]. split; [done|]. intros k Hk8. apply Hk. lia.
Qed.

Lemma rings_ext reg reg' d : (forall o, o ∈ layout_regs -> reg' o = reg o) -> rings reg a d -> rings reg' a d.
Proof. intros E []. split; rewrite ?E by in_regs; done. Qed.

Lemma ring_inv_ext d m m' rest pend : (forall o, o ∈ ring_regs -> c_reg m' o = c_reg m o) -> ring_inv d m rest pend -> ring_inv d m' rest pend.
Proof.
  intros E []. split; rewrite ?E by in_regs; try done.
  - eapply rings_ext; [|done]. intros o (? & _)%layout_ring. by apply E.
  - eapply on_ext; [..|done]; apply E; in_regs.
Qed.

Lemma row_at (l : list (list Z)) i : length l = 8%nat -> Forall (fun r => length r = 2048%nat) l -> (i < 8)%nat ->
  exists row, l !! i = Some row /\ length row = 2048%nat.
Proof.
  intros Hl H Hi. destruct (lookup_lt_is_Some_2 l i) as [row Hr]; [lia|]. exists row. split; [done|]. by eapply (Forall_lookup_1 _ _ _ _ H).
Qed.

Lemma base_words v : 0 <= v < 2 ^ 64 -> u32 (Z.land v 0xFFFFFFFF) + 2 ^ 32 * u32 (Z.shiftr v 32) = v.
Proof.
  intros H. change 0xFFFFFFFF with (Z.ones 32). rewrite Z.land_ones, Z.shiftr_div_pow2 by lia.
  change (2 ^ 64) with (4294967296 * 4294967296) in H. change (2 ^ 32) with 4294967296. rewrite !u32_small by zdm. zdm.
Qed.

(** The last write of each register counts. *)
Ltac reg_write Hb := repeat (rewrite write_reg; [|exact Hb|in_regs|in_regs|first [apply u32_range|done]];
  first [rewrite decide_True by done|rewrite decide_False by done]).

Lemma setup_ok d m : shaped d -> regs d = c_base -> tx_index d = 0 -> a mod 16 = 8 -> 0 <= a -> a + 33056 <= 2 ^ 64 ->
  exists d1 m1 d2 m2, setup_tx a d m = Ok (d1, m1) /\ setup_rx a d1 m1 = Ok (d2, m2) /\ ring_inv d2 m2 [] [].
Proof.
  intros [(L1 & L2 & L3 & L4) [R1 R2]] Hb Ht Ha Ha0 Ha1. unfold setup_tx, setup_rx.
  destruct (fill_descs (fun i d => TxDesc (u64 (a + TX_BUF_OFF + PACKET_SIZE * i)) 0 0 0 TXD_STAT_DD 0 (t_special d)) (tx_desc d) L1) as (ds1 & E1 & Hl1 & D1).
  destruct (fill_descs (fun i _ => RxDesc (u64 (a + RX_BUF_OFF + PACKET_SIZE * i)) 0 0 0 0 0) (rx_desc d) L2) as (ds2 & E2 & Hl2 & D2).
  change (Z.to_nat NUM_TX_DESC) with 8%nat. change (Z.to_nat NUM_RX_DESC) with 8%nat. rewrite E1. cbn [mbind res_bind mret res_ret].
  eexists _, _, _, _. split; [reflexivity|]. cbn [set_tx rx_desc]. rewrite E2. cbn [mbind res_bind mret res_ret]. split; [reflexivity|].
  change (2 ^ 64) with 18446744073709551616 in Ha1.
  assert (u64 (a + TX_DESC_OFF) = a + TX_DESC_OFF) as -> by (apply u64_small; unfold TX_DESC_OFF; lia).
  assert (u64 (a + RX_DESC_OFF) = a + RX_DESC_OFF) as -> by (apply u64_small; unfold RX_DESC_OFF; lia).
  split; cbn [set_tx set_rx regs tx_index rx_index length]; rewrite ?Ht.
  - split; cbn [set_tx set_rx tx_desc rx_desc tx_buffers rx_buffers]; try done.
    + reg_write Hb. apply base_words. unfold TX_DESC_OFF. change (2 ^ 64) with 18446744073709551616. lia.
    + by reg_write Hb.
    + intros i Hi. destruct (D1 i Hi) as (x & Ex). destruct (row_at _ i L3 R1 Hi) as (row & Er & Hr). exists (TxDesc (u64 (a + TX_BUF_OFF + PACKET_SIZE * Z.of_nat i)) 0 0 0 TXD_STAT_DD 0 (t_special x)), row.
      split; [done|]. split; [|done]. cbn. unfold TX_BUF_OFF, PACKET_SIZE. rewrite u64_small by lia. lia.
    + reg_write Hb. apply base_words. unfold RX_DESC_OFF. change (2 ^ 64) with 18446744073709551616. lia.
    + by reg_write Hb.
    + intros i Hi. destruct (D2 i Hi) as (x & Ex). destruct (row_at _ i L4 R2 Hi) as (row & Er & Hr). exists (RxDesc (u64 (a + RX_BUF_OFF + PACKET_SIZE * Z.of_nat i)) 0 0 0 0 0), row.
      split; [done|]. split; [|done]. cbn. unfold RX_BUF_OFF, PACKET_SIZE. rewrite u64_small by lia. lia.
  - exact Hb.
  - unfold tx_on, rx_on. split_and!; by reg_write Hb.
  - lia.
  - lia.
  - by reg_write Hb.
  - by reg_write Hb.
  - split; [done|]. intros j Hj. match goal with |- context [slot ?h _] => set (k := slot h (Z.of_nat j)) end.
    assert (k < 8)%nat as Hk by apply slot_lt. destruct (D1 k Hk) as (x & Ex). destruct (row_at _ k L3 R1 Hk) as (row & Er & _).
    unfold tx_view. cbn [set_tx set_rx tx_desc tx_buffers]. rewrite Ex, Er. by eexists _, _.
  - intros j Hj. lia.
  - lia.
  - lia.
  - by reg_write Hb.
  - by reg_write Hb.
  - split; [done|]. intros j Hj. destruct (D2 (slot 0 (Z.of_nat j)) (slot_lt _ _)) as (x & Ex).
    destruct (row_at _ _ L4 R2 (slot_lt 0 (Z.of_nat j))) as (row & Er & _).
    unfold rx_view. cbn [set_tx set_rx rx_desc rx_buffers]. rewrite Ex, Er. by eexists _, _.
  - constructor.
Qed.

Lemma print_hex32_eq v t : print_hex32 v t = term_puts (hexn 8 v) t.
Proof.
  unfold print_hex32. change (Z.to_nat 8) with 8%nat. cbn [for_each]. rewrite !hex_nibble. cbn [mbind res_bind mret res_ret].
  repeat (rewrite wr_in by (rewrite ?length_insert; cbn; lia); cbn [mbind res_bind mret res_ret]; rewrite ?hex_nibble; cbn [mbind res_bind mret res_ret]).
  cbn [hexn app]. rewrite <- !(Z.shiftr_div_pow2 _ 4) by lia. done.
Qed.

Lemma puts_hex_ok name v t : term_wf t -> crt_ok t -> exists t', puts_hex name v t = Ok t' /\ term_wf t' /\ crt_ok t'.
Proof.
  intros Ht Hc. unfold puts_hex. destruct (term_puts_ok name t Ht Hc) as (t1 & -> & H1 & C1). cbn [mbind res_bind].
  rewrite print_hex32_eq. destruct (term_puts_ok (hexn 8 v) t1 H1 C1) as (t2 & -> & H2 & C2). cbn [mbind res_bind].
  by apply term_puts_ok.
Qed.

(** Reading a register leaves the rings alone. *)
Lemma read_inv d m off rest pend : off ∈ ring_regs -> ring_inv d m rest pend -> ring_inv d (snd (mmio_read d off m)) rest pend.
Proof.
  intros Ho H. eapply ring_inv_ext; [|exact H]. intros o Ho'. unfold mmio_read. rewrite (ri_base _ _ _ _ H), (Z.mul_comm 4), (reg_in off Ho).
  by apply c_read.
Qed.

Context {B : Type} `{!pci_ports B, !pci_bus B}.

(** The printing steps of [e1000_init]. *)
Ltac print_step := match goal with
  | Ht : term_wf ?t, Hc : crt_ok ?t |- context [term_puts ?s ?t] => destruct (term_puts_ok s t Ht Hc) as (? & -> & ? & ?); clear Ht Hc
  | Ht : term_wf ?t, Hc : crt_ok ?t |- context [puts_hex ?s ?v ?t] => destruct (puts_hex_ok s v t Ht Hc) as (? & -> & ? & ?); clear Ht Hc
  end; cbn [mbind res_bind].

(** Bus mastering is on: the bit of the command register, which a device that
    can be a master lets be written. *)
Lemma bus_master_on (b : B) bus slot func : b_ok b -> in_bus (bus, slot, func) ->
  let addr := make_address bus slot func PCI_COMMAND in
  (forall v old, Z.testbit (b_put addr v old) 2 = Z.testbit v 2) ->
  let b' := enable_bus_mastering bus slot func b in
  b_ok b' /\ Z.testbit (reg_of b' (bus, slot, func) PCI_COMMAND) 2 = true /\ forall x, x <> addr -> b_cfg b' x = b_cfg b x.
Proof.
  intros Hb Hf addr Hw b'. destruct (enable_bus_mastering_ok b bus slot func Hb Hf) as [Hb' Hc]. fold b' in Hb', Hc. split; [done|]. split.
  - unfold reg_of. fold addr. rewrite Hc, decide_True by done. fold addr. rewrite Hw.
    set (old := reg_of b (bus, slot, func) PCI_COMMAND). set (low := Z.lor (old mod 2 ^ 16) 4).
    replace (old - old mod 2 ^ 16) with (old / 2 ^ 16 * 2 ^ 16) by zdm.
    rewrite <- (Z.mod_pow2_bits_low _ 16) by lia. rewrite Z.add_comm, Z.mod_add by done. rewrite Z.mod_pow2_bits_low by lia.
    unfold low. rewrite Z.lor_spec. change (Z.testbit 4 2) with true. apply orb_true_r.
  - intros x Hx. rewrite Hc. by rewrite decide_False by done.
Qed.

Lemma e1000_init_ok d p t (b : B) m bar0 bars : shaped d -> bar p = bar0 :: bars -> Z.land bar0 0xFFFFFFF0 = c_base ->
  a mod 16 = 8 -> 0 <= a -> a + 33056 <= 2 ^ 64 -> term_wf t -> crt_ok t -> b_ok b -> in_bus (d_bus p, d_slot p, d_func p) ->
  exists d' t' m', e1000_init a (Some d) (Some p) t b m =
      Ok (0, Some d', t', enable_bus_mastering (d_bus p) (d_slot p) (d_func p) b, m') /\
    ring_inv d' m' [] [] /\ mac d' = mac d /\ term_wf t' /\ crt_ok t'.
Proof.
  intros Hsh Hbar Hbase Ha Ha0 Ha1 Ht Hc Hb Hp. unfold e1000_init. rewrite Hbar. change (rd (bar0 :: bars) 0) with (Ok bar0). cbn [mbind res_bind].
  do 5 print_step. match goal with |- context [setup_tx a ?x m] => set (d0 := x) end.
  destruct (setup_ok d0 m) as (d1 & m1 & d2 & m2 & E1 & E2 & Hinv); [destruct Hsh; by split|done..|].
  rewrite E1. cbn [mbind res_bind]. rewrite E2. cbn [mbind res_bind].
  assert (mac d2 = mac d) as Hmac.
  { unfold setup_tx in E1. unfold setup_rx in E2. res_inv. done. }
  pose proof (read_inv d2 m2 RDH _ _ ltac:(in_regs) Hinv) as I1. destruct (mmio_read d2 RDH m2) as [v1 m3]. cbn [snd] in I1. print_step.
  pose proof (read_inv d2 m3 RDT _ _ ltac:(in_regs) I1) as I2. destruct (mmio_read d2 RDT m3) as [v2 m4]. cbn [snd] in I2. print_step.
  pose proof (read_inv d2 m4 RCTL _ _ ltac:(in_regs) I2) as I3. destruct (mmio_read d2 RCTL m4) as [v3 m5]. cbn [snd] in I3. print_step.
  print_step. eexists d2, _, m5. split; [reflexivity|]. done.
Qed.

(** ** Lemmas: histories *)

Lemma in_order_out n rest pend : in_order n rest pend -> (length (queued n) - length (sent n))%nat = length rest.
Proof. intros [-> _]. rewrite length_app. lia. Qed.

Lemma step_ok limit n n' rest pend : ring_inv (n_dev n) (n_mm n) rest pend -> in_order n rest pend -> step limit n n' ->
  exists rest' pend', ring_inv (n_dev n') (n_mm n') rest' pend' /\ in_order n' rest' pend' /\
    (length rest' <= Nat.max (length rest) limit)%nat /\
    (length rest = 8%nat -> rest' = rest /\ sent n' = sent n /\ queued n' = queued n).
Proof.
  intros Hinv Hord Hs. pose proof (in_order_out n rest pend Hord) as Hout. destruct Hord as (Hq & got & Har & Htk).
  destruct Hs as [d m q s ar tk data len r d' m' Hlim Hlen Hlen0 E|d m q s ar tk f d' m' E|d m q s ar tk p d' m' E|d m q s ar tk buf size r d' buf' m' Hsize E];
    cbn [n_dev n_mm queued sent arrived taken] in *.
  - pose proof (send_ok d m rest pend data len Hinv Hlen0 ltac:(lia)) as H.
    destruct ((len =? 0) || (PACKET_SIZE <? len) || (8 <=? length rest)%nat) eqn:Eg.
    + rewrite E in H. injection H as -> -> ->. exists rest, pend. split; [done|]. split; [by split; [|exists got]|]. split; [lia|done].
    + destruct H as (d2 & m2 & E2 & H). rewrite E in E2. injection E2 as -> -> ->. apply orb_false_iff in Eg as [_ Eg]. apply Nat.leb_gt in Eg.
      exists (rest ++ [take (Z.to_nat len) data]), pend. split; [done|]. split.
      { split; cbn; [by rewrite Hq, app_assoc|by exists got]. }
      rewrite length_app. cbn [length]. split; lia.
  - destruct (sent_ok d m rest pend f d' m' Hinv E) as (rest' & -> & H). exists rest', pend. split; [done|]. split.
    { split; cbn; [by rewrite Hq, <- app_assoc|by exists got]. }
    cbn [length]. split; [lia|]. intros H8. exfalso.
    destruct Hinv as [Hr _ _ _ Ht Htdt Htdh]. destruct (c_works a d m _ d' m' Hr E) as [_ Hne]. apply Hne. rewrite Htdt, Htdh. cbn [length]. rewrite H8. zdm.
  - exists rest, (pend ++ [p]). split; [by eapply arrived_ok|]. split.
    { split; cbn; [done|]. exists got. by rewrite Har, app_assoc. }
    split; [lia|done].
  - pose proof (receive_ok d m rest pend buf size Hinv Hsize) as H. destruct pend as [|p pend].
    + destruct H as [-> H]. rewrite E in H. injection H as -> -> -> ->. exists rest, []. split; [done|]. split; [by split; [|exists got]|]. split; [lia|done].
    + destruct H as (-> & d2 & m2 & E2 & H). rewrite E in E2. injection E2 as -> -> -> ->. exists rest, pend. split; [done|]. split.
      { split; cbn; [done|]. exists (got ++ [p]). split; [by rewrite Har, <- app_assoc|]. apply Forall2_app; [done|].
        constructor; [|constructor]. exists (Z.to_nat (Z.min size (Z.of_nat (length p)))).
        rewrite take_app_le, take_take by (rewrite length_take; lia). f_equal. lia. }
      split; [lia|done].
Qed.

Lemma steps_ok limit n n' rest pend : (limit <= 8)%nat -> (length rest <= limit)%nat -> ring_inv (n_dev n) (n_mm n) rest pend ->
  in_order n rest pend -> rtc (step limit) n n' ->
  exists rest' pend', ring_inv (n_dev n') (n_mm n') rest' pend' /\ in_order n' rest' pend' /\ (length rest' <= limit)%nat.
Proof.
  intros Hl Hr Hinv Hord Hs. revert rest pend Hr Hinv Hord. induction Hs as [n|n n1 n' H1 _ IH]; intros rest pend Hr Hinv Hord; [by exists rest, pend|].
  destruct (step_ok limit n n1 rest pend Hinv Hord H1) as (rest1 & pend1 & I1 & O1 & L1 & _). apply (IH rest1 pend1); [lia|done|done].
Qed.

(** A full ring stays full. *)
Lemma stuck_ok limit n n' rest pend : length rest = 8%nat -> ring_inv (n_dev n) (n_mm n) rest pend -> in_order n rest pend ->
  rtc (step limit) n n' -> exists pend', ring_inv (n_dev n') (n_mm n') rest pend' /\ sent n' = sent n /\ queued n' = queued n.
Proof.
  intros H8 Hinv Hord Hs. revert pend Hinv Hord. induction Hs as [n|n n1 n' H1 _ IH]; intros pend Hinv Hord; [by exists pend|].
  destruct (step_ok limit n n1 rest pend Hinv Hord H1) as (rest1 & pend1 & I1 & O1 & _ & Hst). destruct (Hst H8) as (-> & Hs & Hq).
  destruct (IH pend1 I1 O1) as (pend' & H & E1 & E2). exists pend'. split; [done|]. by rewrite E1, E2.
Qed.

(** Sends without a step of the card. *)
Lemma sends_ok frames : forall d m q s ar tk rest pend, Forall (fun f => (0 < length f <= 2048)%nat) frames ->
  (length rest + length frames <= 8)%nat -> ring_inv d m rest pend -> in_order (Net d m q s ar tk) rest pend ->
  exists d' m', rtc (step 8) (Net d m q s ar tk) (Net d' m' (q ++ frames) s ar tk) /\ ring_inv d' m' (rest ++ frames) pend.
Proof.
  induction frames as [|f frames IH]; intros d m q s ar tk rest pend Hf Hl Hinv Hord.
  { exists d, m. rewrite !app_nil_r. split; [constructor|done]. }
  apply Forall_cons in Hf as [Hf0 Hf]. cbn [length] in Hl.
  pose proof (send_ok d m rest pend f (Z.of_nat (length f)) Hinv ltac:(lia) ltac:(lia)) as H.
  assert ((Z.of_nat (length f) =? 0) || (PACKET_SIZE <? Z.of_nat (length f)) || (8 <=? length rest)%nat = false) as Eg.
  { unfold PACKET_SIZE. rewrite (proj2 (Z.eqb_neq _ 0)), (proj2 (Z.ltb_ge _ _)), (proj2 (Nat.leb_gt _ _)) by lia. done. }
  rewrite Eg in H. destruct H as (d1 & m1 & E & H). rewrite Nat2Z.id, firstn_all in H.
  assert (step 8 (Net d m q s ar tk) (Net d1 m1 (q ++ [f]) s ar tk)) as Hstep.
  { pose proof (step_send 8 d m q s ar tk f (Z.of_nat (length f)) 0 d1 m1) as Hst. rewrite Nat2Z.id, firstn_all in Hst.
    apply Hst; [|lia|lia|done]. pose proof (in_order_out _ _ _ Hord) as Ho. cbn in Ho. lia. }
  destruct (IH d1 m1 (q ++ [f]) s ar tk (rest ++ [f]) pend Hf) as (d' & m' & Hrun & Hinv'); [rewrite length_app; cbn; lia|done| |].
  { destruct Hord as (Hq & got & Har & Htk). cbn in *. split; cbn; [by rewrite Hq, app_assoc|by exists got]. }
  exists d', m'. rewrite <- !app_assoc in *. split; [by eapply rtc_l|done].
Qed.

(** ** Properties *)

(** C36. [e1000_init] brings the card up: it reports success; the bus-master bit
    of the card's command register is set, where the device lets that bit be
    written, and no other register of the bus has changed; the transmitter is
    on, the receiver is on and takes broadcasts; and both rings are empty and
    laid out as the card expects, with every receive buffer but one handed to
    the card - when the structure lies so that the descriptor arrays are
    aligned to 16 bytes, which the code does not ensure. *)
Theorem e1000_init_ready d p t (b : B) m bar0 bars : shaped d -> bar p = bar0 :: bars -> Z.land bar0 0xFFFFFFF0 = c_base ->
  a mod 16 = 8 -> 0 <= a -> a + 33056 <= 2 ^ 64 -> term_wf t -> crt_ok t -> b_ok b -> in_bus (d_bus p, d_slot p, d_func p) ->
  let addr := make_address (d_bus p) (d_slot p) (d_func p) PCI_COMMAND in
  (forall v old, Z.testbit (b_put addr v old) 2 = Z.testbit v 2) ->
  exists d' t' b' m', e1000_init a (Some d) (Some p) t b m = Ok (0, Some d', t', b', m') /\
    b_ok b' /\ Z.testbit (reg_of b' (d_bus p, d_slot p, d_func p) PCI_COMMAND) 2 = true /\ (forall x, x <> addr -> b_cfg b' x = b_cfg b x) /\
    Z.testbit (c_reg m' TCTL) 1 = true /\ Z.testbit (c_reg m' RCTL) 1 = true /\ Z.testbit (c_reg m' RCTL) 15 = true /\
    ring_inv d' m' [] [] /\ mac d' = mac d /\ term_wf t' /\ crt_ok t'.
Proof.
  intros Hsh Hbar Hbase Ha Ha0 Ha1 Ht Hc Hb Hp addr Hw.
  destruct (e1000_init_ok d p t b m bar0 bars Hsh Hbar Hbase Ha Ha0 Ha1 Ht Hc Hb Hp) as (d' & t' & m' & E & I & H).
  destruct (bus_master_on b _ _ _ Hb Hp Hw) as (Hb' & Hbit & Hrest). destruct (ri_on _ _ _ _ I) as [[Htx _] (Hrx & Hbc & _)].
  eexists d', t', _, m'. split; [exact E|]. done.
Qed.


(** Eight frames sent before the card has taken one stop the card for ever:
    all eight are accepted, the tail has come round to the head, which means an
    empty ring to the card, and from then on whatever either side does no frame
    goes out and [e1000_send] refuses every frame. *)
Theorem tx_ring_full_stalls d m frames : ring_inv d m [] [] -> length frames = 8%nat -> Forall (fun f => (0 < length f <= 2048)%nat) frames ->
  exists n, rtc (step 8) (Net d m [] [] [] []) n /\ queued n = frames /\
    forall limit n', rtc (step limit) n n' -> sent n' = [] /\ queued n' = frames /\
      forall data len, 0 <= len -> len <= Z.of_nat (length data) ->
        e1000_send (Some (n_dev n')) (Some data) len (n_mm n') = Ok (-1, Some (n_dev n'), n_mm n').
Proof.
  intros Hinv H8 Hf. assert (in_order (Net d m [] [] [] []) [] []) as Hord by (split; [done|]; exists []; by split).
  destruct (sends_ok frames d m [] [] [] [] [] [] Hf ltac:(cbn; lia) Hinv Hord) as (d' & m' & Hrun & Hinv').
  eexists. split; [exact Hrun|]. split; [done|]. intros limit n' Hs.
  destruct (stuck_ok limit (Net d' m' ([] ++ frames) [] [] []) n' ([] ++ frames) [] ltac:(done) Hinv') as (pend' & I & E1 & E2); [by split; [|exists []]|done|].
  split; [done|]. split; [done|]. intros data len Hlen Hd. pose proof (send_ok _ _ _ _ data len I Hlen Hd) as H.
  rewrite (proj2 (Nat.leb_le 8 _)) in H by (cbn; lia). by rewrite orb_true_r in H.
Qed.
End card.

(** ** Witnesses: a card with its registers at 0xFEBC0000 *)

Definition WIT_BASE : Z := 0xFEBC0000.

Definition wit_mmio : mmio (Z -> Z) := {|
  mm_write a v m := fun x => if x =? a then v else m x;
  mm_read a m := (m a, m) |}.

(** The card: what one event leaves, when it can happen. *)
Definition wit_run (s : e1000_device_t * (Z -> Z)) (e : card_event) : option (e1000_device_t * (Z -> Z)) :=
  let '(d, m) := s in
  match e with
  | Sent f =>
      let h := Z.to_nat (m (WIT_BASE + TDH)) in
      if negb (Z.testbit (m (WIT_BASE + TCTL)) 1) || (m (WIT_BASE + TDH) =? m (WIT_BASE + TDT)) then None
      else
        x ← tx_desc d !! h; row ← tx_buffers d !! h;
        if decide (Z.land (t_cmd x) 0x09 = 0x09 /\ f = take (Z.to_nat (t_length x)) row) then
          Some (set_tx (<[h := TxDesc (t_addr x) (t_length x) (t_cso x) (t_cmd x) 1 (t_css x) (t_special x)]> (tx_desc d))
                       (tx_buffers d) (tx_index d) d,
                fun a => if a =? WIT_BASE + TDH then (m (WIT_BASE + TDH) + 1) mod 8 else m a)
        else None
  | Arrived p =>
      let h := Z.to_nat (m (WIT_BASE + RDH)) in
      if negb (Z.testbit (m (WIT_BASE + RCTL)) 1) || (m (WIT_BASE + RDH) =? m (WIT_BASE + RDT)) || (2048 <? length p)%nat then None
      else
        x ← rx_desc d !! h; row ← rx_buffers d !! h;
        Some (E1000 (regs d) (mac d) (e_bus d) (e_slot d) (e_func d) (tx_desc d)
                (<[h := RxDesc (r_addr x) (Z.of_nat (length p)) 0 3 0 0]> (rx_desc d))
                (tx_buffers d) (<[h := p ++ drop (length p) row]> (rx_buffers d)) (tx_index d) (rx_index d),
              fun a => if a =? WIT_BASE + RDH then (m (WIT_BASE + RDH) + 1) mod 8 else m a)
  end.

Lemma add_eqb b o r : (b + o =? b + r) = bool_decide (o = r).
Proof. destruct (Z.eqb_spec (b + o) (b + r)); symmetry; [apply bool_decide_eq_true|apply bool_decide_eq_false]; lia. Qed.

Lemma wit_run_sent d m f s' : wit_run (d, m) (Sent f) = Some s' ->
  let h := Z.to_nat (m (WIT_BASE + TDH)) in
  Z.testbit (m (WIT_BASE + TCTL)) 1 = true /\ m (WIT_BASE + TDH) <> m (WIT_BASE + TDT) /\
  exists x row, tx_desc d !! h = Some x /\ tx_buffers d !! h = Some row /\ f = take (Z.to_nat (t_length x)) row /\
    s' = (set_tx (<[h := TxDesc (t_addr x) (t_length x) (t_cso x) (t_cmd x) 1 (t_css x) (t_special x)]> (tx_desc d)) (tx_buffers d) (tx_index d) d,
          fun a => if a =? WIT_BASE + TDH then (m (WIT_BASE + TDH) + 1) mod 8 else m a).
Proof.
  intros H h. unfold wit_run in H. fold h in H. destruct (Z.testbit _ 1); [|done]. cbn [negb orb] in H.
  destruct (Z.eqb_spec (m (WIT_BASE + TDH)) (m (WIT_BASE + TDT))) as [|Hne]; [done|].
  destruct (tx_desc d !! h) as [x|] eqn:Ex; [|done]. destruct (tx_buffers d !! h) as [row|] eqn:Er; [|done]. cbn [mbind option_bind] in H.
  case_decide as Hf; [|done]. injection H as <-. split; [done|]. split; [done|]. exists x, row. destruct Hf. done.
Qed.

Lemma wit_run_arrived d m p s' : wit_run (d, m) (Arrived p) = Some s' ->
  let h := Z.to_nat (m (WIT_BASE + RDH)) in
  Z.testbit (m (WIT_BASE + RCTL)) 1 = true /\ m (WIT_BASE + RDH) <> m (WIT_BASE + RDT) /\ (length p <= 2048)%nat /\
  exists x row, rx_desc d !! h = Some x /\ rx_buffers d !! h = Some row /\
    s' = (E1000 (regs d) (mac d) (e_bus d) (e_slot d) (e_func d) (tx_desc d)
            (<[h := RxDesc (r_addr x) (Z.of_nat (length p)) 0 3 0 0]> (rx_desc d))
            (tx_buffers d) (<[h := p ++ drop (length p) row]> (rx_buffers d)) (tx_index d) (rx_index d),
          fun a => if a =? WIT_BASE + RDH then (m (WIT_BASE + RDH) + 1) mod 8 else m a).
Proof.
  intros H h. unfold wit_run in H. fold h in H. destruct (Z.testbit _ 1); [|done]. cbn [negb orb] in H.
  destruct (Z.eqb_spec (m (WIT_BASE + RDH)) (m (WIT_BASE + RDT))) as [|Hne]; [done|].
  destruct (Nat.ltb_spec 2048 (length p)) as [|Hp]; [done|]. cbn [orb] in H.
  destruct (rx_desc d !! h) as [x|] eqn:Ex; [|done]. destruct (rx_buffers d !! h) as [row|] eqn:Er; [|done]. cbn [mbind option_bind] in H.
  injection H as <-. split; [done|]. split; [done|]. split; [lia|]. by exists x, row.
Qed.

Lemma wit_reg (m : Z -> Z) r v o : (if WIT_BASE + o =? WIT_BASE + r then v else m (WIT_BASE + o)) = if decide (o = r) then v else m (WIT_BASE + o).
Proof. rewrite add_eqb. by destruct (decide (o = r)); [rewrite bool_decide_eq_true_2|rewrite bool_decide_eq_false_2]. Qed.

Lemma wit_e1000 : @e1000_card (Z -> Z) wit_mmio.
Proof.
  refine (@Card _ wit_mmio WIT_BASE (fun m o => m (WIT_BASE + o)) (fun s e s' => wit_run s e = Some s') _ _ _ _ _ _ _).
  - intros m off v _ _ o _. apply wit_reg.
  - done.
  - intros a d m [f|p] d' m' _ H.
    + by destruct (wit_run_sent _ _ _ _ H) as (? & ? & _).
    + by destruct (wit_run_arrived _ _ _ _ H) as (? & ? & _).
  - intros a d m f _ [Htx _] Hne (x & row & Ex & Er & Ho & Hf). cbv beta in *. unfold wit_run. rewrite Htx, (proj2 (Z.eqb_neq _ _) Hne). cbn [negb orb].
    rewrite Ex, Er. cbn [mbind option_bind]. rewrite decide_True; [by eexists|]. split; [|done].
    unfold ordered in Ho. change 0x09 with (Z.land 0x7F 0x09). by rewrite Z.land_assoc, Ho.
  - intros a d m f g d' m' _ (x & row & Ex & Er & _ & Hg) H h. cbv beta in *. destruct (wit_run_sent _ _ _ _ H) as (_ & _ & x' & row' & Ex' & Er' & -> & [= -> ->]).
    rewrite Ex in Ex'. injection Ex' as <-. rewrite Er in Er'. injection Er' as <-. split; [done|]. split.
    + intros o _. apply wit_reg.
    + by exists x, 1.
  - intros a d m p Hr (Hrx & _) Hh Hne [_ Hp]. cbv beta in *. unfold wit_run. rewrite Hrx, (proj2 (Z.eqb_neq _ _) Hne).
    rewrite (proj2 (Nat.ltb_ge _ _)) by lia. cbn [negb orb].
    destruct (rg_rx _ _ _ Hr (Z.to_nat (m (WIT_BASE + RDH)))) as (x & row & -> & _ & -> & _); [lia|]. by eexists.
  - intros a d m p d' m' _ _ H h. destruct (wit_run_arrived _ _ _ _ H) as (_ & _ & Hp & x & row & Ex & Er & [= -> ->]). split.
    + intros o _. apply wit_reg.
    + split; [done|]. by exists x, row, 3, 0, 0, 0.
Defined.

Definition wit_dev : e1000_device_t :=
  E1000 0 (replicate 6 0) 0 0 0 (replicate 8 (TxDesc 0 0 0 0 0 0 0)) (replicate 8 (RxDesc 0 0 0 0 0 0))
        (replicate 8 (replicate 2048 0)) (replicate 8 (replicate 2048 0)) 0 0.

Definition wit_pci : device_s := Device 0 3 0 0x8086 0x100E 2 0 [0xFEBC0000; 0; 0; 0; 0; 0].

Lemma wit_shaped : shaped wit_dev.
Proof. split; [done|]. split; apply Forall_replicate; apply length_replicate. Qed.

Lemma e1000_init_ready_witness : exists d' t' b' m',
  @e1000_init _ wit_mmio _ mem_ports 0x200008 (Some wit_dev) (Some wit_pci) wit_term (0, wit_card) (fun _ => 0) = Ok (0, Some d', t', b', m') /\
  @ring_inv _ wit_mmio wit_e1000 0x200008 d' m' [] [] /\
  Z.testbit (@reg_of _ mem_ports mem_bus b' (0, 3, 0) PCI_COMMAND) 2 = true /\ Z.testbit (m' (WIT_BASE + TCTL)) 1 = true.
Proof.
  destruct (@e1000_init_ready _ wit_mmio wit_e1000 0x200008 _ mem_ports mem_bus wit_dev wit_pci wit_term (0, wit_card) (fun _ => 0)
    0xFEBC0000 [0; 0; 0; 0; 0] wit_shaped eq_refl eq_refl eq_refl ltac:(lia) ltac:(cbn; lia) (proj1 wit_term_wf) (proj2 wit_term_wf) wit_card_ok ltac:(cbn; lia)
    ltac:(done)) as (d' & t' & b' & m' & E & _ & Hbit & _ & Htx & _ & _ & H & _).
  exists d', t', b', m'. split; [exact E|]. split; [exact H|]. split; [exact Hbit|exact Htx].
Defined.

(** The rings after start-up. *)
Lemma wit_started : exists d t b m,
  @e1000_init _ wit_mmio _ mem_ports 0x200008 (Some wit_dev) (Some wit_pci) wit_term (0, wit_card) (fun _ => 0) = Ok (0, Some d, t, b, m) /\
  @ring_inv _ wit_mmio wit_e1000 0x200008 d m [] [] /\ length (mac d) = 6%nat.
Proof.
  destruct (@e1000_init_ok _ wit_mmio wit_e1000 0x200008 _ mem_ports mem_bus wit_dev wit_pci wit_term (0, wit_card) (fun _ => 0)
    0xFEBC0000 [0; 0; 0; 0; 0] wit_shaped eq_refl eq_refl eq_refl ltac:(lia) ltac:(cbn; lia) (proj1 wit_term_wf) (proj2 wit_term_wf) wit_card_ok ltac:(cbn; lia))
    as (d' & t' & m' & E & H & Hmac & _).
  eexists d', t', _, m'. split; [exact E|]. split; [exact H|]. by rewrite Hmac.
Qed.

Lemma wit_rings_ready : exists d m, @ring_inv _ wit_mmio wit_e1000 0x200008 d m [] [] /\ length (mac d) = 6%nat.
Proof. destruct wit_started as (d & t & b & m & _ & H). by exists d, m. Qed.


Lemma tx_ring_full_stalls_witness : exists d m n, rtc (@step _ wit_mmio wit_e1000 8) (Net d m [] [] [] []) n /\ queued n = replicate 8 [7].
Proof.
  destruct wit_rings_ready as (d & m & H & _).
  destruct (@tx_ring_full_stalls _ wit_mmio wit_e1000 0x200008 d m (replicate 8 [7]) H eq_refl) as (n & Hs & Hq & _).
  { apply Forall_replicate. cbn. lia. }
  exists d, m, n. split; [exact Hs|exact Hq].
Defined.
