(* ===== verification/Ether.v ===== *)
(** * Ethernet frames ([drivers/net/ethernet.c])

    A frame is built in an array on the stack and handed to the card.  The
    array is not initialised: its contents are an argument, and the theorem
    shows that none of them are sent. *)
From S2P Require Import Prelude Str E1000.

Definition ETH_ADDR_LEN : Z := 6.
Definition ETH_HEADER_LEN : Z := 14.

Definition swap16 (value : Z) : Z := u16 (Z.lor (Z.shiftr value 8) (Z.shiftl value 8)).

Section driver.
Context {M : Type} `{!mmio M}.

(** The loop over the two addresses. *)
Definition put_addrs (dest mac frame : list Z) : res (list Z) :=
  for_each 6 0 (fun i frame =>
    c ← rd dest i; frame ← wr frame i c; c ← rd mac i; wr frame (ETH_ADDR_LEN + i) c) frame.

(** [frame] is what the stack holds. *)
Definition ethernet_send (frame : list Z) (dev : option e1000_device_t) (dest : option (list Z)) (type : Z)
  (payload : option (list Z)) (payload_len : Z) (m : M) : res (Z * option e1000_device_t * M) :=
  match dev, dest, payload with
  | Some d, Some dst, Some bytes =>
      if 1500 <? payload_len then mret (-1, dev, m)
      else
        frame ← put_addrs dst (mac d) frame;
        let t := swap16 type in
        frame ← wr frame 12 (Z.land t 0xFF); frame ← wr frame 13 (Z.shiftr t 8);
        frame ← for_each (Z.to_nat payload_len) 0 (fun i frame => c ← rd bytes i; wr frame (ETH_HEADER_LEN + i) c) frame;
        e1000_send dev (Some frame) (u16 (ETH_HEADER_LEN + payload_len)) m
  | _, _, _ => mret (-1, dev, m)
  end.

Definition ethernet_receive (dev : option e1000_device_t) (buffer : option (list Z)) (buffer_size : Z) (m : M)
  : res (Z * option e1000_device_t * option (list Z) * M) := e1000_receive dev buffer buffer_size m.
End driver.

(** ** Specification *)

(** The bytes on the wire. *)
Definition ether_frame (dest src : list Z) (type : Z) (payload : list Z) : list Z :=
  take 6 dest ++ take 6 src ++ [type / 256; type mod 256] ++ payload.

(** ** Lemmas *)

Lemma swap16_bytes t : 0 <= t < 65536 -> Z.land (swap16 t) 0xFF = t / 256 /\ Z.shiftr (swap16 t) 8 = t mod 256.
Proof.
  intros H. assert (swap16 t = t / 256 + t mod 256 * 256) as ->.
  { unfold swap16. rewrite Z.shiftr_div_pow2, Z.lor_comm by lia. change (2 ^ 8) with 256.
    rewrite Z.lor_comm. rewrite lor_shift by (change (2 ^ 8) with 256; zdm). change (2 ^ 8) with 256. unfold u16. zdm. }
  change 0xFF with (Z.ones 8). rewrite Z.land_ones, Z.shiftr_div_pow2 by lia. change (2 ^ 8) with 256. zdm.
Qed.

Lemma put_addrs_ok dest src frame : (6 <= length dest)%nat -> (6 <= length src)%nat -> (12 <= length frame)%nat ->
  put_addrs dest src frame = Ok (take 6 dest ++ take 6 src ++ drop 12 frame).
Proof.
  intros Hd Hs Hf. unfold put_addrs. set (A := take 6 frame). set (B := take 6 (drop 6 frame)).
  assert (length A = 6%nat) as HA by (unfold A; rewrite length_take; lia).
  assert (length B = 6%nat) as HB by (unfold B; rewrite length_take, length_drop; lia).
  assert (frame = A ++ B ++ drop 12 frame) as Ef by (unfold A, B; change 12%nat with (6 + 6)%nat; by rewrite <- drop_drop, !take_drop).
  set (R := drop 12 frame) in *. clearbody A B R. subst frame.
  destruct (for_each_inv (fun i f => 0 <= i /\ f = (take (Z.to_nat i) dest ++ drop (Z.to_nat i) A) ++ (take (Z.to_nat i) src ++ drop (Z.to_nat i) B) ++ R)
    6 0 (fun i frame => c ← rd dest i; frame ← wr frame i c; c ← rd src i; wr frame (ETH_ADDR_LEN + i) c) (A ++ B ++ R)) as (f & E & _ & ->).
  - split; [done|]. done.
  - intros i f Hi [_ ->]. set (k := Z.to_nat i). unfold ETH_ADDR_LEN.
    assert (length (take k dest ++ drop k A) = 6%nat) as L1 by (rewrite length_app, length_take, length_drop; lia).
    assert (length (take k src ++ drop k B) = 6%nat) as L2 by (rewrite length_app, length_take, length_drop; lia).
    destruct (rd_in dest i) as (c & -> & Hc); [lia|]. cbn [mbind res_bind]. fold k in Hc.
    rewrite wr_in by (rewrite !(length_app (_ ++ _)); lia). cbn [mbind res_bind]. fold k.
    rewrite insert_app_l by lia. rewrite put_next by (done || lia).
    destruct (rd_in src i) as (c' & -> & Hc'); [lia|]. cbn [mbind res_bind]. fold k in Hc'.
    assert (length (take (S k) dest ++ drop (S k) A) = 6%nat) as L3 by (rewrite length_app, length_take, length_drop; lia).
    rewrite wr_in by (rewrite !(length_app (_ ++ _)); lia). eexists. split; [reflexivity|]. split; [lia|].
    rewrite insert_app_r_alt by lia. rewrite L3. replace (Z.to_nat (6 + i) - 6)%nat with k by lia.
    rewrite insert_app_l by lia. rewrite put_next by (done || lia). by replace (Z.to_nat (i + 1)) with (S k) by lia.
  - rewrite E. change (Z.to_nat (0 + Z.of_nat 6)) with 6%nat. rewrite !drop_ge by lia. by rewrite !app_nil_r.
Qed.

Section card.
Context {M : Type} `{!mmio M, !e1000_card M} (a : Z).

Lemma ethernet_send_ok frame d dest type payload len m rest pend : ring_inv a d m rest pend -> length frame = 1514%nat ->
  (6 <= length dest)%nat -> length (mac d) = 6%nat -> 0 <= type < 65536 -> 0 <= len < 65536 -> len <= Z.of_nat (length payload) ->
  if (1500 <? len) || (8 <=? length rest)%nat
  then ethernet_send frame (Some d) (Some dest) type (Some payload) len m = Ok (-1, Some d, m)
  else exists d' m', ethernet_send frame (Some d) (Some dest) type (Some payload) len m = Ok (0, Some d', m') /\
    ring_inv a d' m' (rest ++ [ether_frame dest (mac d) type (take (Z.to_nat len) payload)]) pend.
Proof.
  intros H Hf Hd Hm Ht Hl Hp. unfold ethernet_send. destruct (Z.ltb_spec 1500 len) as [|Hlen]; [done|]. cbn [orb].
  rewrite put_addrs_ok by lia. cbn [mbind res_bind]. destruct (swap16_bytes type Ht) as [-> ->].
  set (pre := take 6 dest ++ take 6 (mac d)). assert (length pre = 12%nat) as Hpre by (unfold pre; rewrite length_app, !length_take; lia).
  rewrite app_assoc. fold pre. set (R := drop 12 frame). assert (length R = 1502%nat) as HR by (unfold R; rewrite length_drop; lia).
  destruct R as [|r0 [|r1 R]]; [done..|]. cbn [length] in HR.
  rewrite wr_in by (rewrite length_app; cbn [length]; lia). cbn [mbind res_bind]. rewrite insert_app_r_alt by (rewrite Hpre; lia).
  rewrite Hpre. change (Z.to_nat 12 - 12)%nat with 0%nat. cbn [insert list_insert].
  rewrite wr_in by (rewrite length_app; cbn [length]; lia). cbn [mbind res_bind]. rewrite insert_app_r_alt by (rewrite Hpre; lia).
  rewrite Hpre. change (Z.to_nat 13 - 12)%nat with 1%nat. cbn [insert list_insert].
  set (hd := pre ++ [type / 256; type mod 256]).
  assert (pre ++ type / 256 :: type mod 256 :: R = hd ++ R) as -> by (unfold hd; by rewrite <- app_assoc).
  assert (length hd = 14%nat) as Hhd by (unfold hd; rewrite length_app, Hpre; done).
  unfold ETH_HEADER_LEN. pose proof (copy_at payload hd R (Z.to_nat len) ltac:(lia) ltac:(lia)) as Hc. rewrite Hhd in Hc.
  change (Z.of_nat 14) with 14 in Hc. rewrite Hc. cbn [mbind res_bind].
  rewrite u16_small by lia.
  set (bytes := hd ++ take (Z.to_nat len) payload ++ drop (Z.to_nat len) R).
  assert (length bytes = 1514%nat) as Hb by (unfold bytes; rewrite !length_app, length_take, length_drop; lia).
  pose proof (send_ok a d m rest pend bytes (14 + len) H ltac:(lia) ltac:(lia)) as Hs.
  unfold PACKET_SIZE in Hs. rewrite (proj2 (Z.eqb_neq (14 + len) 0)), (proj2 (Z.ltb_ge _ _)) in Hs by lia. cbn [orb] in Hs.
  assert (take (Z.to_nat (14 + len)) bytes = ether_frame dest (mac d) type (take (Z.to_nat len) payload)) as Hbytes.
  { unfold bytes. rewrite app_assoc, take_app_le by (rewrite length_app, length_take; lia).
    rewrite take_ge by (rewrite length_app, length_take; lia). unfold hd, pre, ether_frame. by rewrite <- !app_assoc. }
  by rewrite Hbytes in Hs.
Qed.

(** C37. [ethernet_send] puts exactly one frame behind those on their way: the
    destination, the card's address, the type in network order and the payload,
    and nothing of the uninitialised array; a payload above 1500 bytes and a
    full ring are refused without any change. *)
Theorem ethernet_send_frames frame d dest type payload len m rest pend : ring_inv a d m rest pend -> length frame = 1514%nat ->
  (6 <= length dest)%nat -> length (mac d) = 6%nat -> 0 <= type < 65536 -> 0 <= len < 65536 -> len <= Z.of_nat (length payload) ->
  if (1500 <? len) || (8 <=? length rest)%nat
  then ethernet_send frame (Some d) (Some dest) type (Some payload) len m = Ok (-1, Some d, m)
  else exists d' m', ethernet_send frame (Some d) (Some dest) type (Some payload) len m = Ok (0, Some d', m') /\
    ring_inv a d' m' (rest ++ [ether_frame dest (mac d) type (take (Z.to_nat len) payload)]) pend.
Proof. apply ethernet_send_ok. Qed.
End card.

(** A broadcast of three bytes with junk on the stack. *)
Lemma ethernet_send_frames_witness : exists d m d' m',
  @ring_inv _ wit_mmio wit_e1000 0x200008 d m [] [] /\
  @ethernet_send _ wit_mmio (replicate 1514 9) (Some d) (Some (replicate 6 255)) 0x0806 (Some [1; 2; 3]) 3 m = Ok (0, Some d', m').
Proof.
  destruct wit_rings_ready as (d & m & H & Hmac). exists d, m.
  pose proof (@ethernet_send_frames _ wit_mmio wit_e1000 0x200008 (replicate 1514 9) d (replicate 6 255) 0x0806 [1; 2; 3] 3 m [] [] H
    (length_replicate _ _) ltac:(cbn; lia) Hmac ltac:(lia) ltac:(lia) ltac:(cbn; lia)) as Hs.
  destruct Hs as (d' & m' & E & _). exists d', m'. split; [exact H|exact E].
Defined.
