(* ===== verification/Desc.v ===== *)
(** * Descriptor tables, interrupt gates and entry registers

    [arch/x86_64/gdt.c], [arch/x86_64/idt.c], [arch/x86_64/msr.h] and
    [syscall_init], [cpu_reboot] of [kernel/syscall.c].  The operations fill
    tables and load registers of the processor; the specification reads the
    bytes of the tables the way the processor does (segment descriptors,
    interrupt gates, the stack of the task segment), and the interrupt
    controllers are a class of documented 8259 behaviour behind the ports. *)
From S2P Require Import Prelude Str Vga Disk Ide.

(** ** State *)

Definition GDT_N : Z := 7.
Definition TSS_SEL : Z := 0x28.
Definition MSR_EFER : Z := 0xC0000080.
Definition MSR_STAR : Z := 0xC0000081.
Definition MSR_LSTAR : Z := 0xC0000082.
Definition MSR_FMASK : Z := 0xC0000084.

(** The registers that start-up loads: the table registers (limit and base),
    the selectors, and the model specific registers. *)
Record cpu := Cpu {
  gdtr : Z * Z; idtr : Z * Z; cpu_cs : Z; cpu_ds : Z; cpu_es : Z; cpu_fs : Z; cpu_gs : Z; cpu_ss : Z; tr : Z; msr : gmap Z Z
}.

Record tss64 := Tss {
  reserved0 : Z; rsp0 : Z; rsp1 : Z; rsp2 : Z; reserved1 : Z; ist : list Z; reserved2 : Z; reserved3 : Z; iomap_base : Z
}.

(** The packed structure in memory. *)
Definition tss_bytes (t : tss64) : list Z :=
  le_bytes 4 (reserved0 t) ++ le_bytes 8 (rsp0 t) ++ le_bytes 8 (rsp1 t) ++ le_bytes 8 (rsp2 t) ++ le_bytes 8 (reserved1 t) ++
  flat_map (le_bytes 8) (ist t) ++ le_bytes 8 (reserved2 t) ++ le_bytes 2 (reserved3 t) ++ le_bytes 2 (iomap_base t).
(** [sizeof(tss64)], which the source asserts to be 104. *)
Definition TSS_SIZE : Z := 104.

Record tables := Tables { gdt : list Z; tss : tss64 }.

Record gate := Gate {
  offset_low : Z; selector : Z; g_ist : Z; type_attr : Z; offset_mid : Z; offset_high : Z; zero : Z
}.

Definition gate_bytes (g : gate) : list Z :=
  le_bytes 2 (offset_low g) ++ le_bytes 2 (selector g) ++ le_bytes 1 (g_ist g) ++ le_bytes 1 (type_attr g) ++
  le_bytes 2 (offset_mid g) ++ le_bytes 4 (offset_high g) ++ le_bytes 4 (zero g).
Definition GATE_SIZE : Z := 16.

(** ** Registers *)

Definition lgdt (r : Z * Z) (c : cpu) : cpu :=
  Cpu r (idtr c) (cpu_cs c) (cpu_ds c) (cpu_es c) (cpu_fs c) (cpu_gs c) (cpu_ss c) (tr c) (msr c).
Definition lidt (r : Z * Z) (c : cpu) : cpu :=
  Cpu (gdtr c) r (cpu_cs c) (cpu_ds c) (cpu_es c) (cpu_fs c) (cpu_gs c) (cpu_ss c) (tr c) (msr c).
(** The far return to the next instruction. *)
Definition load_cs (s : Z) (c : cpu) : cpu :=
  Cpu (gdtr c) (idtr c) s (cpu_ds c) (cpu_es c) (cpu_fs c) (cpu_gs c) (cpu_ss c) (tr c) (msr c).
(** [mov %ax, %ds] and so on for the five data segment registers. *)
Definition load_data (s : Z) (c : cpu) : cpu := Cpu (gdtr c) (idtr c) (cpu_cs c) s s s s s (tr c) (msr c).
Definition ltr (s : Z) (c : cpu) : cpu :=
  Cpu (gdtr c) (idtr c) (cpu_cs c) (cpu_ds c) (cpu_es c) (cpu_fs c) (cpu_gs c) (cpu_ss c) s (msr c).
Definition current_cs (c : cpu) : Z := cpu_cs c.

Definition rdmsr (m : Z) (c : cpu) : Z :=
  let v := default 0 (msr c !! m) in
  let lo := u32 v in let hi := u32 (Z.shiftr v 32) in
  Z.lor (u64 (Z.shiftl hi 32)) lo.

Definition wrmsr (m v : Z) (c : cpu) : cpu :=
  let lo := u32 (Z.land v 0xFFFFFFFF) in let hi := u32 (Z.shiftr v 32) in
  Cpu (gdtr c) (idtr c) (cpu_cs c) (cpu_ds c) (cpu_es c) (cpu_fs c) (cpu_gs c) (cpu_ss c) (tr c) (<[m := hi * 2 ^ 32 + lo]> (msr c)).

(** ** Operations

    Addresses of the program's own objects are chosen by the linker and are
    arguments. *)

(** The first half of the task segment's descriptor. *)
Definition tss_low (base : Z) : Z :=
  Z.lor (Z.lor (Z.lor 0x67 (u64 (Z.shiftl (Z.land base 0xFFFFFF) 16))) (u64 (Z.shiftl 0x89 40)))
        (u64 (Z.shiftl (Z.land (Z.shiftr base 24) 0xFF) 56)).

Definition gdt_install (gdt_at tss_at kstack_irq_top : Z) (s : tables) (c : cpu) : res (tables * cpu) :=
  g ← wr (gdt s) 0 0;
  g ← wr g 1 0x00209A0000000000;
  g ← wr g 2 0x0000920000000000;
  g ← wr g 3 0x00CFF2000000FFFF;
  g ← wr g 4 0x0020FA0000000000;
  let base := tss_at in
  g ← wr g 5 (tss_low base);
  g ← wr g 6 (Z.shiftr base 32);
  let t := tss s in
  let t := Tss (reserved0 t) kstack_irq_top (rsp1 t) (rsp2 t) (reserved1 t) (ist t) (reserved2 t) (reserved3 t) TSS_SIZE in
  let c := lgdt (u16 (GDT_N * 8 - 1), gdt_at) c in
  let c := load_cs 0x08 c in
  let c := load_data 0x10 c in
  mret (Tables g t, ltr TSS_SEL c).

Definition idt_set_gate (n handler : Z) (c : cpu) (idt : list gate) : res (list gate) :=
  wr idt n (Gate (Z.land handler 0xFFFF) (current_cs c) 0 0x8E (Z.land (Z.shiftr handler 16) 0xFFFF)
                 (Z.land (Z.shiftr handler 32) 0xFFFFFFFF) 0).

Definition idt_init (idt_at exception_stub irq1_stub : Z) (c : cpu) (idt : list gate) : res (list gate * cpu) :=
  idt ← for_each 32 0 (fun i idt => idt_set_gate i exception_stub c idt) idt;
  idt ← idt_set_gate 0x21 irq1_stub c idt;
  mret (idt, lidt (u16 (256 * GATE_SIZE - 1), idt_at) c).

(** What an exception ends in: the message, and the processor halted. *)
Definition panic (t : term) : res term :=
  term_puts ([10] ++ lit "*** EXCEPTION! CPU found fatality condition ***" ++ [10]) (term_set_color 0x0C 0x00 t).

Definition syscall_init (syscall_entry : Z) (c : cpu) : cpu :=
  let efer := rdmsr MSR_EFER c in
  let c := wrmsr MSR_EFER (Z.lor efer 1) c in
  let c := wrmsr MSR_LSTAR syscall_entry c in
  let c := wrmsr MSR_FMASK 0x200 c in
  wrmsr MSR_STAR (Z.lor (Z.shiftl 0x10 48) (Z.shiftl 0x08 32)) c.

Section ports.
Context {D : Type} `{!ports D}.

Definition io_wait (d : D) : D := outb 0x80 0 d.

(** The bytes [pic_init] writes, in order, each followed by a delay. *)
Definition pic_init (d : D) : D :=
  foldl (fun d '(p, v) => io_wait (outb p v d)) d
    [(0x20, 0x11); (0xA0, 0x11); (0x21, 0x20); (0xA1, 0x28); (0x21, 0x04); (0xA1, 0x02);
     (0x21, 0x01); (0xA1, 0x01); (0x21, 0xFD); (0xA1, 0xFF)].

(** [while (i-- && (inb(0x64) & 0x02));] *)
Fixpoint drain (i : nat) (d : D) : D :=
  match i with
  | O => d
  | S i => let '(v, d) := inb 0x64 d in if Z.land v 0x02 =? 0 then d else drain i d
  end.

(** [cpu_reboot] up to the breakpoint trap. *)
Definition cpu_reboot (c : cpu) (d : D) : cpu * D :=
  let d := drain 100 d in
  let d := outb 0x64 0xFE d in
  let d := outb 0xCF9 0x02 d in
  let d := io_wait d in
  let d := outb 0xCF9 0x06 d in
  (lidt (0, 0) c, d).
End ports.

(** ** Specification: how the processor reads the tables *)

Record segment := Segment {
  sg_base : Z; sg_limit : Z; sg_type : Z; sg_code_or_data : bool; sg_dpl : Z; sg_present : bool; sg_long : bool
}.

Definition bits (v lo n : Z) : Z := Z.shiftr v lo mod 2 ^ n.

Definition segment_of (q : Z) : segment :=
  Segment (bits q 16 24 + 2 ^ 24 * bits q 56 8) (bits q 0 16 + 2 ^ 16 * bits q 48 4) (bits q 40 4)
          (Z.testbit q 44) (bits q 45 2) (Z.testbit q 47) (Z.testbit q 53).

(** [n] bytes at offset [o] of a table, [None] past its limit. *)
Definition fetch (table : list Z) (limit o : Z) (n : nat) : option Z :=
  if o + Z.of_nat n - 1 <=? limit then Some (le_val (take n (drop (Z.to_nat o) table))) else None.

(** The descriptor a selector names. *)
Definition segment_at (table : list Z) (limit sel : Z) : option segment :=
  segment_of <$> fetch table limit (8 * (sel / 8)) 8.

(** The base address of a system segment in 64-bit mode takes 16 bytes. *)
Definition system_base (table : list Z) (limit sel : Z) : option Z :=
  lo ← fetch table limit (8 * (sel / 8)) 8;
  hi ← fetch table limit (8 * (sel / 8) + 8) 8;
  Some (sg_base (segment_of lo) + 2 ^ 32 * (hi mod 2 ^ 32)).

(** 64-bit code (executable, not conforming) and writable data of a ring. *)
Definition is_code64 (table : list Z) (limit sel dpl : Z) : Prop :=
  exists s, segment_at table limit sel = Some s /\ sg_present s = true /\ sg_code_or_data s = true /\
    Z.testbit (sg_type s) 3 = true /\ Z.testbit (sg_type s) 2 = false /\ sg_long s = true /\ sg_dpl s = dpl.
Definition is_data (table : list Z) (limit sel dpl : Z) : Prop :=
  exists s, segment_at table limit sel = Some s /\ sg_present s = true /\ sg_code_or_data s = true /\
    Z.testbit (sg_type s) 3 = false /\ Z.testbit (sg_type s) 1 = true /\ sg_dpl s = dpl.

Definition gdt_image (s : tables) : list Z := flat_map (le_bytes 8) (gdt s).
Definition idt_image (idt : list gate) : list Z := flat_map gate_bytes idt.

(** The stack pointer the processor loads on an interrupt into ring 0. *)
Definition ring0_stack (t : list Z) : Z := le_val (take 8 (drop 4 t)).
Definition io_map_at (t : list Z) : Z := le_val (take 2 (drop 102 t)).

(** An interrupt gate: selector, privilege and address, or nothing to call. *)
Record target := Target { tg_cs : Z; tg_rip : Z; tg_type : Z; tg_dpl : Z; tg_ist : Z }.
Definition vector (table : list Z) (limit v : Z) : option target :=
  if 16 * v + 15 <=? limit then
    let b := take 16 (drop (Z.to_nat (16 * v)) table) in
    if Z.testbit (at_ b 5) 7 then
      Some (Target (le_val (take 2 (drop 2 b)))
                   (le_val (take 2 b) + 2 ^ 16 * le_val (take 2 (drop 6 b)) + 2 ^ 32 * le_val (take 4 (drop 8 b)))
                   (bits (at_ b 5) 0 4) (bits (at_ b 5) 5 2) (bits (at_ b 4) 0 3))
    else None
  else None.

(** ** Specification: the pair of interrupt controllers

    What a controller is waiting for after an initialisation command. *)
Inductive icw := Icw2 | Icw3 | Icw4.

Record pic := Pic { p_wait : list icw; p_base : Z; p_cascade : Z; p_mode : Z; p_mask : Z; p_service : list Z }.

(** A byte written to the command port and to the data port of one
    controller; [p_service] holds the lines in service, the highest priority
    (lowest number) first. *)
Definition pic_command (v : Z) (p : pic) : pic :=
  if Z.testbit v 4 then
    Pic (Icw2 :: (if Z.testbit v 1 then [] else [Icw3]) ++ (if Z.testbit v 0 then [Icw4] else [])) (p_base p) (p_cascade p) 0 0 []
  else if v =? 0x20 then Pic (p_wait p) (p_base p) (p_cascade p) (p_mode p) (p_mask p) (tail (p_service p))
  else p.

Definition pic_data (v : Z) (p : pic) : pic :=
  match p_wait p with
  | Icw2 :: w => Pic w (Z.land v 0xF8) (p_cascade p) (p_mode p) (p_mask p) (p_service p)
  | Icw3 :: w => Pic w (p_base p) v (p_mode p) (p_mask p) (p_service p)
  | Icw4 :: w => Pic w (p_base p) (p_cascade p) v (p_mask p) (p_service p)
  | [] => Pic [] (p_base p) (p_cascade p) (p_mode p) v (p_service p)
  end.

(** The controllers behind the ports, and the byte the keyboard shows at its
    port. *)
Class pics (D : Type) `{!ports D} := Pics {
  pic_ok : D -> Prop;
  master : D -> pic;
  slave : D -> pic;
  scan_code : D -> Z;
  pic_byte d : pic_ok d -> is_byte (scan_code d);
  pic_out d p v : pic_ok d -> is_byte v -> p ∈ [0x20; 0x21; 0xA0; 0xA1; 0x80] ->
    (p ∈ [0x20; 0xA0] -> Z.testbit v 4 = true \/ v = 0x20) ->
    pic_ok (outb p v d) /\ scan_code (outb p v d) = scan_code d /\
    master (outb p v d) = (if p =? 0x20 then pic_command v (master d) else if p =? 0x21 then pic_data v (master d) else master d) /\
    slave (outb p v d) = (if p =? 0xA0 then pic_command v (slave d) else if p =? 0xA1 then pic_data v (slave d) else slave d);
  pic_in d : pic_ok d -> exists d', inb 0x60 d = (scan_code d, d') /\ pic_ok d' /\ master d' = master d /\ slave d' = slave d
}.

(** A controller in use that lets a line through: initialised in 8086 mode,
    the line not masked, and nothing of its priority or a higher one in service. *)
Definition lets (p : pic) (line : Z) : Prop :=
  p_wait p = [] /\ Z.testbit (p_mode p) 0 = true /\ Z.testbit (p_mask p) line = false /\ Forall (fun l => line < l) (p_service p).

(** The hardware lines 0..15 and the vector each one asks for. *)
Definition irq_vector (m s : pic) (line v : Z) : Prop :=
  (0 <= line < 8 /\ Z.testbit (p_cascade m) line = false /\ lets m line /\ v = p_base m + line) \/
  (8 <= line < 16 /\ p_cascade m = 2 ^ p_cascade s /\ lets m (p_cascade s) /\ lets s (line - 8) /\ v = p_base s + (line - 8)).

(** ** Lemmas *)

Lemma flat_map_chunk {A B} (f : A -> list B) n l k x : (forall y, length (f y) = n) -> l !! k = Some x ->
  take n (drop (n * k) (flat_map f l)) = f x.
Proof.
  intros Hf. revert k. induction l as [|y l IH]; intros k; [done|]. destruct k as [|k]; cbn [lookup list_lookup flat_map].
  - intros [= ->]. by rewrite Nat.mul_0_r, drop_0, take_app_le, take_ge by (rewrite Hf; lia).
  - intros Hk. replace (n * S k)%nat with (length (f y) + n * k)%nat by (rewrite Hf; lia).
    rewrite drop_app_add. by apply IH.
Qed.

Lemma fetch_entry l k q : l !! k = Some q -> 0 <= q < 2 ^ 64 -> (k < 7)%nat ->
  fetch (flat_map (le_bytes 8) l) 55 (8 * Z.of_nat k) 8 = Some q.
Proof.
  intros Hk Hq H7. unfold fetch. rewrite (proj2 (Z.leb_le _ _)) by lia.
  replace (Z.to_nat (8 * Z.of_nat k)) with (8 * k)%nat by lia.
  rewrite (flat_map_chunk _ _ _ _ q) by (done || apply le_bytes_length).
  by rewrite le_val_bytes, Z.mod_small.
Qed.

Lemma tss_low_sum base : 0 <= base < 2 ^ 64 ->
  tss_low base = 0x67 + base mod 2 ^ 24 * 2 ^ 16 + 0x89 * 2 ^ 40 + base / 2 ^ 24 mod 2 ^ 8 * 2 ^ 56.
Proof.
  intros H. unfold tss_low. rewrite (byte_at base 24) by lia.
  change 0xFFFFFF with (Z.ones 24). rewrite Z.land_ones by lia. change (2 ^ 8) with 256.
  assert (0 <= base mod 2 ^ 24 < 2 ^ 24) by (apply Z.mod_pos_bound; lia).
  assert (0 <= base / 2 ^ 24 mod 256 < 256) by (apply Z.mod_pos_bound; lia).
  set (a := base mod 2 ^ 24) in *. set (b := base / 2 ^ 24 mod 256) in *.
  rewrite (u64_small (Z.shiftl a 16)), (u64_small (Z.shiftl b 56)) by (rewrite Z.shiftl_mul_pow2 by lia; lia).
  change (u64 (Z.shiftl 0x89 40)) with (Z.shiftl 0x89 40).
  rewrite (lor_shift 0x67 a 16) by lia. rewrite (lor_shift _ 0x89 40) by lia. by rewrite (lor_shift _ b 56) by lia.
Qed.

(** The fields of the descriptor, from its bytes. *)
Lemma tss_segment base : 0 <= base < 2 ^ 64 -> 0 <= tss_low base < 2 ^ 64 /\
  segment_of (tss_low base) = Segment (base mod 2 ^ 32) 0x67 9 false 0 true false.
Proof.
  intros H. rewrite tss_low_sum by done.
  assert (0 <= base mod 2 ^ 24 < 2 ^ 24) by (apply Z.mod_pos_bound; lia).
  assert (0 <= base / 2 ^ 24 mod 2 ^ 8 < 2 ^ 8) by (apply Z.mod_pos_bound; lia).
  assert (base mod 2 ^ 32 = base mod 2 ^ 24 + 2 ^ 24 * (base / 2 ^ 24 mod 2 ^ 8)) as -> by zdm.
  set (a := base mod 2 ^ 24) in *. set (b := base / 2 ^ 24 mod 2 ^ 8) in *. split; [lia|].
  unfold segment_of, bits. rewrite !Z.shiftr_div_pow2 by lia. rewrite !Z.testbit_odd, !Z.shiftr_div_pow2 by lia.
  assert (forall z, Z.odd z = (z mod 2 =? 1)) as Hodd by (intros z; rewrite Zmod_odd; by destruct (Z.odd z)).
  rewrite !Hodd. f_equal; zdm.
Qed.

(** The table [gdt_install] fills in. *)
Definition boot_gdt (tss_at : Z) : list Z :=
  [0; 0x00209A0000000000; 0x0000920000000000; 0x00CFF2000000FFFF; 0x0020FA0000000000; tss_low tss_at; Z.shiftr tss_at 32].

(** What it promises the rest of the kernel. *)
Record segments_ok (gdt_at tss_at stack : Z) (s : tables) (c : cpu) : Prop := {
  sg_reg : gdtr c = (55, gdt_at);
  sg_cs : cpu_cs c = 0x08;
  sg_ds : cpu_ds c = 0x10 /\ cpu_es c = 0x10 /\ cpu_fs c = 0x10 /\ cpu_gs c = 0x10 /\ cpu_ss c = 0x10;
  sg_kcode : is_code64 (gdt_image s) 55 0x08 0;
  sg_kdata : is_data (gdt_image s) 55 0x10 0;
  sg_udata : is_data (gdt_image s) 55 0x18 3;
  sg_ucode : is_code64 (gdt_image s) 55 0x20 3;
  sg_tr : tr c = 0x28;
  sg_tss : segment_at (gdt_image s) 55 (tr c) = Some (Segment (tss_at mod 2 ^ 32) 103 9 false 0 true false);
  sg_tss_at : system_base (gdt_image s) 55 (tr c) = Some tss_at;
  sg_stack : ring0_stack (tss_bytes (tss s)) = stack;
  sg_io : 103 < io_map_at (tss_bytes (tss s))
}.

Lemma const_segment tss_at k q : boot_gdt tss_at !! k = Some q -> (k < 5)%nat ->
  segment_at (flat_map (le_bytes 8) (boot_gdt tss_at)) 55 (8 * Z.of_nat k) = Some (segment_of q).
Proof.
  intros Hk H5. unfold segment_at. replace (8 * Z.of_nat k / 8) with (Z.of_nat k) by zdm.
  rewrite (fetch_entry _ _ q) by (done || lia || (do 5 (destruct k as [|k]; [injection Hk as <-; lia|]); lia)). done.
Qed.

Lemma tss_stack t : length (ist t) = 7%nat -> ring0_stack (tss_bytes t) = rsp0 t mod 2 ^ 64 /\
  io_map_at (tss_bytes t) = iomap_base t mod 2 ^ 16 /\ length (tss_bytes t) = 104%nat.
Proof.
  destruct t as [r0 s0 s1 s2 r1 l r2 r3 io]. cbn [ist rsp0 iomap_base]. intros Hi.
  destruct l as [|i0 [|i1 [|i2 [|i3 [|i4 [|i5 [|i6 [|]]]]]]]]; try discriminate Hi. split; [|split; [|reflexivity]].
  - unfold ring0_stack. change (take 8 _) with (le_bytes 8 s0). by rewrite le_val_bytes.
  - unfold io_map_at. change (take 2 _) with (le_bytes 2 io). by rewrite le_val_bytes.
Qed.

Lemma gdt_install_ok gdt_at tss_at stack s c : length (gdt s) = 7%nat -> length (ist (tss s)) = 7%nat ->
  0 <= tss_at < 2 ^ 64 -> 0 <= stack < 2 ^ 64 ->
  exists s' c', gdt_install gdt_at tss_at stack s c = Ok (s', c') /\ segments_ok gdt_at tss_at stack s' c' /\
    msr c' = msr c /\ idtr c' = idtr c.
Proof.
  intros Hg Hi Ht Hs. destruct (gdt s) as [|g0 [|g1 [|g2 [|g3 [|g4 [|g5 [|g6 [|]]]]]]]] eqn:E; try discriminate Hg.
  unfold gdt_install. rewrite E. eexists _, _. split; [reflexivity|]. split; [|done].
  destruct (tss_segment tss_at Ht) as [Hr Hseg].
  match goal with |- segments_ok _ _ _ (Tables _ ?t) _ => destruct (tss_stack t Hi) as (H1 & H2 & _) end.
  assert (0 <= Z.shiftr tss_at 32 < 2 ^ 64) as Hhi by (rewrite Z.shiftr_div_pow2 by lia; zdm).
  pose proof (fetch_entry (boot_gdt tss_at) 5 _ eq_refl Hr ltac:(lia)) as F5.
  pose proof (fetch_entry (boot_gdt tss_at) 6 _ eq_refl Hhi ltac:(lia)) as F6.
  constructor; try done.
  - eexists. split; [exact (const_segment tss_at 1 _ eq_refl ltac:(lia))|by vm_compute].
  - eexists. split; [exact (const_segment tss_at 2 _ eq_refl ltac:(lia))|by vm_compute].
  - eexists. split; [exact (const_segment tss_at 3 _ eq_refl ltac:(lia))|by vm_compute].
  - eexists. split; [exact (const_segment tss_at 4 _ eq_refl ltac:(lia))|by vm_compute].
  - change (segment_of <$> fetch (flat_map (le_bytes 8) (boot_gdt tss_at)) 55 (8 * Z.of_nat 5) 8 =
            Some (Segment (tss_at mod 2 ^ 32) 103 9 false 0 true false)).
    rewrite F5. cbn [fmap option_fmap option_map]. by rewrite Hseg.
  - change ((lo ← fetch (flat_map (le_bytes 8) (boot_gdt tss_at)) 55 (8 * Z.of_nat 5) 8;
             hi ← fetch (flat_map (le_bytes 8) (boot_gdt tss_at)) 55 (8 * Z.of_nat 6) 8;
             Some (sg_base (segment_of lo) + 2 ^ 32 * (hi mod 2 ^ 32))) = Some tss_at).
    rewrite F5, F6. cbn [mbind option_bind]. rewrite Hseg. cbn [sg_base].
    f_equal. rewrite Z.shiftr_div_pow2 by lia. zdm.
  - etransitivity; [exact H1|]. by apply Z.mod_small.
  - cbn [tss]. rewrite H2. by vm_compute.
Qed.

(** ** Lemmas: gates *)

Definition gate_of (cs handler : Z) : gate :=
  Gate (Z.land handler 0xFFFF) cs 0 0x8E (Z.land (Z.shiftr handler 16) 0xFFFF) (Z.land (Z.shiftr handler 32) 0xFFFFFFFF) 0.

Lemma idt_init_ok idt_at exc irq c idt : length idt = 256%nat -> exists idt',
  idt_init idt_at exc irq c idt = Ok (idt', lidt (4095, idt_at) c) /\ length idt' = 256%nat /\
  forall v, (v < 256)%nat -> idt' !! v =
    if (v <? 32)%nat then Some (gate_of (cpu_cs c) exc) else if (v =? 33)%nat then Some (gate_of (cpu_cs c) irq) else idt !! v.
Proof.
  intros Hl. unfold idt_init.
  destruct (for_each_inv (fun i (l : list gate) => length l = 256%nat /\
      forall v, (v < 256)%nat -> l !! v = if Z.of_nat v <? i then Some (gate_of (cpu_cs c) exc) else idt !! v)
    32 0 (fun i l => idt_set_gate i exc c l) idt) as (l & -> & Hl1 & H1).
  - split; [done|]. intros v _. by rewrite (proj2 (Z.ltb_ge _ _)) by lia.
  - intros i l Hi (Hl1 & H1). unfold idt_set_gate. rewrite wr_in by lia. eexists. split; [reflexivity|].
    rewrite length_insert. split; [done|]. intros v Hv. destruct (decide (v = Z.to_nat i)) as [->|Hne].
    + rewrite list_lookup_insert_eq by lia. by rewrite (proj2 (Z.ltb_lt _ _)) by lia.
    + rewrite list_lookup_insert_ne by done. rewrite H1 by done. destruct (Z.ltb_spec (Z.of_nat v) i), (Z.ltb_spec (Z.of_nat v) (i + 1)); done || lia.
  - cbn [mbind res_bind]. unfold idt_set_gate. rewrite wr_in by lia. cbn [mbind res_bind]. eexists. split; [reflexivity|].
    rewrite length_insert. split; [done|]. intros v Hv. destruct (decide (v = 33%nat)) as [->|Hne].
    + rewrite list_lookup_insert_eq by lia. done.
    + rewrite list_lookup_insert_ne by (change (Z.to_nat 33) with 33%nat; done). rewrite H1 by done. rewrite (proj2 (Nat.eqb_neq v 33) Hne).
      change (0 + Z.of_nat 32) with 32. destruct (Z.ltb_spec (Z.of_nat v) 32), (Nat.ltb_spec v 32); done || lia.
Qed.

Lemma gate_bytes_length g : length (gate_bytes g) = 16%nat.
Proof. reflexivity. Qed.

Lemma vector_gate idt v g : length idt = 256%nat -> 0 <= v < 256 -> idt !! Z.to_nat v = Some g ->
  vector (idt_image idt) 4095 v = if Z.testbit (at_ (gate_bytes g) 5) 7 then vector (gate_bytes g) 15 0 else None.
Proof.
  intros Hl Hv Hg. unfold vector at 1. rewrite (proj2 (Z.leb_le _ _)) by lia.
  replace (Z.to_nat (16 * v)) with (16 * Z.to_nat v)%nat by lia. unfold idt_image.
  rewrite (flat_map_chunk gate_bytes 16 idt (Z.to_nat v) g gate_bytes_length Hg).
  unfold vector. change (16 * 0 + 15 <=? 15) with true. change (Z.to_nat (16 * 0)) with 0%nat. rewrite drop_0.
  rewrite (take_ge (gate_bytes g) 16) by (rewrite gate_bytes_length; lia). by destruct (Z.testbit _ 7).
Qed.

Lemma vector_gate_of cs h : 0 <= cs < 2 ^ 16 -> 0 <= h < 2 ^ 64 ->
  Z.testbit (at_ (gate_bytes (gate_of cs h)) 5) 7 = true /\ vector (gate_bytes (gate_of cs h)) 15 0 = Some (Target cs h 14 0 0).
Proof.
  intros Hc Hh. split; [done|]. unfold vector. change (16 * 0 + 15 <=? 15) with true. change (Z.to_nat (16 * 0)) with 0%nat. rewrite drop_0.
  rewrite (take_ge _ 16) by (rewrite gate_bytes_length; lia). change (Z.testbit (at_ (gate_bytes (gate_of cs h)) 5) 7) with true. cbv iota.
  change (take 2 (drop 2 (gate_bytes (gate_of cs h)))) with (le_bytes 2 cs).
  change (take 2 (gate_bytes (gate_of cs h))) with (le_bytes 2 (Z.land h (Z.ones 16))).
  change (take 2 (drop 6 (gate_bytes (gate_of cs h)))) with (le_bytes 2 (Z.land (Z.shiftr h 16) (Z.ones 16))).
  change (take 4 (drop 8 (gate_bytes (gate_of cs h)))) with (le_bytes 4 (Z.land (Z.shiftr h 32) (Z.ones 32))).
  rewrite !le_val_bytes, !Z.land_ones, !Z.shiftr_div_pow2 by lia.
  change (256 ^ Z.of_nat 2) with (2 ^ 16). change (256 ^ Z.of_nat 4) with (2 ^ 32).
  f_equal. f_equal; zdm.
Qed.

(** ** Lemmas: the controllers *)

Section pics.
Context {D : Type} `{!ports D, !pics D}.

(** The state after one byte and the delay. *)
Lemma pic_write d p v : pic_ok d -> is_byte v -> p ∈ [0x20; 0x21; 0xA0; 0xA1] ->
  (p ∈ [0x20; 0xA0] -> Z.testbit v 4 = true \/ v = 0x20) -> let d' := io_wait (outb p v d) in
  pic_ok d' /\
  master d' = (if p =? 0x20 then pic_command v (master d) else if p =? 0x21 then pic_data v (master d) else master d) /\
  slave d' = (if p =? 0xA0 then pic_command v (slave d) else if p =? 0xA1 then pic_data v (slave d) else slave d).
Proof.
  intros Hd Hv Hp Hc. unfold io_wait. destruct (pic_out d p v Hd Hv) as (H1 & _ & H2 & H3); [|exact Hc|].
  { revert Hp. rewrite !elem_of_cons, elem_of_nil. naive_solver. }
  destruct (pic_out (outb p v d) 0x80 0 H1) as (H4 & _ & H5 & H6); [split; lia|by repeat constructor|by (rewrite !elem_of_cons, elem_of_nil; naive_solver)|].
  by rewrite <- H2, <- H3.
Qed.

Definition pic_step (s : pic * pic) (w : Z * Z) : pic * pic :=
  (if w.1 =? 0x20 then pic_command w.2 s.1 else if w.1 =? 0x21 then pic_data w.2 s.1 else s.1,
   if w.1 =? 0xA0 then pic_command w.2 s.2 else if w.1 =? 0xA1 then pic_data w.2 s.2 else s.2).

Lemma pic_writes ws d : pic_ok d ->
  Forall (fun w => is_byte w.2 /\ w.1 ∈ [0x20; 0x21; 0xA0; 0xA1] /\ (w.1 ∈ [0x20; 0xA0] -> Z.testbit w.2 4 = true \/ w.2 = 0x20)) ws ->
  let d' := foldl (fun d '(p, v) => io_wait (outb p v d)) d ws in
  pic_ok d' /\ (master d', slave d') = foldl pic_step (master d, slave d) ws.
Proof.
  intros Hd Hw. revert d Hd. induction Hw as [|[p v] ws (Hv & Hp & Hc) _ IH]; intros d Hd; [done|]. cbn [foldl].
  destruct (pic_write d p v Hd Hv Hp Hc) as (H1 & H2 & H3). destruct (IH _ H1) as (H4 & H5). split; [exact H4|].
  rewrite H5. by rewrite H2, H3.
Qed.

Lemma pic_init_ok d : pic_ok d -> pic_ok (pic_init d) /\
  master (pic_init d) = Pic [] 0x20 0x04 0x01 0xFD [] /\ slave (pic_init d) = Pic [] 0x28 0x02 0x01 0xFF [].
Proof.
  intros Hd. unfold pic_init. match goal with |- context [foldl _ d ?l] => destruct (pic_writes l d Hd) as (H1 & H2) end.
  { apply (bool_decide_unpack _). vm_compute. exact I. }
  injection H2 as E1 E2. by split; [exact H1|split; [exact E1|exact E2]].
Qed.

(** With these masks only the keyboard's line gets through, and only while it
    is not in service. *)
Lemma keyboard_only sv sv' line v :
  irq_vector (Pic [] 0x20 0x04 0x01 0xFD sv) (Pic [] 0x28 0x02 0x01 0xFF sv') line v <-> line = 1 /\ v = 0x21 /\ Forall (fun l => 1 < l) sv.
Proof.
  assert (forall l, 0 <= l < 8 -> Z.testbit 0xFF l = true /\ (Z.testbit 0xFD l = false -> l = 1)) as Hmask.
  { intros l Hl. assert (l = 0 \/ l = 1 \/ l = 2 \/ l = 3 \/ l = 4 \/ l = 5 \/ l = 6 \/ l = 7) as Hc by lia.
    by destruct Hc as [->|[->|[->|[->|[->|[->|[->| ->]]]]]]]. }
  split.
  - intros [(Hl & _ & (_ & _ & Hm & Hs) & ->)|(Hl & _ & _ & (_ & _ & Hm & _) & _)]; cbn [p_mask p_service p_base] in *.
    + apply (proj2 (Hmask line Hl)) in Hm as ->. done.
    + by rewrite (proj1 (Hmask (line - 8) ltac:(lia))) in Hm.
  - intros (-> & -> & Hs). left. split; [lia|]. by repeat split.
Qed.

(** What start-up leaves: every vector of the interrupt table. *)
Lemma vectors_ok idt_at exc irq c idt : length idt = 256%nat -> Forall (fun g => Z.testbit (at_ (gate_bytes g) 5) 7 = false) idt ->
  0 <= exc < 2 ^ 64 -> 0 <= irq < 2 ^ 64 -> 0 <= cpu_cs c < 2 ^ 16 -> exists idt',
  idt_init idt_at exc irq c idt = Ok (idt', lidt (4095, idt_at) c) /\
  forall v, 0 <= v < 256 -> vector (idt_image idt') 4095 v =
    if v <? 32 then Some (Target (cpu_cs c) exc 14 0 0) else if v =? 0x21 then Some (Target (cpu_cs c) irq 14 0 0) else None.
Proof.
  intros Hl Hz He Hi Hc. destruct (idt_init_ok idt_at exc irq c idt Hl) as (idt' & E & Hl' & Hg). exists idt'. split; [exact E|].
  intros v Hv. specialize (Hg (Z.to_nat v) ltac:(lia)).
  destruct (vector_gate_of _ _ Hc He) as (Be & Ve). destruct (vector_gate_of _ _ Hc Hi) as (Bi & Vi).
  destruct (Z.ltb_spec v 32) as [H1|H1], (Nat.ltb_spec (Z.to_nat v) 32) as [H2|H2]; try lia.
  - by rewrite (vector_gate _ _ _ Hl' Hv Hg), Be.
  - destruct (Z.eqb_spec v 0x21) as [H3|H3], (Nat.eqb_spec (Z.to_nat v) 33) as [H4|H4]; try lia.
    + by rewrite (vector_gate _ _ _ Hl' Hv Hg), Bi.
    + destruct (lookup_lt_is_Some_2 idt (Z.to_nat v)) as (g & Eg); [lia|]. rewrite Eg in Hg.
      rewrite (vector_gate _ _ _ Hl' Hv Hg). rewrite Forall_lookup in Hz. by rewrite (Hz _ _ Eg).
Qed.

Lemma reboot_no_vector c d table v : 0 <= v -> idtr (cpu_reboot c d).1 = (0, 0) /\ vector table 0 v = None.
Proof. intros Hv. split; [done|]. unfold vector. by rewrite (proj2 (Z.leb_gt _ _)) by lia. Qed.
End pics.

(** ** Properties *)

(** [gdt_install] leaves a table the processor reads as meant: the kernel
    runs on a 64-bit code segment and a data segment of ring 0, the selectors
    0x18 and 0x20 name data and 64-bit code of ring 3, and the task register
    names the task segment, wherever the linker put it, whose stack for
    interrupts is the top of the kernel's interrupt stack and which allows no
    port to user programs. *)
Theorem segments_installed gdt_at tss_at stack s c : length (gdt s) = 7%nat -> length (ist (tss s)) = 7%nat ->
  0 <= tss_at < 2 ^ 64 -> 0 <= stack < 2 ^ 64 ->
  exists s' c', gdt_install gdt_at tss_at stack s c = Ok (s', c') /\ segments_ok gdt_at tss_at stack s' c' /\
    msr c' = msr c /\ idtr c' = idtr c.
Proof. apply gdt_install_ok. Qed.

(** C24. After [gdt_install], [idt_init] and [pic_init] an interrupt always has
    something to call: the exceptions 0..31 enter [exception_stub], the only
    hardware line that gets through the controllers is the keyboard's, its
    vector enters [irq1_stub], both on the kernel's code segment with further
    interrupts off; every other vector is absent. *)
Theorem interrupts_wired D `{!ports D, !pics D} gdt_at tss_at stack idt_at exc irq s c idt (d : D) :
  length (gdt s) = 7%nat -> length (ist (tss s)) = 7%nat -> 0 <= tss_at < 2 ^ 64 -> 0 <= stack < 2 ^ 64 ->
  length idt = 256%nat -> Forall (fun g => Z.testbit (at_ (gate_bytes g) 5) 7 = false) idt ->
  0 <= exc < 2 ^ 64 -> 0 <= irq < 2 ^ 64 -> pic_ok d ->
  exists s' c1 idt' c', gdt_install gdt_at tss_at stack s c = Ok (s', c1) /\ idt_init idt_at exc irq c1 idt = Ok (idt', c') /\
    idtr c' = (4095, idt_at) /\ is_code64 (gdt_image s') 55 0x08 0 /\
    (forall v, 0 <= v < 32 -> vector (idt_image idt') 4095 v = Some (Target 0x08 exc 14 0 0)) /\
    irq_vector (master (pic_init d)) (slave (pic_init d)) 1 0x21 /\
    (forall line v, irq_vector (master (pic_init d)) (slave (pic_init d)) line v ->
      line = 1 /\ vector (idt_image idt') 4095 v = Some (Target 0x08 irq 14 0 0)) /\
    (forall v, 32 <= v < 256 -> v <> 0x21 -> vector (idt_image idt') 4095 v = None).
Proof.
  intros Hg Hi Ht Hs Hl Hz He Hq Hd. destruct (gdt_install_ok gdt_at tss_at stack s c Hg Hi Ht Hs) as (s' & c1 & E1 & Hok & _).
  destruct (vectors_ok idt_at exc irq c1 idt Hl Hz He Hq) as (idt' & E2 & Hv); [by rewrite (sg_cs _ _ _ _ _ Hok)|].
  destruct (pic_init_ok d Hd) as (_ & Em & Es). rewrite (sg_cs _ _ _ _ _ Hok) in Hv.
  exists s', c1, idt', (lidt (4095, idt_at) c1). split; [exact E1|]. split; [exact E2|]. split; [done|]. split; [apply Hok|].
  rewrite Em, Es. split; [|split; [by apply keyboard_only|split]].
  - intros v H. by rewrite Hv, (proj2 (Z.ltb_lt _ _)) by lia.
  - intros line v (-> & -> & _)%keyboard_only. split; [done|]. by rewrite Hv by lia.
  - intros v H Hne. by rewrite Hv, (proj2 (Z.ltb_ge _ _)), (proj2 (Z.eqb_neq _ _)) by lia.
Qed.

(** ** Witnesses *)

(** Two controllers and a keyboard port. *)
Definition sim_pics_ports : ports (pic * pic * Z) := {|
  inb p d := (if p =? 0x60 then d.2 else 0, d);
  outb p v d := (pic_step d.1 (p, v), d.2);
  inw _ d := (0, d);
  outw _ _ d := d
|}.

#[global] Instance sim_pics : @pics (pic * pic * Z) sim_pics_ports.
Proof.
  refine (@Pics _ sim_pics_ports (fun d => is_byte d.2) (fun d => d.1.1) (fun d => d.1.2) (fun d => d.2) _ _ _).
  - done.
  - intros [[m s] k] p v Hd Hv Hp _. cbn. done.
  - intros [[m s] k] Hd. by exists (m, s, k).
Defined.

Definition wit_tables : tables := Tables (replicate 7 0) (Tss 0 0 0 0 0 (replicate 7 0) 0 0 0).
Definition wit_cpu : cpu := Cpu (23, 0) (0, 0) 8 16 16 16 16 16 0 {[ MSR_EFER := 0x500 ]}.
Definition wit_idt : list gate := replicate 256 (Gate 0 0 0 0 0 0 0).
Definition wit_pics : pic * pic * Z := (Pic [] 0x08 0x04 0x01 0xB8 [], Pic [] 0x70 0x02 0x01 0x8F [], 0).

Lemma segments_installed_witness : exists s' c', gdt_install 0x105000 0x1234567890 0x10A000 wit_tables wit_cpu = Ok (s', c') /\
  segments_ok 0x105000 0x1234567890 0x10A000 s' c'.
Proof.
  destruct (segments_installed 0x105000 0x1234567890 0x10A000 wit_tables wit_cpu) as (s' & c' & E & H & _); [done|done|lia|lia|].
  exists s', c'. by split.
Defined.

Lemma interrupts_wired_witness : exists s' c1 idt' c', gdt_install 0x105000 0x106000 0x10A000 wit_tables wit_cpu = Ok (s', c1) /\
  idt_init 0x107000 0x101000 0x102000 c1 wit_idt = Ok (idt', c') /\ vector (idt_image idt') 4095 14 = Some (Target 0x08 0x101000 14 0 0).
Proof.
  destruct (@interrupts_wired _ sim_pics_ports sim_pics 0x105000 0x106000 0x10A000 0x107000 0x101000 0x102000 wit_tables wit_cpu wit_idt wit_pics)
    as (s' & c1 & idt' & c' & E1 & E2 & _ & _ & H & _); [done|done|lia|lia|done|by apply Forall_replicate|lia|lia|split; cbn; lia|].
  exists s', c1, idt', c'. split; [exact E1|]. split; [exact E2|]. apply H. lia.
Defined.
