(* ===== verification/Entry.v ===== *)
(** * Entering and leaving the kernel

    The assembly paths: [syscall_entry] ([arch/x86_64/syscall.S]),
    [jump_usermode] ([arch/x86_64/usermode.S]) and the stub of the keyboard
    interrupt ([drivers/keyboard/keyboard.c]) with the handler's port
    accesses.  A stub works on the registers and on the words it owns on its
    stack; the C function it calls may leave any value in the registers the
    stub saves.  The specification adds what the processor does at [syscall],
    [sysretq], [iretq] and at an interrupt. *)
From S2P Require Import Prelude Str Vga Disk Ide Kbd Volume Fs Syscall Desc.

(** ** State *)

Inductive reg := RAX | RBX | RCX | RDX | RSI | RDI | RBP | R8 | R9 | R10 | R11 | R12 | R13 | R14 | R15.
#[global] Instance reg_eq_dec : EqDecision reg.
Proof. solve_decision. Defined.

Record machine := Machine { gpr : reg -> Z; rip : Z; rflags : Z; rsp : Z; m_cs : Z; m_ss : Z }.

(** The machine and the words on top of its stack, the last pushed first. *)
Abbreviation stacked := (machine * list Z)%type.

Definition with_gpr (g : reg -> Z) (m : machine) : machine := Machine g (rip m) (rflags m) (rsp m) (m_cs m) (m_ss m).
Definition with_rsp (sp : Z) (m : machine) : machine := Machine (gpr m) (rip m) (rflags m) sp (m_cs m) (m_ss m).
Definition set_reg (r : reg) (v : Z) (g : reg -> Z) : reg -> Z := fun r' => if decide (r' = r) then v else g r'.

(** ** Instructions *)

Definition push_word (v : Z) (s : stacked) : stacked := (with_rsp (rsp s.1 - 8) s.1, v :: s.2).
Definition push (r : reg) (s : stacked) : stacked := push_word (gpr s.1 r) s.
(** A stub that pops more than is there reads another's memory. *)
Definition pop (r : reg) (s : stacked) : res stacked :=
  match s.2 with
  | [] => Ub
  | v :: st => mret (with_rsp (rsp s.1 + 8) (with_gpr (set_reg r v (gpr s.1)) s.1), st)
  end.
Definition pushes (rs : list reg) (s : stacked) : stacked := foldl (fun s r => push r s) s rs.
Fixpoint pops (rs : list reg) (s : stacked) : res stacked :=
  match rs with [] => mret s | r :: rs => s ← pop r s; pops rs s end.

Definition iretq (s : stacked) : res machine :=
  match s.2 with
  | [ip; code; flags; sp; data] => mret (Machine (gpr s.1) ip flags sp code data)
  | _ => Ub
  end.

(** [syscall] and [sysretq], from the registers [syscall_init] set; without
    the bit in [MSR_EFER] that turns them on, [syscall] is not an instruction. *)
Definition star (c : cpu) : Z := default 0 (msr c !! MSR_STAR).
Definition calls_on (c : cpu) : bool := Z.testbit (default 0 (msr c !! MSR_EFER)) 0.
Definition called (c : cpu) (m : machine) : machine :=
  Machine (set_reg R11 (rflags m) (set_reg RCX (rip m) (gpr m))) (default 0 (msr c !! MSR_LSTAR))
          (Z.land (rflags m) (Z.lnot (default 0 (msr c !! MSR_FMASK)))) (rsp m)
          (Z.land (bits (star c) 32 16) 0xFFFC) (bits (star c) 32 16 + 8).
Definition syscall_instr (c : cpu) (m : machine) : res machine := if calls_on c then mret (called c m) else Ub.
Definition sysretq (c : cpu) (m : machine) : res machine :=
  if negb (calls_on c) then Ub
  else mret (Machine (gpr m) (gpr m RCX) (Z.lor (Z.land (gpr m R11) 0x3C7FD7) 2) (rsp m)
          (Z.lor (bits (star c) 48 16 + 16) 3) (Z.lor (bits (star c) 48 16 + 8) 3)).

(** An interrupt: on the stack of the task segment when a program was running,
    on the current one, aligned, otherwise; the gate turns interrupts off. *)
Definition deliver (t : target) (rsp0 : Z) (m : machine) : stacked :=
  let user := Z.land (m_cs m) 3 =? 3 in
  let sp := if user then rsp0 else rsp m in
  (Machine (gpr m) (tg_rip t) (Z.land (rflags m) (Z.lnot 0x34700)) (sp - sp mod 16 - 40) (tg_cs t) (if user then 0 else m_ss m),
   [rip m; m_cs m; rflags m; rsp m; m_ss m]).

(** ** The paths *)

(** Loading [%ax] and the data segments with 0x1B, and the frame for [iretq]. *)
Definition set_ax (v : Z) (g : reg -> Z) : reg -> Z := set_reg RAX (Z.lor (Z.land (g RAX) 0xFFFFFFFFFFFF0000) v) g.
Definition jump_usermode (entry sp : Z) (c : cpu) (m : machine) : res (cpu * machine) :=
  let m := with_gpr (set_ax 0x1B (gpr m)) m in
  let c := Cpu (gdtr c) (idtr c) (cpu_cs c) 0x1B 0x1B 0x1B 0x1B (cpu_ss c) (tr c) (msr c) in
  let s := push_word entry (push_word 0x23 (push_word 0x202 (push_word sp (push_word 0x1B (m, []))))) in
  m ← iretq s; mret (c, m).

(** [syscall_frame]. *)
Record syscall_frame := Frame {
  f_rax : Z; f_rdi : Z; f_rsi : Z; f_rdx : Z; f_r10 : Z; f_r8 : Z; f_r9 : Z; f_rip : Z; f_rflags : Z;
  f_rbx : Z; f_rbp : Z; f_r12 : Z; f_r13 : Z; f_r14 : Z; f_r15 : Z
}.

Definition frame_at (st : list Z) : res (syscall_frame * list Z) :=
  match st with
  | a :: b :: c :: d :: e :: f :: g :: h :: i :: j :: k :: l :: m :: n :: o :: st => mret (Frame a b c d e f g h i j k l m n o, st)
  | _ => Ub
  end.
Definition frame_words (f : syscall_frame) : list Z :=
  [f_rax f; f_rdi f; f_rsi f; f_rdx f; f_r10 f; f_r8 f; f_r9 f; f_rip f; f_rflags f;
   f_rbx f; f_rbp f; f_r12 f; f_r13 f; f_r14 f; f_r15 f].
Definition set_rax (v : Z) (f : syscall_frame) : syscall_frame :=
  Frame v (f_rdi f) (f_rsi f) (f_rdx f) (f_r10 f) (f_r8 f) (f_r9 f) (f_rip f) (f_rflags f)
        (f_rbx f) (f_rbp f) (f_r12 f) (f_r13 f) (f_r14 f) (f_r15 f).

(** The stub of the exceptions: it never returns. *)
Definition exception_stub (s : stacked) (t : term) : res (stacked * term) :=
  let s := pushes [RAX; RCX; RDX; RBX; RBP; RSI; RDI; R8; R9; R10; R11; R12; R13; R14; R15] s in
  t ← panic t; mret (s, t).

(** The system call ends with the program going on, or in another way. *)
Inductive resumed := Resumed (m : machine) | Left_ (o : outcome).

(** The functions a stub calls leave some values in the registers. *)
Section stubs.
Context (clobber : (reg -> Z) -> reg -> Z).

Section kernel.
Context {V : Type} `{!volume V, !file_volume V} (pml4 : Z) (fuel : nat).

Definition syscall_entry (kstack_syscall_top : Z) (c : cpu) (m : machine) (k : kernel V) : res (resumed * kernel V) :=
  let saved_user_rsp := rsp m in
  let s := pushes [R15; R14; R13; R12; RBP; RBX; R11; RCX; R9; R8; R10; RDX; RSI; RDI; RAX] (with_rsp kstack_syscall_top m, []) in
  '(f, st) ← frame_at s.2;
  '(o, k) ← syscall_dispatcher pml4 fuel (f_rax f) (f_rdi f) (f_rsi f) (f_rdx f) k;
  match o with
  | Return v =>
      let s := (with_gpr (clobber (gpr s.1)) s.1, frame_words (set_rax v f) ++ st) in
      s ← pops [RAX; RDI; RSI; RDX; R10; R8; R9; RCX; R11; RBX; RBP; R12; R13; R14; R15] s;
      m ← sysretq c (with_rsp saved_user_rsp s.1);
      mret (Resumed m, k)
  | o => mret (Left_ o, k)
  end.
End kernel.

Section keys.
Context {D : Type} `{!ports D}.

(** [keyboard_handler] with its ports. *)
Definition keyboard_interrupt (k : keyboard) (d : D) : res (keyboard * D) :=
  let '(sc, d) := inb 0x60 d in
  k ← keyboard_handler sc k;
  mret (k, outb 0x20 0x20 d).

Definition irq1_stub (s : stacked) (k : keyboard) (d : D) : res (machine * keyboard * D) :=
  let s := pushes [RAX; RCX; RDX; RBX; RBP; RSI; RDI; R8; R9; R10; R11; R12; R13; R14; R15] s in
  '(k, d) ← keyboard_interrupt k d;
  let s := (with_gpr (clobber (gpr s.1)) s.1, s.2) in
  s ← pops [R15; R14; R13; R12; R11; R10; R9; R8; RDI; RSI; RBP; RBX; RDX; RCX; RAX] s;
  m ← iretq s;
  mret (m, k, d).
End keys.
End stubs.

(** ** Specification *)

(** The keyboard and the controllers between two interrupts, as start-up
    leaves them. *)
Definition keys_ready {D} `{!ports D, !pics D} (k : keyboard) (d : D) : Prop :=
  dec_ok (dec k) /\ ring_wf (kring k) /\ pic_ok d /\
  master d = Pic [] 0x20 0x04 0x01 0xFD [] /\ slave d = Pic [] 0x28 0x02 0x01 0xFF [].

(** The processor has taken the keyboard's request: its line is in service. *)
Definition taken {D} `{!ports D, !pics D} (d d1 : D) : Prop :=
  pic_ok d1 /\ master d1 = Pic [] 0x20 0x04 0x01 0xFD [1] /\ slave d1 = slave d.

(** The same program state, register by register. *)
Definition same_machine (m m' : machine) : Prop :=
  (forall r, gpr m' r = gpr m r) /\ rip m' = rip m /\ rflags m' = rflags m /\ rsp m' = rsp m /\ m_cs m' = m_cs m /\ m_ss m' = m_ss m.

(** The registers [syscall_init] sets, for an entry at [entry]. *)
Record calls_ok (entry : Z) (c : cpu) : Prop := {
  ca_star : star c = 0x0010000800000000;
  ca_entry : msr c !! MSR_LSTAR = Some entry;
  ca_mask : msr c !! MSR_FMASK = Some 0x200;
  ca_on : exists efer, msr c !! MSR_EFER = Some efer /\ Z.testbit efer 0 = true
}.

(** ** Lemmas *)

(** Taking one step at a time keeps the checks of long stubs small. *)
Lemma bind_ok {A B} (f : A -> res B) a : (Ok a ≫= f) = f a.
Proof. reflexivity. Qed.

Lemma pushes_words rs m st : pushes rs (m, st) = (with_rsp (rsp m - 8 * Z.of_nat (length rs)) m, (gpr m <$> rev rs) ++ st).
Proof.
  revert m st. induction rs as [|r rs IH]; intros m st; cbn [pushes foldl].
  - cbn. rewrite Z.sub_0_r. by destruct m.
  - change (foldl _ _ rs) with (pushes rs (push r (m, st))). unfold push, push_word. cbn [fst snd]. rewrite IH. cbn [rsp with_rsp gpr].
    cbn [rev length]. rewrite fmap_app, <- app_assoc. cbn. f_equal. unfold with_rsp. cbn. f_equal. lia.
Qed.

Lemma pops_words rs m st g : NoDup rs -> exists m', pops rs (m, (g <$> rs) ++ st) = Ok (m', st) /\
  (forall r, gpr m' r = if decide (r ∈ rs) then g r else gpr m r) /\ rsp m' = rsp m + 8 * Z.of_nat (length rs) /\
  rip m' = rip m /\ rflags m' = rflags m /\ m_cs m' = m_cs m /\ m_ss m' = m_ss m.
Proof.
  intros Hn. revert m. induction Hn as [|r rs Hr _ IH]; intros m.
  - exists m. split; [done|]. split; [|by rewrite Z.add_0_r]. done.
  - cbn [pops fmap list_fmap app]. unfold pop. cbn [snd fst mbind res_bind mret res_ret].
    destruct (IH (with_rsp (rsp m + 8) (with_gpr (set_reg r (g r) (gpr m)) m))) as (m' & E & Hg & Hs & Hrest).
    exists m'. split; [exact E|]. split; [|split; [rewrite Hs; cbn; lia|exact Hrest]].
    intros x. rewrite Hg. cbn [with_rsp with_gpr gpr]. unfold set_reg.
    destruct (decide (x ∈ rs)) as [H|H], (decide (x ∈ r :: rs)) as [H'|H'], (decide (x = r)) as [Hx|Hx]; try done;
      rewrite elem_of_cons in H'; naive_solver.
Qed.

(** A stub that saves every register and pops in the opposite order gives all
    of them back, whatever the function it calls leaves in them. *)
Lemma stub_restores rs h s : NoDup rs -> (forall r, r ∈ rs) -> exists m',
  pops (rev rs) (with_gpr h (pushes rs s).1, (pushes rs s).2) = Ok (m', s.2) /\ (forall r, gpr m' r = gpr s.1 r) /\ rsp m' = rsp s.1.
Proof.
  intros Hn Ha. destruct s as [m st]. rewrite pushes_words. cbn [fst snd].
  destruct (pops_words (rev rs) (with_gpr h (with_rsp (rsp m - 8 * Z.of_nat (length rs)) m)) st (gpr m)) as (m' & E & Hg & Hs & _).
  { apply NoDup_ListNoDup, NoDup_rev. by apply NoDup_ListNoDup. }
  exists m'. split; [exact E|]. split.
  - intros r. rewrite Hg, decide_True; [done|]. apply list_elem_of_In, in_rev. rewrite rev_involutive. by apply list_elem_of_In.
  - rewrite Hs, length_rev. cbn [rsp with_gpr with_rsp]. lia.
Qed.

(** The registers the stubs save are all of them. *)
Lemma all_regs (rs : list reg) (r : reg) : bool_decide (Forall (fun r : reg => r ∈ rs) [RAX; RBX; RCX; RDX; RSI; RDI; RBP; R8; R9; R10; R11; R12; R13; R14; R15]) = true -> r ∈ rs.
Proof. intros H%bool_decide_eq_true. rewrite Forall_forall in H. apply H. destruct r; repeat constructor. Qed.

Lemma rdmsr_get m c : 0 <= default 0 (msr c !! m) < 2 ^ 64 -> rdmsr m c = default 0 (msr c !! m).
Proof.
  unfold rdmsr. set (v := default 0 (msr c !! m)). intros Hv. rewrite Z.shiftr_div_pow2 by lia.
  rewrite (u32_small (v / 2 ^ 32)) by zdm. rewrite u64_small by (rewrite Z.shiftl_mul_pow2 by lia; zdm).
  rewrite Z.lor_comm, lor_shift; unfold u32; zdm.
Qed.

Lemma wrmsr_get m v c k : 0 <= v < 2 ^ 64 -> msr (wrmsr m v c) !! k = if decide (m = k) then Some v else msr c !! k.
Proof.
  intros Hv. unfold wrmsr. cbn [msr]. rewrite lookup_insert. case_decide; [|done]. f_equal.
  change 0xFFFFFFFF with (Z.ones 32). rewrite Z.land_ones, Z.shiftr_div_pow2 by lia. unfold u32. zdm.
Qed.

Lemma syscall_init_ok entry c : 0 <= entry < 2 ^ 64 -> 0 <= default 0 (msr c !! MSR_EFER) < 2 ^ 64 ->
  calls_ok entry (syscall_init entry c) /\
  gdtr (syscall_init entry c) = gdtr c /\ idtr (syscall_init entry c) = idtr c /\
  forall m, m ∉ [MSR_EFER; MSR_STAR; MSR_LSTAR; MSR_FMASK] -> msr (syscall_init entry c) !! m = msr c !! m.
Proof.
  intros He Hf. unfold syscall_init. rewrite rdmsr_get by done. set (f := default 0 (msr c !! MSR_EFER)) in *.
  assert (0 <= Z.lor f 1 < 2 ^ 64) as Hf1.
  { split; [apply Z.lor_nonneg; lia|]. apply bits_bound; [lia|apply Z.lor_nonneg; lia|]. intros j Hj. rewrite Z.lor_spec.
    rewrite (Z.bits_above_log2 1 j) by (change (Z.log2 1) with 0; lia). rewrite orb_false_r. destruct (Z.eq_dec f 0) as [->|]; [apply Z.bits_0|].
    apply Z.bits_above_log2; [lia|]. apply Z.log2_lt_pow2; [lia|]. apply Z.lt_le_trans with (2 ^ 64); [lia|apply Z.pow_le_mono_r; lia]. }
  assert (0 <= Z.lor (Z.shiftl 0x10 48) (Z.shiftl 0x08 32) < 2 ^ 64) as Hs by (vm_compute; split; [discriminate|reflexivity]).
  split; [|split; [done|split; [done|]]].
  - split.
    + unfold star. by rewrite wrmsr_get.
    + by rewrite !wrmsr_get.
    + by rewrite !wrmsr_get.
    + exists (Z.lor f 1). rewrite !wrmsr_get by done. split; [done|]. rewrite Z.lor_spec. by rewrite orb_true_r.
  - intros m Hm. rewrite !elem_of_cons, elem_of_nil in Hm. rewrite !wrmsr_get by done. repeat case_decide; naive_solver.
Qed.

(** [syscall_init] turns the instruction on. *)
Lemma calls_enabled entry c : calls_ok entry c -> calls_on c = true.
Proof. intros [_ _ _ (efer & E & Hb)]. unfold calls_on. by rewrite E. Qed.

(** An exception shows the message and leaves the registers on the stack. *)
Lemma exception_stub_ok s t : term_wf t -> crt_ok t -> exists s' t', exception_stub s t = Ok (s', t') /\ term_wf t' /\ crt_ok t' /\
  panic t = Ok t' /\ drop 15 s'.2 = s.2.
Proof.
  intros Ht Hc. unfold exception_stub, panic. destruct (term_set_color_ok 0x0C 0 t Ht Hc) as [H1 H2].
  destruct (term_puts_ok ([10] ++ lit "*** EXCEPTION! CPU found fatality condition ***" ++ [10]) _ H1 H2) as (t' & E & Ht' & Hc').
  rewrite E. destruct s as [m st]. rewrite pushes_words. by eexists _, t'.
Qed.

(** The keyboard's request is answered: the handler runs on the byte the port
    shows and ends the service. *)
Lemma keyboard_interrupt_ok {D} `{!ports D, !pics D} k (d d1 : D) : keys_ready k d -> taken d d1 ->
  exists c dd k' d', kbd_decode (scan_code d1) (dec k) = Ok (c, dd) /\ keyboard_interrupt k d1 = Ok (k', d') /\ keys_ready k' d' /\
    contents (kring k') = if c =? 0 then contents (kring k) else enqueue (s8 c) (contents (kring k)).
Proof.
  intros (Hd & Hr & _ & _ & Hs) (Hp & Hm & Hs1). unfold keyboard_interrupt. destruct (pic_in d1 Hp) as (d2 & -> & Hp2 & Hm2 & Hs2).
  destruct (keyboard_handler_ok (scan_code d1) k (pic_byte _ Hp) Hd Hr) as (c & dd & r' & E1 & E2 & Hd' & Hr' & Hc).
  rewrite E2. cbn [mbind res_bind]. exists c, dd, (Keyboard dd r'), (outb 0x20 0x20 d2). split; [exact E1|]. split; [done|].
  destruct (pic_out d2 0x20 0x20 Hp2) as (Hp3 & _ & Hm3 & Hs3); [split; lia|by repeat constructor|by right|].
  split; [|exact Hc]. split; [exact Hd'|]. split; [exact Hr'|]. split; [exact Hp3|].
  rewrite Hm3, Hs3. cbn [Z.eqb Pos.eqb]. by rewrite Hm2, Hm, Hs2, Hs1, Hs.
Qed.

Lemma irq1_stub_ok clobber {D} `{!ports D, !pics D} t sp0 m k (d d1 : D) : keys_ready k d -> taken d d1 ->
  exists c dd m' k' d', kbd_decode (scan_code d1) (dec k) = Ok (c, dd) /\ irq1_stub clobber (deliver t sp0 m) k d1 = Ok (m', k', d') /\
    same_machine m m' /\ keys_ready k' d' /\
    contents (kring k') = if c =? 0 then contents (kring k) else enqueue (s8 c) (contents (kring k)).
Proof.
  intros Hk Ht. destruct (keyboard_interrupt_ok k d d1 Hk Ht) as (c & dd & k' & d' & E1 & E2 & Hk' & Hc).
  set (s := deliver t sp0 m).
  match goal with |- context [irq1_stub clobber s k d1] =>
    destruct (stub_restores [RAX; RCX; RDX; RBX; RBP; RSI; RDI; R8; R9; R10; R11; R12; R13; R14; R15]
      (clobber (gpr (pushes [RAX; RCX; RDX; RBX; RBP; RSI; RDI; R8; R9; R10; R11; R12; R13; R14; R15] s).1)) s) as (m' & E3 & Hg & _) end.
  { apply (bool_decide_unpack _). vm_compute. exact I. }
  { intros r. by apply all_regs. }
  cbn [rev app] in E3.
  exists c, dd, (Machine (gpr m') (rip m) (rflags m) (rsp m) (m_cs m) (m_ss m)), k', d'. split; [exact E1|].
  split; [|split; [|exact (conj Hk' Hc)]].
  - unfold irq1_stub. rewrite E2, bind_ok. cbv beta iota zeta. rewrite E3, bind_ok. exact eq_refl.
  - split; [|by repeat split]. intros r. exact (Hg r).
Qed.

(** The frame the entry pushes, and the one it pops after a result is stored. *)
Definition frame_of (g : reg -> Z) : syscall_frame :=
  Frame (g RAX) (g RDI) (g RSI) (g RDX) (g R10) (g R8) (g R9) (g RCX) (g R11) (g RBX) (g RBP) (g R12) (g R13) (g R14) (g R15).

Lemma entry_frame m st :
  frame_at (pushes [R15; R14; R13; R12; RBP; RBX; R11; RCX; R9; R8; R10; RDX; RSI; RDI; RAX] (m, st)).2 = Ok (frame_of (gpr m), st).
Proof. by rewrite pushes_words. Qed.

Lemma result_frame g v st : frame_words (set_rax v (frame_of g)) ++ st =
  (set_reg RAX v g <$> [RAX; RDI; RSI; RDX; R10; R8; R9; RCX; R11; RBX; RBP; R12; R13; R14; R15]) ++ st.
Proof. reflexivity. Qed.

Section calls.
Context {V : Type} `{!volume V, !file_volume V} (pml4 : Z) (fuel : nat) (clobber : (reg -> Z) -> reg -> Z) (kstack entry : Z).

Lemma syscall_entry_ok c m (k : kernel V) v k' : calls_ok entry c ->
  syscall_dispatcher pml4 fuel (gpr m RAX) (gpr m RDI) (gpr m RSI) (gpr m RDX) k = Ok (Return v, k') ->
  Z.lor (Z.land (rflags m) 0x3C7FD7) 2 = rflags m -> m_cs m = 0x23 -> m_ss m = 0x1B ->
  exists e m', syscall_instr c m = Ok e /\ syscall_entry clobber pml4 fuel kstack c e k = Ok (Resumed m', k') /\
    gpr m' RAX = v /\ (forall r, r ∉ [RAX; RCX; R11] -> gpr m' r = gpr m r) /\
    rip m' = rip m /\ rflags m' = rflags m /\ rsp m' = rsp m /\ m_cs m' = m_cs m /\ m_ss m' = m_ss m.
Proof.
  intros Hok Hd Hf Hcs Hss. pose proof (calls_enabled _ _ Hok) as Hon. destruct Hok as [Hstar _ _ _].
  set (e := called c m). exists e. unfold syscall_instr. rewrite Hon. fold e.
  set (m0 := with_rsp kstack e). enough (exists m', syscall_entry clobber pml4 fuel kstack c e k = Ok (Resumed m', k') /\
    gpr m' RAX = v /\ (forall r, r ∉ [RAX; RCX; R11] -> gpr m' r = gpr m r) /\
    rip m' = rip m /\ rflags m' = rflags m /\ rsp m' = rsp m /\ m_cs m' = m_cs m /\ m_ss m' = m_ss m) as (m' & H) by by exists m'.
  unfold syscall_entry. fold m0. rewrite entry_frame, bind_ok. cbv beta iota zeta.
  change (f_rax (frame_of (gpr m0))) with (gpr m RAX). change (f_rdi (frame_of (gpr m0))) with (gpr m RDI).
  change (f_rsi (frame_of (gpr m0))) with (gpr m RSI). change (f_rdx (frame_of (gpr m0))) with (gpr m RDX).
  rewrite Hd, bind_ok. cbv beta iota zeta. rewrite result_frame.
  match goal with |- context [pops ?rs (?x, _)] => destruct (pops_words rs x [] (set_reg RAX v (gpr m0))) as (m' & E & Hg & _) end.
  { apply (bool_decide_unpack _). vm_compute. exact I. }
  rewrite E, bind_ok. clear E. cbv beta zeta. unfold sysretq. rewrite Hon. cbn [negb]. rewrite bind_ok. eexists. split; [reflexivity|].
  assert (forall r, gpr m' r = set_reg RAX v (gpr m0) r) as Hr.
  { intros r. rewrite Hg, decide_True; [done|]. by apply all_regs. }
  cbn [gpr rip rflags rsp m_cs m_ss with_rsp fst]. rewrite Hstar, !Hr.
  split; [done|]. split; [|split; [done|split; [exact Hf|by rewrite Hcs, Hss]]].
  intros r Hn. rewrite Hr. rewrite !elem_of_cons, elem_of_nil in Hn. unfold m0, e, called, with_rsp. cbn [gpr]. unfold set_reg.
  repeat case_decide; naive_solver.
Qed.
End calls.

(** ** Properties *)

(** C23. The keyboard interrupt is invisible to what it interrupts, program or
    kernel: every register, the flags, the stack pointer and the selectors are
    back when the stub returns, whatever the handler leaves in the registers.
    The handler takes the byte of the port, never leaves its tables or its
    buffer and stores at most the one character; no other line gets through
    meanwhile, and afterwards the keyboard's does again. *)
Theorem irq1_transparent clobber D `{!ports D, !pics D} t sp0 m k (d d1 : D) : keys_ready k d -> taken d d1 ->
  (forall line v, ~ irq_vector (master d1) (slave d1) line v) /\
  exists c dd m' k' d', kbd_decode (scan_code d1) (dec k) = Ok (c, dd) /\
    irq1_stub clobber (deliver t sp0 m) k d1 = Ok (m', k', d') /\ same_machine m m' /\ keys_ready k' d' /\
    contents (kring k') = (if c =? 0 then contents (kring k) else enqueue (s8 c) (contents (kring k))) /\
    irq_vector (master d') (slave d') 1 0x21.
Proof.
  intros Hk Ht. split.
  - intros line v. destruct Ht as (_ & -> & ->). destruct Hk as (_ & _ & _ & _ & ->).
    intros (_ & _ & H%Forall_inv)%keyboard_only. lia.
  - destruct (irq1_stub_ok clobber t sp0 m k d d1 Hk Ht) as (c & dd & m' & k' & d' & E1 & E2 & Hs & Hk' & Hc).
    exists c, dd, m', k', d'. split; [exact E1|]. split; [exact E2|]. split; [exact Hs|]. split; [exact Hk'|]. split; [exact Hc|].
    destruct Hk' as (_ & _ & _ & -> & ->). by apply keyboard_only.
Qed.

(** C5. A program and the kernel's system calls.  After [gdt_install] and
    [syscall_init], [jump_usermode] starts a program in ring 3, on segments of
    ring 3 and with interrupts on; [syscall] is an instruction for it, which
    goes to the entry on segments
    of ring 0 with interrupts off; and when the dispatcher returns a value, the
    program goes on behind its instruction in the same ring with that value in
    rax and every other register, its flags and its stack pointer unchanged,
    except rcx and r11, which the instruction itself takes. *)
Theorem syscall_resumes V `{!volume V, !file_volume V} pml4 fuel clobber kstack entry gdt_at tss_at stack s c0 :
  segments_ok gdt_at tss_at stack s c0 -> 0 <= entry < 2 ^ 64 -> 0 <= default 0 (msr c0 !! MSR_EFER) < 2 ^ 64 ->
  let c := syscall_init entry c0 in let image := gdt_image s in
  (forall ip sp m0, exists c' m, jump_usermode ip sp c m0 = Ok (c', m) /\ rip m = ip /\ rsp m = sp /\ Z.testbit (rflags m) 9 = true /\
    is_code64 image 55 (m_cs m) 3 /\ m_cs m = 0x23 /\ Forall (fun r => is_data image 55 r 3) [m_ss m; cpu_ds c'; cpu_es c'; cpu_fs c'; cpu_gs c']) /\
  (forall m, m_cs m = 0x23 -> m_ss m = 0x1B -> exists e, syscall_instr c m = Ok e /\
    rip e = entry /\ is_code64 image 55 (m_cs e) 0 /\ is_data image 55 (m_ss e) 0 /\ Z.testbit (rflags e) 9 = false /\
    forall (k : kernel V) v k', Z.lor (Z.land (rflags m) 0x3C7FD7) 2 = rflags m ->
      syscall_dispatcher pml4 fuel (gpr m RAX) (gpr m RDI) (gpr m RSI) (gpr m RDX) k = Ok (Return v, k') ->
      exists m', syscall_entry clobber pml4 fuel kstack c e k = Ok (Resumed m', k') /\
        gpr m' RAX = v /\ (forall r, r ∉ [RAX; RCX; R11] -> gpr m' r = gpr m r) /\
        rip m' = rip m /\ rflags m' = rflags m /\ rsp m' = rsp m /\ m_cs m' = m_cs m /\ m_ss m' = m_ss m).
Proof.
  intros Hs He Hf c image. destruct (syscall_init_ok entry c0 He Hf) as (Hc & _). fold c in Hc. split.
  - intros ip sp m0. eexists _, _. split; [reflexivity|]. split; [done|]. split; [done|]. split; [done|].
    split; [exact (sg_ucode _ _ _ _ _ Hs)|]. split; [done|]. pose proof (sg_udata _ _ _ _ _ Hs : is_data image 55 0x1B 3) as Hd. by repeat constructor.
  - intros m Hcs Hss. pose proof (calls_enabled _ _ Hc) as Hon. exists (called c m). unfold syscall_instr. rewrite Hon.
    split; [done|]. unfold called. cbn [rip rflags m_cs m_ss]. rewrite (ca_star _ _ Hc), (ca_entry _ _ Hc), (ca_mask _ _ Hc).
    split; [done|]. split; [exact (sg_kcode _ _ _ _ _ Hs)|]. split; [exact (sg_kdata _ _ _ _ _ Hs)|]. split.
    + cbn [default]. rewrite Z.land_spec, Z.lnot_spec by lia. by rewrite andb_false_r.
    + intros k v k' Hfl Hd. rewrite <- (ca_star _ _ Hc).
      destruct (syscall_entry_ok pml4 fuel clobber kstack entry c m k v k' Hc Hd Hfl Hcs Hss) as (e & m' & Ee & E & H). exists m'. split; [|exact H].
      unfold syscall_instr in Ee. rewrite Hon in Ee. injection Ee as <-. unfold called in E. by rewrite (ca_entry _ _ Hc), (ca_mask _ _ Hc) in E.
Qed.

(** ** Witnesses *)

Definition wit_keyboard : keyboard := Keyboard (Decoder 0 0 0) (Ring (replicate 32 0) 0 0).
Definition wit_key (service : list Z) : pic * pic * Z := (Pic [] 0x20 0x04 0x01 0xFD service, Pic [] 0x28 0x02 0x01 0xFF [], 0x1E).
Definition wit_machine : machine := Machine (fun _ => 99) 0x400100 0x202 0x40001FF0 0x23 0x1B.
Definition wit_kernel : kernel unit :=
  Kernel wit_term (Ring (replicate 32 0) 0 0) wit_fs (Part.Table (replicate 4 (Part.PartT 0 0 0)) 0 []) (Exec.Registry [] 0) (Vmm.Vmm ∅ Pmm.pmm_boot).

Lemma irq1_transparent_witness : exists m' k' d',
  @irq1_stub (fun _ _ => 7) _ sim_pics_ports (deliver (Target 8 0x102000 14 0 0) 0x10A000 wit_machine) wit_keyboard (wit_key [1]) = Ok (m', k', d') /\
  same_machine wit_machine m' /\ contents (kring k') = [97].
Proof.
  destruct (@irq1_transparent (fun _ _ => 7) _ sim_pics_ports sim_pics (Target 8 0x102000 14 0 0) 0x10A000 wit_machine wit_keyboard (wit_key []) (wit_key [1]))
    as (_ & c & dd & m' & k' & d' & Ek & E & Hm & _ & Hc & _).
  - split; [split; [by left|split; by left]|]. split; [split; cbn; unfold BUFSIZE; lia|]. split; [split; cbn; lia|done].
  - split; [split; cbn; lia|done].
  - exists m', k', d'. split; [exact E|]. split; [exact Hm|]. vm_compute in Ek. injection Ek as <- <-. exact Hc.
Defined.

Lemma syscall_resumes_witness : exists s c0 e m' k',
  syscall_instr (syscall_init 0x103000 c0) wit_machine = Ok e /\
  @syscall_entry (fun _ _ => 7) _ no_volume no_file_volume 0 0 0x108000 (syscall_init 0x103000 c0) e wit_kernel = Ok (Resumed m', k') /\
  gdt_install 0x105000 0x106000 0x10A000 wit_tables wit_cpu = Ok (s, c0) /\ gpr m' RAX = 2 ^ 64 - 38 /\ gpr m' RBX = 99 /\ rip m' = 0x400100.
Proof.
  destruct (gdt_install_ok 0x105000 0x106000 0x10A000 wit_tables wit_cpu) as (s & c0 & E & Hs & Hm & _); [done|done|lia|lia|].
  destruct (@syscall_resumes _ no_volume no_file_volume 0 0 (fun _ _ => 7) 0x108000 0x103000 0x105000 0x106000 0x10A000 s c0 Hs) as (_ & H).
  - lia.
  - rewrite Hm. vm_compute. split; [discriminate|reflexivity].
  - destruct (H wit_machine eq_refl eq_refl) as (e & Ee & _ & _ & _ & _ & Hk).
    destruct (Hk wit_kernel (2 ^ 64 - 38) wit_kernel eq_refl eq_refl) as (m' & E' & Ha & Hb & Hr & _).
    exists s, c0, e, m', wit_kernel. split; [exact Ee|]. split; [exact E'|]. split; [exact E|]. split; [exact Ha|]. split; [|exact Hr].
    apply (Hb RBX). apply (bool_decide_unpack _). vm_compute. exact I.
Defined.
