(* ===== verification/Main.v ===== *)
(** * Start-up ([kernel/kernel.c])

    [kernel_main] in the order of the code: the frame allocator from the boot
    loader's memory map, the terminal, the PCI list, the descriptor tables, the
    interrupt controllers, the system call registers, the file server, the
    partitions and the first volume, the network card with its test packet,
    the boot modules, and the first program.  The theorem puts the promises of
    the components together. *)
From S2P Require Import Prelude Mem Pmm Vmm Str Disk Ide Vga Kbd Part Fat Fs FatList Volume Uspace Elf ElfLoad Exec Syscall SysLaws Pci Nic E1000 Desc Entry.

(** ** What the boot loader passes ([multiboot_info]) *)

Definition MULTIBOOT_BOOTLOADER_MAGIC : Z := 0x2BADB002.
Definition MULTIBOOT_INFO_MEM_MAP : Z := 0x00000040.

Definition mbi_flags (m : mem) (mbi : Z) : Z := load32 m mbi.
Definition mbi_mods_count (m : mem) (mbi : Z) : Z := load32 m (mbi + 20).
Definition mbi_mods_addr (m : mem) (mbi : Z) : Z := load32 m (mbi + 24).
Definition mbi_mmap_length (m : mem) (mbi : Z) : Z := load32 m (mbi + 44).
Definition mbi_mmap_addr (m : mem) (mbi : Z) : Z := load32 m (mbi + 48).

Definition test_packet : list Z := [0xFF; 0xFF; 0xFF; 0xFF; 0xFF; 0xFF; 0x52; 0x54; 0x00; 0x12; 0x34; 0x56; 0x08; 0x00].

(** ** State *)

(** Addresses the linker chooses, among them the page tables in use, and those
    of the local variables [e1000] and [rx_buffer]. *)
Record layout := Layout {
  l_start : Z; l_end : Z; l_pml4 : Z; l_pdpt : Z; l_pd : Z; l_gdt : Z; l_tss : Z; l_irq_stack : Z; l_idt : Z;
  l_exception : Z; l_irq1 : Z; l_syscall : Z; l_e1000 : Z; l_rx : Z
}.

(** [sizeof(e1000_device_t)]. *)
Definition E1000_SIZE : Z := 33056.

(** [n] bytes at [a] lie clear of the page tables. *)
Definition apart (a n b k : Z) : bool := (a + n <=? b) || (b + k <=? a).
Definition clear_of_tables (L : layout) (a n : Z) : bool :=
  apart a n (l_pml4 L) 4096 && apart a n (l_pdpt L) 4096 && apart a n (l_pd L) 16384.

(** The kernel's own state, the hardware it talks to, and whether the processor
    takes interrupts. *)
Record start (D P B M : Type) := Start {
  s_kernel : kernel (fat D); s_tables : tables; s_idt : list gate; s_cpu : cpu; s_pics : P; s_bus : B; s_card : M; s_if : bool
}.
Arguments Start {D P B M}. Arguments s_kernel {D P B M}. Arguments s_tables {D P B M}. Arguments s_idt {D P B M}.
Arguments s_cpu {D P B M}. Arguments s_pics {D P B M}. Arguments s_bus {D P B M}. Arguments s_card {D P B M}. Arguments s_if {D P B M}.

(** [kernel_main] returns, halts after a message, or enters a program. *)
Inductive booted := Ignored | Stopped | Running (rip rsp : Z).

Section boot.
Context {D P B M : Type} `{!disk D, !ports P, !pci_ports B, !mmio M}.
(** The disk driver's [ide_init]; the bound on loops of the loader and of the
    volume; what the card does on its own between the packet that is sent and
    the attempt to receive one. *)
Context (init : D -> res (Z * D)) (fuel : nat) (wire : option e1000_device_t * M -> option e1000_device_t * M).
(** The local variables [nic], [e1000] and [rx_buffer] before they are written. *)
Context (nic0 : device_s) (e0 : e1000_device_t) (rx0 : list Z).

#[local] Instance boot_volume : volume (fat D) := fat_volume fuel.
#[local] Instance boot_file_volume : file_volume (fat D) := fat_file_volume fuel.

(** The test of the network card.  The variables are initialised and filled
    where they lie: over the page tables that is the end of every address. *)
Definition try_nic (L : layout) (t : term) (b : B) (m : M) : res (term * B * M) :=
  '(r, nic, b) ← find_nic (Some nic0) b;
  if r =? 0 then
    t ← term_puts (lit "NIC FOUND" ++ [10]) t;
    if negb (clear_of_tables L (l_e1000 L) E1000_SIZE && clear_of_tables L (l_rx L) 2048) then Ub else
    '(r, e, t, b, m) ← e1000_init (l_e1000 L) (Some e0) nic t b m;
    if r =? 0 then
      t ← term_puts (lit "E1000 INIT OK" ++ [10]) t;
      '(r, e, m) ← e1000_send e (Some test_packet) 14 m;
      t ← (if r =? 0 then term_puts (lit "E1000 TX OK" ++ [10]) t else term_puts (lit "E1000 trx failed" ++ [10]) t);
      let '(e, m) := wire (e, m) in
      '(received, e, _, m) ← e1000_receive e (Some rx0) 2048 m;
      t ← (if 0 <? received then term_puts (lit "E1000 RX: Packet Received" ++ [10]) t
           else term_puts (lit "E1000 RX: No Packet" ++ [10]) t);
      mret (t, b, m)
    else t ← term_puts (lit "E1000 INIT FAILED" ++ [10]) t; mret (t, b, m)
  else t ← term_puts (lit "NIC NOT FOUND" ++ [10]) t; mret (t, b, m).

(** [part_scan] and the mounting of the first partition. *)
Definition first_volume (k : kernel (fat D)) : res (kernel (fat D)) :=
  let v := vol (k_fs k) in
  '(_, ps, d) ← part_scan init (k_parts k) (fdisk v);
  let f := set_vol (k_fs k) (set_disk v d) in
  let k := Kernel (k_term k) (k_ring k) f ps (k_reg k) (k_vm k) in
  if 0 <? part_count ps then '(_, f) ← fs_mount_part (part_lba k) 0 f; mret (with_fs k f) else mret k.

Definition kernel_main (L : layout) (magic mbi : Z) (s : start D P B M) : res (booted * start D P B M) :=
  if negb (magic =? MULTIBOOT_BOOTLOADER_MAGIC) then mret (Ignored, s)
  else
    let k := s_kernel s in
    let m := vm_mem (k_vm k) in
    pm ← (if Z.land (mbi_flags m mbi) MULTIBOOT_INFO_MEM_MAP =? 0 then mret (vm_pmm (k_vm k))
          else pmm_init (l_start L) (l_end L) m (mbi_mmap_addr m mbi) (mbi_mmap_length m mbi) (vm_pmm (k_vm k)));
    t ← term_init (k_term k);
    '(t, b) ← pci_scan t (s_bus s);
    '(tb, c) ← gdt_install (l_gdt L) (l_tss L) (l_irq_stack L) (s_tables s) (s_cpu s);
    '(idt, c) ← idt_init (l_idt L) (l_exception L) (l_irq1 L) c (s_idt s);
    let p := pic_init (s_pics s) in
    let c := syscall_init (l_syscall L) c in
    f ← fs_init (k_fs k);
    k ← first_volume (Kernel t (k_ring k) f (k_parts k) (k_reg k) (Vmm m pm));
    (* sti *)
    let on := true in
    '(t, b, cd) ← try_nic L (k_term k) b (s_card s);
    let k := with_term k t in
    if mbi_mods_count m mbi <? 1 then
      t ← term_puts (lit "no init module" ++ [10]) t; mret (Stopped, Start (with_term k t) tb idt c p b cd on)
    else
      '(reg, pm) ← exec_init_mods m (mbi_mods_addr m mbi) (mbi_mods_count m mbi) (k_reg k) (vm_pmm (k_vm k));
      '(e, vm) ← enter_program (l_pml4 L) fuel 0 None reg (Vmm m pm);
      let k := Kernel (k_term k) (k_ring k) (k_fs k) (k_parts k) reg vm in
      match e with
      | Jump rip rsp => mret (Running rip rsp, Start k tb idt c p b cd on)
      | Failed => t ← term_puts (lit "bad init elf" ++ [10]) t; mret (Stopped, Start (with_term k t) tb idt c p b cd on)
      end.
End boot.

(** ** Specification *)

Section spec.
Context {D P B M : Type} `{!disk D, !good_disk D, !ports P, !pics P, !pci_ports B, !pci_bus B, !mmio M, !e1000_card M}.
Context (init : D -> res (Z * D)) (fuel : nat) (wire : option e1000_device_t * M -> option e1000_device_t * M).
Context (nic0 : device_s) (e0 : e1000_device_t) (rx0 : list Z).

(** The disk driver finds no drive, or one with at least the boot record. *)
Definition drive_found (d : D) : Prop :=
  exists r d', init d = Ok (r, d') /\ (r <> 0 \/ r = 0 /\ d_ok d' /\ 0 < d_blocks d').

(** No Ethernet card, or one whose registers are where [find_nic] says they
    are, and variables for it that lie in the kernel's own range clear of the
    page tables, the rings at a multiple of 16 behind the first 24 bytes; while
    the kernel prints, the card only sends and receives. *)
Definition card_fits (L : layout) (b : B) : Prop :=
  Forall (fun f => ~ ethernet b f) functions \/
  (exists f, first_of (ethernet b) functions f /\ Z.land (reg_of b f 0x14) 0xFFFFFFF0 = c_base) /\
  shaped e0 /\ l_e1000 L mod 16 = 8 /\ 0 <= l_start L <= l_e1000 L /\ l_e1000 L + E1000_SIZE <= l_end L <= 2 ^ 64 /\
  l_start L <= l_rx L /\ l_rx L + 2048 <= l_end L /\
  clear_of_tables L (l_e1000 L) E1000_SIZE = true /\ clear_of_tables L (l_rx L) 2048 = true /\
  forall d m, exists d' m', wire (Some d, m) = (Some d', m') /\ rtc (fun s s' => exists e, c_step s e s') (d, m) (d', m').

(** The stack that [boot.S] sets up: 16 KB right above the page directories.
    [kernel_main] is the first function on it, so its variable [e1000] ends
    below the top; with the other variables its frame stays below 40 KB. *)
Definition on_boot_stack (L : layout) : Prop :=
  l_pd L + 32768 - 40960 <= l_e1000 L /\ l_e1000 L + E1000_SIZE <= l_pd L + 32768.

(** Static data as the linker and [boot.S] leave it: zeroed arrays of the right
    sizes, the identity tables, the kernel's range around them. *)
Record statics_ok (L : layout) (m0 : mem) (s : start D P B M) : Prop := {
  so_term : term_wf (k_term (s_kernel s));
  so_keys : ring_wf (k_ring (s_kernel s));
  so_nodes : Z.of_nat (length (nodes (k_fs (s_kernel s)))) = FS_MAX /\ Forall node_data (nodes (k_fs (s_kernel s)));
  so_unmounted : mounted (k_fs (s_kernel s)) = false /\ is_mounted (vol (k_fs (s_kernel s))) = false;
  so_table : table_ok (k_parts (s_kernel s)) /\ Forall part_ok (parts (k_parts (s_kernel s)));
  so_mods : length (mods (k_reg (s_kernel s))) = 8%nat;
  so_bitmap : Z.of_nat (length (bitmap (vm_pmm (k_vm (s_kernel s))))) = BITMAP_SIZE;
  so_mem : vm_mem (k_vm (s_kernel s)) = boot_tables (l_pml4 L) (l_pdpt L) (l_pd L) m0;
  so_layout : boot_layout (l_pml4 L) (l_pdpt L) (l_pd L);
  so_zero t i : lev (boot_tree (l_pml4 L) (l_pdpt L) (l_pd L)) !! t <> None -> 0 <= i < 512 -> ent m0 t i = 0;
  so_kernel : 0 <= l_start L <= l_pml4 L /\ l_start L <= l_pdpt L /\ l_start L <= l_pd L /\
    l_pml4 L + 4096 <= l_end L /\ l_pdpt L + 4096 <= l_end L /\ l_pd L + 16384 <= l_end L /\ l_end L <= PMM_MAX_PHYS;
  so_gdt : length (gdt (s_tables s)) = 7%nat /\ length (ist (tss (s_tables s))) = 7%nat;
  so_gates : length (s_idt s) = 256%nat /\ Forall (fun g => Z.testbit (at_ (gate_bytes g) 5) 7 = false) (s_idt s);
  so_efer : 0 <= default 0 (msr (s_cpu s) !! MSR_EFER) < 2 ^ 64;
  so_off : s_if s = false;
  so_addresses : Forall (fun a => 0 <= a < 2 ^ 64) [l_tss L; l_irq_stack L; l_exception L; l_irq1 L; l_syscall L];
  so_pics : pic_ok (s_pics s);
  so_bus : b_ok (s_bus s);
  so_drive : drive_found (fdisk (vol (k_fs (s_kernel s))));
  so_locals : length (bar nic0) = 6%nat /\ length rx0 = 2048%nat
}.

(** What the boot loader passes: a memory map that makes sense, and a first
    module [e] with the executable [img], outside the kernel, away from the tables and from the pages
    of the program, and frames [F] below 4 MB to build it in. *)
Record boot_info (L : layout) (mbi : Z) (m : mem) (e : prog_mod) (img : list Z) (F : list Z) : Prop := {
  bi_flag : Z.land (mbi_flags m mbi) MULTIBOOT_INFO_MEM_MAP <> 0;
  bi_map : let es := mmap_entries (S (Z.to_nat (mbi_mmap_length m mbi))) m (mbi_mmap_addr m mbi) (mbi_mmap_addr m mbi + mbi_mmap_length m mbi) in
    Forall sane es /\ ForallOrdPairs no_overlap es /\
    Forall (fun f => f < 1024 /\ (exists r, r ∈ es /\ in_region r f) /\ ~ touches (l_start L) (l_end L) f /\
      Forall (fun e => ~ touches (m_start e) (m_end e) f) (take 8 (omap (boot_mod m (mbi_mods_addr m mbi)) (seqZ 0 (mbi_mods_count m mbi))))) F;
  bi_first : take 8 (omap (boot_mod m (mbi_mods_addr m mbi)) (seqZ 0 (mbi_mods_count m mbi))) !! 0%nat = Some e;
  bi_outside : m_end e <= l_start L \/ l_end L <= m_start e;
  bi_image : good_image img /\ Z.of_nat (length img) = m_end e - m_start e;
  bi_bytes a : m_start e <= a < m_end e -> 0 < a /\ load8 m a = nth (Z.to_nat (a - m_start e)) img 0 /\
    off_tables (boot_tree (l_pml4 L) (l_pdpt L) (l_pd L)) a;
  bi_apart s pg : s ∈ all_segs img -> in_seg s pg -> ~ (m_start e / 4096 <= pg <= (m_end e - 1) / 4096);
  bi_frames : NoDup F /\ 3 * pages (all_segs img) + 6 <= Z.of_nat (length F);
  bi_fuel : (Z.to_nat (fld img 56 2) < fuel)%nat /\ Forall (fun s => (Z.to_nat (g_memsz s) < fuel)%nat) (all_segs img)
}.

(** ** Lemmas: the network card *)

Ltac puts_step := match goal with |- context [term_puts ?x ?t] =>
  let t' := fresh "t" in let E := fresh in destruct (term_puts_ok x t) as (t' & E & ? & ?); [assumption..|]; rewrite E; clear E; cbn [mbind res_bind mret res_ret] end.

Lemma same_ethernet (b b' : B) f : same_cfg b b' -> (forall o, reg_of b' f o = reg_of b f o) /\ (ethernet b' f <-> ethernet b f).
Proof.
  intros [_ H]. assert (forall o, reg_of b' f o = reg_of b f o) as Hr by (intros o; destruct f as [[bus slot] func]; apply H).
  split; [exact Hr|]. unfold ethernet, vendor_of, class_of, subclass_of. by rewrite !Hr.
Qed.

Lemma same_first (b b' : B) f : same_cfg b b' -> first_of (ethernet b) functions f -> first_of (ethernet b') functions f.
Proof.
  intros Hb (pre & post & E & Hf & Hp). exists pre, post. split; [exact E|]. split; [by apply (same_ethernet b b')|].
  eapply Forall_impl; [exact Hp|]. intros g Hg Hg'. by apply Hg, (same_ethernet b b').
Qed.

Lemma first_unique {A} (Q : A -> Prop) l x y : first_of Q l x -> first_of Q l y -> x = y.
Proof.
  intros (p1 & q1 & E1 & H1 & F1) (p2 & q2 & E2 & H2 & F2). rewrite E1 in E2. rewrite Forall_forall in F1, F2.
  apply app_eq_inv in E2 as [(k & -> & E)|(k & -> & E)]; destruct k as [|z k]; cbn in E; injection E as; subst; try done.
  - exfalso. apply (F1 z); [|done]. apply elem_of_app. right. by left.
  - exfalso. apply (F2 z); [|done]. apply elem_of_app. right. by left.
Qed.

(** The card's own steps keep the rings. *)
Lemma card_runs a d m d' m' rest pend : ring_inv a d m rest pend -> rtc (fun s s' => exists e, c_step s e s') (d, m) (d', m') ->
  exists rest' pend', ring_inv a d' m' rest' pend'.
Proof.
  intros H Hs. remember (d, m) as s eqn:E. remember (d', m') as s' eqn:E'. revert d m rest pend E H.
  induction Hs as [s|s [d1 m1] s' (e & Hstep) _ IH]; intros d m rest pend -> H.
  - injection E' as <- <-. by exists rest, pend.
  - destruct e as [f|p].
    + destruct (sent_ok _ _ _ _ _ _ _ _ H Hstep) as (rest' & _ & H'). by apply (IH E' _ _ _ _ eq_refl H').
    + pose proof (arrived_ok _ _ _ _ _ _ _ _ H Hstep) as H'. by apply (IH E' _ _ _ _ eq_refl H').
Qed.

(** The test of the card ends and leaves the terminal in order. *)
Lemma try_nic_ok L t (b0 b : B) (m : M) : term_wf t -> crt_ok t -> same_cfg b0 b -> card_fits L b0 -> length (bar nic0) = 6%nat -> length rx0 = 2048%nat ->
  exists t' b' m', try_nic wire nic0 e0 rx0 L t b m = Ok (t', b', m') /\ term_wf t' /\ crt_ok t'.
Proof.
  intros Ht Hc Hb Hcard Hbar Hrx. unfold try_nic.
  destruct (find_nic_ok nic0 b (proj1 Hb) Hbar) as (b1 & Hb1 & [(f & Hf & ->)|(Hall & ->)]); cbn [mbind res_bind].
  2: { change (-1 =? 0) with false. cbv iota. puts_step. by eexists _, _, _. }
  change (0 =? 0) with true. cbv iota. puts_step.
  destruct Hcard as [Hno|((g & Hg & Hbase) & Hsh & Ha & Ha0 & Ha1 & _ & _ & Hc1 & Hc2 & Hwire)].
  { exfalso. destruct Hf as (pre & post & E & Hf & _). rewrite Forall_forall in Hno.
    apply (Hno f); [rewrite E; apply elem_of_app; right; by left|by apply (same_ethernet b0 b)]. }
  rewrite Hc1, Hc2. cbn [andb negb]. unfold E1000_SIZE in *. set (a := l_e1000 L) in *.
  assert (f = g) as -> by (apply (first_unique (ethernet b) functions); [done|by apply (same_first b0 b)]).
  destruct (same_ethernet b0 b g Hb) as [Hreg _]. rewrite <- (Hreg 0x14) in Hbase.
  assert (in_bus g) as Hin by (destruct Hg as (pre & post & E & _); apply elem_functions; rewrite E; apply elem_of_app; right; by left).
  destruct g as [[bus slot] func]. cbn [nic_found].
  destruct (e1000_init_ok a e0 (nic_found b (bus, slot, func) nic0) t0 b1 m (reg_of b (bus, slot, func) 0x14) (List.tl (bar (nic_found b (bus, slot, func) nic0))))
    as (d1 & t1 & m1 & E1 & Hring & _ & Ht1 & Hct1); [done|done|done|done|lia|lia|done|done|apply Hb1|exact Hin|].
  cbn [nic_found] in E1. rewrite E1. cbn [mbind res_bind]. change (0 =? 0) with true. cbv iota. puts_step.
  pose proof (send_ok a d1 m1 [] [] test_packet 14 Hring ltac:(lia) ltac:(cbn; lia)) as (d2 & m2 & E2 & Hring2).
  rewrite E2. cbn [mbind res_bind]. change (0 =? 0) with true. cbv iota. puts_step.
  destruct (Hwire d2 m2) as (d3 & m3 & -> & Hrun). destruct (card_runs a d2 m2 d3 m3 _ _ Hring2 Hrun) as (rest & pend & Hring3).
  pose proof (receive_ok a d3 m3 rest pend rx0 2048 Hring3 ltac:(lia)) as Hr. destruct pend as [|p pend].
  - destruct Hr as [_ ->]. cbn [mbind res_bind]. change (0 <? 0) with false. cbv iota. puts_step. by eexists _, _, _.
  - destruct Hr as (_ & d4 & m4 & -> & _). cbn [mbind res_bind]. destruct (_ <? _); puts_step; by eexists _, _, _.
Qed.

(** A card, and a structure that lies over the tables. *)
Lemma try_nic_overlaps L t (b0 b : B) (m : M) f : term_wf t -> crt_ok t -> same_cfg b0 b -> length (bar nic0) = 6%nat ->
  first_of (ethernet b0) functions f -> clear_of_tables L (l_e1000 L) E1000_SIZE = false -> try_nic wire nic0 e0 rx0 L t b m = Ub.
Proof.
  intros Ht Hc Hb Hbar Hf Ho. unfold try_nic. destruct (find_nic_ok nic0 b (proj1 Hb) Hbar) as (b1 & Hb1 & [(g & Hg & ->)|(Hall & ->)]); cbn [mbind res_bind].
  - change (0 =? 0) with true. cbv iota. puts_step. by rewrite Ho.
  - exfalso. rewrite Forall_forall in Hall. destruct Hf as (pre & post & E & Hf & _).
    apply (Hall f); [rewrite E; apply elem_of_app; right; by left|by apply (same_ethernet b0 b)].
Qed.

Lemma boot_stack_overlaps L : on_boot_stack L -> clear_of_tables L (l_e1000 L) E1000_SIZE = false.
Proof.
  intros [H1 H2]. unfold clear_of_tables, E1000_SIZE in *. apply andb_false_iff. right. unfold apart.
  rewrite (proj2 (Z.leb_gt _ _)), (proj2 (Z.leb_gt _ _)) by lia. done.
Qed.

(** The partitions and the first volume: the server's tree is untouched. *)
Lemma first_volume_ok (k : kernel (fat D)) : fs_inv (k_fs k) -> table_ok (k_parts k) -> Forall part_ok (parts (k_parts k)) ->
  drive_found (fdisk (vol (k_fs k))) -> mounted (k_fs k) = is_mounted (vol (k_fs k)) -> exists f ps,
  first_volume init fuel k = Ok (Kernel (k_term k) (k_ring k) f ps (k_reg k) (k_vm k)) /\
  fs_inv f /\ mounted f = is_mounted (vol f) /\ parts_ok ps.
Proof.
  intros Hf Ht Hp (r & d & Ei & Hd) Hmnt. unfold first_volume. destruct Hd as [Hr|(-> & Hd & Hn)].
  - unfold part_scan. rewrite Ei. cbn [mbind res_bind]. rewrite (proj2 (Z.eqb_neq _ _) Hr). cbn [negb mbind res_bind mret res_ret part_count nparts].
    change (0 <? 0) with false. cbv iota. eexists _, _. split; [reflexivity|]. split; [exact Hf|]. split; [exact Hmnt|].
    destruct Ht as [Hl _]. split; [|exact Hp]. split; [exact Hl|]. cbn. unfold PART_MAX. lia.
  - destruct (part_scan_ok D init (k_parts k) (fdisk (vol (k_fs k))) d Ht Hd Hn Ei) as (ps & d' & -> & Ht' & Hd' & _ & Hp' & Hg).
    cbn [mbind res_bind]. specialize (Hp' Hp). destruct (0 <? part_count ps) eqn:Epc; [|by eexists _, _].
    unfold fs_mount_part, part_lba. cbn [k_parts]. unfold part_get in *. unfold part_count in Epc. zbool.
    rewrite (proj2 (Z.leb_gt (nparts ps) 0)) by lia. change (0 <? 0) with false. cbn [orb].
    destruct Ht' as [Hl' Hn']. destruct (rd_in (parts ps) 0) as (q & -> & Hq); [unfold PART_MAX in *; lia|]. cbn [mbind res_bind mret res_ret].
    assert (0 <= lba q) as Hlba by (rewrite Forall_lookup in Hp'; destruct (Hp' _ _ Hq); lia).
    set (v := set_disk _ _). destruct (fat_mount_any v (lba q) Hd' Hlba) as (r' & v' & E & _ & Hm' & _). cbn [vol_mount boot_volume fat_volume].
    change (vol (set_vol (k_fs k) v)) with v. rewrite E. cbn [mbind res_bind].
    destruct (r' =? 0); cbn [negb]; (eexists _, _; split; [reflexivity|]; split; [exact Hf|]; split; [|done]); cbn [mounted vol set_vol]; [done|].
    by rewrite Hm', Hmnt.
Qed.

(** ** Lemmas: memory *)

Lemma boot_memory L m0 (s : start D P B M) mbi e img F : let m := vm_mem (k_vm (s_kernel s)) in
  statics_ok L m0 s -> boot_info L mbi m e img F ->
  exists pm, pmm_init (l_start L) (l_end L) m (mbi_mmap_addr m mbi) (mbi_mmap_length m mbi) (vm_pmm (k_vm (s_kernel s))) = Ok pm /\
    forall r, length (mods r) = 8%nat -> exists reg pm', exec_init_mods m (mbi_mods_addr m mbi) (mbi_mods_count m mbi) r pm = Ok (reg, pm') /\
      reg_ok reg /\ modules reg !! 0%nat = Some e /\
      load_ready (l_pml4 L) (m_start e) img 1024 (Vmm m pm') (boot_tree (l_pml4 L) (l_pdpt L) (l_pd L)) /\
      3 * pages (all_segs img) + 6 <= Z.of_nat (size (low 1024 pm')).
Proof.
  intros m HS HI. destruct (bi_map _ _ _ _ _ _ HI) as (Hsane & Hov & HF). destruct (so_kernel _ _ _ HS) as ((K1 & K2) & K3 & K4 & K5 & K6 & K7 & K8).
  destruct (pmm_init_ok (l_start L) (l_end L) m (mbi_mmap_addr m mbi) (mbi_mmap_length m mbi) (vm_pmm (k_vm (s_kernel s))) (so_bitmap _ _ _ HS))
    as (pm & E & Hwf & Hfree); [lia|lia|apply load32_range|done|done|].
  exists pm. split; [exact E|]. intros r Hr.
  destruct (exec_init_mods_ok m (mbi_mods_addr m mbi) (mbi_mods_count m mbi) r pm Hwf Hr) as (reg & pm' & E' & Hreg & Hwf' & Hmods & Hfree'); [apply load32_range|].
  exists reg, pm'. split; [exact E'|]. split; [exact Hreg|]. rewrite Hmods. split; [apply (bi_first _ _ _ _ _ _ HI)|].
  assert (e ∈ modules reg) as Hin by (rewrite Hmods; eapply list_elem_of_lookup_2, (bi_first _ _ _ _ _ _ HI)).
  pose proof (ro_mods _ Hreg) as Hok. rewrite Forall_forall in Hok. destruct (Hok e Hin) as ((M1 & M2) & M3 & _).
  assert (forall f, f ∈ free_set pm' -> 256 <= f /\ ~ touches (l_start L) (l_end L) f /\ ~ touches (m_start e) (m_end e) f) as Hused.
  { intros f (((rg & _ & Hrg) & Hk)%Hfree & Hm)%Hfree'. split; [|split; [exact Hk|by apply Hm]]. destruct Hrg as (_ & Hrg & _). unfold FRAME_SIZE in Hrg. lia. }
  pose proof (so_layout _ _ _ HS) as HL. pose proof (so_zero _ _ _ HS) as Hz. pose proof (so_mem _ _ _ HS) as Em. fold m in Em.
  assert (forall t l, lev (boot_tree (l_pml4 L) (l_pdpt L) (l_pd L)) !! t = Some l -> t / FRAME_SIZE ∉ free_set pm') as Htab.
  { intros t l Ht Hf. destruct (Hused _ Hf) as (_ & Hk & _). apply Hk. unfold touches, FRAME_SIZE.
    destruct HL as [[? ?] [? ?] [? ?] ? ? ?].
    apply (boot_lev _ _ _ (so_layout _ _ _ HS)) in Ht as [[-> _]|[[-> _]|(k & Hk4 & -> & _)]].
    - clear -K2 K5 H H0. zdm.
    - clear -K3 K6 H1 H2. zdm.
    - clear -K4 K7 H3 H4 Hk4. zdm. }
  assert (forall v, 0 <= v < 2 ^ 32 -> vmm_phys (l_pml4 L) m v = v) as Hid by (intros v Hv; rewrite Em; by apply boot_identity).
  assert (vm_tree (l_pml4 L) (Vmm m pm') (boot_tree (l_pml4 L) (l_pdpt L) (l_pd L))) as HT.
  { split; [exact Hwf'|]. split; [intros (H & _)%Hused; lia|]. cbn [vm_mem vm_pmm]. rewrite Em. by apply boot_wf_tree. }
  destruct (bi_image _ _ _ _ _ _ HI) as [Himg Hlen].
  split.
  - split.
    + unfold TOTAL. lia.
    + exact HT.
    + change (2 ^ 39) with 549755813888. lia.
    + intros a Ha. destruct (bi_bytes _ _ _ _ _ _ HI a ltac:(lia)) as (Ha0 & Hb & Ho). cbn [vm_mem vm_pmm]. unfold kbyte. cbn [vm_mem].
      rewrite !Hid by (change (2 ^ 32) with 4294967296; lia). split; [lia|]. split; [|exact (conj Ho Hb)].
      intros (_ & _ & Hf)%Hused. apply Hf. unfold touches, FRAME_SIZE. clear -Ha Hlen. zdm.
    + intros f o (_ & Hf)%elem_low Ho. cbn [vm_mem]. apply Hid. change (2 ^ 32) with 4294967296.
      pose proof (shape_cursor _ Hwf') as Hsc. cbn [vm_pmm] in Hf. clear -Hf Ho Hsc. lia.
    + intros sg pg Hs Hpg. split; [|rewrite Hlen; replace (m_start e + (m_end e - m_start e) - 1) with (m_end e - 1) by lia; by eapply bi_apart].
      intros (_ & Hf)%elem_low. pose proof (gi_segs _ Himg) as Hseg. rewrite Forall_forall in Hseg. destruct (Hseg sg Hs) as (_ & _ & H1 & H2).
      unfold USER_MIN, in_seg, seg_lo in *. clear -H1 Hpg Hf. zdm.
  - destruct (bi_frames _ _ _ _ _ _ HI) as [HN HFl].
    assert (cursor pm' = 0) as Hcur by (rewrite (exec_init_cursor _ _ _ _ _ _ _ E'); by eapply init_cursor).
    assert ((list_to_set F : gset Z) ⊆ low 1024 pm') as Hsub.
    { intros f Hf%elem_of_list_to_set. rewrite Forall_forall in HF. destruct (HF f Hf) as (Hlt & Hreg' & Hk & Hmod).
      apply elem_low. rewrite Hcur. split.
      - apply Hfree'. split; [apply Hfree; exact (conj Hreg' Hk)|]. rewrite Hmods. rewrite Forall_forall in Hmod. intros x Hx. exact (Hmod x Hx).
      - destruct Hreg' as (rg & _ & _ & Hge & _). unfold FRAME_SIZE in Hge. lia. }
    apply subseteq_size in Hsub. rewrite size_list_to_set in Hsub by done. lia.
Qed.

(** The machine when the first program starts. *)
Record running (L : layout) (e : prog_mod) (img : list Z) (sp : Z) (s : start D P B M) : Prop := {
  (** the program: its bytes, its stack and its arguments *)
  ru_bytes sg a : sg ∈ all_segs img -> g_vaddr sg <= a < g_vaddr sg + g_memsz sg -> kload (l_pml4 L) (k_vm (s_kernel s)) a = Ok (seg_byte img sg a);
  ru_stack : sp mod 16 = 0 /\ USTACK_BASE <= sp < USTACK_TOP /\ argv_at (l_pml4 L) (k_vm (s_kernel s)) sp [m_name e];
  (** the invariants of the kernel's components *)
  ru_kernel : exists T, term_wf (k_term (s_kernel s)) /\ crt_ok (k_term (s_kernel s)) /\ ring_wf (k_ring (s_kernel s)) /\ fs_inv (k_fs (s_kernel s)) /\
    parts_ok (k_parts (s_kernel s)) /\ reg_ok (k_reg (s_kernel s)) /\ vm_tree (l_pml4 L) (k_vm (s_kernel s)) T /\
    window (l_pml4 L) (k_vm (s_kernel s)) T (prog_mem img);
  ru_volume : mounted (k_fs (s_kernel s)) = is_mounted (vol (k_fs (s_kernel s)));
  (** the processor and the interrupt controllers *)
  ru_segments : segments_ok (l_gdt L) (l_tss L) (l_irq_stack L) (s_tables s) (s_cpu s);
  ru_calls : calls_ok (l_syscall L) (s_cpu s);
  ru_gates : idtr (s_cpu s) = (4095, l_idt L) /\ forall v, 0 <= v < 256 -> vector (idt_image (s_idt s)) 4095 v =
    if v <? 32 then Some (Target 0x08 (l_exception L) 14 0 0) else if v =? 0x21 then Some (Target 0x08 (l_irq1 L) 14 0 0) else None;
  ru_on : s_if s = true;
  ru_keys dc : dec_ok dc -> keys_ready (Keyboard dc (k_ring (s_kernel s))) (s_pics s)
}.

Lemma segments_same gdt_at tss_at stack tb c r entry : segments_ok gdt_at tss_at stack tb c ->
  segments_ok gdt_at tss_at stack tb (syscall_init entry (lidt r c)).
Proof. intros []. by constructor. Qed.

(** The running kernel is the one the system calls keep, when the volume that
    was mounted, if one was, is in order. *)
Lemma running_kernel L e img sp s : running L e img sp s -> (mounted (k_fs (s_kernel s)) = true -> vol_ready fuel (vol (k_fs (s_kernel s)))) ->
  exists T, @kernel_ok _ (boot_volume fuel) (boot_file_volume fuel) (fat_safe_volume fuel) (l_pml4 L) T (prog_mem img) (s_kernel s).
Proof. intros [_ _ (T & H1 & H2 & H3 & H4 & H5 & H6 & H7 & H8) Hm _ _ _ _ _] Hv. exists T. by split. Qed.

(** [kernel_main] up to the test of the network card, and what it does behind it. *)
Lemma kernel_main_until L m0 mbi (s : start D P B M) e img F : statics_ok L m0 s ->
  boot_info L mbi (vm_mem (k_vm (s_kernel s))) e img F ->
  exists t b K, kernel_main init fuel wire nic0 e0 rx0 L MULTIBOOT_BOOTLOADER_MAGIC mbi s = (try_nic wire nic0 e0 rx0 L t b (s_card s) ≫= K) /\
    term_wf t /\ crt_ok t /\ same_cfg (s_bus s) b /\
    forall t' b' cd, term_wf t' -> crt_ok t' -> exists sp s', K (t', b', cd) = Ok (Running (fld img 24 8) sp, s') /\ running L e img sp s'.
Proof.
  intros HS HI. unfold kernel_main. rewrite Z.eqb_refl. cbn [negb]. set (k := s_kernel s) in *. set (m := vm_mem (k_vm k)) in *.
  destruct (boot_memory L m0 s mbi e img F HS HI) as (pm & Epm & Hmods). fold k m in Epm, Hmods.
  rewrite (proj2 (Z.eqb_neq _ _) (bi_flag _ _ _ _ _ _ HI)), Epm. cbn [mbind res_bind].
  pose proof (so_term _ _ _ HS) as Ht0. fold k in Ht0. unfold term_init.
  destruct (term_clear_ok (set_attr (k_term k) 0x0F)) as (t1 & -> & Ht1 & Hc1); [by destruct Ht0|]. cbn [mbind res_bind].
  destruct (pci_scan_ok t1 (s_bus s) Ht1 Hc1 (so_bus _ _ _ HS)) as (t2 & b2 & -> & _ & Hb2 & Ht2 & Hc2). cbn [mbind res_bind].
  pose proof (so_addresses _ _ _ HS) as Haddr. rewrite !Forall_cons in Haddr. destruct Haddr as (A1 & A2 & A3 & A4 & A5 & _).
  destruct (so_gdt _ _ _ HS) as [G1 G2].
  destruct (gdt_install_ok (l_gdt L) (l_tss L) (l_irq_stack L) (s_tables s) (s_cpu s) G1 G2 A1 A2) as (tb & c1 & -> & Hseg & Hmsr & _). cbn [mbind res_bind].
  destruct (so_gates _ _ _ HS) as [I1 I2].
  destruct (vectors_ok (l_idt L) (l_exception L) (l_irq1 L) c1 (s_idt s) I1 I2 A3 A4) as (idt & -> & Hvec); [by rewrite (sg_cs _ _ _ _ _ Hseg)|].
  cbn [mbind res_bind]. rewrite (sg_cs _ _ _ _ _ Hseg) in Hvec. destruct (pic_init_ok (s_pics s) (so_pics _ _ _ HS)) as (Hp & Hpm & Hps).
  destruct (syscall_init_ok (l_syscall L) (lidt (4095, l_idt L) c1) A5) as (Hcalls & _); [cbn [msr lidt]; rewrite Hmsr; apply (so_efer _ _ _ HS)|].
  destruct (so_nodes _ _ _ HS) as [N1 N2]. fold k in N1, N2.
  destruct (fs_init_ok (k_fs k) N1 N2) as (f & Ef & Hf & _ & _ & Hmnt). rewrite Ef. cbn [mbind res_bind]. apply fs_init_vol in Ef.
  destruct (so_unmounted _ _ _ HS) as [U1 U2]. fold k in U1, U2. rewrite U1 in Hmnt. rewrite <- Ef in U2.
  destruct (so_table _ _ _ HS) as [P1 P2]. fold k in P1, P2. pose proof (so_drive _ _ _ HS) as Hdrive. fold k in Hdrive. rewrite <- Ef in Hdrive.
  destruct (first_volume_ok (Kernel t2 (k_ring k) f (k_parts k) (k_reg k) (Vmm m pm)) Hf P1 P2 Hdrive (eq_trans Hmnt (eq_sym U2))) as (f' & ps & -> & Hf' & Hmnt' & Hparts).
  cbn [mbind res_bind k_term k_ring k_fs k_parts k_reg k_vm].
  eexists t2, b2, _. split; [reflexivity|]. split; [exact Ht2|]. split; [exact Hc2|]. split; [exact Hb2|].
  intros t3 b3 cd Ht3 Hc3. cbv beta iota zeta. cbn [with_term k_term k_ring k_fs k_parts k_reg k_vm].
  rewrite (proj2 (Z.ltb_ge (mbi_mods_count m mbi) 1)).
  2: { pose proof (bi_first _ _ _ _ _ _ HI) as Hfst. fold k m in Hfst. destruct (Z.lt_ge_cases (mbi_mods_count m mbi) 1) as [Hlt|]; [|done].
       by rewrite seqZ_nil in Hfst by lia. }
  pose proof (so_mods _ _ _ HS) as Hlen. fold k in Hlen.
  cbn [vm_pmm].
  destruct (Hmods (k_reg k) Hlen) as (reg & pm' & -> & Hreg & He & Hload & Hroom). cbn [mbind res_bind vm_pmm].
  destruct (bi_image _ _ _ _ _ _ HI) as [Himg Hil]. destruct (bi_fuel _ _ _ _ _ _ HI) as [F1 F2].
  assert (mod_ok e) as Hmod by exact (Forall_lookup_1 _ _ _ _ (ro_mods _ Hreg) He).
  destruct (enter_program_ok (l_pml4 L) img 1024 e _ (Vmm m pm') Hmod Hil Himg Hload fuel 0 None reg (Vmm m pm') Hreg He) as (sp & vm & -> & Hbytes & Hal & Hsp & Hargs & T & HT & HW);
    [lia| |exact Hroom|done|done|done|].
  { apply (unmap_range_none _ _ _ _ _ (lr_tree _ _ _ _ _ _ Hload)). intros t Ht.
    apply (boot_lev _ _ _ (so_layout _ _ _ HS)) in Ht as [[_ ?]|[[_ ?]|(? & _ & _ & ?)]]; done. }
  cbn [mbind res_bind mret res_ret]. eexists sp, _. split; [reflexivity|].
  constructor; cbn [s_kernel s_tables s_cpu s_idt s_pics s_if k_term k_ring k_fs k_parts k_reg k_vm].
  - exact Hbytes.
  - split; [exact Hal|]. split; [exact Hsp|exact Hargs].
  - exists T. split; [exact Ht3|]. split; [exact Hc3|]. split; [apply (so_keys _ _ _ HS)|]. split; [exact Hf'|]. split; [exact Hparts|].
    split; [exact Hreg|]. split; [exact HT|exact HW].
  - exact Hmnt'.
  - by apply segments_same.
  - exact Hcalls.
  - split; [done|exact Hvec].
  - done.
  - intros dc Hdc. split; [exact Hdc|]. split; [apply (so_keys _ _ _ HS)|]. split; [exact Hp|]. split; [exact Hpm|]. done.
Qed.

Lemma kernel_main_ok L m0 mbi (s : start D P B M) e img F : statics_ok L m0 s ->
  boot_info L mbi (vm_mem (k_vm (s_kernel s))) e img F -> card_fits L (s_bus s) ->
  exists sp s', kernel_main init fuel wire nic0 e0 rx0 L MULTIBOOT_BOOTLOADER_MAGIC mbi s = Ok (Running (fld img 24 8) sp, s') /\ running L e img sp s'.
Proof.
  intros HS HI Hcard. destruct (kernel_main_until L m0 mbi s e img F HS HI) as (t & b & K & -> & Ht & Hc & Hb & HK).
  destruct (so_locals _ _ _ HS) as [Hbar Hrx].
  destruct (try_nic_ok L t (s_bus s) b (s_card s) Ht Hc Hb Hcard Hbar Hrx) as (t' & b' & cd & -> & Ht' & Hc'). by apply HK.
Qed.

Lemma kernel_main_overlaps L m0 mbi (s : start D P B M) e img F f : statics_ok L m0 s ->
  boot_info L mbi (vm_mem (k_vm (s_kernel s))) e img F -> first_of (ethernet (s_bus s)) functions f -> on_boot_stack L ->
  kernel_main init fuel wire nic0 e0 rx0 L MULTIBOOT_BOOTLOADER_MAGIC mbi s = Ub.
Proof.
  intros HS HI Hf Ho. destruct (kernel_main_until L m0 mbi s e img F HS HI) as (t & b & K & -> & Ht & Hc & Hb & _).
  by rewrite (try_nic_overlaps L t (s_bus s) b (s_card s) f Ht Hc Hb (proj1 (so_locals _ _ _ HS)) Hf (boot_stack_overlaps L Ho)).
Qed.
End spec.

(** ** Properties *)

(** C2. The kernel starts.  From the state the linker and [boot.S] leave and
    with a memory map and a first module that is a good executable,
    [kernel_main] ends by entering that module, with or without a drive: when
    there is no network card, or one that lies where [find_nic] says and whose
    variables do not lie over the page tables.  The program's bytes are at
    their addresses, its stack holds its name, interrupts are on, and every
    component has its invariant: the terminal, the keyboard's buffer, the file
    server, the partitions, the registry, the frames and page tables; the
    segments, the interrupt gates, the controllers and the system call
    registers are the ones [segments_ok], [calls_ok] and [keys_ready] ask for;
    and unless a volume was mounted that is not in order, the kernel is in the
    invariant that the system calls keep.  With a network card, and the
    variables on the stack that [boot.S] sets up, the structure lies over the
    page tables, and [kernel_main] writes over them.  A boot loader that is no
    multiboot loader gets control back at once. *)
Theorem kernel_boots D P B M `{!disk D, !good_disk D, !ports P, !pics P, !pci_ports B, !pci_bus B, !mmio M, !e1000_card M}
  init fuel wire nic0 e0 rx0 L m0 mbi (s : start D P B M) e img F :
  statics_ok init nic0 rx0 L m0 s -> boot_info fuel L mbi (vm_mem (k_vm (s_kernel s))) e img F ->
  (card_fits wire e0 L (s_bus s) ->
    exists sp s', kernel_main init fuel wire nic0 e0 rx0 L MULTIBOOT_BOOTLOADER_MAGIC mbi s = Ok (Running (fld img 24 8) sp, s') /\
    running L e img sp s' /\
    ((mounted (k_fs (s_kernel s')) = true -> vol_ready fuel (vol (k_fs (s_kernel s')))) ->
     exists T, @kernel_ok _ (boot_volume fuel) (boot_file_volume fuel) (fat_safe_volume fuel) (l_pml4 L) T (prog_mem img) (s_kernel s'))) /\
  (forall f, first_of (ethernet (s_bus s)) functions f -> on_boot_stack L ->
    kernel_main init fuel wire nic0 e0 rx0 L MULTIBOOT_BOOTLOADER_MAGIC mbi s = Ub) /\
  (forall magic, magic <> MULTIBOOT_BOOTLOADER_MAGIC -> kernel_main init fuel wire nic0 e0 rx0 L magic mbi s = Ok (Ignored, s)).
Proof.
  intros HS HI. split; [|split].
  - intros Hcard. destruct (kernel_main_ok init fuel wire nic0 e0 rx0 L m0 mbi s e img F HS HI Hcard) as (sp & s' & E & H).
    exists sp, s'. split; [exact E|]. split; [exact H|]. by apply (running_kernel fuel L e img sp).
  - intros f Hf Ho. by eapply kernel_main_overlaps.
  - intros magic Hm. unfold kernel_main. by rewrite (proj2 (Z.eqb_neq _ _) Hm).
Qed.

(** ** Witnesses *)

(** The boot loader's structures at 0x500, one region of 3 MB, the program of
    [ElfLoad.v] at 0x20000 under the name init. *)
Definition wit_boot_mem : mem :=
  store_bytes (store_bytes (store_bytes (store_bytes (store_bytes ∅
    0x500 (le_bytes 4 0x40 ++ replicate 16 0 ++ le_bytes 4 1 ++ le_bytes 4 0x600 ++ replicate 16 0 ++ le_bytes 4 24 ++ le_bytes 4 0x700))
    0x600 (le_bytes 4 0x20000 ++ le_bytes 4 (0x20000 + 124) ++ le_bytes 4 0x680))
    0x680 [105; 110; 105; 116; 0])
    0x700 (le_bytes 4 20 ++ le_bytes 8 0x100000 ++ le_bytes 8 0x300000 ++ le_bytes 4 1))
    0x20000 wit_img.
Definition wit_start_mem : mem := boot_tables 0x10000 0x11000 0x12000 wit_boot_mem.
Definition wit_layout_L : layout := Layout 0x10000 0x1C000 0x10000 0x11000 0x12000 0x1A000 0x1A100 0x1C000 0x1A200 0x1B300 0x1B400 0x1B500 0x11EC8 0x116C8.
Definition wit_start (bus : Z * (Z -> Z)) : start (list (list Z)) (pic * pic * Z) (Z * (Z -> Z)) (Z -> Z) :=
  Start (Kernel wit_term (Ring (replicate 32 0) 0 0) (Fs (nodes wit_fs) 0 false (-1) (Fat [] 0 0 0 0 0 0 0 [] false 2 [wit_mbr]))
           (Table (replicate 4 (PartT 0 0 0)) 0 []) (Registry (replicate 8 (Mod 0 0 [])) 0) (Vmm wit_start_mem pmm_boot))
        wit_tables wit_idt wit_cpu wit_pics bus (fun _ => 0) false.
Definition no_cards : Z * (Z -> Z) := (0, fun _ => 0xFFFFFFFF).
Definition wit_nic : device_s := Device 0 0 0 0 0 0 0 (replicate 6 0).

Lemma load64_bytes_out m a bs b : Mem.disjoint a (Z.of_nat (length bs)) b 8 -> load64 (store_bytes m a bs) b = load64 m b.
Proof.
  revert m a. induction bs as [|x bs IH]; intros m a Hd; [done|]. cbn [store_bytes length] in *. unfold Mem.disjoint in *.
  rewrite load64_store8_out by (unfold Mem.disjoint; lia). apply IH. lia.
Qed.

Lemma wit_zero_boot t i : lev (boot_tree 0x10000 0x11000 0x12000) !! t <> None -> 0 <= i < 512 -> ent wit_boot_mem t i = 0.
Proof.
  intros Ht Hi. destruct (lev _ !! t) as [l|] eqn:E; [|done]. apply wit_lev in E. unfold ent, wit_boot_mem.
  rewrite !load64_bytes_out by (unfold Mem.disjoint; cbn [length app le_bytes replicate]; try change (length wit_img) with 124%nat; lia). reflexivity.
Qed.

Lemma wit_statics bus : @b_ok _ _ mem_bus bus -> @statics_ok _ _ _ _ list_disk list_good_disk sim_pics_ports sim_pics mem_ports mem_bus
  (fun d => Ok (0, d)) wit_nic (replicate 2048 0) wit_layout_L wit_boot_mem (wit_start bus).
Proof.
  intros Hbus. constructor.
  - apply wit_term_wf.
  - split; cbn; unfold BUFSIZE; lia.
  - split; [reflexivity|]. apply Forall_replicate. split; [reflexivity|]. cbn. unfold FILE_MAX. lia.
  - done.
  - split; [split; [reflexivity|cbn; unfold PART_MAX; lia]|]. apply Forall_replicate. split; cbn; lia.
  - done.
  - cbn [wit_start s_kernel k_vm vm_pmm pmm_boot bitmap]. rewrite length_replicate. by apply Z2Nat.id.
  - done.
  - exact wit_layout.
  - exact wit_zero_boot.
  - cbn. unfold PMM_MAX_PHYS. lia.
  - done.
  - split; [done|]. by apply Forall_replicate.
  - vm_compute. split; [discriminate|reflexivity].
  - done.
  - cbn. repeat constructor; lia.
  - split; cbn; lia.
  - exact Hbus.
  - exists 0, [wit_mbr]. split; [done|]. right. split; [done|]. split; [|cbn; lia].
    apply Forall_singleton. split; [reflexivity|]. apply (bool_decide_unpack _). vm_compute. exact I.
  - split; reflexivity.
Qed.

Lemma wit_boot_info : boot_info 10 wit_layout_L 0x500 wit_start_mem (Mod 0x20000 (0x20000 + 124) [105; 110; 105; 116]) wit_img (seqZ 512 20).
Proof.
  assert (take 8 (omap (boot_mod wit_start_mem (mbi_mods_addr wit_start_mem 0x500)) (seqZ 0 (mbi_mods_count wit_start_mem 0x500))) =
    [Mod 0x20000 (0x20000 + 124) [105; 110; 105; 116]]) as Hmods by (vm_compute; reflexivity).
  constructor.
  - vm_compute. discriminate.
  - replace (mmap_entries _ _ _ _) with [MmapEntry 20 0x100000 0x300000 1] by (vm_compute; reflexivity). rewrite Hmods. split; [|split].
    + constructor; [|constructor]. unfold sane. cbn. unfold FRAME_SIZE. lia.
    + repeat constructor.
    + apply Forall_forall. intros f Hf%elem_of_seqZ. split; [lia|]. split; [|split].
      * eexists. split; [by left|]. split; [reflexivity|]. cbn. unfold FRAME_SIZE, PMM_MAX_PHYS. lia.
      * unfold touches, FRAME_SIZE. cbn [l_start l_end wit_layout_L]. intros H. clear -H Hf. zdm.
      * constructor; [|constructor]. unfold touches, FRAME_SIZE. cbn [m_start m_end]. intros H. clear -H Hf. zdm.
  - by rewrite Hmods.
  - right. cbn. lia.
  - split; [exact wit_img_good|reflexivity].
  - cbn [m_start m_end]. intros a Ha. split; [lia|]. split.
    + assert (forallb (fun a => load8 wit_start_mem a =? nth (Z.to_nat (a - 0x20000)) wit_img 0) (seqZ 0x20000 124) = true) as Hall by (vm_compute; reflexivity).
      rewrite forallb_forall in Hall. apply Z.eqb_eq, Hall, list_elem_of_In, elem_of_seqZ. lia.
    + intros t l Ht%wit_lev. clear -Ha Ht. zdm.
  - rewrite wit_segs. intros sg pg ->%list_elem_of_singleton. unfold in_seg. cbn [m_start m_end].
    change (seg_lo _) with 1024. change (seg_hi _) with 1025. intros H1 H2. clear -H1 H2. zdm.
  - split; [apply NoDup_seqZ|]. rewrite wit_segs. vm_compute. discriminate.
  - split; [vm_compute; lia|]. rewrite wit_segs. constructor; [vm_compute; lia|constructor].
Qed.

Lemma wit_first_card : exists f, first_of (@ethernet _ mem_ports mem_bus (0, wit_card)) functions f.
Proof.
  destruct (@find_nic_ok _ mem_ports mem_bus wit_nic (0, wit_card) wit_card_ok eq_refl) as (b' & _ & [(f & Hf & _)|[Hall _]]); [by exists f|].
  exfalso. rewrite Forall_forall in Hall. apply (Hall (0, 3, 0)); [by apply elem_functions|]. vm_compute. split_and!; try done.
Qed.

(** Without a card the program of the module runs; with the card of [Pci.v]
    and the variables on the boot stack the tables are overwritten. *)
Lemma kernel_boots_witness :
  (exists sp s',
    @kernel_main _ _ _ _ list_disk sim_pics_ports mem_ports wit_mmio (fun d => Ok (0, d)) 10 (fun x => x) wit_nic wit_dev (replicate 2048 0)
      wit_layout_L MULTIBOOT_BOOTLOADER_MAGIC 0x500 (wit_start no_cards) = Ok (Running 0x400000 sp, s') /\
    kload 0x10000 (k_vm (s_kernel s')) 0x400002 = Ok 0xEB) /\
  @kernel_main _ _ _ _ list_disk sim_pics_ports mem_ports wit_mmio (fun d => Ok (0, d)) 10 (fun x => x) wit_nic wit_dev (replicate 2048 0)
    wit_layout_L MULTIBOOT_BOOTLOADER_MAGIC 0x500 (wit_start (0, wit_card)) = Ub.
Proof.
  pose proof (fun bus Hb => @kernel_boots _ _ _ _ list_disk list_good_disk sim_pics_ports sim_pics mem_ports mem_bus wit_mmio wit_e1000
    (fun d => Ok (0, d)) 10 (fun x => x) wit_nic wit_dev (replicate 2048 0) wit_layout_L wit_boot_mem 0x500 (wit_start bus)
    (Mod 0x20000 (0x20000 + 124) [105; 110; 105; 116]) wit_img (seqZ 512 20) (wit_statics bus Hb) wit_boot_info) as H. split.
  - destruct (H no_cards) as [Hrun _]; [intros a; cbn; lia|]. destruct Hrun as (sp & s' & E & Hr & _).
    { left. apply Forall_forall. intros [[bus slot] func] _ (Hv & _). by apply Hv. }
    exists sp, s'. split; [exact E|]. assert (Seg 120 0x400000 4 8 true ∈ all_segs wit_img) as Hin by (rewrite wit_segs; by left).
    etransitivity; [exact (ru_bytes _ _ _ _ _ Hr _ 0x400002 Hin ltac:(cbn; lia))|reflexivity].
  - destruct (H (0, wit_card) wit_card_ok) as (_ & Hover & _). destruct wit_first_card as [f Hf]. apply (Hover f Hf).
    split; cbn; unfold E1000_SIZE; lia.
Defined.
